(* ===== verification/_CoqProject ===== *)
-Q . S2P
Prelude.v
Sql.v
PyValue.v
Version.v
Lifecycle.v
Evidence.v
Task.v
Progress.v
Json.v
ContractProps.v
StoreState.v
StoreEvidence.v
Store.v
StoreInv.v
StoreEvolve.v
StoreSteps.v
StoreProps.v
StoreSpec.v
StoreSubmit.v
StoreReclaim.v
StoreQueue.v
Observer.v
Guardian.v
Adapter.v
Evaluation.v
RuntimeConfig.v
World.v
Submission.v
SubmissionProps.v
Runtime.v
RuntimeSteps.v
RuntimeProps.v
Worker.v
WorkerProps.v
Plan.v
PlanExecutor.v
PlanProps.v
PlanCreate.v
PlanService.v
PlanLive.v
Identity.v
IdentityProps.v
Provenance.v
ProvenanceProps.v
Registry.v
RegistryProps.v
Text.v
Router.v
Queries.v
KernelApi.v
Client.v
BundleProps.v
RouterProps.v
KernelApiProps.v
ClientProps.v
UploadProps.v
Migration.v
Host.v
AppBase.v
EvidenceConsole.v
RunConsole.v
DseLab.v
QueryAgent.v
AppProps.v
ConsoleProps.v
DseProps.v
PlanHttp.v
PlanHttpProps.v
Gateway.v
GatewayProps.v
Validate.v
ValidateProps.v
Regex.v
Cycles.v
Rules.v
Guardrails.v
GuardrailProps.v
Plugins.v
PluginProps.v
Assembly.v
