(* ===== verification/Prelude.v ===== *)
(** * ChipEvolve: a verification development of the execution platform

    The repository is a platform that runs EDA tools ("plugins") as supervised
    attempts, keeps their evidence, and serves the result over HTTP.  This library
    translates its Python code into executable definitions and proves what the parts
    promise, alone and together.  Paths below are relative to src/.

    ** The program and the files that model it

    A client (core/client) talks HTTP to the gateway (gateway), whose kernel API
    authenticates the caller against the identity store (core/identity), resolves the
    plugin in the registry (core/registry) and submits a task (contracts) to the
    runtime (core/runtime).  The runtime keeps runs, attempts, leases and evidence in
    one SQLite database with an object store beside it; a worker claims waiting runs,
    stages their inputs, runs the plugin through the process adapter under a guardian,
    has protected results judged by the evaluator (core/evaluator) and settles the
    attempt.  The provenance index (core/provenance), the bundle export and the
    queries read what is stored.  The applications (apps) are clients: consoles, a
    sweep lab, a query agent, and the plan executor, which runs ordered lists of
    tasks.  The guardrails (guardrails) check the source tree itself.

    - Language and shared lemmas: [Prelude] (exceptions, the result and state monads,
      [follows]: every change of a computation stays in a preorder), [Sql] (tables as
      lists of rows, one function per kind of statement), [PyValue] (JSON documents,
      truth, equality, access), [Json] (json.dumps), [Text] (URL and base64 codecs,
      decimal numerals), [Regex] (the regular expressions of the guardrails).
    - contracts/: [Version] (version.py), [Lifecycle] (runtime.py), [Evidence]
      (input.py, resources.py, artifact.py), [Task] (task.py), [Progress]
      (progress.py); what they guarantee is in [ContractProps].
    - core/runtime, store.py: [StoreState] is the schema, a Record per table and the
      state [Store]; [Store] and [StoreEvidence] have one definition per operation of
      RuntimeStore; [StoreInv], [StoreEvolve], [StoreSteps] the invariant, the allowed
      changes and the histories; [StoreProps] (with concrete stores), [StoreSpec],
      [StoreSubmit], [StoreReclaim], [StoreQueue] the theorems.  [Migration] is the
      creation and the migration of the schema, statement by statement.
    - core/runtime, execution: [Observer] (observer.py), [Guardian] (guardian.py),
      [Host] (guardian.py and process_fence.py against the processes of the host),
      [Adapter] (adapter.py), [Evaluation] (contracts/evaluation.py and the
      evaluator's boundary.py), [World] (the host and the draws a worker makes),
      [RuntimeConfig], [Submission], [Runtime] (runtime.py), [Worker] (worker.py),
      with [SubmissionProps], [RuntimeSteps], [RuntimeProps], [WorkerProps].
    - core/runtime, reading: [Queries] (log_query.py, artifact_inventory.py,
      resource_query.py, worker_presence.py, bundle.py) and [BundleProps];
      core/provenance: [Provenance] (index.py) and [ProvenanceProps].
    - core/identity: [Identity] (auth.py), [IdentityProps]; core/registry: [Registry]
      (registry.py), [RegistryProps], [Validate] (validate.py), [ValidateProps].
    - gateway: [Router] (router.py), [KernelApi] (kernel_api.py), with [RouterProps]
      and [KernelApiProps]; [Gateway] (app.py) and [GatewayProps]; [Assembly]
      (bootstrap.py and the two main programs).  core/client: [Client] (client.py),
      and the two ends of the wire together in [ClientProps] and [UploadProps].
    - apps/plan_executor: [Plan] (PlanStore), [PlanExecutor], with [PlanProps],
      [PlanCreate], [PlanService], [PlanLive]; [PlanHttp] and [PlanHttpProps].
    - the other apps: [AppBase] (threads over one client), [EvidenceConsole],
      [RunConsole], [DseLab], [QueryAgent], with [AppProps], [ConsoleProps],
      [DseProps].
    - plugins and examples: [Plugins] (the three adapters) and [PluginProps].
    - guardrails: [Cycles] (the import cycle search), [Rules], [Guardrails] (the
      scans of rules.py) and [GuardrailProps].

    ** How state and effects are modelled

    An operation is a function of a state monad over [result], the values and the
    exceptions; a dataclass is a Record with the dynamic fields kept as JSON values.
    A database state is its tables; BEGIN IMMEDIATE to COMMIT is [transaction], which
    restores the tables when the body raises.  Where the code reads in one statement
    and writes in a later one, what other connections commit in between is an argument
    ([others]), and during an attempt the host may take store steps of its own at every
    wake-up of the guardian.  The guardian and the fence see the host through a history
    of what they did so far, so that anything may happen between two looks.  The kernel
    handles requests one at a time ([_handle]), each as one computation on its state;
    the applications' requests are programs whose single steps are interleaved.
    Components know each other through classes: [ManifestResolver] (registry),
    [AdapterLaws] and [ProtectedEvaluator] (adapter and evaluator), [Executor] (what a
    worker knows of the runtime), [PlanKernel] (what the plan executor knows of the
    kernel), [AppClient] (what an application knows of the client); the client knows
    the service as a function [wire], which [kernel_wire] implements with the router
    and the API.

    ** What the theorems show

    - The store: [store_invariant] and [store_history] for all reachable stores, the
      functional behaviour of admission, transitions, finishing, retries, idempotent
      submission, reclaiming (also under interference) and the claim queries; a
      migration that is killed can be taken up again ([migration_restartable]).
    - Execution: an attempt that was started is settled whatever happens
      ([execute_once_settles]), everything a worker does is a history of store
      operations ([execute_once_steps]), staged inputs are checked against the text
      measured at submission ([inputs_as_submitted]), the guardian's outcomes, deadline
      and process tree, what a fence and a termination signal and what they leave
      ([fence_guards], [tree_terminated]), what the adapter believes and which
      artifacts and verdicts are admissible; a worker's scan starves nobody and its
      pool is bounded.
    - Plans run in order, complete with a kernel that lets them, and are their
      callers' own over HTTP ([plans_private]).
    - Identity: its invariant, permanent ownership, the life of a session, bounded
      allowances.  Registry: what is resolved was reviewed, and the standalone
      validator decides as the platform does ([validator_speaks_for_platform]).
    - Reading: pages, lineage and graphs against reference definitions; a bundle is
      complete and verified.
    - HTTP: requests are dispatched to the most specific template; whatever arrives
      changes the two stores by their own operations only ([requests_by_operations]);
      callers are isolated, submissions and listings are their callers' own
      ([callers_isolated], [submission_owned], [listing_isolated]); applications never
      shadow the kernel ([kernel_not_shadowed]); what a start puts together is pinned
      ([kernel_assembled]).  From the client: paths reach the handlers meant, downloads
      end with the registered bytes, uploads in parts become the input they are parts
      of.
    - Applications: the query agent speaks with the token of the request it serves in
      every interleaving, the consoles do not ([agent_speaks_for_callers],
      [consoles_share_token]); sweeps are recorded and compared in full
      ([comparison_complete]).
    - The shipped adapters leave results the platform reads ([adapters_answer]); the
      guardrails are clean exactly when what they forbid is absent
      ([kernel_packages_acyclic] and the rest of [GuardrailProps]).
    Every theorem with hypotheses has a witness, evaluated on a concrete store, world,
    kernel, host or client.

    ** Fuel and bounds

    Loops whose end depends on the state take fuel, and a theorem says how much is
    enough: a worker's scan of the queue, twice the number of stages ([cycle_ends]),
    and twice the runs before the one it looks for ([scan_not_starved]); the process
    tree, one step for each process ([process_tree_complete]); counting runs, one page
    for every 500 ([runs_paged]); a download, its size over the part size
    ([artifact_downloaded], which also shows that with a file shorter than its record
    no fuel is enough); the cycle search, twice the number of packages ([cycle_found]);
    a walk of a syntax tree, its depth; the fence's wait, 26 turns of 20 ms for half a
    second ([fence_guards]); a termination, its grace period over its pause
    ([tree_terminated]).  Guardian loops run over the wake-ups they are given
    ([deadline_enforced]).  Integers are Python's, unbounded; floats are binary64.

    ** Parameters

    SHA-256, PBKDF2, json.loads, float.__repr__, the decoding of UTF-8, the ZIP
    format, the resolution of paths, glob, the directory listings of the registry,
    ast.parse, the commands an adapter runs, the statistics of floats, one HTTP fetch,
    and the operating system (processes, signals, /proc, clocks) are parameters.
    Generated ids, tokens, salts and times are drawn from the counter of [World] or
    are arguments.  Nothing is assumed of them except where a theorem says so: a
    theorem about a session or an upload bounds the readings of the clock its own
    requests make, and no others.

    ** Conventions

    Texts of messages are tags.  Times are microseconds.  Stored JSON keeps the order
    of its items, except in the plan store, which sorts its keys as the code does.
    Characters have 8 bits; in [Text], [Router], [KernelApi] and [Client] a string is
    its UTF-8 bytes.  Documents cross the wire as values, measured by their printed
    text.  [id_work] of the identity store counts derived iterations and is no column.

    ** Not modelled

    The command lines (argument parsing, printing, signal handlers), sockets and
    header lines, the scaffolding of new applications (tools/new_app.py), the smoke
    scripts and tests, the frontends, logging, the downstream line consumer of the
    observer, and the evidence record beside a verdict. *)

From stdpp Require Export base tactics list option strings relations.
From Stdlib Require Export ZArith Lia.
From stdpp Require Export sorting.

Lemma forallb_elem {A} (p : A → bool) l : forallb p l = true ↔ ∀ x, x ∈ l → p x = true.
Proof. rewrite forallb_forall. by setoid_rewrite list_elem_of_In. Qed.

(** ** Exceptions and the two monads *)

(** The exception classes the modelled code raises.  Messages are kept only as a
    short tag: no modelled code inspects a message. *)
Inductive exn :=
| ContractError (what : string)
| ValueError (what : string)
| TypeError (what : string)
| KeyError (what : string)
| RuntimeStoreError (what : string)
| InvalidTransition (what : string)
| IntegrityError (what : string)
| InputStagingError (what : string)
| ResourceLimitsUnsupported (what : string)
| AdapterProtocolError (what : string)
| RegistryError (what : string)
| EvaluationError (what : string)
| PlanError (what : string) (status : Z)
| KernelError (what : string) (status : option Z)
| KernelUnavailable (what : string)
| HttpError (status : Z) (what : string)
| ConsoleError (status : Z) (what : string)
| LabError (status : Z) (what : string)
| QueryError (status : Z) (what : string)
| OtherError (what : string).

#[export] Instance exn_eq_dec : EqDecision exn.
Proof. solve_decision. Defined.

(** [except RuntimeStoreError]: [InvalidTransition] is a subclass of it. *)
Definition is_store_error (e : exn) : bool :=
  match e with RuntimeStoreError _ | InvalidTransition _ => true | _ => false end.

(** [except InvalidTransition]. *)
Definition is_invalid_transition (e : exn) : bool :=
  match e with InvalidTransition _ => true | _ => false end.

(** [except ValueError]: [ContractError] is a subclass of it. *)
Definition is_value_error (e : exn) : bool :=
  match e with ValueError _ | ContractError _ => true | _ => false end.

(** [except KernelError]: [KernelUnavailable] is a subclass of it. *)
Definition is_kernel_error (e : exn) : bool :=
  match e with KernelError _ _ | KernelUnavailable _ => true | _ => false end.

(** A Python call either returns or raises. *)
Inductive result (A : Type) :=
| Ok (a : A)
| Err (e : exn).
Arguments Ok {A} a.
Arguments Err {A} e.

#[export] Instance result_ret : MRet result := λ A a, Ok a.
#[export] Instance result_bind : MBind result :=
  λ A B f m, match m with Ok a => f a | Err e => Err e end.
#[export] Instance result_fmap : FMap result :=
  λ A B f m, match m with Ok a => Ok (f a) | Err e => Err e end.

#[export] Instance result_eq_dec {A} `{EqDecision A} : EqDecision (result A).
Proof. solve_decision. Defined.

Definition is_Ok {A} (m : result A) : bool :=
  match m with Ok _ => true | Err _ => false end.

(** [if b: raise e] as a statement. *)
Definition raise_when (b : bool) (e : exn) : result unit :=
  if b then Err e else Ok tt.

(** [x if x is not None else raise e]. *)
Definition of_option {A} (e : exn) (o : option A) : result A :=
  match o with Some a => Ok a | None => Err e end.

(** A loop that stops at the first exception. *)
Fixpoint mapM_result {A B} (f : A → result B) (l : list A) : result (list B) :=
  match l with
  | [] => Ok []
  | x :: l' => match f x with
               | Err e => Err e
               | Ok y => match mapM_result f l' with
                         | Err e => Err e
                         | Ok ys => Ok (y :: ys)
                         end
               end
  end.

Definition iterM_result {A} (f : A → result unit) (l : list A) : result unit :=
  _ ← mapM_result f l; Ok tt.

(** Code that also changes a store: the store survives an exception, so a raise
    does not undo what was written before it. *)
Definition st (S A : Type) : Type := S → result A * S.

#[export] Instance st_ret {S} : MRet (st S) := λ A a s, (Ok a, s).
#[export] Instance st_bind {S} : MBind (st S) :=
  λ A B f m s, match m s with (Ok a, s') => f a s' | (Err e, s') => (Err e, s') end.

Definition raise {S A} (e : exn) : st S A := λ s, (Err e, s).
Definition gets {S A} (f : S → A) : st S A := λ s, (Ok (f s), s).
Definition modify {S} (f : S → S) : st S unit := λ s, (Ok tt, f s).
Definition lift {S A} (m : result A) : st S A := λ s, (m, s).

(** [try: m / except <classes of p>: h]. *)
Definition catch {S A} (m : st S A) (p : exn → bool) (h : exn → st S A) : st S A :=
  λ s, match m s with
       | (Err e, s') => if p e then h e s' else (Err e, s')
       | r => r
       end.

Fixpoint mapM_st {S A B} (f : A → st S B) (l : list A) : st S (list B) :=
  match l with
  | [] => mret []
  | x :: l' => y ← f x; ys ← mapM_st f l'; mret (y :: ys)
  end.

Definition iterM_st {S A} (f : A → st S unit) (l : list A) : st S unit :=
  _ ← mapM_st f l; mret tt.

(** ** Equations of the monads *)

Lemma bind_Ok {A B} (m : result A) (f : A → result B) b :
  (m ≫= f) = Ok b ↔ ∃ a, m = Ok a ∧ f a = Ok b.
Proof. destruct m; simpl; naive_solver. Qed.

Lemma raise_when_Ok b e u : raise_when b e = Ok u ↔ b = false.
Proof. destruct b, u; simpl; naive_solver. Qed.

Lemma of_option_Ok {A} e (o : option A) a : of_option e o = Ok a ↔ o = Some a.
Proof. destruct o; simpl; naive_solver. Qed.

Lemma mapM_result_Ok {A B} (f : A → result B) l ys :
  mapM_result f l = Ok ys ↔ Forall2 (λ x y, f x = Ok y) l ys.
Proof.
  revert ys; induction l as [|x l IH]; intros ys; simpl.
  - split; [intros [= <-]; constructor | by inversion 1].
  - split.
    + repeat case_match; intros [= <-]. constructor; [done|]. by apply IH.
    + inversion 1 as [|? y ? ys' Hx Hl]; subst. apply IH in Hl. by rewrite Hx, Hl.
Qed.

Lemma mapM_result_elem_r {A B} (f : A → result B) l ys y :
  mapM_result f l = Ok ys → y ∈ ys → ∃ x, x ∈ l ∧ f x = Ok y.
Proof.
  rewrite mapM_result_Ok. induction 1 as [|x z l ys Hx _ IH]; [by intros ?%not_elem_of_nil|].
  intros [-> |Hy]%elem_of_cons; [exists x; split; [left|done]|].
  destruct (IH Hy) as (x' & ? & ?). exists x'. split; [by right|done].
Qed.

Lemma elem_of_concat {A} (x : A) ls : x ∈ concat ls ↔ ∃ l, l ∈ ls ∧ x ∈ l.
Proof. rewrite list_elem_of_In, in_concat. by setoid_rewrite list_elem_of_In. Qed.

Lemma mapM_result_total {A B} (f : A → result B) (g : A → B) l :
  (∀ x, f x = Ok (g x)) → mapM_result f l = Ok (g <$> l).
Proof. intros H. apply mapM_result_Ok. induction l; csimpl; constructor; done. Qed.

Lemma mapM_result_ext {A B C} (f : A → result B) (g : B → result C) (h : A → C) l ys :
  mapM_result f l = Ok ys → (∀ x y, x ∈ l → f x = Ok y → g y = Ok (h x)) →
  mapM_result g ys = Ok (h <$> l).
Proof.
  rewrite mapM_result_Ok. intros H Hg. apply mapM_result_Ok. induction H as [|x y l ys Hxy _ IH]; csimpl; constructor.
  - apply (Hg x); [left|done].
  - apply IH. intros; apply (Hg x0); [by right|done].
Qed.

Lemma concat_bind {A B} (f : A → list B) (l : list A) : concat (f <$> l) = x ← l; f x.
Proof. induction l as [|x l IH]; csimpl; [done|]. by rewrite IH. Qed.

Lemma Ok_inj {A} (a b : A) : Ok a = Ok b → a = b.
Proof. by intros [=]. Qed.

Lemma mapM_result_length {A B} (f : A → result B) l ys :
  mapM_result f l = Ok ys → length ys = length l.
Proof. intros H%mapM_result_Ok. symmetry. by eapply Forall2_length. Qed.

Lemma iterM_result_Ok {A} (f : A → result unit) l u :
  iterM_result f l = Ok u ↔ Forall (λ x, f x = Ok tt) l.
Proof.
  unfold iterM_result. rewrite bind_Ok. split.
  - intros (us & H%mapM_result_Ok & _). induction H as [|? [] ? ? ? ? IH]; auto.
  - intros H. exists (replicate (length l) tt). split; [|by destruct u].
    apply mapM_result_Ok. induction H; simpl; auto.
Qed.

Lemma mapM_result_fmap_id {A B} (g : B → A) (f : A → result B) l :
  (∀ x, x ∈ l → f (g x) = Ok x) → mapM_result f (g <$> l) = Ok l.
Proof.
  intros H. apply mapM_result_Ok. induction l as [|x l IH]; simpl; constructor.
  - apply H. left.
  - apply IH. intros y Hy. apply H. by right.
Qed.

Lemma bind_run {S A B} (m : st S A) (f : A → st S B) s :
  (m ≫= f) s = match m s with (Ok a, s') => f a s' | (Err e, s') => (Err e, s') end.
Proof. done. Qed.

Lemma bind_st_Ok {S A B} (m : st S A) (f : A → st S B) s b s' :
  (m ≫= f) s = (Ok b, s') ↔ ∃ a s1, m s = (Ok a, s1) ∧ f a s1 = (Ok b, s').
Proof.
  rewrite bind_run. destruct (m s) as [[a|e] s1]; naive_solver.
Qed.

Lemma lift_Ok {S A} (m : result A) (s : S) a s' : lift m s = (Ok a, s') ↔ m = Ok a ∧ s' = s.
Proof. unfold lift. destruct m; naive_solver. Qed.

Lemma gets_Ok {S A} (f : S → A) s a s' : gets f s = (Ok a, s') ↔ a = f s ∧ s' = s.
Proof. unfold gets. naive_solver. Qed.

Lemma modify_Ok {S} (f : S → S) s u s' : modify f s = (Ok u, s') ↔ s' = f s.
Proof. unfold modify. destruct u. naive_solver. Qed.

Lemma mret_st_Ok {S A} (a b : A) (s s' : S) : (mret a : st S A) s = (Ok b, s') ↔ b = a ∧ s' = s.
Proof. unfold mret, st_ret. naive_solver. Qed.

(** [BEGIN IMMEDIATE ... COMMIT], with [ROLLBACK] and a re-raise on an exception:
    after a raise the database is what it was before BEGIN. *)
Definition transaction {S A} (m : st S A) : st S A :=
  λ s, match m s with
       | (Ok a, s') => (Ok a, s')
       | (Err e, _) => (Err e, s)
       end.

Lemma transaction_Ok {S A} (m : st S A) s a s' :
  transaction m s = (Ok a, s') ↔ m s = (Ok a, s').
Proof. unfold transaction. destruct (m s) as [[?|?] ?]; naive_solver. Qed.

Lemma transaction_Err {S A} (m : st S A) s e s' :
  transaction m s = (Err e, s') → s' = s.
Proof. unfold transaction. destruct (m s) as [[?|?] ?]; naive_solver. Qed.

(** A transaction that raised did nothing; one that returned did its body. *)
Lemma transaction_inv {S A} (m : st S A) s r s' :
  transaction m s = (r, s') → (∃ a, r = Ok a ∧ m s = (Ok a, s')) ∨ (∃ e, r = Err e ∧ s' = s).
Proof. unfold transaction. destruct (m s) as [[?|?] ?]; intros [= <- <-]; eauto. Qed.

(** An invariant of every step is an invariant of the program. *)
Definition keeps {S A} (I : S → Prop) (m : st S A) : Prop :=
  ∀ s r s', I s → m s = (r, s') → I s'.

Lemma keeps_bind {S A B} (I : S → Prop) (m : st S A) (f : A → st S B) :
  keeps I m → (∀ a, keeps I (f a)) → keeps I (m ≫= f).
Proof.
  intros Hm Hf s r s' Hs. rewrite bind_run. destruct (m s) as [[a|e] s1] eqn:E.
  - apply Hf. by eapply Hm.
  - intros [= _ <-]. by eapply Hm.
Qed.

Lemma keeps_pure {S A} (I : S → Prop) (m : st S A) : (∀ s, snd (m s) = s) → keeps I m.
Proof. intros H s r s' Hs E. specialize (H s). rewrite E in H. by subst. Qed.

Lemma keeps_modify {S} (I : S → Prop) (f : S → S) : (∀ s, I s → I (f s)) → keeps I (modify f).
Proof. intros H s r s' Hs [= _ <-]. by apply H. Qed.

Lemma keeps_catch {S A} (I : S → Prop) (m : st S A) p h :
  keeps I m → (∀ e, keeps I (h e)) → keeps I (catch m p h).
Proof.
  intros Hm Hh s r s' Hs. unfold catch. destruct (m s) as [[a|e] s1] eqn:E.
  - intros [= _ <-]. by eapply Hm.
  - destruct (p e); [|intros [= _ <-]; by eapply Hm]. apply Hh. by eapply Hm.
Qed.

Lemma keeps_mapM {S A B} (I : S → Prop) (f : A → st S B) l :
  (∀ x, x ∈ l → keeps I (f x)) → keeps I (mapM_st f l).
Proof.
  induction l as [|x l IH]; intros H; simpl; [by apply keeps_pure|].
  apply keeps_bind; [apply H; left|]. intros y. apply keeps_bind; [|intros; by apply keeps_pure].
  apply IH. intros x' Hx. apply H. by right.
Qed.

Lemma keeps_iterM {S A} (I : S → Prop) (f : A → st S unit) l :
  (∀ x, x ∈ l → keeps I (f x)) → keeps I (iterM_st f l).
Proof. intros H. apply keeps_bind; [by apply keeps_mapM|]. intros; by apply keeps_pure. Qed.

(** A program whose effect on the state, whatever it returns, is a step of [R]. *)
Definition follows {S A} (R : S → S → Prop) (m : st S A) : Prop := ∀ s r s', m s = (r, s') → R s s'.

Section follows.
Context {S : Type} (R : S → S → Prop) `{!PreOrder R}.

Lemma follows_pure {A} (m : st S A) : (∀ s, snd (m s) = s) → follows R m.
Proof. intros H s r s' E. specialize (H s). rewrite E in H. simpl in H. by subst. Qed.

Lemma follows_modify f : (∀ s, R s (f s)) → follows R (modify f).
Proof. intros H s r s' [= _ <-]. apply H. Qed.

Lemma follows_bind {A B} (m : st S A) (f : A → st S B) :
  follows R m → (∀ a, follows R (f a)) → follows R (m ≫= f).
Proof.
  intros Hm Hf s r s'. rewrite bind_run. destruct (m s) as [[a|e] s1] eqn:E.
  - intros H. etrans; [by eapply Hm|by eapply Hf].
  - intros [= _ <-]. by eapply Hm.
Qed.

Lemma follows_catch {A} (m : st S A) p h :
  follows R m → (∀ e, follows R (h e)) → follows R (catch m p h).
Proof.
  intros Hm Hh s r s'. unfold catch. destruct (m s) as [[a|e] s1] eqn:E.
  - intros [= _ <-]. by eapply Hm.
  - destruct (p e); [|intros [= _ <-]; by eapply Hm]. intros H. etrans; [by eapply Hm|by eapply Hh].
Qed.

Lemma follows_mapM {A B} (f : A → st S B) l :
  (∀ x, x ∈ l → follows R (f x)) → follows R (mapM_st f l).
Proof.
  induction l as [|x l IH]; intros H; simpl; [by apply follows_pure|].
  apply follows_bind; [apply H; left|]. intros y. apply follows_bind; [|intros; by apply follows_pure].
  apply IH. intros x' Hx. apply H. by right.
Qed.

Lemma follows_iterM {A} (f : A → st S unit) l :
  (∀ x, x ∈ l → follows R (f x)) → follows R (iterM_st f l).
Proof. intros H. apply follows_bind; [by apply follows_mapM|]. intros; by apply follows_pure. Qed.
End follows.

(** ** Tactics *)

(** Split a hypothesis or a goal on the first [match] or [if] in it. *)
Ltac split_match :=
  match goal with
  | |- context [match ?x with _ => _ end] => destruct x eqn:?
  | H : context [match ?x with _ => _ end] |- _ => destruct x eqn:?
  end.

(** Take apart [Ok]-hypotheses of the result monad. *)
Ltac invert_ok :=
  repeat match goal with
  | H : (_ ≫= _) = Ok _ |- _ => apply bind_Ok in H as (? & ? & ?)
  | H : raise_when _ _ = Ok _ |- _ => apply raise_when_Ok in H
  | H : of_option _ _ = Ok _ |- _ => apply of_option_Ok in H
  | H : Ok _ = Ok _ |- _ => injection H as H; try subst
  | H : Err _ = Ok _ |- _ => discriminate H
  | H : iterM_result _ _ = Ok _ |- _ => apply iterM_result_Ok in H
  | u : unit |- _ => destruct u
  end.

(** Boolean connectives, and [bool_decide] of a decidable proposition. *)
Ltac bool_simpl :=
  repeat match goal with
  | H : andb _ _ = true |- _ => apply andb_true_iff in H as [? ?]
  | H : orb _ _ = false |- _ => apply orb_false_iff in H as [? ?]
  | H : negb _ = true |- _ => apply negb_true_iff in H
  | H : negb _ = false |- _ => apply negb_false_iff in H
  | H : bool_decide _ = true |- _ => apply bool_decide_eq_true in H
  | H : bool_decide _ = false |- _ => apply bool_decide_eq_false in H
  end.

(** Take apart a run [m s = (Ok a, s')] of the state monad, statement by
    statement, up to the first conditional. *)
Ltac invert_st :=
  repeat match goal with
  | H : (_ ≫= _) _ = (Ok _, _) |- _ => apply bind_st_Ok in H as (? & ? & ? & ?)
  | H : lift _ _ = (Ok _, _) |- _ => apply lift_Ok in H as [? ->]
  | H : gets _ _ = (Ok _, _) |- _ => apply gets_Ok in H as [? ->]; try subst
  | H : modify _ _ = (Ok _, _) |- _ => apply modify_Ok in H as ->
  | H : mret _ _ = (Ok _, _) |- _ => apply mret_st_Ok in H as [? ->]; try subst
  | H : transaction _ _ = (Ok _, _) |- _ => rewrite transaction_Ok in H
  | H : raise _ _ = (Ok _, _) |- _ => discriminate H
  | H : (Err _, _) = (Ok _, _) |- _ => discriminate H
  | H : Some _ = None |- _ => discriminate H
  | H : None = Some _ |- _ => discriminate H
  | H : Some _ = Some _ |- _ => injection H as H; try subst
  | H : (Ok _, _) = (Ok _, _) |- _ => injection H as H; try subst
  end; invert_ok; unfold id in *.

(** Run the straight-line statements of a program on a known state. *)
Ltac run_st H :=
  cbv beta iota zeta delta [gets modify lift mbind st_bind mret st_ret raise id] in H.
