(* ===== verification/Sql.v ===== *)
(** * Tables: the SQLite statements the stores issue, on lists of rows

    A table is the list of its rows in rowid order.  [sel], [fetchone], [upd],
    [del] and [ins] are SELECT, SELECT followed by [fetchone], UPDATE, DELETE and
    INSERT; [order_by] is ORDER BY on one column, stable on ties.  The lemmas here
    are what every store file reasons with. *)

From S2P Require Export Prelude.

Section tables.
Context {R : Type}.
Implicit Types (P Q : R → bool) (f : R → R) (t : list R) (r : R).

Definition sel P t : list R := List.filter P t.
Definition fetchone P t : option R := List.find P t.
Definition upd P f t : list R := (λ r, if P r then f r else r) <$> t.
Definition rowcount P t : nat := length (sel P t).
Definition del P t : list R := List.filter (λ r, negb (P r)) t.
Definition ins r t : list R := t ++ [r].
Definition has_row P t : bool := List.existsb P t.

(** Sum of an integer column: [COALESCE(SUM(col), 0)]. *)
Definition sum_col (c : R → Z) t : Z := foldr (λ r acc, (c r + acc)%Z) 0%Z t.
(** [COALESCE(MAX(col), 0)] for a column of positive numbers. *)
Definition max_col (c : R → Z) t : Z := foldr (λ r acc, Z.max (c r) acc) 0%Z t.

(** [ORDER BY key]. *)
Fixpoint insert_by (key : R → Z) r t : list R :=
  match t with
  | [] => [r]
  | r' :: t' => if (key r <=? key r')%Z then r :: t else r' :: insert_by key r t'
  end.
Definition order_by (key : R → Z) t : list R := foldr (insert_by key) [] t.

(** [LIMIT n OFFSET k]. *)
Definition limit_offset (n k : nat) t : list R := take n (drop k t).

(** ** Membership *)

Lemma elem_of_sel P t r : r ∈ sel P t ↔ r ∈ t ∧ P r = true.
Proof. unfold sel. rewrite !list_elem_of_In. apply filter_In. Qed.

Lemma sel_nothing P t : (∀ r, r ∈ t → P r = false) → sel P t = [].
Proof.
  unfold sel. induction t as [|r t IH]; intros H; simpl; [done|]. rewrite (H r) by left.
  apply IH. intros r' Hr. apply H. by right.
Qed.
Lemma sel_everything P t : (∀ r, r ∈ t → P r = true) → sel P t = t.
Proof.
  unfold sel. induction t as [|r t IH]; intros H; simpl; [done|]. rewrite (H r) by left.
  f_equal. apply IH. intros r' Hr. apply H. by right.
Qed.

Lemma elem_of_del P t r : r ∈ del P t ↔ r ∈ t ∧ P r = false.
Proof.
  unfold del. rewrite !list_elem_of_In, filter_In, negb_true_iff. done.
Qed.

Lemma elem_of_upd P f t r :
  r ∈ upd P f t ↔ ∃ r0, r0 ∈ t ∧ r = if P r0 then f r0 else r0.
Proof. unfold upd. rewrite list_elem_of_fmap. naive_solver. Qed.

Lemma elem_of_ins r' t r : r ∈ ins r' t ↔ r ∈ t ∨ r = r'.
Proof. unfold ins. rewrite elem_of_app, list_elem_of_singleton. done. Qed.

(** ** One row *)

Lemma fetchone_Some P t r : fetchone P t = Some r → r ∈ t ∧ P r = true.
Proof. intros H. apply find_some in H as [H ?]. by rewrite list_elem_of_In. Qed.

Lemma fetchone_None P t : fetchone P t = None ↔ ∀ r, r ∈ t → P r = false.
Proof.
  split.
  - intros H r Hr%list_elem_of_In. by eapply find_none.
  - intros H. induction t as [|r t IH]; simpl; [done|].
    rewrite (H r) by left. apply IH. intros ??. apply H. by right.
Qed.

Lemma fetchone_ext P Q t :
  (∀ r, r ∈ t → P r = Q r) → fetchone P t = fetchone Q t.
Proof.
  induction t as [|r t IH]; intros H; simpl; [done|].
  rewrite (H r) by left. case_match; [done|]. apply IH. intros ??. apply H. by right.
Qed.

Lemma fetchone_ins P r t :
  fetchone P (ins r t) =
    match fetchone P t with Some r' => Some r' | None => if P r then Some r else None end.
Proof. unfold ins. induction t as [|r' t IH]; simpl; [done|]. by destruct (P r'). Qed.

(** An UPDATE that does not touch the columns a query tests. *)
Lemma fetchone_upd P Q f t :
  (∀ r, r ∈ t → P r = true → Q (f r) = Q r) →
  fetchone Q (upd P f t) = (λ r, if P r then f r else r) <$> fetchone Q t.
Proof.
  induction t as [|r t IH]; intros H; simpl; [done|].
  assert (Q (if P r then f r else r) = Q r) as ->.
  { destruct (P r) eqn:E; [apply H; [left|done]|done]. }
  case_match; [done|]. apply IH. intros ???. apply H; [by right|done].
Qed.

Lemma fetchone_del_other P Q t :
  (∀ r, r ∈ t → Q r = true → P r = false) → fetchone Q (del P t) = fetchone Q t.
Proof.
  unfold del. induction t as [|r t IH]; intros H; simpl; [done|].
  assert (Hr := H r ltac:(left)).
  destruct (Q r) eqn:EQ.
  - rewrite Hr by done. simpl. by rewrite EQ.
  - destruct (P r); simpl; [|rewrite EQ]; apply IH; intros ???; (apply H; [by right|done]).
Qed.

Lemma has_row_true P t : has_row P t = true ↔ ∃ r, r ∈ t ∧ P r = true.
Proof.
  unfold has_row. rewrite existsb_exists. by setoid_rewrite list_elem_of_In.
Qed.

Lemma has_row_false P t : has_row P t = false ↔ ∀ r, r ∈ t → P r = false.
Proof.
  rewrite <-not_true_iff_false, has_row_true. split.
  - intros H r Hr. apply not_true_iff_false. naive_solver.
  - intros H (r & Hr & ?). specialize (H r Hr). congruence.
Qed.

(** ** Sets of rows *)

Lemma sel_ins P r t : sel P (ins r t) = sel P t ++ (if P r then [r] else []).
Proof. unfold sel, ins. rewrite List.filter_app. simpl. by destruct (P r). Qed.

Lemma sel_upd P Q f t :
  (∀ r, r ∈ t → P r = true → Q (f r) = Q r) →
  sel Q (upd P f t) = upd P f (sel Q t).
Proof.
  unfold sel, upd. induction t as [|r t IH]; intros H; csimpl; [done|].
  assert (Q (if P r then f r else r) = Q r) as ->.
  { destruct (P r) eqn:E; [apply H; [left|done]|done]. }
  rewrite IH by (intros ???; apply H; [by right|done]). by destruct (Q r).
Qed.

Lemma upd_none P f t : (∀ r, r ∈ t → P r = false) → upd P f t = t.
Proof.
  unfold upd. induction t as [|r t IH]; intros H; csimpl; [done|].
  rewrite (H r) by left. f_equal. apply IH. intros ??. apply H. by right.
Qed.

Lemma fmap_upd_key {K} (key : R → K) P f t :
  (∀ r, r ∈ t → P r = true → key (f r) = key r) → key <$> upd P f t = key <$> t.
Proof.
  unfold upd. induction t as [|r t IH]; intros H; csimpl; [done|].
  rewrite IH by (intros ???; apply H; [by right|done]). f_equal.
  destruct (P r) eqn:E; [apply H; [left|done]|done].
Qed.

Lemma fmap_ins {K} (key : R → K) r t : key <$> ins r t = (key <$> t) ++ [key r].
Proof. unfold ins. by rewrite fmap_app. Qed.

Lemma sum_col_ins c r t : sum_col c (ins r t) = (sum_col c t + c r)%Z.
Proof. unfold sum_col, ins. induction t; simpl; lia. Qed.

Lemma sum_col_del_le c P t :
  (∀ r, r ∈ t → 0 ≤ c r)%Z → (sum_col c (del P t) ≤ sum_col c t)%Z.
Proof.
  unfold sum_col, del. induction t as [|r t IH]; intros H; simpl; [done|].
  assert (0 ≤ c r)%Z by (apply H; left).
  assert (IH' := IH ltac:(intros ??; apply H; by right)).
  destruct (P r); simpl; lia.
Qed.

Lemma elem_of_take_in n t r : r ∈ take n t → r ∈ t.
Proof. intros H. rewrite <-(take_drop n t). apply elem_of_app. by left. Qed.
Lemma elem_of_drop_in n t r : r ∈ drop n t → r ∈ t.
Proof. intros H. rewrite <-(take_drop n t). apply elem_of_app. by right. Qed.

(** ** Primary keys *)

Lemma fetchone_unique {K} `{EqDecision K} (key : R → K) t r :
  NoDup (key <$> t) → r ∈ t → fetchone (λ r', bool_decide (key r' = key r)) t = Some r.
Proof.
  induction t as [|r0 t IH]; simpl; intros Hnd Hr; [by apply not_elem_of_nil in Hr|].
  apply NoDup_cons in Hnd as [Hn Hnd]. apply elem_of_cons in Hr as [->|Hr].
  - by rewrite bool_decide_true.
  - rewrite bool_decide_false; [by apply IH|]. intros Heq. apply Hn.
    rewrite Heq. by apply list_elem_of_fmap_2.
Qed.

Lemma key_inj {K} (key : R → K) t r1 r2 :
  NoDup (key <$> t) → r1 ∈ t → r2 ∈ t → key r1 = key r2 → r1 = r2.
Proof.
  induction t as [|r0 t IH]; simpl; intros Hnd H1 H2 Heq;
    [by apply not_elem_of_nil in H1|].
  apply NoDup_cons in Hnd as [Hn Hnd].
  apply elem_of_cons in H1 as [->|H1]; apply elem_of_cons in H2 as [->|H2]; [done| | |].
  - destruct Hn. rewrite Heq. by apply list_elem_of_fmap_2.
  - destruct Hn. rewrite <-Heq. by apply list_elem_of_fmap_2.
  - by apply IH.
Qed.

Lemma NoDup_fmap_del {K} (key : R → K) P t :
  NoDup (key <$> t) → NoDup (key <$> del P t).
Proof.
  unfold del. induction t as [|r t IH]; simpl; [done|].
  rewrite NoDup_cons. intros [Hn Hnd]. destruct (P r); simpl; [by apply IH|].
  apply NoDup_cons. split; [|by apply IH].
  intros H. apply Hn. apply list_elem_of_fmap in H as (r' & -> & Hr').
  apply elem_of_del in Hr' as [Hr' _]. by apply list_elem_of_fmap_2.
Qed.

Lemma NoDup_fmap_sel {K} (key : R → K) P t : NoDup (key <$> t) → NoDup (key <$> sel P t).
Proof.
  unfold sel. induction t as [|r t IH]; simpl; [done|].
  rewrite NoDup_cons. intros [Hn Hnd]. destruct (P r); simpl; [|by apply IH].
  apply NoDup_cons. split; [|by apply IH].
  intros H. apply Hn. apply list_elem_of_fmap in H as (r' & -> & Hr').
  apply (elem_of_sel P) in Hr' as [Hr' _]. by apply list_elem_of_fmap_2.
Qed.

Lemma NoDup_fmap_ins {K} (key : R → K) r t :
  NoDup (key <$> t) → (∀ r', r' ∈ t → key r' ≠ key r) → NoDup (key <$> ins r t).
Proof.
  intros Hnd Hf. rewrite fmap_ins. apply NoDup_app. split; [done|]. split.
  - intros k Hk ->%list_elem_of_singleton. apply list_elem_of_fmap in Hk as (r' & Heq & Hr').
    by apply (Hf r').
  - apply NoDup_singleton.
Qed.

(** ** ORDER BY *)

Lemma insert_by_perm key r t : insert_by key r t ≡ₚ r :: t.
Proof.
  induction t as [|r' t IH]; simpl; [done|]. case_match; [done|].
  rewrite IH. apply Permutation_swap.
Qed.

Lemma order_by_perm key t : order_by key t ≡ₚ t.
Proof.
  induction t as [|r t IH]; simpl; [done|]. by rewrite insert_by_perm, IH.
Qed.

Lemma elem_of_order_by key t r : r ∈ order_by key t ↔ r ∈ t.
Proof. by rewrite order_by_perm. Qed.

(** A table already in key order is returned as it is. *)
Lemma order_by_sorted key t :
  StronglySorted (λ r1 r2, key r1 ≤ key r2)%Z t → order_by key t = t.
Proof.
  induction 1 as [|r t Ht IH Hall]; simpl; [done|]. rewrite IH.
  destruct t as [|r' t']; simpl; [done|].
  inversion Hall as [|?? Hle _]; subst. by rewrite (proj2 (Z.leb_le _ _) Hle).
Qed.

(** Rows numbered as they come are in order. *)
Lemma imap_sorted {A} (key : R → Z) (f : nat → A → R) l : (∀ i x, key (f i x) = Z.of_nat i) →
  StronglySorted (λ r1 r2, key r1 ≤ key r2)%Z (imap f l).
Proof.
  intros Hf. assert (∀ k, StronglySorted (λ r1 r2, key r1 ≤ key r2)%Z (imap (λ i, f (k + i)%nat) l)) as H;
    [|exact (H 0%nat)].
  induction l as [|x l IH]; intros k; [constructor|]. simpl. constructor.
  - rewrite (imap_ext _ (λ i, f (S k + i)%nat)); [apply IH|]. intros i y _. unfold compose. f_equal. lia.
  - apply Forall_forall. intros r Hr. apply elem_of_lookup_imap in Hr as (i & y & -> & _).
    unfold compose. rewrite !Hf. lia.
Qed.

Lemma insert_by_ordered key r t :
  StronglySorted (λ r1 r2, key r1 ≤ key r2)%Z t →
  StronglySorted (λ r1 r2, key r1 ≤ key r2)%Z (insert_by key r t).
Proof.
  induction 1 as [|r' t Ht IH Hall]; simpl; [by repeat constructor|].
  destruct (Z.leb_spec (key r) (key r')) as [Hle|Hgt].
  - constructor; [by constructor|]. constructor; [done|].
    eapply Forall_impl; [exact Hall|]. simpl. intros. lia.
  - constructor; [done|]. rewrite insert_by_perm. constructor; [lia|done].
Qed.

Lemma order_by_ordered key t : StronglySorted (λ r1 r2, key r1 ≤ key r2)%Z (order_by key t).
Proof. induction t; simpl; [constructor|by apply insert_by_ordered]. Qed.

(** The first row of a query in key order has no matching row before it. *)
Lemma fetchone_order_by key P t r : fetchone P (order_by key t) = Some r →
  r ∈ t ∧ P r = true ∧ ∀ r', r' ∈ t → (key r' < key r)%Z → P r' = false.
Proof.
  intros H. pose proof (fetchone_Some _ _ _ H) as [Hin HP]. apply elem_of_order_by in Hin.
  split; [done|]. split; [done|]. intros r' Hr' Hlt. apply (elem_of_order_by key) in Hr'.
  pose proof (order_by_ordered key t) as Hs. induction Hs as [|r0 l Hl IH Hall]; [done|].
  simpl in H. destruct (P r0) eqn:E.
  - injection H as ->. apply elem_of_cons in Hr' as [-> |Hr']; [lia|].
    rewrite Forall_forall in Hall. specialize (Hall _ Hr'). simpl in Hall. lia.
  - apply elem_of_cons in Hr' as [-> |Hr']; [done|by apply IH].
Qed.

Lemma max_col_ub c t r : r ∈ t → (c r ≤ max_col c t)%Z.
Proof.
  unfold max_col. induction t as [|r' t IH]; [by intros ?%not_elem_of_nil|].
  intros [->|H]%elem_of_cons; simpl; [lia|]. specialize (IH H). lia.
Qed.
End tables.

Create Rewrite HintDb sql.
#[export] Hint Rewrite @elem_of_sel @elem_of_del @elem_of_upd @elem_of_ins
  @elem_of_order_by : sql.
