(* ===== verification/PyValue.v ===== *)
(** * Python values: strings, numbers, JSON documents

    What the modelled code uses of the language: strings as sequences of
    characters, the regular expressions the code matches, integers, IEEE double
    floats ([spec_float], binary64), and JSON documents as [json.loads] builds
    them, with Python's truth value and equality.  A [dict] is the list of its
    items in insertion order. *)

From Corelib Require Export SpecFloat.
From Stdlib Require Export Ascii String.
From S2P Require Export Prelude.

(** ** Characters and strings *)

Definition in_range (lo hi : N) (c : ascii) : bool :=
  let n := N_of_ascii c in (lo <=? n)%N && (n <=? hi)%N.

Definition is_digit (c : ascii) : bool := in_range 48 57 c.
Definition is_upper (c : ascii) : bool := in_range 65 90 c.
Definition is_lower (c : ascii) : bool := in_range 97 122 c.
Definition is_alnum (c : ascii) : bool := is_digit c || is_upper c || is_lower c.

Fixpoint str_forall (p : ascii → bool) (s : string) : bool :=
  match s with EmptyString => true | String c s' => p c && str_forall p s' end.

Definition one_of (cs : string) (c : ascii) : bool :=
  negb (str_forall (λ d, negb (bool_decide (c = d))) cs).

Definition str_empty (s : string) : bool :=
  match s with EmptyString => true | _ => false end.

(** [s.startswith(p)] *)
Definition startswith (p s : string) : bool := String.prefix p s.

(** The characters of a string, each as a string: what iterating it gives. *)
Fixpoint chars (s : string) : list string :=
  match s with EmptyString => [] | String c s' => String c EmptyString :: chars s' end.

(** [s.split(c)] for a one-character separator: never the empty list. *)
Fixpoint split_on (c : ascii) (s : string) : list string :=
  match s with
  | EmptyString => [EmptyString]
  | String d s' =>
      if bool_decide (d = c) then EmptyString :: split_on c s'
      else match split_on c s' with
           | [] => [String d EmptyString]
           | p :: ps => String d p :: ps
           end
  end.

(** ASCII lower case, as [str.lower] and SQLite's NOCASE do on ASCII. *)
Definition lower_char (c : ascii) : ascii :=
  if is_upper c then ascii_of_N (N_of_ascii c + 32) else c.
Fixpoint lower (s : string) : string :=
  match s with EmptyString => EmptyString | String c s' => String (lower_char c) (lower s') end.

Lemma str_forall_app p s t : str_forall p (s +:+ t) = str_forall p s && str_forall p t.
Proof. induction s as [|c s IH]; simpl; [done|]. by rewrite IH, andb_assoc. Qed.

Lemma str_app_nil (s : string) : EmptyString +:+ s = s.
Proof. done. Qed.
Lemma str_app_cons c (s t : string) : String c s +:+ t = String c (s +:+ t).
Proof. done. Qed.
Lemma str_app_assoc (s t u : string) : (s +:+ t) +:+ u = s +:+ (t +:+ u).
Proof. induction s as [|c s IH]; [done|]. by rewrite !str_app_cons, IH. Qed.

Lemma split_on_not_nil c s : split_on c s ≠ [].
Proof. destruct s; simpl; [done|]. repeat case_match; done. Qed.

(** ** Numbers *)

(** The value of a number, exactly: [m * 2 ^ e], an infinity, or not a number. *)
Inductive pyreal :=
| Fin (m e : Z)
| Inf (negative : bool)
| NaN.

Definition real_of_Z (z : Z) : pyreal := Fin z 0.
Definition real_of_float (f : spec_float) : pyreal :=
  match f with
  | S754_zero _ => Fin 0 0
  | S754_infinity s => Inf s
  | S754_nan => NaN
  | S754_finite s m e => Fin (if s then Zneg m else Zpos m) e
  end.

(** Python compares an int with a float by their exact values. *)
Definition scale (m e e0 : Z) : Z := (m * 2 ^ (e - e0))%Z.

Definition real_cmp (x y : pyreal) : option comparison :=
  match x, y with
  | NaN, _ | _, NaN => None
  | Inf a, Inf b => Some (match a, b with
                          | true, false => Lt | false, true => Gt | _, _ => Eq end)
  | Inf true, Fin _ _ | Fin _ _, Inf false => Some Lt
  | Inf false, Fin _ _ | Fin _ _, Inf true => Some Gt
  | Fin m1 e1, Fin m2 e2 =>
      let e0 := Z.min e1 e2 in Some (Z.compare (scale m1 e1 e0) (scale m2 e2 e0))
  end.

Definition real_eqb (x y : pyreal) : bool := bool_decide (real_cmp x y = Some Eq).
Definition real_ltb (x y : pyreal) : bool := bool_decide (real_cmp x y = Some Lt).
Definition real_leb (x y : pyreal) : bool := real_ltb x y || real_eqb x y.

(** Binary64 arithmetic on the values the code multiplies. *)
Definition float_mul : spec_float → spec_float → spec_float := SFmul 53 1024.
Definition float_of_Z (z : Z) : spec_float := binary_normalize 53 1024 z 0 false.

(** [math.ceil] and [int] of a finite float; [None] where Python raises. *)
Definition float_ceil (f : spec_float) : option Z :=
  match real_of_float f with
  | Fin m e => Some (if (0 <=? e)%Z then m * 2 ^ e else - ((- m) / 2 ^ (- e)))%Z
  | _ => None
  end.
Definition float_trunc (f : spec_float) : option Z :=
  match real_of_float f with
  | Fin m e => Some (if (0 <=? e)%Z then m * 2 ^ e else Z.quot m (2 ^ (- e)))%Z
  | _ => None
  end.

(** ** JSON documents *)

#[warnings="-register-all"]
Inductive json :=
| JNull
| JBool (b : bool)
| JInt (z : Z)
| JFloat (f : spec_float)
| JStr (s : string)
| JList (l : list json)
| JObj (d : list (string * json)).

Abbreviation dict := (list (string * json)).

(** An [int] field: Python's [bool] is an [int]. *)
Inductive pyint := PInt (z : Z) | PBool (b : bool).
Definition int_val (i : pyint) : Z :=
  match i with PInt z => z | PBool b => if b then 1 else 0 end.
Definition int_json (i : pyint) : json :=
  match i with PInt z => JInt z | PBool b => JBool b end.

(** A number that is not a [bool]. *)
Inductive pynum := NInt (z : Z) | NFloat (f : spec_float).
Definition num_json (n : pynum) : json :=
  match n with NInt z => JInt z | NFloat f => JFloat f end.
Definition num_real (n : pynum) : pyreal :=
  match n with NInt z => real_of_Z z | NFloat f => real_of_float f end.

Fixpoint dict_get (k : string) (d : dict) : option json :=
  match d with
  | [] => None
  | (k', v) :: d' => if bool_decide (k = k') then Some v else dict_get k d'
  end.
Definition dict_has (k : string) (d : dict) : bool :=
  match dict_get k d with Some _ => true | None => false end.
Definition dict_keys (d : dict) : list string := fst <$> d.

(** [d[k] = v]: the item keeps its place, a new key goes last. *)
Fixpoint dict_set (k : string) (v : json) (d : dict) : dict :=
  match d with
  | [] => [(k, v)]
  | (k', w) :: d' => if bool_decide (k = k') then (k, v) :: d' else (k', w) :: dict_set k v d'
  end.
(** [d.pop(k, None)], keeping the dict. *)
Definition dict_del (k : string) (d : dict) : dict :=
  List.filter (λ kv, negb (bool_decide (k = fst kv))) d.

(** [x.get(k)] where a missing key reads as [None]. *)
Definition get_null (k : string) (d : dict) : json := default JNull (dict_get k d).

(** [bool(x)] *)
Definition truthy (v : json) : bool :=
  match v with
  | JNull => false
  | JBool b => b
  | JInt z => negb (z =? 0)%Z
  | JFloat f => match f with S754_zero _ => false | _ => true end
  | JStr s => negb (str_empty s)
  | JList l => match l with [] => false | _ => true end
  | JObj d => match d with [] => false | _ => true end
  end.

Definition json_real (v : json) : option pyreal :=
  match v with
  | JBool b => Some (real_of_Z (if b then 1 else 0))
  | JInt z => Some (real_of_Z z)
  | JFloat f => Some (real_of_float f)
  | _ => None
  end.

(** [a == b]: numbers by value, whatever their type; dicts without regard to the
    order of their items. *)
Fixpoint py_eqb (a b : json) {struct a} : bool :=
  match a, b with
  | JNull, JNull => true
  | JStr s, JStr t => bool_decide (s = t)
  | JList l, JList m =>
      (fix go l m := match l, m with
                     | [], [] => true
                     | x :: l', y :: m' => py_eqb x y && go l' m'
                     | _, _ => false
                     end) l m
  | JObj d, JObj e =>
      bool_decide (length d = length e) &&
      (fix go d := match d with
                   | [] => true
                   | (k, v) :: d' =>
                       match dict_get k e with
                       | Some w => py_eqb v w && go d'
                       | None => false
                       end
                   end) d
  | _, _ => match json_real a, json_real b with
            | Some x, Some y => real_eqb x y
            | _, _ => false
            end
  end.

(** Induction over documents, with the items of lists and dicts. *)
Lemma json_ind' (P : json → Prop) :
  P JNull → (∀ b, P (JBool b)) → (∀ z, P (JInt z)) → (∀ f, P (JFloat f)) →
  (∀ s, P (JStr s)) → (∀ l, Forall P l → P (JList l)) →
  (∀ d, Forall (λ kv, P (snd kv)) d → P (JObj d)) →
  ∀ v, P v.
Proof.
  intros Hn Hb Hi Hf Hs Hl Ho. fix go 1. intros [|b|z|f|s|l|d];
    [exact Hn|apply Hb|apply Hi|apply Hf|apply Hs| |].
  - apply Hl. induction l as [|x l IH]; constructor; [apply go|apply IH].
  - apply Ho. induction d as [|[k x] d IH]; constructor; [apply go|apply IH].
Qed.

#[export] Instance spec_float_eq_dec : EqDecision spec_float.
Proof. solve_decision. Defined.

#[export] Instance json_eq_dec : EqDecision json.
Proof.
  refine (fix go (a b : json) : Decision (a = b) :=
    let _ : EqDecision json := go in
    match a, b with
    | JNull, JNull => left eq_refl
    | JBool x, JBool y => cast_if (decide (x = y))
    | JInt x, JInt y => cast_if (decide (x = y))
    | JFloat x, JFloat y => cast_if (decide (x = y))
    | JStr x, JStr y => cast_if (decide (x = y))
    | JList x, JList y => cast_if (decide (x = y))
    | JObj x, JObj y => cast_if (decide (x = y))
    | _, _ => right _
    end); congruence.
Defined.

(** ** Equality of a document with itself

    Not every value equals itself: a NaN does not.  [plain] documents have none,
    and no repeated key. *)

Fixpoint plain (v : json) : bool :=
  match v with
  | JFloat S754_nan => false
  | JList l => forallb plain l
  | JObj d => bool_decide (NoDup (dict_keys d)) && forallb (λ kv, plain (snd kv)) d
  | _ => true
  end.

Lemma py_eqb_list l m :
  py_eqb (JList l) (JList m) = bool_decide (length l = length m)
    && forallb (λ xy, py_eqb (fst xy) (snd xy)) (combine l m).
Proof.
  revert m; induction l as [|x l IH]; intros [|y m]; try done.
  specialize (IH m). cbn [py_eqb] in *. rewrite IH. simpl.
  rewrite (bool_decide_ext (S (length l) = S (length m)) (length l = length m)) by lia.
  destruct (py_eqb x y), (bool_decide _); simpl; done.
Qed.

Lemma py_eqb_obj d e :
  py_eqb (JObj d) (JObj e) = bool_decide (length d = length e)
    && forallb (λ kv, match dict_get (fst kv) e with
                      | Some w => py_eqb (snd kv) w | None => false end) d.
Proof.
  cbn [py_eqb]. f_equal. induction d as [|[k v] d IH]; [done|]. simpl.
  destruct (dict_get k e); [|done]. by rewrite IH.
Qed.

Lemma real_eqb_refl x : x ≠ NaN → real_eqb x x = true.
Proof.
  intros H. apply bool_decide_eq_true. destruct x as [m e|[]|]; simpl; [|done..].
  by rewrite Z.compare_refl.
Qed.

Lemma dict_get_elem k v d : NoDup (dict_keys d) → (k, v) ∈ d → dict_get k d = Some v.
Proof.
  induction d as [|[k' v'] d IH]; intros Hnd Hin; [by apply not_elem_of_nil in Hin|]. simpl.
  unfold dict_keys in Hnd. csimpl in Hnd. apply NoDup_cons in Hnd as [Hn Hnd].
  apply elem_of_cons in Hin as [[= <- <-]|Hin]; [by rewrite bool_decide_true|].
  rewrite bool_decide_false; [by apply IH|]. intros ->. apply Hn.
  by apply (list_elem_of_fmap_2 fst) in Hin.
Qed.

Lemma py_eqb_refl v : plain v = true → py_eqb v v = true.
Proof.
  induction v as [|b|z|f|s|l IH|d IH] using json_ind'; intros H.
  - done.
  - apply real_eqb_refl. done.
  - apply real_eqb_refl. done.
  - apply real_eqb_refl. by destruct f.
  - by apply bool_decide_eq_true.
  - rewrite py_eqb_list, bool_decide_true by done. cbn [plain andb] in *.
    induction IH as [|x l Hx _ IHl]; [done|]. simpl in *. apply andb_true_iff in H as [H1 H2].
    by rewrite Hx, IHl.
  - rewrite py_eqb_obj, bool_decide_true by done. cbn [plain andb] in *.
    apply andb_true_iff in H as [Hnd Hall]. apply bool_decide_eq_true in Hnd.
    apply forallb_forall. intros [k v] Hin. cbn [fst snd].
    rewrite forallb_forall in Hall. specialize (Hall _ Hin). apply list_elem_of_In in Hin.
    rewrite (dict_get_elem _ _ _ Hnd Hin). rewrite Forall_forall in IH. by apply (IH _ Hin).
Qed.

Lemma dict_keys_set k v d :
  dict_keys (dict_set k v d) = if dict_has k d then dict_keys d else dict_keys d ++ [k].
Proof.
  unfold dict_has. induction d as [|[k' w] d IH]; [done|]. simpl.
  case_bool_decide; subst; simpl; [done|]. unfold dict_keys in *. csimpl. rewrite IH.
  by destruct (dict_get k d).
Qed.

Lemma dict_has_keys k d : dict_has k d = true ↔ k ∈ dict_keys d.
Proof.
  unfold dict_has. induction d as [|[k' w] d IH]; simpl; [by rewrite elem_of_nil|].
  unfold dict_keys in *. csimpl. rewrite elem_of_cons. case_bool_decide; naive_solver.
Qed.

Lemma plain_dict_set k v d :
  plain v = true → plain (JObj d) = true → plain (JObj (dict_set k v d)) = true.
Proof.
  intros Hv Hd. cbn [plain] in *. apply andb_true_iff in Hd as [Hnd Hall].
  apply bool_decide_eq_true in Hnd. apply andb_true_iff. split.
  - apply bool_decide_eq_true. rewrite dict_keys_set. destruct (dict_has k d) eqn:E; [done|].
    apply NoDup_app. split; [done|]. split; [|apply NoDup_singleton].
    intros k' Hk ->%list_elem_of_singleton. apply dict_has_keys in Hk. congruence.
  - clear Hnd. induction d as [|[k' w] d IH]; simpl in *; [by rewrite Hv|].
    apply andb_true_iff in Hall as [H1 H2].
    case_bool_decide; simpl; [by rewrite Hv|]. rewrite H1. by apply IH.
Qed.

(** ** Access to decoded JSON: [v[k]], [v.get(k)] and a loop over [v], errors included *)

(** [v[k]] *)
Definition py_index (k : string) (v : json) : result json :=
  match v with
  | JObj d => of_option (KeyError k) (dict_get k d)
  | _ => Err (TypeError "subscript")
  end.

(** [v] as the object whose [.get] is called. *)
Definition as_object (v : json) : result dict :=
  match v with JObj d => Ok d | _ => Err (OtherError "AttributeError") end.

(** [list(v)] *)
Definition py_list (v : json) : result (list json) :=
  match v with
  | JList l => Ok l
  | JStr s => Ok (JStr <$> chars s)
  | JObj d => Ok (JStr <$> dict_keys d)
  | _ => Err (TypeError "not iterable")
  end.

(** [for x in v.get(k, [])] *)
Definition get_items (k : string) (v : json) : result (list json) :=
  d ← as_object v;
  match dict_get k d with Some x => py_list x | None => Ok [] end.

(** ** Equations *)

Lemma py_index_get k d v : dict_get k d = Some v → py_index k (JObj d) = Ok v.
Proof. intros H. simpl. by rewrite H. Qed.

Lemma py_eqb_str s v : py_eqb (JStr s) v = true ↔ v = JStr s.
Proof.
  destruct v; simpl; try done. rewrite bool_decide_eq_true. split; congruence.
Qed.

(** Read a key of an object whose items are known. *)
Ltac index_step k :=
  match goal with
  | |- context [py_index k (JObj ?d)] =>
      let E := fresh "E" in
      eassert (dict_get k d = Some _) as E by reflexivity;
      rewrite (py_index_get k d _ E); clear E
  end; cbn [mbind result_bind py_list].
