(* ===== verification/Version.v ===== *)
(** * contracts/version.py: the validation primitives every contract shares

    [validate_*] are the checks; [known_payload] and [instantiate] are the two
    steps by which a JSON payload becomes a contract object; [field_*] read one
    field of the payload at the type the class's [validate] insists on.  The
    second half is the lexical path model and the containment theorem for
    [validate_relative_path]. *)

From S2P Require Export PyValue.
Open Scope string_scope.
Open Scope list_scope.

Definition SCHEMA_VERSION : Z := 3.

(** [IDENTIFIER.fullmatch]: an alphanumeric character, then at most 127 more that
    may also be an underscore, a dot, a colon or a hyphen. *)
Definition IDENTIFIER (s : string) : bool :=
  match s with
  | EmptyString => false
  | String c s' =>
      is_alnum c && str_forall (λ d, is_alnum d || one_of "_.:-" d) s'
      && (String.length s' <=? 127)%nat
  end.

(** [SHA256_HEX.fullmatch]: 64 lowercase hexadecimal digits. *)
Definition SHA256_HEX (s : string) : bool :=
  bool_decide (String.length s = 64) && str_forall (λ d, is_digit d || in_range 97 102 d) s.

Definition validate_version (value : json) : result unit :=
  raise_when (negb (py_eqb value (JInt SCHEMA_VERSION))) (ContractError "schema_version").

Definition validate_identifier (name : string) (value : json) (required : bool) : result unit :=
  match value with
  | JNull => raise_when required (ContractError name)
  | JStr s => raise_when (negb (IDENTIFIER s)) (ContractError name)
  | _ => Err (ContractError name)
  end.

(** JSON object keys are always strings. *)
Definition validate_mapping (name : string) (value : json) : result unit :=
  match value with JObj _ => Ok tt | _ => Err (ContractError name) end.

Definition validate_sha256 (name : string) (value : json) (required : bool) : result unit :=
  match value with
  | JNull => raise_when required (ContractError name)
  | JStr s => raise_when (negb (SHA256_HEX s)) (ContractError name)
  | _ => Err (ContractError name)
  end.

Definition validate_relative_path (name : string) (value : json) : result unit :=
  match value with
  | JStr s =>
      if str_empty s then Err (ContractError name)
      else raise_when (startswith "/" s || bool_decide (".." ∈ split_on "/" s))
                      (ContractError name)
  | _ => Err (ContractError name)
  end.

(** A dataclass as the two functions below see it: its fields in order, and
    whether a field has no default. *)
Record dataclass := Dataclass { dc_name : string; dc_fields : list (string * bool) }.

Definition dc_names (c : dataclass) : list string := fst <$> dc_fields c.
Definition dc_required (c : dataclass) : list string :=
  fst <$> List.filter snd (dc_fields c).

(** The class called with the payload's items, [TypeError] reported as a contract
    error. *)
Definition instantiate (c : dataclass) (value : dict) : result dict :=
  if forallb (λ k, bool_decide (k ∈ dc_names c)) (dict_keys value)
     && forallb (λ k, dict_has k value) (dc_required c)
  then Ok value
  else Err (ContractError (dc_name c)).

Definition known_payload (c : dataclass) (payload : json) : result dict :=
  match payload with
  | JObj d =>
      if negb (dict_has "schema_version" d) then Err (ContractError (dc_name c))
      else if forallb (λ k, bool_decide (k ∈ dc_names c)) (dict_keys d) then Ok d
      else Err (ContractError (dc_name c))
  | _ => Err (ContractError (dc_name c))
  end.

(** ** Fields of a dataclass

    A contract object keeps its fields at the dynamic types Python has: a field
    that [from_dict] does not convert is the JSON value it was given, and
    [validate] is what makes it a string or an integer. *)

Definition opt_json (o : option string) : json :=
  match o with Some s => JStr s | None => JNull end.

(** The field [k] of an instance built from [d], with the class's default. *)
Definition field (k : string) (dflt : json) (d : dict) : json := default dflt (dict_get k d).

Definition is_null (v : json) : bool := match v with JNull => true | _ => false end.
(** [isinstance(v, str) and v] *)
Definition nonempty_str (v : json) : bool :=
  match v with JStr s => negb (str_empty s) | _ => false end.
Definition is_str (v : json) : bool := match v with JStr _ => true | _ => false end.
(** [isinstance(v, int)]: [bool] is a subclass. *)
Definition as_int (v : json) : option Z :=
  match v with JInt z => Some z | JBool b => Some (if b then 1 else 0)%Z | _ => None end.
(** ... and not [isinstance(v, bool)]. *)
Definition as_strict_int (v : json) : option Z :=
  match v with JInt z => Some z | _ => None end.

(** [tuple(v)]. *)
Definition py_tuple (v : json) : result (list json) :=
  match v with
  | JList l => Ok l
  | JStr s => Ok (JStr <$> chars s)
  | JObj d => Ok (JStr <$> dict_keys d)
  | _ => Err (TypeError "not iterable")
  end.

(** [k in v] *)
Definition py_in (k : string) (v : json) : result bool :=
  match v with
  | JObj d => Ok (dict_has k d)
  | JList l => Ok (bool_decide (JStr k ∈ l))
  | JStr s => Ok (match String.index 0 k s with Some _ => true | None => false end)
  | _ => Err (TypeError "not a container")
  end.

(** One element of the sequence [dict(v)] is given: two items, the first a key.
    A key that is not a string is the exception [e] of the caller's next check. *)
Definition dict_item (e : exn) (v : json) : result (string * json) :=
  xs ← py_tuple v;
  match xs with
  | [JStr k; w] => Ok (k, w)
  | [JList _; _] | [JObj _; _] => Err (TypeError "unhashable")
  | [_; _] => Err e
  | _ => Err (ValueError "dictionary update sequence element")
  end.

(** [dict(v)]. *)
Definition py_dict (e : exn) (v : json) : result dict :=
  match v with
  | JObj d => Ok d
  | _ => xs ← py_tuple v;
         kvs ← mapM_result (dict_item e) xs;
         Ok (fold_left (λ d kv, dict_set (fst kv) (snd kv) d) kvs [])
  end.

(** [sorted(set(v) - allowed)] must be empty.  An element that is not a string is
    a [TypeError], from [set] or from joining the names for the message. *)
Definition only_fields (what : string) (allowed : list string) (v : json) : result unit :=
  xs ← py_tuple v;
  ks ← mapM_result (λ x, match x with JStr k => Ok k | _ => Err (TypeError what) end) xs;
  raise_when (negb (forallb (λ k, bool_decide (k ∈ allowed)) ks)) (ContractError what).

(** ** Facts about the primitives *)

Lemma validate_identifier_str name s b :
  validate_identifier name (JStr s) b = Ok tt ↔ IDENTIFIER s = true.
Proof. simpl. rewrite raise_when_Ok, negb_false_iff. done. Qed.

Lemma validate_identifier_opt name o :
  validate_identifier name (opt_json o) false = Ok tt ↔
  ∀ s, o = Some s → IDENTIFIER s = true.
Proof. destruct o; simpl; [rewrite raise_when_Ok, negb_false_iff|]; naive_solver. Qed.

Lemma validate_sha256_str name s b :
  validate_sha256 name (JStr s) b = Ok tt ↔ SHA256_HEX s = true.
Proof. simpl. rewrite raise_when_Ok, negb_false_iff. done. Qed.

Lemma validate_relative_path_str name s :
  validate_relative_path name (JStr s) = Ok tt ↔
  str_empty s = false ∧ startswith "/" s = false ∧ ".." ∉ split_on "/" s.
Proof.
  simpl. destruct (str_empty s); [naive_solver|].
  rewrite raise_when_Ok, orb_false_iff, bool_decide_eq_false. naive_solver.
Qed.

Lemma known_payload_Ok c payload d :
  known_payload c payload = Ok d ↔
  payload = JObj d ∧ dict_has "schema_version" d = true ∧
  ∀ k, k ∈ dict_keys d → k ∈ dc_names c.
Proof.
  unfold known_payload. destruct payload as [| | | | | |d'];
    try (by split; [|intros (? & _)]).
  destruct (dict_has _ d') eqn:Hv; simpl; [|by split; [|intros ([= ->] & ? & _); congruence]].
  destruct (forallb _ _) eqn:Hf.
  - rewrite forallb_elem in Hf. split; [|by intros ([= ->] & _)].
    intros [= <-]. split_and!; [done..|]. intros k Hk. by eapply bool_decide_eq_true, Hf.
  - split; [done|]. intros ([= ->] & _ & H). apply not_true_iff_false in Hf. destruct Hf.
    apply forallb_elem. intros k Hk. by apply bool_decide_eq_true, H.
Qed.

Lemma instantiate_Ok c v d :
  instantiate c v = Ok d ↔
  d = v ∧ (∀ k, k ∈ dict_keys v → k ∈ dc_names c) ∧
  (∀ k, k ∈ dc_required c → dict_has k v = true).
Proof.
  unfold instantiate. destruct (forallb _ (dict_keys v)) eqn:H1; simpl;
    [destruct (forallb _ (dc_required c)) eqn:H2; simpl|].
  - rewrite forallb_elem in H1. rewrite forallb_elem in H2. split.
    + intros [= <-]. split_and!; [done| |done]. intros k Hk.
      by eapply bool_decide_eq_true, H1.
    + by intros (-> & _).
  - split; [done|]. intros (_ & _ & H). apply not_true_iff_false in H2. destruct H2.
    by apply forallb_elem.
  - split; [done|]. intros (_ & H & _). apply not_true_iff_false in H1. destruct H1.
    apply forallb_elem. intros k Hk. by apply bool_decide_eq_true, H.
Qed.

(** ** Paths, lexically

    [PurePosixPath]'s components, and [(root / s).resolve()] where no component
    is a symbolic link. *)

Definition path_step (acc : list string) (part : string) : list string :=
  if str_empty part || bool_decide (part = ".") then acc
  else if bool_decide (part = "..") then removelast acc
  else acc ++ [part].

Definition resolve_parts (base : list string) (parts : list string) : list string :=
  fold_left path_step parts base.

(** [(root / s).resolve()]: an absolute [s] discards the root. *)
Definition path_resolve (root : list string) (s : string) : list string :=
  resolve_parts (if startswith "/" s then [] else root) (split_on "/" s).

(** [path.relative_to(root)], [None] where it raises [ValueError]. *)
Fixpoint relative_to (root path : list string) : option (list string) :=
  match root, path with
  | [], _ => Some path
  | r :: root', p :: path' => if bool_decide (r = p) then relative_to root' path' else None
  | _ :: _, [] => None
  end.

Lemma relative_to_app root p : relative_to root (root ++ p) = Some p.
Proof. induction root as [|r root IH]; simpl; [done|]. by rewrite bool_decide_true. Qed.

Lemma relative_to_Some root path p : relative_to root path = Some p → path = root ++ p.
Proof.
  revert path; induction root as [|r root IH]; intros [|q path]; simpl; try by intros [= ->].
  case_bool_decide as Hr; [|done]. intros ->%IH. by rewrite Hr.
Qed.

Lemma path_step_no_dotdot acc x : x ≠ ".." →
  ∃ p, path_step acc x = acc ++ p ∧ ".." ∉ p.
Proof.
  intros Hx. unfold path_step. destruct (str_empty x || bool_decide (x = ".")).
  - exists []. rewrite app_nil_r. split; [done|apply not_elem_of_nil].
  - rewrite bool_decide_false by done. exists [x].
    split; [done|]. rewrite list_elem_of_singleton. congruence.
Qed.

Lemma resolve_parts_no_dotdot base parts :
  ".." ∉ parts → ∃ p, resolve_parts base parts = base ++ p ∧ ".." ∉ p.
Proof.
  unfold resolve_parts. revert base.
  induction parts as [|x parts IH]; intros base Hn.
  - exists []. simpl. rewrite app_nil_r. split; [done|apply not_elem_of_nil].
  - apply not_elem_of_cons in Hn as [Hx Hn].
    destruct (path_step_no_dotdot base x) as (p & Hp & Hnp); [congruence|].
    destruct (IH (base ++ p) Hn) as (q & Hq & Hnq).
    exists (p ++ q). rewrite app_assoc, <-Hq, <-Hp. split; [done|].
    rewrite elem_of_app. naive_solver.
Qed.

(** What [validate_relative_path] accepts stays below the root, whatever the root. *)
Lemma validated_path_contained name s root :
  validate_relative_path name (JStr s) = Ok tt →
  ∃ p, relative_to root (path_resolve root s) = Some p ∧ ".." ∉ p.
Proof.
  rewrite validate_relative_path_str. intros (_ & Hs & Hd). unfold path_resolve. rewrite Hs.
  destruct (resolve_parts_no_dotdot root _ Hd) as (p & -> & Hp).
  exists p. by rewrite relative_to_app.
Qed.

(** ** Reading back what [to_dict] wrote *)

(** A dict with concrete keys: [known_payload] and [instantiate] accept it by
    computation, and each field reads back. *)
Ltac read_back :=
  repeat first
    [ progress cbn [mbind result_bind option_bind of_option is_null py_tuple]
    | match goal with
      | |- context [known_payload ?c (JObj ?d)] =>
          let H := fresh in assert (H : known_payload c (JObj d) = Ok d) by reflexivity;
          rewrite H; clear H
      | |- context [instantiate ?c ?d] =>
          let H := fresh in assert (H : instantiate c d = Ok d) by reflexivity;
          rewrite H; clear H
      | |- context [only_fields ?w ?a (JObj ?d)] =>
          let H := fresh in assert (H : only_fields w a (JObj d) = Ok tt) by reflexivity;
          rewrite H; clear H
      | |- context [py_in ?k (JObj ?d)] =>
          let H := fresh in assert (H : py_in k (JObj d) = Ok true) by reflexivity;
          rewrite H; clear H
      | |- context [py_dict ?e (JObj ?d)] => change (py_dict e (JObj d)) with (@Ok dict d)
      | |- context [raise_when false ?e] => change (raise_when false e) with (@Ok unit tt)
      | |- context [negb true] => change (negb true) with false
      | |- context [field ?k ?v ?d] =>
          let x := eval hnf in (field k v d) in change (field k v d) with x
      | |- context [get_null ?k ?d] =>
          let x := eval hnf in (get_null k d) in change (get_null k d) with x
      | |- context [dict_get ?k (cons ?kv ?d)] =>
          let x := eval hnf in (dict_get k (cons kv d)) in
          change (dict_get k (cons kv d)) with x; cbn beta iota
      end ].

(** [to_dict t = Ok d → from_dict (JObj d) = Ok t] for a class whose [from_dict]
    keeps the fields as they are. *)
Ltac roundtrip to_dict from_dict :=
  unfold to_dict; intros H; apply bind_Ok in H as ([] & Hv & [= <-]);
  match type of Hv with _ ?x = _ => destruct x end;
  unfold from_dict; read_back; rewrite Hv; reflexivity.
