(* ===== verification/Lifecycle.v ===== *)
(** * contracts/runtime.py: run and attempt statuses, failures and events

    The two state machines as the decision procedures the store calls, the
    failure and event records, and what the transition tables imply: terminal
    statuses have no way out, every cycle passes through the retry queue, and a
    run can only succeed, or time out, out of [RUNNING]. *)

From S2P Require Export Version.
Open Scope string_scope.
Open Scope list_scope.

Inductive RuntimeStatus :=
| QUEUED | PREPARING | RUNNING | RETRY_WAIT | CANCEL_REQUESTED
| SUCCEEDED | FAILED | CANCELLED | TIMED_OUT | LOST.

#[export] Instance RuntimeStatus_eq_dec : EqDecision RuntimeStatus.
Proof. solve_decision. Defined.

Definition status_str (s : RuntimeStatus) : string :=
  match s with
  | QUEUED => "queued" | PREPARING => "preparing" | RUNNING => "running"
  | RETRY_WAIT => "retry_wait" | CANCEL_REQUESTED => "cancel_requested"
  | SUCCEEDED => "succeeded" | FAILED => "failed" | CANCELLED => "cancelled"
  | TIMED_OUT => "timed_out" | LOST => "lost"
  end.

Definition all_statuses : list RuntimeStatus :=
  [QUEUED; PREPARING; RUNNING; RETRY_WAIT; CANCEL_REQUESTED;
   SUCCEEDED; FAILED; CANCELLED; TIMED_OUT; LOST].

(** [RuntimeStatus(value)], [None] where the enumeration raises [ValueError]. *)
Definition runtime_status_of (v : json) : option RuntimeStatus :=
  match v with
  | JStr s => List.find (λ st, bool_decide (status_str st = s)) all_statuses
  | _ => None
  end.

Definition TERMINAL_RUNTIME_STATUSES : list RuntimeStatus :=
  [SUCCEEDED; FAILED; CANCELLED; TIMED_OUT; LOST].

Definition is_terminal (s : RuntimeStatus) : bool :=
  bool_decide (s ∈ TERMINAL_RUNTIME_STATUSES).

Definition ACTIVE_RUNTIME_STATUSES : list RuntimeStatus :=
  List.filter (λ s, negb (is_terminal s)) all_statuses.

Inductive AttemptStatus := A_PENDING | A_RUNNING | A_SUCCEEDED | A_FAILED | A_LOST.

#[export] Instance AttemptStatus_eq_dec : EqDecision AttemptStatus.
Proof. solve_decision. Defined.

Definition attempt_status_str (s : AttemptStatus) : string :=
  match s with
  | A_PENDING => "pending" | A_RUNNING => "running" | A_SUCCEEDED => "succeeded"
  | A_FAILED => "failed" | A_LOST => "lost"
  end.

Definition ATTEMPT_TRANSITIONS (s : AttemptStatus) : list AttemptStatus :=
  match s with
  | A_PENDING => [A_RUNNING; A_LOST]
  | A_RUNNING => [A_SUCCEEDED; A_FAILED; A_LOST]
  | A_SUCCEEDED => []
  | A_FAILED => []
  | A_LOST => []
  end.

Definition attempt_transition_allowed (current target : AttemptStatus) : bool :=
  bool_decide (target ∈ ATTEMPT_TRANSITIONS current).

(** A status with no entry reads as the empty set. *)
Definition RUN_TRANSITIONS (s : RuntimeStatus) : list RuntimeStatus :=
  match s with
  | QUEUED => [PREPARING; CANCEL_REQUESTED; CANCELLED; FAILED]
  | PREPARING => [RUNNING; CANCEL_REQUESTED; FAILED; LOST]
  | RUNNING => [RETRY_WAIT; CANCEL_REQUESTED; SUCCEEDED; FAILED; TIMED_OUT; LOST]
  | RETRY_WAIT => [QUEUED; CANCEL_REQUESTED; FAILED; LOST]
  | CANCEL_REQUESTED => [CANCELLED; FAILED; LOST]
  | _ => []
  end.

Definition run_transition_allowed (current target : RuntimeStatus) : bool :=
  if bool_decide (current ∈ TERMINAL_RUNTIME_STATUSES) then false
  else bool_decide (target ∈ RUN_TRANSITIONS current).

(** ** Failure and Event *)

Record Failure := MkFailure {
  f_category : json;
  f_message : json;
  f_retryable : json;
  f_detail : json }.

#[export] Instance Failure_eq_dec : EqDecision Failure.
Proof. solve_decision. Defined.

Definition Failure_validate (f : Failure) : result unit :=
  validate_identifier "category" (f_category f) true;;
  raise_when (negb (nonempty_str (f_message f))) (ContractError "failure message");;
  validate_mapping "detail" (f_detail f).

Definition Failure_to_dict (f : Failure) : result dict :=
  Failure_validate f;;
  Ok [("category", f_category f); ("message", f_message f);
      ("retryable", f_retryable f); ("detail", f_detail f)].

(** [Failure(category, message)] as the runtime builds it. *)
Definition failure (category message : string) (retryable : bool) : Failure :=
  MkFailure (JStr category) (JStr message) (JBool retryable) (JObj []).

Record Event := MkEvent {
  ev_event_id : json;
  ev_run_id : json;
  ev_event_type : json;
  ev_occurred_at : json;
  ev_producer : json;
  ev_payload : json;
  ev_stage_run_id : json;
  ev_attempt_id : json;
  ev_schema_version : json }.

Definition Event_class : dataclass :=
  Dataclass "Event"
    [("event_id", true); ("run_id", true); ("event_type", true); ("occurred_at", true);
     ("producer", true); ("payload", false); ("stage_run_id", false);
     ("attempt_id", false); ("schema_version", false)].

Definition Event_validate (e : Event) : result unit :=
  validate_version (ev_schema_version e);;
  validate_identifier "event_id" (ev_event_id e) true;;
  validate_identifier "run_id" (ev_run_id e) true;;
  validate_identifier "event_type" (ev_event_type e) true;;
  validate_identifier "producer" (ev_producer e) true;;
  validate_identifier "stage_run_id" (ev_stage_run_id e) false;;
  validate_identifier "attempt_id" (ev_attempt_id e) false;;
  raise_when (negb (nonempty_str (ev_occurred_at e))) (ContractError "occurred_at");;
  validate_mapping "payload" (ev_payload e).

Definition Event_to_dict (e : Event) : result dict :=
  Event_validate e;;
  Ok [("event_id", ev_event_id e); ("run_id", ev_run_id e);
      ("event_type", ev_event_type e); ("occurred_at", ev_occurred_at e);
      ("producer", ev_producer e); ("payload", ev_payload e);
      ("stage_run_id", ev_stage_run_id e); ("attempt_id", ev_attempt_id e);
      ("schema_version", ev_schema_version e)].

Definition Event_from_dict (payload : json) : result Event :=
  value ← known_payload Event_class payload;
  d ← instantiate Event_class value;
  let e := MkEvent (field "event_id" JNull d) (field "run_id" JNull d)
                   (field "event_type" JNull d) (field "occurred_at" JNull d)
                   (field "producer" JNull d) (field "payload" (JObj []) d)
                   (field "stage_run_id" JNull d) (field "attempt_id" JNull d)
                   (field "schema_version" (JInt SCHEMA_VERSION) d) in
  Event_validate e;;
  Ok e.

(** ** The state machines *)

Definition run_step (s t : RuntimeStatus) : Prop := run_transition_allowed s t = true.
Definition attempt_step (s t : AttemptStatus) : Prop := attempt_transition_allowed s t = true.

#[export] Instance run_step_dec s t : Decision (run_step s t).
Proof. unfold run_step. apply _. Defined.

(** The statuses a run has had, the oldest first. *)
Inductive run_history : list RuntimeStatus → RuntimeStatus → Prop :=
| history_start : run_history [QUEUED] QUEUED
| history_step l s t : run_history l s → run_step s t → run_history (l ++ [t]) t.

Lemma run_step_terminal s t : is_terminal s = true → ¬ run_step s t.
Proof.
  unfold is_terminal, run_step, run_transition_allowed. intros H%bool_decide_eq_true.
  by rewrite bool_decide_true.
Qed.

Lemma is_terminal_spec s : is_terminal s = true ↔ s ∈ TERMINAL_RUNTIME_STATUSES.
Proof. apply bool_decide_eq_true. Qed.

Lemma runtime_status_of_str s : runtime_status_of (JStr (status_str s)) = Some s.
Proof. by destruct s. Qed.

Lemma runtime_status_of_Some v s : runtime_status_of v = Some s → v = JStr (status_str s).
Proof.
  destruct v; try done. cbn [runtime_status_of]. intros [_ H]%find_some.
  apply bool_decide_eq_true in H. by subst.
Qed.

Lemma status_str_inj s t : status_str s = status_str t → s = t.
Proof.
  intros H. assert (runtime_status_of (JStr (status_str s)) = Some t) as Hs.
  { by rewrite H, runtime_status_of_str. }
  rewrite runtime_status_of_str in Hs. by injection Hs.
Qed.

Lemma run_step_pred s t : run_step s t →
  match t with
  | SUCCEEDED | TIMED_OUT | RETRY_WAIT => s = RUNNING
  | RUNNING => s = PREPARING
  | PREPARING => s = QUEUED
  | QUEUED => s = RETRY_WAIT
  | CANCELLED => s = QUEUED ∨ s = CANCEL_REQUESTED
  | _ => is_terminal s = false
  end.
Proof. destruct s, t; vm_compute; intros ?; auto; discriminate. Qed.

Lemma run_history_last l s : run_history l s → ∃ l', l = l' ++ [s].
Proof. intros []; [by exists []|by exists l0]. Qed.

(** How far a status is from the end of an attempt at the run. *)
Definition status_rank (s : RuntimeStatus) : nat :=
  match s with
  | QUEUED => 5 | PREPARING => 4 | RUNNING => 3 | RETRY_WAIT => 2
  | CANCEL_REQUESTED => 1 | _ => 0
  end.

Lemma run_step_rank s t : run_step s t →
  (s = RETRY_WAIT ∧ t = QUEUED) ∨ (status_rank t < status_rank s)%nat.
Proof. destruct s, t; vm_compute; intros ?; (discriminate || auto || (right; lia)). Qed.

(** How many times a history went back from the retry queue to the start. *)
Definition requeues (l : list RuntimeStatus) : nat := length (List.filter (λ s, bool_decide (s = QUEUED)) l).

Lemma run_history_length l s : run_history l s →
  (length l + status_rank s ≤ 6 * requeues l)%nat.
Proof.
  induction 1 as [|l s t Hh IH Hstep]; [vm_compute; lia|].
  unfold requeues in *. rewrite List.filter_app, !length_app. simpl.
  destruct (run_step_rank _ _ Hstep) as [[-> ->]|Hr].
  - rewrite bool_decide_true by done. simpl in *. lia.
  - case_bool_decide; subst; simpl in *; [|lia]. destruct s; simpl in Hr; lia.
Qed.

(** ** Properties *)

(** In any history of the run state machine a terminal status is last, success and
    timeout come straight after PREPARING and RUNNING, and the number of steps is
    bounded by the number of passes through the queue. *)
Theorem run_machine_sound l s :
  run_history l s →
  (* a terminal status appears only at the end *)
  (∀ i t, l !! i = Some t → is_terminal t = true → S i = length l) ∧
  (* success and timeout are reached by preparing and then running the run *)
  (s = SUCCEEDED ∨ s = TIMED_OUT → ∃ l', l = l' ++ [PREPARING; RUNNING; s]) ∧
  (* between two passes through the queue there are at most five steps *)
  (length l ≤ 6 * requeues l)%nat.
Proof.
  intros H. split_and!.
  - induction H as [|l s t Hh IH Hstep]; intros i u Hi Hu.
    + by destruct i; simplify_eq/=.
    + rewrite length_app. simpl. apply lookup_snoc_Some in Hi as [[Hlt Hi]|[-> ->]]; [|lia].
      specialize (IH i u Hi Hu). destruct (run_history_last _ _ Hh) as [l' ->].
      rewrite length_app in *. simpl in *.
      rewrite lookup_app_r in Hi by lia. replace (i - length l')%nat with 0%nat in Hi by lia.
      simplify_eq/=. by destruct (run_step_terminal _ _ Hu Hstep).
  - intros Hs. inversion H as [|l1 s1 ? H1 S1]; subst; [by destruct Hs|].
    apply run_step_pred in S1. assert (s1 = RUNNING) as -> by (by destruct Hs; subst).
    clear H Hs.
    inversion H1 as [|l2 s2 ? H2 S2]; subst. apply run_step_pred in S2. simpl in S2. subst s2.
    destruct (run_history_last _ _ H2) as [l3 ->]. exists l3. by rewrite <-!app_assoc.
  - apply run_history_length in H. lia.
Qed.

Lemma run_machine_sound_witness :
  (length [QUEUED; PREPARING; RUNNING; SUCCEEDED] ≤ 6 * requeues [QUEUED; PREPARING; RUNNING; SUCCEEDED])%nat.
Proof.
  refine (proj2 (proj2 (run_machine_sound [QUEUED; PREPARING; RUNNING; SUCCEEDED] SUCCEEDED _))).
  apply (history_step [QUEUED; PREPARING; RUNNING] RUNNING); [|done].
  apply (history_step [QUEUED; PREPARING] PREPARING); [|done].
  apply (history_step [QUEUED] QUEUED); [constructor|done].
Defined.
