(* ===== verification/Evidence.v ===== *)
(** * contracts/input.py, resources.py and artifact.py

    The declarations a task and a plugin exchange with the platform: where input
    bytes come from, how much of the machine an attempt may use, and which
    artifacts and metrics are admissible. *)

From S2P Require Export Lifecycle.
Open Scope string_scope.
Open Scope list_scope.

Definition count_some (vs : list json) : nat :=
  length (List.filter (λ v, negb (is_null v)) vs).

(** ** InputFile *)

Record InputFile := MkInputFile {
  if_destination : json;
  if_source : json;
  if_artifact_id : json;
  if_input_id : json;
  if_required : json }.

#[export] Instance InputFile_eq_dec : EqDecision InputFile.
Proof. solve_decision. Defined.

Definition InputFile_class : dataclass :=
  Dataclass "InputFile"
    [("destination", true); ("source", false); ("artifact_id", false);
     ("input_id", false); ("required", false)].

Definition InputFile_validate (i : InputFile) : result unit :=
  validate_relative_path "input destination" (if_destination i);;
  raise_when (negb (bool_decide
    (count_some [if_source i; if_artifact_id i; if_input_id i] = 1%nat)))
    (ContractError "input location");;
  (if is_null (if_source i) then Ok tt
   else match if_source i with
        | JStr s =>
            raise_when (str_empty s) (ContractError "input source");;
            raise_when (negb (startswith "/" s)) (ContractError "input source path")
        | _ => Err (ContractError "input source")
        end);;
  (if is_null (if_artifact_id i) then Ok tt
   else validate_identifier "input artifact_id" (if_artifact_id i) true);;
  (if is_null (if_input_id i) then Ok tt
   else validate_identifier "input input_id" (if_input_id i) true).

Definition InputFile_to_dict (i : InputFile) : result dict :=
  InputFile_validate i;;
  Ok [("destination", if_destination i); ("source", if_source i);
      ("artifact_id", if_artifact_id i); ("input_id", if_input_id i);
      ("required", if_required i)].

Definition InputFile_from_dict (payload : json) : result InputFile :=
  only_fields "InputFile" (dc_names InputFile_class) payload;;
  has ← py_in "destination" payload;
  raise_when (negb has) (ContractError "InputFile destination");;
  value ← py_dict (TypeError "keywords") payload;
  d ← instantiate InputFile_class value;
  let i := MkInputFile (field "destination" JNull d) (field "source" JNull d)
                       (field "artifact_id" JNull d) (field "input_id" JNull d)
                       (field "required" (JBool true) d) in
  InputFile_validate i;;
  Ok i.

(** ** StagedInput *)

Record StagedInput := MkStagedInput {
  si_destination : json;
  si_present : json;
  si_size_bytes : json;
  si_sha256 : json;
  si_source : json;
  si_source_artifact_id : json;
  si_source_input_id : json }.

Definition StagedInput_class : dataclass :=
  Dataclass "StagedInput"
    [("destination", true); ("present", true); ("size_bytes", true); ("sha256", false);
     ("source", false); ("source_artifact_id", false); ("source_input_id", false)].

(** [not isinstance(v, int) or v < 0] *)
Definition bad_size (v : json) : bool :=
  match as_int v with Some z => (z <? 0)%Z | None => true end.

Definition StagedInput_validate (i : StagedInput) : result unit :=
  let sources := count_some [si_source_artifact_id i; si_source_input_id i] in
  validate_relative_path "input destination" (si_destination i);;
  raise_when (is_null (si_source i) && negb (bool_decide (sources = 1%nat)))
             (ContractError "staged input source");;
  raise_when (negb (is_null (si_source i)) && (1 <? sources)%nat)
             (ContractError "staged input provenance");;
  (if is_null (si_source_input_id i) then Ok tt
   else validate_identifier "staged source_input_id" (si_source_input_id i) true);;
  match si_present i with
  | JBool present =>
      raise_when (bad_size (si_size_bytes i)) (ContractError "input size_bytes");;
      if present then
        raise_when (is_null (si_sha256 i)) (ContractError "staged input sha256");;
        validate_sha256 "input sha256" (si_sha256 i) true
      else raise_when (negb (is_null (si_sha256 i))) (ContractError "absent sha256")
  | _ => Err (ContractError "input present")
  end.

Definition StagedInput_to_dict (i : StagedInput) : result dict :=
  StagedInput_validate i;;
  Ok [("destination", si_destination i); ("present", si_present i);
      ("size_bytes", si_size_bytes i); ("sha256", si_sha256 i);
      ("source", si_source i); ("source_artifact_id", si_source_artifact_id i);
      ("source_input_id", si_source_input_id i)].

Definition StagedInput_from_dict (payload : json) : result StagedInput :=
  only_fields "StagedInput" (dc_names StagedInput_class) payload;;
  iterM_result (λ k, has ← py_in k payload;
                     raise_when (negb has) (ContractError "StagedInput field"))
               ["destination"; "present"; "size_bytes"];;
  value ← py_dict (TypeError "keywords") payload;
  d ← instantiate StagedInput_class value;
  let i := MkStagedInput (field "destination" JNull d) (field "present" JNull d)
             (field "size_bytes" JNull d) (field "sha256" JNull d) (field "source" JNull d)
             (field "source_artifact_id" JNull d) (field "source_input_id" JNull d) in
  StagedInput_validate i;;
  Ok i.

(** ** ResourceRequest *)

Record ResourceRequest := MkResourceRequest {
  rr_cpu_seconds : json;
  rr_cpu_cores : json;
  rr_memory_bytes : json;
  rr_processes : json }.

#[export] Instance ResourceRequest_eq_dec : EqDecision ResourceRequest.
Proof. solve_decision. Defined.

Definition ResourceRequest_class : dataclass :=
  Dataclass "ResourceRequest"
    [("cpu_seconds", false); ("cpu_cores", false); ("memory_bytes", false);
     ("processes", false)].

Definition ResourceRequest_declared (r : ResourceRequest) : bool :=
  negb (is_null (rr_cpu_seconds r)) || negb (is_null (rr_cpu_cores r))
  || negb (is_null (rr_memory_bytes r)) || negb (is_null (rr_processes r)).

(** [value <= 0] of a number; not a number compares false. *)
Definition not_positive (v : json) : bool :=
  match json_real v with Some x => real_leb x (real_of_Z 0) | None => true end.
Definition is_number (v : json) : bool :=
  match v with JInt _ | JFloat _ => true | _ => false end.

Definition check_strict_int (what : string) (least : Z) (v : json) : result unit :=
  if is_null v then Ok tt
  else match as_strict_int v with
       | Some z => raise_when (z <? least)%Z (ContractError what)
       | None => Err (ContractError what)
       end.

Definition ResourceRequest_validate (r : ResourceRequest) : result unit :=
  (if is_null (rr_cpu_seconds r) then Ok tt
   else raise_when (negb (is_number (rr_cpu_seconds r))) (ContractError "cpu_seconds");;
        raise_when (not_positive (rr_cpu_seconds r)) (ContractError "cpu_seconds"));;
  check_strict_int "cpu_cores" 1 (rr_cpu_cores r);;
  check_strict_int "memory_bytes" 1 (rr_memory_bytes r);;
  check_strict_int "processes" 1 (rr_processes r).

Definition ResourceRequest_to_dict (r : ResourceRequest) : result dict :=
  ResourceRequest_validate r;;
  Ok [("cpu_seconds", rr_cpu_seconds r); ("cpu_cores", rr_cpu_cores r);
      ("memory_bytes", rr_memory_bytes r); ("processes", rr_processes r)].

Definition ResourceRequest_from_dict (payload : json) : result ResourceRequest :=
  only_fields "ResourceRequest" (dc_names ResourceRequest_class) payload;;
  value ← py_dict (TypeError "keywords") payload;
  d ← instantiate ResourceRequest_class value;
  let r := MkResourceRequest (field "cpu_seconds" JNull d) (field "cpu_cores" JNull d)
             (field "memory_bytes" JNull d) (field "processes" JNull d) in
  ResourceRequest_validate r;;
  Ok r.

(** ** Artifacts and metrics *)

Definition INPUT_MANIFEST_KIND : string := "runtime_input_manifest".
Definition INPUT_MANIFEST_FILENAME : string := "input_manifest.json".

Definition RESERVED_ARTIFACT_KINDS : list string :=
  ["runtime_protocol_receipt"; "runtime_evidence_request"; "runtime_evidence_result";
   "runtime_evidence_log"; "runtime_evidence_input_manifest";
   "runtime_evidence_protocol_receipt"; "runtime_bundle"; "protected_evaluation";
   INPUT_MANIFEST_KIND].

Definition RESERVED_METRIC_CONTEXT_KEYS : list string := ["runtime_authority"; "official_qor"].

Record ArtifactDeclaration := MkArtifactDeclaration {
  ad_kind : json;
  ad_path : json;
  ad_required : json;
  ad_media_type : json;
  ad_metadata : json;
  ad_allow_reserved : bool }.

Definition obj_get_null (k : string) (v : json) : json :=
  match v with JObj d => get_null k d | _ => JNull end.

Definition ArtifactDeclaration_validate (a : ArtifactDeclaration) : result unit :=
  validate_identifier "kind" (ad_kind a) true;;
  raise_when (bool_decide (ad_kind a ∈ JStr <$> RESERVED_ARTIFACT_KINDS)
              && negb (ad_allow_reserved a)) (ContractError "reserved kind");;
  raise_when (negb (nonempty_str (ad_path a))) (ContractError "artifact path");;
  validate_relative_path "artifact path" (ad_path a);;
  raise_when (negb (is_null (ad_media_type a)) && negb (is_str (ad_media_type a)))
             (ContractError "media_type");;
  validate_mapping "metadata" (ad_metadata a);;
  raise_when (negb (is_null (obj_get_null "runtime_authority" (ad_metadata a))))
             (ContractError "runtime_authority").

Record Artifact := MkArtifact {
  art_artifact_id : json;
  art_kind : json;
  art_store_key : json;
  art_sha256 : json;
  art_size_bytes : json;
  art_media_type : json;
  art_metadata : json;
  art_schema_version : json }.

Definition Artifact_validate (a : Artifact) : result unit :=
  validate_identifier "artifact_id" (art_artifact_id a) true;;
  validate_identifier "kind" (art_kind a) true;;
  raise_when (negb (nonempty_str (art_store_key a))) (ContractError "store_key");;
  validate_relative_path "store_key" (art_store_key a);;
  validate_sha256 "sha256" (art_sha256 a) true;;
  raise_when (bad_size (art_size_bytes a)) (ContractError "size_bytes");;
  validate_mapping "metadata" (art_metadata a).

Record Metric := MkMetric {
  m_name : json;
  m_value : json;
  m_unit : json;
  m_source_artifact_id : json;
  m_parser_id : json;
  m_parser_version : json;
  m_context : json;
  m_schema_version : json }.

Definition Metric_class : dataclass :=
  Dataclass "Metric"
    [("name", true); ("value", true); ("unit", false); ("source_artifact_id", false);
     ("parser_id", false); ("parser_version", false); ("context", false);
     ("schema_version", false)].

Definition is_scalar (v : json) : bool :=
  match v with JInt _ | JFloat _ | JBool _ | JStr _ => true | _ => false end.
Definition is_nan (v : json) : bool := match v with JFloat S754_nan => true | _ => false end.
Definition obj_keys (v : json) : list string :=
  match v with JObj d => dict_keys d | _ => [] end.

Definition Metric_validate (m : Metric) : result unit :=
  validate_identifier "name" (m_name m) true;;
  raise_when (negb (is_scalar (m_value m))) (ContractError "metric value");;
  raise_when (is_nan (m_value m)) (ContractError "metric value NaN");;
  (if is_null (m_unit m) then Ok tt else validate_identifier "unit" (m_unit m) true);;
  validate_identifier "source_artifact_id" (m_source_artifact_id m) false;;
  validate_identifier "parser_id" (m_parser_id m) false;;
  validate_identifier "parser_version" (m_parser_version m) false;;
  validate_mapping "context" (m_context m);;
  raise_when (existsb (λ k, bool_decide (k ∈ RESERVED_METRIC_CONTEXT_KEYS))
                      (obj_keys (m_context m))) (ContractError "reserved context").

Definition Metric_to_dict (m : Metric) : result dict :=
  Metric_validate m;;
  Ok [("name", m_name m); ("value", m_value m); ("unit", m_unit m);
      ("source_artifact_id", m_source_artifact_id m); ("parser_id", m_parser_id m);
      ("parser_version", m_parser_version m); ("context", m_context m);
      ("schema_version", m_schema_version m)].

(** [value.get(k) or {}] *)
Definition get_or_empty (k : string) (d : dict) : json :=
  let v := get_null k d in if truthy v then v else JObj [].

Definition Metric_from_dict (payload : json) : result Metric :=
  value ← known_payload Metric_class payload;
  context ← py_dict (ContractError "context") (get_or_empty "context" value);
  d ← instantiate Metric_class (dict_set "context" (JObj context) value);
  let m := MkMetric (field "name" JNull d) (field "value" JNull d) (field "unit" JNull d)
             (field "source_artifact_id" JNull d) (field "parser_id" JNull d)
             (field "parser_version" JNull d) (field "context" (JObj []) d)
             (field "schema_version" (JInt SCHEMA_VERSION) d) in
  Metric_validate m;;
  Ok m.

(** ** Round trips: what [to_dict] writes, [from_dict] reads *)

Lemma InputFile_roundtrip i d :
  InputFile_to_dict i = Ok d → InputFile_from_dict (JObj d) = Ok i.
Proof. roundtrip InputFile_to_dict InputFile_from_dict. Qed.

Lemma StagedInput_roundtrip i d :
  StagedInput_to_dict i = Ok d → StagedInput_from_dict (JObj d) = Ok i.
Proof. roundtrip StagedInput_to_dict StagedInput_from_dict. Qed.

Lemma ResourceRequest_roundtrip r d :
  ResourceRequest_to_dict r = Ok d → ResourceRequest_from_dict (JObj d) = Ok r.
Proof. roundtrip ResourceRequest_to_dict ResourceRequest_from_dict. Qed.

Lemma validate_mapping_Ok name v : validate_mapping name v = Ok tt ↔ ∃ d, v = JObj d.
Proof. destruct v; simpl; naive_solver. Qed.

Lemma get_or_empty_obj k d c : dict_get k d = Some (JObj c) → get_or_empty k d = JObj c.
Proof. unfold get_or_empty, get_null. intros ->. by destruct c. Qed.

Lemma Metric_roundtrip m d : Metric_to_dict m = Ok d → Metric_from_dict (JObj d) = Ok m.
Proof.
  unfold Metric_to_dict. intros H. apply bind_Ok in H as ([] & Hv & [= <-]).
  assert (∃ c, m_context m = JObj c) as [c Hc].
  { unfold Metric_validate in Hv. invert_ok. by eapply validate_mapping_Ok. }
  destruct m as [????? ? ctx ?]; simpl in Hc; subst ctx.
  unfold Metric_from_dict. read_back.
  rewrite (get_or_empty_obj "context" _ c) by reflexivity.
  read_back. by rewrite Hv.
Qed.

(** ** What validation establishes *)

Lemma validate_relative_path_Ok name v :
  validate_relative_path name v = Ok tt →
  ∃ s, v = JStr s ∧ validate_relative_path name (JStr s) = Ok tt.
Proof. destruct v; simpl; try done. eauto. Qed.

(** An input declaration that validates names a destination below whatever
    directory it is placed in, and exactly one source. *)
Lemma InputFile_validate_Ok i :
  InputFile_validate i = Ok tt →
  (∃ s, if_destination i = JStr s ∧
        ∀ root, ∃ p, relative_to root (path_resolve root s) = Some p ∧ ".." ∉ p) ∧
  count_some [if_source i; if_artifact_id i; if_input_id i] = 1%nat ∧
  (∀ s, if_source i = JStr s → startswith "/" s = true) ∧
  (if_source i = JNull ∨ is_str (if_source i) = true).
Proof.
  unfold InputFile_validate. intros H.
  apply bind_Ok in H as ([] & Hd & H). apply bind_Ok in H as ([] & Hc & H).
  apply bind_Ok in H as ([] & Hs & _). invert_ok. bool_simpl.
  destruct (validate_relative_path_Ok _ _ Hd) as (s & -> & Hp).
  split_and!; [|done| |].
  - exists s. split; [done|]. intros root. by eapply validated_path_contained.
  - intros t Ht. rewrite Ht in Hs. simpl in Hs. invert_ok. by bool_simpl.
  - destruct (if_source i); simpl in *; by auto.
Qed.
