(* ===== verification/Task.v ===== *)
(** * contracts/task.py: TaskSpec, RuntimeRequirements, PluginManifest, PluginResult

    The request, the capability's declaration of itself, and its answer.  Fields
    stay dynamically typed as in the dataclasses; the lemmas say what types and
    bounds [validate] leaves them with. *)

From S2P Require Export Evidence.
Open Scope string_scope.
Open Scope list_scope.

Definition DEFAULT_PROGRESS_MARKER : string := "[progress]".

(** ** TaskSpec *)

Record TaskSpec := MkTaskSpec {
  t_task_id : json;
  t_project_id : json;
  t_design_id : json;
  t_design_revision_id : json;
  t_experiment_id : json;
  t_input_manifest_sha256 : json;
  t_plugin_id : json;
  t_plugin_version : json;
  t_inputs : json;
  t_parameters : json;
  t_staged_inputs : list InputFile;
  t_resources : option ResourceRequest;
  t_timeout_seconds : json;
  t_max_attempts : json;
  t_expected_artifacts : list json;
  t_labels : json;
  t_schema_version : json }.

#[export] Instance TaskSpec_eq_dec : EqDecision TaskSpec.
Proof. solve_decision. Defined.

Definition TaskSpec_class : dataclass :=
  Dataclass "TaskSpec"
    [("task_id", true); ("project_id", true); ("design_id", true);
     ("design_revision_id", false); ("experiment_id", false);
     ("input_manifest_sha256", false); ("plugin_id", false); ("plugin_version", false);
     ("inputs", false); ("parameters", false); ("staged_inputs", false);
     ("resources", false); ("timeout_seconds", false); ("max_attempts", false);
     ("expected_artifacts", false); ("labels", false); ("schema_version", false)].

(** [not isinstance(v, int) or v <= 0] *)
Definition bad_positive (v : json) : bool :=
  match as_int v with Some z => (z <=? 0)%Z | None => true end.

(** [len(set(xs)) != len(xs)] *)
Definition has_duplicates (xs : list json) : bool := negb (bool_decide (NoDup xs)).

Definition TaskSpec_validate (t : TaskSpec) : result unit :=
  validate_version (t_schema_version t);;
  validate_identifier "task_id" (t_task_id t) true;;
  validate_identifier "project_id" (t_project_id t) true;;
  validate_identifier "design_id" (t_design_id t) true;;
  validate_identifier "design_revision_id" (t_design_revision_id t) false;;
  validate_identifier "experiment_id" (t_experiment_id t) false;;
  validate_sha256 "input_manifest_sha256" (t_input_manifest_sha256 t) false;;
  raise_when (is_null (t_plugin_id t)) (ContractError "plugin_id");;
  validate_identifier "plugin_id" (t_plugin_id t) false;;
  validate_identifier "plugin_version" (t_plugin_version t) false;;
  validate_mapping "inputs" (t_inputs t);;
  validate_mapping "parameters" (t_parameters t);;
  validate_mapping "labels" (t_labels t);;
  iterM_result InputFile_validate (t_staged_inputs t);;
  raise_when (has_duplicates (if_destination <$> t_staged_inputs t))
             (ContractError "staged destination");;
  (match t_resources t with Some r => ResourceRequest_validate r | None => Ok tt end);;
  raise_when (bad_positive (t_timeout_seconds t)) (ContractError "timeout_seconds");;
  raise_when (bad_positive (t_max_attempts t)) (ContractError "max_attempts");;
  raise_when (negb (forallb nonempty_str (t_expected_artifacts t)))
             (ContractError "expected_artifacts").

Definition ResourceRequest_primitive (r : ResourceRequest) : json :=
  JObj [("cpu_seconds", rr_cpu_seconds r); ("cpu_cores", rr_cpu_cores r);
        ("memory_bytes", rr_memory_bytes r); ("processes", rr_processes r)].
Definition InputFile_primitive (i : InputFile) : json :=
  JObj [("destination", if_destination i); ("source", if_source i);
        ("artifact_id", if_artifact_id i); ("input_id", if_input_id i);
        ("required", if_required i)].

(** [primitive(self)]: nested dataclasses become objects, tuples become lists. *)
Definition TaskSpec_primitive (t : TaskSpec) : dict :=
  [("task_id", t_task_id t); ("project_id", t_project_id t); ("design_id", t_design_id t);
   ("design_revision_id", t_design_revision_id t); ("experiment_id", t_experiment_id t);
   ("input_manifest_sha256", t_input_manifest_sha256 t); ("plugin_id", t_plugin_id t);
   ("plugin_version", t_plugin_version t); ("inputs", t_inputs t);
   ("parameters", t_parameters t);
   ("staged_inputs", JList (InputFile_primitive <$> t_staged_inputs t));
   ("resources", match t_resources t with
                 | Some r => ResourceRequest_primitive r
                 | None => JNull end);
   ("timeout_seconds", t_timeout_seconds t); ("max_attempts", t_max_attempts t);
   ("expected_artifacts", JList (t_expected_artifacts t)); ("labels", t_labels t);
   ("schema_version", t_schema_version t)].

Definition TaskSpec_to_dict (t : TaskSpec) : result dict :=
  TaskSpec_validate t;;
  Ok (TaskSpec_primitive t).

(** [tuple(value.get(k, ()))] *)
Definition tuple_field (k : string) (d : dict) : result (list json) :=
  match dict_get k d with Some v => py_tuple v | None => Ok [] end.

(** The three normalised fields become a tuple of JSON values, input declarations
    and a resource request; [instantiate] then sees only the names. *)
Definition TaskSpec_from_dict (payload : json) : result TaskSpec :=
  value ← known_payload TaskSpec_class payload;
  expected ← tuple_field "expected_artifacts" value;
  items ← tuple_field "staged_inputs" value;
  staged ← mapM_result InputFile_from_dict items;
  resources ← (let r := get_null "resources" value in
               if is_null r then Ok None
               else rr ← ResourceRequest_from_dict r; Ok (Some rr));
  d ← instantiate TaskSpec_class value;
  let t := MkTaskSpec
    (field "task_id" JNull d) (field "project_id" JNull d) (field "design_id" JNull d)
    (field "design_revision_id" JNull d) (field "experiment_id" JNull d)
    (field "input_manifest_sha256" JNull d) (field "plugin_id" JNull d)
    (field "plugin_version" JNull d) (field "inputs" (JObj []) d)
    (field "parameters" (JObj []) d) staged resources
    (field "timeout_seconds" (JInt 3600) d) (field "max_attempts" (JInt 1) d)
    expected (field "labels" (JObj []) d) (field "schema_version" (JInt SCHEMA_VERSION) d) in
  TaskSpec_validate t;;
  Ok t.

(** ** RuntimeRequirements *)

Record RuntimeRequirements := MkRuntimeRequirements {
  rq_require_protocol_receipt : json;
  rq_environment_receipt_variable : json;
  rq_require_experiment_protocol : json;
  rq_require_protected_evaluation : json;
  rq_resumable : json }.

#[export] Instance RuntimeRequirements_eq_dec : EqDecision RuntimeRequirements.
Proof. solve_decision. Defined.

Definition RuntimeRequirements_fields : list string :=
  ["require_protocol_receipt"; "environment_receipt_variable";
   "require_experiment_protocol"; "require_protected_evaluation"; "resumable"].

Definition RuntimeRequirements_default : RuntimeRequirements :=
  MkRuntimeRequirements (JBool false) JNull (JBool false) (JBool false) (JBool false).

Definition RuntimeRequirements_validate (r : RuntimeRequirements) : result unit :=
  raise_when (truthy (rq_require_protocol_receipt r)
              && negb (truthy (rq_environment_receipt_variable r)))
             (ContractError "environment_receipt_variable");;
  (if is_null (rq_environment_receipt_variable r) then Ok tt
   else validate_identifier "environment_receipt_variable"
          (rq_environment_receipt_variable r) true);;
  raise_when (truthy (rq_require_experiment_protocol r)
              && negb (truthy (rq_require_protocol_receipt r)))
             (ContractError "require_experiment_protocol").

Definition RuntimeRequirements_from_dict (payload : json) : result RuntimeRequirements :=
  match payload with
  | JNull => Ok RuntimeRequirements_default
  | _ =>
      data ← py_dict (TypeError "unknown RuntimeRequirements fields") payload;
      let d := dict_del "schema_version" data in
      raise_when (negb (forallb (λ k, bool_decide (k ∈ RuntimeRequirements_fields))
                                (dict_keys d)))
                 (ContractError "RuntimeRequirements");;
      let r := MkRuntimeRequirements
        (field "require_protocol_receipt" (JBool false) d)
        (field "environment_receipt_variable" JNull d)
        (field "require_experiment_protocol" (JBool false) d)
        (field "require_protected_evaluation" (JBool false) d)
        (field "resumable" (JBool false) d) in
      RuntimeRequirements_validate r;;
      Ok r
  end.

Definition RuntimeRequirements_primitive (r : RuntimeRequirements) : json :=
  JObj [("require_protocol_receipt", rq_require_protocol_receipt r);
        ("environment_receipt_variable", rq_environment_receipt_variable r);
        ("require_experiment_protocol", rq_require_experiment_protocol r);
        ("require_protected_evaluation", rq_require_protected_evaluation r);
        ("resumable", rq_resumable r)].

(** ** PluginManifest *)

Record PluginManifest := MkPluginManifest {
  pm_plugin_id : json;
  pm_plugin_version : json;
  pm_adapter_entry : list json;
  pm_capabilities : list json;
  pm_supported_arch : list json;
  pm_default_timeout_seconds : json;
  pm_artifact_rules : list json;
  pm_environment : json;
  pm_toolkit : json;
  pm_requirements : RuntimeRequirements;
  pm_progress_marker : json;
  pm_schema_version : json }.

#[export] Instance PluginManifest_eq_dec : EqDecision PluginManifest.
Proof. solve_decision. Defined.

Definition PluginManifest_class : dataclass :=
  Dataclass "PluginManifest"
    [("plugin_id", true); ("plugin_version", true); ("adapter_entry", true);
     ("capabilities", true); ("supported_arch", true); ("default_timeout_seconds", false);
     ("artifact_rules", false); ("environment", false); ("toolkit", false);
     ("requirements", false); ("progress_marker", false); ("schema_version", false)].

(** [not xs or not all(isinstance(i, str) and i for i in xs)] *)
Definition bad_strings (xs : list json) : bool :=
  match xs with [] => true | _ => negb (forallb nonempty_str xs) end.

(** [v <= 0], which raises for a value that is not a number. *)
Definition py_le_zero (v : json) : result bool :=
  match json_real v with
  | Some x => Ok (real_leb x (real_of_Z 0))
  | None => Err (TypeError "<=")
  end.

Definition obj_values (v : json) : list json :=
  match v with JObj d => snd <$> d | _ => [] end.
Definition str_of (v : json) : string := match v with JStr s => s | _ => EmptyString end.

Definition PluginManifest_validate (m : PluginManifest) : result unit :=
  validate_version (pm_schema_version m);;
  validate_identifier "plugin_id" (pm_plugin_id m) true;;
  validate_identifier "plugin_version" (pm_plugin_version m) true;;
  raise_when (bad_strings (pm_adapter_entry m)) (ContractError "adapter_entry");;
  raise_when (bad_strings (pm_capabilities m)) (ContractError "capabilities");;
  raise_when (bad_strings (pm_supported_arch m)) (ContractError "supported_arch");;
  validate_mapping "environment" (pm_environment m);;
  raise_when (negb (forallb is_str (obj_values (pm_environment m))))
             (ContractError "environment values");;
  validate_mapping "toolkit" (pm_toolkit m);;
  le ← py_le_zero (pm_default_timeout_seconds m);
  raise_when le (ContractError "default_timeout_seconds");;
  raise_when (negb (nonempty_str (pm_progress_marker m))) (ContractError "progress_marker");;
  raise_when (32 <? String.length (str_of (pm_progress_marker m)))%nat
             (ContractError "progress_marker length");;
  RuntimeRequirements_validate (pm_requirements m).

Definition PluginManifest_primitive (m : PluginManifest) : dict :=
  [("plugin_id", pm_plugin_id m); ("plugin_version", pm_plugin_version m);
   ("adapter_entry", JList (pm_adapter_entry m)); ("capabilities", JList (pm_capabilities m));
   ("supported_arch", JList (pm_supported_arch m));
   ("default_timeout_seconds", pm_default_timeout_seconds m);
   ("artifact_rules", JList (pm_artifact_rules m)); ("environment", pm_environment m);
   ("toolkit", pm_toolkit m); ("requirements", RuntimeRequirements_primitive (pm_requirements m));
   ("progress_marker", pm_progress_marker m); ("schema_version", pm_schema_version m)].

Definition PluginManifest_to_dict (m : PluginManifest) : result dict :=
  PluginManifest_validate m;;
  Ok (PluginManifest_primitive m).

Definition PluginManifest_from_dict (payload : json) : result PluginManifest :=
  value ← known_payload PluginManifest_class payload;
  entry ← tuple_field "adapter_entry" value;
  capabilities ← tuple_field "capabilities" value;
  arch ← tuple_field "supported_arch" value;
  rules ← tuple_field "artifact_rules" value;
  requirements ← RuntimeRequirements_from_dict (get_null "requirements" value);
  (* the three tuples are set whether or not they were given *)
  d ← instantiate PluginManifest_class
        (dict_set "adapter_entry" (JList entry)
          (dict_set "capabilities" (JList capabilities)
            (dict_set "supported_arch" (JList arch) value)));
  let m := MkPluginManifest
    (field "plugin_id" JNull d) (field "plugin_version" JNull d) entry capabilities arch
    (field "default_timeout_seconds" (JInt 3600) d) rules (field "environment" (JObj []) d)
    (field "toolkit" (JObj []) d) requirements
    (field "progress_marker" (JStr DEFAULT_PROGRESS_MARKER) d)
    (field "schema_version" (JInt SCHEMA_VERSION) d) in
  PluginManifest_validate m;;
  Ok m.

(** ** PluginResult *)

Record PluginResult := MkPluginResult {
  pr_status : RuntimeStatus;
  pr_exit_code : json;
  pr_started_at : json;
  pr_ended_at : json;
  pr_metrics : list json;
  pr_artifacts : list json;
  pr_failure : json;
  pr_provenance : json;
  pr_schema_version : json }.

Definition PluginResult_class : dataclass :=
  Dataclass "PluginResult"
    [("status", true); ("exit_code", true); ("started_at", true); ("ended_at", true);
     ("metrics", false); ("artifacts", false); ("failure", false); ("provenance", false);
     ("schema_version", false)].

Definition PluginResult_validate (r : PluginResult) : result unit :=
  validate_version (pr_schema_version r);;
  raise_when (negb (bool_decide (pr_status r ∈ [SUCCEEDED; FAILED; CANCELLED; TIMED_OUT])))
             (ContractError "status");;
  raise_when (negb (bool_decide (is_Some (as_int (pr_exit_code r))))) (ContractError "exit_code");;
  raise_when (bool_decide (pr_status r = SUCCEEDED)
              && negb (bool_decide (as_int (pr_exit_code r) = Some 0%Z)))
             (ContractError "exit_code 0");;
  raise_when (negb (truthy (pr_started_at r)) || negb (truthy (pr_ended_at r)))
             (ContractError "timestamps");;
  (if is_null (pr_failure r) then Ok tt else validate_mapping "failure" (pr_failure r));;
  validate_mapping "provenance" (pr_provenance r);;
  iterM_result (λ artifact,
    validate_mapping "artifact" artifact;;
    raise_when (negb (is_str (obj_get_null "kind" artifact))
                || negb (is_str (obj_get_null "path" artifact)))
               (ContractError "artifact kind and path")) (pr_artifacts r).

Definition PluginResult_primitive (r : PluginResult) : dict :=
  [("status", JStr (status_str (pr_status r))); ("exit_code", pr_exit_code r);
   ("started_at", pr_started_at r); ("ended_at", pr_ended_at r);
   ("metrics", JList (pr_metrics r)); ("artifacts", JList (pr_artifacts r));
   ("failure", pr_failure r); ("provenance", pr_provenance r);
   ("schema_version", pr_schema_version r)].

Definition PluginResult_to_dict (r : PluginResult) : result dict :=
  PluginResult_validate r;;
  Ok (PluginResult_primitive r).

Definition PluginResult_from_dict (payload : json) : result PluginResult :=
  value ← known_payload PluginResult_class payload;
  status ← of_option (ContractError "status")
             (v ← dict_get "status" value; runtime_status_of v);
  metrics ← tuple_field "metrics" value;
  artifacts ← tuple_field "artifacts" value;
  d ← instantiate PluginResult_class value;
  let r := MkPluginResult status
    (field "exit_code" JNull d) (field "started_at" JNull d) (field "ended_at" JNull d)
    metrics artifacts (field "failure" JNull d) (field "provenance" (JObj []) d)
    (field "schema_version" (JInt SCHEMA_VERSION) d) in
  PluginResult_validate r;;
  Ok r.

(** ** Round trips *)

Lemma InputFile_primitive_from_dict i :
  InputFile_validate i = Ok tt → InputFile_from_dict (InputFile_primitive i) = Ok i.
Proof.
  intros Hv. apply InputFile_roundtrip. unfold InputFile_to_dict. by rewrite Hv.
Qed.

Lemma ResourceRequest_primitive_from_dict r :
  ResourceRequest_validate r = Ok tt →
  ResourceRequest_from_dict (ResourceRequest_primitive r) = Ok r.
Proof.
  intros Hv. apply ResourceRequest_roundtrip. unfold ResourceRequest_to_dict. by rewrite Hv.
Qed.

Lemma RuntimeRequirements_primitive_from_dict r :
  RuntimeRequirements_validate r = Ok tt →
  RuntimeRequirements_from_dict (RuntimeRequirements_primitive r) = Ok r.
Proof. intros Hv. destruct r. cbv -[RuntimeRequirements_validate]. by rewrite Hv. Qed.

Lemma TaskSpec_validate_parts t :
  TaskSpec_validate t = Ok tt →
  Forall (λ i, InputFile_validate i = Ok tt) (t_staged_inputs t) ∧
  NoDup (if_destination <$> t_staged_inputs t) ∧
  (∀ r, t_resources t = Some r → ResourceRequest_validate r = Ok tt).
Proof.
  unfold TaskSpec_validate. intros H. invert_ok. unfold has_duplicates in *. bool_simpl.
  split_and!; try done. intros r Hr. by rewrite Hr in *.
Qed.

Lemma TaskSpec_roundtrip t d :
  TaskSpec_to_dict t = Ok d → TaskSpec_from_dict (JObj d) = Ok t.
Proof.
  unfold TaskSpec_to_dict. intros H. apply bind_Ok in H as ([] & Hv & [= <-]).
  destruct (TaskSpec_validate_parts _ Hv) as (Hs & _ & Hr).
  assert (mapM_result InputFile_from_dict (InputFile_primitive <$> t_staged_inputs t)
          = Ok (t_staged_inputs t)) as Hm.
  { apply mapM_result_fmap_id. intros i Hi. apply InputFile_primitive_from_dict.
    by eapply Forall_forall in Hs. }
  destruct t as [??????????? [r|] ?????]; simpl in Hm, Hr;
    [specialize (Hr r eq_refl)|];
    unfold TaskSpec_from_dict, TaskSpec_primitive, tuple_field; read_back;
    cbn [py_tuple t_staged_inputs t_expected_artifacts]; read_back; rewrite Hm; read_back;
    [|by rewrite Hv].
  apply ResourceRequest_primitive_from_dict in Hr. unfold ResourceRequest_primitive in Hr.
  rewrite Hr. read_back. by rewrite Hv.
Qed.

Lemma PluginManifest_roundtrip m d :
  PluginManifest_to_dict m = Ok d → PluginManifest_from_dict (JObj d) = Ok m.
Proof.
  unfold PluginManifest_to_dict. intros H. apply bind_Ok in H as ([] & Hv & [= <-]).
  assert (RuntimeRequirements_validate (pm_requirements m) = Ok tt) as Hr.
  { unfold PluginManifest_validate in Hv. by invert_ok. }
  apply RuntimeRequirements_primitive_from_dict in Hr.
  destruct m. cbn [pm_requirements] in Hr. unfold RuntimeRequirements_primitive in Hr.
  unfold PluginManifest_from_dict, PluginManifest_primitive, tuple_field. read_back.
  cbn [py_tuple pm_adapter_entry pm_capabilities pm_supported_arch pm_artifact_rules
       pm_requirements]. read_back.
  rewrite Hr. read_back. by rewrite Hv.
Qed.

Lemma PluginResult_roundtrip r d :
  PluginResult_to_dict r = Ok d → PluginResult_from_dict (JObj d) = Ok r.
Proof.
  unfold PluginResult_to_dict. intros H. apply bind_Ok in H as ([] & Hv & [= <-]).
  destruct r. unfold PluginResult_from_dict, PluginResult_primitive, tuple_field. read_back.
  cbn [py_tuple pr_status pr_metrics pr_artifacts]. read_back.
  rewrite runtime_status_of_str. read_back. by rewrite Hv.
Qed.
