(* ===== verification/Progress.v ===== *)
(** * contracts/progress.py: the progress envelope

    One output line of an adapter either is not an envelope, or decodes to a
    bounded, printable report, or is refused. *)

From S2P Require Export Task.
Open Scope string_scope.
Open Scope list_scope.

Definition MAX_ENVELOPE_BYTES : nat := 4096.
Definition MAX_STAGE_LENGTH : nat := 64.

Inductive ProgressPhase := PH_STARTED | PH_FINISHED.
Inductive ProgressStatus := PS_SUCCEEDED | PS_FAILED | PS_CANCELLED.

#[export] Instance ProgressPhase_eq_dec : EqDecision ProgressPhase.
Proof. solve_decision. Defined.
#[export] Instance ProgressStatus_eq_dec : EqDecision ProgressStatus.
Proof. solve_decision. Defined.

Definition phase_str (p : ProgressPhase) : string :=
  match p with PH_STARTED => "started" | PH_FINISHED => "finished" end.
Definition pstatus_str (s : ProgressStatus) : string :=
  match s with PS_SUCCEEDED => "succeeded" | PS_FAILED => "failed" | PS_CANCELLED => "cancelled" end.

(** [ProgressPhase(v)] and [ProgressStatus(v)]. *)
Definition phase_of (v : json) : option ProgressPhase :=
  List.find (λ p, bool_decide (JStr (phase_str p) = v)) [PH_STARTED; PH_FINISHED].
Definition pstatus_of (v : json) : option ProgressStatus :=
  List.find (λ p, bool_decide (JStr (pstatus_str p) = v)) [PS_SUCCEEDED; PS_FAILED; PS_CANCELLED].

(** A phase given as null stays [None]. *)
Record ProgressReport := MkProgressReport {
  pg_stage : json;
  pg_phase : option ProgressPhase;
  pg_status : option ProgressStatus;
  pg_seconds : json;
  pg_detail : json;
  pg_schema_version : json }.

#[export] Instance ProgressReport_eq_dec : EqDecision ProgressReport.
Proof. solve_decision. Defined.

Definition ProgressReport_class : dataclass :=
  Dataclass "ProgressReport"
    [("stage", true); ("phase", true); ("status", false); ("seconds", false);
     ("detail", false); ("schema_version", false)].

(** [ord(ch) < 0x20 or ord(ch) == 0x7F] *)
Definition is_control (c : ascii) : bool :=
  (N_of_ascii c <? 32)%N || (N_of_ascii c =? 127)%N.

(** [not isinstance(v, (int, float)) or v < 0] *)
Definition bad_seconds (v : json) : bool :=
  match json_real v with Some x => real_ltb x (real_of_Z 0) | None => true end.

Definition ProgressReport_validate (r : ProgressReport) : result unit :=
  validate_version (pg_schema_version r);;
  raise_when (negb (nonempty_str (pg_stage r))) (ContractError "progress stage");;
  raise_when (MAX_STAGE_LENGTH <? String.length (str_of (pg_stage r)))%nat
             (ContractError "progress stage length");;
  raise_when (negb (str_forall (λ c, negb (is_control c)) (str_of (pg_stage r))))
             (ContractError "progress stage control");;
  raise_when (bool_decide (pg_phase r = Some PH_FINISHED) && bool_decide (pg_status r = None))
             (ContractError "finished status");;
  raise_when (bool_decide (pg_phase r = Some PH_STARTED) && negb (bool_decide (pg_status r = None)))
             (ContractError "started status");;
  raise_when (negb (is_null (pg_seconds r)) && bad_seconds (pg_seconds r))
             (ContractError "seconds");;
  validate_mapping "detail" (pg_detail r).

Definition ProgressReport_primitive (r : ProgressReport) : dict :=
  [("stage", pg_stage r); ("phase", opt_json (phase_str <$> pg_phase r));
   ("status", opt_json (pstatus_str <$> pg_status r)); ("seconds", pg_seconds r);
   ("detail", pg_detail r); ("schema_version", pg_schema_version r)].

Definition ProgressReport_to_dict (r : ProgressReport) : result dict :=
  ProgressReport_validate r;;
  Ok (ProgressReport_primitive r).

(** [if key in value and value[key] is not None: value[key] = enum(value[key])] *)
Definition enum_field {E} (parse : json → option E) (k : string) (d : dict) : result (option E) :=
  let v := get_null k d in
  if is_null v then Ok None
  else e ← of_option (ContractError k) (parse v); Ok (Some e).

Definition ProgressReport_from_dict (payload : json) : result ProgressReport :=
  value ← known_payload ProgressReport_class payload;
  phase ← enum_field phase_of "phase" value;
  status ← enum_field pstatus_of "status" value;
  detail ← py_dict (ContractError "detail") (get_or_empty "detail" value);
  d ← instantiate ProgressReport_class value;
  let r := MkProgressReport (field "stage" JNull d) phase status (field "seconds" JNull d)
             (JObj detail) (field "schema_version" (JInt SCHEMA_VERSION) d) in
  ProgressReport_validate r;;
  Ok r.

(** [str.isspace] on the characters of this model. *)
Definition is_space (c : ascii) : bool :=
  in_range 9 13 c || in_range 28 32 c || in_range 133 133 c || in_range 160 160 c.

Fixpoint lstrip (s : string) : string :=
  match s with
  | EmptyString => EmptyString
  | String c s' => if is_space c then lstrip s' else s
  end.
Fixpoint str_rev_app (s acc : string) : string :=
  match s with EmptyString => acc | String c s' => str_rev_app s' (String c acc) end.
Definition str_rev (s : string) : string := str_rev_app s EmptyString.
(** [s.strip()] *)
Definition strip (s : string) : string := str_rev (lstrip (str_rev (lstrip s))).
(** [s[n:]] *)
Fixpoint str_drop (n : nat) (s : string) : string :=
  match n, s with
  | O, _ => s
  | S n', String _ s' => str_drop n' s'
  | S _, EmptyString => EmptyString
  end.

(** The two dicts merged left to right: the keys of [d2] win. *)
Definition dict_update (d1 d2 : dict) : dict :=
  fold_left (λ d kv, dict_set (fst kv) (snd kv) d) d2 d1.

Section decode.
(** [json.loads], [None] where it raises [JSONDecodeError]. *)
Context (loads : string → option json).

Definition decode_progress_line (line marker : string) : result (option ProgressReport) :=
  let stripped := strip line in
  if negb (startswith marker stripped) then Ok None
  else
    let payload_text := strip (str_drop (String.length marker) stripped) in
    if str_empty payload_text || (MAX_ENVELOPE_BYTES <? String.length payload_text)%nat
    then Err (ContractError "progress envelope size")
    else
      payload ← of_option (ContractError "progress envelope JSON") (loads payload_text);
      match payload with
      | JObj d =>
          r ← ProgressReport_from_dict
                (JObj (dict_update [("schema_version", JInt SCHEMA_VERSION)] d));
          Ok (Some r)
      | _ => Err (ContractError "progress envelope object")
      end.
End decode.

(** ** Facts *)

Lemma ProgressReport_validate_Ok r :
  ProgressReport_validate r = Ok tt →
  (∃ s, pg_stage r = JStr s ∧ s ≠ EmptyString ∧ (String.length s ≤ MAX_STAGE_LENGTH)%nat ∧
        str_forall (λ c, negb (is_control c)) s = true) ∧
  (pg_phase r = Some PH_FINISHED → pg_status r ≠ None) ∧
  (pg_phase r = Some PH_STARTED → pg_status r = None) ∧
  ∃ d, pg_detail r = JObj d.
Proof.
  unfold ProgressReport_validate. intros H. invert_ok. bool_simpl. split_and!.
  - destruct (pg_stage r) as [| | | |s| |]; try done. exists s. simpl in *.
    split_and!; [done|by intros ->|by apply Nat.ltb_ge|done].
  - intros Hp Hs. by rewrite Hp, Hs in *.
  - intros Hp. rewrite Hp in *. by destruct (pg_status r).
  - by eapply validate_mapping_Ok.
Qed.

Lemma enum_field_read {E} (parse : json → option E) (print : E → string) o k d :
  (∀ e, parse (JStr (print e)) = Some e) → get_null k d = opt_json (print <$> o) →
  enum_field parse k d = Ok o.
Proof. intros Hp Hd. unfold enum_field. rewrite Hd. destruct o as [e|]; [|done]. simpl. by rewrite Hp. Qed.

Lemma ProgressReport_roundtrip r d :
  ProgressReport_to_dict r = Ok d → ProgressReport_from_dict (JObj d) = Ok r.
Proof.
  unfold ProgressReport_to_dict. intros H. apply bind_Ok in H as ([] & Hv & [= <-]).
  destruct (ProgressReport_validate_Ok _ Hv) as (_ & _ & _ & c & Hc).
  destruct r as [? ph ps ? dt ?]; simpl in Hc; subst dt.
  unfold ProgressReport_from_dict, ProgressReport_primitive. read_back.
  rewrite (get_or_empty_obj "detail" _ c) by reflexivity.
  rewrite (enum_field_read _ phase_str ph "phase") by (done || by intros []).
  rewrite (enum_field_read _ pstatus_str ps "status") by (done || by intros []).
  read_back. by rewrite Hv.
Qed.
