(* ===== verification/Json.v ===== *)
(** * json.dumps

    The text Python's [json.dumps] prints for a document, in the styles the code
    asks for, and the theorem that the compact text determines the document.  The
    digits of a float ([float.__repr__]) are the parameter [float_repr].  Characters
    are 8-bit: a character above 126 prints as its [\u00XX] escape. *)

From stdpp Require Import pretty.
From S2P Require Export PyValue.
Open Scope string_scope.
Open Scope list_scope.

(** The keyword arguments of one call. *)
Record style := Style {
  sort_keys : bool;
  indent : option nat;
  item_sep : string;
  key_sep : string;
  ensure_ascii : bool }.

(** [sort_keys=True, separators=(",", ":")] *)
Definition compact : style := Style true None "," ":" true.
(** [indent=2, sort_keys=True] *)
Definition indented : style := Style true (Some 2) "," ": " true.
(** [sort_keys=True] *)
Definition sorted_keys : style := Style true None ", " ": " true.
(** [indent=2, ensure_ascii=False] *)
Definition request_style : style := Style false (Some 2) "," ": " false.

(** ** Strings *)

Definition hex_digit (n : N) : ascii :=
  ascii_of_N (if (n <? 10)%N then 48 + n else 87 + n).
Definition unicode_escape (c : ascii) : string :=
  let n := N_of_ascii c in
  "\u00" +:+ String (hex_digit (n / 16)) (String (hex_digit (n mod 16)) EmptyString).

Definition esc_char (ascii_only : bool) (c : ascii) : string :=
  let n := N_of_ascii c in
  if (n =? 34)%N then String "\" (String c EmptyString)
  else if (n =? 92)%N then "\\"
  else if (n =? 8)%N then "\b"
  else if (n =? 9)%N then "\t"
  else if (n =? 10)%N then "\n"
  else if (n =? 12)%N then "\f"
  else if (n =? 13)%N then "\r"
  else if (n <? 32)%N || (ascii_only && (126 <? n)%N) then unicode_escape c
  else String c EmptyString.

Fixpoint escape (ascii_only : bool) (s : string) : string :=
  match s with
  | EmptyString => EmptyString
  | String c s' => esc_char ascii_only c +:+ escape ascii_only s'
  end.

Definition quote_char : ascii := "034".
Definition quote (ascii_only : bool) (s : string) : string :=
  String quote_char (escape ascii_only s +:+ String quote_char EmptyString).

(** ** Documents *)

Fixpoint str_join (sep : string) (l : list string) : string :=
  match l with
  | [] => EmptyString
  | [x] => x
  | x :: l' => x +:+ sep +:+ str_join sep l'
  end.

Fixpoint spaces (n : nat) : string :=
  match n with O => EmptyString | S n' => String " " (spaces n') end.

(** The line break before an item at [level]. *)
Definition newline (st : style) (level : nat) : string :=
  match indent st with
  | Some n => String "010" (spaces (n * level))
  | None => EmptyString
  end.

Definition key_le (x y : string * string) : Prop := String.le (fst x) (fst y).
#[export] Instance key_le_dec : RelDecision key_le.
Proof. intros x y. unfold key_le. apply _. Defined.

(** Opening and closing marks around items, [[]] and [{}] when there are none. *)
Definition bracketed (st : style) (level : nat) (l r : string) (items : list string) : string :=
  match items with
  | [] => l +:+ r
  | _ => l +:+ newline st (S level) +:+ str_join (item_sep st +:+ newline st (S level)) items
           +:+ newline st level +:+ r
  end.

Section dumps.
Context (float_repr : spec_float → string) (st : style).

Fixpoint dumps_at (level : nat) (v : json) : string :=
  match v with
  | JNull => "null"
  | JBool b => if b then "true" else "false"
  | JInt z => pretty z
  | JFloat f => float_repr f
  | JStr s => quote (ensure_ascii st) s
  | JList l => bracketed st level "[" "]" (map (dumps_at (S level)) l)
  | JObj d =>
      let items := map (λ kv, let '(k, w) := kv in (k, dumps_at (S level) w)) d in
      let items := if sort_keys st then merge_sort key_le items else items in
      bracketed st level "{" "}"
        (map (λ kv, let '(k, t) := kv in quote (ensure_ascii st) k +:+ key_sep st +:+ t) items)
  end.

Definition dumps (v : json) : string := dumps_at 0 v.
End dumps.

(** ** The compact text determines the document *)

(** The compact style before its keys are sorted. *)
Definition unsorted : style := Style false None "," ":" true.

Fixpoint no_floats (v : json) : bool :=
  match v with
  | JFloat _ => false
  | JList l => forallb no_floats l
  | JObj d => forallb (λ kv, let '(k, w) := kv in no_floats w) d
  | _ => true
  end.

Definition unescape (s : string) : option (ascii * string) :=
  let unhex d := (if (N_of_ascii d <? 58)%N then N_of_ascii d - 48 else N_of_ascii d - 87)%N in
  match s with
  | String "\" (String c s') =>
      match N_of_ascii c with
      | 98 => Some ("008"%char, s') | 116 => Some ("009"%char, s')
      | 110 => Some ("010"%char, s') | 102 => Some ("012"%char, s')
      | 114 => Some ("013"%char, s')
      | 117 => match s' with
               | String _ (String _ (String a (String b s''))) =>
                   Some (ascii_of_N (16 * unhex a + unhex b), s'')
               | _ => None
               end
      | _ => Some (c, s')
      end%N
  | String c s' => Some (c, s')
  | EmptyString => None
  end.

Lemma unescape_esc c s : unescape (esc_char true c +:+ s) = Some (c, s).
Proof. destruct c as [[] [] [] [] [] [] [] []]; reflexivity. Qed.

Lemma esc_char_not_quote c s r : esc_char true c +:+ s ≠ String quote_char r.
Proof. destruct c as [[] [] [] [] [] [] [] []]; discriminate. Qed.

Lemma quote_inj s s' r r' :
  quote true s +:+ r = quote true s' +:+ r' → s = s' ∧ r = r'.
Proof.
  unfold quote. rewrite !str_app_cons. intros [= H].
  rewrite !str_app_assoc, !str_app_cons, !str_app_nil in H. revert s' H.
  induction s as [|c s IH]; intros [|c' s'] H; cbn [escape] in H; rewrite ?str_app_nil, ?str_app_assoc, ?str_app_cons in H.
  - by injection H.
  - symmetry in H. by apply esc_char_not_quote in H.
  - by apply esc_char_not_quote in H.
  - apply (f_equal unescape) in H. rewrite !unescape_esc in H. injection H as <- H.
    destruct (IH s' H) as [<- <-]. done.
Qed.

(** What can follow a document: nothing, or one of the marks [,] []] [}]. *)
Definition delimited (r : string) : bool :=
  match r with EmptyString => true | String c _ => one_of ",]}" c end.
Definition numeric (c : ascii) : bool := is_digit c || bool_decide (c = "-"%char).

Lemma pretty_go_numeric n s : str_forall numeric s = true → str_forall numeric (pretty_N_go n s) = true.
Proof.
  revert s. induction (N.lt_wf_0 n) as [n _ IH]; intros s Hs.
  assert (n = 0 ∨ 0 < n)%N as [-> |?] by lia; [done|].
  rewrite pretty_N_go_step by done. apply IH; [by apply N.div_lt|].
  simpl. rewrite Hs, andb_true_r. unfold pretty_N_char. by repeat case_match.
Qed.

Lemma pretty_go_nonempty n s : s ≠ EmptyString → pretty_N_go n s ≠ EmptyString.
Proof.
  revert s. induction (N.lt_wf_0 n) as [n _ IH]; intros s Hs.
  assert (n = 0 ∨ 0 < n)%N as [-> |?] by lia; [done|].
  rewrite pretty_N_go_step by done. apply IH; [by apply N.div_lt|done].
Qed.

Lemma pretty_numeric (z : Z) : str_forall numeric (pretty z) = true ∧ pretty z ≠ EmptyString.
Proof.
  assert (∀ p : positive, str_forall numeric (pretty p) = true ∧ pretty p ≠ EmptyString) as Hp.
  { intros p. change (pretty p) with (pretty_N_go (Npos p) EmptyString). split.
    - by apply pretty_go_numeric.
    - rewrite pretty_N_go_step by done. by apply pretty_go_nonempty. }
  destruct z as [|p|p]; [done|apply Hp|]. change (pretty (Zneg p)) with ("-" +:+ pretty p).
  split; [|done]. rewrite str_forall_app. by rewrite (proj1 (Hp p)).
Qed.

(** A word over one alphabet, then something that does not start in it. *)
Lemma word_inj (p : ascii → bool) s s' r r' :
  str_forall p s = true → str_forall p s' = true →
  (∀ c t, r = String c t → p c = false) → (∀ c t, r' = String c t → p c = false) →
  s +:+ r = s' +:+ r' → s = s' ∧ r = r'.
Proof.
  revert s'. induction s as [|c s IH]; intros [|c' s'] Hs Hs' Hr Hr' H; rewrite ?str_app_nil, ?str_app_cons in H; simpl in Hs, Hs'; bool_simpl.
  - done.
  - subst r. specialize (Hr c' _ eq_refl). congruence.
  - subst r'. specialize (Hr' c _ eq_refl). congruence.
  - injection H as <- H. destruct (IH s') as [-> ->]; done.
Qed.

Lemma delimited_not_numeric r c t : delimited r = true → r = String c t → numeric c = false.
Proof.
  intros H ->. simpl in H. destruct c as [[] [] [] [] [] [] [] []]; try done; discriminate.
Qed.

Section injective.
Context (float_repr : spec_float → string).
Local Abbreviation text := (dumps_at float_repr unsorted).

(** One item of an object. *)
Definition item_text (level : nat) (kv : string * json) : string :=
  let '(k, w) := kv in quote true k +:+ ":" +:+ text level w.

Lemma str_join_cons x l :
  str_join "," (x :: l) = x +:+ match l with [] => EmptyString | _ => "," +:+ str_join "," l end.
Proof. destruct l; [|done]. induction x as [|c x IH]; [done|]. by rewrite str_app_cons, <-IH. Qed.

Lemma text_list level l :
  text level (JList l) = "[" +:+ str_join "," (map (text (S level)) l) +:+ "]".
Proof. by destruct l. Qed.
Lemma text_obj level d :
  text level (JObj d) = "{" +:+ str_join "," (map (item_text (S level)) d) +:+ "}".
Proof.
  cbn [dumps_at sort_keys unsorted ensure_ascii key_sep].
  rewrite List.map_map. replace (map _ d) with (map (item_text (S level)) d); [by destruct d|].
  apply List.map_ext. by intros [k w].
Qed.

(** A number starts with a digit or a minus sign. *)
Lemma numeric_head (z : Z) s : ∃ c t, pretty z +:+ s = String c t ∧ numeric c = true.
Proof.
  destruct (pretty_numeric z) as [Hn Hne]. destruct (pretty z) as [|c t]; [done|].
  simpl in Hn. bool_simpl. exists c, (t +:+ s). split; done.
Qed.

Lemma text_head v level s c t : no_floats v = true → one_of ",]}" c = true →
  text level v +:+ s ≠ String c t.
Proof.
  intros Hf Hc Heq. destruct v as [|[]|z|f|x|l|d]; try done.
  1-3: injection Heq as <- _; discriminate Hc.
  - destruct (numeric_head z s) as (c' & t' & Hz & Hn). cbn [dumps_at] in Heq.
    rewrite Hz in Heq. injection Heq as <- _.
    by rewrite (delimited_not_numeric (String c' t) c' t) in Hn.
  - injection Heq as <- _; discriminate Hc.
  - rewrite text_list in Heq. injection Heq as <- _; discriminate Hc.
  - rewrite text_obj in Heq. injection Heq as <- _; discriminate Hc.
Qed.

(** Items between commas, up to a closing mark, determine the list. *)
Lemma items_inj {A} (p : A → string) (Q : A → bool) close l : one_of "]}" close = true →
  (∀ x s t c, Q x = true → one_of ",]}" c = true → p x +:+ s ≠ String c t) →
  Forall (λ x, ∀ x' r r', Q x' = true → delimited r = true → delimited r' = true →
            p x +:+ r = p x' +:+ r' → x = x' ∧ r = r') l →
  ∀ l' r r', forallb Q l = true → forallb Q l' = true →
    str_join "," (map p l) +:+ String close r = str_join "," (map p l') +:+ String close r' →
    l = l' ∧ r = r'.
Proof.
  intros Hc Hhead Hl.
  assert (close ≠ ","%char ∧ one_of ",]}" close = true) as [Hne Hc'].
  { destruct close as [[] [] [] [] [] [] [] []]; done. }
  induction Hl as [|x l Hx Hl IH]; intros [|x' l'] r r' HQ HQ' H; simpl in HQ, HQ'; bool_simpl;
    cbn [map] in H; rewrite ?str_join_cons, ?str_app_assoc in H; cbn [str_join] in H; rewrite ?str_app_nil in H.
  - injection H as ->. done.
  - symmetry in H. by apply Hhead in H.
  - by apply Hhead in H.
  - apply Hx in H as [<- H]; [|done| |].
    + destruct l as [|y l], l' as [|y' l']; cbn [map] in H;
        rewrite ?str_app_nil, ?str_app_assoc, ?str_app_cons, ?str_app_nil in H.
      * injection H as ->. done.
      * by injection H as ? _.
      * by injection H as ? _.
      * injection H as H. destruct (IH (y' :: l') r r') as [-> ->]; done.
    + destruct l; [|done]. rewrite str_app_nil. done.
    + destruct l'; [|done]. rewrite str_app_nil. done.
Qed.

(** A number's text is not the text of anything else. *)
Lemma int_text_inj z level v r r' : no_floats v = true →
  delimited r = true → delimited r' = true →
  pretty z +:+ r = text level v +:+ r' → JInt z = v ∧ r = r'.
Proof.
  intros Hf Hr Hr' H. destruct v as [|b|z'|f|s|l|d]; [| | |done|..].
  3: { destruct (pretty_numeric z) as [Hn _], (pretty_numeric z') as [Hn' _].
       apply (word_inj numeric) in H as [H <-]; [|done|done|intros c t; by apply delimited_not_numeric..].
       split; [|done]. f_equal. by apply pretty_Z_inj. }
  all: exfalso; destruct (numeric_head z r) as (c & t & Hz & Hc); rewrite Hz in H;
    rewrite ?text_list, ?text_obj in H; try destruct b; injection H as -> _; discriminate Hc.
Qed.

Lemma text_inj v : no_floats v = true → ∀ level v' r r', no_floats v' = true →
  delimited r = true → delimited r' = true →
  text level v +:+ r = text level v' +:+ r' → v = v' ∧ r = r'.
Proof.
  induction v as [|b|z|f|s|l IH|d IH] using json_ind'; intros Hf level v' r r' Hf' Hr Hr' H;
    [| |by eapply int_text_inj|done|..];
    (destruct v' as [|b'|z'|f'|s'|l'|d'];
       [| |symmetry in H; apply int_text_inj in H as [? ?]; [discriminate|done..]|done|..]);
    rewrite ?text_list, ?text_obj in H; try destruct b; try destruct b'; try discriminate H.
  1-3: injection H as H; rewrite !str_app_nil in H; by subst.
  - apply quote_inj in H as [-> ->]. done.
  - injection H as H. rewrite !str_app_assoc in H.
    apply (items_inj _ no_floats "]") in H as [-> ->]; [done|done|intros; by apply text_head| |done|done].
    rewrite Forall_forall in IH |- *. intros x Hx x' s s' ???. apply IH; try done.
    simpl in Hf. rewrite forallb_elem in Hf. by apply Hf.
  - injection H as H. rewrite !str_app_assoc in H.
    apply (items_inj _ (λ kv, let '(k, w) := kv in no_floats w) "}") in H as [-> ->];
      [done|done| | |done|done].
    + intros [k w] s t c _ Hc Heq. injection Heq as <- _. discriminate Hc.
    + rewrite Forall_forall in IH |- *. intros [k w] Hx [k' w'] s s' ??? Heq.
      unfold item_text in Heq. rewrite !str_app_assoc in Heq.
      apply quote_inj in Heq as [-> Heq]. injection Heq as Heq.
      apply (IH _ Hx) in Heq as [Hw ->]; [simpl in Hw; by subst|..]; try done.
      simpl in Hf. rewrite forallb_forall in Hf. by apply (Hf (k', w)), list_elem_of_In.
Qed.

(** Equal texts, equal documents. *)
Lemma dumps_inj v v' : no_floats v = true → no_floats v' = true →
  dumps float_repr unsorted v = dumps float_repr unsorted v' → v = v'.
Proof.
  intros Hf Hf' H. apply (text_inj v Hf 0 v' EmptyString EmptyString); [done..|].
  unfold dumps in H. by rewrite H.
Qed.
End injective.
