(* ===== verification/ContractProps.v ===== *)
(** * What the contracts guarantee

    Round trips of every contract, and what a payload must have been for
    [from_dict] to accept it. *)

From S2P Require Export Progress.
Open Scope string_scope.
Open Scope list_scope.

Lemma Event_roundtrip e d : Event_to_dict e = Ok d → Event_from_dict (JObj d) = Ok e.
Proof. roundtrip Event_to_dict Event_from_dict. Qed.

(** C32. Whatever a contract class writes with to_dict it reads back with from_dict as
    the same value, for tasks, manifests, results, inputs, resources, metrics,
    progress reports and events. *)
Theorem contracts_roundtrip :
  (∀ t d, TaskSpec_to_dict t = Ok d → TaskSpec_from_dict (JObj d) = Ok t) ∧
  (∀ m d, PluginManifest_to_dict m = Ok d → PluginManifest_from_dict (JObj d) = Ok m) ∧
  (∀ r d, PluginResult_to_dict r = Ok d → PluginResult_from_dict (JObj d) = Ok r) ∧
  (∀ i d, InputFile_to_dict i = Ok d → InputFile_from_dict (JObj d) = Ok i) ∧
  (∀ i d, StagedInput_to_dict i = Ok d → StagedInput_from_dict (JObj d) = Ok i) ∧
  (∀ r d, ResourceRequest_to_dict r = Ok d → ResourceRequest_from_dict (JObj d) = Ok r) ∧
  (∀ m d, Metric_to_dict m = Ok d → Metric_from_dict (JObj d) = Ok m) ∧
  (∀ r d, ProgressReport_to_dict r = Ok d → ProgressReport_from_dict (JObj d) = Ok r) ∧
  (∀ e d, Event_to_dict e = Ok d → Event_from_dict (JObj d) = Ok e).
Proof.
  split_and!; intros *;
    [apply TaskSpec_roundtrip|apply PluginManifest_roundtrip|apply PluginResult_roundtrip
    |apply InputFile_roundtrip|apply StagedInput_roundtrip|apply ResourceRequest_roundtrip
    |apply Metric_roundtrip|apply ProgressReport_roundtrip|apply Event_roundtrip].
Qed.

Lemma contracts_roundtrip_witness :
  TaskSpec_from_dict (JObj (TaskSpec_primitive
    (MkTaskSpec (JStr "t") (JStr "p") (JStr "d") JNull JNull JNull (JStr "x") JNull (JObj [])
       (JObj []) [MkInputFile (JStr "in/a.v") (JStr "/data/a.v") JNull JNull (JBool true)]
       (Some (MkResourceRequest JNull (JInt 2) (JInt 1000) JNull)) (JInt 60) (JInt 3)
       [JStr "report"] (JObj []) (JInt 3))))
  = Ok (MkTaskSpec (JStr "t") (JStr "p") (JStr "d") JNull JNull JNull (JStr "x") JNull (JObj [])
       (JObj []) [MkInputFile (JStr "in/a.v") (JStr "/data/a.v") JNull JNull (JBool true)]
       (Some (MkResourceRequest JNull (JInt 2) (JInt 1000) JNull)) (JInt 60) (JInt 3)
       [JStr "report"] (JObj []) (JInt 3)).
Proof. apply (proj1 contracts_roundtrip). vm_compute. reflexivity. Defined.

(** ** What an accepted task is *)

Lemma validate_identifier_Ok name v : validate_identifier name v true = Ok tt →
  ∃ s, v = JStr s ∧ IDENTIFIER s = true.
Proof.
  destruct v; simpl; try done. rewrite raise_when_Ok, negb_false_iff. eauto.
Qed.

Lemma py_eqb_schema v : py_eqb v (JInt SCHEMA_VERSION) = true →
  ∃ x, json_real v = Some x ∧ real_cmp x (real_of_Z 3) = Some Eq.
Proof.
  destruct v; try done; cbn [py_eqb]; intros H; apply bool_decide_eq_true in H; eauto.
Qed.

(** An identifier has no separator character: what joins two of them with one can
    be taken apart again. *)
Lemma IDENTIFIER_chars s : IDENTIFIER s = true →
  (1 ≤ String.length s ≤ 128)%nat ∧
  str_forall (λ d, is_alnum d || one_of "_.:-" d) s = true.
Proof.
  destruct s as [|c s]; [done|]. cbn [IDENTIFIER]. rewrite !andb_true_iff, Nat.leb_le.
  intros [[Hc Hs] Hl]. split; [simpl; lia|]. cbn [str_forall]. by rewrite Hc, Hs.
Qed.

(** C33. An accepted task payload names only known fields of schema version 3, well-
    formed identifiers, positive bounds, and staged destinations that are distinct and
    stay below the workspace whatever its root is. *)
Theorem task_spec_accepted payload t : TaskSpec_from_dict payload = Ok t →
  (* no field was ignored, and the version is the one this build speaks *)
  (∃ d, payload = JObj d ∧ (∀ k, k ∈ dict_keys d → k ∈ dc_names TaskSpec_class) ∧
        (∃ x, json_real (t_schema_version t) = Some x ∧ real_cmp x (real_of_Z 3) = Some Eq)) ∧
  (* it names a task, a project, a design and a plugin *)
  Forall (λ v, ∃ s, v = JStr s ∧ IDENTIFIER s = true)
         [t_task_id t; t_project_id t; t_design_id t; t_plugin_id t] ∧
  (* its bounds are positive *)
  (∃ n m, as_int (t_timeout_seconds t) = Some n ∧ (0 < n)%Z ∧
          as_int (t_max_attempts t) = Some m ∧ (0 < m)%Z) ∧
  (* staged inputs have distinct destinations, each below any workspace *)
  NoDup (if_destination <$> t_staged_inputs t) ∧
  Forall (λ i, ∃ s, if_destination i = JStr s ∧
     ∀ root, ∃ p, relative_to root (path_resolve root s) = Some p ∧ ".." ∉ p) (t_staged_inputs t).
Proof.
  intros H. unfold TaskSpec_from_dict in H.
  apply bind_Ok in H as (value & Hk & H). apply known_payload_Ok in Hk as (-> & _ & Hkeys).
  do 4 (apply bind_Ok in H as (? & _ & H)). apply bind_Ok in H as (d & _ & H).
  apply bind_Ok in H as ([] & Hv & [= <-]).
  match type of Hv with TaskSpec_validate ?x = _ => set (t := x) in * end. clearbody t.
  destruct (TaskSpec_validate_parts _ Hv) as (Hs & Hnd & _).
  unfold TaskSpec_validate, validate_version in Hv. invert_ok. bool_simpl. split_and!.
  - exists value. split_and!; [done..|]. by apply py_eqb_schema.
  - repeat constructor; try (by eapply validate_identifier_Ok).
    destruct (t_plugin_id t); simpl in *; try done. invert_ok. bool_simpl. eauto.
  - unfold bad_positive in *. destruct (as_int (t_timeout_seconds t)) as [n|]; [|done].
    destruct (as_int (t_max_attempts t)) as [m|]; [|done]. rewrite !Z.leb_gt in *. by exists n, m.
  - done.
  - eapply Forall_impl; [exact Hs|]. intros i Hi. by apply InputFile_validate_Ok in Hi as (? & _).
Qed.

Lemma task_spec_accepted_witness :
  ∃ n, as_int (JInt 60) = Some n ∧ (0 < n)%Z.
Proof.
  destruct (TaskSpec_from_dict (JObj [("task_id", JStr "t"); ("project_id", JStr "p");
    ("design_id", JStr "d"); ("plugin_id", JStr "x"); ("timeout_seconds", JInt 60);
    ("schema_version", JInt 3)])) as [t|] eqn:E; [|vm_compute in E; discriminate].
  destruct (task_spec_accepted _ _ E) as (_ & _ & (n & m & Hn & Hp & _) & _).
  vm_compute in E. injection E as <-. exists n. split; [exact Hn|exact Hp].
Defined.

(** ** The progress envelope *)

(** A line is a progress report only when it carries the marker; a decoded report has
    a short printable stage name and a status exactly as its phase requires, and only
    a marked line can be refused. *)
Theorem decode_progress_line_spec loads line marker :
  match decode_progress_line loads line marker with
  | Ok None => startswith marker (strip line) = false
  | Ok (Some r) =>
      startswith marker (strip line) = true ∧
      (∃ s, pg_stage r = JStr s ∧ s ≠ EmptyString ∧ (String.length s ≤ MAX_STAGE_LENGTH)%nat ∧
            str_forall (λ c, negb (is_control c)) s = true) ∧
      (pg_phase r = Some PH_FINISHED → pg_status r ≠ None) ∧
      (pg_phase r = Some PH_STARTED → pg_status r = None)
  | Err _ => startswith marker (strip line) = true
  end.
Proof.
  unfold decode_progress_line. destruct (startswith marker (strip line)) eqn:Hm; cbn [negb]; [|done].
  destruct (str_empty _ || _); [done|]. destruct (loads _) as [[| | | | | |d]|]; try done.
  cbn [of_option mbind result_bind].
  match goal with |- context [ProgressReport_from_dict ?p] =>
    destruct (ProgressReport_from_dict p) as [r|] eqn:E; [|done] end.
  unfold ProgressReport_from_dict in E. do 5 (apply bind_Ok in E as (? & _ & E)).
  apply bind_Ok in E as ([] & Hv & [= <-]).
  apply ProgressReport_validate_Ok in Hv as (? & ? & ? & _). done.
Qed.

(** ** Where the code and its documentation part *)

(** A progress report whose detail is not an object is not a [ContractError]. *)
Example progress_detail_escapes :
  ProgressReport_from_dict (JObj [("schema_version", JInt 3); ("stage", JStr "route");
    ("phase", JStr "started"); ("detail", JInt 5)]) = Err (TypeError "not iterable").
Proof. vm_compute. reflexivity. Qed.

(** [Metric.from_dict] does not look at the version it requires. *)
Example metric_any_version :
  is_Ok (Metric_from_dict (JObj [("schema_version", JInt 99); ("name", JStr "wns");
    ("value", JInt 1)])) = true.
Proof. vm_compute. reflexivity. Qed.

(** A null list is the caller's error, and is not reported as one. *)
Example task_null_artifacts :
  TaskSpec_from_dict (JObj [("task_id", JStr "t"); ("project_id", JStr "p");
    ("design_id", JStr "d"); ("plugin_id", JStr "x"); ("expected_artifacts", JNull);
    ("schema_version", JInt 3)]) = Err (TypeError "not iterable").
Proof. vm_compute. reflexivity. Qed.
