(* ===== verification/StoreState.v ===== *)
(** * runtime/store.py: the schema

    One row record per table, the state as the ten tables, and an INSERT per
    table with the constraints of the DDL: primary keys, UNIQUE, CHECK, and foreign
    keys (the connection sets [PRAGMA foreign_keys = ON]).  Timestamps are
    microseconds: the ISO text of [_now] sorts in that order.  A column holding a
    JSON document holds the document. *)

From S2P Require Export Sql Progress.
Open Scope string_scope.
Open Scope list_scope.

Definition STORAGE_OBJECT : string := "object".
Definition STORAGE_WORKSPACE : string := "workspace".

Record RunRow := MkRunRow {
  r_run_id : string;
  r_task_id : string;
  r_idempotency_key : option string;
  r_status : RuntimeStatus;
  r_task_spec_json : dict;
  r_created_at : Z;
  r_started_at : option Z;
  r_ended_at : option Z;
  r_terminal_reason : option string }.

Record StageRow := MkStageRow {
  s_stage_run_id : string;
  s_run_id : string;
  s_stage_key : string;
  s_ordinal : Z;
  s_plugin_id : string;
  s_plugin_version : string;
  s_status : RuntimeStatus;
  s_created_at : Z;
  s_started_at : option Z;
  s_resumable : bool }.

Record AttemptRow := MkAttemptRow {
  a_attempt_id : string;
  a_stage_run_id : string;
  a_attempt_number : Z;
  a_status : AttemptStatus;
  a_workspace : string;
  a_worker_id : string;
  a_lease_expires_at : option Z;
  a_heartbeat_at : option Z;
  a_process_id : option Z;
  a_process_group_id : option Z;
  a_process_start_ticks : option Z;
  a_started_at : Z;
  a_ended_at : option Z;
  a_exit_code : option Z;
  a_failure_json : option json;
  a_cpu_seconds : json;
  a_peak_memory_bytes : option Z;
  a_peak_processes : option Z }.

Record ReservationRow := MkReservationRow {
  v_attempt_id : string;
  v_cpu_cores : Z;
  v_memory_bytes : Z }.

Record ArtifactRow := MkArtifactRow {
  ar_artifact_id : string;
  ar_attempt_id : string;
  ar_kind : string;
  ar_store_key : string;
  ar_size_bytes : Z;
  ar_sha256 : string;
  ar_metadata_json : dict;
  ar_created_at : Z;
  ar_storage : string }.

Record MetricRow := MkMetricRow {
  me_metric_id : string;
  me_attempt_id : string;
  me_metric : Metric;
  me_created_at : Z }.

Record InputRow := MkInputRow {
  in_attempt_id : string;
  in_destination : string;
  in_source : json;
  in_source_artifact_id : json;
  in_source_input_id : json;
  in_present : bool;
  in_size_bytes : Z;
  in_sha256 : json;
  in_created_at : Z }.

Record UploadedInput := MkUploadedInput {
  u_input_id : string;
  u_store_key : string;
  u_size_bytes : Z;
  u_sha256 : string;
  u_created_at : Z }.

Record EventRow := MkEventRow {
  e_event_id : string;
  e_run_id : string;
  e_stage_run_id : option string;
  e_attempt_id : option string;
  e_event_type : string;
  e_producer : string;
  e_payload_json : dict;
  e_occurred_at : Z }.

Record WorkerRow := MkWorkerRow {
  w_worker_id : string;
  w_pid : Z;
  w_last_seen_at : Z;
  w_current_attempt_id : option string;
  w_state : string }.

Record Store := MkStore {
  runs : list RunRow;
  stages : list StageRow;
  attempts : list AttemptRow;
  reservations : list ReservationRow;
  artifacts : list ArtifactRow;
  metrics : list MetricRow;
  inputs : list InputRow;
  uploaded : list UploadedInput;
  events : list EventRow;
  workers : list WorkerRow }.

Definition empty_store : Store := MkStore [] [] [] [] [] [] [] [] [] [].

(** ** Table updates *)

Definition on_runs (f : list RunRow → list RunRow) (s : Store) : Store :=
  MkStore (f (runs s)) (stages s) (attempts s) (reservations s) (artifacts s)
          (metrics s) (inputs s) (uploaded s) (events s) (workers s).
Definition on_stages (f : list StageRow → list StageRow) (s : Store) : Store :=
  MkStore (runs s) (f (stages s)) (attempts s) (reservations s) (artifacts s)
          (metrics s) (inputs s) (uploaded s) (events s) (workers s).
Definition on_attempts (f : list AttemptRow → list AttemptRow) (s : Store) : Store :=
  MkStore (runs s) (stages s) (f (attempts s)) (reservations s) (artifacts s)
          (metrics s) (inputs s) (uploaded s) (events s) (workers s).
Definition on_reservations (f : list ReservationRow → list ReservationRow) (s : Store) : Store :=
  MkStore (runs s) (stages s) (attempts s) (f (reservations s)) (artifacts s)
          (metrics s) (inputs s) (uploaded s) (events s) (workers s).
Definition on_artifacts (f : list ArtifactRow → list ArtifactRow) (s : Store) : Store :=
  MkStore (runs s) (stages s) (attempts s) (reservations s) (f (artifacts s))
          (metrics s) (inputs s) (uploaded s) (events s) (workers s).
Definition on_metrics (f : list MetricRow → list MetricRow) (s : Store) : Store :=
  MkStore (runs s) (stages s) (attempts s) (reservations s) (artifacts s)
          (f (metrics s)) (inputs s) (uploaded s) (events s) (workers s).
Definition on_inputs (f : list InputRow → list InputRow) (s : Store) : Store :=
  MkStore (runs s) (stages s) (attempts s) (reservations s) (artifacts s)
          (metrics s) (f (inputs s)) (uploaded s) (events s) (workers s).
Definition on_uploaded (f : list UploadedInput → list UploadedInput) (s : Store) : Store :=
  MkStore (runs s) (stages s) (attempts s) (reservations s) (artifacts s)
          (metrics s) (inputs s) (f (uploaded s)) (events s) (workers s).
Definition on_events (f : list EventRow → list EventRow) (s : Store) : Store :=
  MkStore (runs s) (stages s) (attempts s) (reservations s) (artifacts s)
          (metrics s) (inputs s) (uploaded s) (f (events s)) (workers s).
Definition on_workers (f : list WorkerRow → list WorkerRow) (s : Store) : Store :=
  MkStore (runs s) (stages s) (attempts s) (reservations s) (artifacts s)
          (metrics s) (inputs s) (uploaded s) (events s) (f (workers s)).

(** SET clauses that more than one statement uses. *)
Definition run_with (st : RuntimeStatus) (started ended : option Z) (reason : option string)
    (r : RunRow) : RunRow :=
  MkRunRow (r_run_id r) (r_task_id r) (r_idempotency_key r) st (r_task_spec_json r)
           (r_created_at r) started ended reason.
Definition stage_with (st : RuntimeStatus) (started : option Z) (r : StageRow) : StageRow :=
  MkStageRow (s_stage_run_id r) (s_run_id r) (s_stage_key r) (s_ordinal r) (s_plugin_id r)
             (s_plugin_version r) st (s_created_at r) started (s_resumable r).

(** [COALESCE(x, v)] *)
Definition coalesce (x : option Z) (v : Z) : option Z :=
  match x with Some _ => x | None => Some v end.

(** ** Row tests *)

Definition is_run (id : string) (r : RunRow) : bool := bool_decide (r_run_id r = id).
Definition is_stage (id : string) (r : StageRow) : bool := bool_decide (s_stage_run_id r = id).
Definition stage_of_run (id : string) (r : StageRow) : bool := bool_decide (s_run_id r = id).
Definition is_attempt (id : string) (r : AttemptRow) : bool := bool_decide (a_attempt_id r = id).
Definition attempt_of_stage (id : string) (r : AttemptRow) : bool :=
  bool_decide (a_stage_run_id r = id).
Definition is_reservation (id : string) (r : ReservationRow) : bool :=
  bool_decide (v_attempt_id r = id).
Definition attempt_running (r : AttemptRow) : bool := bool_decide (a_status r = A_RUNNING).

(** [status IN (...)] *)
Definition status_in (l : list RuntimeStatus) (st : RuntimeStatus) : bool :=
  bool_decide (st ∈ l).

(** ** INSERT *)

Definition constraint (ok : Store → bool) : st Store unit :=
  λ s, (raise_when (negb (ok s)) (IntegrityError "constraint"), s).

Definition insert_run (r : RunRow) : st Store unit :=
  constraint (λ s, negb (has_row (is_run (r_run_id r)) (runs s)));;
  constraint (λ s, match r_idempotency_key r with
                   | Some k => negb (has_row (λ r', bool_decide (r_idempotency_key r' = Some k))
                                             (runs s))
                   | None => true
                   end);;
  modify (on_runs (ins r)).

Definition insert_stage (r : StageRow) : st Store unit :=
  constraint (λ s, negb (has_row (is_stage (s_stage_run_id r)) (stages s)));;
  constraint (λ s, has_row (is_run (s_run_id r)) (runs s));;
  constraint (λ s, negb (has_row (λ r', bool_decide (s_run_id r' = s_run_id r)
                     && (bool_decide (s_stage_key r' = s_stage_key r)
                         || bool_decide (s_ordinal r' = s_ordinal r))) (stages s)));;
  modify (on_stages (ins r)).

Definition insert_attempt (r : AttemptRow) : st Store unit :=
  constraint (λ s, negb (has_row (is_attempt (a_attempt_id r)) (attempts s)));;
  constraint (λ s, has_row (is_stage (a_stage_run_id r)) (stages s));;
  constraint (λ s, (0 <? a_attempt_number r)%Z);;
  constraint (λ s, negb (has_row (λ r', bool_decide (a_stage_run_id r' = a_stage_run_id r)
                     && bool_decide (a_attempt_number r' = a_attempt_number r)) (attempts s)));;
  modify (on_attempts (ins r)).

Definition insert_reservation (r : ReservationRow) : st Store unit :=
  constraint (λ s, negb (has_row (is_reservation (v_attempt_id r)) (reservations s)));;
  constraint (λ s, has_row (is_attempt (v_attempt_id r)) (attempts s));;
  constraint (λ s, (0 <? v_cpu_cores r)%Z && (0 <? v_memory_bytes r)%Z);;
  modify (on_reservations (ins r)).

Definition insert_artifact (r : ArtifactRow) : st Store unit :=
  constraint (λ s, negb (has_row (λ r', bool_decide (ar_artifact_id r' = ar_artifact_id r))
                                 (artifacts s)));;
  constraint (λ s, has_row (is_attempt (ar_attempt_id r)) (attempts s));;
  constraint (λ s, (0 <=? ar_size_bytes r)%Z);;
  constraint (λ s, negb (has_row (λ r', bool_decide (ar_attempt_id r' = ar_attempt_id r)
                     && bool_decide (ar_store_key r' = ar_store_key r)) (artifacts s)));;
  modify (on_artifacts (ins r)).

Definition insert_metric (r : MetricRow) : st Store unit :=
  constraint (λ s, negb (has_row (λ r', bool_decide (me_metric_id r' = me_metric_id r))
                                 (metrics s)));;
  constraint (λ s, has_row (is_attempt (me_attempt_id r)) (attempts s));;
  modify (on_metrics (ins r)).

(** INSERT OR REPLACE: a row with the same key is deleted first. *)
Definition replace_input (r : InputRow) : st Store unit :=
  constraint (λ s, has_row (is_attempt (in_attempt_id r)) (attempts s));;
  constraint (λ s, (0 <=? in_size_bytes r)%Z);;
  modify (on_inputs (λ t,
    ins r (del (λ r', bool_decide (in_attempt_id r' = in_attempt_id r)
                      && bool_decide (in_destination r' = in_destination r)) t))).

Definition insert_uploaded (r : UploadedInput) : st Store unit :=
  constraint (λ s, negb (has_row (λ r', bool_decide (u_input_id r' = u_input_id r))
                                 (uploaded s)));;
  constraint (λ s, (0 <=? u_size_bytes r)%Z);;
  modify (on_uploaded (ins r)).

Definition insert_event (r : EventRow) : st Store unit :=
  constraint (λ s, negb (has_row (λ r', bool_decide (e_event_id r' = e_event_id r)) (events s)));;
  modify (on_events (ins r)).

Lemma constraint_run ok s :
  constraint ok s = if ok s then (Ok tt, s) else (Err (IntegrityError "constraint"), s).
Proof. unfold constraint. by destruct (ok s). Qed.
