(* ===== verification/StoreEvidence.v ===== *)
(** * runtime/store.py: artifacts, metrics, inputs, events and the object store

    [Custody] is the database together with the two byte stores beside it: objects
    keyed by digest, and evidence keyed by attempt and name.  ROLLBACK undoes the
    database and nothing else.  The section's parameters are SHA-256, and the file
    system as the code sees it: how a path under a directory resolves (symbolic
    links included) and what reading a path gives when it is hashed, and again
    later when it is copied. *)

From stdpp Require Export gmap.
From S2P Require Export StoreState.
Open Scope string_scope.
Open Scope list_scope.

Record Custody := MkCustody {
  db : Store;
  objects : gmap string string;
  evidence : gmap (string * string) string }.

Definition on_db (f : Store → Store) (c : Custody) : Custody :=
  MkCustody (f (db c)) (objects c) (evidence c).
Definition on_objects (f : gmap string string → gmap string string) (c : Custody) : Custody :=
  MkCustody (db c) (f (objects c)) (evidence c).

(** A statement against the database. *)
Definition in_db {A} (m : st Store A) : st Custody A :=
  λ c, let '(r, s) := m (db c) in (r, MkCustody s (objects c) (evidence c)).

(** BEGIN IMMEDIATE ... ROLLBACK does not reach the byte stores. *)
Definition db_transaction {A} (m : st Custody A) : st Custody A :=
  λ c, match m c with
       | (Ok a, c') => (Ok a, c')
       | (Err e, c') => (Err e, MkCustody (db c) (objects c') (evidence c'))
       end.

Definition _new_id (prefix hex : string) : string := prefix +:+ "-" +:+ hex.

Definition get_uploaded_input (input_id : string) (s : Store) : result UploadedInput :=
  of_option (RuntimeStoreError "unknown uploaded input")
            (fetchone (λ r, bool_decide (u_input_id r = input_id)) (uploaded s)).

Definition get_artifact (artifact_id : string) (s : Store) : result ArtifactRow :=
  of_option (RuntimeStoreError "no such artifact")
            (fetchone (λ r, bool_decide (ar_artifact_id r = artifact_id)) (artifacts s)).

(** A joined row: the artifact, its attempt and its stage. *)
Definition artifact_run_id (artifact_id : string) (s : Store) : result string :=
  of_option (RuntimeStoreError "no such artifact")
    (a ← fetchone (λ r, bool_decide (ar_artifact_id r = artifact_id)) (artifacts s);
     t ← fetchone (is_attempt (ar_attempt_id a)) (attempts s);
     g ← fetchone (is_stage (a_stage_run_id t)) (stages s);
     Some (s_run_id g)).

(** [len(content)] *)
Definition size_of (b : string) : Z := Z.of_nat (String.length b).

Section custody.
Context (sha256 : string → string).
Context (resolve : list string → string → list string).
Context (file file_when_copied : list string → option string).

(** Publishing bytes under a digest: an object already there must be the same
    bytes, and bytes copied in are measured again before they get the name. *)
Definition publish (copied : option string) (digest : string) (size_bytes : Z)
    : st Custody unit :=
  c ← gets id;
  match objects c !! digest with
  | Some b =>
      lift (raise_when (negb (bool_decide (size_of b = size_bytes))
                        || negb (bool_decide (sha256 b = digest)))
                       (RuntimeStoreError "the object store is inconsistent"))
  | None =>
      b ← lift (of_option (OtherError "FileNotFoundError") copied);
      lift (raise_when (negb (bool_decide (size_of b = size_bytes))
                        || negb (bool_decide (sha256 b = digest)))
                       (RuntimeStoreError "source changed while publishing object"));;
      modify (on_objects (insert digest b))
  end.

Definition _store_object (path : list string) (digest : string) (size_bytes : Z)
    : st Custody unit :=
  publish (file_when_copied path) digest size_bytes.
Definition _store_bytes (content digest : string) (size_bytes : Z) : st Custody unit :=
  publish (Some content) digest size_bytes.

(** [register_artifacts]'s mapping, at the types its callers give it. *)
Record declaration := MkDeclaration {
  de_store_key : string; de_kind : string; de_media_type : json; de_metadata : dict }.

(** One declaration, with the identifier and the time it is given. *)
Definition register_artifact (attempt_id : string) (workspace : list string)
    (d : declaration * (string * Z)) : st Custody string :=
  let '(decl, (hex, now)) := d in
  let path := resolve workspace (de_store_key decl) in
  lift (of_option (RuntimeStoreError "artifact escapes") (relative_to workspace path));;
  bytes ← lift (of_option (RuntimeStoreError "declared artifact is missing") (file path));
  let digest := sha256 bytes in
  let artifact_id := _new_id "art" hex in
  lift (Artifact_validate
          (MkArtifact (JStr artifact_id) (JStr (de_kind decl)) (JStr (de_store_key decl))
             (JStr digest) (JInt (size_of bytes)) (de_media_type decl)
             (JObj (de_metadata decl)) (JInt SCHEMA_VERSION)));;
  _store_object path digest (size_of bytes);;
  in_db (insert_artifact
    (MkArtifactRow artifact_id attempt_id (de_kind decl) (de_store_key decl)
                   (size_of bytes) digest (de_metadata decl) now STORAGE_OBJECT));;
  mret artifact_id.

Definition register_artifacts (attempt_id : string) (workspace : list string)
    (declarations : list (declaration * (string * Z))) : st Custody (list string) :=
  db_transaction (mapM_st (register_artifact attempt_id workspace) declarations).

Definition ingest_input (content hex : string) (now : Z) : st Custody UploadedInput :=
  let digest := sha256 content in
  let row := MkUploadedInput (_new_id "input" hex) digest (size_of content) digest now in
  _store_bytes content digest (size_of content);;
  in_db (insert_uploaded row);;
  mret row.

(** [path] is already absolute and resolved. *)
Definition ingest_input_file (path : list string) (hex : string) (now : Z)
    : st Custody UploadedInput :=
  bytes ← lift (of_option (RuntimeStoreError "input file is not readable") (file path));
  let digest := sha256 bytes in
  let row := MkUploadedInput (_new_id "input" hex) digest (size_of bytes) digest now in
  _store_object path digest (size_of bytes);;
  in_db (insert_uploaded row);;
  mret row.

(** The bytes that end up at the destination. *)
Definition materialize_input (input_id : string) (c : Custody)
    : result (UploadedInput * string) :=
  u ← get_uploaded_input input_id (db c);
  b ← of_option (RuntimeStoreError "uploaded input object is missing") (objects c !! u_sha256 u);
  raise_when (negb (bool_decide (size_of b = u_size_bytes u))
              || negb (bool_decide (sha256 b = u_sha256 u)))
             (RuntimeStoreError "uploaded input object does not match");;
  Ok (u, b).

(** What is at [artifact_path], [None] when nothing is. *)
Definition artifact_bytes (parts : string → list string) (artifact_id : string) (c : Custody)
    : result (option string) :=
  row ← of_option (RuntimeStoreError "no such artifact")
          (a ← fetchone (λ r, bool_decide (ar_artifact_id r = artifact_id)) (artifacts (db c));
           t ← fetchone (is_attempt (ar_attempt_id a)) (attempts (db c));
           Some (a, t));
  let '(a, t) := row in
  if bool_decide (ar_storage a = STORAGE_OBJECT) then Ok (objects c !! ar_sha256 a)
  else
    raise_when (negb (bool_decide (ar_storage a = STORAGE_WORKSPACE)))
               (RuntimeStoreError "unknown storage");;
    let workspace := parts (a_workspace t) in
    let path := resolve workspace (ar_store_key a) in
    of_option (RuntimeStoreError "registered artifact escapes") (relative_to workspace path);;
    Ok (file path).

Definition materialize_artifact (parts : string → list string) (artifact_id : string)
    (c : Custody) : result (ArtifactRow * string) :=
  artifact ← get_artifact artifact_id (db c);
  b ← artifact_bytes parts artifact_id c;
  b ← of_option (RuntimeStoreError "its bytes are missing") b;
  Ok (artifact, b).

(** [Path(relative)] is absolute or climbs. *)
Definition evidence_path (attempt_id relative : string) : result (string * string) :=
  raise_when (startswith "/" relative || bool_decide (".." ∈ split_on "/" relative))
             (RuntimeStoreError "invalid evidence path");;
  Ok (attempt_id, relative).

(** A copy that is there with the source's size is kept as it is. *)
Definition snapshot_evidence (attempt_id : string) (workspace : list string)
    (relative : string) : st Custody (option (string * string)) :=
  let source := resolve workspace relative in
  lift (of_option (RuntimeStoreError "evidence escapes") (relative_to workspace source));;
  match file source with
  | None => mret None
  | Some b =>
      target ← lift (evidence_path attempt_id relative);
      c ← gets id;
      if bool_decide (size_of <$> evidence c !! target = Some (size_of b)) then mret (Some target)
      else
        copy ← lift (of_option (OtherError "FileNotFoundError") (file_when_copied source));
        lift (raise_when (negb (bool_decide (sha256 copy = sha256 b)))
                         (RuntimeStoreError "evidence changed while being captured"));;
        modify (λ c, MkCustody (db c) (objects c) (insert target copy (evidence c)));;
        mret (Some target)
  end.
End custody.

(** ** Metrics, inputs and events *)

Definition register_metric (attempt_id : string) (m : Metric * (string * Z))
    : st Store string :=
  let '(metric, (hex, now)) := m in
  lift (Metric_validate metric);;
  let metric_id := _new_id "metric" hex in
  insert_metric (MkMetricRow metric_id attempt_id metric now);;
  mret metric_id.

Definition register_metrics (attempt_id : string) (metrics : list (Metric * (string * Z)))
    : st Store (list string) :=
  transaction (mapM_st (register_metric attempt_id) metrics).

(** The stored columns; [schema_version] is the default again. *)
Definition list_metrics (attempt_id : string) (s : Store) : list Metric :=
  (λ r, let m := me_metric r in
        MkMetric (m_name m) (m_value m) (m_unit m) (m_source_artifact_id m) (m_parser_id m)
                 (m_parser_version m) (m_context m) (JInt SCHEMA_VERSION))
    <$> sel (λ r, bool_decide (me_attempt_id r = attempt_id)) (metrics s).

Definition list_artifacts (attempt_id : string) (s : Store) : list ArtifactRow :=
  sel (λ r, bool_decide (ar_attempt_id r = attempt_id)) (artifacts s).

Definition record_input (attempt_id : string) (now : Z) (staged : StagedInput) : st Store unit :=
  lift (StagedInput_validate staged);;
  replace_input (MkInputRow attempt_id (str_of (si_destination staged)) (si_source staged)
    (si_source_artifact_id staged) (si_source_input_id staged)
    (truthy (si_present staged)) (default 0%Z (as_int (si_size_bytes staged)))
    (si_sha256 staged) now).

Definition record_inputs (attempt_id : string) (staged_inputs : list StagedInput) (now : Z)
    : st Store unit :=
  transaction (iterM_st (record_input attempt_id now) staged_inputs).

(** [ORDER BY destination] *)
Definition dest_le (r1 r2 : InputRow) : Prop := String.le (in_destination r1) (in_destination r2).
#[export] Instance dest_le_dec : RelDecision dest_le.
Proof. intros r1 r2. unfold dest_le. apply _. Defined.

Definition list_inputs (attempt_id : string) (s : Store) : list StagedInput :=
  (λ r, MkStagedInput (JStr (in_destination r)) (JBool (in_present r)) (JInt (in_size_bytes r))
          (in_sha256 r) (in_source r) (in_source_artifact_id r) (in_source_input_id r))
    <$> merge_sort dest_le (sel (λ r, bool_decide (in_attempt_id r = attempt_id)) (inputs s)).

(** [Event] is not validated before it is written. *)
Definition record_event (run_id event_type : string) (payload : dict) (producer : string)
    (stage_run_id attempt_id : option string) (hex : string) (now : Z) : st Store EventRow :=
  let row := MkEventRow (_new_id "evt" hex) run_id stage_run_id attempt_id event_type producer
                        payload now in
  insert_event row;;
  mret row.

Definition list_events (run_id : string) (s : Store) : list EventRow :=
  order_by e_occurred_at (sel (λ r, bool_decide (e_run_id r = run_id)) (events s)).
