(* ===== verification/Store.v ===== *)
(** * runtime/store.py: RuntimeStore's run and attempt lifecycle

    Submission, the run and attempt state machines, leases, retries, reclaiming
    and the claim queries.  Generated identifiers ([uuid4]) and the clock are
    arguments.  An operation between BEGIN IMMEDIATE and COMMIT is a
    [transaction]; [request_cancel], [heartbeat] and [reclaim_expired_attempts]
    read first and write later, and take what other connections commit in between
    as the argument [others]. *)

From S2P Require Export StoreEvidence.
Open Scope string_scope.
Open Scope list_scope.

(** ** The read models' records *)

Record RunRecord := MkRunRecord {
  rec_run_id : string;
  rec_task_id : string;
  rec_status : RuntimeStatus;
  rec_task_spec : TaskSpec;
  rec_created_at : Z;
  rec_started_at : option Z;
  rec_ended_at : option Z;
  rec_terminal_reason : option string }.

Record Attempt := MkAttempt {
  at_attempt_id : string;
  at_stage_run_id : string;
  at_attempt_number : Z;
  at_status : AttemptStatus;
  at_workspace : string;
  at_worker_id : string;
  at_process_id : option Z;
  at_process_group_id : option Z;
  at_process_start_ticks : option Z;
  at_failure : option dict }.

(** A recorded failure that is not an object is reported as such. *)
Definition _optional_json_object (raw : option json) : option dict :=
  match raw with
  | None => None
  | Some (JObj d) => Some d
  | Some _ => Some [("category", JStr "storage_corruption");
                    ("message", JStr "not an object"); ("retryable", JBool false)]
  end.

(** ** Queries *)

Definition _run_from_row (row : RunRow) : result RunRecord :=
  spec ← TaskSpec_from_dict (JObj (r_task_spec_json row));
  Ok (MkRunRecord (r_run_id row) (r_task_id row) (r_status row) spec (r_created_at row)
                  (r_started_at row) (r_ended_at row) (r_terminal_reason row)).

Definition get_run (run_id : string) (s : Store) : result RunRecord :=
  row ← of_option (RuntimeStoreError "unknown run") (fetchone (is_run run_id) (runs s));
  _run_from_row row.

Definition find_run_by_task_id (task_id : string) (s : Store) : result (option RunRecord) :=
  match head (order_by r_created_at (sel (λ r, bool_decide (r_task_id r = task_id)) (runs s))) with
  | Some row => rec ← _run_from_row row; Ok (Some rec)
  | None => Ok None
  end.

(** The columns [StageRun] copies are the row's. *)
Definition list_stages (run_id : string) (s : Store) : list StageRow :=
  order_by s_ordinal (sel (stage_of_run run_id) (stages s)).

Definition attempt_from_row (r : AttemptRow) : Attempt :=
  MkAttempt (a_attempt_id r) (a_stage_run_id r) (a_attempt_number r) (a_status r)
            (a_workspace r) (a_worker_id r) (a_process_id r) (a_process_group_id r)
            (a_process_start_ticks r) (_optional_json_object (a_failure_json r)).

Definition list_attempts (stage_run_id : string) (s : Store) : list Attempt :=
  attempt_from_row <$>
    order_by a_attempt_number (sel (attempt_of_stage stage_run_id) (attempts s)).

Definition resource_totals (s : Store) : Z * Z :=
  (sum_col v_cpu_cores (reservations s), sum_col v_memory_bytes (reservations s)).

Definition release_resources (attempt_id : string) : st Store unit :=
  modify (on_reservations (del (is_reservation attempt_id))).

(** ** Submission *)

Definition platform_label (kv : string * json) : bool :=
  startswith "__platform_host_source_" (fst kv).

(** [if item.get(k): item[k] = digest(item[k])] *)
Definition digest_field (k : string) (digest : string → result string) (item : dict)
    : result dict :=
  match get_null k item with
  | JStr s => if str_empty s then Ok item
              else d ← digest s; Ok (dict_set k (JStr d) item)
  | _ => Ok item
  end.

Definition by_input_bytes (s : Store) (item : json) : result json :=
  match item with
  | JObj d =>
      d ← digest_field "input_id" (λ i, u ← get_uploaded_input i s; Ok (u_sha256 u)) d;
      d ← digest_field "artifact_id" (λ i, a ← get_artifact i s; Ok (ar_sha256 a)) d;
      Ok (JObj d)
  | _ => Ok item
  end.

Definition without_platform_labels (payload : dict) : dict :=
  dict_set "labels"
    (match get_null "labels" payload with
     | JObj l => JObj (List.filter (λ kv, negb (platform_label kv)) l)
     | v => v
     end) payload.

Definition staged_by_bytes (s : Store) (payload : dict) : result dict :=
  match get_null "staged_inputs" payload with
  | JList items => items ← mapM_result (by_input_bytes s) items;
                   Ok (dict_set "staged_inputs" (JList items) payload)
  | _ => Ok payload
  end.

Definition _equivalent_task_specs (first second : TaskSpec) (s : Store) : result bool :=
  left ← TaskSpec_to_dict first;
  right ← TaskSpec_to_dict second;
  left ← staged_by_bytes s (without_platform_labels left);
  right ← staged_by_bytes s (without_platform_labels right);
  Ok (py_eqb (JObj left) (JObj right)).

(** The run an idempotent submission may already have. *)
Definition submit_existing (task : TaskSpec) (idempotent : bool)
    (idempotency_key : option string) (s : Store) : result (option RunRecord) :=
  match idempotency_key with
  | Some k =>
      match fetchone (λ r, bool_decide (r_idempotency_key r = Some k)) (runs s) with
      | Some row => rec ← _run_from_row row; Ok (Some rec)
      | None => Ok None
      end
  | None => if idempotent then find_run_by_task_id (str_of (t_task_id task)) s else Ok None
  end.

Definition submitted_run (run_id : string) (task : TaskSpec) (idempotency_key : option string)
    (spec : dict) (now : Z) : RunRow :=
  MkRunRow run_id (str_of (t_task_id task)) idempotency_key QUEUED spec now None None None.
Definition submitted_stage (stage_run_id run_id stage_key : string) (task : TaskSpec)
    (plugin_version : string) (resumable : bool) (now : Z) : StageRow :=
  MkStageRow stage_run_id run_id stage_key 0 (str_of (t_plugin_id task)) plugin_version QUEUED
             now None resumable.

Definition submit_run (task : TaskSpec) (stage_key plugin_version : string)
    (idempotent : bool) (idempotency_key : option string) (resumable : bool)
    (run_hex stage_hex : string) (now : Z) : st Store RunRecord :=
  let run_id := _new_id "run" run_hex in
  let stage_run_id := _new_id "stage" stage_hex in
  lift (TaskSpec_validate task);;
  lift (raise_when (is_null (t_plugin_id task)) (RuntimeStoreError "plugin_id"));;
  lift (raise_when (bool_decide (idempotency_key = Some EmptyString))
                   (RuntimeStoreError "idempotency_key"));;
  found ← transaction (
    s ← gets id;
    existing ← lift (submit_existing task idempotent idempotency_key s);
    match existing with
    | Some rec =>
        same ← lift (_equivalent_task_specs (rec_task_spec rec) task s);
        lift (raise_when (negb same) (RuntimeStoreError "different immutable TaskSpec"));;
        stage ← lift (of_option (OtherError "IndexError")
                                (head (list_stages (rec_run_id rec) s)));
        lift (raise_when (negb (bool_decide (s_plugin_version stage = plugin_version)))
                         (RuntimeStoreError "different plugin version"));;
        mret (Some rec)
    | None =>
        spec ← lift (TaskSpec_to_dict task);
        insert_run (submitted_run run_id task idempotency_key spec now);;
        insert_stage (submitted_stage stage_run_id run_id stage_key task plugin_version
                                      resumable now);;
        mret None
    end);
  match found with
  | Some rec => mret rec
  | None => s ← gets id; lift (get_run run_id s)
  end.

(** ** The run state machine *)

(** [UPDATE runtime_stage_runs SET status = ? WHERE run_id = ? AND status NOT IN
    (the terminal statuses)] *)
Definition settle_stages (run_id : string) (target : RuntimeStatus) : st Store unit :=
  modify (on_stages (upd (λ r, stage_of_run run_id r && negb (is_terminal (s_status r)))
                         (λ r, stage_with target (s_started_at r) r))).

Definition transition_run (run_id : string) (target : RuntimeStatus) (reason : option string)
    (now : Z) : st Store unit :=
  transaction (
    s ← gets id;
    row ← lift (of_option (RuntimeStoreError "unknown run")
                          (fetchone (is_run run_id) (runs s)));
    let current := r_status row in
    if bool_decide (current = target) then mret tt
    else
      lift (raise_when (negb (run_transition_allowed current target))
                       (InvalidTransition "run"));;
      modify (on_runs (upd (is_run run_id) (λ r,
        run_with target
          (if bool_decide (target = RUNNING) then coalesce (r_started_at r) now
           else r_started_at r)
          (if is_terminal target then Some now else r_ended_at r)
          (match reason with Some _ => reason | None => r_terminal_reason r end) r)));;
      settle_stages run_id target).

Definition request_cancel (others : Store → Store) (run_id : string) (now : Z)
    : st Store unit :=
  s ← gets id;
  run ← lift (get_run run_id s);
  if is_terminal (rec_status run) || bool_decide (rec_status run = CANCEL_REQUESTED)
  then mret tt
  else modify others;; transition_run run_id CANCEL_REQUESTED (Some "cancellation requested") now.

Definition fail_queued_run (run_id category message : string) (event_hex : string) (now : Z)
    : st Store bool :=
  lift (raise_when (str_empty category || str_empty message) (RuntimeStoreError "preflight"));;
  transaction (
    s ← gets id;
    row ← lift (of_option (RuntimeStoreError "unknown run")
                          (fetchone (is_run run_id) (runs s)));
    if negb (status_in [QUEUED; PREPARING; RETRY_WAIT] (r_status row)) then mret false
    else
      modify (on_runs (upd (is_run run_id) (λ r,
        run_with FAILED (r_started_at r) (Some now) (Some category) r)));;
      settle_stages run_id FAILED;;
      insert_event (MkEventRow (_new_id "event" event_hex) run_id None None
        "run.preflight_failed" "runtime"
        [("category", JStr category); ("message", JStr message)] now);;
      mret true).

(** ** Attempts *)

(** [max(1, math.ceil(capacity * platform_fraction))] *)
Definition budget (capacity : Z) (platform_fraction : spec_float) : result Z :=
  c ← of_option (OtherError "OverflowError")
                (float_ceil (float_mul (float_of_Z capacity) platform_fraction));
  Ok (Z.max 1 c).

(** The float 0.60. *)
Definition default_fraction : spec_float := S754_finite false 5404319552844595 (-53).

(** [v or default] for a field that is [None] or an [int]. *)
Definition int_or (v : json) (dflt : Z) : Z :=
  match as_int v with Some z => if (z =? 0)%Z then dflt else z | None => dflt end.

(** Admission: [None] when the reservation does not fit. *)
Definition reserve (attempt_id : string) (resources : option ResourceRequest)
    (capacity_cpu_cores capacity_memory_bytes : option Z) (platform_fraction : spec_float)
    : st Store bool :=
  match resources, capacity_cpu_cores, capacity_memory_bytes with
  | Some r, Some cap_cpu, Some cap_mem =>
      if negb (ResourceRequest_declared r) then mret true
      else
        let cpu := int_or (rr_cpu_cores r) 1 in
        let memory := int_or (rr_memory_bytes r) 0 in
        lift (raise_when (memory <=? 0)%Z (RuntimeStoreError "memory_bytes is required"));;
        totals ← gets resource_totals;
        cpu_budget ← lift (budget cap_cpu platform_fraction);
        memory_budget ← lift (budget cap_mem platform_fraction);
        if (cpu_budget <? fst totals + cpu)%Z || (memory_budget <? snd totals + memory)%Z
        then mret false
        else insert_reservation (MkReservationRow attempt_id cpu memory);; mret true
  | _, _, _ => mret true
  end.

Definition new_attempt (attempt_id stage_run_id : string) (number : Z)
    (workspace worker_id : string) (lease_seconds now : Z) : AttemptRow :=
  MkAttemptRow attempt_id stage_run_id number A_RUNNING workspace worker_id
    (Some (now + lease_seconds * 1000000)%Z) (Some now) None None None now None None None
    JNull None None.

(** BEGIN ... with three ways out: COMMIT, [ROLLBACK; return None], and ROLLBACK on
    an exception. *)
Definition transaction_opt {A} (m : st Store (option A)) : st Store (option A) :=
  λ s, match m s with
       | (Ok (Some a), s') => (Ok (Some a), s')
       | (Ok None, _) => (Ok None, s)
       | (Err e, _) => (Err e, s)
       end.

Definition start_attempt (stage_run_id worker_id workspace : string) (lease_seconds : Z)
    (resources : option ResourceRequest)
    (capacity_cpu_cores capacity_memory_bytes : option Z) (platform_fraction : spec_float)
    (attempt_hex : string) (now : Z) : st Store (option Attempt) :=
  let attempt_id := _new_id "attempt" attempt_hex in
  lift (raise_when (lease_seconds <=? 0)%Z (RuntimeStoreError "lease_seconds"));;
  transaction_opt (
    s ← gets id;
    stage ← lift (of_option (RuntimeStoreError "unknown stage")
                            (fetchone (is_stage stage_run_id) (stages s)));
    lift (raise_when (negb (status_in [QUEUED; RETRY_WAIT] (s_status stage)))
                     (InvalidTransition "stage"));;
    let number := (max_col a_attempt_number
                     (sel (attempt_of_stage stage_run_id) (attempts s)) + 1)%Z in
    insert_attempt (new_attempt attempt_id stage_run_id number workspace worker_id
                                lease_seconds now);;
    admitted ← reserve attempt_id resources capacity_cpu_cores capacity_memory_bytes
                       platform_fraction;
    if negb admitted then mret None
    else
      modify (on_stages (upd (is_stage stage_run_id) (λ r,
        stage_with RUNNING (coalesce (s_started_at r) now) r)));;
      modify (on_runs (upd (λ r, is_run (s_run_id stage) r
                              && status_in [QUEUED; PREPARING; RETRY_WAIT] (r_status r))
        (λ r, run_with RUNNING (coalesce (r_started_at r) now) (r_ended_at r)
                       (r_terminal_reason r) r)));;
      mret (Some (MkAttempt attempt_id stage_run_id number A_RUNNING workspace worker_id
                            None None None None))).

Definition lease_with (heartbeat lease : option Z) (r : AttemptRow) : AttemptRow :=
  MkAttemptRow (a_attempt_id r) (a_stage_run_id r) (a_attempt_number r) (a_status r)
    (a_workspace r) (a_worker_id r) lease heartbeat (a_process_id r) (a_process_group_id r)
    (a_process_start_ticks r) (a_started_at r) (a_ended_at r) (a_exit_code r)
    (a_failure_json r) (a_cpu_seconds r) (a_peak_memory_bytes r) (a_peak_processes r).

(** [attempt_id = ? AND worker_id = ? AND status = 'running'] *)
Definition owned_attempt (attempt_id worker_id : string) (r : AttemptRow) : bool :=
  is_attempt attempt_id r && bool_decide (a_worker_id r = worker_id) && attempt_running r.

Definition heartbeat (others : Store → Store) (attempt_id worker_id : string)
    (lease_seconds now : Z) : st Store unit :=
  s ← gets id;
  row ← lift (of_option (RuntimeStoreError "unknown attempt")
                        (fetchone (is_attempt attempt_id) (attempts s)));
  lift (raise_when (negb (bool_decide (a_worker_id row = worker_id)))
                   (RuntimeStoreError "leased by another worker"));;
  lift (raise_when (negb (attempt_running row)) (InvalidTransition "heartbeat"));;
  modify others;;
  s ← gets id;
  let updated := rowcount (owned_attempt attempt_id worker_id) (attempts s) in
  modify (on_attempts (upd (owned_attempt attempt_id worker_id)
    (lease_with (Some now) (Some (now + lease_seconds * 1000000)%Z))));;
  lift (raise_when (negb (bool_decide (updated = 1%nat))) (InvalidTransition "fenced")).

Definition attach_process (attempt_id worker_id : string) (process_id process_group_id : Z)
    (process_start_ticks : option Z) : st Store unit :=
  lift (raise_when ((process_id <=? 0)%Z || (process_group_id <=? 0)%Z)
                   (RuntimeStoreError "process identifiers"));;
  s ← gets id;
  let updated := rowcount (owned_attempt attempt_id worker_id) (attempts s) in
  modify (on_attempts (upd (owned_attempt attempt_id worker_id) (λ r,
    MkAttemptRow (a_attempt_id r) (a_stage_run_id r) (a_attempt_number r) (a_status r)
      (a_workspace r) (a_worker_id r) (a_lease_expires_at r) (a_heartbeat_at r)
      (Some process_id) (Some process_group_id) process_start_ticks (a_started_at r)
      (a_ended_at r) (a_exit_code r) (a_failure_json r) (a_cpu_seconds r)
      (a_peak_memory_bytes r) (a_peak_processes r))));;
  lift (raise_when (negb (bool_decide (updated = 1%nat))) (InvalidTransition "not owned")).

(** The columns a settled attempt gets. *)
Definition attempt_ended (st : AttemptStatus) (now : Z) (exit_code : option Z)
    (failure : option json) (cpu : json) (mem procs : option Z) (r : AttemptRow) : AttemptRow :=
  MkAttemptRow (a_attempt_id r) (a_stage_run_id r) (a_attempt_number r) st
    (a_workspace r) (a_worker_id r) None (a_heartbeat_at r) (a_process_id r)
    (a_process_group_id r) (a_process_start_ticks r) (a_started_at r) (Some now) exit_code
    failure cpu mem procs.

(** [json.dumps(dict(failure)) if failure else None] *)
Definition failure_column (failure : option dict) : option json :=
  match failure with Some (kv :: d) => Some (JObj (kv :: d)) | _ => None end.

Definition finish_attempt (attempt_id : string) (status : AttemptStatus)
    (exit_code : option Z) (failure : option dict) (cpu_seconds : json)
    (peak_memory_bytes peak_processes : option Z) (now : Z) : st Store unit :=
  transaction (
    s ← gets id;
    row ← lift (of_option (RuntimeStoreError "unknown attempt")
                          (fetchone (is_attempt attempt_id) (attempts s)));
    lift (raise_when (negb (attempt_transition_allowed (a_status row) status))
                     (InvalidTransition "attempt"));;
    modify (on_attempts (upd (is_attempt attempt_id)
      (attempt_ended status now exit_code (failure_column failure) cpu_seconds
                     peak_memory_bytes peak_processes)));;
    modify (on_reservations (del (is_reservation attempt_id)))).

(** ** Retries *)

Definition schedule_retry (run_id stage_run_id reason : string) : st Store unit :=
  transaction (
    s ← gets id;
    stage ← lift (of_option (RuntimeStoreError "unknown stage")
                            (fetchone (is_stage stage_run_id) (stages s)));
    lift (raise_when (negb (bool_decide (s_status stage = RUNNING)))
                     (InvalidTransition "only a running stage"));;
    row ← lift (of_option (RuntimeStoreError "unknown run")
                          (fetchone (is_run run_id) (runs s)));
    lift (raise_when (negb (run_transition_allowed (r_status row) RETRY_WAIT))
                     (InvalidTransition "run"));;
    modify (on_stages (upd (is_stage stage_run_id) (λ r,
      stage_with RETRY_WAIT (s_started_at r) r)));;
    modify (on_runs (upd (is_run run_id) (λ r,
      run_with RETRY_WAIT (r_started_at r) (r_ended_at r) (Some reason) r)))).

(** The attempt with the greatest number. *)
Definition latest_attempt (stage_run_id : string) (s : Store) : option AttemptRow :=
  last (order_by a_attempt_number (sel (attempt_of_stage stage_run_id) (attempts s))).

Definition max_attempts_of (t : TaskSpec) : Z := default 0%Z (as_int (t_max_attempts t)).

(** [not failure or not failure.get("retryable")] *)
Definition not_retryable (failure : option dict) : bool :=
  match failure with Some d => negb (truthy (get_null "retryable" d)) | None => true end.

Definition retry_transaction (run_id requester reason event_hex : string) (now : Z)
    : st Store unit :=
  transaction (
    s ← gets id;
    run ← lift (of_option (RuntimeStoreError "unknown run")
                          (fetchone (is_run run_id) (runs s)));
    task ← lift (TaskSpec_from_dict (JObj (r_task_spec_json run)));
    let stage := fetchone (stage_of_run run_id) (stages s) in
    let attempt := stage ← stage; latest_attempt (s_stage_run_id stage) s in
    let failure := attempt ← attempt; _optional_json_object (a_failure_json attempt) in
    lift (raise_when (negb (bool_decide (r_status run = FAILED))) (InvalidTransition "not failed"));;
    match stage, attempt with
    | Some stage, Some attempt =>
        lift (raise_when (not_retryable failure) (RuntimeStoreError "not retryable"));;
        lift (raise_when (max_attempts_of task <=? a_attempt_number attempt)%Z
                         (RuntimeStoreError "retry budget exhausted"));;
        modify (on_runs (upd (is_run run_id) (λ r,
          run_with RETRY_WAIT (r_started_at r) (r_ended_at r)
            (Some ("retry requested by " +:+ requester +:+ ": " +:+ reason)) r)));;
        modify (on_stages (upd (is_stage (s_stage_run_id stage)) (λ r,
          stage_with RETRY_WAIT (s_started_at r) r)));;
        insert_event (MkEventRow (_new_id "event" event_hex) run_id
          (Some (s_stage_run_id stage)) (Some (a_attempt_id attempt))
          "run.retry_requested" requester [("reason", JStr reason)] now)
    | _, _ => raise (RuntimeStoreError "not retryable")
    end).

Definition _may_resume (others : Store → Store) (run_id : string) : st Store bool :=
  s ← gets id;
  match (r ← fetchone (is_run run_id) (runs s);
         g ← fetchone (stage_of_run run_id) (stages s);
         Some (r, g)) with
  | None => mret false
  | Some (r, g) =>
      if negb (s_resumable g) then mret false
      else
        let made := Z.of_nat (rowcount (attempt_of_stage (s_stage_run_id g)) (attempts s)) in
        task ← lift (TaskSpec_from_dict (JObj (r_task_spec_json r)));
        if (max_attempts_of task <=? made)%Z then mret false
        else
          modify others;;
          catch (schedule_retry run_id (s_stage_run_id g)
                   "worker lost its lease; resuming in the same workspace";; mret true)
                is_invalid_transition (λ _, mret false)
  end.

(** ** Claim queries *)

Definition runnable (s : Store) (r : RunRow) : bool :=
  status_in [QUEUED; PREPARING; RUNNING; RETRY_WAIT] (r_status r)
  && has_row (λ g, stage_of_run (r_run_id r) g && status_in [QUEUED; RETRY_WAIT] (s_status g))
             (stages s).

Definition runnable_runs (limit offset : Z) (s : Store) : result (list string) :=
  raise_when (negb ((1 <=? limit) && (limit <=? 1000)) || (offset <? 0))%Z
             (RuntimeStoreError "limit");;
  Ok (r_run_id <$> limit_offset (Z.to_nat limit) (Z.to_nat offset)
                     (order_by r_created_at (sel (runnable s) (runs s)))).

(** A stage of the run has a running attempt. *)
Definition has_running_attempt (run_id : string) (s : Store) : bool :=
  has_row (λ a, attempt_running a
                && has_row (λ g, is_stage (a_stage_run_id a) g && stage_of_run run_id g) (stages s))
          (attempts s).

Definition abandoned_cancellations (limit : Z) (s : Store) : result (list string) :=
  raise_when (negb ((1 <=? limit) && (limit <=? 1000)))%Z (RuntimeStoreError "limit");;
  let rows := limit_offset (Z.to_nat limit) 0
                (order_by r_created_at
                   (sel (λ r, bool_decide (r_status r = CANCEL_REQUESTED)) (runs s))) in
  Ok (r_run_id <$> List.filter (λ r, negb (has_running_attempt (r_run_id r) s)) rows).

(** ** Expired leases *)

(** [status = 'running' AND lease_expires_at < reference] *)
Definition lease_expired (reference : Z) (a : AttemptRow) : bool :=
  attempt_running a
  && match a_lease_expires_at a with Some l => (l <? reference)%Z | None => false end.

Definition lease_failure : json :=
  JObj [("category", JStr "lease_expired");
        ("message", JStr "worker stopped heartbeating; process fenced");
        ("retryable", JBool true)].

(** One expired row: fenced, then marked with a guarded UPDATE.  [others] is what
    other connections commit between the query and this statement. *)
Definition reclaim_attempt (fence : AttemptRow → bool) (others : Store → Store)
    (reference : Z) (row : AttemptRow * string) : st Store (option (string * string)) :=
  let '(a, run_id) := row in
  if negb (fence a) then mret None
  else
    modify others;;
    s ← gets id;
    let expired r := is_attempt (a_attempt_id a) r && lease_expired reference r in
    let updated := rowcount expired (attempts s) in
    modify (on_attempts (upd expired (λ r,
      attempt_ended A_LOST reference (a_exit_code r) (Some lease_failure) (a_cpu_seconds r)
                    (a_peak_memory_bytes r) (a_peak_processes r) r)));;
    if bool_decide (updated = 1%nat) then
      modify (on_reservations (del (is_reservation (a_attempt_id a))));;
      mret (Some (a_attempt_id a, run_id))
    else mret None.

Definition settle_lost (others : Store → Store) (now : Z) (run_id : string) : st Store unit :=
  resumed ← _may_resume others run_id;
  if (resumed : bool) then mret tt
  else catch (transition_run run_id LOST (Some "lease_expired") now)
             is_invalid_transition (λ _, mret tt).

(** The expired attempts, each with the run its stage belongs to. *)
Definition expired_rows (reference : Z) (s : Store) : list (AttemptRow * string) :=
  omap (λ a, g ← fetchone (is_stage (a_stage_run_id a)) (stages s); Some (a, s_run_id g))
       (sel (lease_expired reference) (attempts s)).

(** [sorted(run_ids)] of a set. *)
Definition sorted_set (l : list string) : list string := merge_sort String.le (remove_dups l).

Definition reclaim_expired_attempts (fence : AttemptRow → bool) (others : Store → Store)
    (reference now : Z) : st Store (list string) :=
  rows ← gets (expired_rows reference);
  reclaimed ← mapM_st (reclaim_attempt fence others reference) rows;
  let done := omap id reclaimed in
  iterM_st (settle_lost others now) (sorted_set (snd <$> done));;
  mret (fst <$> done).

(** ** The projection *)

Definition opt_int (o : option Z) : json := match o with Some z => JInt z | None => JNull end.

Definition _attempt_usage (attempt_id : string) (s : Store) : json :=
  match fetchone (is_attempt attempt_id) (attempts s) with
  | None => JNull
  | Some a =>
      if is_null (a_cpu_seconds a) && negb (bool_decide (is_Some (a_peak_memory_bytes a)))
         && negb (bool_decide (is_Some (a_peak_processes a))) then JNull
      else JObj [("cpu_seconds", a_cpu_seconds a);
                 ("peak_memory_bytes", opt_int (a_peak_memory_bytes a));
                 ("peak_processes", opt_int (a_peak_processes a))]
  end.

Definition describe_artifact (a : ArtifactRow) : json :=
  JObj [("artifact_id", JStr (ar_artifact_id a)); ("kind", JStr (ar_kind a));
        ("store_key", JStr (ar_store_key a)); ("sha256", JStr (ar_sha256 a));
        ("size_bytes", JInt (ar_size_bytes a)); ("metadata", JObj (ar_metadata_json a));
        ("storage", JStr (ar_storage a))].

Definition describe_attempt (s : Store) (t : Attempt) : result json :=
  ins ← mapM_result StagedInput_to_dict (list_inputs (at_attempt_id t) s);
  ms ← mapM_result Metric_to_dict (list_metrics (at_attempt_id t) s);
  Ok (JObj [("attempt_id", JStr (at_attempt_id t));
            ("attempt_number", JInt (at_attempt_number t));
            ("status", JStr (attempt_status_str (at_status t)));
            ("workspace", JStr (at_workspace t)); ("worker_id", JStr (at_worker_id t));
            ("failure", match at_failure t with Some d => JObj d | None => JNull end);
            ("resource_usage", _attempt_usage (at_attempt_id t) s);
            ("inputs", JList (JObj <$> ins));
            ("artifacts", JList (describe_artifact <$> list_artifacts (at_attempt_id t) s));
            ("metrics", JList (JObj <$> ms))]).

Definition describe_stage (s : Store) (g : StageRow) : result json :=
  ts ← mapM_result (describe_attempt s) (list_attempts (s_stage_run_id g) s);
  Ok (JObj [("stage_run_id", JStr (s_stage_run_id g)); ("stage_key", JStr (s_stage_key g));
            ("ordinal", JInt (s_ordinal g)); ("plugin_id", JStr (s_plugin_id g));
            ("plugin_version", JStr (s_plugin_version g));
            ("status", JStr (status_str (s_status g))); ("attempts", JList ts)]).

(** Times are shown as numbers here, as ISO text in the code. *)
Definition describe_run (run_id : string) (s : Store) : result dict :=
  run ← get_run run_id s;
  gs ← mapM_result (describe_stage s) (list_stages run_id s);
  let t := rec_task_spec run in
  Ok [("run_id", JStr (rec_run_id run)); ("task_id", JStr (rec_task_id run));
      ("project_id", t_project_id t); ("design_id", t_design_id t);
      ("design_revision_id", t_design_revision_id t); ("experiment_id", t_experiment_id t);
      ("input_manifest_sha256", t_input_manifest_sha256 t);
      ("status", JStr (status_str (rec_status run))); ("created_at", JInt (rec_created_at run));
      ("started_at", opt_int (rec_started_at run)); ("ended_at", opt_int (rec_ended_at run));
      ("terminal_reason", opt_json (rec_terminal_reason run)); ("stages", JList gs)].

(** [request_retry] returns the projection after COMMIT. *)
Definition request_retry (run_id requester reason event_hex : string) (now : Z)
    : st Store dict :=
  lift (raise_when (str_empty (strip reason) || str_empty (strip requester))
                   (RuntimeStoreError "retry reason and requester"));;
  retry_transaction run_id requester reason event_hex now;;
  s ← gets id;
  lift (describe_run run_id s).

(** ** runtime/worker_presence.py *)

(** [ORDER BY started_at] *)
Definition _active_attempts (worker_id : string) (s : Store) : list string :=
  a_attempt_id <$> order_by a_started_at
    (sel (λ a, bool_decide (a_worker_id a = worker_id) && attempt_running a) (attempts s)).

Definition touch (worker_id : string) (attempt_id : option string) (pid now : Z)
    : st Store unit :=
  s ← gets id;
  let active := _active_attempts worker_id s in
  let active := match attempt_id with
                | Some a => if bool_decide (a ∈ active) then active else a :: active
                | None => active
                end in
  let row := MkWorkerRow worker_id pid now (head active)
               (match active with [] => "idle" | _ => "running" end) in
  modify (on_workers (λ t,
    if has_row (λ w, bool_decide (w_worker_id w = worker_id)) t
    then upd (λ w, bool_decide (w_worker_id w = worker_id)) (λ _, row) t
    else ins row t)).

(** The state [snapshot] reports for one worker. *)
Definition reported_state (cutoff : Z) (w : WorkerRow) : string :=
  if (cutoff <=? w_last_seen_at w)%Z then w_state w else "stale".

(** The rows of [queue]'s join: stages waiting for a worker. *)
Definition waiting_stages (st : RuntimeStatus) (s : Store) : nat :=
  rowcount (λ g, bool_decide (s_status g = st) && has_row (is_run (s_run_id g)) (runs s))
           (stages s).
