(* ===== verification/StoreInv.v ===== *)
(** * The store's invariant

    [store_ok] is what every operation of [Store] keeps: keys, one stage per run
    with the run's status, attempts numbered without gaps, reservations held only
    by running attempts, stored tasks that load again.  [store_step] is one
    operation with any arguments; [store_step_ok] is preservation. *)

From S2P Require Export Store.
Open Scope string_scope.
Open Scope list_scope.

(** A run and its stage. *)
Definition coupled (r : RunRow) (g : StageRow) : Prop :=
  s_run_id g = r_run_id r ∧ s_status g = r_status r.

Definition run_ok (r : RunRow) : Prop :=
  (is_terminal (r_status r) = true → is_Some (r_ended_at r)) ∧
  ∃ t, TaskSpec_to_dict t = Ok (r_task_spec_json r) ∧ t_task_id t = JStr (r_task_id r).

Record runs_ok (rs : list RunRow) (gs : list StageRow) : Prop := {
  ro_runs : NoDup (r_run_id <$> rs);
  ro_stages : NoDup (s_stage_run_id <$> gs);
  ro_keys : ∀ r1 r2 k, r1 ∈ rs → r2 ∈ rs → r_idempotency_key r1 = Some k →
            r_idempotency_key r2 = Some k → r1 = r2;
  ro_coupled : Forall2 coupled rs gs;
  ro_each : Forall run_ok rs }.

Definition attempt_ok (a : AttemptRow) : Prop :=
  a_status a ≠ A_PENDING ∧
  (a_status a = A_RUNNING → is_Some (a_lease_expires_at a) ∧ a_ended_at a = None ∧
                            a_failure_json a = None) ∧
  (a_status a ≠ A_RUNNING → a_lease_expires_at a = None ∧ is_Some (a_ended_at a)).

Record attempts_ok (gs : list StageRow) (ats : list AttemptRow) : Prop := {
  ao_ids : NoDup (a_attempt_id <$> ats);
  ao_stage : Forall (λ a, a_stage_run_id a ∈ s_stage_run_id <$> gs) ats;
  ao_numbers : ∀ g, a_attempt_number <$> sel (attempt_of_stage g) ats
                    = seqZ 1 (Z.of_nat (rowcount (attempt_of_stage g) ats));
  ao_each : Forall attempt_ok ats }.

Record reservations_ok (ats : list AttemptRow) (vs : list ReservationRow) : Prop := {
  vo_ids : NoDup (v_attempt_id <$> vs);
  vo_each : Forall (λ v, (0 < v_cpu_cores v)%Z ∧ (0 < v_memory_bytes v)%Z ∧
                         v_attempt_id v ∈ a_attempt_id <$> sel attempt_running ats) vs }.

Record store_ok (s : Store) : Prop := {
  so_runs : runs_ok (runs s) (stages s);
  so_attempts : attempts_ok (stages s) (attempts s);
  so_reservations : reservations_ok (attempts s) (reservations s) }.

(** ** What an operation may do to a row

    No row of these tables disappears; the columns of the submission and of the
    claim never change; a settled attempt never changes at all; a run's status
    takes the moves of [run_move]. *)

Inductive run_move : RuntimeStatus → RuntimeStatus → Prop :=
| move_table s t : run_transition_allowed s t = true → run_move s t
| move_claim s : s = QUEUED ∨ s = RETRY_WAIT → run_move s RUNNING
| move_retry : run_move FAILED RETRY_WAIT.

Definition run_evolves (r r' : RunRow) : Prop :=
  r_run_id r' = r_run_id r ∧ r_task_id r' = r_task_id r ∧
  r_idempotency_key r' = r_idempotency_key r ∧ r_task_spec_json r' = r_task_spec_json r ∧
  r_created_at r' = r_created_at r ∧ rtc run_move (r_status r) (r_status r').

Definition stage_evolves (g g' : StageRow) : Prop :=
  s_stage_run_id g' = s_stage_run_id g ∧ s_run_id g' = s_run_id g ∧
  s_stage_key g' = s_stage_key g ∧ s_ordinal g' = s_ordinal g ∧
  s_plugin_id g' = s_plugin_id g ∧ s_plugin_version g' = s_plugin_version g ∧
  s_created_at g' = s_created_at g ∧ s_resumable g' = s_resumable g.

Definition attempt_evolves (a a' : AttemptRow) : Prop :=
  a_attempt_id a' = a_attempt_id a ∧ a_stage_run_id a' = a_stage_run_id a ∧
  a_attempt_number a' = a_attempt_number a ∧ a_workspace a' = a_workspace a ∧
  a_worker_id a' = a_worker_id a ∧ a_started_at a' = a_started_at a ∧
  (a_status a = A_RUNNING ∨ a' = a).

Definition rows_evolve {R} (E : R → R → Prop) (t t' : list R) : Prop :=
  ∀ r, r ∈ t → ∃ r', r' ∈ t' ∧ E r r'.

Record evolution (s s' : Store) : Prop := {
  ev_runs : rows_evolve run_evolves (runs s) (runs s');
  ev_stages : rows_evolve stage_evolves (stages s) (stages s');
  ev_attempts : rows_evolve attempt_evolves (attempts s) (attempts s');
  ev_events : events s `prefix_of` events s' }.

(** ** Rows *)

Section updates.
Context {R S : Type}.

Lemma Forall_upd (Q : R → Prop) (P : R → bool) f t :
  Forall Q t → (∀ r, r ∈ t → Q r → P r = true → Q (f r)) → Forall Q (upd P f t).
Proof.
  intros HQ Hf. apply Forall_forall. intros r Hr. apply elem_of_upd in Hr as (r0 & Hr0 & ->).
  rewrite Forall_forall in HQ. destruct (P r0) eqn:E; auto.
Qed.

Lemma Forall2_upd (C : R → S → Prop) (P : R → bool) f (Q : S → bool) h rs gs :
  Forall2 C rs gs →
  (∀ r g, r ∈ rs → g ∈ gs → C r g →
          C (if P r then f r else r) (if Q g then h g else g)) →
  Forall2 C (upd P f rs) (upd Q h gs).
Proof.
  unfold upd. induction 1 as [|r g rs gs Hrg Hall IH]; intros H; csimpl; constructor.
  - apply H; [left|left|done].
  - apply IH. intros r' g' Hr Hg. apply H; by right.
Qed.

Lemma Forall_ins (Q : R → Prop) r t : Forall Q t → Q r → Forall Q (ins r t).
Proof. intros Ht Hr. unfold ins. rewrite Forall_app. auto. Qed.

Lemma rowcount_upd (P Q : R → bool) f (t : list R) :
  (∀ r, r ∈ t → P r = true → Q (f r) = Q r) → rowcount Q (upd P f t) = rowcount Q t.
Proof. intros H. unfold rowcount. rewrite sel_upd by done. unfold upd. apply length_fmap. Qed.

Lemma rowcount_ins P r (t : list R) :
  rowcount P (ins r t) = (rowcount P t + (if P r then 1 else 0))%nat.
Proof. unfold rowcount. rewrite sel_ins, length_app. by destruct (P r). Qed.

(** An UPDATE keyed on a unique column changes at most one row. *)
Lemma rowcount_key {K} (key : R → K) (P : R → bool) k t :
  NoDup (key <$> t) → (∀ r, P r = true → key r = k) → (rowcount P t ≤ 1)%nat.
Proof.
  intros Hnd HP. unfold rowcount, sel. induction t as [|r t IH]; simpl; [lia|].
  apply NoDup_cons in Hnd as [Hn Hnd]. specialize (IH Hnd).
  destruct (P r) eqn:E; simpl; [|lia].
  destruct (List.filter P t) as [|r' l] eqn:El; simpl; [lia|]. destruct Hn.
  assert (r' ∈ sel P t) as Hr' by (unfold sel; rewrite El; left).
  apply elem_of_sel in Hr' as [Ht HPr']. rewrite (HP r E), <-(HP r' HPr').
  by apply list_elem_of_fmap_2.
Qed.

End updates.

(** ** Facts about [store_ok] *)

Section facts.
Context (rs : list RunRow) (gs : list StageRow) (Hok : runs_ok rs gs).

Lemma stage_runs : s_run_id <$> gs = r_run_id <$> rs.
Proof.
  pose proof (ro_coupled _ _ Hok) as Hc. clear Hok.
  induction Hc as [|r g rs' gs' [Hid _] _ IH]; csimpl; [done|]. by rewrite Hid, IH.
Qed.

Lemma stage_run_nodup : NoDup (s_run_id <$> gs).
Proof. rewrite stage_runs. by destruct Hok. Qed.

Lemma run_unique r r' : r ∈ rs → r' ∈ rs → r_run_id r = r_run_id r' → r = r'.
Proof. intros. destruct Hok. by eapply key_inj. Qed.

Lemma stage_unique g g' : g ∈ gs → g' ∈ gs → s_stage_run_id g = s_stage_run_id g' → g = g'.
Proof. intros. destruct Hok. by eapply key_inj. Qed.

Lemma stage_unique_run g g' : g ∈ gs → g' ∈ gs → s_run_id g = s_run_id g' → g = g'.
Proof. intros. eapply key_inj; [apply stage_run_nodup|done..]. Qed.

Lemma run_of_stage g : g ∈ gs → ∃ r, r ∈ rs ∧ coupled r g.
Proof.
  destruct Hok as [_ _ _ Hc _]. intros [i Hi]%list_elem_of_lookup.
  destruct (Forall2_lookup_r _ _ _ _ _ Hc Hi) as (r & Hr & H).
  exists r. split; [by eapply list_elem_of_lookup_2|done].
Qed.

Lemma stage_of r : r ∈ rs → ∃ g, g ∈ gs ∧ coupled r g.
Proof.
  destruct Hok as [_ _ _ Hc _]. intros [i Hi]%list_elem_of_lookup.
  destruct (Forall2_lookup_l _ _ _ _ _ Hc Hi) as (g & Hg & H).
  exists g. split; [by eapply list_elem_of_lookup_2|done].
Qed.
End facts.

(** ** Changing a run and its stage together *)

(** [f] and [h] set the same status and keep the keys. *)
Definition status_change (f : RunRow → RunRow) (h : StageRow → StageRow) : Prop :=
  (∀ r, r_run_id (f r) = r_run_id r ∧ r_idempotency_key (f r) = r_idempotency_key r ∧
        r_task_spec_json (f r) = r_task_spec_json r ∧ r_task_id (f r) = r_task_id r) ∧
  (∀ g, s_run_id (h g) = s_run_id g ∧ s_stage_run_id (h g) = s_stage_run_id g) ∧
  (∀ r g, r_status (f r) = s_status (h g)) ∧
  (∀ r, is_terminal (r_status (f r)) = true → is_Some (r_ended_at (f r))).

Lemma runs_ok_change rs gs (P : RunRow → bool) f (Q : StageRow → bool) h :
  runs_ok rs gs → status_change f h →
  (∀ r g, r ∈ rs → g ∈ gs → coupled r g → P r = Q g) →
  runs_ok (upd P f rs) (upd Q h gs).
Proof.
  intros [Hr Hg Hk Hc He] (Hf & Hh & Hs & Ht) HPQ. constructor.
  - by rewrite fmap_upd_key by (intros; apply Hf).
  - by rewrite fmap_upd_key by (intros; apply Hh).
  - intros r1 r2 k H1 H2 K1 K2.
    apply elem_of_upd in H1 as (r1' & H1 & ->). apply elem_of_upd in H2 as (r2' & H2 & ->).
    assert (r1' = r2') as ->; [|done]. apply (Hk r1' r2' k); try done.
    + revert K1. destruct (P r1'); [|done]. by rewrite (proj1 (proj2 (Hf r1'))).
    + revert K2. destruct (P r2'); [|done]. by rewrite (proj1 (proj2 (Hf r2'))).
  - apply Forall2_upd; [done|]. intros r g Hri Hgi Hrg.
    rewrite <-(HPQ r g Hri Hgi Hrg). destruct (P r); [|done].
    destruct Hrg as [Hid _]. split; [|by rewrite <-(Hs r g)].
    by rewrite (proj1 (Hh g)), (proj1 (Hf r)).
  - apply Forall_upd; [done|]. intros r Hri [_ (t & Hd & Hi)] _.
    destruct (Hf r) as (_ & _ & Hspec & Htask). split; [apply Ht|].
    exists t. by rewrite Hspec, Htask.
Qed.

Lemma attempts_ok_stages gs gs' ats :
  s_stage_run_id <$> gs' = s_stage_run_id <$> gs → attempts_ok gs ats → attempts_ok gs' ats.
Proof. intros Heq [? Hs ? ?]. constructor; try done. by rewrite Heq. Qed.

Lemma upd_stage_ids Q h gs :
  (∀ g, s_stage_run_id (h g) = s_stage_run_id g) →
  s_stage_run_id <$> upd Q h gs = s_stage_run_id <$> gs.
Proof. intros H. apply fmap_upd_key. auto. Qed.

(** A status change of runs and stages, everything else as it was. *)
Lemma store_ok_change s (P : RunRow → bool) f (Q : StageRow → bool) h :
  store_ok s → status_change f h →
  (∀ r g, r ∈ runs s → g ∈ stages s → coupled r g → P r = Q g) →
  store_ok (on_stages (upd Q h) (on_runs (upd P f) s)).
Proof.
  intros [Hr Ha Hv] Hch HPQ. constructor; simpl; [by apply runs_ok_change| |done].
  eapply attempts_ok_stages; [|done]. apply upd_stage_ids, Hch.
Qed.

(** ** The operations' effects

    Each lemma says what the store is after the operation returned. *)

Definition moved (run_id : string) (target : RuntimeStatus) (reason : option string) (now : Z)
    (r : RunRow) : RunRow :=
  run_with target
    (if bool_decide (target = RUNNING) then coalesce (r_started_at r) now else r_started_at r)
    (if is_terminal target then Some now else r_ended_at r)
    (match reason with Some _ => reason | None => r_terminal_reason r end) r.

Definition settles (run_id : string) (g : StageRow) : bool :=
  stage_of_run run_id g && negb (is_terminal (s_status g)).

Definition restaged (target : RuntimeStatus) (g : StageRow) : StageRow :=
  stage_with target (s_started_at g) g.

Lemma transition_run_Ok run_id target reason now s u s' :
  transition_run run_id target reason now s = (Ok u, s') →
  ∃ row, fetchone (is_run run_id) (runs s) = Some row ∧
    ((r_status row = target ∧ s' = s) ∨
     (run_transition_allowed (r_status row) target = true ∧
      s' = on_stages (upd (settles run_id) (restaged target))
             (on_runs (upd (is_run run_id) (moved run_id target reason now)) s))).
Proof.
  unfold transition_run. intros H. invert_st.
  eexists; split; [done|]. case_bool_decide; invert_st; [by left|right].
  bool_simpl. unfold settle_stages in *. by invert_st.
Qed.

Lemma fail_queued_run_Ok run_id category message hex now s b s' :
  fail_queued_run run_id category message hex now s = (Ok b, s') →
  ∃ row, fetchone (is_run run_id) (runs s) = Some row ∧
    ((b = false ∧ s' = s) ∨
     (b = true ∧ status_in [QUEUED; PREPARING; RETRY_WAIT] (r_status row) = true ∧
      ∃ e, e_run_id e = run_id ∧
      s' = on_events (ins e) (on_stages (upd (settles run_id) (restaged FAILED))
             (on_runs (upd (is_run run_id) (λ r,
                run_with FAILED (r_started_at r) (Some now) (Some category) r)) s)))).
Proof.
  unfold fail_queued_run. intros H. invert_st. 
  eexists; split; [done|]. case_match; invert_st; [by left|right].
  bool_simpl. unfold settle_stages, insert_event in *. invert_st.
  rewrite constraint_run in *. case_match; invert_st. split_and!; [done..|].
  eexists; split; [|reflexivity]. done.
Qed.

Lemma schedule_retry_Ok run_id stage_run_id reason s u s' :
  schedule_retry run_id stage_run_id reason s = (Ok u, s') →
  ∃ stage row, fetchone (is_stage stage_run_id) (stages s) = Some stage ∧
    fetchone (is_run run_id) (runs s) = Some row ∧ s_status stage = RUNNING ∧
    run_transition_allowed (r_status row) RETRY_WAIT = true ∧
    s' = on_runs (upd (is_run run_id) (λ r,
           run_with RETRY_WAIT (r_started_at r) (r_ended_at r) (Some reason) r))
         (on_stages (upd (is_stage stage_run_id) (restaged RETRY_WAIT)) s).
Proof.
  unfold schedule_retry. intros H. invert_st. bool_simpl.
  by do 2 eexists.
Qed.

Lemma finish_attempt_Ok attempt_id status exit_code failure cpu mem procs now s u s' :
  finish_attempt attempt_id status exit_code failure cpu mem procs now s = (Ok u, s') →
  ∃ row, fetchone (is_attempt attempt_id) (attempts s) = Some row ∧
    attempt_transition_allowed (a_status row) status = true ∧
    s' = on_reservations (del (is_reservation attempt_id))
           (on_attempts (upd (is_attempt attempt_id)
             (attempt_ended status now exit_code (failure_column failure) cpu mem procs)) s).
Proof.
  unfold finish_attempt. intros H. invert_st. bool_simpl. by eexists.
Qed.

Lemma retry_transaction_Ok run_id requester reason hex now s u s' :
  retry_transaction run_id requester reason hex now s = (Ok u, s') →
  ∃ row stage attempt task e,
    fetchone (is_run run_id) (runs s) = Some row ∧ r_status row = FAILED ∧
    TaskSpec_from_dict (JObj (r_task_spec_json row)) = Ok task ∧
    fetchone (stage_of_run run_id) (stages s) = Some stage ∧
    latest_attempt (s_stage_run_id stage) s = Some attempt ∧
    not_retryable (_optional_json_object (a_failure_json attempt)) = false ∧
    (a_attempt_number attempt < max_attempts_of task)%Z ∧
    s' = on_events (ins e) (on_stages (upd (is_stage (s_stage_run_id stage)) (restaged RETRY_WAIT))
          (on_runs (upd (is_run run_id) (λ r,
            run_with RETRY_WAIT (r_started_at r) (r_ended_at r)
              (Some ("retry requested by " +:+ requester +:+ ": " +:+ reason)) r)) s)).
Proof.
  unfold retry_transaction. intros H. invert_st. bool_simpl.
  case_match; [|by invert_st]. case_match eqn:Ha; [|by invert_st].
  unfold insert_event in *. invert_st. rewrite constraint_run in *.
  case_match; invert_st. simpl in Ha. rewrite Z.leb_gt in *.
  do 5 eexists. split_and!; done.
Qed.

Definition claimed (now : Z) (g : StageRow) : StageRow :=
  stage_with RUNNING (coalesce (s_started_at g) now) g.
Definition claimed_run (now : Z) (r : RunRow) : RunRow :=
  run_with RUNNING (coalesce (r_started_at r) now) (r_ended_at r) (r_terminal_reason r) r.
Definition claims (stage : StageRow) (r : RunRow) : bool :=
  is_run (s_run_id stage) r && status_in [QUEUED; PREPARING; RETRY_WAIT] (r_status r).

(** What admission decided, and the row it wrote. *)
Lemma reserve_Ok attempt_id resources cpu mem fraction s b s' :
  reserve attempt_id resources cpu mem fraction s = (Ok b, s') →
  s' = s ∨
  ∃ v cap_cpu cap_mem bc bm, b = true ∧ v_attempt_id v = attempt_id ∧
    cpu = Some cap_cpu ∧ mem = Some cap_mem ∧
    budget cap_cpu fraction = Ok bc ∧ budget cap_mem fraction = Ok bm ∧
    (fst (resource_totals s) + v_cpu_cores v ≤ bc)%Z ∧
    (snd (resource_totals s) + v_memory_bytes v ≤ bm)%Z ∧
    (0 < v_cpu_cores v)%Z ∧ (0 < v_memory_bytes v)%Z ∧
    has_row (is_reservation attempt_id) (reservations s) = false ∧
    s' = on_reservations (ins v) s.
Proof.
  unfold reserve. intros H. repeat (case_match; invert_st; auto). right.
  unfold insert_reservation in *. invert_st. rewrite constraint_run in *.
  repeat (case_match; invert_st). bool_simpl. rewrite !Z.ltb_lt, ?Z.ltb_ge in *.
  eexists (MkReservationRow attempt_id _ _), _, _, _, _.
  split_and!; [done..|reflexivity].
Qed.

Lemma start_attempt_inv stage_run_id worker_id workspace lease resources cpu mem fraction hex now
    s r s' :
  start_attempt stage_run_id worker_id workspace lease resources cpu mem fraction hex now s
    = (r, s') →
  (s' = s ∧ ∀ a, r ≠ Ok (Some a)) ∨
  ∃ stage number a s1, r = Ok (Some a) ∧ (0 < lease)%Z ∧
    fetchone (is_stage stage_run_id) (stages s) = Some stage ∧
    status_in [QUEUED; RETRY_WAIT] (s_status stage) = true ∧
    number = (max_col a_attempt_number (sel (attempt_of_stage stage_run_id) (attempts s)) + 1)%Z ∧
    a = MkAttempt (_new_id "attempt" hex) stage_run_id number A_RUNNING workspace worker_id
                  None None None None ∧
    has_row (is_attempt (_new_id "attempt" hex)) (attempts s) = false ∧
    reserve (_new_id "attempt" hex) resources cpu mem fraction
      (on_attempts (ins (new_attempt (_new_id "attempt" hex) stage_run_id number workspace
                                     worker_id lease now)) s) = (Ok true, s1) ∧
    s' = on_runs (upd (claims stage) (claimed_run now))
           (on_stages (upd (is_stage stage_run_id) (claimed now)) s1).
Proof.
  unfold start_attempt. rewrite bind_run. unfold lift at 1.
  destruct (raise_when (lease <=? 0)%Z _) as [[]|] eqn:Hl; [|intros [= <- <-]; by left].
  unfold transaction_opt.
  match goal with |- context [match ?m with _ => _ end] => destruct m as [[[at0|]|e] s2] eqn:H end;
    intros [= <- <-]; [right|by left|by left].
  invert_st. bool_simpl. unfold insert_attempt in *. invert_st. rewrite constraint_run in *.
  repeat (case_match; invert_st). bool_simpl. rewrite Z.leb_gt in *.
  do 4 eexists. split_and!; try done. by subst.
Qed.

(** ** Preservation *)

Lemma status_change_run st (started ended : RunRow → option Z) (reason : RunRow → option string) h :
  (∀ g, s_run_id (h g) = s_run_id g ∧ s_stage_run_id (h g) = s_stage_run_id g ∧ s_status (h g) = st) →
  (is_terminal st = true → ∀ r, is_Some (ended r)) →
  status_change (λ r, run_with st (started r) (ended r) (reason r) r) h.
Proof.
  intros Hh He. split_and!; [done| | |].
  - intros g. destruct (Hh g) as (? & ? & ?). done.
  - intros r g. destruct (Hh g) as (? & ? & ->). done.
  - intros r Ht. by apply He.
Qed.

(** The run named in a query and the stage coupled with a row of it. *)
Lemma settles_coupled s run_id row :
  store_ok s → fetchone (is_run run_id) (runs s) = Some row → is_terminal (r_status row) = false →
  ∀ r g, r ∈ runs s → g ∈ stages s → coupled r g → is_run run_id r = settles run_id g.
Proof.
  intros [Hok _ _] Hrow Ht r g Hr Hg [Hid Hst]. apply fetchone_Some in Hrow as [Hrow Hm].
  unfold is_run, settles, stage_of_run in *. bool_simpl. rewrite Hid, Hst.
  case_bool_decide as H; [|done]. simpl.
  assert (r = row) as -> by (eapply run_unique; eauto; congruence). by rewrite Ht.
Qed.

Lemma run_transition_active r target :
  run_transition_allowed (r_status r) target = true → is_terminal (r_status r) = false.
Proof.
  intros H. apply not_true_iff_false. intros Ht. by destruct (run_step_terminal _ target Ht).
Qed.

Lemma status_in_active l st :
  status_in l st = true → Forall (λ x, is_terminal x = false) l → is_terminal st = false.
Proof. intros H%bool_decide_eq_true Hl. by eapply Forall_forall in Hl. Qed.

Lemma on_events_ok f s : store_ok s → store_ok (on_events f s).
Proof. intros []. by constructor. Qed.
Lemma on_workers_ok f s : store_ok s → store_ok (on_workers f s).
Proof. intros []. by constructor. Qed.

Lemma transition_run_ok run_id target reason now s u s' :
  store_ok s → transition_run run_id target reason now s = (u, s') → store_ok s'.
Proof.
  intros Hok H. destruct u as [u|e]; [|by apply transaction_Err in H as ->].
  apply transition_run_Ok in H as (row & Hrow & [[_ ->]|[Ha ->]]); [done|].
  apply store_ok_change; [done| |].
  - apply status_change_run; [done|]. intros -> r. by eexists.
  - by eapply settles_coupled, run_transition_active.
Qed.

Lemma fail_queued_run_ok run_id category message hex now s u s' :
  store_ok s → fail_queued_run run_id category message hex now s = (u, s') → store_ok s'.
Proof.
  intros Hok H. destruct u as [u|e].
  - apply fail_queued_run_Ok in H as (row & Hrow & [[_ ->]|(_ & Hst & e & _ & ->)]); [done|].
    apply on_events_ok, store_ok_change; [done| |].
    + apply status_change_run; [done|]. intros _ r. by eexists.
    + eapply settles_coupled; [done..|]. by eapply status_in_active in Hst; [|repeat constructor].
  - unfold fail_queued_run in H. rewrite bind_run in H. unfold lift in H.
    destruct (raise_when _ _); [|by simplify_eq]. by apply transaction_Err in H as ->.
Qed.

Lemma is_stage_coupled s run_id stage_run_id stage :
  store_ok s → fetchone (is_stage stage_run_id) (stages s) = Some stage → s_run_id stage = run_id →
  ∀ r g, r ∈ runs s → g ∈ stages s → coupled r g → is_run run_id r = is_stage stage_run_id g.
Proof.
  intros [Hok _ _] Hst <- r g Hr Hg [Hid _]. apply fetchone_Some in Hst as [Hin Hm].
  unfold is_run, is_stage in *. bool_simpl. rewrite <-Hid, <-Hm. apply bool_decide_ext. split.
  - intros. f_equal. by eapply stage_unique_run.
  - intros. f_equal. by eapply stage_unique.
Qed.

(** A stage table update and a run table update commute. *)
Lemma on_runs_stages f h s : on_runs f (on_stages h s) = on_stages h (on_runs f s).
Proof. done. Qed.

Lemma schedule_retry_ok run_id stage_run_id reason s u s' :
  store_ok s →
  (∀ g, fetchone (is_stage stage_run_id) (stages s) = Some g → s_run_id g = run_id) →
  schedule_retry run_id stage_run_id reason s = (u, s') → store_ok s'.
Proof.
  intros Hok Hown H. destruct u as [u|e]; [|by apply transaction_Err in H as ->].
  apply schedule_retry_Ok in H as (stage & row & Hst & Hrow & _ & _ & ->).
  rewrite on_runs_stages. apply store_ok_change; [done| |].
  - by apply status_change_run.
  - eapply is_stage_coupled; eauto.
Qed.

Lemma retry_transaction_ok run_id requester reason hex now s u s' :
  store_ok s → retry_transaction run_id requester reason hex now s = (u, s') → store_ok s'.
Proof.
  intros Hok H. destruct u as [u|e]; [|by apply transaction_Err in H as ->].
  apply retry_transaction_Ok in H
    as (row & stage & att & task & e & Hrow & _ & _ & Hst & _ & _ & _ & ->).
  apply on_events_ok, store_ok_change; [done|by apply status_change_run|].
  apply fetchone_Some in Hst as [Hst Hrun]. unfold stage_of_run in Hrun. bool_simpl.
  eapply is_stage_coupled; [done| |done]. apply fetchone_unique; [|done]. apply Hok.
Qed.

(** ** Attempts and reservations *)

Definition keeps_key (f : AttemptRow → AttemptRow) : Prop :=
  ∀ a, a_attempt_id (f a) = a_attempt_id a ∧ a_stage_run_id (f a) = a_stage_run_id a ∧
       a_attempt_number (f a) = a_attempt_number a.

Lemma attempts_ok_upd gs ats (P : AttemptRow → bool) f :
  attempts_ok gs ats → keeps_key f →
  (∀ a, a ∈ ats → attempt_ok a → P a = true → attempt_ok (f a)) →
  attempts_ok gs (upd P f ats).
Proof.
  intros [Hi Hs Hn He] Hf Hok. constructor.
  - by rewrite fmap_upd_key by (intros; apply Hf).
  - apply Forall_upd; [done|]. intros a _ Ha _. by rewrite (proj1 (proj2 (Hf a))).
  - intros g. assert (∀ a, attempt_of_stage g (f a) = attempt_of_stage g a) as Hg.
    { intros a. unfold attempt_of_stage. by rewrite (proj1 (proj2 (Hf a))). }
    rewrite sel_upd, rowcount_upd by auto.
    rewrite fmap_upd_key by (intros; apply Hf). apply Hn.
  - by apply Forall_upd.
Qed.

Lemma running_ids_upd i ats (P : AttemptRow → bool) f :
  i ∈ a_attempt_id <$> sel attempt_running ats → keeps_key f →
  (∀ a, a ∈ ats → a_attempt_id a = i → P a = true → attempt_running a = true →
        attempt_running (f a) = true) →
  i ∈ a_attempt_id <$> sel attempt_running (upd P f ats).
Proof.
  intros (a & -> & Ha)%list_elem_of_fmap Hf Hrun. apply elem_of_sel in Ha as [Ha Hra].
  apply list_elem_of_fmap. exists (if P a then f a else a). split.
  - destruct (P a); [|done]. by rewrite (proj1 (Hf a)).
  - apply elem_of_sel. split; [apply elem_of_upd; eauto|].
    destruct (P a) eqn:E; [|done]. by apply Hrun.
Qed.

(** An UPDATE of attempts, with the reservations of those it stops removed. *)
Lemma store_ok_attempts s (P : AttemptRow → bool) f Q :
  store_ok s → keeps_key f →
  (∀ a, a ∈ attempts s → attempt_ok a → P a = true → attempt_ok (f a)) →
  (∀ a v, a ∈ attempts s → v ∈ reservations s → a_attempt_id a = v_attempt_id v → P a = true →
          attempt_running a = true → Q v = true ∨ attempt_running (f a) = true) →
  store_ok (on_reservations (del Q) (on_attempts (upd P f) s)).
Proof.
  intros [Hr Ha [Hi He]] Hf Hok HQ. constructor; simpl; [done|by apply attempts_ok_upd|].
  constructor; [by apply NoDup_fmap_del|].
  apply Forall_forall. intros v [Hv Hnv]%elem_of_del. rewrite Forall_forall in He.
  destruct (He v Hv) as (? & ? & Hrun). split_and!; [done..|].
  apply running_ids_upd; [done..|]. intros a Hai Hid HPa Hra.
  destruct (HQ a v Hai Hv Hid HPa Hra); congruence.
Qed.

Lemma del_none {R} (t : list R) : del (λ _, false) t = t.
Proof. unfold del. induction t as [|r t IH]; simpl; [done|]. by f_equal. Qed.

Lemma on_reservations_none s : on_reservations (del (λ _, false)) s = s.
Proof. destruct s. unfold on_reservations. simpl. by rewrite del_none. Qed.

(** An UPDATE of attempts that stops none of them. *)
Lemma store_ok_attempts_keep s (P : AttemptRow → bool) f :
  store_ok s → keeps_key f → (∀ a, a_status (f a) = a_status a) →
  (∀ a, a ∈ attempts s → attempt_ok a → P a = true → attempt_ok (f a)) →
  store_ok (on_attempts (upd P f) s).
Proof.
  intros Hs Hf Hst Hok. rewrite <-(on_reservations_none (on_attempts _ s)).
  apply store_ok_attempts; try done. intros a v _ _ _ _ Hra. right.
  unfold attempt_running in *. by rewrite Hst.
Qed.

Lemma attempt_ended_ok st now ec fl cpu mem procs a :
  st ≠ A_PENDING → st ≠ A_RUNNING → attempt_ok (attempt_ended st now ec fl cpu mem procs a).
Proof. intros ??. split_and!; [done|done|]. intros _. simpl. split; [done|by eexists]. Qed.

Lemma attempt_transition_target st st' :
  attempt_transition_allowed st st' = true → st ≠ A_PENDING →
  st = A_RUNNING ∧ st' ≠ A_PENDING ∧ st' ≠ A_RUNNING.
Proof. destruct st, st'; vm_compute; intros; split_and!; congruence. Qed.

Lemma store_ok_attempt s a : store_ok s → a ∈ attempts s → attempt_ok a.
Proof. intros [_ [_ _ _ He] _] Ha. by eapply Forall_forall in He. Qed.

Lemma finish_attempt_ok attempt_id status ec fl cpu mem procs now s u s' :
  store_ok s → finish_attempt attempt_id status ec fl cpu mem procs now s = (u, s') → store_ok s'.
Proof.
  intros Hok H. destruct u as [u|e]; [|by apply transaction_Err in H as ->].
  apply finish_attempt_Ok in H as (row & Hrow & Ht & ->). apply fetchone_Some in Hrow as [Hin Hm].
  apply attempt_transition_target in Ht as (_ & Hp & Hr);
    [|by destruct (store_ok_attempt _ _ Hok Hin)].
  apply store_ok_attempts; [done|done| |].
  - intros a _ _ _. by apply attempt_ended_ok.
  - intros a v _ _ Hid Ha _. left. unfold is_attempt, is_reservation in *. bool_simpl.
    apply bool_decide_eq_true. congruence.
Qed.

Lemma lease_with_ok h l a : is_Some l → attempt_ok a → attempt_running a = true →
  attempt_ok (lease_with h l a).
Proof.
  intros Hl (Hp & Hr & Hn) Hrun. unfold attempt_running in Hrun. bool_simpl.
  destruct (Hr Hrun) as (_ & ? & ?). split_and!; simpl; [done|done|congruence].
Qed.

(** What other connections may do meanwhile: operations of this file. *)
Definition harmless (others : Store → Store) : Prop :=
  ∀ s, store_ok s → store_ok (others s) ∧ evolution s (others s).

Lemma heartbeat_ok others attempt_id worker_id lease now s u s' :
  harmless others → store_ok s →
  heartbeat others attempt_id worker_id lease now s = (u, s') → store_ok s'.
Proof.
  intros Hoth Hok H. unfold heartbeat in H. rewrite !bind_run in H. simpl in H.
  repeat (rewrite bind_run in H; simpl in H; unfold lift in H; case_match; simplify_eq; [|done]).
  repeat (rewrite bind_run in H; simpl in H). unfold lift in H. simplify_eq.
  apply store_ok_attempts_keep; [by apply (Hoth s)|done|done|].
  intros a' _ Ha Hown. apply lease_with_ok; [by eexists|done|].
  unfold owned_attempt in Hown. by bool_simpl.
Qed.

Lemma attach_process_ok attempt_id worker_id pid pgid ticks s u s' :
  store_ok s → attach_process attempt_id worker_id pid pgid ticks s = (u, s') → store_ok s'.
Proof.
  intros Hok H. unfold attach_process in H. rewrite !bind_run in H. unfold lift at 1 in H.
  case_match; simplify_eq; [|done]. repeat (rewrite bind_run in H; simpl in H).
  unfold lift in H. simplify_eq.
  apply store_ok_attempts_keep; [done|done|done|]. intros a' _ (? & ? & ?) _. done.
Qed.

Lemma release_resources_ok attempt_id s u s' :
  store_ok s → release_resources attempt_id s = (u, s') → store_ok s'.
Proof.
  intros [Hr Ha [Hi He]] [= _ <-]. constructor; simpl; [done..|].
  constructor; [by apply NoDup_fmap_del|]. apply Forall_forall. intros v [Hv _]%elem_of_del.
  by eapply Forall_forall in He.
Qed.

(** ** Claiming *)

Lemma max_col_nonneg {R} (c : R → Z) t : (0 ≤ max_col c t)%Z.
Proof. unfold max_col. induction t; simpl; lia. Qed.

Lemma max_col_numbers {R} (c : R → Z) t n :
  c <$> t = seqZ 1 n → (0 ≤ n)%Z → max_col c t = n.
Proof.
  intros Heq Hn. apply Z.le_antisymm.
  - assert (∀ r, r ∈ t → c r ≤ n)%Z as H.
    { intros r Hr. apply (list_elem_of_fmap_2 c) in Hr. rewrite Heq in Hr.
      apply elem_of_seqZ in Hr. lia. }
    clear Heq. induction t as [|r t IH]; simpl; [done|].
    assert (c r ≤ n)%Z by (apply H; left). specialize (IH (λ r' Hr, H r' ltac:(by right))).
    unfold max_col in *. simpl. lia.
  - destruct (decide (n = 0)%Z) as [->|]; [apply max_col_nonneg|].
    assert (n ∈ c <$> t) as (r & -> & Hr)%list_elem_of_fmap.
    { rewrite Heq. apply elem_of_seqZ. lia. }
    by apply max_col_ub.
Qed.

Lemma seqZ_snoc m n : (0 ≤ n)%Z → seqZ m (n + 1) = seqZ m n ++ [(m + n)%Z].
Proof. intros Hn. rewrite seqZ_app by lia. done. Qed.

Lemma attempts_ok_ins gs ats a :
  attempts_ok gs ats → a_attempt_id a ∉ a_attempt_id <$> ats →
  a_stage_run_id a ∈ s_stage_run_id <$> gs →
  a_attempt_number a = (max_col a_attempt_number (sel (attempt_of_stage (a_stage_run_id a)) ats) + 1)%Z →
  attempt_ok a → attempts_ok gs (ins a ats).
Proof.
  intros [Hi Hs Hn He] Hid Hst Hnum Hok. constructor.
  - apply NoDup_fmap_ins; [done|]. intros a' Ha' Heq. apply Hid. rewrite <-Heq.
    by apply list_elem_of_fmap_2.
  - by apply Forall_ins.
  - intros g. rewrite rowcount_ins, sel_ins. unfold attempt_of_stage at 2 4.
    case_bool_decide as Hg; simpl; [|by rewrite app_nil_r, Nat.add_0_r].
    rewrite fmap_app, Hn, Nat2Z.inj_add, seqZ_snoc by lia. f_equal. simpl. f_equal.
    rewrite Hnum, Hg. rewrite (max_col_numbers _ _ _ (Hn g)); lia.
  - by apply Forall_ins.
Qed.

Lemma running_ids_ins i a ats :
  i ∈ a_attempt_id <$> sel attempt_running ats → i ∈ a_attempt_id <$> sel attempt_running (ins a ats).
Proof. intros H. rewrite sel_ins, fmap_app. apply elem_of_app. by left. Qed.

Lemma has_row_key {R} (key : R → string) k t :
  has_row (λ r, bool_decide (key r = k)) t = false → k ∉ key <$> t.
Proof.
  intros H (r & -> & Hr)%list_elem_of_fmap. rewrite has_row_false in H.
  specialize (H r Hr). by apply bool_decide_eq_false in H.
Qed.

Lemma reservations_ok_ins ats vs v :
  reservations_ok ats vs → (0 < v_cpu_cores v)%Z → (0 < v_memory_bytes v)%Z →
  v_attempt_id v ∉ v_attempt_id <$> vs →
  v_attempt_id v ∈ a_attempt_id <$> sel attempt_running ats → reservations_ok ats (ins v vs).
Proof.
  intros [Hi He] Hc Hm Hn Hr. constructor.
  - apply NoDup_fmap_ins; [done|]. intros v' Hv' Heq. apply Hn. rewrite <-Heq.
    by apply list_elem_of_fmap_2.
  - by apply Forall_ins.
Qed.

Lemma claims_coupled s stage_run_id stage :
  store_ok s → fetchone (is_stage stage_run_id) (stages s) = Some stage →
  status_in [QUEUED; RETRY_WAIT] (s_status stage) = true →
  ∀ r g, r ∈ runs s → g ∈ stages s → coupled r g → claims stage r = is_stage stage_run_id g.
Proof.
  intros Hok Hst Hq r g Hr Hg Hrg.
  pose proof (is_stage_coupled _ _ _ _ Hok Hst eq_refl r g Hr Hg Hrg) as H.
  unfold claims. rewrite H. destruct (is_stage stage_run_id g) eqn:E; [|done]. simpl.
  destruct Hrg as [_ <-]. apply fetchone_Some in Hst as [Hin Hm]. unfold is_stage in *. bool_simpl.
  assert (g = stage) as -> by (eapply stage_unique; eauto using so_runs; congruence).
  unfold status_in in *. bool_simpl. apply bool_decide_eq_true.
  rewrite !elem_of_cons in *. naive_solver.
Qed.

Lemma start_attempt_ok stage_run_id worker_id workspace lease resources cpu mem fraction hex now
    s u s' :
  store_ok s →
  start_attempt stage_run_id worker_id workspace lease resources cpu mem fraction hex now s
    = (u, s') → store_ok s'.
Proof.
  intros Hok H. apply start_attempt_inv in H as [[-> _]|H]; [done|].
  destruct H as (stage & number & a & s1 & _ & _ & Hst & Hq & Hnum & _ & Hfresh & Hres & ->).
  set (new := new_attempt _ _ _ _ _ _ _) in Hres.
  assert (store_ok (on_attempts (ins new) s)) as Hok1.
  { destruct Hok as [Hr Ha [Hi He]]. constructor; simpl; [done| |].
    - apply attempts_ok_ins; [done|by apply has_row_key| |by subst number|].
      + apply fetchone_Some in Hst as [Hin Hm]. unfold is_stage in Hm. bool_simpl.
        simpl. rewrite <-Hm. by apply list_elem_of_fmap_2.
      + split_and!; [done| |done]. intros _. simpl. split_and!; [by eexists|done..].
    - constructor; [done|]. eapply Forall_impl; [exact He|]. intros v (? & ? & ?).
      split_and!; [done..|]. by apply running_ids_ins. }
  assert (store_ok s1 ∧ runs s1 = runs s ∧ stages s1 = stages s) as (Hok2 & Hruns & Hstages).
  { apply reserve_Ok in Hres as [->|Hres]; [done|].
    destruct Hres as (v & ? & ? & ? & ? & _ & Hid & _ & _ & _ & _ & _ & _ & Hc & Hm & Hn & ->).
    split; [|done]. destruct Hok1 as [Hr Ha Hv]. constructor; simpl; [done..|].
    apply reservations_ok_ins; [done..| |].
    - rewrite Hid. by apply has_row_key.
    - simpl. rewrite sel_ins, fmap_app, Hid. apply elem_of_app. right. simpl. left. }
  rewrite on_runs_stages. apply store_ok_change; [done|by apply status_change_run|].
  rewrite Hruns, Hstages. by eapply claims_coupled.
Qed.

(** ** Submission *)

Lemma insert_run_Ok r s u s' : insert_run r s = (Ok u, s') →
  has_row (is_run (r_run_id r)) (runs s) = false ∧
  (∀ k r', r_idempotency_key r = Some k → r' ∈ runs s → r_idempotency_key r' ≠ Some k) ∧
  s' = on_runs (ins r) s.
Proof.
  unfold insert_run. intros H. invert_st. rewrite constraint_run in *.
  destruct (negb (has_row (is_run _) _)) eqn:E; invert_st. bool_simpl.
  split; [done|]. split; [|by repeat (case_match; invert_st)].
  intros k r' Hk Hr'. rewrite Hk in *. destruct (negb _) eqn:E2; invert_st. bool_simpl.
  rewrite has_row_false in *. match goal with H : ∀ r, _ → bool_decide _ = false |- _ =>
    by specialize (H r' Hr'); apply bool_decide_eq_false in H end.
Qed.

Lemma insert_stage_Ok g s u s' : insert_stage g s = (Ok u, s') →
  has_row (is_stage (s_stage_run_id g)) (stages s) = false ∧ s' = on_stages (ins g) s.
Proof.
  unfold insert_stage. intros H. invert_st. rewrite constraint_run in *.
  repeat (case_match; invert_st). bool_simpl. done.
Qed.

Definition submitted (run_id stage_run_id : string) task key pv ikey res spec now (s : Store) : Store :=
  on_stages (ins (submitted_stage stage_run_id run_id key task pv res now))
    (on_runs (ins (submitted_run run_id task ikey spec now)) s).

Lemma submit_run_inv task key pv idem ikey res rhex shex now s u s' :
  submit_run task key pv idem ikey res rhex shex now s = (u, s') →
  s' = s ∨
  ∃ spec, TaskSpec_to_dict task = Ok spec ∧
    has_row (is_run (_new_id "run" rhex)) (runs s) = false ∧
    has_row (is_stage (_new_id "stage" shex)) (stages s) = false ∧
    (∀ k r, ikey = Some k → r ∈ runs s → r_idempotency_key r ≠ Some k) ∧
    submit_existing task idem ikey s = Ok None ∧
    s' = submitted (_new_id "run" rhex) (_new_id "stage" shex) task key pv ikey res spec now s ∧
    u = get_run (_new_id "run" rhex) s'.
Proof.
  unfold submit_run. intros H. rewrite bind_run in H. unfold lift at 1 in H.
  destruct (TaskSpec_validate task) as [[]|]; [|simplify_eq; by left].
  rewrite bind_run in H. unfold lift at 1 in H. destruct (raise_when _ _); [|simplify_eq; by left].
  rewrite bind_run in H. unfold lift at 1 in H. destruct (raise_when _ _); [|simplify_eq; by left].
  rewrite bind_run in H.
  match type of H with context [transaction ?m s] => destruct (transaction m s) as [r s1] eqn:Ht end.
  apply transaction_inv in Ht as [(found & -> & Ht)|(e & -> & ->)]; [|simplify_eq; by left].
  apply bind_st_Ok in Ht as (s0 & s2 & [-> ->]%gets_Ok & Ht). unfold id in Ht.
  apply bind_st_Ok in Ht as (existing & s2 & [Hex ->]%lift_Ok & Ht).
  destruct existing as [rec|].
  { left. invert_st. unfold mret, st_ret in H. by simplify_eq. }
  right. apply bind_st_Ok in Ht as (spec & s2 & [Hspec ->]%lift_Ok & Ht).
  apply bind_st_Ok in Ht as ([] & s2 & (Hr & Hk & ->)%insert_run_Ok & Ht).
  apply bind_st_Ok in Ht as ([] & s2 & (Hg & ->)%insert_stage_Ok & Ht).
  apply mret_st_Ok in Ht as [-> ->]. rewrite bind_run in H. unfold gets, lift, id in H.
  injection H as <- <-. exists spec. by split_and!.
Qed.

Lemma validated_task_id task : TaskSpec_validate task = Ok tt →
  t_task_id task = JStr (str_of (t_task_id task)).
Proof.
  unfold TaskSpec_validate. intros H. apply bind_Ok in H as ([] & _ & H).
  apply bind_Ok in H as ([] & H & _). by destruct (t_task_id task).
Qed.

Lemma submitted_ok run_id stage_run_id task key pv ikey res spec now s :
  store_ok s → TaskSpec_to_dict task = Ok spec →
  has_row (is_run run_id) (runs s) = false → has_row (is_stage stage_run_id) (stages s) = false →
  (∀ k r, ikey = Some k → r ∈ runs s → r_idempotency_key r ≠ Some k) →
  store_ok (submitted run_id stage_run_id task key pv ikey res spec now s).
Proof.
  intros [[Hr Hg Hk Hc He] Ha Hv] Hspec Hfr Hfg Hfk. constructor; simpl; [constructor| |done].
  - apply NoDup_fmap_ins; [done|]. intros r Hin Heq. apply has_row_key in Hfr.
    apply Hfr. simpl in Heq. rewrite <-Heq. by apply list_elem_of_fmap_2.
  - apply NoDup_fmap_ins; [done|]. intros g Hin Heq. apply has_row_key in Hfg.
    apply Hfg. simpl in Heq. rewrite <-Heq. by apply list_elem_of_fmap_2.
  - intros r1 r2 k H1 H2 K1 K2. apply elem_of_ins in H1 as [H1| ->], H2 as [H2| ->]; simpl in *;
      [by eapply Hk|by destruct (Hfk k r1)|by destruct (Hfk k r2)|done].
  - apply Forall2_app; [done|]. by constructor.
  - apply Forall_ins; [done|]. split; [done|]. exists task. split; [done|].
    apply validated_task_id. unfold TaskSpec_to_dict in Hspec. by invert_ok.
  - destruct Ha as [? Hs ? ?]. constructor; try done. eapply Forall_impl; [exact Hs|].
    intros a Hin. rewrite fmap_ins. apply elem_of_app. by left.
Qed.

Lemma submit_run_ok task key pv idem ikey res rhex shex now s u s' :
  store_ok s → submit_run task key pv idem ikey res rhex shex now s = (u, s') → store_ok s'.
Proof.
  intros Hok H. apply submit_run_inv in H as [-> |(spec & ? & ? & ? & ? & _ & -> & _)]; [done|].
  by apply submitted_ok.
Qed.

(** ** Reclaiming *)

Lemma expired_once s (a : AttemptRow) reference :
  store_ok s →
  (rowcount (λ r, is_attempt (a_attempt_id a) r && lease_expired reference r) (attempts s) ≤ 1)%nat.
Proof.
  intros [_ [Hi _ _ _] _]. eapply (rowcount_key a_attempt_id _ (a_attempt_id a)); [done|].
  intros r H. unfold is_attempt in H. by bool_simpl.
Qed.

Lemma rowcount_0 {R} (P : R → bool) t : rowcount P t = 0%nat → ∀ r, r ∈ t → P r = false.
Proof.
  intros H r Hr. apply not_true_iff_false. intros HP. apply nil_length_inv in H.
  assert (r ∈ sel P t) as Hin by (by apply elem_of_sel). rewrite H in Hin. by apply not_elem_of_nil in Hin.
Qed.

Lemma rowcount_none {R} (P : R → bool) t : (∀ r, r ∈ t → P r = false) → rowcount P t = 0%nat.
Proof.
  intros H. destruct (sel P t) as [|r l] eqn:E; [unfold rowcount; by rewrite E|].
  assert (r ∈ sel P t) as [Hin Hr]%elem_of_sel by (rewrite E; left). by rewrite H in Hr.
Qed.

Lemma reclaim_attempt_ok fence others reference row :
  harmless others → keeps store_ok (reclaim_attempt fence others reference row).
Proof.
  intros Hoth s r s' Hok H. destruct row as [a run_id]. unfold reclaim_attempt in H.
  destruct (fence a); simpl in H; [|by injection H as _ <-].
  run_st H. apply Hoth in Hok as [Hok _]. set (s1 := others s) in *.
  pose proof (expired_once s1 a reference Hok) as Hone.
  case_bool_decide as Hn.
  - injection H as _ <-. apply store_ok_attempts; [done|done| |].
    + intros a' _ _ _. by apply attempt_ended_ok.
    + intros a' v _ _ Hid Ha' _. left. unfold is_attempt, is_reservation in *. bool_simpl.
      apply bool_decide_eq_true. congruence.
  - injection H as _ <-. unfold on_attempts. rewrite upd_none; [by destruct s1|].
    apply rowcount_0. lia.
Qed.

Lemma may_resume_ok others run_id : harmless others → keeps store_ok (_may_resume others run_id).
Proof.
  intros Hoth s r s' Hok H. unfold _may_resume in H. rewrite bind_run in H.
  cbv beta iota zeta delta [gets id] in H.
  match type of H with context [match ?m with _ => _ end] => destruct m as [[row g]|] eqn:E end;
    [|by injection H as _ <-].
  assert (g ∈ stages s ∧ s_run_id g = run_id) as [Hg Hrun].
  { apply bind_Some in E as (r0 & _ & E). apply bind_Some in E as (g0 & E & [= _ <-]).
    apply fetchone_Some in E as [? E]. unfold stage_of_run in E. by bool_simpl. }
  destruct (s_resumable g); simpl in H; [|by injection H as _ <-].
  rewrite bind_run in H. unfold lift in H. destruct (TaskSpec_from_dict _); [|by injection H as _ <-].
  destruct (_ <=? _)%Z; [by injection H as _ <-|].
  destruct (Hoth s Hok) as [Hok' Hkeep].
  destruct (ev_stages _ _ Hkeep g Hg) as (g' & Hg' & Hid & Hrun' & _).
  rewrite bind_run in H. unfold modify in H. unfold catch in H. rewrite bind_run in H.
  destruct (schedule_retry _ _ _ _) as [v s1] eqn:Hs. assert (store_ok s1) as Hok1.
  { eapply schedule_retry_ok; [exact Hok'| |exact Hs].
    intros g1 [Hin Hm]%fetchone_Some. unfold is_stage in Hm. bool_simpl.
    assert (g1 = g') as -> by (eapply stage_unique; eauto using so_runs; congruence). congruence. }
  destruct v as [[]|e]; [by injection H as _ <-|].
  destruct (is_invalid_transition e); by injection H as _ <-.
Qed.

Lemma settle_lost_ok others now run_id : harmless others → keeps store_ok (settle_lost others now run_id).
Proof.
  intros Hoth. apply keeps_bind; [by apply may_resume_ok|]. intros [|]; [by apply keeps_pure|].
  apply keeps_catch; [|intros; by apply keeps_pure]. intros s r s' Hok H. by eapply transition_run_ok.
Qed.

Lemma reclaim_expired_attempts_ok fence others reference now :
  harmless others → keeps store_ok (reclaim_expired_attempts fence others reference now).
Proof.
  intros Hoth. apply keeps_bind; [by apply keeps_pure|]. intros rows.
  apply keeps_bind; [apply keeps_mapM; intros; by apply reclaim_attempt_ok|]. intros done.
  apply keeps_bind; [apply keeps_iterM; intros; by apply settle_lost_ok|]. intros; by apply keeps_pure.
Qed.
