(* ===== verification/StoreEvolve.v ===== *)
(** * What the store's operations may change

    [evolution] is a preorder that every operation respects, whatever it returns;
    with the invariant this gives [reachable], the states a history of operations
    leads to. *)

From S2P Require Export StoreInv.
Open Scope string_scope.
Open Scope list_scope.

Lemma rows_evolve_refl {R} (E : R → R → Prop) `{!Reflexive E} t : rows_evolve E t t.
Proof. intros r Hr. by exists r. Qed.

Lemma rows_evolve_trans {R} (E : R → R → Prop) `{!Transitive E} t1 t2 t3 :
  rows_evolve E t1 t2 → rows_evolve E t2 t3 → rows_evolve E t1 t3.
Proof.
  intros H1 H2 r Hr. destruct (H1 r Hr) as (r2 & Hr2 & E1). destruct (H2 r2 Hr2) as (r3 & ? & E2).
  exists r3. split; [done|]. by transitivity r2.
Qed.

Lemma rows_evolve_upd {R} (E : R → R → Prop) `{!Reflexive E} (P : R → bool) f t :
  (∀ r, r ∈ t → P r = true → E r (f r)) → rows_evolve E t (upd P f t).
Proof.
  intros H r Hr. exists (if P r then f r else r). split; [apply elem_of_upd; by exists r|].
  destruct (P r) eqn:HP; [by apply H|done].
Qed.

Lemma rows_evolve_ins {R} (E : R → R → Prop) `{!Reflexive E} r t : rows_evolve E t (ins r t).
Proof. intros r' Hr. exists r'. split; [apply elem_of_ins; by left|done]. Qed.

#[export] Instance run_evolves_preorder : PreOrder run_evolves.
Proof.
  split; [by intros r; split_and!|].
  intros r1 r2 r3 (?&?&?&?&?&?) (?&?&?&?&?&?). split_and!; try congruence. by etrans.
Qed.
#[export] Instance stage_evolves_preorder : PreOrder stage_evolves.
Proof.
  split; [by intros g; split_and!|].
  intros g1 g2 g3 (?&?&?&?&?&?&?&?) (?&?&?&?&?&?&?&?). split_and!; congruence.
Qed.
#[export] Instance attempt_evolves_preorder : PreOrder attempt_evolves.
Proof.
  split; [intros a; split_and!; auto|].
  intros a1 a2 a3 (?&?&?&?&?&?&H) (?&?&?&?&?&?&H'). split_and!; try congruence.
  destruct H as [? | ->]; auto.
Qed.
#[export] Instance evolution_preorder : PreOrder evolution.
Proof.
  split.
  - intros s. constructor; [apply rows_evolve_refl, _..|done].
  - intros s1 s2 s3 [] []. constructor; [eapply rows_evolve_trans; eauto; apply _..|by etrans].
Qed.

(** ** One table at a time *)

Lemma evolution_runs (P : RunRow → bool) f s :
  (∀ r, r ∈ runs s → P r = true → run_evolves r (f r)) → evolution s (on_runs (upd P f) s).
Proof.
  intros H. constructor; simpl; [by apply rows_evolve_upd; [apply _|]|apply rows_evolve_refl, _..|done].
Qed.
Lemma evolution_stages (Q : StageRow → bool) h s :
  (∀ g, stage_evolves g (h g)) → evolution s (on_stages (upd Q h) s).
Proof.
  intros H. constructor; simpl;
    [apply rows_evolve_refl, _|by apply rows_evolve_upd; [apply _|]|apply rows_evolve_refl, _|done].
Qed.
Lemma evolution_attempts (P : AttemptRow → bool) f s :
  (∀ a, a ∈ attempts s → P a = true → attempt_evolves a (f a)) →
  evolution s (on_attempts (upd P f) s).
Proof.
  intros H. constructor; simpl; [apply rows_evolve_refl, _..|by apply rows_evolve_upd; [apply _|]|done].
Qed.
Lemma evolution_new_attempt a s : evolution s (on_attempts (ins a) s).
Proof. constructor; simpl; [apply rows_evolve_refl, _..|apply rows_evolve_ins, _|done]. Qed.
Lemma evolution_event e s : evolution s (on_events (ins e) s).
Proof. constructor; simpl; [apply rows_evolve_refl, _..|by eexists]. Qed.

(** The tables [evolution] and [store_ok] speak of are untouched. *)
Definition same_core (s s' : Store) : Prop :=
  runs s' = runs s ∧ stages s' = stages s ∧ attempts s' = attempts s ∧
  reservations s' = reservations s ∧ events s' = events s.

Lemma evolution_same_core s s' :
  runs s' = runs s → stages s' = stages s → attempts s' = attempts s → events s' = events s →
  evolution s s'.
Proof.
  intros H1 H2 H3 H4. constructor; rewrite ?H1, ?H2, ?H3, ?H4; [apply rows_evolve_refl, _..|done].
Qed.

Lemma run_with_evolves st started ended reason r :
  rtc run_move (r_status r) st → run_evolves r (run_with st started ended reason r).
Proof. by intros H; split_and!. Qed.

Lemma is_run_unique s run_id row r :
  store_ok s → fetchone (is_run run_id) (runs s) = Some row → r ∈ runs s → is_run run_id r = true →
  r = row.
Proof.
  intros [Hok _ _] [Hin Hm]%fetchone_Some Hr HP. unfold is_run in *. bool_simpl.
  eapply run_unique; eauto. congruence.
Qed.

(** ** Every operation *)

(** [m] keeps the invariant and evolves the store. *)
Definition well_behaved {A} (m : st Store A) : Prop :=
  ∀ s r s', store_ok s → m s = (r, s') → store_ok s' ∧ evolution s s'.

Lemma transition_run_wb run_id target reason now :
  well_behaved (transition_run run_id target reason now).
Proof.
  intros s u s' Hok H. split; [by eapply transition_run_ok|].
  destruct u as [u|e]; [|by apply transaction_Err in H as ->].
  apply transition_run_Ok in H as (row & Hrow & [[_ ->]|[Ha ->]]); [done|].
  etrans; [|by apply evolution_stages; intros; split_and!]. apply evolution_runs. intros r Hr HP.
  rewrite (is_run_unique _ _ _ _ Hok Hrow Hr HP).
  apply run_with_evolves, rtc_once. by constructor.
Qed.

Lemma fail_queued_run_wb run_id category message hex now :
  well_behaved (fail_queued_run run_id category message hex now).
Proof.
  intros s u s' Hok H. split; [by eapply fail_queued_run_ok|]. destruct u as [u|e].
  - apply fail_queued_run_Ok in H as (row & Hrow & [[_ ->]|(_ & Hst & e & _ & ->)]); [done|].
    etrans; [|apply evolution_event].
    etrans; [|by apply evolution_stages; intros; split_and!]. apply evolution_runs. intros r Hr HP.
    rewrite (is_run_unique _ _ _ _ Hok Hrow Hr HP). apply run_with_evolves, rtc_once. constructor.
    unfold status_in in Hst. apply bool_decide_eq_true in Hst. rewrite !elem_of_cons in Hst.
    destruct Hst as [-> |[-> |[-> |[]%not_elem_of_nil]]]; done.
  - unfold fail_queued_run in H. rewrite bind_run in H. unfold lift in H.
    destruct (raise_when _ _); [|by simplify_eq]. by apply transaction_Err in H as ->.
Qed.

Lemma retry_transaction_wb run_id requester reason hex now :
  well_behaved (retry_transaction run_id requester reason hex now).
Proof.
  intros s u s' Hok H. split; [by eapply retry_transaction_ok|].
  destruct u as [u|e]; [|by apply transaction_Err in H as ->].
  apply retry_transaction_Ok in H as (row & stage & att & task & e & Hrow & Hf & _ & _ & _ & _ & _ & ->).
  etrans; [|apply evolution_event].
  etrans; [|by apply evolution_stages; intros; split_and!]. apply evolution_runs. intros r Hr HP.
  rewrite (is_run_unique _ _ _ _ Hok Hrow Hr HP). apply run_with_evolves, rtc_once.
  rewrite Hf. apply move_retry.
Qed.

Lemma finish_attempt_wb attempt_id status ec fl cpu mem procs now :
  well_behaved (finish_attempt attempt_id status ec fl cpu mem procs now).
Proof.
  intros s u s' Hok H. split; [by eapply finish_attempt_ok|].
  destruct u as [u|e]; [|by apply transaction_Err in H as ->].
  apply finish_attempt_Ok in H as (row & Hrow & Ht & ->). apply fetchone_Some in Hrow as [Hin Hm].
  apply attempt_transition_target in Ht as (Hrun & _ & _);
    [|by destruct (store_ok_attempt _ _ Hok Hin)].
  etrans; [apply evolution_attempts|by apply evolution_same_core]. intros a Ha HP.
  assert (a = row) as ->; [|by split_and!; auto].
  unfold is_attempt in *. bool_simpl. eapply (key_inj a_attempt_id); [apply Hok|done..|congruence].
Qed.

Lemma start_attempt_wb stage_run_id worker_id workspace lease resources cpu mem fraction hex now :
  well_behaved (start_attempt stage_run_id worker_id workspace lease resources cpu mem fraction hex now).
Proof.
  intros s u s' Hok H. split; [by eapply start_attempt_ok|].
  apply start_attempt_inv in H as [[-> _]|H]; [done|].
  destruct H as (stage & number & a & s1 & _ & _ & Hst & Hq & Hnum & _ & Hfresh & Hres & ->).
  etrans; [apply evolution_new_attempt|].
  apply reserve_Ok in Hres.
  assert (evolution (on_attempts (ins (new_attempt (_new_id "attempt" hex) stage_run_id number
            workspace worker_id lease now)) s) s1) as Hs1.
  { destruct Hres as [-> |(v & ? & ? & ? & ? & _ & _ & _ & _ & _ & _ & _ & _ & _ & _ & _ & ->)];
      [done|by apply evolution_same_core]. }
  etrans; [exact Hs1|]. clear.
  etrans; [apply (evolution_stages (is_stage stage_run_id) (claimed now)); by intros; split_and!|].
  apply evolution_runs. intros r _ Hc. apply run_with_evolves, rtc_once.
  unfold claims, status_in in Hc. bool_simpl.
  match goal with H : _ ∈ _ |- _ => rewrite !elem_of_cons in H;
    destruct H as [-> |[-> |[-> |[]%not_elem_of_nil]]] end;
    (by apply move_claim; auto) || by apply move_table.
Qed.

Lemma owned_running id w a : owned_attempt id w a = true → a_status a = A_RUNNING.
Proof. unfold owned_attempt, attempt_running. intros. by bool_simpl. Qed.

Lemma heartbeat_wb others attempt_id worker_id lease now :
  harmless others → well_behaved (heartbeat others attempt_id worker_id lease now).
Proof.
  intros Hoth s u s' Hok H. split; [by eapply heartbeat_ok|].
  unfold heartbeat in H. run_st H.
  destruct (of_option _ _) as [row|]; [|by simplify_eq].
  destruct (raise_when _ _); [|by simplify_eq]. destruct (raise_when _ _); [|by simplify_eq].
  injection H as _ <-. etrans; [apply (Hoth s Hok)|]. apply evolution_attempts.
  intros a' _ Ho%owned_running. by split_and!; auto.
Qed.

Lemma attach_process_wb attempt_id worker_id pid pgid ticks :
  well_behaved (attach_process attempt_id worker_id pid pgid ticks).
Proof.
  intros s u s' Hok H. split; [by eapply attach_process_ok|].
  unfold attach_process in H. run_st H. destruct (raise_when _ _); [|by simplify_eq].
  injection H as _ <-. apply evolution_attempts. intros a' _ Ho%owned_running. by split_and!; auto.
Qed.

Lemma submit_run_wb task key pv idem ikey res rhex shex now :
  well_behaved (submit_run task key pv idem ikey res rhex shex now).
Proof.
  intros s u s' Hok H. split; [by eapply submit_run_ok|].
  apply submit_run_inv in H as [-> |(spec & _ & _ & _ & _ & _ & -> & _)]; [done|].
  constructor; simpl; [apply rows_evolve_ins, _..|apply rows_evolve_refl, _|done].
Qed.

(** Composition. *)
Lemma wb_bind {A B} (m : st Store A) (f : A → st Store B) :
  well_behaved m → (∀ a, well_behaved (f a)) → well_behaved (m ≫= f).
Proof.
  intros Hm Hf s r s' Hok. rewrite bind_run. destruct (m s) as [[a|e] s1] eqn:E.
  - destruct (Hm _ _ _ Hok E) as [Hok1 Hev1]. intros H. destruct (Hf a _ _ _ Hok1 H) as [? Hev2].
    split; [done|by etrans].
  - intros [= _ <-]. by eapply Hm.
Qed.

Lemma wb_pure {A} (m : st Store A) : (∀ s, snd (m s) = s) → well_behaved m.
Proof. intros H s r s' Hok E. specialize (H s). rewrite E in H. by subst. Qed.

Lemma wb_modify f : harmless f → well_behaved (modify f).
Proof. intros H s r s' Hok [= _ <-]. by apply H. Qed.

Lemma wb_catch {A} (m : st Store A) p h :
  well_behaved m → (∀ e, well_behaved (h e)) → well_behaved (catch m p h).
Proof.
  intros Hm Hh s r s' Hok. unfold catch. destruct (m s) as [[a|e] s1] eqn:E.
  - intros [= _ <-]. by eapply Hm.
  - destruct (Hm _ _ _ Hok E) as [Hok1 Hev1]. destruct (p e); [|by intros [= _ <-]].
    intros H. destruct (Hh e _ _ _ Hok1 H) as [? Hev2]. split; [done|by etrans].
Qed.

Lemma wb_mapM {A B} (f : A → st Store B) l :
  (∀ x, well_behaved (f x)) → well_behaved (mapM_st f l).
Proof.
  intros H. induction l as [|x l IH]; simpl; [by apply wb_pure|].
  apply wb_bind; [apply H|]. intros y. apply wb_bind; [done|]. intros; by apply wb_pure.
Qed.

Lemma wb_transaction {A} (m : st Store A) : well_behaved m → well_behaved (transaction m).
Proof.
  intros Hm s r s' Hok H. apply transaction_inv in H as [(a & -> & H)|(e & -> & ->)]; [|done].
  by eapply Hm.
Qed.

Lemma request_cancel_wb others run_id now :
  harmless others → well_behaved (request_cancel others run_id now).
Proof.
  intros Hoth. apply wb_bind; [by apply wb_pure|]. intros s.
  apply wb_bind; [by apply wb_pure|]. intros run. destruct (_ || _); [by apply wb_pure|].
  apply wb_bind; [by apply wb_modify|]. intros _. apply transition_run_wb.
Qed.

Lemma request_retry_wb run_id requester reason hex now :
  well_behaved (request_retry run_id requester reason hex now).
Proof.
  apply wb_bind; [by apply wb_pure|]. intros _. apply wb_bind; [apply retry_transaction_wb|].
  intros _. apply wb_bind; [by apply wb_pure|]. intros s. by apply wb_pure.
Qed.

Lemma schedule_retry_evolves run_id stage_run_id reason s u s' :
  store_ok s → schedule_retry run_id stage_run_id reason s = (u, s') → evolution s s'.
Proof.
  intros Hok H. destruct u as [u|e]; [|by apply transaction_Err in H as ->].
  apply schedule_retry_Ok in H as (stage & row & Hst & Hrow & _ & Ha & ->).
  etrans; [apply (evolution_stages (is_stage stage_run_id) (restaged RETRY_WAIT)); by intros; split_and!|].
  apply evolution_runs. simpl. intros r Hr HP. rewrite (is_run_unique _ _ _ _ Hok Hrow Hr HP).
  apply run_with_evolves, rtc_once. by constructor.
Qed.

(** [reclaim_expired_attempts] and its parts. *)

Lemma reclaim_attempt_wb fence others reference row :
  harmless others → well_behaved (reclaim_attempt fence others reference row).
Proof.
  intros Hoth s r s' Hok H. split; [by eapply reclaim_attempt_ok|].
  destruct row as [a run_id]. unfold reclaim_attempt in H.
  destruct (fence a); simpl in H; [|by injection H as _ <-]. run_st H.
  destruct (Hoth s Hok) as [Hok1 Hev]. etrans; [exact Hev|].
  assert (evolution (others s) (on_attempts (upd
    (λ r, is_attempt (a_attempt_id a) r && lease_expired reference r) (λ r,
       attempt_ended A_LOST reference (a_exit_code r) (Some lease_failure) (a_cpu_seconds r)
                    (a_peak_memory_bytes r) (a_peak_processes r) r)) (others s))) as Hu.
  { apply evolution_attempts. intros a' _ HP. unfold lease_expired, attempt_running in HP.
    bool_simpl. by split_and!; auto. }
  case_bool_decide; injection H as _ <-; [|done].
  etrans; [exact Hu|by apply evolution_same_core].
Qed.

Lemma may_resume_wb others run_id : harmless others → well_behaved (_may_resume others run_id).
Proof.
  intros Hoth s r s' Hok H. split; [by eapply may_resume_ok|].
  unfold _may_resume in H. rewrite bind_run in H. cbv beta iota zeta delta [gets id] in H.
  match type of H with context [match ?m with _ => _ end] => destruct m as [[row g]|] end;
    [|by injection H as _ <-].
  destruct (s_resumable g); simpl in H; [|by injection H as _ <-].
  rewrite bind_run in H. unfold lift in H. destruct (TaskSpec_from_dict _); [|by injection H as _ <-].
  destruct (_ <=? _)%Z; [by injection H as _ <-|].
  destruct (Hoth s Hok) as [Hok' Hev]. etrans; [exact Hev|].
  rewrite bind_run in H. unfold modify in H. unfold catch in H. rewrite bind_run in H.
  destruct (schedule_retry _ _ _ _) as [v s1] eqn:Hs. apply schedule_retry_evolves in Hs; [|done].
  destruct v as [[]|e]; [by injection H as _ <-|].
  destruct (is_invalid_transition e); by injection H as _ <-.
Qed.

Lemma settle_lost_wb others now run_id : harmless others → well_behaved (settle_lost others now run_id).
Proof.
  intros Hoth. apply wb_bind; [by apply may_resume_wb|]. intros [|]; [by apply wb_pure|].
  apply wb_catch; [apply transition_run_wb|]. intros; by apply wb_pure.
Qed.

Lemma reclaim_expired_attempts_wb fence others reference now :
  harmless others → well_behaved (reclaim_expired_attempts fence others reference now).
Proof.
  intros Hoth. apply wb_bind; [by apply wb_pure|]. intros rows.
  apply wb_bind; [apply wb_mapM; intros; by apply reclaim_attempt_wb|]. intros done.
  apply wb_bind; [|intros; by apply wb_pure].
  apply wb_bind; [apply wb_mapM; intros; by apply settle_lost_wb|]. intros; by apply wb_pure.
Qed.

(** The operations that only write tables [store_ok] does not mention. *)
Lemma store_ok_same_core s s' : same_core s s' → store_ok s → store_ok s'.
Proof.
  intros (H1 & H2 & H3 & H4 & _) [Hr Ha Hv]. constructor; by rewrite ?H1, ?H2, ?H3, ?H4.
Qed.

Lemma wb_same_core {A} (m : st Store A) : (∀ s, same_core s (snd (m s))) → well_behaved m.
Proof.
  intros H s r s' Hok E. specialize (H s). rewrite E in H. simpl in H.
  split; [by eapply store_ok_same_core|]. destruct H as (? & ? & ? & ? & ?).
  by apply evolution_same_core.
Qed.

Lemma constraint_wb ok : well_behaved (constraint ok).
Proof. by apply wb_pure. Qed.

Lemma wb_core_modify f : (∀ s, same_core s (f s)) → well_behaved (modify f).
Proof. intros H. by apply wb_same_core. Qed.

Lemma register_metrics_wb attempt_id ms : well_behaved (register_metrics attempt_id ms).
Proof.
  apply wb_transaction, wb_mapM. intros [metric [hex now]].
  repeat (apply wb_bind; [first [apply constraint_wb | by apply wb_pure | by apply wb_core_modify |
    repeat (apply wb_bind; [apply constraint_wb|intros _]); by apply wb_core_modify ]|intros _]).
  by apply wb_pure.
Qed.

Lemma record_inputs_wb attempt_id staged now : well_behaved (record_inputs attempt_id staged now).
Proof.
  apply wb_transaction, wb_bind; [|intros; by apply wb_pure]. apply wb_mapM. intros i.
  apply wb_bind; [by apply wb_pure|intros _].
  repeat (apply wb_bind; [apply constraint_wb|intros _]); by apply wb_core_modify.
Qed.

Lemma insert_event_wb e : well_behaved (insert_event e).
Proof.
  apply wb_bind; [apply constraint_wb|]. intros _ s r s' Hok [= _ <-].
  split; [by apply on_events_ok|apply evolution_event].
Qed.

Lemma record_event_wb run_id ty payload producer g a hex now :
  well_behaved (record_event run_id ty payload producer g a hex now).
Proof. apply wb_bind; [apply insert_event_wb|]. intros; by apply wb_pure. Qed.

Lemma touch_wb worker_id attempt_id pid now : well_behaved (touch worker_id attempt_id pid now).
Proof.
  apply wb_bind; [by apply wb_pure|]. intros s. by apply wb_core_modify.
Qed.

Lemma release_resources_wb attempt_id : well_behaved (release_resources attempt_id).
Proof.
  intros s r s' Hok H. split; [by eapply release_resources_ok|].
  injection H as _ <-. by apply evolution_same_core.
Qed.
