(* ===== verification/StoreSteps.v ===== *)
(** * Histories of the store

    [store_step] is one public operation with any arguments, whatever it returns,
    under any interference that is itself a history.  [reachable] is what a new
    store can become. *)

From S2P Require Export StoreEvolve.
Open Scope string_scope.
Open Scope list_scope.

(** ** The byte-store operations, seen from the database *)

Section custody.
Context (sha256 : string → string) (resolve : list string → string → list string).
Context (file file' : list string → option string).

Definition db_core (s : Store) (c : Custody) : Prop := same_core s (db c).

Lemma db_core_in_db {A} s (m : st Store A) :
  (∀ s1, same_core s1 (snd (m s1))) → keeps (db_core s) (in_db m).
Proof.
  intros H c r c' Hc Hm. unfold in_db in Hm. specialize (H (db c)).
  destruct (m (db c)) as [v s1]. injection Hm as _ <-. unfold db_core, same_core in *.
  simpl in *. naive_solver congruence.
Qed.

Lemma constraint_same ok s : snd (constraint ok s) = s.
Proof. done. Qed.

Lemma insert_artifact_core a s1 : same_core s1 (snd (insert_artifact a s1)).
Proof.
  unfold insert_artifact. cbv beta iota zeta delta [mbind st_bind constraint modify].
  repeat case_match; by simplify_eq/=.
Qed.

Lemma insert_uploaded_core u s1 : same_core s1 (snd (insert_uploaded u s1)).
Proof.
  unfold insert_uploaded. cbv beta iota zeta delta [mbind st_bind constraint modify].
  repeat case_match; by simplify_eq/=.
Qed.

Lemma publish_core s copied digest size : keeps (db_core s) (publish sha256 copied digest size).
Proof.
  apply keeps_bind; [by apply keeps_pure|]. intros c. destruct (_ !! _); [by apply keeps_pure|].
  apply keeps_bind; [by apply keeps_pure|]. intros b.
  apply keeps_bind; [by apply keeps_pure|]. intros _. by apply keeps_modify.
Qed.

Lemma register_artifacts_core s attempt_id workspace ds :
  keeps (db_core s) (register_artifacts sha256 resolve file file' attempt_id workspace ds).
Proof.
  intros c r c' Hc H. unfold register_artifacts, db_transaction in H.
  assert (keeps (db_core s) (mapM_st (register_artifact sha256 resolve file file' attempt_id workspace) ds)) as Hk.
  { apply keeps_mapM. intros [decl [hex now]] _.
    apply keeps_bind; [by apply keeps_pure|]. intros _.
    apply keeps_bind; [by apply keeps_pure|]. intros bytes.
    apply keeps_bind; [by apply keeps_pure|]. intros _.
    apply keeps_bind; [apply publish_core|]. intros _.
    apply keeps_bind; [apply db_core_in_db, insert_artifact_core|]. intros; by apply keeps_pure. }
  destruct (mapM_st _ _ c) as [[a|e] c1] eqn:E; injection H as _ <-; [by eapply Hk|done].
Qed.

Lemma ingest_input_core s content hex now : keeps (db_core s) (ingest_input sha256 content hex now).
Proof.
  apply keeps_bind; [apply publish_core|]. intros _.
  apply keeps_bind; [apply db_core_in_db, insert_uploaded_core|]. intros; by apply keeps_pure.
Qed.

Lemma ingest_input_file_core s path hex now :
  keeps (db_core s) (ingest_input_file sha256 file file' path hex now).
Proof.
  apply keeps_bind; [by apply keeps_pure|]. intros b.
  apply keeps_bind; [apply publish_core|]. intros _.
  apply keeps_bind; [apply db_core_in_db, insert_uploaded_core|]. intros; by apply keeps_pure.
Qed.
End custody.

(** ** One operation *)

Inductive store_step (s : Store) : Store → Prop :=
| step_submit task key pv idem ikey res rhex shex now r s' :
    submit_run task key pv idem ikey res rhex shex now s = (r, s') → store_step s s'
| step_transition run_id target reason now r s' :
    transition_run run_id target reason now s = (r, s') → store_step s s'
| step_cancel others run_id now r s' :
    harmless others → request_cancel others run_id now s = (r, s') → store_step s s'
| step_preflight run_id category message hex now r s' :
    fail_queued_run run_id category message hex now s = (r, s') → store_step s s'
| step_start g w ws lease res cpu mem fraction hex now r s' :
    start_attempt g w ws lease res cpu mem fraction hex now s = (r, s') → store_step s s'
| step_heartbeat others a w lease now r s' :
    harmless others → heartbeat others a w lease now s = (r, s') → store_step s s'
| step_attach a w pid pgid ticks r s' :
    attach_process a w pid pgid ticks s = (r, s') → store_step s s'
| step_finish a status ec fl cpu mem procs now r s' :
    finish_attempt a status ec fl cpu mem procs now s = (r, s') → store_step s s'
| step_schedule_retry run_id g reason r s' :
    (* the runtime passes a stage of the run *)
    (∀ row, fetchone (is_stage g) (stages s) = Some row → s_run_id row = run_id) →
    schedule_retry run_id g reason s = (r, s') → store_step s s'
| step_request_retry run_id requester reason hex now r s' :
    request_retry run_id requester reason hex now s = (r, s') → store_step s s'
| step_reclaim fence others reference now r s' :
    harmless others → reclaim_expired_attempts fence others reference now s = (r, s') →
    store_step s s'
| step_release a r s' : release_resources a s = (r, s') → store_step s s'
| step_metrics a ms r s' : register_metrics a ms s = (r, s') → store_step s s'
| step_inputs a staged now r s' : record_inputs a staged now s = (r, s') → store_step s s'
| step_event run_id ty payload producer g a hex now r s' :
    record_event run_id ty payload producer g a hex now s = (r, s') → store_step s s'
| step_touch w a pid now r s' : touch w a pid now s = (r, s') → store_step s s'
| step_artifacts sha256 resolve file file' a ws ds c r c' :
    db c = s → register_artifacts sha256 resolve file file' a ws ds c = (r, c') →
    store_step s (db c')
| step_ingest sha256 content hex now c r c' :
    db c = s → ingest_input sha256 content hex now c = (r, c') → store_step s (db c')
| step_ingest_file sha256 file file' path hex now c r c' :
    db c = s → ingest_input_file sha256 file file' path hex now c = (r, c') →
    store_step s (db c').

Definition reachable (s : Store) : Prop := rtc store_step empty_store s.

Lemma same_core_step s s' : same_core s s' → store_ok s → store_ok s' ∧ evolution s s'.
Proof.
  intros H Hok. split; [by eapply store_ok_same_core|]. destruct H as (? & ? & ? & ? & ?).
  by apply evolution_same_core.
Qed.

Lemma store_step_wb s s' : store_ok s → store_step s s' → store_ok s' ∧ evolution s s'.
Proof.
  intros Hok Hstep. destruct Hstep.
  - by eapply submit_run_wb.
  - by eapply transition_run_wb.
  - by eapply request_cancel_wb.
  - by eapply fail_queued_run_wb.
  - by eapply start_attempt_wb.
  - by eapply heartbeat_wb.
  - by eapply attach_process_wb.
  - by eapply finish_attempt_wb.
  - split; [by eapply schedule_retry_ok|by eapply schedule_retry_evolves].
  - by eapply request_retry_wb.
  - by eapply reclaim_expired_attempts_wb.
  - by eapply release_resources_wb.
  - by eapply register_metrics_wb.
  - by eapply record_inputs_wb.
  - by eapply record_event_wb.
  - by eapply touch_wb.
  - subst. apply same_core_step; [|done]. by eapply register_artifacts_core.
  - subst. apply same_core_step; [|done]. by eapply ingest_input_core.
  - subst. apply same_core_step; [|done]. by eapply ingest_input_file_core.
Qed.

Lemma store_steps_wb s s' : store_ok s → rtc store_step s s' → store_ok s' ∧ evolution s s'.
Proof.
  intros Hok. induction 1 as [|s s1 s' Hstep _ IH]; [done|].
  destruct (store_step_wb _ _ Hok Hstep) as [Hok1 Hev]. destruct (IH Hok1) as [? Hev'].
  split; [done|by etrans].
Qed.

(** Any history of operations is harmless interference. *)
Lemma history_harmless (others : Store → Store) :
  (∀ s, rtc store_step s (others s)) → harmless others.
Proof. intros H s Hok. by apply store_steps_wb. Qed.

Lemma empty_store_ok : store_ok empty_store.
Proof.
  constructor; constructor; simpl; try constructor; try done.
  intros r1 r2 k H. by apply not_elem_of_nil in H.
Qed.

Lemma reachable_ok s : reachable s → store_ok s.
Proof. intros H. by eapply store_steps_wb in H as [? _]; [|apply empty_store_ok]. Qed.

(** ** The terminal statuses of a run *)

Lemma run_moves_stuck st st' :
  rtc run_move st st' → st ∈ [SUCCEEDED; CANCELLED; TIMED_OUT; LOST] → st' = st.
Proof.
  intros H Hst. destruct H as [|st1 st2 st3 Hm _]; [done|]. exfalso.
  rewrite !elem_of_cons in Hst.
  destruct Hst as [-> |[-> |[-> |[-> |[]%not_elem_of_nil]]]]; inversion Hm as [? ? Ha|? [|]|];
    subst; try done; by vm_compute in Ha.
Qed.
