(* ===== verification/StoreProps.v ===== *)
(** * What the runtime store guarantees

    The properties of [Store]'s operations, proved from the invariant and the
    effect lemmas of [StoreInv] and [StoreSteps]. *)

From S2P Require Export StoreSteps.
Open Scope string_scope.
Open Scope list_scope.

(** ** Concrete stores the witnesses run on *)

Definition demo_task : TaskSpec :=
  MkTaskSpec (JStr "task-1") (JStr "project") (JStr "design") JNull JNull JNull
    (JStr "research-toolkit") JNull (JObj [("speed", JInt 3)]) (JObj []) []
    (Some (MkResourceRequest JNull (JInt 2) (JInt 1000) JNull))
    (JInt 60) (JInt 3) [JStr "report"] (JObj []) (JInt 3).

(** One run, queued. *)
Definition demo_submit : st Store RunRecord :=
  submit_run demo_task "main" "1.0" true (Some "key-1") true "r1" "s1" 1000.
Definition demo_queued : Store := snd (demo_submit empty_store).

Definition demo_resources : option ResourceRequest := t_resources demo_task.

(** Claimed by a worker, on a machine with 4 cores. *)
Definition demo_start : st Store (option Attempt) :=
  start_attempt "stage-s1" "worker-1" "/work/1" 30 demo_resources (Some 4%Z) (Some 4000%Z)
    default_fraction "a1" 2000.
Definition demo_running : Store := snd (demo_start demo_queued).

(** Its attempt failed, retryably, and the run with it. *)
Definition demo_failure : dict :=
  [("category", JStr "tool_crash"); ("message", JStr "crashed"); ("retryable", JBool true)].
Definition demo_finish : st Store unit :=
  finish_attempt "attempt-a1" A_FAILED (Some 1%Z) (Some demo_failure) JNull None None 3000.
Definition demo_finished : Store := snd (demo_finish demo_running).
Definition demo_failed : Store :=
  snd (transition_run "run-r1" FAILED (Some "tool_crash") 3001 demo_finished).

Lemma demo_queued_reachable : reachable demo_queued.
Proof. eapply rtc_once, step_submit. apply surjective_pairing. Qed.

Lemma demo_running_reachable : reachable demo_running.
Proof.
  eapply rtc_r; [apply demo_queued_reachable|]. eapply step_start. apply surjective_pairing.
Qed.

Lemma demo_finished_reachable : reachable demo_finished.
Proof.
  eapply rtc_r; [apply demo_running_reachable|]. eapply step_finish. apply surjective_pairing.
Qed.

Lemma demo_failed_reachable : reachable demo_failed.
Proof.
  eapply rtc_r; [apply demo_finished_reachable|]. eapply step_transition. apply surjective_pairing.
Qed.

Example demo_failed_status : r_status <$> runs demo_failed = [FAILED].
Proof. vm_compute. reflexivity. Qed.
Example demo_running_reserved : resource_totals demo_running = (2, 1000)%Z.
Proof. vm_compute. reflexivity. Qed.

(** ** Reading a row back *)

Section reading.
Context (s : Store) (Hok : store_ok s).

Lemma fetch_run r : r ∈ runs s → fetchone (is_run (r_run_id r)) (runs s) = Some r.
Proof. intros. by apply fetchone_unique; [apply Hok|]. Qed.

Lemma fetch_stage g : g ∈ stages s → fetchone (is_stage (s_stage_run_id g)) (stages s) = Some g.
Proof. intros. by apply fetchone_unique; [apply Hok|]. Qed.

Lemma fetch_attempt a :
  a ∈ attempts s → fetchone (is_attempt (a_attempt_id a)) (attempts s) = Some a.
Proof. intros. by apply fetchone_unique; [apply Hok|]. Qed.

Lemma row_loads r : r ∈ runs s → ∃ rec, _run_from_row r = Ok rec ∧
  rec_run_id rec = r_run_id r ∧ rec_status rec = r_status r ∧
  TaskSpec_to_dict (rec_task_spec rec) = Ok (r_task_spec_json r).
Proof.
  intros Hr. destruct Hok as [[_ _ _ _ He] _ _]. rewrite Forall_forall in He.
  destruct (He r Hr) as (_ & t & Hd & _). unfold _run_from_row.
  rewrite (TaskSpec_roundtrip _ _ Hd). by eexists.
Qed.

(** The stage table read for one run is its one stage. *)
Lemma one_stage r : r ∈ runs s →
  ∃ g, sel (stage_of_run (r_run_id r)) (stages s) = [g] ∧ coupled r g.
Proof.
  intros Hr. destruct (stage_of _ _ (so_runs _ Hok) r Hr) as (g & Hg & Hrg).
  exists g. split; [|done]. destruct Hrg as [Hid _]. rewrite <-Hid.
  pose proof (stage_run_nodup _ _ (so_runs _ Hok)) as Hnd. clear -Hg Hnd.
  unfold sel, stage_of_run. induction (stages s) as [|g0 gs IH]; [by apply not_elem_of_nil in Hg|].
  apply NoDup_cons in Hnd as [Hn Hnd]. simpl. apply elem_of_cons in Hg as [-> |Hg].
  - rewrite bool_decide_true by done. f_equal. apply nil_length_inv.
    assert (length (List.filter (λ r0, bool_decide (s_run_id r0 = s_run_id g0)) gs) = 0%nat) as ->; [|done].
    destruct (List.filter _ gs) as [|g1 l] eqn:E; [done|].
    assert (g1 ∈ List.filter (λ r0, bool_decide (s_run_id r0 = s_run_id g0)) gs) as Hin
      by (rewrite E; left).
    apply (elem_of_sel (λ r0, bool_decide (s_run_id r0 = s_run_id g0))) in Hin as [Hin Hm].
    bool_simpl. destruct Hn. rewrite <-Hm. by apply list_elem_of_fmap_2.
  - rewrite bool_decide_false; [by apply IH|]. intros Heq. apply Hn. rewrite Heq.
    by apply list_elem_of_fmap_2.
Qed.
End reading.

(** ** The invariant, spelled out *)

(** C1. In every reachable store a run has exactly one stage and shares its status,
    its task loads again, attempts are numbered 1, 2, 3 without gaps, and exactly the
    running attempts hold a lease and may hold a reservation. *)
Theorem store_invariant s : reachable s →
  (∀ r, r ∈ runs s →
     (∃ g, list_stages (r_run_id r) s = [g] ∧ s_status g = r_status r) ∧
     (is_terminal (r_status r) = true → is_Some (r_ended_at r)) ∧
     (∃ rec, get_run (r_run_id r) s = Ok rec ∧ rec_status rec = r_status r)) ∧
  (∀ g, a_attempt_number <$> sel (attempt_of_stage g) (attempts s)
        = seqZ 1 (Z.of_nat (rowcount (attempt_of_stage g) (attempts s)))) ∧
  (∀ v, v ∈ reservations s →
     ∃ a, a ∈ attempts s ∧ a_attempt_id a = v_attempt_id v ∧ a_status a = A_RUNNING) ∧
  (∀ a, a ∈ attempts s → (a_status a = A_RUNNING ↔ is_Some (a_lease_expires_at a))).
Proof.
  intros Hok%reachable_ok. split_and!.
  - intros r Hr. split_and!.
    + destruct (one_stage s Hok r Hr) as (g & Hg & [_ Hst]). exists g.
      unfold list_stages. by rewrite Hg.
    + destruct Hok as [[_ _ _ _ He] _ _]. rewrite Forall_forall in He. by apply He.
    + destruct (row_loads s Hok r Hr) as (rec & Hrec & _ & Hst & _). exists rec.
      unfold get_run. by rewrite (fetch_run s Hok r Hr).
  - intros g. apply Hok.
  - intros v Hv. destruct Hok as [_ _ [_ He]]. rewrite Forall_forall in He.
    destruct (He v Hv) as (_ & _ & Hin). apply list_elem_of_fmap in Hin as (a & -> & Ha).
    apply elem_of_sel in Ha as [Ha Hrun]. unfold attempt_running in Hrun. bool_simpl. by exists a.
  - intros a Ha. destruct (store_ok_attempt _ _ Hok Ha) as (_ & Hr & Hn). split; [naive_solver|].
    intros [l Hl]. destruct (decide (a_status a = A_RUNNING)) as [|Hne]; [done|].
    destruct (Hn Hne). congruence.
Qed.

Lemma store_invariant_witness :
  ∃ g, list_stages "run-r1" demo_failed = [g] ∧ s_status g = FAILED.
Proof.
  destruct (store_invariant demo_failed demo_failed_reachable) as [H _].
  destruct (runs demo_failed) as [|r l] eqn:E; [exfalso; vm_compute in E; discriminate|].
  vm_compute in E. injection E as <- <-.
  destruct (H _ ltac:(left)) as [(g & Hg & Hs) _]. exists g. exact (conj Hg Hs).
Defined.

(** C2. Over any history of operations, interleaved with other connections, settled
    attempts are never rewritten, runs keep their identity and task and leave a
    terminal status only from FAILED by a retry, and events are only appended. *)
Theorem store_history s s' : reachable s → rtc store_step s s' →
  (* a settled attempt is never rewritten *)
  (∀ a, a ∈ attempts s → a_status a ≠ A_RUNNING → a ∈ attempts s') ∧
  (* a run keeps its identity and its task, and leaves a terminal status only for a retry *)
  (∀ r, r ∈ runs s → ∃ r', r' ∈ runs s' ∧ r_run_id r' = r_run_id r ∧
     r_task_spec_json r' = r_task_spec_json r ∧ rtc run_move (r_status r) (r_status r') ∧
     (r_status r ∈ [SUCCEEDED; CANCELLED; TIMED_OUT; LOST] → r_status r' = r_status r)) ∧
  (* events are appended *)
  events s `prefix_of` events s'.
Proof.
  intros Hok%reachable_ok Hsteps. destruct (store_steps_wb _ _ Hok Hsteps) as [_ [Hr _ Ha He]].
  split_and!; [| |done].
  - intros a Hin Hne. destruct (Ha a Hin) as (a' & Hin' & _ & _ & _ & _ & _ & _ & [Hx| ->]); done.
  - intros r Hin. destruct (Hr r Hin) as (r' & Hin' & Hid & _ & _ & Hspec & _ & Hm).
    exists r'. split_and!; [done..|]. by apply run_moves_stuck.
Qed.

Lemma store_history_witness : Forall (λ a, a ∈ attempts demo_failed) (attempts demo_finished).
Proof.
  apply Forall_forall. intros a Ha.
  refine (proj1 (store_history demo_finished demo_failed demo_finished_reachable _) a Ha _).
  - eapply rtc_once, step_transition. apply surjective_pairing.
  - revert Ha. intros ->%list_elem_of_singleton. discriminate.
Defined.
