(* ===== verification/StoreSpec.v ===== *)
(** * The store's operations, branch by branch

    What each operation returns and leaves behind: refusals change nothing,
    [transition_run] is the state machine, [start_attempt] admits exactly what
    fits, [finish_attempt] settles and releases, [request_retry] has one success
    condition. *)

From S2P Require Export StoreProps.
Open Scope string_scope.
Open Scope list_scope.

(** ** Refusals *)

(** C39. A submission, transition, preflight failure, start, finish, scheduled or
    requested retry that raises leaves the store as it was. *)
Theorem refusals_change_nothing s e s' : reachable s →
  (∀ task key pv idem ikey res rhex shex now,
     submit_run task key pv idem ikey res rhex shex now s = (Err e, s') → s' = s) ∧
  (∀ run_id target reason now, transition_run run_id target reason now s = (Err e, s') → s' = s) ∧
  (∀ run_id category message hex now,
     fail_queued_run run_id category message hex now s = (Err e, s') → s' = s) ∧
  (∀ g w ws lease res cpu mem fraction hex now,
     start_attempt g w ws lease res cpu mem fraction hex now s = (Err e, s') → s' = s) ∧
  (∀ a status ec fl cpu mem procs now,
     finish_attempt a status ec fl cpu mem procs now s = (Err e, s') → s' = s) ∧
  (∀ run_id g reason, schedule_retry run_id g reason s = (Err e, s') → s' = s) ∧
  (∀ run_id requester reason hex now,
     retry_transaction run_id requester reason hex now s = (Err e, s') → s' = s).
Proof.
  intros Hok%reachable_ok. split_and!.
  - intros * H. pose proof (submit_run_ok _ _ _ _ _ _ _ _ _ _ _ _ Hok H) as Hok'.
    apply submit_run_inv in H as [H|(spec & _ & _ & _ & _ & _ & -> & Hget)]; [done|]. exfalso.
    set (row := submitted_run (_new_id "run" rhex) task ikey spec now).
    set (s1 := submitted _ _ _ _ _ _ _ _ _ _) in *.
    assert (row ∈ runs s1) as Hrow by (apply elem_of_ins; by right).
    destruct (row_loads s1 Hok' row Hrow) as (rec & Hrec & _).
    unfold get_run in Hget. change (_new_id "run" rhex) with (r_run_id row) in Hget.
    rewrite (fetch_run s1 Hok' row Hrow) in Hget. simpl in Hget. by rewrite Hrec in Hget.
  - intros *. apply transaction_Err.
  - intros * H. unfold fail_queued_run in H. rewrite bind_run in H. unfold lift in H.
    destruct (raise_when _ _); [|by simplify_eq]. by apply transaction_Err in H.
  - intros * H. apply start_attempt_inv in H as [[H _]|(? & ? & ? & ? & H & _)]; [done|discriminate].
  - intros *. apply transaction_Err.
  - intros *. apply transaction_Err.
  - intros *. apply transaction_Err.
Qed.

Lemma refusals_change_nothing_witness :
  snd (transition_run "run-r1" SUCCEEDED None 9 demo_queued) = demo_queued.
Proof.
  refine (proj1 (proj2 (refusals_change_nothing demo_queued (InvalidTransition "run") _
            demo_queued_reachable)) "run-r1" SUCCEEDED None 9%Z _).
  vm_compute. reflexivity.
Defined.

(** ** A single row after an UPDATE *)

Lemma fetch_run_upd s (P : RunRow → bool) f row :
  store_ok s → row ∈ runs s → (∀ r, r_run_id (f r) = r_run_id r) →
  fetchone (is_run (r_run_id row)) (upd P f (runs s)) = Some (if P row then f row else row).
Proof.
  intros Hok Hrow Hf. rewrite fetchone_upd; [by rewrite (fetch_run s Hok row Hrow)|].
  intros r _ _. unfold is_run. by rewrite Hf.
Qed.

Lemma runs_upd_other s (P : RunRow → bool) f r :
  (∀ r, r_run_id (f r) = r_run_id r) → (P r = false) →
  (∀ r0, P r0 = true → P (f r0) = true) →
  r ∈ upd P f (runs s) ↔ r ∈ runs s.
Proof.
  intros Hf HP Hk. rewrite elem_of_upd. split.
  - intros (r0 & Hr0 & ->). destruct (P r0) eqn:E; [|done]. rewrite Hk in HP; done.
  - intros Hr. exists r. by rewrite HP.
Qed.

Lemma list_stages_upd s (Q : StageRow → bool) h row g :
  store_ok s → row ∈ runs s → (∀ g, s_run_id (h g) = s_run_id g) →
  sel (stage_of_run (r_run_id row)) (stages s) = [g] →
  order_by s_ordinal (sel (stage_of_run (r_run_id row)) (upd Q h (stages s)))
  = [if Q g then h g else g].
Proof.
  intros Hok Hrow Hh Hg. rewrite sel_upd, Hg; [done|].
  intros g' _ _. unfold stage_of_run. by rewrite Hh.
Qed.

(** ** The run state machine *)

(** Every branch of [transition_run], at a run of the store. *)
Lemma transition_run_cases s row target reason now : store_ok s → row ∈ runs s →
  let '(result, s') := transition_run (r_run_id row) target reason now s in
  (r_status row = target → result = Ok tt ∧ s' = s) ∧
  (r_status row ≠ target → run_transition_allowed (r_status row) target = false →
     result = Err (InvalidTransition "run") ∧ s' = s) ∧
  (r_status row ≠ target → run_transition_allowed (r_status row) target = true →
     result = Ok tt ∧
     (∃ row', fetchone (is_run (r_run_id row)) (runs s') = Some row' ∧ r_status row' = target ∧
        (is_terminal target = true → r_ended_at row' = Some now) ∧
        (target = RUNNING → r_started_at row' = coalesce (r_started_at row) now) ∧
        (reason ≠ None → r_terminal_reason row' = reason)) ∧
     (∃ g, list_stages (r_run_id row) s' = [g] ∧ s_status g = target) ∧
     (∀ r, r_run_id r ≠ r_run_id row → r ∈ runs s' ↔ r ∈ runs s) ∧
     attempts s' = attempts s ∧ reservations s' = reservations s).
Proof.
  intros Hok Hrow. destruct (transition_run _ _ _ _ _) as [result s'] eqn:H.
  pose proof (fetch_run s Hok row Hrow) as Hf.
  unfold transition_run, transaction in H. rewrite !bind_run in H. run_st H.
  rewrite Hf in H. simpl in H. case_bool_decide as Hst.
  { injection H as <- <-. split_and!; [done|congruence|congruence]. }
  destruct (run_transition_allowed (r_status row) target) eqn:Ha; simpl in H.
  2: { injection H as <- <-. split_and!; [congruence|done|done]. }
  injection H as <- <-. split_and!; [congruence|done|]. intros _ _.
  destruct (one_stage s Hok row Hrow) as (g & Hg & Hc).
  split_and!; [done| | | |done|done].
  - eexists. simpl. rewrite fetch_run_upd by done. unfold is_run. rewrite bool_decide_true by done.
    split_and!; [done|done| | |].
    + by intros ->.
    + by intros ->.
    + by destruct reason.
  - exists (restaged target g). unfold list_stages. simpl.
    rewrite (list_stages_upd _ _ _ _ _ Hok Hrow) by done. split; [|done].
    destruct Hc as [Hid Hs]. unfold stage_of_run. rewrite Hid, Hs, bool_decide_true by done.
    by rewrite (run_transition_active _ _ Ha).
  - intros r Hne. apply runs_upd_other; [done| |done]. unfold is_run. by apply bool_decide_false.
Qed.

(** C20. transition_run at the current status does nothing, refuses a move the table
    does not allow without a trace, and otherwise moves the run and its one stage,
    stamps the times and leaves other runs, attempts and reservations alone. *)
Theorem transition_run_spec s row target reason now : reachable s → row ∈ runs s →
  let '(result, s') := transition_run (r_run_id row) target reason now s in
  (r_status row = target → result = Ok tt ∧ s' = s) ∧
  (r_status row ≠ target → run_transition_allowed (r_status row) target = false →
     result = Err (InvalidTransition "run") ∧ s' = s) ∧
  (r_status row ≠ target → run_transition_allowed (r_status row) target = true →
     result = Ok tt ∧
     (∃ row', fetchone (is_run (r_run_id row)) (runs s') = Some row' ∧ r_status row' = target ∧
        (is_terminal target = true → r_ended_at row' = Some now) ∧
        (target = RUNNING → r_started_at row' = coalesce (r_started_at row) now) ∧
        (reason ≠ None → r_terminal_reason row' = reason)) ∧
     (∃ g, list_stages (r_run_id row) s' = [g] ∧ s_status g = target) ∧
     (∀ r, r_run_id r ≠ r_run_id row → r ∈ runs s' ↔ r ∈ runs s) ∧
     attempts s' = attempts s ∧ reservations s' = reservations s).
Proof. intros Hok%reachable_ok Hrow. by apply transition_run_cases. Qed.

Lemma transition_run_spec_witness :
  ∃ g, list_stages "run-r1" (snd (transition_run "run-r1" CANCELLED None 9 demo_queued)) = [g] ∧
       s_status g = CANCELLED.
Proof.
  destruct (runs demo_queued) as [|row l] eqn:E; [exfalso; vm_compute in E; discriminate|].
  pose proof (transition_run_spec demo_queued row CANCELLED None 9 demo_queued_reachable) as H.
  rewrite E in H. specialize (H ltac:(left)).
  assert (r_run_id row = "run-r1" ∧ r_status row = QUEUED) as [Hid Hst].
  { vm_compute in E. injection E as <- <-. split; reflexivity. }
  rewrite Hid, Hst in H. destruct (transition_run _ _ _ _ _) as [r s'].
  destruct H as (_ & _ & H). destruct H as (_ & _ & Hg & _); [discriminate|reflexivity|exact Hg].
Defined.

(** ** Admission *)

(** The reservation a request asks for. *)
Definition fits (s : Store) (r : ResourceRequest) (bc bm : Z) : Prop :=
  (fst (resource_totals s) + int_or (rr_cpu_cores r) 1 ≤ bc ∧
   snd (resource_totals s) + int_or (rr_memory_bytes r) 0 ≤ bm)%Z.

Lemma fresh_reservation s id : store_ok s → has_row (is_attempt id) (attempts s) = false →
  has_row (is_reservation id) (reservations s) = false.
Proof.
  intros [_ _ [_ He]] Hf. apply has_row_false. intros v Hv. apply bool_decide_eq_false. intros <-.
  rewrite Forall_forall in He. destruct (He v Hv) as (_ & _ & Hin).
  apply list_elem_of_fmap in Hin as (a & Heq & Ha). apply elem_of_sel in Ha as [Ha _].
  rewrite has_row_false in Hf. specialize (Hf a Ha). unfold is_attempt in Hf. bool_simpl. congruence.
Qed.

Lemma next_number s g : store_ok s →
  (max_col a_attempt_number (sel (attempt_of_stage g) (attempts s)) + 1)%Z
  = Z.of_nat (S (rowcount (attempt_of_stage g) (attempts s))).
Proof.
  intros [_ [_ _ Hn _] _]. rewrite (max_col_numbers _ _ _ (Hn g)); lia.
Qed.

Lemma insert_attempt_fresh s a : store_ok s →
  has_row (is_attempt (a_attempt_id a)) (attempts s) = false →
  has_row (is_stage (a_stage_run_id a)) (stages s) = true →
  a_attempt_number a = (max_col a_attempt_number
                          (sel (attempt_of_stage (a_stage_run_id a)) (attempts s)) + 1)%Z →
  insert_attempt a s = (Ok tt, on_attempts (ins a) s).
Proof.
  intros Hok Hf Hg Hn. unfold insert_attempt. rewrite bind_run, constraint_run, Hf. cbn [negb].
  rewrite bind_run, constraint_run, Hg. rewrite bind_run, constraint_run.
  assert ((0 <? a_attempt_number a)%Z = true) as ->.
  { apply Z.ltb_lt. rewrite Hn, next_number by done. lia. }
  rewrite bind_run, constraint_run.
  assert (has_row (λ r', bool_decide (a_stage_run_id r' = a_stage_run_id a)
                     && bool_decide (a_attempt_number r' = a_attempt_number a)) (attempts s) = false)
    as ->; [|done].
  apply has_row_false. intros a' Ha'. apply andb_false_iff.
  destruct (decide (a_stage_run_id a' = a_stage_run_id a)) as [Hs|]; [right|left].
  - apply bool_decide_eq_false. rewrite Hn. intros Heq.
    assert (a' ∈ sel (attempt_of_stage (a_stage_run_id a)) (attempts s)) as Hin.
    { apply elem_of_sel. split; [done|]. by apply bool_decide_eq_true. }
    pose proof (max_col_ub a_attempt_number _ _ Hin). lia.
  - by apply bool_decide_eq_false.
Qed.

#[export] Instance fits_dec s r bc bm : Decision (fits s r bc bm).
Proof. unfold fits. apply _. Defined.

Lemma reserve_decides s id rr cap_cpu cap_mem fraction bc bm :
  ResourceRequest_declared rr = true →
  (0 < int_or (rr_cpu_cores rr) 1)%Z → (0 < int_or (rr_memory_bytes rr) 0)%Z →
  budget cap_cpu fraction = Ok bc → budget cap_mem fraction = Ok bm →
  has_row (is_reservation id) (reservations s) = false →
  has_row (is_attempt id) (attempts s) = true →
  reserve id (Some rr) (Some cap_cpu) (Some cap_mem) fraction s =
    if decide (fits s rr bc bm) then
      (Ok true, on_reservations (ins (MkReservationRow id (int_or (rr_cpu_cores rr) 1)
                                        (int_or (rr_memory_bytes rr) 0))) s)
    else (Ok false, s).
Proof.
  intros Hd Hc Hm Hbc Hbm Hr Ha. unfold reserve. rewrite Hd. cbn [negb].
  rewrite bind_run, (proj2 (Z.leb_gt _ _) Hm). cbn [lift raise_when].
  rewrite bind_run. unfold gets. rewrite bind_run, Hbc. cbn [lift].
  rewrite bind_run, Hbm. cbn [lift].
  assert ((bc <? fst (resource_totals s) + int_or (rr_cpu_cores rr) 1)%Z
          || (bm <? snd (resource_totals s) + int_or (rr_memory_bytes rr) 0)%Z
          = negb (bool_decide (fits s rr bc bm))) as ->.
  { unfold fits. case_bool_decide as H; cbn [negb].
    - apply orb_false_iff. rewrite !Z.ltb_ge. lia.
    - apply orb_true_iff. rewrite !Z.ltb_lt. lia. }
  case_bool_decide as H; [rewrite decide_True by done|by rewrite decide_False by done].
  cbn [negb]. unfold insert_reservation.
  rewrite bind_run, bind_run, constraint_run. cbn [v_attempt_id]. rewrite Hr. cbn [negb].
  rewrite bind_run, constraint_run. cbn [v_attempt_id]. rewrite Ha.
  rewrite bind_run, constraint_run. cbn [v_cpu_cores v_memory_bytes].
  by rewrite (proj2 (Z.ltb_lt _ _) Hc), (proj2 (Z.ltb_lt _ _) Hm).
Qed.

(** Both outcomes of [start_attempt], for a declared request. *)
Lemma start_attempt_decides s g w ws lease rr cap_cpu cap_mem fraction hex now bc bm :
  store_ok s → g ∈ stages s → s_status g = QUEUED ∨ s_status g = RETRY_WAIT →
  (0 < lease)%Z → has_row (is_attempt (_new_id "attempt" hex)) (attempts s) = false →
  ResourceRequest_declared rr = true →
  (0 < int_or (rr_cpu_cores rr) 1)%Z → (0 < int_or (rr_memory_bytes rr) 0)%Z →
  budget cap_cpu fraction = Ok bc → budget cap_mem fraction = Ok bm →
  let run := start_attempt (s_stage_run_id g) w ws lease (Some rr) (Some cap_cpu) (Some cap_mem)
                           fraction hex now s in
  (¬ fits s rr bc bm → run = (Ok None, s)) ∧
  (fits s rr bc bm → ∃ a s', run = (Ok (Some a), s') ∧
     at_attempt_number a = Z.of_nat (S (rowcount (attempt_of_stage (s_stage_run_id g)) (attempts s))) ∧
     resource_totals s' = (fst (resource_totals s) + int_or (rr_cpu_cores rr) 1,
                           snd (resource_totals s) + int_or (rr_memory_bytes rr) 0)%Z ∧
     (∃ r', fetchone (is_run (s_run_id g)) (runs s') = Some r' ∧ r_status r' = RUNNING) ∧
     (∃ g', list_stages (s_run_id g) s' = [g'] ∧ s_status g' = RUNNING)).
Proof.
  intros Hok Hg Hq Hl Hf Hd Hc Hm Hbc Hbm run. subst run.
  unfold start_attempt. rewrite bind_run. rewrite (proj2 (Z.leb_gt _ _) Hl). cbn [lift raise_when].
  unfold transaction_opt, lift, gets. rewrite !bind_run. cbn [id].
  rewrite (fetch_stage s Hok g Hg). cbn [of_option]. rewrite bind_run.
  assert (status_in [QUEUED; RETRY_WAIT] (s_status g) = true) as Hst.
  { apply bool_decide_eq_true. rewrite !elem_of_cons. naive_solver. }
  rewrite Hst. cbn [negb raise_when]. rewrite bind_run, insert_attempt_fresh; [|done|done| |done].
  2: { apply has_row_true. exists g. split; [done|]. by apply bool_decide_eq_true. }
  set (new := new_attempt _ _ _ _ _ _ _). set (s1 := on_attempts (ins new) s).
  rewrite bind_run, (reserve_decides s1 _ _ _ _ _ bc bm); [|done..| |].
  2: { by apply (fresh_reservation s). }
  2: { apply has_row_true. exists new. split; [apply elem_of_ins; by right|].
       by apply bool_decide_eq_true. }
  change (fits s1 rr bc bm) with (fits s rr bc bm). split; intros Hfit.
  { by rewrite decide_False. }
  rewrite decide_True by done. eexists _, _. split; [reflexivity|]. simpl.
  destruct (run_of_stage _ _ (so_runs _ Hok) g Hg) as (row & Hrow & Hid & Hs).
  destruct (one_stage s Hok row Hrow) as (g' & Hsel & _).
  assert (g' = g) as ->.
  { assert (g ∈ sel (stage_of_run (r_run_id row)) (stages s)) as Hin.
    { apply elem_of_sel. split; [done|]. by apply bool_decide_eq_true. }
    rewrite Hsel in Hin. by apply list_elem_of_singleton in Hin. }
  split_and!; [by apply next_number| | |].
  - unfold resource_totals. simpl. by rewrite !sum_col_ins.
  - exists (claimed_run now row). split; [|done]. rewrite Hid, fetch_run_upd by done.
    unfold is_run at 1. rewrite bool_decide_true by done.
    assert (status_in [QUEUED; PREPARING; RETRY_WAIT] (r_status row) = true) as ->; [|done].
    apply bool_decide_eq_true. rewrite <-Hs, !elem_of_cons. naive_solver.
  - exists (claimed now g). unfold list_stages. simpl. rewrite Hid.
    rewrite (list_stages_upd _ _ _ _ _ Hok Hrow) by done. split; [|done].
    unfold is_stage. by rewrite bool_decide_true.
Qed.

(** C11. start_attempt on a waiting stage admits a declared request exactly when what
    is reserved plus what it asks for fits the CPU and the memory budget; admitted, it
    reserves that much, numbers the attempt and moves run and stage to RUNNING, and
    refused it changes nothing. *)
Theorem start_attempt_admission s g w ws lease rr cap_cpu cap_mem fraction hex now bc bm :
  reachable s → g ∈ stages s → s_status g = QUEUED ∨ s_status g = RETRY_WAIT →
  (0 < lease)%Z → has_row (is_attempt (_new_id "attempt" hex)) (attempts s) = false →
  ResourceRequest_declared rr = true →
  (0 < int_or (rr_cpu_cores rr) 1)%Z → (0 < int_or (rr_memory_bytes rr) 0)%Z →
  budget cap_cpu fraction = Ok bc → budget cap_mem fraction = Ok bm →
  let run := start_attempt (s_stage_run_id g) w ws lease (Some rr) (Some cap_cpu) (Some cap_mem)
                           fraction hex now s in
  (¬ fits s rr bc bm → run = (Ok None, s)) ∧
  (fits s rr bc bm → ∃ a s', run = (Ok (Some a), s') ∧
     at_attempt_number a = Z.of_nat (S (rowcount (attempt_of_stage (s_stage_run_id g)) (attempts s))) ∧
     resource_totals s' = (fst (resource_totals s) + int_or (rr_cpu_cores rr) 1,
                           snd (resource_totals s) + int_or (rr_memory_bytes rr) 0)%Z ∧
     (∃ r', fetchone (is_run (s_run_id g)) (runs s') = Some r' ∧ r_status r' = RUNNING) ∧
     (∃ g', list_stages (s_run_id g) s' = [g'] ∧ s_status g' = RUNNING)).
Proof. intros Hok%reachable_ok. by apply start_attempt_decides. Qed.

Lemma start_attempt_admission_witness :
  ∃ a s', start_attempt "stage-s1" "w" "/w" 30 demo_resources (Some 4%Z) (Some 4000%Z)
            default_fraction "a1" 5 demo_queued = (Ok (Some a), s') ∧ at_attempt_number a = 1%Z.
Proof.
  destruct (stages demo_queued) as [|g l] eqn:E; [exfalso; vm_compute in E; discriminate|].
  assert (s_stage_run_id g = "stage-s1" ∧ s_status g = QUEUED) as [Hid Hst].
  { vm_compute in E. injection E as <- <-. split; reflexivity. }
  destruct demo_resources as [rr|] eqn:Er; [|discriminate].
  unfold demo_resources in Er. injection Er as <-.
  destruct (start_attempt_admission demo_queued g "w" "/w" 30
    (MkResourceRequest JNull (JInt 2) (JInt 1000) JNull) 4 4000 default_fraction
    "a1" 5 3 2400) as [_ H].
  - exact demo_queued_reachable.
  - rewrite E. left.
  - left. exact Hst.
  - lia.
  - vm_compute. reflexivity.
  - reflexivity.
  - reflexivity.
  - reflexivity.
  - vm_compute. reflexivity.
  - vm_compute. reflexivity.
  - rewrite Hid in H. destruct H as (a & s' & H1 & H2 & _); [split; vm_compute; discriminate|].
    exists a, s'. split; [exact H1|]. rewrite H2. vm_compute. reflexivity.
Defined.

(** ** Settling an attempt *)

(** finish_attempt settles a running attempt once: it records the outcome, drops the
    lease and that reservation only, and touches no run or stage; a settled attempt or
    a non-final target is refused without a trace. *)
Theorem finish_attempt_spec s a status ec fl cpu mem procs now : reachable s → a ∈ attempts s →
  let '(result, s') := finish_attempt (a_attempt_id a) status ec fl cpu mem procs now s in
  (a_status a = A_RUNNING → status ∈ [A_SUCCEEDED; A_FAILED; A_LOST] →
     result = Ok tt ∧
     (∃ a', fetchone (is_attempt (a_attempt_id a)) (attempts s') = Some a' ∧
        a_status a' = status ∧ a_ended_at a' = Some now ∧ a_lease_expires_at a' = None ∧
        a_exit_code a' = ec ∧ a_failure_json a' = failure_column fl) ∧
     has_row (is_reservation (a_attempt_id a)) (reservations s') = false ∧
     (∀ v, v_attempt_id v ≠ a_attempt_id a → v ∈ reservations s' ↔ v ∈ reservations s) ∧
     (∀ b, a_attempt_id b ≠ a_attempt_id a → b ∈ attempts s' ↔ b ∈ attempts s) ∧
     runs s' = runs s ∧ stages s' = stages s) ∧
  (a_status a ≠ A_RUNNING ∨ status = A_RUNNING ∨ status = A_PENDING →
     result = Err (InvalidTransition "attempt") ∧ s' = s).
Proof.
  intros Hok%reachable_ok Ha. destruct (finish_attempt _ _ _ _ _ _ _ _ _) as [result s'] eqn:H.
  unfold finish_attempt, transaction in H. rewrite !bind_run in H. run_st H.
  rewrite (fetch_attempt s Hok a Ha) in H. cbn [of_option] in H.
  destruct (attempt_transition_allowed (a_status a) status) eqn:Ht; cbn [negb raise_when] in H;
    injection H as <- <-.
  - apply attempt_transition_target in Ht as (Hr & Hp & Hr');
      [|by destruct (store_ok_attempt _ _ Hok Ha)].
    split; [|by intros [|[|]]]. intros _ _. split_and!; [done| | | | |done|done]; simpl.
    + eexists. rewrite fetchone_upd by done. rewrite (fetch_attempt s Hok a Ha). simpl.
      unfold is_attempt. by rewrite bool_decide_true.
    + apply has_row_false. by intros v [_ Hv]%elem_of_del.
    + intros v Hv. rewrite elem_of_del. unfold is_reservation. rewrite bool_decide_eq_false. tauto.
    + intros b Hb. rewrite elem_of_upd. split.
      * intros (b0 & Hb0 & ->). destruct (is_attempt _ b0) eqn:E; [|done].
        unfold is_attempt in E. by bool_simpl.
      * intros Hin. exists b. split; [done|]. unfold is_attempt. by rewrite bool_decide_false.
  - split; [|done]. intros Hr Hst. rewrite Hr in Ht. rewrite !elem_of_cons in Hst.
    destruct Hst as [-> |[-> |[-> |[]%not_elem_of_nil]]]; by vm_compute in Ht.
Qed.

Lemma finish_attempt_spec_witness :
  has_row (is_reservation "attempt-a1") (reservations demo_running) = true ∧
  has_row (is_reservation "attempt-a1") (reservations demo_finished) = false.
Proof.
  split; [vm_compute; reflexivity|].
  destruct (attempts demo_running) as [|a l] eqn:E; [exfalso; vm_compute in E; discriminate|].
  pose proof (finish_attempt_spec demo_running a A_FAILED (Some 1%Z) (Some demo_failure) JNull None
                None 3000 demo_running_reachable) as H.
  rewrite E in H. specialize (H ltac:(left)).
  assert (a_attempt_id a = "attempt-a1" ∧ a_status a = A_RUNNING) as [Hid Hst].
  { vm_compute in E. injection E as <- <-. split; reflexivity. }
  rewrite Hid, Hst in H. unfold demo_finished, demo_finish.
  destruct (finish_attempt _ _ _ _ _ _ _ _ _) as [r s'].
  destruct H as [H _]. destruct H as (_ & _ & H & _); [reflexivity| |exact H].
  right. left.
Defined.

(** ** Asking for a retry *)

Lemma insert_event_fresh e s :
  has_row (λ r', bool_decide (e_event_id r' = e_event_id e)) (events s) = false →
  insert_event e s = (Ok tt, on_events (ins e) s).
Proof. intros H. unfold insert_event. by rewrite bind_run, constraint_run, H. Qed.

(** The one condition under which a run may be retried on request. *)
Definition retry_allowed (s : Store) (row : RunRow) (g : StageRow) : Prop :=
  r_status row = FAILED ∧
  ∃ t a fl, TaskSpec_from_dict (JObj (r_task_spec_json row)) = Ok t ∧
    latest_attempt (s_stage_run_id g) s = Some a ∧
    _optional_json_object (a_failure_json a) = Some fl ∧
    truthy (get_null "retryable" fl) = true ∧
    (a_attempt_number a < max_attempts_of t)%Z.

Lemma first_stage s row g : store_ok s → row ∈ runs s → g ∈ stages s → s_run_id g = r_run_id row →
  fetchone (stage_of_run (r_run_id row)) (stages s) = Some g.
Proof.
  intros Hok Hrow Hg Hid. unfold stage_of_run. rewrite <-Hid.
  apply (fetchone_unique s_run_id); [|done]. by eapply stage_run_nodup, so_runs.
Qed.

(** The stage of a run, as the two queries find it. *)
Lemma stages_of s row g : store_ok s → row ∈ runs s → g ∈ stages s → s_run_id g = r_run_id row →
  sel (stage_of_run (r_run_id row)) (stages s) = [g] ∧ list_stages (r_run_id row) s = [g].
Proof.
  intros Hok Hrow Hg Hid. destruct (one_stage s Hok row Hrow) as (g' & Hsel & _).
  assert (g ∈ sel (stage_of_run (r_run_id row)) (stages s)) as Hin.
  { apply elem_of_sel. split; [done|]. by apply bool_decide_eq_true. }
  rewrite Hsel in Hin. apply list_elem_of_singleton in Hin as ->.
  split; [done|]. unfold list_stages. by rewrite Hsel.
Qed.

Lemma runs_kept (f : RunRow → RunRow) run_id other t : other ≠ run_id →
  (∀ r, r_run_id (f r) = r_run_id r) →
  fetchone (is_run other) (upd (is_run run_id) f t) = fetchone (is_run other) t.
Proof.
  intros Hne Hf. rewrite fetchone_upd; [|intros r _ _; unfold is_run; by rewrite Hf].
  destruct (fetchone _ t) as [r|] eqn:E; [|done]. apply fetchone_Some in E as [_ Hr].
  unfold is_run in *. bool_simpl. simpl. by rewrite bool_decide_false by congruence.
Qed.

Lemma stages_kept s row (h : StageRow → StageRow) (g : StageRow) other : other ≠ r_run_id row →
  store_ok s → g ∈ stages s → s_run_id g = r_run_id row → (∀ x, s_run_id (h x) = s_run_id x) →
  sel (stage_of_run other) (upd (is_stage (s_stage_run_id g)) h (stages s)) = sel (stage_of_run other) (stages s).
Proof.
  intros Hne Hok Hg Hid Hh. rewrite sel_upd; [|intros x _ _; unfold stage_of_run; by rewrite Hh].
  unfold upd. rewrite <-(list_fmap_id (sel _ (stages s))) at 2. apply list_fmap_ext.
  intros i x Hx. apply list_elem_of_lookup_2, elem_of_sel in Hx as [Hin Hx].
  unfold is_stage, stage_of_run in *. bool_simpl. case_bool_decide as Heq; [|done].
  exfalso. assert (x = g) as ->; [by apply (stage_unique _ _ (so_runs _ Hok))|congruence].
Qed.

(** Who asks and why are given, and the run may be retried. *)
Definition retry_granted (s : Store) (run_id requester reason : string) : Prop :=
  str_empty (strip reason) = false ∧ str_empty (strip requester) = false ∧
  ∃ row g, row ∈ runs s ∧ r_run_id row = run_id ∧ g ∈ stages s ∧ s_run_id g = run_id ∧
    retry_allowed s row g.

(** The run as a granted request leaves it. *)
Definition retry_requested (requester reason : string) (r : RunRow) : RunRow :=
  run_with RETRY_WAIT (r_started_at r) (r_ended_at r)
    (Some ("retry requested by " +:+ requester +:+ ": " +:+ reason)) r.

Definition retry_event (run_id stage_run_id attempt_id requester reason hex : string) (now : Z) : EventRow :=
  MkEventRow (_new_id "event" hex) run_id (Some stage_run_id) (Some attempt_id)
    "run.retry_requested" requester [("reason", JStr reason)] now.

Lemma retry_transaction_allowed s row g requester reason hex now : store_ok s →
  row ∈ runs s → g ∈ stages s → s_run_id g = r_run_id row → retry_allowed s row g →
  has_row (λ e, bool_decide (e_event_id e = _new_id "event" hex)) (events s) = false →
  ∃ a, latest_attempt (s_stage_run_id g) s = Some a ∧
    retry_transaction (r_run_id row) requester reason hex now s
    = (Ok tt, on_events (ins (retry_event (r_run_id row) (s_stage_run_id g) (a_attempt_id a) requester reason hex now))
               (on_stages (upd (is_stage (s_stage_run_id g)) (restaged RETRY_WAIT))
                 (on_runs (upd (is_run (r_run_id row)) (retry_requested requester reason)) s))).
Proof.
  intros Hok Hrow Hg Hid (Hst & t0 & a & fl & H1 & H2 & H3 & H4 & H5) Hev. exists a. split; [done|].
  destruct (retry_transaction _ _ _ _ _ _) as [result s'] eqn:H.
  unfold retry_transaction, transaction in H. rewrite !bind_run in H. run_st H.
  rewrite (fetch_run s Hok row Hrow) in H. cbn [of_option] in H. rewrite H1 in H.
  rewrite Hst, bool_decide_true in H by done. cbn [negb raise_when] in H.
  rewrite (first_stage s row g Hok Hrow Hg Hid) in H. simpl in H. rewrite H2 in H. simpl in H.
  rewrite H3 in H. unfold not_retryable in H. rewrite H4 in H. cbn [negb raise_when] in H.
  rewrite (proj2 (Z.leb_gt _ _) H5) in H. cbn [raise_when] in H.
  rewrite insert_event_fresh in H by done. by injection H as <- <-.
Qed.

(** A transaction that commits was allowed. *)
Lemma retry_transaction_grants s run_id requester reason hex now s' : store_ok s →
  retry_transaction run_id requester reason hex now s = (Ok tt, s') →
  ∃ row g, row ∈ runs s ∧ r_run_id row = run_id ∧ g ∈ stages s ∧ s_run_id g = run_id ∧
    retry_allowed s row g.
Proof.
  intros Hok H. apply retry_transaction_Ok in H
    as (row & g & a & t0 & e & H1 & H2 & H3 & H4 & H5 & H6 & H7 & _).
  apply fetchone_Some in H1 as [Hrow Hrun]. apply fetchone_Some in H4 as [Hg Hgr].
  unfold is_run, stage_of_run in *. bool_simpl. exists row, g. split_and!; [done..|].
  split; [done|]. unfold not_retryable in H6. destruct (_optional_json_object _) as [fl|] eqn:Hfl; [|done]. bool_simpl.
  exists t0, a, fl. by split_and!.
Qed.

(** C40. A retry that names its requester and a reason is granted exactly to a FAILED
    run whose latest attempt failed retryably with attempts left. It moves run and
    stage to RETRY_WAIT, keeps the task, the attempts and every other run, appends one
    event that names the requester and the reason, and answers with the projection of
    the run after that. A request that is not granted, a blank reason or requester
    included, is refused and changes nothing. *)
Theorem request_retry_spec s run_id requester reason hex now : reachable s →
  has_row (λ e, bool_decide (e_event_id e = _new_id "event" hex)) (events s) = false →
  let '(result, s') := request_retry run_id requester reason hex now s in
  (retry_granted s run_id requester reason →
     (* the answer is the run's projection after the request *)
     result = describe_run run_id s' ∧
     (∃ row, fetchone (is_run run_id) (runs s) = Some row ∧
        fetchone (is_run run_id) (runs s') = Some (retry_requested requester reason row)) ∧
     (∃ g a, list_stages run_id s = [g] ∧ list_stages run_id s' = [restaged RETRY_WAIT g] ∧
        latest_attempt (s_stage_run_id g) s = Some a ∧
        events s' = events s ++
          [retry_event run_id (s_stage_run_id g) (a_attempt_id a) requester reason hex now]) ∧
     (* the attempts, and every other run and stage, are what they were *)
     attempts s' = attempts s ∧
     (∀ other, other ≠ run_id → fetchone (is_run other) (runs s') = fetchone (is_run other) (runs s) ∧
        list_stages other s' = list_stages other s)) ∧
  (¬ retry_granted s run_id requester reason → (∃ e, result = Err e) ∧ s' = s).
Proof.
  intros Hok%reachable_ok Hev. unfold request_retry. rewrite bind_run.
  destruct (str_empty (strip reason) || str_empty (strip requester)) eqn:Hblank.
  { split; [|intros _; split; [by eexists|done]]. intros (H1 & H2 & _). by rewrite H1, H2 in Hblank. }
  apply orb_false_elim in Hblank as [Hb1 Hb2]. cbn [raise_when lift]. rewrite bind_run.
  destruct (retry_transaction run_id requester reason hex now s) as [[[]|e] s'] eqn:H.
  - destruct (retry_transaction_grants _ _ _ _ _ _ _ Hok H) as (row & g & Hrow & <- & Hg & Hid & Hal).
    destruct (retry_transaction_allowed s row g requester reason hex now Hok Hrow Hg Hid Hal Hev) as (a & Ha & Ht).
    rewrite Ht in H. injection H as <-. rewrite bind_run. cbn [gets id lift].
    split; [intros _|intros []; split_and!; eauto 10]. split; [done|].
    split; [exists row; split; [by apply fetch_run|]; simpl; rewrite fetch_run_upd by done;
            unfold is_run; by rewrite bool_decide_true|].
    destruct (stages_of s row g Hok Hrow Hg Hid) as [Hsel Hlist].
    split; [exists g, a; split_and!; [done| |done|done]|].
    + unfold list_stages. simpl. rewrite (list_stages_upd _ _ _ _ _ Hok Hrow) by done.
      unfold is_stage. by rewrite bool_decide_true.
    + split; [done|]. intros other Hne. split; [by apply runs_kept|].
      unfold list_stages. simpl. by rewrite (stages_kept _ row _ _ other).
  - pose proof (transaction_Err _ _ _ _ H) as ->. split; [|intros _; split; [by eexists|done]].
    intros (_ & _ & row & g & Hrow & <- & Hg & Hid & Hal). exfalso.
    destruct (retry_transaction_allowed s row g requester reason hex now Hok Hrow Hg Hid Hal Hev) as (a & _ & Ht).
    rewrite Ht in H; discriminate H.
Qed.

Lemma request_retry_spec_witness : ∃ d,
  fst (request_retry "run-r1" "alice" "try again" "e1" 9 demo_failed) = Ok d ∧
  fetchone (is_run "run-r1") (runs (snd (request_retry "run-r1" "alice" "try again" "e1" 9 demo_failed)))
  = retry_requested "alice" "try again" <$> fetchone (is_run "run-r1") (runs demo_failed).
Proof.
  destruct (runs demo_failed) as [|row l] eqn:E; [exfalso; vm_compute in E; discriminate|].
  destruct (stages demo_failed) as [|g l'] eqn:Eg; [exfalso; vm_compute in Eg; discriminate|].
  pose proof (request_retry_spec demo_failed "run-r1" "alice" "try again" "e1" 9
                demo_failed_reachable ltac:(vm_compute; reflexivity)) as H.
  assert (retry_granted demo_failed "run-r1" "alice" "try again") as Hg.
  { split; [reflexivity|]. split; [reflexivity|]. exists row, g. rewrite E, Eg.
    assert (r_run_id row = "run-r1") as Hid by (vm_compute in E; injection E as <- <-; reflexivity).
    assert (s_run_id g = "run-r1") as Hgid by (vm_compute in Eg; injection Eg as <- <-; reflexivity).
    split; [left|]. split; [exact Hid|]. split; [left|]. split; [exact Hgid|].
    vm_compute in E. injection E as <- <-. vm_compute in Eg. injection Eg as <- <-.
    split; [reflexivity|]. eexists _, _, demo_failure. split_and!; vm_compute; reflexivity. }
  assert (is_Ok (fst (request_retry "run-r1" "alice" "try again" "e1" 9 demo_failed)) = true) as Hok
    by (vm_compute; reflexivity).
  destruct (request_retry _ _ _ _ _ _) as [r s']. destruct r as [d|e]; [|discriminate Hok].
  destruct H as [H _]. destruct (H Hg) as (_ & (r0 & Hr0 & Hr1) & _).
  exists d. split; [reflexivity|]. cbn [snd]. rewrite Hr1. rewrite E in *. rewrite Hr0. reflexivity.
Defined.
