(* ===== verification/StoreSubmit.v ===== *)
(** * Submission is idempotent

    A submission under an idempotency key returns the run that already has the key
    exactly when the tasks are equivalent, where input identifiers count as the
    bytes they name; otherwise it is refused.  Submitting the same task twice gives
    the same run, whatever happened to the run in between. *)

From S2P Require Export StoreSpec.
Open Scope string_scope.
Open Scope list_scope.

(** ** The two outcomes of a submission that returns *)

Definition can_submit (task : TaskSpec) (ikey : option string) : Prop :=
  TaskSpec_validate task = Ok tt ∧ is_null (t_plugin_id task) = false ∧
  ikey ≠ Some EmptyString.

(** The existing run is the answer. *)
Definition answers (task : TaskSpec) (pv : string) (idem : bool) (ikey : option string)
    (s : Store) (rec : RunRecord) : Prop :=
  submit_existing task idem ikey s = Ok (Some rec) ∧
  _equivalent_task_specs (rec_task_spec rec) task s = Ok true ∧
  ∃ g, head (list_stages (rec_run_id rec) s) = Some g ∧ s_plugin_version g = pv.

Lemma submit_run_existing task key pv idem ikey res rhex shex now s rec :
  can_submit task ikey → answers task pv idem ikey s rec →
  submit_run task key pv idem ikey res rhex shex now s = (Ok rec, s).
Proof.
  intros (Hv & Hp & Hk) (Hex & Heq & g & Hg & Hpv). unfold submit_run.
  rewrite bind_run. unfold lift at 1. rewrite Hv, bind_run. unfold lift at 1. rewrite Hp.
  cbn [raise_when]. rewrite bind_run. unfold lift at 1.
  rewrite bool_decide_false by done. cbn [raise_when]. rewrite bind_run. unfold transaction.
  rewrite bind_run. cbn [gets id]. rewrite bind_run. unfold lift at 1. rewrite Hex, bind_run.
  unfold lift at 1. rewrite Heq. cbn [negb raise_when]. rewrite bind_run. cbn [lift].
  rewrite bind_run. unfold lift at 1. rewrite Hg. cbn [of_option]. rewrite Hpv.
  by rewrite bool_decide_true.
Qed.

Lemma submit_run_conflict task key pv idem ikey res rhex shex now s rec :
  can_submit task ikey → submit_existing task idem ikey s = Ok (Some rec) →
  _equivalent_task_specs (rec_task_spec rec) task s = Ok false →
  submit_run task key pv idem ikey res rhex shex now s
    = (Err (RuntimeStoreError "different immutable TaskSpec"), s).
Proof.
  intros (Hv & Hp & Hk) Hex Heq. unfold submit_run.
  rewrite bind_run. unfold lift at 1. rewrite Hv, bind_run. unfold lift at 1. rewrite Hp.
  cbn [raise_when]. rewrite bind_run. unfold lift at 1.
  rewrite bool_decide_false by done. cbn [raise_when]. rewrite bind_run. unfold transaction.
  rewrite bind_run. cbn [gets id]. rewrite bind_run. unfold lift at 1. rewrite Hex, bind_run.
  unfold lift at 1. by rewrite Heq.
Qed.

Lemma submit_run_Ok task key pv idem ikey res rhex shex now s rec s' :
  submit_run task key pv idem ikey res rhex shex now s = (Ok rec, s') →
  can_submit task ikey ∧
  ((s' = s ∧ answers task pv idem ikey s rec) ∨
   (submit_existing task idem ikey s = Ok None ∧
    ∃ spec, TaskSpec_to_dict task = Ok spec ∧
    s' = submitted (_new_id "run" rhex) (_new_id "stage" shex) task key pv ikey res spec now s ∧
    get_run (_new_id "run" rhex) s' = Ok rec)).
Proof.
  unfold submit_run. intros H.
  apply bind_st_Ok in H as ([] & s0 & [Hv ->]%lift_Ok & H).
  apply bind_st_Ok in H as ([] & s0 & [Hp%raise_when_Ok ->]%lift_Ok & H).
  apply bind_st_Ok in H as ([] & s0 & [Hk%raise_when_Ok ->]%lift_Ok & H). bool_simpl.
  split; [done|]. apply bind_st_Ok in H as (found & s1 & Ht & H). rewrite transaction_Ok in Ht.
  apply bind_st_Ok in Ht as (s0 & s2 & [-> ->]%gets_Ok & Ht). unfold id in Ht.
  apply bind_st_Ok in Ht as (existing & s2 & [Hex ->]%lift_Ok & Ht).
  destruct existing as [rec'|].
  - left. invert_st. bool_simpl. subst. split; [done|].
    split_and!; try done. eexists. split; [done|]. done.
  - right. split; [done|]. apply bind_st_Ok in Ht as (spec & s2 & [Hspec ->]%lift_Ok & Ht).
    apply bind_st_Ok in Ht as ([] & s2 & (_ & _ & ->)%insert_run_Ok & Ht).
    apply bind_st_Ok in Ht as ([] & s2 & (_ & ->)%insert_stage_Ok & Ht).
    apply mret_st_Ok in Ht as [-> ->]. exists spec. split; [done|]. invert_st. done.
Qed.

(** ** A task is equivalent to itself *)

Lemma equivalent_refl t s d :
  TaskSpec_validate t = Ok tt → staged_by_bytes s (without_platform_labels (TaskSpec_primitive t)) = Ok d →
  plain (JObj d) = true → _equivalent_task_specs t t s = Ok true.
Proof.
  intros Hv Hs Hp. unfold _equivalent_task_specs, TaskSpec_to_dict. rewrite Hv.
  cbn [mbind result_bind]. rewrite Hs. cbn [mbind result_bind]. by rewrite (py_eqb_refl _ Hp).
Qed.

Lemma plain_filter f l : plain (JObj l) = true → plain (JObj (List.filter f l)) = true.
Proof.
  cbn [plain]. rewrite !andb_true_iff, !bool_decide_eq_true, !forallb_forall. intros [Hnd Hall].
  split.
  - unfold dict_keys in *. induction l as [|kv l IH]; [done|]. csimpl in Hnd.
    apply NoDup_cons in Hnd as [Hn Hnd]. simpl.
    assert (Hl := IH Hnd (λ x Hx, Hall x (or_intror Hx))). destruct (f kv); [|done].
    csimpl. apply NoDup_cons. split; [|done]. intros H. apply Hn.
    apply list_elem_of_fmap in H as (kv' & -> & Hin%list_elem_of_In).
    apply filter_In in Hin as [Hin%list_elem_of_In _]. by apply list_elem_of_fmap_2.
  - intros kv [Hin _]%filter_In. by apply Hall.
Qed.

Lemma plain_get k d v : plain (JObj d) = true → dict_get k d = Some v → plain v = true.
Proof.
  cbn [plain]. intros [_ H]%andb_true_iff. induction d as [|[k' w] d IH]; [done|]. simpl in *.
  apply andb_true_iff in H as [H1 H2]. case_bool_decide; [by intros [= <-]|]. by apply IH.
Qed.

Lemma plain_get_null k d : plain (JObj d) = true → plain (get_null k d) = true.
Proof.
  intros Hp. unfold get_null. destruct (dict_get k d) eqn:E; [|done]. by eapply plain_get.
Qed.

Lemma without_platform_labels_plain d :
  plain (JObj d) = true → plain (JObj (without_platform_labels d)) = true.
Proof.
  intros Hp. apply plain_dict_set; [|done]. pose proof (plain_get_null "labels" d Hp) as Hl.
  destruct (get_null "labels" d); try done. by apply plain_filter.
Qed.

Lemma digest_field_plain k digest d d' :
  plain (JObj d) = true → digest_field k digest d = Ok d' → plain (JObj d') = true.
Proof.
  intros Hp. unfold digest_field. destruct (get_null k d); try (by intros [= <-]).
  destruct (str_empty s); [by intros [= <-]|]. intros H. invert_ok. by apply plain_dict_set.
Qed.

Lemma staged_by_bytes_plain s d d' :
  plain (JObj d) = true → staged_by_bytes s d = Ok d' → plain (JObj d') = true.
Proof.
  intros Hp. unfold staged_by_bytes. pose proof (plain_get_null "staged_inputs" d Hp) as Hl.
  destruct (get_null "staged_inputs" d) as [| | | | |items|]; try (by intros [= <-]).
  intros H. apply bind_Ok in H as (items' & Hm & [= <-]). apply plain_dict_set; [|done].
  apply mapM_result_Ok in Hm. cbn [plain] in *.
  induction Hm as [|x y l l' Hx Hm IH]; [done|]. simpl in *.
  apply andb_true_iff in Hl as [H1 H2]. rewrite IH, andb_true_r by done.
  destruct x; simpl in Hx; try (by injection Hx as <-).
  apply bind_Ok in Hx as (d1 & Hd1 & Hx). apply bind_Ok in Hx as (d2 & Hd2 & [= <-]).
  eapply digest_field_plain; [|exact Hd2]. by eapply digest_field_plain.
Qed.

(** ** A run created under a key answers for it *)

Lemma submitted_answers task key pv ikey res rhex shex now s spec rec k idem :
  store_ok s → TaskSpec_to_dict task = Ok spec → ikey = Some k →
  has_row (is_run (_new_id "run" rhex)) (runs s) = false →
  has_row (is_stage (_new_id "stage" shex)) (stages s) = false →
  (∀ r, r ∈ runs s → r_idempotency_key r ≠ Some k) →
  let s' := submitted (_new_id "run" rhex) (_new_id "stage" shex) task key pv ikey res spec now s in
  get_run (_new_id "run" rhex) s' = Ok rec → _equivalent_task_specs task task s' = Ok true →
  answers task pv idem ikey s' rec.
Proof.
  intros Hok Hspec -> Hr Hg Hk s' Hget Heq.
  assert (store_ok s') as Hok'.
  { apply submitted_ok; try done. intros k' r [= <-]. by apply Hk. }
  set (row := submitted_run (_new_id "run" rhex) task (Some k) spec now).
  set (stage := submitted_stage (_new_id "stage" shex) (_new_id "run" rhex) key task pv res now).
  assert (row ∈ runs s') as Hrow by (apply elem_of_ins; by right).
  assert (stage ∈ stages s') as Hstage by (apply elem_of_ins; by right).
  unfold get_run in Hget. change (_new_id "run" rhex) with (r_run_id row) in Hget.
  rewrite (fetch_run s' Hok' row Hrow) in Hget. simpl in Hget.
  assert (rec_task_spec rec = task ∧ rec_run_id rec = r_run_id row) as [Ht Hid].
  { unfold _run_from_row in Hget. change (r_task_spec_json row) with spec in Hget.
    rewrite (TaskSpec_roundtrip _ _ Hspec) in Hget. by injection Hget as <-. }
  split_and!.
  - unfold submit_existing. change (runs s') with (ins row (runs s)). rewrite fetchone_ins.
    assert (fetchone (λ r, bool_decide (r_idempotency_key r = Some k)) (runs s) = None) as ->.
    { apply fetchone_None. intros r Hin. apply bool_decide_eq_false. by apply Hk. }
    simpl. rewrite bool_decide_true by done. by rewrite Hget.
  - by rewrite Ht.
  - exists stage. split; [|done]. rewrite Hid. unfold list_stages.
    destruct (one_stage s' Hok' row Hrow) as (g & Hsel & _). rewrite Hsel. simpl.
    assert (stage ∈ sel (stage_of_run (r_run_id row)) (stages s')) as Hin.
    { apply elem_of_sel. split; [done|]. by apply bool_decide_eq_true. }
    rewrite Hsel in Hin. by apply list_elem_of_singleton in Hin as ->.
Qed.

(** A submission repeated under its idempotency key returns the same run and changes
    nothing, and another task under that key is refused without a trace. *)
Theorem submit_run_idempotent task key pv idem k res rhex shex now s rec s' d :
  reachable s →
  submit_run task key pv idem (Some k) res rhex shex now s = (Ok rec, s') →
  plain (JObj (TaskSpec_primitive task)) = true →
  staged_by_bytes s' (without_platform_labels (TaskSpec_primitive task)) = Ok d →
  (* the same request again, whatever the other arguments *)
  (∀ key' idem' res' rhex' shex' now',
     submit_run task key' pv idem' (Some k) res' rhex' shex' now' s' = (Ok rec, s')) ∧
  (* another task, or another plugin version, under the key is refused *)
  (∀ task' key' pv' idem' res' rhex' shex' now',
     can_submit task' (Some k) →
     _equivalent_task_specs (rec_task_spec rec) task' s' = Ok false →
     submit_run task' key' pv' idem' (Some k) res' rhex' shex' now' s'
       = (Err (RuntimeStoreError "different immutable TaskSpec"), s')).
Proof.
  intros Hok%reachable_ok H Hplain Hd.
  pose proof (submit_run_inv _ _ _ _ _ _ _ _ _ _ _ _ H) as Hinv.
  apply submit_run_Ok in H as [Hcan H].
  assert (∀ idem', answers task pv idem' (Some k) s' rec) as Hans.
  { destruct H as [[-> H]|(Hnone & spec & Hspec & -> & Hget)]; [by intros idem'|].
    intros idem'. eapply submitted_answers; try done.
    - destruct Hinv as [Heq|(? & _ & ? & _)]; [|done]. exfalso.
      apply (f_equal (λ s, length (runs s))) in Heq. simpl in Heq. unfold ins in Heq.
      rewrite length_app in Heq. simpl in Heq. lia.
    - destruct Hinv as [Heq|(? & _ & _ & ? & _)]; [|done]. exfalso.
      apply (f_equal (λ s, length (runs s))) in Heq. simpl in Heq. unfold ins in Heq.
      rewrite length_app in Heq. simpl in Heq. lia.
    - intros r Hr Hk. unfold submit_existing in Hnone.
      destruct (fetchone _ _) as [row|] eqn:E; [by invert_ok|].
      rewrite fetchone_None in E. specialize (E r Hr). by apply bool_decide_eq_false in E.
    - apply (equivalent_refl _ _ d); [by destruct Hcan|done|].
      eapply staged_by_bytes_plain; [|exact Hd]. by apply without_platform_labels_plain. }
  split.
  - intros *. by apply submit_run_existing.
  - intros * Hcan' Hne. eapply submit_run_conflict; [done| |done]. by apply (Hans idem').
Qed.

Lemma submit_run_idempotent_witness :
  snd (submit_run demo_task "other" "1.0" false (Some "key-1") false "r2" "s2" 77 demo_queued)
  = demo_queued.
Proof.
  destruct (demo_submit empty_store) as [[rec|e] s'] eqn:E; [|exfalso; vm_compute in E; discriminate].
  assert (s' = demo_queued) as Hs by (unfold demo_queued; rewrite E; reflexivity).
  destruct (staged_by_bytes s' (without_platform_labels (TaskSpec_primitive demo_task)))
    as [d|] eqn:Ed; [|exfalso; rewrite Hs in Ed; vm_compute in Ed; discriminate].
  destruct (submit_run_idempotent demo_task "main" "1.0" true "key-1" true "r1" "s1" 1000
              empty_store rec s' d) as [H _].
  - apply rtc_refl.
  - exact E.
  - vm_compute. reflexivity.
  - exact Ed.
  - rewrite <-Hs. rewrite H. reflexivity.
Defined.
