(* ===== verification/StoreReclaim.v ===== *)
(** * Expired leases

    [reclaim_expired_attempts] with nobody interfering marks exactly the expired
    attempts whose process is gone, gives their reservations back and settles
    their runs: back to the queue when the capability can resume and the attempt
    budget has room, [LOST] otherwise.  Under interference the guarded UPDATE
    still only takes an attempt that is expired at that moment. *)

From S2P Require Export StoreSubmit.
Open Scope string_scope.
Open Scope list_scope.

(** ** Marking *)

Definition mark (reference : Z) (r : AttemptRow) : AttemptRow :=
  attempt_ended A_LOST reference (a_exit_code r) (Some lease_failure) (a_cpu_seconds r)
                (a_peak_memory_bytes r) (a_peak_processes r) r.

Lemma reclaim_attempt_quiet fence reference a run_id s :
  store_ok s → a ∈ attempts s → lease_expired reference a = true → fence a = true →
  reclaim_attempt fence id reference (a, run_id) s =
    (Ok (Some (a_attempt_id a, run_id)),
     on_reservations (del (is_reservation (a_attempt_id a)))
       (on_attempts (upd (λ r, is_attempt (a_attempt_id a) r && lease_expired reference r)
                         (mark reference)) s)).
Proof.
  intros Hok Ha He Hf. unfold reclaim_attempt. rewrite Hf. cbn [negb]. rewrite bind_run.
  unfold modify at 1, id at 1. rewrite bind_run. unfold gets, id. rewrite bind_run.
  assert (rowcount (λ r, is_attempt (a_attempt_id a) r && lease_expired reference r)
            (attempts s) = 1%nat) as ->; [|done].
  pose proof (expired_once s a reference Hok) as Hle. unfold rowcount in *.
  assert (a ∈ sel (λ r, is_attempt (a_attempt_id a) r && lease_expired reference r) (attempts s)) as Hin.
  { apply elem_of_sel. split; [done|]. unfold is_attempt. by rewrite bool_decide_true. }
  destruct (sel _ _) as [|x l]; [by apply not_elem_of_nil in Hin|]. simpl in *. lia.
Qed.

(** The identifiers of the rows whose process is gone. *)
Definition fenced (fence : AttemptRow → bool) (rows : list (AttemptRow * string)) : list string :=
  (λ row, a_attempt_id (fst row)) <$> List.filter (λ row, fence (fst row)) rows.

Record reclaimed (s s' : Store) (reference : Z) (ids : list string) : Prop := {
  rc_ok : store_ok s';
  rc_runs : runs s' = runs s;
  rc_stages : stages s' = stages s;
  rc_events : events s' = events s;
  rc_attempts : ∀ r, r ∈ attempts s →
    (if bool_decide (a_attempt_id r ∈ ids) then mark reference r else r) ∈ attempts s';
  rc_reservations : ∀ v, v ∈ reservations s' → v ∈ reservations s ∧ v_attempt_id v ∉ ids;
  rc_count : ∀ g, rowcount (attempt_of_stage g) (attempts s')
                  = rowcount (attempt_of_stage g) (attempts s) }.

Lemma reclaim_rows fence reference rows s :
  store_ok s → NoDup ((λ row : AttemptRow * string, a_attempt_id (fst row)) <$> rows) →
  (∀ row, row ∈ rows → fst row ∈ attempts s ∧ lease_expired reference (fst row) = true) →
  ∃ outs s', mapM_st (reclaim_attempt fence id reference) rows s = (Ok outs, s') ∧
    omap id outs = (λ row, (a_attempt_id (fst row), snd row))
                     <$> List.filter (λ row, fence (fst row)) rows ∧
    reclaimed s s' reference (fenced fence rows).
Proof.
  revert s. induction rows as [|[a rid] rows IH]; intros s Hok Hnd Hrows.
  { exists [], s. split_and!; [done..|]. constructor; try done.
    intros v Hv. split; [done|apply not_elem_of_nil]. }
  csimpl in Hnd. apply NoDup_cons in Hnd as [Hn Hnd].
  destruct (Hrows (a, rid) ltac:(left)) as [Ha He]. cbn [fst] in *.
  cbn [mapM_st]. rewrite bind_run. destruct (fence a) eqn:Hf.
  2: { unfold reclaim_attempt at 1. rewrite Hf. cbn [negb mret st_ret].
       destruct (IH s Hok Hnd) as (outs & s' & Hm & Ho & Hr); [intros; apply Hrows; by right|].
       exists (None :: outs), s'. rewrite bind_run, Hm. split; [done|].
       unfold fenced. cbn [List.filter fst]. rewrite Hf. by split. }
  rewrite reclaim_attempt_quiet by done. rewrite bind_run.
  set (s1 := on_reservations _ _).
  assert (store_ok s1) as Hok1.
  { pose proof (reclaim_attempt_ok fence id reference (a, rid)) as Hk. eapply Hk; [|exact Hok|].
    - intros s0 H0. by split.
    - by rewrite reclaim_attempt_quiet. }
  assert (∀ r, r ∈ attempts s → (if bool_decide (a_attempt_id r = a_attempt_id a)
            then mark reference r else r) ∈ attempts s1) as Hatt.
  { intros r Hr. apply elem_of_upd. exists r. split; [done|]. unfold is_attempt.
    case_bool_decide as Heq; [|done]. simpl.
    assert (r = a) as -> by (eapply (key_inj a_attempt_id); [apply Hok|done..]). by rewrite He. }
  destruct (IH s1 Hok1 Hnd) as (outs & s' & Hm & Ho & Hr).
  { intros row Hrow. destruct (Hrows row ltac:(by right)) as [Hin Hex]. split; [|done].
    specialize (Hatt _ Hin). rewrite bool_decide_false in Hatt; [done|].
    intros Heq. apply Hn. rewrite <-Heq. by apply (list_elem_of_fmap_2 (λ row, a_attempt_id (fst row))). }
  exists (Some (a_attempt_id a, rid) :: outs), s'. rewrite Hm. unfold fenced in *.
  cbn [List.filter fst]. rewrite Hf. csimpl. split_and!; [done|by rewrite Ho|].
  destruct Hr as [? Hruns Hst Hev Hat Hres Hcount]. constructor; try done.
  - intros r Hin. specialize (Hatt r Hin). case_bool_decide as Heq.
    + specialize (Hat _ Hatt). rewrite bool_decide_false in Hat.
      * rewrite bool_decide_true; [done|]. rewrite Heq. left.
      * cbn [mark attempt_ended a_attempt_id]. rewrite Heq. intros Hin'. apply Hn.
        apply list_elem_of_fmap in Hin' as (row & -> & [Hrow _]%elem_of_sel).
        by apply (list_elem_of_fmap_2 (λ row, a_attempt_id (fst row))).
    + specialize (Hat _ Hatt).
      rewrite (bool_decide_ext _ (a_attempt_id r ∈ (λ row, a_attempt_id row.1) <$>
        List.filter (λ row : AttemptRow * string, fence row.1) rows)); [done|].
      rewrite elem_of_cons. tauto.
  - intros v Hv. destruct (Hres v Hv) as [Hv1 Hnv]. apply elem_of_del in Hv1 as [Hv1 Hne].
    split; [done|]. rewrite not_elem_of_cons. split; [|done].
    unfold is_reservation in Hne. by bool_simpl.
  - intros g. rewrite Hcount. by apply rowcount_upd.
Qed.

(** ** Settling *)

(** The run may continue in its workspace, and has an attempt left. *)
Definition resumes (s : Store) (row : RunRow) (g : StageRow) : bool :=
  s_resumable g
  && match TaskSpec_from_dict (JObj (r_task_spec_json row)) with
     | Ok t => (Z.of_nat (rowcount (attempt_of_stage (s_stage_run_id g)) (attempts s))
                <? max_attempts_of t)%Z
     | Err _ => false
     end.

(** Where a run whose lease expired ends up. *)
Definition settled_status (s : Store) (row : RunRow) (g : StageRow) : RuntimeStatus :=
  if bool_decide (r_status row = RUNNING) && resumes s row g then RETRY_WAIT
  else if run_transition_allowed (r_status row) LOST then LOST
  else r_status row.

Lemma stage_of_run_unique s row g : store_ok s → row ∈ runs s → g ∈ stages s →
  s_run_id g = r_run_id row → s_status g = r_status row.
Proof.
  intros Hok Hrow Hg Hid. destruct (stage_of _ _ (so_runs _ Hok) row Hrow) as (g' & Hg' & Hid' & Hs).
  assert (g' = g) as <-; [|done]. eapply stage_unique_run; eauto using so_runs. congruence.
Qed.

(** [schedule_retry] on a run and its own stage. *)
Lemma schedule_retry_own s row g reason : store_ok s → row ∈ runs s → g ∈ stages s →
  s_run_id g = r_run_id row →
  schedule_retry (r_run_id row) (s_stage_run_id g) reason s =
    if bool_decide (r_status row = RUNNING) then
      (Ok tt, on_runs (upd (is_run (r_run_id row)) (λ r,
                run_with RETRY_WAIT (r_started_at r) (r_ended_at r) (Some reason) r))
              (on_stages (upd (is_stage (s_stage_run_id g)) (restaged RETRY_WAIT)) s))
    else (Err (InvalidTransition "only a running stage"), s).
Proof.
  intros Hok Hrow Hg Hid. unfold schedule_retry, transaction. rewrite bind_run. cbn [gets id].
  rewrite bind_run. unfold lift at 1, id. rewrite (fetch_stage s Hok g Hg). cbn [of_option].
  rewrite bind_run. unfold lift at 1. rewrite (stage_of_run_unique s row g) by done.
  case_bool_decide as Hst; cbn [negb raise_when]; [|done].
  rewrite bind_run. unfold lift at 1. rewrite (fetch_run s Hok row Hrow). cbn [of_option].
  rewrite bind_run. unfold lift at 1. by rewrite Hst.
Qed.

Lemma may_resume_own s row g : store_ok s → row ∈ runs s → g ∈ stages s →
  s_run_id g = r_run_id row →
  _may_resume id (r_run_id row) s =
    if bool_decide (r_status row = RUNNING) && resumes s row g then
      (Ok true, on_runs (upd (is_run (r_run_id row)) (λ r,
                  run_with RETRY_WAIT (r_started_at r) (r_ended_at r)
                    (Some "worker lost its lease; resuming in the same workspace") r))
                (on_stages (upd (is_stage (s_stage_run_id g)) (restaged RETRY_WAIT)) s))
    else (Ok false, s).
Proof.
  intros Hok Hrow Hg Hid. unfold _may_resume. rewrite bind_run. cbn [gets id].
  unfold id. rewrite (fetch_run s Hok row Hrow), (first_stage s row g) by done.
  cbn [mbind option_bind]. unfold resumes.
  destruct (row_loads s Hok row Hrow) as (rec & Hrec & _).
  unfold _run_from_row in Hrec. apply bind_Ok in Hrec as (t & Hspec & _). rewrite Hspec.
  destruct (s_resumable g); cbn [negb andb]; [|by rewrite andb_false_r].
  rewrite bind_run. unfold lift at 1.
  destruct (Z.leb_spec (max_attempts_of t)
    (Z.of_nat (rowcount (attempt_of_stage (s_stage_run_id g)) (attempts s)))) as [Hle|Hlt].
  { rewrite (proj2 (Z.ltb_ge _ _) Hle). by rewrite andb_false_r. }
  rewrite (proj2 (Z.ltb_lt _ _) Hlt), andb_true_r, bind_run. unfold modify, catch.
  rewrite bind_run, (schedule_retry_own s row g) by done. by case_bool_decide.
Qed.

(** A run and its stage, as the queries see them. *)
Definition view (s : Store) (run_id : string) : option RunRow * option StageRow :=
  (fetchone (is_run run_id) (runs s), fetchone (stage_of_run run_id) (stages s)).

Lemma view_change s (P : RunRow → bool) f (Q : StageRow → bool) h run_id other :
  other ≠ run_id →
  (∀ r, r ∈ runs s → P r = true → r_run_id r = run_id ∧ r_run_id (f r) = run_id) →
  (∀ g, g ∈ stages s → Q g = true → s_run_id g = run_id ∧ s_run_id (h g) = run_id) →
  view (on_stages (upd Q h) (on_runs (upd P f) s)) other = view s other.
Proof.
  intros Hne HP HQ. unfold view. simpl. f_equal.
  - rewrite fetchone_upd.
    + destruct (fetchone _ _) as [r|] eqn:E; [|done]. simpl.
      apply fetchone_Some in E as [Hin Hm]. unfold is_run in Hm. bool_simpl.
      destruct (P r) eqn:HPr; [|done]. destruct (HP r Hin HPr). congruence.
    + intros r Hr HPr. destruct (HP r Hr HPr) as [H1 H2]. unfold is_run. by rewrite H1, H2.
  - rewrite fetchone_upd.
    + destruct (fetchone _ (stages s)) as [g|] eqn:E; [|done]. simpl.
      apply fetchone_Some in E as [Hin Hm]. unfold stage_of_run in Hm. bool_simpl.
      destruct (Q g) eqn:HQg; [|done]. destruct (HQ g Hin HQg). congruence.
    + intros g Hg HQg. unfold stage_of_run. destruct (HQ g Hg HQg) as [H1 H2]. by rewrite H1, H2.
Qed.

Lemma settle_lost_own now s row g : store_ok s → row ∈ runs s → g ∈ stages s →
  s_run_id g = r_run_id row →
  ∃ s', settle_lost id now (r_run_id row) s = (Ok tt, s') ∧ store_ok s' ∧
    attempts s' = attempts s ∧ reservations s' = reservations s ∧
    (∃ row', fetchone (is_run (r_run_id row)) (runs s') = Some row' ∧
             r_status row' = settled_status s row g) ∧
    (∀ other, other ≠ r_run_id row → view s' other = view s other) ∧
    (∀ r, r_run_id r ≠ r_run_id row → r ∈ runs s' ↔ r ∈ runs s).
Proof.
  intros Hok Hrow Hg Hid. destruct (settle_lost id now (r_run_id row) s) as [u s'] eqn:H.
  assert (store_ok s') as Hok'.
  { eapply settle_lost_wb; [|exact Hok|exact H]. intros s0 H0. by split. }
  unfold settle_lost in H. rewrite bind_run, (may_resume_own s row g) in H by done.
  unfold settled_status. destruct (bool_decide _ && resumes s row g).
  { injection H as <- <-. eexists. split_and!; try done.
    - eexists. simpl. rewrite fetch_run_upd by done. unfold is_run. by rewrite bool_decide_true.
    - intros other Hne. rewrite on_runs_stages. apply (view_change _ _ _ _ _ (r_run_id row)); [done| |].
      + intros r _ Hr. unfold is_run in Hr. by bool_simpl.
      + intros g' Hg' Hm. unfold is_stage in Hm. bool_simpl.
        assert (g' = g) as ->; [|done]. by apply (stage_unique _ _ (so_runs _ Hok)).
    - intros r Hne. apply (runs_upd_other s); [done| |done]. unfold is_run. by apply bool_decide_false. }
  unfold catch in H. destruct (transition_run _ _ _ _ s) as [v s1] eqn:Ht.
  destruct v as [[]|e].
  - injection H as <- <-. pose proof (transition_run_Ok _ _ _ _ _ _ _ Ht) as (row0 & Hf & Hcase).
    rewrite (fetch_run s Hok row Hrow) in Hf. injection Hf as <-.
    exists s1. destruct Hcase as [[Hst ->]|[Hall ->]].
    { rewrite Hst. split_and!; try done. exists row. by rewrite (fetch_run s Hok row Hrow). }
    rewrite Hall. split_and!; try done.
    + eexists. simpl. rewrite fetch_run_upd by done. unfold is_run. by rewrite bool_decide_true.
    + intros other Hne. apply (view_change _ _ _ _ _ (r_run_id row)); [done| |].
      * intros r _ Hr. unfold is_run in Hr. by bool_simpl.
      * intros g' _ Hm. unfold settles, stage_of_run in Hm. by bool_simpl.
    + intros r Hne. apply (runs_upd_other s); [done| |done]. unfold is_run. by apply bool_decide_false.
  - assert (e = InvalidTransition "run" ∧ run_transition_allowed (r_status row) LOST = false) as [-> Hna].
    { unfold transition_run, transaction in Ht. rewrite !bind_run in Ht. run_st Ht.
      rewrite (fetch_run s Hok row Hrow) in Ht. cbn [of_option] in Ht. case_bool_decide; [done|].
      destruct (run_transition_allowed _ _); [done|]. cbn [negb raise_when] in Ht. by simplify_eq. }
    apply transaction_Err in Ht as ->. simpl in H. injection H as <- <-. exists s. rewrite Hna.
    split_and!; try done. exists row. by rewrite (fetch_run s Hok row Hrow).
Qed.

Lemma settled_status_attempts s s1 row g :
  attempts s1 = attempts s → settled_status s1 row g = settled_status s row g.
Proof. intros H. unfold settled_status, resumes. by rewrite H. Qed.

Lemma view_rows s s1 row g : store_ok s → row ∈ runs s → g ∈ stages s → s_run_id g = r_run_id row →
  view s1 (r_run_id row) = view s (r_run_id row) → row ∈ runs s1 ∧ g ∈ stages s1.
Proof.
  intros Hok Hrow Hg Hid Hv. unfold view in Hv.
  rewrite (fetch_run s Hok row Hrow), (first_stage s row g) in Hv by done.
  injection Hv as Hr Hs. apply fetchone_Some in Hr as [Hr _], Hs as [Hs _]. done.
Qed.

Lemma settle_all now ids s : store_ok s → NoDup ids →
  (∀ i, i ∈ ids → ∃ row, row ∈ runs s ∧ r_run_id row = i) →
  ∃ us s', mapM_st (settle_lost id now) ids s = (Ok us, s') ∧ store_ok s' ∧
    attempts s' = attempts s ∧ reservations s' = reservations s ∧
    (∀ row g, row ∈ runs s → g ∈ stages s → s_run_id g = r_run_id row → r_run_id row ∈ ids →
       ∃ row', fetchone (is_run (r_run_id row)) (runs s') = Some row' ∧
               r_status row' = settled_status s row g) ∧
    (∀ other, other ∉ ids → view s' other = view s other) ∧
    (∀ r, r_run_id r ∉ ids → r ∈ runs s' ↔ r ∈ runs s).
Proof.
  revert s. induction ids as [|i ids IH]; intros s Hok Hnd Hids.
  { exists [], s. split_and!; try done. intros row g _ _ _ H. by apply not_elem_of_nil in H. }
  apply NoDup_cons in Hnd as [Hn Hnd]. destruct (Hids i ltac:(left)) as (row & Hrow & <-).
  destruct (stage_of _ _ (so_runs _ Hok) row Hrow) as (g & Hg & Hgid & _).
  destruct (settle_lost_own now s row g Hok Hrow Hg Hgid)
    as (s1 & H1 & Hok1 & Ha1 & Hv1 & Hself & Hview & Hothers).
  destruct (IH s1 Hok1 Hnd) as (us & s' & H2 & Hok2 & Ha2 & Hv2 & Hst2 & Hview2 & Hothers2).
  { intros j Hj. destruct (Hids j ltac:(by right)) as (rowj & Hrj & <-). exists rowj.
    split; [|done]. apply Hothers; [|done]. congruence. }
  exists (tt :: us), s'. cbn [mapM_st]. rewrite bind_run, H1, bind_run, H2.
  split_and!; [done|done|congruence|congruence| | |].
  - intros row0 g0 Hr0 Hg0 Hid0 Hin. apply elem_of_cons in Hin as [Heq|Hin].
    + assert (row0 = row) as -> by by apply (run_unique _ _ (so_runs _ Hok)).
      assert (g0 = g) as -> by (apply (stage_unique_run _ _ (so_runs _ Hok)); congruence).
      assert (view s' (r_run_id row) = view s1 (r_run_id row)) as Hv by by apply Hview2.
      unfold view in Hv. injection Hv as -> _. exact Hself.
    + assert (r_run_id row0 ≠ r_run_id row) as Hne by congruence.
      destruct (view_rows s s1 row0 g0) as [Hr1 Hg1]; [done..|by apply Hview|].
      destruct (Hst2 row0 g0 Hr1 Hg1 Hid0 Hin) as (row' & Hf & Hs). exists row'. split; [done|].
      by rewrite Hs, (settled_status_attempts s s1).
  - intros other Ho. apply not_elem_of_cons in Ho as [Hne Ho].
    rewrite Hview2 by done. by apply Hview.
  - intros r Hr. apply not_elem_of_cons in Hr as [Hne Hr]. rewrite Hothers2 by done. by apply Hothers.
Qed.

(** ** The rows the query returns *)

Lemma expired_rows_spec s reference : store_ok s →
  (λ row : AttemptRow * string, a_attempt_id (fst row)) <$> expired_rows reference s
    = a_attempt_id <$> sel (lease_expired reference) (attempts s) ∧
  (∀ a i, (a, i) ∈ expired_rows reference s ↔
     a ∈ attempts s ∧ lease_expired reference a = true ∧
     ∃ g, g ∈ stages s ∧ s_stage_run_id g = a_stage_run_id a ∧ s_run_id g = i).
Proof.
  intros Hok.
  assert (∀ a, a ∈ sel (lease_expired reference) (attempts s) → ∃ g, g ∈ stages s ∧
    fetchone (is_stage (a_stage_run_id a)) (stages s) = Some g ∧
    s_stage_run_id g = a_stage_run_id a) as Hst.
  { intros a [Ha _]%elem_of_sel. destruct Hok as [Hr [_ Hs _ _] _]. rewrite Forall_forall in Hs.
    specialize (Hs a Ha). apply list_elem_of_fmap in Hs as (g & Heq & Hg). exists g.
    rewrite Heq. split_and!; [done| |done]. apply fetchone_unique; [apply Hr|done]. }
  split.
  - unfold expired_rows. induction (sel _ _) as [|a l IH]; [done|]. csimpl.
    destruct (Hst a ltac:(left)) as (g & _ & -> & _). csimpl. f_equal. apply IH.
    intros a' Ha'. apply Hst. by right.
  - intros a i. unfold expired_rows. rewrite list_elem_of_omap. split.
    + intros (a0 & Ha0 & Hf). destruct (Hst a0 Ha0) as (g & Hg & Hgf & Hgid). rewrite Hgf in Hf.
      injection Hf as -> <-. apply elem_of_sel in Ha0 as [? ?]. eauto 10.
    + intros (Ha & He & g & Hg & Hid & <-). exists a.
      assert (a ∈ sel (lease_expired reference) (attempts s)) as Hin by by apply elem_of_sel.
      split; [done|]. destruct (Hst a Hin) as (g' & Hg' & Hgf & Hgid). rewrite Hgf. simpl.
      assert (g' = g) as ->; [|done]. eapply stage_unique; eauto using so_runs. congruence.
Qed.

Lemma sorted_set_spec l : NoDup (sorted_set l) ∧ ∀ x, x ∈ sorted_set l ↔ x ∈ l.
Proof.
  unfold sorted_set. pose proof (merge_sort_Permutation String.le (remove_dups l)) as Hp. split.
  - rewrite Hp. apply NoDup_remove_dups.
  - intros x. rewrite Hp. apply elem_of_remove_dups.
Qed.

(** ** The whole operation *)

Lemma fenced_ids s fence reference a : store_ok s → a ∈ attempts s →
  a_attempt_id a ∈ fenced fence (expired_rows reference s) ↔
  lease_expired reference a = true ∧ fence a = true.
Proof.
  intros Hok Ha. destruct (expired_rows_spec s reference Hok) as [_ Hrows]. unfold fenced.
  rewrite list_elem_of_fmap. split.
  - intros ([a' i] & Heq & Hin). apply (elem_of_sel (λ row, fence row.1)) in Hin as [Hin Hf].
    apply Hrows in Hin as (Ha' & He & _). cbn [fst] in *.
    assert (a = a') as -> by (eapply (key_inj a_attempt_id); [apply Hok|done..]). done.
  - intros [He Hf]. pose proof (ao_stage _ _ (so_attempts _ Hok)) as Hs. rewrite Forall_forall in Hs.
    specialize (Hs a Ha). apply list_elem_of_fmap in Hs as (g & Heq & Hg).
    exists (a, s_run_id g). split; [done|]. apply (elem_of_sel (λ row, fence row.1)).
    split; [|done]. apply Hrows. eauto 10.
Qed.

(** C12. Reclaiming marks LOST exactly the attempts whose lease expired and whose
    process the fence confirmed dead, frees their reservations, leaves every other
    attempt and run alone, and resumes a run with a resumable stage and attempts left,
    else settles it. *)
Theorem reclaim_expired_attempts_spec s fence reference now : reachable s →
  ∃ ids s', reclaim_expired_attempts fence id reference now s = (Ok ids, s') ∧
  (∀ a, a ∈ attempts s →
     (a_attempt_id a ∈ ids ↔ lease_expired reference a = true ∧ fence a = true)) ∧
  (∀ a, a ∈ attempts s → a_attempt_id a ∈ ids → mark reference a ∈ attempts s') ∧
  (∀ a, a ∈ attempts s → a_attempt_id a ∉ ids → a ∈ attempts s') ∧
  (∀ v, v ∈ reservations s' → v ∈ reservations s ∧ v_attempt_id v ∉ ids) ∧
  (∀ a g row, a ∈ attempts s → a_attempt_id a ∈ ids → g ∈ stages s → row ∈ runs s →
     s_stage_run_id g = a_stage_run_id a → r_run_id row = s_run_id g →
     ∃ row', fetchone (is_run (r_run_id row)) (runs s') = Some row' ∧
             r_status row' = settled_status s row g) ∧
  (∀ row, row ∈ runs s →
     (∀ a g, a ∈ attempts s → a_attempt_id a ∈ ids → g ∈ stages s →
        s_stage_run_id g = a_stage_run_id a → r_run_id row ≠ s_run_id g) →
     row ∈ runs s').
Proof.
  intros Hok%reachable_ok. destruct (expired_rows_spec s reference Hok) as [Hkeys Hrows].
  destruct (reclaim_rows fence reference (expired_rows reference s) s Hok)
    as (outs & s1 & Hm & Hout & [Hok1 Hr1 Hg1 _ Hat Hres Hcount]).
  { rewrite Hkeys. apply NoDup_fmap_sel, Hok. }
  { intros [a i] Hin. apply Hrows in Hin as (? & ? & _). done. }
  set (run_ids := sorted_set (snd <$> omap id outs)).
  assert (∀ i, i ∈ run_ids ↔ ∃ a, (a, i) ∈ expired_rows reference s ∧ fence a = true) as Hids.
  { intros i. unfold run_ids. rewrite (proj2 (sorted_set_spec _)), Hout, list_elem_of_fmap. split.
    - intros ([x y] & -> & Hx). apply list_elem_of_fmap in Hx as ([a j] & [= -> ->] & Hin).
      apply (elem_of_sel (λ row, fence row.1)) in Hin as [Hin Hf]. by exists a.
    - intros (a & Hin & Hf). exists (a_attempt_id a, i). split; [done|].
      apply list_elem_of_fmap. exists (a, i). split; [done|].
      by apply (elem_of_sel (λ row, fence row.1)). }
  destruct (settle_all now run_ids s1 Hok1) as (us & s' & Hsm & Hok' & Ha' & Hv' & Hst & _ & Hoth).
  { apply sorted_set_spec. }
  { intros i (a & Hin & _)%Hids. apply Hrows in Hin as (_ & _ & g & Hg & _ & <-).
    destruct (run_of_stage _ _ (so_runs _ Hok) g Hg) as (row & Hrow & Hid & _).
    exists row. by rewrite Hr1. }
  exists (fenced fence (expired_rows reference s)), s'. split_and!.
  - unfold reclaim_expired_attempts. rewrite bind_run. cbn [gets]. rewrite bind_run, Hm.
    unfold iterM_st. rewrite !bind_run. fold run_ids. rewrite Hsm. cbn [mret st_ret].
    rewrite Hout. unfold fenced. by rewrite <-list_fmap_compose.
  - intros a Ha. by apply fenced_ids.
  - intros a Ha Hin. specialize (Hat a Ha). rewrite bool_decide_true in Hat by done. by rewrite Ha'.
  - intros a Ha Hin. specialize (Hat a Ha). rewrite bool_decide_false in Hat by done. by rewrite Ha'.
  - intros v. rewrite Hv'. apply Hres.
  - intros a g row Ha Hin Hg Hrow Hgid Hid.
    destruct (Hst row g) as (row' & Hf & Hs); [by rewrite Hr1|by rewrite Hg1|done| |].
    + apply Hids. exists a. apply fenced_ids in Hin as [He Hf]; [|done..]. split; [|done].
      apply Hrows. eauto 10.
    + exists row'. split; [done|]. rewrite Hs. unfold settled_status, resumes. by rewrite Hcount.
  - intros row Hrow Hnone. apply Hoth; [|by rewrite Hr1].
    intros (a & Hin & Hf)%Hids. apply Hrows in Hin as (Ha & He & g & Hg & Hgid & Hid).
    apply (Hnone a g); try done. by apply fenced_ids.
Qed.

Lemma reclaim_expired_attempts_spec_witness :
  ∃ s', reclaim_expired_attempts (λ _, true) id 99000000 99000001 demo_running
        = (Ok ["attempt-a1"], s') ∧ r_status <$> runs s' = [RETRY_WAIT].
Proof.
  destruct (reclaim_expired_attempts_spec demo_running (λ _, true) 99000000 99000001
              demo_running_reachable) as (ids & s' & H & _ & _ & _ & _ & Hrun & _).
  vm_compute in H. injection H as <- <-. eexists. split; vm_compute; reflexivity.
Defined.

(** ** Under interference *)

(** C13. Whatever other connections commit between the query and the update, an
    attempt whose lease was renewed or that settled is left alone, and one still
    expired is marked LOST and loses its reservation. *)
Theorem reclaim_is_guarded s others fence reference a run_id a' : reachable s →
  (∀ s, rtc store_step s (others s)) → fence a = true →
  a' ∈ attempts (others s) → a_attempt_id a' = a_attempt_id a →
  let '(result, s') := reclaim_attempt fence others reference (a, run_id) s in
  (* renewed, settled or otherwise no longer expired: left alone *)
  (lease_expired reference a' = false → result = Ok None ∧ s' = others s) ∧
  (lease_expired reference a' = true →
     result = Ok (Some (a_attempt_id a, run_id)) ∧ mark reference a' ∈ attempts s' ∧
     has_row (is_reservation (a_attempt_id a)) (reservations s') = false).
Proof.
  intros Hok%reachable_ok Hoth Hf Ha' Hid.
  destruct (history_harmless others Hoth s Hok) as [Hok' _].
  assert (∀ r, r ∈ attempts (others s) → is_attempt (a_attempt_id a) r = true → r = a') as Huniq.
  { intros r Hr Hm. unfold is_attempt in Hm. bool_simpl.
    eapply (key_inj a_attempt_id); [apply Hok'|done..|congruence]. }
  unfold reclaim_attempt. rewrite Hf. cbn [negb]. rewrite bind_run. unfold modify at 1.
  rewrite bind_run. unfold gets, id. rewrite bind_run. unfold modify at 1.
  destruct (lease_expired reference a') eqn:He.
  - assert (rowcount (λ r, is_attempt (a_attempt_id a) r && lease_expired reference r)
              (attempts (others s)) = 1%nat) as ->.
    { pose proof (expired_once (others s) a reference Hok') as Hle. unfold rowcount in *.
      assert (a' ∈ sel (λ r, is_attempt (a_attempt_id a) r && lease_expired reference r)
                     (attempts (others s))) as Hin.
      { apply elem_of_sel. split; [done|]. unfold is_attempt. by rewrite Hid, bool_decide_true. }
      destruct (sel _ _) as [|x l]; [by apply not_elem_of_nil in Hin|]. simpl in *. lia. }
    simpl. split; [done|]. intros _. split_and!; [done| |].
    + apply elem_of_upd. exists a'. split; [done|]. unfold is_attempt.
      by rewrite Hid, bool_decide_true, He.
    + apply has_row_false. by intros v [_ Hv]%elem_of_del.
  - assert (∀ r, r ∈ attempts (others s) →
      is_attempt (a_attempt_id a) r && lease_expired reference r = false) as Hnone.
    { intros r Hr. destruct (is_attempt (a_attempt_id a) r) eqn:E; [|done].
      by rewrite (Huniq r Hr E). }
    rewrite (rowcount_none _ _ Hnone). simpl. split; [|done]. intros _. split; [done|].
    unfold on_attempts. rewrite upd_none by done. by destruct (others s).
Qed.

(** A worker that heartbeats after the query keeps its attempt. *)
Lemma reclaim_is_guarded_witness :
  let others := λ s, if bool_decide (s_stage_run_id <$> stages s = ["stage-s1"])
                     then snd (heartbeat id "attempt-a1" "worker-1" 30 90000000 s) else s in
  fst (reclaim_attempt (λ _, true) others 99000000
         (new_attempt "attempt-a1" "stage-s1" 1 "/work/1" "worker-1" 30 2000, "run-r1") demo_running)
  = Ok None.
Proof.
  intros others. destruct (attempts (others demo_running)) as [|a' l] eqn:E;
    [exfalso; vm_compute in E; discriminate|].
  pose proof (reclaim_is_guarded demo_running others (λ _, true) 99000000
    (new_attempt "attempt-a1" "stage-s1" 1 "/work/1" "worker-1" 30 2000) "run-r1" a'
    demo_running_reachable) as H.
  destruct (reclaim_attempt _ _ _ _ _) as [r s'] eqn:Er. apply H.
  - intros s. unfold others. case_bool_decide; [|apply rtc_refl].
    eapply rtc_once, (step_heartbeat _ id); [|apply surjective_pairing]. intros ? ?; split; done.
  - reflexivity.
  - rewrite E. left.
  - vm_compute in E. injection E as <- <-. reflexivity.
  - vm_compute in E. injection E as <- <-. reflexivity.
Defined.
