(* ===== verification/StoreQueue.v ===== *)
(** * The claim queries

    What [runnable_runs] lists can be claimed, and nothing that waits is missing;
    what [abandoned_cancellations] lists has no process behind it and can be
    cancelled. *)

From S2P Require Export StoreReclaim.
Open Scope string_scope.
Open Scope list_scope.

(** A claim without a reservation. *)
Lemma start_attempt_unreserved s g w ws lease hex now : store_ok s → g ∈ stages s →
  status_in [QUEUED; RETRY_WAIT] (s_status g) = true →
  (0 < lease)%Z → has_row (is_attempt (_new_id "attempt" hex)) (attempts s) = false →
  ∃ a s', start_attempt (s_stage_run_id g) w ws lease None None None default_fraction hex now s
          = (Ok (Some a), s') ∧ at_stage_run_id a = s_stage_run_id g.
Proof.
  intros Hok Hg Hst Hl Hf. unfold start_attempt. rewrite bind_run.
  rewrite (proj2 (Z.leb_gt _ _) Hl). cbn [lift raise_when].
  unfold transaction_opt, lift, gets. rewrite !bind_run. cbn [id].
  rewrite (fetch_stage s Hok g Hg). cbn [of_option]. rewrite bind_run.
  rewrite Hst. cbn [negb raise_when]. rewrite bind_run, insert_attempt_fresh; [|done|done| |done].
  2: { apply has_row_true. exists g. split; [done|]. by apply bool_decide_eq_true. }
  eexists _, _. split; [reflexivity|]. done.
Qed.

Lemma runnable_iff s row : store_ok s → row ∈ runs s →
  runnable s row = true ↔ r_status row = QUEUED ∨ r_status row = RETRY_WAIT.
Proof.
  intros Hok Hrow. unfold runnable. rewrite andb_true_iff, has_row_true. split.
  - intros [_ (g & Hg & Hm)]. apply andb_true_iff in Hm as [Hid Hst].
    unfold stage_of_run in Hid. apply bool_decide_eq_true in Hid, Hst.
    rewrite (stage_of_run_unique s row g) in Hst by done. rewrite !elem_of_cons in Hst.
    destruct Hst as [|[|[]%not_elem_of_nil]]; auto.
  - intros Hst. split.
    + apply bool_decide_eq_true. rewrite !elem_of_cons. tauto.
    + destruct (stage_of _ _ (so_runs _ Hok) row Hrow) as (g & Hg & Hid & Hs).
      exists g. split; [done|]. apply andb_true_iff. split; apply bool_decide_eq_true; [done|].
      rewrite Hs, !elem_of_cons. tauto.
Qed.

(** Every run the claim query lists can be started by a worker that reserves nothing,
    the page keeps its bound, and a first page that is large enough lists exactly the
    queued and retry-waiting runs. *)
Theorem runnable_runs_claimable s limit offset ids : reachable s →
  runnable_runs limit offset s = Ok ids →
  (* every listed run can be claimed by a worker that reserves nothing *)
  (∀ i, i ∈ ids → ∃ g, list_stages i s = [g] ∧
     ∀ w ws lease hex now, (0 < lease)%Z →
       has_row (is_attempt (_new_id "attempt" hex)) (attempts s) = false →
       ∃ a s', start_attempt (s_stage_run_id g) w ws lease None None None default_fraction hex now s
               = (Ok (Some a), s')) ∧
  (* the page is not longer than asked for, and the whole queue is the set of
     waiting runs *)
  (Z.of_nat (length ids) ≤ limit)%Z ∧
  (offset = 0%Z → (Z.of_nat (rowcount (runnable s) (runs s)) ≤ limit)%Z →
   ∀ row, row ∈ runs s → (r_run_id row ∈ ids ↔ r_status row = QUEUED ∨ r_status row = RETRY_WAIT)).
Proof.
  intros Hok%reachable_ok H. unfold runnable_runs in H. invert_ok. bool_simpl.
  rewrite Z.leb_le, ?Z.ltb_ge in *. unfold limit_offset. split_and!.
  - intros i (row & -> & Hin)%list_elem_of_fmap.
    assert (row ∈ sel (runnable s) (runs s)) as [Hrow Hrun]%elem_of_sel.
    { rewrite <-(elem_of_order_by r_created_at). eapply elem_of_drop_in, elem_of_take_in. exact Hin. }
    destruct (one_stage s Hok row Hrow) as (g & Hsel & Hid & Hs). exists g.
    unfold list_stages. rewrite Hsel. split; [done|]. intros * Hl Hf.
    assert (g ∈ sel (stage_of_run (r_run_id row)) (stages s)) as [Hg _]%elem_of_sel
      by (rewrite Hsel; left).
    destruct (start_attempt_unreserved s g w ws lease hex now Hok Hg) as (a & s' & ? & _); [|done..|eauto].
    apply bool_decide_eq_true. rewrite Hs. apply runnable_iff in Hrun; [|done..].
    rewrite !elem_of_cons. tauto.
  - rewrite length_fmap, length_take. lia.
  - intros -> Hcount row Hrow. rewrite drop_0, take_ge.
    + rewrite list_elem_of_fmap, <-(runnable_iff s row) by done. split.
      * intros (row' & Hid & Hin). apply elem_of_order_by, elem_of_sel in Hin as [Hr' Hrun].
        assert (row = row') as ->; [|done]. eapply run_unique; eauto using so_runs.
      * intros Hrun. exists row. split; [done|]. by apply elem_of_order_by, elem_of_sel.
    + rewrite (Permutation_length (order_by_perm r_created_at _)). unfold rowcount in *. lia.
Qed.

Lemma runnable_runs_claimable_witness :
  runnable_runs 50 0 demo_queued = Ok ["run-r1"] ∧ (Z.of_nat (length ["run-r1"]) ≤ 50)%Z.
Proof.
  split; [vm_compute; reflexivity|].
  apply (runnable_runs_claimable demo_queued 50 0 ["run-r1"] demo_queued_reachable).
  vm_compute. reflexivity.
Defined.

(** A run listed as an abandoned cancellation has no running attempt and can be moved
    to CANCELLED, and no such run is missing from a page that is large enough. *)
Theorem abandoned_cancellations_spec s limit ids now : reachable s →
  abandoned_cancellations limit s = Ok ids →
  (∀ i, i ∈ ids → ∃ row, fetchone (is_run i) (runs s) = Some row ∧
     r_status row = CANCEL_REQUESTED ∧
     (∀ a g, a ∈ attempts s → g ∈ stages s → s_stage_run_id g = a_stage_run_id a →
        s_run_id g = i → a_status a ≠ A_RUNNING) ∧
     fst (transition_run i CANCELLED None now s) = Ok tt) ∧
  (∀ row, row ∈ runs s → r_status row = CANCEL_REQUESTED →
     has_running_attempt (r_run_id row) s = false →
     (Z.of_nat (rowcount (λ r, bool_decide (r_status r = CANCEL_REQUESTED)) (runs s)) ≤ limit)%Z →
     r_run_id row ∈ ids).
Proof.
  intros Hr H. pose proof (reachable_ok s Hr) as Hok. unfold abandoned_cancellations in H.
  invert_ok. bool_simpl. rewrite Z.leb_le in *. unfold limit_offset. split.
  - intros i (row & -> & Hin)%list_elem_of_fmap.
    apply (elem_of_sel (λ r, negb (has_running_attempt (r_run_id r) s))) in Hin as [Hin Hrun].
    apply elem_of_take_in, elem_of_drop_in, elem_of_order_by, elem_of_sel in Hin as [Hrow Hst].
    bool_simpl. exists row. split_and!; [by apply fetch_run|done| |].
    + intros a g Ha Hg Hgid Hid Hs. unfold has_running_attempt in Hrun.
      rewrite has_row_false in Hrun. specialize (Hrun a Ha). apply andb_false_iff in Hrun as [Hn|Hn].
      * unfold attempt_running in Hn. by bool_simpl.
      * rewrite has_row_false in Hn. specialize (Hn g Hg). unfold is_stage, stage_of_run in Hn.
        by rewrite !bool_decide_true in Hn.
    + pose proof (transition_run_cases s row CANCELLED None now Hok Hrow) as Ht.
      destruct (transition_run _ _ _ _ _) as [v s']. destruct Ht as (_ & _ & Ht).
      rewrite Hst in Ht. destruct Ht as [-> _]; done.
  - intros row Hrow Hst Hrun Hcount. apply list_elem_of_fmap. exists row. split; [done|].
    apply (elem_of_sel (λ r, negb (has_running_attempt (r_run_id r) s))). rewrite Hrun.
    split; [|done]. rewrite drop_0, take_ge.
    + apply elem_of_order_by, elem_of_sel. split; [done|]. by apply bool_decide_eq_true.
    + rewrite (Permutation_length (order_by_perm r_created_at _)). unfold rowcount in *. lia.
Qed.

Definition demo_cancelled : Store := snd (request_cancel id "run-r1" 1500 demo_queued).

Lemma demo_cancelled_reachable : reachable demo_cancelled.
Proof.
  eapply rtc_r; [apply demo_queued_reachable|].
  eapply (step_cancel _ id); [|apply surjective_pairing]. by intros s H.
Qed.

Lemma abandoned_cancellations_spec_witness :
  fst (transition_run "run-r1" CANCELLED None 1600 demo_cancelled) = Ok tt.
Proof.
  destruct (abandoned_cancellations_spec demo_cancelled 50 ["run-r1"] 1600 demo_cancelled_reachable)
    as [H _]; [vm_compute; reflexivity|].
  destruct (H "run-r1" ltac:(left)) as (row & _ & _ & _ & Ht). exact Ht.
Defined.
