(* ===== verification/Observer.v ===== *)
(** * runtime/observer.py: ProgressObserver

    One attempt's output, line by line.  The observer keeps the stages it has
    announced and finished and counts malformed envelopes; the store gets at most
    one event of each kind per stage.  The [downstream] callback, a consumer of the
    raw line, is left out. *)

From S2P Require Export StoreSteps.
Open Scope string_scope.
Open Scope list_scope.

Record Observer := MkObserver {
  o_run_id : string;
  o_stage_run_id : string;
  o_attempt_id : string;
  o_marker : string;
  o_producer : string;
  o_started : list string;
  o_finished : list string;
  o_malformed : Z }.

(** The observer and the store it writes to. *)
Record Observed := MkObserved { ob : Observer; ob_store : Store }.

Definition new_observer (run_id stage_run_id attempt_id marker producer : string) : Observer :=
  MkObserver run_id stage_run_id attempt_id marker producer [] [] 0.

Definition set_started (l : list string) (o : Observer) : Observer :=
  MkObserver (o_run_id o) (o_stage_run_id o) (o_attempt_id o) (o_marker o) (o_producer o)
             l (o_finished o) (o_malformed o).
Definition set_finished (l : list string) (o : Observer) : Observer :=
  MkObserver (o_run_id o) (o_stage_run_id o) (o_attempt_id o) (o_marker o) (o_producer o)
             (o_started o) l (o_malformed o).
Definition add_malformed (o : Observer) : Observer :=
  MkObserver (o_run_id o) (o_stage_run_id o) (o_attempt_id o) (o_marker o) (o_producer o)
             (o_started o) (o_finished o) (o_malformed o + 1).

Definition on_ob (f : Observer → Observer) (w : Observed) : Observed :=
  MkObserved (f (ob w)) (ob_store w).

Definition is_contract_error (e : exn) : bool :=
  match e with ContractError _ => true | _ => false end.

(** [self.store.record_event(...)] with the observer's identifiers. *)
Definition emit (event_type : string) (payload : dict) (hex : string) (now : Z)
    : st Observed unit :=
  λ w, let o := ob w in
       let '(r, s) := record_event (o_run_id o) event_type payload (o_producer o)
                        (Some (o_stage_run_id o)) (Some (o_attempt_id o)) hex now (ob_store w) in
       (_ ← r; Ok tt, MkObserved o s).

Definition finished_payload (stage : string) (r : ProgressReport) : dict :=
  [("stage", JStr stage); ("status", opt_json (pstatus_str <$> pg_status r))]
  ++ (if is_null (pg_seconds r) then [] else [("seconds", pg_seconds r)])
  ++ (if truthy (pg_detail r) then [("detail", pg_detail r)] else []).

#[export] Instance JStr_inj : Inj (=) (=) JStr.
Proof. by intros s t [= ->]. Qed.

Section observer.
(** [json.loads] *)
Context (loads : string → option json).

(** [__call__] *)
Definition observe (line : string * (string * Z)) : st Observed unit :=
  let '(text, (hex, now)) := line in
  w ← gets id;
  match decode_progress_line loads text (o_marker (ob w)) with
  | Err e => if is_contract_error e then modify (on_ob add_malformed) else raise e
  | Ok None => mret tt
  | Ok (Some report) =>
      let stage := str_of (pg_stage report) in
      if bool_decide (pg_phase report = Some PH_STARTED) then
        if bool_decide (stage ∈ o_started (ob w)) then mret tt
        else modify (on_ob (λ o, set_started (o_started o ++ [stage]) o));;
             emit "stage.started" [("stage", JStr stage)] hex now
      else if bool_decide (stage ∈ o_finished (ob w)) then mret tt
      else modify (on_ob (λ o, set_finished (o_finished o ++ [stage]) o));;
           emit "stage.finished" (finished_payload stage report) hex now
  end.

Definition record_summary (hex : string) (now : Z) : st Observed unit :=
  w ← gets id;
  if (0 <? o_malformed (ob w))%Z
  then emit "progress.malformed" [("count", JInt (o_malformed (ob w)));
                                  ("marker", JStr (o_marker (ob w)))] hex now
  else mret tt.

(** ** At most one event of a kind per stage *)

(** The stages the events of one type name. *)
Definition stages_named (ty : string) (es : list EventRow) : list json :=
  omap (λ e, if bool_decide (e_event_type e = ty)
             then Some (get_null "stage" (e_payload_json e)) else None) es.

Definition observed_ok (es0 : list EventRow) (w : Observed) : Prop :=
  ∃ es, events (ob_store w) = es0 ++ es ∧
    NoDup (o_started (ob w)) ∧ NoDup (o_finished (ob w)) ∧
    stages_named "stage.started" es `sublist_of` (JStr <$> o_started (ob w)) ∧
    stages_named "stage.finished" es `sublist_of` (JStr <$> o_finished (ob w)).

Lemma emit_run ty payload hex now w r w' : emit ty payload hex now w = (r, w') →
  ob w' = ob w ∧
  (events (ob_store w') = events (ob_store w) ∨
   ∃ e, e_event_type e = ty ∧ e_payload_json e = payload ∧
        events (ob_store w') = events (ob_store w) ++ [e]).
Proof.
  unfold emit, record_event, insert_event. rewrite !bind_run, constraint_run.
  destruct (negb _); intros [= <- <-]; simpl; [split; [done|right]|by split; [|left]].
  eexists. split_and!; [| |reflexivity]; done.
Qed.

Lemma stages_named_app ty es es' :
  stages_named ty (es ++ es') = stages_named ty es ++ stages_named ty es'.
Proof. apply omap_app. Qed.

Lemma NoDup_snoc {A} (l : list A) x : NoDup l → x ∉ l → NoDup (l ++ [x]).
Proof.
  intros Hl Hx. apply NoDup_app. split; [done|]. split; [|apply NoDup_singleton].
  by intros y Hy ->%list_elem_of_singleton.
Qed.

Lemma observe_ok es0 line : keeps (observed_ok es0) (observe line).
Proof.
  destruct line as [text [hex now]]. intros w r w' (es & He & Hs & Hf & Hss & Hsf) H.
  unfold observe in H. rewrite bind_run in H. cbn [gets id] in H.
  assert (observed_ok es0 w) as Hw by (exists es; by split_and!).
  destruct (decode_progress_line _ _ _) as [[report|]|e].
  - set (stage := str_of _) in *. case_bool_decide as Hph.
    + case_bool_decide as Hin; [by injection H as _ <-|].
      rewrite bind_run in H. apply emit_run in H as [Ho Hev]. unfold observed_ok. rewrite Ho. simpl in *.
      rewrite fmap_app. destruct Hev as [-> |(ev & Hty & Hp & ->)]; rewrite He.
      * exists es. split_and!; [done|by apply NoDup_snoc|done| |done].
        etrans; [exact Hss|]. apply sublist_inserts_r. done.
      * exists (es ++ [ev]). rewrite !stages_named_app, app_assoc. unfold stages_named at 2 4. simpl.
        rewrite Hty, Hp. simpl. split_and!; [done|by apply NoDup_snoc|done| |by rewrite app_nil_r].
        by apply sublist_app.
    + case_bool_decide as Hin; [by injection H as _ <-|].
      rewrite bind_run in H. apply emit_run in H as [Ho Hev]. unfold observed_ok. rewrite Ho. simpl in *.
      rewrite fmap_app. destruct Hev as [-> |(ev & Hty & Hp & ->)]; rewrite He.
      * exists es. split_and!; [done|done|by apply NoDup_snoc|done|].
        etrans; [exact Hsf|]. apply sublist_inserts_r. done.
      * exists (es ++ [ev]). rewrite !stages_named_app, app_assoc. unfold stages_named at 2 4. simpl.
        rewrite Hty, Hp. simpl. split_and!; [done|done|by apply NoDup_snoc|by rewrite app_nil_r|].
        by apply sublist_app.
  - by injection H as _ <-.
  - destruct (is_contract_error e); injection H as _ <-; done.
Qed.

(** Whatever lines one attempt prints, the observer appends events only, with at most
    one stage.started and one stage.finished event per stage. *)
Theorem observer_reports_once lines w0 r w : o_started (ob w0) = [] → o_finished (ob w0) = [] →
  mapM_st observe lines w0 = (r, w) →
  ∃ es, events (ob_store w) = events (ob_store w0) ++ es ∧
    NoDup (stages_named "stage.started" es) ∧ NoDup (stages_named "stage.finished" es).
Proof.
  intros Hs Hf H.
  assert (observed_ok (events (ob_store w0)) w) as (es & He & Hns & Hnf & Hss & Hsf).
  { eapply (keeps_mapM (observed_ok _) observe lines); [intros; apply observe_ok| |exact H].
    exists []. rewrite app_nil_r, Hs, Hf. split_and!; try done; constructor. }
  exists es. split_and!; [done| |].
  - eapply sublist_NoDup; [|exact Hss]. by apply (NoDup_fmap_2 JStr).
  - eapply sublist_NoDup; [|exact Hsf]. by apply (NoDup_fmap_2 JStr).
Qed.

End observer.

(** A stand-in for [json.loads] that knows one document. *)
Definition one_document (s : string) : option json :=
  if bool_decide (s = "1") then
    Some (JObj [("stage", JStr "route"); ("phase", JStr "started")])
  else None.

Lemma observer_reports_once_witness :
  ∃ w, mapM_st (observe one_document)
         [("[progress] 1", ("e1", 5%Z)); (" [progress] 1 ", ("e2", 6%Z)); ("log", ("e3", 7%Z))]
         (MkObserved (new_observer "run" "stage" "attempt" "[progress]" "plugin") empty_store)
       = (Ok [tt; tt; tt], w) ∧
       stages_named "stage.started" (events (ob_store w)) = [JStr "route"] ∧
       NoDup (stages_named "stage.started" (events (ob_store w))).
Proof.
  eexists. split; [vm_compute; reflexivity|]. split; [vm_compute; reflexivity|].
  destruct (observer_reports_once one_document
    [("[progress] 1", ("e1", 5%Z)); (" [progress] 1 ", ("e2", 6%Z)); ("log", ("e3", 7%Z))]
    (MkObserved (new_observer "run" "stage" "attempt" "[progress]" "plugin") empty_store)
    _ _ eq_refl eq_refl eq_refl) as (es & He & Hs & _).
  vm_compute in He. subst es. exact Hs.
Defined.
