(* ===== verification/Guardian.v ===== *)
(** * runtime/guardian.py: ProcessGuardian

    One command under a deadline, a resource meter and a cancellation test.  The
    operating system is an argument: [process] says how the child started, what
    each wake-up of the supervisor finds (whether the child is gone, the lines it
    printed, the two clock readings, the measurement), and what happened to the
    state [S] of the callbacks in between.  Clock readings are microseconds.  The
    text of the log file is left out, and signalling a process tree is the walk
    over it, [_process_tree]. *)

From stdpp Require Import gmap.
From S2P Require Export Evidence.
Open Scope string_scope.
Open Scope list_scope.

Definition DRAIN_BATCH : nat := 32.
Definition FINAL_DRAIN_BATCH : nat := 128.
Definition TELEMETRY_QUEUE_SIZE : nat := 256.

Record ProcessOutcome := MkProcessOutcome {
  po_returncode : Z;
  po_timed_out : bool;
  po_cancelled : bool;
  po_exceeded : option string;
  po_cpu_seconds : spec_float;
  po_peak_memory_bytes : Z;
  po_peak_processes : Z }.

(** The tree's process count, CPU seconds and resident bytes. *)
Abbreviation measurement := (Z * spec_float * Z)%type.

(** [value > limit], for a limit that is [None] or a number. *)
Definition above (value : pyreal) (limit : json) : bool :=
  match json_real limit with Some l => real_ltb l value | None => false end.

(** The message is kept as the limit it names. *)
Definition _breach_values (m : measurement) (limits : ResourceRequest) : option string :=
  let '(processes, cpu_seconds, memory_bytes) := m in
  if above (real_of_Z processes) (rr_processes limits) then Some "processes"
  else if above (real_of_float cpu_seconds) (rr_cpu_seconds limits) then Some "cpu_seconds"
  else if above (real_of_Z memory_bytes) (rr_memory_bytes limits) then Some "memory_bytes"
  else None.

(** [max(a, b)] of two floats. *)
Definition float_max (a b : spec_float) : spec_float :=
  if real_ltb (real_of_float a) (real_of_float b) then b else a.

(** Why the supervision loop ended. *)
Inductive stop := Exited | CancelRequested | DeadlinePassed | LimitExceeded (what : string).

(** The loop's variables: the output queue, what went wrong with it, and the meter. *)
Record supervision := MkSupervision {
  sv_lines : list string;
  sv_dropped : Z;
  sv_errors : list exn;
  sv_next_measurement : Z;
  sv_peak_processes : Z;
  sv_peak_cpu : spec_float;
  sv_peak_memory : Z }.

Section run.
Context {S : Type}.

(** What one wake-up of the supervisor finds. *)
Record wakeup := MkWakeup {
  wk_others : S → S;
  wk_exited : bool;
  wk_output : list string;
  wk_clock : Z;
  wk_meter_clock : Z;
  wk_measured : measurement }.

Record process := MkProcess {
  (* pid, process group and start ticks; [None] when the command cannot be started *)
  pr_spawned : option (Z * Z * option Z);
  pr_started : Z;
  pr_wakeups : nat → wakeup;
  pr_late_output : list string;
  pr_death : S → S;
  pr_returncode : Z }.

Context (cancel_requested : st S bool) (on_line : string → st S unit).
Context (limits : option ResourceRequest) (measure_interval : Z).

(** [_read_output]: a full queue drops the line. *)
Definition _read_output (output : list string) (sv : supervision) : supervision :=
  let room := (TELEMETRY_QUEUE_SIZE - length (sv_lines sv))%nat in
  MkSupervision (sv_lines sv ++ take room output)
    (sv_dropped sv + Z.of_nat (length (drop room output))) (sv_errors sv)
    (sv_next_measurement sv) (sv_peak_processes sv) (sv_peak_cpu sv) (sv_peak_memory sv).

(** One line: an exception of the observer is kept for the log. *)
Definition deliver (line : string) : st S (option exn) :=
  catch (on_line line;; mret None) (λ _, true) (λ e, mret (Some e)).

Definition _drain (max_lines : nat) (sv : supervision) : st S supervision :=
  errors ← mapM_st deliver (take max_lines (sv_lines sv));
  mret (MkSupervision (drop max_lines (sv_lines sv)) (sv_dropped sv)
          (sv_errors sv ++ omap id errors) (sv_next_measurement sv)
          (sv_peak_processes sv) (sv_peak_cpu sv) (sv_peak_memory sv)).

(** The meter: what was measured is accounted, then held against the limits. *)
Definition account (now : Z) (m : measurement) (sv : supervision) : supervision :=
  let '(processes, cpu, memory) := m in
  MkSupervision (sv_lines sv) (sv_dropped sv) (sv_errors sv) (now + measure_interval)
    (Z.max (sv_peak_processes sv) processes) (float_max (sv_peak_cpu sv) cpu)
    (Z.max (sv_peak_memory sv) memory).

Definition breached (m : measurement) : option string :=
  match limits with
  | Some l => if ResourceRequest_declared l then _breach_values m l else None
  | None => None
  end.

(** The body of the loop. *)
Definition wake (started timeout : Z) (w : wakeup) (sv : supervision)
    : st S (supervision * option stop) :=
  modify (wk_others w);;
  let sv := _read_output (wk_output w) sv in
  if wk_exited w then mret (sv, Some Exited)
  else
    sv ← _drain DRAIN_BATCH sv;
    cancelled ← cancel_requested;
    if (cancelled : bool) then mret (sv, Some CancelRequested)
    else if (timeout <=? wk_clock w - started)%Z then mret (sv, Some DeadlinePassed)
    else if (sv_next_measurement sv <=? wk_meter_clock w)%Z then
      let sv := account (wk_meter_clock w) (wk_measured w) sv in
      mret (sv, LimitExceeded <$> breached (wk_measured w))
    else mret (sv, None).

(** [None] when the wake-ups run out first. *)
Fixpoint supervise (started timeout : Z) (wakeups : nat → wakeup) (fuel n : nat)
    (sv : supervision) : st S (option (supervision * stop)) :=
  match fuel with
  | O => mret None
  | Datatypes.S fuel =>
      r ← wake started timeout (wakeups n) sv;
      match snd r with
      | Some why => mret (Some (fst r, why))
      | None => supervise started timeout wakeups fuel (Datatypes.S n) (fst r)
      end
  end.

(** [run], with the command's start, output and end in [p].  The deadline is
    [timeout_seconds] in microseconds, rounded up to the clock's resolution. *)
Definition run (supports_limits : bool) (on_started : Z → Z → option Z → st S unit)
    (timeout : Z) (p : process) (fuel : nat) : st S ProcessOutcome :=
  lift (raise_when (timeout <=? 0)%Z (ValueError "timeout_seconds"));;
  lift (raise_when (match limits with
                    | Some l => ResourceRequest_declared l && negb supports_limits
                    | None => false
                    end) (ValueError "limits cannot be enforced"));;
  ids ← lift (of_option (OtherError "FileNotFoundError") (pr_spawned p));
  let '(pid, pgid, ticks) := ids in
  on_started pid pgid ticks;;
  r ← supervise (pr_started p) timeout (pr_wakeups p) fuel 0
        (MkSupervision [] 0 [] (pr_started p) 0 (S754_zero false) 0);
  r ← lift (of_option (OtherError "fuel") r);
  let '(sv, why) := r in
  modify (pr_death p);;
  sv ← _drain FINAL_DRAIN_BATCH (_read_output (pr_late_output p) sv);
  mret (MkProcessOutcome (pr_returncode p)
          (match why with DeadlinePassed => true | _ => false end)
          (match why with CancelRequested => true | _ => false end)
          (match why with LimitExceeded what => Some what | _ => None end)
          (sv_peak_cpu sv) (sv_peak_memory sv) (sv_peak_processes sv)).
End run.
Arguments wakeup : clear implicits.
Arguments process : clear implicits.

(** ** The process tree *)

(** [index] is the children file of a process, [None] when it cannot be read. *)
Section tree.
Context (root_pid : Z).

Definition visit (acc : gset Z * list Z) (child : Z) : gset Z * list Z :=
  let '(result, pending) := acc in
  if bool_decide (child ∈ result) then acc else ({[child]} ∪ result, child :: pending).

(** The [while pending] loop, the end of the list first. *)
Fixpoint walk (index : Z → option (list Z)) (fuel : nat) (pending : list Z)
    (result : gset Z) (indexed : bool) : option (gset Z * bool) :=
  match fuel with
  | O => None
  | S fuel =>
      match pending with
      | [] => Some (result, indexed)
      | parent :: pending =>
          match index parent with
          | None => walk index fuel pending result
                      (if bool_decide (parent = root_pid) then false else indexed)
          | Some children =>
              let '(result, pending) := fold_left visit children (result, pending) in
              walk index fuel pending result indexed
          end
      end
  end.

(** Without the index, the parents of all processes: [stats]. *)
Definition _process_tree (index : Z → option (list Z)) (stats : Z → list Z) (fuel : nat)
    : option (gset Z) :=
  match walk index fuel [root_pid] {[root_pid]} true with
  | Some (result, true) => Some result
  | Some (_, false) => fst <$> walk (λ p, Some (stats p)) fuel [root_pid] {[root_pid]} true
  | None => None
  end.

(** [q] is a child of [p] in the index. *)
Definition child_of (index : Z → option (list Z)) (p q : Z) : Prop :=
  ∃ l, index p = Some l ∧ q ∈ l.

(** Every process found so far descends from the root, and the children of those
    not pending are found. *)
Record walked (index : Z → option (list Z)) (pending : list Z) (result : gset Z) : Prop := {
  wa_root : root_pid ∈ result;
  wa_sound : ∀ p, p ∈ result → rtc (child_of index) root_pid p;
  wa_pending : ∀ p, p ∈ pending → p ∈ result;
  wa_closed : ∀ p q, p ∈ result → p ∉ pending → child_of index p q → q ∈ result }.

Lemma visit_all children result pending :
  let '(result', pending') := fold_left visit children (result, pending) in
  result ⊆ result' ∧ (∀ q, q ∈ children → q ∈ result') ∧
  (∀ q, q ∈ result' → q ∈ result ∨ q ∈ children) ∧
  (∀ q, q ∈ pending → q ∈ pending') ∧
  (∀ q, q ∈ pending' → q ∈ pending ∨ q ∈ result') ∧
  (∀ q, q ∈ result' → q ∈ result ∨ q ∈ pending') ∧
  (length pending' + size result = length pending + size result')%nat.
Proof.
  revert result pending. induction children as [|c l IH]; intros result pending; simpl.
  { split_and!; set_solver. }
  case_bool_decide as Hc.
  - specialize (IH result pending). destruct (fold_left _ _ _) as [r' p'].
    destruct IH as (H1 & H2 & H3 & H4 & H5 & H6 & H7). split_and!; [done|set_solver..|done].
  - specialize (IH ({[c]} ∪ result) (c :: pending)). destruct (fold_left _ _ _) as [r' p'].
    destruct IH as (H1 & H2 & H3 & H4 & H5 & H6 & H7). split_and!; [set_solver..|].
    rewrite size_union, size_singleton in H7 by set_solver. simpl in H7. lia.
Qed.

(** Enough fuel: one turn per process, and one to see that none is left. *)
Lemma walk_spec index fuel pending result indexed (universe : gset Z) :
  (∀ p q, p ∈ universe → child_of index p q → q ∈ universe) →
  result ⊆ universe → walked index pending result →
  (length pending + (size universe - size result) < fuel)%nat →
  ∃ result' indexed', walk index fuel pending result indexed = Some (result', indexed') ∧
    (∀ p, p ∈ result' ↔ rtc (child_of index) root_pid p) ∧
    (is_Some (index root_pid) → indexed' = indexed).
Proof.
  intros Hu. revert pending result indexed. induction fuel as [|fuel IH];
    intros pending result indexed Hsub Hw Hfuel; [lia|]. simpl.
  destruct pending as [|parent pending].
  { eexists _, _. split_and!; [done| |done]. intros p. split; [apply Hw|].
    intros Hp. destruct Hw as [Hr _ _ Hc]. clear -Hp Hr Hc.
    induction Hp as [|p q r Hpq _ IH]; [done|]. apply IH.
    eapply Hc; [exact Hr| |exact Hpq]. apply not_elem_of_nil. }
  destruct (index parent) as [children|] eqn:Hi.
  - pose proof (visit_all children result pending) as Hv.
    destruct (fold_left _ _ _) as [result' pending'].
    destruct Hv as (H1 & H2 & H3 & H4 & H5 & H6 & H7).
    assert (parent ∈ result) as Hp by (apply Hw; left).
    assert (result' ⊆ universe) as Hsub'.
    { intros q [Hq|Hq]%H3; [set_solver|]. apply (Hu parent); [set_solver|]. by exists children. }
    apply IH; [done| |].
    + destruct Hw as [Hr Hs Hpe Hc]. constructor; [set_solver| | |].
      * intros q [Hq|Hq]%H3; [by apply Hs|]. eapply rtc_r; [by apply Hs|]. by exists children.
      * intros q [Hq|Hq]%H5; [|done]. apply H1, Hpe. by right.
      * intros p q Hpr Hnp Hpq. destruct (decide (p = parent)) as [->|Hne].
        { destruct Hpq as (l & Hl & Hq). rewrite Hi in Hl. injection Hl as <-. by apply H2. }
        destruct (H6 p Hpr) as [Hpr'|]; [|done]. apply H1, (Hc p); [done| |done].
        intros [->|Hin]%elem_of_cons; [done|]. by apply Hnp, H4.
    + apply subseteq_size in Hsub, Hsub', H1. simpl in Hfuel. lia.
  - destruct (IH pending result (if bool_decide (parent = root_pid) then false else indexed))
      as (r' & i' & -> & Hr & Hix); [done| |simpl in Hfuel; lia|].
    + destruct Hw as [Hr Hs Hpe Hc]. constructor; [done|done| |].
      * intros p Hp. apply Hpe. by right.
      * intros p q Hp Hn Hpq. destruct (decide (p = parent)) as [->|Hne].
        { destruct Hpq as (l & Hl & _). congruence. }
        apply (Hc p); [done| |done]. intros [->|]%elem_of_cons; done.
    + eexists _, _. split_and!; [done|done|]. intros Hs. rewrite (Hix Hs).
      rewrite bool_decide_false; [done|]. intros ->. rewrite Hi in Hs. by destruct Hs.
Qed.
End tree.

(** The process tree is exactly the processes reachable from the root by the children
    files, or by the parent columns where the root has none, and finding it takes at
    most one step for each process. *)
Theorem process_tree_complete root index stats fuel (universe : gset Z) :
  root ∈ universe →
  (∀ p q, p ∈ universe → child_of index p q → q ∈ universe) →
  (∀ p q, p ∈ universe → q ∈ stats p → q ∈ universe) →
  (size universe < fuel)%nat →
  ∃ tree, _process_tree root index stats fuel = Some tree ∧
    (is_Some (index root) → ∀ p, p ∈ tree ↔ rtc (child_of index) root p) ∧
    (index root = None → ∀ p, p ∈ tree ↔ rtc (λ q q', q' ∈ stats q) root p).
Proof.
  intros Hr Hi Hs Hf. unfold _process_tree.
  assert (∀ ix, walked root ix [root] {[root]}) as Hw.
  { intros ix. constructor; [set_solver|set_solver| |].
    - intros p ->%list_elem_of_singleton. set_solver.
    - intros p q ->%elem_of_singleton []. by apply list_elem_of_singleton. }
  assert (length [root] + (size universe - size ({[root]} : gset Z)) < fuel)%nat as Hlen.
  { rewrite size_singleton. assert (size universe ≠ 0%nat); [|simpl; lia].
    apply size_non_empty_iff. set_solver. }
  destruct (index root) as [l|] eqn:Hroot.
  - destruct (walk_spec root index fuel [root] {[root]} true universe) as (r & ix & -> & Hrs & Hix);
      [done|set_solver|apply Hw|done|].
    rewrite Hix by (rewrite Hroot; done). exists r. split_and!; done.
  - assert (walk root index fuel [root] {[root]} true = Some ({[root]}, false)) as ->.
    { destruct fuel as [|[|fuel]]; [simpl in Hlen; lia..|]. simpl.
      by rewrite Hroot, bool_decide_true. }
    destruct (walk_spec root (λ p, Some (stats p)) fuel [root] {[root]} true universe)
      as (r' & ix' & -> & Hr' & _); [|set_solver|apply Hw|done|].
    { intros p q Hp (l & [= <-] & Hq). by eapply Hs. }
    exists r'. split_and!; [done|by intros []|]. intros _ p. rewrite Hr'.
    split; apply rtc_subrel; unfold child_of; naive_solver.
Qed.

Lemma process_tree_complete_witness :
  ∃ tree, _process_tree 1 (λ p, if (p =? 1)%Z then Some [2; 3]%Z else
                                if (p =? 3)%Z then Some [4; 2]%Z else None) (λ _, []) 6 = Some tree ∧
          tree = {[1; 2; 3; 4]}%Z.
Proof.
  destruct (process_tree_complete 1 (λ p, if (p =? 1)%Z then Some [2; 3]%Z else
              if (p =? 3)%Z then Some [4; 2]%Z else None) (λ _, []) 6 {[1; 2; 3; 4]}%Z)
    as (tree & Ht & _).
  - set_solver.
  - intros p q _ (l & Hl & Hq). repeat case_match; simplify_eq; set_solver.
  - set_solver.
  - vm_compute. lia.
  - exists tree. split; [exact Ht|]. vm_compute in Ht. injection Ht as <-. apply leibniz_equiv.
    set_solver.
Defined.

(** ** Supervision *)

Section supervision.
Context {S : Type} (cancel_requested : st S bool) (on_line : string → st S unit).
Context (limits : option ResourceRequest) (measure_interval : Z).
Local Abbreviation supervise := (supervise cancel_requested on_line limits measure_interval).
Local Abbreviation wake := (wake cancel_requested on_line limits measure_interval).

Lemma deliver_Ok line s : ∃ r s', deliver on_line line s = (Ok r, s').
Proof.
  unfold deliver, catch. rewrite bind_run. destruct (on_line line s) as [[u|e] s']; by eexists _, _.
Qed.

(** An observer that raises does not stop the drain. *)
Lemma drain_Ok n sv s : ∃ sv' s', _drain on_line n sv s = (Ok sv', s') ∧
  sv_next_measurement sv' = sv_next_measurement sv ∧
  sv_peak_processes sv' = sv_peak_processes sv ∧ sv_peak_memory sv' = sv_peak_memory sv ∧
  sv_peak_cpu sv' = sv_peak_cpu sv.
Proof.
  unfold _drain. rewrite bind_run.
  assert (∃ es s', mapM_st (deliver on_line) (take n (sv_lines sv)) s = (Ok es, s')) as (es & s' & ->).
  { generalize (take n (sv_lines sv)). intros l. revert s. induction l as [|x l IH]; intros s; simpl.
    - by eexists _, _.
    - rewrite bind_run. destruct (deliver_Ok x s) as (r & s1 & ->). rewrite bind_run.
      destruct (IH s1) as (es & s2 & ->). by eexists _, _. }
  eexists _, _. split_and!; reflexivity.
Qed.

Definition past (started timeout : Z) (w : wakeup S) : Prop := (timeout ≤ wk_clock w - started)%Z.

(** What one turn of the loop found, by how it ended. *)
Definition found (started timeout : Z) (w : wakeup S) (sv : supervision) (why : option stop) : Prop :=
  match why with
  | Some Exited => wk_exited w = true
  | Some CancelRequested => wk_exited w = false
  | Some DeadlinePassed => wk_exited w = false ∧ past started timeout w
  | Some (LimitExceeded what) =>
      wk_exited w = false ∧ ¬ past started timeout w ∧
      breached limits (wk_measured w) = Some what ∧
      (snd (wk_measured w) ≤ sv_peak_memory sv)%Z ∧
      (fst (fst (wk_measured w)) ≤ sv_peak_processes sv)%Z
  | None => wk_exited w = false ∧ ¬ past started timeout w
  end.

Lemma wake_found started timeout w sv s r s' :
  wake started timeout w sv s = (Ok r, s') → found started timeout w (fst r) (snd r).
Proof.
  unfold wake. intros H. apply bind_st_Ok in H as ([] & s1 & _ & H).
  destruct (wk_exited w) eqn:He; [apply mret_st_Ok in H as [-> _]; done|].
  apply bind_st_Ok in H as (sv1 & s2 & _ & H). apply bind_st_Ok in H as ([|] & s3 & _ & H);
    [apply mret_st_Ok in H as [-> _]; done|].
  destruct (Z.leb_spec timeout (wk_clock w - started)) as [Hp|Hp];
    [apply mret_st_Ok in H as [-> _]; done|].
  assert (¬ past started timeout w) as Hn by (unfold past; lia).
  destruct (_ <=? _)%Z; apply mret_st_Ok in H as [-> _]; [|done].
  simpl. destruct (breached limits (wk_measured w)) as [what|] eqn:Hb; simpl; [|done].
  unfold account. destruct (wk_measured w) as [[procs cpu] mem]. simpl.
  split_and!; [done|done|done|lia|lia].
Qed.

Lemma supervise_found started timeout wakeups fuel n sv s r s' :
  supervise started timeout wakeups fuel n sv s = (Ok (Some r), s') →
  ∃ k, (n ≤ k)%nat ∧ found started timeout (wakeups k) (fst r) (Some (snd r)) ∧
       ∀ m, (n ≤ m < k)%nat → wk_exited (wakeups m) = false ∧ ¬ past started timeout (wakeups m).
Proof.
  revert n sv s. induction fuel as [|fuel IH]; intros n sv s H; [done|]. simpl in H.
  apply bind_st_Ok in H as ([sv1 why] & s1 & Hw & H). apply wake_found in Hw. simpl in *.
  destruct why as [why|].
  - apply mret_st_Ok in H as [[= ->] _]. exists n. split_and!; [lia|done|]. intros m Hm. lia.
  - apply IH in H as (k & Hk & Hf & Hm). exists k. split_and!; [lia|done|].
    intros m Hn. destruct (decide (m = n)) as [->|]; [apply Hw|apply Hm; lia].
Qed.

(** A wake-up past the deadline ends the loop. *)
Lemma wake_past started timeout w sv s :
  (∀ s, ∃ b s', cancel_requested s = (Ok b, s')) → past started timeout w →
  ∃ sv' why s', wake started timeout w sv s = (Ok (sv', Some why), s').
Proof.
  intros Hc Hp. unfold wake. rewrite bind_run. cbn [modify].
  destruct (wk_exited w); [by eexists _, _, _|]. rewrite bind_run.
  destruct (drain_Ok DRAIN_BATCH (_read_output (wk_output w) sv) (wk_others w s))
    as (sv1 & s1 & -> & _). rewrite bind_run.
  destruct (Hc s1) as ([|] & s2 & ->); [by eexists _, _, _|].
  unfold past in Hp. apply Z.leb_le in Hp. rewrite Hp. by eexists _, _, _.
Qed.

(** A wake-up does not raise. *)
Lemma wake_Ok started timeout w sv s :
  (∀ s, ∃ b s', cancel_requested s = (Ok b, s')) → ∃ r s', wake started timeout w sv s = (Ok r, s').
Proof.
  intros Hc. unfold wake. rewrite bind_run. cbn [modify].
  destruct (wk_exited w); [by eexists _, _|]. rewrite bind_run.
  destruct (drain_Ok DRAIN_BATCH (_read_output (wk_output w) sv) (wk_others w s))
    as (sv1 & s1 & -> & _). rewrite bind_run.
  destruct (Hc s1) as ([|] & s2 & ->); [by eexists _, _|].
  repeat case_match; by eexists _, _.
Qed.
End supervision.

(** C37. Supervision ends: with wake-ups that advance the clock it stops at the latest
    at the first wake-up past the deadline, and as a timeout when nothing else stopped
    it. *)
Theorem deadline_enforced {S} cancel_requested on_line limits measure_interval started timeout
    poll_interval (wakeups : nat → wakeup S) fuel sv s :
  (0 < poll_interval)%Z → (0 < timeout)%Z → (timeout ≤ (Z.of_nat fuel - 1) * poll_interval)%Z →
  (∀ n, started + Z.of_nat n * poll_interval ≤ wk_clock (wakeups n))%Z →
  (∀ s, ∃ b s', cancel_requested s = (Ok b, s')) →
  ∃ sv' why s' k,
    supervise cancel_requested on_line limits measure_interval started timeout wakeups
              fuel 0 sv s = (Ok (Some (sv', why)), s') ∧
    (* the first wake-up past the deadline is the last one *)
    (∀ m, (m < k)%nat → (wk_clock (wakeups m) - started < timeout)%Z) ∧
    (* and without another reason to stop, the stop is a timeout *)
    ((∀ n, wk_exited (wakeups n) = false) → limits = None →
     why = DeadlinePassed ∨ why = CancelRequested) ∧
    (why = DeadlinePassed → wk_exited (wakeups k) = false ∧
                            (timeout ≤ wk_clock (wakeups k) - started)%Z).
Proof.
  intros Hpoll Ht Hfuel Hclock Hc.
  assert (∀ n, (timeout ≤ (Z.of_nat (n + fuel) - 1) * poll_interval)%Z → (0 < fuel)%nat → ∀ sv s,
    ∃ r s', supervise cancel_requested on_line limits measure_interval started timeout wakeups
              fuel n sv s = (Ok (Some r), s')) as H.
  2: { destruct (H 0%nat) with (sv := sv) (s := s) as ([sv' why] & s' & Hs); [simpl; nia|nia|].
       pose proof Hs as Hf. apply supervise_found in Hf as (k & _ & Hf & Hm).
       exists sv', why, s', k. split_and!; [done| | |].
       - intros m Hk. destruct (Hm m) as [_ Hp]; [lia|]. unfold past in Hp. lia.
       - intros He ->. destruct why; simpl in Hf; try by auto.
         + by rewrite He in Hf.
         + destruct Hf as (_ & _ & Hb & _). done.
       - intros ->. exact Hf. }
  clear Hfuel sv s. induction fuel as [|fuel IH]; intros n Hn Hpos sv s; [lia|]. simpl.
  rewrite bind_run. destruct fuel as [|fuel].
  - destruct (wake_past cancel_requested on_line limits measure_interval started timeout
                (wakeups n) sv s) as (sv1 & why & s1 & ->); [done| |by eexists _, _].
    unfold past. specialize (Hclock n). nia.
  - destruct (wake_Ok cancel_requested on_line limits measure_interval started timeout
                (wakeups n) sv s) as ([sv1 [why|]] & s1 & ->); [done|by eexists _, _|].
    cbn [snd fst]. apply IH; [|lia]. by rewrite Nat.add_succ_r in Hn.
Qed.

Lemma deadline_enforced_witness :
  ∃ sv' s', supervise (mret false : st nat bool) (λ _, modify Datatypes.S) None 500000 7 2500000
    (λ n, MkWakeup Datatypes.S false ["noise"; "more"] (7 + Z.of_nat n * 1000000) 0 (1, S754_zero false, 0)%Z)
    4 0 (MkSupervision [] 0 [] 7 0 (S754_zero false) 0) 0%nat = (Ok (Some (sv', DeadlinePassed)), s').
Proof.
  destruct (deadline_enforced (mret false : st nat bool) (λ _, modify Datatypes.S) None 500000 7 2500000 1000000
    (λ n, MkWakeup Datatypes.S false ["noise"; "more"] (7 + Z.of_nat n * 1000000) 0 (1, S754_zero false, 0)%Z)
    4 (MkSupervision [] 0 [] 7 0 (S754_zero false) 0) 0%nat) as (sv' & why & s' & k & H & _ & Hw & _).
  - lia.
  - lia.
  - lia.
  - intros n. simpl. lia.
  - intros s. by eexists _, _.
  - destruct Hw as [-> | ->]; [done|done|by exists sv', s'|].
    exfalso. vm_compute in H. discriminate H.
Defined.

(** The guardian reports timeout, cancellation or a breached limit only for a child
    still alive at that wake-up, at most one of them, a breach only of a declared
    limit that was measured exceeded, and reports none of them only for a child that
    ended on its own in time. *)
Theorem run_outcome_spec {S} cancel_requested on_line limits measure_interval supports on_started
    timeout (p : process S) fuel s o s' :
  run cancel_requested on_line limits measure_interval supports on_started timeout p fuel s
    = (Ok o, s') →
  let past k := (timeout ≤ wk_clock (pr_wakeups p k) - pr_started p)%Z in
  let alive k := wk_exited (pr_wakeups p k) = false in
  ∃ k, (∀ m, (m < k)%nat → alive m ∧ ¬ past m) ∧
    (* the flags exclude each other *)
    (po_timed_out o = true → alive k ∧ past k ∧ po_cancelled o = false ∧ po_exceeded o = None) ∧
    (po_cancelled o = true → alive k ∧ po_exceeded o = None) ∧
    (* a limit is reported exceeded only when one was declared and measured exceeded *)
    (∀ what, po_exceeded o = Some what → alive k ∧ ¬ past k ∧
       ∃ l, limits = Some l ∧ ResourceRequest_declared l = true ∧ supports = true ∧
            _breach_values (wk_measured (pr_wakeups p k)) l = Some what ∧
            (snd (wk_measured (pr_wakeups p k)) ≤ po_peak_memory_bytes o)%Z) ∧
    (* with no flag the child ended on its own, in time *)
    (po_timed_out o = false → po_cancelled o = false → po_exceeded o = None → ¬ alive k) ∧
    po_returncode o = pr_returncode p.
Proof.
  unfold run. intros H.
  apply bind_st_Ok in H as ([] & s1 & H1 & H). apply bind_st_Ok in H as ([] & s2 & H2 & H).
  apply bind_st_Ok in H as ([[pid pgid] ticks] & s3 & _ & H).
  apply bind_st_Ok in H as ([] & s4 & _ & H). apply bind_st_Ok in H as (r & s5 & Hs & H).
  apply bind_st_Ok in H as ([sv why] & s6 & Hr & H). apply lift_Ok in H2 as [H2 _], Hr as [Hr _].
  apply of_option_Ok in Hr as ->. apply raise_when_Ok in H2.
  apply supervise_found in Hs as (k & _ & Hf & Hm).
  apply bind_st_Ok in H as ([] & s7 & _ & H). rewrite bind_run in H.
  destruct (drain_Ok on_line FINAL_DRAIN_BATCH (_read_output (pr_late_output p) sv) s7)
    as (sv' & s8 & Hd & _ & _ & Hpm & _). rewrite Hd in H. apply mret_st_Ok in H as [-> _].
  exists k. simpl in Hf. split_and!; simpl; [intros m ?; apply Hm; lia|..].
  - destruct why; try done. intros _. destruct Hf. by split_and!.
  - by destruct why.
  - intros what. destruct why; try done. intros [= ->].
    destruct Hf as (He & Hp & Hb & Hmem & _). split_and!; [done|done|].
    unfold breached in Hb. destruct limits as [l|]; [|done]. destruct (ResourceRequest_declared l) eqn:Hl; [|done].
    exists l. split_and!; try done.
    + by destruct supports.
    + by rewrite Hpm.
  - destruct why; try done. rewrite Hf. done.
  - done.
Qed.

(** A child that grows past the memory it asked for. *)
Definition demo_process : process unit :=
  MkProcess (Some (100, 100, None)%Z) 0
    (λ n, MkWakeup id false [] (Z.of_nat n * 100000) (Z.of_nat n * 100000)
            (1, S754_zero false, Z.of_nat n * 1000)%Z) [] id (-9).
Definition demo_limits : ResourceRequest := MkResourceRequest JNull JNull (JInt 4096) JNull.

Lemma run_outcome_spec_witness :
  ∃ o, fst (run (mret false : st unit bool) (λ _, mret tt) (Some demo_limits) 500000 true
              (λ _ _ _, mret tt) 60000000 demo_process 20 tt) = Ok o ∧
       ∃ k, _breach_values (wk_measured (pr_wakeups demo_process k)) demo_limits
            = Some "memory_bytes".
Proof.
  destruct (run (mret false : st unit bool) (λ _, mret tt) (Some demo_limits) 500000 true
              (λ _ _ _, mret tt) 60000000 demo_process 20 tt) as [[o|e] s'] eqn:H;
    [|exfalso; vm_compute in H; discriminate H].
  exists o. split; [reflexivity|].
  destruct (run_outcome_spec _ _ _ _ _ _ _ _ _ _ _ _ H) as (k & _ & _ & _ & Hx & _).
  exists k. vm_compute in H. injection H as <- _.
  destruct (Hx _ eq_refl) as (_ & _ & l & [= <-] & _ & _ & Hb & _). exact Hb.
Defined.
