(* ===== verification/Adapter.v ===== *)
(** * runtime/adapter.py: ProcessAdapter

    The request file, the command and what the platform believes of its answer.
    The adapter works on any state that holds files ([HasFiles]); [spawn] is the
    operating system's answer to a command and its environment, [loads] is
    [json.loads], and a relative path resolves by [resolve]. *)

From stdpp Require Import gmap.
From S2P Require Export Json Guardian Task StoreEvidence.
Open Scope string_scope.
Open Scope list_scope.

(** The files of a host, by resolved path. *)
Abbreviation file_system := (gmap (list string) string).

Class HasFiles (S : Type) := {
  files : S → file_system;
  set_files : file_system → S → S;
  files_set : ∀ f s, files (set_files f s) = f;
  set_files_self : ∀ s, set_files (files s) s = s }.

Definition write_file {S} `{HasFiles S} (path : list string) (text : string) : st S unit :=
  modify (λ s, set_files (<[path := text]> (files s)) s).
Definition unlink_file {S} `{HasFiles S} (path : list string) : st S unit :=
  modify (λ s, set_files (delete path (files s)) s).

Definition SAFE_HOST_ENVIRONMENT : list string :=
  ["HOME"; "LANG"; "LC_ALL"; "TZ"; "TMPDIR"; "TEMP"; "TMP"].
Definition REQUEST_FILENAME : string := "adapter_request.json".
Definition RESULT_FILENAME : string := "adapter_result.json".
Definition LOG_FILENAME : string := "adapter.log".
Definition PROTOCOL_VERSION : Z := 1.

(** ** Artifact declarations *)

(** A declaration as it arrives: a mapping whose items may have any type. *)
Record claim := MkClaim {
  cl_kind : json;
  cl_path : json;
  cl_metadata : json;
  cl_media_type : json }.

(** What a declaration becomes once it is checked. *)
Record normalized := MkNormalized {
  na_kind : string;
  na_store_key : string;
  na_size_bytes : Z;
  na_sha256 : string;
  na_media_type : json;
  na_metadata : dict }.

(** [rule.get(k)] *)
Definition rule_get (k : string) (rule : json) : result json :=
  match rule with JObj d => Ok (get_null k d) | _ => Err (OtherError "AttributeError") end.

Definition hashable (v : json) : bool :=
  match v with JList _ | JObj _ => false | _ => true end.
(** [set(vs)] *)
Definition py_set (vs : list json) : result (list json) :=
  raise_when (negb (forallb hashable vs)) (TypeError "unhashable");; Ok vs.

(** [x or {}] *)
Definition or_empty (v : json) : json := if truthy v then v else JObj [].

(** [except ContractError: raise AdapterProtocolError] *)
Definition as_protocol_error {A} (m : result A) : result A :=
  match m with Err (ContractError w) => Err (AdapterProtocolError w) | _ => m end.

Section declarations.
Context (sha256 : string → string) (resolve : list string → string → list string).

Section one.
Context (root : list string) (fs : file_system) (allowed_kinds : list json) (allow_reserved : bool).

Definition normalize (item : claim) : result normalized :=
  match cl_kind item, cl_path item with
  | JStr kind, JStr declared =>
      metadata ← py_dict (AdapterProtocolError "metadata keys") (or_empty (cl_metadata item));
      as_protocol_error (ArtifactDeclaration_validate
        (MkArtifactDeclaration (JStr kind) (JStr declared) (JBool true) JNull (JObj metadata)
                               allow_reserved));;
      raise_when (match allowed_kinds with
                  | [] => false
                  | _ => negb (bool_decide (JStr kind ∈ allowed_kinds)) && negb allow_reserved
                  end) (AdapterProtocolError "kind is not allowed by the manifest");;
      let path := resolve root declared in
      below ← of_option (AdapterProtocolError "path escapes the workspace") (relative_to root path);
      bytes ← of_option (AdapterProtocolError "artifact is missing") (fs !! path);
      Ok (MkNormalized kind (str_join "/" below) (size_of bytes) (sha256 bytes)
                       (cl_media_type item) metadata)
  | _, _ => Err (AdapterProtocolError "artifact declaration needs kind and path")
  end.

(** The loop over the declarations, with the keys seen so far. *)
Fixpoint normalize_all (seen_keys : list string) (items : list claim)
    : result (list normalized) :=
  match items with
  | [] => Ok []
  | item :: items =>
      n ← normalize item;
      raise_when (bool_decide (na_store_key n ∈ seen_keys))
                 (AdapterProtocolError "artifact declared more than once");;
      ns ← normalize_all (na_store_key n :: seen_keys) items;
      Ok (n :: ns)
  end.
End one.

(** [', '.join(sorted(missing))] wants strings. *)
Definition missing_error (missing : list json) : exn :=
  if forallb is_str missing then AdapterProtocolError "required artifact kinds missing"
  else TypeError "sequence item".

(** Every expected kind, and every kind a rule requires, was produced. *)
Definition check_required (manifest : PluginManifest) (kinds expected_kinds : list json)
    (produced : list normalized) : result unit :=
  required ← mapM_result (rule_get "required") (pm_artifact_rules manifest);
  let ruled := omap (λ kr : json * json, if truthy (snd kr) then Some (fst kr) else None)
                    (zip kinds required) in
  required ← py_set (expected_kinds ++ ruled);
  match List.filter (λ k, truthy k
          && negb (bool_decide (k ∈ (λ n, JStr (na_kind n)) <$> produced))) required with
  | [] => Ok tt
  | missing => Err (missing_error missing)
  end.

Definition validate_artifact_declarations (root : list string) (fs : file_system)
    (manifest : PluginManifest) (declarations : list claim) (expected_kinds : list json)
    (require_expected allow_reserved : bool) : result (list normalized) :=
  kinds ← mapM_result (rule_get "kind") (pm_artifact_rules manifest);
  allowed_kinds ← py_set (List.filter truthy kinds);
  ns ← normalize_all root fs allowed_kinds allow_reserved [] declarations;
  (if require_expected then check_required manifest kinds expected_kinds ns else Ok tt);;
  Ok ns.
End declarations.

(** ** The result *)

Definition failure_of (category message : string) : json :=
  JObj [("category", JStr category); ("message", JStr message)].

Definition decided (status : RuntimeStatus) (exit_code : Z) (started_at ended_at : string)
    (failure : json) : PluginResult :=
  MkPluginResult status (JInt exit_code) (JStr started_at) (JStr ended_at) [] [] failure
                 (JObj []) (JInt SCHEMA_VERSION).

Definition protocol_failure (started_at ended_at : string) (exit_code : Z) (message : string)
    : PluginResult :=
  decided FAILED (if (exit_code =? 0)%Z then 1 else exit_code)%Z started_at ended_at
          (failure_of "protocol_error" message).

Definition is_protocol_error (e : exn) : bool :=
  match e with AdapterProtocolError _ => true | _ => false end.

Section adapter.
Context (sha256 : string → string) (resolve : list string → string → list string).
Context (loads : string → option json) (float_repr : spec_float → string).

(** What [except (OSError, JSONDecodeError, ValueError)] turns into a protocol error. *)
Definition read_result (content : string) : result PluginResult :=
  doc ← of_option (AdapterProtocolError "invalid JSON") (loads content);
  match PluginResult_from_dict doc with
  | Err e => if is_value_error e then Err (AdapterProtocolError "invalid result") else Err e
  | r => r
  end.

Definition _load_result (content : option string) (outcome : ProcessOutcome)
    (started_at ended_at : string) : result PluginResult :=
  let code := po_returncode outcome in
  if po_cancelled outcome then
    Ok (decided CANCELLED code started_at ended_at
                (failure_of "cancelled" "cancellation requested"))
  else if po_timed_out outcome then
    Ok (decided TIMED_OUT code started_at ended_at
                (failure_of "timeout" "adapter deadline exceeded"))
  else
    match po_exceeded outcome with
    | Some what =>
        Ok (decided FAILED code started_at ended_at
             (JObj [("category", JStr "resource_exceeded"); ("message", JStr what);
                    ("retryable", JBool false)]))
    | None =>
        content ← of_option (AdapterProtocolError "adapter produced no result") content;
        result ← read_result content;
        raise_when (negb (code =? 0)%Z && bool_decide (pr_status result = SUCCEEDED))
                   (AdapterProtocolError "success with a non-zero process exit code");;
        raise_when (negb (bool_decide (as_int (pr_exit_code result) = Some code)))
                   (AdapterProtocolError "exit_code does not match the process");;
        Ok result
    end.

(** The declarations of a result whose artifacts are checked mappings. *)
Definition claim_of (item : json) : claim :=
  MkClaim (obj_get_null "kind" item) (obj_get_null "path" item)
          (match item with JObj d => default (JObj []) (dict_get "metadata" d) | _ => JObj [] end)
          (obj_get_null "media_type" item).

Definition _validate_artifacts (root : list string) (fs : file_system)
    (manifest : PluginManifest) (task : TaskSpec) (result : PluginResult)
    (require_expected allow_reserved : bool) : Prelude.result (list normalized) :=
  validate_artifact_declarations sha256 resolve root fs manifest
    (claim_of <$> pr_artifacts result) (t_expected_artifacts task) require_expected
    allow_reserved.

Record AdapterExecution := MkAdapterExecution {
  ex_result : PluginResult;
  ex_outcome : ProcessOutcome;
  ex_artifacts : list normalized }.

(** The answer, once the process is gone: a broken protocol is a FAILED result. *)
Definition judge (root : list string) (fs : file_system) (manifest : PluginManifest)
    (task : TaskSpec) (outcome : ProcessOutcome) (started_at ended_at : string)
    (allow_reserved : bool) : Prelude.result AdapterExecution :=
  let answer :=
    result ← _load_result (fs !! resolve root RESULT_FILENAME) outcome started_at ended_at;
    artifacts ← _validate_artifacts root fs manifest task result
                  (bool_decide (pr_status result = SUCCEEDED)) allow_reserved;
    Ok (MkAdapterExecution result outcome artifacts) in
  match answer with
  | Err (AdapterProtocolError message) =>
      Ok (MkAdapterExecution
            (protocol_failure started_at ended_at (po_returncode outcome) message) outcome [])
  | _ => answer
  end.

(** ** The request and the environment *)

Definition request_payload (manifest : PluginManifest) (task : dict) : json :=
  JObj [("protocol_version", JInt PROTOCOL_VERSION);
        ("plugin", JObj [("plugin_id", pm_plugin_id manifest);
                         ("plugin_version", pm_plugin_version manifest)]);
        ("task", JObj task)].

(** Later items win, as in [{**a, **b}]. *)
Definition update (d e : dict) : dict :=
  fold_left (λ d kv, dict_set (fst kv) (snd kv) d) e d.

Definition _environment (environ : dict) (manifest : PluginManifest) : dict :=
  let safe := List.filter (λ kv, bool_decide (fst kv ∈ SAFE_HOST_ENVIRONMENT)) environ in
  let declared := match pm_environment manifest with JObj d => d | _ => [] end in
  dict_set "OPENROAD_PLATFORM_PLUGIN_VERSION" (pm_plugin_version manifest)
    (dict_set "OPENROAD_PLATFORM_PLUGIN_ID" (pm_plugin_id manifest) (update safe declared)).

(** A number of seconds, in microseconds rounded up. *)
Definition micros (v : json) : Z :=
  match json_real v with
  | Some (Fin m e) =>
      (if (0 <=? e)%Z then m * 1000000 * 2 ^ e else - ((- (m * 1000000)) / 2 ^ (- e)))%Z
  | _ => 0%Z
  end.
(** [min(a, b)] of two numbers *)
Definition py_min (a b : json) : json :=
  match json_real a, json_real b with
  | Some x, Some y => if real_ltb y x then b else a
  | _, _ => a
  end.

Section execute.
Context {S} `{HasFiles S} (spawn : list json → dict → process S) (environ : dict) (fuel : nat).
Context (path_str : list string → string) (measure_interval : Z) (host_supports_limits : bool).
Context (_now : S → string).

Definition supports_limits : bool := host_supports_limits.

Definition _write_request (path : list string) (manifest : PluginManifest) (task : TaskSpec)
    : st S unit :=
  payload ← lift (TaskSpec_to_dict task);
  write_file path (dumps float_repr request_style (request_payload manifest payload)).

Definition execute (manifest : PluginManifest) (task : TaskSpec) (root : list string)
    (cancel_requested : st S bool) (on_line : string → st S unit) (environment : dict)
    (allow_reserved_artifacts : bool) (limits : option ResourceRequest)
    (on_started : Z → Z → option Z → st S unit) : st S AdapterExecution :=
  lift (PluginManifest_validate manifest);;
  lift (TaskSpec_validate task);;
  lift (raise_when (negb (bool_decide (t_plugin_id task = pm_plugin_id manifest)))
                   (ValueError "task targets another plugin"));;
  let request_path := root ++ [REQUEST_FILENAME] in
  let result_path := root ++ [RESULT_FILENAME] in
  unlink_file result_path;;
  _write_request request_path manifest task;;
  started_at ← gets _now;
  let command := pm_adapter_entry manifest
                 ++ [JStr "--request"; JStr (path_str request_path);
                     JStr "--result"; JStr (path_str result_path)] in
  outcome ← Guardian.run cancel_requested on_line limits measure_interval supports_limits
              on_started
              (micros (py_min (t_timeout_seconds task) (pm_default_timeout_seconds manifest)))
              (spawn command (update (_environment environ manifest) environment)) fuel;
  ended_at ← gets _now;
  s ← gets id;
  lift (judge root (files s) manifest task outcome started_at ended_at allow_reserved_artifacts).
End execute.
End adapter.

(** The object the runtime and the evaluator hold. *)
Record ProcessAdapter (S : Type) := MkProcessAdapter {
  adapter_execute : PluginManifest → TaskSpec → list string → st S bool →
    (string → st S unit) → dict → bool → option ResourceRequest →
    (Z → Z → option Z → st S unit) → st S AdapterExecution;
  adapter_supports_limits : bool }.
Arguments MkProcessAdapter {S}.
Arguments adapter_execute {S}.
Arguments adapter_supports_limits {S}.

Definition process_adapter sha256 resolve loads float_repr {S} `{HasFiles S} spawn environ fuel
    path_str measure_interval host_supports_limits (_now : S → string) : ProcessAdapter S :=
  MkProcessAdapter
    (execute sha256 resolve loads float_repr spawn environ fuel path_str measure_interval
             host_supports_limits _now) host_supports_limits.

(** ** What an accepted declaration is *)

Section spec.
Context (sha256 : string → string) (resolve : list string → string → list string).

(** Bytes below the root, measured; a kind the platform does not keep for itself
    and the manifest allows; no claim to the platform's authority. *)
Record admissible (root : list string) (fs : file_system) (allowed_kinds : list json)
    (allow_reserved : bool) (n : normalized) : Prop := {
  ad_bytes : ∃ below b, na_store_key n = (str_join "/" below) ∧ fs !! (root ++ below) = Some b ∧
    na_sha256 n = sha256 b ∧ na_size_bytes n = size_of b;
  ad_identifier : IDENTIFIER (na_kind n) = true;
  ad_unreserved : allow_reserved = false →
    (na_kind n ∉ RESERVED_ARTIFACT_KINDS) ∧ (allowed_kinds ≠ [] → JStr (na_kind n) ∈ allowed_kinds);
  ad_authority : get_null "runtime_authority" (na_metadata n) = JNull }.

Lemma as_protocol_error_Ok {A} (m : result A) a : as_protocol_error m = Ok a ↔ m = Ok a.
Proof. destruct m as [|[]]; simpl; naive_solver. Qed.

Lemma normalize_Ok root fs allowed reserved item n :
  normalize sha256 resolve root fs allowed reserved item = Ok n →
  admissible root fs allowed reserved n ∧ cl_kind item = JStr (na_kind n).
Proof.
  unfold normalize. destruct (cl_kind item) as [| | | |kind| |]; try done.
  destruct (cl_path item) as [| | | |declared| |]; try done. intros H.
  apply bind_Ok in H as (metadata & _ & H). apply bind_Ok in H as ([] & Hv & H).
  rewrite as_protocol_error_Ok in Hv. apply bind_Ok in H as ([] & Ha & H).
  apply bind_Ok in H as (below & Hb & H). apply bind_Ok in H as (bytes & Hf & H).
  apply raise_when_Ok in Ha. apply of_option_Ok in Hb, Hf. injection H as <-. split; [|done].
  apply relative_to_Some in Hb. unfold ArtifactDeclaration_validate in Hv.
  apply bind_Ok in Hv as ([] & Hid & Hv). apply bind_Ok in Hv as ([] & Hr & Hv). invert_ok. simpl in *.
  constructor; simpl.
  - exists below, bytes. by rewrite <-Hb.
  - by apply validate_identifier_str in Hid.
  - intros ->. rewrite andb_true_r in Hr, Ha. bool_simpl. split.
    + intros Hin. apply Hr. by apply (list_elem_of_fmap_2 JStr) in Hin.
    + intros Hne. destruct allowed as [|a l]; [done|]. by bool_simpl.
  - bool_simpl. by destruct (get_null "runtime_authority" metadata).
Qed.

Lemma normalize_all_Ok root fs allowed reserved seen items ns :
  normalize_all sha256 resolve root fs allowed reserved seen items = Ok ns →
  Forall (admissible root fs allowed reserved) ns ∧
  Forall2 (λ item n, cl_kind item = JStr (na_kind n)) items ns ∧
  NoDup (na_store_key <$> ns) ∧ (∀ k, k ∈ na_store_key <$> ns → k ∉ seen).
Proof.
  revert seen ns. induction items as [|item items IH]; intros seen ns H; simpl in H.
  { injection H as <-. split_and!; try constructor. by intros k ?%not_elem_of_nil. }
  apply bind_Ok in H as (n & Hn & H). apply bind_Ok in H as ([] & Hs & H).
  apply bind_Ok in H as (ns' & Hns & [= <-]). apply raise_when_Ok in Hs. bool_simpl.
  apply normalize_Ok in Hn as [Ha Hk]. apply IH in Hns as (H1 & H2 & H3 & H4).
  split_and!; [by constructor|by constructor| |].
  - simpl. constructor; [|done]. intros Hin. apply (H4 _ Hin). left.
  - simpl. intros k [->|Hk']%elem_of_cons; [done|]. specialize (H4 k Hk'). set_solver.
Qed.

Lemma check_required_Ok manifest kinds expected ns :
  mapM_result (rule_get "kind") (pm_artifact_rules manifest) = Ok kinds →
  check_required manifest kinds expected ns = Ok tt →
  (∀ k, k ∈ expected → truthy k = true → k ∈ (λ n, JStr (na_kind n)) <$> ns) ∧
  (∀ d, JObj d ∈ pm_artifact_rules manifest → truthy (get_null "required" d) = true →
     truthy (get_null "kind" d) = true → get_null "kind" d ∈ (λ n, JStr (na_kind n)) <$> ns).
Proof.
  intros Hk H. unfold check_required in H. apply bind_Ok in H as (required & Hr & H).
  apply bind_Ok in H as (all & Ha & H). unfold py_set in Ha. apply bind_Ok in Ha as ([] & _ & [= <-]).
  destruct (List.filter _ _) as [|m missing] eqn:Hm; [|done].
  assert (∀ k, k ∈ expected ++ omap (λ kr : json * json, if truthy (snd kr) then Some (fst kr) else None)
                                    (zip kinds required) →
            truthy k = true → k ∈ (λ n, JStr (na_kind n)) <$> ns) as Hall.
  { intros k Hin Ht. destruct (decide (k ∈ (λ n, JStr (na_kind n)) <$> ns)) as [|Hn]; [done|].
    exfalso. assert (k ∈ @nil json) as Hbad; [|by apply not_elem_of_nil in Hbad].
    rewrite <-Hm. apply (elem_of_sel (λ k, truthy k && negb (bool_decide (k ∈ (λ n, JStr (na_kind n)) <$> ns)))).
    split; [done|]. rewrite Ht, bool_decide_false by done. done. }
  split; [intros k Hin; apply Hall; apply elem_of_app; by left|].
  intros d Hd Hreq. apply Hall. apply elem_of_app. right.
  apply mapM_result_Ok in Hk, Hr. apply list_elem_of_lookup_1 in Hd as [i Hi].
  destruct (Forall2_lookup_l _ _ _ _ _ Hk Hi) as (k & Hki & [= Hkk]).
  destruct (Forall2_lookup_l _ _ _ _ _ Hr Hi) as (r & Hri & [= Hrr]).
  apply list_elem_of_omap. exists (k, r). split.
  - eapply list_elem_of_lookup_2. by rewrite lookup_zip_with, Hki, Hri.
  - simpl. by rewrite <-Hrr, Hreq, Hkk.
Qed.
End spec.

(** C22. Every accepted artifact is an existing file below the workspace, measured by
    the platform, named once, of a kind the manifest allows and the platform does not
    keep for itself, and without a claim to the authority of the platform; expected
    and required kinds are all there. *)
Theorem artifacts_admissible sha256 resolve root fs manifest declarations expected require_expected
    allow_reserved kinds ns :
  validate_artifact_declarations sha256 resolve root fs manifest declarations expected
    require_expected allow_reserved = Ok ns →
  mapM_result (rule_get "kind") (pm_artifact_rules manifest) = Ok kinds →
  Forall (admissible sha256 root fs (List.filter truthy kinds) allow_reserved) ns ∧
  Forall2 (λ item n, cl_kind item = JStr (na_kind n)) declarations ns ∧
  NoDup (na_store_key <$> ns) ∧
  (require_expected = true →
     (∀ k, k ∈ expected → truthy k = true → k ∈ (λ n, JStr (na_kind n)) <$> ns) ∧
     (∀ d, JObj d ∈ pm_artifact_rules manifest → truthy (get_null "required" d) = true →
        truthy (get_null "kind" d) = true → get_null "kind" d ∈ (λ n, JStr (na_kind n)) <$> ns)).
Proof.
  intros H Hk. unfold validate_artifact_declarations in H. rewrite Hk in H.
  apply bind_Ok in H as (ks & [= <-] & H). apply bind_Ok in H as (allowed & Ha & H).
  unfold py_set in Ha. apply bind_Ok in Ha as ([] & _ & [= <-]).
  apply bind_Ok in H as (ns' & Hn & H). apply bind_Ok in H as ([] & Hr & [= <-]).
  apply normalize_all_Ok in Hn as (? & ? & ? & _). split_and!; [done..|].
  intros ->. by eapply check_required_Ok.
Qed.

Definition demo_manifest : PluginManifest :=
  MkPluginManifest (JStr "demo") (JStr "1") [JStr "run"] [JStr "flow"] [JStr "x86_64"] (JInt 60)
    [JObj [("kind", JStr "report"); ("required", JBool true)]] (JObj []) (JObj [])
    RuntimeRequirements_default (JStr DEFAULT_PROGRESS_MARKER) (JInt SCHEMA_VERSION).

Lemma artifacts_admissible_witness :
  ∃ ns, validate_artifact_declarations id path_resolve ["w"] {[["w"; "out"; "a.rpt"] := "data"]}
          demo_manifest [MkClaim (JStr "report") (JStr "out/a.rpt") JNull JNull] [] true false = Ok ns ∧
        NoDup (na_store_key <$> ns).
Proof.
  eexists. split; [vm_compute; reflexivity|].
  refine (proj1 (proj2 (proj2 (artifacts_admissible id path_resolve ["w"]
    {[["w"; "out"; "a.rpt"] := "data"]} demo_manifest
    [MkClaim (JStr "report") (JStr "out/a.rpt") JNull JNull] [] true false [JStr "report"] _ _ _)))).
  - vm_compute. reflexivity.
  - reflexivity.
Defined.

(** ** What the platform believes of an attempt *)

Section answer.
Context (sha256 : string → string) (resolve : list string → string → list string).
Context (loads : string → option json).

Lemma read_result_Ok content r : read_result loads content = Ok r →
  ∃ doc, loads content = Some doc ∧ PluginResult_from_dict doc = Ok r.
Proof.
  unfold read_result. intros H. apply bind_Ok in H as (doc & Hd & H). apply of_option_Ok in Hd.
  exists doc. split; [done|]. by destruct (PluginResult_from_dict doc) as [|[]].
Qed.

(** What a result that was read, not decided, is. *)
Definition reported (content : option string) (outcome : ProcessOutcome) (r : PluginResult) : Prop :=
  po_cancelled outcome = false ∧ po_timed_out outcome = false ∧ po_exceeded outcome = None ∧
  as_int (pr_exit_code r) = Some (po_returncode outcome) ∧
  (pr_status r = SUCCEEDED → po_returncode outcome = 0%Z) ∧
  ∃ text doc, content = Some text ∧ loads text = Some doc ∧ PluginResult_from_dict doc = Ok r.

Lemma load_result_Ok content outcome t1 t2 r : _load_result loads content outcome t1 t2 = Ok r →
  (po_cancelled outcome = true ∧ pr_status r = CANCELLED) ∨
  (po_cancelled outcome = false ∧ po_timed_out outcome = true ∧ pr_status r = TIMED_OUT) ∨
  (po_cancelled outcome = false ∧ po_timed_out outcome = false ∧ is_Some (po_exceeded outcome) ∧
     pr_status r = FAILED ∧ obj_get_null "retryable" (pr_failure r) = JBool false) ∨
  reported content outcome r.
Proof.
  unfold _load_result, reported. destruct (po_cancelled outcome); [intros [= <-]; by left|].
  destruct (po_timed_out outcome); [intros [= <-]; right; by left|].
  destruct (po_exceeded outcome); [intros [= <-]; right; right; left; split_and!; eauto|].
  intros H. apply bind_Ok in H as (text & Ht & H). apply of_option_Ok in Ht as ->.
  apply bind_Ok in H as (r' & Hr & H). apply bind_Ok in H as ([] & Hs & H).
  apply bind_Ok in H as ([] & Hc & [= <-]). apply raise_when_Ok in Hs, Hc. bool_simpl.
  apply read_result_Ok in Hr as (doc & Hd & Hf). right. right. right. split_and!; [done..| |eauto 6].
  intros Hst. rewrite Hst, bool_decide_true, andb_true_r in Hs by done. bool_simpl.
  by apply Z.eqb_eq.
Qed.
End answer.

(** An attempt the platform ended declares nothing, and nothing is required of it. *)
Lemma no_declarations sha256 resolve root fs manifest expected reserved r :
  validate_artifact_declarations sha256 resolve root fs manifest [] expected false reserved = r →
  r = Ok [] ∨ ∃ e, r = Err e ∧ is_protocol_error e = false.
Proof.
  intros <-. unfold validate_artifact_declarations. cbn [normalize_all].
  assert (∀ rules e, mapM_result (rule_get "kind") rules = Err e → is_protocol_error e = false) as Hk.
  { induction rules as [|rule rules IH]; intros e; simpl; [done|].
    destruct rule as [| | | | | |d]; simpl; try by intros [= <-].
    destruct (mapM_result _ rules) as [|e'] eqn:E; [done|]. intros [= <-]. by apply IH. }
  destruct (mapM_result _ _) as [kinds|e] eqn:E; [|right; exists e; split; [done|by eapply Hk]].
  cbn [mbind result_bind]. unfold py_set. destruct (negb _); [right; by eexists|by left].
Qed.

Lemma judge_Ok sha256 resolve loads root fs manifest task outcome t1 t2 reserved ex :
  judge sha256 resolve loads root fs manifest task outcome t1 t2 reserved = Ok ex →
  ex_outcome ex = outcome ∧
  if po_cancelled outcome then pr_status (ex_result ex) = CANCELLED ∧ ex_artifacts ex = []
  else if po_timed_out outcome then pr_status (ex_result ex) = TIMED_OUT ∧ ex_artifacts ex = []
  else if bool_decide (is_Some (po_exceeded outcome)) then
    pr_status (ex_result ex) = FAILED ∧ ex_artifacts ex = [] ∧
    obj_get_null "retryable" (pr_failure (ex_result ex)) = JBool false
  else
    (reported loads (fs !! resolve root RESULT_FILENAME) outcome (ex_result ex) ∧
     _validate_artifacts sha256 resolve root fs manifest task (ex_result ex)
       (bool_decide (pr_status (ex_result ex) = SUCCEEDED)) reserved = Ok (ex_artifacts ex)) ∨
    (ex_artifacts ex = [] ∧
     ∃ what, ex_result ex = protocol_failure t1 t2 (po_returncode outcome) what).
Proof.
  unfold judge. intros H.
  destruct (_load_result loads (fs !! resolve root RESULT_FILENAME) outcome t1 t2) as [r|e] eqn:Hl.
  - cbn [mbind result_bind] in H.
    assert (po_cancelled outcome = true ∨ po_timed_out outcome = true ∨ is_Some (po_exceeded outcome) →
            pr_artifacts r = [] ∧ pr_status r ≠ SUCCEEDED) as Hd.
    { intros Hd. revert Hl. unfold _load_result. destruct (po_cancelled outcome); [by intros [= <-]|].
      destruct (po_timed_out outcome); [by intros [= <-]|].
      destruct (po_exceeded outcome); [by intros [= <-]|]. by destruct Hd as [|[|[]]]. }
    assert (po_cancelled outcome = true ∨ po_timed_out outcome = true ∨ is_Some (po_exceeded outcome) →
            ex = MkAdapterExecution r outcome []) as Hex.
    { intros Hd'. destruct (Hd Hd') as [Hn Hs]. unfold _validate_artifacts in H.
      rewrite Hn, bool_decide_false in H by done. cbn [fmap list_fmap] in H.
      destruct (no_declarations sha256 resolve root fs manifest (t_expected_artifacts task) reserved _ eq_refl)
        as [He|(e & He & Hp)]; rewrite He in H; cbn [mbind result_bind] in H; [by injection H as <-|].
      by destruct e. }
    apply load_result_Ok in Hl as [[Hc Hs]|[(Hc & Ht & Hs)|[(Hc & Ht & Hx & Hs & Hr)|Hr]]].
    + rewrite Hc, Hex by auto. done.
    + rewrite Hc, Ht, Hex by auto. done.
    + rewrite Hc, Ht, Hex, bool_decide_true by auto. done.
    + pose proof Hr as (Hc & Ht & Hx & _). rewrite Hc, Ht, Hx, bool_decide_false by (by intros []).
      destruct (_validate_artifacts _ _ _ _ _ _ _ _ _) as [ns|e] eqn:Hv; cbn [mbind result_bind] in H.
      * injection H as <-. split; [done|]. by left.
      * destruct e; try done. injection H as <-. split; [done|]. right. split; [done|]. by eexists.
  - cbn [mbind result_bind] in H. destruct e; try done. injection H as <-. split; [done|]. simpl.
    revert Hl. unfold _load_result. destruct (po_cancelled outcome); [done|].
    destruct (po_timed_out outcome); [done|]. destruct (po_exceeded outcome); [done|]. intros _.
    rewrite bool_decide_false by (by intros []). right. split; [done|]. by eexists.
Qed.

Lemma plugin_result_status doc r : PluginResult_from_dict doc = Ok r →
  pr_status r ∈ [SUCCEEDED; FAILED; CANCELLED; TIMED_OUT].
Proof.
  unfold PluginResult_from_dict. intros H.
  apply bind_Ok in H as (value & _ & H). apply bind_Ok in H as (status & _ & H).
  apply bind_Ok in H as (ms & _ & H). apply bind_Ok in H as (ars & _ & H).
  apply bind_Ok in H as (d & _ & H). apply bind_Ok in H as ([] & Hv & [= <-]).
  unfold PluginResult_validate in Hv. apply bind_Ok in Hv as ([] & _ & Hv).
  apply bind_Ok in Hv as ([] & Hs & _). apply raise_when_Ok in Hs. by bool_simpl.
Qed.

Section execution.
Context (sha256 : string → string) (resolve : list string → string → list string).
Context (loads : string → option json) (float_repr : spec_float → string).
Context {S : Type} {HF : HasFiles S} (spawn : list json → dict → process S) (environ : dict).
Context (fuel : nat) (path_str : list string → string) (interval : Z) (supports : bool) (_now : S → string).

(** The answer is judged on the files there are when the process is gone. *)
Lemma execute_judged manifest task root cancel on_line env reserved limits on_started
    (s s' : S) ex :
  execute sha256 resolve loads float_repr spawn environ fuel path_str interval supports _now
    manifest task root cancel on_line env reserved limits on_started s = (Ok ex, s') →
  ∃ started_at ended_at, judge sha256 resolve loads root (files s') manifest task (ex_outcome ex)
    started_at ended_at reserved = Ok ex.
Proof.
  unfold execute. intros Hx.
  do 8 (apply bind_st_Ok in Hx as (? & ? & _ & Hx)).
  apply bind_st_Ok in Hx as (s1 & s2 & Hs & Hx). apply gets_Ok in Hs as [-> ->].
  apply lift_Ok in Hx as [Hx ->]. pose proof Hx as [Ho _]%judge_Ok. eexists _, _. by rewrite Ho.
Qed.
End execution.

(** C21. A plugin is believed to have succeeded only when its process ended on its own
    with exit code 0 and left a valid result with every expected artifact in place;
    cancellation, deadline and limits decided by the platform stand whatever the
    result says, and what is not believed fails and registers nothing. *)
Theorem adapter_answer sha256 resolve loads float_repr {S} {HF : HasFiles S} spawn environ fuel path_str
    interval supports _now manifest task root cancel on_line env reserved limits on_started
    (s s' : S) ex :
  execute sha256 resolve loads float_repr spawn environ fuel path_str interval supports _now
    manifest task root cancel on_line env reserved limits on_started s = (Ok ex, s') →
  let outcome := ex_outcome ex in
  let status := pr_status (ex_result ex) in
  (* success is believed only from a process that ended on its own with exit code 0
     and a result file that says so, with every expected artifact in place *)
  (status = SUCCEEDED →
     reported loads (files s' !! resolve root RESULT_FILENAME) outcome (ex_result ex) ∧
     po_returncode outcome = 0%Z ∧
     validate_artifact_declarations sha256 resolve root (files s') manifest
       (claim_of <$> pr_artifacts (ex_result ex)) (t_expected_artifacts task) true reserved
       = Ok (ex_artifacts ex)) ∧
  (* the platform's own decisions stand, whatever the result file says *)
  (po_cancelled outcome = true → status = CANCELLED) ∧
  (po_timed_out outcome = true → po_cancelled outcome = false → status = TIMED_OUT) ∧
  (is_Some (po_exceeded outcome) → po_cancelled outcome = false → po_timed_out outcome = false →
     status = FAILED ∧ obj_get_null "retryable" (pr_failure (ex_result ex)) = JBool false) ∧
  (* what is not believed is a failure that registers nothing *)
  (status ∈ [SUCCEEDED; FAILED; CANCELLED; TIMED_OUT]) ∧
  (ex_artifacts ex ≠ [] → reported loads (files s' !! resolve root RESULT_FILENAME) outcome (ex_result ex)).
Proof.
  intros (t1 & t2 & Hx)%execute_judged. cbv zeta. pose proof Hx as Hj%judge_Ok. destruct Hj as [_ Hj].
  destruct (po_cancelled (ex_outcome ex)) eqn:Hc.
  { destruct Hj as [-> ->]. split_and!; done || (set_solver). }
  destruct (po_timed_out (ex_outcome ex)) eqn:Ht.
  { destruct Hj as [-> ->]. split_and!; done || (set_solver). }
  case_bool_decide as He.
  { destruct Hj as (-> & -> & Hr). split_and!; done || (set_solver). }
  destruct Hj as [[Hr Hv]|(-> & what & ->)].
  - pose proof Hr as (_ & _ & _ & _ & Hz & text & doc & _ & _ & Hd). split_and!; try done.
    + intros Hs. split_and!; [done|by apply Hz|]. by rewrite bool_decide_true in Hv.
    + by eapply plugin_result_status.
  - split_and!; done || (simpl; set_solver).
Qed.

(** A state of files alone. *)
#[export] Instance file_system_has_files : HasFiles file_system.
Proof. by refine {| files := id; set_files := λ f _, f |}. Defined.

Definition demo_task_spec : TaskSpec :=
  MkTaskSpec (JStr "t1") (JStr "p1") (JStr "d1") JNull JNull JNull (JStr "demo") JNull
    (JObj []) (JObj []) [] None (JInt 30) (JInt 2) [JStr "report"] (JObj []) (JInt SCHEMA_VERSION).

(** A plugin that writes its report and a result, and exits. *)
Definition demo_spawn (command : list json) (env : dict) : process file_system :=
  MkProcess (Some (10, 10, None)%Z) 0
    (λ n, MkWakeup (λ fs, <[["w"; "out.rpt"] := "data"]> (<[["w"; RESULT_FILENAME] := "ok"]> fs))
            true [] 0 0 (1, S754_zero false, 0)%Z) [] id 0.
Definition demo_loads (text : string) : option json :=
  if bool_decide (text = "ok") then
    Some (JObj [("status", JStr "succeeded"); ("exit_code", JInt 0); ("started_at", JStr "t0");
                ("ended_at", JStr "t1"); ("schema_version", JInt 3);
                ("artifacts", JList [JObj [("kind", JStr "report"); ("path", JStr "out.rpt")]])])
  else None.

Lemma adapter_answer_witness :
  ∃ ex, fst (execute id path_resolve demo_loads (λ _, "0.0") demo_spawn [] 3 (str_join "/") 500000 true
               (λ _, "t0") demo_manifest demo_task_spec ["w"] (mret false) (λ _, mret tt) [] false None
               (λ _ _ _, mret tt) (∅ : file_system)) = Ok ex ∧
        pr_status (ex_result ex) = SUCCEEDED ∧ po_returncode (ex_outcome ex) = 0%Z.
Proof.
  destruct (execute id path_resolve demo_loads (λ _, "0.0") demo_spawn [] 3 (str_join "/") 500000 true
               (λ _, "t0") demo_manifest demo_task_spec ["w"] (mret false) (λ _, mret tt) [] false None
               (λ _ _ _, mret tt) (∅ : file_system)) as [[ex|e] s'] eqn:Hx;
    pose proof (f_equal fst Hx) as Hf; [|exfalso; vm_compute in Hf; discriminate Hf].
  exists ex. split; [reflexivity|].
  destruct (adapter_answer _ _ _ _ _ _ _ _ _ _ _ _ _ _ _ _ _ _ _ _ _ _ _ Hx) as [Hs _].
  assert (pr_status (ex_result ex) = SUCCEEDED) as Hst.
  { vm_compute in Hf. injection Hf as <-. reflexivity. }
  split; [exact Hst|]. exact (proj1 (proj2 (Hs Hst))).
Defined.
