(* ===== verification/Evaluation.v ===== *)
(** * contracts/evaluation.py and core/evaluator: the protected evaluation boundary

    The verdict, the pin, and [PluginBackedEvaluator]: an evaluator capability run
    through the process adapter, whose answer is accepted only when it is
    traceable.  [ProtectedEvaluator] is what the runtime relies on. *)

From stdpp Require Import gmap.
From S2P Require Export Adapter.
Open Scope string_scope.
Open Scope list_scope.

Definition PROTECTED_EVALUATOR_CAPABILITY : string := "evaluate.protected".
Definition VERDICT_ARTIFACT_KIND : string := "protected_evaluation".

(** ** contracts/evaluation.py *)

Inductive VerdictStatus := ADMISSIBLE | REJECTED | INCOMPLETE.
#[export] Instance VerdictStatus_eq_dec : EqDecision VerdictStatus.
Proof. solve_decision. Defined.

Record Verdict := MkVerdict {
  vd_status : VerdictStatus;
  vd_metrics : list Metric;
  vd_artifacts : list ArtifactDeclaration;
  vd_reason : json;
  vd_loss_manifest : json;
  vd_schema_version : json }.

(** A metric names an artifact or a file of the workspace. *)
Definition unsourced (m : Metric) : bool :=
  is_null (m_source_artifact_id m)
  && negb (truthy (obj_get_null "source_artifact_store_key" (m_context m))).

Definition Verdict_validate (v : Verdict) : result unit :=
  validate_version (vd_schema_version v);;
  raise_when (bool_decide (vd_status v = ADMISSIBLE) && bool_decide (vd_metrics v = []))
             (ContractError "metrics");;
  raise_when (negb (bool_decide (vd_status v = ADMISSIBLE)) && negb (truthy (vd_reason v)))
             (ContractError "reason");;
  iterM_result (λ m, Metric_validate m;;
                     raise_when (unsourced m) (ContractError "unsourced metric")) (vd_metrics v);;
  iterM_result ArtifactDeclaration_validate (vd_artifacts v);;
  validate_mapping "loss_manifest" (vd_loss_manifest v).

Record EvaluationRequest := MkEvaluationRequest {
  er_manifest : PluginManifest;
  er_task : TaskSpec;
  er_workspace : string;
  er_attempt_id : string;
  er_declared_artifacts : list ArtifactDeclaration }.

Definition EvaluationRequest_validate (r : EvaluationRequest) : result unit :=
  PluginManifest_validate (er_manifest r);;
  TaskSpec_validate (er_task r);;
  raise_when (str_empty (er_workspace r)) (ContractError "workspace");;
  validate_identifier "attempt_id" (JStr (er_attempt_id r)) true.

Record EvaluatorPin := MkEvaluatorPin {
  ep_plugin_id : json;
  ep_plugin_version : json;
  ep_manifest_sha256 : json }.

Definition EvaluatorPin_validate (p : EvaluatorPin) : result unit :=
  validate_identifier "plugin_id" (ep_plugin_id p) true;;
  validate_identifier "plugin_version" (ep_plugin_version p) true;;
  validate_sha256 "manifest_sha256" (ep_manifest_sha256 p) true.

Definition declares (capability : string) (m : PluginManifest) : bool :=
  bool_decide (JStr capability ∈ pm_capabilities m).

Definition EvaluatorPin_of (sha256 : string → string) (float_repr : spec_float → string)
    (manifest : PluginManifest) : result EvaluatorPin :=
  raise_when (negb (declares PROTECTED_EVALUATOR_CAPABILITY manifest))
             (ContractError "capability");;
  d ← PluginManifest_to_dict manifest;
  let pin := MkEvaluatorPin (pm_plugin_id manifest) (pm_plugin_version manifest)
               (JStr (sha256 (dumps float_repr sorted_keys (JObj d)))) in
  EvaluatorPin_validate pin;;
  Ok pin.

(** ** The verdict file *)

Definition verdict_status_of (v : json) : option VerdictStatus :=
  match v with
  | JStr s => if bool_decide (s = "admissible") then Some ADMISSIBLE
              else if bool_decide (s = "rejected") then Some REJECTED
              else if bool_decide (s = "incomplete") then Some INCOMPLETE
              else None
  | _ => None
  end.

(** [{"schema_version": SCHEMA_VERSION, **item}] *)
Definition versioned (item : json) : result json :=
  match item with
  | JObj d => Ok (JObj (update [("schema_version", JInt SCHEMA_VERSION)] d))
  | _ => Err (TypeError "not a mapping")
  end.

(** [item["kind"], item["path"]], and the metadata. *)
Definition verdict_artifact (item : json) : result ArtifactDeclaration :=
  match item with
  | JObj d =>
      kind ← of_option (KeyError "kind") (dict_get "kind" d);
      path ← of_option (KeyError "path") (dict_get "path" d);
      metadata ← py_dict (ContractError "metadata") (or_empty (get_null "metadata" d));
      Ok (MkArtifactDeclaration kind path (JBool true) JNull (JObj metadata) false)
  | _ => Err (TypeError "indices")
  end.

(** [except ContractError: raise EvaluationError] *)
Definition as_evaluation_error {A} (m : result A) : result A :=
  match m with Err (ContractError w) => Err (EvaluationError w) | _ => m end.

Section verdict.
Context (loads : string → option json).

Definition _load_verdict (content : option string) : result Verdict :=
  text ← of_option (EvaluationError "verdict is not readable") content;
  payload ← of_option (EvaluationError "verdict is not JSON") (loads text);
  match payload with
  | JObj d =>
      status ← of_option (EvaluationError "verdict status")
                         (verdict_status_of (get_null "status" d));
      items ← tuple_field "metrics" d;
      metrics ← mapM_result (λ item, v ← versioned item; Metric_from_dict v) items;
      items ← tuple_field "artifacts" d;
      artifacts ← mapM_result verdict_artifact items;
      as_evaluation_error (
        loss ← py_dict (ContractError "loss_manifest") (or_empty (get_null "loss_manifest" d));
        let verdict := MkVerdict status metrics artifacts (get_null "reason" d) (JObj loss)
                                 (JInt SCHEMA_VERSION) in
        Verdict_validate verdict;;
        Ok verdict)
  | _ => Err (OtherError "AttributeError")
  end.
End verdict.

(** ** PluginBackedEvaluator *)

Section evaluator.
Context (resolve : list string → string → list string) (loads : string → option json).
(* [Path(workspace).resolve()], [is_dir] of it, and [str] of a value that is not a string *)
Context (parts : string → list string) (path_str : list string → string) (is_dir : list string → bool) (py_repr : json → string).

Definition py_str (v : json) : string := match v with JStr s => s | _ => py_repr v end.

(** A file below the workspace. *)
Definition check_file (workspace : list string) (fs : file_system) (relative : string)
    : result unit :=
  let path := resolve workspace relative in
  of_option (EvaluationError "escapes the workspace") (relative_to workspace path);;
  of_option (EvaluationError "does not exist") (fs !! path);;
  Ok tt.

Definition check_metric (workspace : list string) (fs : file_system) (m : Metric) : result unit :=
  if negb (is_null (m_source_artifact_id m)) then Ok tt
  else
    let store_key := obj_get_null "source_artifact_store_key" (m_context m) in
    raise_when (negb (truthy store_key)) (EvaluationError "unsourced metric");;
    check_file workspace fs (py_str store_key).

Definition _check_traceability (verdict : Verdict) (workspace : list string) (fs : file_system)
    : result unit :=
  iterM_result (λ a, check_file workspace fs (str_of (ad_path a))) (vd_artifacts verdict);;
  iterM_result (check_metric workspace fs) (vd_metrics verdict).

Definition _locate_verdict (artifacts : list normalized) (workspace : list string)
    : result (list string) :=
  match List.filter (λ a, bool_decide (na_kind a = VERDICT_ARTIFACT_KIND)) artifacts with
  | [a] => Ok (resolve workspace (na_store_key a))
  | _ => Err (EvaluationError "exactly one verdict")
  end.

(** The task the evaluator capability is run on. *)
Definition evaluation_task (manifest : PluginManifest) (timeout_seconds : Z)
    (request : EvaluationRequest) (workspace : list string) (task : dict) : TaskSpec :=
  let t := er_task request in
  MkTaskSpec (JStr ("evaluate-" +:+ er_attempt_id request)) (t_project_id t) (t_design_id t)
    JNull JNull JNull (pm_plugin_id manifest) JNull
    (JObj [("workspace", JStr (path_str workspace));
           ("evaluated_plugin_id", pm_plugin_id (er_manifest request));
           ("evaluated_task", JObj task);
           ("declared_artifacts",
            JList ((λ a, JObj [("kind", ad_kind a); ("path", ad_path a)])
                     <$> er_declared_artifacts request))])
    (JObj []) [] None
    (py_min (JInt timeout_seconds) (pm_default_timeout_seconds manifest)) (JInt 1)
    [JStr VERDICT_ARTIFACT_KIND] (JObj []) (JInt SCHEMA_VERSION).

Definition evaluate {S} `{HasFiles S} (adapter : ProcessAdapter S) (manifest : PluginManifest)
    (timeout_seconds : Z) (request : EvaluationRequest) : st S Verdict :=
  lift (EvaluationRequest_validate request);;
  let workspace := parts (er_workspace request) in
  lift (raise_when (negb (is_dir workspace)) (EvaluationError "workspace does not exist"));;
  d ← lift (TaskSpec_to_dict (er_task request));
  execution ← adapter_execute adapter manifest (evaluation_task manifest timeout_seconds request workspace d)
                workspace (mret false) (λ _, mret tt) [] true None (λ _ _ _, mret tt);
  lift (raise_when (negb (bool_decide (pr_status (ex_result execution) = SUCCEEDED)))
                   (EvaluationError "the protected evaluator failed"));;
  path ← lift (_locate_verdict (ex_artifacts execution) workspace);
  fs ← gets files;
  verdict ← lift (_load_verdict loads (fs !! path));
  lift (_check_traceability verdict workspace fs);;
  mret verdict.

(** The constructor: only a capability that says so can be the evaluator. *)
Definition plugin_backed_evaluator (sha256 : string → string) (float_repr : spec_float → string)
    (manifest : PluginManifest) : result EvaluatorPin :=
  PluginManifest_validate manifest;;
  raise_when (negb (declares PROTECTED_EVALUATOR_CAPABILITY manifest))
             (EvaluationError "capability");;
  EvaluatorPin_of sha256 float_repr manifest.
End evaluator.

(** What [registry.list()] shows of a plugin here: its manifest and whether it may run. *)
Definition resolve_evaluator (plugins : list (PluginManifest * bool)) (plugin_id : option string)
    : result PluginManifest :=
  let candidates := fst <$> List.filter (λ p : PluginManifest * bool,
        declares PROTECTED_EVALUATOR_CAPABILITY (fst p) && snd p
        && match plugin_id with
           | Some i => bool_decide (pm_plugin_id (fst p) = JStr i)
           | None => true
           end) plugins in
  match candidates with
  | [m] => Ok m
  | _ => Err (EvaluationError "exactly one evaluator")
  end.

(** ** What the boundary accepts *)

Section traceable.
Context (resolve : list string → string → list string) (py_repr : json → string).

(** A file of the workspace under this relative path. *)
Definition present (workspace : list string) (fs : file_system) (relative : string) : Prop :=
  ∃ below b, resolve workspace relative = workspace ++ below ∧ fs !! (workspace ++ below) = Some b.

(** Where a metric comes from: an artifact, or a file that is there. *)
Definition sourced (workspace : list string) (fs : file_system) (m : Metric) : Prop :=
  m_source_artifact_id m ≠ JNull ∨
  present workspace fs (py_str py_repr (obj_get_null "source_artifact_store_key" (m_context m))).

Lemma check_file_Ok workspace fs relative :
  check_file resolve workspace fs relative = Ok tt → present workspace fs relative.
Proof.
  unfold check_file. intros H. apply bind_Ok in H as (below & Hb & H).
  apply bind_Ok in H as (b & Hf & _). apply of_option_Ok in Hb, Hf.
  apply relative_to_Some in Hb. exists below, b. by rewrite <-Hb.
Qed.

Lemma check_traceability_Ok v workspace fs :
  _check_traceability resolve py_repr v workspace fs = Ok tt →
  Forall (sourced workspace fs) (vd_metrics v) ∧
  Forall (λ a, present workspace fs (str_of (ad_path a))) (vd_artifacts v).
Proof.
  unfold _check_traceability. intros H. apply bind_Ok in H as ([] & Ha & Hm).
  apply iterM_result_Ok in Ha, Hm. split; [|by eapply Forall_impl; [exact Ha|]; intros a Hc; apply check_file_Ok].
  eapply Forall_impl; [exact Hm|]. intros m. unfold check_metric, sourced.
  destruct (m_source_artifact_id m); simpl; try by left.
  intros H. apply bind_Ok in H as ([] & _ & H). right. by apply check_file_Ok.
Qed.

Lemma verdict_artifact_unreserved item a :
  verdict_artifact item = Ok a → ad_allow_reserved a = false.
Proof.
  destruct item; try done. intros H. apply bind_Ok in H as (? & _ & H).
  apply bind_Ok in H as (? & _ & H). by apply bind_Ok in H as (? & _ & [= <-]).
Qed.

Lemma load_verdict_Ok loads content v : _load_verdict loads content = Ok v →
  Verdict_validate v = Ok tt ∧ Forall (λ a, ad_allow_reserved a = false) (vd_artifacts v).
Proof.
  unfold _load_verdict. intros H. apply bind_Ok in H as (text & _ & H).
  apply bind_Ok in H as (payload & _ & H). destruct payload as [| | | | | |d]; try done.
  do 4 (apply bind_Ok in H as (? & _ & H)). apply bind_Ok in H as (artifacts & Ha & H).
  destruct (py_dict _ _) as [loss|[]]; cbn [mbind result_bind as_evaluation_error] in H; try done.
  destruct (Verdict_validate _) as [[]|[]] eqn:Hv; cbn [mbind result_bind as_evaluation_error] in H;
    try done. injection H as <-. split; [done|]. simpl. apply mapM_result_Ok in Ha.
  clear -Ha. induction Ha as [|item a items artifacts Hi _ IH]; constructor; [|done].
  by eapply verdict_artifact_unreserved.
Qed.

Lemma declaration_unreserved a : ArtifactDeclaration_validate a = Ok tt →
  ad_allow_reserved a = false → ad_kind a ∉ JStr <$> RESERVED_ARTIFACT_KINDS.
Proof.
  unfold ArtifactDeclaration_validate. intros H Hr. apply bind_Ok in H as ([] & _ & H).
  apply bind_Ok in H as ([] & H & _). apply raise_when_Ok in H. rewrite Hr, andb_true_r in H.
  by bool_simpl.
Qed.
End traceable.

(** C38. A verdict the platform accepts is well formed: an admissible one has a metric
    and any other has a reason. Every artifact of it is a file below the evaluated
    workspace, of no reserved kind, and every metric cites such a file, or names an
    artifact by id, which this check does not look up. *)
Theorem verdict_traceable resolve loads parts path_str is_dir py_repr {S} {HF : HasFiles S} adapter
    manifest timeout request (s s' : S) v :
  evaluate resolve loads parts path_str is_dir py_repr adapter manifest timeout request s = (Ok v, s') →
  let workspace := parts (er_workspace request) in
  Verdict_validate v = Ok tt ∧
  (vd_status v = ADMISSIBLE → vd_metrics v ≠ []) ∧
  (vd_status v ≠ ADMISSIBLE → truthy (vd_reason v) = true) ∧
  Forall (sourced resolve py_repr workspace (files s')) (vd_metrics v) ∧
  Forall (λ a, present resolve workspace (files s') (str_of (ad_path a)) ∧
               ad_kind a ∉ JStr <$> RESERVED_ARTIFACT_KINDS) (vd_artifacts v).
Proof.
  unfold evaluate. intros H. do 6 (apply bind_st_Ok in H as (? & ? & _ & H)).
  apply bind_st_Ok in H as (fs & s1 & Hf & H). apply gets_Ok in Hf as [-> ->].
  apply bind_st_Ok in H as (v' & s1 & Hl & H). apply lift_Ok in Hl as [Hl ->].
  apply bind_st_Ok in H as ([] & s1 & Ht & H). apply lift_Ok in Ht as [Ht ->].
  apply mret_st_Ok in H as [-> ->]. 
  apply load_verdict_Ok in Hl as [Hl Hres]. apply check_traceability_Ok in Ht as [Hm Ha].
  cbv zeta. pose proof Hl as Hv. unfold Verdict_validate in Hv.
  apply bind_Ok in Hv as ([] & _ & Hv). apply bind_Ok in Hv as ([] & H1 & Hv).
  apply bind_Ok in Hv as ([] & H2 & Hv). apply bind_Ok in Hv as ([] & _ & Hv).
  apply bind_Ok in Hv as ([] & H3 & _). apply raise_when_Ok in H1, H2. apply iterM_result_Ok in H3.
  split_and!; [done| | |done|].
  - intros Hs. rewrite Hs, bool_decide_true in H1 by done. simpl in H1. by bool_simpl.
  - intros Hs. rewrite bool_decide_false in H2 by done. simpl in H2. by bool_simpl.
  - rewrite Forall_forall in Ha, H3, Hres |- *. intros a Hin. split; [by apply Ha|].
    by apply declaration_unreserved; [apply H3|apply Hres].
Qed.

(** An evaluator that writes one sourced metric. *)
Definition demo_evaluator : PluginManifest :=
  MkPluginManifest (JStr "judge") (JStr "1") [JStr "run"] [JStr PROTECTED_EVALUATOR_CAPABILITY]
    [JStr "x86_64"] (JInt 60) [] (JObj []) (JObj [])
    RuntimeRequirements_default (JStr DEFAULT_PROGRESS_MARKER) (JInt SCHEMA_VERSION).

Definition demo_judge : ProcessAdapter file_system :=
  process_adapter id path_resolve
    (λ text, if bool_decide (text = "ok") then
       Some (JObj [("status", JStr "succeeded"); ("exit_code", JInt 0); ("started_at", JStr "t0");
                   ("ended_at", JStr "t1"); ("schema_version", JInt 3);
                   ("artifacts", JList [JObj [("kind", JStr VERDICT_ARTIFACT_KIND);
                                              ("path", JStr "verdict.json")]])])
     else None)
    (λ _, "0.0")
    (λ _ _, MkProcess (Some (10, 10, None)%Z) 0
      (λ n, MkWakeup (λ fs, <[["w"; "verdict.json"] := "verdict"]>
                              (<[["w"; RESULT_FILENAME] := "ok"]> fs))
              true [] 0 0 (1, S754_zero false, 0)%Z) [] id 0)
    [] 3 (str_join "/") 500000 true (λ _, "t0").

Definition demo_verdict (text : string) : option json :=
  if bool_decide (text = "verdict") then
    Some (JObj [("status", JStr "admissible");
                ("metrics", JList [JObj [("name", JStr "wns"); ("value", JInt (-3));
                   ("context", JObj [("source_artifact_store_key", JStr "timing.rpt")])]])])
  else None.

Definition demo_request : EvaluationRequest :=
  MkEvaluationRequest demo_manifest demo_task_spec "/w" "attempt-1" [].

Lemma verdict_traceable_witness :
  ∃ v, fst (evaluate path_resolve demo_verdict (λ _, ["w"]) (str_join "/") (λ _, true) (λ _, "?")
              demo_judge demo_evaluator 600 demo_request
              ({[["w"; "timing.rpt"] := "slack"]} : file_system)) = Ok v ∧ vd_metrics v ≠ [].
Proof.
  destruct (evaluate path_resolve demo_verdict (λ _, ["w"]) (str_join "/") (λ _, true) (λ _, "?")
              demo_judge demo_evaluator 600 demo_request
              ({[["w"; "timing.rpt"] := "slack"]} : file_system)) as [[v|e] s'] eqn:Hx;
    pose proof (f_equal fst Hx) as Hf; [|exfalso; vm_compute in Hf; discriminate Hf].
  exists v. split; [reflexivity|].
  apply (verdict_traceable _ _ _ _ _ _ _ _ _ _ _ _ _ Hx).
  vm_compute in Hf. injection Hf as <-. reflexivity.
Defined.
