(* ===== verification/RuntimeConfig.v ===== *)
(** * runtime/runtime.py and resource_query.py: capacity

    [RuntimeConfig], the reservation every task gets, the check at submission and
    the explanation of a waiting run. *)

From S2P Require Export StoreReclaim.
Open Scope string_scope.
Open Scope list_scope.

(** A configuration after [__post_init__]. *)
Record RuntimeConfig := MkRuntimeConfig {
  workspace_root : string;
  lease_seconds : Z;
  config_worker_id : string;
  capacity_cpu_cores : Z;
  capacity_memory_bytes : Z;
  platform_fraction : spec_float;
  default_task_cpu_cores : Z;
  default_task_memory_bytes : Z;
  allowed_input_roots : list (list string) }.

(** [not 0 < fraction <= 1] *)
Definition bad_fraction (f : spec_float) : bool :=
  negb (real_ltb (real_of_Z 0) (real_of_float f) && real_leb (real_of_float f) (real_of_Z 1)).

Definition is_below_one (o : option Z) : bool :=
  match o with Some z => (z <? 1)%Z | None => false end.

(** What is not given is read off the host: [os.cpu_count()] and the physical
    memory.  [root] and [roots] are resolved paths, [fallback] the generated name. *)
Definition __post_init__ (host_cpus : option Z) (host_memory : Z) (root : string)
    (lease : Z) (worker fallback : string) (cpu memory : option Z) (fraction : spec_float)
    (default_cpu default_memory : Z) (roots : list (list string)) : result RuntimeConfig :=
  raise_when (lease <=? 0)%Z (ValueError "lease_seconds");;
  raise_when (is_below_one cpu) (ValueError "capacity_cpu_cores");;
  raise_when (is_below_one memory) (ValueError "capacity_memory_bytes");;
  let cpu := match cpu with
             | Some c => c
             | None => match host_cpus with Some 0%Z | None => 1%Z | Some c => c end
             end in
  let memory := default host_memory memory in
  raise_when ((default_cpu <? 1) || (default_memory <? 1))%Z (ValueError "default reservation");;
  raise_when (bad_fraction fraction) (ValueError "platform_fraction");;
  Ok (MkRuntimeConfig root lease (if str_empty worker then fallback else worker) cpu memory
        fraction default_cpu default_memory roots).

Section config.
Context (config : RuntimeConfig).

(** [getattr(requested, field) if requested else dflt], where [None] also defaults. *)
Definition requested (field : ResourceRequest → json) (dflt : json) (task : TaskSpec) : json :=
  match t_resources task with
  | Some r => if is_null (field r) then dflt else field r
  | None => dflt
  end.

Definition reservation_for (task : TaskSpec) : ResourceRequest :=
  MkResourceRequest
    (requested rr_cpu_seconds JNull task)
    (requested rr_cpu_cores (JInt (default_task_cpu_cores config)) task)
    (requested rr_memory_bytes (JInt (default_task_memory_bytes config)) task)
    (requested rr_processes JNull task).

(** [v is not None and v > bound] *)
Definition more_than (v : json) (bound : Z) : bool :=
  match as_int v with Some z => (bound <? z)%Z | None => false end.

Definition _check_resources (supports_limits : bool) (task : TaskSpec) : result unit :=
  let resources := reservation_for task in
  budget_cpu ← budget (capacity_cpu_cores config) (platform_fraction config);
  budget_memory ← budget (capacity_memory_bytes config) (platform_fraction config);
  raise_when ((budget_cpu <? 1) || (budget_memory <? default_task_memory_bytes config))%Z
             (ValueError "platform capacity");;
  raise_when (more_than (rr_cpu_cores resources) budget_cpu) (ValueError "cpu_cores");;
  raise_when (more_than (rr_memory_bytes resources) budget_memory) (ValueError "memory");;
  raise_when (more_than (rr_memory_bytes resources) (default_task_memory_bytes config)
              && negb (bool_decide (obj_get_null "memory_approval" (t_labels task) = JStr "manual")))
             (ValueError "memory_approval");;
  raise_when (match t_resources task with
              | Some r => ResourceRequest_declared r && negb supports_limits
              | None => false
              end) (ResourceLimitsUnsupported "limits").

(** ** resource_query.py *)

Definition NOT_STARTED : list RuntimeStatus := [QUEUED; PREPARING; RETRY_WAIT].

Inductive waiting := WaitsForResources (free_cpu free_memory : Z) | Claimable.

(** [int(capacity * fraction)]: rounded down. *)
Definition query_budget (capacity : Z) : result Z :=
  of_option (OtherError "OverflowError")
            (float_trunc (float_mul (float_of_Z capacity) (platform_fraction config))).

Definition waiting_for (run_id : string) (s : Store) : result (option waiting) :=
  record ← get_run run_id s;
  if negb (status_in NOT_STARTED (rec_status record)) then Ok None
  else
    let need := reservation_for (rec_task_spec record) in
    let have := resource_totals s in
    budget_cpu ← query_budget (capacity_cpu_cores config);
    budget_memory ← query_budget (capacity_memory_bytes config);
    let free_cpu := (budget_cpu - fst have)%Z in
    let free_memory := (budget_memory - snd have)%Z in
    if more_than (rr_cpu_cores need) free_cpu || more_than (rr_memory_bytes need) free_memory
    then Ok (Some (WaitsForResources (Z.max free_cpu 0) (Z.max free_memory 0)))
    else Ok (Some Claimable).
End config.

(** ** What the check at submission promises *)

(** The reservation of a valid task: integers, from the task or the defaults. *)
Lemma check_strict_int_Ok what least v :
  check_strict_int what least v = Ok tt → v = JNull ∨ ∃ z, v = JInt z ∧ (least ≤ z)%Z.
Proof.
  unfold check_strict_int. destruct v; simpl; try done; [by left|].
  rewrite raise_when_Ok, Z.ltb_ge. intros. right. eauto.
Qed.

Lemma reservation_for_ints config task : TaskSpec_validate task = Ok tt →
  (1 ≤ default_task_cpu_cores config)%Z → (1 ≤ default_task_memory_bytes config)%Z →
  ∃ c m, rr_cpu_cores (reservation_for config task) = JInt c ∧ (1 ≤ c)%Z ∧
         rr_memory_bytes (reservation_for config task) = JInt m ∧ (1 ≤ m)%Z.
Proof.
  intros Hv Hc Hm. destruct (TaskSpec_validate_parts _ Hv) as (_ & _ & Hr).
  unfold reservation_for, requested; simpl. destruct (t_resources task) as [r|];
    [|by exists (default_task_cpu_cores config), (default_task_memory_bytes config)].
  specialize (Hr r eq_refl). unfold ResourceRequest_validate in Hr.
  apply bind_Ok in Hr as ([] & _ & Hr). apply bind_Ok in Hr as ([] & H1 & Hr).
  apply bind_Ok in Hr as ([] & H2 & _). apply check_strict_int_Ok in H1, H2.
  destruct H1 as [->|(c & -> & ?)], H2 as [->|(m & -> & ?)]; simpl; eauto 10.
Qed.

Lemma totals_nonneg s : store_ok s →
  (0 ≤ fst (resource_totals s))%Z ∧ (0 ≤ snd (resource_totals s))%Z.
Proof.
  intros [_ _ [_ He]]. unfold resource_totals, sum_col. simpl.
  induction (reservations s) as [|v l IH]; simpl; [lia|].
  apply Forall_cons in He as [(? & ? & _) He]. specialize (IH He). lia.
Qed.

(** A task the runtime accepts can be started whenever nothing is reserved, and a task
    refused for its size could never have been started. *)
Theorem accepted_tasks_fit config supports task s g w ws lease hex now bc bm :
  TaskSpec_validate task = Ok tt →
  (1 ≤ default_task_cpu_cores config)%Z → (1 ≤ default_task_memory_bytes config)%Z →
  budget (capacity_cpu_cores config) (platform_fraction config) = Ok bc →
  budget (capacity_memory_bytes config) (platform_fraction config) = Ok bm →
  reachable s → g ∈ stages s → s_status g = QUEUED ∨ s_status g = RETRY_WAIT → (0 < lease)%Z →
  has_row (is_attempt (_new_id "attempt" hex)) (attempts s) = false →
  let start := start_attempt (s_stage_run_id g) w ws lease (Some (reservation_for config task))
                 (Some (capacity_cpu_cores config)) (Some (capacity_memory_bytes config))
                 (platform_fraction config) hex now s in
  (* what is accepted runs as soon as the machine is free *)
  (_check_resources config supports task = Ok tt → reservations s = [] →
     ∃ a s', start = (Ok (Some a), s')) ∧
  (* and what is refused for its size would never have run *)
  (_check_resources config supports task = Err (ValueError "cpu_cores") ∨
   _check_resources config supports task = Err (ValueError "memory") →
     start = (Ok None, s)).
Proof.
  intros Hv Hdc Hdm Hbc Hbm Hok%reachable_ok Hg Hst Hl Hf start.
  destruct (reservation_for_ints config task Hv Hdc Hdm) as (c & m & Hc & Hc1 & Hm & Hm1).
  assert (int_or (rr_cpu_cores (reservation_for config task)) 1 = c) as Hic.
  { rewrite Hc. unfold int_or. simpl. destruct (Z.eqb_spec c 0); lia. }
  assert (int_or (rr_memory_bytes (reservation_for config task)) 0 = m) as Him.
  { rewrite Hm. unfold int_or. simpl. destruct (Z.eqb_spec m 0); lia. }
  destruct (start_attempt_decides s g w ws lease (reservation_for config task)
    (capacity_cpu_cores config) (capacity_memory_bytes config) (platform_fraction config) hex now bc bm)
    as [Hno Hyes]; [done..| | | |done|done|].
  { unfold ResourceRequest_declared. rewrite Hc. simpl. by rewrite orb_true_r. }
  { rewrite Hic. lia. }
  { rewrite Him. lia. }
  unfold fits in Hno, Hyes. rewrite Hic, Him in Hno, Hyes. fold start in Hno, Hyes.
  unfold _check_resources. rewrite Hbc, Hbm, Hc, Hm. cbn [mbind result_bind more_than as_int].
  split.
  - intros Hcheck He. apply bind_Ok in Hcheck as ([] & _ & Hcheck).
    apply bind_Ok in Hcheck as ([] & Hfc & Hcheck). apply bind_Ok in Hcheck as ([] & Hfm & _).
    apply raise_when_Ok in Hfc, Hfm. apply Z.ltb_ge in Hfc, Hfm.
    destruct Hyes as (a & s' & H & _); [|by exists a, s'].
    unfold resource_totals. rewrite He. simpl. lia.
  - intros Hcheck. apply Hno. pose proof (totals_nonneg s Hok).
    destruct (Z.ltb_spec bc c) as [|Hle]; [lia|]. destruct (Z.ltb_spec bm m) as [|Hle']; [lia|].
    exfalso. clear -Hcheck. revert Hcheck. unfold raise_when.
    repeat case_match; simpl; intros [He|He]; discriminate He.
Qed.

Definition demo_config : RuntimeConfig :=
  MkRuntimeConfig "/work" 30 "w1" 4 4000 default_fraction 1 1000 [].

Lemma accepted_tasks_fit_witness :
  ∃ a s', start_attempt "stage-s1" "w1" "/w" 30 (Some (reservation_for demo_config demo_task))
            (Some 4%Z) (Some 4000%Z) default_fraction "a1" 5 demo_queued = (Ok (Some a), s').
Proof.
  destruct (stages demo_queued) as [|g l] eqn:E; [exfalso; vm_compute in E; discriminate|].
  assert (s_stage_run_id g = "stage-s1" ∧ s_status g = QUEUED) as [Hid Hst].
  { vm_compute in E. injection E as <- <-. split; reflexivity. }
  destruct (accepted_tasks_fit demo_config true demo_task demo_queued g "w1" "/w" 30 "a1" 5 3 2400)
    as [H _].
  - vm_compute. reflexivity.
  - simpl. lia.
  - simpl. lia.
  - vm_compute. reflexivity.
  - vm_compute. reflexivity.
  - exact demo_queued_reachable.
  - rewrite E. left.
  - left. exact Hst.
  - lia.
  - vm_compute. reflexivity.
  - destruct H as (a & s' & H); [vm_compute; reflexivity|vm_compute; reflexivity|].
    exists a, s'. rewrite Hid in H. exact H.
Defined.

(** ** The explanation of a waiting run *)

(** Rounding down never exceeds rounding up. *)
Lemma float_trunc_ceil f t c : float_trunc f = Some t → float_ceil f = Some c → (t ≤ c)%Z.
Proof.
  unfold float_trunc, float_ceil. destruct (real_of_float f) as [m e| |]; try done.
  intros [= <-] [= <-]. destruct (Z.leb_spec 0 e) as [|He]; [done|].
  assert (0 < 2 ^ (- e))%Z as Hd by (apply Z.pow_pos_nonneg; lia). revert Hd.
  generalize (2 ^ (- e))%Z as d. intros d Hd.
  assert (Z.quot m d * d ≤ m ∨ m < 0)%Z as Hq.
  { destruct (Z.le_gt_cases 0 m); [left|by right].
    pose proof (Z.quot_rem' m d). pose proof (Z.rem_bound_pos m d). nia. }
  pose proof (Z.div_mod (- m) d). pose proof (Z.mod_pos_bound (- m) d).
  destruct Hq as [Hq|Hq]; [nia|].
  assert (Z.quot m d = - (- m / d))%Z as ->; [|lia].
  rewrite <-(Z.opp_involutive m) at 1. by rewrite Z.quot_opp_l, Z.quot_div_nonneg by lia.
Qed.

Lemma query_budget_below config cap q b : query_budget config cap = Ok q →
  budget cap (platform_fraction config) = Ok b → (q ≤ b)%Z.
Proof.
  unfold query_budget, budget. rewrite of_option_Ok. intros Hq Hb.
  apply bind_Ok in Hb as (c & Hc & [= <-]). apply of_option_Ok in Hc.
  pose proof (float_trunc_ceil _ _ _ Hq Hc). lia.
Qed.

(** A queued run the resource query explains as claimable is admitted by
    start_attempt, although the query rounds its budget differently. *)
Theorem claimable_is_admitted config s row g w ws lease hex now bc bm rec :
  (1 ≤ default_task_cpu_cores config)%Z → (1 ≤ default_task_memory_bytes config)%Z →
  budget (capacity_cpu_cores config) (platform_fraction config) = Ok bc →
  budget (capacity_memory_bytes config) (platform_fraction config) = Ok bm →
  reachable s → row ∈ runs s → get_run (r_run_id row) s = Ok rec →
  (* no operation of the runtime leaves a run in PREPARING *)
  r_status row ≠ PREPARING →
  g ∈ stages s → s_run_id g = r_run_id row → (0 < lease)%Z →
  has_row (is_attempt (_new_id "attempt" hex)) (attempts s) = false →
  waiting_for config (r_run_id row) s = Ok (Some Claimable) →
  ∃ a s', start_attempt (s_stage_run_id g) w ws lease
            (Some (reservation_for config (rec_task_spec rec)))
            (Some (capacity_cpu_cores config)) (Some (capacity_memory_bytes config))
            (platform_fraction config) hex now s = (Ok (Some a), s').
Proof.
  intros Hdc Hdm Hbc Hbm Hok%reachable_ok Hrow Hrec Hnp Hg Hgid Hl Hf Hw.
  destruct (row_loads s Hok row Hrow) as (rec' & Hload & _ & Hst & Hd).
  assert (rec' = rec) as ->.
  { unfold get_run in Hrec. rewrite (fetch_run s Hok row Hrow) in Hrec. simpl in Hrec. congruence. }
  assert (TaskSpec_validate (rec_task_spec rec) = Ok tt) as Hv.
  { unfold TaskSpec_to_dict in Hd. by apply bind_Ok in Hd as ([] & Hv & _). }
  destruct (reservation_for_ints config _ Hv Hdc Hdm) as (c & m & Hc & Hc1 & Hm & Hm1).
  unfold waiting_for in Hw. rewrite Hrec in Hw. cbn [mbind result_bind] in Hw.
  destruct (negb (status_in _ _)) eqn:Hns; [done|]. apply negb_false_iff in Hns.
  rewrite Hc, Hm in Hw. cbn [more_than as_int] in Hw.
  apply bind_Ok in Hw as (qc & Hqc & Hw). apply bind_Ok in Hw as (qm & Hqm & Hw).
  destruct (_ || _) eqn:Hfree; [done|]. apply orb_false_iff in Hfree as [H1 H2].
  apply Z.ltb_ge in H1, H2.
  pose proof (query_budget_below _ _ _ _ Hqc Hbc). pose proof (query_budget_below _ _ _ _ Hqm Hbm).
  assert (s_status g = QUEUED ∨ s_status g = RETRY_WAIT) as Hgst.
  { rewrite (stage_of_run_unique s row g) by done. rewrite Hst in Hns.
    unfold status_in, NOT_STARTED in Hns. bool_simpl. rewrite !elem_of_cons in Hns.
    destruct Hns as [|[|[|[]%not_elem_of_nil]]]; auto; done. }
  destruct (start_attempt_decides s g w ws lease (reservation_for config (rec_task_spec rec))
    (capacity_cpu_cores config) (capacity_memory_bytes config) (platform_fraction config) hex now bc bm)
    as [_ Hyes]; [done..| | | |done|done|].
  { unfold ResourceRequest_declared. rewrite Hc. simpl. by rewrite orb_true_r. }
  { rewrite Hc. unfold int_or. simpl. destruct (Z.eqb_spec c 0); lia. }
  { rewrite Hm. unfold int_or. simpl. destruct (Z.eqb_spec m 0); lia. }
  destruct Hyes as (a & s' & Ha & _); [|by exists a, s'].
  unfold fits. rewrite Hc, Hm. unfold int_or. cbn [as_int].
  destruct (Z.eqb_spec c 0), (Z.eqb_spec m 0); lia.
Qed.

Lemma claimable_is_admitted_witness :
  ∃ a s', start_attempt "stage-s1" "w1" "/w" 30 (Some (reservation_for demo_config demo_task))
            (Some 4%Z) (Some 4000%Z) default_fraction "a1" 5 demo_queued = (Ok (Some a), s').
Proof.
  destruct (stages demo_queued) as [|g l] eqn:E; [exfalso; vm_compute in E; discriminate|].
  destruct (runs demo_queued) as [|row l'] eqn:Er; [exfalso; vm_compute in Er; discriminate|].
  destruct (get_run "run-r1" demo_queued) as [rec|] eqn:Eg; [|exfalso; vm_compute in Eg; discriminate].
  assert (s_stage_run_id g = "stage-s1" ∧ s_run_id g = "run-r1" ∧ r_run_id row = "run-r1" ∧
          r_status row = QUEUED ∧ rec_task_spec rec = demo_task) as (H1 & H2 & H3 & H4 & H5).
  { vm_compute in E, Er, Eg. injection E as <- <-. injection Er as <- <-. injection Eg as <-.
    repeat split; reflexivity. }
  rewrite <-H5, <-H1.
  apply (claimable_is_admitted demo_config demo_queued row g "w1" "/w" 30 "a1" 5 3 2400 rec).
  - simpl. lia.
  - simpl. lia.
  - vm_compute. reflexivity.
  - vm_compute. reflexivity.
  - exact demo_queued_reachable.
  - rewrite Er. left.
  - rewrite H3. exact Eg.
  - rewrite H4. discriminate.
  - rewrite E. left.
  - congruence.
  - lia.
  - vm_compute. reflexivity.
  - rewrite H3. vm_compute. reflexivity.
Defined.

(** The converse fails: on 4 cores at 0.6 a task of 3 cores is admitted, and said to
    wait for resources. *)
Definition demo_wide_task : TaskSpec :=
  MkTaskSpec (JStr "task-3") (JStr "project") (JStr "design") JNull JNull JNull
    (JStr "research-toolkit") JNull (JObj []) (JObj []) []
    (Some (MkResourceRequest JNull (JInt 3) JNull JNull))
    (JInt 60) (JInt 1) [] (JObj []) (JInt 3).
Definition demo_wide : Store :=
  snd (submit_run demo_wide_task "main" "1.0" true None false "r3" "s3" 1000 empty_store).

Example waiting_for_rounds_down :
  waiting_for demo_config "run-r3" demo_wide = Ok (Some (WaitsForResources 2 2400)) ∧
  is_Some (match fst (start_attempt "stage-s3" "w1" "/w" 30
                   (Some (reservation_for demo_config demo_wide_task)) (Some 4%Z) (Some 4000%Z)
                   default_fraction "a1" 5 demo_wide) with Ok a => a | Err _ => None end).
Proof. vm_compute. split; [reflexivity|by eexists]. Qed.
