(* ===== verification/World.v ===== *)
(** * The host a worker runs on

    What [WorkflowRuntime] works with: the store with its byte stores, the host's
    files, the observer and the lease pulse of the attempt in hand, and the draws
    made so far from [uuid4] and the clocks.  The section's parameters are the host:
    generated identifiers, the wall and the monotonic clock (microseconds). *)

From stdpp Require Import gmap.
From S2P Require Export Observer Adapter.
Open Scope string_scope.
Open Scope list_scope.

Record World := MkWorld {
  cust : Custody;
  host_files : file_system;
  watcher : Observer;
  last_pulse : Z;
  draws : nat }.

Definition store_of (w : World) : Store := db (cust w).

Definition with_custody (c : Custody) (w : World) : World :=
  MkWorld c (host_files w) (watcher w) (last_pulse w) (draws w).
Definition with_files (f : file_system) (w : World) : World :=
  MkWorld (cust w) f (watcher w) (last_pulse w) (draws w).
Definition with_watcher (o : Observer) (w : World) : World :=
  MkWorld (cust w) (host_files w) o (last_pulse w) (draws w).
Definition with_pulse (z : Z) (w : World) : World :=
  MkWorld (cust w) (host_files w) (watcher w) z (draws w).

#[export] Program Instance world_has_files : HasFiles World :=
  {| files := host_files; set_files := with_files |}.
Next Obligation. done. Qed.
Next Obligation. by intros []. Qed.

(** A call into the store, into its byte stores, or into the observer. *)
Definition in_custody {A} (m : st Custody A) : st World A :=
  λ w, let '(r, c) := m (cust w) in (r, with_custody c w).
Definition in_store {A} (m : st Store A) : st World A := in_custody (in_db m).
Definition in_observed {A} (m : st Observed A) : st World A :=
  λ w, let '(r, o) := m (MkObserved (watcher w) (store_of w)) in
       (r, with_watcher (ob o)
             (with_custody (MkCustody (ob_store o) (objects (cust w)) (evidence (cust w))) w)).

(** Reading a file as the store does. *)
Definition file_at (w : World) (path : list string) : option string := host_files w !! path.

Section draws.
Context (uuid : nat → string) (clock monotonic : nat → Z).

(** [uuid4().hex] and the time of day. *)
Definition draw : st World (string * Z) :=
  λ w, (Ok (uuid (draws w), clock (draws w)),
        MkWorld (cust w) (host_files w) (watcher w) (last_pulse w) (S (draws w))).
Definition now : st World Z := d ← draw; mret (snd d).
Definition monotonic_now : st World Z :=
  λ w, (Ok (monotonic (draws w)),
        MkWorld (cust w) (host_files w) (watcher w) (last_pulse w) (S (draws w))).
End draws.

(** [try: m finally: f] *)
Definition finally {S A} (m : st S A) (f : st S unit) : st S A :=
  λ s, let '(r, s1) := m s in
       let '(rf, s2) := f s1 in
       (match rf with Ok _ => r | Err e => Err e end, s2).

(** [try: m except: h] where the handler may end the function: [inl] is a return. *)
Abbreviation returning A B := (A + B)%type.

(** ** The worker's view of the store's history *)

Definition steps (w w' : World) : Prop := rtc store_step (store_of w) (store_of w').

#[export] Instance steps_preorder : PreOrder steps.
Proof.
  split.
  - intros w. apply rtc_refl.
  - intros w1 w2 w3 H1 H2. unfold steps in *. by etrans.
Qed.

(** A program that changes the store by the store's operations only. *)
Definition by_steps {A} (m : st World A) : Prop := follows steps m.

Lemma by_steps_bind {A B} (m : st World A) (f : A → st World B) :
  by_steps m → (∀ a, by_steps (f a)) → by_steps (m ≫= f).
Proof. apply follows_bind, _. Qed.

Lemma by_steps_same {A} (m : st World A) :
  (∀ w, store_of (snd (m w)) = store_of w) → by_steps m.
Proof. intros H w r w' E. specialize (H w). rewrite E in H. unfold steps. simpl in H. by rewrite H. Qed.

Lemma by_steps_pure {A} (m : st World A) : (∀ w, snd (m w) = w) → by_steps m.
Proof. apply follows_pure, _. Qed.

Lemma by_steps_mret {A} (a : A) : by_steps (mret a).
Proof. by apply by_steps_pure. Qed.
Lemma by_steps_lift {A} (m : result A) : by_steps (lift m).
Proof. by apply by_steps_pure. Qed.
Lemma by_steps_gets {A} (f : World → A) : by_steps (gets f).
Proof. by apply by_steps_pure. Qed.
Lemma by_steps_modify f : (∀ w, steps w (f w)) → by_steps (modify f).
Proof. apply follows_modify. Qed.

Lemma by_steps_catch {A} (m : st World A) p h :
  by_steps m → (∀ e, by_steps (h e)) → by_steps (catch m p h).
Proof. apply follows_catch, _. Qed.

Lemma by_steps_finally {A} (m : st World A) f : by_steps m → by_steps f → by_steps (finally m f).
Proof.
  intros Hm Hf w r w'. unfold finally. destruct (m w) as [r1 w1] eqn:E1.
  destruct (f w1) as [r2 w2] eqn:E2. intros [= _ <-].
  etrans; [by eapply Hm|by eapply Hf].
Qed.

Lemma by_steps_mapM {A B} (f : A → st World B) l :
  (∀ x, x ∈ l → by_steps (f x)) → by_steps (mapM_st f l).
Proof. apply follows_mapM, _. Qed.

Lemma by_steps_iterM {A} (f : A → st World unit) l :
  (∀ x, x ∈ l → by_steps (f x)) → by_steps (iterM_st f l).
Proof. apply follows_iterM, _. Qed.

Lemma by_steps_store {A} (m : st Store A) :
  (∀ s r s', m s = (r, s') → store_step s s') → by_steps (in_store m).
Proof.
  intros H w r w'. unfold in_store, in_custody, in_db. destruct (m (db (cust w))) as [v s'] eqn:E.
  intros [= _ <-]. apply rtc_once. simpl. by eapply H.
Qed.

Lemma by_steps_draw uuid clock : by_steps (draw uuid clock).
Proof. by apply by_steps_same. Qed.
Lemma by_steps_now uuid clock : by_steps (now uuid clock).
Proof. apply by_steps_bind; [apply by_steps_draw|]. intros; apply by_steps_mret. Qed.
Lemma by_steps_monotonic monotonic : by_steps (monotonic_now monotonic).
Proof. by apply by_steps_same. Qed.

(** Writing host files leaves the store alone. *)
Lemma by_steps_write_file path text : by_steps (write_file path text).
Proof. by apply by_steps_same. Qed.
Lemma by_steps_unlink_file path : by_steps (unlink_file path).
Proof. by apply by_steps_same. Qed.

(** ** The store's operations, one by one *)

Lemma by_steps_custody {A} (m : st Custody A) :
  (∀ c r c', m c = (r, c') → rtc store_step (db c) (db c')) → by_steps (in_custody m).
Proof.
  intros H w r w'. unfold in_custody. destruct (m (cust w)) as [v c'] eqn:E.
  intros [= _ <-]. unfold steps. simpl. by eapply H.
Qed.

Lemma harmless_id : harmless id.
Proof. by intros s Hs. Qed.

Section operations.
Context (sha256 : string → string) (resolve : list string → string → list string).
Context (f f' : list string → option string).

Lemma by_steps_submit_run task key pv idem ikey res rhex shex now :
  by_steps (in_store (submit_run task key pv idem ikey res rhex shex now)).
Proof. apply by_steps_store. intros. by eapply step_submit. Qed.
Lemma by_steps_transition_run run_id target reason now :
  by_steps (in_store (transition_run run_id target reason now)).
Proof. apply by_steps_store. intros. by eapply step_transition. Qed.
Lemma by_steps_request_cancel run_id now : by_steps (in_store (request_cancel id run_id now)).
Proof. apply by_steps_store. intros. eapply step_cancel; [apply harmless_id|done]. Qed.
Lemma by_steps_fail_queued_run run_id category message hex now :
  by_steps (in_store (fail_queued_run run_id category message hex now)).
Proof. apply by_steps_store. intros. by eapply step_preflight. Qed.
Lemma by_steps_start_attempt g w ws lease res cpu mem fraction hex now :
  by_steps (in_store (start_attempt g w ws lease res cpu mem fraction hex now)).
Proof. apply by_steps_store. intros. by eapply step_start. Qed.
Lemma by_steps_heartbeat a w lease now : by_steps (in_store (heartbeat id a w lease now)).
Proof. apply by_steps_store. intros. eapply step_heartbeat; [apply harmless_id|done]. Qed.
Lemma by_steps_attach_process a w pid pgid ticks :
  by_steps (in_store (attach_process a w pid pgid ticks)).
Proof. apply by_steps_store. intros. by eapply step_attach. Qed.
Lemma by_steps_finish_attempt a status ec fl cpu mem procs now :
  by_steps (in_store (finish_attempt a status ec fl cpu mem procs now)).
Proof. apply by_steps_store. intros. by eapply step_finish. Qed.
Lemma by_steps_reclaim fence reference now :
  by_steps (in_store (reclaim_expired_attempts fence id reference now)).
Proof. apply by_steps_store. intros. eapply step_reclaim; [apply harmless_id|done]. Qed.
Lemma by_steps_register_metrics a ms : by_steps (in_store (register_metrics a ms)).
Proof. apply by_steps_store. intros. by eapply step_metrics. Qed.
Lemma by_steps_record_inputs a staged now : by_steps (in_store (record_inputs a staged now)).
Proof. apply by_steps_store. intros. by eapply step_inputs. Qed.
Lemma by_steps_touch w a pid now : by_steps (in_store (touch w a pid now)).
Proof. apply by_steps_store. intros. by eapply step_touch. Qed.
Lemma by_steps_register_artifacts a ws ds :
  by_steps (in_custody (register_artifacts sha256 resolve f f' a ws ds)).
Proof. apply by_steps_custody. intros c r c' E. apply rtc_once. by eapply step_artifacts. Qed.
Lemma by_steps_ingest_input_file path hex now :
  by_steps (in_custody (ingest_input_file sha256 f f' path hex now)).
Proof. apply by_steps_custody. intros c r c' E. apply rtc_once. by eapply step_ingest_file. Qed.

(** Evidence is copied beside the database. *)
Lemma by_steps_snapshot_evidence a ws name :
  by_steps (in_custody (snapshot_evidence sha256 resolve f f' a ws name)).
Proof.
  apply by_steps_custody. intros c r c' E.
  assert (db c' = db c) as ->; [|done]. revert E. unfold snapshot_evidence, lift, gets, modify.
  cbv beta iota zeta delta [mbind st_bind mret st_ret].
  repeat case_match; intros; simplify_eq/=; done.
Qed.
End operations.

(** The observer appends events. *)
Lemma by_steps_observed {A} (m : st Observed A) :
  (∀ o r o', m o = (r, o') → rtc store_step (ob_store o) (ob_store o')) → by_steps (in_observed m).
Proof.
  intros H w r w'. unfold in_observed. destruct (m _) as [v o'] eqn:E.
  intros [= _ <-]. unfold steps. simpl. exact (H _ _ _ E).
Qed.

Lemma emit_steps ty payload hex now o r o' :
  emit ty payload hex now o = (r, o') → rtc store_step (ob_store o) (ob_store o').
Proof.
  unfold emit. destruct (record_event _ _ _ _ _ _ _ _ _) as [v s'] eqn:E.
  intros [= _ <-]. apply rtc_once. by eapply step_event.
Qed.

Lemma by_steps_observe loads line : by_steps (in_observed (observe loads line)).
Proof.
  apply by_steps_observed. intros o r o'. destruct line as [text [hex now]]. unfold observe.
  rewrite bind_run. cbn [gets id].
  destruct (decode_progress_line _ _ _) as [[report|]|e].
  - repeat case_bool_decide.
    + by intros [= _ <-].
    + rewrite bind_run. cbn [modify]. intros E%emit_steps. exact E.
    + by intros [= _ <-].
    + rewrite bind_run. cbn [modify]. intros E%emit_steps. exact E.
  - by intros [= _ <-].
  - destruct (is_contract_error e); by intros [= _ <-].
Qed.

Lemma by_steps_record_summary hex now : by_steps (in_observed (record_summary hex now)).
Proof.
  apply by_steps_observed. intros o r o'. unfold record_summary. rewrite bind_run. cbn [gets id].
  destruct (_ <? _)%Z; [apply emit_steps|by intros [= _ <-]].
Qed.

Create HintDb by_steps.
#[export] Hint Resolve by_steps_submit_run by_steps_transition_run by_steps_request_cancel
  by_steps_fail_queued_run by_steps_start_attempt by_steps_heartbeat by_steps_attach_process
  by_steps_finish_attempt by_steps_reclaim by_steps_register_metrics by_steps_record_inputs
  by_steps_touch by_steps_register_artifacts by_steps_ingest_input_file
  by_steps_snapshot_evidence by_steps_observe by_steps_record_summary : by_steps.
#[export] Hint Resolve by_steps_mret by_steps_lift by_steps_gets by_steps_draw by_steps_now
  by_steps_monotonic by_steps_write_file by_steps_unlink_file : by_steps.

(** Statement by statement, down to the calls in the hint database. *)
Ltac by_steps :=
  repeat match goal with
  | |- by_steps (_ ≫= _) => apply by_steps_bind; [|intros]
  | |- by_steps (catch _ _ _) => apply by_steps_catch; [|intros]
  | |- by_steps (finally _ _) => apply by_steps_finally
  | |- by_steps (iterM_st _ _) => apply by_steps_iterM; intros
  | |- by_steps (mapM_st _ _) => apply by_steps_mapM; intros
  | |- by_steps (match ?x with _ => _ end) => destruct x
  | |- by_steps (let '(_, _) := ?x in _) => destruct x
  | |- by_steps _ => solve [auto with by_steps]
  end.
