(* ===== verification/Submission.v ===== *)
(** * runtime/runtime.py: submission and inputs

    [submit] with its checks, the freezing of host inputs, the digest of the input
    base, and the staging and verification of inputs in a workspace.  [host_path]
    is [Path(p).expanduser().resolve()], and the section's other parameters are as
    in [World] and [StoreEvidence]. *)

From stdpp Require Import gmap pretty.
From S2P Require Export World RuntimeConfig.
Open Scope string_scope.
Open Scope list_scope.

(** What the runtime needs of a registry, for this host's architecture: the plugin,
    an optional version and an optional capability. *)
Class ManifestResolver := resolve_manifest : json → json → option string → result PluginManifest.

(** [except RuntimeStoreError: raise InputStagingError] *)
Definition as_staging_error {A} (m : result A) : result A :=
  match m with
  | Err e => if is_store_error e then Err (InputStagingError "store") else Err e
  | r => r
  end.

Definition _within (path root : list string) : bool :=
  match relative_to root path with Some _ => true | None => false end.

(** [f"__platform_host_source_{index}"] *)
Definition host_source_label (index : nat) : string := "__platform_host_source_" +:+ pretty index.

(** One entry of the input base. *)
Definition base_entry (destination sha256 : json) (size_bytes : json) : json :=
  JObj [("destination", destination); ("present", JBool (negb (is_null sha256)));
        ("sha256", sha256); ("size_bytes", size_bytes)].

Section inputs.
Context (sha256 : string → string) (resolve : list string → string → list string).
Context (parts host_path : string → list string) (float_repr : spec_float → string).
Context (uuid : nat → string) (clock : nat → Z).
Context (config : RuntimeConfig).
Local Abbreviation draw := (draw uuid clock).
Local Abbreviation now := (now uuid clock).

(** ** Checks before a run exists *)

Definition check_input (w : World) (declaration : InputFile) : result unit :=
  if negb (is_null (if_input_id declaration)) then
    as_staging_error (get_uploaded_input (str_of (if_input_id declaration)) (store_of w));; Ok tt
  else if negb (is_null (if_artifact_id declaration)) then
    as_staging_error (get_artifact (str_of (if_artifact_id declaration)) (store_of w));; Ok tt
  else
    let source := host_path (str_of (if_source declaration)) in
    raise_when (match allowed_input_roots config with
                | [] => false
                | roots => negb (existsb (_within source) roots)
                end) (InputStagingError "outside configured input roots");;
    raise_when (truthy (if_required declaration)
                && negb (bool_decide (is_Some (file_at w source))))
               (InputStagingError "required input is not a readable file").

Definition _check_inputs (task : TaskSpec) : st World unit :=
  w ← gets id;
  lift (iterM_result (check_input w) (t_staged_inputs task)).

(** ** Freezing host inputs *)

Definition ingest_file (path : list string) : st World UploadedInput :=
  d ← draw;
  w ← gets id;
  in_custody (ingest_input_file sha256 (file_at w) (file_at w) path (fst d) (snd d)).

(** One declaration: a readable host file becomes an uploaded input, with the label
    that remembers where it was. *)
Definition freeze_input (item : nat * InputFile) : st World (InputFile * option (string * string)) :=
  let '(index, declaration) := item in
  if is_null (if_source declaration) then mret (declaration, None)
  else
    w ← gets id;
    let source := host_path (str_of (if_source declaration)) in
    if negb (bool_decide (is_Some (file_at w source))) then mret (declaration, None)
    else
      u ← ingest_file source;
      mret (MkInputFile (if_destination declaration) JNull JNull (JStr (u_input_id u))
                        (if_required declaration),
            Some (host_source_label index, "/" +:+ str_join "/" source)).

Definition with_inputs (staged : list InputFile) (labels : json) (t : TaskSpec) : TaskSpec :=
  MkTaskSpec (t_task_id t) (t_project_id t) (t_design_id t) (t_design_revision_id t)
    (t_experiment_id t) (t_input_manifest_sha256 t) (t_plugin_id t) (t_plugin_version t)
    (t_inputs t) (t_parameters t) staged (t_resources t) (t_timeout_seconds t)
    (t_max_attempts t) (t_expected_artifacts t) labels (t_schema_version t).
Definition with_digest (digest : json) (t : TaskSpec) : TaskSpec :=
  MkTaskSpec (t_task_id t) (t_project_id t) (t_design_id t) (t_design_revision_id t)
    (t_experiment_id t) digest (t_plugin_id t) (t_plugin_version t)
    (t_inputs t) (t_parameters t) (t_staged_inputs t) (t_resources t) (t_timeout_seconds t)
    (t_max_attempts t) (t_expected_artifacts t) (t_labels t) (t_schema_version t).

Definition dict_of (v : json) : dict := match v with JObj d => d | _ => [] end.

Definition _freeze_host_inputs (task : TaskSpec) : st World TaskSpec :=
  frozen ← mapM_st freeze_input (imap pair (t_staged_inputs task));
  match omap snd frozen with
  | [] => mret task
  | new_labels =>
      mret (with_inputs (fst <$> frozen)
              (JObj (fold_left (λ d kv, dict_set (fst kv) (JStr (snd kv)) d) new_labels
                               (dict_of (t_labels task)))) task)
  end.

(** ** The digest of the input base *)

Definition is_there (r : result (option string)) : bool :=
  match r with Ok (Some _) => true | _ => false end.

(** The digest and size a declaration stands for. *)
Definition measured_input (w : World) (declaration : InputFile) : result (json * Z) :=
  if negb (is_null (if_input_id declaration)) then
    u ← get_uploaded_input (str_of (if_input_id declaration)) (store_of w);
    Ok (JStr (u_sha256 u), u_size_bytes u)
  else if negb (is_null (if_artifact_id declaration)) then
    let artifact_id := str_of (if_artifact_id declaration) in
    artifact ← get_artifact artifact_id (store_of w);
    let present := is_there (artifact_bytes resolve (file_at w) parts artifact_id (cust w)) in
    if negb present && negb (truthy (if_required declaration)) then Ok (JNull, 0%Z)
    else Ok (JStr (ar_sha256 artifact), ar_size_bytes artifact)
  else
    match file_at w (host_path (str_of (if_source declaration))) with
    | None =>
        raise_when (truthy (if_required declaration))
                   (InputStagingError "required input is not a readable file");;
        Ok (JNull, 0%Z)
    | Some b => Ok (JStr (sha256 b), size_of b)
    end.

Definition input_entry (w : World) (declaration : InputFile) : result json :=
  m ← measured_input w declaration;
  Ok (base_entry (if_destination declaration) (fst m) (JInt (snd m))).

(** The digest of a list of entries. *)
Definition base_digest (entries : list json) : string :=
  sha256 (dumps float_repr compact (JList entries)).

Definition _input_manifest_digest (task : TaskSpec) (w : World) : result string :=
  entries ← mapM_result (input_entry w) (t_staged_inputs task);
  Ok (base_digest entries).

(** ** submit *)

Context `{ManifestResolver} (supports_limits : bool).

(** [v or w] *)
Definition py_or (v w : json) : json := if truthy v then v else w.

Definition submit (task : TaskSpec) (plugin_version : json) (capability : option string)
    (idempotent : bool) (idempotency_key : option string) : st World RunRecord :=
  lift (TaskSpec_validate task);;
  _check_inputs task;;
  task ← _freeze_host_inputs task;
  w ← gets id;
  digest ← lift (_input_manifest_digest task w);
  let task := with_digest (JStr digest) task in
  lift (_check_resources config supports_limits task);;
  lift (raise_when (is_null (t_plugin_id task)) (ValueError "direct plugin tasks only"));;
  lift (raise_when (truthy plugin_version && truthy (t_plugin_version task)
                    && negb (bool_decide (plugin_version = t_plugin_version task)))
                   (ValueError "plugin_version conflicts"));;
  manifest ← lift (resolve_manifest (t_plugin_id task)
                     (py_or plugin_version (t_plugin_version task)) capability);
  run_id ← draw;
  stage_run_id ← draw;
  in_store (submit_run task "main" (str_of (pm_plugin_version manifest)) idempotent
              idempotency_key (truthy (rq_resumable (pm_requirements manifest)))
              (fst run_id) (fst stage_run_id) (snd stage_run_id)).

Definition submit_idempotent (task : TaskSpec) (plugin_version : json)
    (capability : option string) (idempotency_key : option string) : st World RunRecord :=
  submit task plugin_version capability true idempotency_key.

(** ** Staging *)

(** A file the platform wrote into the workspace, and its declaration. *)
Record written := MkWritten {
  wr_path : list string;
  wr_sha256 : string;
  wr_declaration : claim }.

Definition absent_input (declaration : InputFile) : StagedInput :=
  MkStagedInput (if_destination declaration) (JBool false) (JInt 0) JNull
    (if_source declaration) (if_artifact_id declaration) (if_input_id declaration).
Definition present_input (declaration : InputFile) (b : string) (source : json) : StagedInput :=
  MkStagedInput (if_destination declaration) (JBool true) (JInt (size_of b)) (JStr (sha256 b))
    source (if_artifact_id declaration) (if_input_id declaration).

(** Bytes the platform holds, copied and measured against their record. *)
Definition stage_held (declaration : InputFile) (destination : list string) (source : json)
    (held : result (string * Z * string)) : st World StagedInput :=
  match held with
  | Err e =>
      if is_store_error e then
        lift (raise_when (truthy (if_required declaration)) (InputStagingError "store"));;
        mret (absent_input declaration)
      else raise e
  | Ok (recorded, size_bytes, b) =>
      write_file destination b;;
      lift (raise_when (negb (bool_decide (sha256 b = recorded))
                        || negb (bool_decide (size_of b = size_bytes)))
                       (InputStagingError "does not match its record"));;
      mret (present_input declaration b source)
  end.

Definition _stage_from_artifact (declaration : InputFile) (destination : list string)
    : st World StagedInput :=
  w ← gets id;
  stage_held declaration destination JNull
    (m ← materialize_artifact resolve (file_at w) parts
           (str_of (if_artifact_id declaration)) (cust w);
     Ok (ar_sha256 (fst m), ar_size_bytes (fst m), snd m)).

Definition _stage_from_input (declaration : InputFile) (destination : list string)
    (source : json) : st World StagedInput :=
  w ← gets id;
  stage_held declaration destination source
    (m ← materialize_input sha256 (str_of (if_input_id declaration)) (cust w);
     Ok (u_sha256 (fst m), u_size_bytes (fst m), snd m)).

Definition stage_input (task : TaskSpec) (workspace : list string) (item : nat * InputFile)
    : st World StagedInput :=
  let '(index, declaration) := item in
  let destination := resolve workspace (str_of (if_destination declaration)) in
  if negb (is_null (if_input_id declaration)) then
    _stage_from_input declaration destination
      (obj_get_null (host_source_label index) (t_labels task))
  else if negb (is_null (if_artifact_id declaration)) then
    _stage_from_artifact declaration destination
  else
    w ← gets id;
    match file_at w (host_path (str_of (if_source declaration))) with
    | None =>
        lift (raise_when (truthy (if_required declaration))
                         (InputStagingError "required input disappeared"));;
        mret (absent_input declaration)
    | Some b =>
        write_file destination b;;
        mret (present_input declaration b (if_source declaration))
    end.

(** The identity document: where a file was is not part of it. *)
Definition manifest_document (staged : list StagedInput) : json :=
  JObj [("schema_version", JInt SCHEMA_VERSION);
        ("inputs", JList ((λ i, JObj [("destination", si_destination i);
                                      ("present", si_present i);
                                      ("size_bytes", si_size_bytes i);
                                      ("sha256", si_sha256 i)]) <$> staged))].

Definition _stage_inputs (task : TaskSpec) (workspace : list string)
    : st World (list StagedInput * option written) :=
  match t_staged_inputs task with
  | [] => mret ([], None)
  | declarations =>
      staged ← mapM_st (stage_input task workspace) (imap pair declarations);
      let path := workspace ++ [INPUT_MANIFEST_FILENAME] in
      let text := dumps float_repr indented (manifest_document staged) in
      write_file path text;;
      mret (staged, Some (MkWritten path (sha256 text)
        (MkClaim (JStr INPUT_MANIFEST_KIND) (JStr INPUT_MANIFEST_FILENAME)
                 (JObj [("producer", JStr "runtime")]) JNull)))
  end.

Definition staged_entry (i : StagedInput) : json :=
  JObj [("destination", si_destination i); ("present", si_present i);
        ("sha256", si_sha256 i); ("size_bytes", si_size_bytes i)].

Definition _verify_input_manifest (task : TaskSpec) (staged : list StagedInput) : result unit :=
  let digest := base_digest (staged_entry <$> staged) in
  raise_when (truthy (t_input_manifest_sha256 task)
              && negb (bool_decide (t_input_manifest_sha256 task = JStr digest)))
             (InputStagingError "input bytes changed after submission").
End inputs.
