(* ===== verification/SubmissionProps.v ===== *)
(** * What runs is what was submitted

    The digest recorded at submission pins the inputs an attempt may be given. *)

From stdpp Require Import gmap.
From S2P Require Export Submission StoreSubmit.
Open Scope string_scope.
Open Scope list_scope.

(** ** The text of an input base *)

Definition atomic (v : json) : bool :=
  match v with JFloat _ | JList _ | JObj _ => false | _ => true end.

Lemma atomic_text float_repr level v : atomic v = true →
  dumps_at float_repr compact level v = dumps_at float_repr unsorted level v.
Proof. by destruct v. Qed.

(** Entries are written with their keys in order. *)
Lemma entry_text float_repr level d h s : atomic d = true → atomic h = true → atomic s = true →
  dumps_at float_repr compact level (base_entry d h s)
  = dumps_at float_repr unsorted level (base_entry d h s).
Proof.
  intros Hd Hh Hs. unfold base_entry. cbn [dumps_at sort_keys map].
  rewrite !atomic_text by done.
  generalize (dumps_at float_repr unsorted (S level) d) (dumps_at float_repr unsorted (S level) h)
             (dumps_at float_repr unsorted (S level) s). intros td th ts.
  reflexivity.
Qed.

(** The entry of a declaration: no containers, no floats. *)
Definition plain_entry (v : json) : Prop :=
  ∃ d h s, v = base_entry d h s ∧ atomic d = true ∧ atomic h = true ∧ atomic s = true.

Lemma plain_entries_text float_repr entries : Forall plain_entry entries →
  dumps float_repr compact (JList entries) = dumps float_repr unsorted (JList entries) ∧
  no_floats (JList entries) = true.
Proof.
  intros H. unfold dumps. cbn [dumps_at no_floats].
  assert (map (dumps_at float_repr compact 1) entries = map (dumps_at float_repr unsorted 1) entries
          ∧ forallb no_floats entries = true) as [Hm Hf].
  { induction H as [|v l (d & h & s & -> & Hd & Hh & Hs) _ [IHm IHf]]; [done|]. split.
    - rewrite 2!List.map_cons, IHm. f_equal. by apply entry_text.
    - simpl. rewrite IHf. by destruct d, h, s. }
  split; [|done]. rewrite Hm. done.
Qed.

(** The text a digest of entries is of. *)
Definition base_text (float_repr : spec_float → string) (entries : list json) : string :=
  dumps float_repr compact (JList entries).

(** Equal texts, equal entries. *)
Lemma base_text_inj float_repr es es' : Forall plain_entry es → Forall plain_entry es' →
  base_text float_repr es = base_text float_repr es' → es = es'.
Proof.
  intros Hes Hes' Heq. unfold base_text in Heq.
  destruct (plain_entries_text float_repr es Hes) as [Ht Hn].
  destruct (plain_entries_text float_repr es' Hes') as [Ht' Hn'].
  rewrite Ht, Ht' in Heq. apply dumps_inj in Heq; [|done..]. by injection Heq.
Qed.

(** ** Staging *)

Section staging.
Context (sha256 : string → string) (resolve : list string → string → list string).
Context (parts host_path : string → list string) (float_repr : spec_float → string).

Definition destination_in (ws : list string) (d : InputFile) : list string :=
  resolve ws (str_of (if_destination d)).

(** What was staged is what is there. *)
Definition staged_at (fs : file_system) (ws : list string) (d : InputFile) (i : StagedInput) : Prop :=
  i = absent_input d ∨
  ∃ b source, i = present_input sha256 d b source ∧ fs !! destination_in ws d = Some b.

Lemma stage_held_Ok d path source held w i w' :
  stage_held sha256 d path source held w = (Ok i, w') →
  (i = absent_input d ∧ w' = w) ∨
  ∃ b, i = present_input sha256 d b source ∧ w' = with_files (<[path := b]> (host_files w)) w.
Proof.
  unfold stage_held. destruct held as [[[recorded size] b]|e].
  - intros H. apply bind_st_Ok in H as ([] & w1 & Hw & H). apply modify_Ok in Hw as ->.
    apply bind_st_Ok in H as ([] & w1 & Hl & H). apply lift_Ok in Hl as [_ ->].
    apply mret_st_Ok in H as [-> ->]. right. by exists b.
  - destruct (is_store_error e); [|done]. intros H.
    apply bind_st_Ok in H as ([] & w1 & Hl & H). apply lift_Ok in Hl as [_ ->].
    apply mret_st_Ok in H as [-> ->]. by left.
Qed.

Lemma stage_input_Ok task ws n d w i w' :
  stage_input sha256 resolve parts host_path task ws (n, d) w = (Ok i, w') →
  (i = absent_input d ∧ w' = w) ∨
  ∃ b source, i = present_input sha256 d b source ∧
    w' = with_files (<[destination_in ws d := b]> (host_files w)) w.
Proof.
  unfold stage_input. destruct (negb _).
  { unfold _stage_from_input. intros H. apply bind_st_Ok in H as (w1 & w2 & Hg & H).
    apply gets_Ok in Hg as [-> ->]. apply stage_held_Ok in H as [?|(b & ?)]; [by left|right; eauto]. }
  destruct (negb _).
  { unfold _stage_from_artifact. intros H. apply bind_st_Ok in H as (w1 & w2 & Hg & H).
    apply gets_Ok in Hg as [-> ->]. apply stage_held_Ok in H as [?|(b & ?)]; [by left|right; eauto]. }
  intros H. apply bind_st_Ok in H as (w1 & w2 & Hg & H). apply gets_Ok in Hg as [-> ->].
  destruct (file_at _ _) as [b|].
  - apply bind_st_Ok in H as ([] & w1 & Hw & H). apply modify_Ok in Hw as ->.
    apply mret_st_Ok in H as [-> ->]. right. by eexists _, _.
  - apply bind_st_Ok in H as ([] & w1 & Hl & H). apply lift_Ok in Hl as [_ ->].
    apply mret_st_Ok in H as [-> ->]. by left.
Qed.

Lemma stage_all_Ok task ws items w staged w' : NoDup (destination_in ws ∘ snd <$> items) →
  mapM_st (stage_input sha256 resolve parts host_path task ws) items w = (Ok staged, w') →
  Forall2 (staged_at (host_files w') ws) (snd <$> items) staged ∧
  (∀ p, p ∉ destination_in ws ∘ snd <$> items → host_files w' !! p = host_files w !! p).
Proof.
  revert w staged. induction items as [|[n d] items IH]; intros w staged Hnd H; simpl in H.
  { apply mret_st_Ok in H as [-> ->]. split; [constructor|done]. }
  apply bind_st_Ok in H as (i & w1 & Hi & H). apply bind_st_Ok in H as (is' & w2 & His & H).
  apply mret_st_Ok in H as [-> ->]. cbn [fmap list_fmap] in Hnd. apply NoDup_cons in Hnd as [Hn Hnd].
  apply IH in His as [Hf Hp]; [|done]. apply stage_input_Ok in Hi. split.
  - simpl. constructor; [|done]. destruct Hi as [[-> _]|(b & source & -> & ->)]; [by left|].
    right. exists b, source. split; [done|]. rewrite Hp by done. simpl. by rewrite lookup_insert_eq.
  - intros p. cbn [fmap list_fmap]. rewrite not_elem_of_cons. intros [Hne Hnp]. rewrite Hp by done.
    destruct Hi as [[_ ->]|(b & source & _ & ->)]; [done|]. simpl. by rewrite lookup_insert_ne.
Qed.

(** A staged input's entry is the entry its declaration would have. *)
Lemma staged_entry_plain fs ws d i s : if_destination d = JStr s → staged_at fs ws d i →
  ∃ h n, staged_entry i = base_entry (if_destination d) h (JInt n) ∧ plain_entry (staged_entry i) ∧
    ∀ x, h = JStr x → ∃ b, fs !! destination_in ws d = Some b ∧ sha256 b = x ∧ size_of b = n.
Proof.
  intros Hd [-> |(b & source & -> & Hb)].
  - exists JNull, 0%Z. split; [done|]. split; [|done]. exists (JStr s), JNull, (JInt 0).
    split_and!; [by rewrite <-Hd|done..].
  - exists (JStr (sha256 b)), (size_of b). split; [done|]. split.
    + exists (JStr s), (JStr (sha256 b)), (JInt (size_of b)).
      split_and!; [by rewrite <-Hd|done..].
    + intros x [= <-]. by exists b.
Qed.
End staging.

(** ** Submission *)

Section submission.
Context (sha256 : string → string) (resolve : list string → string → list string).
Context (parts host_path : string → list string) (float_repr : spec_float → string).
Context (uuid : nat → string) (clock : nat → Z) (config : RuntimeConfig).
Context `{ManifestResolver} (supports_limits : bool).

(** A new run holds the task it was given. *)
Lemma submitted_task key pv idem res rhex shex now s rec s' task :
  submit_run task key pv idem None res rhex shex now s = (Ok rec, s') → idem = false →
  rec_task_spec rec = task ∧ TaskSpec_validate task = Ok tt.
Proof.
  intros Hs ->. pose proof Hs as Hinv.
  apply submit_run_inv in Hinv as [->|(spec & Hspec & Hfresh & _ & _ & _ & -> & Hrec)].
  { apply submit_run_Ok in Hs as [_ [[_ (Hex & _)]|(_ & spec & _ & Heq & Hrec)]]; [done|].
    apply (f_equal runs) in Heq. simpl in Heq. unfold ins in Heq.
    apply (f_equal length) in Heq. rewrite length_app in Heq. simpl in Heq. lia. }
  split; [|unfold TaskSpec_to_dict in Hspec; by apply bind_Ok in Hspec as ([] & ? & _)].
  unfold get_run in Hrec. symmetry in Hrec. apply bind_Ok in Hrec as (row & Hrow & Hrec).
  apply of_option_Ok in Hrow. simpl in Hrow. rewrite fetchone_ins in Hrow.
  assert (fetchone (is_run (_new_id "run" rhex)) (runs s) = None) as Hn.
  { apply fetchone_None. by apply has_row_false. }
  rewrite Hn in Hrow. destruct (is_run _ _); [|done]. injection Hrow as <-.
  unfold _run_from_row in Hrec. simpl in Hrec. rewrite (TaskSpec_roundtrip _ _ Hspec) in Hrec.
  by injection Hrec as <-.
Qed.

Lemma freeze_by_steps task :
  by_steps (_freeze_host_inputs sha256 host_path uuid clock task).
Proof.
  unfold _freeze_host_inputs, freeze_input, ingest_file. by_steps.
Qed.

(** What [submit] measured is what its digest covers. *)
Lemma submit_measured task pv capability w rec w1 :
  submit sha256 resolve parts host_path float_repr uuid clock config supports_limits
    task pv capability false None w = (Ok rec, w1) →
  TaskSpec_validate (rec_task_spec rec) = Ok tt ∧
  ∃ w0 entries, mapM_result (input_entry sha256 resolve parts host_path w0)
                  (t_staged_inputs (rec_task_spec rec)) = Ok entries ∧
    t_input_manifest_sha256 (rec_task_spec rec) = JStr (base_digest sha256 float_repr entries) ∧
    steps w w0.
Proof.
  unfold submit. intros Hs. apply bind_st_Ok in Hs as ([] & wa & Hl & Hs).
  apply lift_Ok in Hl as [_ ->]. apply bind_st_Ok in Hs as ([] & wb & Hl & Hs).
  apply bind_st_Ok in Hl as (wc & wd & Hg & Hl). apply gets_Ok in Hg as [-> ->].
  apply lift_Ok in Hl as [_ ->]. apply bind_st_Ok in Hs as (task' & w2 & Hf & Hs).
  apply freeze_by_steps in Hf.
  apply bind_st_Ok in Hs as (w0 & w3 & Hg & Hs). apply gets_Ok in Hg as [-> ->].
  apply bind_st_Ok in Hs as (digest & w3 & Hd & Hs). apply lift_Ok in Hd as [Hd ->].
  do 3 (apply bind_st_Ok in Hs as ([] & ? & _ & Hs)). apply bind_st_Ok in Hs as (manifest & ? & _ & Hs).
  apply bind_st_Ok in Hs as (id1 & ? & _ & Hs). apply bind_st_Ok in Hs as (id2 & w4 & _ & Hs).
  unfold in_store, in_custody, in_db in Hs.
  destruct (submit_run _ _ _ _ _ _ _ _ _ _) as [r s'] eqn:E. injection Hs as -> _.
  apply submitted_task in E as [-> Hv]; [|done]. split; [done|].
  unfold _input_manifest_digest in Hd. apply bind_Ok in Hd as (entries & He & [= <-]).
  by exists (id w2), entries.
Qed.
End submission.

(** ** From the digest to the bytes *)

Section pinned.
Context (sha256 : string → string) (resolve : list string → string → list string).
Context (parts host_path : string → list string) (float_repr : spec_float → string).

(** The entry of a declaration that was measured as [m]. *)
Definition entry_of (d : InputFile) (m : json * Z) : json :=
  base_entry (if_destination d) (fst m) (JInt (snd m)).

Lemma entries_measured w l entries :
  mapM_result (input_entry sha256 resolve parts host_path w) l = Ok entries →
  ∃ measured, mapM_result (measured_input sha256 resolve parts host_path w) l = Ok measured ∧
    entries = zip_with entry_of l measured.
Proof.
  revert entries. induction l as [|d l IH]; intros entries; simpl; [intros [= <-]; by exists []|].
  unfold input_entry at 1. destruct (measured_input _ _ _ _ _ d) as [m|e]; simpl; [|done].
  destruct (mapM_result _ l) as [es|e]; [|done]. intros [= <-].
  destruct (IH es eq_refl) as (measured & -> & ->). by exists (m :: measured).
Qed.

Lemma measured_atomic w d m :
  measured_input sha256 resolve parts host_path w d = Ok m → atomic (fst m) = true.
Proof.
  unfold measured_input. destruct (negb (is_null (if_input_id d))).
  { intros Hx. by apply bind_Ok in Hx as (u & _ & [= <-]). }
  destruct (negb (is_null (if_artifact_id d))).
  { intros Hx. apply bind_Ok in Hx as (a & _ & Hx). by destruct (_ && _); injection Hx as <-. }
  destruct (file_at _ _); [by intros [= <-]|].
  intros Hx. by apply bind_Ok in Hx as ([] & _ & [= <-]).
Qed.

Lemma entries_plain w l measured : Forall (λ d, is_str (if_destination d) = true) l →
  mapM_result (measured_input sha256 resolve parts host_path w) l = Ok measured →
  Forall plain_entry (zip_with entry_of l measured).
Proof.
  intros Hd Hm%mapM_result_Ok. induction Hm as [|d m l measured Hm _ IH]; simpl; [constructor|].
  apply Forall_cons in Hd as [Hd Hds]. constructor; [|by apply IH].
  eexists _, _, _. split; [reflexivity|]. apply measured_atomic in Hm.
  split_and!; [by destruct (if_destination d)|done|done].
Qed.

Lemma imap_pair_snd {A} (l : list A) (n : nat) : snd <$> imap (λ i, pair (n + i)%nat) l = l.
Proof.
  revert n. induction l as [|x l IH]; intros n; simpl; [done|]. f_equal.
  rewrite <-(IH (S n)) at 2. f_equal. apply imap_ext. intros i y _. simpl. by rewrite Nat.add_succ_r.
Qed.

Lemma Forall2_impl_in {A B} (P Q : A → B → Prop) l k :
  Forall2 P l k → (∀ x y, x ∈ l → P x y → Q x y) → Forall2 Q l k.
Proof.
  intros Hl. induction Hl as [|x y l k Hxy _ IH]; intros HQ; constructor.
  - apply HQ; [left|done].
  - apply IH. intros ????. apply HQ; [by right|done].
Qed.

(** What [_stage_inputs] leaves in the workspace. *)
Lemma stage_inputs_Ok t ws w staged m w' :
  _stage_inputs sha256 resolve parts host_path float_repr t ws w = (Ok (staged, m), w') →
  NoDup ((ws ++ [INPUT_MANIFEST_FILENAME]) :: (destination_in resolve ws <$> t_staged_inputs t)) →
  Forall2 (staged_at sha256 resolve (host_files w') ws) (t_staged_inputs t) staged.
Proof.
  unfold _stage_inputs. intros H [Hn Hnd]%NoDup_cons.
  destruct (t_staged_inputs t) as [|d0 l0] eqn:E; [apply mret_st_Ok in H as [[= -> ->] ->]; constructor|].
  rewrite <-E in *. clear E d0 l0. apply bind_st_Ok in H as (st & w1 & Hs & H).
  apply bind_st_Ok in H as ([] & w2 & Hw & H). apply modify_Ok in Hw as ->.
  apply mret_st_Ok in H as [[= -> ->] ->].
  assert (snd <$> imap pair (t_staged_inputs t) = t_staged_inputs t) as Hi by apply (imap_pair_snd _ 0).
  apply stage_all_Ok in Hs as [Hf _]; [|by rewrite list_fmap_compose, Hi]. rewrite Hi in Hf.
  eapply Forall2_impl_in; [exact Hf|]. intros d i Hd [?|(b & source & ? & Hb)]; [by left|right].
  exists b, source. split; [done|]. simpl. rewrite lookup_insert_ne; [done|].
  intros Heq. apply Hn. rewrite Heq. by apply list_elem_of_fmap_2.
Qed.
End pinned.

(** The record of a staged input has the digest and size that were measured. *)
Definition as_measured (m : json * Z) (si : StagedInput) : Prop :=
  si_sha256 si = fst m ∧ si_size_bytes si = JInt (snd m).

Lemma same_entry sha256 resolve fs ws d m si : staged_at sha256 resolve fs ws d si →
  entry_of d m = staged_entry si ↔ as_measured m si.
Proof.
  destruct m as [h n]. unfold as_measured, entry_of, staged_entry, base_entry.
  intros [-> |(b & source & -> & _)]; cbn [fst snd absent_input present_input
    si_destination si_sha256 si_size_bytes si_present is_null negb]; (split; [intros Heq|intros [<- [= <-]]]).
  all: try (injection Heq; intros; subst; done).
  all: done.
Qed.

(** C30. Staging the inputs of a submitted task, whose destinations are different
    files, leaves each of them recorded as absent or in the workspace with the size
    and digest it is recorded with. The manifest of what was staged is the text of the
    manifest measured at submission exactly when every input has the digest and size
    measured then, and the attempt goes on exactly when the two texts have the same
    SHA-256. *)
Theorem inputs_as_submitted sha256 resolve parts host_path float_repr uuid clock config
    `{ManifestResolver} supports task pv capability w rec w1 :
  submit sha256 resolve parts host_path float_repr uuid clock config supports
    task pv capability false None w = (Ok rec, w1) →
  let t := rec_task_spec rec in
  ∃ w0 measured, steps w w0 ∧
    (* the task that was stored, measured when it was submitted *)
    mapM_result (measured_input sha256 resolve parts host_path w0) (t_staged_inputs t) = Ok measured ∧
    ∀ ws w2 staged m w3,
      _stage_inputs sha256 resolve parts host_path float_repr t ws w2 = (Ok (staged, m), w3) →
      (* destinations are different files, and none is the manifest's *)
      NoDup ((ws ++ [INPUT_MANIFEST_FILENAME]) :: (destination_in resolve ws <$> t_staged_inputs t)) →
      let submitted := base_text float_repr (zip_with entry_of (t_staged_inputs t) measured) in
      let found := base_text float_repr (staged_entry <$> staged) in
      (* every input is recorded as absent, or its bytes are in the workspace with the size and
         digest it is recorded with *)
      Forall2 (staged_at sha256 resolve (host_files w3) ws) (t_staged_inputs t) staged ∧
      (* the two manifests are the same text exactly when these are the ones that were measured *)
      (submitted = found ↔ Forall2 as_measured measured staged) ∧
      (* and the attempt goes on exactly when the texts have the same digest *)
      (_verify_input_manifest sha256 float_repr t staged = Ok tt ↔ sha256 submitted = sha256 found).
Proof.
  intros Hs t. apply submit_measured in Hs as (Hv & w0 & entries & He & Hdig & Hst). fold t in Hv, He, Hdig.
  apply entries_measured in He as (measured & Hm & ->).
  exists w0, measured. split_and!; [done..|]. intros ws w2 staged m w3 Hstage Hnd. cbv zeta.
  apply stage_inputs_Ok in Hstage; [|done]. split; [exact Hstage|].
  assert (Forall (λ d, is_str (if_destination d) = true) (t_staged_inputs t)) as Hdest.
  { destruct (TaskSpec_validate_parts _ Hv) as (Hall & _). eapply Forall_impl; [exact Hall|].
    intros d (( x & -> & _) & _)%InputFile_validate_Ok. done. }
  pose proof (entries_plain sha256 resolve parts host_path w0 _ _ Hdest Hm) as Hplain.
  assert (Forall plain_entry (staged_entry <$> staged)) as Hplain'.
  { apply Forall_fmap. clear -Hstage Hdest. induction Hstage as [|d i l k Hi _ IH]; [constructor|].
    apply Forall_cons in Hdest as [Hd Hds]. constructor; [|by apply IH].
    assert (∃ x, if_destination d = JStr x) as [x Ed] by (destruct (if_destination d); try done; by eexists).
    by destruct (staged_entry_plain _ _ _ _ _ _ _ Ed Hi) as (_ & _ & _ & ? & _). }
  split.
  - transitivity (zip_with entry_of (t_staged_inputs t) measured = staged_entry <$> staged).
    { split; [by apply base_text_inj|by intros ->]. }
    apply mapM_result_Ok in Hm. clear -Hstage Hm. revert staged Hstage. induction Hm as [|d mm l k Hd _ IH]; intros staged Hstage.
    + apply Forall2_nil_inv_l in Hstage as ->. split; [constructor|done].
    + apply Forall2_cons_inv_l in Hstage as (si & staged' & Hsi & Hstage & ->). cbn [zip_with fmap list_fmap].
      rewrite Forall2_cons, <-(IH _ Hstage), <-(same_entry sha256 resolve (host_files w3) ws d mm si Hsi).
      split; [intros Heq; split; [exact (f_equal (hd JNull) Heq)|exact (f_equal tl Heq)]|by intros [-> ->]].
  - unfold _verify_input_manifest. rewrite raise_when_Ok, Hdig. change (base_digest sha256 float_repr ?x) with (sha256 (base_text float_repr x)).
    assert (truthy (JStr (sha256 (base_text float_repr (zip_with entry_of (t_staged_inputs t) measured)))) = true) as ->.
    { unfold TaskSpec_validate in Hv. do 6 (apply bind_Ok in Hv as ([] & _ & Hv)).
      apply bind_Ok in Hv as ([] & Hh & _). rewrite Hdig in Hh. apply validate_sha256_str in Hh.
      unfold base_digest in Hh. fold (base_text float_repr (zip_with entry_of (t_staged_inputs t) measured)) in Hh.
      destruct (sha256 _); [vm_compute in Hh; discriminate Hh|done]. }
    cbn [andb]. rewrite negb_false_iff, bool_decide_eq_true. split; [by intros [= ->]|by intros ->].
Qed.

(** ** A concrete submission *)

(** A stand-in for SHA-256: 64 hexadecimal digits, the last from the length. *)
Definition demo_sha256 (b : string) : string :=
  "000000000000000000000000000000000000000000000000000000000000000"
  +:+ String (hex_digit (N.of_nat (String.length b) mod 16)) EmptyString.

#[export] Instance demo_resolver : ManifestResolver := λ _ _ _, Ok demo_manifest.

Definition demo_host_path (p : string) : list string := path_resolve [] p.

Definition demo_world : World :=
  MkWorld (MkCustody empty_store ∅ ∅)
    {[["data"; "in.v"] := "module m"; ["data"; "in.sdc"] := "clock"]}
    (new_observer EmptyString EmptyString EmptyString EmptyString EmptyString) 0 0.

(** Two files of the host, placed at [d1] and [d2]. *)
Definition demo_input_task (d1 d2 : string) : TaskSpec :=
  MkTaskSpec (JStr "task-1") (JStr "project") (JStr "design") JNull JNull JNull
    (JStr "demo") JNull (JObj []) (JObj [])
    [MkInputFile (JStr d1) (JStr "/data/in.v") JNull JNull (JBool true);
     MkInputFile (JStr d2) (JStr "/data/in.sdc") JNull JNull (JBool true)] None
    (JInt 60) (JInt 1) [] (JObj []) (JInt 3).

Definition demo_submitted (d1 d2 : string) : result RunRecord * World :=
  submit demo_sha256 path_resolve demo_host_path demo_host_path (λ _, "0.0")
    (λ n, pretty.pretty n) (λ n, Z.of_nat n) demo_config true
    (demo_input_task d1 d2) JNull None false None demo_world.

Definition demo_staged (rec : RunRecord) (w : World) : result (list StagedInput * option written) * World :=
  _stage_inputs demo_sha256 path_resolve demo_host_path demo_host_path (λ _, "0.0")
    (rec_task_spec rec) ["w"] w.

Lemma inputs_as_submitted_witness :
  ∃ rec w1 staged m w3 measured, demo_submitted "in.v" "in.sdc" = (Ok rec, w1) ∧
    demo_staged rec w1 = (Ok (staged, m), w3) ∧ length staged = 2%nat ∧
    Forall2 (staged_at demo_sha256 path_resolve (host_files w3) ["w"])
      (t_staged_inputs (rec_task_spec rec)) staged ∧
    _verify_input_manifest demo_sha256 (λ _, "0.0") (rec_task_spec rec) staged = Ok tt ∧
    demo_sha256 (base_text (λ _, "0.0") (zip_with entry_of (t_staged_inputs (rec_task_spec rec)) measured))
    = demo_sha256 (base_text (λ _, "0.0") (staged_entry <$> staged)).
Proof.
  destruct (demo_submitted "in.v" "in.sdc") as [[rec|e] w1] eqn:Hs;
    pose proof (f_equal fst Hs) as Hf; [|exfalso; vm_compute in Hf; discriminate Hf].
  assert (w1 = snd (demo_submitted "in.v" "in.sdc")) as Hw by (rewrite Hs; reflexivity).
  destruct (demo_staged rec w1) as [[[staged m]|e] w3] eqn:Hst;
    pose proof (f_equal fst Hst) as Hfs; rewrite Hw in Hfs;
    [|exfalso; vm_compute in Hf; injection Hf as <-; vm_compute in Hfs; discriminate Hfs].
  destruct (inputs_as_submitted _ _ _ _ _ _ _ _ _ _ _ _ _ _ _ Hs)
    as (w0 & measured & _ & Hm & H).
  destruct (H ["w"] w1 staged m w3 Hst) as (Hat & _ & Hgoes).
  { vm_compute in Hf. injection Hf as <-. eapply bool_decide_unpack. vm_compute. exact I. }
  assert (length staged = 2%nat ∧
          _verify_input_manifest demo_sha256 (λ _, "0.0") (rec_task_spec rec) staged = Ok tt) as [Hlen Hv].
  { vm_compute in Hf. injection Hf as <-. vm_compute in Hfs. injection Hfs as <- _.
    split; vm_compute; reflexivity. }
  exists rec, w1, staged, m, w3, measured. split; [reflexivity|]. split; [exact Hst|].
  split; [exact Hlen|]. split; [exact Hat|]. split; [exact Hv|]. apply Hgoes. exact Hv.
Defined.

(** Two spellings of one destination are two inputs: the second overwrites the first,
    and the record of what was staged still names both. *)
Example aliased_destinations :
  match demo_submitted "in.v" "./in.v" with
  | (Ok rec, w1) =>
      match demo_staged rec w1 with
      | (Ok ([i; j], _), w3) =>
          _verify_input_manifest demo_sha256 (λ _, "0.0") (rec_task_spec rec) [i; j] = Ok tt ∧
          si_size_bytes i = JInt 8 ∧ host_files w3 !! ["w"; "in.v"] = Some "clock"
      | _ => False
      end
  | _ => False
  end.
Proof. vm_compute. repeat split. Qed.
