(* ===== verification/Runtime.v ===== *)
(** * runtime/runtime.py: WorkflowRuntime's execution of one attempt

    [execute_once_reporting] claims a stage, stages its inputs, runs the adapter
    under the lease pulse, checks and registers what came back and settles the
    attempt and the run; whatever goes wrong on the way is recorded as a failure.
    The adapter and the protected evaluator are objects the runtime is given; the
    evaluator's promise to leave the store alone is [ProtectedEvaluator]. *)

From stdpp Require Import gmap pretty.
From S2P Require Export Submission Evaluation.
Open Scope string_scope.
Open Scope list_scope.

Definition RECEIPT_ARTIFACT_KIND : string := "runtime_protocol_receipt".
Definition RECEIPT_FILENAME : string := "runtime_protocol_receipt.json".

Definition FAILURE_EVIDENCE_FILES : list (string * string) :=
  [(REQUEST_FILENAME, "runtime_evidence_request"); (RESULT_FILENAME, "runtime_evidence_result");
   (LOG_FILENAME, "runtime_evidence_log");
   (INPUT_MANIFEST_FILENAME, "runtime_evidence_input_manifest");
   (RECEIPT_FILENAME, "runtime_evidence_protocol_receipt")].

(** The files snapshotted after the adapter. *)
Definition EVIDENCE_FILES : list string :=
  [REQUEST_FILENAME; RESULT_FILENAME; LOG_FILENAME; INPUT_MANIFEST_FILENAME; RECEIPT_FILENAME].

(** What the runtime is promised of an evaluator. *)
Class ProtectedEvaluator (evaluator : EvaluationRequest → st World Verdict) : Prop :=
  evaluator_by_steps : ∀ request, by_steps (evaluator request).

(** [f"{type(exc).__name__}: {exc}"] *)
Definition exn_text (e : exn) : string :=
  match e with
  | ContractError w => "ContractError: " +:+ w
  | ValueError w => "ValueError: " +:+ w
  | TypeError w => "TypeError: " +:+ w
  | KeyError w => "KeyError: " +:+ w
  | RuntimeStoreError w => "RuntimeStoreError: " +:+ w
  | InvalidTransition w => "InvalidTransition: " +:+ w
  | IntegrityError w => "IntegrityError: " +:+ w
  | InputStagingError w => "InputStagingError: " +:+ w
  | ResourceLimitsUnsupported w => "ResourceLimitsUnsupported: " +:+ w
  | AdapterProtocolError w => "AdapterProtocolError: " +:+ w
  | RegistryError w => "RegistryError: " +:+ w
  | EvaluationError w => "EvaluationError: " +:+ w
  | PlanError w _ => "PlanError: " +:+ w
  | KernelError w _ => "KernelError: " +:+ w
  | KernelUnavailable w => "KernelUnavailable: " +:+ w
  | HttpError _ w => "HttpError: " +:+ w
  | ConsoleError _ w => "ConsoleError: " +:+ w
  | LabError _ w => "LabError: " +:+ w
  | QueryError _ w => "QueryError: " +:+ w
  | OtherError w => w
  end.

(** [except (OSError, RuntimeStoreError, ValueError)] *)
Definition is_evidence_error (e : exn) : bool :=
  is_store_error e || is_value_error e || bool_decide (e = OtherError "FileNotFoundError").

Definition _attempt_status (status : RuntimeStatus) : AttemptStatus :=
  match status with SUCCEEDED => A_SUCCEEDED | _ => A_FAILED end.

(** What [register_artifacts] reads of a checked declaration. *)
Definition declaration_of (n : normalized) : declaration :=
  MkDeclaration (na_store_key n) (na_kind n) (na_media_type n) (na_metadata n).

(** [sorted] of paths: component by component. *)
Fixpoint path_leb (p q : list string) : bool :=
  match p, q with
  | [], _ => true
  | _ :: _, [] => false
  | x :: p', y :: q' => if bool_decide (x = y) then path_leb p' q' else bool_decide (String.le x y)
  end.
Definition path_le (p q : list string) : Prop := path_leb p q = true.
#[export] Instance path_le_dec : RelDecision path_le.
Proof. intros p q. unfold path_le. apply _. Defined.

(** [Metric( **item)] *)
Definition Metric_new (item : dict) : result Metric :=
  raise_when (negb (forallb (λ k, bool_decide (k ∈ dc_names Metric_class)) (dict_keys item)
                    && forallb (λ k, dict_has k item) (dc_required Metric_class)))
             (TypeError "Metric arguments");;
  Ok (MkMetric (field "name" JNull item) (field "value" JNull item) (field "unit" JNull item)
        (field "source_artifact_id" JNull item) (field "parser_id" JNull item)
        (field "parser_version" JNull item) (field "context" (JObj []) item)
        (field "schema_version" (JInt SCHEMA_VERSION) item)).

Section runtime.
Context (sha256 : string → string) (resolve : list string → string → list string).
Context (parts host_path : string → list string) (path_str : list string → string).
Context (loads : string → option json) (float_repr : spec_float → string).
Context (py_repr : json → string).
(* [Path.glob] of a workspace, its matches resolved *)
Context (glob : list string → file_system → string → list (list string)).
Context (mkdir_fails : list string → bool) (pid : Z).
Context (uuid : nat → string) (clock monotonic : nat → Z).
Context (config : RuntimeConfig) `{ManifestResolver}.
Context (adapter : ProcessAdapter World).
Context (protected_evaluator : option (EvaluationRequest → st World Verdict)).
Context (environment_resolver : option (RunRecord → dict)).
Context (external_cancel_requested : option (World → bool)).
Local Abbreviation draw := (draw uuid clock).
Local Abbreviation now := (now uuid clock).

(** ** Small calls into the store *)

Definition read {A} (f : Store → result A) : st World A := w ← gets id; lift (f (store_of w)).
Definition touch_worker (attempt_id : option string) : st World unit :=
  t ← now; in_store (touch (config_worker_id config) attempt_id pid t).
Definition move_run (run_id : string) (target : RuntimeStatus) (reason : option string)
    : st World unit :=
  t ← now; in_store (transition_run run_id target reason t).
Definition register (attempt_id : string) (workspace : list string) (ds : list declaration)
    : st World (list string) :=
  items ← mapM_st (λ d, x ← draw; mret (d, x)) ds;
  w ← gets id;
  in_custody (register_artifacts sha256 resolve (file_at w) (file_at w) attempt_id workspace items).
Definition finish (attempt_id : string) (status : AttemptStatus) (exit_code : option Z)
    (failure : option dict) (cpu_seconds : json) (peak_memory peak_processes : option Z)
    : st World unit :=
  t ← now;
  in_store (finish_attempt attempt_id status exit_code failure cpu_seconds peak_memory
                           peak_processes t).

(** ** _LeasePulse *)

(** [now - self._last >= max(1.0, lease_seconds / 3)], in microseconds times three. *)
Definition pulse_due (now last : Z) : bool :=
  (Z.max 3000000 (lease_seconds config * 1000000) <=? 3 * (now - last))%Z.

Definition lease_pulse (run_id attempt_id : string) : st World bool :=
  w ← gets id;
  if match external_cancel_requested with Some f => f w | None => false end then
    t ← now;
    in_store (request_cancel id run_id t);;
    mret true
  else
    run ← read (get_run run_id);
    if bool_decide (rec_status run = CANCEL_REQUESTED) then mret true
    else
      m ← monotonic_now monotonic;
      w ← gets id;
      if pulse_due m (last_pulse w) then
        t ← now;
        in_store (heartbeat id attempt_id (config_worker_id config) (lease_seconds config) t);;
        touch_worker (Some attempt_id);;
        modify (with_pulse m);;
        mret false
      else mret false.

(** The observer of the attempt's output. *)
Definition on_line (line : string) : st World unit :=
  d ← draw; in_observed (observe loads (line, d)).

(** ** Failures *)

Definition failure_declaration (item : string * string) : declaration :=
  MkDeclaration (fst item) (snd item) JNull
    [("producer", JStr "runtime"); ("failure_evidence", JBool true)].

Definition _register_failure_evidence (attempt : Attempt) : st World (option string) :=
  w ← gets id;
  let workspace := parts (at_workspace attempt) in
  let existing := ar_store_key <$> list_artifacts (at_attempt_id attempt) (store_of w) in
  let missing := List.filter (λ item,
        negb (bool_decide (fst item ∈ existing))
        && bool_decide (is_Some (file_at w (resolve workspace (fst item))))) FAILURE_EVIDENCE_FILES in
  match missing with
  | [] => mret None
  | _ => catch (register (at_attempt_id attempt) workspace (failure_declaration <$> missing);;
                mret None)
               is_evidence_error (λ e, mret (Some (exn_text e)))
  end.

Definition runtime_failure (e : exn) (evidence_error : option string) : dict :=
  [("category", JStr "runtime_error"); ("message", JStr (exn_text e))]
  ++ match evidence_error with Some t => [("evidence_error", JStr t)] | None => [] end.

Definition _record_runtime_failure (run : RunRecord) (attempt : Attempt) (e : exn)
    : st World unit :=
  evidence_error ← _register_failure_evidence attempt;
  catch (finish (at_attempt_id attempt) A_FAILED (Some 1%Z)
                (Some (runtime_failure e evidence_error)) JNull None None)
        is_invalid_transition (λ _, mret tt);;
  catch (current ← read (get_run (rec_run_id run));
         if bool_decide (rec_status current = RUNNING)
         then move_run (rec_run_id run) FAILED (Some "runtime_error") else mret tt)
        is_invalid_transition (λ _, mret tt).

(** ** The attempt *)

Definition receipt_text (protocol : dict) (run_id attempt_id : string) : string :=
  dumps float_repr sorted_keys
    (JObj [("schema_version", JInt 1); ("protocol", JObj protocol);
           ("run_id", JStr run_id); ("attempt_id", JStr attempt_id)]).

(** The receipt and the environment that names it. *)
Definition _write_protocol_receipt (manifest : PluginManifest) (run : RunRecord)
    (attempt : Attempt) (workspace : list string) (environment : dict)
    : st World (option written * dict) :=
  let requirements := pm_requirements manifest in
  if negb (truthy (rq_require_protocol_receipt requirements)) then mret (None, environment)
  else
    match obj_get_null "experiment_protocol" (t_inputs (rec_task_spec run)) with
    | JObj protocol =>
        let path := workspace ++ [RECEIPT_FILENAME] in
        let text := receipt_text protocol (rec_run_id run) (at_attempt_id attempt) in
        write_file path text;;
        lift (raise_when (is_null (rq_environment_receipt_variable requirements))
                         (OtherError "AssertionError"));;
        let variable := str_of (rq_environment_receipt_variable requirements) in
        mret (Some (MkWritten path (sha256 text)
                (MkClaim (JStr RECEIPT_ARTIFACT_KIND) (JStr RECEIPT_FILENAME)
                   (JObj [("producer", JStr "runtime");
                          ("attempt_id", JStr (at_attempt_id attempt))]) JNull)),
              dict_set (variable +:+ "_SHA256") (JStr (sha256 text))
                (dict_set variable (JStr (path_str path)) environment))
    | _ => raise (RuntimeStoreError "experiment_protocol")
    end.

(** An adapter may not manufacture the kernel's or the evaluator's authority. *)
Definition reject_item (item : json) : result unit :=
  raise_when (bool_decide (obj_get_null "kind" item = JStr RECEIPT_ARTIFACT_KIND))
             (RuntimeStoreError "runtime-reserved artifact kind");;
  match or_empty (obj_get_null "metadata" item) with
  | JObj metadata =>
      raise_when (negb (is_null (get_null "official_qor" metadata)))
                 (RuntimeStoreError "official_qor");;
      raise_when (startswith "protected-"
                    (py_str py_repr (field "producer" (JStr EmptyString) metadata)))
                 (RuntimeStoreError "protected-evaluator producer")
  | _ => Err (OtherError "AttributeError")
  end.

Definition _reject_forged_authority (execution : AdapterExecution) : result unit :=
  iterM_result reject_item (pr_artifacts (ex_result execution)).

(** The platform's own files must be what it wrote. *)
Definition check_unmodified (w : World) (o : option written) : result unit :=
  match o with
  | None => Ok tt
  | Some f =>
      b ← of_option (OtherError "FileNotFoundError") (file_at w (wr_path f));
      raise_when (negb (bool_decide (wr_sha256 f = sha256 b)))
                 (RuntimeStoreError "adapter modified the platform's own file")
  end.

Definition _evaluate (execution : AdapterExecution) (manifest : PluginManifest)
    (run : RunRecord) (workspace : list string) (attempt_id : string)
    : st World (list normalized * list Metric) :=
  if negb (bool_decide (pr_status (ex_result execution) = SUCCEEDED)) then mret ([], [])
  else
    match protected_evaluator with
    | None =>
        lift (raise_when (truthy (rq_require_protected_evaluation (pm_requirements manifest)))
                         (RuntimeStoreError "protected evaluator is unavailable"));;
        mret ([], [])
    | Some evaluator =>
        verdict ← evaluator (MkEvaluationRequest manifest (rec_task_spec run)
                               (path_str workspace) attempt_id []);
        lift (Verdict_validate verdict);;
        lift (raise_when (bool_decide (vd_status verdict = REJECTED))
                         (RuntimeStoreError "protected evaluator rejected the run"));;
        w ← gets id;
        artifacts ← lift (validate_artifact_declarations sha256 resolve workspace (host_files w)
          manifest ((λ a, MkClaim (ad_kind a) (ad_path a) (ad_metadata a) JNull)
                      <$> vd_artifacts verdict) [] false false);
        mret (artifacts, vd_metrics verdict)
    end.

(** The patterns of a rule that collects, [None] where it does not. *)
Definition rule_patterns (rule : json) : result (option (list json)) :=
  match rule with
  | JObj d =>
      let patterns := default (get_null "pattern" d) (dict_get "patterns" d) in
      if is_null patterns || negb (truthy (field "collect" (JBool true) d)) then Ok None
      else match patterns with
           | JStr s => Ok (Some [JStr s])
           | JList l => Ok (Some l)
           | _ => Err (RuntimeStoreError "patterns must be strings")
           end
  | _ => Err (OtherError "AttributeError")
  end.

(** One rule: the files it adds to those already occupied. *)
Definition collect_rule (workspace : list string) (fs : file_system)
    (acc : list string * list declaration) (rule : json)
    : result (list string * list declaration) :=
  patterns ← rule_patterns rule;
  match patterns with
  | None => Ok acc
  | Some patterns =>
      let matches := merge_sort path_le (remove_dups
            (patterns ≫= λ p, List.filter (λ path, bool_decide (is_Some (fs !! path)))
                                            (glob workspace fs (py_str py_repr p)))) in
      raise_when (bool_decide (matches = []) && truthy (obj_get_null "required" rule))
                 (RuntimeStoreError "required artifact collection matched nothing");;
      foldl (λ acc path,
        acc ← acc;
        let '(occupied, collected) := acc in
        below ← of_option (RuntimeStoreError "artifact collection escaped workspace")
                          (relative_to workspace path);
        let relative := str_join "/" below in
        if bool_decide (relative ∈ occupied) then Ok (occupied, collected)
        else
          kind ← of_option (KeyError "kind") (match rule with JObj d => dict_get "kind" d
                                                            | _ => None end);
          Ok (relative :: occupied,
              collected ++ [MkDeclaration relative (py_str py_repr kind) JNull
                [("producer", JStr "toolkit_manifest"); ("collected", JBool true)]]))
        (Ok acc) matches
  end.

Definition _collect_manifest_artifacts (workspace : list string) (fs : file_system)
    (manifest : PluginManifest) (occupied : list string) : result (list declaration) :=
  acc ← foldl (λ acc rule, a ← acc; collect_rule workspace fs a rule) (Ok (occupied, []))
              (pm_artifact_rules manifest);
  Ok (snd acc).

(** One metric, attached to the artifact it was read from. *)
Definition attach_metric (by_store_key : list (string * string)) (item : dict) : result Metric :=
  context ← py_dict (TypeError "context") (get_or_empty "context" item);
  let source_key := get_null "source_artifact_store_key" context in
  let context := dict_del "source_artifact_store_key" context in
  item ← (if is_null source_key then Ok item
          else
            raise_when (negb (hashable source_key)) (TypeError "unhashable");;
            artifact_id ← of_option (RuntimeStoreError "unregistered artifact")
              (snd <$> List.find (λ kv, bool_decide (JStr (fst kv) = source_key))
                                 (rev by_store_key));
            Ok (dict_set "source_artifact_id" (JStr artifact_id) item));
  let parser_id := get_null "parser_id" context in
  let parser_version := get_null "parser_version" context in
  let context := dict_del "parser_version" (dict_del "parser_id" context) in
  Metric_new (dict_del "source_artifact_store_key"
    (dict_set "context" (JObj context)
      (dict_set "parser_version" parser_version (dict_set "parser_id" parser_id item)))).

Definition raw_metric (raw : json + Metric) : result dict :=
  match raw with
  | inl v => py_dict (TypeError "keywords must be strings") v
  | inr m => Metric_to_dict m
  end.

Definition _register_metrics (attempt : Attempt) (raw_metrics : list (json + Metric))
    (registered : list declaration) (registered_ids : list string) : st World unit :=
  let by_store_key := zip (de_store_key <$> registered) registered_ids in
  metrics ← lift (mapM_result (λ raw, item ← raw_metric raw; attach_metric by_store_key item)
                              raw_metrics);
  items ← mapM_st (λ m, x ← draw; mret (m, x)) metrics;
  in_store (register_metrics (at_attempt_id attempt) items);;
  mret tt.

Definition failure_dict (v : json) : option dict :=
  match v with JObj d => Some d | _ => None end.

Definition _should_retry (run : RunRecord) (attempt : Attempt) (execution : AdapterExecution)
    : bool :=
  bool_decide (pr_status (ex_result execution) = FAILED)
  && truthy (obj_get_null "retryable" (pr_failure (ex_result execution)))
  && (at_attempt_number attempt <? max_attempts_of (rec_task_spec run))%Z.

Definition _terminal_reason (result : PluginResult) : option string :=
  if truthy (pr_failure result) then
    Some (py_str py_repr (py_or (obj_get_null "category" (pr_failure result))
                                (JStr (status_str (pr_status result)))))
  else None.

Definition _run_attempt (run : RunRecord) (stage : StageRow) (attempt : Attempt)
    (manifest : PluginManifest) (workspace : list string) : st World unit :=
  let attempt_id := at_attempt_id attempt in
  let task := rec_task_spec run in
  let environment := match environment_resolver with Some f => f run | None => [] end in
  staged ← _stage_inputs sha256 resolve parts host_path float_repr task workspace;
  let '(staged_inputs, input_manifest) := staged in
  t ← now;
  in_store (record_inputs attempt_id staged_inputs t);;
  lift (_verify_input_manifest sha256 float_repr task staged_inputs);;
  r ← _write_protocol_receipt manifest run attempt workspace environment;
  let '(receipt, environment) := r in
  execution ← adapter_execute adapter manifest task workspace
    (lease_pulse (rec_run_id run) attempt_id) on_line environment false
    (if adapter_supports_limits adapter then Some (reservation_for config task)
     else t_resources task)
    (λ pid pgid ticks, in_store (attach_process attempt_id (config_worker_id config)
                                                pid pgid ticks));
  lift (_reject_forged_authority execution);;
  iterM_st (λ name, w ← gets id;
                    in_custody (snapshot_evidence sha256 resolve (file_at w) (file_at w)
                                                  attempt_id workspace name);;
                    mret tt) EVIDENCE_FILES;;
  w ← gets id;
  lift (iterM_result (check_unmodified w) [receipt; input_manifest]);;
  runtime_artifacts ← lift (validate_artifact_declarations sha256 resolve workspace (host_files w)
    manifest (wr_declaration <$> omap id [input_manifest; receipt]) [] false true);
  evaluated ← _evaluate execution manifest run workspace attempt_id;
  let '(evaluator_artifacts, evaluator_metrics) := evaluated in
  let checked := declaration_of <$> (runtime_artifacts ++ ex_artifacts execution
                                     ++ evaluator_artifacts) in
  w ← gets id;
  collected ← lift (_collect_manifest_artifacts workspace (host_files w) manifest
                                                (de_store_key <$> checked));
  let registered := checked ++ collected in
  registered_ids ← register attempt_id workspace registered;
  (if bool_decide (pr_status (ex_result execution) = SUCCEEDED) then
     _register_metrics attempt ((inl <$> pr_metrics (ex_result execution))
                                ++ (inr <$> evaluator_metrics)) registered registered_ids
   else
     evidence_error ← _register_failure_evidence attempt;
     lift (raise_when (bool_decide (is_Some evidence_error))
                      (RuntimeStoreError "could not preserve failure evidence")));;
  finish attempt_id (_attempt_status (pr_status (ex_result execution)))
    (as_int (pr_exit_code (ex_result execution))) (failure_dict (pr_failure (ex_result execution)))
    (JFloat (po_cpu_seconds (ex_outcome execution)))
    (Some (po_peak_memory_bytes (ex_outcome execution)))
    (Some (po_peak_processes (ex_outcome execution)));;
  if _should_retry run attempt execution then
    in_store (schedule_retry (rec_run_id run) (s_stage_run_id stage)
                ("retrying: " +:+ default "None" (_terminal_reason (ex_result execution))))
  else move_run (rec_run_id run) (pr_status (ex_result execution))
                (_terminal_reason (ex_result execution)).

(** ** execute_once_reporting *)

Definition _next_ready_stage (run_id : string) (s : Store) : option StageRow :=
  List.find (λ g, status_in [QUEUED; RETRY_WAIT] (s_status g)) (list_stages run_id s).

(** The workspace of the next attempt: a resumable run keeps the last one. *)
Definition attempt_workspace (manifest : PluginManifest) (run_id : string) (stage : StageRow)
    (previous : list Attempt) : string :=
  match last previous with
  | Some p => if truthy (rq_resumable (pm_requirements manifest)) then at_workspace p
              else workspace_root config +:+ "/" +:+ run_id +:+ "/" +:+ s_stage_run_id stage
                   +:+ "/attempt-" +:+ pretty (S (length previous))
  | None => workspace_root config +:+ "/" +:+ run_id +:+ "/" +:+ s_stage_run_id stage
            +:+ "/attempt-" +:+ pretty (S (length previous))
  end.

(** The claim: [inl] is the early return, [inr] the attempt to run. *)
Definition claim_stage (run : RunRecord) (stage : StageRow) (workspace : string)
    : st World (returning (RunRecord * bool) Attempt) :=
  let run_id := rec_run_id run in
  catch (
    d ← draw;
    a ← in_store (start_attempt (s_stage_run_id stage) (config_worker_id config) workspace
          (lease_seconds config) (Some (reservation_for config (rec_task_spec run)))
          (Some (capacity_cpu_cores config)) (Some (capacity_memory_bytes config))
          (platform_fraction config) (fst d) (snd d));
    match a with
    | None => r ← read (get_run run_id); mret (inl (r, false))
    | Some attempt =>
        touch_worker (Some (at_attempt_id attempt));;
        if mkdir_fails (parts workspace) then
          _record_runtime_failure run attempt (OtherError "OSError");;
          r ← read (get_run run_id);
          mret (inl (r, true))
        else mret (inr attempt)
    end)
    is_invalid_transition (λ _, r ← read (get_run run_id); mret (inl (r, false))).

(** The observer and the pulse of a new attempt. *)
Definition attend (run_id : string) (stage : StageRow) (attempt : Attempt)
    (manifest : PluginManifest) (w : World) : World :=
  with_pulse 0 (with_watcher
    (new_observer run_id (s_stage_run_id stage) (at_attempt_id attempt)
       (str_of (pm_progress_marker manifest))
       ("adapter:" +:+ str_of (pm_plugin_id manifest) +:+ "@"
          +:+ str_of (pm_plugin_version manifest))) w).

(** The attempt, with its failure recorded and its observer closed. *)
Definition supervise_attempt (run : RunRecord) (stage : StageRow) (attempt : Attempt)
    (manifest : PluginManifest) (workspace : string) : st World unit :=
  modify (attend (rec_run_id run) stage attempt manifest);;
  finally
    (catch (_run_attempt run stage attempt manifest (parts workspace)) (λ _, true)
           (_record_runtime_failure run attempt))
    (d ← draw; in_observed (record_summary (fst d) (snd d));; touch_worker None).

Definition execute_once_reporting (run_id : string) : st World (RunRecord * bool) :=
  w ← gets id;
  (if match external_cancel_requested with Some f => f w | None => false end
   then t ← now; in_store (request_cancel id run_id t) else mret tt);;
  run ← read (get_run run_id);
  if is_terminal (rec_status run) then mret (run, false)
  else
    w ← gets id;
    match _next_ready_stage run_id (store_of w) with
    | None => mret (run, false)
    | Some stage =>
        manifest ← lift (resolve_manifest (JStr (s_plugin_id stage))
                           (JStr (s_plugin_version stage)) None);
        let workspace := attempt_workspace manifest run_id stage
                           (list_attempts (s_stage_run_id stage) (store_of w)) in
        claimed ← claim_stage run stage workspace;
        match claimed with
        | inl r => mret r
        | inr attempt =>
            supervise_attempt run stage attempt manifest workspace;;
            r ← read (get_run run_id);
            mret (r, true)
        end
    end.

Definition execute_once (run_id : string) : st World RunRecord :=
  r ← execute_once_reporting run_id; mret (fst r).

(** ** Reads *)

(** [view.get(k, ())], a list of objects. *)
Definition items_of (k : string) (v : json) : list json :=
  match obj_get_null k v with JList l => l | _ => [] end.

(** The artifacts of a run's projection under one identifier. *)
Definition view_artifacts (view : dict) (artifact_id : string) : list json :=
  stage ← items_of "stages" (JObj view);
  attempt ← items_of "attempts" stage;
  List.filter (λ a, bool_decide (obj_get_null "artifact_id" a = JStr artifact_id))
              (items_of "artifacts" attempt).

(** [chunk] stands for the text and the base64 the code renders of it. *)
Record Excerpt := MkExcerpt {
  xc_sha256 : json;
  xc_offset : Z;
  xc_chunk : string;
  xc_bytes_read : Z;
  xc_size_bytes : json;
  xc_truncated : bool }.

(** [source.seek(offset); source.read(n)] *)
Definition read_at (offset n : nat) (b : string) : string :=
  String.substring offset (Nat.min n (String.length b - offset)) b.

Definition read_artifact_excerpt (run_id artifact_id : string) (offset max_bytes : json)
    (verify_hash : bool) (w : World) : result Excerpt :=
  match as_strict_int offset, as_strict_int max_bytes with
  | Some offset, Some max_bytes =>
      raise_when ((offset <? 0) || negb ((0 <? max_bytes) && (max_bytes <=? 64 * 1024)))%Z
                 (ValueError "artifact excerpt bounds are invalid");;
      view ← describe_run run_id (store_of w);
      match view_artifacts view artifact_id with
      | [artifact] =>
          bytes ← artifact_bytes resolve (file_at w) parts artifact_id (cust w);
          bytes ← of_option (OtherError "FileNotFoundError") bytes;
          raise_when (verify_hash
                      && negb (bool_decide (JStr (sha256 bytes) = obj_get_null "sha256" artifact)))
                     (RuntimeStoreError "changed after registration");;
          let chunk := read_at (Z.to_nat offset) (Z.to_nat max_bytes) bytes in
          let size_bytes := obj_get_null "size_bytes" artifact in
          Ok (MkExcerpt (obj_get_null "sha256" artifact) offset chunk (size_of chunk) size_bytes
                (match as_int size_bytes with
                 | Some n => (offset + size_of chunk <? n)%Z
                 | None => false
                 end))
      | _ => Err (RuntimeStoreError "not registered in run")
      end
  | _, _ => Err (ValueError "artifact excerpt bounds are invalid")
  end.
End runtime.
