(* ===== verification/RuntimeSteps.v ===== *)
(** * The runtime only takes store steps

    Every change the execution of an attempt makes to the store is an operation of
    the store, so what [StoreProps] proves of histories holds of workers.  The
    adapter is used through [AdapterLaws], which [process_adapter] meets for any
    plugin whose host interferes by store operations only. *)

From stdpp Require Import gmap.
From S2P Require Export Runtime.
Open Scope string_scope.
Open Scope list_scope.

(** ** Preconditions that histories preserve *)

Definition stable (P : World → Prop) : Prop := ∀ w w', P w → steps w w' → P w'.

Definition by_steps_if {A} (P : World → Prop) (m : st World A) : Prop :=
  ∀ w r w', P w → m w = (r, w') → steps w w'.

Lemma by_steps_weaken {A} P (m : st World A) : by_steps m → by_steps_if P m.
Proof. intros H w r w' _. apply H. Qed.

Lemma by_steps_if_bind_if {A B} P (m : st World A) (f : A → st World B) : stable P →
  by_steps_if P m → (∀ a, by_steps_if P (f a)) → by_steps_if P (m ≫= f).
Proof.
  intros HP Hm Hf w r w' Hw. rewrite bind_run. destruct (m w) as [[a|e] w1] eqn:E.
  - intros H. etrans; [by eapply Hm|]. eapply Hf; [|done]. eapply HP; [done|]. by eapply Hm.
  - intros [= _ <-]. by eapply Hm.
Qed.

Lemma by_steps_if_bind {A B} P (m : st World A) (f : A → st World B) : stable P →
  by_steps m → (∀ a, by_steps_if P (f a)) → by_steps_if P (m ≫= f).
Proof. intros. apply by_steps_if_bind_if; [done|by apply by_steps_weaken|done]. Qed.

Lemma by_steps_if_catch {A} P (m : st World A) p h : stable P →
  by_steps_if P m → (∀ e, by_steps (h e)) → by_steps_if P (catch m p h).
Proof.
  intros HP Hm Hh w r w' Hw. unfold catch. destruct (m w) as [[a|e] w1] eqn:E.
  - intros [= _ <-]. by eapply Hm.
  - destruct (p e); [|intros [= _ <-]; by eapply Hm].
    intros H. etrans; [by eapply Hm|by eapply Hh].
Qed.

Lemma by_steps_if_finally {A} P (m : st World A) f :
  by_steps_if P m → by_steps f → by_steps_if P (finally m f).
Proof.
  intros Hm Hf w r w' Hw. unfold finally. destruct (m w) as [r1 w1] eqn:E1.
  destruct (f w1) as [r2 w2] eqn:E2. intros [= _ <-].
  etrans; [by eapply Hm|by eapply Hf].
Qed.

(** The stage is the run's, in a well-formed store. *)
Definition stage_in (stage : StageRow) (run_id : string) (w : World) : Prop :=
  store_ok (store_of w) ∧
  ∃ g, g ∈ stages (store_of w) ∧ s_stage_run_id g = s_stage_run_id stage ∧ s_run_id g = run_id.

Lemma stage_in_stable stage run_id : stable (stage_in stage run_id).
Proof.
  intros w w' [Hok (g & Hg & Hid & Hr)] Hs.
  destruct (store_steps_wb _ _ Hok Hs) as [Hok' [_ Hst _ _]]. split; [done|].
  destruct (Hst g Hg) as (g' & Hg' & He). exists g'. split; [done|].
  destruct He as (? & ? & ?). naive_solver congruence.
Qed.

Lemma schedule_retry_by_steps stage run_id reason :
  by_steps_if (stage_in stage run_id)
    (in_store (schedule_retry run_id (s_stage_run_id stage) reason)).
Proof.
  intros w r w' [Hok (g & Hg & Hid & Hr)]. unfold in_store, in_custody, in_db.
  destruct (schedule_retry _ _ _ _) as [v s'] eqn:E. intros [= _ <-]. apply rtc_once.
  eapply step_schedule_retry; [|exact E]. intros row Hrow.
  rewrite <-Hid in Hrow. change (db (cust w)) with (store_of w) in Hrow.
  rewrite (fetch_stage _ Hok g Hg) in Hrow. by injection Hrow as <-.
Qed.

(** Submitting a task: uploads, then one new run. *)
Lemma by_steps_submit sha256 resolve parts host_path float_repr uuid clock config
    `{ManifestResolver} supports task version capability idem key :
  by_steps (submit sha256 resolve parts host_path float_repr uuid clock config supports
              task version capability idem key).
Proof.
  unfold submit, _check_inputs, _freeze_host_inputs. by_steps.
  all: try (destruct (omap _ _); by_steps).
  all: try (unfold freeze_input; destruct x; unfold ingest_file; by_steps).
Qed.

(** ** What the runtime relies on in an adapter *)

Class AdapterLaws (adapter : ProcessAdapter World) : Prop := {
  adapter_by_steps manifest task ws cancel on_line env reserved limits on_started :
    by_steps cancel → (∀ l, by_steps (on_line l)) → (∀ a b c, by_steps (on_started a b c)) →
    by_steps (adapter_execute adapter manifest task ws cancel on_line env reserved limits on_started);
  adapter_terminal manifest task ws cancel on_line env reserved limits on_started w ex w' :
    adapter_execute adapter manifest task ws cancel on_line env reserved limits on_started w
      = (Ok ex, w') →
    pr_status (ex_result ex) ∈ [SUCCEEDED; FAILED; CANCELLED; TIMED_OUT] }.

Section guardian.
Context (cancel : st World bool) (on_line : string → st World unit) (limits : option ResourceRequest).
Context (interval : Z) (Hc : by_steps cancel) (Hl : ∀ l, by_steps (on_line l)).

Lemma drain_by_steps n sv : by_steps (_drain on_line n sv).
Proof.
  unfold _drain, deliver. by_steps.
Qed.

Lemma wake_by_steps started timeout k sv :
  (∀ w, steps w (wk_others k w)) → by_steps (wake cancel on_line limits interval started timeout k sv).
Proof.
  intros Hk. unfold wake. apply by_steps_bind; [by apply by_steps_modify|]. intros _.
  destruct (wk_exited k); [apply by_steps_mret|].
  apply by_steps_bind; [apply drain_by_steps|]. intros sv'.
  apply by_steps_bind; [apply Hc|]. intros b. by_steps.
Qed.

Lemma supervise_by_steps started timeout wakeups fuel n sv :
  (∀ n w, steps w (wk_others (wakeups n) w)) →
  by_steps (supervise cancel on_line limits interval started timeout wakeups fuel n sv).
Proof.
  intros Hk. revert n sv. induction fuel as [|fuel IH]; intros n sv; [apply by_steps_mret|]. simpl.
  apply by_steps_bind; [apply wake_by_steps; auto|]. intros [sv' [why|]]; [apply by_steps_mret|apply IH].
Qed.

Lemma guardian_by_steps supports on_started timeout p fuel :
  (∀ a b c, by_steps (on_started a b c)) →
  (∀ n w, steps w (wk_others (pr_wakeups p n) w)) → (∀ w, steps w (pr_death p w)) →
  by_steps (run cancel on_line limits interval supports on_started timeout p fuel).
Proof.
  intros Hs Hk Hd. unfold run.
  apply by_steps_bind; [apply by_steps_lift|]. intros _.
  apply by_steps_bind; [apply by_steps_lift|]. intros _.
  apply by_steps_bind; [apply by_steps_lift|]. intros [[pid pgid] ticks].
  apply by_steps_bind; [apply Hs|]. intros _.
  apply by_steps_bind; [by apply supervise_by_steps|]. intros r.
  apply by_steps_bind; [apply by_steps_lift|]. intros [sv why].
  apply by_steps_bind; [by apply by_steps_modify|]. intros _.
  apply by_steps_bind; [apply drain_by_steps|]. intros. apply by_steps_mret.
Qed.
End guardian.

(** Whatever the plugin does to files, and other connections to the store. *)
#[export] Instance process_adapter_laws sha256 resolve loads float_repr spawn environ fuel path_str
    interval supports _now :
  (∀ command env n w, steps w (wk_others (pr_wakeups (spawn command env) n) w)) →
  (∀ command env w, steps w (pr_death (spawn command env) w)) →
  AdapterLaws (process_adapter sha256 resolve loads float_repr spawn environ fuel path_str interval
                 supports _now).
Proof.
  intros Hk Hd. split.
  - intros manifest task ws cancel on_line env reserved limits on_started Hc Hl Hs.
    cbn [adapter_execute process_adapter]. unfold execute.
    apply by_steps_bind; [apply by_steps_lift|]. intros _.
    apply by_steps_bind; [apply by_steps_lift|]. intros _.
    apply by_steps_bind; [apply by_steps_lift|]. intros _.
    apply by_steps_bind; [apply by_steps_unlink_file|]. intros _.
    apply by_steps_bind.
    { unfold _write_request. apply by_steps_bind; [apply by_steps_lift|]. intros. apply by_steps_write_file. }
    intros _. apply by_steps_bind; [apply by_steps_gets|]. intros t1.
    apply by_steps_bind; [by apply guardian_by_steps; auto|]. intros outcome. by_steps.
  - intros manifest task ws cancel on_line env reserved limits on_started w ex w' Hx.
    apply execute_judged in Hx as (t1 & t2 & Hx). apply judge_Ok in Hx as [_ Hx].
    destruct (po_cancelled _); [destruct Hx as [-> _]; set_solver|].
    destruct (po_timed_out _); [destruct Hx as [-> _]; set_solver|].
    case_bool_decide; [destruct Hx as [-> _]; set_solver|].
    destruct Hx as [[Hr _]|(_ & what & ->)]; [|set_solver].
    destruct Hr as (_ & _ & _ & _ & _ & text & doc & _ & _ & Hd'). by eapply plugin_result_status.
Qed.

(** ** The runtime *)

Section runtime.
Context (sha256 : string → string) (resolve : list string → string → list string).
Context (parts host_path : string → list string) (path_str : list string → string).
Context (loads : string → option json) (float_repr : spec_float → string).
Context (py_repr : json → string) (glob : list string → file_system → string → list (list string)).
Context (mkdir_fails : list string → bool) (pid : Z).
Context (uuid : nat → string) (clock monotonic : nat → Z).
Context (config : RuntimeConfig) `{HR : ManifestResolver}.
Context (adapter : ProcessAdapter World) `{HA : !AdapterLaws adapter}.
Context (evaluator : option (EvaluationRequest → st World Verdict)).
Context (HE : ∀ f, evaluator = Some f → ProtectedEvaluator f).
Context (environment_resolver : option (RunRecord → dict)).
Context (external_cancel : option (World → bool)).

Lemma by_steps_raise {A} e : by_steps (raise e : st World A).
Proof. by apply by_steps_pure. Qed.
Lemma by_steps_read {A} (f : Store → result A) : by_steps (read f).
Proof. unfold read. by_steps. Qed.
Lemma by_steps_touch_worker a : by_steps (touch_worker pid uuid clock config a).
Proof. unfold touch_worker. by_steps. Qed.
Lemma by_steps_move_run run_id target reason : by_steps (move_run uuid clock run_id target reason).
Proof. unfold move_run. by_steps. Qed.
Lemma by_steps_register a ws ds : by_steps (register sha256 resolve uuid clock a ws ds).
Proof. unfold register. by_steps. Qed.
Lemma by_steps_finish a status ec fl cpu mem procs :
  by_steps (finish uuid clock a status ec fl cpu mem procs).
Proof. unfold finish. by_steps. Qed.
Hint Resolve by_steps_raise by_steps_read by_steps_touch_worker by_steps_move_run by_steps_register
  by_steps_finish : by_steps.

Lemma by_steps_lease_pulse run_id attempt_id :
  by_steps (lease_pulse pid uuid clock monotonic config external_cancel run_id attempt_id).
Proof.
  unfold lease_pulse. by_steps.
  apply by_steps_modify. intros. apply rtc_refl.
Qed.

Lemma by_steps_on_line line : by_steps (on_line loads uuid clock line).
Proof. unfold on_line. by_steps. Qed.

Lemma by_steps_failure_evidence attempt :
  by_steps (_register_failure_evidence sha256 resolve parts uuid clock attempt).
Proof. unfold _register_failure_evidence. by_steps. Qed.
Hint Resolve by_steps_failure_evidence : by_steps.

Lemma by_steps_record_failure run attempt e :
  by_steps (_record_runtime_failure sha256 resolve parts uuid clock run attempt e).
Proof. unfold _record_runtime_failure. by_steps. Qed.

Lemma by_steps_stage_inputs task ws :
  by_steps (_stage_inputs sha256 resolve parts host_path float_repr task ws).
Proof.
  unfold _stage_inputs. by_steps. unfold stage_input. destruct x.
  unfold _stage_from_input, _stage_from_artifact, stage_held. by_steps.
Qed.

Lemma by_steps_receipt manifest run attempt ws env :
  by_steps (_write_protocol_receipt sha256 path_str float_repr manifest run attempt ws env).
Proof. unfold _write_protocol_receipt. by_steps. Qed.

Lemma by_steps_evaluate execution manifest run ws attempt_id :
  by_steps (_evaluate sha256 resolve path_str evaluator execution manifest run ws attempt_id).
Proof.
  unfold _evaluate. destruct (negb _); [by_steps|].
  destruct evaluator as [f|]; [|by_steps]. apply by_steps_bind; [by apply HE|]. intros. by_steps.
Qed.

Lemma by_steps_metrics attempt raw registered ids :
  by_steps (_register_metrics uuid clock attempt raw registered ids).
Proof. unfold _register_metrics. by_steps. Qed.
Hint Resolve by_steps_lease_pulse by_steps_on_line by_steps_record_failure by_steps_stage_inputs
  by_steps_receipt by_steps_evaluate by_steps_metrics : by_steps.

Lemma run_attempt_by_steps run stage attempt manifest ws :
  by_steps_if (stage_in stage (rec_run_id run))
    (_run_attempt sha256 resolve parts host_path path_str loads float_repr py_repr glob pid
       uuid clock monotonic config adapter evaluator environment_resolver external_cancel
       run stage attempt manifest ws).
Proof.
  assert (stable (stage_in stage (rec_run_id run))) as Hst by apply stage_in_stable.
  unfold _run_attempt.
  apply by_steps_if_bind; [done|by_steps|]. intros [staged input_manifest].
  apply by_steps_if_bind; [done|by_steps|]. intros t.
  apply by_steps_if_bind; [done|by_steps|]. intros _.
  apply by_steps_if_bind; [done|by_steps|]. intros _.
  apply by_steps_if_bind; [done|by_steps|]. intros [receipt env].
  apply by_steps_if_bind; [done|apply adapter_by_steps; intros; by_steps|]. intros execution.
  apply by_steps_if_bind; [done|by_steps|]. intros _.
  apply by_steps_if_bind; [done|by_steps|]. intros _.
  apply by_steps_if_bind; [done|by_steps|]. intros w1.
  apply by_steps_if_bind; [done|by_steps|]. intros _.
  apply by_steps_if_bind; [done|by_steps|]. intros runtime_artifacts.
  apply by_steps_if_bind; [done|by_steps|]. intros [ea em].
  apply by_steps_if_bind; [done|by_steps|]. intros w2.
  apply by_steps_if_bind; [done|by_steps|]. intros collected.
  apply by_steps_if_bind; [done|by_steps|]. intros ids.
  apply by_steps_if_bind; [done|by_steps|]. intros _.
  apply by_steps_if_bind; [done|by_steps|]. intros _.
  destruct (_should_retry _ _ _); [apply schedule_retry_by_steps|apply by_steps_weaken; by_steps].
Qed.

Lemma by_steps_claim run stage ws :
  by_steps (claim_stage sha256 resolve parts mkdir_fails pid uuid clock config run stage ws).
Proof. unfold claim_stage. by_steps. Qed.

Lemma supervise_by_steps_if run stage attempt manifest ws :
  by_steps_if (stage_in stage (rec_run_id run))
    (supervise_attempt sha256 resolve parts host_path path_str loads float_repr py_repr glob pid
       uuid clock monotonic config adapter evaluator environment_resolver external_cancel
       run stage attempt manifest ws).
Proof.
  unfold supervise_attempt. apply by_steps_if_bind; [apply stage_in_stable| |].
  { apply by_steps_modify. intros. apply rtc_refl. }
  intros _. apply by_steps_if_finally; [|by_steps].
  apply by_steps_if_catch; [apply stage_in_stable|apply run_attempt_by_steps|].
  intros. by_steps.
Qed.
End runtime.
