(* ===== verification/RuntimeProps.v ===== *)
(** * What executing a stage comes to

    Every change is a step of the store; an execution that reports work leaves its
    attempt settled and its run no longer running, however the attempt went. *)

From stdpp Require Import gmap.
From S2P Require Export RuntimeSteps StoreProps SubmissionProps.
Open Scope string_scope.
Open Scope list_scope.

Lemma catch_Ok {S A} (m : st S A) p h s a s' :
  catch m p h s = (Ok a, s') ↔
  m s = (Ok a, s') ∨ ∃ e s1, m s = (Err e, s1) ∧ p e = true ∧ h e s1 = (Ok a, s').
Proof.
  unfold catch. destruct (m s) as [[x|e] s1].
  - split; [by left|]. intros [?|(? & ? & ? & _)]; congruence.
  - destruct (p e) eqn:E; (split; [intros H; right; by exists e, s1|]);
      intros [?|(? & ? & ? & ? & ?)]; congruence.
Qed.

(** A handler that returns leaves none of its exceptions. *)
Lemma catch_never {S A} (m : st S A) (p : exn → bool) (h : exn → st S A) s e s' :
  (∀ e s, is_Ok (fst (h e s)) = true) → catch m p h s = (Err e, s') → p e = false.
Proof.
  intros Hh. unfold catch. destruct (m s) as [[x|e1] s1]; [done|].
  destruct (p e1) eqn:E; [|naive_solver]. intros H. specialize (Hh e1 s1). by rewrite H in Hh.
Qed.

(** ** Settled *)

Definition attempt_settled (attempt_id : string) (s : Store) : Prop :=
  ∃ a, a ∈ attempts s ∧ a_attempt_id a = attempt_id ∧ a_status a ≠ A_RUNNING.
Definition run_settled (run_id : string) (s : Store) : Prop :=
  ∃ r, r ∈ runs s ∧ r_run_id r = run_id ∧ r_status r ≠ RUNNING.
Definition has_attempt (attempt_id : string) (s : Store) : Prop :=
  ∃ a, a ∈ attempts s ∧ a_attempt_id a = attempt_id.

(** A settled attempt stays as it is. *)
Lemma attempt_settled_evolves i s s' : evolution s s' → attempt_settled i s → attempt_settled i s'.
Proof.
  intros [_ _ Ha _] (a & Hin & Hid & Hst). destruct (Ha a Hin) as (a' & Hin' & E).
  exists a'. destruct E as (? & ? & ? & ? & ? & ? & [?| ->]); [done|done].
Qed.
Lemma has_attempt_evolves i s s' : evolution s s' → has_attempt i s → has_attempt i s'.
Proof.
  intros [_ _ Ha _] (a & Hin & Hid). destruct (Ha a Hin) as (a' & Hin' & E).
  exists a'. destruct E as (-> & _). done.
Qed.

Lemma get_run_row run_id s rec : get_run run_id s = Ok rec →
  ∃ row, row ∈ runs s ∧ r_run_id row = run_id ∧ rec_run_id rec = run_id ∧
         rec_status rec = r_status row.
Proof.
  unfold get_run, _run_from_row. intros H. invert_ok.
  match goal with E : fetchone _ _ = Some _ |- _ => apply fetchone_Some in E as [Hin Hm] end.
  unfold is_run in Hm. bool_simpl. eauto.
Qed.

Lemma get_run_raises run_id s e : store_ok s → get_run run_id s = Err e →
  is_invalid_transition e = false.
Proof.
  intros Hok. unfold get_run. destruct (fetchone _ _) as [row|] eqn:Hf.
  - apply fetchone_Some in Hf as [Hin _]. destruct (row_loads _ Hok _ Hin) as (rec & Hl & _).
    cbn [of_option mbind result_bind]. by rewrite Hl.
  - by intros [= <-].
Qed.

(** The run that was read is the run that is settled. *)
Lemma run_settled_get run_id s rec : store_ok s → run_settled run_id s →
  get_run run_id s = Ok rec → rec_status rec ≠ RUNNING.
Proof.
  intros Hok (r & Hr & Hid & Hst) Hg. destruct (get_run_row _ _ _ Hg) as (row & Hin & Hid' & _ & ->).
  by rewrite <-(run_unique _ _ (so_runs _ Hok) r row Hr Hin (eq_trans Hid (eq_sym Hid'))).
Qed.

Lemma move_settles run_id target reason now s u s' : target ≠ RUNNING →
  transition_run run_id target reason now s = (Ok u, s') → run_settled run_id s'.
Proof.
  intros Ht H. apply transition_run_Ok in H as (row & [Hin Hm]%fetchone_Some & H).
  assert (r_run_id row = run_id) as Hid by (unfold is_run in Hm; by bool_simpl).
  destruct H as [[Hst ->]|[_ ->]]; [by exists row; rewrite Hst|].
  exists (moved run_id target reason now row). split; [|done]. simpl. apply elem_of_upd.
  exists row. by rewrite Hm.
Qed.

Lemma transition_run_attempts run_id target reason now s u s' :
  transition_run run_id target reason now s = (u, s') → attempts s' = attempts s.
Proof.
  destruct u as [u|e]; [|by intros ->%transaction_Err].
  by intros (row & _ & [[_ ->]|[_ ->]])%transition_run_Ok.
Qed.

Lemma retry_settles run_id g reason s u s' :
  schedule_retry run_id g reason s = (Ok u, s') → run_settled run_id s'.
Proof.
  intros H. apply schedule_retry_Ok in H as (stage & row & _ & [Hin Hm]%fetchone_Some & _ & _ & ->).
  assert (r_run_id row = run_id) as Hid by (unfold is_run in Hm; by bool_simpl).
  eexists. split; [simpl; apply elem_of_upd; exists row; by rewrite Hm|done].
Qed.

Lemma finish_settles attempt_id status ec fl cpu mem procs now s u s' : status ≠ A_RUNNING →
  finish_attempt attempt_id status ec fl cpu mem procs now s = (Ok u, s') →
  attempt_settled attempt_id s'.
Proof.
  intros Hs H. apply finish_attempt_Ok in H as (row & [Hin Hm]%fetchone_Some & _ & ->).
  assert (a_attempt_id row = attempt_id) as Hid by (unfold is_attempt in Hm; by bool_simpl).
  eexists. split; [simpl; apply elem_of_upd; exists row; by rewrite Hm|].
  by split.
Qed.

(** [except InvalidTransition]: it was settled before. *)
Lemma finish_refused attempt_id ec fl cpu mem procs now s e s' :
  finish_attempt attempt_id A_FAILED ec fl cpu mem procs now s = (Err e, s') →
  is_invalid_transition e = true → attempt_settled attempt_id s'.
Proof.
  intros H He. pose proof (transaction_Err _ _ _ _ H) as ->. revert H.
  unfold finish_attempt, transaction. rewrite bind_run. cbn [gets id].
  rewrite bind_run. unfold lift at 1. destruct (fetchone _ _) as [row|] eqn:Hf; cbn [of_option].
  - rewrite bind_run. unfold lift at 1. destruct (attempt_transition_allowed _ _) eqn:Ha; [done|].
    intros _. apply fetchone_Some in Hf as [Hin Hm]. unfold is_attempt in Hm. bool_simpl.
    exists row. split_and!; [done..|]. intros Hr. by rewrite Hr in Ha.
  - intros [= <-]. done.
Qed.

Definition ticked (w : World) : World :=
  MkWorld (cust w) (host_files w) (watcher w) (last_pulse w) (S (draws w)).

Lemma now_run uuid clock w : now uuid clock w = (Ok (clock (draws w)), ticked w).
Proof. done. Qed.
Lemma draw_run uuid clock w :
  draw uuid clock w = (Ok (uuid (draws w), clock (draws w)), ticked w).
Proof. done. Qed.

(** ** The runtime *)

Section runtime.
Context (sha256 : string → string) (resolve : list string → string → list string).
Context (parts host_path : string → list string) (path_str : list string → string).
Context (loads : string → option json) (float_repr : spec_float → string).
Context (py_repr : json → string) (glob : list string → file_system → string → list (list string)).
Context (mkdir_fails : list string → bool) (pid : Z).
Context (uuid : nat → string) (clock monotonic : nat → Z).
Context (config : RuntimeConfig) `{HR : ManifestResolver}.
Context (adapter : ProcessAdapter World) `{HA : !AdapterLaws adapter}.
Context (evaluator : option (EvaluationRequest → st World Verdict)).
Context (HE : ∀ f, evaluator = Some f → ProtectedEvaluator f).
Context (environment_resolver : option (RunRecord → dict)).
Context (external_cancel : option (World → bool)).

Local Abbreviation execute_once_reporting :=
  (execute_once_reporting sha256 resolve parts host_path path_str loads float_repr py_repr glob
     mkdir_fails pid uuid clock monotonic config adapter evaluator environment_resolver
     external_cancel).

(** The stage the runtime takes up is the run's. *)
Lemma next_ready_in run_id s stage : store_ok s →
  _next_ready_stage run_id s = Some stage → ∃ g, g ∈ stages s ∧ g = stage ∧ s_run_id g = run_id.
Proof.
  intros Hok H. unfold _next_ready_stage in H. apply List.find_some in H as [Hin _].
  unfold list_stages in Hin. apply list_elem_of_In, elem_of_order_by, elem_of_sel in Hin as [Hin Hm].
  unfold stage_of_run in Hm. bool_simpl. eauto.
Qed.

Lemma request_cancel_attempts run_id now s r s' :
  request_cancel id run_id now s = (r, s') → attempts s' = attempts s.
Proof.
  unfold request_cancel. rewrite bind_run. cbn [gets id]. rewrite bind_run. unfold lift.
  destruct (get_run _ _); [|by intros [= _ <-]].
  destruct (_ || _); [by intros [= _ <-]|]. rewrite bind_run. apply transition_run_attempts.
Qed.

(** How the call came out: not at all, or with a claim and then the attempt. *)
Inductive executed (run_id : string) (w : World) : result (RunRecord * bool) → World → Prop :=
| exec_idle r w' :
    steps w w' → attempts (store_of w') = attempts (store_of w) →
    (∀ x, r = Ok x → snd x = false) → executed run_id w r w'
| exec_claim run stage manifest ws w1 r w' :
    steps w w1 → attempts (store_of w1) = attempts (store_of w) →
    rec_run_id run = run_id → stage_in stage run_id w1 →
    (claimed ← claim_stage sha256 resolve parts mkdir_fails pid uuid clock config run stage ws;
     match claimed with
     | inl r => mret r
     | inr attempt =>
         supervise_attempt sha256 resolve parts host_path path_str loads float_repr py_repr glob pid
           uuid clock monotonic config adapter evaluator environment_resolver external_cancel
           run stage attempt manifest ws;;
         r ← read (get_run run_id);
         mret (r, true)
     end) w1 = (r, w') → executed run_id w r w'.

Lemma execute_cases run_id w r w' : store_ok (store_of w) →
  execute_once_reporting run_id w = (r, w') → executed run_id w r w'.
Proof.
  intros Hok. unfold execute_once_reporting. rewrite bind_run. cbn [gets id].
  rewrite bind_run.
  match goal with |- context [match ?m with (_, _) => _ end] => destruct m as [r1 w1] eqn:E1 end.
  assert (steps w w1 ∧ attempts (store_of w1) = attempts (store_of w)) as [Hs1 Ha1].
  { destruct (match external_cancel with Some f => f w | None => false end).
    - revert E1. rewrite bind_run, now_run. unfold in_store, in_custody, in_db.
      match goal with |- context [request_cancel ?o ?i ?t ?s] =>
        destruct (request_cancel o i t s) as [v s'] eqn:E end.
      intros [= <- <-]. simpl.
      split; [|by eapply request_cancel_attempts]. apply rtc_once.
      eapply step_cancel; [apply harmless_id|done].
    - by injection E1 as <- <-. }
  destruct r1 as [[]|e]; [|intros [= <- <-]; by apply exec_idle].
  rewrite bind_run. unfold read at 1. rewrite bind_run. cbn [gets id]. unfold lift at 1.
  destruct (get_run run_id (store_of w1)) as [run|e] eqn:Eg; [|intros [= <- <-]; by apply exec_idle].
  destruct (get_run_row _ _ _ Eg) as (_ & _ & _ & Hid & _).
  destruct (is_terminal _); [intros [= <- <-]; apply exec_idle; naive_solver|].
  rewrite bind_run. cbn [gets id]. destruct (_next_ready_stage _ _) as [stage|] eqn:En;
    [|intros [= <- <-]; apply exec_idle; naive_solver].
  rewrite bind_run. unfold lift at 1.
  destruct (resolve_manifest _ _ _) as [manifest|e]; [|intros [= <- <-]; by apply exec_idle].
  intros H. eapply exec_claim; [done..| |exact H].
  assert (store_ok (store_of w1)) as Hok1 by by eapply store_steps_wb.
  destruct (next_ready_in _ _ _ Hok1 En) as (g & Hg & -> & Hr). split; [done|]. by exists stage.
Qed.
Lemma in_store_inv {A} (m : st Store A) w r w' :
  in_store m w = (r, w') → m (store_of w) = (r, store_of w').
Proof.
  unfold in_store, in_custody, in_db, store_of. destruct (m _) as [v s']. by intros [= <- <-].
Qed.

Lemma finish_outcome attempt_id ec fl cpu mem procs w r w' :
  finish uuid clock attempt_id A_FAILED ec fl cpu mem procs w = (r, w') →
  match r with Ok _ => True | Err e => is_invalid_transition e = true end →
  attempt_settled attempt_id (store_of w').
Proof.
  unfold finish. rewrite bind_run, now_run. intros H%in_store_inv Hr. destruct r as [[]|e].
  - by eapply finish_settles in H.
  - by eapply finish_refused in H.
Qed.

Lemma running_moves run_id reason now s row :
  fetchone (is_run run_id) (runs s) = Some row → r_status row = RUNNING →
  is_Ok (fst (transition_run run_id FAILED reason now s)) = true.
Proof.
  intros Hf Hst. unfold transition_run, transaction. rewrite bind_run. cbn [gets id].
  rewrite bind_run. unfold lift. rewrite Hf. cbn [of_option]. by rewrite Hst.
Qed.

(** The last statement of the handler. *)
Lemma failed_outcome run_id w r w' : store_ok (store_of w) →
  (current ← read (get_run run_id);
   if bool_decide (rec_status current = RUNNING)
   then move_run uuid clock run_id FAILED (Some "runtime_error") else mret tt) w = (r, w') →
  match r with Ok _ => True | Err e => is_invalid_transition e = true end →
  run_settled run_id (store_of w').
Proof.
  intros Hok H Hr. rewrite bind_run in H. unfold read at 1 in H. rewrite bind_run in H.
  cbn [gets id] in H. unfold lift at 1 in H.
  destruct (get_run run_id (store_of w)) as [current|e] eqn:Eg.
  - destruct (get_run_row _ _ _ Eg) as (row & Hin & Hid & _ & Hst).
    case_bool_decide as Hrun; 
      [|injection H as <- <-; exists row; by rewrite <-Hst].
    unfold move_run in H. rewrite bind_run, now_run in H. apply in_store_inv in H.
    change (store_of (ticked w)) with (store_of w) in H.
    pose proof (fetch_run _ Hok _ Hin) as Hf. rewrite Hid in Hf.
    pose proof (running_moves run_id (Some "runtime_error") (clock (draws w)) _ _ Hf
                  (eq_trans (eq_sym Hst) Hrun)) as Hm.
    rewrite H in Hm. destruct r as [[]|]; [|done]. by eapply move_settles in H.
  - injection H as <- <-. by rewrite (get_run_raises _ _ _ Hok Eg) in Hr.
Qed.

Lemma failure_settles run attempt e w u w' : store_ok (store_of w) →
  _record_runtime_failure sha256 resolve parts uuid clock run attempt e w = (Ok u, w') →
  attempt_settled (at_attempt_id attempt) (store_of w') ∧
  run_settled (rec_run_id run) (store_of w').
Proof.
  intros Hok H. unfold _record_runtime_failure in H.
  apply bind_st_Ok in H as (ev & w1 & H1 & H). apply bind_st_Ok in H as ([] & w2 & H2 & H3).
  assert (store_ok (store_of w1)) as Hok1.
  { eapply store_steps_wb; [exact Hok|]. by eapply by_steps_failure_evidence in H1. }
  assert (attempt_settled (at_attempt_id attempt) (store_of w2)) as Hset.
  { apply catch_Ok in H2 as [H2|(e1 & w3 & H2 & He & [= <-])]; by eapply finish_outcome in H2. }
  assert (steps w1 w2) as Hs2.
  { revert H2. apply by_steps_catch; [apply by_steps_finish|intros; by_steps]. }
  assert (steps w2 w') as Hs3.
  { revert H3. apply by_steps_catch; [|intros; by_steps].
    apply by_steps_bind; [apply by_steps_read|]. intros. case_bool_decide; [|by_steps].
    apply by_steps_move_run. }
  destruct (store_steps_wb _ _ Hok1 Hs2) as [Hok2 _].
  destruct (store_steps_wb _ _ Hok2 Hs3) as [_ Hev].
  split; [by eapply attempt_settled_evolves|].
  apply catch_Ok in H3 as [H3|(e1 & w3 & H3 & He & [= Hw])]; [|subst w3];
    (eapply failed_outcome; [exact Hok2|exact H3|done]).
Qed.
Lemma attempt_settled_same i s s' :
  attempts s' = attempts s → attempt_settled i s → attempt_settled i s'.
Proof. unfold attempt_settled. by intros ->. Qed.

Lemma schedule_retry_attempts run_id g reason s r s' :
  schedule_retry run_id g reason s = (r, s') → attempts s' = attempts s.
Proof.
  destruct r as [u|e]; [|by intros ->%transaction_Err].
  by intros (stage & row & _ & _ & _ & _ & ->)%schedule_retry_Ok.
Qed.

Lemma run_attempt_settles run stage attempt manifest ws w u w' :
  _run_attempt sha256 resolve parts host_path path_str loads float_repr py_repr glob pid
    uuid clock monotonic config adapter evaluator environment_resolver external_cancel
    run stage attempt manifest ws w = (Ok u, w') →
  attempt_settled (at_attempt_id attempt) (store_of w') ∧
  run_settled (rec_run_id run) (store_of w').
Proof.
  intros H. unfold _run_attempt in H.
  apply bind_st_Ok in H as ([staged input_manifest] & w1 & _ & H).
  apply bind_st_Ok in H as (t & w2 & _ & H). do 2 apply bind_st_Ok in H as (? & ? & _ & H).
  apply bind_st_Ok in H as ([receipt env] & w3 & _ & H).
  apply bind_st_Ok in H as (execution & w4 & Hx & H). apply adapter_terminal in Hx.
  do 5 apply bind_st_Ok in H as (? & ? & _ & H).
  apply bind_st_Ok in H as ([ea em] & w5 & _ & H).
  do 4 apply bind_st_Ok in H as (? & ? & _ & H).
  apply bind_st_Ok in H as ([] & w6 & Hf & H).
  assert (attempt_settled (at_attempt_id attempt) (store_of w6)) as Hset.
  { unfold finish in Hf. rewrite bind_run, now_run in Hf. apply in_store_inv in Hf.
    eapply finish_settles; [|exact Hf]. by destruct (pr_status _). }
  destruct (_should_retry _ _ _).
  - apply in_store_inv in H. split; [|by eapply retry_settles].
    eapply attempt_settled_same; [by eapply schedule_retry_attempts|done].
  - unfold move_run in H. rewrite bind_run, now_run in H. apply in_store_inv in H.
    split; [|eapply move_settles; [|exact H]; by intros Hr; rewrite Hr in Hx; set_solver].
    eapply attempt_settled_same; [by eapply transition_run_attempts|done].
Qed.
(** Closing the observer and the registry entry. *)
Lemma record_event_rows run_id ty payload producer g a hex now s r s' :
  record_event run_id ty payload producer g a hex now s = (r, s') →
  runs s' = runs s ∧ attempts s' = attempts s.
Proof.
  unfold record_event, insert_event. rewrite !bind_run. rewrite constraint_run.
  destruct (_ : bool); by intros [= _ <-].
Qed.

Lemma closing_rows w r w' :
  (d ← draw uuid clock; in_observed (record_summary (fst d) (snd d));;
   touch_worker pid uuid clock config None) w = (r, w') →
  runs (store_of w') = runs (store_of w) ∧ attempts (store_of w') = attempts (store_of w).
Proof.
  intros H. revert H. set (I := λ w1, runs (store_of w1) = runs (store_of w) ∧
                                   attempts (store_of w1) = attempts (store_of w)).
  enough (keeps I (d ← draw uuid clock; in_observed (record_summary (fst d) (snd d));;
                   touch_worker pid uuid clock config None)) as Hk by (by apply Hk).
  apply keeps_bind; [intros w1 r1 w2 Hw [= _ <-]; exact Hw|]. intros d.
  apply keeps_bind.
  - intros w1 r1 w2 Hw. unfold in_observed, record_summary. rewrite bind_run. cbn [gets id].
    destruct (_ <? _)%Z; [|by intros [= _ <-]]. unfold emit.
    destruct (record_event _ _ _ _ _ _ _ _ _) as [v s] eqn:E. intros [= _ <-].
    destruct (record_event_rows _ _ _ _ _ _ _ _ _ _ _ E) as [Hr Ha]. unfold I in *. simpl in *.
    change (store_of (with_watcher _ _)) with s. by rewrite Hr, Ha.
  - intros _ w1 r1 w2 Hw. unfold touch_worker. rewrite bind_run, now_run.
    intros H%in_store_inv. unfold I. unfold touch in H. rewrite bind_run in H.
    injection H as _ <-. exact Hw.
Qed.

Lemma supervise_settles run stage attempt manifest ws w u w' :
  stage_in stage (rec_run_id run) w →
  supervise_attempt sha256 resolve parts host_path path_str loads float_repr py_repr glob pid
    uuid clock monotonic config adapter evaluator environment_resolver external_cancel
    run stage attempt manifest ws w = (Ok u, w') →
  attempt_settled (at_attempt_id attempt) (store_of w') ∧
  run_settled (rec_run_id run) (store_of w').
Proof.
  intros Hin H. unfold supervise_attempt in H. rewrite bind_run in H. cbn [modify] in H.
  set (w0 := attend _ _ _ _ w) in H. assert (stage_in stage (rec_run_id run) w0) as Hin0 by exact Hin.
  unfold finally in H.
  match type of H with context [let '(_, _) := ?m in _] => destruct m as [r1 w1] eqn:E1 end.
  match type of H with context [let '(_, _) := ?m in _] => destruct m as [r2 w2] eqn:E2 end.
  injection H as Hm <-. destruct r2 as [x|]; [|done]. subst r1.
  apply closing_rows in E2 as [Hr Ha]. unfold attempt_settled, run_settled. rewrite Hr, Ha.
  apply catch_Ok in E1 as [E1|(e & w3 & E1 & _ & E3)]; [by eapply run_attempt_settles|].
  eapply failure_settles; [|exact E3]. eapply store_steps_wb; [apply Hin0|].
  by eapply run_attempt_by_steps in E1.
Qed.
(** ** The claim *)

Lemma failure_never run attempt e w e' w' : store_ok (store_of w) →
  _record_runtime_failure sha256 resolve parts uuid clock run attempt e w = (Err e', w') →
  is_invalid_transition e' = false.
Proof.
  intros Hok. unfold _record_runtime_failure. rewrite bind_run.
  destruct (_register_failure_evidence _ _ _ _ _ _ _) as [[ev|e1] w1] eqn:E1.
  - rewrite bind_run. destruct (catch _ _ _ w1) as [[[]|e2] w2] eqn:E2.
    + by apply catch_never.
    + intros [= <- _]. by eapply catch_never in E2.
  - intros [= <- _]. revert E1. unfold _register_failure_evidence. rewrite bind_run. cbn [gets id].
    destruct (List.filter _ _); [done|]. intros E1. apply catch_never in E1; [|done].
    unfold is_evidence_error in E1. bool_simpl. by destruct e1.
Qed.

(** The claim: refused, lost to a workspace, or a new attempt. *)
Definition claim_result (run_id : string) (w : World) (r : (RunRecord * bool) + Attempt)
    (w' : World) : Prop :=
  match r with
  | inl (rec, false) => attempts (store_of w') = attempts (store_of w)
  | inl (rec, true) => get_run run_id (store_of w') = Ok rec ∧
      ∃ i, ¬ has_attempt i (store_of w) ∧ attempt_settled i (store_of w') ∧
           run_settled run_id (store_of w')
  | inr a => ¬ has_attempt (at_attempt_id a) (store_of w)
  end.

Lemma read_Ok {A} (f : Store → result A) w a w' :
  read f w = (Ok a, w') ↔ f (store_of w) = Ok a ∧ w' = w.
Proof. unfold read. rewrite bind_run. cbn [gets id]. apply lift_Ok. Qed.

Lemma touch_worker_run a w : ∃ w', touch_worker pid uuid clock config a w = (Ok tt, w') ∧
  attempts (store_of w') = attempts (store_of w).
Proof. by eexists. Qed.

Lemma read_run {A} (f : RunRecord → st World A) run_id w : (read (get_run run_id) ≫= f) w =
  match get_run run_id (store_of w) with Ok rec => f rec w | Err e => (Err e, w) end.
Proof. unfold read. rewrite bind_run, bind_run. cbn [gets id]. unfold lift. by destruct (get_run _ _). Qed.

(** What the body of the claim comes to, by the result of [start_attempt]. *)
Lemma claim_cases run stage ws w : store_ok (store_of w) →
  ∃ o w1, in_store (start_attempt (s_stage_run_id stage) (config_worker_id config) ws
      (lease_seconds config) (Some (reservation_for config (rec_task_spec run)))
      (Some (capacity_cpu_cores config)) (Some (capacity_memory_bytes config))
      (platform_fraction config) (uuid (draws w)) (clock (draws w))) (ticked w) = (o, w1) ∧
  store_ok (store_of w1) ∧
  match o with
  | Ok (Some a) => ¬ has_attempt (at_attempt_id a) (store_of w) ∧ at_workspace a = ws ∧
                   at_stage_run_id a = s_stage_run_id stage
  | _ => store_of w1 = store_of w
  end.
Proof.
  intros Hok. destruct (in_store _ (ticked w)) as [o w1] eqn:E. exists o, w1. split; [done|].
  apply in_store_inv in E. split; [eapply start_attempt_wb in E; [apply E|exact Hok]|].
  apply start_attempt_inv in E as [[Hs Hno]|E].
  - destruct o as [[a|]|]; [by destruct (Hno a)|done..].
  - destruct E as (g & number & a & s1 & -> & _ & _ & _ & _ & -> & Hfresh & _ & _).
    split_and!; [|done..]. intros (a & Ha & Hid). rewrite has_row_false in Hfresh.
    specialize (Hfresh a Ha). unfold is_attempt in Hfresh. bool_simpl. done.
Qed.

Lemma claim_outcome run stage ws w r w' : store_ok (store_of w) →
  claim_stage sha256 resolve parts mkdir_fails pid uuid clock config run stage ws w = (Ok r, w') →
  claim_result (rec_run_id run) w r w'.
Proof.
  intros Hok H. destruct (claim_cases run stage ws w Hok) as (o & w1 & E & Hok1 & Ho).
  unfold claim_stage, catch in H. rewrite bind_run, draw_run in H. cbn [fst snd] in H.
  rewrite bind_run, E in H. destruct o as [[a|]|e].
  - destruct (touch_worker_run (Some (at_attempt_id a)) w1) as (w2 & Ht & _).
    assert (store_ok (store_of w2)) as Hok2.
    { eapply store_steps_wb; [exact Hok1|]. by eapply by_steps_touch_worker. }
    rewrite bind_run, Ht in H. destruct (mkdir_fails _); [|by injection H as <- <-; apply Ho].
    rewrite bind_run in H.
    destruct (_record_runtime_failure _ _ _ _ _ _ _ _ w2) as [[[]|e] w3] eqn:Ef.
    + assert (store_ok (store_of w3)) as Hok3.
      { eapply store_steps_wb; [exact Hok2|]. by eapply by_steps_record_failure. }
      rewrite read_run in H. destruct (get_run _ _) as [rec|e] eqn:Eg.
      * injection H as <- <-. split; [done|]. eexists. split; [apply Ho|].
        eapply failure_settles; [exact Hok2|exact Ef].
      * by rewrite (get_run_raises _ _ _ Hok3 Eg) in H.
    + by rewrite (failure_never _ _ _ _ _ _ Hok2 Ef) in H.
  - rewrite read_run in H. destruct (get_run _ _) as [rec|e] eqn:Eg.
    + injection H as <- <-. simpl. by rewrite Ho.
    + by rewrite (get_run_raises _ _ _ Hok1 Eg) in H.
  - destruct (is_invalid_transition e); [|done].
    rewrite read_run in H. destruct (get_run _ _) as [rec|e1]; [|done].
    injection H as <- <-. simpl. by rewrite Ho.
Qed.

(** ** The whole call *)

Local Abbreviation claim_stage :=
  (claim_stage sha256 resolve parts mkdir_fails pid uuid clock config).
Local Abbreviation supervise_attempt :=
  (supervise_attempt sha256 resolve parts host_path path_str loads float_repr py_repr glob pid
     uuid clock monotonic config adapter evaluator environment_resolver external_cancel).

Lemma execute_steps run_id w r w' : store_ok (store_of w) →
  execute_once_reporting run_id w = (r, w') → steps w w'.
Proof.
  intros Hok H. apply execute_cases in H; [|done].
  destruct H as [|run stage manifest ws w1 r w' Hs1 _ Hid Hin H]; [done|]. etrans; [exact Hs1|].
  revert H. rewrite <-Hid in Hin. apply (by_steps_if_bind (stage_in stage (rec_run_id run)));
    [apply stage_in_stable|apply by_steps_claim| |exact Hin].
  intros [x|attempt]; [by apply by_steps_weaken; by_steps|].
  apply by_steps_if_bind_if; [apply stage_in_stable|by apply supervise_by_steps_if|].
  intros _. apply by_steps_weaken, by_steps_bind; [apply by_steps_read|]. intros. by_steps.
Qed.

Lemma execute_settles run_id w rec w' : store_ok (store_of w) →
  execute_once_reporting run_id w = (Ok (rec, true), w') →
  get_run run_id (store_of w') = Ok rec ∧ run_settled run_id (store_of w') ∧
  ∃ i, ¬ has_attempt i (store_of w) ∧ attempt_settled i (store_of w').
Proof.
  intros Hok H. apply execute_cases in H; [|done].
  inversion H as [? ? _ _ Hno|run stage manifest ws w1 ? ? Hs1 Ha1 Hid Hin E]; subst;
    [by specialize (Hno _ eq_refl)|].
  assert (∀ i, has_attempt i (store_of w) ↔ has_attempt i (store_of w1)) as Hhas.
  { intros i. unfold has_attempt. by rewrite Ha1. }
  setoid_rewrite Hhas. apply bind_st_Ok in E as (c & w2 & Ec & E).
  pose proof (claim_outcome _ _ _ _ _ _ (proj1 Hin) Ec) as Hc. destruct c as [r|attempt].
  - injection E as -> <-. destruct Hc as (Hg & i & Hn & Ha & Hr). eauto.
  - apply bind_st_Ok in E as (u & w3 & Es & E). apply bind_st_Ok in E as (r & w4 & Eg & E).
    apply read_Ok in Eg as [Eg ->]. injection E as <- <-.
    assert (stage_in stage (rec_run_id run) w2) as Hin2.
    { eapply stage_in_stable; [exact Hin|]. by eapply by_steps_claim. }
    apply supervise_settles in Es as [Ha Hr]; [|exact Hin2]. split; [done|]. split; [done|].
    by exists (at_attempt_id attempt).
Qed.

(** Everything a worker does to the store while it executes a stage, failures
    included, is a history of store operations, so the invariant of the store and what
    holds of its histories hold of workers. *)
Theorem execute_once_steps run_id w r w' : store_ok (store_of w) →
  execute_once_reporting run_id w = (r, w') →
  rtc store_step (store_of w) (store_of w') ∧ store_ok (store_of w').
Proof.
  intros Hok H. apply execute_steps in H; [|done]. split; [done|by eapply store_steps_wb].
Qed.

(** C3. From any well-formed store, an execution that reports work started a new
    attempt that is settled when it returns, whatever the adapter, the evaluator or
    the plugin did, and leaves the run it reports no longer running; an execution that
    reports none touched no attempt. *)
Theorem execute_once_settles run_id w rec b w' : store_ok (store_of w) →
  execute_once_reporting run_id w = (Ok (rec, b), w') →
  if b then
    get_run run_id (store_of w') = Ok rec ∧ rec_status rec ≠ RUNNING ∧
    ∃ i, ¬ has_attempt i (store_of w) ∧ attempt_settled i (store_of w')
  else attempts (store_of w') = attempts (store_of w).
Proof.
  intros Hok H. destruct b.
  - pose proof (execute_settles _ _ _ _ Hok H) as (Hg & Hr & Hi).
    apply execute_steps in H; [|done]. split_and!; [done| |done].
    eapply run_settled_get; [|exact Hr|exact Hg]. by eapply store_steps_wb.
  - apply execute_cases in H; [|done].
    inversion H as [? ? _ Ha _|run stage manifest ws w1 ? ? Hs1 Ha1 Hid Hin E]; subst; [done|].
    rewrite <-Ha1. apply bind_st_Ok in E as (c & w2 & Ec & E).
    pose proof (claim_outcome _ _ _ _ _ _ (proj1 Hin) Ec) as Hc. destruct c as [r|attempt].
    + by injection E as -> <-.
    + apply bind_st_Ok in E as (u & w3 & _ & E). by apply bind_st_Ok in E as (r & w4 & _ & E).
Qed.
End runtime.

(** ** A concrete execution *)

(** A plugin that leaves a report and a result. *)
Definition demo_work : list string := ["work"; "run-2"; "stage-3"; "attempt-1"].
Definition demo_plugin (answer : string) (command : list json) (env : dict) : process World :=
  MkProcess (Some (10, 10, None)%Z) 0
    (λ n, MkWakeup (λ w, with_files (<[demo_work ++ ["out.rpt"] := "data"]>
                           (<[demo_work ++ [RESULT_FILENAME] := answer]> (host_files w))) w)
            true [] 0 0 (1, S754_zero false, 0)%Z) [] id 0.
Definition demo_adapter (answer : string) : ProcessAdapter World :=
  process_adapter demo_sha256 path_resolve demo_loads (λ _, "0.0") (demo_plugin answer) [] 3
    (str_join "/") 500000 true (λ _, "t0").
Definition demo_execute (answer : string) : result (RunRecord * bool) * World :=
  execute_once_reporting demo_sha256 path_resolve demo_host_path demo_host_path (str_join "/")
    demo_loads (λ _, "0.0") (λ _, "?") (λ _ _ _, []) (λ _, false) 7 (λ n, pretty.pretty n)
    (λ n, Z.of_nat n) (λ n, Z.of_nat n) demo_config (demo_adapter answer) None None None "run-2"
    (snd (demo_submitted "in.v" "in.sdc")).

#[export] Instance demo_adapter_laws answer : AdapterLaws (demo_adapter answer).
Proof.
  unfold demo_adapter. apply process_adapter_laws.
  - intros command env n w. apply (rtc_refl store_step (store_of w)).
  - intros command env w. apply (rtc_refl store_step (store_of w)).
Qed.

Lemma demo_submitted_ok : store_ok (store_of (snd (demo_submitted "in.v" "in.sdc"))).
Proof.
  eapply store_steps_wb; [exact empty_store_ok|].
  exact (by_steps_submit _ _ _ _ _ _ _ _ _ _ _ _ _ _ demo_world _ _ (surjective_pairing _)).
Qed.

Lemma execute_once_steps_witness : store_ok (store_of (snd (demo_execute "ok"))).
Proof.
  refine (proj2 (execute_once_steps _ _ _ _ _ _ _ _ _ _ _ _ _ _ _ (demo_adapter "ok") None _ _ _ _
                   _ _ _ demo_submitted_ok (surjective_pairing (demo_execute "ok")))).
  discriminate.
Defined.

Example demo_succeeds : r_status <$> runs (store_of (snd (demo_execute "ok"))) = [SUCCEEDED].
Proof. vm_compute. reflexivity. Qed.

Lemma execute_once_settles_witness :
  ∃ i, attempt_settled i (store_of (snd (demo_execute "broken"))).
Proof.
  destruct (demo_execute "broken") as [[[rec [|]]|e] w'] eqn:E; pose proof (f_equal fst E) as Ef;
    [|exfalso; vm_compute in Ef; discriminate Ef..].
  unshelve epose proof (execute_once_settles _ _ _ _ _ _ _ _ _ _ _ _ _ _ _ (demo_adapter "broken")
    None _ _ _ _ _ _ _ _ demo_submitted_ok E) as (_ & _ & i & _ & Hi); [discriminate|].
  exists i. exact Hi.
Defined.
