(* ===== verification/Worker.v ===== *)
(** * runtime/worker.py: RuntimeWorker

    One cycle reclaims expired leases, settles cancelled runs nothing will settle
    any more, and advances waiting runs up to the batch; [serve_forever] runs such
    maintenance beside a pool of attempts.  The worker knows the runtime by the
    [Executor] interface, which [workflow_runtime] implements. *)

From stdpp Require Import gmap.
From S2P Require Export RuntimeProps StoreQueue.
Open Scope string_scope.
Open Scope list_scope.

(** What the worker is promised of a runtime. *)
Class Executor := {
  advance_run : string → st World (RunRecord * bool);
  advance_run_steps run_id w r w' : store_ok (store_of w) →
    advance_run run_id w = (r, w') → steps w w';
  advance_run_settles run_id w rec w' : store_ok (store_of w) →
    advance_run run_id w = (Ok (rec, true), w') →
    run_settled run_id (store_of w') ∧
    ∃ i, ¬ has_attempt i (store_of w) ∧ attempt_settled i (store_of w') }.

Definition workflow_runtime sha256 resolve parts host_path path_str loads float_repr py_repr glob
    mkdir_fails pid uuid clock monotonic config `{ManifestResolver} (adapter : ProcessAdapter World)
    `{!AdapterLaws adapter} (evaluator : option (EvaluationRequest → st World Verdict))
    (HE : ∀ f, evaluator = Some f → ProtectedEvaluator f) environment_resolver
    external_cancel_requested : Executor :=
  {| advance_run := execute_once_reporting sha256 resolve parts host_path path_str loads float_repr
       py_repr glob mkdir_fails pid uuid clock monotonic config adapter evaluator
       environment_resolver external_cancel_requested;
     advance_run_steps run_id w r w' Hok E :=
       execute_steps _ _ _ _ _ _ _ _ _ _ _ _ _ _ _ _ _ HE _ _ _ _ _ _ Hok E;
     advance_run_settles run_id w rec w' Hok E :=
       proj2 (execute_settles _ _ _ _ _ _ _ _ _ _ _ _ _ _ _ _ _ HE _ _ _ _ _ _ Hok E) |}.

(** ** One cycle *)

Record CycleReport := MkCycleReport {
  cy_reclaimed : Z;
  cy_cancelled : Z;
  cy_advanced : Z;
  cy_failed : Z }.

Definition did_work (r : CycleReport) : bool :=
  negb ((cy_reclaimed r =? 0) && (cy_cancelled r =? 0) && (cy_advanced r =? 0)
        && (cy_failed r =? 0))%Z.

(** How the loop's body ended for one run. *)
Inductive advance := LostRace | Preflight (recorded : bool) | Ran (executed : bool).

#[export] Instance advance_eq_dec : EqDecision advance.
Proof. solve_decision. Defined.

Definition counted (a : advance) (r : CycleReport) : CycleReport :=
  match a with
  | Ran true => MkCycleReport (cy_reclaimed r) (cy_cancelled r) (cy_advanced r + 1) (cy_failed r)
  | Preflight _ => MkCycleReport (cy_reclaimed r) (cy_cancelled r) (cy_advanced r) (cy_failed r + 1)
  | _ => r
  end.

Section worker.
Context (uuid : nat → string) (clock : nat → Z) (pid : Z) (config : RuntimeConfig).
(* the process fence *)
Context (fence : AttemptRow → bool).
Context `{Executor} (batch : Z).

Definition RuntimeWorker_init (idle_seconds : Z) : result unit :=
  raise_when (idle_seconds <? 0)%Z (ValueError "idle_seconds");;
  raise_when (batch <? 1)%Z (ValueError "batch").

Definition advance_one (run_id : string) : st World advance :=
  catch (r ← advance_run run_id; mret (Ran (snd r))) (λ _, true)
    (λ e, if is_invalid_transition e then mret LostRace
          else
            d ← draw uuid clock;
            b ← in_store (fail_queued_run run_id "preflight_error" (exn_text e) (fst d) (snd d));
            mret (Preflight b)).

(** The loop over [_runnable_candidates]: [page] is what is left of the page that was
    read before [offset].  [None] when the fuel runs out. *)
Fixpoint advance_queue (fuel : nat) (offset : Z) (page : list string) (report : CycleReport)
    : st World (option CycleReport) :=
  match fuel with
  | O => mret None
  | S fuel =>
      match page with
      | [] =>
          page ← read (runnable_runs 1000 offset);
          match page with
          | [] => mret (Some report)
          | _ => advance_queue fuel (offset + Z.of_nat (length page)) page report
          end
      | run_id :: page =>
          if (batch <=? cy_advanced report)%Z then mret (Some report)
          else
            a ← advance_one run_id;
            advance_queue fuel offset page (counted a report)
      end
  end.

(** One abandoned cancellation, and whether it was settled here. *)
Definition finish_abandoned (run_id : string) : st World bool :=
  catch (t ← now uuid clock;
         in_store (transition_run run_id CANCELLED
                     (Some "cancelled before the attempt started") t);;
         mret true)
        is_invalid_transition (λ _, mret false).

Definition _finish_abandoned_cancellations : st World Z :=
  ids ← read (abandoned_cancellations batch);
  settled ← mapM_st finish_abandoned ids;
  mret (Z.of_nat (length (List.filter id settled))).

(** The maintenance both loops start with. *)
Definition maintain : st World (Z * Z) :=
  touch_worker pid uuid clock config None;;
  reference ← now uuid clock;
  t ← now uuid clock;
  reclaimed ← in_store (reclaim_expired_attempts fence id reference t);
  cancelled ← _finish_abandoned_cancellations;
  mret (Z.of_nat (length reclaimed), cancelled).

Definition cycle (fuel : nat) : st World (option CycleReport) :=
  m ← maintain;
  report ← advance_queue fuel 0 [] (MkCycleReport (fst m) (snd m) 0 0);
  touch_worker pid uuid clock config None;;
  mret report.

(** ** serve_forever *)

(** An attempt of the pool: whatever it raises is kept from the pool. *)
Definition _run_async (run_id : string) : st World bool :=
  catch (r ← advance_run run_id; mret (snd r)) (λ _, true)
    (λ e, if is_invalid_transition e then mret false
          else catch (d ← draw uuid clock;
                      in_store (fail_queued_run run_id "preflight_error" (exn_text e) (fst d) (snd d));;
                      mret false)
                     (λ _, true) (λ _, mret false)).

(** The loop beside its pool: the runs of the pool, and the pass of the loop over the
    queue, with what is left of the page that was read before [sv_offset]. *)
Record Serving := MkServing {
  sv_active : list string;
  sv_offset : Z;
  sv_page : list string;
  sv_world : World }.

(** One step is the maintenance a pass starts with, a page read, a candidate passed over
    or handed to the pool, the end of an attempt of the pool, or operations on the store
    that an attempt of the pool or another process makes in between. *)
Inductive serve_step : Serving → Serving → Prop :=
| serve_maintain active offset page w r w' : maintain w = (r, w') →
    serve_step (MkServing active offset page w) (MkServing active 0 [] w')
| serve_page active offset ids w : runnable_runs 1000 offset (store_of w) = Ok ids →
    serve_step (MkServing active offset [] w) (MkServing active (offset + Z.of_nat (length ids)) ids w)
| serve_skip active offset run_id page w :
    (batch <=? Z.of_nat (length active))%Z || bool_decide (run_id ∈ active) = true →
    serve_step (MkServing active offset (run_id :: page) w) (MkServing active offset page w)
| serve_start active offset run_id page w :
    (batch <=? Z.of_nat (length active))%Z || bool_decide (run_id ∈ active) = false →
    serve_step (MkServing active offset (run_id :: page) w) (MkServing (run_id :: active) offset page w)
| serve_finish before run_id after offset page w r w' : _run_async run_id w = (r, w') →
    serve_step (MkServing (before ++ run_id :: after) offset page w) (MkServing (before ++ after) offset page w')
| serve_others active offset page w w' : steps w w' →
    serve_step (MkServing active offset page w) (MkServing active offset page w').
End worker.
