(* ===== verification/WorkerProps.v ===== *)
(** * What a worker's cycle comes to *)

From stdpp Require Import gmap.
From S2P Require Export Worker StoreSpec.
Open Scope string_scope.
Open Scope list_scope.

Definition ok (w : World) : Prop := store_ok (store_of w).

Lemma ok_stable : stable ok.
Proof. intros w w' Hok Hs. by eapply store_steps_wb. Qed.

(** What the cancellation query lists: different runs, all of them waiting. *)
Lemma abandoned_rows s limit ids : store_ok s → abandoned_cancellations limit s = Ok ids →
  NoDup ids ∧ ∀ i, i ∈ ids → ∃ row, row ∈ runs s ∧ r_run_id row = i ∧ r_status row = CANCEL_REQUESTED.
Proof.
  intros Hok H. unfold abandoned_cancellations in H. invert_ok.
  set (l := List.filter _ _). assert (∀ row, row ∈ l → row ∈ runs s ∧ r_status row = CANCEL_REQUESTED) as Hl.
  { intros row Hin. apply (elem_of_sel (λ r, negb (has_running_attempt (r_run_id r) s))) in Hin as [Hin _].
    apply elem_of_take_in, elem_of_drop_in, elem_of_order_by, elem_of_sel in Hin as [Hrow Hst].
    by bool_simpl. }
  split.
  - apply (NoDup_fmap_sel r_run_id). unfold limit_offset. rewrite drop_0, fmap_take.
    eapply sublist_NoDup; [|apply sublist_take]. rewrite order_by_perm.
    apply NoDup_fmap_sel, (ro_runs _ _ (so_runs _ Hok)).
  - intros i (row & -> & Hin)%list_elem_of_fmap. exists row. by destruct (Hl row Hin).
Qed.

Section worker.
Context (uuid : nat → string) (clock : nat → Z) (pid : Z) (config : RuntimeConfig).
Context (fence : AttemptRow → bool) `{HX : Executor} (batch : Z).
Local Abbreviation advance_one := (advance_one uuid clock).
Local Abbreviation advance_queue := (advance_queue uuid clock batch).
Local Abbreviation finish_abandoned := (finish_abandoned uuid clock).
Local Abbreviation _finish_abandoned_cancellations := (_finish_abandoned_cancellations uuid clock batch).
Local Abbreviation maintain := (maintain uuid clock pid config fence batch).
Local Abbreviation cycle := (cycle uuid clock pid config fence batch).
Local Abbreviation serve_step := (serve_step uuid clock pid config fence batch).

(** ** Only store steps *)

Lemma advance_run_if run_id : by_steps_if ok (advance_run run_id).
Proof. intros w r w' Hok. by apply advance_run_steps. Qed.

Lemma advance_one_if run_id : by_steps_if ok (advance_one run_id).
Proof.
  unfold Worker.advance_one. apply by_steps_if_catch; [apply ok_stable| |].
  - apply by_steps_if_bind_if; [apply ok_stable|apply advance_run_if|].
    intros. apply by_steps_weaken. by_steps.
  - intros e. by_steps.
Qed.

Lemma advance_queue_if fuel offset page report : by_steps_if ok (advance_queue fuel offset page report).
Proof.
  revert offset page report. induction fuel as [|fuel IH]; intros offset page report; simpl.
  { apply by_steps_weaken. by_steps. }
  destruct page as [|run_id page].
  - apply by_steps_if_bind; [apply ok_stable|apply by_steps_read|].
    intros [|]; [apply by_steps_weaken; by_steps|apply IH].
  - destruct (_ <=? _)%Z; [apply by_steps_weaken; by_steps|].
    apply by_steps_if_bind_if; [apply ok_stable|apply advance_one_if|intros; apply IH].
Qed.

Lemma finish_abandoned_by_steps run_id : by_steps (finish_abandoned run_id).
Proof. unfold Worker.finish_abandoned. by_steps. Qed.

Lemma maintain_by_steps : by_steps maintain.
Proof.
  unfold Worker.maintain, Worker._finish_abandoned_cancellations.
  repeat first [apply by_steps_bind; [first [apply by_steps_touch_worker | apply by_steps_read
    | apply by_steps_now | apply by_steps_reclaim
    | apply by_steps_mapM; intros; apply finish_abandoned_by_steps | idtac]|intros] | by_steps].
Qed.

Lemma cycle_if fuel : by_steps_if ok (cycle fuel).
Proof.
  unfold Worker.cycle.
  apply by_steps_if_bind; [apply ok_stable|apply maintain_by_steps|]. intros m.
  apply by_steps_if_bind_if; [apply ok_stable|apply advance_queue_if|]. intros r.
  apply by_steps_weaken, by_steps_bind; [apply by_steps_touch_worker|]. intros; by_steps.
Qed.

(** ** The work a cycle reports *)

Lemma advance_one_ran run_id w w' : ok w → advance_one run_id w = (Ok (Ran true), w') →
  ∃ i, ¬ has_attempt i (store_of w) ∧ attempt_settled i (store_of w').
Proof.
  intros Hok H. unfold Worker.advance_one in H. apply catch_Ok in H as [H|(e & w1 & _ & _ & H)].
  - apply bind_st_Ok in H as ([rec b] & w1 & H & H'). injection H' as -> <-.
    by apply advance_run_settles in H as [_ Hi].
  - destruct (is_invalid_transition e); [done|].
    apply bind_st_Ok in H as (d & w2 & _ & H). by apply bind_st_Ok in H as (b & w3 & _ & H).
Qed.

Lemma attempt_settled_steps i w w' : ok w → steps w w' →
  attempt_settled i (store_of w) → attempt_settled i (store_of w').
Proof. intros Hok Hs. apply attempt_settled_evolves. by eapply store_steps_wb. Qed.
Lemma has_attempt_steps i w w' : ok w → steps w w' →
  has_attempt i (store_of w) → has_attempt i (store_of w').
Proof. intros Hok Hs. apply has_attempt_evolves. by eapply store_steps_wb. Qed.

(** What the loop adds to a report. *)
Record adds_work (w w' : World) (report report' : CycleReport) : Prop := {
  aw_attempts : ∃ l, NoDup l ∧
    cy_advanced report' = (cy_advanced report + Z.of_nat (length l))%Z ∧
    ∀ i, i ∈ l → ¬ has_attempt i (store_of w) ∧ attempt_settled i (store_of w');
  aw_batch : (cy_advanced report ≤ batch → cy_advanced report' ≤ batch)%Z;
  aw_rest : cy_reclaimed report' = cy_reclaimed report ∧ cy_cancelled report' = cy_cancelled report }.

Lemma adds_work_step w w1 w' a report report' :
  ok w → steps w w1 → steps w1 w' → (cy_advanced report < batch)%Z →
  (a = Ran true → ∃ i, ¬ has_attempt i (store_of w) ∧ attempt_settled i (store_of w1)) →
  adds_work w1 w' (counted a report) report' → adds_work w w' report report'.
Proof.
  intros Hok Hs Hs' Hb Ha [(l & Hnd & Hl & Hall) Hbatch Hrest].
  assert (ok w1) as Hok1 by (by eapply ok_stable).
  assert (∀ i, i ∈ l → ¬ has_attempt i (store_of w) ∧ attempt_settled i (store_of w')) as Hall'.
  { intros i Hi. destruct (Hall i Hi) as [Hn Hset]. split; [|done]. intros Hh. apply Hn.
    exact (has_attempt_steps i w w1 Hok Hs Hh). }
  constructor.
  - destruct (decide (a = Ran true)) as [-> |Hne].
    + destruct (Ha eq_refl) as (i & Hn & Hset). exists (i :: l). split_and!.
      * constructor; [|done]. intros Hi. destruct (Hall i Hi) as [Hn1 _]. apply Hn1.
        destruct Hset as (r & Hr & Hid & _). by exists r.
      * rewrite Hl. simpl. lia.
      * intros j [-> |Hj]%elem_of_cons; [|by apply Hall']. split; [done|].
        exact (attempt_settled_steps _ w1 w' Hok1 Hs' Hset).
    + exists l. split_and!; [done| |done]. rewrite Hl. by destruct a as [| |[]].
  - intros _. apply Hbatch. destruct a as [| |[]]; simpl; lia.
  - by destruct a as [| |[]].
Qed.

Lemma advance_queue_work fuel offset page report w report' w' : ok w →
  advance_queue fuel offset page report w = (Ok (Some report'), w') →
  adds_work w w' report report'.
Proof.
  revert offset page report w. induction fuel as [|fuel IH]; intros offset page report w Hok H; [done|].
  simpl in H. destruct page as [|run_id page].
  - apply bind_st_Ok in H as (ids & w1 & Hr & H). apply read_Ok in Hr as [Hr ->].
    destruct ids as [|i ids]; [|by eapply IH].
    injection H as <- <-. constructor.
    + exists []. split_and!; [constructor|simpl; lia|by intros i ?%not_elem_of_nil].
    + done.
    + done.
  - destruct (Z.leb_spec batch (cy_advanced report)) as [Hle|Hlt].
    + injection H as <- <-. constructor; [|done|done].
      exists []. split_and!; [constructor|simpl; lia|by intros i ?%not_elem_of_nil].
    + apply bind_st_Ok in H as (a & w1 & Ha & H).
      assert (steps w w1) as Hs by (by eapply advance_one_if in Ha).
      assert (ok w1) as Hok1 by (by eapply ok_stable).
      eapply adds_work_step; [done|exact Hs| |done| |by eapply IH].
      * by eapply advance_queue_if in H.
      * intros ->. by eapply advance_one_ran.
Qed.

(** ** Abandoned cancellations *)

(** The runs [ids] are cancelled, and nothing else has changed. *)
Record cancelled_all (ids : list string) (s s' : Store) : Prop := {
  ca_rows : ∀ i, i ∈ ids → ∃ row, row ∈ runs s' ∧ r_run_id row = i ∧ r_status row = CANCELLED ∧
              is_Some (r_ended_at row);
  ca_others : ∀ row, r_run_id row ∉ ids → row ∈ runs s' ↔ row ∈ runs s;
  ca_attempts : attempts s' = attempts s;
  ca_reservations : reservations s' = reservations s }.

Lemma finish_abandoned_run run_id w row : ok w → row ∈ runs (store_of w) →
  r_run_id row = run_id → r_status row = CANCEL_REQUESTED →
  ∃ w', finish_abandoned run_id w = (Ok true, w') ∧ cancelled_all [run_id] (store_of w) (store_of w').
Proof.
  intros Hok Hrow <- Hst. unfold Worker.finish_abandoned, catch. rewrite bind_run, now_run, bind_run.
  unfold in_store, in_custody, in_db. change (db (cust (ticked w))) with (store_of w).
  pose proof (transition_run_cases (store_of w) row CANCELLED
                (Some "cancelled before the attempt started") (clock (draws w)) Hok Hrow) as Ht.
  destruct (transition_run _ _ _ _ _) as [v s']. destruct Ht as (_ & _ & Ht).
  rewrite Hst in Ht. destruct Ht as (-> & (row' & Hf & Hs' & He & _) & _ & Hoth & Ha & Hv); [done..|].
  eexists. split; [reflexivity|]. change (store_of (with_custody _ _)) with s'.
  constructor; [| |done|done].
  - intros i ->%list_elem_of_singleton. apply fetchone_Some in Hf as [Hin Hm].
    unfold is_run in Hm. bool_simpl. exists row'. split_and!; [done..|]. rewrite He by done. done.
  - intros r Hr. apply Hoth. by intros Hr2; apply Hr; rewrite Hr2; left.
Qed.

Lemma finish_abandoned_all ids w : ok w → NoDup ids →
  (∀ i, i ∈ ids → ∃ row, row ∈ runs (store_of w) ∧ r_run_id row = i ∧ r_status row = CANCEL_REQUESTED) →
  ∃ w', mapM_st finish_abandoned ids w = (Ok (replicate (length ids) true), w') ∧
        cancelled_all ids (store_of w) (store_of w').
Proof.
  revert w. induction ids as [|i ids IH]; intros w Hok Hnd Hids.
  { exists w. split; [done|]. constructor; try done. by intros i ?%not_elem_of_nil. }
  apply NoDup_cons in Hnd as [Hi Hnd]. destruct (Hids i ltac:(left)) as (row & Hrow & Hid & Hst).
  destruct (finish_abandoned_run i w row Hok Hrow Hid Hst) as (w1 & E1 & [Hc Ho Ha Hv]).
  assert (ok w1) as Hok1 by (eapply ok_stable; [done|]; by eapply finish_abandoned_by_steps).
  destruct (IH w1 Hok1 Hnd) as (w2 & E2 & [Hc2 Ho2 Ha2 Hv2]).
  { intros j Hj. destruct (Hids j ltac:(by right)) as (r & Hr & Hrj & Hrs). exists r.
    split; [|done]. apply Ho; [|done]. rewrite Hrj. intros ->%list_elem_of_singleton. done. }
  exists w2. simpl. rewrite bind_run, E1, bind_run, E2. split; [done|].
  constructor; [| |congruence|congruence].
  - intros j [-> |Hj]%elem_of_cons; [|by apply Hc2].
    destruct (Hc i ltac:(left)) as (r & Hr & Hrid & Hrs). exists r. split; [|done].
    apply Ho2; [by rewrite Hrid|done].
  - intros r [Hr Hrs]%not_elem_of_cons. rewrite Ho2 by done. apply Ho.
    by intros ?%list_elem_of_singleton.
Qed.

Lemma finish_abandoned_ids w ids : ok w → abandoned_cancellations batch (store_of w) = Ok ids →
  ∃ w', _finish_abandoned_cancellations w = (Ok (Z.of_nat (length ids)), w') ∧
        cancelled_all ids (store_of w) (store_of w').
Proof.
  intros Hok Hids. destruct (abandoned_rows _ _ _ Hok Hids) as [Hnd Hrows].
  destruct (finish_abandoned_all ids w Hok Hnd Hrows) as (w' & E & Hc). exists w'. split; [|done].
  unfold Worker._finish_abandoned_cancellations. rewrite bind_run. unfold read. rewrite bind_run.
  cbn [gets id]. unfold lift at 1. rewrite Hids, bind_run, E. cbn.
  assert (List.filter id (replicate (length ids) true) = replicate (length ids) true) as ->.
  { clear. induction (length ids) as [|n IH]; [done|]. simpl. by rewrite IH. }
  by rewrite length_replicate.
Qed.

(** ** The scan goes past blocked work *)

Lemma advance_queue_monotone fuel offset page report w report' w' :
  advance_queue fuel offset page report w = (Ok (Some report'), w') →
  (cy_advanced report ≤ cy_advanced report')%Z.
Proof.
  revert offset page report w. induction fuel as [|fuel IH]; intros offset page report w H; [done|].
  simpl in H. destruct page as [|run_id page].
  - apply bind_st_Ok in H as (ids & w1 & _ & H).
    destruct ids as [|i ids]; [by injection H as <- _|by eapply IH].
  - destruct (_ <=? _)%Z; [by injection H as <- _|].
    apply bind_st_Ok in H as (a & w1 & _ & H). apply IH in H.
    destruct a as [| |[]]; simpl in H; lia.
Qed.

Lemma take_its_length {A} n (l : list A) : take n l ++ drop (length (take n l)) l = l.
Proof.
  rewrite length_take. destruct (decide (n ≤ length l)%nat) as [Hle|Hgt].
  - rewrite Nat.min_l by done. apply take_drop.
  - rewrite Nat.min_r, take_ge, drop_ge by lia. apply app_nil_r.
Qed.

(** The waiting runs, the oldest first. *)
Definition waiting_queue (s : Store) : list string :=
  r_run_id <$> order_by r_created_at (sel (runnable s) (runs s)).

Lemma runnable_runs_queue offset s ids : runnable_runs 1000 offset s = Ok ids →
  ids = take 1000 (drop (Z.to_nat offset) (waiting_queue s)).
Proof.
  intros H. unfold runnable_runs in H. invert_ok. unfold waiting_queue, limit_offset.
  by rewrite fmap_take, fmap_drop.
Qed.

(* [blocked]: worlds in which the runs of [before] cannot start, [small] can, and they are
   the first of the waiting runs *)
Context (blocked : World → Prop) (before rest : list string) (small : string).
Context (Hqueue : ∀ w, blocked w → waiting_queue (store_of w) = before ++ small :: rest).
Context (Hskip : ∀ w run_id, blocked w → run_id ∈ before →
  ∃ rec w', advance_run run_id w = (Ok (rec, false), w') ∧ blocked w').
Context (Hsmall : ∀ w, blocked w → ∃ rec w', advance_run small w = (Ok (rec, true), w')).

(** The scan comes to [small] and starts it; what is left of the scan follows. *)
Definition starts_small (m : st World (option CycleReport)) (w : World) (report : CycleReport) : Prop :=
  ∃ w1 rec w2 fuel offset page, blocked w1 ∧ advance_run small w1 = (Ok (rec, true), w2) ∧
    m w = advance_queue fuel offset page (counted (Ran true) report) w2.

(** [todo] of the blocked runs are still ahead: what is left of the page and what the next pages hold. *)
Lemma scan_reaches fuel offset page report w todo :
  blocked w → (0 ≤ offset)%Z → (cy_advanced report < batch)%Z →
  page ++ drop (Z.to_nat offset) (before ++ small :: rest) = todo ++ small :: rest →
  (∀ i, i ∈ todo → i ∈ before) → (2 * length todo + 1 + (if page is [] then 1 else 0) < fuel)%nat →
  starts_small (advance_queue fuel offset page report) w report.
Proof.
  revert offset page w todo.
  induction fuel as [|fuel IH]; intros offset page w todo Hw Ho Hb Hin Hblocked Hf; [lia|].
  destruct page as [|run_id page].
  - assert (∃ i ids, runnable_runs 1000 offset (store_of w) = Ok (i :: ids) ∧
      (i :: ids) ++ drop (Z.to_nat (offset + Z.of_nat (length (i :: ids)))) (before ++ small :: rest) = todo ++ small :: rest)
      as (i & ids & Hids & Happ).
    { destruct (runnable_runs 1000 offset (store_of w)) as [ids|e] eqn:Hr.
      2:{ exfalso. unfold runnable_runs in Hr. rewrite (proj2 (Z.ltb_ge offset 0)) in Hr by done. done. }
      apply runnable_runs_queue in Hr. rewrite (Hqueue w Hw) in Hr. simpl in Hin. rewrite Hin in Hr.
      destruct ids as [|i ids]; [by destruct todo|]. exists i, ids. split; [done|].
      rewrite Z2Nat.inj_add, Nat2Z.id by lia. rewrite <-drop_drop, Hin, Hr. apply take_its_length. }
    assert (starts_small (advance_queue fuel (offset + Z.of_nat (length (i :: ids))) (i :: ids) report) w report)
      as (w1 & rec & w2 & f & o & p & H1 & H2 & H3) by (eapply IH; [done|lia|done|exact Happ|done|simpl in *; lia]).
    exists w1, rec, w2, f, o, p. split; [done|]. split; [done|]. simpl. rewrite bind_run. unfold read. rewrite bind_run.
    cbn [gets id]. unfold lift at 1. by rewrite Hids.
  - unfold starts_small. simpl. rewrite (proj2 (Z.leb_gt _ _)) by done. destruct todo as [|j todo]; simpl in Hin; injection Hin as -> Hin.
    + destruct (Hsmall w Hw) as (rec & w2 & E). exists w, rec, w2, fuel, offset, page. split; [done|]. split; [done|].
      rewrite bind_run. unfold Worker.advance_one, catch. by rewrite bind_run, E.
    + destruct (Hskip w j Hw ltac:(apply Hblocked; left)) as (rec & w' & E & Hw').
      rewrite bind_run. unfold Worker.advance_one, catch. rewrite bind_run, E. cbn [mret st_ret snd counted].
      eapply IH; [done|done|done|exact Hin| |simpl in *; destruct page; lia]. intros x Hx. apply Hblocked. by right.
Qed.

(** ** The queue comes to an end *)

Definition queue_size (w : World) : nat := length (runs (store_of w)).

Lemma page_bound offset s ids : runnable_runs 1000 offset s = Ok ids →
  (0 ≤ offset)%Z ∧ (Z.of_nat (length ids) ≤ Z.of_nat (length (runs s)) - offset ∨ ids = [])%Z.
Proof.
  intros H. unfold runnable_runs in H. invert_ok. bool_simpl. rewrite Z.ltb_ge in *.
  split; [done|]. rewrite length_fmap. unfold limit_offset. rewrite length_take, length_drop.
  rewrite (Permutation_length (order_by_perm r_created_at _)).
  assert (length (sel (runnable s) (runs s)) ≤ length (runs s))%nat as Hle.
  { unfold sel. clear. induction (runs s) as [|r t IH]; simpl; [done|].
    destruct (runnable s r); simpl; lia. }
  destruct (decide (Z.to_nat offset < length (sel (runnable s) (runs s)))%nat); [left; lia|right].
  apply nil_length_inv. rewrite length_fmap, length_take, length_drop.
  rewrite (Permutation_length (order_by_perm r_created_at _)). lia.
Qed.

Lemma fail_queued_size run_id category message hex now s r s' :
  fail_queued_run run_id category message hex now s = (r, s') → length (runs s') = length (runs s).
Proof.
  intros H. destruct r as [b|e].
  - apply fail_queued_run_Ok in H as (row & _ & [[_ ->]|(_ & _ & e & _ & ->)]); [done|].
    simpl. unfold upd. by rewrite length_fmap.
  - unfold fail_queued_run in H. rewrite bind_run in H. unfold lift in H.
    destruct (raise_when _ _); [|by injection H as _ <-]. by apply transaction_Err in H as ->.
Qed.

(* nothing is submitted while the cycle runs *)
Context (Hsize : ∀ run_id w r w', advance_run run_id w = (r, w') → queue_size w' = queue_size w).

Lemma advance_one_size run_id w r w' : advance_one run_id w = (r, w') → queue_size w' = queue_size w.
Proof.
  unfold Worker.advance_one, catch. rewrite bind_run.
  destruct (advance_run run_id w) as [[x|e] w1] eqn:E; apply Hsize in E; [by intros [= _ <-]|].
  destruct (is_invalid_transition e); [by intros [= _ <-]|].
  rewrite bind_run, draw_run, bind_run.
  destruct (in_store _ (ticked w1)) as [v w2] eqn:E2.
  apply in_store_inv, fail_queued_size in E2. change (store_of (ticked w1)) with (store_of w1) in E2.
  unfold queue_size in *. destruct v; intros [= _ <-]; congruence.
Qed.

Lemma advance_queue_ends fuel offset page report w :
  (Z.of_nat (queue_size w) * 2 - offset * 2 + Z.of_nat (length page) < Z.of_nat fuel)%Z →
  (offset ≤ Z.of_nat (queue_size w))%Z →
  fst (advance_queue fuel offset page report w) ≠ Ok None.
Proof.
  revert offset page report w. induction fuel as [|fuel IH]; intros offset page report w Hf Ho; [lia|].
  simpl. destruct page as [|run_id page].
  - rewrite bind_run. unfold read. rewrite bind_run. cbn [gets id]. unfold lift at 1.
    destruct (runnable_runs 1000 offset (store_of w)) as [ids|e] eqn:E; [|done].
    apply page_bound in E as [H0 Hle]. fold (queue_size w) in Hle.
    destruct ids as [|i ids]; [done|]. destruct Hle as [Hle|]; [|done].
    apply IH; simpl in *; lia.
  - destruct (_ <=? _)%Z; [done|]. rewrite bind_run.
    destruct (advance_one run_id w) as [[a|e] w1] eqn:E; [|done].
    apply advance_one_size in E. apply IH; rewrite E; simpl in *; lia.
Qed.

(** A cycle ends: its scan of the queue needs no more steps than twice the number of
    stages in the store, whatever the attempts do. *)
Theorem cycle_ends fuel w m w1 :
  maintain w = (m, w1) → (2 * Z.of_nat (queue_size w1) < Z.of_nat fuel)%Z →
  fst (cycle fuel w) ≠ Ok None.
Proof.
  intros Hm Hf. unfold Worker.cycle. rewrite bind_run, Hm. destruct m as [m|e]; [|done].
  rewrite bind_run. pose proof (advance_queue_ends fuel 0 [] (MkCycleReport (fst m) (snd m) 0 0) w1) as He.
  destruct (advance_queue _ _ _ _ w1) as [[[rep|]|e] w2]; [|by destruct He; simpl; try lia|done].
  rewrite bind_run. by destruct (touch_worker _ _ _ _ _ w2) as [[]].
Qed.
End worker.

Section cycle.
Context (uuid : nat → string) (clock : nat → Z) (pid : Z) (config : RuntimeConfig).
Context (fence : AttemptRow → bool) `{HX : Executor} (batch : Z).

(** One cycle of a worker is a history of store operations whatever its attempts
    raise; the attempts it reports as advanced are new, distinct, settled when it
    returns, and at most batch of them. *)
Theorem cycle_spec fuel w r w' : store_ok (store_of w) →
  cycle uuid clock pid config fence batch fuel w = (r, w') →
  rtc store_step (store_of w) (store_of w') ∧ store_ok (store_of w') ∧
  ∀ report, r = Ok (Some report) → (0 ≤ batch)%Z →
    (* the attempts it reports are new, different and settled, no more than the batch *)
    (cy_advanced report ≤ batch)%Z ∧
    (∃ l, NoDup l ∧ cy_advanced report = Z.of_nat (length l) ∧
       ∀ i, i ∈ l → ¬ has_attempt i (store_of w) ∧ attempt_settled i (store_of w')).
Proof.
  intros Hok H. assert (steps w w') as Hs by (by eapply cycle_if in H).
  split; [done|]. split; [by eapply store_steps_wb|]. intros report -> Hb.
  unfold cycle in H. apply bind_st_Ok in H as (m & w1 & Hm & H).
  apply bind_st_Ok in H as (o & w2 & Hq & H). apply bind_st_Ok in H as ([] & w3 & Ht & H).
  injection H as -> <-.
  assert (steps w w1) as Hs1 by (by eapply maintain_by_steps).
  assert (ok w1) as Hok1 by (by eapply ok_stable).
  assert (ok w2) as Hok2 by (eapply ok_stable; [exact Hok1|]; by eapply advance_queue_if in Hq).
  assert (steps w2 w3) as Hs3 by (by eapply by_steps_touch_worker).
  destruct (advance_queue_work _ _ _ _ _ _ _ _ _ _ Hok1 Hq) as [(l & Hnd & Hl & Hall) Hbatch _].
  split_and!.
  - by apply Hbatch.
  - exists l. split; [done|]. split; [exact Hl|]. intros i Hi. destruct (Hall i Hi) as [Hn Hset].
    split; [|exact (attempt_settled_steps i w2 w3 Hok2 Hs3 Hset)].
    intros Hh. apply Hn. exact (has_attempt_steps i w w1 Hok Hs1 Hh).
Qed.

(** After the maintenance of a cycle, a run whose cancellation nobody was left to
    settle is CANCELLED, up to the batch, and the count reported is the number
    settled. *)
Theorem cancellations_settled w : store_ok (store_of w) → (1 ≤ batch ≤ 1000)%Z →
  ∃ ids w', abandoned_cancellations batch (store_of w) = Ok ids ∧
    _finish_abandoned_cancellations uuid clock batch w = (Ok (Z.of_nat (length ids)), w') ∧
    cancelled_all ids (store_of w) (store_of w').
Proof.
  intros Hok Hb. destruct (abandoned_cancellations batch (store_of w)) as [ids|e] eqn:E.
  - destruct (finish_abandoned_ids uuid clock batch w ids Hok E) as (w' & H & Hc). eauto.
  - exfalso. unfold abandoned_cancellations in E.
    rewrite (proj2 (Z.leb_le 1 batch)), (proj2 (Z.leb_le batch 1000)) in E by lia. done.
Qed.

(** C15. If the runs at the head of the waiting queue cannot be started and trying
    them leaves the queue as it is, one scan of the queue goes past all of them, over
    any number of pages and with any batch, and starts the first run after them that
    can be started, as the first run it counts. *)
Theorem scan_not_starved fuel w (blocked : World → Prop) before small rest a b :
  (* the runs before it cannot start, and trying them leaves the queue as it is *)
  (∀ w, blocked w → waiting_queue (store_of w) = before ++ small :: rest) →
  (∀ w run_id, blocked w → run_id ∈ before →
     ∃ rec w', advance_run run_id w = (Ok (rec, false), w') ∧ blocked w') →
  (* and this run can start meanwhile *)
  (∀ w, blocked w → ∃ rec w', advance_run small w = (Ok (rec, true), w')) →
  blocked w → (1 ≤ batch)%Z → (2 * length before + 2 < fuel)%nat →
  ∃ w1 rec w2 fuel' offset page, blocked w1 ∧ advance_run small w1 = (Ok (rec, true), w2) ∧
    advance_queue uuid clock batch fuel 0 [] (MkCycleReport a b 0 0) w
    = advance_queue uuid clock batch fuel' offset page (MkCycleReport a b 1 0) w2.
Proof.
  intros Hq Hskip Hsmall Hw Hb Hf.
  apply (scan_reaches uuid clock batch blocked before rest small Hq Hskip Hsmall fuel 0 [] (MkCycleReport a b 0 0) w before);
    [done|done|simpl; lia|done|done|lia].
Qed.

(** ** serve_forever *)

Lemma run_async_if run_id : by_steps_if ok (_run_async uuid clock run_id).
Proof.
  unfold _run_async. apply by_steps_if_catch; [apply ok_stable| |].
  - apply by_steps_if_bind_if; [apply ok_stable|apply advance_run_if|].
    intros. apply by_steps_weaken. by_steps.
  - intros e. by_steps.
Qed.

(** C16. However the attempts of the pool interleave with the loop, a serving worker
    never has more than batch attempts active and never the same run twice. *)
Theorem serve_bounded active offset page w c' :
  rtc (serve_step uuid clock pid config fence batch) (MkServing active offset page w) c' →
  store_ok (store_of w) → NoDup active → (Z.of_nat (length active) ≤ batch)%Z →
  (* the pool never runs a run twice at a time, nor more than the batch *)
  NoDup (sv_active c') ∧ (Z.of_nat (length (sv_active c')) ≤ batch)%Z ∧
  rtc store_step (store_of w) (store_of (sv_world c')) ∧ store_ok (store_of (sv_world c')).
Proof.
  remember (MkServing active offset page w) as c eqn:Ec. intros H.
  revert active offset page w Ec. induction H as [c|c c1 c2 Hstep _ IH]; intros active offset page w -> Hok Hnd Hb; [done|].
  assert (∀ w1, steps w w1 → store_ok (store_of w1)) as Hs_ok by (intros; by eapply ok_stable).
  assert (∀ w1 c, steps w w1 → rtc store_step (store_of w1) c → rtc store_step (store_of w) c) as Hs_trans
    by (intros; by etrans).
  inversion Hstep as [a o p w1 r w2 Hm Ha|a o ids w1 Hr Ha|a o i p w1 Hg Ha|a o i p w1 Hg Ha
    |before run_id after o p w1 r w2 Hf Ha|a o p w1 w2 Hs Ha]; subst; try by eapply IH.
  - assert (steps w w2) as Hs by (by eapply maintain_by_steps).
    destruct (IH _ _ _ _ eq_refl) as (? & ? & ? & ?); [by apply Hs_ok|done..|]. split_and!; [done..|by eapply Hs_trans|done].
  - apply orb_false_iff in Hg as [Hlt Hin]. rewrite Z.leb_gt in Hlt. bool_simpl.
    apply (IH _ _ _ _ eq_refl); [done|by constructor|]. simpl. lia.
  - assert (steps w w2) as Hs by (by eapply run_async_if in Hf).
    destruct (IH _ _ _ _ eq_refl) as (? & ? & ? & ?).
    + by apply Hs_ok.
    + eapply sublist_NoDup; [exact Hnd|]. apply sublist_app; [done|]. by apply sublist_cons.
    + rewrite !length_app in *. simpl in *. lia.
    + split_and!; [done|done|by eapply Hs_trans|done].
  - destruct (IH _ _ _ _ eq_refl) as (? & ? & ? & ?); [by apply Hs_ok|done..|]. split_and!; [done..|by eapply Hs_trans|done].
Qed.
End cycle.

(** ** A worker on a concrete world *)

Definition demo_executor : Executor.
Proof.
  refine (workflow_runtime demo_sha256 path_resolve demo_host_path demo_host_path (str_join "/")
    demo_loads (λ _, "0.0") (λ _, "?") (λ _ _ _, []) (λ _, false) 7 (λ n, pretty.pretty n)
    (λ n, Z.of_nat n) (λ n, Z.of_nat n) demo_config (demo_adapter "ok") None _ None None).
  discriminate.
Defined.

(** A runtime that never has anything to run. *)
Definition idle_executor : Executor.
Proof.
  refine {| advance_run run_id := rec ← read (get_run run_id); mret (rec, false) |}.
  - intros run_id w r w' _ H. revert H. apply by_steps_bind; [apply by_steps_read|]. intros. by_steps.
  - intros run_id w rec w' _ H. by apply bind_st_Ok in H as (x & w1 & _ & H).
Defined.

Definition demo_waiting : World := snd (demo_submitted "in.v" "in.sdc").
Definition demo_uuid (n : nat) : string := pretty.pretty n.

Definition demo_cycle : result (option CycleReport) * World :=
  cycle (H := demo_executor) demo_uuid (λ n, Z.of_nat n) 7 demo_config (λ _, true) 8 5 demo_waiting.

Lemma cycle_spec_witness :
  ∃ report, fst demo_cycle = Ok (Some report) ∧ cy_advanced report = 1%Z ∧
    ∃ i, attempt_settled i (store_of (snd demo_cycle)).
Proof.
  destruct (cycle_spec (HX := demo_executor) demo_uuid (λ n, Z.of_nat n) 7 demo_config (λ _, true) 8
              5 demo_waiting _ _ demo_submitted_ok (surjective_pairing demo_cycle)) as (_ & _ & H).
  destruct (fst demo_cycle) as [[report|]|e] eqn:E; vm_compute in E; [|discriminate E..].
  exists report. split; [reflexivity|]. destruct (H report eq_refl ltac:(lia)) as (_ & (l & _ & Hl & Hall)).
  injection E as <-. split; [reflexivity|]. destruct l as [|i l]; [discriminate Hl|].
  exists i. apply Hall. left.
Defined.

Lemma cycle_ends_witness :
  fst (cycle (H := idle_executor) demo_uuid (λ n, Z.of_nat n) 7 demo_config (λ _, true) 8 5 demo_waiting)
  ≠ Ok None.
Proof.
  eapply (cycle_ends (HX := idle_executor) demo_uuid (λ n, Z.of_nat n) 7 demo_config (λ _, true) 8);
    [|apply surjective_pairing|vm_compute; reflexivity].
  intros run_id w r w' H. cbn in H. unfold read in H. revert H.
  unfold lift, gets. rewrite !bind_run. destruct (get_run _ _); intros [= _ <-]; reflexivity.
Defined.

Definition demo_abandoned : World :=
  with_custody (MkCustody demo_cancelled ∅ ∅) demo_waiting.

Lemma cancellations_settled_witness :
  ∃ w', cancelled_all ["run-r1"] demo_cancelled (store_of w').
Proof.
  destruct (cancellations_settled demo_uuid (λ n, Z.of_nat n) 8 demo_abandoned
              (reachable_ok _ demo_cancelled_reachable) ltac:(lia)) as (ids & w' & Hids & _ & H).
  exists w'. vm_compute in Hids. injection Hids as <-. exact H.
Defined.

(** Two waiting runs, and a runtime that has no room for the first. *)
Definition demo_two_waiting : World :=
  snd (submit demo_sha256 path_resolve demo_host_path demo_host_path (λ _, "0.0") demo_uuid (λ n, Z.of_nat n) demo_config true
    (demo_input_task "in.v" "in.sdc") JNull None false None demo_waiting).

Definition busy_executor : Executor.
Proof.
  refine {| advance_run run_id := if bool_decide (run_id = "run-2") then rec ← read (get_run run_id); mret (rec, false)
                                  else advance_run (Executor := demo_executor) run_id |}.
  - intros run_id w r w' Hok. destruct (bool_decide _); [|by apply advance_run_steps].
    revert w r w' Hok. intros w r w' _. apply by_steps_bind; [apply by_steps_read|]. intros. by_steps.
  - intros run_id w rec w' Hok. destruct (bool_decide _); [|by apply advance_run_settles].
    intros H. by apply bind_st_Ok in H as (x & w1 & _ & H).
Defined.

Lemma scan_not_starved_witness :
  waiting_queue (store_of demo_two_waiting) = ["run-2"; "run-6"] ∧
  ∃ rec w2 fuel offset page, advance_run (Executor := demo_executor) "run-6" demo_two_waiting = (Ok (rec, true), w2) ∧
    advance_queue (H := busy_executor) demo_uuid (λ n, Z.of_nat n) 1 5 0 [] (MkCycleReport 0 0 0 0) demo_two_waiting
    = advance_queue (H := busy_executor) demo_uuid (λ n, Z.of_nat n) 1 fuel offset page (MkCycleReport 0 0 1 0) w2.
Proof.
  assert (waiting_queue (store_of demo_two_waiting) = ["run-2"; "run-6"]) as Hq by (vm_compute; reflexivity).
  split; [exact Hq|].
  destruct (scan_not_starved (HX := busy_executor) demo_uuid (λ n, Z.of_nat n) 1 5 demo_two_waiting
    (λ w, w = demo_two_waiting) ["run-2"] "run-6" [] 0 0) as (w1 & rec & w2 & fuel & offset & page & -> & E & H);
    [| | |reflexivity|lia|simpl; lia|].
  - intros w ->. exact Hq.
  - intros w run_id -> ->%list_elem_of_singleton.
    assert (∃ rec, get_run "run-2" (store_of demo_two_waiting) = Ok rec) as [rec Hrec] by (eexists; vm_compute; reflexivity).
    exists rec, demo_two_waiting. split; [|reflexivity]. unfold advance_run, busy_executor.
    rewrite bool_decide_true by reflexivity. rewrite bind_run. unfold read. rewrite bind_run. cbn [gets id].
    unfold lift at 1. by rewrite Hrec.
  - intros w ->. change (advance_run (Executor := busy_executor) "run-6" demo_two_waiting)
      with (advance_run (Executor := demo_executor) "run-6" demo_two_waiting).
    destruct (advance_run (Executor := demo_executor) "run-6" demo_two_waiting) as [[[rec [|]]|e] w2] eqn:Ea;
      pose proof (f_equal fst Ea) as Eb; [|exfalso; vm_compute in Eb; discriminate Eb..].
    exists rec, w2. reflexivity.
  - exists rec, w2, fuel, offset, page. split; [exact E|exact H].
Defined.

Lemma serve_bounded_witness :
  NoDup ["run-2"] ∧ (Z.of_nat (length ["run-2"]) ≤ 1)%Z.
Proof.
  assert (rtc (serve_step (H := demo_executor) demo_uuid (λ n, Z.of_nat n) 7 demo_config (λ _, true) 1)
            (MkServing [] 0 [] demo_waiting) (MkServing ["run-2"] 1 [] demo_waiting)) as Hs.
  { eapply rtc_l; [apply (serve_page _ _ _ _ _ _ _ 0 ["run-2"]); vm_compute; reflexivity|].
    eapply rtc_l; [apply serve_start; reflexivity|]. apply rtc_refl. }
  destruct (serve_bounded _ _ _ _ _ _ _ _ _ _ _ Hs demo_submitted_ok) as (H1 & H2 & _);
    [constructor|vm_compute; discriminate|]. split; [exact H1|exact H2].
Defined.
