(* ===== verification/Plan.v ===== *)
(** * apps/plan_executor: plans, their store and their executor

    A plan is an ordered list of tasks; a later task may bind artifacts of earlier
    ones.  [PlanStore] keeps plans and steps in two tables; [PlanExecutor] advances
    every active plan by one observable step per cycle through the kernel's API,
    which the executor knows as the [PlanKernel] interface. *)

From stdpp Require Import gmap.
From S2P Require Export Evaluation.
Open Scope string_scope.
Open Scope list_scope.

Definition MAX_STEPS : nat := 64.
Definition ACTIVE : list string :=
  ["queued"; "preparing"; "running"; "retry_wait"; "cancel_requested"].
Definition FAILED_STATUSES : list string := ["failed"; "cancelled"; "timed_out"; "lost"].
Definition PLATFORM_FAILURES : list string :=
  ["cancelled"; "lease_expired"; "protocol_error"; "resource_exceeded"; "runtime_error"; "timeout"].

(** [IDENTIFIER.fullmatch]: no colon, unlike the contracts' identifiers. *)
Definition PLAN_IDENTIFIER (s : string) : bool :=
  match s with
  | EmptyString => false
  | String c s' =>
      is_alnum c && str_forall (λ d, is_alnum d || one_of "_.-" d) s'
      && (String.length s' <=? 127)%nat
  end.

(** ** The tables *)

Record PlanRow := MkPlanRow {
  pl_plan_id : string;
  pl_owner_id : option string;
  pl_status : string;
  pl_failure_json : option json;
  pl_created_at : Z }.

Record StepRow := MkStepRow {
  sp_plan_id : string;
  sp_ordinal : Z;
  sp_step_id : string;
  sp_task_json : json;
  sp_bindings_json : json;
  sp_run_id : option string;
  sp_status : string;
  sp_failure_json : option json }.

Record PlanDb := MkPlanDb {
  plans : list PlanRow;
  plan_steps : list StepRow }.

Definition on_plans (f : list PlanRow → list PlanRow) (s : PlanDb) : PlanDb :=
  MkPlanDb (f (plans s)) (plan_steps s).
Definition on_steps (f : list StepRow → list StepRow) (s : PlanDb) : PlanDb :=
  MkPlanDb (plans s) (f (plan_steps s)).

Definition is_plan (plan_id : string) (r : PlanRow) : bool := bool_decide (pl_plan_id r = plan_id).
Definition step_of_plan (plan_id : string) (r : StepRow) : bool :=
  bool_decide (sp_plan_id r = plan_id).
Definition is_step (plan_id step_id : string) (r : StepRow) : bool :=
  step_of_plan plan_id r && bool_decide (sp_step_id r = step_id).

(** The documents of a plan are stored by [json.dumps(_, sort_keys=True)]. *)
Definition item_le (x y : string * json) : Prop := String.le (fst x) (fst y).
#[export] Instance item_le_dec : RelDecision item_le.
Proof. intros x y. unfold item_le. apply _. Defined.

Fixpoint sort_json (v : json) : json :=
  match v with
  | JList l => JList (map sort_json l)
  | JObj d => JObj (merge_sort item_le (map (λ kv, (fst kv, sort_json (snd kv))) d))
  | _ => v
  end.

(** [json.dumps(failure) if failure else None] *)
Definition stored_failure (failure : option dict) : option json :=
  match failure with Some (kv :: d) => Some (JObj (kv :: d)) | _ => None end.

(** ** Validation *)

Definition plan_error (what : string) : exn := PlanError what 400.

Definition _validate_binding (binding : json) (earlier : list string) : result unit :=
  match binding with
  | JObj b =>
      let from_step := get_null "from_step" b in
      raise_when (negb (hashable from_step)) (TypeError "unhashable");;
      raise_when (negb (existsb (λ s, bool_decide (JStr s = from_step)) earlier))
                 (plan_error "binding must refer to an earlier step");;
      iterM_result (λ k, raise_when (negb match get_null k b with
                                          | JStr s => negb (str_empty s) | _ => false end)
                                    (plan_error "binding needs a field"))
                   ["artifact_kind"; "destination"];;
      match field "metadata" (JObj []) b with
      | JObj _ => Ok tt
      | _ => Err (plan_error "binding metadata must be an object")
      end
  | _ => Err (plan_error "non-object binding")
  end.

(** [except (ContractError, TypeError, ValueError)] *)
Definition is_task_error (e : exn) : bool :=
  is_value_error e || match e with TypeError _ => true | _ => false end.

Definition validate_step (seen : list string) (step : json) : result (list string) :=
  match step with
  | JObj d =>
      match get_null "step_id" d with
      | JStr step_id =>
          raise_when (negb (PLAN_IDENTIFIER step_id)) (plan_error "identifier step_id");;
          raise_when (bool_decide (step_id ∈ seen)) (plan_error "duplicate step_id");;
          match get_null "task" d with
          | JObj task =>
              match TaskSpec_from_dict (JObj task) with
              | Ok _ =>
                  match field "bindings" (JList []) d with
                  | JList bindings =>
                      iterM_result (λ b, _validate_binding b seen) bindings;;
                      Ok (seen ++ [step_id])
                  | _ => Err (plan_error "bindings must be a list")
                  end
              | Err e => if is_task_error e then Err (plan_error "invalid task") else Err e
              end
          | _ => Err (plan_error "needs a task object")
          end
      | _ => Err (plan_error "identifier step_id")
      end
  | _ => Err (plan_error "every step must be an object")
  end.

Fixpoint validate_steps (seen : list string) (steps : list json) : result unit :=
  match steps with
  | [] => Ok tt
  | step :: steps => seen ← validate_step seen step; validate_steps seen steps
  end.

Definition _validate (plan_id : string) (steps : json) : result (list json) :=
  raise_when (negb (PLAN_IDENTIFIER plan_id)) (plan_error "plan_id");;
  match steps with
  | JList l =>
      raise_when (negb ((0 <? length l) && (length l <=? MAX_STEPS))%nat)
                 (plan_error "between 1 and 64 entries");;
      validate_steps [] l;;
      Ok l
  | _ => Err (plan_error "between 1 and 64 entries")
  end.

(** ** The store *)

Section store.
Context (py_repr : json → string).

(** [str(payload.get("plan_id") or f"plan-{uuid4().hex}")] *)
Definition plan_id_of (payload : dict) (hex : string) : string :=
  let given := get_null "plan_id" payload in
  if truthy given then py_str py_repr given else "plan-" +:+ hex.

(** The row of one validated step. *)
Definition step_row (plan_id : string) (ordinal : nat) (step : json) : StepRow :=
  MkStepRow plan_id (Z.of_nat ordinal) (str_of (obj_get_null "step_id" step))
    (sort_json (obj_get_null "task" step))
    (sort_json (match step with JObj d => field "bindings" (JList []) d | _ => JList [] end))
    None "queued" None.

Definition insert_plan (r : PlanRow) : st PlanDb unit := λ s,
  if has_row (is_plan (pl_plan_id r)) (plans s) then (Err (IntegrityError "plans"), s)
  else (Ok tt, on_plans (ins r) s).
Definition insert_step (r : StepRow) : st PlanDb unit := λ s,
  if has_row (λ r', step_of_plan (sp_plan_id r) r'
                    && (bool_decide (sp_step_id r' = sp_step_id r)
                        || bool_decide (sp_ordinal r' = sp_ordinal r))) (plan_steps s)
     || negb (has_row (is_plan (sp_plan_id r)) (plans s))
  then (Err (IntegrityError "plan_steps"), s)
  else (Ok tt, on_steps (ins r) s).

Definition is_integrity_error (e : exn) : bool :=
  match e with IntegrityError _ => true | _ => false end.

Definition create_owned (payload : dict) (owner_id : option string) (hex : string) (now : Z)
    : st PlanDb string :=
  let plan_id := plan_id_of payload hex in
  steps ← lift (_validate plan_id (get_null "steps" payload));
  transaction (
    catch (insert_plan (MkPlanRow plan_id owner_id "queued" None now);;
           iterM_st insert_step (imap (step_row plan_id) steps))
          is_integrity_error (λ _, raise (PlanError "already exists" 409)));;
  mret plan_id.

Definition create (payload : dict) (hex : string) (now : Z) : st PlanDb string :=
  create_owned payload None hex now.
End store.

Record PlanView := MkPlanView {
  pv_plan_id : string;
  pv_status : string;
  pv_execution_valid : option bool;
  pv_failure : option json;
  pv_steps : list StepRow }.

Definition plan_get (plan_id : string) (owner_id : option string) (developer : bool)
    (s : PlanDb) : result PlanView :=
  plan ← of_option (PlanError "unknown plan" 404) (fetchone (is_plan plan_id) (plans s));
  raise_when (bool_decide (is_Some owner_id) && negb developer
              && negb (bool_decide (pl_owner_id plan = owner_id)))
             (PlanError "plan not found" 404);;
  let status := pl_status plan in
  Ok (MkPlanView plan_id status
        (if bool_decide (status = "succeeded") then Some true
         else if bool_decide (status ∈ FAILED_STATUSES) then Some false else None)
        (pl_failure_json plan)
        (order_by sp_ordinal (sel (step_of_plan plan_id) (plan_steps s)))).

Definition active (s : PlanDb) : list string :=
  pl_plan_id <$> order_by pl_created_at
    (sel (λ r, bool_decide (pl_status r ∈ ["queued"; "running"; "retry_wait"; "cancel_requested"]))
         (plans s)).

Definition plan_with (status : string) (failure : option json) (r : PlanRow) : PlanRow :=
  MkPlanRow (pl_plan_id r) (pl_owner_id r) status failure (pl_created_at r).
Definition step_with (status : string) (failure : option json) (run_id : option string)
    (r : StepRow) : StepRow :=
  MkStepRow (sp_plan_id r) (sp_ordinal r) (sp_step_id r) (sp_task_json r) (sp_bindings_json r)
    run_id status failure.

Definition _update_plan (plan_id status : string) (failure : option dict) : st PlanDb unit :=
  modify (on_plans (upd (is_plan plan_id) (plan_with status (stored_failure failure)))).
Definition _update_step (plan_id step_id status : string) (failure : option dict)
    : st PlanDb unit :=
  modify (on_steps (upd (is_step plan_id step_id)
    (λ r, step_with status (stored_failure failure) (sp_run_id r) r))).

(** The status is read and written in two statements. *)
Definition request_plan_cancel (others : PlanDb → PlanDb) (plan_id : string) : st PlanDb unit :=
  s ← gets id;
  plan ← lift (plan_get plan_id None false s);
  lift (raise_when (bool_decide (pv_status plan ∈ "succeeded" :: FAILED_STATUSES))
                   (PlanError "cannot cancel" 409));;
  modify others;;
  _update_plan plan_id "cancel_requested" None.

Definition submitted (plan_id step_id run_id : string) : st PlanDb unit :=
  modify (λ s, on_plans
    (upd (λ r, is_plan plan_id r && negb (bool_decide (pl_status r = "cancel_requested")))
         (plan_with "running" None))
    (on_steps (upd (is_step plan_id step_id) (step_with "queued" None (Some run_id))) s)).

Definition retry_wait (plan_id : string) (failure : dict) : st PlanDb unit :=
  _update_plan plan_id "retry_wait" (Some failure).
Definition step_status (plan_id step_id status : string) (failure : option dict)
    : st PlanDb unit := _update_step plan_id step_id status failure.
Definition finish_plan (plan_id status : string) (failure : option dict) : st PlanDb unit :=
  _update_plan plan_id status failure.
