(* ===== verification/PlanExecutor.v ===== *)
(** * apps/plan_executor: PlanExecutor

    [advance_plan] is one observable transition of a plan, [cycle_plans] one pass over
    the active plans with what it makes of the kernel's refusals. *)

From stdpp Require Import gmap.
From S2P Require Export Plan Sql PyValue.
Open Scope string_scope.
Open Scope list_scope.

(** The kernel as [KernelClient] presents it; every call may raise. *)
Class PlanKernel (K : Type) := {
  kernel_submit : json → string → st K json;
  kernel_run : string → st K json;
  kernel_cancel : string → st K unit;
  kernel_artifacts : string → st K (list json) }.

(** The executor's process: its store, the kernel behind the client, the times at
    which plans may be tried again, and the clock readings made so far. *)
Record PlanWorld (K : Type) := MkPlanWorld {
  pw_db : PlanDb;
  pw_kernel : K;
  pw_retry_at : gmap string Z;
  pw_draws : nat }.
Arguments MkPlanWorld {K}.
Arguments pw_db {K}.
Arguments pw_kernel {K}.
Arguments pw_retry_at {K}.
Arguments pw_draws {K}.

Definition cancellation : dict :=
  [("source", JStr "platform"); ("category", JStr "cancelled");
   ("message", JStr "execution plan cancelled"); ("retryable", JBool false)].
Definition refusal (category message : string) (retryable : bool) : dict :=
  [("source", JStr "platform"); ("category", JStr category); ("message", JStr message);
   ("retryable", JBool retryable)].

Section executor.
Context {K : Type} `{PlanKernel K} (py_repr : json → string) (monotonic : nat → Z).
Context (kernel_retry_delay : Z).
Local Abbreviation W := (PlanWorld K).

Definition in_plans {A} (m : st PlanDb A) : st W A := λ w,
  let '(r, s) := m (pw_db w) in (r, MkPlanWorld s (pw_kernel w) (pw_retry_at w) (pw_draws w)).
Definition in_kernel {A} (m : st K A) : st W A := λ w,
  let '(r, k) := m (pw_kernel w) in (r, MkPlanWorld (pw_db w) k (pw_retry_at w) (pw_draws w)).
Definition plan_monotonic : st W Z := λ w,
  (Ok (monotonic (pw_draws w)),
   MkPlanWorld (pw_db w) (pw_kernel w) (pw_retry_at w) (S (pw_draws w))).
Definition set_retry (f : gmap string Z → gmap string Z) : st W unit :=
  modify (λ w, MkPlanWorld (pw_db w) (pw_kernel w) (f (pw_retry_at w)) (pw_draws w)).

(** ** The task of a step *)

(** One artifact against a binding. *)
Definition binding_matches (binding : json) (artifact : json) : result bool :=
  a ← as_object artifact;
  wanted ← py_index "artifact_kind" binding;
  Ok (py_eqb (get_null "kind" a) wanted
      && forallb (λ kv, py_eqb (obj_get_null (fst kv) (or_empty (get_null "metadata" a)))
                               (snd kv))
                 (match or_empty (obj_get_null "metadata" binding) with JObj d => d | _ => [] end)).

Fixpoint filter_result {A} (p : A → result bool) (l : list A) : result (list A) :=
  match l with
  | [] => Ok []
  | x :: l => b ← p x; l ← filter_result p l; Ok (if (b : bool) then x :: l else l)
  end.

Definition bind_artifact (plan : PlanView) (binding : json) : st W json :=
  from_step ← lift (py_index "from_step" binding);
  source ← lift (of_option (KeyError "from_step")
                   (fetchone (λ s, bool_decide (JStr (sp_step_id s) = from_step)) (pv_steps plan)));
  (* a step without a run reads as the run "None" *)
  artifacts ← in_kernel (kernel_artifacts (default "None" (sp_run_id source)));
  matches ← lift (filter_result (binding_matches binding) artifacts);
  match matches with
  | [artifact] =>
      artifact_id ← lift (py_index "artifact_id" artifact);
      destination ← lift (py_index "destination" binding);
      mret (JObj [("artifact_id", artifact_id); ("destination", destination);
                  ("required", JBool true)])
  | _ => raise (plan_error "expected one artifact")
  end.

Definition _task_for (plan : PlanView) (step : StepRow) : st W json :=
  match sp_task_json step with
  | JObj task =>
      let given := get_null "staged_inputs" task in
      staged ← lift (if truthy given then py_list given else Ok []);
      bindings ← lift (py_list (sp_bindings_json step));
      bound ← mapM_st (bind_artifact plan) bindings;
      match staged ++ bound with
      | [] => mret (JObj task)
      | all => mret (JObj (dict_set "staged_inputs" (JList all) task))
      end
  | _ => raise (OtherError "AttributeError")
  end.

(** ** What a run that did not succeed says *)

(** [dict(v or {})] *)
Definition dict_of (v : json) : result dict :=
  match or_empty v with JObj d => Ok d | _ => Err (TypeError "dict") end.

(** The first of the values that is truthy. *)
Definition first_truthy (vs : list json) (dflt : json) : json :=
  default dflt (List.find truthy vs).

Definition classify_failure (detail : json) : result dict :=
  stages ← get_items "stages" detail;
  attempts ← mapM_result (get_items "attempts") stages;
  recorded ← (match last (concat attempts) with
              | Some a => a ← as_object a; Ok (get_null "failure" a)
              | None => Ok JNull
              end);
  failure ← dict_of recorded;
  let category := py_str py_repr
        (first_truthy [get_null "category" failure; obj_get_null "terminal_reason" detail;
                       obj_get_null "status" detail] (JStr "unknown")) in
  let message := py_str py_repr (first_truthy [get_null "message" failure] (JStr category)) in
  let retryable := truthy (get_null "retryable" failure) in
  Ok (fold_left (λ d kv, dict_set (fst kv) (snd kv) d)
    [("source", JStr (if bool_decide (category ∈ PLATFORM_FAILURES) then "platform" else "plugin"));
     ("category", JStr category); ("message", JStr message); ("retryable", JBool retryable)]
    failure).

(** ** One transition *)

Definition unfinished (s : StepRow) : bool := negb (bool_decide (sp_status s = "succeeded")).
Definition final_status (status : string) : string :=
  if bool_decide (status ∈ FAILED_STATUSES) then status else "failed".

Definition run_status (run_id : string) : st W (json * string) :=
  detail ← in_kernel (kernel_run run_id);
  status ← lift (py_index "status" detail);
  mret (detail, py_str py_repr status).

Definition cancel_steps (plan_id : string) (steps : list StepRow) : st W unit :=
  iterM_st (λ s, in_plans (step_status plan_id (sp_step_id s) "cancelled" (Some cancellation))) steps.

Definition _cancel (plan : PlanView) : st W unit :=
  let plan_id := pv_plan_id plan in
  let cancel_all :=
    cancel_steps plan_id (List.filter unfinished (pv_steps plan));;
    in_plans (finish_plan plan_id "cancelled" (Some cancellation)) in
  match fetchone unfinished (pv_steps plan) with
  | None =>
      in_plans (finish_plan plan_id
        (if forallb (λ s, bool_decide (sp_status s = "succeeded")) (pv_steps plan)
         then "succeeded" else "cancelled") None)
  | Some step =>
      match sp_run_id step with
      | None => cancel_all
      | Some run_id =>
          in_kernel (kernel_cancel run_id);;
          d ← run_status run_id;
          let '(detail, status) := d in
          if bool_decide (status ∈ ACTIVE) then
            in_plans (step_status plan_id (sp_step_id step) status None)
          else if bool_decide (status = "succeeded") then
            in_plans (step_status plan_id (sp_step_id step) status None);;
            let remaining := List.filter (λ s,
                  negb (bool_decide (sp_step_id s = sp_step_id step)) && unfinished s)
                  (pv_steps plan) in
            cancel_steps plan_id remaining;;
            in_plans (finish_plan plan_id
                        (match remaining with [] => "succeeded" | _ => "cancelled" end) None)
          else if negb (bool_decide (status = "cancelled")) then
            failure ← lift (classify_failure detail);
            in_plans (step_status plan_id (sp_step_id step) status (Some failure));;
            in_plans (finish_plan plan_id (final_status status) (Some failure))
          else cancel_all
      end
  end.

Definition advance_plan (plan_id : string) : st W unit :=
  w ← gets id;
  plan ← lift (plan_get plan_id None false (pw_db w));
  if bool_decide (pv_status plan = "cancel_requested") then _cancel plan
  else
    match fetchone unfinished (pv_steps plan) with
    | None => in_plans (finish_plan plan_id "succeeded" None)
    | Some pending =>
        match sp_run_id pending with
        | None =>
            task ← _task_for plan pending;
            answer ← in_kernel (kernel_submit task
                       ("plan:" +:+ plan_id +:+ ":step:" +:+ sp_step_id pending));
            run ← lift (py_index "run" answer);
            run_id ← lift (py_index "run_id" run);
            in_plans (submitted plan_id (sp_step_id pending) (py_str py_repr run_id));;
            set_retry (delete plan_id)
        | Some run_id =>
            d ← run_status run_id;
            let '(detail, status) := d in
            if bool_decide (status ∈ ACTIVE) then
              in_plans (step_status plan_id (sp_step_id pending) status None)
            else if bool_decide (status = "succeeded") then
              in_plans (step_status plan_id (sp_step_id pending) status None);;
              if forallb (λ s, bool_decide (sp_status s = "succeeded")
                               || bool_decide (sp_step_id s = sp_step_id pending)) (pv_steps plan)
              then in_plans (finish_plan plan_id "succeeded" None)
              else mret tt
            else
              failure ← lift (classify_failure detail);
              in_plans (step_status plan_id (sp_step_id pending) status (Some failure));;
              in_plans (finish_plan plan_id (final_status status) (Some failure))
        end
    end.

(** ** One cycle *)

Definition is_unavailable (e : exn) : bool :=
  match e with KernelUnavailable _ => true | _ => false end.
Definition is_plan_error (e : exn) : bool :=
  match e with PlanError _ _ => true | _ => false end.
(** [str(exc)] of the exceptions that are recorded. *)
Definition exn_message (e : exn) : string :=
  match e with KernelUnavailable t | KernelError t _ | PlanError t _ => t | _ => EmptyString end.

(** What one plan adds to the count; other exceptions end the cycle. *)
Definition cycle_plan (plan_id : string) : st W Z :=
  w ← gets id;
  due ← (match pw_retry_at w !! plan_id with
         | Some at_ => t ← plan_monotonic; mret (negb (t <? at_)%Z)
         | None => mret true
         end);
  if negb (due : bool) then mret 0%Z
  else
    catch (advance_plan plan_id;; set_retry (delete plan_id);; mret 1%Z)
      (λ e, is_kernel_error e || is_plan_error e)
      (λ e,
        if is_unavailable e then
          in_plans (retry_wait plan_id (refusal "kernel_unavailable" (exn_message e) true));;
          t ← plan_monotonic;
          set_retry (insert plan_id (t + kernel_retry_delay)%Z);;
          mret 0%Z
        else
          in_plans (finish_plan plan_id "failed"
            (Some (refusal (if is_plan_error e then "artifact_binding_error" else "submission_refused")
                           (exn_message e) false)));;
          mret 1%Z).

Definition cycle_plans : st W Z :=
  w ← gets id;
  counts ← mapM_st cycle_plan (active (pw_db w));
  mret (foldr Z.add 0%Z counts).
End executor.
