(* ===== verification/PlanProps.v ===== *)
(** * Plans run in order

    [plans_ok] is the invariant of the plan store: keys, steps that run only after the
    earlier ones succeeded, plans that succeeded only as a whole.  Every cycle keeps
    it, whatever the kernel answers or raises. *)

From stdpp Require Import gmap.
From S2P Require Export PlanExecutor.
Open Scope string_scope.
Open Scope list_scope.

Definition step_key (r : StepRow) : string * string := (sp_plan_id r, sp_step_id r).

Record plans_ok (s : PlanDb) : Prop := {
  po_plans : NoDup (pl_plan_id <$> plans s);
  po_keys : NoDup (step_key <$> plan_steps s);
  po_ordinals : NoDup ((λ r, (sp_plan_id r, sp_ordinal r)) <$> plan_steps s);
  po_parent : ∀ r, r ∈ plan_steps s → ∃ p, p ∈ plans s ∧ pl_plan_id p = sp_plan_id r;
  (* a step has a run only when all the steps before it have succeeded *)
  po_order : ∀ r1 r2, r1 ∈ plan_steps s → r2 ∈ plan_steps s → sp_plan_id r1 = sp_plan_id r2 →
    (sp_ordinal r1 < sp_ordinal r2)%Z → is_Some (sp_run_id r2) → sp_status r1 = "succeeded";
  po_run : ∀ r, r ∈ plan_steps s → sp_status r = "succeeded" → is_Some (sp_run_id r);
  po_done : ∀ p r, p ∈ plans s → r ∈ plan_steps s → sp_plan_id r = pl_plan_id p →
    pl_status p = "succeeded" → sp_status r = "succeeded" }.

(** All the steps of the plan have succeeded. *)
Definition all_done (plan_id : string) (s : PlanDb) : Prop :=
  ∀ r, r ∈ plan_steps s → sp_plan_id r = plan_id → sp_status r = "succeeded".

Lemma step_unique s r1 r2 : plans_ok s → r1 ∈ plan_steps s → r2 ∈ plan_steps s →
  sp_plan_id r1 = sp_plan_id r2 → sp_step_id r1 = sp_step_id r2 → r1 = r2.
Proof.
  intros Hok H1 H2 Hp Hs. eapply (key_inj step_key); [apply Hok|done..|]. unfold step_key. congruence.
Qed.

(** ** Updates of the plan row *)

Lemma plans_ok_update_plan s (P : PlanRow → bool) f : plans_ok s →
  (∀ p, pl_plan_id (f p) = pl_plan_id p) →
  (∀ p, p ∈ plans s → P p = true → pl_status (f p) = "succeeded" → all_done (pl_plan_id p) s) →
  plans_ok (on_plans (upd P f) s).
Proof.
  intros [Hp Hk Ho Hpar Hord Hrun Hdone] Hf Hs. constructor; simpl; try done.
  - by rewrite fmap_upd_key by (intros; apply Hf).
  - intros r Hr. destruct (Hpar r Hr) as (p & Hin & Hid).
    exists (if P p then f p else p). split; [apply elem_of_upd; by exists p|].
    destruct (P p); [by rewrite Hf|done].
  - intros p r Hin Hr Hid Hst. apply elem_of_upd in Hin as (p0 & Hin & ->).
    destruct (P p0) eqn:E; [|by eapply Hdone]. eapply Hs; [exact Hin|done|done|done|].
    by rewrite Hid, Hf.
Qed.

Lemma update_plan_ok plan_id status failure s : plans_ok s →
  (status = "succeeded" → all_done plan_id s) →
  plans_ok (on_plans (upd (is_plan plan_id) (plan_with status failure)) s).
Proof.
  intros Hok Hs. apply plans_ok_update_plan; [done|done|]. intros p _ Hp Hst. simpl in Hst.
  unfold is_plan in Hp. bool_simpl. subst. by apply Hs.
Qed.

(** ** Updates of a step row *)

(** What an update of a step may do to its row. *)
Definition step_move (r r' : StepRow) : Prop :=
  sp_plan_id r' = sp_plan_id r ∧ sp_step_id r' = sp_step_id r ∧ sp_ordinal r' = sp_ordinal r ∧
  sp_status r ≠ "succeeded" ∧ (is_Some (sp_run_id r) → is_Some (sp_run_id r')) ∧
  (sp_status r' = "succeeded" → is_Some (sp_run_id r')).

Lemma plans_ok_update_step s plan_id step_id f : plans_ok s →
  (∀ r, r ∈ plan_steps s → is_step plan_id step_id r = true → step_move r (f r) ∧
     (is_Some (sp_run_id (f r)) → ∀ r', r' ∈ plan_steps s → sp_plan_id r' = sp_plan_id r →
        (sp_ordinal r' < sp_ordinal r)%Z → sp_status r' = "succeeded")) →
  plans_ok (on_steps (upd (is_step plan_id step_id) f) s).
Proof.
  intros Hok Hf. pose proof Hok as [Hp Hk Ho Hpar Hord Hrun Hdone]. constructor; simpl; try done.
  - rewrite fmap_upd_key; [done|]. intros r Hr HP. destruct (Hf r Hr HP) as [(? & ? & _) _].
    unfold step_key. congruence.
  - rewrite fmap_upd_key; [done|]. intros r Hr HP. destruct (Hf r Hr HP) as [(? & ? & ? & _) _].
    congruence.
  - intros r Hr. apply elem_of_upd in Hr as (r0 & Hr & ->).
    destruct (is_step plan_id step_id r0) eqn:E; [|by apply Hpar].
    destruct (Hf r0 Hr E) as [(-> & _) _]. by apply Hpar.
  - intros r1 r2 H1 H2 Hid Hlt Hr2. apply elem_of_upd in H1 as (r1' & H1 & ->).
    apply elem_of_upd in H2 as (r2' & H2 & ->).
    destruct (is_step plan_id step_id r1') eqn:E1, (is_step plan_id step_id r2') eqn:E2.
    + exfalso. unfold is_step, step_of_plan in E1, E2. bool_simpl.
      assert (r1' = r2') as -> by (eapply step_unique; eauto; congruence). lia.
    + destruct (Hf r1' H1 E1) as [(Hp1 & _ & Ho1 & Hn1 & _) _]. exfalso. apply Hn1.
      apply (Hord r1' r2'); [done|done|congruence|lia|done].
    + destruct (Hf r2' H2 E2) as [(Hp2 & _ & Ho2 & _) Hb2]. apply Hb2; [done|done|congruence|lia].
    + by apply (Hord r1' r2').
  - intros r Hr Hst. apply elem_of_upd in Hr as (r0 & Hr & ->).
    destruct (is_step plan_id step_id r0) eqn:E; [|by apply Hrun].
    destruct (Hf r0 Hr E) as [(_ & _ & _ & _ & _ & Hs) _]. by apply Hs.
  - intros p r Hin Hr Hid Hst. apply elem_of_upd in Hr as (r0 & Hr & ->).
    destruct (is_step plan_id step_id r0) eqn:E; [|by eapply Hdone].
    destruct (Hf r0 Hr E) as [(Hpid & _ & _ & Hn & _) _]. exfalso. apply Hn.
    eapply Hdone; [exact Hin|done|congruence|done].
Qed.

(** The status of an unfinished step: the steps before it are as they were. *)
Lemma update_step_ok s plan_id step_id status failure r : plans_ok s →
  r ∈ plan_steps s → sp_plan_id r = plan_id → sp_step_id r = step_id →
  sp_status r ≠ "succeeded" → (status = "succeeded" → is_Some (sp_run_id r)) →
  plans_ok (on_steps (upd (is_step plan_id step_id)
    (λ r, step_with status failure (sp_run_id r) r)) s).
Proof.
  intros Hok Hr <- <- Hn Hs. apply plans_ok_update_step; [done|]. intros r0 Hr0 E.
  unfold is_step, step_of_plan in E. bool_simpl.
  assert (r0 = r) as -> by (by eapply step_unique).
  split; [by split_and!|]. simpl. intros Hrun r' Hr' Hp Hlt.
  by apply (po_order _ Hok r' r).
Qed.

(** ** The executor *)

Section executor.
Context {K : Type} `{HK : PlanKernel K} (py_repr : json → string) (monotonic : nat → Z).
Context (kernel_retry_delay : Z).
Local Abbreviation W := (PlanWorld K).

Definition with_db (s : PlanDb) (w : W) : W :=
  MkPlanWorld s (pw_kernel w) (pw_retry_at w) (pw_draws w).

Definition db_ok (w : W) : Prop := plans_ok (pw_db w).

(** What is read of the kernel or the clock leaves the plans alone. *)
Definition same_db {A} (m : st W A) : Prop := ∀ w, pw_db (snd (m w)) = pw_db w.

Lemma same_db_bind {A B} (m : st W A) (f : A → st W B) :
  same_db m → (∀ a, same_db (f a)) → same_db (m ≫= f).
Proof.
  intros Hm Hf w. rewrite bind_run. specialize (Hm w). destruct (m w) as [[a|e] w1]; [|done].
  simpl in *. by rewrite Hf.
Qed.
Lemma same_db_kernel {A} (m : st K A) : same_db (in_kernel m).
Proof. intros w. unfold in_kernel. by destruct (m _). Qed.
Lemma same_db_lift {A} (m : result A) : same_db (lift m).
Proof. done. Qed.
Lemma same_db_mapM {A B} (f : A → st W B) l : (∀ x, same_db (f x)) → same_db (mapM_st f l).
Proof.
  intros H. induction l as [|x l IH]; simpl; [done|].
  apply same_db_bind; [done|]. intros y. apply same_db_bind; [done|]. by intros ys.
Qed.
Lemma same_db_run_status run_id : same_db (run_status py_repr run_id).
Proof.
  apply same_db_bind; [apply same_db_kernel|]. intros d.
  apply same_db_bind; [apply same_db_lift|]. by intros s.
Qed.
Lemma same_db_task_for plan step : same_db (_task_for plan step).
Proof.
  unfold _task_for. destruct (sp_task_json step); try done.
  apply same_db_bind; [apply same_db_lift|]. intros staged.
  apply same_db_bind; [apply same_db_lift|]. intros bindings.
  apply same_db_bind; [|intros bound; by destruct (staged ++ bound)].
  apply same_db_mapM. intros b. unfold bind_artifact.
  repeat (apply same_db_bind; [first [apply same_db_lift | apply same_db_kernel]|intros]).
  match goal with |- same_db (match ?l with _ => _ end) => destruct l as [|? [|]] end; try done.
  repeat (apply same_db_bind; [apply same_db_lift|intros]). done.
Qed.

Lemma in_plans_run (f : PlanDb → PlanDb) w :
  in_plans (modify f) w = (Ok tt, with_db (f (pw_db w)) w).
Proof. done. Qed.

(** A statement after a read. *)
Lemma run_after {A B} (m : st W A) (f : A → st W B) w r w' :
  same_db m → (m ≫= f) w = (r, w') →
  (pw_db w' = pw_db w ∧ is_Ok r = false) ∨
  ∃ a w1, m w = (Ok a, w1) ∧ pw_db w1 = pw_db w ∧ f a w1 = (r, w').
Proof.
  intros Hm. specialize (Hm w). rewrite bind_run. destruct (m w) as [[a|e] w1]; simpl in Hm.
  - intros H. right. by exists a, w1.
  - intros [= <- <-]. by left.
Qed.

(** *** The steps of a plan, as the view shows them *)

Definition in_view (plan_id : string) (s : PlanDb) (r : StepRow) : Prop :=
  r ∈ plan_steps s ∧ sp_plan_id r = plan_id.

Lemma plan_get_view plan_id owner developer s plan : plan_get plan_id owner developer s = Ok plan →
  pv_plan_id plan = plan_id ∧
  pv_steps plan = order_by sp_ordinal (sel (step_of_plan plan_id) (plan_steps s)) ∧
  (∀ r, r ∈ pv_steps plan ↔ in_view plan_id s r).
Proof.
  intros H. unfold plan_get in H. invert_ok. split; [done|]. split; [done|]. simpl.
  intros r. rewrite elem_of_order_by, elem_of_sel. unfold step_of_plan.
  by rewrite bool_decide_eq_true.
Qed.

(** The first unfinished step: everything before it has succeeded. *)
Lemma pending_step plan_id owner developer s plan r : plan_get plan_id owner developer s = Ok plan →
  fetchone unfinished (pv_steps plan) = Some r →
  in_view plan_id s r ∧ sp_status r ≠ "succeeded" ∧
  ∀ r', in_view plan_id s r' → (sp_ordinal r' < sp_ordinal r)%Z → sp_status r' = "succeeded".
Proof.
  intros Hg. destruct (plan_get_view _ _ _ _ _ Hg) as (_ & -> & _). intros H.
  apply fetchone_order_by in H as ([Hin Hp]%elem_of_sel & Hu & Hb).
  unfold step_of_plan, unfinished in *. bool_simpl. split_and!; [by split|done|].
  intros r' [Hr' Hp'] Hlt. specialize (Hb r').
  rewrite elem_of_sel, bool_decide_eq_true, negb_false_iff, bool_decide_eq_true in Hb. auto.
Qed.

Lemma none_unfinished plan_id owner developer s plan : plan_get plan_id owner developer s = Ok plan →
  fetchone unfinished (pv_steps plan) = None → all_done plan_id s.
Proof.
  intros Hg H r Hr Hp. destruct (plan_get_view _ _ _ _ _ Hg) as (_ & _ & Hv).
  rewrite fetchone_None in H. specialize (H r (proj2 (Hv r) (conj Hr Hp))).
  unfold unfinished in H. by bool_simpl.
Qed.

(** An update of one step leaves the others. *)
Lemma in_view_other plan_id step_id f s r :
  in_view plan_id s r → sp_step_id r ≠ step_id →
  in_view plan_id (on_steps (upd (is_step plan_id step_id) f) s) r.
Proof.
  intros [Hr Hp] Hne. split; [|done]. simpl. apply elem_of_upd. exists r. split; [done|].
  unfold is_step. by rewrite (bool_decide_false (sp_step_id r = step_id)), andb_false_r.
Qed.

Lemma cancel_steps_ok plan_id l w r w' : db_ok w → NoDup (sp_step_id <$> l) →
  (∀ x, x ∈ l → in_view plan_id (pw_db w) x ∧ sp_status x ≠ "succeeded") →
  cancel_steps plan_id l w = (r, w') → r = Ok tt ∧ db_ok w'.
Proof.
  unfold cancel_steps, iterM_st. intros Hok Hnd Hl.
  enough (∃ us w1, mapM_st (λ s, in_plans (step_status plan_id (sp_step_id s) "cancelled"
                                (Some cancellation))) l w = (Ok us, w1) ∧ db_ok w1)
    as (us & w1 & E & Hok1) by (rewrite bind_run, E; intros [= <- <-]; done).
  revert w Hok Hnd Hl. induction l as [|x l IH]; intros w Hok Hnd Hl; [by exists [], w|].
  csimpl in Hnd. apply NoDup_cons in Hnd as [Hx Hnd]. destruct (Hl x ltac:(left)) as [[Hin Hp] Hn].
  simpl. rewrite bind_run. unfold step_status, _update_step. rewrite in_plans_run.
  set (w1 := with_db _ w).
  assert (db_ok w1) as Hok1 by (eapply update_step_ok; [exact Hok|exact Hin|done|done|done|done]).
  destruct (IH w1 Hok1 Hnd) as (us & w2 & E & Hok2).
  { intros y Hy. destruct (Hl y ltac:(by right)) as [Hv Hny]. split; [|done].
    apply in_view_other; [done|]. intros Heq. apply Hx. rewrite <-Heq. by apply list_elem_of_fmap_2. }
  unfold step_status, _update_step in E. rewrite bind_run, E. by eexists _, _.
Qed.

Lemma set_step_ok plan_id x status failure w : db_ok w →
  in_view plan_id (pw_db w) x → sp_status x ≠ "succeeded" →
  (status = "succeeded" → is_Some (sp_run_id x)) →
  ∃ w1, in_plans (step_status plan_id (sp_step_id x) status failure) w = (Ok tt, w1) ∧ db_ok w1 ∧
    (status = "succeeded" →
     (∀ y, in_view plan_id (pw_db w) y → sp_step_id y ≠ sp_step_id x → sp_status y = "succeeded") →
     all_done plan_id (pw_db w1)) ∧
    (∀ y, in_view plan_id (pw_db w) y → sp_step_id y ≠ sp_step_id x → in_view plan_id (pw_db w1) y).
Proof.
  intros Hok [Hin Hp] Hn Hs. unfold step_status, _update_step. rewrite in_plans_run.
  eexists. split; [reflexivity|]. split; [by eapply update_step_ok|]. split.
  - intros -> Hoth y Hy Hpy. simpl in Hy. apply elem_of_upd in Hy as (y0 & Hy & ->).
    destruct (is_step plan_id (sp_step_id x) y0) eqn:E; [done|]. apply Hoth; [by split|].
    intros Heq. unfold is_step, step_of_plan in E. by rewrite !bool_decide_true in E.
  - intros y Hy Hne. by apply in_view_other.
Qed.

Lemma finish_plan_ok plan_id status failure w : db_ok w →
  (status = "succeeded" → all_done plan_id (pw_db w)) →
  ∃ w1, in_plans (finish_plan plan_id status failure) w = (Ok tt, w1) ∧ db_ok w1.
Proof.
  intros Hok Hs. unfold finish_plan, _update_plan. rewrite in_plans_run.
  eexists. split; [reflexivity|]. by apply update_plan_ok.
Qed.

(** The two ways both loops end a step: it failed, or it is still active. *)
Lemma failed_step_ok plan_id x detail status w r w' : db_ok w →
  in_view plan_id (pw_db w) x → sp_status x ≠ "succeeded" → status ≠ "succeeded" →
  (failure ← lift (classify_failure py_repr detail);
   in_plans (step_status plan_id (sp_step_id x) status (Some failure));;
   in_plans (finish_plan plan_id (final_status status) (Some failure))) w
    = (r, w') → db_ok w'.
Proof.
  intros Hok Hv Hn Hst. rewrite bind_run. unfold lift at 1.
  destruct (classify_failure py_repr detail) as [failure|e]; [|by intros [= _ <-]].
  destruct (set_step_ok plan_id x status (Some failure) w Hok Hv Hn ltac:(done)) as (w1 & E1 & Hok1 & _).
  rewrite bind_run, E1.
  destruct (finish_plan_ok plan_id (final_status status) (Some failure) w1 Hok1)
    as (w2 & E2 & Hok2); [|rewrite E2; by intros [= _ <-]].
  unfold final_status. case_bool_decide as Hf; [|done]. by intros ->.
Qed.

Lemma active_not_done status : status ∈ ACTIVE → status ≠ "succeeded".
Proof. intros H ->. by apply (bool_decide_eq_true_2 _) in H. Qed.

Lemma view_ids plan_id owner developer s plan : plans_ok s →
  plan_get plan_id owner developer s = Ok plan → NoDup (sp_step_id <$> pv_steps plan).
Proof.
  intros Hok Hg. destruct (plan_get_view _ _ _ _ _ Hg) as (_ & Hs & Hview).
  assert (NoDup (pv_steps plan)) as Hnd.
  { rewrite Hs, order_by_perm. eapply NoDup_fmap_1, NoDup_fmap_sel, (po_keys _ Hok). }
  apply NoDup_fmap_2_strong; [|done].
  intros r1 r2 [H1 P1]%Hview [H2 P2]%Hview Heq. eapply step_unique; eauto. congruence.
Qed.

(** [cancel_steps] on some of the steps the view shows. *)
Lemma cancel_view_ok plan_id owner developer s plan P w r w' :
  plans_ok s → plan_get plan_id owner developer s = Ok plan → db_ok w →
  (∀ y, in_view plan_id s y → P y = true → in_view plan_id (pw_db w) y ∧ sp_status y ≠ "succeeded") →
  cancel_steps plan_id (List.filter P (pv_steps plan)) w = (r, w') → r = Ok tt ∧ db_ok w'.
Proof.
  intros Hok Hg Hw HP. apply cancel_steps_ok; [done| |].
  - apply NoDup_fmap_sel. exact (view_ids _ _ _ _ _ Hok Hg).
  - intros x Hx. apply (elem_of_sel P) in Hx as [Hx HPx].
    destruct (plan_get_view _ _ _ _ _ Hg) as (_ & _ & Hview). apply HP; [by apply Hview|done].
Qed.

Lemma unfinished_iff y : unfinished y = true ↔ sp_status y ≠ "succeeded".
Proof. unfold unfinished. by rewrite negb_true_iff, bool_decide_eq_false. Qed.

(** Nothing has succeeded but the steps that had, and the plan is cancelled. *)
Lemma cancel_all_ok plan_id plan w r w' : db_ok w →
  plan_get plan_id None false (pw_db w) = Ok plan → ∀ w1, pw_db w1 = pw_db w →
  (cancel_steps plan_id (List.filter unfinished (pv_steps plan));;
   in_plans (finish_plan plan_id "cancelled" (Some cancellation))) w1 = (r, w') → db_ok w'.
Proof.
  intros Hok Hg w1 Hw1. rewrite bind_run. destruct (cancel_steps _ _ w1) as [r1 w2] eqn:E.
  eapply cancel_view_ok in E as [-> Hok2]; [|exact Hok|exact Hg|unfold db_ok; by rewrite Hw1|].
  - destruct (finish_plan_ok plan_id "cancelled" (Some cancellation) w2 Hok2) as (w3 & E3 & Hok3); [done|].
    rewrite E3. by intros [= _ <-].
  - intros y Hy Hu. rewrite Hw1. split; [done|by apply unfinished_iff].
Qed.

Lemma cancel_ok plan_id w plan r w' : db_ok w → plan_get plan_id None false (pw_db w) = Ok plan →
  _cancel py_repr plan w = (r, w') → db_ok w'.
Proof.
  intros Hok Hg. destruct (plan_get_view _ _ _ _ _ Hg) as (Hid & _ & Hview).
  unfold _cancel. rewrite Hid. destruct (fetchone unfinished (pv_steps plan)) as [x|] eqn:Hx.
  2: { edestruct (finish_plan_ok plan_id) as (w1 & E & Hok1); [exact Hok| |rewrite E; by intros [= _ <-]].
       intros _. by eapply none_unfinished. }
  destruct (pending_step _ _ _ _ _ _ Hg Hx) as (Hv & Hn & Hb).
  destruct (sp_run_id x) as [run_id|] eqn:Hrun; [|by eapply cancel_all_ok].
  intros H. apply run_after in H as [[Hd _]|([] & w1 & _ & Hd1 & H)];
    [by unfold db_ok; rewrite Hd| |apply same_db_kernel].
  apply run_after in H as [[Hd _]|([detail status] & w2 & _ & Hd2 & H)];
    [by unfold db_ok; rewrite Hd, Hd1| |apply same_db_run_status].
  assert (pw_db w2 = pw_db w) as Hd by congruence. assert (db_ok w2) as Hok2 by (unfold db_ok; by rewrite Hd).
  assert (in_view plan_id (pw_db w2) x) as Hv2 by by rewrite Hd.
  case_bool_decide as Ha.
  { destruct (set_step_ok plan_id x status None w2 Hok2 Hv2 Hn) as (w3 & E & Hok3 & _);
      [by intros Hs; apply active_not_done in Ha|]. rewrite E in H. by injection H as _ <-. }
  case_bool_decide as Hs.
  { subst status. destruct (set_step_ok plan_id x "succeeded" None w2 Hok2 Hv2 Hn) as (w3 & E & Hok3 & Hdone & Hkeep);
      [by rewrite Hrun|]. rewrite bind_run, E, bind_run in H.
    destruct (cancel_steps _ _ w3) as [r4 w4] eqn:E4.
    set (P := λ s, negb (bool_decide (sp_step_id s = sp_step_id x)) && unfinished s) in *.
    pose proof E4 as E4'. eapply cancel_view_ok in E4' as [-> Hok4]; [|exact Hok|exact Hg|exact Hok3|].
    2: { intros y Hy HP. unfold P in HP. bool_simpl. rewrite unfinished_iff in *. split; [|done].
         apply Hkeep; [by rewrite Hd|done]. }
    edestruct (finish_plan_ok plan_id) as (w5 & E5 & Hok5); [exact Hok4| |rewrite E5 in H; by injection H as _ <-].
    destruct (List.filter P (pv_steps plan)) as [|y l] eqn:El; [|done]. intros _.
    injection E4 as <-. apply Hdone; [done|]. intros y Hy Hne.
    rewrite Hd in Hy. apply Hview in Hy. destruct (decide (sp_status y = "succeeded")) as [|Hny]; [done|].
    exfalso. assert (y ∈ List.filter P (pv_steps plan)) as Hin.
    { apply (elem_of_sel P). split; [done|]. unfold P. rewrite bool_decide_false by done.
      by apply unfinished_iff. }
    rewrite El in Hin. by apply not_elem_of_nil in Hin. }
  case_bool_decide as Hc; simpl in H; [|by eapply failed_step_ok].
  eapply cancel_all_ok; [exact Hok|exact Hg|exact Hd|exact H].
Qed.

(** The step gets its run. *)
Lemma step_submitted_ok plan_id x run_id w : db_ok w → in_view plan_id (pw_db w) x →
  sp_status x ≠ "succeeded" →
  (∀ r', in_view plan_id (pw_db w) r' → (sp_ordinal r' < sp_ordinal x)%Z → sp_status r' = "succeeded") →
  ∃ w1, in_plans (submitted plan_id (sp_step_id x) run_id) w = (Ok tt, w1) ∧ db_ok w1.
Proof.
  intros Hok [Hin Hp] Hn Hb. unfold submitted. rewrite in_plans_run. eexists. split; [reflexivity|].
  apply plans_ok_update_plan; [|done|done]. apply plans_ok_update_step; [done|].
  intros r Hr E. unfold is_step, step_of_plan in E. bool_simpl.
  assert (r = x) as -> by (eapply step_unique; eauto; congruence).
  split; [by split_and!|]. intros _ r' Hr' Hp'. apply Hb. split; [done|congruence].
Qed.

Lemma advance_ok plan_id w r w' : db_ok w → advance_plan py_repr plan_id w = (r, w') → db_ok w'.
Proof.
  intros Hok. unfold advance_plan. rewrite bind_run. cbn [gets id]. rewrite bind_run. unfold lift at 1.
  destruct (plan_get plan_id None false (pw_db w)) as [plan|e] eqn:Hg; [|by intros [= _ <-]].
  destruct (plan_get_view _ _ _ _ _ Hg) as (_ & _ & Hview).
  case_bool_decide; [by eapply cancel_ok|].
  destruct (fetchone unfinished (pv_steps plan)) as [x|] eqn:Hx.
  2: { edestruct (finish_plan_ok plan_id) as (w1 & E & Hok1); [exact Hok| |rewrite E; by intros [= _ <-]].
       intros _. by eapply none_unfinished. }
  destruct (pending_step _ _ _ _ _ _ Hg Hx) as (Hv & Hn & Hb).
  destruct (sp_run_id x) as [run_id|] eqn:Hrun; intros Hr.
  - apply run_after in Hr as [[Hd _]|([detail status] & w2 & _ & Hd & Hr)];
      [by unfold db_ok; rewrite Hd| |apply same_db_run_status].
    assert (db_ok w2) as Hok2 by (unfold db_ok; by rewrite Hd).
    assert (in_view plan_id (pw_db w2) x) as Hv2 by by rewrite Hd.
    case_bool_decide as Ha.
    { destruct (set_step_ok plan_id x status None w2 Hok2 Hv2 Hn) as (w3 & E & Hok3 & _);
        [by intros Hs; apply active_not_done in Ha|]. rewrite E in Hr. by injection Hr as _ <-. }
    case_bool_decide as Hs; [subst status|by eapply failed_step_ok].
    destruct (set_step_ok plan_id x "succeeded" None w2 Hok2 Hv2 Hn) as (w3 & E & Hok3 & Hdone & _);
      [by rewrite Hrun|]. rewrite bind_run, E in Hr.
    destruct (forallb _ _) eqn:Hall; [|by injection Hr as _ <-].
    edestruct (finish_plan_ok plan_id) as (w4 & E4 & Hok4); [exact Hok3| |rewrite E4 in Hr; by injection Hr as _ <-].
    intros _. apply Hdone; [done|]. intros y Hy Hne. rewrite Hd in Hy. apply Hview in Hy.
    rewrite forallb_elem in Hall. specialize (Hall y Hy). apply orb_true_iff in Hall.
    rewrite !bool_decide_eq_true in Hall. by destruct Hall.
  - apply run_after in Hr as [[Hd _]|(task & w2 & _ & Hd2 & Hr)];
      [by unfold db_ok; rewrite Hd| |apply same_db_task_for].
    apply run_after in Hr as [[Hd _]|(answer & w3 & _ & Hd3 & Hr)];
      [by unfold db_ok; rewrite Hd, Hd2| |apply same_db_kernel].
    assert (pw_db w3 = pw_db w) as Hd by congruence.
    do 2 (apply run_after in Hr as [[Hd4 _]|(? & ? & E & _ & Hr)];
      [by unfold db_ok; rewrite Hd4, Hd| |apply same_db_lift]; injection E as _ <-).
    match type of Hr with context [submitted _ _ ?i] =>
      destruct (step_submitted_ok plan_id x i w3) as (w4 & E & Hok4) end;
      [unfold db_ok; by rewrite Hd|by rewrite Hd|done|by rewrite Hd|].
    rewrite bind_run, E in Hr. by injection Hr as _ <-.
Qed.

Lemma cycle_plan_ok plan_id : keeps db_ok (cycle_plan py_repr monotonic kernel_retry_delay plan_id).
Proof.
  unfold cycle_plan. apply keeps_bind; [by apply keeps_pure|]. intros w.
  apply keeps_bind.
  { destruct (_ !! _); [|by apply keeps_pure]. by intros w1 r w2 Hw [= _ <-]. }
  intros [|]; [|by apply keeps_pure]. simpl. apply keeps_catch.
  - apply keeps_bind; [intros w1 r w2; by apply advance_ok|]. intros _.
    apply keeps_bind; [by apply keeps_modify|]. intros; by apply keeps_pure.
  - intros e. destruct (is_unavailable e).
    + apply keeps_bind; [|intros; apply keeps_bind; [by intros w1 r w2 Hw [= _ <-]|intros;
        apply keeps_bind; [by apply keeps_modify|intros; by apply keeps_pure]]].
      intros w1 r w2 Hw [= _ <-]. by apply update_plan_ok.
    + apply keeps_bind; [|intros; by apply keeps_pure].
      intros w1 r w2 Hw [= _ <-]. by apply update_plan_ok.
Qed.

Lemma cycle_plans_ok : keeps db_ok (cycle_plans py_repr monotonic kernel_retry_delay).
Proof.
  apply keeps_bind; [by apply keeps_pure|]. intros w.
  apply keeps_bind; [apply keeps_mapM; intros; apply cycle_plan_ok|]. intros; by apply keeps_pure.
Qed.
End executor.
