(* ===== verification/PlanCreate.v ===== *)
(** * Creating plans *)

From stdpp Require Import gmap.
From S2P Require Export PlanProps.
Open Scope string_scope.
Open Scope list_scope.

(** ** What validation accepts *)

Definition step_id_of (step : json) : string := str_of (obj_get_null "step_id" step).
Definition bindings_of (step : json) : json :=
  match step with JObj d => field "bindings" (JList []) d | _ => JList [] end.

(** A binding names an earlier step, an artifact kind and a destination. *)
Definition binding_valid (earlier : list string) (binding : json) : Prop :=
  ∃ b s kind destination, binding = JObj b ∧ get_null "from_step" b = JStr s ∧ s ∈ earlier ∧
    get_null "artifact_kind" b = JStr kind ∧ get_null "destination" b = JStr destination ∧
    kind ≠ EmptyString ∧ destination ≠ EmptyString.

Record step_valid (earlier : list string) (step : json) : Prop := {
  sv_id : obj_get_null "step_id" step = JStr (step_id_of step) ∧
          PLAN_IDENTIFIER (step_id_of step) = true;
  sv_new : step_id_of step ∉ earlier;
  sv_task : ∃ t, TaskSpec_from_dict (obj_get_null "task" step) = Ok t;
  sv_bindings : ∃ bs, bindings_of step = JList bs ∧ Forall (binding_valid earlier) bs }.

Lemma validate_binding_valid earlier b :
  _validate_binding b earlier = Ok tt → binding_valid earlier b.
Proof.
  unfold _validate_binding. destruct b as [| | | | | |d]; try done. intros H. invert_ok. bool_simpl.
  match goal with H : existsb _ _ = true |- _ => apply existsb_exists in H as (s & Hs & Heq) end.
  bool_simpl. match goal with H : Forall _ _ |- _ =>
    apply Forall_cons in H as [Hk H]; apply Forall_cons in H as [Hd _] end.
  invert_ok. bool_simpl.
  destruct (get_null "artifact_kind" d) as [| | | |kind| |] eqn:Ek; try discriminate.
  destruct (get_null "destination" d) as [| | | |dest| |] eqn:Ed; try discriminate.
  exists d, s, kind, dest. rewrite list_elem_of_In. bool_simpl.
  split_and!; try done; by intros ->.
Qed.

Lemma validate_step_valid seen step seen' : validate_step seen step = Ok seen' →
  seen' = seen ++ [step_id_of step] ∧ step_valid seen step.
Proof.
  unfold validate_step. destruct step as [| | | | | |d]; try done.
  destruct (get_null "step_id" d) as [| | | |step_id| |] eqn:Eid; try done. intros H.
  apply bind_Ok in H as ([] & Hid & H). apply bind_Ok in H as ([] & Hnew & H).
  rewrite raise_when_Ok in Hid, Hnew. bool_simpl.
  destruct (get_null "task" d) as [| | | | | |task] eqn:Et; try done.
  destruct (TaskSpec_from_dict (JObj task)) as [t|e] eqn:Ets; [|by destruct (is_task_error e)].
  destruct (field "bindings" (JList []) d) as [| | | | |bs|] eqn:Eb; try done.
  apply bind_Ok in H as ([] & Hb & H). injection H as <-. apply iterM_result_Ok in Hb.
  assert (step_id_of (JObj d) = step_id) as Es by (unfold step_id_of; simpl; by rewrite Eid).
  split; [by rewrite Es|]. constructor; rewrite ?Es.
  - simpl. by rewrite Eid.
  - done.
  - simpl. rewrite Et. eauto.
  - exists bs. split; [done|]. eapply Forall_impl; [exact Hb|]. apply validate_binding_valid.
Qed.

Lemma validate_steps_valid seen l : validate_steps seen l = Ok tt →
  (∀ i step, l !! i = Some step → step_valid (seen ++ (step_id_of <$> take i l)) step) ∧
  (NoDup seen → NoDup (seen ++ (step_id_of <$> l))).
Proof.
  revert seen. induction l as [|step l IH]; intros seen H; simpl in H.
  { split; [done|]. by rewrite app_nil_r. }
  apply bind_Ok in H as (seen' & Hs & H). apply validate_step_valid in Hs as [-> Hs].
  apply IH in H as [H1 H2]. split.
  - intros [|i] step' Hi; simpl in *; [injection Hi as <-; by rewrite app_nil_r|].
    specialize (H1 i step' Hi). by rewrite <-(assoc_L (++)) in H1.
  - intros Hnd. csimpl. rewrite <-(assoc_L (++)) in H2.
    apply H2. apply NoDup_app. split; [done|]. split; [|apply NoDup_singleton].
    intros x Hx ->%list_elem_of_singleton. by apply (sv_new _ _ Hs).
Qed.

(** ** The rows *)

Definition created_rows (plan_id : string) (steps : list json) : list StepRow :=
  imap (step_row plan_id) steps.

Lemma created_rows_lookup plan_id steps i :
  created_rows plan_id steps !! i = step_row plan_id i <$> steps !! i.
Proof. unfold created_rows. apply list_lookup_imap. Qed.

Lemma elem_of_created plan_id steps r : r ∈ created_rows plan_id steps →
  ∃ i step, steps !! i = Some step ∧ r = step_row plan_id i step.
Proof.
  intros [i Hi]%list_elem_of_lookup. rewrite created_rows_lookup in Hi.
  destruct (steps !! i) as [step|] eqn:E; [|done]. injection Hi as <-. eauto.
Qed.

(** The INSERTs of the steps, one after the other. *)
Lemma insert_steps_run plan_id rows s :
  Forall (λ r, sp_plan_id r = plan_id) rows → NoDup (sp_step_id <$> rows) →
  NoDup (sp_ordinal <$> rows) → has_row (is_plan plan_id) (plans s) = true →
  (∀ r r', r ∈ plan_steps s → sp_plan_id r = plan_id → r' ∈ rows →
     sp_step_id r ≠ sp_step_id r' ∧ sp_ordinal r ≠ sp_ordinal r') →
  ∃ us, mapM_st insert_step rows s = (Ok us, on_steps (λ t, t ++ rows) s).
Proof.
  revert s. induction rows as [|r rows IH]; intros s Hp Hids Hords Hplan Hnew.
  { exists []. simpl. unfold on_steps. rewrite app_nil_r. by destruct s. }
  apply Forall_cons in Hp as [Hr Hp]. csimpl in Hids. csimpl in Hords.
  apply NoDup_cons in Hids as [Hni Hids]. apply NoDup_cons in Hords as [Hno Hords].
  destruct (IH (on_steps (ins r) s)) as (us & E); [done..| |].
  - intros r1 r2 Hin Hp1 Hr2. simpl in Hin. apply elem_of_ins in Hin as [Hin| ->].
    + apply Hnew; [done..|by right].
    + split; intros Heq; [apply Hni|apply Hno]; rewrite Heq; by apply list_elem_of_fmap_2.
  - exists (() :: us). simpl. rewrite bind_run. unfold insert_step at 1.
    rewrite Hr, Hplan. simpl.
    match goal with |- context [has_row ?P ?t] => assert (has_row P t = false) as -> end.
    { apply has_row_false. intros r1 Hin. apply andb_false_iff.
      destruct (step_of_plan plan_id r1) eqn:Ep; [right|by left].
      unfold step_of_plan in Ep. bool_simpl.
      destruct (Hnew r1 r Hin Ep ltac:(left)) as [H1 H2]. by rewrite !bool_decide_false. }
    simpl. rewrite bind_run, E. cbn. unfold on_steps, ins. simpl. by rewrite <-(assoc_L (++)).
Qed.

Section create.
Context (py_repr : json → string).

(** A creation in full: refused without a trace, or the plan and its rows. *)
Lemma create_owned_cases payload owner_id hex now s : plans_ok s →
  let plan_id := plan_id_of py_repr payload hex in
  match _validate plan_id (get_null "steps" payload) with
  | Err e => create_owned py_repr payload owner_id hex now s = (Err e, s)
  | Ok steps =>
      if has_row (is_plan plan_id) (plans s)
      then create_owned py_repr payload owner_id hex now s = (Err (PlanError "already exists" 409), s)
      else create_owned py_repr payload owner_id hex now s
           = (Ok plan_id, MkPlanDb (plans s ++ [MkPlanRow plan_id owner_id "queued" None now])
                                   (plan_steps s ++ created_rows plan_id steps))
  end.
Proof.
  intros Hok plan_id. unfold create_owned. fold plan_id. rewrite bind_run. unfold lift.
  destruct (_validate _ _) as [steps|e] eqn:Hv; [|done]. rewrite bind_run.
  unfold transaction, catch. rewrite bind_run. unfold insert_plan at 1 2. simpl.
  destruct (has_row _ (plans s)) eqn:Hf; [done|]. unfold iterM_st. rewrite bind_run.
  unfold _validate in Hv. apply bind_Ok in Hv as ([] & _ & Hv).
  destruct (get_null "steps" payload) as [| | | | |l|]; try done.
  apply bind_Ok in Hv as ([] & _ & Hv). apply bind_Ok in Hv as ([] & Hvs & Hv).
  injection Hv as ->. apply validate_steps_valid in Hvs as [_ Hnd].
  specialize (Hnd (NoDup_nil_2)). rewrite app_nil_l in Hnd.
  destruct (insert_steps_run plan_id (created_rows plan_id steps)
    (on_plans (ins (MkPlanRow plan_id owner_id "queued" None now)) s)) as (us & E).
  - apply Forall_forall. intros r (i & step & _ & ->)%elem_of_created. done.
  - unfold created_rows. rewrite fmap_imap.
    change (NoDup (imap (const step_id_of) steps)). by rewrite imap_const.
  - unfold created_rows. rewrite fmap_imap.
    change (NoDup (imap (λ j _, Z.of_nat j) steps)). rewrite imap_seq_0.
    apply NoDup_fmap_2; [apply _|apply NoDup_seq].
  - apply has_row_true. eexists. split; [apply elem_of_ins; by right|]. by apply bool_decide_eq_true.
  - intros r r' Hr Hp _. exfalso. simpl in Hr. destruct (po_parent _ Hok r Hr) as (p & Hin & Hid).
    rewrite has_row_false in Hf. specialize (Hf p Hin). unfold is_plan in Hf. bool_simpl. congruence.
  - unfold created_rows in E. rewrite E. cbn. done.
Qed.
End create.
