(* ===== verification/PlanService.v ===== *)
(** * The plan service as a whole

    [service_step] is one creation, one cancellation request, one cycle of the
    executor, or something the kernel does on its own. *)

From stdpp Require Import gmap.
From S2P Require Export PlanCreate StoreProps.
Open Scope string_scope.
Open Scope list_scope.

(** ** A plan of two steps and a small kernel

    The kernel counts the polls that its runs still stay active for; the second step
    binds an artifact of the first. *)

#[export] Instance demo_kernel : PlanKernel nat := {|
  kernel_submit := λ _ key k, (Ok (JObj [("run", JObj [("run_id", JStr key)])]), S k);
  kernel_run := λ _ k,
    match k with
    | O => (Ok (JObj [("status", JStr "succeeded")]), O)
    | S k => (Ok (JObj [("status", JStr "running")]), k)
    end;
  kernel_cancel := λ _ k, (Ok tt, k);
  kernel_artifacts := λ _ k,
    (Ok [JObj [("artifact_id", JStr "gds-1"); ("kind", JStr "gds")]], k) |}.

Definition demo_task_json : json :=
  match TaskSpec_to_dict demo_task with Ok d => JObj d | Err _ => JNull end.

Definition demo_binding : json :=
  JObj [("from_step", JStr "route"); ("artifact_kind", JStr "gds");
        ("destination", JStr "in/final.gds")].

Definition demo_payload : dict :=
  [("plan_id", JStr "plan-1");
   ("steps", JList [JObj [("step_id", JStr "route"); ("task", demo_task_json)];
                    JObj [("step_id", JStr "drc"); ("task", demo_task_json);
                          ("bindings", JList [demo_binding])]])].

Definition demo_repr : json → string := λ _, "value".
Definition demo_clock : nat → Z := Z.of_nat.

Definition demo_created : result string * PlanDb :=
  create_owned demo_repr demo_payload (Some "ana") "0a" 100 (MkPlanDb [] []).
Definition demo_plan_world : PlanWorld nat := MkPlanWorld (snd demo_created) 0%nat ∅ 0.

Example demo_created_ok : fst demo_created = Ok "plan-1".
Proof. vm_compute. reflexivity. Qed.

Lemma empty_plans_ok : plans_ok (MkPlanDb [] []).
Proof.
  constructor; simpl; try constructor; try by intros ? ?%not_elem_of_nil.
  all: by intros ? ? ?%not_elem_of_nil.
Qed.

(** ** The service *)

Lemma created_ok s plan_id owner_id now steps : plans_ok s →
  has_row (is_plan plan_id) (plans s) = false → NoDup (step_id_of <$> steps) →
  plans_ok (MkPlanDb (plans s ++ [MkPlanRow plan_id owner_id "queued" None now])
                     (plan_steps s ++ created_rows plan_id steps)).
Proof.
  intros [Hp Hk Ho Hpar Hord Hrun Hdone] Hf Hnd. rewrite has_row_false in Hf.
  assert (∀ p, p ∈ plans s → pl_plan_id p ≠ plan_id) as Hfresh.
  { intros p Hin Heq. specialize (Hf p Hin). unfold is_plan in Hf. by bool_simpl. }
  assert (∀ r, r ∈ plan_steps s → sp_plan_id r ≠ plan_id) as Hold.
  { intros r Hr Heq. destruct (Hpar r Hr) as (p & Hin & Hid). apply (Hfresh p Hin). congruence. }
  assert (∀ r, r ∈ created_rows plan_id steps →
    sp_plan_id r = plan_id ∧ sp_run_id r = None ∧ sp_status r = "queued") as Hnew.
  { intros r (i & step & _ & ->)%elem_of_created. done. }
  constructor; simpl.
  - rewrite fmap_app. apply NoDup_app. split; [done|]. split; [|apply NoDup_singleton].
    intros x (p & -> & Hin)%list_elem_of_fmap Hx%list_elem_of_singleton. by apply (Hfresh p).
  - rewrite fmap_app. apply NoDup_app. split; [done|]. split.
    + intros x (r & -> & Hr)%list_elem_of_fmap (r' & Heq & Hr')%list_elem_of_fmap.
      apply (Hold r Hr). destruct (Hnew r' Hr') as [<- _]. unfold step_key in Heq. congruence.
    + unfold created_rows. rewrite fmap_imap.
      change (NoDup (imap (const (λ x, (plan_id, step_id_of x))) steps)). rewrite imap_const.
      change (NoDup (pair plan_id ∘ step_id_of <$> steps)).
      rewrite list_fmap_compose. apply NoDup_fmap_2; [apply _|done].
  - rewrite fmap_app. apply NoDup_app. split; [done|]. split.
    + intros x (r & -> & Hr)%list_elem_of_fmap (r' & Heq & Hr')%list_elem_of_fmap.
      apply (Hold r Hr). destruct (Hnew r' Hr') as [<- _]. congruence.
    + unfold created_rows. rewrite fmap_imap.
      change (NoDup (imap (λ j _, (plan_id, Z.of_nat j)) steps)).
      rewrite (imap_seq_0 steps (λ j, (plan_id, Z.of_nat j))).
      apply NoDup_fmap_2; [|apply NoDup_seq]. intros i j [= Heq]. lia.
  - intros r [Hr|Hr]%elem_of_app.
    + destruct (Hpar r Hr) as (p & Hin & Hid). exists p. split; [apply elem_of_app; by left|done].
    + destruct (Hnew r Hr) as [Hid _]. eexists. split; [apply elem_of_app; right; left|done].
  - intros r1 r2 [H1|H1]%elem_of_app [H2|H2]%elem_of_app Heq Hlt Hr2.
    + by apply (Hord r1 r2).
    + destruct (Hnew r2 H2) as (_ & Hn & _). rewrite Hn in Hr2. by destruct Hr2.
    + destruct (Hnew r1 H1) as (Hid & _). destruct (Hold r2 H2). congruence.
    + destruct (Hnew r2 H2) as (_ & Hn & _). rewrite Hn in Hr2. by destruct Hr2.
  - intros r [Hr|Hr]%elem_of_app Hst; [by apply Hrun|].
    destruct (Hnew r Hr) as (_ & _ & Hq). congruence.
  - intros p r [Hin|Hin%list_elem_of_singleton]%elem_of_app [Hr|Hr]%elem_of_app Hid Hst.
    + by apply (Hdone p r).
    + destruct (Hnew r Hr) as (Hid' & _). destruct (Hfresh p Hin). congruence.
    + by subst p.
    + by subst p.
Qed.

Lemma validated_ids plan_id steps l : _validate plan_id steps = Ok l →
  steps = JList l ∧ PLAN_IDENTIFIER plan_id = true ∧ (0 < length l ≤ MAX_STEPS)%nat ∧
  NoDup (step_id_of <$> l) ∧
  ∀ i step, l !! i = Some step → step_valid (step_id_of <$> take i l) step.
Proof.
  intros H. unfold _validate in H. apply bind_Ok in H as ([] & Hid & H).
  destruct steps as [| | | | |l'|]; try done. apply bind_Ok in H as ([] & Hlen & H).
  apply bind_Ok in H as ([] & Hvs & H). injection H as ->. rewrite raise_when_Ok in Hid, Hlen.
  bool_simpl. apply validate_steps_valid in Hvs as [Hval Hnd].
  rewrite Nat.ltb_lt, Nat.leb_le in *. split_and!; try done. by apply Hnd, NoDup_nil_2.
Qed.

Lemma create_owned_ok py_repr payload owner_id hex now s r s' : plans_ok s →
  create_owned py_repr payload owner_id hex now s = (r, s') → plans_ok s'.
Proof.
  intros Hok H. pose proof (create_owned_cases py_repr payload owner_id hex now s Hok) as Hc.
  cbv zeta in Hc. destruct (_validate _ _) as [steps|e] eqn:Hv; [|rewrite Hc in H; by injection H as _ <-].
  destruct (has_row _ _) eqn:Hf; rewrite Hc in H; injection H as _ <-; [done|].
  apply validated_ids in Hv as (_ & _ & _ & Hnd & _). by apply created_ok.
Qed.

Lemma request_cancel_plan_ok others plan_id s r s' : plans_ok s →
  (∀ s, plans_ok s → plans_ok (others s)) →
  request_plan_cancel others plan_id s = (r, s') → plans_ok s'.
Proof.
  intros Hok Hoth. unfold request_plan_cancel. rewrite bind_run. cbn [gets id]. rewrite bind_run.
  unfold lift. destruct (plan_get _ _ _ _); [|by intros [= _ <-]]. rewrite bind_run.
  destruct (raise_when _ _); [|by intros [= _ <-]]. rewrite bind_run. cbn [modify].
  intros [= _ <-]. apply update_plan_ok; [by apply Hoth|done].
Qed.

Lemma StronglySorted_lookup {A} (R : A → A → Prop) l i j a b :
  StronglySorted R l → l !! i = Some a → l !! j = Some b → (i < j)%nat → R a b.
Proof.
  intros Hs. revert i j. induction Hs as [|x l Hl IH Hall]; intros i j Hi Hj Hlt; [done|].
  destruct j as [|j]; [lia|]. destruct i as [|i]; simpl in *.
  - injection Hi as <-. rewrite Forall_forall in Hall. apply Hall. by eapply list_elem_of_lookup_2.
  - apply (IH i j); [done|done|lia].
Qed.

Section service.
Context {K : Type} `{HK : PlanKernel K} (py_repr : json → string) (monotonic : nat → Z).
Context (kernel_retry_delay : Z).
Local Abbreviation W := (PlanWorld K).

Inductive service_step : W → W → Prop :=
| service_create w payload owner_id hex now r w' :
    in_plans (create_owned py_repr payload owner_id hex now) w = (r, w') → service_step w w'
| service_cancel w others plan_id r w' : (∀ s, plans_ok s → plans_ok (others s)) →
    in_plans (request_plan_cancel others plan_id) w = (r, w') → service_step w w'
| service_cycle w r w' :
    cycle_plans py_repr monotonic kernel_retry_delay w = (r, w') → service_step w w'
| service_kernel w k : service_step w (MkPlanWorld (pw_db w) k (pw_retry_at w) (pw_draws w)).

Definition service_start (k : K) : W := MkPlanWorld (MkPlanDb [] []) k ∅ 0.

Lemma service_step_ok w w' : db_ok w → service_step w w' → db_ok w'.
Proof.
  intros Hok H. revert Hok. destruct H; intros Hok.
  - unfold in_plans in *. destruct (create_owned _ _ _ _ _ _) as [v s] eqn:E. simplify_eq.
    exact (create_owned_ok _ _ _ _ _ _ _ _ Hok E).
  - unfold in_plans in *. destruct (request_plan_cancel _ _ _) as [v s] eqn:E. simplify_eq.
    eapply request_cancel_plan_ok; [exact Hok|eassumption|exact E].
  - by eapply cycle_plans_ok.
  - done.
Qed.

Lemma service_ok k w : rtc service_step (service_start k) w → db_ok w.
Proof.
  assert (db_ok (service_start k)) as H0.
  { exact empty_plans_ok. }
  intros H. remember (service_start k) as w0 eqn:E. revert H0. clear E.
  induction H as [|w0 w1 w2 Hs _ IH]; [done|]. intros Hok. apply IH. by eapply service_step_ok.
Qed.

(** C8. In every reachable plan service, whatever the kernel answers, a step was
    submitted only after all earlier steps succeeded, what succeeded was run, and a
    plan that succeeded did so with all of its steps. *)
Theorem plans_run_in_order k w plan_id owner_id developer plan :
  rtc service_step (service_start k) w →
  plan_get plan_id owner_id developer (pw_db w) = Ok plan →
  (* a step that was submitted comes after steps that all succeeded *)
  (∀ i j a b, pv_steps plan !! i = Some a → pv_steps plan !! j = Some b → (i < j)%nat →
     is_Some (sp_run_id b) → sp_status a = "succeeded") ∧
  (* what succeeded was run, and a plan succeeded with all of its steps *)
  Forall (λ r, sp_status r = "succeeded" → is_Some (sp_run_id r)) (pv_steps plan) ∧
  (pv_status plan = "succeeded" ∨ pv_execution_valid plan = Some true →
   Forall (λ r, sp_status r = "succeeded") (pv_steps plan)).
Proof.
  intros Hok%service_ok Hg. destruct (plan_get_view _ _ _ _ _ Hg) as (Hid & Hsteps & Hview). split_and!.
  - intros i j a b Ha Hb Hlt Hrun.
    assert (in_view plan_id (pw_db w) a) as [Hina Hpa] by (eapply Hview, list_elem_of_lookup_2, Ha).
    assert (in_view plan_id (pw_db w) b) as [Hinb Hpb] by (eapply Hview, list_elem_of_lookup_2, Hb).
    apply (po_order _ Hok a b); [done|done|congruence| |done].
    assert (sp_ordinal a ≤ sp_ordinal b)%Z as Hle.
    { rewrite Hsteps in Ha, Hb. revert Ha Hb Hlt.
      apply (StronglySorted_lookup (λ r1 r2, sp_ordinal r1 ≤ sp_ordinal r2)%Z), order_by_ordered. }
    assert (sp_ordinal a ≠ sp_ordinal b) as Hne; [|lia]. intros Heq.
    assert (a = b) as ->.
    { eapply (key_inj (λ r, (sp_plan_id r, sp_ordinal r))); [apply (po_ordinals _ Hok)|done..|].
      simpl. congruence. }
    assert (i = j); [|lia]. eapply NoDup_lookup; [|exact Ha|exact Hb].
    eapply NoDup_fmap_1, view_ids; [exact Hok|exact Hg].
  - apply Forall_forall. intros r Hr%Hview. apply (po_run _ Hok). apply Hr.
  - intros Hst. apply Forall_forall. intros r [Hr Hp]%Hview.
    unfold plan_get in Hg. apply bind_Ok in Hg as (p & Hf & Hg). apply of_option_Ok in Hf.
    apply bind_Ok in Hg as (u & _ & Hg). injection Hg as <-. simpl in *.
    apply fetchone_Some in Hf as [Hin Hm]. unfold is_plan in Hm. bool_simpl.
    apply (po_done _ Hok p r Hin Hr); [congruence|].
    destruct Hst as [|Hst]; [done|]. repeat case_bool_decide; done.
Qed.
End service.

(** The plan of the demonstration after [n] cycles. *)
Definition demo_cycles (n : nat) : PlanWorld nat :=
  Nat.iter n (λ w, snd (cycle_plans demo_repr demo_clock 30 w)) demo_plan_world.

Lemma demo_cycles_reachable n :
  rtc (service_step demo_repr demo_clock 30) (service_start 0%nat) (demo_cycles n).
Proof.
  induction n as [|n IH].
  - apply rtc_once. apply (service_create demo_repr demo_clock 30 _ demo_payload (Some "ana") "0a" 100
      (fst demo_created)). unfold in_plans, demo_plan_world, demo_created. simpl.
    by destruct (create_owned demo_repr demo_payload (Some "ana") "0a" 100 (MkPlanDb [] [])).
  - eapply rtc_r; [exact IH|]. change (demo_cycles (S n))
      with (snd (cycle_plans demo_repr demo_clock 30 (demo_cycles n))).
    apply (service_cycle demo_repr demo_clock 30 _
      (fst (cycle_plans demo_repr demo_clock 30 (demo_cycles n)))).
    by destruct (cycle_plans demo_repr demo_clock 30 (demo_cycles n)).
Qed.

Lemma plans_run_in_order_witness : ∃ plan,
  plan_get "plan-1" (Some "ana") false (pw_db (demo_cycles 3)) = Ok plan ∧
  (sp_run_id <$> pv_steps plan) = [Some "plan:plan-1:step:route"; None] ∧
  ∀ i j a b, pv_steps plan !! i = Some a → pv_steps plan !! j = Some b → (i < j)%nat →
    is_Some (sp_run_id b) → sp_status a = "succeeded".
Proof.
  assert (∃ plan, plan_get "plan-1" (Some "ana") false (pw_db (demo_cycles 3)) = Ok plan ∧
    (sp_run_id <$> pv_steps plan) = [Some "plan:plan-1:step:route"; None]) as (plan & Hg & Hr)
    by (vm_compute; eexists; split; reflexivity).
  exists plan. split; [exact Hg|]. split; [exact Hr|].
  exact (proj1 (plans_run_in_order demo_repr demo_clock 30 0%nat (demo_cycles 3) "plan-1"
           (Some "ana") false plan (demo_cycles_reachable 3) Hg)).
Defined.

(** ** Creation *)

Lemma created_sorted plan_id steps :
  StronglySorted (λ r1 r2, sp_ordinal r1 ≤ sp_ordinal r2)%Z (created_rows plan_id steps).
Proof. by apply imap_sorted. Qed.

(** A plan is refused without a trace, or is stored with valid steps that bind
    artifacts of earlier steps only, and its owner reads back exactly those steps in
    order while other users find no plan. *)
Theorem create_plan_spec py_repr payload owner_id hex now s r s' : plans_ok s →
  create_owned py_repr payload owner_id hex now s = (r, s') →
  match r with
  | Err _ => s' = s
  | Ok plan_id =>
      plan_id = plan_id_of py_repr payload hex ∧ PLAN_IDENTIFIER plan_id = true ∧
      ∃ steps plan, get_null "steps" payload = JList steps ∧ (0 < length steps ≤ MAX_STEPS)%nat ∧
        (* every step is well formed and binds artifacts of earlier steps only *)
        (∀ i step, steps !! i = Some step → step_valid (step_id_of <$> take i steps) step) ∧
        (* its owner reads it back, the steps in the order given, nothing run *)
        plan_get plan_id owner_id false s' = Ok plan ∧ pv_status plan = "queued" ∧
        pv_steps plan = created_rows plan_id steps ∧
        (* another user does not, and other plans are as they were *)
        (∀ who, Some who ≠ owner_id →
           plan_get plan_id (Some who) false s' = Err (PlanError "plan not found" 404)) ∧
        (∀ other who dev, other ≠ plan_id → plan_get other who dev s' = plan_get other who dev s)
  end.
Proof.
  intros Hok H. pose proof (create_owned_cases py_repr payload owner_id hex now s Hok) as Hc.
  cbv zeta in Hc. set (plan_id := plan_id_of py_repr payload hex) in *.
  destruct (_validate _ _) as [steps|e] eqn:Hv; [|rewrite Hc in H; by injection H as <- <-].
  destruct (has_row _ _) eqn:Hf; rewrite Hc in H; injection H as <- <-; [done|].
  apply validated_ids in Hv as (Hsteps & Hid & Hlen & _ & Hval).
  rewrite has_row_false in Hf.
  assert (sel (step_of_plan plan_id) (plan_steps s ++ created_rows plan_id steps)
          = created_rows plan_id steps) as Hsel.
  { unfold sel. rewrite List.filter_app. fold (sel (step_of_plan plan_id) (plan_steps s)).
    fold (sel (step_of_plan plan_id) (created_rows plan_id steps)).
    rewrite sel_nothing, sel_everything; [done| |].
    - intros r (i & step & _ & ->)%elem_of_created. by apply bool_decide_eq_true.
    - intros r Hr. apply bool_decide_eq_false. intros Heq.
      destruct (po_parent _ Hok r Hr) as (p & Hin & Hp). specialize (Hf p Hin).
      unfold is_plan in Hf. bool_simpl. congruence. }
  assert (fetchone (is_plan plan_id) (plans s ++ [MkPlanRow plan_id owner_id "queued" None now])
          = Some (MkPlanRow plan_id owner_id "queued" None now)) as Hfetch.
  { change (plans s ++ _) with (ins (MkPlanRow plan_id owner_id "queued" None now) (plans s)).
    rewrite fetchone_ins, (proj2 (fetchone_None _ _) Hf). unfold is_plan. by rewrite bool_decide_true. }
  split_and!; [done|done|]. unfold plan_get. simpl. rewrite Hfetch, Hsel. simpl.
  rewrite (order_by_sorted _ _ (created_sorted plan_id steps)).
  eexists steps, _. split_and!; try done; try apply Hlen.
  - rewrite (bool_decide_true (owner_id = owner_id)), andb_false_r by done. reflexivity.
  - done.
  - done.
  - intros who Hne. rewrite (bool_decide_false (owner_id = Some who)); [done|congruence].
  - intros other who dev Hne. unfold sel. rewrite List.filter_app.
    fold (sel (step_of_plan other) (plan_steps s)).
    fold (sel (step_of_plan other) (created_rows plan_id steps)).
    rewrite (sel_nothing (step_of_plan other) (created_rows _ _)), app_nil_r.
    2: { intros r (i & step & _ & ->)%elem_of_created. apply bool_decide_eq_false. simpl. congruence. }
    change (plans s ++ _) with (ins (MkPlanRow plan_id owner_id "queued" None now) (plans s)).
    rewrite fetchone_ins. destruct (fetchone (is_plan other) (plans s)); [done|].
    unfold is_plan. simpl. by rewrite (bool_decide_false (plan_id = other)) by congruence.
Qed.

Lemma create_plan_spec_witness :
  fst demo_created = Ok "plan-1" ∧
  ∃ plan, plan_get "plan-1" (Some "ana") false (snd demo_created) = Ok plan ∧
    pv_status plan = "queued" ∧
    plan_get "plan-1" (Some "ben") false (snd demo_created) = Err (PlanError "plan not found" 404).
Proof.
  pose proof (create_plan_spec demo_repr demo_payload (Some "ana") "0a" 100 (MkPlanDb [] [])
    (Ok "plan-1") (snd demo_created) empty_plans_ok) as H.
  assert (fst demo_created = Ok "plan-1") as E by (vm_compute; reflexivity).
  destruct H as (_ & _ & steps & plan & _ & _ & _ & Hg & Hs & _ & Hw & _).
  - rewrite <-E. unfold demo_created. by destruct (create_owned demo_repr demo_payload (Some "ana") "0a" 100 (MkPlanDb [] [])).
  - split; [exact E|]. exists plan. split; [exact Hg|]. split; [exact Hs|].
    apply Hw. intros [= Heq].
Defined.
