(* ===== verification/PlanLive.v ===== *)
(** * Plans come to an end

    With a kernel that accepts submissions and whose runs succeed after at most [p]
    polls, a plan of [n] steps has succeeded after [(2 + p) * n + 1] cycles.  A cancellation has no such
    guarantee: [cancellation_lost]. *)

From stdpp Require Import gmap.
From S2P Require Export PlanService.
Open Scope string_scope.
Open Scope list_scope.

Lemma sum_col_nonneg {R} (c : R → Z) t : (∀ r, r ∈ t → 0 ≤ c r)%Z → (0 ≤ sum_col c t)%Z.
Proof.
  unfold sum_col. induction t as [|r t IH]; intros H; simpl; [lia|].
  assert (0 ≤ c r)%Z by (apply H; left).
  assert (0 ≤ foldr (λ r acc, c r + acc)%Z 0%Z t)%Z by (apply IH; intros; apply H; by right). lia.
Qed.

Lemma sum_col_upd {R} (c : R → Z) (P : R → bool) f t :
  (∀ r, r ∈ t → P r = true → c (f r) ≤ c r)%Z → (sum_col c (upd P f t) ≤ sum_col c t)%Z.
Proof.
  unfold sum_col, upd. induction t as [|r t IH]; intros H; csimpl; [lia|].
  assert (c (if P r then f r else r) ≤ c r)%Z by (destruct (P r) eqn:E; [by apply H; [left|]|lia]).
  assert (foldr (λ r acc, c r + acc)%Z 0%Z ((λ r, if P r then f r else r) <$> t)
          ≤ foldr (λ r acc, c r + acc)%Z 0%Z t)%Z by (apply IH; intros; apply H; [by right|done]). lia.
Qed.

Lemma sum_col_upd_by {R} (c : R → Z) (P : R → bool) f t x d :
  (∀ r, r ∈ t → P r = true → c (f r) ≤ c r)%Z → x ∈ t → P x = true → (c (f x) + d ≤ c x)%Z →
  (sum_col c (upd P f t) + d ≤ sum_col c t)%Z.
Proof.
  induction t as [|r t IH]; intros H Hx HP Hlt; [by apply not_elem_of_nil in Hx|].
  pose proof (sum_col_upd c P f t (λ r' Hr', H r' (list_elem_of_further _ _ _ Hr'))) as Hle.
  unfold sum_col, upd in *. csimpl. apply elem_of_cons in Hx as [<- |Hx].
  - rewrite HP. lia.
  - assert (c (if P r then f r else r) ≤ c r)%Z by (destruct (P r) eqn:E; [by apply H; [left|]|lia]).
    assert (foldr (λ r acc, c r + acc)%Z 0%Z ((λ r, if P r then f r else r) <$> t) + d
            ≤ foldr (λ r acc, c r + acc)%Z 0%Z t)%Z; [|lia].
    apply IH; [|done..]. intros; apply H; [by right|done].
Qed.

(** What a kernel remembers: which run it made for which key, and which runs have
    succeeded. *)
Record memory (K : Type) := Memory {
  run_of : string → string → K → Prop;
  ended : string → K → Prop }.
Arguments run_of {K}.
Arguments ended {K}.

Definition remembers {K} (mem : memory K) (k k' : K) : Prop :=
  (∀ key run, run_of mem key run k → run_of mem key run k') ∧ (∀ run, ended mem run k → ended mem run k').

(** The idempotency key of a step. *)
Definition submission_key (plan_id : string) (r : StepRow) : string :=
  "plan:" +:+ plan_id +:+ ":step:" +:+ sp_step_id r.

(** The task of the step is stored as an object, and every binding of it names an earlier
    step of the plan; once the run of that step has succeeded, exactly one of its artifacts
    matches. *)
Definition step_ready {K} `{PlanKernel K} (mem : memory K) (plan_id : string) (s : PlanDb) (r : StepRow) : Prop :=
  ∃ task bs, sp_task_json r = JObj task ∧ sp_bindings_json r = JList bs ∧
    (truthy (get_null "staged_inputs" task) = true →
     ∃ l, py_list (get_null "staged_inputs" task) = Ok l) ∧
    ∀ b, b ∈ bs → ∃ source destination, py_index "from_step" b = Ok (JStr (sp_step_id source)) ∧
      in_view plan_id s source ∧ (sp_ordinal source < sp_ordinal r)%Z ∧ py_index "destination" b = Ok destination ∧
      ∀ run_id (k : K), run_of mem (submission_key plan_id source) run_id k → ended mem run_id k →
        ∃ artifacts k' artifact artifact_id,
        kernel_artifacts run_id k = (Ok artifacts, k') ∧
        filter_result (binding_matches b) artifacts = Ok [artifact] ∧
        py_index "artifact_id" artifact = Ok artifact_id.

(** The kernel accepts every task, answers at once, and reports a run as active at
    most [polls] times before it reports that it succeeded; [pending] bounds the
    reports that are still to come. *)
Record cooperative {K} `{PlanKernel K} (py_repr : json → string) (mem : memory K) (pending : K → Z) (polls : Z)
    : Prop := {
  co_pending : ∀ k, (0 ≤ pending k)%Z;
  co_polls : (0 ≤ polls)%Z;
  co_submit : ∀ task key k, ∃ answer run run_id k',
    kernel_submit task key k = (Ok answer, k') ∧ py_index "run" answer = Ok run ∧
    py_index "run_id" run = Ok run_id ∧ (pending k' ≤ pending k + polls)%Z ∧
    remembers mem k k' ∧ run_of mem key (py_str py_repr run_id) k';
  co_run : ∀ run_id k, ∃ detail status k',
    kernel_run run_id k = (Ok detail, k') ∧ py_index "status" detail = Ok (JStr status) ∧ remembers mem k k' ∧
    (status = "succeeded" ∧ (pending k' ≤ pending k)%Z ∧ ended mem run_id k' ∨
     status ∈ ACTIVE ∧ (pending k' < pending k)%Z);
  co_artifacts : ∀ run_id k answer k', kernel_artifacts run_id k = (answer, k') →
    (pending k' ≤ pending k)%Z ∧ remembers mem k k' }.

Section live.
Context {K : Type} `{HK : PlanKernel K} (py_repr : json → string) (monotonic : nat → Z).
Context (kernel_retry_delay : Z) (plan_id : string).
Context (mem : memory K) (pending : K → Z) (polls : Z) (Hco : cooperative py_repr mem pending polls).
Local Abbreviation W := (PlanWorld K).
Local Abbreviation cycle_plan := (cycle_plan py_repr monotonic kernel_retry_delay plan_id).
Local Abbreviation advance_plan := (advance_plan py_repr plan_id).

(** What a step still needs: a submission and its polls, or a last poll. *)
Definition weight (r : StepRow) : Z :=
  if negb (step_of_plan plan_id r) || negb (unfinished r) then 0
  else match sp_run_id r with Some _ => 1 | None => 2 + polls end.
Definition todo (w : W) : Z := (sum_col weight (plan_steps (pw_db w)) + pending (pw_kernel w))%Z.

Lemma weight_bounds r : (0 ≤ weight r ≤ 2 + polls)%Z.
Proof.
  pose proof (co_polls _ _ _ _ Hco). unfold weight. destruct (_ || _); [lia|]. destruct (sp_run_id r); lia.
Qed.

Lemma todo_nonneg w : (0 ≤ todo w)%Z.
Proof.
  pose proof (co_pending _ _ _ _ Hco (pw_kernel w)). unfold todo.
  pose proof (sum_col_nonneg weight (plan_steps (pw_db w)) (λ r _, proj1 (weight_bounds r))). lia.
Qed.

Lemma todo_steps w owner developer plan : plan_get plan_id owner developer (pw_db w) = Ok plan →
  (todo w ≤ (2 + polls) * Z.of_nat (length (pv_steps plan)) + pending (pw_kernel w))%Z.
Proof.
  intros Hg. destruct (plan_get_view _ _ _ _ _ Hg) as (_ & -> & _).
  rewrite (Permutation_length (order_by_perm sp_ordinal _)). unfold todo, sum_col, sel.
  pose proof (co_polls _ _ _ _ Hco).
  induction (plan_steps (pw_db w)) as [|r t IH]; simpl; [lia|].
  pose proof (weight_bounds r). destruct (step_of_plan plan_id r) eqn:E; simpl; [lia|].
  unfold weight in *. rewrite E. simpl. lia.
Qed.

(** The kernel remembers the run a step has, and that it succeeded if the step has. *)
Definition step_known (k : K) (r : StepRow) : Prop :=
  ∀ run, sp_run_id r = Some run →
    run_of mem (submission_key plan_id r) run k ∧ (sp_status r = "succeeded" → ended mem run k).

(** The plan exists, is not being cancelled, may be tried at once, and its steps can
    be submitted. *)
Definition live (w : W) : Prop :=
  db_ok w ∧ pw_retry_at w !! plan_id = None ∧
  (∃ p, p ∈ plans (pw_db w) ∧ pl_plan_id p = plan_id ∧ pl_status p ≠ "cancel_requested") ∧
  ∀ r, in_view plan_id (pw_db w) r → step_ready mem plan_id (pw_db w) r ∧ step_known (pw_kernel w) r.

Definition finished (w : W) : Prop :=
  ∃ p, p ∈ plans (pw_db w) ∧ pl_plan_id p = plan_id ∧ pl_status p = "succeeded".

Lemma live_get w : live w → ∃ plan, plan_get plan_id None false (pw_db w) = Ok plan ∧
  pv_status plan ≠ "cancel_requested".
Proof.
  intros (Hok & _ & (p & Hp & Hid & Hst) & _). unfold plan_get.
  assert (fetchone (is_plan plan_id) (plans (pw_db w)) = Some p) as ->.
  { rewrite <-Hid. apply (fetchone_unique pl_plan_id); [apply Hok|done]. }
  simpl. by eexists.
Qed.

(** A read that leaves the plans and the retry times alone and asks for no new polls. *)
Definition calm (w w' : W) : Prop :=
  pw_db w' = pw_db w ∧ pw_retry_at w' = pw_retry_at w ∧
  (pending (pw_kernel w') ≤ pending (pw_kernel w))%Z ∧ remembers mem (pw_kernel w) (pw_kernel w').

Lemma remembers_trans k1 k2 k3 : remembers mem k1 k2 → remembers mem k2 k3 → remembers mem k1 k3.
Proof. intros [H1 H2] [H3 H4]. split; auto. Qed.
Lemma known_remembered k k' r : remembers mem k k' → step_known k r → step_known k' r.
Proof. intros [H1 H2] Hk run Hr. destruct (Hk run Hr). auto. Qed.

Lemma calm_refl w : calm w w.
Proof. by split_and!. Qed.
Lemma calm_trans w1 w2 w3 : calm w1 w2 → calm w2 w3 → calm w1 w3.
Proof.
  unfold calm. intros (-> & -> & ? & ?) (-> & -> & ? & ?). split_and!; [done|done|lia|by eapply remembers_trans].
Qed.

Lemma bind_artifact_runs plan b source run_id destination w :
  py_index "from_step" b = Ok (JStr (sp_step_id source)) →
  fetchone (λ x, bool_decide (JStr (sp_step_id x) = JStr (sp_step_id source))) (pv_steps plan) = Some source →
  sp_run_id source = Some run_id → py_index "destination" b = Ok destination →
  (∃ artifacts k' artifact artifact_id,
     kernel_artifacts run_id (pw_kernel w) = (Ok artifacts, k') ∧
     filter_result (binding_matches b) artifacts = Ok [artifact] ∧
     py_index "artifact_id" artifact = Ok artifact_id) →
  ∃ v w', bind_artifact plan b w = (Ok v, w') ∧ calm w w'.
Proof.
  intros Hf Hs Hrun Hd (arts & k' & a & aid & Ek & Ef & Ea). unfold bind_artifact. rewrite bind_run. unfold lift at 1. rewrite Hf.
  rewrite bind_run. unfold lift at 1. rewrite Hs. cbn [of_option]. rewrite bind_run, Hrun. cbn [default from_option id].
  unfold in_kernel at 1. destruct (co_artifacts _ _ _ _ Hco _ _ _ _ Ek). rewrite Ek, bind_run. unfold lift at 1. rewrite Ef.
  rewrite bind_run. unfold lift at 1. rewrite Ea, bind_run. unfold lift at 1. rewrite Hd.
  eexists _, _. split; [reflexivity|]. by split_and!.
Qed.

(** A step of the view is found by its name. *)
Lemma source_found plan source (w : W) : db_ok w → plan_get plan_id None false (pw_db w) = Ok plan →
  in_view plan_id (pw_db w) source →
  fetchone (λ x, bool_decide (JStr (sp_step_id x) = JStr (sp_step_id source))) (pv_steps plan) = Some source.
Proof.
  intros Hok Hg Hv. destruct (plan_get_view _ _ _ _ _ Hg) as (_ & _ & Hview).
  destruct (fetchone _ (pv_steps plan)) as [x|] eqn:E.
  - apply fetchone_Some in E as [[Hx Hp]%Hview E]. destruct Hv as [Hin Hp']. bool_simpl. f_equal.
    injection E as E. eapply step_unique; [exact Hok|done|done|congruence|done].
  - rewrite fetchone_None in E. specialize (E source (proj2 (Hview _) Hv)). by bool_simpl.
Qed.

Lemma task_for_runs plan r w : live w → plan_get plan_id None false (pw_db w) = Ok plan →
  in_view plan_id (pw_db w) r →
  (∀ r', in_view plan_id (pw_db w) r' → (sp_ordinal r' < sp_ordinal r)%Z → sp_status r' = "succeeded") →
  ∃ task w', _task_for plan r w = (Ok task, w') ∧ calm w w'.
Proof.
  intros (Hok & _ & _ & Hr) Hg Hvr Hbef. destruct (proj1 (Hr r Hvr)) as (task & bs & Et & Eb & Hl & Hb).
  assert (∀ w1, calm w w1 → ∃ vs w2, mapM_st (bind_artifact plan) bs w1 = (Ok vs, w2) ∧ calm w w2) as Hm.
  { clear Eb. induction bs as [|b bs IH]; intros w1 Hw1; [by exists [], w1|].
    destruct (Hb b ltac:(left)) as (source & destination & Hf & Hs & Hlt & Hd & Hk).
    pose proof (Hbef source Hs Hlt) as Hdone. destruct (po_run _ Hok source (proj1 Hs) Hdone) as [run_id Hrun].
    destruct (known_remembered _ (pw_kernel w1) _ ltac:(apply Hw1) (proj2 (Hr source Hs)) run_id Hrun) as [Hof Hend].
    destruct (bind_artifact_runs plan b source run_id destination w1 Hf (source_found plan source w Hok Hg Hs) Hrun Hd
      (Hk run_id (pw_kernel w1) Hof (Hend Hdone))) as (v & w2 & E & Hw2).
    destruct (IH (λ b Hin, Hb b (list_elem_of_further _ _ _ Hin)) w2 (calm_trans _ _ _ Hw1 Hw2))
      as (vs & w3 & E' & Hw3).
    exists (v :: vs), w3. simpl. by rewrite bind_run, E, bind_run, E'. }
  unfold _task_for. rewrite Et, bind_run. unfold lift at 1.
  assert (∃ staged, (if truthy (get_null "staged_inputs" task)
    then py_list (get_null "staged_inputs" task) else Ok []) = Ok staged) as [staged ->].
  { destruct (truthy _) eqn:E; [by apply Hl|by eexists]. }
  rewrite bind_run, Eb. cbn [lift py_list]. rewrite bind_run.
  destruct (Hm w (calm_refl w)) as (vs & w2 & -> & Hw2).
  destruct (staged ++ vs); eexists _, _; by split.
Qed.

(** The steps stay submittable and known when one of them is updated. *)
Lemma ready_upd (s s' : PlanDb) k (P : StepRow → bool) f :
  plan_steps s' = upd P f (plan_steps s) →
  (∀ r, sp_plan_id (f r) = sp_plan_id r ∧ sp_step_id (f r) = sp_step_id r ∧
        sp_task_json (f r) = sp_task_json r ∧ sp_bindings_json (f r) = sp_bindings_json r ∧
        sp_ordinal (f r) = sp_ordinal r) →
  (∀ r, in_view plan_id s r → P r = true → step_known k (f r)) →
  (∀ r, in_view plan_id s r → step_ready mem plan_id s r ∧ step_known k r) →
  ∀ r, in_view plan_id s' r → step_ready mem plan_id s' r ∧ step_known k r.
Proof.
  intros Es Hf Hknown Hr r' [Hin Hp]. rewrite Es in Hin. apply elem_of_upd in Hin as (r & Hin & ->).
  assert (∀ x, sp_plan_id (if P x then f x else x) = sp_plan_id x ∧
               sp_step_id (if P x then f x else x) = sp_step_id x ∧
               sp_task_json (if P x then f x else x) = sp_task_json x ∧
               sp_bindings_json (if P x then f x else x) = sp_bindings_json x ∧
               sp_ordinal (if P x then f x else x) = sp_ordinal x) as Hg.
  { intros x. destruct (P x); [apply Hf|done]. }
  destruct (Hg r) as (E1 & E2 & E3 & E4 & E5). rewrite E1 in Hp.
  destruct (Hr r (conj Hin Hp)) as [(task & bs & Et & Eb & Hl & Hb) Hk]. split.
  2: { destruct (P r) eqn:EP; [|done]. by apply Hknown. }
  exists task, bs. rewrite E3, E4, E5. split_and!; [done|done|done|]. intros b Hbin.
  destruct (Hb b Hbin) as (source & destination & H1 & [H2 H2'] & H3 & H4 & H5).
  destruct (Hg source) as (F1 & F2 & _ & _ & F5).
  exists (if P source then f source else source), destination. rewrite F2, F5. split_and!; try done.
  - split; [rewrite Es; apply elem_of_upd; by exists source|by rewrite F1].
  - unfold submission_key. by rewrite F2.
Qed.

(** [UPDATE plans SET status] for a status other than a cancellation. *)
Lemma set_plan_live w status failure : live w → status ≠ "cancel_requested" →
  (status = "succeeded" → all_done plan_id (pw_db w)) →
  ∃ w', in_plans (finish_plan plan_id status failure) w = (Ok tt, w') ∧ live w' ∧
    todo w' = todo w ∧ (status = "succeeded" → finished w').
Proof.
  intros (Hok & Hre & (p & Hp & Hid & Hst) & Hr) Hne Hd.
  unfold finish_plan, _update_plan. rewrite in_plans_run. eexists. split; [reflexivity|].
  assert (plan_with status (stored_failure failure) p ∈
          upd (is_plan plan_id) (plan_with status (stored_failure failure)) (plans (pw_db w))) as Hin.
  { apply elem_of_upd. exists p. split; [done|]. unfold is_plan. by rewrite bool_decide_true. }
  split_and!; [split_and!| |].
  - by apply update_plan_ok.
  - done.
  - by exists (plan_with status (stored_failure failure) p).
  - exact Hr.
  - done.
  - intros ->. by exists (plan_with "succeeded" (stored_failure failure) p).
Qed.

(** A step that is updated never needs more. *)
Lemma weight_upd status failure r :
  (weight (step_with status failure (sp_run_id r) r) ≤ weight r ∨ sp_status r = "succeeded")%Z.
Proof.
  unfold weight, step_of_plan, unfinished. simpl.
  destruct (bool_decide_reflect (sp_status r = "succeeded")); [by right|left].
  destruct (bool_decide (sp_plan_id r = plan_id)); simpl; [|lia].
  pose proof (co_polls _ _ _ _ Hco). case_bool_decide; simpl; destruct (sp_run_id r); lia.
Qed.

Lemma set_step_live w r status failure : live w → in_view plan_id (pw_db w) r →
  sp_status r ≠ "succeeded" → is_Some (sp_run_id r) →
  (status = "succeeded" → ∀ run, sp_run_id r = Some run → ended mem run (pw_kernel w)) →
  ∃ w', in_plans (step_status plan_id (sp_step_id r) status failure) w = (Ok tt, w') ∧ live w' ∧
    pending (pw_kernel w') = pending (pw_kernel w) ∧
    (todo w' ≤ todo w)%Z ∧ (status = "succeeded" → todo w' < todo w)%Z.
Proof.
  intros (Hok & Hre & Hpl & Hr) [Hin Hp] Hn Hrun Hend.
  unfold step_status, _update_step. rewrite in_plans_run. eexists. split; [reflexivity|].
  assert (∀ x, x ∈ plan_steps (pw_db w) → is_step plan_id (sp_step_id r) x = true → x = r) as Huniq.
  { intros x Hx E. unfold is_step, step_of_plan in E. bool_simpl.
    eapply step_unique; [exact Hok|done|done|congruence|done]. }
  split_and!; [split_and!| | |].
  - by eapply update_step_ok.
  - done.
  - done.
  - eapply ready_upd; [done|done| |exact Hr]. intros x [Hx _] Ex run Hx'. rewrite (Huniq x Hx Ex) in *.
    split; [by apply (Hr r (conj Hin Hp))|]. intros Es. by apply Hend.
  - done.
  - unfold todo. simpl. apply Z.add_le_mono_r, sum_col_upd. intros x Hx E.
    rewrite (Huniq x Hx E). by destruct (weight_upd status (stored_failure failure) r).
  - intros ->. unfold todo. simpl. apply Z.add_lt_mono_r, Z.le_succ_l.
    rewrite <-Z.add_1_r. apply (sum_col_upd_by _ _ _ _ r).
    + intros x Hx E. rewrite (Huniq x Hx E). by destruct (weight_upd "succeeded" (stored_failure failure) r).
    + done.
    + unfold is_step, step_of_plan. by rewrite !bool_decide_true.
    + unfold weight, step_of_plan, unfinished. simpl. rewrite (bool_decide_true (sp_plan_id r = _)) by done.
      rewrite (bool_decide_false (sp_status r = _)) by done. simpl.
      destruct (sp_run_id r); [lia|]. by destruct Hrun.
Qed.

Lemma submitted_live w r run_id : live w → in_view plan_id (pw_db w) r →
  sp_status r ≠ "succeeded" → sp_run_id r = None →
  (∀ r', in_view plan_id (pw_db w) r' → (sp_ordinal r' < sp_ordinal r)%Z → sp_status r' = "succeeded") →
  run_of mem (submission_key plan_id r) run_id (pw_kernel w) →
  ∃ w', in_plans (Plan.submitted plan_id (sp_step_id r) run_id) w = (Ok tt, w') ∧ live w' ∧
    (todo w' + polls < todo w)%Z.
Proof.
  intros (Hok & Hre & (p & Hpin & Hid & Hst) & Hr) [Hin Hp] Hn Hrun Hbef Hof.
  destruct (step_submitted_ok plan_id r run_id w Hok (conj Hin Hp) Hn Hbef) as (w1 & E & Hok1).
  exists w1. split; [exact E|]. unfold Plan.submitted in E. rewrite in_plans_run in E.
  injection E as <-.
  assert (∀ x, x ∈ plan_steps (pw_db w) → is_step plan_id (sp_step_id r) x = true → x = r) as Huniq.
  { intros x Hx E. unfold is_step, step_of_plan in E. bool_simpl.
    eapply step_unique; [exact Hok|done|done|congruence|done]. }
  assert (weight (step_with "queued" None (Some run_id) r) + (1 + polls) ≤ weight r)%Z as Hw.
  { unfold weight, step_of_plan, unfinished. simpl. rewrite (bool_decide_true (sp_plan_id r = _)) by done.
    rewrite (bool_decide_false (sp_status r = _)) by done. simpl. rewrite Hrun. lia. }
  pose proof (co_polls _ _ _ _ Hco). split.
  - split_and!; [done|done| |].
    2: { eapply ready_upd; [done|done| |exact Hr]. intros x [Hx _] Ex run [= <-]. by rewrite (Huniq x Hx Ex). }
    exists (plan_with "running" None p). split_and!; [|done|done].
    simpl. apply elem_of_upd. exists p. split; [done|]. unfold is_plan.
    by rewrite bool_decide_true, bool_decide_false.
  - unfold todo. simpl.
    apply (Z.lt_le_trans _ (sum_col weight (upd (is_step plan_id (sp_step_id r))
      (step_with "queued" None (Some run_id)) (plan_steps (pw_db w))) + (1 + polls)
      + pending (pw_kernel w))); [lia|]. apply Z.add_le_mono_r.
    apply (sum_col_upd_by _ _ _ _ r); [|done| |done].
    + intros x Hx E. rewrite (Huniq x Hx E). lia.
    + unfold is_step, step_of_plan. by rewrite !bool_decide_true.
Qed.

Lemma run_status_runs run_id w : ∃ detail status w1,
  run_status py_repr run_id w = (Ok (detail, status), w1) ∧ calm w w1 ∧
  (status = "succeeded" ∧ ended mem run_id (pw_kernel w1) ∨
   status ∈ ACTIVE ∧ (pending (pw_kernel w1) < pending (pw_kernel w))%Z).
Proof.
  destruct (co_run _ _ _ _ Hco run_id (pw_kernel w)) as (detail & status & k' & Ek & Es & Hrem & Hk).
  exists detail, status, (MkPlanWorld (pw_db w) k' (pw_retry_at w) (pw_draws w)).
  unfold run_status. rewrite bind_run. unfold in_kernel at 1. rewrite Ek, bind_run.
  unfold lift at 1. rewrite Es. split; [done|]. split.
  - split_and!; [done|done| |done]. simpl. by destruct Hk as [(_ & ? & _)|[_ ?%Z.lt_le_incl]].
  - destruct Hk as [(-> & _ & ?)|[? ?]]; auto.
Qed.

(** What calm reads keep. *)
Lemma calm_live w w' : calm w w' → live w →
  live w' ∧ (todo w' + (pending (pw_kernel w) - pending (pw_kernel w')) = todo w)%Z.
Proof.
  intros (Hd & Hre & Hp & Hrem) (Hok & Hr & Hpl & Hready). unfold live, db_ok, todo. rewrite Hd, Hre.
  split_and!; [done..| |lia]. intros r Hv. split; [by apply Hready|]. by eapply known_remembered, Hready.
Qed.

(** One transition: all is done, or there is less to do. *)
Lemma advance_live w : live w →
  ∃ w', advance_plan w = (Ok tt, w') ∧ live w' ∧ (finished w → finished w') ∧
    (finished w' ∨ todo w' < todo w)%Z.
Proof.
  intros Hl. destruct (live_get w Hl) as (plan & Hg & Hst). pose proof Hl as (Hok & Hre & Hpl & Hr).
  destruct (plan_get_view _ _ _ _ _ Hg) as (_ & _ & Hview).
  unfold PlanExecutor.advance_plan. rewrite bind_run. cbn [gets id]. rewrite bind_run.
  unfold lift at 1. rewrite Hg, (bool_decide_false (_ = "cancel_requested")) by done.
  destruct (fetchone unfinished (pv_steps plan)) as [x|] eqn:Hx.
  2: { destruct (set_plan_live w "succeeded" None Hl) as (w1 & -> & Hl1 & _ & Hf); [done| |].
       { intros _. by eapply none_unfinished. }
       exists w1. split_and!; auto. }
  destruct (pending_step _ _ _ _ _ _ Hg Hx) as (Hv & Hn & Hb).
  assert (¬ finished w) as Hnf.
  { intros (p & Hp & Hid & Hs). destruct Hv as [Hin Hpid]. apply Hn.
    eapply (po_done _ Hok p x); [done|done|congruence|done]. }
  destruct (sp_run_id x) as [run_id|] eqn:Hrun.
  - destruct (run_status_runs run_id w) as (detail & status & w1 & E & Hc & Hs).
    rewrite bind_run, E. destruct (calm_live _ _ Hc Hl) as [Hl1 Ht1]. destruct Hc as (Hd1 & _ & Hp1 & _).
    rewrite <-Hd1 in Hv. destruct Hs as [[-> Hend] |[Ha Hlt]].
    + rewrite bool_decide_false by (intros Ha; by apply active_not_done in Ha).
      rewrite bool_decide_true by done.
      destruct (set_step_live w1 x "succeeded" None Hl1 Hv Hn ltac:(by rewrite Hrun) ltac:(by intros _ run [= <-]%(eq_trans (eq_sym Hrun))))
        as (w2 & E2 & Hl2 & _ & _ & Hlt). rewrite bind_run, E2.
      destruct (forallb _ _) eqn:Hall.
      * destruct (set_plan_live w2 "succeeded" None Hl2) as (w3 & E3 & Hl3 & Ht3 & Hf); [done| |].
        { intros _. destruct (set_step_ok plan_id x "succeeded" None w1 (proj1 Hl1) Hv Hn)
            as (w2' & E2' & _ & Hdone & _); [by rewrite Hrun|].
          rewrite E2 in E2'. injection E2' as <-. apply Hdone; [done|].
          intros y Hy Hne. rewrite Hd1 in Hy. apply Hview in Hy.
          rewrite forallb_elem in Hall. specialize (Hall y Hy). apply orb_true_iff in Hall.
          rewrite !bool_decide_eq_true in Hall. by destruct Hall. }
        exists w3. split_and!; auto.
      * exists w2. split_and!; [done|done|done|]. right. specialize (Hlt eq_refl). lia.
    + rewrite bool_decide_true by done.
      destruct (set_step_live w1 x status None Hl1 Hv Hn ltac:(by rewrite Hrun) ltac:(by intros ->; apply active_not_done in Ha))
        as (w2 & E2 & Hl2 & _ & Hle & _).
      exists w2. split_and!; [done|done|done|]. right. lia.
  - destruct (task_for_runs plan x w Hl Hg Hv Hb) as (task & w1 & E & Hc). rewrite bind_run, E.
    destruct (calm_live _ _ Hc Hl) as [Hl1 Ht1]. destruct Hc as (Hd1 & _ & Hp1 & _).
    rewrite bind_run. unfold in_kernel at 1.
    destruct (co_submit _ _ _ _ Hco task ("plan:" +:+ plan_id +:+ ":step:" +:+ sp_step_id x) (pw_kernel w1))
      as (answer & run & run_id & k' & -> & Ea & Er & Hk & Hrem & Hof).
    rewrite bind_run. unfold lift at 1. rewrite Ea, bind_run. unfold lift at 1. rewrite Er.
    set (w2 := MkPlanWorld (pw_db w1) k' _ _).
    assert (live w2 ∧ todo w2 ≤ todo w1 + polls)%Z as [Hl2 Ht2].
    { split; [|unfold todo, w2; simpl; lia]. destruct Hl1 as (? & ? & ? & Hready). split_and!; try done.
      intros r Hvr. split; [by apply Hready|]. by eapply known_remembered, Hready. }
    rewrite <-Hd1 in Hv, Hb.
    destruct (submitted_live w2 x (py_str py_repr run_id) Hl2 Hv Hn Hrun Hb Hof) as (w3 & E3 & Hl3 & Ht3).
    rewrite bind_run, E3. eexists. split; [reflexivity|]. split; [|split].
    + destruct Hl3 as (Hok3 & Hre3 & Hrest). split; [exact Hok3|]. split; [|exact Hrest].
      apply lookup_delete_eq.
    + done.
    + right. apply (Z.le_lt_trans _ (todo w3)); [done|lia].
Qed.

Lemma cycle_live w : live w →
  ∃ n w', cycle_plan w = (Ok n, w') ∧ live w' ∧ (finished w → finished w') ∧
    (finished w' ∨ todo w' < todo w)%Z.
Proof.
  intros Hl. unfold PlanExecutor.cycle_plan. rewrite bind_run. cbn [gets id].
  destruct (advance_live w Hl) as (w1 & E & Hl1 & Hf & Hd).
  destruct Hl as (_ & Hre & _). rewrite Hre, bind_run. cbn [mret st_ret].
  exists 1%Z, (MkPlanWorld (pw_db w1) (pw_kernel w1) (delete plan_id (pw_retry_at w1)) (pw_draws w1)).
  split; [|split; [|split; [exact Hf|exact Hd]]].
  - simpl. unfold catch. rewrite bind_run, E, bind_run. reflexivity.
  - destruct Hl1 as (Hok1 & Hre1 & Hrest). split; [exact Hok1|]. split; [|exact Hrest].
    apply lookup_delete_eq.
Qed.
End live.

(** The plan is tried [n] times. *)
Fixpoint plan_cycles {K} `{PlanKernel K} (py_repr : json → string) (monotonic : nat → Z)
    (kernel_retry_delay : Z) (plan_id : string) (n : nat) (w : PlanWorld K) : PlanWorld K :=
  match n with
  | O => w
  | S n => plan_cycles py_repr monotonic kernel_retry_delay plan_id n
             (snd (cycle_plan py_repr monotonic kernel_retry_delay plan_id w))
  end.

(** C9. Take a kernel that answers every call, accepts every task, remembers which run
    it made for which key, and reports a run as active at most p times before it
    reports that it succeeded. A plan that is not being cancelled and waits for no
    retry, whose tasks are objects and whose bindings each name an earlier step and
    match exactly one artifact of the succeeded run of that step, has succeeded, with
    a run for every step, after any number of cycles of this plan above (2 + p) times
    its steps plus the reports the kernel still owes. *)
Theorem plan_completes {K} `{PlanKernel K} py_repr monotonic kernel_retry_delay plan_id
    mem (pending : K → Z) polls w plan n :
  cooperative py_repr mem pending polls → live plan_id mem w →
  plan_get plan_id None false (pw_db w) = Ok plan →
  ((2 + polls) * Z.of_nat (length (pv_steps plan)) + pending (pw_kernel w) < Z.of_nat n)%Z →
  ∃ plan', plan_get plan_id None false
      (pw_db (plan_cycles py_repr monotonic kernel_retry_delay plan_id n w)) = Ok plan' ∧
    pv_execution_valid plan' = Some true ∧
    Forall (λ r, sp_status r = "succeeded" ∧ is_Some (sp_run_id r)) (pv_steps plan').
Proof.
  intros Hco Hl Hg Hn.
  assert (live plan_id mem (plan_cycles py_repr monotonic kernel_retry_delay plan_id n w) ∧
          finished plan_id (plan_cycles py_repr monotonic kernel_retry_delay plan_id n w)) as [Hl' Hf].
  { pose proof (todo_steps py_repr plan_id mem pending polls Hco w _ _ _ Hg) as Ht.
    assert (finished plan_id w ∨ todo plan_id pending polls w < Z.of_nat n)%Z as Hm by (right; lia).
    clear Hg Hn Ht. revert w Hl Hm. induction n as [|n IH]; intros w Hl Hm.
    - split; [done|]. destruct Hm as [|Hm]; [done|].
      pose proof (todo_nonneg py_repr plan_id mem pending polls Hco w). lia.
    - destruct (cycle_live py_repr monotonic kernel_retry_delay plan_id mem pending polls Hco w Hl)
        as (c & w1 & E & Hl1 & Hkeep & Hd). simpl. rewrite E. apply IH; [done|]. simpl.
      destruct Hm as [Hm|Hm]; [auto|]. destruct Hd as [|Hd]; [auto|right; lia]. }
  set (w' := plan_cycles _ _ _ _ _ _) in *. pose proof Hl' as (Hok & _).
  destruct Hf as (p & Hp & Hid & Hs). unfold plan_get.
  assert (fetchone (is_plan plan_id) (plans (pw_db w')) = Some p) as ->.
  { rewrite <-Hid. apply (fetchone_unique pl_plan_id); [apply Hok|done]. }
  simpl. eexists. split; [reflexivity|]. rewrite Hs. split; [done|]. simpl.
  apply Forall_forall. intros r Hr. rewrite elem_of_order_by, elem_of_sel in Hr.
  destruct Hr as [Hr Hrp]. unfold step_of_plan in Hrp. bool_simpl.
  assert (sp_status r = "succeeded") by (by eapply (po_done _ Hok p r); [..|congruence|]).
  split; [done|]. by apply (po_run _ Hok).
Qed.

(** The demonstration kernel names a run after its key. *)
Definition demo_memory : memory nat := Memory nat (λ key run _, run = key) (λ _ _, True).

Lemma demo_cooperative : cooperative (K := nat) demo_repr demo_memory Z.of_nat 1.
Proof.
  constructor.
  - intros k. lia.
  - lia.
  - intros task key k. by eexists _, _, _, (S k); split_and!; [..|lia| |].
  - intros run_id [|k]; eexists _, _, _; (split_and!; [reflexivity|reflexivity|done|]).
    + left. by split.
    + right. split; [by apply (bool_decide_eq_true_1 _)|lia].
  - intros run_id k answer k' [= _ <-]. split; [lia|done].
Qed.

Lemma demo_created_db_ok : plans_ok (snd demo_created).
Proof.
  apply (create_owned_ok demo_repr demo_payload (Some "ana") "0a" 100 (MkPlanDb [] []) (fst demo_created)).
  - exact empty_plans_ok.
  - exact (surjective_pairing demo_created).
Qed.

Lemma demo_live : live "plan-1" demo_memory demo_plan_world.
Proof.
  split; [exact demo_created_db_ok|]. split; [reflexivity|]. split.
  - assert (plans (pw_db demo_plan_world) = [MkPlanRow "plan-1" (Some "ana") "queued" None 100]) as ->
      by (vm_compute; reflexivity).
    eexists. split; [left|]. by split.
  - set (s1 := JObj [("step_id", JStr "route"); ("task", demo_task_json)]).
    set (s2 := JObj [("step_id", JStr "drc"); ("task", demo_task_json);
                     ("bindings", JList [demo_binding])]).
    assert (plan_steps (pw_db demo_plan_world) = [step_row "plan-1" 0 s1; step_row "plan-1" 1 s2]) as Es
      by (vm_compute; reflexivity).
    intros r [Hin _]. rewrite Es in Hin. unfold step_ready, in_view. rewrite Es.
    apply elem_of_cons in Hin as [-> |[-> |?%not_elem_of_nil]%elem_of_cons]; [| |done].
    + split; [|by intros run]. eexists _, []. split_and!; [vm_compute; reflexivity|vm_compute; reflexivity|done|].
      by intros b ?%not_elem_of_nil.
    + split; [|by intros run]. eexists _, _. split_and!; [vm_compute; reflexivity|vm_compute; reflexivity|done|].
      intros b Hb. apply list_elem_of_singleton in Hb as ->.
      exists (step_row "plan-1" 0 s1), (JStr "in/final.gds").
      split_and!; [reflexivity|left|reflexivity|reflexivity|reflexivity|].
      intros run_id k _ _. by eexists _, k, _, (JStr "gds-1").
Qed.

Lemma plan_completes_witness :
  ∃ plan, plan_get "plan-1" None false
      (pw_db (plan_cycles demo_repr demo_clock 30 "plan-1" 7 demo_plan_world)) = Ok plan ∧
    pv_execution_valid plan = Some true ∧
    Forall (λ r, sp_status r = "succeeded" ∧ is_Some (sp_run_id r)) (pv_steps plan).
Proof.
  assert (∃ plan, plan_get "plan-1" None false (pw_db demo_plan_world) = Ok plan ∧
    length (pv_steps plan) = 2%nat) as (plan & Hg & Hlen) by (vm_compute; eexists; split; reflexivity).
  apply (plan_completes demo_repr demo_clock 30 "plan-1" demo_memory Z.of_nat 1 demo_plan_world plan 7
    demo_cooperative demo_live Hg).
  rewrite Hlen. reflexivity.
Defined.

(** ** Cancellation *)

(** When the kernel is out of reach while a plan is being cancelled, the cycle
    overwrites the requested cancellation with retry_wait, so the plan is resumed and
    not cancelled. *)
Theorem cancellation_lost {K} `{PlanKernel K} py_repr monotonic kernel_retry_delay plan_id
    (w : PlanWorld K) plan step run_id message k :
  db_ok w → pw_retry_at w !! plan_id = None →
  plan_get plan_id None false (pw_db w) = Ok plan → pv_status plan = "cancel_requested" →
  fetchone unfinished (pv_steps plan) = Some step → sp_run_id step = Some run_id →
  kernel_cancel run_id (pw_kernel w) = (Err (KernelUnavailable message), k) →
  let '(r, w') := cycle_plan py_repr monotonic kernel_retry_delay plan_id w in
  r = Ok 0%Z ∧
  (∃ plan', plan_get plan_id None false (pw_db w') = Ok plan' ∧
     pv_status plan' = "retry_wait" ∧ pv_steps plan' = pv_steps plan) ∧
  pw_retry_at w' !! plan_id = Some (monotonic (pw_draws w) + kernel_retry_delay)%Z.
Proof.
  intros Hok Hre Hg Hst Hx Hrun Hk.
  assert (advance_plan py_repr plan_id w = (Err (KernelUnavailable message),
    MkPlanWorld (pw_db w) k (pw_retry_at w) (pw_draws w))) as E.
  { unfold advance_plan. rewrite bind_run. cbn [gets id]. rewrite bind_run. unfold lift at 1.
    rewrite Hg, bool_decide_true by done. unfold _cancel. rewrite Hx, Hrun, bind_run.
    unfold in_kernel at 1. by rewrite Hk. }
  unfold cycle_plan. rewrite bind_run. cbn [gets id]. rewrite Hre, bind_run. cbn [mret st_ret].
  simpl. unfold catch. rewrite bind_run, E. simpl.
  split; [done|]. split; [|apply lookup_insert_eq].
  pose proof Hg as Hg'. unfold plan_get in Hg'.
  apply bind_Ok in Hg' as (p & Hf & Hg'). apply of_option_Ok in Hf. injection Hg' as <-.
  apply fetchone_Some in Hf as [Hin Hp]. unfold is_plan in Hp. bool_simpl. unfold plan_get. simpl.
  set (f := plan_with "retry_wait" _).
  assert (fetchone (is_plan plan_id) (upd (is_plan plan_id) f (plans (pw_db w))) = Some (f p)) as ->.
  { assert (pl_plan_id (f p) = plan_id) as Hfp by done. rewrite <-Hfp at 1.
    apply (fetchone_unique pl_plan_id).
    - by rewrite fmap_upd_key by done; apply Hok.
    - apply elem_of_upd. exists p. split; [done|]. unfold is_plan. by rewrite bool_decide_true. }
  simpl. by eexists.
Qed.

(** A kernel that is out of reach while its state is [true]. *)
Definition unreachable {A} (answer : A) : st bool A :=
  λ down, (if down : bool then Err (KernelUnavailable "refused") else Ok answer, down).
Definition demo_flaky_kernel : PlanKernel bool := {|
  kernel_submit := λ _ key, unreachable (JObj [("run", JObj [("run_id", JStr key)])]);
  kernel_run := λ _, unreachable (JObj [("status", JStr "running")]);
  kernel_cancel := λ _, unreachable tt;
  kernel_artifacts := λ _, unreachable [] |}.

Local Abbreviation flaky_cycle :=
  (cycle_plan (H := demo_flaky_kernel) demo_repr demo_clock 30 "plan-1").
Definition demo_submitted : PlanWorld bool :=
  snd (flaky_cycle (MkPlanWorld (snd demo_created) false ∅ 0)).
Definition demo_cancelled : PlanWorld bool :=
  MkPlanWorld (snd (request_plan_cancel id "plan-1" (pw_db demo_submitted))) true ∅ 0.

Lemma demo_cancelled_ok : db_ok demo_cancelled.
Proof.
  apply (request_cancel_plan_ok id "plan-1" (pw_db demo_submitted)
    (fst (request_plan_cancel id "plan-1" (pw_db demo_submitted)))); [|done|apply surjective_pairing].
  apply (cycle_plan_ok (HK := demo_flaky_kernel) demo_repr demo_clock 30 "plan-1"
    (MkPlanWorld (snd demo_created) false ∅ 0)
    (fst (flaky_cycle (MkPlanWorld (snd demo_created) false ∅ 0)))); [|apply surjective_pairing].
  exact demo_created_db_ok.
Qed.

Lemma cancellation_lost_witness :
  ∃ plan, plan_get "plan-1" None false (pw_db demo_cancelled) = Ok plan ∧
    pv_status plan = "cancel_requested" ∧
    ∃ plan', plan_get "plan-1" None false (pw_db (snd (flaky_cycle demo_cancelled))) = Ok plan' ∧ pv_status plan' = "retry_wait".
Proof.
  assert (∃ plan step, plan_get "plan-1" None false (pw_db demo_cancelled) = Ok plan ∧
    pv_status plan = "cancel_requested" ∧ fetchone unfinished (pv_steps plan) = Some step ∧
    sp_run_id step = Some "plan:plan-1:step:route") as (plan & step & Hg & Hst & Hx & Hrun)
    by (vm_compute; do 2 eexists; split_and!; reflexivity).
  pose proof (cancellation_lost (H := demo_flaky_kernel) demo_repr demo_clock 30 "plan-1"
    demo_cancelled plan step "plan:plan-1:step:route" "refused" true demo_cancelled_ok eq_refl Hg Hst Hx Hrun eq_refl) as H.
  exists plan. split; [exact Hg|]. split; [exact Hst|].
  destruct (flaky_cycle demo_cancelled) as [r w']. destruct H as (_ & (plan' & Hg' & Hs' & _) & _).
  exists plan'. by split.
Defined.
