(* ===== verification/Identity.v ===== *)
(** * core/identity: users, sessions, resource owners and allowances

    [IdentityStore] as four tables.  SHA-256 of a token and the PBKDF2 derivation are
    parameters; the state also counts the iterations derived so far, which is what
    the equal cost of a login is about.  Random draws and the clock are arguments. *)

From stdpp Require Import gmap.
From S2P Require Export Sql Progress.
Open Scope string_scope.
Open Scope list_scope.

(** [USERNAME.fullmatch] *)
Definition USERNAME (s : string) : bool :=
  match s with
  | EmptyString => false
  | String c s' =>
      is_alnum c && str_forall (λ d, is_alnum d || one_of "_.-" d) s'
      && (2 <=? String.length s')%nat && (String.length s' <=? 31)%nat
  end.

Definition PBKDF2_ITERATIONS : Z := 310000.
(** A week, in microseconds. *)
Definition SESSION_SECONDS : Z := 7 * 24 * 3600 * 1000000.
Definition _DUMMY_SALT : string := "openroad-platform".
Definition MIN_PASSWORD_LENGTH : nat := 8.
Definition MAX_PASSWORD_LENGTH : nat := 256.

(** ** The tables *)

Record UserRow := MkUserRow {
  u_user_id : string;
  u_username : string;
  u_password_salt : string;
  u_password_hash : string;
  u_password_iterations : Z;
  u_role : string;
  u_created_at : Z }.

Record SessionRow := MkSessionRow {
  ss_token_hash : string;
  ss_session_id : string;
  ss_user_id : string;
  ss_created_at : Z;
  ss_expires_at : Z;
  ss_last_seen_at : Z }.

Record OwnerRow := MkOwnerRow {
  ow_resource_type : string;
  ow_resource_id : string;
  ow_user_id : string;
  ow_created_at : Z }.

Record UsageRow := MkUsageRow {
  us_user_id : string;
  us_feature : string;
  us_window_id : Z;
  us_usage_count : Z;
  us_updated_at : Z }.

Record IdentityDb := MkIdentityDb {
  id_users : list UserRow;
  id_sessions : list SessionRow;
  id_owners : list OwnerRow;
  id_usage : list UsageRow;
  (* PBKDF2 iterations spent so far *)
  id_work : Z }.

Definition on_users f (s : IdentityDb) : IdentityDb :=
  MkIdentityDb (f (id_users s)) (id_sessions s) (id_owners s) (id_usage s) (id_work s).
Definition on_sessions f (s : IdentityDb) : IdentityDb :=
  MkIdentityDb (id_users s) (f (id_sessions s)) (id_owners s) (id_usage s) (id_work s).
Definition on_owners f (s : IdentityDb) : IdentityDb :=
  MkIdentityDb (id_users s) (id_sessions s) (f (id_owners s)) (id_usage s) (id_work s).
Definition on_usage f (s : IdentityDb) : IdentityDb :=
  MkIdentityDb (id_users s) (id_sessions s) (id_owners s) (f (id_usage s)) (id_work s).
Definition spend (n : Z) (s : IdentityDb) : IdentityDb :=
  MkIdentityDb (id_users s) (id_sessions s) (id_owners s) (id_usage s) (id_work s + n).

Definition is_user (user_id : string) (r : UserRow) : bool := bool_decide (u_user_id r = user_id).
(** [username = ? COLLATE NOCASE] *)
Definition named (username : string) (r : UserRow) : bool :=
  bool_decide (lower (u_username r) = lower username).
Definition has_token (token_hash : string) (r : SessionRow) : bool :=
  bool_decide (ss_token_hash r = token_hash).
Definition is_resource (resource_type resource_id : string) (r : OwnerRow) : bool :=
  bool_decide (ow_resource_type r = resource_type) && bool_decide (ow_resource_id r = resource_id).
Definition is_usage (user_id feature : string) (window_id : Z) (r : UsageRow) : bool :=
  bool_decide (us_user_id r = user_id) && bool_decide (us_feature r = feature)
  && bool_decide (us_window_id r = window_id).

(** The INSERTs with the constraints of the schema. *)
Definition insert_user (r : UserRow) : st IdentityDb unit := λ s,
  if has_row (λ r', is_user (u_user_id r) r' || named (u_username r) r') (id_users s)
  then (Err (IntegrityError "identity_users"), s) else (Ok tt, on_users (ins r) s).
Definition insert_session (r : SessionRow) : st IdentityDb unit := λ s,
  if has_row (λ r', has_token (ss_token_hash r) r'
                    || bool_decide (ss_session_id r' = ss_session_id r)) (id_sessions s)
     || negb (has_row (is_user (ss_user_id r)) (id_users s))
  then (Err (IntegrityError "identity_sessions"), s) else (Ok tt, on_sessions (ins r) s).
Definition insert_owner (r : OwnerRow) : st IdentityDb unit := λ s,
  if has_row (is_resource (ow_resource_type r) (ow_resource_id r)) (id_owners s)
     || negb (has_row (is_user (ow_user_id r)) (id_users s))
  then (Err (IntegrityError "identity_resource_owners"), s) else (Ok tt, on_owners (ins r) s).

(** ** Sessions as the API sees them *)

Record AuthSession := MkAuthSession {
  as_user_id : string;
  as_username : string;
  as_developer : bool;
  as_session_id : string }.

#[export] Instance auth_session_eq_dec : EqDecision AuthSession.
Proof. solve_decision. Defined.

Definition public (a : AuthSession) : dict :=
  [("authenticated", JBool true);
   ("user", JObj [("id", JStr (as_user_id a)); ("username", JStr (as_username a));
                  ("role", JStr (if as_developer a then "developer" else "member"))]);
   ("developer", JBool (as_developer a));
   ("session_id", JStr (as_session_id a))].

(** ** Checks *)

Definition _username (value : string) : result string :=
  let username := strip value in
  raise_when (negb (USERNAME username)) (ValueError "Username");;
  Ok username.

Definition _password (value : string) : result unit :=
  raise_when (negb ((MIN_PASSWORD_LENGTH <=? String.length value)%nat
                    && (String.length value <=? MAX_PASSWORD_LENGTH)%nat))
             (ValueError "Password").

Definition _resource_type (value : string) : result unit :=
  raise_when (str_empty value || (64 <? String.length value)%nat) (ValueError "resource_type").

Section identity.
Context (sha256 : string → string) (pbkdf2 : string → string → Z → string).

Definition _token_hash (token : string) : string := sha256 token.

Definition _derive (password salt : string) (iterations : Z) : st IdentityDb string :=
  modify (spend iterations);; mret (pbkdf2 password salt iterations).

Definition _dummy_password_check (password : string) : st IdentityDb unit :=
  _derive password _DUMMY_SALT PBKDF2_ITERATIONS;; mret tt.

(** What is drawn for a session: the token, the hex of its id, the time. *)
Definition draws : Type := string * string * Z.

Definition _new_session (user_id username : string) (developer : bool) (d : draws)
    : st IdentityDb (AuthSession * string) :=
  let '(token, hex, now) := d in
  let session_id := "session-" +:+ hex in
  transaction (insert_session (MkSessionRow (_token_hash token) session_id user_id now
                                            (now + SESSION_SECONDS) now));;
  mret (MkAuthSession user_id username developer session_id, token).

Definition is_unique_error (e : exn) : bool :=
  match e with IntegrityError _ => true | _ => false end.

(** ** Accounts *)

Definition account (user_id normalized salt digest : string) (first_user : bool) (now : Z) : UserRow :=
  MkUserRow user_id normalized salt digest PBKDF2_ITERATIONS
            (if first_user then "developer" else "member") now.

(** The transaction of [register]: whether the account is the first one. *)
Definition add_account (user_id normalized salt digest : string) (now : Z) : st IdentityDb bool :=
  transaction (
    s ← gets id;
    let first_user := bool_decide (length (id_users s) = 0%nat) in
    catch (insert_user (account user_id normalized salt digest first_user now))
          is_unique_error (λ _, raise (ValueError "Username is already registered"));;
    mret first_user).

Definition register (username password : string) (salt hex : string) (now : Z) (d : draws)
    : st IdentityDb (AuthSession * string) :=
  normalized ← lift (_username username);
  lift (_password password);;
  digest ← _derive password salt PBKDF2_ITERATIONS;
  let user_id := "user-" +:+ hex in
  first_user ← add_account user_id normalized salt digest now;
  _new_session user_id normalized first_user d.

Definition login (username password : string) (d : draws) : st IdentityDb (AuthSession * string) :=
  normalized ← lift (_username username);
  s ← gets id;
  match fetchone (named normalized) (id_users s) with
  | None =>
      _dummy_password_check password;;
      raise (ValueError "Invalid username or password")
  | Some row =>
      candidate ← _derive password (u_password_salt row) (u_password_iterations row);
      if negb (bool_decide (candidate = u_password_hash row))
      then raise (ValueError "Invalid username or password")
      else _new_session (u_user_id row) (u_username row)
                        (bool_decide (u_role row = "developer")) d
  end.

Definition resolve (token : string) (now : Z) : st IdentityDb (option AuthSession) :=
  if str_empty token then mret None
  else
    let token_hash := _token_hash token in
    s ← gets id;
    let row := session ← fetchone (has_token token_hash) (id_sessions s);
               user ← fetchone (is_user (ss_user_id session)) (id_users s);
               Some (session, user) in
    match row with
    | None => mret None
    | Some (session, user) =>
        if (ss_expires_at session <=? now)%Z then
          modify (on_sessions (del (has_token token_hash)));; mret None
        else
          modify (on_sessions (upd (has_token token_hash) (λ r,
            MkSessionRow (ss_token_hash r) (ss_session_id r) (ss_user_id r) (ss_created_at r)
                         (ss_expires_at r) now)));;
          mret (Some (MkAuthSession (ss_user_id session) (u_username user)
                        (bool_decide (u_role user = "developer")) (ss_session_id session)))
    end.

Definition logout (token : string) : st IdentityDb unit :=
  if str_empty token then mret tt
  else modify (on_sessions (del (has_token (_token_hash token)))).

Definition ensure_local_user (hex : string) (now : Z) : st IdentityDb bool :=
  s ← gets id;
  if has_row (named "local-user") (id_users s) then mret false
  else
    transaction (insert_user (MkUserRow ("user-" +:+ hex) "local-user" EmptyString EmptyString
                                        PBKDF2_ITERATIONS "developer" now));;
    mret true.

Definition has_user (user_id : string) (s : IdentityDb) : bool := has_row (is_user user_id) (id_users s).

(** [list_users]: no salt, no hash. *)
Definition list_users (s : IdentityDb) : list dict :=
  (λ r, [("user_id", JStr (u_user_id r)); ("username", JStr (u_username r));
         ("role", JStr (u_role r)); ("created_at", JInt (u_created_at r))])
  <$> order_by u_created_at (id_users s).

(** ** Resource ownership *)

Definition owner_of (resource_type resource_id : string) (s : IdentityDb) : option string :=
  ow_user_id <$> fetchone (is_resource resource_type resource_id) (id_owners s).

Definition bind_resource (resource_type resource_id user_id : string) (now : Z)
    : st IdentityDb unit :=
  lift (_resource_type resource_type);;
  lift (raise_when (str_empty resource_id) (ValueError "resource_id is required"));;
  s ← gets id;
  match owner_of resource_type resource_id s with
  | Some owner =>
      lift (raise_when (negb (bool_decide (owner = user_id)))
                       (ValueError "already owned by another user"))
  | None => transaction (insert_owner (MkOwnerRow resource_type resource_id user_id now))
  end.

Definition owns_resource (resource_type resource_id user_id : string) (developer_all : bool)
    (s : IdentityDb) : bool :=
  match owner_of resource_type resource_id s with
  | None => true
  | Some owner =>
      bool_decide (owner = user_id)
      || developer_all
         && match fetchone (is_user user_id) (id_users s) with
            | Some row => bool_decide (u_role row = "developer")
            | None => false
            end
  end.

Definition resources_owned (resource_type user_id : string) (s : IdentityDb) : list string :=
  ow_resource_id <$> sel (λ r, bool_decide (ow_resource_type r = resource_type)
                               && bool_decide (ow_user_id r = user_id)) (id_owners s).

(** ** Allowances *)

Definition consume_allowance (user_id feature : string) (limit window_seconds now : Z)
    : st IdentityDb (bool * Z) :=
  lift (raise_when ((limit <? 1)%Z || (window_seconds <? 60)%Z) (ValueError "invalid allowance"));;
  let window_id := (now / (window_seconds * 1000000))%Z in
  transaction (
    s ← gets id;
    let row := fetchone (is_usage user_id feature window_id) (id_usage s) in
    let used := match row with Some r => us_usage_count r | None => 0%Z end in
    if (limit <=? used)%Z then mret (false, 0%Z)
    else
      (match row with
       | Some _ =>
           modify (on_usage (upd (is_usage user_id feature window_id) (λ r,
             MkUsageRow (us_user_id r) (us_feature r) (us_window_id r)
                        (us_usage_count r + 1) now)))
       | None =>
           lift (raise_when (negb (has_user user_id s)) (IntegrityError "identity_feature_usage"));;
           modify (on_usage (ins (MkUsageRow user_id feature window_id 1 now)))
       end);;
      mret (true, limit - used - 1)%Z).
End identity.
