(* ===== verification/IdentityProps.v ===== *)
(** * What the identity store promises

    [identity_op] is one call of the store; the theorems are about arbitrary lists of
    calls. *)

From stdpp Require Import gmap.
From S2P Require Export Identity.
Open Scope string_scope.
Open Scope list_scope.

Definition resource_key (r : OwnerRow) : string * string := (ow_resource_type r, ow_resource_id r).
Definition usage_key (r : UsageRow) : string * string * Z :=
  (us_user_id r, us_feature r, us_window_id r).
Definition folded (r : UserRow) : string := lower (u_username r).

Record identity_ok (s : IdentityDb) : Prop := {
  io_users : NoDup (u_user_id <$> id_users s);
  (* names are unique whatever their case *)
  io_names : NoDup (folded <$> id_users s);
  io_iterations : ∀ u, u ∈ id_users s → u_password_iterations u = PBKDF2_ITERATIONS;
  (* the first account is a developer, and nobody else but the local user *)
  io_first : ∀ u, head (id_users s) = Some u → u_role u = "developer";
  io_developers : ∀ u, u ∈ id_users s → u_role u = "developer" →
    head (id_users s) = Some u ∨ folded u = "local-user";
  io_tokens : NoDup (ss_token_hash <$> id_sessions s);
  io_session_ids : NoDup (ss_session_id <$> id_sessions s);
  io_session_user : ∀ r, r ∈ id_sessions s → has_user (ss_user_id r) s = true;
  io_expiry : ∀ r, r ∈ id_sessions s → ss_expires_at r = (ss_created_at r + SESSION_SECONDS)%Z;
  io_owners : NoDup (resource_key <$> id_owners s);
  io_owner_user : ∀ r, r ∈ id_owners s → has_user (ow_user_id r) s = true;
  io_usage : NoDup (usage_key <$> id_usage s);
  io_usage_user : ∀ r, r ∈ id_usage s → has_user (us_user_id r) s = true;
  io_usage_count : ∀ r, r ∈ id_usage s → (1 ≤ us_usage_count r)%Z }.

Definition empty_identity : IdentityDb := MkIdentityDb [] [] [] [] 0.

Lemma empty_identity_ok : identity_ok empty_identity.
Proof.
  constructor; csimpl; try apply NoDup_nil_2; try done; intros ? Hin; by apply not_elem_of_nil in Hin.
Qed.

(** ** The four ways the tables change *)

Lemma has_user_ins user_id r s : has_user user_id s = true → has_user user_id (on_users (ins r) s) = true.
Proof.
  unfold has_user. rewrite !has_row_true. intros (u & Hu & E). exists u. split; [|done].
  simpl. apply elem_of_ins. by left.
Qed.

Lemma spend_ok n s : identity_ok s → identity_ok (spend n s).
Proof. by intros []; constructor. Qed.

Lemma insert_user_ok r s u s' : identity_ok s → insert_user r s = (Ok u, s') →
  u_password_iterations r = PBKDF2_ITERATIONS →
  (id_users s = [] → u_role r = "developer") →
  (u_role r = "developer" → id_users s = [] ∨ folded r = "local-user") →
  identity_ok s' ∧ s' = on_users (ins r) s.
Proof.
  intros [] H Hi Hf Hd. unfold insert_user in H. destruct (has_row _ _) eqn:E; [done|].
  injection H as _ <-. split; [|done]. rewrite has_row_false in E.
  assert (∀ u, u ∈ id_users s → u_user_id u ≠ u_user_id r ∧ folded u ≠ folded r) as Hnew.
  { intros x Hx. specialize (E x Hx). unfold is_user, named in E. bool_simpl. done. }
  constructor; simpl; try done.
  - apply NoDup_fmap_ins; [done|]. intros x Hx. by apply Hnew.
  - apply NoDup_fmap_ins; [done|]. intros x Hx. by apply Hnew.
  - intros x [Hx| ->]%elem_of_ins; auto.
  - unfold ins. destruct (id_users s) as [|x t]; simpl; [by intros ? [= <-]; apply Hf|done].
  - intros x [Hx| ->]%elem_of_ins Hr.
    + destruct (io_developers0 x Hx Hr) as [Hh|]; [left|by right].
      unfold ins. by destruct (id_users s).
    + destruct (Hd Hr) as [He|]; [left|by right]. unfold ins. by rewrite He.
  - intros x Hx. by apply has_user_ins, io_session_user0.
  - intros x Hx. by apply has_user_ins, io_owner_user0.
  - intros x Hx. by apply has_user_ins, io_usage_user0.
Qed.

Lemma insert_session_ok r s u s' : identity_ok s → insert_session r s = (Ok u, s') →
  ss_expires_at r = (ss_created_at r + SESSION_SECONDS)%Z →
  identity_ok s' ∧ s' = on_sessions (ins r) s ∧
  (∀ x, x ∈ id_sessions s → ss_token_hash x ≠ ss_token_hash r).
Proof.
  intros [] H He. unfold insert_session in H. destruct (has_row _ _ || _) eqn:E; [done|].
  injection H as _ <-. apply orb_false_iff in E as [E Hu]. rewrite has_row_false in E.
  rewrite negb_false_iff in Hu.
  assert (∀ x, x ∈ id_sessions s → ss_token_hash x ≠ ss_token_hash r ∧
    ss_session_id x ≠ ss_session_id r) as Hnew.
  { intros x Hx. specialize (E x Hx). unfold has_token in E. bool_simpl. done. }
  split; [|split; [done|by intros x Hx; apply Hnew]]. constructor; simpl; try done.
  - apply NoDup_fmap_ins; [done|]. intros x Hx. by apply Hnew.
  - apply NoDup_fmap_ins; [done|]. intros x Hx. by apply Hnew.
  - intros x [Hx| ->]%elem_of_ins; [exact (io_session_user0 x Hx)|exact Hu].
  - intros x [Hx| ->]%elem_of_ins; auto.
Qed.

Lemma insert_owner_ok r s u s' : identity_ok s → insert_owner r s = (Ok u, s') →
  identity_ok s' ∧ s' = on_owners (ins r) s.
Proof.
  intros [] H. unfold insert_owner in H. destruct (has_row _ _ || _) eqn:E; [done|].
  injection H as _ <-. apply orb_false_iff in E as [E Hu]. rewrite has_row_false in E.
  rewrite negb_false_iff in Hu. split; [|done]. constructor; simpl; try done.
  - apply NoDup_fmap_ins; [done|]. intros x Hx. specialize (E x Hx).
    unfold is_resource, resource_key in *. intros [= H1 H2].
    apply andb_false_iff in E. rewrite !bool_decide_eq_false in E. by destruct E.
  - intros x [Hx| ->]%elem_of_ins; [exact (io_owner_user0 x Hx)|exact Hu].
Qed.

Lemma del_sessions_ok P s : identity_ok s → identity_ok (on_sessions (del P) s).
Proof.
  intros []. constructor; simpl; try done; try by apply NoDup_fmap_del.
  - intros x [Hx _]%elem_of_del. exact (io_session_user0 x Hx).
  - intros x [Hx _]%elem_of_del. exact (io_expiry0 x Hx).
Qed.

Lemma seen_ok P f s : identity_ok s →
  (∀ r, ss_token_hash (f r) = ss_token_hash r ∧ ss_session_id (f r) = ss_session_id r ∧
        ss_user_id (f r) = ss_user_id r ∧ ss_created_at (f r) = ss_created_at r ∧
        ss_expires_at (f r) = ss_expires_at r) →
  identity_ok (on_sessions (upd P f) s).
Proof.
  intros [] Hf. constructor; simpl; try done.
  - rewrite fmap_upd_key; [done|]. intros. apply Hf.
  - rewrite fmap_upd_key; [done|]. intros. apply Hf.
  - intros x (r & Hr & ->)%elem_of_upd. destruct (P r); [|by apply io_session_user0].
    destruct (Hf r) as (_ & _ & -> & _). by apply io_session_user0.
  - intros x (r & Hr & ->)%elem_of_upd. destruct (P r); [|by apply io_expiry0].
    destruct (Hf r) as (_ & _ & _ & -> & ->). by apply io_expiry0.
Qed.

(** ** One call *)

Section calls.
Context (sha256 : string → string) (pbkdf2 : string → string → Z → string).

Inductive identity_op :=
| Register (username password salt hex : string) (now : Z) (d : draws)
| Login (username password : string) (d : draws)
| Resolve (token : string) (now : Z)
| Logout (token : string)
| EnsureLocalUser (hex : string) (now : Z)
| BindResource (resource_type resource_id user_id : string) (now : Z)
| ConsumeAllowance (user_id feature : string) (limit window_seconds now : Z).

Definition run_op (op : identity_op) (s : IdentityDb) : IdentityDb :=
  match op with
  | Register username password salt hex now d =>
      snd (register sha256 pbkdf2 username password salt hex now d s)
  | Login username password d => snd (login sha256 pbkdf2 username password d s)
  | Resolve token now => snd (resolve sha256 token now s)
  | Logout token => snd (logout sha256 token s)
  | EnsureLocalUser hex now => snd (ensure_local_user hex now s)
  | BindResource resource_type resource_id user_id now =>
      snd (bind_resource resource_type resource_id user_id now s)
  | ConsumeAllowance user_id feature limit window_seconds now =>
      snd (consume_allowance user_id feature limit window_seconds now s)
  end.
Definition run_ops (ops : list identity_op) (s : IdentityDb) : IdentityDb :=
  fold_left (λ s op, run_op op s) ops s.

(** What a call may do to the rest of the store. *)
Record extends (s s' : IdentityDb) : Prop := {
  ex_users : id_users s `prefix_of` id_users s';
  ex_owners : id_owners s `prefix_of` id_owners s' }.

#[export] Instance extends_preorder : PreOrder extends.
Proof.
  split; [by intros s; constructor|]. intros s1 s2 s3 [] []. constructor; by etrans.
Qed.

Lemma extends_same s s' : id_users s' = id_users s → id_owners s' = id_owners s → extends s s'.
Proof. intros H1 H2. constructor; by rewrite ?H1, ?H2. Qed.

(** The effect of [_new_session]. *)
Lemma new_session_run user_id username developer d s : identity_ok s →
  let '(r, s') := _new_session sha256 user_id username developer d s in
  (r = Err (IntegrityError "identity_sessions") ∧ s' = s) ∨
  ∃ row, row = MkSessionRow (sha256 (fst (fst d))) ("session-" +:+ snd (fst d)) user_id (snd d)
                            (snd d + SESSION_SECONDS) (snd d) ∧
    r = Ok (MkAuthSession user_id username developer (ss_session_id row), fst (fst d)) ∧
    s' = on_sessions (ins row) s ∧ identity_ok s' ∧ has_user user_id s = true ∧
    (∀ x, x ∈ id_sessions s → ss_token_hash x ≠ ss_token_hash row).
Proof.
  intros Hok. destruct d as [[token hex] now]. unfold _new_session, _token_hash.
  set (row := MkSessionRow _ _ _ _ _ _). rewrite bind_run. unfold transaction.
  destruct (insert_session row s) as [[[]|e] s1] eqn:E.
  2: { left. unfold insert_session in E. destruct (has_row _ _ || _); [|done]. by injection E as <- _. }
  right. exists row. pose proof E as E'. apply insert_session_ok in E' as (Hok' & -> & Hnew); [|done|done].
  split_and!; try done. unfold insert_session in E.
  destruct (has_row _ _ || _) eqn:Eb; [done|]. apply orb_false_iff in Eb as [_ Eb].
  by apply negb_false_iff in Eb.
Qed.

Lemma resolve_run token now s : identity_ok s →
  let '(r, s') := resolve sha256 token now s in
  match (session ← fetchone (has_token (sha256 token)) (id_sessions s);
         user ← fetchone (is_user (ss_user_id session)) (id_users s); Some (session, user)) with
  | Some (session, user) =>
      if str_empty token then r = Ok None ∧ s' = s
      else if (ss_expires_at session <=? now)%Z
      then r = Ok None ∧ s' = on_sessions (del (has_token (sha256 token))) s
      else r = Ok (Some (MkAuthSession (ss_user_id session) (u_username user)
                           (bool_decide (u_role user = "developer")) (ss_session_id session))) ∧
           s' = on_sessions (upd (has_token (sha256 token)) (λ r,
             MkSessionRow (ss_token_hash r) (ss_session_id r) (ss_user_id r) (ss_created_at r)
                          (ss_expires_at r) now)) s
  | None => r = Ok None ∧ s' = s
  end.
Proof.
  intros Hok. unfold resolve, _token_hash. destruct (str_empty token).
  { simpl. by destruct (_ ≫= _) as [[]|]. }
  rewrite bind_run. cbn [gets id].
  destruct (_ ≫= _) as [[session user]|]; [|done]. by destruct (_ <=? _)%Z.
Qed.

Lemma add_account_run user_id n salt digest now s : identity_ok s →
  let first := bool_decide (length (id_users s) = 0%nat) in
  let '(r, s') := add_account user_id n salt digest now s in
  (∃ e, r = Err e ∧ s' = s) ∨
  (r = Ok first ∧ identity_ok s' ∧ s' = on_users (ins (account user_id n salt digest first now)) s).
Proof.
  intros Hok first. unfold add_account, transaction. rewrite bind_run. cbn [gets id]. fold first.
  set (u := account _ _ _ _ _ _). rewrite bind_run. unfold catch.
  destruct (insert_user u s) as [[[]|e] s1] eqn:Ei.
  - right. apply insert_user_ok in Ei as [Hok1 ->]; [by split_and!|done|done| |].
    + intros He. subst u first. simpl. by rewrite He.
    + intros Hr. left. subst u first. simpl in *. case_bool_decide as Hl; [|done].
      by apply length_zero_iff_nil in Hl.
  - destruct (is_unique_error e); left; eauto.
Qed.

(** [register] up to the session: refused, or the account is there. *)
Lemma register_run username password salt hex now d s : identity_ok s →
  let m := register sha256 pbkdf2 username password salt hex now d s in
  (∃ e n, m = (Err e, spend n s)) ∨
  ∃ n first, _username username = Ok n ∧ first = bool_decide (length (id_users s) = 0%nat) ∧
    let u := account ("user-" +:+ hex) n salt (pbkdf2 password salt PBKDF2_ITERATIONS) first now in
    let s1 := on_users (ins u) (spend PBKDF2_ITERATIONS s) in
    identity_ok s1 ∧ m = _new_session sha256 (u_user_id u) n first d s1.
Proof.
  intros Hok m. assert (∀ t, t = spend 0 t) as H0 by (intros []; unfold spend; simpl; by rewrite Z.add_0_r).
  assert (m = m) as Em by done. unfold m at 2, register in Em. clearbody m.
  rewrite bind_run in Em. unfold lift at 1 in Em.
  destruct (_username username) as [n|e] eqn:En; [|left; exists e, 0%Z; by rewrite <-H0].
  rewrite bind_run in Em. unfold lift at 1 in Em.
  destruct (_password password) as [[]|e]; [|left; exists e, 0%Z; by rewrite <-H0].
  rewrite bind_run in Em. unfold _derive at 1 in Em. rewrite bind_run in Em.
  cbn [modify mret st_ret] in Em. rewrite bind_run in Em.
  set (s0 := spend PBKDF2_ITERATIONS s) in *. assert (identity_ok s0) as Hok0 by by apply spend_ok.
  pose proof (add_account_run ("user-" +:+ hex) n salt (pbkdf2 password salt PBKDF2_ITERATIONS) now s0 Hok0) as Ha.
  cbv zeta in Ha. destruct (add_account _ _ _ _ _ s0) as [r s1].
  destruct Ha as [(e & -> & ->)|(-> & Hok1 & ->)].
  - left. by exists e, PBKDF2_ITERATIONS.
  - right. by eexists n, _.
Qed.

Lemma ensure_local_user_run hex now s : identity_ok s →
  let '(r, s') := ensure_local_user hex now s in
  s' = s ∨ ∃ u, folded u = "local-user" ∧ s' = on_users (ins u) s ∧ identity_ok s'.
Proof.
  intros Hok. unfold ensure_local_user. rewrite bind_run. cbn [gets id].
  destruct (has_row _ _); [by left|]. rewrite bind_run. unfold transaction.
  destruct (insert_user _ s) as [[[]|e] s1] eqn:E; [|by left]. right.
  apply insert_user_ok in E as [Hok1 ->]; [|done|done|done|by right].
  eexists. split; [|split; [reflexivity|exact Hok1]]. done.
Qed.

Lemma bind_resource_run ty rid user_id now s : identity_ok s →
  let '(r, s') := bind_resource ty rid user_id now s in
  (s' = s ∧ (is_Ok r = true → owner_of ty rid s = Some user_id)) ∨
  (r = Ok tt ∧ owner_of ty rid s = None ∧ identity_ok s' ∧
   s' = on_owners (ins (MkOwnerRow ty rid user_id now)) s).
Proof.
  intros Hok. unfold bind_resource. rewrite bind_run. unfold lift at 1.
  destruct (_resource_type ty) as [[]|e]; [|by left]. rewrite bind_run. unfold lift at 1.
  destruct (raise_when _ _) as [[]|e]; [|by left]. rewrite bind_run. cbn [gets id].
  destruct (owner_of ty rid s) as [owner|] eqn:Eo.
  - left. split; [done|]. unfold raise_when. case_bool_decide; [by subst|done].
  - unfold transaction. destruct (insert_owner _ s) as [[[]|e] s1] eqn:E; [right|by left].
    by apply insert_owner_ok in E as [? ->].
Qed.

Lemma resources_owned_elem ty user_id rid s : identity_ok s →
  rid ∈ resources_owned ty user_id s ↔ owner_of ty rid s = Some user_id.
Proof.
  intros Hok. unfold resources_owned, owner_of. split.
  - intros (r & -> & Hr)%list_elem_of_fmap. apply elem_of_sel in Hr as [Hr Hp]. bool_simpl.
    destruct (fetchone (is_resource ty (ow_resource_id r)) (id_owners s)) as [r'|] eqn:E.
    + apply fetchone_Some in E as [Hin' E]. unfold is_resource in E. bool_simpl.
      rewrite (key_inj resource_key (id_owners s) r' r); [simpl; by f_equal|apply (io_owners _ Hok)|done..|].
      unfold resource_key. congruence.
    + rewrite fetchone_None in E. specialize (E r Hr). unfold is_resource in E.
      by rewrite !bool_decide_true in E.
  - destruct (fetchone _ _) as [r|] eqn:E; [|done]. intros [= <-].
    apply fetchone_Some in E as [Hin E]. unfold is_resource in E. bool_simpl. subst.
    apply list_elem_of_fmap_2, elem_of_sel. split; [done|]. by rewrite !bool_decide_true.
Qed.

(** [consume_allowance]: refused, exhausted, or one more. *)
Definition usage_of (user_id feature : string) (window_id : Z) (s : IdentityDb) : Z :=
  match fetchone (is_usage user_id feature window_id) (id_usage s) with
  | Some r => us_usage_count r
  | None => 0
  end.

Definition same_but_usage (s s' : IdentityDb) : Prop :=
  id_users s' = id_users s ∧ id_sessions s' = id_sessions s ∧ id_owners s' = id_owners s ∧
  id_work s' = id_work s.

Lemma usage_ext user_id feature window_id s s' : id_usage s' = id_usage s →
  usage_of user_id feature window_id s' = usage_of user_id feature window_id s.
Proof. unfold usage_of. by intros ->. Qed.

Lemma is_usage_key user_id feature window_id r :
  is_usage user_id feature window_id r = true ↔ usage_key r = (user_id, feature, window_id).
Proof.
  unfold is_usage, usage_key. rewrite !andb_true_iff, !bool_decide_eq_true. naive_solver.
Qed.

Lemma consume_run user_id feature limit window_seconds now s : identity_ok s →
  let w := (now / (window_seconds * 1000000))%Z in
  let used := usage_of user_id feature w s in
  let '(r, s') := consume_allowance user_id feature limit window_seconds now s in
  identity_ok s' ∧ same_but_usage s s' ∧
  (∀ u f w', (u, f, w') ≠ (user_id, feature, w) → usage_of u f w' s' = usage_of u f w' s) ∧
  ((∃ e, r = Err e ∧ s' = s) ∨
   (r = Ok (false, 0%Z) ∧ s' = s ∧ (limit ≤ used)%Z) ∨
   (r = Ok (true, limit - used - 1)%Z ∧ (used < limit)%Z ∧
    usage_of user_id feature w s' = (used + 1)%Z)).
Proof.
  intros Hok w used. unfold consume_allowance. rewrite bind_run. unfold lift at 1.
  destruct (raise_when _ _) as [[]|e]; [|split_and!; [done..|left; by exists e]].
  fold w. unfold transaction. rewrite bind_run. cbn [gets id].
  fold (usage_of user_id feature w s). fold used.
  destruct (Z.leb_spec limit used) as [Hle|Hlt].
  { split_and!; [done..|right; left; done]. }
  rewrite bind_run. unfold used, usage_of in Hlt |- *.
  pose proof Hok as []. destruct (fetchone _ (id_usage s)) as [r|] eqn:Ef.
  - set (f := λ r, MkUsageRow _ _ _ (us_usage_count r + 1) now).
    assert (∀ k x, usage_key (f x) = k ↔ usage_key x = k) as Hk by done.
    cbn [modify mret st_ret]. split_and!; [|done..| |right; right; split_and!; [done|done|]].
    + constructor; simpl; try done.
      * by rewrite fmap_upd_key by done.
      * intros x (y & Hy & ->)%elem_of_upd. destruct (is_usage _ _ _ y); exact (io_usage_user0 y Hy).
      * intros x (y & Hy & ->)%elem_of_upd. pose proof (io_usage_count0 y Hy).
        destruct (is_usage _ _ _ y); simpl; lia.
    + intros u f' w' Hne. unfold usage_of. simpl. rewrite fetchone_upd by done.
      destruct (fetchone (is_usage u f' w') (id_usage s)) as [x|] eqn:Ex; [|done]. simpl.
      apply fetchone_Some in Ex as [_ Ex%is_usage_key].
      destruct (is_usage user_id feature w x) eqn:E; [|done]. apply is_usage_key in E. congruence.
    + simpl. rewrite fetchone_upd, Ef by done. simpl. apply fetchone_Some in Ef as [_ ->]. done.
  - unfold lift. destruct (has_user user_id s) eqn:Eu; cbn [negb raise_when].
    2: { split_and!; [done..|left; eauto]. }
    rewrite bind_run. cbn [modify mret st_ret].
    rewrite fetchone_None in Ef. split_and!; [|done..| |right; right; split_and!; [done|done|]].
    + constructor; simpl; try done.
      * apply NoDup_fmap_ins; [done|]. intros x Hx E. simpl in E.
        assert (is_usage user_id feature w x = true) as Ht by (apply is_usage_key; exact E).
        specialize (Ef x Hx). congruence.
      * intros x [Hx| ->]%elem_of_ins; [exact (io_usage_user0 x Hx)|exact Eu].
      * intros x [Hx| ->]%elem_of_ins; [exact (io_usage_count0 x Hx)|simpl; lia].
    + intros u f' w' Hne. unfold usage_of. simpl. rewrite fetchone_ins.
      destruct (fetchone (is_usage u f' w') (id_usage s)); [done|].
      destruct (is_usage u f' w' _) eqn:E; [|done]. apply is_usage_key in E. by destruct Hne.
    + simpl. rewrite fetchone_ins, (proj2 (fetchone_None _ _) Ef).
      by rewrite (proj2 (is_usage_key _ _ _ _)).
Qed.

(** [login]: a bad name, or one derivation and its answer. *)
Lemma login_run username password d s m : identity_ok s →
  login sha256 pbkdf2 username password d s = m →
  match _username username with
  | Err e => m = (Err e, s)
  | Ok n =>
      let s1 := spend PBKDF2_ITERATIONS s in
      match fetchone (named n) (id_users s) with
      | None => m = (Err (ValueError "Invalid username or password"), s1)
      | Some row =>
          m = if bool_decide (pbkdf2 password (u_password_salt row) PBKDF2_ITERATIONS
                              = u_password_hash row)
              then _new_session sha256 (u_user_id row) (u_username row)
                                (bool_decide (u_role row = "developer")) d s1
              else (Err (ValueError "Invalid username or password"), s1)
      end
  end.
Proof.
  intros Hok Em. unfold login in Em. rewrite bind_run in Em. unfold lift in Em.
  destruct (_username username) as [n|e]; [|done]. rewrite bind_run in Em. cbn [gets id] in Em.
  cbv zeta. destruct (fetchone (named n) (id_users s)) as [row|] eqn:E; rewrite <-Em; [|done].
  apply fetchone_Some in E as [Hin _]. rewrite (io_iterations s Hok row Hin).
  unfold _derive. rewrite bind_run, bind_run. cbn [modify mret st_ret]. by destruct (bool_decide (pbkdf2 _ _ _ = _)).
Qed.

(** What [_new_session] does to the other tables, whatever it answers. *)
Lemma new_session_effect user_id username developer d s : identity_ok s →
  let s' := snd (_new_session sha256 user_id username developer d s) in
  identity_ok s' ∧ id_users s' = id_users s ∧ id_owners s' = id_owners s ∧
  id_usage s' = id_usage s ∧ (∀ r, r ∈ id_sessions s → r ∈ id_sessions s').
Proof.
  intros Hok. pose proof (new_session_run user_id username developer d s Hok) as H.
  destruct (_new_session _ _ _ _ _ _) as [r s'].
  destruct H as [[_ ->]|(row & _ & _ & -> & Hok' & _)]; [done|].
  split_and!; [done..|]. intros x Hx. simpl. apply elem_of_ins. by left.
Qed.

Definition same_session (r r' : SessionRow) : Prop :=
  ss_token_hash r' = ss_token_hash r ∧ ss_session_id r' = ss_session_id r ∧
  ss_user_id r' = ss_user_id r ∧ ss_created_at r' = ss_created_at r ∧
  ss_expires_at r' = ss_expires_at r.

(** The calls that end a session: its logout, and its use at or after its expiry. *)
Definition ends (r : SessionRow) (op : identity_op) : bool :=
  match op with
  | Logout token => negb (str_empty token) && bool_decide (sha256 token = ss_token_hash r)
  | Resolve token now =>
      negb (str_empty token) && bool_decide (sha256 token = ss_token_hash r)
      && (ss_expires_at r <=? now)%Z
  | _ => false
  end.

Record op_effect (s s' : IdentityDb) (op : identity_op) : Prop := {
  oe_ok : identity_ok s';
  oe_extends : extends s s';
  oe_sessions : ∀ r, r ∈ id_sessions s → ends r op = false →
    ∃ r', r' ∈ id_sessions s' ∧ same_session r r' }.

Lemma op_effect_same s s' op : identity_ok s' → extends s s' →
  (∀ r, r ∈ id_sessions s → r ∈ id_sessions s') → op_effect s s' op.
Proof. intros ? ? Hs. constructor; [done|done|]. intros r Hr _. exists r. split; [by apply Hs|done]. Qed.

Lemma op_effect_users s s' op : identity_ok s' → id_users s `prefix_of` id_users s' →
  id_owners s' = id_owners s → (∀ r, r ∈ id_sessions s → r ∈ id_sessions s') → op_effect s s' op.
Proof. intros ? ? Ho ?. apply op_effect_same; [done| |done]. constructor; [done|by rewrite Ho]. Qed.

Lemma run_op_effect op s : identity_ok s → op_effect s (run_op op s) op.
Proof.
  intros Hok. destruct op as [username password salt hex now d|username password d|token now|token|hex now
    |ty rid user_id now|user_id feature limit window now]; simpl.
  - destruct (register_run username password salt hex now d s Hok) as [(e & n & ->)|(n & first & _ & _ & H)].
    { apply op_effect_users; [by apply spend_ok|done..]. }
    cbv zeta in H. destruct H as [Hok1 ->]. set (s1 := on_users _ _) in *.
    set (u := account _ _ _ _ _ _) in *.
    destruct (new_session_effect (u_user_id u) n first d s1 Hok1) as (Hok2 & Hu & Ho & _ & Hs).
    apply op_effect_users; [done| |by rewrite Ho|done]. rewrite Hu. subst s1. simpl.
    by apply prefix_app_r.
  - pose proof (login_run username password d s _ Hok eq_refl) as H. cbv zeta in H.
    destruct (_username username) as [n|e]; [|rewrite H; by apply op_effect_users].
    assert (op_effect s (spend PBKDF2_ITERATIONS s) (Login username password d)) as Hsp
      by (apply op_effect_users; [by apply spend_ok|done..]).
    destruct (fetchone (named n) (id_users s)) as [row|]; [|by rewrite H].
    rewrite H. clear H. case_bool_decide; [|done].
    destruct (new_session_effect (u_user_id row) (u_username row) (bool_decide (u_role row = "developer")) d
      (spend PBKDF2_ITERATIONS s) (spend_ok _ _ Hok)) as (Hok2 & Hu & Ho & _ & Hs).
    apply op_effect_users; [done|by rewrite Hu|by rewrite Ho|done].
  - pose proof (resolve_run token now s Hok) as H. destruct (resolve _ _ _ _) as [r s'].
    destruct (_ ≫= _) as [[session user]|] eqn:E; simpl.
    2: { destruct H as [_ ->]. by apply op_effect_users. }
    destruct (str_empty token) eqn:Et; [destruct H as [_ ->]; by apply op_effect_users|].
    destruct (fetchone (has_token _) (id_sessions s)) as [x|] eqn:Ef; [|done]. simpl in E.
    destruct (fetchone (is_user _) _); [|done]. injection E as -> ->.
    destruct (_ <=? _)%Z eqn:El; destruct H as [_ ->].
    + constructor; [by apply del_sessions_ok|by apply extends_same|].
      intros y Hy Hn. exists y. split; [|done]. simpl. apply elem_of_del. split; [done|].
      unfold has_token. apply bool_decide_eq_false. intros Heq.
      apply fetchone_Some in Ef as [Hin Hx]. unfold has_token in Hx. bool_simpl.
      assert (y = session) as -> by (eapply (key_inj ss_token_hash); [apply Hok|done|done|congruence]).
      simpl in Hn. by rewrite Et, El, (bool_decide_true (_ = _)) in Hn.
    + constructor; [by apply seen_ok|by apply extends_same|].
      intros y Hy _. eexists. split; [apply elem_of_upd; exists y; split; [done|reflexivity]|].
      by destruct (has_token _ y).
  - unfold logout. destruct (str_empty token) eqn:Et; simpl; [by apply op_effect_users|].
    constructor; [by apply del_sessions_ok|by apply extends_same|].
    intros y Hy Hn. exists y. split; [|done]. simpl. apply elem_of_del. split; [done|].
    simpl in Hn. rewrite Et in Hn. unfold has_token, _token_hash. simpl in Hn. bool_simpl.
    by apply bool_decide_eq_false.
  - pose proof (ensure_local_user_run hex now s Hok) as H. destruct (ensure_local_user _ _ _) as [r s'].
    destruct H as [->|(u & _ & -> & Hok')]; [by apply op_effect_users|].
    apply op_effect_users; [done| |done|done]. simpl. by apply prefix_app_r.
  - pose proof (bind_resource_run ty rid user_id now s Hok) as H.
    destruct (bind_resource _ _ _ _ _) as [r s'].
    destruct H as [[-> _]|(_ & _ & Hok' & ->)]; [by apply op_effect_users|].
    apply op_effect_same; [done| |done]. constructor; simpl; [done|by apply prefix_app_r].
  - pose proof (consume_run user_id feature limit window now s Hok) as H. cbv zeta in H.
    destruct (consume_allowance _ _ _ _ _ _) as [r s'].
    destruct H as (Hok' & (Hu & Hs & Ho & _) & _).
    simpl. apply op_effect_users; [done|by rewrite Hu|done|]. by rewrite Hs.
Qed.

Lemma run_ops_ok ops s : identity_ok s → identity_ok (run_ops ops s) ∧ extends s (run_ops ops s).
Proof.
  revert s. induction ops as [|op ops IH]; intros s Hok; simpl; [done|].
  destruct (run_op_effect op s Hok) as [Hok1 Hex _]. destruct (IH _ Hok1) as [Hok2 Hex2].
  split; [done|by etrans].
Qed.

Lemma run_ops_session ops s r : identity_ok s → r ∈ id_sessions s →
  Forall (λ op, ends r op = false) ops → ∃ r', r' ∈ id_sessions (run_ops ops s) ∧ same_session r r'.
Proof.
  revert s r. induction ops as [|op ops IH]; intros s r Hok Hr Ho; simpl; [by exists r|].
  apply Forall_cons in Ho as [Hn Ho]. destruct (run_op_effect op s Hok) as [Hok1 _ Hs].
  destruct (Hs r Hr Hn) as (r1 & Hr1 & E1 & E2 & E3 & E4 & E5).
  destruct (IH _ r1 Hok1 Hr1) as (r2 & Hr2 & F1 & F2 & F3 & F4 & F5).
  - eapply Forall_impl; [exact Ho|]. intros op' H. unfold ends in *. by rewrite E1, E5.
  - exists r2. split; [done|]. unfold same_session. split_and!; congruence.
Qed.

(** ** What lookups return *)

Lemma user_kept user_id s s' u : extends s s' →
  fetchone (is_user user_id) (id_users s) = Some u → fetchone (is_user user_id) (id_users s') = Some u.
Proof.
  intros [[l Hl] _] Hu. rewrite Hl. clear Hl. revert Hu. induction (id_users s) as [|x t IH]; simpl; [done|].
  by destruct (is_user user_id x).
Qed.

Lemma owner_kept ty rid s s' owner : extends s s' →
  owner_of ty rid s = Some owner → owner_of ty rid s' = Some owner.
Proof.
  intros [_ [l Hl]]. unfold owner_of. rewrite Hl. clear Hl. induction (id_owners s) as [|x t IH]; simpl; [done|].
  by destruct (is_resource ty rid x).
Qed.

Lemma user_role s u : identity_ok s → u ∈ id_users s →
  fetchone (is_user (u_user_id u)) (id_users s) = Some u.
Proof. intros Hok Hu. apply (fetchone_unique u_user_id); [apply Hok|done]. Qed.

Lemma session_row s r : identity_ok s → r ∈ id_sessions s →
  fetchone (has_token (ss_token_hash r)) (id_sessions s) = Some r.
Proof. intros Hok Hr. apply (fetchone_unique ss_token_hash); [apply Hok|done]. Qed.

(** In every reachable identity store ids, names in any case, tokens, owned resources
    and usage windows are unique, every reference names an existing user, and of all
    accounts only the first and the local one are developers. *)
Theorem identity_invariant ops :
  let s := run_ops ops empty_identity in
  (* ids are unique, and names in any case *)
  NoDup (u_user_id <$> id_users s) ∧ NoDup (folded <$> id_users s) ∧
  NoDup (ss_token_hash <$> id_sessions s) ∧ NoDup (resource_key <$> id_owners s) ∧
  NoDup (usage_key <$> id_usage s) ∧
  (* what refers to a user refers to one that exists *)
  (∀ r, r ∈ id_sessions s → has_user (ss_user_id r) s = true) ∧
  (∀ r, r ∈ id_owners s → has_user (ow_user_id r) s = true) ∧
  (* the first account is a developer, and no account registered later *)
  (∀ u, head (id_users s) = Some u → u_role u = "developer") ∧
  (∀ u, u ∈ id_users s → u_role u = "developer" →
     head (id_users s) = Some u ∨ folded u = "local-user").
Proof. intros s. destruct (run_ops_ok ops empty_identity empty_identity_ok) as [[] _]. by split_and!. Qed.

(** C31. Once a resource has an owner it keeps it whatever is called later, nobody
    else can take it over, and only its owner and developers have access to it. *)
Theorem ownership_permanent before after ty rid owner :
  let s := run_ops before empty_identity in
  let s' := run_ops after s in
  owner_of ty rid s = Some owner →
  owner_of ty rid s' = Some owner ∧ rid ∈ resources_owned ty owner s' ∧
  (* nobody else can take it over *)
  (∀ user_id now, user_id ≠ owner →
     ∃ e, bind_resource ty rid user_id now s' = (Err e, s')) ∧
  (* and only its owner and developers have access *)
  (∀ user_id, owns_resource ty rid user_id true s' = true ↔
     user_id = owner ∨ ∃ u, u ∈ id_users s' ∧ u_user_id u = user_id ∧ u_role u = "developer").
Proof.
  intros s s' Ho. destruct (run_ops_ok before empty_identity empty_identity_ok) as [Hok _].
  destruct (run_ops_ok after s Hok) as [Hok' Hex]. fold s' in Hok', Hex.
  pose proof (owner_kept ty rid s s' owner Hex Ho) as Ho'. split_and!; [done| | |].
  - unfold owner_of in Ho'. apply fmap_Some in Ho' as (r & Hr & ->).
    apply fetchone_Some in Hr as [Hin Hr]. unfold is_resource in Hr. bool_simpl. subst ty rid.
    unfold resources_owned. apply list_elem_of_fmap_2, elem_of_sel. split; [done|].
    by rewrite !bool_decide_true.
  - intros user_id now Hne. pose proof (bind_resource_run ty rid user_id now s' Hok') as H.
    destruct (bind_resource ty rid user_id now s') as [[[]|e] s2];
      destruct H as [[-> H]|(_ & H & _)]; [|congruence|by exists e|congruence].
    specialize (H eq_refl). congruence.
  - intros user_id. unfold owns_resource. rewrite Ho'. rewrite orb_true_iff, bool_decide_eq_true. simpl.
    split; (intros [->|H]; [by left|right]).
    + destruct (fetchone _ _) as [u|] eqn:E; [|done]. apply fetchone_Some in E as [Hu Hi].
      unfold is_user in Hi. bool_simpl. eauto.
    + destruct H as (u & Hu & <- & Hr). rewrite (user_role s' u Hok' Hu). by apply bool_decide_eq_true.
Qed.

(** A login fails without a session for an unknown name and for a wrong password
    alike, after the same number of key derivations, and opens exactly one session of
    that account otherwise. *)
Theorem login_spec before username password d :
  let s := run_ops before empty_identity in
  let '(r, s') := login sha256 pbkdf2 username password d s in
  match _username username with
  | Err e => r = Err e ∧ s' = s
  | Ok n =>
      (* every name costs one derivation, known or not *)
      id_work s' = (id_work s + PBKDF2_ITERATIONS)%Z ∧
      id_users s' = id_users s ∧ id_owners s' = id_owners s ∧
      let matching := fetchone (λ u, named n u && bool_decide
            (pbkdf2 password (u_password_salt u) PBKDF2_ITERATIONS = u_password_hash u)) (id_users s) in
      match r with
      | Ok (a, token) =>
          ∃ u, matching = Some u ∧ u ∈ id_users s ∧ folded u = lower n ∧
            a = MkAuthSession (u_user_id u) (u_username u) (bool_decide (u_role u = "developer"))
                              ("session-" +:+ snd (fst d)) ∧
            token = fst (fst d) ∧ ∃ row, id_sessions s' = id_sessions s ++ [row] ∧
              ss_token_hash row = sha256 token ∧ ss_user_id row = u_user_id u
      | Err e =>
          id_sessions s' = id_sessions s ∧
          (* a wrong name and a wrong password are told in the same words *)
          (matching = None ∧ e = ValueError "Invalid username or password" ∨
           is_Some matching ∧ e = IntegrityError "identity_sessions")
      end
  end.
Proof.
  intros s. destruct (run_ops_ok before empty_identity empty_identity_ok) as [Hok _]. fold s in Hok.
  destruct (login sha256 pbkdf2 username password d s) as [r s'] eqn:E.
  apply (login_run username password d s _ Hok) in E.
  destruct (_username username) as [n|e]; [|by injection E].
  cbv zeta in E |- *. set (p := λ u, named n u && bool_decide
    (pbkdf2 password (u_password_salt u) PBKDF2_ITERATIONS = u_password_hash u)).
  assert (∀ u x, named n u = true → named n x = true → u ∈ id_users s → x ∈ id_users s → u = x) as Huniq.
  { unfold named. intros u x Hu Hx ? ?. bool_simpl. eapply (key_inj folded); [apply Hok|done|done|].
    unfold folded. congruence. }
  destruct (fetchone (named n) (id_users s)) as [u|] eqn:Ef.
  - pose proof Ef as Ef'. apply fetchone_Some in Ef' as [Hin Hn].
    case_bool_decide as Hp.
    + assert (fetchone p (id_users s) = Some u) as Hm.
      { rewrite <-Ef. apply fetchone_ext. intros x Hx. subst p. simpl.
        destruct (named n x) eqn:Ex; [|done]. simpl. rewrite (Huniq x u Ex Hn Hx Hin).
        by apply bool_decide_eq_true. }
      rewrite Hm. pose proof (new_session_run (u_user_id u) (u_username u)
        (bool_decide (u_role u = "developer")) d _ (spend_ok PBKDF2_ITERATIONS s Hok)) as H.
      rewrite <-E in H. destruct H as [[-> ->]|(row & -> & -> & -> & _)].
      * split_and!; try done. right. by split.
      * split_and!; try done. exists u. split_and!; try done; [|by eexists].
        unfold named in Hn. by bool_simpl.
    + injection E as -> ->. split_and!; try done. left. split; [|done].
      apply fetchone_None. intros x Hx. subst p. simpl. destruct (named n x) eqn:Ex; [|done]. simpl.
      rewrite (Huniq x u Ex Hn Hx Hin). by apply bool_decide_eq_false.
  - injection E as -> ->. split_and!; try done. left. split; [|done].
    rewrite fetchone_None in Ef |- *. intros x Hx. subst p. simpl. by rewrite (Ef x Hx).
Qed.

(** The session [a] of [token] is in the store. *)
Definition granted (a : AuthSession) (token : string) (created : Z) (s : IdentityDb) : Prop :=
  ∃ row u, row ∈ id_sessions s ∧ ss_token_hash row = sha256 token ∧ ss_created_at row = created ∧
    a = MkAuthSession (ss_user_id row) (u_username u) (bool_decide (u_role u = "developer"))
                      (ss_session_id row) ∧
    fetchone (is_user (ss_user_id row)) (id_users s) = Some u.

Lemma new_session_granted u d s r s' : identity_ok s → u ∈ id_users s →
  _new_session sha256 (u_user_id u) (u_username u) (bool_decide (u_role u = "developer")) d s = (Ok r, s') →
  identity_ok s' ∧ snd r = fst (fst d) ∧ granted (fst r) (snd r) (snd d) s'.
Proof.
  intros Hok Hu E. pose proof (new_session_run (u_user_id u) (u_username u)
    (bool_decide (u_role u = "developer")) d s Hok) as H. rewrite E in H.
  destruct H as [[H _]|(row & -> & H & -> & Hok' & _)]; [done|]. injection H as ->.
  split_and!; [done|done|]. eexists _, u. split; [apply elem_of_ins; by right|].
  split_and!; try done. by apply user_role.
Qed.

Lemma register_granted username password salt hex now d s r s' : identity_ok s →
  register sha256 pbkdf2 username password salt hex now d s = (Ok r, s') →
  identity_ok s' ∧ snd r = fst (fst d) ∧ granted (fst r) (snd r) (snd d) s'.
Proof.
  intros Hok E. destruct (register_run username password salt hex now d s Hok)
    as [(e & n & H)|(n & first & _ & _ & H)]; [by rewrite H in E|]. cbv zeta in H.
  destruct H as [Hok1 H]. rewrite H in E. set (u := account _ _ _ _ _ _) in *.
  assert (first = bool_decide (u_role u = "developer")) as Hf by (subst u; by destruct first).
  rewrite Hf in E. apply (new_session_granted u d _ r s' Hok1); [|exact E].
  simpl. apply elem_of_ins. by right.
Qed.

Lemma login_granted username password d s r s' : identity_ok s →
  login sha256 pbkdf2 username password d s = (Ok r, s') →
  identity_ok s' ∧ snd r = fst (fst d) ∧ granted (fst r) (snd r) (snd d) s'.
Proof.
  intros Hok E. apply (login_run username password d s _ Hok) in E.
  destruct (_username username); [|done]. cbv zeta in E.
  destruct (fetchone _ (id_users s)) as [u|] eqn:Ef; [|done]. apply fetchone_Some in Ef as [Hu _].
  case_bool_decide; [|done]. symmetry in E.
  by apply (new_session_granted u d _ r s' (spend_ok PBKDF2_ITERATIONS s Hok)).
Qed.

Lemma granted_kept a token created ops s : identity_ok s → granted a token created s →
  Forall (λ op, match op with
                | Logout t => sha256 t ≠ sha256 token
                | Resolve t now => sha256 t = sha256 token → (now < created + SESSION_SECONDS)%Z
                | _ => True
                end) ops → granted a token created (run_ops ops s).
Proof.
  intros Hok (row & u & Hrow & Ht & Hc & -> & Hu) Ho.
  pose proof (io_expiry s Hok row Hrow) as Hexp.
  destruct (run_ops_session ops s row Hok Hrow) as (row' & Hrow' & E1 & E2 & E3 & E4 & E5).
  { eapply Forall_impl; [exact Ho|]. intros op H. unfold ends. destruct op; try done.
    - destruct (str_empty token0); [done|]. simpl. case_bool_decide; [|done]. simpl.
      apply Z.leb_gt. rewrite Hexp, Hc. apply H. congruence.
    - destruct (str_empty token0); [done|]. simpl. apply bool_decide_eq_false. congruence. }
  destruct (run_ops_ok ops s Hok) as [_ Hex]. exists row', u. rewrite E1, E2, E3, E4.
  split_and!; try done. by apply (user_kept _ s).
Qed.

Lemma resolve_none token now s : identity_ok s → fetchone (has_token (sha256 token)) (id_sessions s) = None →
  resolve sha256 token now s = (Ok None, s).
Proof.
  intros Hok Hn. pose proof (resolve_run token now s Hok) as H.
  destruct (resolve sha256 token now s) as [r s']. rewrite Hn in H. simpl in H. by destruct H as [-> ->].
Qed.

Lemma resolve_granted a token created now s : identity_ok s → granted a token created s →
  token ≠ EmptyString →
  resolve sha256 token now s =
    if (created + SESSION_SECONDS <=? now)%Z
    then (Ok None, on_sessions (del (has_token (sha256 token))) s)
    else (Ok (Some a), on_sessions (upd (has_token (sha256 token)) (λ r,
            MkSessionRow (ss_token_hash r) (ss_session_id r) (ss_user_id r) (ss_created_at r)
                         (ss_expires_at r) now)) s).
Proof.
  intros Hok (row & u & Hrow & Ht & Hc & -> & Hu) Hne.
  pose proof (resolve_run token now s Hok) as H. destruct (resolve sha256 token now s) as [r s'].
  rewrite <-Ht, (session_row s row Hok Hrow) in H. simpl in H. rewrite Hu in H. simpl in H.
  rewrite (io_expiry s Hok row Hrow), Hc in H. rewrite <-Ht.
  destruct token; [done|]. simpl in H. by destruct (_ <=? now)%Z; destruct H as [-> ->].
Qed.

Lemma token_deleted token t : fetchone (has_token token) (del (has_token token) t) = None.
Proof. apply fetchone_None. by intros x [_ Hx]%elem_of_del. Qed.

(** The token a registration or login gives resolves to that user for exactly a week,
    whatever else is called in between, and to nobody once it was used too late or
    logged out. *)
Theorem session_lifecycle before after username password d a token s :
  (* a session that a registration or a login has given *)
  (∃ salt hex now, register sha256 pbkdf2 username password salt hex now d
                     (run_ops before empty_identity) = (Ok (a, token), s)) ∨
  login sha256 pbkdf2 username password d (run_ops before empty_identity) = (Ok (a, token), s) →
  token ≠ EmptyString →
  (* and that nothing has ended since *)
  Forall (λ op, match op with
                | Logout t => sha256 t ≠ sha256 token
                | Resolve t now => sha256 t = sha256 token → (now < snd d + SESSION_SECONDS)%Z
                | _ => True
                end) after →
  let s' := run_ops after s in
  ∀ now,
    (* is good for exactly a week *)
    fst (resolve sha256 token now s')
      = Ok (if (snd d + SESSION_SECONDS <=? now)%Z then None else Some a) ∧
    (* once used too late it is gone, and after a logout *)
    ((snd d + SESSION_SECONDS ≤ now)%Z → ∀ later,
       fst (resolve sha256 token later (snd (resolve sha256 token now s'))) = Ok None) ∧
    fst (resolve sha256 token now (snd (logout sha256 token s'))) = Ok None.
Proof.
  intros Hg Hne Ho s' now. destruct (run_ops_ok before empty_identity empty_identity_ok) as [Hok0 _].
  assert (identity_ok s ∧ granted a token (snd d) s) as [Hok Hgr].
  { destruct Hg as [(salt & hex & t & H)|H];
      [apply register_granted in H as (? & _ & ?)|apply login_granted in H as (? & _ & ?)]; done. }
  pose proof (granted_kept a token (snd d) after s Hok Hgr Ho) as Hgr'.
  destruct (run_ops_ok after s Hok) as [Hok' _]. fold s' in Hgr', Hok'.
  pose proof (resolve_granted a token (snd d) now s' Hok' Hgr' Hne) as Hr. split_and!.
  - rewrite Hr. by destruct (_ <=? _)%Z.
  - intros Hl later. rewrite Hr, (proj2 (Z.leb_le _ _) Hl). simpl.
    rewrite resolve_none; [done|by apply del_sessions_ok|apply token_deleted].
  - unfold logout. destruct token as [|c t]; [done|]. simpl.
    rewrite resolve_none; [done|by apply del_sessions_ok|apply token_deleted].
Qed.

(** The number of units of an allowance that a list of calls was given. *)
Fixpoint units (user_id feature : string) (window_id : Z) (ops : list identity_op) (s : IdentityDb) : Z :=
  match ops with
  | [] => 0
  | op :: ops =>
      (match op with
       | ConsumeAllowance u f limit window now =>
           if bool_decide ((u, f, now / (window * 1000000))%Z = (user_id, feature, window_id))
           then match fst (consume_allowance u f limit window now s) with
                | Ok (true, _) => 1
                | _ => 0
                end
           else 0
       | _ => 0
       end + units user_id feature window_id ops (run_op op s))%Z
  end.

Lemma other_op_usage op s : identity_ok s →
  match op with ConsumeAllowance _ _ _ _ _ => True | _ => id_usage (run_op op s) = id_usage s end.
Proof.
  intros Hok. destruct op as [username password salt hex now d|username password d|token now|token|hex now
    |ty rid user_id now|user_id feature limit window now]; simpl; [| | | | | |done].
  - destruct (register_run username password salt hex now d s Hok) as [(e & n & ->)|(n & first & _ & _ & H)];
      [done|]. cbv zeta in H. destruct H as [Hok1 ->].
    pose proof (new_session_effect ("user-" +:+ hex) n first d _ Hok1) as (_ & _ & _ & Hu & _). exact Hu.
  - pose proof (login_run username password d s _ Hok eq_refl) as H. cbv zeta in H.
    destruct (_username username) as [n|e]; [|by rewrite H].
    destruct (fetchone (named n) (id_users s)) as [row|]; [|by rewrite H].
    rewrite H. case_bool_decide; [|done].
    pose proof (new_session_effect (u_user_id row) (u_username row) (bool_decide (u_role row = "developer")) d
      (spend PBKDF2_ITERATIONS s) (spend_ok _ _ Hok)) as (_ & _ & _ & Hu & _). exact Hu.
  - pose proof (resolve_run token now s Hok) as H. destruct (resolve _ _ _ _) as [r s'].
    destruct (_ ≫= _) as [[session user]|]; simpl; [|by destruct H as [_ ->]].
    destruct (str_empty token); [by destruct H as [_ ->]|]. by destruct (_ <=? _)%Z; destruct H as [_ ->].
  - unfold logout. by destruct (str_empty token).
  - pose proof (ensure_local_user_run hex now s Hok) as H. destruct (ensure_local_user _ _ _) as [r s'].
    by destruct H as [->|(u & _ & -> & _)].
  - pose proof (bind_resource_run ty rid user_id now s Hok) as H.
    destruct (bind_resource _ _ _ _ _) as [r s']. by destruct H as [[-> _]|(_ & _ & _ & ->)].
Qed.

Section allowance.
Context (user_id feature : string) (window_id limit : Z).
Local Abbreviation used := (usage_of user_id feature window_id).

(** The calls on this allowance ask for no more than the limit. *)
Definition within_limit (op : identity_op) : Prop :=
  match op with
  | ConsumeAllowance u f l window now =>
      (u, f, now / (window * 1000000))%Z = (user_id, feature, window_id) → (l ≤ limit)%Z
  | _ => True
  end.

Lemma units_counted ops s : identity_ok s → Forall within_limit ops →
  units user_id feature window_id ops s = (used (run_ops ops s) - used s)%Z ∧
  (used s ≤ used (run_ops ops s) ≤ Z.max (used s) limit)%Z.
Proof.
  revert s. induction ops as [|op ops IH]; intros s Hok Hl; cbn [units]; [simpl; lia|].
  apply Forall_cons in Hl as [Hop Hl].
  destruct (run_op_effect op s Hok) as [Hok1 _ _]. destruct (IH (run_op op s) Hok1 Hl) as [IH1 IH2].
  change (run_ops (op :: ops) s) with (run_ops ops (run_op op s)). rewrite IH1.
  pose proof (other_op_usage op s Hok) as Hu.
  destruct op as [| | | | | |u f l window now].
  1-6: apply (usage_ext user_id feature window_id) in Hu; lia.
  clear Hu. pose proof (consume_run u f l window now s Hok) as H. cbv zeta in H. simpl in *.
  destruct (consume_allowance u f l window now s) as [r s'] eqn:E. simpl in *.
  destruct H as (_ & _ & Hother & Hr). case_bool_decide as Hk.
  - specialize (Hop Hk). injection Hk as -> -> Hw. rewrite Hw in Hr.
    destruct Hr as [(e & -> & ->)|[(-> & -> & _)|(-> & Hlt & Hn)]]; lia.
  - rewrite <-(Hother user_id feature window_id) by congruence.
    rewrite (Hother user_id feature window_id) in IH1, IH2 |- * by congruence. lia.
Qed.
End allowance.

(** The units granted to a user for a feature in a window are counted exactly and
    never exceed the limit, and the next call is granted exactly while the limit is
    not reached. *)
Theorem allowance_bounded before ops user_id feature window_id limit :
  let s := run_ops before empty_identity in
  let s' := run_ops ops s in
  let used := usage_of user_id feature window_id in
  Forall (within_limit user_id feature window_id limit) ops →
  (* the units given in a window are counted, and no more than the limit *)
  units user_id feature window_id ops s = (used s' - used s)%Z ∧ (used s' ≤ Z.max (used s) limit)%Z ∧
  (* the next one is given exactly when the limit is not reached *)
  ∀ window now, (60 ≤ window)%Z → (1 ≤ limit)%Z → (now / (window * 1000000))%Z = window_id →
    has_user user_id s' = true →
    fst (consume_allowance user_id feature limit window now s') =
      Ok (if (limit <=? used s')%Z then (false, 0%Z) else (true, limit - used s' - 1)%Z).
Proof.
  intros s s' used Hl. destruct (run_ops_ok before empty_identity empty_identity_ok) as [Hok _].
  destruct (run_ops_ok ops s Hok) as [Hok' _]. fold s' in Hok'.
  destruct (units_counted user_id feature window_id limit ops s Hok Hl) as [H1 H2].
  split; [exact H1|]. split; [apply H2|]. intros window now Hw H1l Hn Hu.
  pose proof (consume_run user_id feature limit window now s' Hok') as H. cbv zeta in H.
  destruct (consume_allowance user_id feature limit window now s') as [r s2] eqn:E. simpl.
  rewrite Hn in H. destruct H as (_ & _ & _ & [(e & -> & ->)|[(-> & _ & Hle)|(-> & Hlt & _)]]).
  - exfalso. unfold consume_allowance in E. rewrite bind_run in E. unfold lift at 1 in E.
    rewrite (proj2 (Z.ltb_ge _ _) H1l), (proj2 (Z.ltb_ge _ _) Hw) in E. simpl in E.
    unfold transaction in E. rewrite bind_run in E. cbn [gets id] in E.
    destruct (limit <=? _)%Z; [done|]. rewrite bind_run in E.
    destruct (fetchone _ (id_usage s')); [done|]. rewrite bind_run in E. unfold lift in E.
    by rewrite Hu in E.
  - unfold used. by rewrite (proj2 (Z.leb_le _ _) Hle).
  - unfold used. by rewrite (proj2 (Z.leb_gt _ _) Hlt).
Qed.
End calls.

(** ** Two users on a concrete store *)

Definition demo_hash : string → string := λ t, "sha:" +:+ t.
Definition demo_pbkdf2 : string → string → Z → string := λ p salt _, salt +:+ p.
Definition demo_accounts : list identity_op :=
  [Register " Ana " "correct horse" "salt-a" "0a" 100 ("token-a", "a1", 100%Z);
   Register "ben" "battery staple" "salt-b" "0b" 200 ("token-b", "b1", 200%Z);
   BindResource "run" "run-1" "user-0b" 300].
Definition demo_identity : IdentityDb := run_ops demo_hash demo_pbkdf2 demo_accounts empty_identity.

Lemma ownership_permanent_witness :
  owner_of "run" "run-1" demo_identity = Some "user-0b" ∧
  (∃ e, bind_resource "run" "run-1" "user-0c" 400 demo_identity = (Err e, demo_identity)) ∧
  owns_resource "run" "run-1" "user-0a" true demo_identity = true.
Proof.
  assert (owner_of "run" "run-1" demo_identity = Some "user-0b") as H by (vm_compute; reflexivity).
  split; [exact H|].
  destruct (ownership_permanent demo_hash demo_pbkdf2 demo_accounts [] "run" "run-1" "user-0b" H)
    as (_ & _ & Hb & Ho).
  split; [apply Hb; discriminate|]. apply Ho. right.
  exists (account "user-0a" "Ana" "salt-a" "salt-acorrect horse" true 100).
  split; [|split; reflexivity].
  assert (head (id_users demo_identity)
          = Some (account "user-0a" "Ana" "salt-a" "salt-acorrect horse" true 100)) as Hh
    by (vm_compute; reflexivity).
  apply head_Some in Hh as [t Ht]. change (run_ops _ _ [] _) with demo_identity. rewrite Ht. left.
Defined.

Lemma session_lifecycle_witness :
  ∃ a s, login demo_hash demo_pbkdf2 "ANA" "correct horse" ("token-c", "c1", 500%Z) demo_identity
         = (Ok (a, "token-c"), s) ∧
    fst (resolve demo_hash "token-c" 1000 s) = Ok (Some a) ∧
    fst (resolve demo_hash "token-c" (500 + SESSION_SECONDS) s) = Ok None.
Proof.
  assert (∃ a, fst (login demo_hash demo_pbkdf2 "ANA" "correct horse" ("token-c", "c1", 500%Z) demo_identity)
    = Ok (a, "token-c")) as [a Ha] by (vm_compute; eexists; reflexivity).
  destruct (login demo_hash demo_pbkdf2 "ANA" "correct horse" ("token-c", "c1", 500%Z) demo_identity)
    as [r s] eqn:E. simpl in Ha. subst r. exists a, s. split; [reflexivity|].
  pose proof (session_lifecycle demo_hash demo_pbkdf2 demo_accounts [] "ANA" "correct horse"
    ("token-c", "c1", 500%Z) a "token-c" s (or_intror E) ltac:(discriminate)
    (List.Forall_nil _)) as H.
  split; [exact (proj1 (H 1000%Z))|]. exact (proj1 (H (500 + SESSION_SECONDS)%Z)).
Defined.

Lemma allowance_bounded_witness :
  let calls := [ConsumeAllowance "user-0b" "chat" 2 60 1000; ConsumeAllowance "user-0b" "chat" 2 60 2000;
                ConsumeAllowance "user-0b" "chat" 2 60 3000] in
  units demo_hash demo_pbkdf2 "user-0b" "chat" 0 calls demo_identity = 2%Z ∧
  (usage_of "user-0b" "chat" 0 (run_ops demo_hash demo_pbkdf2 calls demo_identity) ≤ 2)%Z ∧
  fst (consume_allowance "user-0b" "chat" 2 60 4000
         (run_ops demo_hash demo_pbkdf2 calls demo_identity)) = Ok (false, 0%Z).
Proof.
  intros calls.
  destruct (allowance_bounded demo_hash demo_pbkdf2 demo_accounts calls "user-0b" "chat" 0 2) as (Hu & Hle & Hn).
  { repeat (constructor; [intros _; lia|]). constructor. }
  fold demo_identity in Hu, Hle, Hn.
  assert (usage_of "user-0b" "chat" 0 (run_ops demo_hash demo_pbkdf2 calls demo_identity) = 2%Z) as Hc
    by (vm_compute; reflexivity).
  split; [rewrite Hu, Hc; reflexivity|]. split; [exact Hle|].
  rewrite (Hn 60%Z 4000%Z); [by rewrite Hc|lia|lia|reflexivity|vm_compute; reflexivity].
Defined.
