(* ===== verification/Provenance.v ===== *)
(** * core/provenance: EvidenceIndex, the read models over the runtime store

    Every function is a read of the store.  The queries that walk the projection of a
    run ([describe_run]) walk its JSON here as they do there. *)

From stdpp Require Import gmap.
From stdpp Require Import pretty.
From S2P Require Export StoreProps Sql PyValue.
Open Scope string_scope.
Open Scope list_scope.

Definition DEFAULT_RUN_LIMIT : Z := 50.
Definition MAX_RUN_LIMIT : Z := 500.

(** ** Runs *)

Record RunSummary := MkRunSummary {
  rs_run_id : string;
  rs_task_id : string;
  rs_status : string;
  rs_project_id : json;
  rs_design_id : json;
  rs_design_revision_id : json;
  rs_experiment_id : json;
  rs_input_manifest_sha256 : json;
  rs_plugin_id : json;
  rs_created_at : Z;
  rs_started_at : option Z;
  rs_ended_at : option Z;
  rs_terminal_reason : option string;
  rs_attempts : nat;
  rs_artifacts : nat;
  rs_metrics : nat }.

Definition _summary (s : Store) (run : RunRecord) : RunSummary :=
  let ts := stage ← list_stages (rec_run_id run) s; list_attempts (s_stage_run_id stage) s in
  let total {A} (rows : string → Store → list A) :=
    foldr (λ t n, length (rows (at_attempt_id t) s) + n)%nat 0%nat ts in
  let t := rec_task_spec run in
  MkRunSummary (rec_run_id run) (rec_task_id run) (status_str (rec_status run))
    (t_project_id t) (t_design_id t) (t_design_revision_id t) (t_experiment_id t)
    (t_input_manifest_sha256 t) (t_plugin_id t) (rec_created_at run) (rec_started_at run)
    (rec_ended_at run) (rec_terminal_reason run)
    (length ts) (total list_artifacts) (total list_metrics).

(** The keyword arguments of [runs] but for the page. *)
Record RunFilter := MkRunFilter {
  rf_project_id : option string;
  rf_design_id : option string;
  rf_plugin_id : option string;
  rf_status : option string;
  rf_owner_run_ids : option (list string) }.

(** [wanted and actual != wanted], for a run to be skipped. *)
Definition differs (wanted : option string) (actual : json) : bool :=
  match wanted with
  | Some w => negb (str_empty w) && negb (py_eqb actual (JStr w))
  | None => false
  end.

Definition rejected (f : RunFilter) (wanted : option RuntimeStatus) (run : RunRecord) : bool :=
  differs (rf_project_id f) (t_project_id (rec_task_spec run))
  || differs (rf_design_id f) (t_design_id (rec_task_spec run))
  || differs (rf_plugin_id f) (t_plugin_id (rec_task_spec run))
  || match wanted with Some st => negb (bool_decide (rec_status run = st)) | None => false end.

Definition not_owned (f : RunFilter) (run_id : string) : bool :=
  match rf_owner_run_ids f with
  | Some ids => negb (bool_decide (run_id ∈ ids))
  | None => false
  end.

(** The loop over the rows, newest first: [skip] matches are still to be passed over,
    [room] summaries may still be taken. *)
Fixpoint collect_runs (s : Store) (f : RunFilter) (wanted : option RuntimeStatus)
    (skip room : nat) (rows : list string) : result (list RunSummary) :=
  match rows with
  | [] => Ok []
  | run_id :: rows =>
      if not_owned f run_id then collect_runs s f wanted skip room rows
      else
        run ← get_run run_id s;
        if rejected f wanted run then collect_runs s f wanted skip room rows
        else
          match skip, room with
          | S skip, _ => collect_runs s f wanted skip room rows
          | O, S (S room) =>
              rest ← collect_runs s f wanted 0 (S room) rows;
              Ok (_summary s run :: rest)
          (* [if len(summaries) >= limit: break] *)
          | O, _ => Ok [_summary s run]
          end
  end.

Definition wanted_status (f : RunFilter) : result (option RuntimeStatus) :=
  match rf_status f with
  | Some st =>
      if str_empty st then Ok None
      else st ← of_option (ValueError "RuntimeStatus") (runtime_status_of (JStr st)); Ok (Some st)
  | None => Ok None
  end.

Definition newest_first (s : Store) : list string :=
  r_run_id <$> order_by (λ r, - r_created_at r)%Z (runs s).

Definition index_runs (f : RunFilter) (limit offset : Z) (s : Store) : result (list RunSummary) :=
  raise_when (negb ((1 <=? limit) && (limit <=? MAX_RUN_LIMIT))%Z) (ValueError "limit");;
  raise_when (offset <? 0)%Z (ValueError "offset");;
  wanted ← wanted_status f;
  collect_runs s f wanted (Z.to_nat offset) (Z.to_nat limit) (newest_first s).

(** [count_runs]: [None] when the fuel runs out. *)
Fixpoint count_pages (fuel : nat) (f : RunFilter) (offset total : Z) (s : Store)
    : result (option Z) :=
  match fuel with
  | O => Ok None
  | S fuel =>
      page ← index_runs f MAX_RUN_LIMIT offset s;
      let n := Z.of_nat (length page) in
      if (n <? MAX_RUN_LIMIT)%Z then Ok (Some (total + n)%Z)
      else count_pages fuel f (offset + n) (total + n) s
  end.
Definition count_runs (fuel : nat) (f : RunFilter) (s : Store) : result (option Z) :=
  count_pages fuel f 0 0 s.

Definition run_detail (run_id : string) (s : Store) : result dict := describe_run run_id s.

(** ** Metrics with their lineage *)

Record MetricProvenance := MkMetricProvenance {
  mp_name : json;
  mp_value : json;
  mp_unit : json;
  mp_parser_id : json;
  mp_parser_version : json;
  mp_run_id : string;
  mp_attempt_id : string;
  mp_artifact_id : json;
  mp_artifact_kind : json;
  mp_artifact_sha256 : json;
  mp_artifact_size_bytes : json }.

(** [v or ""] *)
Definition or_empty_str (v : json) : json := if truthy v then v else JStr EmptyString.

(** [{a["artifact_id"]: a for a in ...}], as the list of its items: a later item with
    the same key replaces the value of an earlier one. *)
Definition artifact_index (items : list json) : result (list (json * json)) :=
  mapM_result (λ a, i ← py_index "artifact_id" a; Ok (i, a)) items.
Definition index_get (k : json) (index : list (json * json)) : option json :=
  snd <$> List.find (λ kv, py_eqb (fst kv) k) (rev index).

(** [_attempts_of]: each attempt with its artifacts by id. *)
Definition attempt_of_view (s : Store) (stage view : json) : result (Attempt * list (json * json)) :=
  items ← (v ← py_index "artifacts" view; py_list v);
  index ← artifact_index items;
  stage_run_id ← py_index "stage_run_id" stage;
  attempt_id ← py_index "attempt_id" view;
  attempt ← of_option (OtherError "IndexError")
    (List.find (λ a, py_eqb (JStr (at_attempt_id a)) attempt_id)
               (list_attempts (str_of stage_run_id) s));
  Ok (attempt, index).

Definition attempts_of_stage (s : Store) (stage : json) : result (list (Attempt * list (json * json))) :=
  views ← (v ← py_index "attempts" stage; py_list v);
  mapM_result (attempt_of_view s stage) views.

Definition _attempts_of (run_id : string) (s : Store) : result (list (Attempt * list (json * json))) :=
  view ← describe_run run_id s;
  stages ← (v ← py_index "stages" (JObj view); py_list v);
  per_stage ← mapM_result (attempts_of_stage s) stages;
  Ok (concat per_stage).

Definition metric_entry (run_id : string) (t : Attempt) (index : list (json * json)) (m : Metric)
    : result MetricProvenance :=
  match index_get (or_empty_str (m_source_artifact_id m)) index with
  | Some a =>
      artifact_id ← py_index "artifact_id" a;
      kind ← py_index "kind" a;
      sha ← py_index "sha256" a;
      size ← py_index "size_bytes" a;
      Ok (MkMetricProvenance (m_name m) (m_value m) (m_unit m) (m_parser_id m) (m_parser_version m)
            run_id (at_attempt_id t) artifact_id kind sha size)
  | None =>
      Ok (MkMetricProvenance (m_name m) (m_value m) (m_unit m) (m_parser_id m) (m_parser_version m)
            run_id (at_attempt_id t) JNull JNull JNull JNull)
  end.

Definition index_metrics (run_id : string) (complete_only : bool) (s : Store)
    : result (list MetricProvenance) :=
  ts ← _attempts_of run_id s;
  rows ← mapM_result (λ ti : Attempt * list (json * json),
    mapM_result (metric_entry run_id (fst ti) (snd ti)) (list_metrics (at_attempt_id (fst ti)) s)) ts;
  Ok (List.filter (λ e, negb (complete_only && negb (truthy (mp_artifact_id e)))) (concat rows)).

Definition unsourced_metrics (run_id : string) (s : Store) : result (list MetricProvenance) :=
  entries ← index_metrics run_id false s;
  Ok (List.filter (λ e, negb (truthy (mp_artifact_id e))) entries).

(** ** Artifacts and events *)

(** [{**a, **b}] *)
Definition merge_dict (a b : dict) : dict := fold_left (λ d kv, dict_set (fst kv) (snd kv) d) b a.

Definition index_artifacts (run_id : string) (s : Store) : result (list dict) :=
  view ← describe_run run_id s;
  stages ← (v ← py_index "stages" (JObj view); py_list v);
  per_stage ← mapM_result (λ stage,
    views ← (v ← py_index "attempts" stage; py_list v);
    per_attempt ← mapM_result (λ attempt,
      items ← (v ← py_index "artifacts" attempt; py_list v);
      mapM_result (λ artifact,
        a ← as_object artifact;
        stage_key ← py_index "stage_key" stage;
        attempt_id ← py_index "attempt_id" attempt;
        Ok (merge_dict a [("run_id", JStr run_id); ("stage_key", stage_key);
                          ("attempt_id", attempt_id)])) items) views;
    Ok (concat per_attempt)) stages;
  Ok (concat per_stage).

Definition find_artifact (run_id artifact_id : string) (s : Store) : result (option dict) :=
  out ← index_artifacts run_id s;
  Ok (List.find (λ a, py_eqb (get_null "artifact_id" a) (JStr artifact_id)) out).

Definition timeline_entry (e : EventRow) : dict :=
  [("event_type", JStr (e_event_type e)); ("occurred_at", JInt (e_occurred_at e));
   ("producer", JStr (e_producer e)); ("payload", JObj (e_payload_json e));
   ("stage_run_id", match e_stage_run_id e with Some i => JStr i | None => JNull end);
   ("attempt_id", match e_attempt_id e with Some i => JStr i | None => JNull end)].
Definition timeline (run_id : string) (s : Store) : list dict := timeline_entry <$> list_events run_id s.

(** ** The graph *)

Record Node := MkNode { nd_id : string; nd_kind : string; nd_fields : dict }.
Record Edge := MkEdge { eg_from : string; eg_to : string; eg_kind : string }.
Definition ArtifactGraph : Type := list Node * list Edge.

Definition graph_app (g h : ArtifactGraph) : ArtifactGraph := (fst g ++ fst h, snd g ++ snd h).
Definition graph_concat (gs : list ArtifactGraph) : ArtifactGraph := foldr graph_app ([], []) gs.

(** [f"{v}"] of an identifier. *)
Definition id_of (k : string) (v : json) : result string := x ← py_index k v; Ok (str_of x).

Definition metric_id (attempt_id name : string) : string :=
  "metric:" +:+ attempt_id +:+ ":" +:+ name.

Definition artifact_part (attempt : json) (metrics : list json) (artifact : json) : result ArtifactGraph :=
  attempt_id ← id_of "attempt_id" attempt;
  artifact_id ← id_of "artifact_id" artifact;
  label ← py_index "store_key" artifact;
  kind ← py_index "kind" artifact;
  sha ← py_index "sha256" artifact;
  size ← py_index "size_bytes" artifact;
  let node := "artifact:" +:+ artifact_id in
  sources ← mapM_result (λ metric,
    m ← as_object metric;
    if negb (py_eqb (get_null "source_artifact_id" m) (JStr artifact_id)) then Ok []
    else name ← id_of "name" metric;
         Ok [MkEdge node (metric_id attempt_id name) "sources"]) metrics;
  Ok ([MkNode node "artifact" [("label", label); ("artifact_kind", kind); ("sha256", sha);
                               ("size_bytes", size)]],
      MkEdge ("attempt:" +:+ attempt_id) node "produced" :: concat sources).

Definition metric_part (attempt metric : json) : result ArtifactGraph :=
  attempt_id ← id_of "attempt_id" attempt;
  name ← id_of "name" metric;
  label ← py_index "name" metric;
  value ← py_index "value" metric;
  m ← as_object metric;
  let node := metric_id attempt_id name in
  Ok ([MkNode node "metric" [("label", label); ("value", value); ("unit", get_null "unit" m);
                             ("sourced", JBool (negb (is_null (get_null "source_artifact_id" m))))]],
      [MkEdge ("attempt:" +:+ attempt_id) node "measured"]).

Definition attempt_part (stage attempt : json) : result ArtifactGraph :=
  stage_run_id ← id_of "stage_run_id" stage;
  attempt_id ← id_of "attempt_id" attempt;
  number ← py_index "attempt_number" attempt;
  status ← py_index "status" attempt;
  worker ← py_index "worker_id" attempt;
  artifacts ← (v ← py_index "artifacts" attempt; py_list v);
  metrics ← (v ← py_index "metrics" attempt; py_list v);
  gs ← mapM_result (artifact_part attempt metrics) artifacts;
  hs ← mapM_result (metric_part attempt) metrics;
  let node := "attempt:" +:+ attempt_id in
  Ok (graph_concat (([MkNode node "attempt"
                        [("label", JStr ("attempt " +:+ match as_int number with
                                                       | Some n => pretty n | None => EmptyString end));
                         ("status", status); ("worker_id", worker)]],
                     [MkEdge ("stage:" +:+ stage_run_id) node "has_attempt"]) :: gs ++ hs)).

Definition stage_part (run_id : string) (stage : json) : result ArtifactGraph :=
  stage_run_id ← id_of "stage_run_id" stage;
  label ← py_index "stage_key" stage;
  status ← py_index "status" stage;
  plugin ← py_index "plugin_id" stage;
  version ← py_index "plugin_version" stage;
  attempts ← (v ← py_index "attempts" stage; py_list v);
  gs ← mapM_result (attempt_part stage) attempts;
  let node := "stage:" +:+ stage_run_id in
  Ok (graph_concat (([MkNode node "stage" [("label", label); ("status", status);
                                           ("plugin_id", plugin); ("plugin_version", version)]],
                     [MkEdge ("run:" +:+ run_id) node "has_stage"]) :: gs)).

Definition run_part (s : Store) (run_id : string) : result ArtifactGraph :=
  view ← describe_run run_id s;
  label ← py_index "task_id" (JObj view);
  status ← py_index "status" (JObj view);
  stages ← (v ← py_index "stages" (JObj view); py_list v);
  gs ← mapM_result (stage_part run_id) stages;
  Ok (graph_concat (([MkNode ("run:" +:+ run_id) "run" [("label", label); ("status", status)]], [])
                    :: gs)).

Definition artifact_graph (run_ids : list string) (s : Store) : result ArtifactGraph :=
  gs ← mapM_result (run_part s) run_ids; Ok (graph_concat gs).
