(* ===== verification/ProvenanceProps.v ===== *)
(** * The read models against their reference

    [matching_runs] and [lineage] say what the queries are to return; the theorems
    say that they return it. *)

From stdpp Require Import gmap.
From S2P Require Export Provenance.
Open Scope string_scope.
Open Scope list_scope.

(** ** Pages of runs *)

Definition matching_run (s : Store) (f : RunFilter) (wanted : option RuntimeStatus) (run_id : string)
    : option RunRecord :=
  if not_owned f run_id then None
  else match get_run run_id s with
       | Ok run => if rejected f wanted run then None else Some run
       | Err _ => None
       end.

(** The runs a filter selects, newest first. *)
Definition matching_runs (f : RunFilter) (wanted : option RuntimeStatus) (s : Store) : list RunRecord :=
  omap (matching_run s f wanted) (newest_first s).

Lemma loads_all s run_id : store_ok s → run_id ∈ newest_first s → ∃ run, get_run run_id s = Ok run.
Proof.
  intros Hok (row & -> & Hin)%list_elem_of_fmap. rewrite elem_of_order_by in Hin.
  unfold get_run, is_run. rewrite (fetchone_unique r_run_id _ row (ro_runs _ _ (so_runs s Hok)) Hin).
  destruct (row_loads s Hok row Hin) as (rec & H & _). by exists rec.
Qed.

Lemma collect_runs_spec s f wanted skip room rows : (1 ≤ room)%nat →
  (∀ run_id, run_id ∈ rows → ∃ run, get_run run_id s = Ok run) →
  collect_runs s f wanted skip room rows
  = Ok (_summary s <$> take room (drop skip (omap (matching_run s f wanted) rows))).
Proof.
  revert skip room. induction rows as [|run_id rows IH]; intros skip room Hroom Hl; csimpl.
  { by rewrite drop_nil, take_nil. }
  assert (∀ run_id, run_id ∈ rows → ∃ run, get_run run_id s = Ok run) as Hl' by (intros; apply Hl; by right).
  unfold matching_run at 1. destruct (not_owned f run_id); [by apply IH|].
  destruct (Hl run_id ltac:(left)) as [run Hrun]. rewrite Hrun. cbn [mbind result_bind].
  destruct (rejected f wanted run); [by apply IH|]. destruct skip as [|skip]; [|by apply IH].
  destruct room as [|[|room]]; [lia|done|]. rewrite IH by (done || lia). done.
Qed.

Lemma index_runs_spec f wanted limit offset s : store_ok s → wanted_status f = Ok wanted →
  (1 ≤ limit ≤ MAX_RUN_LIMIT)%Z → (0 ≤ offset)%Z →
  index_runs f limit offset s
  = Ok (_summary s <$> take (Z.to_nat limit) (drop (Z.to_nat offset) (matching_runs f wanted s))).
Proof.
  intros Hok Hw Hl Ho. unfold index_runs, raise_when.
  rewrite (proj2 (Z.leb_le 1 limit)), (proj2 (Z.leb_le limit MAX_RUN_LIMIT)), (proj2 (Z.ltb_ge offset 0)) by lia.
  cbn [andb negb mbind result_bind]. rewrite Hw. cbn [mbind result_bind].
  apply collect_runs_spec; [lia|]. intros run_id. by apply loads_all.
Qed.

Lemma count_pages_spec fuel f wanted offset total s : store_ok s → wanted_status f = Ok wanted →
  let n := Z.of_nat (length (matching_runs f wanted s)) in
  (0 ≤ offset ≤ n)%Z → ((n - offset) / MAX_RUN_LIMIT < Z.of_nat fuel)%Z →
  count_pages fuel f offset total s = Ok (Some (total + (n - offset))%Z).
Proof.
  intros Hok Hw n. revert offset total. induction fuel as [|fuel IH]; intros offset total Ho Hf.
  { assert (0 ≤ (n - offset) / MAX_RUN_LIMIT)%Z by (apply Z.div_pos; unfold MAX_RUN_LIMIT; lia). lia. }
  simpl. rewrite (index_runs_spec f wanted) by (done || unfold MAX_RUN_LIMIT; lia).
  cbn [mbind result_bind]. rewrite length_fmap, length_take, length_drop.
  fold n. unfold MAX_RUN_LIMIT in *.
  destruct (Z.ltb_spec (Z.of_nat (Z.to_nat 500 `min` (length (matching_runs f wanted s) - Z.to_nat offset))) 500).
  - f_equal. f_equal. unfold n in *. lia.
  - rewrite IH; [f_equal; f_equal; unfold n in *; lia|unfold n in *; lia|].
    assert (Z.of_nat (Z.to_nat 500 `min` (length (matching_runs f wanted s) - Z.to_nat offset)) = 500%Z) as ->
      by (unfold n in *; lia).
    replace (n - (offset + 500))%Z with ((n - offset) + (-1) * 500)%Z by lia.
    rewrite Z.div_add by lia. lia.
Qed.

Lemma omap_of_fmap {A B C} (h : A → B) (g : B → option C) (l : list A) : omap g (h <$> l) = omap (g ∘ h) l.
Proof. induction l as [|x l IH]; csimpl; [done|]. rewrite IH. done. Qed.

Lemma StronglySorted_omap {A B} (R : A → A → Prop) (R' : B → B → Prop) (g : A → option B) (l : list A) :
  (∀ x y a b, x ∈ l → y ∈ l → R x y → g x = Some a → g y = Some b → R' a b) →
  StronglySorted R l → StronglySorted R' (omap g l).
Proof.
  intros H Hs. induction Hs as [|x l Hs IH Hall]; [constructor|].
  assert (StronglySorted R' (omap g l)) as Hl by (apply IH; intros; eapply H; eauto; by right).
  csimpl. destruct (g x) as [a|] eqn:E; [|done]. constructor; [done|].
  apply Forall_forall. intros b Hb. apply list_elem_of_omap in Hb as (y & Hy & Eb).
  rewrite Forall_forall in Hall. eapply (H x y); [left|by right|by apply Hall|done|done].
Qed.

Lemma matching_run_Some s f wanted run_id run : matching_run s f wanted run_id = Some run →
  rec_run_id run = run_id ∧ get_run run_id s = Ok run ∧ rejected f wanted run = false ∧
  not_owned f run_id = false.
Proof.
  unfold matching_run. destruct (not_owned f run_id) eqn:Eo; [done|].
  destruct (get_run run_id s) as [rec|] eqn:E; [|done]. destruct (rejected f wanted rec) eqn:Er; [done|].
  intros [= <-]. split_and!; try done. unfold get_run, _run_from_row in E. invert_ok.
  match goal with H : fetchone _ _ = Some _ |- _ => apply fetchone_Some in H as [_ H] end.
  unfold is_run in *. by bool_simpl.
Qed.

Lemma matching_runs_elem f wanted s run : run ∈ matching_runs f wanted s ↔
  get_run (rec_run_id run) s = Ok run ∧ rejected f wanted run = false ∧ not_owned f (rec_run_id run) = false.
Proof.
  unfold matching_runs. rewrite list_elem_of_omap. split.
  - intros (i & _ & H). apply matching_run_Some in H as (-> & H). exact H.
  - intros (Hg & Hr & Hn). exists (rec_run_id run). split.
    + destruct (fetchone (is_run (rec_run_id run)) (runs s)) as [row|] eqn:E;
        [|unfold get_run in Hg; by rewrite E in Hg].
      apply fetchone_Some in E as [Hin E]. unfold is_run in E. bool_simpl. rewrite <-E.
      unfold newest_first. apply list_elem_of_fmap_2. by rewrite elem_of_order_by.
    + unfold matching_run. by rewrite Hn, Hg, Hr.
Qed.

Lemma get_run_of_row s row run : store_ok s → row ∈ runs s → get_run (r_run_id row) s = Ok run →
  rec_created_at run = r_created_at row.
Proof.
  intros Hok Hin. unfold get_run, is_run.
  rewrite (fetchone_unique r_run_id _ row (ro_runs _ _ (so_runs s Hok)) Hin). simpl.
  unfold _run_from_row. intros H. by invert_ok.
Qed.

Lemma newest_first_nodup s : store_ok s → NoDup (newest_first s).
Proof.
  intros Hok. unfold newest_first. rewrite order_by_perm. apply (ro_runs _ _ (so_runs s Hok)).
Qed.

Lemma matching_ids_sublist s f wanted l : rec_run_id <$> omap (matching_run s f wanted) l `sublist_of` l.
Proof.
  induction l as [|i l IH]; csimpl; [done|]. destruct (matching_run s f wanted i) as [run|] eqn:E; csimpl.
  - apply matching_run_Some in E as [-> _]. by apply sublist_skip.
  - by apply sublist_cons.
Qed.

Lemma matching_runs_length f wanted s : (length (matching_runs f wanted s) ≤ length (runs s))%nat.
Proof.
  pose proof (sublist_length _ _ (matching_ids_sublist s f wanted (newest_first s))) as H.
  rewrite length_fmap in H. unfold matching_runs. etrans; [exact H|].
  unfold newest_first. by rewrite length_fmap, (Permutation_length (order_by_perm _ _)).
Qed.

(** A page of the run index is the slice of the runs that pass the filters, newest
    first and each once, and the count, which needs one page for every 500 runs, is
    their number. *)
Theorem runs_paged f wanted limit offset fuel s : store_ok s → wanted_status f = Ok wanted →
  (1 ≤ limit ≤ MAX_RUN_LIMIT)%Z → (0 ≤ offset)%Z → (length (runs s) < fuel)%nat →
  (* a page is that stretch of the runs the filter selects *)
  index_runs f limit offset s
    = Ok (_summary s <$> take (Z.to_nat limit) (drop (Z.to_nat offset) (matching_runs f wanted s))) ∧
  count_runs fuel f s = Ok (Some (Z.of_nat (length (matching_runs f wanted s)))) ∧
  (* each of them once, newest first, and only the caller's when owners are asked for *)
  NoDup (rec_run_id <$> matching_runs f wanted s) ∧
  StronglySorted (λ a b, rec_created_at b ≤ rec_created_at a)%Z (matching_runs f wanted s) ∧
  ∀ run, run ∈ matching_runs f wanted s ↔
    get_run (rec_run_id run) s = Ok run ∧ rejected f wanted run = false ∧
    not_owned f (rec_run_id run) = false.
Proof.
  intros Hok Hw Hl Ho Hf. pose proof (matching_runs_length f wanted s) as Hlen. split_and!.
  - by apply index_runs_spec.
  - unfold count_runs. set (n := Z.of_nat (length (matching_runs f wanted s))) in *.
    assert ((n - 0) / MAX_RUN_LIMIT ≤ n)%Z
      by (apply Z.div_le_upper_bound; unfold MAX_RUN_LIMIT, n; lia).
    rewrite (count_pages_spec fuel f wanted 0 0 s Hok Hw) by (fold n; unfold n in *; lia).
    f_equal. f_equal. fold n. lia.
  - eapply sublist_NoDup; [|apply matching_ids_sublist]. by apply newest_first_nodup.
  - unfold matching_runs, newest_first. rewrite omap_of_fmap.
    apply (StronglySorted_omap (λ r1 r2, - r_created_at r1 ≤ - r_created_at r2)%Z); [|apply order_by_ordered].
    intros x y a b Hx Hy Hxy Ha Hb. rewrite elem_of_order_by in Hx, Hy.
    apply matching_run_Some in Ha as (_ & Ha & _), Hb as (_ & Hb & _).
    rewrite (get_run_of_row s x a Hok Hx Ha), (get_run_of_row s y b Hok Hy Hb). lia.
  - apply matching_runs_elem.
Qed.

(** ** Lineage *)

Definition index_of (s : Store) (t : Attempt) : list (json * json) :=
  (λ a, (JStr (ar_artifact_id a), describe_artifact a)) <$> list_artifacts (at_attempt_id t) s.

(** The artifact a metric of the attempt names. *)
Definition source_of (s : Store) (t : Attempt) (m : Metric) : option ArtifactRow :=
  List.find (λ a, py_eqb (JStr (ar_artifact_id a)) (or_empty_str (m_source_artifact_id m)))
            (rev (list_artifacts (at_attempt_id t) s)).

Definition lineage_entry (run_id : string) (s : Store) (t : Attempt) (m : Metric) : MetricProvenance :=
  let entry := MkMetricProvenance (m_name m) (m_value m) (m_unit m) (m_parser_id m)
                 (m_parser_version m) run_id (at_attempt_id t) in
  match source_of s t m with
  | Some a => entry (JStr (ar_artifact_id a)) (JStr (ar_kind a)) (JStr (ar_sha256 a))
                    (JInt (ar_size_bytes a))
  | None => entry JNull JNull JNull JNull
  end.

Definition attempts_of_run (run_id : string) (s : Store) : list Attempt :=
  stage ← list_stages run_id s; list_attempts (s_stage_run_id stage) s.

(** One entry for every metric of every attempt of the run. *)
Definition lineage (run_id : string) (s : Store) : list MetricProvenance :=
  t ← attempts_of_run run_id s; m ← list_metrics (at_attempt_id t) s; [lineage_entry run_id s t m].

Lemma artifact_index_run items :
  artifact_index (describe_artifact <$> items) = Ok ((λ a, (JStr (ar_artifact_id a), describe_artifact a)) <$> items).
Proof. unfold artifact_index. apply mapM_result_Ok. induction items; csimpl; constructor; done. Qed.

Lemma find_attempt s t stage_run_id : store_ok s → t ∈ list_attempts stage_run_id s →
  List.find (λ a, py_eqb (JStr (at_attempt_id a)) (JStr (at_attempt_id t))) (list_attempts stage_run_id s) = Some t.
Proof.
  intros Hok Ht. simpl. apply (fetchone_unique at_attempt_id); [|done]. unfold list_attempts.
  rewrite <-list_fmap_compose, order_by_perm. apply NoDup_fmap_sel, (ao_ids _ _ (so_attempts s Hok)).
Qed.

Lemma attempt_of_view_spec s g t v kvs : store_ok s → t ∈ list_attempts (s_stage_run_id g) s →
  describe_attempt s t = Ok v →
  attempt_of_view s (JObj (("stage_run_id", JStr (s_stage_run_id g)) :: kvs)) v = Ok (t, index_of s t).
Proof.
  intros Hok Ht Hv. unfold describe_attempt in Hv. apply bind_Ok in Hv as (ins & _ & Hv).
  apply bind_Ok in Hv as (ms & _ & Hv). injection Hv as <-.
  unfold attempt_of_view. index_step "artifacts". rewrite artifact_index_run. cbn [mbind result_bind].
  index_step "stage_run_id". index_step "attempt_id". cbn [str_of]. by rewrite find_attempt.
Qed.

Lemma attempts_of_stage_spec s g v : store_ok s → describe_stage s g = Ok v →
  attempts_of_stage s v = Ok ((λ t, (t, index_of s t)) <$> list_attempts (s_stage_run_id g) s).
Proof.
  intros Hok Hv. unfold describe_stage in Hv. apply bind_Ok in Hv as (ts & Hts & Hv). injection Hv as <-.
  unfold attempts_of_stage. index_step "attempts". eapply mapM_result_ext; [exact Hts|].
  intros t v Ht Hv. by apply attempt_of_view_spec.
Qed.

Lemma attempts_of_spec run_id s view : store_ok s → describe_run run_id s = Ok view →
  _attempts_of run_id s = Ok ((λ t, (t, index_of s t)) <$> attempts_of_run run_id s).
Proof.
  intros Hok Hd. unfold _attempts_of. rewrite Hd. cbn [mbind result_bind].
  unfold describe_run in Hd. apply bind_Ok in Hd as (run & _ & Hd). apply bind_Ok in Hd as (gs & Hgs & Hd).
  injection Hd as <-. index_step "stages".
  rewrite (mapM_result_ext _ (attempts_of_stage s)
    (λ g, (λ t, (t, index_of s t)) <$> list_attempts (s_stage_run_id g) s) _ _ Hgs) by
    (intros g v _ Hv; by apply attempts_of_stage_spec).
  cbn [mbind result_bind]. f_equal. unfold attempts_of_run.
  rewrite concat_bind. clear Hgs. induction (list_stages run_id s) as [|g l IH]; csimpl; [done|].
  by rewrite fmap_app, IH.
Qed.

Lemma index_get_map {A} (f g : A → json) k (l : list A) :
  index_get k ((λ a, (f a, g a)) <$> l) = g <$> List.find (λ a, py_eqb (f a) k) (rev l).
Proof.
  unfold index_get. rewrite <-(map_rev (λ a, (f a, g a))).
  induction (rev l) as [|a t IH]; simpl; [done|]. by destruct (py_eqb (f a) k).
Qed.

Lemma metric_entry_spec run_id s t m :
  metric_entry run_id t (index_of s t) m = Ok (lineage_entry run_id s t m).
Proof.
  unfold metric_entry, lineage_entry, source_of, index_of.
  rewrite (index_get_map (λ a, JStr (ar_artifact_id a)) describe_artifact).
  destruct (List.find _ _) as [a|]; [|done]. cbn [fmap option_fmap option_map].
  unfold describe_artifact. index_step "artifact_id". index_step "kind".
  index_step "sha256". by index_step "size_bytes".
Qed.

(** What an entry of the lineage says is what the store holds. *)
Lemma lineage_sound run_id s e : e ∈ lineage run_id s →
  mp_run_id e = run_id ∧
  ∃ t m, t ∈ attempts_of_run run_id s ∧ m ∈ list_metrics (at_attempt_id t) s ∧
    mp_attempt_id e = at_attempt_id t ∧ mp_name e = m_name m ∧ mp_value e = m_value m ∧
    match source_of s t m with
    | Some a => a ∈ list_artifacts (at_attempt_id t) s ∧
        or_empty_str (m_source_artifact_id m) = JStr (ar_artifact_id a) ∧
        mp_artifact_id e = JStr (ar_artifact_id a) ∧ mp_artifact_sha256 e = JStr (ar_sha256 a) ∧
        mp_artifact_size_bytes e = JInt (ar_size_bytes a)
    | None => mp_artifact_id e = JNull
    end.
Proof.
  intros (t & He & Ht)%list_elem_of_bind. apply list_elem_of_bind in He as (m & He & Hm).
  apply list_elem_of_singleton in He as ->. unfold lineage_entry.
  destruct (source_of s t m) as [a|] eqn:E; (split; [done|]); exists t, m; rewrite E; split_and!; try done.
  - apply find_some in E as [Hin _]. by apply list_elem_of_In, in_rev.
  - apply find_some in E as [_ E]. simpl in E.
    destruct (or_empty_str (m_source_artifact_id m)); try done. bool_simpl. by subst.
Qed.

(** The metrics of a run, read through its nested projection, are the stored metrics
    of its attempts, and one reported with an artifact names a registered artifact of
    the attempt that measured it. *)
Theorem metric_lineage run_id complete_only s view : store_ok s →
  describe_run run_id s = Ok view →
  (* one entry for every metric of the run, in order, the unsourced ones on request *)
  index_metrics run_id complete_only s
    = Ok (List.filter (λ e, negb (complete_only && negb (truthy (mp_artifact_id e)))) (lineage run_id s)) ∧
  unsourced_metrics run_id s
    = Ok (List.filter (λ e, negb (truthy (mp_artifact_id e))) (lineage run_id s)) ∧
  (* an entry is traced to an artifact of its own attempt, with the registered hash and size *)
  ∀ e, e ∈ lineage run_id s →
    mp_run_id e = run_id ∧
    ∃ t m, t ∈ attempts_of_run run_id s ∧ m ∈ list_metrics (at_attempt_id t) s ∧
      mp_attempt_id e = at_attempt_id t ∧ mp_name e = m_name m ∧ mp_value e = m_value m ∧
      match source_of s t m with
      | Some a => a ∈ list_artifacts (at_attempt_id t) s ∧
          or_empty_str (m_source_artifact_id m) = JStr (ar_artifact_id a) ∧
          mp_artifact_id e = JStr (ar_artifact_id a) ∧ mp_artifact_sha256 e = JStr (ar_sha256 a) ∧
          mp_artifact_size_bytes e = JInt (ar_size_bytes a)
      | None => mp_artifact_id e = JNull
      end.
Proof.
  intros Hok Hd. assert (∀ co, index_metrics run_id co s
    = Ok (List.filter (λ e, negb (co && negb (truthy (mp_artifact_id e)))) (lineage run_id s))) as Hm.
  { intros co. unfold index_metrics. rewrite (attempts_of_spec run_id s view Hok Hd). cbn [mbind result_bind].
    assert (mapM_result (λ ti : Attempt * list (json * json),
        mapM_result (metric_entry run_id (fst ti) (snd ti)) (list_metrics (at_attempt_id (fst ti)) s))
        ((λ t, (t, index_of s t)) <$> attempts_of_run run_id s)
      = Ok ((λ t, lineage_entry run_id s t <$> list_metrics (at_attempt_id t) s) <$> attempts_of_run run_id s)) as ->.
    { rewrite (mapM_result_ext (λ t, Ok (t, index_of s t)) _
        (λ t, lineage_entry run_id s t <$> list_metrics (at_attempt_id t) s)
        (attempts_of_run run_id s)); [done|by apply mapM_result_total|].
      intros t ti _ [= <-]. apply mapM_result_total. intros m. apply metric_entry_spec. }
    cbn [mbind result_bind]. f_equal. f_equal. rewrite concat_bind. unfold lineage.
    induction (attempts_of_run run_id s) as [|t l IH]; csimpl; [done|]. rewrite IH. f_equal. }
  split_and!; [apply Hm| |intros e; apply lineage_sound].
  unfold unsourced_metrics. rewrite Hm. cbn [mbind result_bind]. do 2 f_equal. clear Hm.
  induction (lineage run_id s) as [|e l IH]; [done|]. simpl. f_equal. exact IH.
Qed.

(** ** The graph *)

Definition node_ids (g : ArtifactGraph) : list string := nd_id <$> fst g.

(** Both ends of every edge are among [nodes]. *)
Definition edges_in (nodes : list string) (g : ArtifactGraph) : Prop :=
  ∀ e, e ∈ snd g → eg_from e ∈ nodes ∧ eg_to e ∈ nodes.

Lemma node_ids_concat gs i : i ∈ node_ids (graph_concat gs) ↔ ∃ g, g ∈ gs ∧ i ∈ node_ids g.
Proof.
  unfold node_ids. induction gs as [|g gs IH]; simpl.
  - rewrite elem_of_nil. split; [done|]. by intros (? & ?%elem_of_nil & _).
  - rewrite fmap_app, elem_of_app, IH. set_solver.
Qed.

Lemma edges_concat gs e : e ∈ snd (graph_concat gs) ↔ ∃ g, g ∈ gs ∧ e ∈ snd g.
Proof.
  induction gs as [|g gs IH]; simpl.
  - rewrite elem_of_nil. split; [done|]. by intros (? & ?%elem_of_nil & _).
  - rewrite elem_of_app, IH. set_solver.
Qed.

Lemma edges_in_concat nodes gs : (∀ g, g ∈ gs → edges_in nodes g) → edges_in nodes (graph_concat gs).
Proof. intros H e (g & Hg & He)%edges_concat. by apply (H g). Qed.

Lemma nodes_part nodes g gs : node_ids (graph_concat gs) ⊆ nodes → g ∈ gs → node_ids g ⊆ nodes.
Proof. intros H Hg i Hi. apply H, node_ids_concat. eauto. Qed.

Lemma metric_part_edges nodes attempt metric g attempt_id : metric_part attempt metric = Ok g →
  id_of "attempt_id" attempt = Ok attempt_id →
  node_ids g ⊆ nodes → "attempt:" +:+ attempt_id ∈ nodes →
  edges_in nodes g ∧ ∀ name, id_of "name" metric = Ok name → metric_id attempt_id name ∈ nodes.
Proof.
  intros H Ha Hn Hin. unfold metric_part in H. rewrite Ha in H. cbn [mbind result_bind] in H. invert_ok.
  assert (metric_id attempt_id x ∈ nodes) as Hx by (apply Hn; left). split.
  - intros e ->%list_elem_of_singleton. by split.
  - intros name Hname. congruence.
Qed.

Lemma artifact_part_edges nodes attempt metrics artifact g attempt_id :
  artifact_part attempt metrics artifact = Ok g → id_of "attempt_id" attempt = Ok attempt_id →
  node_ids g ⊆ nodes → "attempt:" +:+ attempt_id ∈ nodes →
  (∀ m name, m ∈ metrics → id_of "name" m = Ok name → metric_id attempt_id name ∈ nodes) →
  edges_in nodes g.
Proof.
  intros H Ha Hn Hin Hm. unfold artifact_part in H. rewrite Ha in H. cbn [mbind result_bind] in H.
  apply bind_Ok in H as (i & _ & H). apply bind_Ok in H as (l & _ & H). apply bind_Ok in H as (k & _ & H).
  apply bind_Ok in H as (sh & _ & H). apply bind_Ok in H as (sz & _ & H).
  apply bind_Ok in H as (es & Hes & H). injection H as <-.
  assert ("artifact:" +:+ i ∈ nodes) as Hi by (apply Hn; left).
  intros e [-> |He]%elem_of_cons; [by split|].
  apply elem_of_concat in He as (l' & Hl' & He).
  destruct (mapM_result_elem_r _ _ _ _ Hes Hl') as (m & Hmin & Hr).
  apply bind_Ok in Hr as (d & _ & Hr). destruct (negb _).
  - injection Hr as <-. by apply not_elem_of_nil in He.
  - apply bind_Ok in Hr as (name & Hname & Hr). injection Hr as <-.
    apply list_elem_of_singleton in He as ->. split; [exact Hi|]. by apply (Hm m).
Qed.

Lemma attempt_part_edges nodes stage attempt g stage_run_id :
  attempt_part stage attempt = Ok g → id_of "stage_run_id" stage = Ok stage_run_id →
  node_ids g ⊆ nodes → "stage:" +:+ stage_run_id ∈ nodes → edges_in nodes g.
Proof.
  intros H Hs Hn Hin. unfold attempt_part in H. rewrite Hs in H. cbn [mbind result_bind] in H.
  apply bind_Ok in H as (aid & Ha & H).
  apply bind_Ok in H as (num & _ & H). apply bind_Ok in H as (st & _ & H).
  apply bind_Ok in H as (wk & _ & H). apply bind_Ok in H as (arts & _ & H).
  apply bind_Ok in H as (ms & _ & H). apply bind_Ok in H as (gs & Hgs & H).
  apply bind_Ok in H as (hs & Hhs & H). apply Ok_inj in H as <-.
  assert ("attempt:" +:+ aid ∈ nodes) as Haid.
  { apply Hn, node_ids_concat. eexists. split; [left|]. left. }
  assert (∀ h, h ∈ gs ++ hs → node_ids h ⊆ nodes) as Hsub.
  { intros h Hh. eapply nodes_part; [exact Hn|]. by right. }
  apply edges_in_concat. intros h [-> |[Hh|Hh]%elem_of_app]%elem_of_cons.
  - intros e ->%list_elem_of_singleton. by split.
  - destruct (mapM_result_elem_r _ _ _ _ Hgs Hh) as (art & _ & Hart).
    eapply artifact_part_edges; [exact Hart|exact Ha|apply Hsub; apply elem_of_app; by left|done|].
    intros m name Hm Hname. apply mapM_result_Ok in Hhs.
    destruct (list_elem_of_lookup_1 _ _ Hm) as [i Hi].
    destruct (Forall2_lookup_l _ _ _ _ _ Hhs Hi) as (h' & Hh' & Hp).
    assert (h' ∈ gs ++ hs) as Hin' by (apply elem_of_app; right; by eapply list_elem_of_lookup_2).
    eapply (metric_part_edges nodes attempt m h' aid); [exact Hp|exact Ha|by apply Hsub|done|done].
  - destruct (mapM_result_elem_r _ _ _ _ Hhs Hh) as (m & _ & Hp).
    eapply (metric_part_edges nodes attempt m h aid); [exact Hp|exact Ha|apply Hsub; apply elem_of_app; by right|done].
Qed.

Lemma stage_part_edges nodes run_id stage g : stage_part run_id stage = Ok g →
  node_ids g ⊆ nodes → "run:" +:+ run_id ∈ nodes → edges_in nodes g.
Proof.
  intros H Hn Hin. unfold stage_part in H. apply bind_Ok in H as (sid & Hs & H).
  apply bind_Ok in H as (l & _ & H). apply bind_Ok in H as (st & _ & H).
  apply bind_Ok in H as (pl & _ & H). apply bind_Ok in H as (ve & _ & H).
  apply bind_Ok in H as (ats & _ & H). apply bind_Ok in H as (gs & Hgs & H). apply Ok_inj in H as <-.
  assert ("stage:" +:+ sid ∈ nodes) as Hsid.
  { apply Hn, node_ids_concat. eexists. split; [left|]. left. }
  apply edges_in_concat. intros h [-> |Hh]%elem_of_cons.
  - intros e ->%list_elem_of_singleton. by split.
  - destruct (mapM_result_elem_r _ _ _ _ Hgs Hh) as (a & _ & Ha).
    eapply attempt_part_edges; [exact Ha|exact Hs| |done]. eapply nodes_part; [exact Hn|by right].
Qed.

(** In the graph of any runs every edge joins two nodes of the graph, and every run
    asked for is a node of it. *)
Theorem graph_closed run_ids s nodes edges : artifact_graph run_ids s = Ok (nodes, edges) →
  (* both ends of every edge are nodes of the graph *)
  (∀ e, e ∈ edges → eg_from e ∈ nd_id <$> nodes ∧ eg_to e ∈ nd_id <$> nodes) ∧
  (* every run asked for is there *)
  (∀ run_id, run_id ∈ run_ids → "run:" +:+ run_id ∈ nd_id <$> nodes).
Proof.
  intros H. unfold artifact_graph in H. apply bind_Ok in H as (gs & Hgs & H). apply Ok_inj in H as Hg.
  change (nd_id <$> nodes) with (node_ids (nodes, edges)). rewrite <-Hg.
  assert (∀ run_id g, run_part s run_id = Ok g → "run:" +:+ run_id ∈ node_ids g) as Hrun.
  { intros run_id g Hp. unfold run_part in Hp. apply bind_Ok in Hp as (v & _ & Hp).
    apply bind_Ok in Hp as (l & _ & Hp). apply bind_Ok in Hp as (st & _ & Hp).
    apply bind_Ok in Hp as (sts & _ & Hp). apply bind_Ok in Hp as (ps & _ & Hp). apply Ok_inj in Hp as <-.
    apply node_ids_concat. eexists. split; [left|]. left. }
  split.
  - change edges with (snd (nodes, edges)). rewrite <-Hg. apply edges_in_concat. intros g Hin.
    destruct (mapM_result_elem_r _ _ _ _ Hgs Hin) as (run_id & _ & Hp).
    assert (node_ids g ⊆ node_ids (graph_concat gs)) as Hsub by (by eapply nodes_part).
    assert ("run:" +:+ run_id ∈ node_ids (graph_concat gs)) as Hr by by apply Hsub, Hrun.
    unfold run_part in Hp. apply bind_Ok in Hp as (v & _ & Hp).
    apply bind_Ok in Hp as (l & _ & Hp). apply bind_Ok in Hp as (st & _ & Hp).
    apply bind_Ok in Hp as (sts & _ & Hp). apply bind_Ok in Hp as (ps & Hps & Hp). apply Ok_inj in Hp as <-.
    apply edges_in_concat. intros h [-> |Hh]%elem_of_cons; [by intros e ?%not_elem_of_nil|].
    destruct (mapM_result_elem_r _ _ _ _ Hps Hh) as (stage & _ & Hst).
    eapply stage_part_edges; [exact Hst| |done]. etrans; [|exact Hsub].
    intros i Hi. apply node_ids_concat. exists h. split; [by right|done].
  - intros run_id Hr. apply mapM_result_Ok in Hgs. destruct (list_elem_of_lookup_1 _ _ Hr) as [i Hi].
    destruct (Forall2_lookup_l _ _ _ _ _ Hgs Hi) as (g & Hgi & Hp).
    apply node_ids_concat. exists g. split; [by eapply list_elem_of_lookup_2|by apply Hrun].
Qed.

(** ** A run with a sourced and an unsourced metric *)

Definition demo_artifact : ArtifactRow :=
  MkArtifactRow "artifact-1" "attempt-a1" "report" "report.json" 12 "0a" [] 2500 STORAGE_OBJECT.
Definition demo_metric (name : string) (source : json) : MetricRow :=
  MkMetricRow ("metric-" +:+ name) "attempt-a1"
    (MkMetric (JStr name) (JInt 3) JNull source JNull JNull (JObj []) (JInt SCHEMA_VERSION)) 2600.
Definition demo_evidence : Store :=
  on_metrics (λ _, [demo_metric "area" (JStr "artifact-1"); demo_metric "power" JNull])
    (on_artifacts (λ _, [demo_artifact]) demo_running).

Lemma demo_evidence_ok : store_ok demo_evidence.
Proof. destruct (reachable_ok _ demo_running_reachable) as [H1 H2 H3]. by constructor. Qed.

Lemma runs_paged_witness :
  index_runs (MkRunFilter None None None None (Some ["run-r1"])) 10 0 demo_evidence
    = Ok (_summary demo_evidence <$> take 10 (drop 0 (matching_runs
            (MkRunFilter None None None None (Some ["run-r1"])) None demo_evidence))) ∧
  count_runs 2 (MkRunFilter None None None None (Some ["run-r1"])) demo_evidence = Ok (Some 1%Z).
Proof.
  destruct (runs_paged (MkRunFilter None None None None (Some ["run-r1"])) None 10 0 2 demo_evidence
    demo_evidence_ok) as (H1 & H2 & _).
  - reflexivity.
  - unfold MAX_RUN_LIMIT. lia.
  - lia.
  - vm_compute. lia.
  - split; [exact H1|]. rewrite H2. vm_compute. reflexivity.
Defined.

Lemma metric_lineage_witness :
  unsourced_metrics "run-r1" demo_evidence
    = Ok (List.filter (λ e, negb (truthy (mp_artifact_id e))) (lineage "run-r1" demo_evidence)) ∧
  (λ e, (mp_name e, mp_artifact_sha256 e)) <$> lineage "run-r1" demo_evidence
    = [(JStr "area", JStr "0a"); (JStr "power", JNull)].
Proof.
  assert (is_Ok (describe_run "run-r1" demo_evidence) = true) as H by (vm_compute; reflexivity).
  destruct (describe_run "run-r1" demo_evidence) as [view|e] eqn:E; [|discriminate H].
  split; [|vm_compute; reflexivity].
  exact (proj1 (proj2 (metric_lineage "run-r1" false demo_evidence view demo_evidence_ok E))).
Defined.

Lemma graph_closed_witness :
  ∃ nodes edges, artifact_graph ["run-r1"] demo_evidence = Ok (nodes, edges) ∧
    length nodes = 6%nat ∧ length edges = 6%nat ∧
    ∀ e, e ∈ edges → eg_from e ∈ nd_id <$> nodes ∧ eg_to e ∈ nd_id <$> nodes.
Proof.
  assert (∃ nodes edges, artifact_graph ["run-r1"] demo_evidence = Ok (nodes, edges) ∧
    length nodes = 6%nat ∧ length edges = 6%nat) as (nodes & edges & H & Hn & He)
    by (vm_compute; do 2 eexists; split_and!; reflexivity).
  exists nodes, edges. split; [exact H|]. split; [exact Hn|]. split; [exact He|].
  exact (proj1 (graph_closed ["run-r1"] demo_evidence nodes edges H)).
Defined.
