(* ===== verification/Registry.v ===== *)
(** * core/registry: discovery, admission and resolution of plugins

    What a plugin ships (its manifest and its provenance) and what the platform has
    decided about it (its admission record) are read from two places.  The host's
    files are a function from paths, the sorted listings of the plugin root are
    arguments, and [loads] is [json.loads].  A registry is its plugins in order of
    registration, as the dict keeps them. *)

From S2P Require Export Task Progress Sql PyValue Json.
Open Scope string_scope.
Open Scope list_scope.

Definition MANIFEST_SUFFIX : string := ".plugin.json".
Definition PROVENANCE_FILENAME : string := "provenance.json".
Definition ADMISSION_SUFFIX : string := ".json".
Definition ADMITTED : string := "admitted".
Definition SOURCE_AUDIT_ONLY : string := "source-audit-only".
Definition UNKNOWN : string := "unknown".
Definition EXECUTABLE_LICENSES : list string := ["green"; "yellow"].

(** [except ContractError: raise RegistryError] *)
Definition as_registry_error {A} (m : result A) : result A :=
  match m with Err (ContractError what) => Err (RegistryError what) | r => r end.

(** ** Provenance: the plugin's statement about its origin *)

Record Provenance := MkProvenance {
  pv_license : json;
  pv_source_url : json;
  pv_source_commit : json;
  pv_notes : json }.

Definition unstated : Provenance := MkProvenance JNull JNull JNull JNull.

Definition string_field (name : string) (payload : dict) : result unit :=
  let value := get_null name payload in
  raise_when (negb (is_null value) && negb (is_str value)) (RegistryError name).

Definition Provenance_from_dict (payload : json) : result Provenance :=
  as_registry_error
    (only_fields "provenance" ["license"; "source_url"; "source_commit"; "notes"] payload);;
  d ← as_object payload;
  iterM_result (λ name, string_field name d) ["license"; "notes"; "source_commit"; "source_url"];;
  Ok (MkProvenance (get_null "license" d) (get_null "source_url" d)
                   (get_null "source_commit" d) (get_null "notes" d)).

(** ** Admission: the platform's decision *)

Record Admission := MkAdmission {
  ad_plugin_id : json;
  ad_status : string;
  ad_license_review : json;
  ad_approved_commit : json;
  ad_reviewer : json;
  ad_reason : json }.

(** [(v or EmptyString).lower()], which only a string has. *)
Definition lowered (v : json) : result string :=
  if truthy v then match v with JStr s => Ok (lower s) | _ => Err (OtherError "AttributeError") end
  else Ok EmptyString.

Definition Admission_validate (a : Admission) : result unit :=
  validate_identifier "plugin_id" (ad_plugin_id a) true;;
  raise_when (negb (bool_decide (ad_status a ∈ [ADMITTED; SOURCE_AUDIT_ONLY; UNKNOWN])))
             (RegistryError "unknown admission status");;
  if bool_decide (ad_status a = ADMITTED) then
    review ← lowered (ad_license_review a);
    raise_when (negb (bool_decide (review ∈ EXECUTABLE_LICENSES))) (RegistryError "licence review");;
    raise_when (negb (truthy (ad_approved_commit a))) (RegistryError "no pinned commit")
  else raise_when (negb (truthy (ad_reason a))) (RegistryError "no reason recorded").

(** [str(payload.get("status", UNKNOWN))]: the text of anything but a string is no
    status. *)
Definition status_of (d : dict) : string :=
  match dict_get "status" d with Some v => str_of v | None => UNKNOWN end.

Definition Admission_from_dict (plugin_id : json) (payload : json) : result Admission :=
  as_registry_error
    (only_fields "admission" ["plugin_id"; "status"; "license_review"; "approved_commit";
                              "reviewer"; "reason"] payload);;
  d ← as_object payload;
  let declared := get_null "plugin_id" d in
  raise_when (negb (is_null declared) && negb (py_eqb declared plugin_id))
             (RegistryError "admission record declares another plugin");;
  let a := MkAdmission plugin_id (status_of d) (get_null "license_review" d)
             (get_null "approved_commit" d) (get_null "reviewer" d) (get_null "reason" d) in
  Admission_validate a;;
  Ok a.

(** ** Plugins *)

Record RegisteredPlugin := MkRegisteredPlugin {
  rp_manifest : PluginManifest;
  rp_admission : Admission;
  rp_provenance : Provenance;
  rp_manifest_path : list string;
  rp_adapter_entry : list json }.

Definition executable (p : RegisteredPlugin) : bool :=
  bool_decide (ad_status (rp_admission p) = ADMITTED).

Definition identity_of (p : RegisteredPlugin) : json * json :=
  (pm_plugin_id (rp_manifest p), pm_plugin_version (rp_manifest p)).

Definition PluginRegistry : Type := list RegisteredPlugin.

(** [register], on the plugins registered so far. *)
Definition register (registry : PluginRegistry) (plugin : RegisteredPlugin)
    : result PluginRegistry :=
  PluginManifest_validate (rp_manifest plugin);;
  Admission_validate (rp_admission plugin);;
  raise_when (negb (py_eqb (ad_plugin_id (rp_admission plugin)) (pm_plugin_id (rp_manifest plugin))))
             (RegistryError "intake declares another plugin");;
  raise_when (bool_decide (identity_of plugin ∈ (identity_of <$> registry)))
             (RegistryError "already registered");;
  Ok (registry ++ [plugin]).

(** ** Lookup *)

Definition named (plugin_id version : json) (p : RegisteredPlugin) : bool :=
  py_eqb (pm_plugin_id (rp_manifest p)) plugin_id
  && (is_null version || py_eqb (pm_plugin_version (rp_manifest p)) version).

(** [wanted and wanted not in available] *)
Definition lacks (wanted : option string) (available : list json) : bool :=
  match wanted with
  | Some w => negb (str_empty w) && negb (existsb (py_eqb (JStr w)) available)
  | None => false
  end.

Definition resolve (registry : PluginRegistry) (plugin_id version : json)
    (capability arch : option string) (require_admitted : bool) : result PluginManifest :=
  match List.filter (named plugin_id version) registry with
  | [] => Err (RegistryError "unknown plugin")
  | [plugin] =>
      raise_when (require_admitted && negb (executable plugin)) (RegistryError "not admitted");;
      raise_when (lacks capability (pm_capabilities (rp_manifest plugin)))
                 (RegistryError "lacks capability");;
      raise_when (lacks arch (pm_supported_arch (rp_manifest plugin)))
                 (RegistryError "does not support architecture");;
      Ok (rp_manifest plugin)
  | _ => Err (RegistryError "has several versions")
  end.

Definition get (registry : PluginRegistry) (plugin_id : json) : result RegisteredPlugin :=
  match List.filter (named plugin_id JNull) registry with
  | [plugin] => Ok plugin
  | _ => Err (RegistryError "expected exactly one registered version")
  end.

(** [sorted(self._plugins)]: by id, then by version. *)
Definition key_leb (p q : RegisteredPlugin) : bool :=
  match String.compare (str_of (fst (identity_of p))) (str_of (fst (identity_of q))) with
  | Lt => true
  | Gt => false
  | Eq => String.leb (str_of (snd (identity_of p))) (str_of (snd (identity_of q)))
  end.
Definition plugin_le (p q : RegisteredPlugin) : Prop := key_leb p q = true.
#[export] Instance plugin_le_dec : RelDecision plugin_le.
Proof. intros p q. unfold plugin_le. apply _. Defined.
Definition list_plugins (registry : PluginRegistry) : list RegisteredPlugin :=
  merge_sort plugin_le registry.

Definition catalogue_entry (p : RegisteredPlugin) : json :=
  JObj [("plugin_id", pm_plugin_id (rp_manifest p));
        ("plugin_version", pm_plugin_version (rp_manifest p));
        ("capabilities", JList (pm_capabilities (rp_manifest p)));
        ("admission", JStr (ad_status (rp_admission p)));
        ("executable", JBool (executable p));
        ("reason", ad_reason (rp_admission p));
        ("reviewer", ad_reviewer (rp_admission p));
        ("license_review", ad_license_review (rp_admission p));
        ("declared", JObj [("license", pv_license (rp_provenance p));
                           ("source_url", pv_source_url (rp_provenance p));
                           ("source_commit", pv_source_commit (rp_provenance p))]);
        ("adapter_entry", JList (match rp_adapter_entry p with
                                 | [] => pm_adapter_entry (rp_manifest p)
                                 | entry => entry end))].
Definition catalogue (registry : PluginRegistry) : json :=
  JList (catalogue_entry <$> list_plugins registry).

(** ** Loading *)

(** [p in s] *)
Definition str_contains (p s : string) : bool :=
  match String.index 0 p s with Some _ => true | None => false end.

Section loading.
Context (file : list string → option string) (loads : string → option json).
(** [(directory / relative).resolve()] *)
Context (path_of : list string → string → list string).

(** One element of the manifest's [adapter_entry]. *)
Definition resolve_entry (directory : list string) (item : json) : result json :=
  let text := str_of item in
  if startswith "./" text then
    let candidate := path_of directory (str_drop 2 text) in
    of_option (RegistryError "adapter entry escapes its own directory")
              (relative_to (path_of directory EmptyString) candidate);;
    Ok (JStr ("/" +:+ str_join "/" candidate))
  else
    raise_when (startswith "../" text || str_contains "/../" text)
               (RegistryError "adapter entry climbs out of its directory");;
    Ok item.

Definition _load_provenance (directory : list string) : result Provenance :=
  match file (directory ++ [PROVENANCE_FILENAME]) with
  | None => Ok unstated
  | Some text =>
      match loads text with
      | None => Ok (MkProvenance JNull JNull JNull (JStr "provenance.json is unreadable"))
      | Some payload => Provenance_from_dict payload
      end
  end.

Definition unadmitted (plugin_id : json) (reason : string) : Admission :=
  MkAdmission plugin_id UNKNOWN JNull JNull JNull (JStr reason).

Definition admission_path (root : list string) (plugin_id : json) : list string :=
  root ++ [str_of plugin_id +:+ ADMISSION_SUFFIX].

Definition _load_admission (plugin_id : json) (admissions_root : option (list string))
    : result Admission :=
  match admissions_root with
  | None => Ok (unadmitted plugin_id "no admissions directory was configured")
  | Some root =>
      match file (admission_path root plugin_id) with
      | None => Ok (unadmitted plugin_id "no admission record")
      | Some text =>
          match loads text with
          | None => Ok (unadmitted plugin_id "admission record is unreadable")
          | Some payload => Admission_from_dict plugin_id payload
          end
      end
  end.

Definition _check_reviewed_commit (a : Admission) (p : Provenance) : result unit :=
  let approved := ad_approved_commit a in
  let declared := pv_source_commit p in
  raise_when (negb (negb (truthy approved) || negb (truthy declared) || py_eqb approved declared))
             (RegistryError "not the revision that was reviewed").

(** [dataclasses.replace(manifest, adapter_entry=...)] *)
Definition with_entry (entry : list json) (m : PluginManifest) : PluginManifest :=
  MkPluginManifest (pm_plugin_id m) (pm_plugin_version m) entry (pm_capabilities m)
    (pm_supported_arch m) (pm_default_timeout_seconds m) (pm_artifact_rules m)
    (pm_environment m) (pm_toolkit m) (pm_requirements m) (pm_progress_marker m)
    (pm_schema_version m).

Definition _load_plugin (directory : list string) (filename : string)
    (admissions_root : option (list string)) : result RegisteredPlugin :=
  text ← of_option (RegistryError "invalid manifest") (file (directory ++ [filename]));
  payload ← of_option (RegistryError "invalid manifest") (loads text);
  manifest ← as_registry_error (PluginManifest_from_dict payload);
  entry ← mapM_result (resolve_entry directory) (pm_adapter_entry manifest);
  provenance ← _load_provenance directory;
  admission ← _load_admission (pm_plugin_id manifest) admissions_root;
  _check_reviewed_commit admission provenance;;
  Ok (MkRegisteredPlugin (with_entry entry manifest) admission provenance
        (directory ++ [filename]) entry).

(** [from_directory]: [None] for a root that is no directory, else its directories in
    order, each with its manifests. *)
Definition register_all (registry : PluginRegistry) (plugins : list (list string * string))
    (admissions_root : option (list string)) : result PluginRegistry :=
  fold_left (λ r item, registry ← r;
               plugin ← _load_plugin (fst item) (snd item) admissions_root;
               register registry plugin) plugins (Ok registry).

Definition from_directory (listing : option (list (list string * list string)))
    (admissions_root : option (list string)) : result PluginRegistry :=
  dirs ← of_option (RegistryError "plugin root not found") listing;
  register_all [] (item ← dirs; pair (fst item) <$> snd item) admissions_root.
End loading.
