(* ===== verification/RegistryProps.v ===== *)
(** * What the registry promises

    A manifest the runtime gets from the registry belongs to a plugin the platform's
    own record admits; the proofs follow a plugin from its files to its resolution. *)

From S2P Require Export Registry.
Open Scope string_scope.
Open Scope list_scope.

(** ** The registry holds what was loaded *)

Section registry.
Context (file : list string → option string) (loads : string → option json).
Context (path_of : list string → string → list string).
Local Abbreviation _load_plugin := (_load_plugin file loads path_of).

(** Where a registered plugin comes from, and what [register] checked. *)
Record admissible (admissions_root : option (list string)) (item : list string * string)
    (p : RegisteredPlugin) : Prop := {
  ok_loaded : _load_plugin (fst item) (snd item) admissions_root = Ok p;
  ok_manifest : PluginManifest_validate (rp_manifest p) = Ok tt;
  ok_admission : Admission_validate (rp_admission p) = Ok tt }.

Lemma register_Ok registry p registry' : register registry p = Ok registry' →
  registry' = registry ++ [p] ∧ PluginManifest_validate (rp_manifest p) = Ok tt ∧
  Admission_validate (rp_admission p) = Ok tt ∧ identity_of p ∉ (identity_of <$> registry).
Proof.
  unfold register. intros H. apply bind_Ok in H as ([] & Hm & H). apply bind_Ok in H as ([] & Ha & H).
  invert_ok. bool_simpl. done.
Qed.

Lemma register_all_Err e plugins root :
  fold_left (λ r item, registry ← r;
               plugin ← _load_plugin (fst item) (snd item) root;
               register registry plugin) plugins (Err e) = Err e.
Proof. by induction plugins. Qed.

Lemma register_all_Ok root plugins registry registry' (I : list string * string → Prop) :
  (∀ p, p ∈ registry → ∃ item, I item ∧ admissible root item p) →
  NoDup (identity_of <$> registry) → (∀ item, item ∈ plugins → I item) →
  register_all file loads path_of registry plugins root = Ok registry' →
  (∀ p, p ∈ registry' → ∃ item, I item ∧ admissible root item p) ∧
  NoDup (identity_of <$> registry').
Proof.
  unfold register_all. revert registry. induction plugins as [|item plugins IH]; intros registry HI Hn Hp H.
  - simpl in H. by injection H as <-.
  - simpl in H. destruct (_load_plugin (fst item) (snd item) root) as [p|e] eqn:E; simpl in H;
      [|by rewrite register_all_Err in H].
    destruct (register registry p) as [r|e] eqn:Er; [|by rewrite register_all_Err in H].
    apply register_Ok in Er as (-> & Hm & Ha & Hid).
    refine (IH (registry ++ [p]) _ _ _ H).
    + intros q [Hq| ->%list_elem_of_singleton]%elem_of_app; [by apply HI|].
      exists item. split; [apply Hp; left|done].
    + rewrite fmap_app. apply NoDup_app. split; [done|]. split; [|apply NoDup_singleton].
      intros x Hx ->%list_elem_of_singleton. done.
    + intros x Hx. apply Hp. by right.
Qed.

Lemma from_directory_Ok listing root registry :
  from_directory file loads path_of listing root = Ok registry →
  (∀ p, p ∈ registry → ∃ item, (∃ dirs files, listing = Some dirs ∧ (fst item, files) ∈ dirs ∧
      snd item ∈ files) ∧ admissible root item p) ∧
  NoDup (identity_of <$> registry).
Proof.
  unfold from_directory. intros H. apply bind_Ok in H as (dirs & Hd & H). apply of_option_Ok in Hd as ->.
  refine (register_all_Ok root _ [] registry _ _ _ _ H).
  - by intros p ?%not_elem_of_nil.
  - constructor.
  - intros item ([d fs] & Hi & Hin)%list_elem_of_bind. apply list_elem_of_fmap in Hi as (f & -> & Hf).
    simpl. by exists dirs, fs.
Qed.

(** ** What loading a plugin establishes *)

(** An entry of the adapter's command line, as shipped and as run. *)
Definition adapter_stays (directory : list string) (item out : json) : Prop :=
  if startswith "./" (str_of item) then
    ∃ below, out = JStr ("/" +:+ str_join "/" (path_of directory EmptyString ++ below))
  else out = item ∧ startswith "../" (str_of item) = false ∧ str_contains "/../" (str_of item) = false.

Lemma resolve_entry_Ok directory item out :
  resolve_entry path_of directory item = Ok out → adapter_stays directory item out.
Proof.
  unfold resolve_entry, adapter_stays. destruct (startswith "./" (str_of item)); intros H.
  - apply bind_Ok in H as (below & Hb & [= <-]). apply of_option_Ok, relative_to_Some in Hb.
    exists below. by rewrite <-Hb.
  - apply bind_Ok in H as (u & Hr & [= <-]). apply raise_when_Ok in Hr. bool_simpl. done.
Qed.

Lemma load_plugin_Ok directory filename root p : _load_plugin directory filename root = Ok p →
  ∃ text payload shipped entry,
    file (directory ++ [filename]) = Some text ∧ loads text = Some payload ∧
    PluginManifest_from_dict payload = Ok shipped ∧ rp_manifest p = with_entry entry shipped ∧
    Forall2 (adapter_stays directory) (pm_adapter_entry shipped) entry ∧
    _load_provenance file loads directory = Ok (rp_provenance p) ∧
    _load_admission file loads (pm_plugin_id shipped) root = Ok (rp_admission p) ∧
    _check_reviewed_commit (rp_admission p) (rp_provenance p) = Ok tt.
Proof.
  unfold Registry._load_plugin. intros H.
  apply bind_Ok in H as (text & Ht & H). apply of_option_Ok in Ht.
  apply bind_Ok in H as (payload & Hp & H). apply of_option_Ok in Hp.
  apply bind_Ok in H as (shipped & Hs & H).
  apply bind_Ok in H as (entry & He & H). apply bind_Ok in H as (prov & Hv & H).
  apply bind_Ok in H as (adm & Ha & H). apply bind_Ok in H as ([] & Hc & H). injection H as <-. simpl.
  exists text, payload, shipped, entry. split_and!; try done.
  - unfold as_registry_error in Hs. by repeat case_match; simplify_eq.
  - apply mapM_result_Ok in He. eapply Forall2_impl; [exact He|]. intros x y. apply resolve_entry_Ok.
Qed.

(** Only a record of the platform admits. *)
Lemma load_admission_admitted plugin_id root a :
  _load_admission file loads plugin_id root = Ok a → ad_status a = ADMITTED →
  ∃ r text record, root = Some r ∧ file (admission_path r plugin_id) = Some text ∧
    loads text = Some record ∧ Admission_from_dict plugin_id record = Ok a.
Proof.
  unfold _load_admission. destruct root as [r|]; [|by intros [= <-]].
  destruct (file (admission_path r plugin_id)) as [text|] eqn:Ef; [|by intros [= <-]].
  destruct (loads text) as [record|] eqn:El; [|by intros [= <-]].
  intros H _. eauto 10.
Qed.

Lemma admission_validate_admitted a : Admission_validate a = Ok tt → ad_status a = ADMITTED →
  (∃ review, ad_license_review a = JStr review ∧ lower review ∈ EXECUTABLE_LICENSES) ∧
  truthy (ad_approved_commit a) = true.
Proof.
  unfold Admission_validate. intros H Hs. rewrite Hs in H. rewrite (bool_decide_true (ADMITTED = ADMITTED)) in H by done.
  apply bind_Ok in H as ([] & _ & H). apply bind_Ok in H as ([] & _ & H).
  apply bind_Ok in H as (review & Hl & H). apply bind_Ok in H as ([] & Hlic & Hc).
  apply raise_when_Ok in Hlic, Hc. bool_simpl. split; [|done].
  unfold lowered in Hl. destruct (truthy _).
  - destruct (ad_license_review a); try done. injection Hl as <-. eauto.
  - injection Hl as <-. revert Hlic. by intros [|[|?%elem_of_nil]%elem_of_cons]%elem_of_cons.
Qed.

Lemma named_true plugin_id version p : named plugin_id version p = true →
  PluginManifest_validate (rp_manifest p) = Ok tt →
  pm_plugin_id (rp_manifest p) = plugin_id ∧
  IDENTIFIER (str_of plugin_id) = true ∧
  (version = JNull ∨ pm_plugin_version (rp_manifest p) = version).
Proof.
  unfold named, PluginManifest_validate. intros H Hv. bool_simpl.
  apply bind_Ok in Hv as ([] & _ & Hv). apply bind_Ok in Hv as ([] & Hi & Hv).
  apply bind_Ok in Hv as ([] & Hw & _).
  destruct (pm_plugin_id (rp_manifest p)); try done.
  destruct (pm_plugin_version (rp_manifest p)); try done.
  apply py_eqb_str in H as ->. apply validate_identifier_str in Hi. split_and!; try done.
  apply orb_true_iff in H0 as [H0|H0%py_eqb_str]; [left; by destruct version|by right].
Qed.

Lemma lacks_false wanted available : lacks wanted available = false →
  ∀ w, wanted = Some w → w ≠ EmptyString → JStr w ∈ available.
Proof.
  unfold lacks. intros H w -> Hw. apply andb_false_iff in H as [H|H].
  - destruct w; done.
  - apply negb_false_iff, existsb_exists in H as (v & Hv & ->%py_eqb_str). by apply list_elem_of_In.
Qed.

(** C23. A plugin the registry lets run has a record of the platform, outside the
    plugin, that admits it with a green or yellow licence review and a commit, its
    declared commit is that one, and its own adapter files lie in its directory. *)
Theorem resolved_is_reviewed listing admissions_root registry plugin_id version capability arch m :
  from_directory file loads path_of listing admissions_root = Ok registry →
  resolve registry plugin_id version capability arch true = Ok m →
  ∃ directory filename shipped entry root a provenance,
    (* the manifest is one a plugin ships, with its adapter inside the plugin's directory *)
    (∃ dirs files, listing = Some dirs ∧ (directory, files) ∈ dirs ∧ filename ∈ files) ∧
    (∃ text payload, file (directory ++ [filename]) = Some text ∧ loads text = Some payload ∧
       PluginManifest_from_dict payload = Ok shipped) ∧
    m = with_entry entry shipped ∧
    Forall2 (adapter_stays directory) (pm_adapter_entry shipped) entry ∧
    (* the platform keeps a record of its own under that plugin's name *)
    admissions_root = Some root ∧ IDENTIFIER (str_of plugin_id) = true ∧
    (∃ text record, file (root ++ [str_of plugin_id +:+ ADMISSION_SUFFIX]) = Some text ∧
       loads text = Some record ∧ Admission_from_dict plugin_id record = Ok a) ∧
    (* which admits it under an executable licence at a pinned revision *)
    ad_status a = ADMITTED ∧
    (∃ review, ad_license_review a = JStr review ∧ lower review ∈ EXECUTABLE_LICENSES) ∧
    truthy (ad_approved_commit a) = true ∧
    (* and the plugin does not say it is another revision *)
    _load_provenance file loads directory = Ok provenance ∧
    (truthy (pv_source_commit provenance) = true →
       py_eqb (ad_approved_commit a) (pv_source_commit provenance) = true) ∧
    (* the one asked for *)
    pm_plugin_id m = plugin_id ∧ (version = JNull ∨ pm_plugin_version m = version) ∧
    (∀ c, capability = Some c → c ≠ EmptyString → JStr c ∈ pm_capabilities m) ∧
    (∀ c, arch = Some c → c ≠ EmptyString → JStr c ∈ pm_supported_arch m).
Proof.
  intros Hd Hr. apply from_directory_Ok in Hd as [Hreg _]. unfold resolve in Hr.
  destruct (List.filter (named plugin_id version) registry) as [|p [|]] eqn:Ef; try done.
  assert (p ∈ registry ∧ named plugin_id version p = true) as [Hin Hn].
  { rewrite list_elem_of_In, <-filter_In, Ef. by left. }
  destruct (Hreg p Hin) as (item & Hlist & [Hl Hm Ha]). destruct item as [directory filename]. simpl in *.
  invert_ok. rename H into Hx. apply negb_false_iff in Hx. unfold executable in Hx. apply bool_decide_eq_true in Hx.
  apply load_plugin_Ok in Hl as (text & payload & shipped & entry & Ht & Hp & Hs & Hmf & He & Hv & Hadm & Hc).
  assert (pm_plugin_id shipped = pm_plugin_id (rp_manifest p)) as Hid by by rewrite Hmf.
  destruct (named_true _ _ _ Hn Hm) as (Hid' & Hi & Hver). rewrite Hid, Hid' in Hadm.
  destruct (load_admission_admitted _ _ _ Hadm Hx) as (root & rtext & record & -> & Hf & Hrec & Hfrom).
  destruct (admission_validate_admitted _ Ha Hx) as [Hlic Hcommit].
  exists directory, filename, shipped, entry, root, (rp_admission p), (rp_provenance p).
  split_and!; try done; [by eauto|by eexists _, _| |by apply lacks_false|by apply lacks_false].
  intros Hd. unfold _check_reviewed_commit in Hc. rewrite Hcommit, Hd in Hc. apply raise_when_Ok in Hc.
  by apply negb_false_iff in Hc.
Qed.
End registry.

(** ** A reviewed plugin and one nobody has looked at *)

Definition demo_plugin_payload (plugin_id : string) : json :=
  JObj [("plugin_id", JStr plugin_id); ("plugin_version", JStr "1.0");
        ("adapter_entry", JList [JStr "/usr/bin/python3"; JStr "./adapter.py"]);
        ("capabilities", JList [JStr "synthesis"]); ("supported_arch", JList [JStr "x86_64"]);
        ("schema_version", JInt SCHEMA_VERSION)].
Definition demo_record : json :=
  JObj [("status", JStr "admitted"); ("license_review", JStr "Green"); ("approved_commit", JStr "c0ffee")].

Definition demo_files (path : list string) : option string :=
  if bool_decide (path = ["plugins"; "yosys"; "yosys.plugin.json"]) then Some "yosys"
  else if bool_decide (path = ["plugins"; "rogue"; "rogue.plugin.json"]) then Some "rogue"
  else if bool_decide (path = ["plugins"; "rogue"; "admission.json"]) then Some "record"
  else if bool_decide (path = ["admissions"; "yosys.json"]) then Some "record"
  else None.
Definition demo_registry_loads (text : string) : option json :=
  if bool_decide (text = "record") then Some demo_record else Some (demo_plugin_payload text).
Definition demo_listing : option (list (list string * list string)) :=
  Some [(["plugins"; "rogue"], ["rogue.plugin.json"]); (["plugins"; "yosys"], ["yosys.plugin.json"])].
Definition demo_registry : result PluginRegistry :=
  from_directory demo_files demo_registry_loads path_resolve demo_listing (Some ["admissions"]).

Example rogue_is_listed_not_run : ∃ registry, demo_registry = Ok registry ∧
  length (list_plugins registry) = 2%nat ∧
  resolve registry (JStr "rogue") JNull None None true = Err (RegistryError "not admitted").
Proof. eexists. by vm_compute. Qed.

Lemma resolved_is_reviewed_witness :
  ∃ registry m, demo_registry = Ok registry ∧
    resolve registry (JStr "yosys") JNull (Some "synthesis") (Some "x86_64") true = Ok m ∧
    pm_adapter_entry m = [JStr "/usr/bin/python3"; JStr "/plugins/yosys/adapter.py"] ∧
    ∃ record, demo_files ["admissions"; "yosys.json"] = Some record.
Proof.
  assert (∃ registry m, demo_registry = Ok registry ∧
    resolve registry (JStr "yosys") JNull (Some "synthesis") (Some "x86_64") true = Ok m ∧
    pm_adapter_entry m = [JStr "/usr/bin/python3"; JStr "/plugins/yosys/adapter.py"]) as (r & m & Hr & Hm & He)
    by (eexists _, _; vm_compute; split_and!; reflexivity).
  exists r, m. split_and!; [exact Hr|exact Hm|exact He|].
  destruct (resolved_is_reviewed demo_files demo_registry_loads path_resolve demo_listing
    (Some ["admissions"]) r (JStr "yosys") JNull (Some "synthesis") (Some "x86_64") m Hr Hm)
    as (d & f & shipped & entry & root & a & p & _ & _ & _ & _ & Hroot & _ & Hrec & _).
  injection Hroot as <-. destruct Hrec as (text & record & Hf & _). exists text. exact Hf.
Defined.
