(* ===== verification/Text.v ===== *)
(** * The text codecs of the standard library that HTTP calls go through

    [urllib.parse.quote], [unquote], [urlencode] and [parse_qs], [str] and [int] of an
    integer, and [base64], each with the theorem that reading undoes writing.  A
    string is the sequence of its UTF-8 bytes here; that [unquote] replaces what is
    not valid UTF-8 is left out. *)

From stdpp Require Import pretty.
From S2P Require Export Progress Json.
Open Scope string_scope.
Open Scope list_scope.

(** [s.endswith(p)] *)
Definition endswith (p s : string) : bool := startswith (str_rev p) (str_rev s).

(** [p in s] *)
Fixpoint contains (p s : string) : bool :=
  startswith p s || match s with String _ s' => contains p s' | EmptyString => false end.

(** [s.replace(c, EmptyString)] *)
Fixpoint without (c : ascii) (s : string) : string :=
  match s with
  | EmptyString => EmptyString
  | String d s' => if bool_decide (d = c) then without c s' else String d (without c s')
  end.

(** ** Percent encoding *)

(** What [quote] never touches. *)
Definition unreserved (c : ascii) : bool := is_alnum c || one_of "_.-~" c.

Definition upper_hex (n : N) : ascii := ascii_of_N (if (n <? 10)%N then 48 + n else 55 + n).
Definition percent (c : ascii) : string :=
  let n := N_of_ascii c in
  String "%" (String (upper_hex (n / 16)) (String (upper_hex (n mod 16)) EmptyString)).

(** [quote(s, safe=...)] with no safe characters. *)
Fixpoint url_quote (s : string) : string :=
  match s with
  | EmptyString => EmptyString
  | String c s' => (if unreserved c then String c EmptyString else percent c) +:+ url_quote s'
  end.

Definition hex_value (c : ascii) : option N :=
  let n := N_of_ascii c in
  if is_digit c then Some (n - 48)%N
  else if in_range 65 70 c then Some (n - 55)%N
  else if in_range 97 102 c then Some (n - 87)%N
  else None.

(** A percent sign that two hexadecimal digits do not follow stands for itself. *)
Fixpoint unquote (s : string) : string :=
  match s with
  | String "%" (String a (String b rest as tail) as s') =>
      match hex_value a, hex_value b with
      | Some x, Some y => String (ascii_of_N (16 * x + y)) (unquote rest)
      | _, _ => String "%" (unquote s')
      end
  | String c s' => String c (unquote s')
  | EmptyString => EmptyString
  end.

Lemma unquote_char c s :
  unquote ((if unreserved c then String c EmptyString else percent c) +:+ s) = String c (unquote s).
Proof. by destruct c as [[] [] [] [] [] [] [] []]. Qed.

Lemma unquote_quote s : unquote (url_quote s) = s.
Proof. induction s as [|c s IH]; [done|]. simpl url_quote. by rewrite unquote_char, IH. Qed.

(** The characters of a quoted string. *)
Definition quoted_char (c : ascii) : bool := unreserved c || bool_decide (c = "%"%char).

Lemma url_quote_chars s : str_forall quoted_char (url_quote s) = true.
Proof.
  induction s as [|c s IH]; [done|]. simpl url_quote. rewrite str_forall_app, IH, andb_true_r.
  by destruct c as [[] [] [] [] [] [] [] []].
Qed.

Lemma url_quote_nil s : url_quote s = EmptyString → s = EmptyString.
Proof. intros H. by rewrite <-(unquote_quote s), H. Qed.

(** ** Query strings *)

(** [quote_plus] *)
Fixpoint quote_plus (s : string) : string :=
  match s with
  | EmptyString => EmptyString
  | String c s' =>
      (if bool_decide (c = " "%char) then "+"
       else if unreserved c then String c EmptyString else percent c) +:+ quote_plus s'
  end.

(** [s.replace("+", " ")] *)
Fixpoint plus_to_space (s : string) : string :=
  match s with
  | EmptyString => EmptyString
  | String c s' => String (if bool_decide (c = "+"%char) then " "%char else c) (plus_to_space s')
  end.

Definition urlencode (pairs : list (string * string)) : string :=
  str_join "&" ((λ kv, quote_plus (fst kv) +:+ "=" +:+ quote_plus (snd kv)) <$> pairs).

(** [s.split("=", 1)] of one field. *)
Fixpoint split_eq (s : string) : option (string * string) :=
  match s with
  | EmptyString => None
  | String c s' =>
      if bool_decide (c = "="%char) then Some (EmptyString, s')
      else (λ kv, (String c (fst kv), snd kv)) <$> split_eq s'
  end.

(** [parse_qsl]: fields without a value are dropped. *)
Definition parse_field (field : string) : option (string * string) :=
  match split_eq field with
  | Some (k, v) =>
      if str_empty v then None else Some (unquote (plus_to_space k), unquote (plus_to_space v))
  | None => None
  end.
Definition parse_qsl (s : string) : list (string * string) := omap parse_field (split_on "&" s).

(** [parse_qs]: a dict from each name to its values, in order. *)
Definition query : Type := list (string * list string).
Fixpoint add_value (k v : string) (q : query) : query :=
  match q with
  | [] => [(k, [v])]
  | (k', vs) :: q' => if bool_decide (k' = k) then (k', vs ++ [v]) :: q' else (k', vs) :: add_value k v q'
  end.
Definition parse_qs (s : string) : query :=
  fold_left (λ q kv, add_value (fst kv) (snd kv) q) (parse_qsl s) [].

(** [query.get(name, ())] *)
Fixpoint query_get (k : string) (q : query) : list string :=
  match q with
  | [] => []
  | (k', vs) :: q' => if bool_decide (k' = k) then vs else query_get k q'
  end.

Lemma unplus_char c s :
  unquote (plus_to_space ((if bool_decide (c = " "%char) then "+"
                           else if unreserved c then String c EmptyString else percent c) +:+ s))
  = String c (unquote (plus_to_space s)).
Proof. by destruct c as [[] [] [] [] [] [] [] []]. Qed.

Lemma unquote_plus s : unquote (plus_to_space (quote_plus s)) = s.
Proof. induction s as [|c s IH]; [done|]. simpl quote_plus. by rewrite unplus_char, IH. Qed.

(** Neither of the two separators is left in a quoted string. *)
Lemma quote_plus_chars s :
  str_forall (λ c, negb (bool_decide (c = "&"%char)) && negb (bool_decide (c = "="%char))) (quote_plus s) = true.
Proof.
  induction s as [|c s IH]; [done|]. simpl quote_plus. rewrite str_forall_app, IH, andb_true_r.
  by destruct c as [[] [] [] [] [] [] [] []].
Qed.

Lemma split_eq_app k v :
  str_forall (λ c, negb (bool_decide (c = "="%char))) k = true →
  split_eq (k +:+ "=" +:+ v) = Some (k, v).
Proof.
  induction k as [|c k IH]; intros H; [done|]. cbn [str_forall] in H. bool_simpl.
  rewrite (str_app_cons c k). cbn [split_eq]. rewrite bool_decide_false by done. by rewrite IH.
Qed.

Lemma str_forall_impl (p q : ascii → bool) s :
  (∀ c, p c = true → q c = true) → str_forall p s = true → str_forall q s = true.
Proof.
  intros Hpq. induction s as [|c s IH]; simpl; [done|]. intros [Hc Hs]%andb_true_iff.
  by rewrite (Hpq c Hc), IH.
Qed.

Lemma split_on_single c s : str_forall (λ d, negb (bool_decide (d = c))) s = true → split_on c s = [s].
Proof.
  induction s as [|d s IH]; intros H; [done|]. cbn [str_forall] in H. bool_simpl. cbn [split_on].
  rewrite bool_decide_false by done. by rewrite IH.
Qed.

Lemma split_on_app c s t : str_forall (λ d, negb (bool_decide (d = c))) s = true →
  split_on c (s +:+ String c t) = s :: split_on c t.
Proof.
  induction s as [|d s IH]; intros H.
  - rewrite str_app_nil. cbn [split_on]. by rewrite bool_decide_true.
  - cbn [str_forall] in H. bool_simpl. rewrite str_app_cons. cbn [split_on].
    rewrite bool_decide_false by done. by rewrite IH.
Qed.

Lemma split_on_join c l : l ≠ [] →
  (∀ s, s ∈ l → str_forall (λ d, negb (bool_decide (d = c))) s = true) →
  split_on c (str_join (String c EmptyString) l) = l.
Proof.
  induction l as [|s l IH]; intros Hne Hl; [done|]. destruct l as [|t l].
  - apply split_on_single, Hl. left.
  - change (str_join (String c EmptyString) (s :: t :: l))
      with (s +:+ String c (str_join (String c EmptyString) (t :: l))).
    rewrite split_on_app by (apply Hl; left). f_equal. apply IH; [done|].
    intros x Hx. apply Hl. by right.
Qed.

Lemma quote_plus_ne s : s ≠ EmptyString → str_empty (quote_plus s) = false.
Proof.
  destruct s as [|c s]; [done|]. intros _. simpl quote_plus. repeat case_match; done.
Qed.

(** What [urlencode] writes [parse_qs] reads, blank values apart. *)
Lemma parse_qsl_urlencode pairs : Forall (λ kv, snd kv ≠ EmptyString) pairs →
  parse_qsl (urlencode pairs) = pairs.
Proof.
  intros Hv. destruct pairs as [|p pairs]; [done|]. unfold parse_qsl, urlencode.
  rewrite split_on_join; [| done|].
  - induction Hv as [|[k v] l Hne _ IH]; [done|]. csimpl. simpl in Hne.
    assert (parse_field (quote_plus k +:+ "=" +:+ quote_plus v) = Some (k, v)) as ->.
    { unfold parse_field. rewrite split_eq_app.
      - rewrite quote_plus_ne by exact Hne. by rewrite !unquote_plus.
      - eapply str_forall_impl; [|apply quote_plus_chars]. by intros c [_ ?]%andb_true_iff. }
    by rewrite IH.
  - intros s ([k v] & -> & _)%list_elem_of_fmap. simpl. rewrite !str_forall_app.
    assert (∀ x, str_forall (λ d, negb (bool_decide (d = "&"%char))) (quote_plus x) = true) as Hq.
    { intros x. eapply str_forall_impl; [|apply quote_plus_chars]. by intros c [? _]%andb_true_iff. }
    by rewrite !Hq.
Qed.

(** What [parse_qs] holds under a name. *)
Lemma query_get_add k k' v q :
  query_get k (add_value k' v q) = query_get k q ++ (if bool_decide (k' = k) then [v] else []).
Proof.
  induction q as [|[k0 vs] q IH]; simpl.
  - by case_bool_decide.
  - destruct (decide (k0 = k')) as [->|Hne].
    + rewrite bool_decide_true by done. simpl. case_bool_decide; [done|by rewrite app_nil_r].
    + rewrite bool_decide_false by done. simpl. destruct (decide (k0 = k)) as [->|Hk].
      * rewrite bool_decide_true, bool_decide_false by congruence. by rewrite app_nil_r.
      * by rewrite (bool_decide_false (k0 = k)) by done.
Qed.

Lemma parse_qs_get k pairs : Forall (λ kv, snd kv ≠ EmptyString) pairs →
  query_get k (parse_qs (urlencode pairs))
  = omap (λ kv, if bool_decide (fst kv = k) then Some (snd kv) else None) pairs.
Proof.
  intros H. unfold parse_qs. rewrite (parse_qsl_urlencode _ H). clear H.
  assert (∀ q, query_get k (fold_left (λ q kv, add_value (fst kv) (snd kv) q) pairs q)
    = query_get k q ++ omap (λ kv, if bool_decide (fst kv = k) then Some (snd kv) else None) pairs) as ->.
  { induction pairs as [|[k' v] l IH]; intros q; csimpl; [by rewrite app_nil_r|].
    rewrite IH, query_get_add, <-app_assoc. simpl. by case_bool_decide. }
  done.
Qed.

(** ** Integers *)

Definition digit (c : ascii) : option N :=
  if is_digit c then Some (N_of_ascii c - 48)%N else None.

(** Digits after the first: an underscore may stand between two of them. *)
Fixpoint digits (acc : N) (s : string) : option N :=
  match s with
  | EmptyString => Some acc
  | String c s' =>
      match digit c with
      | Some d => digits (10 * acc + d) s'
      | None =>
          if bool_decide (c = "_"%char) then
            match s' with String d _ => if is_digit d then digits acc s' else None | _ => None end
          else None
      end
  end.
Definition natural (s : string) : option N :=
  match s with
  | String c s' => d ← digit c; digits d s'
  | EmptyString => None
  end.

(** [int(s)] of a decimal numeral; [None] where it raises [ValueError]. *)
Definition py_int (s : string) : option Z :=
  match strip s with
  | String "-" s' => (λ n, - Z.of_N n)%Z <$> natural s'
  | String "+" s' => Z.of_N <$> natural s'
  | s' => Z.of_N <$> natural s'
  end.

(** [int(v)] *)
Definition py_int_of (v : json) : result Z :=
  match v with
  | JInt z => Ok z
  | JBool b => Ok (if b then 1 else 0)%Z
  | JFloat f => of_option (ValueError "int") (float_trunc f)
  | JStr s => of_option (ValueError "int") (py_int s)
  | _ => Err (TypeError "int")
  end.

Lemma digit_pretty n : (n < 10)%N → digit (pretty_N_char n) = Some n.
Proof.
  intros H. destruct n as [|p]; [done|].
  do 4 (destruct p as [p|p|]; try done; try lia).
Qed.

Lemma digits_pretty x s : digits 0 (pretty_N_go x s) = digits x s.
Proof.
  revert s. induction (N.lt_wf_0 x) as [x _ IH]. intros s.
  destruct (decide (0 < x)%N) as [Hx|Hx].
  - rewrite pretty_N_go_step by done. assert (x mod 10 < 10)%N by (apply N.mod_lt; lia).
    rewrite IH by (apply N.div_lt; lia). cbn [digits]. rewrite digit_pretty by done.
    f_equal. pose proof (N.div_mod x 10). lia.
  - assert (x = 0%N) as -> by lia. by rewrite pretty_N_go_0.
Qed.

Lemma natural_digits s n : digits 0 s = Some n → s ≠ EmptyString →
  (∀ s', s ≠ String "_" s') → natural s = Some n.
Proof.
  destruct s as [|c s]; [done|]. intros H _ Hu. simpl in *. destruct (digit c) as [d|]; [done|].
  case_bool_decide; [|done]. subst. by destruct (Hu s).
Qed.

Lemma str_rev_app_forall p s acc : str_forall p (str_rev_app s acc) = str_forall p s && str_forall p acc.
Proof.
  revert acc. induction s as [|c s IH]; intros acc; simpl; [done|]. rewrite IH. simpl.
  by destruct (p c), (str_forall p s).
Qed.
Lemma str_rev_app_rev s acc acc' : str_rev_app (str_rev_app s acc) acc' = str_rev_app acc (s +:+ acc').
Proof. revert acc acc'. induction s as [|c s IH]; intros acc acc'; [done|]. simpl. by rewrite IH. Qed.
Lemma str_rev_rev s : str_rev (str_rev s) = s.
Proof.
  unfold str_rev. rewrite str_rev_app_rev. simpl.
  induction s as [|c s IH]; [done|]. rewrite str_app_cons. by f_equal.
Qed.

Lemma lstrip_id s : str_forall (λ c, negb (is_space c)) s = true → lstrip s = s.
Proof. destruct s as [|c s]; [done|]. simpl. intros [H%negb_true_iff _]%andb_true_iff. by rewrite H. Qed.
Lemma strip_id s : str_forall (λ c, negb (is_space c)) s = true → strip s = s.
Proof.
  intros H. unfold strip. rewrite (lstrip_id s H), lstrip_id, str_rev_rev; [done|].
  unfold str_rev. by rewrite str_rev_app_forall, H.
Qed.

Lemma pretty_digits x s : str_forall is_digit s = true → str_forall is_digit (pretty_N_go x s) = true.
Proof.
  revert s. induction (N.lt_wf_0 x) as [x _ IH]. intros s Hs.
  destruct (decide (0 < x)%N) as [Hx|Hx].
  - rewrite pretty_N_go_step by done. apply IH; [apply N.div_lt; lia|]. cbn [str_forall]. rewrite Hs, andb_true_r.
    assert (x mod 10 < 10)%N as Hd by (apply N.mod_lt; lia). apply digit_pretty in Hd.
    unfold digit in Hd. by destruct (is_digit _).
  - assert (x = 0%N) as -> by lia. by rewrite pretty_N_go_0.
Qed.

Lemma pretty_N_digits n : str_forall is_digit (pretty n) = true ∧ digits 0 (pretty n) = Some n.
Proof.
  unfold pretty, pretty_N. destruct (decide (n = 0%N)) as [->|Hn]; [done|].
  split; [by apply pretty_digits|]. by rewrite digits_pretty.
Qed.

(** [int(str(z))] for the sizes and offsets the calls carry. *)
Lemma py_int_pretty z : (0 ≤ z)%Z → py_int (pretty z) = Some z.
Proof.
  intros Hz. assert (pretty z = pretty (Z.to_N z)) as -> by (by destruct z as [|p|p]; [done|done|lia]).
  destruct (pretty_N_digits (Z.to_N z)) as [Hd Hv]. unfold py_int.
  rewrite strip_id by (eapply str_forall_impl; [|exact Hd]; by intros [[] [] [] [] [] [] [] []]).
  assert (natural (pretty (Z.to_N z)) = Some (Z.to_N z)) as Hn.
  { apply natural_digits; [done| |].
    - intros E. by rewrite E in Hv; destruct z.
    - intros s' E. by rewrite E in Hd. }
  destruct (pretty (Z.to_N z)) as [|c s] eqn:E; [done|].
  destruct c as [[] [] [] [] [] [] [] []]; try done; rewrite Hn; simpl; f_equal; lia.
Qed.

Lemma pretty_Z_ne z : (0 ≤ z)%Z → pretty z ≠ EmptyString.
Proof. intros Hz E. apply py_int_pretty in Hz. by rewrite E in Hz. Qed.

(** ** Base64 *)

Definition b64_char (n : N) : ascii :=
  ascii_of_N (if (n <? 26)%N then 65 + n else if (n <? 52)%N then 71 + n
              else if (n <? 62)%N then n - 4 else if (n =? 62)%N then 43 else 47)%N.
Definition b64_value (c : ascii) : option N :=
  let n := N_of_ascii c in
  if is_upper c then Some (n - 65)%N else if is_lower c then Some (n - 71)%N
  else if is_digit c then Some (n + 4)%N else if (n =? 43)%N then Some 62%N
  else if (n =? 47)%N then Some 63%N else None.

Fixpoint b64encode (s : string) : string :=
  match s with
  | EmptyString => EmptyString
  | String x EmptyString =>
      let a := N_of_ascii x in
      String (b64_char (a / 4)) (String (b64_char (a mod 4 * 16)) "==")
  | String x (String y EmptyString) =>
      let a := N_of_ascii x in let b := N_of_ascii y in
      String (b64_char (a / 4)) (String (b64_char (a mod 4 * 16 + b / 16))
        (String (b64_char (b mod 16 * 4)) "="))
  | String x (String y (String z rest)) =>
      let a := N_of_ascii x in let b := N_of_ascii y in let c := N_of_ascii z in
      String (b64_char (a / 4)) (String (b64_char (a mod 4 * 16 + b / 16))
        (String (b64_char (b mod 16 * 4 + c / 64)) (String (b64_char (c mod 64)) (b64encode rest))))
  end.

(** The groups of four of a text of the alphabet and padding.  [None] is
    [binascii.Error]; what follows the padding, which [binascii] skips, is an error
    here. *)
Fixpoint b64groups (s : string) : option string :=
  match s with
  | EmptyString => Some EmptyString
  | String i (String j (String k (String l rest))) =>
      p ← b64_value i; q ← b64_value j;
      match b64_value k, b64_value l with
      | Some r, Some t =>
          out ← b64groups rest;
          Some (String (ascii_of_N (p * 4 + q / 16))
                 (String (ascii_of_N (q mod 16 * 16 + r / 4)) (String (ascii_of_N (r mod 4 * 64 + t)) out)))
      | Some r, None =>
          if bool_decide (l = "="%char) && str_empty rest then
            Some (String (ascii_of_N (p * 4 + q / 16)) (String (ascii_of_N (q mod 16 * 16 + r / 4)) EmptyString))
          else None
      | None, _ =>
          if bool_decide (k = "="%char) && bool_decide (l = "="%char) && str_empty rest
          then Some (String (ascii_of_N (p * 4 + q / 16)) EmptyString) else None
      end
  | _ => None
  end.

(** [b64decode(s)]: other characters are discarded. *)
Fixpoint b64keep (s : string) : string :=
  match s with
  | EmptyString => EmptyString
  | String c s' =>
      if match b64_value c with Some _ => true | None => bool_decide (c = "="%char) end
      then String c (b64keep s') else b64keep s'
  end.
Definition b64decode (s : string) : option string := b64groups (b64keep s).

Lemma b64_value_char n : (n < 64)%N → b64_value (b64_char n) = Some n.
Proof.
  intros H. destruct n as [|p]; [done|].
  do 7 (destruct p as [p|p|]; try done; try lia).
Qed.

Lemma byte_range c : (N_of_ascii c < 256)%N.
Proof. apply N_ascii_bounded. Qed.


Lemma b64_third_byte a b c : (a < 256)%N → (b < 256)%N → (c < 256)%N →
  (a / 4 < 64)%N ∧ (a mod 4 * 16 + b / 16 < 64)%N ∧ (b mod 16 * 4 + c / 64 < 64)%N ∧ (c mod 64 < 64)%N ∧
  (a / 4 * 4 + (a mod 4 * 16 + b / 16) / 16 = a)%N ∧
  ((a mod 4 * 16 + b / 16) mod 16 * 16 + (b mod 16 * 4 + c / 64) / 4 = b)%N ∧
  ((b mod 16 * 4 + c / 64) mod 4 * 64 + c mod 64 = c)%N.
Proof.
  intros Ha Hb Hc.
  assert (a / 4 < 64 ∧ a mod 4 < 4 ∧ b / 16 < 16 ∧ b mod 16 < 16 ∧ c / 64 < 4 ∧ c mod 64 < 64)%N
    as (H1 & H2 & H3 & H4 & H5 & H6).
  { split_and!; try (apply N.mod_lt; lia); apply N.Div0.div_lt_upper_bound; lia. }
  rewrite (N.add_comm (a mod 4 * 16)), (N.add_comm (b mod 16 * 4)).
  rewrite !N.div_add, !N.Div0.mod_add by lia.
  rewrite (N.div_small (b / 16) 16), (N.mod_small (b / 16) 16) by lia.
  rewrite (N.div_small (c / 64) 4), (N.mod_small (c / 64) 4) by lia.
  pose proof (N.div_mod a 4). pose proof (N.div_mod b 16). pose proof (N.div_mod c 64).
  split_and!; lia.
Qed.

Lemma b64_groups s : b64groups (b64encode s) = Some s.
Proof.
  assert (∀ n s, String.length s = n → b64groups (b64encode s) = Some s) as H; [|by eapply H].
  clear s. intros n. induction (lt_wf n) as [n _ IH]. intros s Hs.
  destruct s as [|x [|y [|z rest]]]; [done| | |].
  - destruct (b64_third_byte (N_of_ascii x) 0 0) as (H1 & H2 & _ & _ & E & _); [apply byte_range|lia|lia|].
    change (0 / 16)%N with 0%N in *. rewrite N.add_0_r in *.
    cbn [b64encode b64groups]. rewrite !b64_value_char by done. cbn [mbind option_bind].
    change (b64_value "=") with (@None N). cbn. by rewrite E, ascii_N_embedding.
  - destruct (b64_third_byte (N_of_ascii x) (N_of_ascii y) 0) as (H1 & H2 & H3 & _ & E1 & E2 & _);
      [apply byte_range|apply byte_range|lia|].
    change (0 / 64)%N with 0%N in *. rewrite !(N.add_0_r (_ * 4)) in *.
    cbn [b64encode b64groups]. rewrite !b64_value_char by done. cbn [mbind option_bind].
    change (b64_value "=") with (@None N). cbn. by rewrite E1, E2, !ascii_N_embedding.
  - destruct (b64_third_byte (N_of_ascii x) (N_of_ascii y) (N_of_ascii z)) as (H1 & H2 & H3 & H4 & E1 & E2 & E3);
      try apply byte_range.
    cbn [b64encode b64groups]. rewrite !b64_value_char by done. cbn [mbind option_bind].
    rewrite (IH (String.length rest)) with (s := rest); [|rewrite <-Hs; simpl; lia|done].
    cbn. by rewrite E1, E2, E3, !ascii_N_embedding.
Qed.

Lemma b64_keep_char n s : (n < 64)%N → b64keep (String (b64_char n) s) = String (b64_char n) (b64keep s).
Proof. intros H. cbn [b64keep]. by rewrite b64_value_char. Qed.

Lemma b64_keep s : b64keep (b64encode s) = b64encode s.
Proof.
  assert (∀ n s, String.length s = n → b64keep (b64encode s) = b64encode s) as H; [|by eapply H].
  clear s. intros n. induction (lt_wf n) as [n _ IH]. intros s Hs.
  destruct s as [|x [|y [|z rest]]]; [done| | |]; cbn [b64encode].
  - destruct (b64_third_byte (N_of_ascii x) 0 0) as (H1 & H2 & _); [apply byte_range|lia|lia|].
    change (0 / 16)%N with 0%N in *. rewrite N.add_0_r in *. by rewrite !b64_keep_char.
  - destruct (b64_third_byte (N_of_ascii x) (N_of_ascii y) 0) as (H1 & H2 & H3 & _);
      [apply byte_range|apply byte_range|lia|].
    change (0 / 64)%N with 0%N in *. rewrite !(N.add_0_r (_ * 4)) in *. by rewrite !b64_keep_char.
  - destruct (b64_third_byte (N_of_ascii x) (N_of_ascii y) (N_of_ascii z)) as (H1 & H2 & H3 & H4 & _);
      try apply byte_range.
    rewrite !b64_keep_char by done. by rewrite (IH (String.length rest)) with (s := rest); [|rewrite <-Hs; simpl; lia|].
Qed.

Lemma b64decode_encode s : b64decode (b64encode s) = Some s.
Proof. unfold b64decode. by rewrite b64_keep, b64_groups. Qed.
