(* ===== verification/Router.v ===== *)
(** * gateway/router.py: the method-and-template router and the request handler

    A template is the list of its pieces; its pattern is matched with the backtracking
    of the regular expression it stands for.  Literal text of a template has no
    character that is special in a pattern.  Documents cross the wire as values:
    [dumps] only measures them.  What arrives is a target, headers and a body as
    [_read_body] finds it. *)

From S2P Require Export Text Sql.
Open Scope string_scope.
Open Scope list_scope.

Definition MAX_BODY_BYTES : Z := 1 * 1024 * 1024.
Definition MAX_RESPONSE_BYTES : Z := 4 * 1024 * 1024.

(** ** Requests and responses *)

Inductive Body :=
| NoBody
| Bytes (b : string)
| Doc (v : json).

Record Request := MkRequest {
  req_method : string;
  req_path : string;
  req_params : list (string * string);
  req_query : query;
  req_headers : list (string * string);
  req_body : Body }.

Definition header (name : string) (r : Request) : option string :=
  snd <$> List.find (λ kv, bool_decide (lower (fst kv) = lower name)) (req_headers r).

Definition q (name : string) (r : Request) : option string := head (query_get name (req_query r)).
Definition q_all (name : string) (r : Request) : list string := query_get name (req_query r).
Definition q_int (name : string) (r : Request) : result (option Z) :=
  match q name r with
  | None => Ok None
  | Some raw => z ← of_option (HttpError 400 name) (py_int raw); Ok (Some z)
  end.
(** [q_int(name, default) or default] *)
Definition q_int_or (name : string) (dflt : Z) (r : Request) : result Z :=
  o ← q_int name r;
  Ok (match o with Some z => if (z =? 0)%Z then dflt else z | None => dflt end).
Definition q_bool (name : string) (r : Request) : bool :=
  bool_decide (lower (default EmptyString (q name r)) ∈ ["1"; "true"; "yes"; "on"]).
(** [request.params[name]]: the last of equal names. *)
Definition param (name : string) (r : Request) : result string :=
  of_option (KeyError name)
    (snd <$> List.find (λ kv, bool_decide (fst kv = name)) (rev (req_params r))).

Record Response := MkResponse {
  resp_status : Z;
  resp_body : Body;
  resp_headers : list (string * string) }.

Definition json_response (v : json) (status : Z) : Response := MkResponse status (Doc v) [].
Definition error_response (status : Z) (what : string) : Response :=
  json_response (JObj [("error", JStr what)]) status.

(** ** Templates *)

Inductive piece :=
| Lit (text : string)
| Seg (name : string)
| Tail (name : string).

Definition is_word (c : ascii) : bool := is_alnum c || bool_decide (c = "_"%char).
Definition push (s : string) (c : ascii) : string := s +:+ String c EmptyString.

Definition lit (text : string) : list piece := if str_empty text then [] else [Lit text].
Fixpoint dots (n : nat) : string := match n with O => EmptyString | S n => String "." (dots n) end.
Definition opened (o : option (string * nat)) : string :=
  match o with Some (name, n) => "{" +:+ name +:+ dots n | None => EmptyString end.

(** [re.sub] with [\{(\w+)(\.\.\.)?\}]: the text read so far, and the name and dots read
    since an opening brace. *)
Fixpoint expand (text : string) (o : option (string * nat)) (s : string) : list piece :=
  match s with
  | EmptyString => lit (text +:+ opened o)
  | String c s' =>
      match o with
      | None =>
          if bool_decide (c = "{"%char) then expand text (Some (EmptyString, 0%nat)) s'
          else expand (push text c) None s'
      | Some (name, n) =>
          if is_word c && (n =? 0)%nat then expand text (Some (push name c, 0%nat)) s'
          else if bool_decide (c = "."%char) && (n <? 3)%nat && negb (str_empty name)
          then expand text (Some (name, S n)) s'
          else if bool_decide (c = "}"%char) && ((n =? 0)%nat || (n =? 3)%nat) && negb (str_empty name)
          then lit text ++ (if (n =? 3)%nat then Tail name else Seg name) :: expand EmptyString None s'
          else if bool_decide (c = "{"%char)
          then expand (text +:+ opened o) (Some (EmptyString, 0%nat)) s'
          else expand (push (text +:+ opened o) c) None s'
      end
  end.
Definition template (s : string) : list piece := expand EmptyString None s.

(** The regular expression, for its length. *)
Definition piece_pattern (p : piece) : string :=
  match p with
  | Lit text => text
  | Seg name => "(?P<" +:+ name +:+ ">[^/]+)"
  | Tail name => "(?P<" +:+ name +:+ ">.*)"
  end.
Definition pattern (ps : list piece) : string :=
  "^" +:+ str_join EmptyString (piece_pattern <$> ps) +:+ "$".

(** ** Matching *)

Fixpoint strip_prefix (p s : string) : option string :=
  match p, s with
  | EmptyString, _ => Some s
  | String c p', String d s' => if bool_decide (c = d) then strip_prefix p' s' else None
  | String _ _, EmptyString => None
  end.
Fixpoint run_length (p : ascii → bool) (s : string) : nat :=
  match s with
  | String c s' => if p c then S (run_length p s') else 0
  | EmptyString => 0
  end.
Fixpoint str_take (n : nat) (s : string) : string :=
  match n, s with S n', String c s' => String c (str_take n' s') | _, _ => EmptyString end.

Definition in_segment (c : ascii) : bool := negb (bool_decide (c = "/"%char)).
Definition in_line (c : ascii) : bool := negb (bool_decide (c = "010"%char)).

Definition params : Type := list (string * string).

(** The longest capture for which the rest matches, down to [least] characters. *)
Fixpoint capture (name : string) (rest : string → option params) (least k : nat) (s : string)
    : option params :=
  if (k <? least)%nat then None
  else match rest (str_drop k s) with
       | Some ps => Some ((name, str_take k s) :: ps)
       | None => match k with S k' => capture name rest least k' s | O => None end
       end.

(** [$] also matches before a line feed that ends the text. *)
Fixpoint match_pieces (ps : list piece) (s : string) : option params :=
  match ps with
  | [] => if str_empty s || bool_decide (s = String "010" EmptyString) then Some [] else None
  | Lit text :: ps => s' ← strip_prefix text s; match_pieces ps s'
  | Seg name :: ps => capture name (match_pieces ps) 1 (run_length in_segment s) s
  | Tail name :: ps => capture name (match_pieces ps) 0 (run_length in_line s) s
  end.

(** ** The router *)

Section router.
Context {K : Type}.

Definition handler : Type := Request → st K Response.

Record Route := MkRoute {
  rt_method : string;
  rt_pieces : list piece;
  rt_handler : handler }.

(** [Router.add], on the routes added so far. *)
Definition add (method text : string) (h : handler) (routes : list Route) : list Route :=
  routes ++ [MkRoute method (template text) h].

(** Longest pattern first, in the order of registration among equals. *)
Definition by_length (routes : list Route) : list Route :=
  order_by (λ r, - Z.of_nat (String.length (pattern (rt_pieces r))))%Z routes.

Definition route_matches (method path : string) (r : Route) : option params :=
  if bool_decide (rt_method r = method) then match_pieces (rt_pieces r) path else None.

Fixpoint first_match (method path : string) (routes : list Route) : option (Route * params) :=
  match routes with
  | [] => None
  | r :: routes =>
      match route_matches method path r with
      | Some found => Some (r, (λ kv, (fst kv, unquote (snd kv))) <$> found)
      | None => first_match method path routes
      end
  end.
(** [Router.match] *)
Definition match_route (method path : string) (routes : list Route) : option (Route * params) :=
  first_match method path (by_length routes).

Definition allowed_methods (path : string) (routes : list Route) : list string :=
  rt_method <$> List.filter (λ r, bool_decide (is_Some (match_pieces (rt_pieces r) path))) routes.

(** ** One request *)

(** What [_read_body] finds: no length, a bad one, bytes, or text that is a document or
    not. *)
Inductive Incoming :=
| Absent
| BadLength
| Octets (b : string)
| Text (size : Z) (v : option json).

Definition _read_body (i : Incoming) : result Body :=
  match i with
  | Absent => Ok NoBody
  | BadLength => Err (HttpError 400 "Content-Length must be an integer")
  | Octets b =>
      raise_when (MAX_BODY_BYTES <? Z.of_nat (String.length b))%Z (HttpError 413 "request body");;
      Ok (Bytes b)
  | Text size v =>
      raise_when ((size <? 0) || (MAX_BODY_BYTES <? size))%Z (HttpError 413 "request body");;
      if (size =? 0)%Z then Ok NoBody
      else v ← of_option (HttpError 400 "request body must be JSON") v; Ok (Doc v)
  end.

(** [urlparse] of a target that begins with one slash: its path and its query. *)
Fixpoint cut (c : ascii) (s : string) : string * string :=
  match s with
  | EmptyString => (EmptyString, EmptyString)
  | String d s' =>
      if bool_decide (d = c) then (EmptyString, s')
      else let '(a, b) := cut c s' in (String d a, b)
  end.
(** The parameters after a semicolon in the last segment are no part of the path. *)
Fixpoint drop_params (s : string) : string :=
  match s with
  | EmptyString => EmptyString
  | String c s' =>
      if bool_decide (c = ";"%char) && str_forall in_segment s' then EmptyString
      else String c (drop_params s')
  end.
Definition urlparse (target : string) : string * string :=
  let '(path, query) := cut "?" (fst (cut "#" target)) in (drop_params path, query).

Context (float_repr : spec_float → string).

(** [json.dumps(body)] *)
Definition plain_style : style := Style false None ", " ": " true.
Definition body_size (b : Body) : Z :=
  match b with
  | NoBody => 0
  | Bytes b => Z.of_nat (String.length b)
  | Doc v => Z.of_nat (String.length (dumps float_repr plain_style v))
  end.

Definition _send (r : Response) : Response :=
  if (MAX_RESPONSE_BYTES <? body_size (resp_body r))%Z
  then error_response 500 "response too large" else r.

(** What an exception becomes. *)
Definition failure_response (e : exn) : Response :=
  match e with
  | HttpError status what => error_response status what
  | _ => error_response 500 "server error"
  end.

Definition respond (routes : list Route) (method target : string) (headers : list (string * string))
    (incoming : Incoming) : st K Response :=
  let '(path, query) := urlparse target in
  body ← lift (_read_body incoming);
  match match_route method path routes with
  | None =>
      mret (match allowed_methods path routes with
            | [] => error_response 404 "not found"
            | _ => error_response 405 "method is not allowed here"
            end)
  | Some (route, found) =>
      rt_handler route (MkRequest method path found (parse_qs query) headers body)
  end.

(** [_handle]: what the client gets, whatever happens. *)
Definition _handle (routes : list Route) (method target : string) (headers : list (string * string))
    (incoming : Incoming) : K → Response * K :=
  λ s, let '(r, s') := respond routes method target headers incoming s in
       (_send (match r with Ok response => response | Err e => failure_response e end), s').
End router.
Arguments handler : clear implicits.
Arguments Route : clear implicits.
