(* ===== verification/Queries.v ===== *)
(** * runtime: the read models over the store

    log_query.py, artifact_inventory.py, resource_query.py and the snapshots of
    worker_presence.py.  They walk the projection of a run, as the code does. *)

From stdpp Require Import gmap pretty.
From S2P Require Export Runtime Provenance.
Open Scope string_scope.
Open Scope list_scope.

(** [for stage in view["stages"] for attempt in stage["attempts"]] *)
Definition stage_attempts (stage : json) : result (list (json * json)) :=
  attempts ← (v ← py_index "attempts" stage; py_list v);
  Ok (map (pair stage) attempts).
Definition view_attempts (view : dict) : result (list (json * json)) :=
  stages ← (v ← py_index "stages" (JObj view); py_list v);
  per_stage ← mapM_result stage_attempts stages;
  Ok (concat per_stage).

(** ** log_query.py *)

Definition MAX_LOG_BYTES : Z := 1048576.

Section logs.
Context (parts : string → list string) (utf8 : string → string).

(** What one attempt's log has from [offset] on. *)
Definition log_chunk (w : World) (offset limit : Z) (attempt : json) : result (list string) :=
  workspace ← py_index "workspace" attempt;
  Ok (match file_at w (parts (str_of workspace) ++ [LOG_FILENAME]) with
      | Some b => [read_at (Z.to_nat offset) (Z.to_nat limit) b]
      | None => []
      end).

Definition log_query (run_id : string) (offset : Z) (max_bytes : option Z) (w : World) : result dict :=
  raise_when (offset <? 0)%Z (ValueError "offset must be non-negative");;
  let limit := default MAX_LOG_BYTES max_bytes in
  raise_when (negb ((0 <? limit) && (limit <=? MAX_LOG_BYTES))%Z) (ValueError "max_bytes");;
  detail ← describe_run run_id (store_of w);
  attempts ← view_attempts detail;
  chunks ← mapM_result (λ sa : json * json, log_chunk w offset limit (snd sa)) attempts;
  Ok [("run", JStr run_id); ("offset", JInt offset); ("max_bytes", JInt limit);
      ("content", JStr (utf8 (str_join EmptyString (concat chunks))))].
End logs.

(** ** artifact_inventory.py *)

(** [wanted is not None and metadata.get(k) != wanted] *)
Definition filtered_out (metadata : dict) (k : string) (wanted : option string) : bool :=
  match wanted with
  | Some w => negb (py_eqb (get_null k metadata) (JStr w))
  | None => false
  end.

Definition inventory_entry (run_id : string) (category format stage : option string)
    (stage_view attempt artifact : json) : result (list dict) :=
  a ← as_object artifact;
  metadata ← (if truthy (get_null "metadata" a) then as_object (get_null "metadata" a) else Ok []);
  if filtered_out metadata "category" category || filtered_out metadata "format" format
     || filtered_out metadata "stage" stage then Ok []
  else
    stage_key ← py_index "stage_key" stage_view;
    attempt_id ← py_index "attempt_id" attempt;
    Ok [merge_dict a [("run_id", JStr run_id); ("stage_key", stage_key); ("attempt_id", attempt_id)]].

Definition inventory_for_run (run_id : string) (category format stage : option string) (s : Store)
    : result (list dict) :=
  view ← describe_run run_id s;
  attempts ← view_attempts view;
  entries ← mapM_result (λ sa : json * json,
    artifacts ← (v ← py_index "artifacts" (snd sa); py_list v);
    per_artifact ← mapM_result (inventory_entry run_id category format stage (fst sa) (snd sa)) artifacts;
    Ok (concat per_artifact)) attempts;
  Ok (concat entries).

(** ** resource_query.py *)

Definition waiting_text (w : option waiting) : json :=
  match w with
  | None => JNull
  | Some (WaitsForResources _ _) => JStr "resource"
  | Some Claimable => JStr "claimable"
  end.

Definition usage_entry (attempt : json) : result json :=
  attempt_id ← py_index "attempt_id" attempt;
  status ← py_index "status" attempt;
  a ← as_object attempt;
  Ok (JObj [("attempt_id", attempt_id); ("status", status); ("usage", get_null "resource_usage" a)]).

Definition resource_run (config : RuntimeConfig) (run_id : string) (s : Store) : result dict :=
  detail ← describe_run run_id s;
  let reserved := resource_totals s in
  stages ← get_items "stages" (JObj detail);
  per_stage ← mapM_result (get_items "attempts") stages;
  record ← get_run run_id s;
  let task := rec_task_spec record in
  requested ← match t_resources task with
              | Some r => d ← ResourceRequest_to_dict r; Ok (JObj d)
              | None => Ok JNull
              end;
  budget_cpu ← query_budget config (capacity_cpu_cores config);
  budget_memory ← query_budget config (capacity_memory_bytes config);
  would ← ResourceRequest_to_dict (reservation_for config task);
  waits ← waiting_for config run_id s;
  usage ← mapM_result usage_entry (concat per_stage);
  Ok [("capacity", JObj [("cpu_cores", JInt (capacity_cpu_cores config));
                         ("memory_bytes", JInt (capacity_memory_bytes config));
                         ("platform_fraction", JFloat (platform_fraction config));
                         ("budget_cpu_cores", JInt budget_cpu);
                         ("budget_memory_bytes", JInt budget_memory)]);
      ("reserved", JObj [("cpu_cores", JInt (fst reserved)); ("memory_bytes", JInt (snd reserved))]);
      ("run", JStr run_id); ("requested", requested); ("would_reserve", JObj would);
      ("waiting_for", waiting_text waits); ("attempts", JList usage)].

(** ** worker_presence.py: what the health page shows *)

Definition STALE_AFTER : Z := 30000000.

Definition worker_entry (now : Z) (s : Store) (w : WorkerRow) : json :=
  JObj [("worker_id", JStr (w_worker_id w)); ("pid", JInt (w_pid w));
        ("last_seen_at", JInt (w_last_seen_at w));
        ("current_attempt_id", opt_json (w_current_attempt_id w));
        ("active_attempt_ids", JList (JStr <$> _active_attempts (w_worker_id w) s));
        ("state", JStr (reported_state (now - STALE_AFTER) w))].
Definition worker_le (a b : WorkerRow) : Prop := String.le (w_worker_id a) (w_worker_id b).
#[export] Instance worker_le_dec : RelDecision worker_le.
Proof. intros a b. unfold worker_le. apply _. Defined.
Definition snapshot (now : Z) (s : Store) : json :=
  JList (worker_entry now s <$> merge_sort worker_le (workers s)).

(** The runs behind the rows of [queue]'s join. *)
Definition waiting_since (s : Store) : list Z :=
  g ← sel (λ g, bool_decide (s_status g ∈ [QUEUED; RETRY_WAIT])) (stages s);
  r ← sel (is_run (s_run_id g)) (runs s); [r_created_at r].

Definition queue (now : Z) (s : Store) : json :=
  let oldest := match waiting_since s with [] => None | z :: l => Some (foldr Z.min z l) end in
  JObj [("waiting", JInt (Z.of_nat (length (waiting_since s))));
        ("queued", JInt (Z.of_nat (waiting_stages QUEUED s)));
        ("retry_wait", JInt (Z.of_nat (waiting_stages RETRY_WAIT s)));
        ("oldest_created_at", opt_int oldest);
        ("oldest_age_seconds", JInt (match oldest with Some z => Z.max 0 (now - z) | None => 0 end))].

(** ** bundle.py: export_run_bundle

    The archive is the list of its members, each a name and its bytes; [zip] is what
    the file written from them holds.  Times of events are shown as numbers. *)

Definition BUNDLE_KIND : string := "runtime_bundle".
Definition BUNDLE_KEY : string := "runtime_bundle.zip".
Definition BUNDLE_FILES : list string :=
  ["adapter_request.json"; "adapter_result.json"; "adapter.log"; "runtime_input_manifest.json";
   "runtime_protocol_receipt.json"].
(** [sort_keys=True, indent=2, ensure_ascii=False] *)
Definition bundle_style : style := Style true (Some 2) "," ": " false.

Definition Member : Type := string * string.
(** Members with their lines in the index. *)
Definition Collected : Type := list (Member * json).

(** [f"{v}"] of a string or an integer. *)
Definition text_of (v : json) : string :=
  match v with JStr s => s | JInt z => pretty z | _ => EmptyString end.

Section bundle.
Context (sha256 : string → string) (path_of : list string → string → list string).
Context (parts : string → list string) (float_repr : spec_float → string).
Context (zip : list Member → string) (uuid : nat → string) (clock : nat → Z).
Local Abbreviation draw := (draw uuid clock).
Local Abbreviation now := (now uuid clock).

(** [f"{area}/{stage}/attempt-{number}/{name}"] *)
Definition member_name (area : string) (stage attempt : json) (name : string) : result string :=
  key ← py_index "stage_key" stage;
  number ← py_index "attempt_number" attempt;
  Ok (area +:+ "/" +:+ text_of key +:+ "/attempt-" +:+ text_of number +:+ "/" +:+ name).

Definition bundle_file (w : World) (stage attempt : json) (filename : string) : result Collected :=
  workspace ← py_index "workspace" attempt;
  attempt_id ← py_index "attempt_id" attempt;
  let kept := evidence (cust w) !! (str_of attempt_id, filename) in
  let source := match kept with
                | Some b => Some b
                | None => file_at w (path_of (parts (str_of workspace)) EmptyString ++ [filename])
                end in
  match source with
  | None => Ok []
  | Some b =>
      name ← member_name "runtime" stage attempt filename;
      Ok [((name, b), JObj [("path", JStr name); ("kind", JStr "runtime_file");
                            ("sha256", JStr (sha256 b)); ("size_bytes", JInt (size_of b))])]
  end.

(** The bytes of a staged input: the platform's copy, or the file in the workspace. *)
Definition input_source (w : World) (workspace : string) (staged : dict) : result (option string) :=
  if truthy (get_null "source_input_id" staged) then
    u ← get_uploaded_input (str_of (get_null "source_input_id" staged)) (store_of w);
    Ok (objects (cust w) !! u_sha256 u)
  else
    destination ← py_index "destination" (JObj staged);
    let root := path_of (parts workspace) EmptyString in
    let source := path_of root (str_of destination) in
    of_option (RuntimeStoreError "staged input escapes its workspace") (relative_to root source);;
    Ok (file_at w source).

Definition bundle_input (w : World) (stage attempt staged : json) : result Collected :=
  d ← as_object staged;
  if negb (truthy (get_null "present" d)) then Ok []
  else
    workspace ← py_index "workspace" attempt;
    source ← input_source w (str_of workspace) d;
    let recorded := get_null "sha256" d in
    b ← of_option (RuntimeStoreError "staged input failed hash verification") source;
    raise_when (truthy recorded && negb (py_eqb (JStr (sha256 b)) recorded))
               (RuntimeStoreError "staged input failed hash verification");;
    destination ← py_index "destination" staged;
    name ← member_name "inputs" stage attempt (str_of destination);
    Ok [((name, b), JObj [("path", JStr name); ("input", staged)])].

Definition bundle_artifact (w : World) (stage attempt artifact : json) : result Collected :=
  kind ← py_index "kind" artifact;
  if py_eqb kind (JStr BUNDLE_KIND) then Ok []
  else
    artifact_id ← py_index "artifact_id" artifact;
    recorded ← py_index "sha256" artifact;
    bytes ← artifact_bytes path_of (file_at w) parts (str_of artifact_id) (cust w);
    b ← of_option (RuntimeStoreError "artifact failed hash verification") bytes;
    raise_when (negb (py_eqb (JStr (sha256 b)) recorded))
               (RuntimeStoreError "artifact failed hash verification");;
    key ← py_index "store_key" artifact;
    name ← member_name "artifacts" stage attempt (str_of key);
    a ← as_object artifact;
    Ok [((name, b), JObj (merge_dict [("path", JStr name)] a))].

Definition collect_attempt (w : World) (sa : json * json) : result Collected :=
  let '(stage, attempt) := sa in
  files ← mapM_result (bundle_file w stage attempt) BUNDLE_FILES;
  staged ← (v ← py_index "inputs" attempt; py_list v);
  inputs ← mapM_result (bundle_input w stage attempt) staged;
  artifacts ← (v ← py_index "artifacts" attempt; py_list v);
  kept ← mapM_result (bundle_artifact w stage attempt) artifacts;
  Ok (concat files ++ concat inputs ++ concat kept).

Definition bundle_event (e : EventRow) : json :=
  JObj [("event_id", JStr (e_event_id e)); ("run_id", JStr (e_run_id e));
        ("event_type", JStr (e_event_type e)); ("occurred_at", JInt (e_occurred_at e));
        ("producer", JStr (e_producer e)); ("payload", JObj (e_payload_json e));
        ("stage_run_id", opt_json (e_stage_run_id e)); ("attempt_id", opt_json (e_attempt_id e))].

Definition bundle_members (view : dict) (events : list EventRow) (collected : Collected) : list Member :=
  ("run.json", dumps float_repr bundle_style (JObj view))
  :: ("events.json", dumps float_repr bundle_style (JList (bundle_event <$> events)))
  :: (fst <$> collected)
  ++ [("artifacts/index.json", dumps float_repr bundle_style (JList (snd <$> collected)))].

Definition bundle_metadata : dict :=
  [("producer", JStr "runtime"); ("format", JStr "zip"); ("complete", JBool true)].

(** [_register_file] of the archive: an artifact already under that key is returned. *)
Definition _register_file (attempt_id : string) (content : string) : st World ArtifactRow :=
  d ← draw;
  let artifact_id := _new_id "art" (fst d) in
  lift (Artifact_validate
          (MkArtifact (JStr artifact_id) (JStr BUNDLE_KIND) (JStr BUNDLE_KEY) (JStr (sha256 content))
             (JInt (size_of content)) JNull (JObj bundle_metadata) (JInt SCHEMA_VERSION)));;
  w ← gets id;
  match fetchone (λ r, bool_decide (ar_attempt_id r = attempt_id) && bool_decide (ar_store_key r = BUNDLE_KEY))
                 (artifacts (store_of w)) with
  | Some row => lift (get_artifact (ar_artifact_id row) (store_of w))
  | None =>
      in_custody (_store_bytes sha256 content (sha256 content) (size_of content));;
      t ← now;
      let row := MkArtifactRow artifact_id attempt_id BUNDLE_KIND BUNDLE_KEY (size_of content)
                   (sha256 content) bundle_metadata t STORAGE_OBJECT in
      in_store (insert_artifact row);;
      mret row
  end.

Definition is_bundle (artifact : json) : bool :=
  match artifact with JObj d => py_eqb (get_null "kind" d) (JStr BUNDLE_KIND) | _ => false end.

Definition bundle_answer (run_id : string) (created : ArtifactRow) : json :=
  JObj [("artifact_id", JStr (ar_artifact_id created)); ("kind", JStr (ar_kind created));
        ("store_key", JStr (ar_store_key created)); ("sha256", JStr (ar_sha256 created));
        ("size_bytes", JInt (ar_size_bytes created)); ("metadata", JObj (ar_metadata_json created));
        ("storage", JStr "object"); ("run_id", JStr run_id)].

Definition export_run_bundle (run_id : string) : st World json :=
  w ← gets id;
  view ← lift (describe_run run_id (store_of w));
  attempts ← lift (view_attempts view);
  match last attempts with
  | None => raise (RuntimeStoreError "a run without an attempt has nothing to export")
  | Some (_, latest) =>
      kept ← lift (v ← py_index "artifacts" latest; py_list v);
      match List.find is_bundle kept with
      | Some artifact => mret artifact
      | None =>
          collected ← lift (mapM_result (collect_attempt w) attempts);
          let members := bundle_members view (list_events run_id (store_of w)) (concat collected) in
          attempt_id ← lift (py_index "attempt_id" latest);
          created ← _register_file (str_of attempt_id) (zip members);
          mret (bundle_answer run_id created)
      end
  end.
End bundle.
