(* ===== verification/KernelApi.v ===== *)
(** * gateway/kernel_api.py: the kernel over HTTP

    One handler per route over the kernel's parts: the runtime's world, the identity
    store and the partial uploads below the objects root.  What a handler raises
    becomes a response in [Router].  The section's parameters are the host and the
    deployment: [plain_path] is [Path(p)] as it stands, [host_path] the same with the
    home directory expanded and links resolved. *)

From stdpp Require Import gmap pretty.
From S2P Require Export Router Queries Registry Identity.
Open Scope string_scope.
Open Scope list_scope.

Definition MAX_INPUT_UPLOAD_BYTES : Z := 64 * 1024 ^ 3.
(** A day, in microseconds. *)
Definition INPUT_UPLOAD_TTL_SECONDS : Z := 24 * 60 * 60 * 1000000.
Definition PUBLIC_PATHS : list (string * string) :=
  [("GET", "/kernel/health"); ("POST", "/kernel/auth/register"); ("POST", "/kernel/auth/login")].

(** ** State *)

Record Kern := MkKern {
  k_world : World;
  k_identity : IdentityDb;
  (* objects_root/uploads: each partial upload with its modification time *)
  k_uploads : gmap string (string * Z) }.

Definition in_world {A} (m : st World A) : st Kern A :=
  λ k, let '(r, w) := m (k_world k) in (r, MkKern w (k_identity k) (k_uploads k)).
Definition in_identity {A} (m : st IdentityDb A) : st Kern A :=
  λ k, let '(r, i) := m (k_identity k) in (r, MkKern (k_world k) i (k_uploads k)).
Definition on_uploads (f : gmap string (string * Z) → gmap string (string * Z)) (k : Kern) : Kern :=
  MkKern (k_world k) (k_identity k) (f (k_uploads k)).

Definition kstore (k : Kern) : Store := store_of (k_world k).

(** ** What responses show *)

Definition uploaded_json (u : UploadedInput) : json :=
  JObj [("input_id", JStr (u_input_id u)); ("size_bytes", JInt (u_size_bytes u));
        ("sha256", JStr (u_sha256 u)); ("created_at", JInt (StoreState.u_created_at u))].

Definition set_given (k : string) (v : json) (d : dict) : dict :=
  if is_null v then d else dict_set k v d.
(** [RunSummary.to_dict] *)
Definition summary_json (r : RunSummary) : json :=
  JObj (set_given "input_manifest_sha256" (rs_input_manifest_sha256 r)
         (set_given "experiment_id" (rs_experiment_id r)
           (set_given "design_revision_id" (rs_design_revision_id r)
    [("run_id", JStr (rs_run_id r)); ("task_id", JStr (rs_task_id r)); ("status", JStr (rs_status r));
     ("project_id", rs_project_id r); ("design_id", rs_design_id r); ("plugin_id", rs_plugin_id r);
     ("created_at", JInt (rs_created_at r)); ("started_at", opt_int (rs_started_at r));
     ("ended_at", opt_int (rs_ended_at r)); ("terminal_reason", opt_json (rs_terminal_reason r));
     ("counts", JObj [("attempts", JInt (Z.of_nat (rs_attempts r)));
                      ("artifacts", JInt (Z.of_nat (rs_artifacts r)));
                      ("metrics", JInt (Z.of_nat (rs_metrics r)))])]))).

(** [MetricProvenance.to_dict] *)
Definition metric_json (m : MetricProvenance) : json :=
  let complete := negb (is_null (mp_artifact_id m)) in
  JObj [("name", mp_name m); ("value", mp_value m); ("unit", mp_unit m);
        ("parser", JObj [("id", mp_parser_id m); ("version", mp_parser_version m)]);
        ("run_id", JStr (mp_run_id m)); ("attempt_id", JStr (mp_attempt_id m));
        ("artifact", if complete then
           JObj [("artifact_id", mp_artifact_id m); ("kind", mp_artifact_kind m);
                 ("sha256", mp_artifact_sha256 m); ("size_bytes", mp_artifact_size_bytes m)]
         else JNull);
        ("complete", JBool complete)].

(** [ArtifactGraph.to_dict] *)
Definition graph_json (g : ArtifactGraph) : json :=
  JObj [("nodes", JList ((λ n, JObj (("id", JStr (nd_id n)) :: ("kind", JStr (nd_kind n)) :: nd_fields n)) <$> fst g));
        ("edges", JList ((λ e, JObj [("from", JStr (eg_from e)); ("to", JStr (eg_to e));
                                     ("kind", JStr (eg_kind e))]) <$> snd g))].

Definition excerpt_json (utf8 : string → string) (artifact_id : string) (x : Excerpt) : json :=
  JObj [("artifact_id", JStr artifact_id); ("sha256", xc_sha256 x); ("offset", JInt (xc_offset x));
        ("text", JStr (utf8 (xc_chunk x))); ("data_base64", JStr (b64encode (xc_chunk x)));
        ("bytes_read", JInt (xc_bytes_read x)); ("size_bytes", xc_size_bytes x);
        ("truncated", JBool (xc_truncated x))].

(** [_object(request)] *)
Definition _object (request : Request) : result dict :=
  match req_body request with
  | Doc (JObj d) => Ok d
  | _ => Err (HttpError 400 "request body must be a JSON object")
  end.

(** [except <classes of p> as exc: raise HttpError(status, str(exc))] *)
Definition refuse {A} (p : exn → bool) (status : Z) (m : st Kern A) : st Kern A :=
  catch m p (λ _, raise (HttpError status "refused")).

Definition bearer_token (request : Request) : option string :=
  let value := default EmptyString (header "Authorization" request) in
  if startswith "bearer " (lower value) then Some (strip (str_drop 7 value)) else None.

Definition upload_id_ok (s : string) : bool :=
  str_forall (λ c, is_alnum c || one_of "_-" c) s
  && (16 <=? String.length s)%nat && (String.length s <=? 128)%nat.

Section api.
Context (sha256 : string → string) (pbkdf2 : string → string → Z → string).
Context (path_of : list string → string → list string).
Context (parts host_path plain_path : string → list string).
Context (float_repr : spec_float → string) (py_repr utf8 : string → string).
Context (zip : list Member → string).
Context (uuid token salt : nat → string) (clock : nat → Z).
Context (config : RuntimeConfig) (supports_limits : bool) (machine : string).
Context (registry : PluginRegistry).
Context (allow_anonymous : bool) (local_user_id evaluator_error : option string).

#[local] Instance kernel_resolver : ManifestResolver :=
  λ plugin_id version capability,
    Registry.resolve registry plugin_id version capability (Some machine) true.

(** [uuid4().hex] and the time; a token and a salt are drawn alike. *)
Definition kdraw : st Kern (nat * string * Z) :=
  k ← gets id;
  d ← in_world (draw uuid clock);
  mret (World.draws (k_world k), fst d, snd d).
Definition know : st Kern Z := d ← kdraw; mret (snd d).
Definition session_draws : st Kern Identity.draws :=
  d ← kdraw; mret (token (fst (fst d)), snd (fst d), snd d).

(** ** Sessions *)

Definition _is_public (request : Request) : bool :=
  bool_decide ((req_method request, req_path request) ∈ PUBLIC_PATHS).

Definition anonymous_session : option AuthSession :=
  match local_user_id with
  | Some i => if allow_anonymous && negb (str_empty i)
              then Some (MkAuthSession i "local-user" true "session-local") else None
  | None => None
  end.

Definition _authenticate (request : Request) : st Kern (option AuthSession) :=
  found ← match bearer_token request with
          | Some t => n ← know; in_identity (Identity.resolve sha256 t n)
          | None => mret None
          end;
  mret (match found with Some session => Some session | None => anonymous_session end).

Definition api_handler : Type := Request → option AuthSession → st Kern Response.

Definition _guarded (h : api_handler) : handler Kern := λ request,
  session ← _authenticate request;
  match session with
  | None => if _is_public request then h request None
            else raise (HttpError 401 "authentication required")
  | Some _ => h request session
  end.

(** [session.user_id if session else self.local_user_id] *)
Definition owner_id (session : option AuthSession) : option string :=
  match session with Some s => Some (as_user_id s) | None => local_user_id end.

Definition is_developer (session : option AuthSession) : bool :=
  match session with Some s => as_developer s | None => false end.

Definition _require_ownership (resource_type resource_id : string) (session : option AuthSession)
    : st Kern unit :=
  match owner_id session with
  | None => mret tt
  | Some owner =>
      k ← gets id;
      let known := owner_of resource_type resource_id (k_identity k) in
      lift (raise_when (negb (bool_decide (is_Some known)) && negb (is_developer session))
                       (HttpError 404 "not found"));;
      lift (raise_when (negb (owns_resource resource_type resource_id owner true (k_identity k)))
                       (HttpError 404 "not found"))
  end.

(** [if owner: self.identity.bind_resource(...)] *)
Definition bind_owner (resource_type resource_id : string) (session : option AuthSession)
    : st Kern unit :=
  match owner_id session with
  | Some owner =>
      if str_empty owner then mret tt
      else n ← know; in_identity (bind_resource resource_type resource_id owner n)
  | None => mret tt
  end.

(** [detail["waiting_for"] = ...] on the projection of the run. *)
Definition _run_detail (run_id : string) : st Kern json :=
  k ← gets id;
  detail ← lift (run_detail run_id (kstore k));
  waits ← lift (waiting_for config run_id (kstore k));
  mret (JObj (dict_set "waiting_for" (waiting_text waits) detail)).

(** ** Health and catalogue *)

Definition health : api_handler := λ _ _,
  n ← know;
  k ← gets id;
  mret (json_response (JObj
    [("service", JStr "kernel"); ("status", JStr "ok");
     ("plugins", JInt (Z.of_nat (length (list_plugins registry))));
     ("admitted", JInt (Z.of_nat (length (List.filter executable (list_plugins registry)))));
     ("evaluator", JObj (match evaluator_error with
        | None => [("status", JStr "ready")]
        | Some e => ("status", JStr "unavailable")
                    :: (if str_empty e then [] else [("error", JStr e)]) end));
     ("workers", snapshot n (kstore k)); ("queue", queue n (kstore k))]) 200).

Definition plugins : api_handler := λ _ _,
  mret (json_response (JObj [("plugins", catalogue registry)]) 200).

(** ** Inputs *)

Definition ingest_input : api_handler := λ request session,
  match req_body request with
  | Bytes content =>
      d ← kdraw;
      uploaded ← in_world (in_custody (StoreEvidence.ingest_input sha256 content (snd (fst d)) (snd d)));
      bind_owner "input" (u_input_id uploaded) session;;
      mret (json_response (JObj [("input", uploaded_json uploaded)]) 201)
  | _ => raise (HttpError 400 "input upload requires application/octet-stream")
  end.

(** Uploads nobody has written to for a day are removed. *)
Definition drop_stale (now : Z) (uploads : gmap string (string * Z)) : gmap string (string * Z) :=
  filter (λ p, (now - INPUT_UPLOAD_TTL_SECONDS ≤ snd (snd p))%Z) uploads.

Definition ingest_upload (upload_id : string) : st Kern UploadedInput :=
  k ← gets id;
  let file (_ : list string) := fst <$> k_uploads k !! upload_id in
  d ← kdraw;
  in_world (in_custody (ingest_input_file sha256 file file [] (snd (fst d)) (snd d))).

(** [try: m finally: f] *)
Definition kfinally {A} (m : st Kern A) (f : Kern → Kern) : st Kern A :=
  λ k, let '(r, k') := m k in (r, f k').

Definition ingest_input_chunk : api_handler := λ request session,
  match req_body request with
  | Bytes content =>
      let upload_id := default EmptyString (q "upload_id" request) in
      lift (raise_when (negb (upload_id_ok upload_id)) (HttpError 400 "upload_id"));;
      offset ← lift (q_int_or "offset" 0 request);
      lift (raise_when (offset <? 0)%Z (HttpError 400 "offset"));;
      n ← know;
      modify (on_uploads (drop_stale n));;
      k ← gets id;
      let before := default EmptyString (fst <$> k_uploads k !! upload_id) in
      lift (raise_when (negb (size_of before =? offset)%Z) (HttpError 409 "upload offset"));;
      lift (raise_when (MAX_INPUT_UPLOAD_BYTES <? size_of before + size_of content)%Z
                       (HttpError 413 "input upload exceeds the limit"));;
      modify (on_uploads (insert upload_id (before +:+ content, n)));;
      if negb (q_bool "final" request) then
        mret (json_response (JObj [("upload_id", JStr upload_id);
                                   ("offset", JInt (size_of before + size_of content))]) 200)
      else
        uploaded ← kfinally (ingest_upload upload_id) (on_uploads (delete upload_id));
        bind_owner "input" (u_input_id uploaded) session;;
        mret (json_response (JObj [("input", uploaded_json uploaded)]) 201)
  | _ => raise (HttpError 400 "input upload requires application/octet-stream")
  end.

(** ** Identity *)

(** [str(v or EmptyString)]; [py_repr] prints what is neither text nor a number. *)
Definition text_or_empty (v : json) : string :=
  if truthy v then
    match v with
    | JStr s => s
    | JInt z => pretty z
    | JBool _ => "True"
    | JFloat f => float_repr f
    | _ => py_repr (dumps float_repr plain_style v)
    end
  else EmptyString.

Definition session_reply (r : AuthSession * string) : Response :=
  json_response (JObj [("token", JStr (snd r)); ("session", JObj (public (fst r)))]) 200.

Definition auth_register : api_handler := λ request _,
  body ← lift (_object request);
  d ← kdraw;
  s ← session_draws;
  r ← refuse is_value_error 400
        (in_identity (Identity.register sha256 pbkdf2 (text_or_empty (get_null "username" body))
           (text_or_empty (get_null "password" body)) (salt (fst (fst d))) (snd (fst d)) (snd d) s));
  mret (session_reply r).

Definition auth_login : api_handler := λ request _,
  body ← lift (_object request);
  s ← session_draws;
  r ← refuse is_value_error 401
        (in_identity (login sha256 pbkdf2 (text_or_empty (get_null "username" body))
           (text_or_empty (get_null "password" body)) s));
  mret (session_reply r).

Definition auth_session : api_handler := λ _ session,
  mret (json_response (JObj [("session", match session with
                                         | Some s => JObj (public s) | None => JNull end)]) 200).

Definition auth_logout : api_handler := λ request _,
  match bearer_token request with
  | Some t => in_identity (logout sha256 t)
  | None => mret tt
  end;;
  mret (json_response (JObj [("ok", JBool true)]) 200).

(** ** Runs *)

(** The checks on one declared input before the runtime sees the task. *)
Definition check_declaration (session : option AuthSession) (declaration : InputFile)
    : st Kern unit :=
  k ← gets id;
  lift (raise_when
    (negb (is_null (if_source declaration))
     && match session with
        | Some s =>
            bool_decide (is_Some (file_at (k_world k) (plain_path (str_of (if_source declaration)))))
            && negb (bool_decide (as_username s = "local-user"))
            && match allowed_input_roots config with [] => true | _ => false end
        | None => false
        end) (HttpError 400 "shared sessions must upload inputs"));;
  (if is_null (if_input_id declaration) then mret tt
   else _require_ownership "input" (str_of (if_input_id declaration)) session);;
  if is_null (if_artifact_id declaration) then mret tt
  else
    run_id ← refuse is_store_error 400
               (lift (artifact_run_id (str_of (if_artifact_id declaration)) (kstore k)));
    _require_ownership "run" run_id session.

(** [except (RegistryError, InputStagingError, ResourceLimitsUnsupported, ValueError)] *)
Definition is_callers_mistake (e : exn) : bool :=
  match e with
  | RegistryError _ | InputStagingError _ | ResourceLimitsUnsupported _ => true
  | _ => is_value_error e
  end.

Definition runtime_submit (task : TaskSpec) (idempotent : bool) (key : option string) : st World RunRecord :=
  submit sha256 path_of parts host_path float_repr uuid clock config supports_limits
         task JNull None idempotent key.

Definition submit_run : api_handler := λ request session,
  body ← lift (_object request);
  task_payload ← match get_null "task" body with
                 | JObj d => mret (JObj d)
                 | _ => raise (HttpError 400 "body must contain a task object")
                 end;
  task ← refuse is_contract_error 400 (lift (TaskSpec_from_dict task_payload));
  iterM_st (check_declaration session) (t_staged_inputs task);;
  let key := q "idempotency_key" request in
  let idempotent := bool_decide (is_Some (q "idempotent" request)) || bool_decide (is_Some key) in
  run ← refuse is_store_error (if bool_decide (is_Some key) then 409 else 500)
          (refuse is_callers_mistake 400 (in_world (runtime_submit task idempotent (if idempotent then key else None))));
  bind_owner "run" (rec_run_id run) session;;
  iterM_st (λ declaration,
    if is_null (if_input_id declaration) then mret tt
    else bind_owner "input" (str_of (if_input_id declaration)) session)
    (t_staged_inputs (rec_task_spec run));;
  detail ← _run_detail (rec_run_id run);
  mret (json_response (JObj [("run", detail)]) 201).

(** The runs a caller may list: all of them for a developer. *)
Definition visible_runs (session : option AuthSession) (i : IdentityDb) : option (list string) :=
  match session with
  | Some s => if as_developer s then None else Some (resources_owned "run" (as_user_id s) i)
  | None => None
  end.

Definition list_runs : api_handler := λ request session,
  limit ← lift (q_int "limit" request);
  offset ← lift (q_int_or "offset" 0 request);
  k ← gets id;
  summaries ← refuse is_value_error 400
    (lift (index_runs (MkRunFilter (q "project_id" request) (q "design_id" request)
                        (q "plugin_id" request) (q "status" request)
                        (visible_runs session (k_identity k)))
             (default DEFAULT_RUN_LIMIT limit) offset (kstore k)));
  mret (json_response (JObj [("runs", JList (summary_json <$> summaries))]) 200).

Definition run_param (request : Request) (session : option AuthSession) : st Kern string :=
  run_id ← lift (param "run_id" request);
  _require_ownership "run" run_id session;;
  mret run_id.

Definition get_run : api_handler := λ request session,
  run_id ← run_param request session;
  detail ← refuse is_store_error 404 (_run_detail run_id);
  mret (json_response (JObj [("run", detail)]) 200).

(** [revisions.setdefault(revision, {...})["runs"].append(node)] *)
Definition tree : Type := list (string * (json * list json)).
Fixpoint tree_add (revision : string) (shown node : json) (t : tree) : tree :=
  match t with
  | [] => [(revision, (shown, [node]))]
  | (r, (v, nodes)) :: t =>
      if bool_decide (r = revision) then (r, (v, nodes ++ [node])) :: t
      else (r, (v, nodes)) :: tree_add revision shown node t
  end.

Definition tree_step (t : tree) (summary : RunSummary) : st Kern tree :=
  let shown := rs_design_revision_id summary in
  node ← _run_detail (rs_run_id summary);
  mret (tree_add (if truthy shown then str_of shown else "unversioned") shown node t).
Fixpoint tree_of (t : tree) (summaries : list RunSummary) : st Kern tree :=
  match summaries with
  | [] => mret t
  | s :: summaries => t ← tree_step t s; tree_of t summaries
  end.

Definition design_tree : api_handler := λ request session,
  design_id ← lift (param "design_id" request);
  offset ← lift (q_int_or "offset" 0 request);
  limit ← lift (q_int_or "limit" 500 request);
  lift (raise_when (negb ((1 <=? limit) && (limit <=? 500))%Z) (HttpError 400 "limit"));;
  k ← gets id;
  let owners := visible_runs session (k_identity k) in
  let f := MkRunFilter None (Some design_id) None None owners in
  summaries ← lift (index_runs f (Z.min (limit + 1) 500) offset (kstore k));
  let n := Z.of_nat (length summaries) in
  let has_more := (limit <? n)%Z || (limit =? 500)%Z && (n =? 500)%Z in
  total ← lift (o ← count_runs (S (length (runs (kstore k)))) f (kstore k);
                of_option (OtherError "fuel") o);
  t ← tree_of [] (take (Z.to_nat limit) summaries);
  mret (json_response (JObj
    [("design_id", JStr design_id);
     ("revisions", JList ((λ e : string * (json * list json),
        JObj [("design_revision_id", fst (snd e)); ("runs", JList (snd (snd e)))]) <$> t));
     ("run_count", JInt total); ("offset", JInt offset); ("limit", JInt limit);
     ("has_more", JBool has_more);
     ("next_offset", if has_more then JInt (offset + limit) else JNull)]) 200).

Definition cancel_run : api_handler := λ request session,
  run_id ← run_param request session;
  n ← know;
  refuse is_store_error 404 (in_world (in_store (request_cancel id run_id n)));;
  detail ← _run_detail run_id;
  mret (json_response (JObj [("run", detail)]) 200).

Definition retry_run : api_handler := λ request session,
  run_id ← run_param request session;
  body ← lift (_object request);
  let reason := text_or_empty (get_null "reason" body) in
  let requester := match owner_id session with
                   | Some o => if str_empty o then "anonymous" else o
                   | None => "anonymous"
                   end in
  d ← kdraw;
  detail ← refuse (λ e, is_store_error e || is_value_error e) 400
    (in_world (in_store (request_retry run_id requester reason (snd (fst d)) (snd d))));
  mret (json_response (JObj [("run", JObj detail)]) 202).

Definition bundle : api_handler := λ request session,
  run_id ← run_param request session;
  made ← refuse is_store_error 409
    (in_world (export_run_bundle sha256 path_of parts float_repr zip uuid clock run_id));
  mret (json_response (JObj [("bundle", made)]) 201).

(** ** Evidence *)

Definition metrics : api_handler := λ request session,
  run_id ← run_param request session;
  k ← gets id;
  entries ← lift (index_metrics run_id (q_bool "complete_only" request) (kstore k));
  mret (json_response (JObj [("metrics", JList (metric_json <$> entries))]) 200).

Definition artifacts : api_handler := λ request session,
  run_id ← run_param request session;
  k ← gets id;
  entries ← lift (inventory_for_run run_id (q "category" request) (q "format" request)
                    (q "stage" request) (kstore k));
  mret (json_response (JObj [("artifacts", JList (JObj <$> entries))]) 200).

Definition timeline : api_handler := λ request session,
  run_id ← run_param request session;
  k ← gets id;
  mret (json_response (JObj [("timeline", JList (JObj <$> Provenance.timeline run_id (kstore k)))]) 200).

Definition resources : api_handler := λ request session,
  run_id ← run_param request session;
  k ← gets id;
  view ← refuse is_store_error 404 (lift (resource_run config run_id (kstore k)));
  mret (json_response (JObj [("resources", JObj view)]) 200).

Definition logs : api_handler := λ request session,
  run_id ← run_param request session;
  offset ← lift (q_int_or "offset" 0 request);
  max_bytes ← lift (q_int "max_bytes" request);
  k ← gets id;
  view ← refuse is_value_error 400
    (refuse is_store_error 404 (lift (log_query parts utf8 run_id offset max_bytes (k_world k))));
  mret (json_response (JObj [("logs", JObj view)]) 200).

Definition excerpt (verify_hash : bool) (dflt : Z) : api_handler := λ request session,
  run_id ← run_param request session;
  offset ← lift (q_int_or "offset" 0 request);
  max_bytes ← lift (q_int_or "max_bytes" dflt request);
  artifact_id ← lift (param "artifact_id" request);
  k ← gets id;
  x ← refuse is_value_error 400 (refuse is_store_error 404
    (lift (read_artifact_excerpt sha256 path_of parts run_id artifact_id (JInt offset)
             (JInt max_bytes) verify_hash (k_world k))));
  mret (json_response (excerpt_json utf8 artifact_id x) 200).

Definition artifact_excerpt : api_handler := excerpt true 8192.
Definition artifact_chunk : api_handler := excerpt false (64 * 1024).

(** [except (OSError, RuntimeStoreError)] *)
Definition artifact_download : api_handler := λ request session,
  run_id ← lift (param "run_id" request);
  artifact_id ← lift (param "artifact_id" request);
  _require_ownership "run" run_id session;;
  k ← gets id;
  detail ← lift (run_detail run_id (kstore k));
  match view_artifacts detail artifact_id with
  | [artifact] =>
      let size := default 0%Z (as_int (obj_get_null "size_bytes" artifact)) in
      lift (raise_when (MAX_RESPONSE_BYTES <? size)%Z (HttpError 413 "download response limit"));;
      bytes ← refuse is_store_error 404
                (lift (artifact_bytes path_of (file_at (k_world k)) parts artifact_id (cust (k_world k))));
      content ← lift (of_option (HttpError 404 "not readable") bytes);
      lift (raise_when (negb (size_of content =? size)%Z
                        || negb (py_eqb (JStr (sha256 content)) (obj_get_null "sha256" artifact)))
                       (HttpError 409 "no longer match the registered hash"));;
      mret (MkResponse 200 (Bytes content)
              [("Content-Type", "application/octet-stream");
               ("X-Artifact-SHA256", str_of (obj_get_null "sha256" artifact))])
  | _ => raise (HttpError 404 "artifact not found")
  end.

Definition graph : api_handler := λ request session,
  let run_ids := q_all "run_id" request in
  lift (raise_when (match run_ids with [] => true | _ => false end) (HttpError 400 "run_id"));;
  iterM_st (λ run_id, _require_ownership "run" run_id session) run_ids;;
  k ← gets id;
  g ← lift (artifact_graph run_ids (kstore k));
  mret (json_response (JObj [("graph", graph_json g)]) 200).

(** ** Registration *)

Definition route_table : list (string * string * api_handler) :=
  [("GET", "/kernel/health", health);
   ("POST", "/kernel/auth/register", auth_register);
   ("POST", "/kernel/auth/login", auth_login);
   ("GET", "/kernel/auth/session", auth_session);
   ("POST", "/kernel/auth/logout", auth_logout);
   ("GET", "/kernel/plugins", plugins);
   ("POST", "/kernel/inputs", ingest_input);
   ("POST", "/kernel/inputs/chunk", ingest_input_chunk);
   ("POST", "/kernel/runs", submit_run);
   ("GET", "/kernel/runs", list_runs);
   ("GET", "/kernel/runs/{run_id}", get_run);
   ("GET", "/kernel/designs/{design_id}/tree", design_tree);
   ("POST", "/kernel/runs/{run_id}/cancel", cancel_run);
   ("POST", "/kernel/runs/{run_id}/retry", retry_run);
   ("POST", "/kernel/runs/{run_id}/bundle", bundle);
   ("GET", "/kernel/runs/{run_id}/metrics", metrics);
   ("GET", "/kernel/runs/{run_id}/artifacts", artifacts);
   ("GET", "/kernel/runs/{run_id}/timeline", timeline);
   ("GET", "/kernel/runs/{run_id}/resources", resources);
   ("GET", "/kernel/runs/{run_id}/logs", logs);
   ("GET", "/kernel/runs/{run_id}/artifacts/{artifact_id}/excerpt", artifact_excerpt);
   ("GET", "/kernel/runs/{run_id}/artifacts/{artifact_id}/download", artifact_download);
   ("GET", "/kernel/runs/{run_id}/artifacts/{artifact_id}/chunk", artifact_chunk);
   ("GET", "/kernel/graph", graph)].

(** [KernelApi.register] *)
Definition register_routes (routes : list (Route Kern)) : list (Route Kern) :=
  fold_left (λ rs e, add (fst (fst e)) (snd (fst e)) (_guarded (snd e)) rs) route_table routes.
Definition kernel_routes : list (Route Kern) := register_routes [].

(** One request to a kernel that serves nothing else. *)
Definition kernel_handle : string → string → list (string * string) → Incoming → Kern → Response * Kern :=
  _handle float_repr kernel_routes.
End api.
