(* ===== verification/Client.v ===== *)
(** * core/client/client.py: the typed client of the kernel service

    The connection is a parameter: [wire] takes a request to the service and gives its
    answer, or none where it cannot be reached.  A document that is sent or received is
    a value; what is text and no document goes through [loads].  The state is the
    token, the files the client writes, and whatever the service keeps. *)

From stdpp Require Import gmap pretty.
From S2P Require Export Router Sql PyValue StoreEvidence.
Open Scope string_scope.
Open Scope list_scope.

Definition MAX_EXCERPT_BYTES : Z := 64 * 1024.

Inductive Payload :=
| NoPayload
| PBytes (b : string)
| PDoc (v : json).

(** What the body of an answer is to its reader. *)
Inductive Reply :=
| Nothing
| Raw (b : string)
| Json (v : json).

(** [reply[k]] *)
Definition reply_field (k : string) (r : Reply) : result json :=
  match r with Json v => py_index k v | _ => Err (TypeError "not a document") end.

Record Remote (K : Type) := MkRemote {
  rm_token : option string;
  rm_files : gmap string string;
  rm_service : K }.
Arguments MkRemote {K}.
Arguments rm_token {K}.
Arguments rm_files {K}.
Arguments rm_service {K}.

(** [s.rstrip("/")], on the reversed text. *)
Fixpoint drop_slashes (s : string) : string :=
  match s with
  | String c s' => if bool_decide (c = "/"%char) then drop_slashes s' else s
  | EmptyString => EmptyString
  end.
(** [KernelClient.__post_init__] *)
Definition client_base (base_url : string) : result string :=
  raise_when (negb (startswith "http://" base_url || startswith "https://" base_url)) (ValueError "base_url");;
  Ok (str_rev (drop_slashes (str_rev base_url))).

Definition _seg (value : string) : string := url_quote value.

(** [headers[k] = v], and [{**headers, **more}]. *)
Fixpoint header_set (k v : string) (headers : list (string * string)) : list (string * string) :=
  match headers with
  | [] => [(k, v)]
  | (k', v') :: rest => if bool_decide (k = k') then (k, v) :: rest else (k', v') :: header_set k v rest
  end.
Definition merge_headers (headers more : list (string * string)) : list (string * string) :=
  fold_left (λ h kv, header_set (fst kv) (snd kv) h) more headers.

(** Query values as the calls give them; what is [None], empty text or an empty list is
    left out. *)
Definition q_text (v : option string) : list string :=
  match v with Some s => if str_empty s then [] else [s] | None => [] end.
Definition q_number (v : option Z) : list string :=
  match v with Some z => [pretty z] | None => [] end.
Definition q_flag (b : bool) : list string := if b then ["1"] else [].

Definition query_string (query : list (string * list string)) : string :=
  match (kv ← query; map (pair (fst kv)) (snd kv)) with
  | [] => EmptyString
  | pairs => "?" +:+ urlencode pairs
  end.

Section client.
Context {K : Type} (wire : string → string → list (string * string) → Incoming → K → option Response * K).
Context (float_repr : spec_float → string) (loads : string → option json).
Context (sha256 : string → string).
Context (_extra_headers : list (string * string)).

Definition headers_of (token : option string) : list (string * string) :=
  let given := merge_headers [("Accept", "application/json")] _extra_headers in
  match token with
  | Some t => if str_empty t then given else header_set "Authorization" ("Bearer " +:+ t) given
  | None => given
  end.

Definition incoming (p : Payload) : Incoming :=
  match p with
  | NoPayload => Absent
  | PBytes b => Octets b
  | PDoc v => Text (Z.of_nat (String.length (dumps float_repr plain_style v))) (Some v)
  end.

Definition _error_message (b : Body) : string :=
  match b with
  | Doc (JObj d) =>
      match get_null "error" d with
      | JStr e => if str_empty e then "kernel returned an error" else e
      | _ => "kernel returned an error"
      end
  | _ => "kernel returned an error"
  end.

(** The body of an answer that is no error. *)
Definition read_reply (want_bytes : bool) (b : Body) : result Reply :=
  match b with
  | NoBody => Ok Nothing
  | Bytes raw =>
      if str_empty raw then Ok Nothing
      else if want_bytes then Ok (Raw raw)
      else v ← of_option (KernelError "kernel returned a non-JSON body" None) (loads raw); Ok (Json v)
  | Doc v => Ok (if want_bytes then Raw (dumps float_repr plain_style v) else Json v)
  end.

Definition exchange (method target : string) (p : Payload) : st (Remote K) Response := λ r,
  let '(answer, k) := wire method target (headers_of (rm_token r)) (incoming p) (rm_service r) in
  (of_option (KernelUnavailable "unreachable") answer, MkRemote (rm_token r) (rm_files r) k).

Definition _call (method path : string) (payload : Payload) (query : list (string * list string))
    (want_bytes : bool) : st (Remote K) Reply :=
  response ← exchange method (path +:+ query_string query) payload;
  lift (raise_when (negb ((200 <=? resp_status response) && (resp_status response <? 300)))%Z
                   (KernelError (_error_message (resp_body response)) (Some (resp_status response))));;
  lift (read_reply want_bytes (resp_body response)).

Definition get (path : string) (query : list (string * list string)) : st (Remote K) Reply :=
  _call "GET" path NoPayload query false.
Definition post (path : string) (payload : Payload) (query : list (string * list string)) : st (Remote K) Reply :=
  _call "POST" path payload query false.
Definition field (k : string) (m : st (Remote K) Reply) : st (Remote K) json :=
  reply ← m; lift (reply_field k reply).

(** ** Identity *)

Definition set_token (t : option string) : st (Remote K) unit :=
  modify (λ r, MkRemote t (rm_files r) (rm_service r)).

Definition signed_in (m : st (Remote K) Reply) : st (Remote K) Reply :=
  session ← m;
  token ← lift (reply_field "token" session);
  set_token (Some (str_of token));;
  mret session.

Definition credentials (username password : string) : Payload :=
  PDoc (JObj [("username", JStr username); ("password", JStr password)]).
Definition register (username password : string) : st (Remote K) Reply :=
  signed_in (post "/kernel/auth/register" (credentials username password) []).
Definition login (username password : string) : st (Remote K) Reply :=
  signed_in (post "/kernel/auth/login" (credentials username password) []).

Definition session : st (Remote K) json :=
  reply ← get "/kernel/auth/session" [];
  lift (match reply with
        | Json (JObj d) => Ok (get_null "session" d)
        | _ => Err (OtherError "AttributeError")
        end).

Definition logout : st (Remote K) unit :=
  post "/kernel/auth/logout" NoPayload [];;
  set_token None.

(** ** Catalogue and inputs *)

Definition health : st (Remote K) Reply := get "/kernel/health" [].
Definition plugins : st (Remote K) json := field "plugins" (get "/kernel/plugins" []).

Definition upload_input (content : string) : st (Remote K) json :=
  field "input" (post "/kernel/inputs" (PBytes content) []).

Definition upload_chunk (upload_id chunk : string) (offset : Z) (final : bool) : st (Remote K) dict :=
  reply ← post "/kernel/inputs/chunk" (PBytes chunk)
            [("upload_id", q_text (Some upload_id)); ("offset", q_number (Some offset)); ("final", q_flag final)];
  lift (match reply with Json (JObj d) => Ok d | _ => Err (OtherError "AttributeError") end).

(** The loop over the chunks, and what the last answer was. *)
Fixpoint upload_rest (upload_id : string) (offset : Z) (found : option dict) (chunks : list string)
    : st (Remote K) (option dict) :=
  match chunks with
  | [] => mret found
  | chunk :: rest =>
      d ← upload_chunk upload_id chunk offset (match rest with [] => true | _ => false end);
      offset ← lift (of_option (ValueError "int")
                 (match dict_get "offset" d with
                  | Some v => as_int v
                  | None => Some (offset + size_of chunk)%Z
                  end));
      upload_rest upload_id offset (Some d) rest
  end.

(** [upload_id] is drawn by [token_urlsafe]. *)
Definition upload_input_chunks (upload_id : string) (chunks : list string) : st (Remote K) json :=
  found ← upload_rest upload_id 0 None chunks;
  lift (match found with
        | Some d => of_option (ValueError "at least one input chunk is required") (dict_get "input" d)
        | None => Err (ValueError "at least one input chunk is required")
        end).

(** ** Runs *)

Definition submit (task : dict) (idempotent : bool) (idempotency_key : option string)
    (plugin_version : json) : st (Remote K) Reply :=
  let existing := get_null "plugin_version" task in
  task ← (if is_null plugin_version then mret task
          else lift (raise_when (negb (is_null existing) && negb (py_eqb existing plugin_version))
                                (ValueError "plugin_version argument conflicts with the task payload"));;
               mret (dict_set "plugin_version" plugin_version task));
  post "/kernel/runs" (PDoc (JObj [("task", JObj task)]))
    [("idempotent", q_flag idempotent); ("idempotency_key", q_text idempotency_key)].

(** Each filter as the values the query carries for it. *)
Definition runs (project_id design_id plugin_id status : list string) (limit : option Z) (offset : Z)
    : st (Remote K) json :=
  field "runs" (get "/kernel/runs"
    [("project_id", project_id); ("design_id", design_id); ("plugin_id", plugin_id);
     ("status", status); ("limit", q_number limit); ("offset", q_number (Some offset))]).

Definition run_path (run_id : string) : string := "/kernel/runs/" +:+ _seg run_id.
Definition run (run_id : string) : st (Remote K) json := field "run" (get (run_path run_id) []).
Definition design_tree (design_id : string) (limit : option Z) (offset : Z) : st (Remote K) Reply :=
  get ("/kernel/designs/" +:+ _seg design_id +:+ "/tree")
      [("limit", q_number limit); ("offset", q_number (Some offset))].
Definition cancel (run_id : string) : st (Remote K) Reply := post (run_path run_id +:+ "/cancel") NoPayload [].
Definition retry (run_id reason : string) : st (Remote K) Reply :=
  post (run_path run_id +:+ "/retry") (PDoc (JObj [("reason", JStr reason)])) [].
Definition bundle (run_id : string) : st (Remote K) json :=
  field "bundle" (post (run_path run_id +:+ "/bundle") NoPayload []).
Definition metrics (run_id : string) (complete_only : bool) : st (Remote K) json :=
  field "metrics" (get (run_path run_id +:+ "/metrics") [("complete_only", q_flag complete_only)]).
Definition artifacts (run_id : string) (category format stage : option string) : st (Remote K) json :=
  field "artifacts" (get (run_path run_id +:+ "/artifacts")
    [("category", q_text category); ("format", q_text format); ("stage", q_text stage)]).
Definition timeline (run_id : string) : st (Remote K) json :=
  field "timeline" (get (run_path run_id +:+ "/timeline") []).
Definition resources (run_id : string) : st (Remote K) json :=
  field "resources" (get (run_path run_id +:+ "/resources") []).
Definition logs (run_id : string) (offset : Z) (max_bytes : option Z) : st (Remote K) json :=
  field "logs" (get (run_path run_id +:+ "/logs")
    [("offset", q_number (Some offset)); ("max_bytes", q_number max_bytes)]).

(** ** Artifacts *)

Definition artifact_path (run_id artifact_id what : string) : string :=
  run_path run_id +:+ "/artifacts/" +:+ _seg artifact_id +:+ what.

Definition bounded (what run_id artifact_id : string) (offset max_bytes : Z) : st (Remote K) Reply :=
  lift (raise_when (negb ((0 <? max_bytes) && (max_bytes <=? MAX_EXCERPT_BYTES)))%Z (ValueError "max_bytes"));;
  get (artifact_path run_id artifact_id what)
      [("offset", q_number (Some offset)); ("max_bytes", q_number (Some max_bytes))].
Definition artifact_excerpt : string → string → Z → Z → st (Remote K) Reply := bounded "/excerpt".
Definition artifact_chunk : string → string → Z → Z → st (Remote K) Reply := bounded "/chunk".

Definition artifact_bytes (run_id artifact_id : string) : st (Remote K) Reply :=
  _call "GET" (artifact_path run_id artifact_id "/download") NoPayload [] true.

Definition write_file (path : string) (f : string → string) : st (Remote K) unit :=
  modify (λ r, MkRemote (rm_token r) (<[path := f (default EmptyString (rm_files r !! path))]> (rm_files r))
                        (rm_service r)).

(** The loop of [download_artifact_to]: the digest and the bytes written, [None] when the
    fuel runs out. *)
Fixpoint download (fuel : nat) (run_id artifact_id destination : string) (chunk_size : Z) (hashed : string)
    : st (Remote K) (option (json * string)) :=
  match fuel with
  | O => mret None
  | S fuel =>
      chunk ← artifact_chunk run_id artifact_id (size_of hashed) chunk_size;
      encoded ← lift (reply_field "data_base64" chunk);
      data ← lift (of_option (ValueError "binascii.Error") (b64decode (str_of encoded)));
      write_file destination (λ b, b +:+ data);;
      digest ← lift (reply_field "sha256" chunk);
      truncated ← lift (reply_field "truncated" chunk);
      if truthy truncated then download fuel run_id artifact_id destination chunk_size (hashed +:+ data)
      else mret (Some (digest, hashed +:+ data))
  end.

Definition download_artifact_to (fuel : nat) (run_id artifact_id destination : string) (chunk_size : Z)
    : st (Remote K) (option json) :=
  write_file destination (λ _, EmptyString);;
  done ← download fuel run_id artifact_id destination chunk_size EmptyString;
  match done with
  | None => mret None
  | Some (digest, hashed) =>
      lift (raise_when (negb (py_eqb digest (JStr (sha256 hashed))))
                       (KernelError "downloaded artifact failed SHA-256 verification" None));;
      mret (Some (JObj [("path", JStr destination); ("size_bytes", JInt (size_of hashed));
                        ("sha256", JStr (sha256 hashed))]))
  end.

Definition graph (run_ids : list string) : st (Remote K) json :=
  field "graph" (get "/kernel/graph" [("run_id", run_ids)]).
End client.
