(* ===== verification/BundleProps.v ===== *)
(** * What an exported bundle promises *)

From stdpp Require Import gmap pretty.
From S2P Require Export Queries ProvenanceProps.
Open Scope string_scope.
Open Scope list_scope.

(** ** The export is a history of store operations *)

(** An inserted artifact row is a registration of its bytes. *)
Lemma artifact_insert_steps sha256 hex now attempt_id decl content s r s' :
  Artifact_validate (MkArtifact (JStr (_new_id "art" hex)) (JStr (de_kind decl)) (JStr (de_store_key decl))
     (JStr (sha256 content)) (JInt (size_of content)) (de_media_type decl)
     (JObj (de_metadata decl)) (JInt SCHEMA_VERSION)) = Ok tt →
  insert_artifact (MkArtifactRow (_new_id "art" hex) attempt_id (de_kind decl) (de_store_key decl)
     (size_of content) (sha256 content) (de_metadata decl) now STORAGE_OBJECT) s = (r, s') →
  rtc store_step s s'.
Proof.
  intros Hv Hi. destruct r as [[]|e].
  - apply rtc_once. set (file := λ _ : list string, Some content).
    assert (∃ rr, register_artifacts sha256 (λ ws _, ws) file file attempt_id [] [(decl, (hex, now))]
      (MkCustody s ∅ ∅) = (rr, MkCustody s' (<[sha256 content := content]> ∅) ∅)) as [rr E].
    { unfold register_artifacts, db_transaction, register_artifact. cbn [mapM_st].
      unfold _store_object, publish, in_db, file. rewrite !bind_run. unfold lift at 1. cbn [relative_to of_option].
      rewrite !bind_run. unfold lift at 1. cbn [of_option]. rewrite !bind_run. unfold lift at 1. rewrite Hv.
      rewrite !bind_run. cbn [gets id objects]. rewrite lookup_empty. rewrite !bind_run.
      unfold lift at 1. cbn [of_option]. rewrite !bind_run. unfold lift at 1.
      rewrite !bool_decide_true by done. cbn [raise_when negb orb]. unfold modify, on_objects.
      cbv beta iota. rewrite bind_run. cbn [db objects evidence]. rewrite Hi. eexists. reflexivity. }
    change s' with (db (MkCustody s' (<[sha256 content := content]> ∅) ∅)).
    eapply step_artifacts; [|exact E]. done.
  - assert (s' = s) as ->; [|done].
    unfold insert_artifact, constraint in Hi. repeat (rewrite bind_run in Hi; case_match; simplify_eq); done.
Qed.

Section bundle.
Context (sha256 : string → string) (path_of : list string → string → list string).
Context (parts : string → list string) (float_repr : spec_float → string).
Context (zip : list Member → string) (uuid : nat → string) (clock : nat → Z).
Local Abbreviation _register_file := (_register_file sha256 uuid clock).
Local Abbreviation export_run_bundle := (export_run_bundle sha256 path_of parts float_repr zip uuid clock).

Definition same_evidence (w w' : World) : Prop :=
  host_files w' = host_files w ∧ evidence (cust w') = evidence (cust w).

(** The object store with these bytes published: an object of that name stays. *)
Definition published_object (content : string) (m : gmap string string) : gmap string string :=
  match m !! sha256 content with Some _ => m | None => <[sha256 content := content]> m end.

(** Publishing bytes leaves everything else alone; an object that was there has the same
    size and digest. *)
Lemma store_bytes_effect content c u c' :
  _store_bytes sha256 content (sha256 content) (size_of content) c = (Ok u, c') →
  c' = MkCustody (db c) (published_object content (objects c)) (evidence c) ∧
  ∃ b, objects c' !! sha256 content = Some b ∧ sha256 b = sha256 content ∧ size_of b = size_of content.
Proof.
  unfold _store_bytes, publish, published_object. intros H. apply bind_st_Ok in H as (c0 & c1 & Hg & H).
  apply gets_Ok in Hg as [-> ->]. unfold id in H. destruct (objects c !! sha256 content) as [b|] eqn:E.
  - apply lift_Ok in H as [H ->]. apply raise_when_Ok in H. bool_simpl. split; [by destruct c|eauto].
  - invert_st. simplify_eq. split; [done|]. exists x. simpl. by rewrite lookup_insert_eq.
Qed.

Lemma store_bytes_db content c r c' :
  _store_bytes sha256 content (sha256 content) (size_of content) c = (r, c') → db c' = db c.
Proof.
  unfold _store_bytes, publish, lift, gets, modify. cbv beta iota zeta delta [mbind st_bind].
  repeat case_match; intros; by simplify_eq/=.
Qed.

Lemma by_steps_register_file attempt_id content : by_steps (_register_file attempt_id content).
Proof.
  unfold Queries._register_file. apply by_steps_bind; [apply by_steps_draw|]. intros d w r w' H.
  rewrite bind_run in H. unfold lift at 1 in H.
  destruct (Artifact_validate _) as [[]|e] eqn:Hv; [|by injection H as _ <-].
  revert w r w' H. change (by_steps (w ← gets id; match fetchone (λ r, bool_decide (ar_attempt_id r = attempt_id)
      && bool_decide (ar_store_key r = BUNDLE_KEY)) (artifacts (store_of w)) with
    | Some row => lift (get_artifact (ar_artifact_id row) (store_of w))
    | None =>
        in_custody (_store_bytes sha256 content (sha256 content) (size_of content));;
        t ← now uuid clock;
        let row := MkArtifactRow (_new_id "art" (fst d)) attempt_id BUNDLE_KIND BUNDLE_KEY (size_of content)
                     (sha256 content) bundle_metadata t STORAGE_OBJECT in
        in_store (insert_artifact row);; mret row
    end)).
  apply by_steps_bind; [apply by_steps_gets|]. intros w. destruct (fetchone _ _); [apply by_steps_lift|].
  apply by_steps_bind; [|intros _; apply by_steps_bind; [apply by_steps_now|intros t;
    apply by_steps_bind; [|intros; apply by_steps_mret]]].
  - apply by_steps_custody. intros c r c' E. by rewrite (store_bytes_db _ _ _ _ E).
  - intros w0 r w' H. unfold in_store, in_custody, in_db in H.
    destruct (insert_artifact _ _) as [v s'] eqn:E. injection H as _ <-. unfold steps. simpl.
    eapply (artifact_insert_steps sha256 (fst d) t attempt_id
      (MkDeclaration BUNDLE_KEY BUNDLE_KIND JNull bundle_metadata) content); [exact Hv|exact E].
Qed.

Lemma by_steps_export run_id : by_steps (export_run_bundle run_id).
Proof.
  unfold Queries.export_run_bundle. apply by_steps_bind; [apply by_steps_gets|]. intros w.
  apply by_steps_bind; [apply by_steps_lift|]. intros view.
  apply by_steps_bind; [apply by_steps_lift|]. intros attempts.
  destruct (last attempts) as [[stage latest]|]; [|by apply by_steps_pure].
  apply by_steps_bind; [apply by_steps_lift|]. intros kept.
  destruct (List.find is_bundle kept); [apply by_steps_mret|].
  apply by_steps_bind; [apply by_steps_lift|]. intros collected.
  apply by_steps_bind; [apply by_steps_lift|]. intros attempt_id.
  apply by_steps_bind; [apply by_steps_register_file|]. intros; apply by_steps_mret.
Qed.

(** ** What is in the archive *)

(** Every attempt of the run is walked, with its projection. *)
Lemma view_attempts_all run_id s view attempts t : describe_run run_id s = Ok view →
  view_attempts view = Ok attempts → t ∈ attempts_of_run run_id s →
  ∃ stage attempt, (stage, attempt) ∈ attempts ∧ describe_attempt s t = Ok attempt ∧
    is_Ok (py_index "stage_key" stage) = true.
Proof.
  intros Hd Hv Ht. unfold describe_run in Hd. apply bind_Ok in Hd as (run & _ & Hd).
  apply bind_Ok in Hd as (gs & Hgs & Hd). apply Ok_inj in Hd as <-.
  revert Hv. unfold view_attempts. index_step "stages". intros Hv.
  apply bind_Ok in Hv as (per & Hper & Hv). apply Ok_inj in Hv as <-.
  unfold attempts_of_run in Ht. apply list_elem_of_bind in Ht as (g & Ht & Hg).
  apply mapM_result_Ok in Hgs, Hper.
  destruct (list_elem_of_lookup_1 _ _ Hg) as [i Hi].
  destruct (Forall2_lookup_l _ _ _ _ _ Hgs Hi) as (v & Hvi & Hdv).
  destruct (Forall2_lookup_l _ _ _ _ _ Hper Hvi) as (l & Hli & Hsa).
  unfold describe_stage in Hdv. apply bind_Ok in Hdv as (ts & Hts & Hdv). apply Ok_inj in Hdv as <-.
  revert Hsa. unfold stage_attempts. index_step "attempts". intros Hsa. apply Ok_inj in Hsa as <-.
  apply mapM_result_Ok in Hts. destruct (list_elem_of_lookup_1 _ _ Ht) as [j Hj].
  destruct (Forall2_lookup_l _ _ _ _ _ Hts Hj) as (a & Haj & Hda).
  eexists _, a. split_and!; [|exact Hda|].
  - apply elem_of_concat. eexists. split; [by eapply list_elem_of_lookup_2|].
    apply list_elem_of_In, in_map. apply list_elem_of_In. by eapply list_elem_of_lookup_2.
  - by index_step "stage_key".
Qed.

(** The members an attempt contributes hold what was registered. *)
Lemma bundle_artifact_Ok w stage attempt a found :
  bundle_artifact sha256 path_of parts w stage attempt (describe_artifact a) = Ok found →
  ar_kind a ≠ BUNDLE_KIND →
  ∃ name b, (name, b) ∈ (fst <$> found) ∧ sha256 b = ar_sha256 a ∧
    artifact_bytes path_of (file_at w) parts (ar_artifact_id a) (cust w) = Ok (Some b).
Proof.
  unfold bundle_artifact, describe_artifact. index_step "kind". intros H Hk.
  cbn [py_eqb] in H. rewrite bool_decide_false in H by done. revert H.
  index_step "artifact_id". index_step "sha256". cbn [str_of]. intros H.
  apply bind_Ok in H as (bytes & Hb & H). apply bind_Ok in H as (b & Hs & H). apply of_option_Ok in Hs as ->.
  apply bind_Ok in H as ([] & Hr & H). apply raise_when_Ok, negb_false_iff in Hr.
  cbn [py_eqb] in Hr. apply bool_decide_eq_true in Hr. apply bind_Ok in H as (key & _ & H).
  apply bind_Ok in H as (name & _ & H). apply bind_Ok in H as (d & _ & H). apply Ok_inj in H as <-.
  exists name, b. split_and!; [left|done|done].
Qed.

Lemma bundle_input_Ok w stage attempt i d found : StagedInput_to_dict i = Ok d →
  bundle_input sha256 path_of parts w stage attempt (JObj d) = Ok found →
  truthy (si_present i) = true →
  ∃ name b, (name, b) ∈ (fst <$> found) ∧
    (truthy (si_sha256 i) = true → py_eqb (JStr (sha256 b)) (si_sha256 i) = true).
Proof.
  intros Hd. unfold StagedInput_to_dict in Hd. apply bind_Ok in Hd as (u & _ & Hd). apply Ok_inj in Hd as <-.
  unfold bundle_input. cbn [as_object mbind result_bind]. intros H Hp.
  change (get_null "present" _) with (si_present i) in H. rewrite Hp in H. cbn [negb] in H.
  apply bind_Ok in H as (ws & _ & H). apply bind_Ok in H as (source & _ & H).
  change (get_null "sha256" _) with (si_sha256 i) in H.
  apply bind_Ok in H as (b & _ & H). apply bind_Ok in H as ([] & Hr & H).
  apply bind_Ok in H as (dest & _ & H). apply bind_Ok in H as (name & _ & H). apply Ok_inj in H as <-.
  exists name, b. split; [left|]. intros Ht. apply raise_when_Ok in Hr. rewrite Ht in Hr.
  by apply negb_false_iff in Hr.
Qed.

(** Part of a concatenation of results. *)
Lemma part_of_concat {A B} (f : A → result (list B)) l gs x g : mapM_result f l = Ok gs → x ∈ l →
  f x = Ok g → ∀ y, y ∈ g → y ∈ concat gs.
Proof.
  intros H Hx Hg y Hy. apply mapM_result_Ok in H. destruct (list_elem_of_lookup_1 _ _ Hx) as [i Hi].
  destruct (Forall2_lookup_l _ _ _ _ _ H Hi) as (g' & Hgi & Hf). assert (g' = g) as -> by congruence.
  apply elem_of_concat. exists g. split; [by eapply list_elem_of_lookup_2|done].
Qed.
Lemma mapM_elem {A B} (f : A → result B) l ys x : mapM_result f l = Ok ys → x ∈ l → ∃ y, f x = Ok y.
Proof.
  intros H Hx. apply mapM_result_Ok in H. destruct (list_elem_of_lookup_1 _ _ Hx) as [i Hi].
  destruct (Forall2_lookup_l _ _ _ _ _ H Hi) as (y & _ & Hf). eauto.
Qed.

Lemma collect_attempt_Ok w s t stage attempt found :
  describe_attempt s t = Ok attempt →
  collect_attempt sha256 path_of parts w (stage, attempt) = Ok found →
  (∀ a, a ∈ list_artifacts (at_attempt_id t) s → ar_kind a ≠ BUNDLE_KIND →
     ∃ name b, (name, b) ∈ (fst <$> found) ∧ sha256 b = ar_sha256 a ∧
       artifact_bytes path_of (file_at w) parts (ar_artifact_id a) (cust w) = Ok (Some b)) ∧
  (∀ i, i ∈ list_inputs (at_attempt_id t) s → truthy (si_present i) = true →
     ∃ name b, (name, b) ∈ (fst <$> found) ∧
       (truthy (si_sha256 i) = true → py_eqb (JStr (sha256 b)) (si_sha256 i) = true)).
Proof.
  intros Hd H. unfold describe_attempt in Hd. apply bind_Ok in Hd as (ins & Hins & Hd).
  apply bind_Ok in Hd as (ms & _ & Hd). apply Ok_inj in Hd as <-.
  unfold collect_attempt in H.
  apply bind_Ok in H as (files & _ & H). revert H. index_step "inputs". intros H.
  apply bind_Ok in H as (inputs & Hi & H). revert H. index_step "artifacts". intros H.
  apply bind_Ok in H as (kept & Hk & H). apply Ok_inj in H as <-.
  assert (∀ name b, (∃ x, x ∈ concat inputs ++ concat kept ∧ fst x = (name, b)) →
    (name, b) ∈ fst <$> (concat files ++ concat inputs ++ concat kept)) as Hin.
  { intros name b (x & Hx & <-). apply list_elem_of_fmap_2. apply elem_of_app. by right. }
  split.
  - intros a Ha Hne. assert (describe_artifact a ∈ (describe_artifact <$> list_artifacts (at_attempt_id t) s)) as Hm
      by by apply list_elem_of_fmap_2.
    destruct (mapM_elem _ _ _ _ Hk Hm) as [found Hf].
    destruct (bundle_artifact_Ok _ _ _ _ _ Hf Hne) as (name & b & Hnb & Hs & Hb).
    exists name, b. split_and!; [|done|done]. apply Hin.
    apply list_elem_of_fmap in Hnb as (x & Hx1 & Hx2). exists x. split; [|done]. apply elem_of_app. right.
    by eapply part_of_concat.
  - intros i Hil Hp. destruct (mapM_elem _ _ _ _ Hins Hil) as [d Hdi].
    assert (JObj d ∈ (JObj <$> ins)) as Hm.
    { apply list_elem_of_fmap_2. apply mapM_result_Ok in Hins. destruct (list_elem_of_lookup_1 _ _ Hil) as [j Hj].
      destruct (Forall2_lookup_l _ _ _ _ _ Hins Hj) as (d' & Hj' & Hd'). assert (d' = d) as -> by congruence.
      by eapply list_elem_of_lookup_2. }
    destruct (mapM_elem _ _ _ _ Hi Hm) as [found Hf].
    destruct (bundle_input_Ok _ _ _ _ _ _ Hdi Hf Hp) as (name & b & Hnb & Hs).
    exists name, b. split; [|done]. apply Hin.
    apply list_elem_of_fmap in Hnb as (x & Hx1 & Hx2). exists x. split; [|done]. apply elem_of_app. left.
    by eapply part_of_concat.
Qed.

Lemma insert_artifact_Ok row s u s' : insert_artifact row s = (Ok u, s') → s' = on_artifacts (ins row) s.
Proof.
  unfold insert_artifact. intros H.
  do 4 (apply bind_st_Ok in H as (? & ? & Hc & H); rewrite constraint_run in Hc; case_match; simplify_eq).
  by injection H as _ <-.
Qed.

(** The archive is registered under its digest, and nothing else is written; an artifact of
    that name is left as it is. *)
Definition archived (attempt_id content : string) (w : World) (created : ArtifactRow) (w' : World) : Prop :=
  same_evidence w w' ∧
  ((∀ row, row ∈ artifacts (store_of w) → ar_attempt_id row = attempt_id → ar_store_key row ≠ BUNDLE_KEY) ∧
   store_of w' = on_artifacts (ins created) (store_of w) ∧
   ar_attempt_id created = attempt_id ∧ ar_store_key created = BUNDLE_KEY ∧ ar_kind created = BUNDLE_KIND ∧
   ar_storage created = STORAGE_OBJECT ∧ ar_sha256 created = sha256 content ∧ ar_size_bytes created = size_of content ∧
   objects (cust w') = published_object content (objects (cust w)) ∧
   (∃ b, objects (cust w') !! sha256 content = Some b ∧ sha256 b = sha256 content ∧ size_of b = size_of content)
   ∨ (∃ row, row ∈ artifacts (store_of w) ∧ ar_attempt_id row = attempt_id ∧ ar_store_key row = BUNDLE_KEY ∧
        ar_artifact_id created = ar_artifact_id row) ∧
     created ∈ artifacts (store_of w) ∧ store_of w' = store_of w ∧ objects (cust w') = objects (cust w)).

Lemma register_file_effect attempt_id content w created w' :
  _register_file attempt_id content w = (Ok created, w') → archived attempt_id content w created w'.
Proof.
  unfold Queries._register_file. intros H. apply bind_st_Ok in H as (d & w1 & Hd & H).
  assert (cust w1 = cust w ∧ host_files w1 = host_files w) as [Hc1 Hf1].
  { unfold draw in Hd. by injection Hd as _ <-. }
  assert (store_of w1 = store_of w) as Hw1 by (unfold store_of; by rewrite Hc1).
  apply bind_st_Ok in H as ([] & w2 & Hv & H). apply lift_Ok in Hv as [_ ->].
  apply bind_st_Ok in H as (w2 & w3 & Hg & H). apply gets_Ok in Hg as [-> ->]. unfold id in H.
  destruct (fetchone _ _) as [row|] eqn:E.
  - apply lift_Ok in H as [H ->]. apply of_option_Ok, fetchone_Some in H as [Hin Hid].
    split; [split; congruence|]. right. apply fetchone_Some in E as [Hrow Hr]. bool_simpl.
    split; [exists row; rewrite <-Hw1; split_and!; congruence|]. rewrite <-Hw1, <-Hc1. done.
  - apply bind_st_Ok in H as (u & w3 & Hs & H). unfold in_custody in Hs.
    destruct (_store_bytes _ _ _ _ _) as [rs c3] eqn:Es. injection Hs as -> <-.
    destruct (store_bytes_effect _ _ _ _ Es) as [-> Hobj].
    apply bind_st_Ok in H as (t & w4 & Ht & H).
    unfold now in Ht. apply bind_st_Ok in Ht as (d' & w5 & Hd' & Ht). unfold draw in Hd'.
    injection Hd' as _ <-. apply mret_st_Ok in Ht as [-> ->].
    apply bind_st_Ok in H as ([] & w6 & Hi & H). apply mret_st_Ok in H as [-> ->].
    unfold in_store, in_custody, in_db in Hi. destruct (insert_artifact _ _) as [v s'] eqn:Ei.
    injection Hi as -> <-. apply insert_artifact_Ok in Ei as ->. unfold archived, same_evidence, store_of in *.
    cbn [cust with_custody host_files evidence db objects] in *.
    split; [split; congruence|]. left. rewrite <-Hw1. split_and!; try done; [|by rewrite <-Hc1].
    intros row Hrow Ha Hk. rewrite fetchone_None in E. specialize (E row Hrow). rewrite !bool_decide_true in E; done.
Qed.

(** The attempts are walked in order. *)
Lemma Forall2_bind {A B C} (R : B → C → Prop) (f : A → list B) gs per :
  Forall2 (λ g l, Forall2 R (f g) l) gs per → Forall2 R (gs ≫= f) (concat per).
Proof. induction 1; csimpl; [constructor|by apply Forall2_app]. Qed.

Lemma view_attempts_walk run_id s view attempts : describe_run run_id s = Ok view →
  view_attempts view = Ok attempts →
  Forall2 (λ t sa, describe_attempt s t = Ok (snd sa)) (attempts_of_run run_id s) attempts.
Proof.
  intros Hd Hv. unfold describe_run in Hd. apply bind_Ok in Hd as (run & _ & Hd).
  apply bind_Ok in Hd as (gs & Hgs & Hd). apply Ok_inj in Hd as <-.
  revert Hv. unfold view_attempts. index_step "stages". intros Hv.
  apply bind_Ok in Hv as (per & Hper & Hv). apply Ok_inj in Hv as <-. apply mapM_result_Ok in Hgs, Hper.
  unfold attempts_of_run. apply Forall2_bind. eapply Forall2_trans; [|exact Hgs|exact Hper]. cbv beta.
  intros g v l Hdv Hsa. unfold describe_stage in Hdv. apply bind_Ok in Hdv as (ts & Hts & Hdv). apply Ok_inj in Hdv as <-.
  revert Hsa. unfold stage_attempts. index_step "attempts". intros Hsa. apply Ok_inj in Hsa as <-.
  apply mapM_result_Ok in Hts. rewrite <-(map_id (list_attempts _ _)). apply Forall2_fmap_2. exact Hts.
Qed.

(** C27. An export answers with the bundle the last attempt already has and does
    nothing, or makes an archive of the run's projection, every event, every present
    input and every artifact of every attempt, with bytes that hash as recorded.
    Registering it adds exactly one artifact, with the last attempt and with the
    digest and size of the archive, and an object that has them, and changes nothing
    else of the database, the files and the other objects; where that attempt has an
    artifact named runtime_bundle.zip, that one is the answer and no artifact is
    added. *)
Theorem bundle_complete run_id w v w' : export_run_bundle run_id w = (Ok v, w') →
  steps w w' ∧
  ∃ t, last (attempts_of_run run_id (store_of w)) = Some t ∧
  (* the last attempt has a bundle already: it is the answer, and nothing is done *)
  ((∃ a, a ∈ list_artifacts (at_attempt_id t) (store_of w) ∧ ar_kind a = BUNDLE_KIND ∧ v = describe_artifact a ∧ w' = w) ∨
   (* or an archive is made of what the store registered, byte for byte *)
   ∃ members view created,
     describe_run run_id (store_of w) = Ok view ∧
     ("run.json", dumps float_repr bundle_style (JObj view)) ∈ members ∧
     ("events.json", dumps float_repr bundle_style (JList (bundle_event <$> list_events run_id (store_of w)))) ∈ members ∧
     (∀ t a, t ∈ attempts_of_run run_id (store_of w) → a ∈ list_artifacts (at_attempt_id t) (store_of w) →
        ar_kind a ≠ BUNDLE_KIND →
        ∃ name b, (name, b) ∈ members ∧ sha256 b = ar_sha256 a ∧
          artifact_bytes path_of (file_at w) parts (ar_artifact_id a) (cust w) = Ok (Some b)) ∧
     (∀ t i, t ∈ attempts_of_run run_id (store_of w) → i ∈ list_inputs (at_attempt_id t) (store_of w) →
        truthy (si_present i) = true →
        ∃ name b, (name, b) ∈ members ∧ (truthy (si_sha256 i) = true → py_eqb (JStr (sha256 b)) (si_sha256 i) = true)) ∧
     (* and registered with that attempt, or the artifact that had its name is the answer *)
     v = bundle_answer run_id created ∧ archived (at_attempt_id t) (zip members) w created w').
Proof.
  intros H. split; [by eapply by_steps_export|]. unfold Queries.export_run_bundle in H.
  apply bind_st_Ok in H as (w0 & w1 & Hg & H). apply gets_Ok in Hg as [-> ->]. unfold id in H.
  apply bind_st_Ok in H as (view & w1 & Hd & H). apply lift_Ok in Hd as [Hd ->].
  apply bind_st_Ok in H as (attempts & w1 & Ha & H). apply lift_Ok in Ha as [Ha ->].
  destruct (last attempts) as [[stage latest]|] eqn:Hlast; [|done].
  pose proof (view_attempts_walk _ _ _ _ Hd Ha) as Hwalk.
  assert (∃ t, last (attempts_of_run run_id (store_of w)) = Some t ∧ describe_attempt (store_of w) t = Ok latest)
    as (t & Ht & Hlatest).
  { apply Forall2_last in Hwalk. rewrite Hlast in Hwalk. inversion Hwalk; subst. by eexists. }
  exists t. split; [done|]. unfold describe_attempt in Hlatest. apply bind_Ok in Hlatest as (ins & _ & Hlatest).
  apply bind_Ok in Hlatest as (ms & _ & Hlatest). apply Ok_inj in Hlatest as <-.
  apply bind_st_Ok in H as (kept & w1 & Hk & H). apply lift_Ok in Hk as [Hk ->].
  revert Hk. index_step "artifacts". intros Hk. apply Ok_inj in Hk as <-.
  destruct (List.find is_bundle _) as [artifact|] eqn:Ef.
  { apply mret_st_Ok in H as [-> ->]. left. apply find_some in Ef as [Hin Hb].
    apply in_map_iff in Hin as (a & <- & Hin%list_elem_of_In). exists a. split_and!; try done.
    unfold is_bundle, describe_artifact, get_null in Hb. cbn in Hb. by apply bool_decide_eq_true in Hb. }
  right. apply bind_st_Ok in H as (collected & w1 & Hc & H). apply lift_Ok in Hc as [Hc ->].
  apply bind_st_Ok in H as (attempt_id & w1 & Hid & H). apply lift_Ok in Hid as [Hid ->].
  revert Hid. index_step "attempt_id". intros Hid. apply Ok_inj in Hid as <-.
  apply bind_st_Ok in H as (created & w1 & Hr & H). apply mret_st_Ok in H as [-> ->].
  apply register_file_effect in Hr.
  exists (bundle_members float_repr view (list_events run_id (store_of w)) (concat collected)), view, created.
  assert (∀ t, t ∈ attempts_of_run run_id (store_of w) → ∃ stage attempt found,
    describe_attempt (store_of w) t = Ok attempt ∧
    collect_attempt sha256 path_of parts w (stage, attempt) = Ok found ∧
    ∀ m, m ∈ (fst <$> found) →
      m ∈ bundle_members float_repr view (list_events run_id (store_of w)) (concat collected)) as Hall.
  { intros t' Ht'. destruct (view_attempts_all _ _ _ _ _ Hd Ha Ht') as (sj & aj & Hin' & Hda & _).
    destruct (mapM_elem _ _ _ _ Hc Hin') as [found Hf]. exists sj, aj, found. split_and!; [done|done|].
    intros m (x & -> & Hx)%list_elem_of_fmap. unfold bundle_members. do 2 right. apply elem_of_app. left.
    apply list_elem_of_fmap_2. by eapply part_of_concat. }
  split_and!; [done|left|right; left| | |done|exact Hr].
  - intros t' a Ht' Hin' Hne. destruct (Hall t' Ht') as (sj & aj & found & Hda & Hf & Hm).
    destruct (proj1 (collect_attempt_Ok _ _ _ _ _ _ Hda Hf) a Hin' Hne) as (name & b & Hnb & ? & ?).
    exists name, b. split_and!; [by apply Hm|done|done].
  - intros t' i Ht' Hin' Hp. destruct (Hall t' Ht') as (sj & aj & found & Hda & Hf & Hm).
    destruct (proj2 (collect_attempt_Ok _ _ _ _ _ _ Hda Hf) i Hin' Hp) as (name & b & Hnb & ?).
    exists name, b. split; [by apply Hm|done].
Qed.
End bundle.

(** ** The bundle of a run with one artifact *)

Definition demo_bytes : string := "twelve bytes".
Fixpoint repeated (n : nat) (c : ascii) : string :=
  match n with O => EmptyString | S n => String c (repeated n c) end.
Definition demo_digest (b : string) : string :=
  if bool_decide (b = demo_bytes) then "0a" else repeated 64 "a".
Definition demo_archive (members : list Member) : string := str_join "|" (fst <$> members).

Definition demo_kept : World :=
  MkWorld (MkCustody demo_evidence {["0a" := demo_bytes]} ∅) ∅
    (MkObserver "run-r1" "stage-g1" "attempt-a1" "@@" "runtime" [] [] 0) 0 0.
Definition demo_split (p : string) : list string := split_on "/" p.

Lemma bundle_complete_witness :
  ∃ v w', export_run_bundle demo_digest path_resolve demo_split (λ _, "0.0") demo_archive
            (λ n, pretty n) (λ n, Z.of_nat n) "run-r1" demo_kept = (Ok v, w') ∧
    ∃ members name b, (name, b) ∈ (members : list Member) ∧ demo_digest b = "0a".
Proof.
  assert (∀ run, run = export_run_bundle demo_digest path_resolve demo_split (λ _, "0.0") demo_archive
              (λ n, pretty n) (λ n, Z.of_nat n) "run-r1" demo_kept →
    is_Ok (fst run) = true ∧
    match fst run with Ok v => is_bundle v && bool_decide (length (artifacts (store_of (snd run))) = 1%nat)
                     | Err _ => true end = false) as Hrun by (intros run ->; vm_compute; split; reflexivity).
  destruct (export_run_bundle demo_digest path_resolve demo_split (λ _, "0.0") demo_archive
              (λ n, pretty n) (λ n, Z.of_nat n) "run-r1" demo_kept) as [r w'] eqn:E.
  destruct (Hrun _ eq_refl) as [Hr Hf]. simpl in Hr, Hf.
  destruct r as [v|e]; [|discriminate Hr]. exists v, w'. split; [reflexivity|].
  destruct (bundle_complete demo_digest path_resolve demo_split (λ _, "0.0") demo_archive
              (λ n, pretty n) (λ n, Z.of_nat n) "run-r1" demo_kept v w' E) as (_ & t & _ & [H|H]).
  - exfalso. destruct H as (a & _ & Hk & Hv & Hw). assert (is_bundle v = true) as Hb.
    { rewrite Hv. cbn. by rewrite Hk. }
    rewrite Hb, Hw in Hf. vm_compute in Hf. discriminate Hf.
  - destruct H as (members & view & created & _ & _ & _ & Ha & _).
    assert (∃ t, t ∈ attempts_of_run "run-r1" (store_of demo_kept) ∧ at_attempt_id t = "attempt-a1") as (t' & Ht & Hi)
      by (eexists; split; [left|reflexivity]).
    destruct (Ha t' demo_artifact Ht) as (name & b & Hin & Hs & _).
    + rewrite Hi. left.
    + discriminate.
    + exists members, name, b. split; [exact Hin|exact Hs].
Defined.
