(* ===== verification/RouterProps.v ===== *)
(** * What the router promises

    [matches] is what a template matches, without the search; the matcher finds a
    match exactly when there is one.  The last part is what the kernel's routes need
    to be found from the paths the client builds. *)

From S2P Require Export Router.
Open Scope string_scope.
Open Scope list_scope.

Inductive matches : list piece → string → params → Prop :=
| matches_end : matches [] EmptyString []
| matches_end_lf : matches [] (String "010" EmptyString) []
| matches_lit text ps s r : matches ps s r → matches (Lit text :: ps) (text +:+ s) r
| matches_seg name v ps s r : v ≠ EmptyString → str_forall in_segment v = true →
    matches ps s r → matches (Seg name :: ps) (v +:+ s) ((name, v) :: r)
| matches_tail name v ps s r : str_forall in_line v = true →
    matches ps s r → matches (Tail name :: ps) (v +:+ s) ((name, v) :: r).

(** ** Pieces of strings *)

Lemma take_drop_str n s : str_take n s +:+ str_drop n s = s.
Proof. revert s; induction n as [|n IH]; intros [|c s]; simpl; try done. rewrite str_app_cons. by f_equal. Qed.

Lemma take_length n s : (n ≤ String.length s)%nat → String.length (str_take n s) = n.
Proof. revert s; induction n as [|n IH]; intros [|c s] H; simpl in *; try done; [lia|]. f_equal. apply IH. lia. Qed.

Lemma run_length_take p n s : (n ≤ run_length p s)%nat → str_forall p (str_take n s) = true.
Proof.
  revert s; induction n as [|n IH]; intros [|c s] H; simpl in *; try done.
  destruct (p c); simpl in *; [|lia]. apply IH. lia.
Qed.
Lemma run_length_le p s : (run_length p s ≤ String.length s)%nat.
Proof. induction s as [|c s IH]; simpl; [done|]. destruct (p c); lia. Qed.

Lemma run_length_app p v s : str_forall p v = true → (String.length v ≤ run_length p (v +:+ s))%nat.
Proof.
  induction v as [|c v IH]; intros H; simpl in *; [lia|]. apply andb_true_iff in H as [-> H].
  apply IH in H. lia.
Qed.
Lemma take_app_str v s : str_take (String.length v) (v +:+ s) = v.
Proof. induction v as [|c v IH]; [done|]. rewrite str_app_cons. simpl. by f_equal. Qed.
Lemma drop_app_str v s : str_drop (String.length v) (v +:+ s) = s.
Proof. induction v as [|c v IH]; done. Qed.

Lemma str_app_end s : s +:+ EmptyString = s.
Proof. induction s as [|c s IH]; [done|]. rewrite str_app_cons. by f_equal. Qed.

Lemma strip_prefix_Some p s s' : strip_prefix p s = Some s' ↔ s = p +:+ s'.
Proof.
  revert s; induction p as [|c p IH]; intros s; simpl; [rewrite str_app_nil; split; congruence|].
  destruct s as [|d s]; [done|]. rewrite str_app_cons. case_bool_decide.
  - subst. rewrite IH. split; [by intros ->|by intros [= ->]].
  - split; [done|]. by intros [= ->].
Qed.

(** ** The matcher finds a match when there is one *)

Lemma capture_Some name rest least k s r : capture name rest least k s = Some r →
  ∃ j ps, (least ≤ j ≤ k)%nat ∧ rest (str_drop j s) = Some ps ∧ r = (name, str_take j s) :: ps.
Proof.
  induction k as [|k IH]; cbn [capture]; destruct (_ <? _)%nat eqn:E; try done; apply Nat.ltb_ge in E.
  - destruct (rest (str_drop 0 s)) as [ps|] eqn:Er; [|done]. intros [= <-]. exists 0%nat, ps. by split_and!.
  - destruct (rest (str_drop (S k) s)) as [ps|] eqn:Er.
    + intros [= <-]. exists (S k), ps. split_and!; [done|done|done|done].
    + intros (j & ps & ? & ? & ?)%IH. exists j, ps. split_and!; [lia|lia|done|done].
Qed.

Lemma capture_None name rest least k s j : capture name rest least k s = None →
  (least ≤ j ≤ k)%nat → rest (str_drop j s) = None.
Proof.
  induction k as [|k IH]; cbn [capture]; destruct (_ <? _)%nat eqn:E; intros H Hj;
    [apply Nat.ltb_lt in E; lia| |apply Nat.ltb_lt in E; lia|].
  - assert (j = 0%nat) as -> by lia. by destruct (rest (str_drop 0 s)).
  - destruct (rest (str_drop (S k) s)) as [ps|] eqn:Er; [done|].
    destruct (decide (j = S k)) as [->|]; [by destruct (rest _)|]. apply IH; [done|lia].
Qed.

Lemma match_pieces_sound ps s r : match_pieces ps s = Some r → matches ps s r.
Proof.
  revert s r. induction ps as [|[text|name|name] ps IH]; intros s r; simpl.
  - destruct (str_empty s) eqn:E; [destruct s; [|done]; intros [= <-]; constructor|].
    simpl. case_bool_decide; [|done]. subst. intros [= <-]. constructor.
  - destruct (strip_prefix text s) as [s'|] eqn:E; [|done]. apply strip_prefix_Some in E as ->.
    intros H. constructor. by apply IH.
  - intros (j & ps' & Hj & Hr & ->)%capture_Some. rewrite <-(take_drop_str j s) at 1.
    apply matches_seg; [|apply run_length_take; lia|by apply IH].
    intros E. assert (String.length (str_take j s) = j) as Hl.
    { apply take_length. pose proof (run_length_le in_segment s). lia. }
    rewrite E in Hl. simpl in Hl. lia.
  - intros (j & ps' & Hj & Hr & ->)%capture_Some. rewrite <-(take_drop_str j s) at 1.
    apply matches_tail; [apply run_length_take; lia|by apply IH].
Qed.

Lemma match_pieces_complete ps s r : matches ps s r → match_pieces ps s ≠ None.
Proof.
  induction 1 as [| |text ps s r _ IH|name v ps s r Hv Hf _ IH|name v ps s r Hf _ IH]; simpl; [done|done| | |].
  - by rewrite (proj2 (strip_prefix_Some text _ s) eq_refl).
  - intros E. apply IH. rewrite <-(drop_app_str v s). eapply capture_None; [exact E|].
    split; [by destruct v; [|simpl; lia]|by apply run_length_app].
  - intros E. apply IH. rewrite <-(drop_app_str v s). eapply capture_None; [exact E|].
    split; [lia|by apply run_length_app].
Qed.

Lemma matched ps s : (∃ r, matches ps s r) ↔ is_Some (match_pieces ps s).
Proof.
  split.
  - intros [r H%match_pieces_complete]. by destruct (match_pieces ps s).
  - intros [r H%match_pieces_sound]. eauto.
Qed.

(** The names of the captures are those of the template. *)
Definition capture_names (ps : list piece) : list string :=
  omap (λ p, match p with Lit _ => None | Seg n | Tail n => Some n end) ps.
Lemma matches_names ps s r : matches ps s r → fst <$> r = capture_names ps.
Proof. induction 1; csimpl; congruence. Qed.

Lemma param_given name request : name ∈ (fst <$> req_params request) → ∃ v, param name request = Ok v.
Proof.
  intros ([n v] & -> & Hin)%list_elem_of_fmap. unfold param. simpl.
  destruct (List.find _ _) as [[n' v']|] eqn:E; [by exists v'|]. exfalso.
  apply (find_none _ _) with (x := (n, v)) in E; [by rewrite bool_decide_true in E|].
  apply in_rev. rewrite rev_involutive. by apply list_elem_of_In.
Qed.

(** ** Dispatch *)

Section dispatch.
Context {K : Type}.
Implicit Types (r : Route K) (routes : list (Route K)).

(** Some route of the method has a template that matches. *)
Definition serves (method path : string) (r : Route K) : Prop :=
  rt_method r = method ∧ ∃ raw, matches (rt_pieces r) path raw.

Lemma route_matches_Some method path r raw : route_matches method path r = Some raw →
  rt_method r = method ∧ matches (rt_pieces r) path raw.
Proof.
  unfold route_matches. case_bool_decide; [|done]. intros ?%match_pieces_sound. done.
Qed.
Lemma route_matches_None method path r : route_matches method path r = None ↔ ¬ serves method path r.
Proof.
  unfold route_matches, serves. rewrite matched. case_bool_decide.
  - rewrite <-not_eq_None_Some. destruct (match_pieces _ _); naive_solver.
  - naive_solver.
Qed.

Lemma first_match_Some method path routes r found : first_match method path routes = Some (r, found) →
  ∃ before after raw, routes = before ++ r :: after ∧ (∀ x, x ∈ before → ¬ serves method path x) ∧
    rt_method r = method ∧ matches (rt_pieces r) path raw ∧
    found = (λ kv, (fst kv, unquote (snd kv))) <$> raw.
Proof.
  induction routes as [|x routes IH]; simpl; [done|].
  destruct (route_matches method path x) as [raw|] eqn:E.
  - intros [= -> <-]. apply route_matches_Some in E as [Hm Hr].
    exists [], routes, raw. split_and!; try done. by intros ? ?%not_elem_of_nil.
  - intros (before & after & raw & -> & Hb & ?)%IH. exists (x :: before), after, raw.
    split; [done|]. split; [|done]. intros y [->|Hy]%elem_of_cons; [by apply route_matches_None|by apply Hb].
Qed.
Lemma first_match_None method path routes : first_match method path routes = None →
  ∀ r, r ∈ routes → ¬ serves method path r.
Proof.
  induction routes as [|x routes IH]; simpl; [by intros _ ? ?%not_elem_of_nil|].
  destruct (route_matches method path x) eqn:E; [done|]. intros H r [->|Hr]%elem_of_cons; [|by apply IH].
  by apply route_matches_None.
Qed.

Definition pattern_length (r : Route K) : nat := String.length (pattern (rt_pieces r)).

Lemma allowed_spec path routes m : m ∈ allowed_methods path routes ↔ ∃ r, r ∈ routes ∧ serves m path r.
Proof.
  unfold allowed_methods, serves. rewrite list_elem_of_fmap. setoid_rewrite list_elem_of_In.
  setoid_rewrite filter_In. setoid_rewrite bool_decide_eq_true. setoid_rewrite matched. naive_solver.
Qed.

Context (float_repr : spec_float → string).

Lemma too_large_fits : (body_size float_repr (resp_body (error_response 500 "response too large")) ≤ MAX_RESPONSE_BYTES)%Z.
Proof. vm_compute. discriminate. Qed.

Lemma send_fits response : (body_size float_repr (resp_body (_send float_repr response)) ≤ MAX_RESPONSE_BYTES)%Z.
Proof.
  unfold _send. destruct (MAX_RESPONSE_BYTES <? _)%Z eqn:E; [apply too_large_fits|]. by apply Z.ltb_ge in E.
Qed.

(** C28. Every request gets a bounded answer: the handler of the longest template of
    its method that matches the path, as the pattern is defined, with the decoded
    captures, or 405 exactly when only other methods match and 404 when none does. *)
Theorem request_dispatched routes method target headers incoming (s : K) :
  let '(response, s') := _handle float_repr routes method target headers incoming s in
  let path := fst (urlparse target) in
  let answer (res : result Response) := _send float_repr (match res with Ok response => response | Err e => failure_response e end) in
  (* what is sent is bounded *)
  (body_size float_repr (resp_body response) ≤ MAX_RESPONSE_BYTES)%Z ∧
  match _read_body incoming, match_route method path routes with
  | Err e, _ => response = answer (Err e) ∧ s' = s
  | Ok body, Some (route, found) =>
      (* the most specific template of the method that matches serves the request *)
      route ∈ routes ∧ rt_method route = method ∧
      (∃ raw, matches (rt_pieces route) path raw ∧ found = (λ kv, (fst kv, unquote (snd kv))) <$> raw) ∧
      (∀ r, r ∈ routes → serves method path r → pattern_length r ≤ pattern_length route)%nat ∧
      ∃ result, rt_handler route (MkRequest method path found (parse_qs (snd (urlparse target))) headers body) s
                = (result, s') ∧ response = answer result
  | Ok _, None =>
      (* none matches: nothing happens, and another method is told from no such path *)
      s' = s ∧ (∀ r, r ∈ routes → ¬ serves method path r) ∧
      (resp_status response = 405%Z ∧ (∃ m r, r ∈ routes ∧ serves m path r) ∨
       resp_status response = 404%Z ∧ ∀ m r, r ∈ routes → ¬ serves m path r)
  end.
Proof.
  unfold _handle. destruct (respond routes method target headers incoming s) as [res s'] eqn:E.
  cbv zeta. split; [apply send_fits|]. unfold respond in E.
  destruct (urlparse target) as [path query]. cbn [fst snd]. rewrite bind_run in E. unfold lift in E.
  destruct (_read_body incoming) as [body|e]; [|by injection E as <- <-].
  destruct (match_route method path routes) as [[route found]|] eqn:Em.
  -    unfold match_route in Em. apply first_match_Some in Em as (before & after & raw & Hs & Hb & Hm & Hr & Hf).
    assert (∀ x, x ∈ routes ↔ x ∈ before ++ route :: after) as Hin.
    { intros x. rewrite <-Hs. unfold by_length. by rewrite elem_of_order_by. }
    split_and!; [apply Hin; apply elem_of_app; right; left|done|by exists raw| |by exists res].
    intros x Hx%Hin Hserves. apply elem_of_app in Hx as [Hx|Hx]; [by destruct (Hb x Hx)|].
    apply elem_of_cons in Hx as [->|Hx]; [done|].
    pose proof (order_by_ordered (λ r, - Z.of_nat (String.length (pattern (rt_pieces r))))%Z routes) as Ho.
    unfold by_length in Hs. rewrite Hs in Ho. apply StronglySorted_app_1_r in Ho.
    apply StronglySorted_inv in Ho as [_ Ho]. rewrite Forall_forall in Ho. specialize (Ho x Hx).
    cbv beta in Ho. unfold pattern_length. lia.
  - injection E as <- <-. split; [done|].
    assert (∀ m r, r ∈ routes → serves m path r → m ∈ allowed_methods path routes) as Ha
      by (intros; apply allowed_spec; eauto).
    split.
    + intros r Hr. apply (first_match_None _ _ _ Em). unfold by_length. by rewrite elem_of_order_by.
    + destruct (allowed_methods path routes) as [|m ms] eqn:Eal.
      * right. split; [unfold _send; by destruct (_ <? _)%Z eqn:El|].
        intros m r Hr Hs. by apply Ha, not_elem_of_nil in Hs.
      * left. split; [unfold _send; by destruct (_ <? _)%Z eqn:El|].
        assert (m ∈ allowed_methods path routes) as (r & Hr & Hs)%allowed_spec by (rewrite Eal; left). eauto.
Qed.
End dispatch.

(** ** Paths of whole segments *)

Definition whole (v : string) : Prop := v ≠ EmptyString ∧ str_forall in_segment v = true.

Lemma run_length_whole v tail : str_forall in_segment v = true → (∀ c s, tail = String c s → c = "/"%char) →
  run_length in_segment (v +:+ tail) = String.length v.
Proof.
  intros Hv Ht. induction v as [|c v IH].
  - rewrite str_app_nil. destruct tail as [|c s]; [done|]. by rewrite (Ht c s eq_refl).
  - simpl in Hv. apply andb_true_iff in Hv as [Hc Hv]. rewrite str_app_cons. simpl. by rewrite Hc, (IH Hv).
Qed.

Lemma capture_now name rest v tail r : whole v → (∀ c s, tail = String c s → c = "/"%char) → rest tail = Some r →
  capture name rest 1 (run_length in_segment (v +:+ tail)) (v +:+ tail) = Some ((name, v) :: r).
Proof.
  intros [Hne Hv] Ht Hr. rewrite run_length_whole by done.
  assert (String.length v = S (Nat.pred (String.length v))) as Hl by (destruct v; simpl; [done|lia]).
  rewrite Hl. cbn [capture]. rewrite <-Hl. rewrite drop_app_str, Hr, take_app_str.
  destruct v; [done|]. done.
Qed.

Lemma capture_never name rest v tail : str_forall in_segment v = true →
  (∀ c s, tail = String c s → c = "/"%char) →
  (∀ x, str_forall in_segment x = true → rest (x +:+ tail) = None) →
  capture name rest 1 (run_length in_segment (v +:+ tail)) (v +:+ tail) = None.
Proof.
  intros Hv Ht Hr. rewrite run_length_whole by done. set (k := String.length v).
  assert (k ≤ String.length v)%nat as Hk by (subst k; lia). clearbody k. induction k as [|k IH]; [done|].
  cbn [capture]. destruct (_ <? _)%nat; [done|].
  assert (str_drop (S k) (v +:+ tail) = str_drop (S k) v +:+ tail ∧ str_forall in_segment (str_drop (S k) v) = true)
    as [-> Hx].
  { clear IH Hr. revert v Hv Hk. generalize (S k). intros n. induction n as [|n IHn]; intros v Hv Hk; [done|].
    destruct v as [|c v]; simpl in Hk; [lia|]. simpl in Hv. apply andb_true_iff in Hv as [_ Hv].
    rewrite str_app_cons. simpl. apply IHn; [done|lia]. }
  rewrite Hr by done. apply IH. lia.
Qed.

Lemma seg_lit name t ps v u : whole v →
  match_pieces (Seg name :: Lit (String "/" t) :: ps) (v +:+ String "/" u)
  = (cons (name, v)) <$> match_pieces (Lit (String "/" t) :: ps) (String "/" u).
Proof.
  intros Hw. cbn [match_pieces].
  assert (∀ c s, String "/" u = String c s → c = "/"%char) as Ht by (by intros c s [= <- _]).
  match goal with |- capture _ ?rest _ _ _ = _ <$> ?r => destruct r as [ps'|] eqn:E end; simpl.
  - by apply capture_now.
  - apply capture_never; [apply Hw|done|]. intros [|c x] Hx; [by rewrite str_app_nil|].
    rewrite str_app_cons. cbn [strip_prefix]. rewrite bool_decide_false; [done|].
    intros <-. simpl in Hx. done.
Qed.

Lemma seg_lit_end name t ps v : whole v → match_pieces (Seg name :: Lit (String "/" t) :: ps) v = None.
Proof.
  intros Hw. cbn [match_pieces].
  rewrite <-(str_app_end v). apply capture_never; [apply Hw|done|]. intros [|c x] Hx; [done|].
  rewrite str_app_cons. cbn [strip_prefix]. rewrite bool_decide_false; [done|]. intros <-. simpl in Hx. done.
Qed.

Lemma seg_end name v : whole v → match_pieces [Seg name] v = Some [(name, v)].
Proof.
  intros Hw. cbn [match_pieces].
  pose proof (capture_now name (match_pieces []) v EmptyString [] Hw) as H. rewrite str_app_end in H. by apply H.
Qed.

Lemma seg_end_no name v u : whole v → match_pieces [Seg name] (v +:+ String "/" u) = None.
Proof.
  intros Hw. cbn [match_pieces]. apply capture_never; [apply Hw|by intros c s [= <- _]|].
  intros [|c x] Hx; [by rewrite str_app_nil|]. rewrite str_app_cons. cbn [match_pieces str_empty orb].
  rewrite bool_decide_false; [done|]. intros [= -> Hs]. by destruct x.
Qed.

Lemma whole_quote v : v ≠ EmptyString → whole (url_quote v).
Proof.
  intros Hv. split; [by intros H%url_quote_nil|].
  eapply str_forall_impl; [|apply url_quote_chars]. by intros [[] [] [] [] [] [] [] []].
Qed.

(** One route matches: it is the one found, whatever the order. *)
Lemma match_route_only {K} method path (routes : list (Route K)) r raw : r ∈ routes →
  route_matches method path r = Some raw →
  (∀ r', r' ∈ routes → route_matches method path r' ≠ None → r' = r) →
  match_route method path routes = Some (r, (λ kv, (fst kv, unquote (snd kv))) <$> raw).
Proof.
  intros Hr Hm Hu. unfold match_route.
  assert (∀ x, x ∈ by_length routes ↔ x ∈ routes) as Hin by (intros x; apply elem_of_order_by).
  assert (∀ x, x ∈ by_length routes → route_matches method path x ≠ None → x = r) as Hu'
    by (intros x Hx; by apply Hu, Hin).
  apply Hin in Hr. clear Hu Hin. induction (by_length routes) as [|x l IH]; [by apply not_elem_of_nil in Hr|].
  simpl. destruct (route_matches method path x) as [found|] eqn:E.
  - assert (x = r) as -> by (apply Hu'; [left|by rewrite E]). congruence.
  - apply IH; [|by intros y Hy; apply Hu'; right]. apply elem_of_cons in Hr as [->|Hr]; [congruence|done].
Qed.

(** A known beginning is compared without the rest. *)
Fixpoint strip_both (p q : string) : option (string + string) :=
  match p, q with
  | EmptyString, q => Some (inl q)
  | p, EmptyString => Some (inr p)
  | String c p, String d q => if bool_decide (c = d) then strip_both p q else None
  end.
Lemma strip_known p q s : strip_prefix p (q +:+ s) =
  match strip_both p q with
  | Some (inl q') => Some (q' +:+ s)
  | Some (inr p') => strip_prefix p' s
  | None => None
  end.
Proof.
  revert q. induction p as [|c p IH]; intros [|d q]; try done.
  rewrite str_app_cons. simpl. case_bool_decide; [apply IH|done].
Qed.
Lemma lit_known text ps q s : match_pieces (Lit text :: ps) (q +:+ s) =
  match strip_both text q with
  | Some (inl q') => match_pieces ps (q' +:+ s)
  | Some (inr text') => match_pieces (Lit text' :: ps) s
  | None => None
  end.
Proof. cbn [match_pieces]. rewrite strip_known. by destruct (strip_both text q) as [[]|]. Qed.
Lemma end_known c q s : c ≠ "010"%char → match_pieces [] (String c q +:+ s) = None.
Proof. intros Hc. rewrite str_app_cons. cbn. rewrite bool_decide_false; [done|]. by intros [= ->]. Qed.
Lemma seg_lit_known name t ps v q s : whole v →
  match_pieces (Seg name :: Lit (String "/" t) :: ps) (v +:+ (String "/" q +:+ s))
  = (cons (name, v)) <$> match_pieces (Lit (String "/" t) :: ps) (String "/" q +:+ s).
Proof. rewrite (str_app_cons "/"). apply seg_lit. Qed.
Lemma seg_end_known name v q s : whole v → match_pieces [Seg name] (v +:+ (String "/" q +:+ s)) = None.
Proof. rewrite (str_app_cons "/"). apply seg_end_no. Qed.
