(* ===== verification/KernelApiProps.v ===== *)
(** * What the kernel's HTTP surface promises

    Whatever arrives, the stores change by their own operations only; a caller gets at
    nothing that is not his; what he submits is his own. *)

From stdpp Require Import gmap pretty.
From S2P Require Export KernelApi RouterProps BundleProps RuntimeSteps SubmissionProps IdentityProps RegistryProps.
Open Scope string_scope.
Open Scope list_scope.

Section api.
Context (sha256 : string → string) (pbkdf2 : string → string → Z → string).
Context (path_of : list string → string → list string).
Context (parts host_path plain_path : string → list string).
Context (float_repr : spec_float → string) (py_repr utf8 : string → string).
Context (zip : list Member → string).
Context (uuid token salt : nat → string) (clock : nat → Z).
Context (config : RuntimeConfig) (supports_limits : bool) (machine : string).
Context (registry : PluginRegistry).
Context (allow_anonymous : bool) (local_user_id evaluator_error : option string).

Local Abbreviation kernel_handle := (kernel_handle sha256 pbkdf2 path_of parts host_path plain_path float_repr
  py_repr utf8 zip uuid token salt clock config supports_limits machine registry allow_anonymous
  local_user_id evaluator_error).
Local Abbreviation route_table := (route_table sha256 pbkdf2 path_of parts host_path plain_path float_repr
  py_repr utf8 zip uuid token salt clock config supports_limits machine registry
  local_user_id evaluator_error).
Local Abbreviation kernel_routes := (kernel_routes sha256 pbkdf2 path_of parts host_path plain_path float_repr
  py_repr utf8 zip uuid token salt clock config supports_limits machine registry allow_anonymous
  local_user_id evaluator_error).
Local Abbreviation _guarded := (_guarded sha256 uuid clock allow_anonymous local_user_id).
Local Abbreviation _authenticate := (_authenticate sha256 uuid clock allow_anonymous local_user_id).
Local Abbreviation _require_ownership := (_require_ownership local_user_id).
Local Abbreviation run_param := (run_param local_user_id).

(** ** Requests are histories of store operations *)

Definition kernel_steps (k k' : Kern) : Prop :=
  rtc store_step (kstore k) (kstore k') ∧
  ∃ ops, k_identity k' = run_ops sha256 pbkdf2 ops (k_identity k).

#[local] Instance kernel_steps_preorder : PreOrder kernel_steps.
Proof.
  split.
  - intros k. split; [done|]. by exists [].
  - intros k1 k2 k3 [H1 [o1 E1]] [H2 [o2 E2]]. split; [by etrans|].
    exists (o1 ++ o2). unfold run_ops. rewrite fold_left_app. by rewrite E2, E1.
Qed.

Definition by_kernel {A} (m : st Kern A) : Prop := follows kernel_steps m.

Lemma by_kernel_bind {A B} (m : st Kern A) (f : A → st Kern B) :
  by_kernel m → (∀ a, by_kernel (f a)) → by_kernel (m ≫= f).
Proof. apply follows_bind, _. Qed.
Lemma by_kernel_pure {A} (m : st Kern A) : (∀ k, snd (m k) = k) → by_kernel m.
Proof. apply follows_pure, _. Qed.
Lemma by_kernel_mret {A} (a : A) : by_kernel (mret a).
Proof. by apply by_kernel_pure. Qed.
Lemma by_kernel_lift {A} (m : result A) : by_kernel (lift m).
Proof. by apply by_kernel_pure. Qed.
Lemma by_kernel_raise {A} e : by_kernel (raise e : st Kern A).
Proof. by apply by_kernel_pure. Qed.
Lemma by_kernel_gets {A} (f : Kern → A) : by_kernel (gets f).
Proof. by apply by_kernel_pure. Qed.
Lemma by_kernel_refuse {A} p status (m : st Kern A) : by_kernel m → by_kernel (refuse p status m).
Proof. intros H. apply follows_catch; [apply _|done|]. intros. apply by_kernel_raise. Qed.
Lemma by_kernel_iterM {A} (f : A → st Kern unit) l : (∀ x, by_kernel (f x)) → by_kernel (iterM_st f l).
Proof. intros H. apply follows_iterM; [apply _|]. intros; apply H. Qed.
Lemma by_kernel_uploads f : by_kernel (modify (on_uploads f)).
Proof. apply follows_modify. intros k. split; [done|]. by exists []. Qed.
Lemma by_kernel_finally {A} (m : st Kern A) f : by_kernel m → by_kernel (kfinally m (on_uploads f)).
Proof.
  intros H k r k' E. unfold kfinally in E. destruct (m k) as [v k1] eqn:Em. injection E as <- <-.
  etrans; [by eapply H|]. split; [done|]. by exists [].
Qed.

Lemma by_kernel_world {A} (m : st World A) : by_steps m → by_kernel (in_world m).
Proof.
  intros H k r k' E. unfold in_world in E. destruct (m (k_world k)) as [v w] eqn:Em. injection E as <- <-.
  split; [by eapply H|]. by exists [].
Qed.
Lemma by_kernel_identity {A} (m : st IdentityDb A) op :
  (∀ i, snd (m i) = run_op sha256 pbkdf2 op i) → by_kernel (in_identity m).
Proof.
  intros H k r k' E. unfold in_identity in E. specialize (H (k_identity k)).
  destruct (m (k_identity k)) as [v i] eqn:Em. injection E as <- <-.
  split; [done|]. exists [op]. exact H.
Qed.

Lemma by_kernel_draw : by_kernel (kdraw uuid clock).
Proof.
  apply by_kernel_bind; [apply by_kernel_gets|]. intros k.
  apply by_kernel_bind; [apply by_kernel_world, by_steps_draw|]. intros; apply by_kernel_mret.
Qed.
Lemma by_kernel_know : by_kernel (know uuid clock).
Proof. apply by_kernel_bind; [apply by_kernel_draw|]. intros; apply by_kernel_mret. Qed.
Lemma by_kernel_session_draws : by_kernel (session_draws uuid token clock).
Proof. apply by_kernel_bind; [apply by_kernel_draw|]. intros; apply by_kernel_mret. Qed.

Lemma by_kernel_authenticate request : by_kernel (_authenticate request).
Proof.
  unfold KernelApi._authenticate. apply by_kernel_bind; [|intros; apply by_kernel_mret].
  destruct (bearer_token request) as [t|]; [|apply by_kernel_mret].
  apply by_kernel_bind; [apply by_kernel_know|]. intros n.
  by apply (by_kernel_identity _ (Resolve t n)).
Qed.
Lemma by_kernel_ownership ty rid session : by_kernel (_require_ownership ty rid session).
Proof.
  unfold KernelApi._require_ownership. destruct (owner_id _ _); [|apply by_kernel_mret].
  apply by_kernel_bind; [apply by_kernel_gets|]. intros k.
  apply by_kernel_bind; intros; apply by_kernel_lift.
Qed.
Lemma by_kernel_bind_owner ty rid session : by_kernel (bind_owner uuid clock local_user_id ty rid session).
Proof.
  unfold bind_owner. destruct (owner_id _ _) as [o|]; [|apply by_kernel_mret].
  destruct (str_empty o); [apply by_kernel_mret|].
  apply by_kernel_bind; [apply by_kernel_know|]. intros n.
  by apply (by_kernel_identity _ (BindResource ty rid o n)).
Qed.
Lemma by_kernel_run_param request session : by_kernel (run_param request session).
Proof.
  apply by_kernel_bind; [apply by_kernel_lift|]. intros run_id.
  apply by_kernel_bind; [apply by_kernel_ownership|]. intros; apply by_kernel_mret.
Qed.
Lemma by_kernel_run_detail run_id : by_kernel (_run_detail config run_id).
Proof.
  apply by_kernel_bind; [apply by_kernel_gets|]. intros k.
  apply by_kernel_bind; [apply by_kernel_lift|]. intros d.
  apply by_kernel_bind; [apply by_kernel_lift|]. intros; apply by_kernel_mret.
Qed.

Lemma by_steps_ingest_input content hex now :
  by_steps (in_custody (StoreEvidence.ingest_input sha256 content hex now)).
Proof. apply by_steps_custody. intros c r c' E. apply rtc_once. by eapply step_ingest. Qed.
Lemma by_steps_request_retry run_id requester reason hex now :
  by_steps (in_store (request_retry run_id requester reason hex now)).
Proof. apply by_steps_store. intros. by eapply step_request_retry. Qed.

Create HintDb by_kernel.
#[local] Hint Resolve by_kernel_mret by_kernel_lift by_kernel_raise by_kernel_gets by_kernel_uploads
  by_kernel_draw by_kernel_know by_kernel_session_draws by_kernel_authenticate by_kernel_ownership
  by_kernel_bind_owner by_kernel_run_param by_kernel_run_detail : by_kernel.

Ltac by_kernel :=
  repeat match goal with
  | |- by_kernel (_ ≫= _) => apply by_kernel_bind; [|intros]
  | |- by_kernel (refuse _ _ _) => apply by_kernel_refuse
  | |- by_kernel (iterM_st _ _) => apply by_kernel_iterM; intros
  | |- by_kernel (kfinally _ _) => apply by_kernel_finally
  | |- by_kernel _ => solve [auto with by_kernel]
  | |- by_kernel (match ?x with _ => _ end) => destruct x
  | |- by_kernel (let '(_, _) := ?x in _) => destruct x
  end.

Lemma by_kernel_excerpt verify dflt request session :
  by_kernel (excerpt sha256 path_of parts utf8 local_user_id verify dflt request session).
Proof. unfold excerpt. by_kernel. Qed.

Lemma by_kernel_submit_run request session :
  by_kernel (KernelApi.submit_run sha256 path_of parts host_path plain_path float_repr uuid clock config
               supports_limits machine registry local_user_id request session).
Proof.
  unfold KernelApi.submit_run, check_declaration, runtime_submit. by_kernel. apply by_kernel_world, by_steps_submit.
Qed.

Lemma by_kernel_tree t summaries : by_kernel (tree_of config t summaries).
Proof.
  revert t. induction summaries as [|x l IH]; intros t; simpl; [by_kernel|].
  apply by_kernel_bind; [unfold tree_step; by_kernel|]. intros. apply IH.
Qed.
#[local] Hint Resolve by_kernel_tree : by_kernel.

Lemma by_kernel_chunk request session :
  by_kernel (ingest_input_chunk sha256 uuid clock local_user_id request session).
Proof.
  unfold ingest_input_chunk, ingest_upload. by_kernel. apply by_kernel_world, by_steps_ingest_input_file.
Qed.

Lemma by_kernel_register request session :
  by_kernel (auth_register sha256 pbkdf2 float_repr py_repr uuid token salt clock request session).
Proof.
  unfold auth_register. by_kernel.
  match goal with |- by_kernel (in_identity (Identity.register _ _ ?u ?p ?s ?h ?n ?d)) =>
    by apply (by_kernel_identity _ (Register u p s h n d)) end.
Qed.
Lemma by_kernel_login request session :
  by_kernel (auth_login sha256 pbkdf2 float_repr py_repr uuid token clock request session).
Proof.
  unfold auth_login. by_kernel.
  match goal with |- by_kernel (in_identity (login _ _ ?u ?p ?d)) =>
    by apply (by_kernel_identity _ (Login u p d)) end.
Qed.
Lemma by_kernel_logout request session : by_kernel (auth_logout sha256 request session).
Proof.
  unfold auth_logout. apply by_kernel_bind; [|intros; by_kernel].
  destruct (bearer_token request) as [t|]; [|by_kernel]. by apply (by_kernel_identity _ (Logout t)).
Qed.

(** One entry of the table after the other. *)
Lemma handlers_by_kernel e request session : e ∈ route_table → by_kernel (snd e request session).
Proof.
  unfold KernelApi.route_table. intros H.
  repeat (apply elem_of_cons in H as [->|H]; [cbn [snd]|]); [..|by apply not_elem_of_nil in H].
  - unfold KernelApi.health. by_kernel.
  - apply by_kernel_register.
  - apply by_kernel_login.
  - unfold KernelApi.auth_session. by_kernel.
  - apply by_kernel_logout.
  - unfold KernelApi.plugins. by_kernel.
  - unfold KernelApi.ingest_input. by_kernel. apply by_kernel_world, by_steps_ingest_input.
  - apply by_kernel_chunk.
  - apply by_kernel_submit_run.
  - unfold KernelApi.list_runs. by_kernel.
  - unfold KernelApi.get_run. by_kernel.
  - unfold KernelApi.design_tree. by_kernel.
  - unfold KernelApi.cancel_run. by_kernel. apply by_kernel_world. auto with by_steps.
  - unfold KernelApi.retry_run. by_kernel. apply by_kernel_world, by_steps_request_retry.
  - unfold KernelApi.bundle. by_kernel. apply by_kernel_world, by_steps_export.
  - unfold KernelApi.metrics. by_kernel.
  - unfold KernelApi.artifacts. by_kernel.
  - unfold KernelApi.timeline. by_kernel.
  - unfold KernelApi.resources. by_kernel.
  - unfold KernelApi.logs. by_kernel.
  - apply by_kernel_excerpt.
  - unfold KernelApi.artifact_download. by_kernel.
  - apply by_kernel_excerpt.
  - unfold KernelApi.graph. by_kernel.
Qed.

Lemma fold_add l acc : fold_left (λ rs (e : string * string * api_handler),
    add (fst (fst e)) (snd (fst e)) (_guarded (snd e)) rs) l acc
  = acc ++ map (λ e, MkRoute (fst (fst e)) (template (snd (fst e))) (_guarded (snd e))) l.
Proof.
  revert acc. induction l as [|e l IH]; intros acc; simpl; [by rewrite app_nil_r|].
  rewrite IH. unfold add. by rewrite <-app_assoc.
Qed.

(** The routes are the entries of the table, guarded. *)
Lemma kernel_routes_table r : r ∈ kernel_routes →
  ∃ e, e ∈ route_table ∧ r = MkRoute (fst (fst e)) (template (snd (fst e))) (_guarded (snd e)).
Proof.
  unfold KernelApi.kernel_routes, register_routes. rewrite fold_add.
  intros [Hr|Hr]%elem_of_app; [by apply not_elem_of_nil in Hr|].
  apply list_elem_of_In, in_map_iff in Hr as (e & <- & He%list_elem_of_In). by exists e.
Qed.

Lemma guarded_by_kernel e request : e ∈ route_table → by_kernel (_guarded (snd e) request).
Proof.
  intros He. unfold KernelApi._guarded. apply by_kernel_bind; [apply by_kernel_authenticate|].
  intros [session|]; [by apply handlers_by_kernel|].
  destruct (_is_public request); [by apply handlers_by_kernel|apply by_kernel_raise].
Qed.

Lemma handle_by_kernel method target headers incoming k :
  kernel_steps k (snd (kernel_handle method target headers incoming k)).
Proof.
  unfold KernelApi.kernel_handle, _handle.
  destruct (respond kernel_routes method target headers incoming k) as [r k'] eqn:E. simpl.
  revert k r k' E. change (by_kernel (respond kernel_routes method target headers incoming)).
  unfold respond. destruct (urlparse target) as [path query].
  apply by_kernel_bind; [apply by_kernel_lift|]. intros body.
  destruct (match_route _ _ _) as [[route found]|] eqn:Em; [|apply by_kernel_mret].
  unfold match_route in Em. apply first_match_Some in Em as (before & after & raw & Hs & _).
  assert (route ∈ kernel_routes) as Hr.
  { rewrite <-(elem_of_order_by (λ r, - Z.of_nat (String.length (pattern (rt_pieces r))))%Z).
    unfold by_length in Hs. rewrite Hs. apply elem_of_app. right. left. }
  apply kernel_routes_table in Hr as (e & He & ->). by apply guarded_by_kernel.
Qed.

(** C6. Whatever request arrives, it changes the stores by histories of their own
    operations, so the invariants of both stores hold of the served kernel, settled
    evidence stays and no resource changes its owner. *)
Theorem requests_by_operations method target headers incoming k :
  store_ok (kstore k) → identity_ok (k_identity k) →
  let k' := snd (kernel_handle method target headers incoming k) in
  (* any request changes the two stores by their own operations *)
  rtc store_step (kstore k) (kstore k') ∧
  (∃ ops, k_identity k' = run_ops sha256 pbkdf2 ops (k_identity k)) ∧
  (* so what holds of their histories holds of the served kernel *)
  store_ok (kstore k') ∧ evolution (kstore k) (kstore k') ∧ identity_ok (k_identity k') ∧
  ∀ ty rid owner, owner_of ty rid (k_identity k) = Some owner → owner_of ty rid (k_identity k') = Some owner.
Proof.
  intros Hs Hi k'. destruct (handle_by_kernel method target headers incoming k) as [H1 [ops H2]].
  fold k' in H1, H2. destruct (store_steps_wb _ _ Hs H1) as [Hs' He].
  destruct (run_ops_ok sha256 pbkdf2 ops _ Hi) as [Hi' Hex]. rewrite H2.
  split_and!; [done|by exists ops|done|done|done|]. intros ty rid owner Ho. by eapply owner_kept.
Qed.

(** ** Callers *)

(** What answering a request for somebody changes before the handler runs: the session
    that was used or had expired. *)
Record same_but_sessions (k k' : Kern) : Prop := {
  sb_store : kstore k' = kstore k;
  sb_uploads : k_uploads k' = k_uploads k;
  sb_users : id_users (k_identity k') = id_users (k_identity k);
  sb_owners : id_owners (k_identity k') = id_owners (k_identity k);
  sb_usage : id_usage (k_identity k') = id_usage (k_identity k) }.

Lemma owner_of_same k k' ty rid : same_but_sessions k k' →
  owner_of ty rid (k_identity k') = owner_of ty rid (k_identity k).
Proof. intros []. unfold owner_of. by rewrite sb_owners0. Qed.

Lemma resolve_same t now i : let '(r, i') := Identity.resolve sha256 t now i in
  (id_users i' = id_users i ∧ id_owners i' = id_owners i ∧ id_usage i' = id_usage i) ∧
  ∃ o, r = Ok o ∧ ∀ s, o = Some s →
    ∃ user, fetchone (is_user (as_user_id s)) (id_users i) = Some user ∧
            as_developer s = bool_decide (u_role user = "developer").
Proof.
  unfold Identity.resolve. destruct (str_empty t); [split; [done|]; exists None; by split|].
  rewrite bind_run. cbn [gets id].
  destruct (fetchone (has_token _) _) as [session|]; [|split; [done|]; exists None; by split]. simpl.
  destruct (fetchone (is_user _) _) as [user|] eqn:E; [|split; [done|]; exists None; by split]. simpl.
  destruct (_ <=? now)%Z; (split; [done|]); eexists; (split; [done|]); [done|].
  intros s [= <-]. by exists user.
Qed.

(** A caller is the owner of a live session, or the local user of a deployment without
    authentication; a caller that is no developer is a user without that role. *)
Lemma authenticate_effect request k r k1 : _authenticate request k = (r, k1) →
  same_but_sessions k k1 ∧ ∃ o, r = Ok o ∧
  ∀ s, o = Some s → as_developer s = false →
    ∃ user, fetchone (is_user (as_user_id s)) (id_users (k_identity k)) = Some user ∧
            u_role user ≠ "developer".
Proof.
  assert (∀ s, anonymous_session allow_anonymous local_user_id = Some s → as_developer s = true) as Hanon.
  { unfold anonymous_session. intros s. destruct local_user_id; [|done]. by destruct (_ && _); intros [= <-]. }
  unfold KernelApi._authenticate. destruct (bearer_token request) as [t|].
  - intros H. rewrite !bind_run in H. destruct (know uuid clock k) as [rn kn] eqn:Ek.
    assert (∃ n, rn = Ok n) as [n ->] by (unfold know, kdraw, in_world, draw in Ek; cbn in Ek; injection Ek as <- _; by eexists).
    assert (k_identity kn = k_identity k ∧ kstore kn = kstore k ∧ k_uploads kn = k_uploads k) as (Hi & Hs & Hu).
    { unfold know, kdraw, in_world, draw in Ek. cbn in Ek. by injection Ek as _ <-. }
    unfold in_identity in H. pose proof (resolve_same t n (k_identity kn)) as Hr.
    destruct (Identity.resolve sha256 t n (k_identity kn)) as [ro i'].
    destruct Hr as ((H1 & H2 & H3) & o & -> & Ho). injection H as <- <-. rewrite Hi in *.
    split; [constructor; simpl; by rewrite ?Hs, ?Hu|]. eexists. split; [done|]. intros s Hsome Hd.
    destruct o as [s'|]; [injection Hsome as <-|by rewrite (Hanon s Hsome) in Hd].
    destruct (Ho s' eq_refl) as (user & Hu' & Hdev). exists user. split; [done|].
    rewrite Hd in Hdev. symmetry in Hdev. by apply bool_decide_eq_false in Hdev.
  - intros [= <- <-]. split; [done|]. eexists. split; [done|]. intros s Hsome Hd. by rewrite (Hanon s Hsome) in Hd.
Qed.

Lemma require_ownership_refuses ty rid s k user :
  as_developer s = false → fetchone (is_user (as_user_id s)) (id_users (k_identity k)) = Some user →
  u_role user ≠ "developer" → owner_of ty rid (k_identity k) ≠ Some (as_user_id s) →
  _require_ownership ty rid (Some s) k = (Err (HttpError 404 "not found"), k).
Proof.
  intros Hd Hu Hr Ho. unfold KernelApi._require_ownership. cbn [owner_id]. rewrite bind_run. cbn [gets id].
  rewrite bind_run. unfold lift, is_developer. rewrite Hd. unfold owns_resource.
  destruct (owner_of ty rid (k_identity k)) as [o|]; [|done].
  rewrite (bool_decide_true (is_Some (Some o))) by done. cbn [negb andb raise_when].
  rewrite (bool_decide_false (o = as_user_id s)) by congruence. rewrite Hu.
  by rewrite (bool_decide_false (u_role user = "developer")).
Qed.

Lemma run_param_refuses request run_id s k user :
  param "run_id" request = Ok run_id → as_developer s = false →
  fetchone (is_user (as_user_id s)) (id_users (k_identity k)) = Some user →
  u_role user ≠ "developer" → owner_of "run" run_id (k_identity k) ≠ Some (as_user_id s) →
  run_param request (Some s) k = (Err (HttpError 404 "not found"), k).
Proof.
  intros Hp Hd Hu Hr Ho. unfold KernelApi.run_param. rewrite bind_run. unfold lift. rewrite Hp.
  rewrite bind_run. by rewrite (require_ownership_refuses "run" run_id s k user).
Qed.

(** The runs a request is about: the one in its path, or those of the graph. *)
Definition captures (name : string) (ps : list piece) : bool :=
  existsb (λ p, match p with Seg n => bool_decide (n = name) | _ => false end) ps.
Definition is_graph (ps : list piece) : bool :=
  match ps with [Lit text] => bool_decide (text = "/kernel/graph") | _ => false end.
Definition names_run (ps : list piece) (request : Request) (run_id : string) : Prop :=
  captures "run_id" ps = true ∧ param "run_id" request = Ok run_id ∨
  is_graph ps = true ∧ run_id ∈ q_all "run_id" request.

Lemma require_ownership_pure ty rid session k :
  ∃ r, _require_ownership ty rid session k = (r, k) ∧ (r = Ok tt ∨ r = Err (HttpError 404 "not found")).
Proof.
  unfold KernelApi._require_ownership. destruct (owner_id _ _); [|by exists (Ok tt); split; [|left]].
  rewrite bind_run. cbn [gets id]. rewrite bind_run. unfold lift, raise_when.
  destruct (negb _ && _); [by eexists; split; [|right]|].
  destruct (negb _); [by eexists; split; [|right]|by exists (Ok tt); split; [|left]].
Qed.

Lemma graph_refuses session run_ids run_id k : run_id ∈ run_ids →
  _require_ownership "run" run_id session k = (Err (HttpError 404 "not found"), k) →
  iterM_st (λ run_id, _require_ownership "run" run_id session) run_ids k
  = (Err (HttpError 404 "not found"), k).
Proof.
  intros Hin Hr. unfold iterM_st. rewrite bind_run.
  assert (mapM_st (λ run_id, _require_ownership "run" run_id session) run_ids k
          = (Err (HttpError 404 "not found"), k)) as ->; [|done].
  induction run_ids as [|x l IH]; [by apply not_elem_of_nil in Hin|]. cbn [mapM_st]. rewrite bind_run.
  destruct (require_ownership_pure "run" x session k) as (r & Hx & [->| ->]); [|by rewrite Hx].
  rewrite Hx. apply elem_of_cons in Hin as [->|Hin]; [congruence|]. by rewrite bind_run, IH.
Qed.

(** Every handler that is told a run asks first whose it is. *)
Lemma handler_refuses e request run_id s k user : e ∈ route_table →
  names_run (template (snd (fst e))) request run_id →
  (captures "artifact_id" (template (snd (fst e))) = true → is_Ok (param "artifact_id" request) = true) →
  as_developer s = false → fetchone (is_user (as_user_id s)) (id_users (k_identity k)) = Some user →
  u_role user ≠ "developer" → owner_of "run" run_id (k_identity k) ≠ Some (as_user_id s) →
  snd e request (Some s) k = (Err (HttpError 404 "not found"), k).
Proof.
  intros He Hn Ha Hd Hu Hr Ho.
  assert (captures "run_id" (template (snd (fst e))) = true → param "run_id" request = Ok run_id →
    run_param request (Some s) k = (Err (HttpError 404 "not found"), k)) as Hrun
    by (intros; by apply (run_param_refuses request run_id s k user)).
  unfold KernelApi.route_table in He.
  repeat (apply elem_of_cons in He as [->|He]; [cbn [fst snd] in *|]); [..|by apply not_elem_of_nil in He].
  all: destruct Hn as [[Hc Hp]|[Hg Hq]]; try (vm_compute in Hc; discriminate Hc);
       try (vm_compute in Hg; discriminate Hg).
  all: try (specialize (Hrun eq_refl Hp)).
  1: unfold KernelApi.get_run. 2: unfold KernelApi.cancel_run. 3: unfold KernelApi.retry_run.
  4: unfold KernelApi.bundle. 5: unfold KernelApi.metrics. 6: unfold KernelApi.artifacts.
  7: unfold KernelApi.timeline. 8: unfold KernelApi.resources. 9: unfold KernelApi.logs.
  10: unfold artifact_excerpt, excerpt. 12: unfold artifact_chunk, excerpt.
  1-10, 12: by rewrite bind_run, Hrun.
  - unfold KernelApi.artifact_download. rewrite bind_run. unfold lift at 1. rewrite Hp. rewrite bind_run.
    unfold lift at 1. specialize (Ha eq_refl). destruct (param "artifact_id" request) as [a|]; [|done].
    rewrite bind_run. by rewrite (require_ownership_refuses "run" run_id s k user).
  - unfold KernelApi.graph. rewrite bind_run. unfold lift at 1.
    destruct (q_all "run_id" request) as [|x l] eqn:Eq; [by apply not_elem_of_nil in Hq|].
    cbn [raise_when]. rewrite bind_run. rewrite (graph_refuses (Some s) (x :: l) run_id k); [done|done|].
    by apply (require_ownership_refuses "run" run_id s k user).
Qed.

Lemma route_table_of method path route found : match_route method path kernel_routes = Some (route, found) →
  ∃ e, e ∈ route_table ∧ rt_pieces route = template (snd (fst e)) ∧ rt_handler route = _guarded (snd e) ∧
    fst <$> found = capture_names (rt_pieces route).
Proof.
  unfold match_route. intros (before & after & raw & Hs & _ & _ & Hm & ->)%first_match_Some.
  assert (route ∈ kernel_routes) as Hr.
  { rewrite <-(elem_of_order_by (λ r, - Z.of_nat (String.length (pattern (rt_pieces r))))%Z).
    unfold by_length in Hs. rewrite Hs. apply elem_of_app. right. left. }
  apply kernel_routes_table in Hr as (e & He & ->). exists e. split_and!; try done.
  rewrite <-list_fmap_compose. by apply matches_names in Hm.
Qed.

Lemma captures_name name ps : captures name ps = true → name ∈ capture_names ps.
Proof.
  unfold captures. rewrite existsb_exists. intros ([|n|] & Hin & Hn); try done. bool_simpl. subst.
  apply list_elem_of_omap. exists (Seg name). split; [by apply list_elem_of_In|done].
Qed.

Lemma refusal_sent status what : (status = 401 ∧ what = "authentication required" ∨ status = 404 ∧ what = "not found")%Z →
  _send float_repr (failure_response (HttpError status what)) = error_response status what.
Proof. intros [[-> ->]|[-> ->]]; by vm_compute. Qed.

(** C4. Without a session only the public routes answer; a caller who is no developer
    hears 404 for a run of somebody else exactly as for one that does not exist, on
    every route that names a run, and nothing changes but his session. *)
Theorem callers_isolated method target headers incoming body route found k :
  let '(path, query) := urlparse target in
  let request := MkRequest method path found (parse_qs query) headers body in
  _read_body incoming = Ok body → match_route method path kernel_routes = Some (route, found) →
  let '(who, k1) := _authenticate request k in
  (* asking who calls changes nothing but the session that is used *)
  same_but_sessions k k1 ∧
  (* nobody gets past the guard but to the public routes *)
  (who = Ok None → (method, path) ∉ PUBLIC_PATHS →
     kernel_handle method target headers incoming k = (error_response 401 "authentication required", k1)) ∧
  (* a caller that is no developer and asks for a run that is not his own, or not a run at
     all, hears the same and changes nothing *)
  ∀ s run_id, who = Ok (Some s) → as_developer s = false → names_run (rt_pieces route) request run_id →
    owner_of "run" run_id (k_identity k) ≠ Some (as_user_id s) →
    kernel_handle method target headers incoming k = (error_response 404 "not found", k1).
Proof.
  destruct (urlparse target) as [path query] eqn:Eu. cbv zeta. set (request := MkRequest _ _ _ _ _ _).
  intros Hb Hm. destruct (_authenticate request k) as [who k1] eqn:Ea.
  destruct (authenticate_effect _ _ _ _ Ea) as (Hsame & o & -> & Hdev).
  destruct (route_table_of _ _ _ _ Hm) as (e & He & Hp & Hh & Hnames).
  assert (∀ r k2, _guarded (snd e) request k = (r, k2) →
    kernel_handle method target headers incoming k
    = (_send float_repr (match r with Ok response => response | Err e => failure_response e end), k2)) as Hrun.
  { intros r k2 Hg. unfold KernelApi.kernel_handle, _handle, respond. rewrite Eu. rewrite bind_run.
    unfold lift. rewrite Hb, Hm. fold request. by rewrite Hh, Hg. }
  split; [done|]. split.
  - intros [= ->] Hpub. rewrite (Hrun (Err (HttpError 401 "authentication required")) k1).
    + rewrite refusal_sent; [done|by left].
    + unfold KernelApi._guarded. rewrite bind_run, Ea. unfold _is_public. by rewrite bool_decide_false.
  - intros s run_id [= ->] Hd Hn Ho. destruct (Hdev s eq_refl Hd) as (user & Hu & Hr).
    rewrite (Hrun (Err (HttpError 404 "not found")) k1).
    + rewrite refusal_sent; [done|by right].
    + unfold KernelApi._guarded. rewrite bind_run, Ea. rewrite Hp in Hn.
      apply (handler_refuses e request run_id s k1 user); try done.
      * intros Hc. apply captures_name in Hc. assert ("artifact_id" ∈ (fst <$> found)) as Hf.
        { rewrite Hnames, Hp. exact Hc. }
        destruct (param_given "artifact_id" request Hf) as [v ->]. done.
      * rewrite (sb_users _ _ Hsame). done.
      * by rewrite (owner_of_same k k1).
Qed.

(** ** Submission through the API *)

Local Abbreviation api_submit := (KernelApi.submit_run sha256 path_of parts host_path plain_path float_repr
  uuid clock config supports_limits machine registry local_user_id).
Local Abbreviation bind_owner := (bind_owner uuid clock local_user_id).

Lemma refuse_Ok {A} p status (m : st Kern A) k a k' : refuse p status m k = (Ok a, k') ↔ m k = (Ok a, k').
Proof using.
  unfold refuse, catch. destruct (m k) as [[x|e] k1]; [done|]. destruct (p e); split; intros; simplify_eq.
Qed.

Lemma know_run k r k1 : know uuid clock k = (r, k1) →
  kstore k1 = kstore k ∧ k_identity k1 = k_identity k ∧ k_uploads k1 = k_uploads k ∧ ∃ n, r = Ok n.
Proof. unfold know, kdraw, in_world, draw. cbn. intros [= <- <-]. split_and!; try done. by eexists. Qed.

Lemma bind_owner_Ok ty rid s k u k' : identity_ok (k_identity k) → as_user_id s ≠ EmptyString →
  bind_owner ty rid (Some s) k = (Ok u, k') →
  kstore k' = kstore k ∧ identity_ok (k_identity k') ∧ extends (k_identity k) (k_identity k') ∧
  owner_of ty rid (k_identity k') = Some (as_user_id s).
Proof.
  intros Hok Hne. unfold KernelApi.bind_owner. cbn [owner_id].
  destruct (as_user_id s) as [|c uid] eqn:Eu; [done|]. rewrite <-Eu in *. clear Hne.
  assert (str_empty (as_user_id s) = false) as -> by by rewrite Eu. clear c uid Eu. intros H.
  apply bind_st_Ok in H as (n & k1 & Hn & H). destruct (know_run _ _ _ Hn) as (Hs & Hi & _ & _).
  unfold in_identity in H. pose proof (bind_resource_run ty rid (as_user_id s) n (k_identity k1)) as Hb.
  rewrite Hi in Hb, H. specialize (Hb Hok). destruct (bind_resource _ _ _ _ _) as [r i].
  injection H as -> <-. cbn [k_identity]. change (kstore (MkKern (k_world k1) i (k_uploads k1))) with (kstore k1).
  split; [done|]. destruct Hb as [[-> Ho]|(_ & Hn' & Hok' & ->)].
  - split_and!; [done|done|]. by apply Ho.
  - split_and!; [done| |].
    + constructor; [done|]. simpl. by apply prefix_app_r.
    + unfold owner_of in *. simpl. rewrite fetchone_ins. destruct (fetchone _ _); [done|].
      unfold is_resource. simpl. by rewrite !bool_decide_true.
Qed.

Lemma bind_inputs_Ok s ds k u k' : identity_ok (k_identity k) → as_user_id s ≠ EmptyString →
  iterM_st (λ d, if is_null (if_input_id d) then mret tt
                 else bind_owner "input" (str_of (if_input_id d)) (Some s)) ds k = (Ok u, k') →
  kstore k' = kstore k ∧ identity_ok (k_identity k') ∧ extends (k_identity k) (k_identity k') ∧
  ∀ d, d ∈ ds → is_null (if_input_id d) = false →
    owner_of "input" (str_of (if_input_id d)) (k_identity k') = Some (as_user_id s).
Proof.
  intros Hok Hne H. unfold iterM_st in H. apply bind_st_Ok in H as (us & k1 & H & Hm).
  apply mret_st_Ok in Hm as [_ ->]. revert k us k1 Hok H.
  induction ds as [|d ds IH]; intros k us k1 Hok H; cbn [mapM_st] in H.
  - apply mret_st_Ok in H as [-> ->]. split_and!; try done. by intros ? ?%not_elem_of_nil.
  - apply bind_st_Ok in H as ([] & k2 & Hd & H). apply bind_st_Ok in H as (us' & k3 & H & Hm).
    apply mret_st_Ok in Hm as [-> ->].
    assert (kstore k2 = kstore k ∧ identity_ok (k_identity k2) ∧ extends (k_identity k) (k_identity k2) ∧
      (is_null (if_input_id d) = false → owner_of "input" (str_of (if_input_id d)) (k_identity k2) = Some (as_user_id s)))
      as (Hs2 & Hok2 & Hex2 & Ho2).
    { destruct (is_null (if_input_id d)); [by apply mret_st_Ok in Hd as [_ ->]|].
      destruct (bind_owner_Ok _ _ _ _ _ _ Hok Hne Hd) as (? & ? & ? & ?). by split_and!. }
    destruct (IH _ _ _ Hok2 H) as (Hs3 & Hok3 & Hex3 & Ho3). split_and!; [congruence|done|by etrans|].
    intros d' [->|Hin]%elem_of_cons Hnull; [|by apply Ho3]. eapply owner_kept; [exact Hex3|by apply Ho2].
Qed.

(** The resource is known, or the caller a developer, and the caller may have it. *)
Definition may_use (k : Kern) (s : AuthSession) (ty rid : string) : Prop :=
  (is_Some (owner_of ty rid (k_identity k)) ∨ as_developer s = true) ∧
  owns_resource ty rid (as_user_id s) true (k_identity k) = true.

Lemma require_ownership_Ok ty rid s k u k' : _require_ownership ty rid (Some s) k = (Ok u, k') →
  k' = k ∧ may_use k s ty rid.
Proof.
  unfold KernelApi._require_ownership, may_use. cbn [owner_id]. intros H.
  apply bind_st_Ok in H as (k0 & k1 & Hg & H). apply gets_Ok in Hg as [-> ->].
  apply bind_st_Ok in H as ([] & k1 & H1 & H). apply lift_Ok in H1 as [H1 ->]. apply lift_Ok in H as [H ->].
  apply raise_when_Ok in H1, H. apply negb_false_iff in H. split; [done|]. split; [|done].
  apply andb_false_iff in H1 as [H1|H1]; [left|right]; apply negb_false_iff in H1; [|done].
  by apply bool_decide_eq_true in H1.
Qed.

Lemma check_declaration_Ok s d k u k' :
  check_declaration plain_path config local_user_id (Some s) d k = (Ok u, k') →
  k' = k ∧ (is_null (if_input_id d) = false → may_use k s "input" (str_of (if_input_id d))) ∧
  (is_null (if_artifact_id d) = false →
     ∃ run_id, artifact_run_id (str_of (if_artifact_id d)) (kstore k) = Ok run_id ∧ may_use k s "run" run_id).
Proof.
  unfold check_declaration. intros H.
  apply bind_st_Ok in H as (k0 & k1 & Hg & H). apply gets_Ok in Hg as [-> ->]. unfold id in H.
  apply bind_st_Ok in H as ([] & k1 & H1 & H). apply lift_Ok in H1 as [_ ->].
  apply bind_st_Ok in H as ([] & k1 & H1 & H).
  assert (k1 = k ∧ (is_null (if_input_id d) = false → may_use k s "input" (str_of (if_input_id d)))) as [-> Hi].
  { destruct (is_null (if_input_id d)); [by apply mret_st_Ok in H1 as [_ ->]|].
    apply require_ownership_Ok in H1 as [-> ?]. done. }
  destruct (is_null (if_artifact_id d)); [apply mret_st_Ok in H as [_ ->]; by split_and!|].
  apply bind_st_Ok in H as (run_id & k1 & Hr & H). apply refuse_Ok, lift_Ok in Hr as [Hr ->].
  apply require_ownership_Ok in H as [-> ?]. split_and!; [done|done|]. intros _. by exists run_id.
Qed.

Lemma check_declarations_Ok s ds k u k' :
  iterM_st (check_declaration plain_path config local_user_id (Some s)) ds k = (Ok u, k') →
  k' = k ∧ ∀ d, d ∈ ds →
    (is_null (if_input_id d) = false → may_use k s "input" (str_of (if_input_id d))) ∧
    (is_null (if_artifact_id d) = false →
       ∃ run_id, artifact_run_id (str_of (if_artifact_id d)) (kstore k) = Ok run_id ∧ may_use k s "run" run_id).
Proof.
  intros H. unfold iterM_st in H. apply bind_st_Ok in H as (us & k1 & H & Hm). apply mret_st_Ok in Hm as [_ ->].
  revert us k1 H. induction ds as [|d ds IH]; intros us k1 H; cbn [mapM_st] in H.
  - apply mret_st_Ok in H as [_ ->]. split; [done|]. by intros ? ?%not_elem_of_nil.
  - apply bind_st_Ok in H as ([] & k2 & Hd & H). apply bind_st_Ok in H as (us' & k3 & H & Hm).
    apply mret_st_Ok in Hm as [_ ->]. apply check_declaration_Ok in Hd as [-> Hd].
    destruct (IH _ _ H) as [-> Hall]. split; [done|]. intros d' [->|Hin]%elem_of_cons; [done|by apply Hall].
Qed.

(** What the runtime resolves is what the task names. *)
Lemma submit_resolves `{ManifestResolver} task pv capability idem key w rec w' :
  submit sha256 path_of parts host_path float_repr uuid clock config supports_limits
    task pv capability idem key w = (Ok rec, w') →
  ∃ m, resolve_manifest (t_plugin_id task) (py_or pv (t_plugin_version task)) capability = Ok m.
Proof.
  unfold submit. intros Hs. apply bind_st_Ok in Hs as ([] & w1 & _ & Hs).
  apply bind_st_Ok in Hs as ([] & w2 & _ & Hs). apply bind_st_Ok in Hs as (task' & w3 & Hf & Hs).
  assert (t_plugin_id task' = t_plugin_id task ∧ t_plugin_version task' = t_plugin_version task) as [Hid Hv].
  { unfold _freeze_host_inputs in Hf. apply bind_st_Ok in Hf as (fr & w4 & _ & Hf).
    by destruct (omap snd fr); apply mret_st_Ok in Hf as [-> _]. }
  apply bind_st_Ok in Hs as (w4 & w5 & _ & Hs). apply bind_st_Ok in Hs as (dg & w6 & _ & Hs).
  apply bind_st_Ok in Hs as ([] & w7 & _ & Hs). apply bind_st_Ok in Hs as ([] & w8 & _ & Hs).
  apply bind_st_Ok in Hs as ([] & w9 & _ & Hs). apply bind_st_Ok in Hs as (m & w10 & Hm & _).
  apply lift_Ok in Hm as [Hm _]. exists m. simpl in Hm. by rewrite Hid, Hv in Hm.
Qed.

Lemma in_world_Ok {A} (m : st World A) k a k' : in_world m k = (Ok a, k') →
  m (k_world k) = (Ok a, k_world k') ∧ k_identity k' = k_identity k ∧ k_uploads k' = k_uploads k.
Proof. unfold in_world. destruct (m (k_world k)) as [r w]. intros [= -> <-]. done. Qed.

Lemma run_detail_Ok run_id k v k' : _run_detail config run_id k = (Ok v, k') →
  k' = k ∧ ∃ d waits, run_detail run_id (kstore k) = Ok d ∧ waiting_for config run_id (kstore k) = Ok waits ∧
    v = JObj (dict_set "waiting_for" (waiting_text waits) d).
Proof.
  unfold _run_detail. intros H. apply bind_st_Ok in H as (k0 & k1 & Hg & H). apply gets_Ok in Hg as [-> ->].
  apply bind_st_Ok in H as (d & k1 & Hd & H). apply lift_Ok in Hd as [Hd ->].
  apply bind_st_Ok in H as (ws & k1 & Hw & H). apply lift_Ok in Hw as [Hw ->].
  apply mret_st_Ok in H as [-> ->]. split; [done|]. by exists d, ws.
Qed.

(** C5. A submission answered with 201 runs a plugin the registry admits for this
    machine, names only inputs and artifacts its caller may use, and leaves the run
    and everything it stages, frozen host files included, owned by the caller. *)
Theorem submission_owned request s k response k' :
  identity_ok (k_identity k) → as_user_id s ≠ EmptyString →
  api_submit request (Some s) k = (Ok response, k') →
  ∃ body payload task manifest run view waits,
    (* the task of the body, of a plugin the registry lets run on this machine *)
    req_body request = Doc (JObj body) ∧ get_null "task" body = JObj payload ∧
    TaskSpec_from_dict (JObj payload) = Ok task ∧
    Registry.resolve registry (t_plugin_id task) (py_or JNull (t_plugin_version task)) None
      (Some machine) true = Ok manifest ∧
    (* names no input and no run's artifact the caller may not use *)
    (∀ d, d ∈ t_staged_inputs task →
      (is_null (if_input_id d) = false → may_use k s "input" (str_of (if_input_id d))) ∧
      (is_null (if_artifact_id d) = false → ∃ source,
         artifact_run_id (str_of (if_artifact_id d)) (kstore k) = Ok source ∧ may_use k s "run" source)) ∧
    (* the run and whatever it stages, host files frozen at submission included, are his *)
    owner_of "run" (rec_run_id run) (k_identity k') = Some (as_user_id s) ∧
    (∀ d, d ∈ t_staged_inputs (rec_task_spec run) → is_null (if_input_id d) = false →
      owner_of "input" (str_of (if_input_id d)) (k_identity k') = Some (as_user_id s)) ∧
    (* and the answer shows that run as it is stored *)
    run_detail (rec_run_id run) (kstore k') = Ok view ∧
    waiting_for config (rec_run_id run) (kstore k') = Ok waits ∧
    response = json_response (JObj [("run", JObj (dict_set "waiting_for" (waiting_text waits) view))]) 201.
Proof.
  intros Hok Hne H. unfold KernelApi.submit_run in H.
  apply bind_st_Ok in H as (body & k1 & Hb & H). apply lift_Ok in Hb as [Hb ->].
  assert (req_body request = Doc (JObj body)) as Hbody.
  { unfold _object in Hb. destruct (req_body request) as [| |[]]; try done. by injection Hb as ->. }
  apply bind_st_Ok in H as (p & k1 & Hp & H).
  destruct (get_null "task" body) as [| | | | | |payload] eqn:Ep; try done.
  apply mret_st_Ok in Hp as [-> ->].
  apply bind_st_Ok in H as (task & k1 & Ht & H). apply refuse_Ok, lift_Ok in Ht as [Ht ->].
  apply bind_st_Ok in H as ([] & k1 & Hc & H). apply check_declarations_Ok in Hc as [-> Hc]. cbv zeta in H.
  apply bind_st_Ok in H as (run & k1 & Hs & H). apply refuse_Ok, refuse_Ok, in_world_Ok in Hs as (Hs & Hi & _).
  apply submit_resolves in Hs as (manifest & Hm).
  apply bind_st_Ok in H as ([] & k2 & Ho & H). rewrite <-Hi in Hok.
  destruct (bind_owner_Ok _ _ _ _ _ _ Hok Hne Ho) as (_ & Hok2 & _ & Hown).
  apply bind_st_Ok in H as ([] & k3 & Hin & H).
  destruct (bind_inputs_Ok _ _ _ _ _ Hok2 Hne Hin) as (_ & _ & Hex & Hinputs).
  apply bind_st_Ok in H as (detail & k4 & Hd & H). apply run_detail_Ok in Hd as (-> & view & waits & Hv & Hw & ->).
  apply mret_st_Ok in H as [-> ->].
  exists body, payload, task, manifest, run, view, waits. split_and!; try done. by eapply owner_kept.
Qed.

(** ** Listings *)

Lemma index_runs_Ok f limit offset s l : store_ok s → index_runs f limit offset s = Ok l →
  ∃ wanted, wanted_status f = Ok wanted ∧ (1 ≤ limit ≤ MAX_RUN_LIMIT)%Z ∧ (0 ≤ offset)%Z ∧
    l = _summary s <$> take (Z.to_nat limit) (drop (Z.to_nat offset) (matching_runs f wanted s)).
Proof using.
  intros Hok H. pose proof H as Hl. unfold index_runs in Hl.
  apply bind_Ok in Hl as ([] & H1%raise_when_Ok & Hl). apply bind_Ok in Hl as ([] & H2%raise_when_Ok & Hl).
  apply bind_Ok in Hl as (wanted & Hw & _). exists wanted.
  apply negb_false_iff, andb_true_iff in H1 as [Ha%Z.leb_le Hb%Z.leb_le]. apply Z.ltb_ge in H2.
  split_and!; try done. rewrite (index_runs_spec f wanted) in H by done. by injection H as <-.
Qed.

(** The listing of a caller who is no developer is a page of exactly the stored runs
    he owns that pass his filters, each once. *)
Theorem listing_isolated request s k response k' :
  store_ok (kstore k) → identity_ok (k_identity k) → as_developer s = false →
  KernelApi.list_runs request (Some s) k = (Ok response, k') →
  k' = k ∧ ∃ wanted limit offset mine,
    (* a page of the caller's own runs, each in the state the store has it *)
    response = json_response (JObj [("runs", JList (summary_json <$>
      (_summary (kstore k) <$> take limit (drop offset mine))))]) 200 ∧
    (Z.of_nat limit ≤ MAX_RUN_LIMIT)%Z ∧
    NoDup (rec_run_id <$> mine) ∧
    ∀ run, run ∈ mine ↔
      get_run (rec_run_id run) (kstore k) = Ok run ∧
      owner_of "run" (rec_run_id run) (k_identity k) = Some (as_user_id s) ∧
      rejected (MkRunFilter (q "project_id" request) (q "design_id" request) (q "plugin_id" request)
                  (q "status" request) None) wanted run = false.
Proof using.
  intros Hok Hi Hd H. unfold KernelApi.list_runs in H.
  apply bind_st_Ok in H as (limit & k1 & Hl & H). apply lift_Ok in Hl as [_ ->].
  apply bind_st_Ok in H as (offset & k1 & Ho & H). apply lift_Ok in Ho as [_ ->].
  apply bind_st_Ok in H as (k0 & k1 & Hg & H). apply gets_Ok in Hg as [-> ->]. unfold id in H.
  apply bind_st_Ok in H as (l & k1 & Hr & H). apply refuse_Ok, lift_Ok in Hr as [Hr ->].
  apply mret_st_Ok in H as [-> ->]. split; [reflexivity|].
  apply index_runs_Ok in Hr as (wanted & Hw & Hlim & _ & ->); [|done].
  eexists wanted, _, _, (matching_runs _ wanted (kstore k)). split; [reflexivity|]. split; [lia|].
  split; [eapply sublist_NoDup; [|apply matching_ids_sublist]; by apply newest_first_nodup|].
  intros run. rewrite matching_runs_elem. unfold visible_runs. rewrite Hd. unfold not_owned. simpl.
  rewrite negb_false_iff, bool_decide_eq_true, (resources_owned_elem _ _ _ _ Hi).
  clear. split; intros (H1 & H2 & H3); by split_and!.
Qed.
End api.

(** ** A kernel on this machine *)

(** The stored bytes have the digest their record names, and the tokens two digests. *)
Definition served_hash (t : string) : string :=
  if bool_decide (t = "token-b") then repeated 64 "b"
  else if bool_decide (t = demo_bytes) then "0a" else demo_sha256 t.
Definition served_accounts : list identity_op :=
  demo_accounts ++ [BindResource "run" "run-r1" "user-0a" 400].
Definition served_identity : IdentityDb := run_ops served_hash demo_pbkdf2 served_accounts empty_identity.
Definition served_registry : PluginRegistry :=
  match demo_registry with Ok registry => registry | Err _ => [] end.
Definition served : Kern :=
  MkKern (MkWorld (MkCustody demo_evidence {["0a" := demo_bytes]} ∅)
    {[["data"; "in.v"] := "module m"]}
    (MkObserver "run-r1" "stage-g1" "attempt-a1" "@@" "runtime" [] [] 0) 0 0) served_identity ∅.

Definition served_uuid (n : nat) : string := pretty n.
Definition served_clock (n : nat) : Z := Z.of_nat n.
Definition served_handle : string → string → list (string * string) → Incoming → Kern → Response * Kern :=
  KernelApi.kernel_handle served_hash demo_pbkdf2 path_resolve demo_split demo_host_path demo_host_path
    (λ _, "0.0") (λ s, s) (λ s, s) demo_archive served_uuid served_uuid served_uuid served_clock
    demo_config true "x86_64" served_registry false None None.

Definition ben_calls : list (string * string) := [("Authorization", "Bearer token-b")].

Lemma served_store_ok : store_ok (kstore served).
Proof. exact demo_evidence_ok. Qed.
Lemma served_identity_ok : identity_ok (k_identity served).
Proof. exact (proj1 (run_ops_ok served_hash demo_pbkdf2 served_accounts empty_identity empty_identity_ok)). Qed.

Lemma requests_by_operations_witness :
  let k' := snd (served_handle "POST" "/kernel/runs/run-r1/cancel" [("authorization", "Bearer token-a")] Absent served) in
  r_status <$> runs (kstore k') = [CANCEL_REQUESTED] ∧ store_ok (kstore k') ∧
  owner_of "run" "run-1" (k_identity k') = Some "user-0b".
Proof.
  cbv zeta. split; [vm_compute; reflexivity|].
  destruct (requests_by_operations served_hash demo_pbkdf2 path_resolve demo_split demo_host_path demo_host_path
    (λ _, "0.0") (λ s, s) (λ s, s) demo_archive served_uuid served_uuid served_uuid served_clock
    demo_config true "x86_64" served_registry false None None
    "POST" "/kernel/runs/run-r1/cancel" [("authorization", "Bearer token-a")] Absent served
    served_store_ok served_identity_ok) as (_ & _ & Hs & _ & _ & Ho).
  split; [exact Hs|]. apply Ho. vm_compute. reflexivity.
Defined.


Definition served_routes : list (Route Kern) :=
  KernelApi.kernel_routes served_hash demo_pbkdf2 path_resolve demo_split demo_host_path demo_host_path
    (λ _, "0.0") (λ s, s) (λ s, s) demo_archive served_uuid served_uuid served_uuid served_clock
    demo_config true "x86_64" served_registry false None None.

(** A run of Ana's, asked for by Ben. *)
Lemma callers_isolated_witness : ∃ k1,
  served_handle "GET" "/kernel/runs/run-r1" [("authorization", "Bearer token-b")] Absent served
    = (error_response 404 "not found", k1) ∧ same_but_sessions served k1.
Proof.
  destruct (match_route "GET" "/kernel/runs/run-r1" served_routes) as [[[m ps h] found]|] eqn:Em;
    pose proof (f_equal (option_map (λ x, (rt_pieces (fst x), snd x))) Em) as Hm; vm_compute in Hm;
    [injection Hm as Hp Hf|discriminate Hm].
  pose proof (callers_isolated served_hash demo_pbkdf2 path_resolve demo_split demo_host_path demo_host_path
    (λ _, "0.0") (λ s, s) (λ s, s) demo_archive served_uuid served_uuid served_uuid served_clock
    demo_config true "x86_64" served_registry false None None
    "GET" "/kernel/runs/run-r1" [("authorization", "Bearer token-b")] Absent NoBody (MkRoute m ps h) found served
    eq_refl Em) as H.
  destruct (KernelApi._authenticate _ _ _ _ _ _ served) as [who k1] eqn:Ea.
  assert (∃ s, who = Ok (Some s) ∧ as_developer s = false ∧ as_user_id s = "user-0b") as (s & Hw & Hd & Hu).
  { pose proof (f_equal fst Ea) as Hw. vm_compute in Hw. rewrite <-Hw. eexists. vm_compute. repeat split. }
  destruct H as (Hs & _ & H). exists k1. split; [|exact Hs].
  apply (H s "run-r1" Hw Hd).
  - left. rewrite <-Hp, <-Hf. vm_compute. split; reflexivity.
  - rewrite Hu. vm_compute. discriminate.
Defined.

(** Ben submits a file of the host. *)
Definition ben : AuthSession := MkAuthSession "user-0b" "ben" false "session-b1".
Definition host_task (source : string) : TaskSpec :=
  MkTaskSpec (JStr "task-2") (JStr "project") (JStr "design") JNull JNull JNull
    (JStr "yosys") JNull (JObj []) (JObj [])
    [MkInputFile (JStr "in.v") (JStr source) JNull JNull (JBool false)] None
    (JInt 60) (JInt 1) [] (JObj []) (JInt 3).
Definition submission (source : string) : Request :=
  MkRequest "POST" "/kernel/runs" [] [] []
    (Doc (JObj [("task", match TaskSpec_to_dict (host_task source) with Ok d => JObj d | Err _ => JNull end)])).
Definition served_submit (source : string) : result Response * Kern :=
  KernelApi.submit_run served_hash path_resolve demo_split demo_host_path demo_host_path
    (λ _, "0.0") served_uuid served_clock demo_config true "x86_64" served_registry None
    (submission source) (Some ben) served.

(** Without input roots a shared session uploads its inputs. *)
Example host_file_refused :
  fst (served_submit "/data/in.v") = Err (HttpError 400 "shared sessions must upload inputs") ∧
  is_Ok (fst (served_submit "/data/late.v")) = true.
Proof. split_and!; vm_compute; reflexivity. Qed.

Lemma submission_owned_witness : ∃ response k' run,
  served_submit "/data/late.v" = (Ok response, k') ∧ resp_status response = 201%Z ∧
  owner_of "run" run (k_identity k') = Some "user-0b".
Proof.
  destruct (served_submit "/data/late.v") as [[response|e] k'] eqn:E; pose proof (f_equal fst E) as Hf;
    [|exfalso; vm_compute in Hf; discriminate Hf].
  destruct (submission_owned served_hash path_resolve demo_split demo_host_path demo_host_path
    (λ _, "0.0") served_uuid served_clock demo_config true "x86_64" served_registry None
    (submission "/data/late.v") ben served response k' served_identity_ok ltac:(discriminate) E)
    as (body & payload & task & manifest & run & view & waits & _ & _ & _ & _ & _ & Hr & _ & _ & _ & ->).
  eexists _, k', (rec_run_id run). split_and!; [reflexivity|reflexivity|exact Hr].
Defined.

Lemma listing_isolated_witness : ∃ response,
  KernelApi.list_runs (MkRequest "GET" "/kernel/runs" [] [] [] NoBody) (Some ben) served = (Ok response, served) ∧
  resp_body response = Doc (JObj [("runs", JList [])]).
Proof.
  destruct (KernelApi.list_runs (MkRequest "GET" "/kernel/runs" [] [] [] NoBody) (Some ben) served)
    as [[response|e] k'] eqn:E; pose proof (f_equal fst E) as Hf; vm_compute in Hf; [|discriminate Hf].
  destruct (listing_isolated (MkRequest "GET" "/kernel/runs" [] [] [] NoBody) ben served response k'
    served_store_ok served_identity_ok eq_refl E) as (-> & _).
  exists response. split; [reflexivity|]. injection Hf as <-. reflexivity.
Defined.
