(* ===== verification/ClientProps.v ===== *)
(** * The client and the service together

    Every path the client builds is the path of its own handler, with its own
    parameters; a download through the kernel gives the registered bytes and ends. *)

From stdpp Require Import gmap pretty.
From S2P Require Export KernelApiProps RuntimeProps Client.
Open Scope string_scope.
Open Scope list_scope.

(** ** Targets *)

Definition path_char (c : ascii) : bool := negb (one_of "#?;" c).

Lemma cut_none c s : str_forall (λ d, negb (bool_decide (d = c))) s = true → cut c s = (s, EmptyString).
Proof.
  induction s as [|d s IH]; intros H; [done|]. simpl in H. apply andb_true_iff in H as [Hd H].
  apply negb_true_iff in Hd. simpl. by rewrite Hd, (IH H).
Qed.
Lemma cut_at c s t : str_forall (λ d, negb (bool_decide (d = c))) s = true →
  cut c (s +:+ String c t) = (s, t).
Proof.
  induction s as [|d s IH]; intros H; [rewrite str_app_nil; simpl; by rewrite bool_decide_true|].
  simpl in H. apply andb_true_iff in H as [Hd H]. apply negb_true_iff in Hd. rewrite str_app_cons. simpl.
  by rewrite Hd, (IH H).
Qed.

Lemma drop_params_id s : str_forall path_char s = true → drop_params s = s.
Proof.
  induction s as [|c s IH]; [done|]. intros [Hc H]%andb_true_iff. simpl. rewrite (IH H).
  rewrite (bool_decide_false (c = ";"%char)); [done|]. by intros ->.
Qed.

Lemma urlencode_chars pairs : str_forall (λ d, negb (bool_decide (d = "#"%char))) (urlencode pairs) = true.
Proof.
  unfold urlencode. induction pairs as [|[k v] l IH]; [done|].
  assert (∀ x, str_forall (λ d, negb (bool_decide (d = "#"%char))) (quote_plus x) = true) as Hq.
  { clear. intros x. induction x as [|c x IH]; [done|]. simpl quote_plus. rewrite str_forall_app, IH, andb_true_r.
    by destruct c as [[] [] [] [] [] [] [] []]. }
  destruct l as [|p l]; simpl; rewrite !str_forall_app, !Hq; [done|]. simpl. exact IH.
Qed.

Lemma path_without (c : ascii) s : one_of "#?;" c = true → str_forall path_char s = true →
  str_forall (λ d, negb (bool_decide (d = c))) s = true.
Proof.
  intros Hc. apply str_forall_impl. intros d Hd. apply negb_true_iff, bool_decide_eq_false. intros ->.
  unfold path_char in Hd. by rewrite Hc in Hd.
Qed.

(** The service reads the path and the query the client wrote. *)
Lemma urlparse_call path query : str_forall path_char path = true →
  urlparse (path +:+ query_string query)
  = (path, urlencode (kv ← query; map (pair (fst kv)) (snd kv))).
Proof.
  intros Hp. unfold urlparse, query_string. destruct (kv ← query; map (pair (fst kv)) (snd kv)) as [|p l] eqn:E.
  - rewrite str_app_end, (cut_none "#") by (by apply path_without). simpl.
    rewrite cut_none by (by apply path_without). by rewrite (drop_params_id path).
  - rewrite (cut_none "#").
    + cbn [fst]. change ("?" +:+ urlencode (p :: l)) with (String "?" (urlencode (p :: l))).
      rewrite cut_at by (by apply path_without). by rewrite (drop_params_id path).
    + rewrite str_forall_app, path_without by done. rewrite str_forall_app, urlencode_chars. done.
Qed.

Lemma url_quote_path v : str_forall path_char (url_quote v) = true.
Proof. eapply str_forall_impl; [|apply url_quote_chars]. by intros [[] [] [] [] [] [] [] []]. Qed.

(** ** Addresses *)

(** A path of literal text and quoted ids against a template. *)
Ltac known_text :=
  match goal with
  | |- context [strip_both ?p ?q] =>
      let x := eval vm_compute in (strip_both p q) in
      change (strip_both p q) with x; cbv iota
  end.
Ltac against_template :=
  repeat first
    [ progress change (EmptyString +:+ ?s) with s
    | rewrite lit_known; known_text
    | rewrite end_known by done
    | rewrite seg_lit_known by done
    | rewrite seg_end_known by done
    | rewrite seg_lit by done
    | rewrite seg_end_no by done
    | rewrite seg_lit_end by done
    | rewrite seg_end by done ].

(** What the client asks for, the route meant, and the parameters it is to find. *)
Definition client_calls (run_id artifact_id design_id : string)
    : list (string * string * string * list (string * string)) :=
  let run (method suffix template : string) := (method, run_path run_id +:+ suffix, template, [("run_id", run_id)]) in
  let artifact (what template : string) :=
    ("GET", artifact_path run_id artifact_id what, template, [("run_id", run_id); ("artifact_id", artifact_id)]) in
  [("GET", run_path run_id, "/kernel/runs/{run_id}", [("run_id", run_id)]);
   run "POST" "/cancel" "/kernel/runs/{run_id}/cancel";
   run "POST" "/retry" "/kernel/runs/{run_id}/retry";
   run "POST" "/bundle" "/kernel/runs/{run_id}/bundle";
   run "GET" "/metrics" "/kernel/runs/{run_id}/metrics";
   run "GET" "/artifacts" "/kernel/runs/{run_id}/artifacts";
   run "GET" "/timeline" "/kernel/runs/{run_id}/timeline";
   run "GET" "/resources" "/kernel/runs/{run_id}/resources";
   run "GET" "/logs" "/kernel/runs/{run_id}/logs";
   artifact "/excerpt" "/kernel/runs/{run_id}/artifacts/{artifact_id}/excerpt";
   artifact "/download" "/kernel/runs/{run_id}/artifacts/{artifact_id}/download";
   artifact "/chunk" "/kernel/runs/{run_id}/artifacts/{artifact_id}/chunk";
   ("GET", "/kernel/designs/" +:+ _seg design_id +:+ "/tree", "/kernel/designs/{design_id}/tree",
    [("design_id", design_id)])].

(** The templates of a method that match a path. *)
Definition templates_for (method path : string) (table : list (string * string)) : list (string * string) :=
  List.filter (λ e, bool_decide (fst e = method) && bool_decide (is_Some (match_pieces (template (snd e)) path))) table.

Definition kernel_templates : list (string * string) :=
  [("GET", "/kernel/health"); ("POST", "/kernel/auth/register"); ("POST", "/kernel/auth/login");
   ("GET", "/kernel/auth/session"); ("POST", "/kernel/auth/logout"); ("GET", "/kernel/plugins");
   ("POST", "/kernel/inputs"); ("POST", "/kernel/inputs/chunk"); ("POST", "/kernel/runs");
   ("GET", "/kernel/runs"); ("GET", "/kernel/runs/{run_id}"); ("GET", "/kernel/designs/{design_id}/tree");
   ("POST", "/kernel/runs/{run_id}/cancel"); ("POST", "/kernel/runs/{run_id}/retry");
   ("POST", "/kernel/runs/{run_id}/bundle"); ("GET", "/kernel/runs/{run_id}/metrics");
   ("GET", "/kernel/runs/{run_id}/artifacts"); ("GET", "/kernel/runs/{run_id}/timeline");
   ("GET", "/kernel/runs/{run_id}/resources"); ("GET", "/kernel/runs/{run_id}/logs");
   ("GET", "/kernel/runs/{run_id}/artifacts/{artifact_id}/excerpt");
   ("GET", "/kernel/runs/{run_id}/artifacts/{artifact_id}/download");
   ("GET", "/kernel/runs/{run_id}/artifacts/{artifact_id}/chunk"); ("GET", "/kernel/graph")].

Ltac known_template :=
  match goal with
  | |- context [template ?t] =>
      let x := eval vm_compute in (template t) in change (template t) with x
  end.

Lemma only_template run_id artifact_id design_id call e :
  run_id ≠ EmptyString → artifact_id ≠ EmptyString → design_id ≠ EmptyString →
  call ∈ client_calls run_id artifact_id design_id → e ∈ kernel_templates →
  fst e = fst (fst (fst call)) →
  match_pieces (template (snd e)) (snd (fst (fst call))) =
    if bool_decide (snd e = snd (fst call)) then Some (prod_map id url_quote <$> snd call) else None.
Proof.
  intros Hr%whole_quote Ha%whole_quote Hd%whole_quote Hc He.
  unfold client_calls, artifact_path, run_path, _seg in Hc. rewrite ?str_app_assoc in Hc.
  unfold kernel_templates in He. intros Hm.
  repeat (apply elem_of_cons in Hc as [->|Hc]; [|]); [..|by apply not_elem_of_nil in Hc].
  all: repeat (apply elem_of_cons in He as [->|He]; [|]); [..|by apply not_elem_of_nil in He].
  all: cbn [fst snd] in *; try discriminate Hm; clear Hm; known_template; against_template.
  all: try reflexivity.
Qed.

Section service.
Context (sha256 : string → string) (pbkdf2 : string → string → Z → string).
Context (path_of : list string → string → list string).
Context (parts host_path plain_path : string → list string).
Context (float_repr : spec_float → string) (py_repr utf8 : string → string).
Context (zip : list Member → string).
Context (uuid token salt : nat → string) (clock : nat → Z).
Context (config : RuntimeConfig) (supports_limits : bool) (machine : string).
Context (registry : PluginRegistry).
Context (allow_anonymous : bool) (local_user_id evaluator_error : option string).

Local Abbreviation kernel_handle := (kernel_handle sha256 pbkdf2 path_of parts host_path plain_path float_repr
  py_repr utf8 zip uuid token salt clock config supports_limits machine registry allow_anonymous
  local_user_id evaluator_error).
Local Abbreviation route_table := (route_table sha256 pbkdf2 path_of parts host_path plain_path float_repr
  py_repr utf8 zip uuid token salt clock config supports_limits machine registry
  local_user_id evaluator_error).
Local Abbreviation kernel_routes := (kernel_routes sha256 pbkdf2 path_of parts host_path plain_path float_repr
  py_repr utf8 zip uuid token salt clock config supports_limits machine registry allow_anonymous
  local_user_id evaluator_error).
Local Abbreviation _guarded := (_guarded sha256 uuid clock allow_anonymous local_user_id).

Definition route_of (e : string * string * api_handler) : Route Kern :=
  MkRoute (fst (fst e)) (template (snd (fst e))) (_guarded (snd e)).

Lemma table_templates : fst <$> route_table = kernel_templates.
Proof. reflexivity. Qed.
Lemma templates_nodup : NoDup kernel_templates.
Proof. eapply bool_decide_unpack. vm_compute. exact I. Qed.

Lemma in_routes e : e ∈ route_table → route_of e ∈ kernel_routes.
Proof.
  intros He. unfold KernelApi.kernel_routes, register_routes. rewrite fold_add. apply elem_of_app. right.
  change (map ?f ?l) with (f <$> l). by apply (list_elem_of_fmap_2 route_of).
Qed.

Lemma call_addressed run_id artifact_id design_id method path text params :
  run_id ≠ EmptyString → artifact_id ≠ EmptyString → design_id ≠ EmptyString →
  (method, path, text, params) ∈ client_calls run_id artifact_id design_id →
  ∃ e, e ∈ route_table ∧ fst e = (method, text) ∧
    match_route method path kernel_routes = Some (route_of e, params) ∧
    ∀ e', e' ∈ route_table → serves method path (route_of e') → e' = e.
Proof.
  intros Hr Ha Hd Hc. pose proof (λ e, only_template _ _ _ _ e Hr Ha Hd Hc) as Hone. cbn [fst snd] in Hone.
  assert ((method, text) ∈ kernel_templates) as He.
  { clear -Hc. unfold client_calls in Hc.
    repeat (apply elem_of_cons in Hc as [Hc|Hc]; [injection Hc as -> _ -> _; by eapply bool_decide_unpack; vm_compute|]).
    by apply not_elem_of_nil in Hc. }
  pose proof He as Hin. rewrite <-table_templates in Hin. apply list_elem_of_fmap in Hin as (e & Hfe & Hin).
  symmetry in Hfe. exists e. split; [done|]. split; [done|].
  assert (∀ e', e' ∈ route_table → fst (fst e') = method → match_pieces (template (snd (fst e'))) path ≠ None → e' = e)
    as Hu.
  { intros e' Hin' Hm Hne. assert (fst e' ∈ kernel_templates) as Ht
      by (rewrite <-table_templates; by apply list_elem_of_fmap_2).
    rewrite (Hone (fst e') Ht Hm) in Hne. case_bool_decide as Htext; [|done].
    apply (key_inj fst route_table); [rewrite table_templates; apply templates_nodup|done|done|].
    rewrite Hfe. destruct (fst e'). simpl in *. congruence. }
  split.
  - rewrite (match_route_only method path kernel_routes (route_of e) (prod_map id url_quote <$> params)).
    + f_equal. f_equal. rewrite <-list_fmap_compose. rewrite <-(list_fmap_id params) at 2.
      apply list_fmap_ext. intros _ [k v] _. simpl. by rewrite unquote_quote.
    + by apply in_routes.
    + unfold route_matches. simpl. rewrite Hfe. simpl. rewrite bool_decide_true by done.
      pose proof (Hone (method, text) He eq_refl) as H1. simpl in H1. by rewrite bool_decide_true in H1.
    + intros r' Hr' Hne. apply kernel_routes_table in Hr' as (e' & Hin' & ->). unfold route_matches in Hne. simpl in Hne.
      case_bool_decide as Hm; [|done]. by rewrite (Hu e' Hin' Hm Hne).
  - intros e' Hin' [Hm (raw & Hraw)]. apply (Hu e' Hin' Hm).
    apply match_pieces_complete in Hraw. exact Hraw.
Qed.

(** Whatever characters the ids have, every path the client builds for a run, an
    artifact or a design is served by exactly one route of the kernel, the one meant,
    and with the ids the client was given. *)
Theorem client_addresses run_id artifact_id design_id method path text params :
  run_id ≠ EmptyString → artifact_id ≠ EmptyString → design_id ≠ EmptyString →
  (method, path, text, params) ∈ client_calls run_id artifact_id design_id →
  ∃ e, e ∈ route_table ∧ fst e = (method, text) ∧
    (* the path the client builds is found to be that route's, with the client's values *)
    match_route method path kernel_routes = Some (route_of e, params) ∧
    (* and no other route of the method serves it *)
    ∀ e', e' ∈ route_table → serves method path (route_of e') → e' = e.
Proof. apply call_addressed. Qed.

(** ** A session that lasts *)

(** The session [s] of the token [t] is open, and still is at the next [m] readings of
    the kernel's clock. *)
Record signed (m : nat) (s : AuthSession) (t : string) (k : Kern) : Prop := {
  sg_identity : identity_ok (k_identity k);
  sg_granted : ∃ created, granted sha256 s t created (k_identity k) ∧
    ∀ i, (i < m)%nat → (clock (World.draws (k_world k) + i)%nat < created + SESSION_SECONDS)%Z }.

(** Readings that were made are not ahead any more. *)
Lemma signed_later d m s t k k' : k_identity k' = k_identity k →
  World.draws (k_world k') = (World.draws (k_world k) + d)%nat → signed (d + m) s t k → signed m s t k'.
Proof.
  intros Hi Hd [Hok (created & Hg & Hc)]. split; rewrite Hi; [done|]. exists created. split; [done|].
  intros i Hm. rewrite Hd, <-Nat.add_assoc. apply Hc. lia.
Qed.
Lemma signed_fewer m' m s t k : (m' ≤ m)%nat → signed m s t k → signed m' s t k.
Proof. intros Hle [Hok (created & Hg & Hc)]. split; [done|]. exists created. split; [done|]. intros i Hi. apply Hc. lia. Qed.

(** What a request leaves as it was. *)
Record same_world (k k' : Kern) : Prop := {
  sw_cust : cust (k_world k') = cust (k_world k);
  sw_files : host_files (k_world k') = host_files (k_world k);
  sw_rest : same_but_sessions k k' }.

#[local] Instance same_world_preorder : PreOrder same_world.
Proof.
  split; [by intros k|]. intros k1 k2 k3 [H1 H2 []] [H3 H4 []]. split; [congruence|congruence|].
  split; congruence.
Qed.

Lemma may_use_same k k' s ty rid : same_world k k' → may_use k s ty rid → may_use k' s ty rid.
Proof.
  intros [_ _ H]. unfold may_use, owns_resource. rewrite (owner_of_same k k' _ _ H). by destruct H as [_ _ -> _ _].
Qed.

Lemma authenticate_signed m s t k request : signed (S m) s t k → t ≠ EmptyString → bearer_token request = Some t →
  ∃ k', KernelApi._authenticate sha256 uuid clock allow_anonymous local_user_id request k = (Ok (Some s), k') ∧
    signed m s t k' ∧ same_world k k' ∧ World.draws (k_world k') = S (World.draws (k_world k)).
Proof.
  intros [Hok (created & Hg & Hc)] Hne Hb. pose proof (Hc 0%nat ltac:(lia)) as Hc0. rewrite Nat.add_0_r in Hc0. unfold KernelApi._authenticate. rewrite Hb.
  set (k1 := MkKern (ticked (k_world k)) (k_identity k) (k_uploads k)).
  assert (know uuid clock k = (Ok (clock (World.draws (k_world k))), k1)) as Hknow by reflexivity.
  rewrite bind_run, bind_run, Hknow. unfold in_identity. change (k_identity k1) with (k_identity k).
  pose proof (resolve_granted sha256 s t created (clock (World.draws (k_world k))) (k_identity k) Hok Hg Hne) as Hr.
  rewrite (proj2 (Z.leb_gt _ _) Hc0) in Hr.
  pose proof (granted_kept sha256 pbkdf2 s t created [Resolve t (clock (World.draws (k_world k)))] (k_identity k) Hok Hg)
    as Hk.
  destruct (run_ops_ok sha256 pbkdf2 [Resolve t (clock (World.draws (k_world k)))] (k_identity k) Hok) as [Hok' _].
  cbn [run_ops fold_left run_op] in Hk, Hok'. rewrite Hr in Hk, Hok'. rewrite Hr. cbn [snd] in Hk, Hok'.
  eexists. split; [reflexivity|]. split; [|split; [by split|done]].
  split; [done|]. exists created. split; [apply Hk; constructor; [|constructor]; intros _; apply Hc0|].
  intros i Hi. cbn [k_world k1 ticked World.draws]. specialize (Hc (S i) ltac:(lia)).
  by replace (S (World.draws (k_world k)) + i)%nat with (World.draws (k_world k) + S i)%nat by lia.
Qed.

Lemma require_ownership_passes ty rid s k : may_use k s ty rid →
  KernelApi._require_ownership local_user_id ty rid (Some s) k = (Ok tt, k).
Proof.
  intros [Hk Ho]. unfold KernelApi._require_ownership. cbn [owner_id]. rewrite bind_run. cbn [gets id].
  rewrite bind_run. unfold lift, is_developer. rewrite Ho.
  assert (negb (bool_decide (is_Some (owner_of ty rid (k_identity k)))) && negb (as_developer s) = false) as ->; [|done].
  destruct Hk as [Hk|Hk]; [by rewrite (bool_decide_true _ Hk)|rewrite Hk; apply andb_false_r].
Qed.
(** ** Chunks *)

Definition kernel_wire (method target : string) (headers : list (string * string)) (incoming : Incoming)
    (k : Kern) : option Response * Kern :=
  let '(response, k') := kernel_handle method target headers incoming k in (Some response, k').

(** The run has one artifact of that id, recorded with [n] bytes and digest [h]; what is
    stored is [b]. *)
Record held (run_id artifact_id b : string) (n : Z) (h : string) (k : Kern) : Prop := {
  hd_view : ∃ view artifact, describe_run run_id (kstore k) = Ok view ∧
    view_artifacts view artifact_id = [artifact] ∧
    obj_get_null "size_bytes" artifact = JInt n ∧ obj_get_null "sha256" artifact = JStr h;
  hd_bytes : StoreEvidence.artifact_bytes path_of (file_at (k_world k)) parts artifact_id (cust (k_world k))
    = Ok (Some b) }.

Lemma held_same run_id artifact_id b n h k k' : same_world k k' → held run_id artifact_id b n h k →
  held run_id artifact_id b n h k'.
Proof.
  intros [Hc Hf [Hs _ _ _ _]] [Hv Hb]. split; [by rewrite Hs|]. rewrite Hc.
  by assert (file_at (k_world k') = file_at (k_world k)) as -> by (unfold file_at; by rewrite Hf).
Qed.

Definition chunk_of (b : string) (n : Z) (h : string) (offset size : Z) : Excerpt :=
  let data := read_at (Z.to_nat offset) (Z.to_nat size) b in
  MkExcerpt (JStr h) offset data (size_of data) (JInt n) (offset + size_of data <? n)%Z.

Lemma excerpt_read run_id artifact_id b n h offset size k : held run_id artifact_id b n h k →
  (0 ≤ offset)%Z → (1 ≤ size ≤ 65536)%Z →
  read_artifact_excerpt sha256 path_of parts run_id artifact_id (JInt offset) (JInt size) false (k_world k)
  = Ok (chunk_of b n h offset size).
Proof.
  intros [(view & artifact & Hv & Ha & Hn & Hh) Hb] Ho Hs. unfold read_artifact_excerpt. cbn [as_strict_int].
  assert ((offset <? 0)%Z || negb ((0 <? size) && (size <=? 64 * 1024))%Z = false) as ->.
  { rewrite (proj2 (Z.ltb_ge _ _) Ho). simpl. apply negb_false_iff, andb_true_iff.
    split; [apply Z.ltb_lt|apply Z.leb_le]; lia. }
  cbn [raise_when mbind result_bind]. unfold kstore in Hv. rewrite Hv. cbn [mbind result_bind]. rewrite Ha, Hb.
  cbn [mbind result_bind of_option andb raise_when]. by rewrite Hn, Hh.
Qed.

(** Whatever part is asked for, the answer fits. *)
Definition answers_fit (artifact_id b : string) (n : Z) (h : string) : Prop := ∀ offset size,
  (0 ≤ offset ≤ size_of b)%Z → (1 ≤ size ≤ 65536)%Z →
  (body_size float_repr (Doc (excerpt_json utf8 artifact_id (chunk_of b n h offset size))) ≤ MAX_RESPONSE_BYTES)%Z.

Definition chunk_path (run_id artifact_id : string) : string := artifact_path run_id artifact_id "/chunk".
Definition chunk_query (offset size : Z) : list (string * list string) :=
  [("offset", q_number (Some offset)); ("max_bytes", q_number (Some size))].

Lemma chunk_path_chars run_id artifact_id : str_forall path_char (chunk_path run_id artifact_id) = true.
Proof.
  unfold chunk_path, artifact_path, run_path, _seg. by rewrite !str_forall_app, !url_quote_path.
Qed.

Lemma chunk_params (offset size : Z) : (0 ≤ offset)%Z → (0 ≤ size)%Z →
  let query := parse_qs (urlencode (kv ← chunk_query offset size; map (pair (fst kv)) (snd kv))) in
  query_get "offset" query = [pretty offset] ∧ query_get "max_bytes" query = [pretty size].
Proof.
  intros Ho Hs. cbv zeta. change (kv ← chunk_query offset size; map (pair (fst kv)) (snd kv))
    with [("offset", pretty offset); ("max_bytes", pretty size)].
  rewrite !parse_qs_get by (repeat constructor; by apply pretty_Z_ne). done.
Qed.

Lemma q_int_given name dflt z request : query_get name (req_query request) = [pretty z] → (0 ≤ z)%Z →
  (z = 0 → dflt = 0)%Z → q_int_or name dflt request = Ok z.
Proof.
  intros Hq Hz Hd. unfold q_int_or, q_int, Router.q. rewrite Hq. cbn [head].
  rewrite py_int_pretty by done. cbn [of_option mbind result_bind].
  destruct (Z.eqb_spec z 0) as [->|]; [by rewrite Hd|done].
Qed.

(** The handler's answer to a part asked for by somebody who may have it. *)
Lemma chunk_handled request run_id artifact_id b n h offset size s k :
  req_params request = [("run_id", run_id); ("artifact_id", artifact_id)] →
  req_query request = parse_qs (urlencode (kv ← chunk_query offset size; map (pair (fst kv)) (snd kv))) →
  (0 ≤ offset)%Z → (1 ≤ size ≤ 65536)%Z → may_use k s "run" run_id → held run_id artifact_id b n h k →
  KernelApi.artifact_chunk sha256 path_of parts utf8 local_user_id request (Some s) k
  = (Ok (json_response (excerpt_json utf8 artifact_id (chunk_of b n h offset size)) 200), k).
Proof.
  intros Hp Hq Ho Hs Hm Hh. destruct (chunk_params offset size) as [Hqo Hqs]; [lia|lia|]. rewrite <-Hq in Hqo, Hqs.
  unfold KernelApi.artifact_chunk, excerpt, run_param, param. rewrite Hp. cbn [rev app List.find fst snd].
  rewrite !(bool_decide_false ("artifact_id" = "run_id")) by done.
  rewrite !(bool_decide_true ("artifact_id" = "artifact_id")), !(bool_decide_true ("run_id" = "run_id")) by done.
  rewrite !bind_run. unfold lift at 1. cbn [fmap option_fmap option_map snd of_option].
  rewrite bind_run, (require_ownership_passes "run" run_id s k Hm). cbn [mret st_ret].
  rewrite (q_int_given "offset" 0 offset) by (done || lia).
  rewrite (q_int_given "max_bytes" (64 * 1024) size) by (done || lia).
  rewrite !bind_run. cbn [lift]. rewrite bind_run. cbn [lift]. rewrite bind_run. cbn [lift]. rewrite bind_run.
  cbn [gets id]. rewrite bind_run. unfold refuse, catch, lift.
  by rewrite (excerpt_read run_id artifact_id b n h offset size k).
Qed.

Lemma table_entry e e' : e ∈ route_table → e' ∈ route_table → fst e = fst e' → e = e'.
Proof.
  intros He He' Hf. by apply (key_inj fst route_table);
    [rewrite table_templates; apply templates_nodup|..].
Qed.

(** A request to a path that was found, as far as its handler. *)
Lemma call_handled e method path query headers incoming body params k res k' :
  str_forall path_char path = true → _read_body incoming = Ok body →
  match_route method path kernel_routes = Some (route_of e, params) →
  _guarded (snd e) (MkRequest method path params
    (parse_qs (urlencode (kv ← query; map (pair (fst kv)) (snd kv)))) headers body) k = (res, k') →
  kernel_wire method (path +:+ query_string query) headers incoming k
  = (Some (_send float_repr (match res with Ok response => response | Err e => failure_response e end)), k').
Proof.
  intros Hp Hb Hm Hg. unfold kernel_wire, KernelApi.kernel_handle, _handle, respond.
  rewrite (urlparse_call path query Hp), bind_run. unfold lift. rewrite Hb, Hm. simpl. by rewrite Hg.
Qed.

Lemma bearer_sent t method path params query body : strip t = t → t ≠ EmptyString →
  bearer_token (MkRequest method path params query (headers_of [] (Some t)) body) = Some t.
Proof.
  intros Hs Hne. unfold headers_of. destruct t as [|c t]; [done|]. cbn [str_empty].
  generalize dependent (String c t). intros u Hs _. unfold bearer_token.
  assert (header "Authorization" (MkRequest method path params query
    (header_set "Authorization" ("Bearer " +:+ u) (merge_headers [("Accept", "application/json")] [])) body)
    = Some ("Bearer " +:+ u)) as -> by reflexivity.
  change (default EmptyString (Some ("Bearer " +:+ u))) with ("Bearer " +:+ u). cbv zeta.
  assert (startswith "bearer " (lower ("Bearer " +:+ u)) = true) as -> by (by destruct u).
  assert (str_drop 7 ("Bearer " +:+ u) = u) as -> by reflexivity. by rewrite Hs.
Qed.

(** One part of the artifact, through the service. *)
Lemma chunk_served m run_id artifact_id b n h offset size s t (r : Remote Kern) :
  run_id ≠ EmptyString → artifact_id ≠ EmptyString → answers_fit artifact_id b n h →
  (0 ≤ offset ≤ size_of b)%Z → (1 ≤ size ≤ 65536)%Z →
  rm_token r = Some t → t ≠ EmptyString → strip t = t →
  signed (S m) s t (rm_service r) → may_use (rm_service r) s "run" run_id →
  held run_id artifact_id b n h (rm_service r) →
  ∃ k', Client.artifact_chunk kernel_wire float_repr (λ _, None) [] run_id artifact_id offset size r
        = (Ok (Json (excerpt_json utf8 artifact_id (chunk_of b n h offset size))),
           MkRemote (rm_token r) (rm_files r) k') ∧
    signed m s t k' ∧ same_world (rm_service r) k'.
Proof.
  intros Hr Ha Hfit Ho Hs Ht Hne Hstrip Hsigned Hm Hh.
  destruct (call_addressed run_id artifact_id "design" "GET" (chunk_path run_id artifact_id)
    "/kernel/runs/{run_id}/artifacts/{artifact_id}/chunk"
    [("run_id", run_id); ("artifact_id", artifact_id)]) as (e & He & Hfe & Hroute & _); [done|done|done| |].
  { by apply (list_elem_of_lookup_2 _ 11). }
  set (k := rm_service r) in *.
  set (e0 := ("GET", "/kernel/runs/{run_id}/artifacts/{artifact_id}/chunk",
    KernelApi.artifact_chunk sha256 path_of parts utf8 local_user_id)) in *.
  assert (e = e0) as ->.
  { apply table_entry; [done| |done]. by apply (list_elem_of_lookup_2 _ 22). }
  set (request := MkRequest "GET" (chunk_path run_id artifact_id) [("run_id", run_id); ("artifact_id", artifact_id)]
    (parse_qs (urlencode (kv ← chunk_query offset size; map (pair (fst kv)) (snd kv))))
    (headers_of [] (Some t)) NoBody).
  destruct (authenticate_signed m s t k request Hsigned Hne) as (k' & Hauth & Hsg & Hsame & _); [by apply bearer_sent|].
  exists k'. split; [|done].
  assert (_guarded (snd e0) request k = (Ok (json_response
    (excerpt_json utf8 artifact_id (chunk_of b n h offset size)) 200), k')) as Hg.
  { unfold KernelApi._guarded. rewrite bind_run, Hauth.
    apply (chunk_handled request run_id artifact_id b n h offset size s k'); try done; [lia| |].
    - by eapply may_use_same.
    - by eapply held_same. }
  apply (call_handled e0 "GET" _ (chunk_query offset size) _ Absent NoBody _ _ _ _
    (chunk_path_chars run_id artifact_id) eq_refl Hroute) in Hg.
  assert (_send float_repr (json_response (excerpt_json utf8 artifact_id (chunk_of b n h offset size)) 200)
    = json_response (excerpt_json utf8 artifact_id (chunk_of b n h offset size)) 200) as Hsend.
  { unfold _send. specialize (Hfit offset size Ho Hs). apply Z.ltb_ge in Hfit.
    destruct (MAX_RESPONSE_BYTES <? _)%Z eqn:El; [discriminate Hfit|done]. }
  cbv iota in Hg. rewrite Hsend in Hg. clear Hsend.
  assert (negb ((0 <? size)%Z && (size <=? MAX_EXCERPT_BYTES)%Z) = false) as Hb.
  { apply negb_false_iff, andb_true_iff. unfold MAX_EXCERPT_BYTES. split; [apply Z.ltb_lt|apply Z.leb_le]; lia. }
  unfold Client.artifact_chunk, bounded, Client.get, _call, exchange. rewrite Hb. rewrite bind_run. cbn [lift raise_when].
  rewrite bind_run. rewrite Ht. cbn [incoming].
  change (artifact_path run_id artifact_id "/chunk") with (chunk_path run_id artifact_id).
  change [("offset", q_number (Some offset)); ("max_bytes", q_number (Some size))] with (chunk_query offset size).
  fold k. rewrite Hg. done.
Qed.
(** ** Downloads *)

Definition client_download (fuel : nat) (run_id artifact_id destination : string) (size : Z)
    : st (Remote Kern) (option json) :=
  download_artifact_to kernel_wire float_repr (λ _, None) sha256 [] fuel run_id artifact_id destination size.
Local Abbreviation download := (download kernel_wire float_repr (λ _, None) []).

Lemma substring_take m s : String.substring 0 m s = str_take m s.
Proof. revert m. induction s as [|c s IH]; intros [|m]; simpl; try done. by f_equal. Qed.
Lemma substring_app p m s : String.substring (String.length p) m (p +:+ s) = str_take m s.
Proof. induction p as [|c p IH]; [apply substring_take|exact IH]. Qed.
Lemma take_all m s : str_take (Nat.min m (String.length s)) s = str_take m s.
Proof. revert m. induction s as [|c s IH]; intros [|m]; simpl; try done. by f_equal. Qed.
Lemma length_app_str p s : String.length (p +:+ s) = (String.length p + String.length s)%nat.
Proof. induction p as [|c p IH]; [done|]. rewrite str_app_cons. simpl. by rewrite IH. Qed.
Lemma read_after p s m : read_at (String.length p) m (p +:+ s) = str_take m s.
Proof.
  unfold read_at. rewrite substring_app, length_app_str. rewrite <-(take_all m). f_equal. lia.
Qed.

(** Everything the requests of one caller for one artifact rely on. *)
Record reading (m : nat) (s : AuthSession) (t run_id artifact_id b : string) (n : Z) (h : string) (r : Remote Kern) : Prop := {
  rd_token : rm_token r = Some t;
  rd_signed : signed m s t (rm_service r);
  rd_may : may_use (rm_service r) s "run" run_id;
  rd_held : held run_id artifact_id b n h (rm_service r) }.

Lemma download_step m fuel run_id artifact_id destination size rest got n h s t (r : Remote Kern) :
  run_id ≠ EmptyString → artifact_id ≠ EmptyString → answers_fit artifact_id (got +:+ rest) n h →
  (1 ≤ size ≤ 65536)%Z → t ≠ EmptyString → strip t = t →
  reading (S m) s t run_id artifact_id (got +:+ rest) n h r →
  let data := str_take (Z.to_nat size) rest in
  ∃ k', let r' := MkRemote (rm_token r)
                    (<[destination := default EmptyString (rm_files r !! destination) +:+ data]> (rm_files r)) k' in
    download (S fuel) run_id artifact_id destination size got r =
      (if (size_of got + size_of data <? n)%Z
       then download fuel run_id artifact_id destination size (got +:+ data) r'
       else (Ok (Some (JStr h, got +:+ data)), r')) ∧
    reading m s t run_id artifact_id (got +:+ rest) n h r' ∧ same_world (rm_service r) k'.
Proof.
  intros Hr Ha Hfit Hs Hne Hstrip [Ht Hsg Hm Hh] data.
  destruct (chunk_served m run_id artifact_id (got +:+ rest) n h (size_of got) size s t r)
    as (k' & Hc & Hsg' & Hsame); try done; [unfold size_of; rewrite length_app_str; lia|].
  exists k'. cbv zeta. split; [|split; [|done]].
  - cbn [Client.download]. rewrite bind_run, Hc.
    assert (xc_chunk (chunk_of (got +:+ rest) n h (size_of got) size) = data) as Hdata.
    { unfold chunk_of. cbn [xc_chunk]. unfold size_of. rewrite Nat2Z.id. apply read_after. }
    assert (xc_truncated (chunk_of (got +:+ rest) n h (size_of got) size) = (size_of got + size_of data <? n)%Z) as Htr.
    { rewrite <-Hdata. done. }
    assert (xc_sha256 (chunk_of (got +:+ rest) n h (size_of got) size) = JStr h) as Hsha by done.
    revert Hdata Htr Hsha. generalize (chunk_of (got +:+ rest) n h (size_of got) size). intros x Hdata Htr Hsha.
    rewrite bind_run. unfold lift at 1. cbn [reply_field excerpt_json].
    change (py_index "data_base64" (excerpt_json utf8 artifact_id x)) with (Ok (JStr (b64encode (xc_chunk x)))).
    change (py_index "sha256" (excerpt_json utf8 artifact_id x)) with (Ok (xc_sha256 x)).
    change (py_index "truncated" (excerpt_json utf8 artifact_id x)) with (Ok (JBool (xc_truncated x))).
    rewrite Hdata, Htr, Hsha. cbv iota. rewrite bind_run. unfold lift at 1. cbn [str_of].
    rewrite b64decode_encode. cbn [of_option]. rewrite bind_run. unfold write_file, modify. cbn [rm_token rm_files rm_service].
    rewrite bind_run. unfold lift at 1. rewrite bind_run. unfold lift at 1. cbn [truthy].
    by destruct (_ <? _)%Z.
  - split; [done|done| |].
    + by eapply may_use_same.
    + by eapply held_same.
Qed.

Lemma split_rest got size rest : got +:+ rest = (got +:+ str_take size rest) +:+ str_drop size rest.
Proof. by rewrite str_app_assoc, take_drop_str. Qed.
Lemma drop_length m s : String.length (str_drop m s) = (String.length s - m)%nat.
Proof. revert m. induction s as [|c s IH]; intros [|m]; simpl; try done. Qed.
Lemma take_size m s : (String.length (str_take m s) + String.length (str_drop m s) = String.length s)%nat.
Proof. rewrite <-length_app_str. by rewrite take_drop_str. Qed.

Lemma download_all run_id artifact_id destination size b h s t fuel got rest (r : Remote Kern) :
  run_id ≠ EmptyString → artifact_id ≠ EmptyString → answers_fit artifact_id b (size_of b) h →
  (1 ≤ size ≤ 65536)%Z → t ≠ EmptyString → strip t = t → b = got +:+ rest →
  reading fuel s t run_id artifact_id b (size_of b) h r → rm_files r !! destination = Some got →
  (1 ≤ fuel)%nat → (size_of rest ≤ Z.of_nat fuel * size)%Z →
  ∃ k', download fuel run_id artifact_id destination size got r
        = (Ok (Some (JStr h, b)), MkRemote (rm_token r) (<[destination := b]> (rm_files r)) k') ∧
    signed 0 s t k' ∧ same_world (rm_service r) k'.
Proof.
  intros Hr Ha Hfit Hs Hne Hstrip. revert got rest r.
  induction fuel as [|fuel IH]; intros got rest r -> Hread Hfile Hfuel Hsize; [lia|].
  destruct (download_step fuel fuel run_id artifact_id destination size rest got (size_of (got +:+ rest)) h s t r)
    as (k' & Hstep & Hread' & Hsame); try done. cbv zeta in Hstep, Hread'. rewrite Hstep, Hfile.
  rewrite Hfile in Hread'. cbn [default from_option id] in *.
  pose proof (take_size (Z.to_nat size) rest) as Htake.
  destruct (_ <? _)%Z eqn:Hlt.
  - apply Z.ltb_lt in Hlt. unfold size_of in *. rewrite length_app_str in Hlt.
    rewrite drop_length in Htake.
    assert (Z.to_nat size < String.length rest)%nat by lia.
    destruct (IH (got +:+ str_take (Z.to_nat size) rest) (str_drop (Z.to_nat size) rest)
      (MkRemote (rm_token r) (<[destination:=got +:+ str_take (Z.to_nat size) rest]> (rm_files r)) k'))
      as (k2 & Hd & Hsg & Hs2); [apply split_rest|done|by simpl; rewrite lookup_insert_eq|nia| |].
    { rewrite drop_length. nia. }
    exists k2. simpl in Hd. rewrite Hd, insert_insert_eq. split; [done|]. split; [done|]. by etrans.
  - apply Z.ltb_ge in Hlt. unfold size_of in *. rewrite length_app_str in Hlt.
    assert (str_drop (Z.to_nat size) rest = EmptyString) as Hnil
      by (destruct (str_drop _ _); [done|simpl in *; lia]).
    assert (got +:+ str_take (Z.to_nat size) rest = got +:+ rest) as ->
      by (rewrite (split_rest got (Z.to_nat size) rest), Hnil; by rewrite str_app_end).
    exists k'. split; [done|]. split; [apply (signed_fewer 0 fuel); [lia|apply (rd_signed _ _ _ _ _ _ _ _ _ Hread')]|done].
Qed.

Lemma download_never run_id artifact_id destination size b n h s t fuel got rest (r : Remote Kern) :
  run_id ≠ EmptyString → artifact_id ≠ EmptyString → answers_fit artifact_id b n h →
  (1 ≤ size ≤ 65536)%Z → t ≠ EmptyString → strip t = t → b = got +:+ rest →
  reading fuel s t run_id artifact_id b n h r → (size_of b < n)%Z →
  fst (download fuel run_id artifact_id destination size got r) = Ok None.
Proof.
  intros Hr Ha Hfit Hs Hne Hstrip Hb Hread Hn. revert got rest r Hb Hread.
  induction fuel as [|fuel IH]; intros got rest r -> Hread; [done|].
  destruct (download_step fuel fuel run_id artifact_id destination size rest got n h s t r)
    as (k' & Hstep & Hread' & _); try done. cbv zeta in Hstep. rewrite Hstep.
  pose proof (take_size (Z.to_nat size) rest) as Htake. unfold size_of in *. rewrite length_app_str in Hn.
  rewrite (proj2 (Z.ltb_lt _ _)) by lia. eapply IH; [apply split_rest|exact Hread'].
Qed.

(** C24. While the session stays open for as many requests, and each answer fits the
    response bound, a download through the kernel in parts of 1 to 65536 bytes ends
    after size over part size requests with a file that holds exactly the registered
    bytes, or an error when they do not hash as recorded. When fewer bytes are stored
    than recorded, no number of requests ends it: after each the client asks for the
    rest again. *)
Theorem artifact_downloaded run_id artifact_id destination size b n h s t fuel (r : Remote Kern) :
  run_id ≠ EmptyString → artifact_id ≠ EmptyString → (1 ≤ size ≤ 65536)%Z →
  t ≠ EmptyString → strip t = t → answers_fit artifact_id b n h →
  (* the session stays open for as many requests *)
  reading fuel s t run_id artifact_id b n h r →
  (* the stored bytes have the recorded size: so many requests are enough, and the file
     holds them exactly when their digest is the recorded one *)
  (n = size_of b → (size_of b < Z.of_nat fuel * size)%Z →
     ∃ k', client_download fuel run_id artifact_id destination size r =
       (if bool_decide (h = sha256 b)
        then Ok (Some (JObj [("path", JStr destination); ("size_bytes", JInt n); ("sha256", JStr h)]))
        else Err (KernelError "downloaded artifact failed SHA-256 verification" None),
        MkRemote (rm_token r) (<[destination := b]> (rm_files r)) k') ∧
       kstore k' = kstore (rm_service r) ∧ signed 0 s t k') ∧
  (* they are fewer: after every one of the requests the client asks for the rest again *)
  ((size_of b < n)%Z → fst (client_download fuel run_id artifact_id destination size r) = Ok None).
Proof.
  intros Hr Ha Hs Hne Hstrip Hfit [Ht Hsg Hm Hh].
  set (r0 := MkRemote (rm_token r) (<[destination := EmptyString]> (rm_files r)) (rm_service r)).
  assert (reading fuel s t run_id artifact_id b n h r0) as Hread by done.
  assert (client_download fuel run_id artifact_id destination size r
    = (done ← download fuel run_id artifact_id destination size EmptyString;
       match done with
       | None => mret None
       | Some (digest, hashed) =>
           lift (raise_when (negb (py_eqb digest (JStr (sha256 hashed))))
                            (KernelError "downloaded artifact failed SHA-256 verification" None));;
           mret (Some (JObj [("path", JStr destination); ("size_bytes", JInt (size_of hashed));
                             ("sha256", JStr (sha256 hashed))]))
       end) r0) as -> by done.
  split.
  - intros -> Hfuel. assert (1 ≤ fuel)%nat by (unfold size_of in Hfuel; nia).
    destruct (download_all run_id artifact_id destination size b h s t fuel EmptyString b r0)
      as (k' & Hd & Hsg' & [_ _ [Hst _ _ _ _]]); try done; [simpl; by rewrite lookup_insert_eq|lia|].
    exists k'. rewrite bind_run, Hd, bind_run. cbn [rm_files rm_token r0 lift]. rewrite insert_insert_eq.
    split; [|done]. pose proof (py_eqb_str h (JStr (sha256 b))) as He.
    case_bool_decide as Hsame; [rewrite Hsame in *; by rewrite (proj2 He eq_refl)|].
    destruct (py_eqb _ _); [|done]. pose proof (proj1 He eq_refl). congruence.
  - intros Hn. rewrite bind_run.
    pose proof (download_never run_id artifact_id destination size b n h s t fuel EmptyString b r0
      Hr Ha Hfit Hs Hne Hstrip eq_refl Hread Hn) as Hd.
    destruct (download _ _ _ _ _ _ _) as [o r']. simpl in Hd. by subst o.
Qed.
End service.

(** ** A download of twelve bytes, five at a time *)

Definition ana : AuthSession := MkAuthSession "user-0a" "Ana" true "session-a1".
Definition noon (n : nat) : Z := 500.
Definition ana_remote : Remote Kern := MkRemote (Some "token-a") ∅ served.

Lemma ana_signed m : signed served_hash noon m ana "token-a" served.
Proof.
  split; [exact served_identity_ok|]. exists 100%Z. split; [|vm_compute; reflexivity].
  destruct (fetchone (λ r, bool_decide (ss_session_id r = "session-a1")) (id_sessions served_identity))
    as [row|] eqn:Er; [|vm_compute in Er; discriminate Er].
  destruct (fetchone (is_user "user-0a") (id_users served_identity)) as [u|] eqn:Eu;
    [|vm_compute in Eu; discriminate Eu].
  exists row, u. split; [apply (proj1 (fetchone_Some _ _ _ Er))|].
  vm_compute in Er, Eu. injection Er as <-. injection Eu as <-. repeat split.
Qed.

Lemma twelve_fit : answers_fit (λ _, "0.0") (λ s, s) "artifact-1" demo_bytes 12 "0a".
Proof.
  intros offset size Ho Hs. unfold chunk_of, read_at.
  assert (∃ o, (o < 13)%nat ∧ offset = Z.of_nat o) as (o & Ho' & ->)
    by (exists (Z.to_nat offset); change (size_of demo_bytes) with 12%Z in Ho; lia).
  rewrite Nat2Z.id. change (String.length demo_bytes) with 12%nat.
  assert (Nat.min (Z.to_nat size) (12 - o) < 13)%nat as Hm by lia.
  generalize dependent (Nat.min (Z.to_nat size) (12 - o)). intros m Hm. clear size Hs Ho.
  do 13 (destruct o as [|o]; [do 13 (destruct m as [|m]; [vm_compute; discriminate|]); lia|]). lia.
Qed.

Lemma artifact_downloaded_witness : ∃ k',
  client_download served_hash demo_pbkdf2 path_resolve demo_split demo_host_path demo_host_path
    (λ _, "0.0") (λ s, s) (λ s, s) demo_archive served_uuid served_uuid served_uuid noon
    demo_config true "x86_64" served_registry false None None 3 "run-r1" "artifact-1" "copy" 5 ana_remote
  = (Ok (Some (JObj [("path", JStr "copy"); ("size_bytes", JInt 12); ("sha256", JStr "0a")])),
     MkRemote (Some "token-a") {["copy" := demo_bytes]} k').
Proof.
  destruct (artifact_downloaded served_hash demo_pbkdf2 path_resolve demo_split demo_host_path demo_host_path
    (λ _, "0.0") (λ s, s) (λ s, s) demo_archive served_uuid served_uuid served_uuid noon
    demo_config true "x86_64" served_registry false None None "run-r1" "artifact-1" "copy" 5 demo_bytes 12 "0a"
    ana "token-a" 3 ana_remote) as [H _].
  - discriminate.
  - discriminate.
  - lia.
  - discriminate.
  - vm_compute. reflexivity.
  - exact twelve_fit.
  - split; [reflexivity|apply ana_signed| |].
    + split; [left; eexists; vm_compute; reflexivity|vm_compute; reflexivity].
    + split; [|vm_compute; reflexivity].
      destruct (describe_run "run-r1" (kstore served)) as [view|] eqn:Ev; [|vm_compute in Ev; discriminate Ev].
      destruct (view_artifacts view "artifact-1") as [|artifact [|]] eqn:Ea;
        vm_compute in Ev; injection Ev as <-; vm_compute in Ea; [discriminate Ea| |discriminate Ea].
      injection Ea as <-. eexists _, _. repeat split.
  - destruct H as (k' & H & _); [reflexivity|vm_compute; reflexivity|]. exists k'. exact H.
Defined.

Lemma client_addresses_witness : ∃ e,
  match_route "GET" "/kernel/runs/run%2F1/logs" served_routes = Some (e, [("run_id", "run/1")]).
Proof.
  destruct (client_addresses served_hash demo_pbkdf2 path_resolve demo_split demo_host_path demo_host_path
    (λ _, "0.0") (λ s, s) (λ s, s) demo_archive served_uuid served_uuid served_uuid served_clock
    demo_config true "x86_64" served_registry false None None "run/1" "a" "d" "GET" "/kernel/runs/run%2F1/logs"
    "/kernel/runs/{run_id}/logs" [("run_id", "run/1")]) as (e & _ & _ & H & _); try discriminate.
  - unfold client_calls. do 8 right. left.
  - eexists. exact H.
Defined.
