(* ===== verification/UploadProps.v ===== *)
(** * Uploads in parts, from the client to the object store

    The client sends one part after the other under an id it drew; the service keeps
    what arrived beside the objects and makes it an input with the last part. *)

From stdpp Require Import gmap pretty.
From S2P Require Export ClientProps.
Open Scope string_scope.
Open Scope list_scope.

(** The input that bytes become. *)
Definition input_of (sha256 : string → string) (b hex : string) (now : Z) : UploadedInput :=
  MkUploadedInput (_new_id "input" hex) (sha256 b) (size_of b) (sha256 b) now.

Definition with_input (sha256 : string → string) (b hex : string) (now : Z) (c : Custody) : Custody :=
  MkCustody (on_uploaded (ins (input_of sha256 b hex now)) (db c)) (<[sha256 b := b]> (objects c)) (evidence c).

Definition new_input (id : string) (s : Store) : bool :=
  negb (has_row (λ u, bool_decide (u_input_id u = id)) (uploaded s)).

(** An object under the digest is the same bytes. *)
Definition published (sha256 : string → string) (b : string) (c : Custody) : Prop :=
  match objects c !! sha256 b with Some b' => b' = b | None => True end.

Lemma ingest_fresh sha256 (file : list string → option string) path b hex now c : file path = Some b →
  new_input (_new_id "input" hex) (db c) = true → published sha256 b c →
  ingest_input_file sha256 file file path hex now c
  = (Ok (input_of sha256 b hex now), with_input sha256 b hex now c).
Proof.
  intros Hf Hn Hp. unfold ingest_input_file. rewrite bind_run. unfold lift at 1. rewrite Hf. cbn [of_option].
  assert (_store_object sha256 file path (sha256 b) (size_of b) c
    = (Ok tt, MkCustody (db c) (<[sha256 b := b]> (objects c)) (evidence c))) as Hs.
  { unfold _store_object, publish. rewrite bind_run. cbn [gets id]. unfold published in Hp.
    destruct (objects c !! sha256 b) as [b'|] eqn:E.
    - subst b'. unfold lift. rewrite !bool_decide_true by done. simpl. rewrite insert_id by done. by destruct c.
    - rewrite bind_run. unfold lift at 1. rewrite Hf. cbn [of_option]. rewrite bind_run. unfold lift.
      by rewrite !bool_decide_true. }
  rewrite bind_run, Hs, bind_run. unfold in_db, insert_uploaded, new_input in *. cbn [db].
  rewrite bind_run. unfold constraint at 1. cbn [u_input_id]. rewrite Hn. rewrite bind_run. unfold constraint.
  cbn [u_size_bytes]. rewrite (proj2 (Z.leb_le _ _)) by (unfold size_of; lia). done.
Qed.

Section upload.
Context (sha256 : string → string) (pbkdf2 : string → string → Z → string).
Context (path_of : list string → string → list string).
Context (parts host_path plain_path : string → list string).
Context (float_repr : spec_float → string) (py_repr utf8 : string → string).
Context (zip : list Member → string).
Context (uuid token salt : nat → string) (clock : nat → Z).
Context (config : RuntimeConfig) (supports_limits : bool) (machine : string).
Context (registry : PluginRegistry).
Context (allow_anonymous : bool) (local_user_id evaluator_error : option string).

Local Abbreviation kernel_wire := (kernel_wire sha256 pbkdf2 path_of parts host_path plain_path float_repr
  py_repr utf8 zip uuid token salt clock config supports_limits machine registry allow_anonymous
  local_user_id evaluator_error).
Local Abbreviation route_table := (route_table sha256 pbkdf2 path_of parts host_path plain_path float_repr
  py_repr utf8 zip uuid token salt clock config supports_limits machine registry
  local_user_id evaluator_error).
Local Abbreviation kernel_routes := (kernel_routes sha256 pbkdf2 path_of parts host_path plain_path float_repr
  py_repr utf8 zip uuid token salt clock config supports_limits machine registry allow_anonymous
  local_user_id evaluator_error).
Local Abbreviation route_of := (route_of sha256 uuid clock allow_anonymous local_user_id).
Local Abbreviation chunk_handler := (ingest_input_chunk sha256 uuid clock local_user_id).
Local Abbreviation signed := (signed sha256 clock).

Definition upload_entry : string * string * api_handler := ("POST", "/kernel/inputs/chunk", chunk_handler).

Lemma only_upload e : e ∈ kernel_templates → fst e = "POST" →
  match_pieces (template (snd e)) "/kernel/inputs/chunk"
  = if bool_decide (snd e = "/kernel/inputs/chunk") then Some [] else None.
Proof using.
  intros He Hm. unfold kernel_templates in He.
  repeat (apply elem_of_cons in He as [->|He]; [first [discriminate Hm|vm_compute; reflexivity]|]).
  by apply not_elem_of_nil in He.
Qed.

Lemma upload_route : match_route "POST" "/kernel/inputs/chunk" kernel_routes = Some (route_of upload_entry, []).
Proof using.
  assert (upload_entry ∈ route_table) as Hin by (by apply (list_elem_of_lookup_2 _ 7)).
  apply (match_route_only "POST" "/kernel/inputs/chunk" kernel_routes (route_of upload_entry) []).
  - by apply in_routes.
  - vm_compute. reflexivity.
  - intros r' Hr' Hne. apply kernel_routes_table in Hr' as (e & He & ->). unfold route_matches in Hne. simpl in Hne.
    case_bool_decide as Hm; [|done].
    assert (fst e ∈ kernel_templates) as Ht by exact (list_elem_of_fmap_2 fst _ _ He).
    rewrite (only_upload (fst e) Ht Hm) in Hne. case_bool_decide as Hx; [|done].
    assert (e = upload_entry) as ->; [|done]. eapply table_entry; [exact He|exact Hin|].
    destruct (fst e). simpl in *. by subst.
Qed.

Definition upload_query (uid : string) (offset : Z) (final : bool) : list (string * list string) :=
  [("upload_id", q_text (Some uid)); ("offset", q_number (Some offset)); ("final", q_flag final)].
Definition upload_request (t uid : string) (offset : Z) (final : bool) (chunk : string) : Request :=
  MkRequest "POST" "/kernel/inputs/chunk" []
    (parse_qs (urlencode (kv ← upload_query uid offset final; map (pair (fst kv)) (snd kv))))
    (headers_of [] (Some t)) (Bytes chunk).

Lemma upload_id_ne uid : upload_id_ok uid = true → uid ≠ EmptyString.
Proof using. by intros H ->. Qed.

Lemma upload_params t uid offset final chunk : upload_id_ok uid = true → (0 ≤ offset)%Z →
  let request := upload_request t uid offset final chunk in
  q "upload_id" request = Some uid ∧ q_int_or "offset" 0 request = Ok offset ∧ q_bool "final" request = final.
Proof using.
  intros Hid Ho. cbv zeta. pose proof (upload_id_ne uid Hid) as Hne.
  assert (∀ k, query_get k (req_query (upload_request t uid offset final chunk))
    = omap (λ kv, if bool_decide (fst kv = k) then Some (snd kv) else None)
        ([("upload_id", uid); ("offset", pretty offset)] ++ (if final then [("final", "1")] else []))) as Hq.
  { intros k. unfold upload_request. cbn [req_query].
    assert ((kv ← upload_query uid offset final; map (pair (fst kv)) (snd kv))
      = [("upload_id", uid); ("offset", pretty offset)] ++ (if final then [("final", "1")] else [])) as ->.
    { unfold upload_query, q_text. destruct uid; [done|]. by destruct final. }
    apply parse_qs_get. apply Forall_app. split.
    - repeat constructor; [done|by apply pretty_Z_ne].
    - destruct final; repeat constructor; discriminate. }
  split_and!.
  - unfold q. rewrite Hq. by destruct final.
  - apply q_int_given; [|done|done]. rewrite Hq. by destruct final.
  - unfold q_bool, q. rewrite Hq. by destruct final.
Qed.

(** What the service keeps of an upload at a time [now]: it may go on with [acc]. *)
Definition fresh (uid acc : string) (now : Z) (k : Kern) : Prop :=
  match k_uploads k !! uid with
  | Some (b, at_time) => b = acc ∧ (now - at_time ≤ INPUT_UPLOAD_TTL_SECONDS)%Z
  | None => acc = EmptyString
  end.
(** What it keeps between two parts: the last part is of the last reading of the clock. *)
Definition so_far (uid acc : string) (k : Kern) : Prop :=
  match k_uploads k !! uid with
  | Some (b, at_time) => b = acc ∧ ∃ n, World.draws (k_world k) = S n ∧ at_time = clock n
  | None => acc = EmptyString
  end.
(** Among the next readings of the clock, two that follow one another but for one are no
    more than a day apart: so are the parts of the upload, with one sign-in between them. *)
Definition prompt (m : nat) (k : Kern) : Prop := ∀ i, (i < m)%nat →
  (clock (S (World.draws (k_world k) + i)) - clock (pred (World.draws (k_world k) + i)) ≤ INPUT_UPLOAD_TTL_SECONDS)%Z.

Definition put_part (uid b : string) (now : Z) (k : Kern) : Kern :=
  MkKern (ticked (k_world k)) (k_identity k) (<[uid := (b, now)]> (drop_stale now (k_uploads k))).

Lemma stale_kept uid acc now k : fresh uid acc now k →
  default EmptyString (fst <$> drop_stale now (k_uploads k) !! uid) = acc.
Proof using.
  intros Hs. unfold fresh, drop_stale in *. destruct (k_uploads k !! uid) as [[b at_time]|] eqn:E.
  - destruct Hs as [-> Hc]. rewrite (map_lookup_filter_Some_2 _ _ uid (acc, at_time)); [done|done|]. simpl. lia.
  - rewrite map_lookup_filter_None_2; [by rewrite Hs|by left].
Qed.

(** The part that comes after a sign-in is in time. *)
Lemma in_time uid acc m k k1 : k_uploads k1 = k_uploads k → World.draws (k_world k1) = S (World.draws (k_world k)) →
  prompt (S m) k → so_far uid acc k → fresh uid acc (clock (World.draws (k_world k1))) k1.
Proof using.
  intros Hu Hd Hp Hs. unfold fresh, so_far in *. rewrite Hu, Hd. destruct (k_uploads k !! uid) as [[b at_time]|]; [|done].
  destruct Hs as (-> & n & Hn & ->). split; [done|]. specialize (Hp 0%nat ltac:(lia)). by rewrite Nat.add_0_r, Hn in *.
Qed.

Lemma prompt_later d m k k' : World.draws (k_world k') = (World.draws (k_world k) + d)%nat → prompt (d + m) k → prompt m k'.
Proof using.
  intros Hd Hp i Hi. specialize (Hp (d + i)%nat ltac:(lia)). by rewrite Hd, <-Nat.add_assoc.
Qed.

(** The handler up to the point where the part is written. *)
Lemma part_written t uid offset final chunk acc session k :
  upload_id_ok uid = true → fresh uid acc (clock (World.draws (k_world k))) k → offset = size_of acc →
  (size_of acc + size_of chunk ≤ MAX_INPUT_UPLOAD_BYTES)%Z →
  let now := clock (World.draws (k_world k)) in
  chunk_handler (upload_request t uid offset final chunk) session k =
  (if negb final then
     mret (json_response (JObj [("upload_id", JStr uid); ("offset", JInt (size_of acc + size_of chunk))]) 200)
   else
     u ← kfinally (ingest_upload sha256 uuid clock uid) (on_uploads (delete uid));
     bind_owner uuid clock local_user_id "input" (u_input_id u) session;;
     mret (json_response (JObj [("input", uploaded_json u)]) 201)) (put_part uid (acc +:+ chunk) now k).
Proof using.
  intros Hid Hs -> Hmax now.
  destruct (upload_params t uid (size_of acc) final chunk Hid) as (Hq & Hoff & Hfin); [unfold size_of; lia|].
  unfold KernelApi.ingest_input_chunk.
  assert (req_body (upload_request t uid (size_of acc) final chunk) = Bytes chunk) as -> by done.
  rewrite Hq, Hoff, Hfin. change (default EmptyString (Some uid)) with uid. cbv zeta.
  rewrite Hid. cbn [negb]. rewrite bind_run. cbn [lift raise_when]. rewrite bind_run. cbn [lift]. rewrite bind_run.
  rewrite (proj2 (Z.ltb_ge _ _)) by (unfold size_of; lia). cbn [lift raise_when]. rewrite bind_run.
  assert (know uuid clock k = (Ok now, MkKern (ticked (k_world k)) (k_identity k) (k_uploads k))) as -> by done.
  rewrite bind_run. cbn [modify]. rewrite bind_run. cbn [gets Datatypes.id on_uploads k_uploads k_world k_identity].
  rewrite (stale_kept uid acc now k Hs).
  rewrite Z.eqb_refl, (proj2 (Z.ltb_ge _ _) Hmax). cbn [negb]. rewrite bind_run. cbn [lift raise_when].
  rewrite bind_run. cbn [lift raise_when]. rewrite bind_run. cbn [modify]. done.
Qed.

(** The last part makes the input, its caller's own. *)
Definition input_stored (s : AuthSession) (b : string) (u : UploadedInput) (k : Kern) : Prop :=
  u_sha256 u = sha256 b ∧ u_size_bytes u = size_of b ∧
  get_uploaded_input (u_input_id u) (kstore k) = Ok u ∧
  objects (cust (k_world k)) !! sha256 b = Some b ∧
  owner_of "input" (u_input_id u) (k_identity k) = Some (as_user_id s).

(** The ids drawn are new to the store and to the owners. *)
Definition ids_new (k : Kern) : Prop := ∀ n,
  new_input (_new_id "input" (uuid n)) (kstore k) = true ∧
  owner_of "input" (_new_id "input" (uuid n)) (k_identity k) = None.

Lemma input_ingested uid b now k : k_uploads k !! uid = Some (b, now) →
  ids_new k → published sha256 b (cust (k_world k)) →
  ∃ n k', kfinally (ingest_upload sha256 uuid clock uid) (on_uploads (delete uid)) k
    = (Ok (input_of sha256 b (uuid n) (clock n)), k') ∧
    k_identity k' = k_identity k ∧ k_uploads k' = delete uid (k_uploads k) ∧
    cust (k_world k') = with_input sha256 b (uuid n) (clock n) (cust (k_world k)).
Proof using.
  intros Hu Hnew Hp. unfold kfinally, ingest_upload. rewrite bind_run. cbn [gets Datatypes.id]. rewrite Hu.
  cbn [fmap option_fmap option_map fst]. rewrite bind_run.
  assert (kdraw uuid clock k = (Ok (World.draws (k_world k), uuid (World.draws (k_world k)), clock (World.draws (k_world k))),
    MkKern (ticked (k_world k)) (k_identity k) (k_uploads k))) as -> by done.
  cbn [fst snd]. unfold in_world, in_custody. cbn [k_world k_identity k_uploads].
  rewrite (ingest_fresh sha256 (λ _, Some b) [] b (uuid (World.draws (k_world k))) (clock (World.draws (k_world k)))
    (cust (ticked (k_world k))) eq_refl (proj1 (Hnew _)) Hp).
  eexists _, _. by split.
Qed.

Lemma signed_user m s t k : signed m s t k → has_row (is_user (as_user_id s)) (id_users (k_identity k)) = true.
Proof using.
  intros [_ (created & (row & u & _ & _ & _ & -> & Hu) & _)]. apply fetchone_Some in Hu as [Hin Hu].
  apply has_row_true. by exists u.
Qed.

Lemma bind_new s rid k : as_user_id s ≠ EmptyString → rid ≠ EmptyString →
  has_row (is_user (as_user_id s)) (id_users (k_identity k)) = true →
  owner_of "input" rid (k_identity k) = None →
  ∃ k', bind_owner uuid clock local_user_id "input" rid (Some s) k = (Ok tt, k') ∧
    owner_of "input" rid (k_identity k') = Some (as_user_id s) ∧
    cust (k_world k') = cust (k_world k) ∧ k_uploads k' = k_uploads k.
Proof using.
  intros Hs Hr Hu Ho. unfold KernelApi.bind_owner. cbn [owner_id].
  destruct (as_user_id s) as [|c x] eqn:Es; [done|]. cbn [str_empty]. rewrite <-Es in *. rewrite bind_run.
  set (now := clock (World.draws (k_world k))).
  assert (know uuid clock k = (Ok now, MkKern (ticked (k_world k)) (k_identity k) (k_uploads k))) as -> by done.
  unfold in_identity. cbn [k_identity k_world k_uploads]. unfold bind_resource. rewrite bind_run.
  assert (_resource_type "input" = Ok tt) as -> by done. cbn [lift]. rewrite bind_run.
  destruct rid as [|d y]; [done|]. cbn [str_empty raise_when lift]. rewrite bind_run. cbn [gets Datatypes.id].
  rewrite Ho. unfold transaction, insert_owner. cbn [ow_resource_type ow_resource_id ow_user_id].
  unfold owner_of in Ho. destruct (fetchone (is_resource "input" (String d y)) (id_owners (k_identity k))) eqn:Ef; [done|].
  assert (has_row (is_resource "input" (String d y)) (id_owners (k_identity k)) = false) as ->
    by (apply has_row_false; by apply fetchone_None).
  rewrite Hu. cbn [orb negb]. eexists. split; [reflexivity|]. split_and!; try done.
  cbn [k_identity on_owners id_owners]. unfold owner_of. simpl. rewrite fetchone_ins, Ef.
  unfold is_resource. simpl. by rewrite !bool_decide_true.
Qed.

Lemma last_part m s b uid now k t : signed m s t k → as_user_id s ≠ EmptyString →
  k_uploads k !! uid = Some (b, now) → ids_new k → published sha256 b (cust (k_world k)) →
  ∃ u k', (u ← kfinally (ingest_upload sha256 uuid clock uid) (on_uploads (delete uid));
           bind_owner uuid clock local_user_id "input" (u_input_id u) (Some s);;
           mret (json_response (JObj [("input", uploaded_json u)]) 201)) k
      = (Ok (json_response (JObj [("input", uploaded_json u)]) 201), k') ∧
    (∃ n, u = input_of sha256 b (uuid n) (clock n)) ∧
    input_stored s b u k' ∧ k_uploads k' !! uid = None.
Proof using.
  intros Hsg Hs Hu Hnew Hp.
  destruct (input_ingested uid b now k Hu Hnew Hp) as (n & k1 & Hrun & Hi & Hup & Hc).
  destruct (bind_new s (u_input_id (input_of sha256 b (uuid n) (clock n))) k1) as (k2 & Hb & Ho & Hc2 & Hup2).
  - done.
  - done.
  - rewrite Hi. by eapply signed_user.
  - rewrite Hi. apply Hnew.
  - exists (input_of sha256 b (uuid n) (clock n)), k2. rewrite bind_run, Hrun, bind_run, Hb. split; [done|].
    split; [by eexists|]. split; [|by rewrite Hup2, Hup, lookup_delete_eq].
    unfold input_stored. split_and!; try done.
    + unfold kstore, store_of. rewrite Hc2, Hc. unfold get_uploaded_input, with_input. cbn [db uploaded on_uploaded].
      rewrite fetchone_ins. pose proof (proj1 (Hnew n)) as Hn. apply negb_true_iff in Hn.
      assert (fetchone (λ r, bool_decide (u_input_id r = u_input_id (input_of sha256 b (uuid n) (clock n))))
                (uploaded (db (cust (k_world k)))) = None) as ->
        by (apply fetchone_None, has_row_false, Hn). by rewrite bool_decide_true.
    + rewrite Hc2, Hc. simpl. by rewrite lookup_insert_eq.
Qed.

(** ** The client's parts *)

Definition part_reply (uid : string) (offset : Z) : json :=
  JObj [("upload_id", JStr uid); ("offset", JInt offset)].
Definition input_reply (u : UploadedInput) : json := JObj [("input", uploaded_json u)].
Definition replies_fit (uid b : string) : Prop :=
  (∀ o, (0 ≤ o ≤ size_of b)%Z → body_size float_repr (Doc (part_reply uid o)) ≤ MAX_RESPONSE_BYTES)%Z ∧
  (∀ n, body_size float_repr (Doc (input_reply (input_of sha256 b (uuid n) (clock n)))) ≤ MAX_RESPONSE_BYTES)%Z.

(** The sender of a part: [m] parts may still follow. *)
Record sending (m : nat) (s : AuthSession) (t uid acc : string) (r : Remote Kern) : Prop := {
  sd_token : rm_token r = Some t;
  sd_signed : signed (2 * m) s t (rm_service r);
  sd_prompt : prompt (2 * m) (rm_service r);
  sd_part : so_far uid acc (rm_service r);
  sd_new : ids_new (rm_service r) }.

Local Abbreviation send_chunk := (Client.upload_chunk kernel_wire float_repr (λ _, None) []).

Lemma sent_to_handler (Q : Response → Kern → Prop) m s t uid acc chunk final (r : Remote Kern) :
  sending (S m) s t uid acc r → t ≠ EmptyString → strip t = t → (size_of chunk ≤ MAX_BODY_BYTES)%Z →
  (∀ k1, same_world (rm_service r) k1 → World.draws (k_world k1) = S (World.draws (k_world (rm_service r))) →
     signed (1 + 2 * m) s t k1 → ∃ response k2,
     chunk_handler (upload_request t uid (size_of acc) final chunk) (Some s) k1 = (Ok response, k2) ∧
     (body_size float_repr (resp_body response) ≤ MAX_RESPONSE_BYTES)%Z ∧ Q response k2) →
  ∃ response k2, Q response k2 ∧
    exchange kernel_wire float_repr [] "POST"
      ("/kernel/inputs/chunk" +:+ query_string (upload_query uid (size_of acc) final)) (PBytes chunk) r
    = (Ok response, MkRemote (rm_token r) (rm_files r) k2).
Proof using.
  intros [Ht Hsg _ _ _] Hne Hstrip Hbody Hrun. replace (2 * S m)%nat with (S (1 + 2 * m)) in Hsg by lia.
  destruct (authenticate_signed sha256 pbkdf2 uuid clock allow_anonymous local_user_id (1 + 2 * m) s t (rm_service r)
    (upload_request t uid (size_of acc) final chunk) Hsg Hne) as (k1 & Ha & Hsg1 & Hsame & Hd1); [by apply bearer_sent|].
  destruct (Hrun k1 Hsame Hd1 Hsg1) as (response & k2 & Hh & Hfit & HQ). exists response, k2. split; [done|].
  assert (KernelApi._guarded sha256 uuid clock allow_anonymous local_user_id (snd upload_entry)
    (upload_request t uid (size_of acc) final chunk) (rm_service r) = (Ok response, k2)) as Hg.
  { unfold KernelApi._guarded. by rewrite bind_run, Ha. }
  assert (_read_body (Octets chunk) = Ok (Bytes chunk)) as Hread.
  { simpl. rewrite (proj2 (Z.ltb_ge _ _)) by exact Hbody. done. }
  eapply call_handled in Hg; [|reflexivity|exact Hread|apply upload_route].
  unfold exchange. rewrite Ht. cbn [incoming]. rewrite Hg. cbv iota.
  assert (_send float_repr response = response) as ->; [|done].
  unfold _send. apply Z.ltb_ge in Hfit. destruct (MAX_RESPONSE_BYTES <? _)%Z; [discriminate Hfit|done].
Qed.

Lemma send_exchanged uid chunk offset final (r r' : Remote Kern) v status :
  exchange kernel_wire float_repr [] "POST"
    ("/kernel/inputs/chunk" +:+ query_string (upload_query uid offset final)) (PBytes chunk) r
  = (Ok (json_response (JObj v) status), r') → (200 ≤ status < 300)%Z →
  send_chunk uid chunk offset final r = (Ok v, r').
Proof using.
  intros He Hs. unfold Client.upload_chunk, post, _call. rewrite bind_run, bind_run.
  change [("upload_id", q_text (Some uid)); ("offset", q_number (Some offset)); ("final", q_flag final)]
    with (upload_query uid offset final).
  rewrite He. rewrite bind_run. cbn [resp_status json_response].
  rewrite (proj2 (Z.leb_le _ _)), (proj2 (Z.ltb_lt _ _)) by lia. done.
Qed.

Lemma ids_new_same k k' : kstore k' = kstore k → id_owners (k_identity k') = id_owners (k_identity k) →
  ids_new k → ids_new k'.
Proof using. intros Hs Ho H n. unfold owner_of. rewrite Hs, Ho. apply H. Qed.

Lemma send_middle m s t uid acc chunk rest (r : Remote Kern) :
  sending (S m) s t uid acc r → t ≠ EmptyString → strip t = t → upload_id_ok uid = true →
  (size_of chunk ≤ MAX_BODY_BYTES)%Z → replies_fit uid (acc +:+ chunk +:+ rest) →
  (size_of acc + size_of chunk ≤ MAX_INPUT_UPLOAD_BYTES)%Z →
  ∃ k', send_chunk uid chunk (size_of acc) false r
        = (Ok [("upload_id", JStr uid); ("offset", JInt (size_of acc + size_of chunk))],
           MkRemote (rm_token r) (rm_files r) k') ∧
    cust (k_world k') = cust (k_world (rm_service r)) ∧
    sending m s t uid (acc +:+ chunk) (MkRemote (rm_token r) (rm_files r) k').
Proof using.
  intros Hsend Hne Hstrip Hid Hbody [Hfit _] Hmax. pose proof Hsend as [Ht Hsg Hprompt Hpart Hnew].
  replace (2 * S m)%nat with (2 + 2 * m)%nat in * by lia.
  set (reply := json_response (part_reply uid (size_of acc + size_of chunk)) 200).
  destruct (sent_to_handler (λ response k2, response = reply ∧ cust (k_world k2) = cust (k_world (rm_service r)) ∧
      sending m s t uid (acc +:+ chunk) (MkRemote (rm_token r) (rm_files r) k2)) m s t uid acc chunk false r)
    as (response & k2 & (-> & Hc & Hs2) & He); try done.
  - intros k1 [Hc Hf Hrest] Hd1 Hsg1. set (now := clock (World.draws (k_world k1))).
    exists reply, (put_part uid (acc +:+ chunk) now k1).
    rewrite (part_written t uid (size_of acc) false chunk acc (Some s) k1); try done;
      [|eapply in_time; [apply (sb_uploads _ _ Hrest)|exact Hd1|exact Hprompt|exact Hpart]].
    split; [done|]. split; [apply Hfit; unfold size_of; rewrite !length_app_str; lia|].
    split; [done|]. split; [exact Hc|]. split; [exact Ht|apply (signed_later sha256 clock 1 _ s t k1); [done|simpl; lia|exact Hsg1]|apply (prompt_later 2 _ (rm_service r)); [simpl; lia|exact Hprompt]| |].
    + unfold so_far. simpl. rewrite lookup_insert_eq. split; [done|by eexists].
    + eapply ids_new_same; [| |exact Hnew]; [apply (sb_store _ _ Hrest)|apply (sb_owners _ _ Hrest)].
  - exists k2. split; [eapply send_exchanged; [exact He|lia]|]. by split.
Qed.

Lemma send_last m s t uid acc chunk (r : Remote Kern) :
  sending (S m) s t uid acc r → t ≠ EmptyString → strip t = t → upload_id_ok uid = true →
  as_user_id s ≠ EmptyString → (size_of chunk ≤ MAX_BODY_BYTES)%Z → replies_fit uid (acc +:+ chunk) →
  (size_of acc + size_of chunk ≤ MAX_INPUT_UPLOAD_BYTES)%Z →
  published sha256 (acc +:+ chunk) (cust (k_world (rm_service r))) →
  ∃ u k', send_chunk uid chunk (size_of acc) true r
        = (Ok [("input", uploaded_json u)], MkRemote (rm_token r) (rm_files r) k') ∧
    input_stored s (acc +:+ chunk) u k' ∧ k_uploads k' !! uid = None.
Proof using.
  intros Hsend Hne Hstrip Hid Hs Hbody [_ Hfit] Hmax Hp. pose proof Hsend as [Ht Hsg Hprompt Hpart Hnew].
  replace (2 * S m)%nat with (2 + 2 * m)%nat in * by lia.
  set (b := acc +:+ chunk) in *.
  destruct (sent_to_handler (λ response k2, ∃ u, response = json_response (input_reply u) 201 ∧
      input_stored s b u k2 ∧ k_uploads k2 !! uid = None) m s t uid acc chunk true r)
    as (response & k2 & (u & -> & Hst & Hdel) & He); try done.
  - intros k1 [Hc Hf Hrest] Hd1 Hsg1. set (now := clock (World.draws (k_world k1))).
    rewrite (part_written t uid (size_of acc) true chunk acc (Some s) k1); try done;
      [|eapply in_time; [apply (sb_uploads _ _ Hrest)|exact Hd1|exact Hprompt|exact Hpart]].
    fold b now. destruct (last_part (2 * m) s b uid now (put_part uid b now k1) t) as (u & k2 & Hl & (n & ->) & Hst & Hdel).
    + apply (signed_later sha256 clock 1 _ s t k1); [done|simpl; lia|exact Hsg1].
    + done.
    + simpl. by rewrite lookup_insert_eq.
    + eapply ids_new_same; [| |exact Hnew]; [apply (sb_store _ _ Hrest)|apply (sb_owners _ _ Hrest)].
    + unfold published in *. simpl. by rewrite Hc.
    + eexists _, k2. split; [exact Hl|]. split; [apply Hfit|]. by eexists.
  - exists u, k2. split; [eapply send_exchanged; [exact He|lia]|]. done.
Qed.

(** A whole upload from what has arrived so far. *)
Lemma upload_all s t uid chunks acc found (r : Remote Kern) :
  sending (length chunks) s t uid acc r → t ≠ EmptyString → strip t = t → upload_id_ok uid = true →
  as_user_id s ≠ EmptyString → chunks ≠ [] → Forall (λ c, size_of c ≤ MAX_BODY_BYTES)%Z chunks →
  let b := acc +:+ str_join EmptyString chunks in
  replies_fit uid b → (size_of b ≤ MAX_INPUT_UPLOAD_BYTES)%Z →
  published sha256 b (cust (k_world (rm_service r))) →
  ∃ u k', upload_rest kernel_wire float_repr (λ _, None) [] uid (size_of acc) found chunks r
        = (Ok (Some [("input", uploaded_json u)]), MkRemote (rm_token r) (rm_files r) k') ∧
    input_stored s b u k' ∧ k_uploads k' !! uid = None.
Proof using.
  intros Hsend Hne Hstrip Hid Hs Hc Hsizes. cbv zeta. revert acc found r Hsend.
  induction Hsizes as [|chunk rest Hchunk Hsizes IH]; intros acc found r Hsend Hfit Hmax Hp; [done|].
  destruct rest as [|next rest].
  - cbn [str_join] in *.
    destruct (send_last 0 s t uid acc chunk r) as (u & k' & Hl & Hst & Hdel); try done.
    { unfold size_of in *. rewrite length_app_str in Hmax. lia. }
    exists u, k'. split; [|done]. cbn [upload_rest]. rewrite bind_run, Hl. done.
  - set (tail := next :: rest) in *. 
    change (str_join EmptyString (chunk :: tail)) with (chunk +:+ EmptyString +:+ str_join EmptyString tail) in *.
    rewrite str_app_nil, <-str_app_assoc in *.
    destruct (send_middle (length tail) s t uid acc chunk (str_join EmptyString tail) r) as (k1 & Hm & Hc1 & Hsend1); try done.
    { by rewrite <-str_app_assoc. }
    { unfold size_of in *. rewrite !length_app_str in Hmax. lia. }
    destruct (IH ltac:(done) (acc +:+ chunk) (Some [("upload_id", JStr uid); ("offset", JInt (size_of acc + size_of chunk))])
      (MkRemote (rm_token r) (rm_files r) k1) Hsend1 Hfit Hmax) as (u & k' & Hrest & Hst).
    { simpl. unfold published in *. by rewrite Hc1. }
    exists u, k'. split; [|exact Hst]. cbn [upload_rest]. subst tail. cbv iota. rewrite bind_run, Hm, bind_run.
    change (dict_get "offset" [("upload_id", JStr uid); ("offset", JInt (size_of acc + size_of chunk))])
      with (Some (JInt (size_of acc + size_of chunk))). cbn [as_int of_option lift].
    assert (size_of acc + size_of chunk = size_of (acc +:+ chunk))%Z as Hsz by (unfold size_of; rewrite length_app_str; lia).
    rewrite Hsz in *. exact Hrest.
Qed.

(** C26. While the session stays open, an upload in parts, each within the request
    limit, together at most 64 GiB and each sent no more than a day after the one
    before, ends with an input of the store that holds exactly the parts in order
    under their digest, belongs to the sender, and leaves nothing of the upload
    behind. The ids drawn are new, and an object that is already stored under the
    digest has the same bytes. *)
Theorem input_uploaded s t uid chunks (r : Remote Kern) :
  let b := str_join EmptyString chunks in
  sending (length chunks) s t uid EmptyString r → t ≠ EmptyString → strip t = t → as_user_id s ≠ EmptyString →
  upload_id_ok uid = true → chunks ≠ [] → Forall (λ c, size_of c ≤ MAX_BODY_BYTES)%Z chunks →
  (size_of b ≤ MAX_INPUT_UPLOAD_BYTES)%Z → replies_fit uid b →
  published sha256 b (cust (k_world (rm_service r))) →
  ∃ u k', upload_input_chunks kernel_wire float_repr (λ _, None) [] uid chunks r
      = (Ok (uploaded_json u), MkRemote (rm_token r) (rm_files r) k') ∧
    (* the input names the bytes of all parts in order, and the store has them *)
    u_sha256 u = sha256 b ∧ u_size_bytes u = size_of b ∧
    get_uploaded_input (u_input_id u) (kstore k') = Ok u ∧
    materialize_input sha256 (u_input_id u) (cust (k_world k')) = Ok (u, b) ∧
    (* it is its sender's, and nothing of the upload is left *)
    owner_of "input" (u_input_id u) (k_identity k') = Some (as_user_id s) ∧
    k_uploads k' !! uid = None.
Proof using.
  cbv zeta. intros Hsend Hne Hstrip Hs Hid Hc Hsizes Hmax Hfit Hp.
  destruct (upload_all s t uid chunks EmptyString None r) as (u & k' & Hu & Hst & Hdel); try done.
  destruct Hst as (Hsha & Hsize & Hget & Hobj & Hown). exists u, k'.
  unfold upload_input_chunks. change (size_of EmptyString) with 0%Z in Hu. rewrite bind_run, Hu.
  split_and!; try done. unfold materialize_input. unfold kstore, store_of in Hget. rewrite Hget.
  cbn [mbind result_bind]. rewrite Hsha, Hobj. cbn [of_option mbind result_bind].
  rewrite Hsize. by rewrite !bool_decide_true.
Qed.
End upload.

(** ** Two parts *)

Definition one_id (n : nat) : string := "0c".

Lemma upload_fits : replies_fit served_hash (λ _, "0.0") one_id noon "upload-of-ana-01" "module m;end".
Proof.
  split; [|intros n; vm_compute; discriminate].
  intros o Ho. assert (∃ m, (m < 13)%nat ∧ o = Z.of_nat m) as (m & Hm & ->)
    by (exists (Z.to_nat o); change (size_of "module m;end") with 12%Z in Ho; lia). clear Ho.
  do 13 (destruct m as [|m]; [vm_compute; discriminate|]). lia.
Qed.

Lemma input_uploaded_witness : ∃ u k',
  upload_input_chunks (kernel_wire served_hash demo_pbkdf2 path_resolve demo_split demo_host_path demo_host_path
      (λ _, "0.0") (λ s, s) (λ s, s) demo_archive one_id one_id one_id noon
      demo_config true "x86_64" served_registry false None None) (λ _, "0.0") (λ _, None) []
    "upload-of-ana-01" ["module m"; ";end"] ana_remote
  = (Ok (uploaded_json u), MkRemote (Some "token-a") ∅ k') ∧
  materialize_input served_hash (u_input_id u) (cust (k_world k')) = Ok (u, "module m;end").
Proof.
  destruct (input_uploaded served_hash demo_pbkdf2 path_resolve demo_split demo_host_path demo_host_path
    (λ _, "0.0") (λ s, s) (λ s, s) demo_archive one_id one_id one_id noon
    demo_config true "x86_64" served_registry false None None) with (s := ana) (t := "token-a")
    (uid := "upload-of-ana-01") (chunks := ["module m"; ";end"]) (r := ana_remote)
    as (u & k' & H & _ & _ & _ & Hm & _).
  - split; [reflexivity|apply ana_signed|intros i _; vm_compute; discriminate|reflexivity|]. intros n. vm_compute. split; reflexivity.
  - discriminate.
  - vm_compute. reflexivity.
  - discriminate.
  - vm_compute. reflexivity.
  - discriminate.
  - repeat constructor; vm_compute; discriminate.
  - vm_compute. discriminate.
  - exact upload_fits.
  - vm_compute. exact I.
  - exists u, k'. split; [exact H|exact Hm].
Defined.
