(* ===== verification/Migration.v ===== *)
(** * runtime/store.py: opening a state root and migrating its schema

    The database as SQLite keeps it: named tables of named columns, and indexes.  A
    statement is durable by itself (the connection is in autocommit mode and a script
    commits as it goes), so a process killed while it opens the store leaves what its
    statements have done so far: [cn_left] is the number of statements it still executes. *)

From stdpp Require Import gmap.
From S2P Require Export Text StoreState.
Open Scope string_scope.
Open Scope list_scope.

Record Table := MkTable { tb_columns : gset string; tb_rows : list (gmap string json) }.
Record Database := MkDatabase { db_tables : gmap string Table; db_indexes : gset string }.

(** ** The statements of the schema *)

(** CREATE TABLE and CREATE INDEX are IF NOT EXISTS throughout.  The unique index is
    partial: NULL keys are not compared. *)
Inductive Statement :=
| CreateTable (table : string) (columns : list string)
| CreateIndex (index table : string) (columns : list string) (unique : bool)
| AddColumn (table column : string) (value : json)
| RenameTable (table to : string)
| CopyRows (into : string) (columns : list string) (from : string) (values : list (option string))
| DropTable (table : string)
| InsertMeta (key value : string)
| UpdateMeta (key value : string).

Definition operational {A} (what : string) : result A := Err (OtherError what).
Definition the_table (t : string) (db : Database) : result Table :=
  of_option (OtherError "no such table") (db_tables db !! t).
Definition put_table (t : string) (tb : Table) (db : Database) : Database :=
  MkDatabase (<[t := tb]> (db_tables db)) (db_indexes db).

Definition cell (c : string) (row : gmap string json) : json := default JNull (row !! c).
(** The values a unique index on one column compares. *)
Definition keys_of (columns : list string) (tb : Table) : list (list json) :=
  List.filter (λ k, forallb (λ v, negb (bool_decide (v = JNull))) k) ((λ r, (λ c, cell c r) <$> columns) <$> tb_rows tb).

Definition meta_table : string := "runtime_schema_meta".
Definition is_meta (key : string) (row : gmap string json) : bool := bool_decide (cell "key" row = JStr key).
Definition set_meta (key value : string) (tb : Table) : Table :=
  MkTable (tb_columns tb) (upd (is_meta key) (insert "value" (JStr value)) (tb_rows tb)).

(** The row an INSERT of the given columns makes: the others are NULL. *)
Definition copied (columns : list string) (values : list (option string)) (target : gset string)
    (row : gmap string json) : gmap string json :=
  list_to_map (zip columns ((λ v, match v with Some c => cell c row | None => JNull end) <$> values))
  ∪ gset_to_gmap JNull target.

Definition exec (s : Statement) (db : Database) : result Database :=
  match s with
  | CreateTable t columns =>
      match db_tables db !! t with
      | Some _ => Ok db
      | None => Ok (put_table t (MkTable (list_to_set columns) []) db)
      end
  | CreateIndex index t columns unique =>
      if bool_decide (index ∈ db_indexes db) then Ok db else
      tb ← the_table t db;
      if negb (forallb (λ c, bool_decide (c ∈ tb_columns tb)) columns) then operational "no such column" else
      if unique && negb (bool_decide (NoDup (keys_of columns tb))) then Err (IntegrityError "UNIQUE") else
      Ok (MkDatabase (db_tables db) ({[index]} ∪ db_indexes db))
  | AddColumn t c v =>
      tb ← the_table t db;
      if bool_decide (c ∈ tb_columns tb) then operational "duplicate column name" else
      Ok (put_table t (MkTable ({[c]} ∪ tb_columns tb) (insert c v <$> tb_rows tb)) db)
  | RenameTable t to =>
      tb ← the_table t db;
      if bool_decide (is_Some (db_tables db !! to)) then operational "there is already another table" else
      Ok (MkDatabase (<[to := tb]> (delete t (db_tables db))) (db_indexes db))
  | CopyRows into columns from values =>
      target ← the_table into db;
      source ← the_table from db;
      if negb (forallb (λ c, bool_decide (c ∈ tb_columns target)) columns
               && forallb (λ v, match v with Some c => bool_decide (c ∈ tb_columns source) | None => true end) values)
      then operational "no such column" else
      Ok (put_table into (MkTable (tb_columns target)
            (tb_rows target ++ (copied columns values (tb_columns target) <$> tb_rows source))) db)
  | DropTable t =>
      _ ← the_table t db;
      Ok (MkDatabase (delete t (db_tables db)) (db_indexes db))
  | InsertMeta key value =>
      tb ← the_table meta_table db;
      if has_row (is_meta key) (tb_rows tb) then Err (IntegrityError "PRIMARY KEY") else
      Ok (put_table meta_table
            (MkTable (tb_columns tb) (ins (<["key" := JStr key]> {["value" := JStr value]}) (tb_rows tb))) db)
  | UpdateMeta key value =>
      tb ← the_table meta_table db;
      Ok (put_table meta_table (set_meta key value tb) db)
  end.

(** ** The connection *)

Record Conn := MkConn { cn_db : Database; cn_left : option nat }.
Definition killed : exn := OtherError "killed".
Local Abbreviation C := (st Conn).

Definition execute (s : Statement) : C unit := λ c,
  match cn_left c with
  | Some O => (Err killed, c)
  | budget => match exec s (cn_db c) with
            | Ok db => (Ok tt, MkConn db (pred <$> budget))
            | Err e => (Err e, c)
            end
  end.
Definition executescript (l : list Statement) : C unit := iterM_st execute l.

(** ** The schema of this build *)

Definition RUNTIME_SCHEMA_VERSION : Z := 10.

Definition inputs_columns : list string :=
  ["attempt_id"; "destination"; "source"; "source_artifact_id"; "source_input_id"; "present"; "size_bytes"; "sha256";
   "created_at"].
Definition _INPUTS_DDL : Statement := CreateTable "runtime_inputs" inputs_columns.
Definition _UPLOADED_INPUTS_DDL : Statement :=
  CreateTable "runtime_uploaded_inputs" ["input_id"; "store_key"; "size_bytes"; "sha256"; "created_at"].
Definition idempotency_index : Statement :=
  CreateIndex "runtime_runs_idempotency_key" "runtime_runs" ["idempotency_key"] true.
Definition workers_ddl : Statement :=
  CreateTable "runtime_workers" ["worker_id"; "pid"; "last_seen_at"; "current_attempt_id"; "state"].

Definition _DDL : list Statement :=
  [CreateTable meta_table ["key"; "value"];
   CreateTable "runtime_runs" ["run_id"; "task_id"; "idempotency_key"; "status"; "task_spec_json"; "created_at";
     "started_at"; "ended_at"; "terminal_reason"];
   CreateTable "runtime_stage_runs" ["stage_run_id"; "run_id"; "stage_key"; "ordinal"; "plugin_id"; "plugin_version";
     "status"; "successful_attempt_id"; "created_at"; "started_at"; "ended_at"; "resumable"];
   CreateTable "runtime_attempts" ["attempt_id"; "stage_run_id"; "attempt_number"; "status"; "workspace"; "worker_id";
     "lease_expires_at"; "heartbeat_at"; "process_id"; "process_group_id"; "process_start_ticks"; "started_at";
     "ended_at"; "exit_code"; "failure_json"; "cpu_seconds"; "peak_memory_bytes"; "peak_processes"];
   CreateTable "runtime_resource_reservations" ["attempt_id"; "cpu_cores"; "memory_bytes"];
   CreateTable "runtime_artifacts" ["artifact_id"; "attempt_id"; "kind"; "store_key"; "size_bytes"; "sha256";
     "metadata_json"; "created_at"; "storage"];
   CreateTable "runtime_metrics" ["metric_id"; "attempt_id"; "name"; "value_json"; "unit"; "source_artifact_id";
     "parser_id"; "parser_version"; "context_json"; "created_at"];
   _INPUTS_DDL; _UPLOADED_INPUTS_DDL;
   CreateTable "runtime_events" ["event_id"; "run_id"; "stage_run_id"; "attempt_id"; "event_type"; "producer";
     "payload_json"; "occurred_at"];
   CreateIndex "runtime_events_run" "runtime_events" ["run_id"; "occurred_at"] false;
   CreateIndex "runtime_metrics_attempt" "runtime_metrics" ["attempt_id"] false;
   idempotency_index; workers_ddl].

(** ** Opening *)

Definition _has_column (t c : string) : C bool :=
  gets (λ cn, match db_tables (cn_db cn) !! t with Some tb => bool_decide (c ∈ tb_columns tb) | None => false end).

(** [if not self._has_column(t, c): ALTER TABLE t ADD COLUMN c] *)
Definition add_missing (t c : string) (v : json) : C unit :=
  present ← _has_column t c;
  if negb present then execute (AddColumn t c v) else mret tt.

Definition only_when (b : bool) (m : C unit) : C unit := if b then m else mret tt.

Definition old_inputs_columns : list string :=
  ["attempt_id"; "destination"; "source"; "present"; "size_bytes"; "sha256"; "created_at"].
Definition inputs_v2 : string := "runtime_inputs_v2".
Definition rebuild_inputs : list Statement :=
  [RenameTable "runtime_inputs" inputs_v2;
   _INPUTS_DDL;
   CopyRows "runtime_inputs"
     ["attempt_id"; "destination"; "source"; "source_artifact_id"; "present"; "size_bytes"; "sha256"; "created_at"] inputs_v2
     [Some "attempt_id"; Some "destination"; Some "source"; None; Some "present"; Some "size_bytes"; Some "sha256";
      Some "created_at"];
   DropTable inputs_v2].

Definition _migrate (from_version : Z) : C unit :=
  lift (raise_when (from_version <? 1)%Z (RuntimeStoreError "unsupported runtime schema"));;
  only_when (from_version <? 6)%Z (add_missing "runtime_runs" "idempotency_key" JNull);;
  only_when (from_version <? 2)%Z (executescript _DDL);;
  only_when (from_version <? 3)%Z
    (add_missing "runtime_artifacts" "storage" (JStr STORAGE_WORKSPACE);;
     present ← _has_column "runtime_inputs" "source_artifact_id";
     only_when (negb present) (executescript rebuild_inputs));;
  only_when (from_version <? 4)%Z
    (executescript _DDL;;
     iterM_st (λ column, add_missing "runtime_attempts" column JNull) ["cpu_seconds"; "peak_memory_bytes"; "peak_processes"]);;
  only_when (from_version <? 5)%Z (add_missing "runtime_stage_runs" "resumable" (JInt 0));;
  only_when (from_version <? 6)%Z (execute idempotency_index);;
  only_when (from_version <? 7)%Z (executescript [_UPLOADED_INPUTS_DDL]);;
  only_when (from_version <? 8)%Z (add_missing "runtime_inputs" "source_input_id" JNull);;
  only_when (from_version <? 9)%Z
    (iterM_st (λ column, add_missing "runtime_attempts" column JNull)
       ["process_id"; "process_group_id"; "process_start_ticks"]);;
  only_when (from_version <? 10)%Z (executescript [workers_ddl]);;
  execute (UpdateMeta "schema_version" (pretty.pretty RUNTIME_SCHEMA_VERSION)).

Definition _schema_version (raw : json) : result Z :=
  match py_int_of raw with
  | Ok z => Ok z
  | Err _ => Err (RuntimeStoreError "runtime schema version is not a number")
  end.

Definition version_row (db : Database) : option (gmap string json) :=
  tb ← db_tables db !! meta_table;
  fetchone (is_meta "schema_version") (tb_rows tb).

Definition _initialise : C unit :=
  existing ← gets (λ c, bool_decide (is_Some (db_tables (cn_db c) !! meta_table)));
  if negb existing then
    executescript _DDL;;
    execute (InsertMeta "schema_version" (pretty.pretty RUNTIME_SCHEMA_VERSION))
  else
    row ← gets (λ c, version_row (cn_db c));
    row ← lift (of_option (RuntimeStoreError "runtime schema has no schema_version") row);
    stored ← lift (_schema_version (cell "value" row));
    if (stored =? RUNTIME_SCHEMA_VERSION)%Z then mret tt else
    if (RUNTIME_SCHEMA_VERSION <? stored)%Z then
      raise (RuntimeStoreError "runtime schema was written by a newer build")
    else _migrate stored.

(** [RuntimeStore(path)], killed after [budget] statements if that is a number. *)
Definition opened (budget : option nat) (db : Database) : result unit * Database :=
  let '(r, c) := _initialise (MkConn db budget) in (r, cn_db c).

(** ** What a migration promises

    [complete] is the database this build means: every table of the schema with all its
    columns, the rows there were with the values of new columns filled in, every index
    and the current version.  Every statement of the migration leaves [complete] as it
    is, so one that was interrupted is taken up where it stopped, except inside the
    rebuild of runtime_inputs. *)

(** ** The schema, as the table definitions give it *)

Definition schema_tables : list (string * list string) :=
  omap (λ s, match s with CreateTable t columns => Some (t, columns) | _ => None end) _DDL.
Definition schema_indexes : list string :=
  omap (λ s, match s with CreateIndex i _ _ _ => Some i | _ => None end) _DDL.

(** What a column added to an older table holds in the rows that were there. *)
Definition late_value (t c : string) : json :=
  if bool_decide ((t, c) = ("runtime_artifacts", "storage")) then JStr STORAGE_WORKSPACE
  else if bool_decide ((t, c) = ("runtime_stage_runs", "resumable")) then JInt 0 else JNull.
Definition filling (t : string) (columns : list string) : gmap string json :=
  list_to_map ((λ c, (c, late_value t c)) <$> columns).
Definition schema : gmap string (gmap string json) :=
  list_to_map ((λ tc, (fst tc, filling (fst tc) (snd tc))) <$> schema_tables).

Definition complete_table (d : gmap string json) (tb : Table) : Table :=
  MkTable (tb_columns tb ∪ dom d) ((λ r, r ∪ d) <$> tb_rows tb).
Definition filled (tb : option Table) (d : option (gmap string json)) : option Table :=
  match d with Some d => Some (complete_table d (default (MkTable ∅ []) tb)) | None => tb end.
Definition complete_tables (m : gmap string Table) : gmap string Table := merge filled m schema.
Definition version_text : string := pretty.pretty RUNTIME_SCHEMA_VERSION.
Definition complete (db : Database) : Database :=
  MkDatabase (alter (set_meta "schema_version" version_text) meta_table (complete_tables (db_tables db)))
    (list_to_set schema_indexes ∪ db_indexes db).

(** ** When each part of the schema appeared *)

Definition born (t : string) : Z :=
  if bool_decide (t = "runtime_inputs") then 2 else if bool_decide (t = "runtime_resource_reservations") then 4
  else if bool_decide (t = "runtime_uploaded_inputs") then 7 else if bool_decide (t = "runtime_workers") then 10 else 1.
Definition later : list (string * string * Z) :=
  [("runtime_artifacts", "storage", 3); ("runtime_inputs", "source_artifact_id", 3);
   ("runtime_attempts", "cpu_seconds", 4); ("runtime_attempts", "peak_memory_bytes", 4);
   ("runtime_attempts", "peak_processes", 4); ("runtime_stage_runs", "resumable", 5);
   ("runtime_runs", "idempotency_key", 6); ("runtime_inputs", "source_input_id", 8);
   ("runtime_attempts", "process_id", 9); ("runtime_attempts", "process_group_id", 9);
   ("runtime_attempts", "process_start_ticks", 9)]%Z.
Definition since (t c : string) : Z :=
  match List.find (λ l, bool_decide (fst l = (t, c))) later with Some l => snd l | None => born t end.
Definition since_index (i : string) : Z := if bool_decide (i = "runtime_runs_idempotency_key") then 6 else 4.

Definition all_columns : list (string * string) := schema_tables ≫= (λ tc, pair (fst tc) <$> snd tc).

(** Parts of the schema a database has. *)
Inductive part := Column (t c : string) | Index (i : string).
#[export] Instance part_eq_dec : EqDecision part.
Proof. solve_decision. Defined.
Definition has (db : Database) (p : part) : Prop :=
  match p with
  | Column t c => ∃ tb, db_tables db !! t = Some tb ∧ c ∈ tb_columns tb
  | Index i => i ∈ db_indexes db
  end.
(** The parts a build of version [n] had. *)
Definition stage (n : Z) (p : part) : Prop :=
  match p with
  | Column t c => (t, c) ∈ all_columns ∧ (since t c ≤ n)%Z
  | Index i => i ∈ schema_indexes ∧ (since_index i ≤ n)%Z
  end.

Definition in_stage (n : Z) (p : part) : bool :=
  match p with
  | Column t c => bool_decide ((t, c) ∈ all_columns) && (since t c <=? n)%Z
  | Index i => bool_decide (i ∈ schema_indexes) && (since_index i <=? n)%Z
  end.
Lemma in_stage_spec n p : in_stage n p = true ↔ stage n p.
Proof. destruct p; unfold in_stage, stage; by rewrite andb_true_iff, bool_decide_eq_true, Z.leb_le. Qed.

(** A database an earlier build wrote at version [v], whatever a migration that was
    interrupted has added to it. *)
Record written_by (v : Z) (db : Database) : Prop := {
  wb_version : ∃ row, version_row db = Some row ∧ _schema_version (cell "value" row) = Ok v;
  wb_parts : ∀ p, stage v p → has db p;
  wb_rows : ∀ t tb d, db_tables db !! t = Some tb → schema !! t = Some d →
    tb_columns tb ⊆ dom d ∧ ∀ r, r ∈ tb_rows tb → dom r = tb_columns tb;
  wb_tables : ∀ t tb c, db_tables db !! t = Some tb → stage (born t) (Column t c) → c ∈ tb_columns tb;
  wb_inputs : ∀ tb, db_tables db !! "runtime_inputs" = Some tb →
    "source_input_id" ∈ tb_columns tb → "source_artifact_id" ∈ tb_columns tb;
  wb_keys : ∀ tb, db_tables db !! "runtime_runs" = Some tb → NoDup (keys_of ["idempotency_key"] tb);
  wb_v2 : (v < 3)%Z → db_tables db !! inputs_v2 = None }.

(** ** Tables *)

Lemma lookup_complete_tables m t : complete_tables m !! t = filled (m !! t) (schema !! t).
Proof.
  unfold complete_tables. rewrite lookup_merge. unfold diag_None. by destruct (m !! t), (schema !! t).
Qed.

Lemma schema_columns t d : schema !! t = Some d → ∀ c, c ∈ dom d ↔ (t, c) ∈ all_columns.
Proof.
  intros H c. unfold schema in H. apply elem_of_list_to_map_2 in H.
  assert (NoDup (fst <$> schema_tables)) as Hnd by (refine (bool_decide_unpack _ _); vm_compute; exact I).
  apply list_elem_of_fmap in H as ([t' cols] & [= -> ->] & Hin).
  cbn [fst snd]. assert (c ∈ dom (filling t' cols) ↔ c ∈ cols) as ->.
  { unfold filling. rewrite dom_list_to_map, elem_of_list_to_set, <-list_fmap_compose.
    change (fst ∘ λ c, (c, late_value t' c)) with (@id string). by rewrite list_fmap_id. }
  cbn [fst snd]. unfold all_columns. rewrite list_elem_of_bind. split.
  - intros Hc. exists (t', cols). split; [|done]. apply list_elem_of_fmap. by exists c.
  - intros ([t2 cols2] & (c' & [= <- <-] & Hc)%list_elem_of_fmap & Hin2). cbn in *.
    by injection (key_inj fst schema_tables (t', cols) (t', cols2) Hnd Hin Hin2 eq_refl) as ->.
Qed.

Lemma schema_filling t cols : (t, cols) ∈ schema_tables → schema !! t = Some (filling t cols).
Proof.
  intros H. unfold schema. apply elem_of_list_to_map_1.
  - rewrite <-list_fmap_compose. change (fst ∘ _) with (@fst string (list string)).
    refine (bool_decide_unpack _ _). vm_compute. exact I.
  - apply list_elem_of_fmap. by exists (t, cols).
Qed.

Lemma filling_dom t cols : dom (filling t cols) = list_to_set cols.
Proof.
  unfold filling. rewrite dom_list_to_map_L, <-list_fmap_compose.
  change (fst ∘ _) with (@id string). by rewrite list_fmap_id.
Qed.

Lemma schema_some t d : schema !! t = Some d → ∃ c, c ∈ dom d.
Proof.
  intros H. apply elem_of_list_to_map_2, list_elem_of_fmap in H as ([t' cols] & [= -> ->] & Hin). cbn [fst snd].
  assert (forallb (λ tc, negb (bool_decide (snd tc = []))) schema_tables = true) as Hall by (vm_compute; reflexivity).
  rewrite forallb_elem in Hall. specialize (Hall _ Hin). destruct cols as [|c cols]; [done|]. exists c.
  rewrite filling_dom. apply elem_of_list_to_set. by left.
Qed.

Lemma all_columns_schema t c : (t, c) ∈ all_columns → ∃ d, schema !! t = Some d.
Proof.
  intros H. unfold all_columns in H. apply list_elem_of_bind in H as ([t' cols] & Hc & Hin).
  apply list_elem_of_fmap in Hc as (c' & [= -> ->] & _). eexists. by eapply schema_filling.
Qed.

Lemma schema_value t c value : bool_decide (schema !! t ≫= lookup c = Some value) = true →
  ∃ d, schema !! t = Some d ∧ d !! c = Some value.
Proof. intros H%bool_decide_eq_true. by apply bind_Some in H. Qed.

(** The tables of the schema are only ever computed with as a whole. *)
#[local] Opaque schema schema_tables schema_indexes all_columns late_value filling born since since_index.

Lemma complete_tables_put m t tb d : schema !! t = Some d →
  complete_table d tb = complete_table d (default (MkTable ∅ []) (m !! t)) →
  complete_tables (<[t := tb]> m) = complete_tables m.
Proof.
  intros Hd H. apply map_eq. intros t'. rewrite !lookup_complete_tables.
  destruct (decide (t = t')) as [<-|Hne]; [|by rewrite lookup_insert_ne].
  rewrite lookup_insert_eq, Hd. cbn. by rewrite H.
Qed.

Lemma complete_table_done d tb :
  dom d ⊆ tb_columns tb → (∀ r, r ∈ tb_rows tb → dom r = tb_columns tb) → complete_table d tb = tb.
Proof.
  intros Hd Hr. destruct tb as [cols rows]. unfold complete_table. cbn in *. f_equal; [set_solver|].
  rewrite <-(list_fmap_id rows) at 2. apply list_fmap_ext. intros i r Hi. unfold id.
  assert (dom d ⊆ dom r) as Hsub by (rewrite (Hr r); [done|by eapply list_elem_of_lookup_2]).
  apply map_eq. intros c. destruct (r !! c) as [v|] eqn:Hc; [by apply lookup_union_Some_l|].
  rewrite lookup_union_r by done. apply not_elem_of_dom. intros Hin%Hsub. by apply not_elem_of_dom in Hc.
Qed.

Lemma complete_table_add d tb c v :
  d !! c = Some v → c ∉ tb_columns tb → (∀ r, r ∈ tb_rows tb → dom r = tb_columns tb) →
  complete_table d (MkTable ({[c]} ∪ tb_columns tb) (insert c v <$> tb_rows tb)) = complete_table d tb.
Proof.
  intros Hd Hc Hr. unfold complete_table. cbn. apply elem_of_dom_2 in Hd as Hdom. f_equal; [set_solver|].
  rewrite <-list_fmap_compose. apply list_fmap_ext. intros i r Hi. cbn.
  assert (r !! c = None) as Hnone by (apply not_elem_of_dom; rewrite (Hr r); [done|by eapply list_elem_of_lookup_2]).
  apply map_eq. intros c'. destruct (decide (c = c')) as [<-|Hne].
  - rewrite lookup_union_l' by (rewrite lookup_insert_eq; eauto). rewrite lookup_insert_eq, lookup_union_r, Hd by done. done.
  - rewrite !lookup_union, lookup_insert_ne by done. done.
Qed.

(** ** Programs that leave what the database means as it is *)

Section from.
Context (v : Z) (start : Database).

Definition same_meaning (db : Database) : Prop := complete db = complete start.
Definition keeps_meaning (db : Database) : Prop := written_by v db ∧ same_meaning db.
(** A rebuild of runtime_inputs that was broken off. *)
Definition broken (db : Database) : Prop := (v < 3)%Z ∧ is_Some (db_tables db !! inputs_v2).

Definition part_set := part → Prop.
Definition holds (P : part_set) (db : Database) : Prop := ∀ p, P p → has db p.

Definition safe_at (c : Conn) (m : st Conn unit) (Q : part_set) : Prop :=
  let '(r, c') := m c in
  (cn_left c = None → cn_left c' = None) ∧
  match r with
  | Ok _ => keeps_meaning (cn_db c') ∧ (∀ p, has (cn_db c) p → has (cn_db c') p) ∧ holds Q (cn_db c')
  | Err e => cn_left c ≠ None ∧ e = killed ∧ (keeps_meaning (cn_db c') ∨ broken (cn_db c'))
  end.
Definition safe (P : part_set) (m : st Conn unit) (Q : part_set) : Prop :=
  ∀ c, keeps_meaning (cn_db c) → holds P (cn_db c) → safe_at c m Q.

Definition also (P Q : part_set) : part_set := λ p, P p ∨ Q p.
Definition nothing : part_set := λ _, False.

Lemma safe_bind P m Q (m2 : st Conn unit) R : safe P m Q → safe (also P Q) m2 R → safe P (m;; m2) (also Q R).
Proof.
  intros H1 H2 c Hk HP. specialize (H1 c Hk HP). unfold safe_at, mbind, st_bind in *. destruct (m c) as [[[]|e] c1].
  - destruct H1 as (Hl1 & Hk1 & Hg1 & HQ). specialize (H2 c1 Hk1). unfold safe_at in H2. destruct (m2 c1) as [[[]|e] c2].
    + destruct H2 as (Hl2 & Hk2 & Hg2 & HR); [intros p [Hp|Hp]; auto|]. split; [by auto|]. split; [done|].
      split; [by auto|]. intros p [Hp|Hp]; auto.
    + destruct H2 as (Hl2 & He & Hx); [intros p [Hp|Hp]; auto|]. split; [by auto|]. split; [by auto|done].
  - destruct H1 as (Hl1 & He & Hx). done.
Qed.

Lemma safe_weaken P m Q P' Q' :
  safe P m Q → (∀ p, P p → P' p) → (∀ p, Q' p → P' p ∨ Q p) → safe P' m Q'.
Proof.
  intros H HP HQ c Hk Hh. specialize (H c Hk (λ p Hp, Hh p (HP p Hp))). unfold safe_at in *.
  destruct (m c) as [[[]|e] c'].
  - destruct H as (Hl & Hk' & Hg & Hq). split; [done|]. split; [done|]. split; [done|].
    intros p [Hp|Hp]%HQ; auto.
  - done.
Qed.

Lemma safe_ret P : safe P (mret tt) nothing.
Proof. intros c Hk HP. cbn. split; [done|]. split; [done|]. split; [done|]. by intros p []. Qed.

Lemma safe_iter {A} P (f : A → st Conn unit) l (Q : A → part_set) :
  (∀ a, a ∈ l → safe P (f a) (Q a)) → safe P (iterM_st f l) (λ p, ∃ a, a ∈ l ∧ Q a p).
Proof.
  intros H. induction l as [|a l IH].
  - intros c Hk HP. cbn. split; [done|]. split; [done|]. split; [done|]. by intros p (a & ?%not_elem_of_nil & _).
  - assert (safe P (f a;; iterM_st f l) (also (Q a) (λ p, ∃ a, a ∈ l ∧ Q a p))) as Hc.
    { apply safe_bind; [apply H; by left|]. eapply safe_weaken; [apply IH; intros; apply H; by right|intros p Hp; by left|].
      intros p Hp; by right. }
    intros c Hk HP. specialize (Hc c Hk HP). revert Hc. unfold safe_at, iterM_st. cbn.
    unfold mbind, st_bind, mret, st_ret.
    destruct (f a c) as [[[]|e] c1]; [|done]. destruct (mapM_st f l c1) as [[?|e] c2]; [|done].
    intros (Hl & Hk' & Hg & Hq). split; [done|]. split; [done|]. split; [done|].
    intros p (a' & [->|Ha]%elem_of_cons & Hp); apply Hq; [by left|right; by exists a'].
Qed.

(** One statement, seen as a change of the database. *)
Definition good_step (db : Database) (s : Statement) (Q : part_set) : Prop :=
  ∃ db', exec s db = Ok db' ∧ keeps_meaning db' ∧ (∀ p, has db p → has db' p) ∧ holds Q db'.

Lemma safe_execute c s Q : keeps_meaning (cn_db c) → good_step (cn_db c) s Q → safe_at c (execute s) Q.
Proof.
  intros Hk (db' & He & Hk' & Hg & Hq). unfold safe_at, execute. destruct (cn_left c) as [[|n]|] eqn:Hl.
  - split; [done|]. split; [done|]. split; [done|]. by left.
  - rewrite He. cbn. split; [done|]. done.
  - rewrite He. cbn. split; [done|]. done.
Qed.

(** ** The statements *)

Lemma has_put t tb db :
  (∀ tb0 c, db_tables db !! t = Some tb0 → c ∈ tb_columns tb0 → c ∈ tb_columns tb) →
  ∀ p, has db p → has (put_table t tb db) p.
Proof.
  intros H [t' c|i]; [|done]. cbn. intros (tb0 & Ht & Hc). destruct (decide (t = t')) as [<-|Hne].
  - exists tb. rewrite lookup_insert_eq. split; [done|]. by eapply H.
  - exists tb0. by rewrite lookup_insert_ne.
Qed.

Lemma complete_put t tb d db : schema !! t = Some d →
  complete_table d tb = complete_table d (default (MkTable ∅ []) (db_tables db !! t)) →
  complete (put_table t tb db) = complete db.
Proof. intros. unfold complete, put_table. cbn [db_tables db_indexes]. by erewrite complete_tables_put. Qed.

(** A table of the schema is put in place of one with fewer columns. *)
Lemma written_put t tb d db : t ≠ meta_table → written_by v db → schema !! t = Some d →
  (∀ tb0 c, db_tables db !! t = Some tb0 → c ∈ tb_columns tb0 → c ∈ tb_columns tb) →
  (∀ c, stage (born t) (Column t c) → c ∈ tb_columns tb) →
  tb_columns tb ⊆ dom d → (∀ r, r ∈ tb_rows tb → dom r = tb_columns tb) →
  (t = "runtime_inputs" → "source_input_id" ∈ tb_columns tb → "source_artifact_id" ∈ tb_columns tb) →
  (t = "runtime_runs" → NoDup (keys_of ["idempotency_key"] tb)) →
  written_by v (put_table t tb db).
Proof.
  intros Hmeta [Hver Hparts Hrows Htables Hinputs Hkeys Hv2] Hd Hgrow Hbase Hsub Hdom Hin Hk.
  assert (∀ t' tb', db_tables (put_table t tb db) !! t' = Some tb' →
    (t = t' ∧ tb' = tb) ∨ db_tables db !! t' = Some tb') as Hlook.
  { unfold put_table. cbn [db_tables]. intros t' tb' [[-> ->]|[_ H]]%lookup_insert_Some; [by left|by right]. }
  split.
  - unfold version_row. cbn. by rewrite lookup_insert_ne.
  - intros p Hp. apply has_put; auto.
  - intros t' tb' d' [[<- ->]|H]%Hlook Hd'; [|by eapply Hrows].
    rewrite Hd in Hd'. by injection Hd' as <-.
  - intros t' tb' c [[<- ->]|H]%Hlook Hc; [by apply Hbase|by eapply Htables].
  - intros tb' [[-> ->]|H]%Hlook; [by apply Hin|by apply Hinputs].
  - intros tb' [[-> ->]|H]%Hlook; [by apply Hk|by apply Hkeys].
  - intros Hv. cbn. rewrite lookup_insert_ne; [by apply Hv2|]. intros ->.
    assert (schema !! inputs_v2 = None) as Hnone by (vm_compute; reflexivity). congruence.
Qed.

Lemma keys_of_null c cols rows : keys_of [c] (MkTable cols (insert c JNull <$> rows)) = [].
Proof.
  unfold keys_of. cbn [tb_rows]. induction rows as [|r rows IH]; [done|]. cbn [fmap list_fmap List.filter].
  assert (cell c (insert c JNull r) = JNull) as -> by (unfold cell; by rewrite lookup_insert_eq). exact IH.
Qed.

Lemma add_column_step db t c value d :
  keeps_meaning db → t ≠ meta_table → schema !! t = Some d → d !! c = Some value →
  (∃ c0, has db (Column t c0)) → ¬ has db (Column t c) →
  (t = "runtime_runs" → c = "idempotency_key" ∧ value = JNull) →
  ((t, c) = ("runtime_inputs", "source_input_id") → has db (Column "runtime_inputs" "source_artifact_id")) →
  good_step db (AddColumn t c value) (λ p, p = Column t c).
Proof.
  intros [Hw Hm] Hmeta Hd Hval (c0 & tb & Ht & _) Hno Hruns Hin. unfold good_step. cbn. unfold the_table. rewrite Ht. cbn.
  assert (c ∉ tb_columns tb) as Hc by (intros Hc; apply Hno; by exists tb).
  rewrite bool_decide_false by done. eexists. split; [done|].
  destruct (wb_rows _ _ Hw t tb d Ht Hd) as [Hsub Hdom]. apply elem_of_dom_2 in Hval as Hcd.
  split; [|split].
  - split.
    + eapply written_put; cbn [tb_columns tb_rows]; try (assumption || exact Hd).
      * intros tb0 c' [= <-]%(eq_trans (eq_sym Ht)). by apply elem_of_union_r.
      * intros c' Hc'. apply elem_of_union_r. by eapply wb_tables.
      * apply union_least; [by apply singleton_subseteq_l|done].
      * intros r (r0 & -> & Hr)%list_elem_of_fmap. rewrite dom_insert_L, (Hdom r0) by done. done.
      * intros -> [<-%elem_of_singleton|Hi]%elem_of_union; [|apply elem_of_union_r; by eapply wb_inputs].
        destruct (Hin eq_refl) as (tb' & Ht' & Hc'). rewrite Ht in Ht'. injection Ht' as <-. by apply elem_of_union_r.
      * intros ->. destruct (Hruns eq_refl) as [-> ->]. rewrite keys_of_null. by constructor.
    + unfold same_meaning in *; rewrite <-Hm. eapply complete_put; [done|]. rewrite Ht. cbn. by apply complete_table_add.
  - apply has_put. intros tb0 c' [= <-]%(eq_trans (eq_sym Ht)). by apply elem_of_union_r.
  - intros p ->. cbn. eexists. rewrite lookup_insert_eq. split; [done|]. by apply elem_of_union_l, elem_of_singleton.
Qed.
Lemma create_table_step db t cols :
  keeps_meaning db → (t, cols) ∈ schema_tables →
  good_step db (CreateTable t cols) (λ p, ∃ c, p = Column t c ∧ stage (born t) p).
Proof.
  intros [Hw Hm] Hin. unfold good_step. cbn. apply schema_filling in Hin as Hd.
  destruct (db_tables db !! t) as [tb|] eqn:Ht.
  - exists db. split; [done|]. split; [done|]. split; [done|]. intros p (c & -> & Hp). exists tb.
    split; [done|]. by eapply wb_tables.
  - eexists. split; [done|].
    assert (∀ c, (t, c) ∈ all_columns → c ∈ (list_to_set cols : gset string)) as Hall.
    { intros c Hc. rewrite <-(filling_dom t). by eapply schema_columns. }
    split; [|split].
    + split.
      * eapply written_put; cbn [tb_columns tb_rows]; try (assumption || exact Hd).
        -- intros ->. destruct (wb_version _ _ Hw) as (row & Hrow & _). unfold version_row in Hrow.
           rewrite Ht in Hrow. done.
        -- intros tb0 c' Heq. congruence.
        -- by intros c [Hc _]; apply Hall.
        -- by rewrite filling_dom.
        -- by intros r ?%not_elem_of_nil.
        -- intros -> _. apply Hall. refine (bool_decide_unpack _ _). vm_compute. exact I.
        -- intros ->. by constructor.
      * unfold same_meaning in *; rewrite <-Hm. eapply complete_put; [done|]. rewrite Ht. unfold complete_table. cbn [tb_columns tb_rows].
        rewrite filling_dom. cbn [tb_columns tb_rows from_option id default]. by rewrite union_idemp_L, union_empty_l_L.
    + apply has_put. intros tb0 c' Heq. congruence.
    + intros p (c & -> & Hp). cbn. eexists. rewrite lookup_insert_eq. split; [done|]. cbn. apply Hall, Hp.
Qed.

Lemma create_index_step db i t cols unique :
  keeps_meaning db → i ∈ schema_indexes → cols ≠ [] → (∀ c, c ∈ cols → has db (Column t c)) →
  (unique = true → t = "runtime_runs" ∧ cols = ["idempotency_key"]) →
  good_step db (CreateIndex i t cols unique) (λ p, p = Index i).
Proof.
  intros [Hw Hm] Hi Hne Hcols Huniq. unfold good_step. cbn. case_bool_decide as Hin.
  - exists db. split; [done|]. split; [done|]. split; [done|]. by intros p ->.
  - destruct cols as [|c0 cols]; [done|]. destruct (Hcols c0 ltac:(by left)) as (tb & Ht & _).
    unfold the_table. rewrite Ht. cbn [of_option mbind result_bind].
    assert (forallb (λ c, bool_decide (c ∈ tb_columns tb)) (c0 :: cols) = true) as ->.
    { apply forallb_elem. intros c Hc. destruct (Hcols c Hc) as (tb' & Ht' & Hc'). rewrite Ht in Ht'. injection Ht' as <-. by apply bool_decide_eq_true. }
    cbn [negb].
    assert (unique && negb (bool_decide (NoDup (keys_of (c0 :: cols) tb))) = false) as ->.
    { destruct unique; [|done]. destruct (Huniq eq_refl) as [-> ->]. rewrite bool_decide_true; [done|]. by eapply wb_keys. }
    eexists. split; [done|].
    assert (∀ p, has db p → has (MkDatabase (db_tables db) ({[i]} ∪ db_indexes db)) p) as Hg
      by (intros [t' c|j]; cbn; [done|set_solver]).
    split; [split|split]; [|unfold same_meaning in *; rewrite <-Hm; unfold complete; cbn [db_tables db_indexes]; f_equal; set_solver|exact Hg|].
    + destruct Hw as [Hver Hparts Hrows Htables Hinputs Hkeys Hv2]. split; try done. intros p Hp. by apply Hg, Hparts.
    + intros p ->. cbn. set_solver.
Qed.

(** ** The rebuild of runtime_inputs *)

Lemma copied_row target row : (target : gset string) = list_to_set inputs_columns → dom row = list_to_set old_inputs_columns →
  copied ["attempt_id"; "destination"; "source"; "source_artifact_id"; "present"; "size_bytes"; "sha256"; "created_at"]
    [Some "attempt_id"; Some "destination"; Some "source"; None; Some "present"; Some "size_bytes"; Some "sha256";
     Some "created_at"] target row
  = row ∪ filling "runtime_inputs" inputs_columns.
Proof.
  intros -> Hdom. apply map_eq. intros c. rewrite lookup_union. unfold copied. rewrite lookup_union.
  assert (∀ c, c ∈ old_inputs_columns → row !! c = Some (cell c row)) as Hcell.
  { intros c' Hc'. unfold cell. assert (c' ∈ dom row) as [x Hx]%elem_of_dom by (rewrite Hdom; by apply elem_of_list_to_set).
    by rewrite Hx. }
  assert (row !! "source_artifact_id" = None ∧ row !! "source_input_id" = None) as [Hn1 Hn2].
  { split; apply not_elem_of_dom; rewrite Hdom; by vm_compute. }
  destruct (decide (c ∈ inputs_columns)) as [Hin|Hout].
  - rewrite lookup_gset_to_gmap, option_guard_True by (by apply elem_of_list_to_set).
    repeat (apply elem_of_cons in Hin as [->|Hin]; [
      repeat first [rewrite lookup_insert_eq|rewrite lookup_insert_ne by done|rewrite lookup_empty];
      cbn; rewrite ?Hn1, ?Hn2, ?Hcell by (refine (bool_decide_unpack _ _); vm_compute; exact I);
      by vm_compute|]).
    by apply not_elem_of_nil in Hin.
  - rewrite lookup_gset_to_gmap, option_guard_False by (by rewrite elem_of_list_to_set).
    assert (∀ l, forallb (λ c, bool_decide (c ∈ inputs_columns)) l = true → c ∉ l) as Hsub.
    { intros l Hl Hc. apply Hout. rewrite forallb_elem in Hl. exact (bool_decide_unpack _ (Is_true_true_2 _ (Hl c Hc))). }
    assert (row !! c = None) as ->.
    { apply not_elem_of_dom. rewrite Hdom, elem_of_list_to_set. by apply Hsub. }
    assert (filling "runtime_inputs" inputs_columns !! c = None) as ->.
    { apply not_elem_of_dom. by rewrite filling_dom, elem_of_list_to_set. }
    rewrite not_elem_of_list_to_map_1; [done|]. by apply Hsub.
Qed.
Definition v2_tables (m : gmap string Table) (tb : Table) : gmap string Table :=
  <[inputs_v2 := tb]> (delete "runtime_inputs" m).
Definition copy_values : list (option string) :=
  [Some "attempt_id"; Some "destination"; Some "source"; None; Some "present"; Some "size_bytes"; Some "sha256";
   Some "created_at"].
Definition copy_columns : list string :=
  ["attempt_id"; "destination"; "source"; "source_artifact_id"; "present"; "size_bytes"; "sha256"; "created_at"].
Definition rebuilt (tb : Table) : Table :=
  MkTable (list_to_set inputs_columns) (copied copy_columns copy_values (list_to_set inputs_columns) <$> tb_rows tb).

(** What each statement of the rebuild leaves. *)
Lemma rebuild_steps m idx tb : m !! "runtime_inputs" = Some tb → m !! inputs_v2 = None →
  (∀ c, c ∈ old_inputs_columns → c ∈ tb_columns tb) →
  let db1 := MkDatabase (v2_tables m tb) idx in
  let db2 := MkDatabase (<["runtime_inputs" := MkTable (list_to_set inputs_columns) []]> (v2_tables m tb)) idx in
  let db3 := MkDatabase (<["runtime_inputs" := rebuilt tb]> (v2_tables m tb)) idx in
  exec (RenameTable "runtime_inputs" inputs_v2) (MkDatabase m idx) = Ok db1 ∧ exec _INPUTS_DDL db1 = Ok db2 ∧
  exec (CopyRows "runtime_inputs" copy_columns inputs_v2 copy_values) db2 = Ok db3 ∧
  exec (DropTable inputs_v2) db3 = Ok (MkDatabase (<["runtime_inputs" := rebuilt tb]> m) idx).
Proof.
  intros Ht Hv Hcols. cbn zeta. split_and!.
  - cbn. unfold the_table. cbn [db_tables]. rewrite Ht. cbn. rewrite Hv, bool_decide_false by (by intros []). done.
  - unfold _INPUTS_DDL, exec. cbn [db_tables]. unfold v2_tables. by rewrite lookup_insert_ne, lookup_delete_eq by done.
  - unfold exec, the_table. cbn [db_tables]. rewrite lookup_insert_eq. cbn [of_option mbind result_bind].
    rewrite lookup_insert_ne by done.
    assert (v2_tables m tb !! inputs_v2 = Some tb) as -> by apply lookup_insert_eq.
    cbn [of_option mbind result_bind tb_columns tb_rows].
    match goal with |- context [negb (?a && ?b)] => assert (a && b = true) as -> end.
    { apply andb_true_iff. split; [by vm_compute|]. apply forallb_elem. intros [c|] Hc; [|done].
      apply bool_decide_eq_true, Hcols. change old_inputs_columns with (omap id copy_values).
      apply list_elem_of_omap. by exists (Some c). }
    cbn [negb]. unfold put_table. cbn [db_tables db_indexes]. rewrite insert_insert_eq. done.
  - unfold exec, the_table. cbn [db_tables]. unfold v2_tables. rewrite lookup_insert_ne, lookup_insert_eq by done.
    cbn [of_option mbind result_bind db_tables db_indexes]. f_equal. f_equal.
    rewrite delete_insert_ne, delete_insert_id, insert_delete_eq by (by rewrite ?lookup_delete_ne). done.
Qed.

Lemma rebuilt_put db tb : (v < 3)%Z → keeps_meaning db → db_tables db !! "runtime_inputs" = Some tb →
  "source_artifact_id" ∉ tb_columns tb → (∀ c, c ∈ old_inputs_columns → c ∈ tb_columns tb) →
  keeps_meaning (put_table "runtime_inputs" (rebuilt tb) db) ∧
  (∀ p, has db p → has (put_table "runtime_inputs" (rebuilt tb) db) p).
Proof.
  intros Hv [Hw Hm] Ht Hno Hcols.
  assert (("runtime_inputs", inputs_columns) ∈ schema_tables) as Hd%schema_filling
    by (refine (bool_decide_unpack _ _); vm_compute; exact I).
  destruct (wb_rows _ _ Hw _ _ _ Ht Hd) as [Hsub Hdom]. rewrite filling_dom in Hsub.
  assert (tb_columns tb = list_to_set old_inputs_columns) as Hold.
  { apply set_eq. intros c. rewrite elem_of_list_to_set. split; [|by apply Hcols]. intros Hc.
    assert (c ≠ "source_input_id") as Hn1 by (intros ->; by apply Hno, (wb_inputs _ _ Hw)).
    assert (c ≠ "source_artifact_id") as Hn2 by (intros ->; exact (Hno Hc)). apply Hsub, elem_of_list_to_set in Hc.
    unfold inputs_columns in Hc. rewrite !elem_of_cons in Hc.
    unfold old_inputs_columns. rewrite !elem_of_cons. clear - Hc Hn1 Hn2. tauto. }
  assert (∀ tb0 c, db_tables db !! "runtime_inputs" = Some tb0 → c ∈ tb_columns tb0 → c ∈ tb_columns (rebuilt tb)) as Hgrow.
  { intros tb0 c Ht0 Hc. simplify_eq. by apply Hsub. }
  assert (tb_rows (rebuilt tb) = (λ r, r ∪ filling "runtime_inputs" inputs_columns) <$> tb_rows tb) as Hrows.
  { cbn [rebuilt tb_rows]. apply list_fmap_ext. intros i r Hi. apply copied_row; [done|]. rewrite <-Hold.
    eapply Hdom, list_elem_of_lookup_2, Hi. }
  split; [split|by apply has_put].
  - eapply written_put; try done.
    + intros c Hc%(wb_tables _ _ Hw _ _ _ Ht). by apply Hsub.
    + rewrite Hrows. intros r (r0 & -> & Hr)%list_elem_of_fmap. rewrite dom_union_L, filling_dom, (Hdom r0 Hr).
      cbn [rebuilt tb_columns]. by apply subseteq_union_1_L.
  - unfold same_meaning in *; rewrite <-Hm. eapply complete_put; [done|]. rewrite Ht. unfold complete_table.
    cbn [from_option id default]. rewrite Hrows, filling_dom. f_equal.
    + cbn [rebuilt tb_columns]. rewrite union_idemp_L. symmetry. by apply subseteq_union_1_L.
    + rewrite <-list_fmap_compose. apply list_fmap_ext. intros i r _. unfold compose.
      rewrite <-map_union_assoc. by rewrite map_union_idemp.
Qed.

Lemma safe_rebuild c : (v < 3)%Z → keeps_meaning (cn_db c) → holds (stage 2) (cn_db c) →
  ¬ has (cn_db c) (Column "runtime_inputs" "source_artifact_id") →
  safe_at c (executescript rebuild_inputs) (λ p, p = Column "runtime_inputs" "source_artifact_id").
Proof.
  intros Hv Hk Hst Hno. destruct c as [[m idx] budget]. cbn [cn_db] in *.
  assert (∀ c, in_stage 2 (Column "runtime_inputs" c) = true → ∃ tb, m !! "runtime_inputs" = Some tb ∧ c ∈ tb_columns tb) as Hold
    by (intros c Hc%in_stage_spec; apply (Hst _ Hc)).
  destruct (Hold "attempt_id" eq_refl) as (tb & Ht & _).
  assert (∀ c, c ∈ old_inputs_columns → c ∈ tb_columns tb) as Hcols.
  { intros c Hc. destruct (Hold c) as (tb' & Ht' & Hc'); [|by simplify_eq]. revert c Hc. apply forallb_elem.
    vm_compute. reflexivity. }
  pose proof (wb_v2 _ _ (proj1 Hk) Hv) as Hv2. cbn [db_tables] in Hv2.
  destruct (rebuild_steps m idx tb Ht Hv2 Hcols) as (E1 & E2 & E3 & E4).
  destruct (rebuilt_put (MkDatabase m idx) tb Hv Hk Ht) as [Hk' Hg]; [intros Hc; apply Hno; by exists tb|done|].
  assert (∀ db1, db_tables db1 !! inputs_v2 = Some tb → broken db1) as Hb by (intros db1 Hx; split; [done|by exists tb]).
  assert (∀ x, <["runtime_inputs" := x]> (v2_tables m tb) !! inputs_v2 = Some tb) as Hl.
  { intros x. unfold v2_tables. by rewrite lookup_insert_ne, lookup_insert_eq by done. }
  assert (rebuild_inputs = [RenameTable "runtime_inputs" inputs_v2; _INPUTS_DDL;
    CopyRows "runtime_inputs" copy_columns inputs_v2 copy_values; DropTable inputs_v2]) as -> by done.
  unfold safe_at, executescript, iterM_st, mapM_st. unfold mbind, st_bind, mret, st_ret, execute.
  destruct budget as [[|[|[|[|n]]]]|]; cbn [cn_left cn_db fmap option_fmap option_map pred];
    repeat (first [rewrite E1|rewrite E2|rewrite E3|rewrite E4]; cbn [cn_left cn_db fmap option_fmap option_map pred]);
    (split; [done|]).
  1: { split; [done|]. split; [done|]. by left. }
  1: { split; [done|]. split; [done|]. right. apply Hb. cbn [db_tables]. by apply lookup_insert_eq. }
  1, 2: split; [done|]; split; [done|]; right; apply Hb; cbn [db_tables]; apply Hl.
  all: split; [exact Hk'|]; split; [exact Hg|]; intros p ->; eexists; unfold put_table in *; cbn [db_tables];
    rewrite lookup_insert_eq; split; [done|]; cbn [rebuilt tb_columns]; apply elem_of_list_to_set;
    refine (bool_decide_unpack _ _); vm_compute; exact I.
Qed.
(** ** The steps of the migration *)

Lemma safe_then P m Q (m2 : st Conn unit) P2 R : safe P m Q → safe P2 m2 R →
  (∀ p, P2 p → P p ∨ Q p) → safe P (m;; m2) R.
Proof.
  intros H1 H2 Hsub. eapply (safe_weaken P _ (also Q R)); [|done|by intros p Hp; right; right].
  apply safe_bind; [done|]. by eapply safe_weaken; [exact H2|exact Hsub|intros p Hp; by right].
Qed.

Lemma safe_when P k m Q : ((v < k)%Z → safe P m Q) → (∀ p, Q p → stage k p) → safe P (only_when (v <? k)%Z m) Q.
Proof.
  intros H Hq. unfold only_when. destruct (Z.ltb_spec v k) as [Hlt|Hge]; [by apply H|].
  intros c Hk HP. cbn. split; [done|]. split; [done|]. split; [done|]. intros p Hp%Hq. apply (wb_parts _ _ (proj1 Hk)).
  revert Hp. destruct p; cbn; intros [? ?]; (split; [done|lia]).
Qed.

Lemma has_column_spec t c cn : ∃ b, _has_column t c cn = (Ok b, cn) ∧ (b = true ↔ has (cn_db cn) (Column t c)).
Proof.
  eexists. split; [done|]. cbn. destruct (db_tables (cn_db cn) !! t) as [tb|] eqn:Ht.
  - rewrite bool_decide_eq_true. split; [by eauto|]. by intros (tb' & [= <-] & ?).
  - split; [done|]. by intros (tb' & ? & _).
Qed.

Lemma safe_add (P : part_set) t c value d :
  t ≠ meta_table → schema !! t = Some d → d !! c = Some value → (∃ c0, P (Column t c0)) →
  (t = "runtime_runs" → c = "idempotency_key" ∧ value = JNull) →
  ((t, c) = ("runtime_inputs", "source_input_id") → P (Column "runtime_inputs" "source_artifact_id")) →
  safe P (add_missing t c value) (λ p, p = Column t c).
Proof.
  intros Hm Hd Hv [c0 Hc0] Hr Hi cn Hk HP. unfold add_missing, safe_at. unfold mbind at 1, st_bind.
  destruct (has_column_spec t c cn) as (b & -> & Hb). destruct b; cbn [negb].
  - cbn. split; [done|]. split; [done|]. split; [done|]. intros p ->. by apply Hb.
  - assert (¬ has (cn_db cn) (Column t c)) as Hno by (intros Hh%Hb; done).
    apply (safe_execute cn); [done|]. eapply add_column_step; try done; [eexists; by apply HP|]. intros Heq. by apply HP, Hi.
Qed.

Definition all_parts : list part := ((λ tc, Column (fst tc) (snd tc)) <$> all_columns) ++ (Index <$> schema_indexes).
(** Stage [k] is stage [j] and these parts. *)
Definition adds (j k : Z) (new : list part) : bool :=
  forallb (λ p, negb (in_stage k p) || (in_stage j p || bool_decide (p ∈ new))) all_parts.
Lemma stage_step k j (new : list part) : adds j k new = true →
  ∀ p, stage k p → stage j p ∨ p ∈ new.
Proof.
  unfold adds. intros H p Hp. rewrite forallb_elem in H. assert (p ∈ all_parts) as Hin.
  { unfold all_parts. apply elem_of_app. destruct p as [t c|i]; destruct Hp as [Hp _]; [left|right];
      apply list_elem_of_fmap; [by exists (t, c)|by exists i]. }
  apply H in Hin. apply in_stage_spec in Hp. rewrite Hp in Hin. cbn in Hin. apply orb_true_iff in Hin as [Hin|Hin].
  - left. by apply in_stage_spec.
  - right. by apply bool_decide_eq_true in Hin.
Qed.

Definition key_column : part := Column "runtime_runs" "idempotency_key".
(** Stage [n], and the column the unique index is on. *)
Definition reached (n : Z) : part_set := λ p, stage n p ∨ p = key_column.

Definition made (s : Statement) : list part :=
  match s with
  | CreateTable t cols => List.filter (in_stage (born t)) (Column t <$> cols)
  | CreateIndex i _ _ _ => [Index i]
  | _ => []
  end.

Definition ddl_ok (s : Statement) : bool :=
  match s with
  | CreateTable t cols => bool_decide ((t, cols) ∈ schema_tables)
  | CreateIndex i t cols unique =>
      bool_decide (i ∈ schema_indexes) && negb (bool_decide (cols = []))
      && forallb (λ c, in_stage 1 (Column t c) || bool_decide (Column t c = key_column)) cols
      && (negb unique || bool_decide (t = "runtime_runs" ∧ cols = ["idempotency_key"]))
  | _ => false
  end.

Lemma safe_ddl s n : (1 <= n)%Z → ddl_ok s = true → safe (reached n) (execute s) (λ p, p ∈ made s).
Proof.
  intros Hn Hs c Hk HP. apply safe_execute; [done|]. destruct s as [t cols|i t cols unique| | | | | |]; try done; unfold ddl_ok in Hs.
  - apply bool_decide_eq_true in Hs. destruct (create_table_step _ _ _ Hk Hs) as (db' & He & Hk' & Hg & Hh).
    exists db'. split; [done|]. split; [done|]. split; [done|]. intros p Hp. apply list_elem_of_In, filter_In in Hp as [Hp Hst].
    apply list_elem_of_In, list_elem_of_fmap in Hp as (c' & -> & _). apply Hh. exists c'. split; [done|]. by apply in_stage_spec.
  - rewrite !andb_true_iff in Hs. destruct Hs as [[[Hi Hne] Hc] Hu].
    destruct (create_index_step (cn_db c) i t cols unique) as (db' & He & Hk' & Hg & Hh).
    + done.
    + by apply bool_decide_eq_true in Hi.
    + intros ->. done.
    + intros c' Hc'. rewrite forallb_elem in Hc. apply Hc, orb_true_iff in Hc' as [Hst|Hst].
      * apply HP. left. apply in_stage_spec in Hst as [? ?]. split; [done|lia].
      * apply bool_decide_eq_true in Hst. rewrite Hst. apply HP. by right.
    + intros ->. cbn in Hu. by apply bool_decide_eq_true in Hu.
    + exists db'. split; [done|]. split; [done|]. split; [done|]. intros p ->%list_elem_of_singleton. by apply Hh.
Qed.

Lemma safe_script l n : (1 <= n)%Z → forallb ddl_ok l = true → safe (reached n) (executescript l) (λ p, p ∈ l ≫= made).
Proof.
  intros Hn Hl. rewrite forallb_elem in Hl. eapply safe_weaken; [apply safe_iter|done|].
  - intros s Hs. apply safe_ddl; [done|by apply Hl].
  - intros p Hp. right. apply list_elem_of_bind in Hp as (s & Hp & Hs). by exists s.
Qed.
(** A script whose tables and indexes are all that stage [n] adds to stage [j]. *)
Lemma safe_stage_script j n l : (1 <= j)%Z → forallb ddl_ok l = true →
  adds j n (l ≫= made) = true →
  safe (reached j) (executescript l) (stage n).
Proof.
  intros Hn Hl Hp. eapply safe_weaken; [by apply (safe_script l j)|done|].
  intros p Hst. destruct (stage_step _ _ _ Hp p Hst) as [H|H]; [left; by left|by right].
Qed.

(** Columns that stage [n] adds to one table. *)
Definition addable (n : Z) (t : string) (value : json) (c : string) : bool :=
  bool_decide (t ≠ meta_table) && bool_decide (schema !! t ≫= lookup c = Some value)
  && existsb (λ p, match p with Column t' _ => bool_decide (t' = t) && in_stage n p | Index _ => false end) all_parts
  && negb (bool_decide (t = "runtime_runs"))
  && (negb (bool_decide ((t, c) = ("runtime_inputs", "source_input_id")))
      || in_stage n (Column "runtime_inputs" "source_artifact_id")).

Lemma safe_add_stage n t value c : addable n t value c = true →
  safe (reached n) (add_missing t c value) (λ p, p = Column t c).
Proof.
  unfold addable. rewrite !andb_true_iff. intros [[[[Hm Hd] Hx] Hr] Hi].
  apply bool_decide_eq_true in Hm, Hd. apply negb_true_iff, bool_decide_eq_false in Hr.
  apply bind_Some in Hd as (d & Hd & Hc). apply existsb_exists in Hx as (p & _ & Hp). eapply safe_add; try done.
  - destruct p as [t' c'|]; [|done]. apply andb_true_iff in Hp as [->%bool_decide_eq_true Hp]. exists c'. left.
    by apply in_stage_spec.
  - intros Heq. rewrite bool_decide_true in Hi by done. left. by apply in_stage_spec.
Qed.

Lemma safe_add_columns n t value l : forallb (addable n t value) l = true →
  safe (reached n) (iterM_st (λ c, add_missing t c value) l) (λ p, p ∈ Column t <$> l).
Proof.
  intros H. rewrite forallb_elem in H. eapply safe_weaken; [apply safe_iter|done|].
  - intros c Hc. by apply safe_add_stage, H.
  - intros p (c & -> & Hc)%list_elem_of_fmap. right. by exists c.
Qed.

(** The migration, short of the last statement: from version [v] to everything. *)
Definition finishes (P : part_set) (m : st Conn unit) : Prop :=
  ∀ c, keeps_meaning (cn_db c) → holds P (cn_db c) →
  let '(r, c') := m c in
  (cn_left c = None → cn_left c' = None) ∧
  match r with
  | Ok _ => cn_db c' = complete start
  | Err e => cn_left c ≠ None ∧ e = killed ∧ (keeps_meaning (cn_db c') ∨ broken (cn_db c'))
  end.

Lemma finishes_then P m Q (m2 : st Conn unit) P2 : safe P m Q → finishes P2 m2 →
  (∀ p, P2 p → P p ∨ Q p) → finishes P (m;; m2).
Proof.
  intros H1 H2 Hsub c Hk HP. specialize (H1 c Hk HP). unfold safe_at, mbind, st_bind in *. destruct (m c) as [[[]|e] c1].
  - destruct H1 as (Hl1 & Hk1 & Hg1 & HQ). specialize (H2 c1 Hk1). destruct (m2 c1) as [[[]|e] c2].
    + destruct H2 as (Hl2 & Hx); [intros p [Hp|Hp]%Hsub; auto|]. split; [by auto|]. done.
    + destruct H2 as (Hl2 & He & Hx); [intros p [Hp|Hp]%Hsub; auto|]. split; [by auto|]. split; [by auto|done].
  - destruct H1 as (Hl1 & He & Hx). done.
Qed.

Lemma in_last_stage t c : (t, c) ∈ all_columns → stage 10 (Column t c).
Proof.
  intros H. apply in_stage_spec. assert (forallb (in_stage 10) all_parts = true) as Hall by (vm_compute; reflexivity).
  rewrite forallb_elem in Hall. apply Hall. unfold all_parts. apply elem_of_app. left. apply list_elem_of_fmap. by exists (t, c).
Qed.

Lemma complete_tables_done db : written_by v db → holds (stage 10) db → complete_tables (db_tables db) = db_tables db.
Proof.
  intros Hw Hst. apply map_eq. intros t. rewrite lookup_complete_tables. destruct (schema !! t) as [d|] eqn:Hd; [|done].
  assert (∀ c, c ∈ dom d → has db (Column t c)) as Hall
    by (intros c Hc%(schema_columns t d Hd); by apply Hst, in_last_stage).
  destruct (schema_some t d Hd) as [c0 Hc0]. destruct (Hall c0 Hc0) as (tb & Ht & _). rewrite Ht. cbn. f_equal.
  apply complete_table_done; [|by apply (wb_rows _ _ Hw t tb d)]. intros c Hc. destruct (Hall c Hc) as (tb' & Ht' & ?).
  by simplify_eq.
Qed.

Lemma finishes_update : finishes (stage 10) (execute (UpdateMeta "schema_version" version_text)).
Proof.
  intros c Hk HP. destruct Hk as [Hw Hm].
  destruct (HP _ (in_last_stage meta_table "key" ltac:(refine (bool_decide_unpack _ _); vm_compute; exact I)))
    as (tb & Ht & _).
  assert (exec (UpdateMeta "schema_version" version_text) (cn_db c) = Ok (complete (cn_db c))) as He.
  { unfold exec, the_table. rewrite Ht. cbn [of_option mbind result_bind]. f_equal. unfold put_table, complete.
    rewrite complete_tables_done by done. f_equal.
    - apply map_eq. intros t. destruct (decide (meta_table = t)) as [<-|Hne].
      + by rewrite lookup_insert_eq, lookup_alter_eq, Ht.
      + by rewrite lookup_insert_ne, lookup_alter_ne.
    - symmetry. apply subseteq_union_1_L. intros i Hi. apply (HP (Index i)). apply in_stage_spec.
      apply elem_of_list_to_set in Hi. revert i Hi. apply forallb_elem. vm_compute. reflexivity. }
  unfold execute. destruct (cn_left c) as [[|n]|] eqn:Hl.
  - rewrite Hl. split; [done|]. split; [done|]. split; [done|]. by left.
  - rewrite He. cbn. unfold same_meaning in Hm. by rewrite Hm.
  - rewrite He. cbn. unfold same_meaning in Hm. by rewrite Hm.
Qed.

Lemma finishes_step k k' m (m2 : st Conn unit) :
  safe (reached k) m (stage k') → finishes (reached k') m2 → finishes (reached k) (m;; m2).
Proof. intros H1 H2. eapply finishes_then; [done|done|]. intros p [Hp|Hp]; [by right|left; by right]. Qed.

Lemma safe_stage P m Q j k (new : list part) : safe P m Q → (∀ p, p ∈ new → P p ∨ Q p) → (∀ p, stage j p → P p) →
  adds j k new = true →
  safe P m (stage k).
Proof.
  intros H Hq HP Hall. eapply safe_weaken; [exact H|done|].
  intros p Hp. destruct (stage_step _ _ _ Hall p Hp) as [Hs|Hs]; [left; by apply HP|by apply Hq].
Qed.

Lemma step_inputs : safe (reached 2) (only_when (v <? 3)%Z
    (add_missing "runtime_artifacts" "storage" (JStr STORAGE_WORKSPACE);;
     present ← _has_column "runtime_inputs" "source_artifact_id";
     only_when (negb present) (executescript rebuild_inputs))) (stage 3).
Proof.
  apply safe_when; [intros Hv|done].
  apply (safe_stage _ _ (also (λ p, p = Column "runtime_artifacts" "storage")
    (λ p, p = Column "runtime_inputs" "source_artifact_id")) 2 3
    [Column "runtime_artifacts" "storage"; Column "runtime_inputs" "source_artifact_id"]).
  - apply safe_bind; [by apply safe_add_stage; vm_compute|].
    intros c Hk HP. unfold safe_at. unfold mbind at 1, st_bind.
    destruct (has_column_spec "runtime_inputs" "source_artifact_id" c) as (b & -> & Hb). destruct b; cbn [negb only_when].
    + cbn. split; [done|]. split; [done|]. split; [done|]. intros p ->. by apply Hb.
    + apply safe_rebuild; [done|done| |by intros Hh%Hb]. intros p Hp. apply HP. left. by left.
  - intros p. rewrite !elem_of_cons. intros [->|[->|Hp]]; [right; by left|right; by right|by apply not_elem_of_nil in Hp].
  - intros p Hp. by left.
  - vm_compute. reflexivity.
Qed.

Lemma step_attempts : safe (reached 3) (only_when (v <? 4)%Z
    (executescript _DDL;;
     iterM_st (λ column, add_missing "runtime_attempts" column JNull)
       ["cpu_seconds"; "peak_memory_bytes"; "peak_processes"])) (stage 4).
Proof.
  apply safe_when; [intros Hv|done].
  eapply (safe_stage _ _ _ 3 4 ((_DDL ≫= made) ++ (Column "runtime_attempts" <$> ["cpu_seconds"; "peak_memory_bytes"; "peak_processes"]))).
  - apply safe_bind; [by apply (safe_script _DDL 3); [lia|vm_compute]|].
    eapply (safe_weaken _ _ _ _ (λ p, p ∈ Column "runtime_attempts" <$> _));
      [apply (safe_add_columns 3); vm_compute; reflexivity|intros p Hp; by left|intros p Hp; by right].
  - intros p. rewrite elem_of_app. intros Hp. by right.
  - intros p Hp. by left.
  - vm_compute. reflexivity.
Qed.

Lemma migrate_finishes : (1 <= v < 10)%Z → finishes (stage 1) (_migrate v).
Proof.
  intros Hv. unfold _migrate. assert ((v <? 1)%Z = false) as -> by lia. cbn [raise_when].
  match goal with |- finishes _ (_;; ?m) => cut (finishes (stage 1) m); [intros H c; exact (H c)|] end.
  eapply (finishes_then _ _ (λ p, p = key_column) _ (reached 1)); [| |intros p [Hp|Hp]; [by left|by right]].
  { apply safe_when; [intros _|intros p ->; apply in_stage_spec; vm_compute; reflexivity].
    destruct (schema_value "runtime_runs" "idempotency_key" JNull) as (d & Hd & Hk); [vm_compute; reflexivity|].
    eapply safe_add; [done|exact Hd|exact Hk| |done|done]. exists "run_id". apply in_stage_spec. vm_compute. reflexivity. }
  apply (finishes_step 1 2).
  { apply safe_when; [intros _|done]. apply (safe_stage_script 1 2); [lia| |]; vm_compute; reflexivity. }
  apply (finishes_step 2 3); [exact step_inputs|]. apply (finishes_step 3 4); [exact step_attempts|].
  apply (finishes_step 4 5).
  { apply safe_when; [intros _|done]. eapply (safe_stage _ _ _ 4 5 [Column "runtime_stage_runs" "resumable"]).
    - apply (safe_add_stage 4). vm_compute. reflexivity.
    - intros p ->%list_elem_of_singleton. by right.
    - intros p Hp. by left.
    - vm_compute. reflexivity. }
  apply (finishes_step 5 6).
  { apply safe_when; [intros _|done]. eapply (safe_stage _ _ _ 5 6 (made idempotency_index ++ [key_column])).
    - intros c. by apply (safe_ddl idempotency_index 5).
    - intros p. rewrite elem_of_app, list_elem_of_singleton. intros [Hp| ->]; [by right|left; by right].
    - intros p Hp. by left.
    - vm_compute. reflexivity. }
  apply (finishes_step 6 7).
  { apply safe_when; [intros _|done]. apply (safe_stage_script 6 7); [lia| |]; vm_compute; reflexivity. }
  apply (finishes_step 7 8).
  { apply safe_when; [intros _|done]. eapply (safe_stage _ _ _ 7 8 [Column "runtime_inputs" "source_input_id"]).
    - apply (safe_add_stage 7). vm_compute. reflexivity.
    - intros p ->%list_elem_of_singleton. by right.
    - intros p Hp. by left.
    - vm_compute. reflexivity. }
  apply (finishes_step 8 9).
  { apply safe_when; [intros _|done].
    eapply (safe_stage _ _ _ 8 9 (Column "runtime_attempts" <$> ["process_id"; "process_group_id"; "process_start_ticks"])).
    - apply (safe_add_columns 8). vm_compute. reflexivity.
    - intros p Hp. by right.
    - intros p Hp. by left.
    - vm_compute. reflexivity. }
  apply (finishes_step 9 10).
  { apply safe_when; [intros _|done]. apply (safe_stage_script 9 10); [lia| |]; vm_compute; reflexivity. }
  intros c Hk HP. apply finishes_update; [done|]. intros p Hp. apply HP. by left.
Qed.
End from.

(** ** Opening *)

Lemma initialise_old v db budget : (1 <= v < 10)%Z → written_by v db →
  _initialise (MkConn db budget) = _migrate v (MkConn db budget).
Proof.
  intros Hv Hw. destruct (wb_version _ _ Hw) as (row & Hrow & Hs).
  unfold _initialise, mbind, st_bind, gets, lift. cbn [cn_db].
  assert (is_Some (db_tables db !! meta_table)) as Hm.
  { unfold version_row in Hrow. destruct (db_tables db !! meta_table); [eauto|done]. }
  rewrite bool_decide_true by done. cbn [negb cn_db]. rewrite Hrow. cbn [of_option]. rewrite Hs.
  unfold RUNTIME_SCHEMA_VERSION. destruct (Z.eqb_spec v 10); [lia|]. destruct (Z.ltb_spec 10 v); [lia|]. done.
Qed.

Lemma opened_old v start db budget : (1 <= v < 10)%Z → keeps_meaning v start db →
  let '(r, db') := opened budget db in
  match r with
  | Ok _ => db' = complete start
  | Err e => budget ≠ None ∧ e = killed ∧ (keeps_meaning v start db' ∨ broken v db')
  end.
Proof.
  intros Hv Hk. unfold opened. rewrite (initialise_old v) by (try done; apply Hk).
  pose proof (migrate_finishes v start Hv (MkConn db budget) Hk) as H. cbn [cn_db cn_left] in H.
  destruct (_migrate v (MkConn db budget)) as [[[]|e] c'].
  - apply H. intros p Hp. apply (wb_parts _ _ (proj1 Hk)). revert Hp.
    destruct p; cbn; intros [? ?]; (split; [done|lia]).
  - apply H. intros p Hp. apply (wb_parts _ _ (proj1 Hk)). revert Hp.
    destruct p; cbn; intros [? ?]; (split; [done|lia]).
Qed.

Lemma keeps_meaning_refl v db : written_by v db → keeps_meaning v db db.
Proof. done. Qed.

(** A process that was killed while it opened the database, not inside the rebuild. *)
Definition interrupted (v : Z) (db db' : Database) : Prop :=
  (∃ n, opened (Some n) db = (Err killed, db')) ∧ ((v < 3)%Z → db_tables db' !! inputs_v2 = None).

Lemma interrupted_keeps v start db db' : (1 <= v < 10)%Z →
  rtc (interrupted v) db db' → keeps_meaning v start db → keeps_meaning v start db'.
Proof.
  intros Hv. induction 1 as [|db db1 db' [[n Hn] Hv2] _ IH]; [done|]. intros Hk. apply IH.
  pose proof (opened_old v start db (Some n) Hv Hk) as H. rewrite Hn in H.
  destruct H as (_ & _ & [H|[Hlt [tb Ht]]]); [done|]. rewrite (Hv2 Hlt) in Ht. done.
Qed.

(** ** What [complete] is *)

(** No row is lost, and none loses a value. *)
Definition rows_kept (db db' : Database) : Prop :=
  ∀ t tb, t ≠ meta_table → db_tables db !! t = Some tb →
  ∃ tb', db_tables db' !! t = Some tb' ∧ Forall2 (⊆) (tb_rows tb) (tb_rows tb').

Lemma complete_rows db : rows_kept db (complete db).
Proof.
  intros t tb Hm Ht. unfold complete. cbn [db_tables]. rewrite lookup_alter_ne by done.
  rewrite lookup_complete_tables, Ht. destruct (schema !! t) as [d|]; cbn.
  - eexists. split; [done|]. cbn. apply Forall2_fmap_r, Forall_Forall2_diag, Forall_forall. intros r _.
    apply map_union_subseteq_l.
  - exists tb. split; [done|]. by apply Forall_Forall2_diag, Forall_forall.
Qed.

Lemma complete_has db p : stage 10 p → has (complete db) p.
Proof.
  destruct p as [t c|i]; intros [Hin _]; unfold has, complete; cbn [db_tables db_indexes].
  - destruct (all_columns_schema t c Hin) as [d Hd].
    assert (c ∈ dom d) as Hc by by apply (schema_columns t d Hd).
    assert (∃ tb, complete_tables (db_tables db) !! t = Some tb ∧ c ∈ tb_columns tb) as (tb & Htb & Hcol).
    { rewrite lookup_complete_tables, Hd. cbn. eexists. split; [done|]. cbn. by apply elem_of_union_r. }
    destruct (decide (meta_table = t)) as [<-|Hne].
    + rewrite lookup_alter_eq, Htb. cbn. by eexists.
    + rewrite lookup_alter_ne by done. by eexists.
  - apply elem_of_union_l. by apply elem_of_list_to_set.
Qed.

Lemma complete_current v db : written_by v db → opened None (complete db) = (Ok tt, complete db).
Proof.
  intros Hw. destruct (wb_version _ _ Hw) as (row & Hrow & _). unfold version_row in Hrow.
  destruct (db_tables db !! meta_table) as [tb|] eqn:Ht; [|done]. cbn in Hrow.
  destruct (schema_value meta_table "key" JNull) as (d & Hd & Hkey); [vm_compute; reflexivity|].
  assert (∀ r, is_meta "schema_version" (r ∪ d) = is_meta "schema_version" r) as Hsame.
  { intros r. unfold is_meta, cell. rewrite lookup_union, Hkey. by destruct (r !! "key"). }
  assert (∀ r, is_meta "schema_version" (insert "value" (JStr version_text) r) = is_meta "schema_version" r) as Hins.
  { intros r. unfold is_meta, cell. by rewrite lookup_insert_ne. }
  assert (version_row (complete db) = Some (insert "value" (JStr version_text) (row ∪ d))) as Hv.
  { unfold version_row, complete. cbn [db_tables]. rewrite lookup_alter_eq, lookup_complete_tables, Ht, Hd.
    change (fetchone (is_meta "schema_version") (upd (is_meta "schema_version") (insert "value" (JStr version_text))
      ((λ r, r ∪ d) <$> tb_rows tb)) = Some (insert "value" (JStr version_text) (row ∪ d))).
    rewrite fetchone_upd by (intros; by rewrite Hins).
    assert (fetchone (is_meta "schema_version") ((λ r, r ∪ d) <$> tb_rows tb) = Some (row ∪ d)) as ->.
    { revert Hrow. unfold fetchone. induction (tb_rows tb) as [|r rows IH]; [done|]. cbn. rewrite Hsame.
      destruct (is_meta _ r); [by intros [= ->]|exact IH]. }
    cbn. rewrite Hsame. unfold fetchone in Hrow. apply find_some in Hrow as [_ ->]. done. }
  assert (is_Some (db_tables (complete db) !! meta_table)) as Hm.
  { unfold version_row in Hv. destruct (db_tables (complete db) !! meta_table); [eauto|done]. }
  unfold opened, _initialise, mbind, st_bind, gets, lift. cbn [cn_db].
  rewrite bool_decide_true by done. cbn [negb cn_db]. rewrite Hv. cbn [of_option].
  assert (cell "value" (insert "value" (JStr version_text) (row ∪ d)) = JStr version_text) as ->
    by (unfold cell; by rewrite lookup_insert_eq).
  assert (_schema_version (JStr version_text) = Ok 10%Z) as -> by (vm_compute; reflexivity). done.
Qed.

(** C7. Opening a database of an earlier version ends with every table, column and
    index of this build, the current version, and every row with the values it had,
    and opening it again changes nothing. A process that is killed on the way after
    any number of statements, and however often, loses nothing: the next one to open
    the database ends with the same tables, unless the kill fell inside the rebuild of
    runtime_inputs. *)
Theorem migration_restartable v db : (1 <= v < 10)%Z → written_by v db →
  opened None db = (Ok tt, complete db) ∧ (∀ p, stage 10 p → has (complete db) p) ∧ rows_kept db (complete db) ∧
  opened None (complete db) = (Ok tt, complete db) ∧
  (∀ n, opened (Some n) db = (Ok tt, complete db) ∨ fst (opened (Some n) db) = Err killed) ∧
  (∀ db', rtc (interrupted v) db db' → opened None db' = (Ok tt, complete db)).
Proof.
  intros Hv Hw. assert (∀ db', keeps_meaning v db db' → opened None db' = (Ok tt, complete db)) as Hopen.
  { intros db' Hk. pose proof (opened_old v db db' None Hv Hk) as H. destruct (opened None db') as [[[]|e] x].
    - by rewrite H.
    - by destruct H as [H _]. }
  split; [by apply Hopen|]. split; [intros p; apply complete_has|]. split; [apply complete_rows|].
  split; [by eapply complete_current|]. split.
  - intros n. pose proof (opened_old v db db (Some n) Hv (keeps_meaning_refl v db Hw)) as H.
    destruct (opened (Some n) db) as [[[]|e] x]; [left; by rewrite H|]. right. by destruct H as (_ & -> & _).
  - intros db' H. apply Hopen. by eapply interrupted_keeps.
Qed.

(** ** A root of version 2 *)

Definition demo_rows (t : string) : list (gmap string json) :=
  if bool_decide (t = meta_table) then [<["key" := JStr "schema_version"]> {["value" := JStr "2"]}]
  else if bool_decide (t = "runtime_inputs") then
    [list_to_map [("attempt_id", JStr "a1"); ("destination", JStr "in.v"); ("source", JStr "/data/in.v"); ("present", JInt 1);
                  ("size_bytes", JInt 7); ("sha256", JStr "d1"); ("created_at", JStr "2026-01-01")]]
  else [].
Definition demo_root : Database :=
  MkDatabase
    (list_to_map ((λ tc, (fst tc, MkTable (list_to_set (List.filter (λ c, since (fst tc) c <=? 2)%Z (snd tc))) (demo_rows (fst tc))))
      <$> List.filter (λ tc, born (fst tc) <=? 2)%Z schema_tables)) ∅.

Definition has_part (db : Database) (p : part) : bool :=
  match p with
  | Column t c => match db_tables db !! t with Some tb => bool_decide (c ∈ tb_columns tb) | None => false end
  | Index i => bool_decide (i ∈ db_indexes db)
  end.
Lemma has_part_spec db p : has_part db p = true → has db p.
Proof.
  destruct p as [t c|i]; cbn; [|by intros ?%bool_decide_eq_true]. destruct (db_tables db !! t) as [tb|]; [|done].
  intros ?%bool_decide_eq_true. by exists tb.
Qed.

(** What is to be checked of one table. *)
Definition table_ok (t : string) (tb : Table) : bool :=
  match schema !! t with
  | Some d => bool_decide (tb_columns tb ⊆ dom d) && forallb (λ r, bool_decide (dom r = tb_columns tb)) (tb_rows tb)
  | None => true
  end
  && forallb (λ p, match p with
                   | Column t' c => negb (bool_decide (t' = t) && in_stage (born t) p) || bool_decide (c ∈ tb_columns tb)
                   | Index _ => true
                   end) all_parts
  && (negb (bool_decide (t = "runtime_inputs")) || negb (bool_decide ("source_input_id" ∈ tb_columns tb))
      || bool_decide ("source_artifact_id" ∈ tb_columns tb))
  && (negb (bool_decide (t = "runtime_runs")) || bool_decide (NoDup (keys_of ["idempotency_key"] tb))).

Lemma in_all_parts n p : stage n p → p ∈ all_parts.
Proof.
  unfold all_parts. intros Hp. apply elem_of_app. destruct p as [t c|i]; destruct Hp as [Hp _]; [left|right];
    apply list_elem_of_fmap; [by exists (t, c)|by exists i].
Qed.

Lemma written_by_check v db row :
  version_row db = Some row → _schema_version (cell "value" row) = Ok v →
  forallb (λ p, negb (in_stage v p) || has_part db p) all_parts = true →
  forallb (λ ttb, table_ok (fst ttb) (snd ttb)) (map_to_list (db_tables db)) = true →
  db_tables db !! inputs_v2 = None → written_by v db.
Proof.
  intros Hrow Hv Hp Ht H2. rewrite forallb_elem in Hp. rewrite forallb_elem in Ht.
  assert (∀ t tb, db_tables db !! t = Some tb → table_ok t tb = true) as Hok
    by (intros t tb H; apply (Ht (t, tb)); by apply elem_of_map_to_list).
  split.
  - by exists row.
  - intros p Hst. apply has_part_spec. specialize (Hp p (in_all_parts _ _ Hst)). apply in_stage_spec in Hst.
    by rewrite Hst in Hp.
  - intros t tb d H Hd. apply Hok in H. unfold table_ok in H. rewrite Hd, !andb_true_iff in H.
    destruct H as [[[[Hsub Hrows] _] _] _]. split; [by apply bool_decide_eq_true in Hsub|]. intros r Hr.
    rewrite forallb_elem in Hrows. by apply Hrows, bool_decide_eq_true in Hr.
  - intros t tb c H Hst. apply Hok in H. unfold table_ok in H. rewrite !andb_true_iff in H.
    destruct H as [[[_ Hb] _] _]. rewrite forallb_elem in Hb. specialize (Hb _ (in_all_parts _ _ Hst)).
    cbn beta iota in Hb. apply in_stage_spec in Hst. rewrite Hst, bool_decide_true in Hb by done.
    by apply bool_decide_eq_true in Hb.
  - intros tb H Hi. apply Hok in H. unfold table_ok in H. rewrite !andb_true_iff in H. destruct H as [[_ H] _].
    rewrite !bool_decide_true in H by done. by apply bool_decide_eq_true in H.
  - intros tb H. apply Hok in H. unfold table_ok in H. rewrite !andb_true_iff in H. destruct H as [_ H].
    rewrite bool_decide_true in H by done. by apply bool_decide_eq_true in H.
  - done.
Qed.

Lemma demo_written : written_by 2 demo_root.
Proof. eapply written_by_check; vm_compute; reflexivity. Qed.

Lemma migration_restartable_witness :
  written_by 2 demo_root ∧ opened None demo_root = (Ok tt, complete demo_root) ∧
  (length ∘ tb_rows <$> db_tables (complete demo_root) !! "runtime_inputs") = Some 1%nat.
Proof.
  split; [exact demo_written|]. split; [|vm_compute; reflexivity].
  refine (proj1 (migration_restartable 2 demo_root _ demo_written)). lia.
Defined.

(** Killed after the rename of runtime_inputs, the root never opens again; killed after
    the new table was made, it opens without the inputs it had. *)
Definition after (n : nat) : Database := snd (opened (Some n) demo_root).
Example rebuild_not_restartable :
  opened None (after 3) = (Err (OtherError "no such table"), after 3) ∧
  (tb_rows <$> db_tables (after 3) !! inputs_v2) = (tb_rows <$> db_tables demo_root !! "runtime_inputs") ∧
  fst (opened None (after 4)) = Ok tt ∧
  (tb_rows <$> db_tables (snd (opened None (after 4))) !! "runtime_inputs") = Some [].
Proof. split_and!; vm_compute; reflexivity. Qed.

(** A version that is missing, is no number, is below 1 or is of a later build is refused,
    and nothing is written. *)
Lemma unreadable_version_refused budget db row :
  is_Some (db_tables db !! meta_table) → version_row db = row →
  (match row with
   | None => True
   | Some row => match _schema_version (cell "value" row) with
                 | Ok v => (v < 1 ∨ RUNTIME_SCHEMA_VERSION < v)%Z
                 | Err _ => True
                 end
   end) →
  ∃ what, opened budget db = (Err (RuntimeStoreError what), db).
Proof.
  intros Hm <- H. unfold opened, _initialise, mbind, st_bind, gets, lift. cbn [cn_db].
  rewrite bool_decide_true by done. cbn [negb cn_db]. destruct (version_row db) as [row|]; cbn [of_option]; [|by eexists].
  unfold _schema_version in *. destruct (py_int_of (cell "value" row)) as [v|]; [|by eexists].
  unfold RUNTIME_SCHEMA_VERSION in *. destruct (Z.eqb_spec v 10); [lia|]. destruct (Z.ltb_spec 10 v); [by eexists|].
  unfold _migrate, mbind, st_bind, lift. destruct (Z.ltb_spec v 1); [by eexists|lia].
Qed.

(** ** Creation *)

Definition no_database : Database := MkDatabase ∅ ∅.
(** A new root has everything; but killed after its first statement and before its last,
    it is refused from then on. *)
Example creation_not_restartable :
  fst (opened None no_database) = Ok tt ∧
  forallb (has_part (snd (opened None no_database))) all_parts = true ∧
  ∀ n, (1 <= n <= 14)%nat → let db := snd (opened (Some n) no_database) in
    ∃ what, opened None db = (Err (RuntimeStoreError what), db).
Proof.
  split; [vm_compute; reflexivity|]. split; [vm_compute; reflexivity|]. intros n Hn. cbn zeta.
  assert (forallb (λ n, let db := snd (opened (Some n) no_database) in
    bool_decide (is_Some (db_tables db !! meta_table)) && bool_decide (version_row db = None)) (seq 1 14) = true) as H
    by (vm_compute; reflexivity).
  rewrite forallb_elem in H. specialize (H n). cbn zeta beta in H. rewrite andb_true_iff, !bool_decide_eq_true in H.
  destruct H as [H1 H2]; [apply elem_of_seq; lia|]. by eapply unreadable_version_refused; [exact H1|exact H2|].
Qed.
