(* ===== verification/Host.v ===== *)
(** * runtime/guardian.py and runtime/process_fence.py against the host

    What the guardian and the fence ask of Linux: the stat and statm files of a process,
    process groups, signals, the monotonic clock.  Each question is an operation on a state
    [H], so that anything may happen between two of them.  Times are microseconds. *)

From stdpp Require Import gmap.
From S2P Require Export Text StoreState Guardian.
Open Scope string_scope.
Open Scope list_scope.

(** ** The stat file *)

(** [s.split()] *)
Definition space_first (s : string) : bool := match s with String c _ => is_space c | EmptyString => false end.
Fixpoint words (s : string) : list string :=
  match s with
  | EmptyString => []
  | String c s' =>
      if is_space c then words s'
      else match words s' with
           | w :: ws => if space_first s' then String c EmptyString :: w :: ws else String c w :: ws
           | [] => [String c EmptyString]
           end
  end.

(** [s.rfind(c)], [None] for -1. *)
Fixpoint rfind (c : ascii) (s : string) : option nat :=
  match s with
  | EmptyString => None
  | String d s' => match rfind c s' with
                   | Some i => Some (S i)
                   | None => if bool_decide (d = c) then Some O else None
                   end
  end.

(** [raw[raw.rfind(")") + 2:].split()] *)
Definition stat_tail (raw : string) : list string :=
  words (str_drop (match rfind ")" raw with Some i => i + 2 | None => 1 end) raw).

Definition field_at (i : nat) (fields : list string) : result string := of_option (OtherError "IndexError") (fields !! i).
Definition int_at (i : nat) (fields : list string) : result Z :=
  f ← field_at i fields;
  of_option (ValueError "int") (py_int f).

(** [except OSError], whose subclasses the source lists beside it, and
    [except (OSError, ValueError, IndexError)]. *)
Definition is_os_error (e : exn) : bool := bool_decide (e = OtherError "OSError").
Definition is_read_error (e : exn) : bool :=
  is_os_error e || is_value_error e || bool_decide (e = OtherError "IndexError").

Definition SIGTERM : Z := 15.
Definition SIGKILL : Z := 9.

Section host.
Context {H : Type}.
(** The two files of a process, [os.getpgid], [os.killpg], [os.getpgrp], [time.monotonic]
    and [time.sleep]; whether [Popen.poll] has seen the root end; [_process_tree]. *)
Context (stat statm : Z → st H string) (getpgid : Z → st H Z) (killpg : Z → Z → st H unit) (getpgrp : st H Z).
Context (monotonic : st H Z) (sleep : Z → st H unit) (poll : st H bool) (process_tree : Z → st H (list Z)).

(** ** guardian.py *)

Definition _start_ticks (pid : Z) : st H (option Z) :=
  catch (raw ← stat pid; ticks ← lift (int_at 19 (stat_tail raw)); mret (Some ticks)) is_read_error (λ _, mret None).

Definition is_zombie (fields : list string) : bool := bool_decide (head fields = Some "Z").

Definition _process_is_running (pid : Z) : st H bool :=
  catch (raw ← stat pid;
         let tail := stat_tail raw in
         mret (negb (bool_decide (tail = [])) && negb (is_zombie tail)))
    is_os_error (λ _, mret false).

(** One process of [measure]: the CPU ticks are added before statm is read. *)
Definition measure_process (acc : Z * Z * Z) (pid : Z) : st H (Z * Z * Z) :=
  let '(processes, cpu_ticks, resident_pages) := acc in
  cpu ← catch (raw ← stat pid;
               let tail := stat_tail raw in
               if bool_decide (tail = []) || is_zombie tail then mret None
               else ticks ← lift (mapM_result (λ i, int_at i tail) [11; 12; 13; 14]%nat);
                    mret (Some (foldr Z.add 0%Z ticks))) is_read_error (λ _, mret None);
  match cpu with
  | None => mret acc
  | Some cpu =>
      pages ← catch (raw ← statm pid; pages ← lift (int_at 1 (words raw)); mret (Some pages)) is_read_error (λ _, mret None);
      match pages with
      | None => mret (processes, (cpu_ticks + cpu)%Z, resident_pages)
      | Some pages => mret ((processes + 1)%Z, (cpu_ticks + cpu)%Z, (resident_pages + pages)%Z)
      end
  end.
Fixpoint measure_all (acc : Z * Z * Z) (pids : list Z) : st H (Z * Z * Z) :=
  match pids with
  | [] => mret acc
  | pid :: pids => acc ← measure_process acc pid; measure_all acc pids
  end.

(** [os.sysconf(name)], or the fallback when it raises or is no integer. *)
Definition _sysconf (value : option Z) (fallback : Z) : Z := default fallback value.
(** [a / b] of two integers below 2^53. *)
Definition true_div (a b : Z) : spec_float := SFdiv 53 1024 (float_of_Z a) (float_of_Z b).

Definition measure (clk_tck page_size : option Z) (root_pid : Z) : st H measurement :=
  pids ← process_tree root_pid;
  total ← measure_all (0, 0, 0)%Z pids;
  let '(processes, cpu_ticks, resident_pages) := total in
  mret (processes, true_div cpu_ticks (_sysconf clk_tck 100), (resident_pages * _sysconf page_size 4096)%Z).

Definition _breach (clk_tck page_size : option Z) (root_pid : Z) (limits : ResourceRequest) : st H (option string) :=
  m ← measure clk_tck page_size root_pid;
  mret (_breach_values m limits).

Definition group_of (pid : Z) : st H (option Z) :=
  catch (g ← getpgid pid; mret (Some g)) is_os_error (λ _, mret None).
Definition signal_group (signum group : Z) : st H unit := catch (killpg group signum) is_os_error (λ _, mret tt).

Definition _signal_processes (pids : list Z) (signum : Z) : st H unit :=
  own_group ← getpgrp;
  groups ← mapM_st group_of pids;
  iterM_st (signal_group signum) (remove_dups (List.filter (λ g, negb (g =? own_group)%Z) (omap id groups))).

(** [any(self._process_is_running(pid) for pid in targets if pid != process.pid)] *)
Fixpoint any_running (root_pid : Z) (targets : list Z) : st H bool :=
  match targets with
  | [] => mret false
  | pid :: targets =>
      if (pid =? root_pid)%Z then any_running root_pid targets
      else running ← _process_is_running pid;
           if (running : bool) then mret true else any_running root_pid targets
  end.

(** [True] when everything was seen to end before the deadline. *)
Fixpoint wait_ended (poll_interval deadline root_pid : Z) (targets : list Z) (fuel : nat) : st H bool :=
  match fuel with
  | O => raise (OtherError "fuel")
  | S fuel =>
      now ← monotonic;
      if (deadline <=? now)%Z then mret false
      else
        root_done ← poll;
        running ← any_running root_pid targets;
        if (root_done : bool) && negb running then mret true
        else sleep (Z.min poll_interval 50000);; wait_ended poll_interval deadline root_pid targets fuel
  end.

Definition _kill_tree (targets : list Z) : st H unit := _signal_processes targets SIGKILL.

Definition _terminate_tree (poll_interval terminate_grace root_pid : Z) (fuel : nat) : st H unit :=
  exited ← poll;
  if (exited : bool) then mret tt
  else
    targets ← process_tree root_pid;
    _signal_processes targets SIGTERM;;
    now ← monotonic;
    ended ← wait_ended poll_interval (now + terminate_grace) root_pid targets fuel;
    if (ended : bool) then mret tt else _kill_tree targets.

(** ** process_fence.py *)

(** [int(v)] of a column that may be NULL. *)
Definition int_column (v : option Z) : result Z := of_option (TypeError "int") v.

Definition _alive (row : AttemptRow) : st H bool :=
  match a_process_id row, a_process_group_id row with
  | None, None => mret false
  | _, _ =>
      gone ← (match a_process_id row, a_process_start_ticks row with
              | Some pid, Some ticks =>
                  catch (raw ← stat pid;
                         let fields := stat_tail raw in
                         state ← lift (field_at 0 fields);
                         if bool_decide (state = "Z") then mret true
                         else start ← lift (int_at 19 fields); mret (negb (start =? ticks)%Z))
                    is_read_error (λ _, mret true)
              | _, _ => mret false
              end);
      if (gone : bool) then mret false
      else catch (g ← lift (int_column (a_process_group_id row)); killpg g 0;; mret true)
             (λ e, is_os_error e || is_value_error e) (λ _, mret false)
  end.

Fixpoint wait_gone (row : AttemptRow) (deadline : Z) (fuel : nat) : st H bool :=
  match fuel with
  | O => raise (OtherError "fuel")
  | S fuel =>
      now ← monotonic;
      if (deadline <=? now)%Z then mret false
      else alive ← _alive row;
           if negb alive then mret true else sleep 20000;; wait_gone row deadline fuel
  end.

Definition fence_expired_process (row : AttemptRow) (fuel : nat) : st H bool :=
  alive ← _alive row;
  if negb alive then mret true
  else
    sent ← catch (g ← lift (int_column (a_process_group_id row)); killpg g SIGTERM;; mret true) is_os_error (λ _, mret false);
    if negb sent then alive ← _alive row; mret (negb alive)
    else
      now ← monotonic;
      gone ← wait_gone row (now + 500000) fuel;
      if (gone : bool) then mret true
      else
        catch (g ← lift (int_column (a_process_group_id row)); killpg g SIGKILL) is_os_error (λ _, mret tt);;
        alive ← _alive row;
        mret (negb alive).
End host.

(** [ProcessGuardian(...)] checks what it is given, and [supports_limits]. *)
Definition guardian_init (poll_interval terminate_grace measure_interval : Z) : result unit :=
  raise_when (poll_interval <=? 0)%Z (ValueError "poll_interval");;
  raise_when (terminate_grace <=? 0)%Z (ValueError "terminate_grace");;
  raise_when (measure_interval <=? 0)%Z (ValueError "measure_interval").
Definition supports_limits (linux proc_is_dir : bool) : bool := linux && proc_is_dir.

(** ** Reading the stat file back *)

(** The line of a process: its name stands in parentheses and may hold anything. *)
Definition stat_line (pid : Z) (name : string) (fields : list string) : string :=
  pretty.pretty pid +:+ " (" +:+ name +:+ ") " +:+ str_join " " fields.

Definition plain (f : string) : bool :=
  negb (str_empty f) && str_forall (λ c, negb (is_space c) && negb (bool_decide (c = ")"%char))) f.

Lemma rfind_none c s : str_forall (λ d, negb (bool_decide (d = c))) s = true → rfind c s = None.
Proof.
  induction s as [|d s IH]; cbn; [done|]. intros [Hd Hs]%andb_true_iff. rewrite IH by done.
  destruct (bool_decide (d = c)); done.
Qed.
Lemma rfind_last c a b : rfind c b = None → rfind c (a +:+ String c b) = Some (String.length a).
Proof.
  intros Hb. induction a as [|d a IH]; cbn.
  - change (EmptyString +:+ String c b) with (String c b). cbn [rfind]. by rewrite Hb, bool_decide_true.
  - change (String d a +:+ String c b) with (String d (a +:+ String c b)). cbn [rfind String.length]. by rewrite IH.
Qed.
Lemma str_drop_app a b n : n = String.length a → str_drop n (a +:+ b) = b.
Proof. intros ->. induction a as [|c a IH]; [done|]. exact IH. Qed.

Lemma str_app_nil_r f : f +:+ EmptyString = f.
Proof. induction f as [|c f IH]; [done|]. change (String c (f +:+ EmptyString) = String c f). by rewrite IH. Qed.

Lemma words_word f s : plain f = true → space_first s = true ∨ s = EmptyString → words (f +:+ s) = f :: words s.
Proof.
  unfold plain. intros [Hne Hf]%andb_true_iff Hs. induction f as [|c f IH]; [done|]. cbn [str_forall] in Hf.
  apply andb_true_iff in Hf as [[Hc _]%andb_true_iff Hf]. apply negb_true_iff in Hc.
  change (words (String c (f +:+ s)) = String c f :: words s). cbn [words]. rewrite Hc.
  destruct f as [|d f].
  - change (EmptyString +:+ s) with s. destruct Hs as [Hs| ->]; [|done]. rewrite Hs. by destruct (words s).
  - rewrite IH by done. assert (space_first (String d f +:+ s) = false) as ->; [|done].
    change (is_space d = false). cbn [str_forall] in Hf.
    apply andb_true_iff in Hf as [[Hd _]%andb_true_iff _]. by apply negb_true_iff in Hd.
Qed.

Lemma words_concat fields : forallb plain fields = true → words (str_join " " fields) = fields.
Proof.
  induction fields as [|f fields IH]; [done|]. cbn [forallb]. intros [Hf Hfs]%andb_true_iff.
  destruct fields as [|g fields].
  - cbn [str_join]. assert (words (f +:+ EmptyString) = [f]) as Hw by (by rewrite words_word by (done || by right)).
    revert Hw. by rewrite str_app_nil_r.
  - change (str_join " " (f :: g :: fields)) with (f +:+ (" " +:+ str_join " " (g :: fields))).
    rewrite words_word; [|done|by left]. f_equal. cbn [words]. apply IH, Hfs.
Qed.

Lemma plain_no_paren fields : forallb plain fields = true →
  str_forall (λ d, negb (bool_decide (d = ")"%char))) (str_join " " fields) = true.
Proof.
  assert (∀ f, plain f = true → str_forall (λ d, negb (bool_decide (d = ")"%char))) f = true) as Hp.
  { unfold plain. intros f [_ Hf]%andb_true_iff. induction f as [|c f IH]; [done|]. cbn [str_forall] in *.
    apply andb_true_iff in Hf as [[_ Hc]%andb_true_iff Hf]. by rewrite Hc, IH. }
  induction fields as [|f fields IH]; [done|]. cbn [forallb]. intros [Hf Hfs]%andb_true_iff.
  destruct fields as [|g fields]; [by apply Hp|].
  change (str_join " " (f :: g :: fields)) with (f +:+ (" " +:+ str_join " " (g :: fields))).
  rewrite !str_forall_app, Hp by done. rewrite IH by done. done.
Qed.

(** Whatever the command is called, blanks and parentheses included, the fields after its
    name are the ones the kernel wrote. *)
Lemma stat_tail_read pid name fields : forallb plain fields = true → stat_tail (stat_line pid name fields) = fields.
Proof.
  intros Hf. unfold stat_tail, stat_line.
  assert (pretty.pretty pid +:+ " (" +:+ name +:+ ") " +:+ str_join " " fields
    = (pretty.pretty pid +:+ " (" +:+ name) +:+ String ")" (" " +:+ str_join " " fields)) as ->.
  { change (") " +:+ str_join " " fields) with (String ")" (" " +:+ str_join " " fields)).
    by rewrite !str_app_assoc. }
  generalize (pretty.pretty pid +:+ " (" +:+ name). intros a.
  rewrite rfind_last by (apply rfind_none; cbn; by apply plain_no_paren).
  assert (a +:+ String ")" (" " +:+ str_join " " fields) = (a +:+ ") ") +:+ str_join " " fields) as ->
    by (by rewrite str_app_assoc).
  rewrite str_drop_app; [by apply words_concat|].
  clear. induction a as [|c a IH]; [done|]. cbn in *. by rewrite IH.
Qed.

(** ** A host that answers as it likes

    A run is the list of what was asked so far; which processes there are, and what the
    clock says, is any function of it. *)

Inductive Event :=
| ReadStat (pid : Z) | AskGroup (pid : Z) | AskOwn | Sent (group signum : Z) | ReadClock | Slept (d : Z) | Polled | Listed.
Abbreviation trace := (list Event).

(** [pc_name] is [None] for a name that is not UTF-8; [pc_between] are the fields from
    the parent to the one before the start time. *)
Record Proc := MkProc {
  pc_name : option string; pc_state : string; pc_between : list string; pc_start : Z; pc_group : Z }.
Definition proc_fields (p : Proc) : list string := pc_state p :: pc_between p ++ [pretty.pretty (pc_start p)].
Record proc_ok (p : Proc) : Prop := {
  po_fields : forallb plain (proc_fields p) = true;
  po_count : length (pc_between p) = 18%nat;
  po_start : (0 <= pc_start p)%Z }.

Section linux.
Context (procs : trace → gmap Z Proc) (clock : trace → Z) (own : Z) (ended : trace → bool) (tree : trace → list Z).

Definition os_error {A} : result A := Err (OtherError "OSError").
Definition at_process {A} (e : Event) (pid : Z) (f : Proc → result A) : st trace A := λ tr,
  (match procs tr !! pid with Some p => f p | None => os_error end, tr ++ [e]).
Definition l_stat (pid : Z) : st trace string :=
  at_process (ReadStat pid) pid (λ p, match pc_name p with
                                      | Some name => Ok (stat_line pid name (proc_fields p))
                                      | None => Err (ValueError "UnicodeDecodeError")
                                      end).
Definition l_getpgid (pid : Z) : st trace Z := at_process (AskGroup pid) pid (λ p, Ok (pc_group p)).
Definition in_group (g : Z) (m : gmap Z Proc) : bool := List.existsb (λ kp, (pc_group (snd kp) =? g)%Z) (map_to_list m).
Definition l_killpg (g s : Z) : st trace unit := λ tr,
  (if in_group g (procs tr) then Ok tt else os_error, tr ++ [Sent g s]).
Definition answer {A} (e : Event) (f : trace → A) : st trace A := λ tr, (Ok (f tr), tr ++ [e]).
Definition l_getpgrp : st trace Z := answer AskOwn (λ _, own).
Definition l_monotonic : st trace Z := answer ReadClock clock.
Definition l_sleep (d : Z) : st trace unit := answer (Slept d) (λ _, tt).
Definition l_poll : st trace bool := answer Polled ended.
Definition l_tree (root : Z) : st trace (list Z) := answer Listed tree.

Local Abbreviation l_alive := (_alive l_stat l_killpg).
Definition l_fence := fence_expired_process l_stat l_killpg l_monotonic l_sleep.
Definition l_running := any_running l_stat.
Definition l_signal := _signal_processes l_getpgid l_killpg l_getpgrp.
Definition l_terminate := _terminate_tree l_stat l_getpgid l_killpg l_getpgrp l_monotonic l_sleep l_poll l_tree.

Context (Hprocs : ∀ tr pid p, procs tr !! pid = Some p → proc_ok p).
Context (Hclock : ∀ tr e, (clock tr <= clock (tr ++ [e]))%Z).
Context (Hsleep : ∀ tr d, (clock tr + d <= clock (tr ++ [Slept d]))%Z).

(** The process of a row as the host shows it now. *)
Definition recorded (tr : trace) (pid ticks : Z) : bool :=
  match procs tr !! pid with
  | Some p => bool_decide (is_Some (pc_name p)) && negb (bool_decide (pc_state p = "Z")) && (pc_start p =? ticks)%Z
  | None => false
  end.

(** What a look at a row asks first, and whether that is the recorded process: a row
    without a process, or without the time it started, is taken at its word. *)
Definition asks (row : AttemptRow) : trace :=
  match a_process_id row, a_process_start_ticks row with Some pid, Some _ => [ReadStat pid] | _, _ => [] end.
Definition identified (row : AttemptRow) (tr : trace) : bool :=
  match a_process_id row, a_process_start_ticks row with
  | Some pid, Some ticks => recorded tr pid ticks
  | _, _ => true
  end.

Lemma start_field p : proc_ok p → int_at 19 (proc_fields p) = Ok (pc_start p).
Proof.
  intros [_ Hl Hs]. unfold int_at, field_at, proc_fields.
  assert ((pc_state p :: pc_between p ++ [pretty.pretty (pc_start p)]) !! 19%nat = Some (pretty.pretty (pc_start p))) as ->.
  { change (((pc_between p ++ [pretty.pretty (pc_start p)]) : list string) !! 18%nat = Some (pretty.pretty (pc_start p))).
    rewrite lookup_app_r, Hl by lia. done. }
  cbn [of_option mbind result_bind]. by rewrite py_int_pretty.
Qed.

(** A look at the process: what it asks, and what it concludes. *)
Lemma alive_look row g tr : a_process_group_id row = Some g →
  l_alive row tr =
    let tr1 := tr ++ asks row in
    if identified row tr then (Ok (in_group g (procs tr1)), tr1 ++ [Sent g 0]) else (Ok false, tr1).
Proof.
  intros Hg. unfold _alive, identified, asks. rewrite Hg.
  unfold catch, lift, mbind, st_bind, mret, st_ret, l_stat, at_process, recorded.
  destruct (a_process_id row) as [pid|]; [destruct (a_process_start_ticks row) as [ticks|]|]; cbn [int_column of_option].
  2,3: rewrite app_nil_r; unfold l_killpg; by destruct (in_group g _).
  destruct (procs tr !! pid) as [p|] eqn:Hpr; [|done].
  destruct (pc_name p) as [name|]; [|done]. rewrite bool_decide_true by eauto.
  pose proof (Hprocs _ _ _ Hpr) as Hok. rewrite stat_tail_read by apply Hok. cbn [andb].
  unfold field_at. change (proc_fields p !! 0) with (Some (pc_state p)). cbn [of_option].
  case_bool_decide as Hz; [done|]. cbn [negb andb].
  rewrite start_field by done. destruct (pc_start p =? ticks)%Z; cbn [negb]; [|done].
  unfold l_killpg. destruct (in_group g _); done.
Qed.

(** What follows a run: nothing but looks, and the group is only probed. *)
Definition only_probes (g : Z) (evs : trace) : Prop := ∀ g' s, Sent g' s ∈ evs → g' = g ∧ s = 0%Z.
Definition only_to (g : Z) (evs : trace) : Prop := ∀ g' s, Sent g' s ∈ evs → g' = g.

Lemma probes_to g evs : only_probes g evs → only_to g evs.
Proof. intros H g' s Hs. by destruct (H g' s Hs). Qed.
Lemma only_to_app g evs evs' : only_to g evs → only_to g evs' → only_to g (evs ++ evs').
Proof. intros H1 H2 g' s [Hs|Hs]%elem_of_app; [by eapply H1|by eapply H2]. Qed.
Lemma only_probes_app g evs evs' : only_probes g evs → only_probes g evs' → only_probes g (evs ++ evs').
Proof. intros H1 H2 g' s [Hs|Hs]%elem_of_app; [by apply H1|by apply H2]. Qed.
Lemma only_probes_one g e : (∀ g' s, e = Sent g' s → g' = g ∧ s = 0%Z) → only_probes g [e].
Proof. intros H g' s Hs%list_elem_of_singleton. by apply H. Qed.

Lemma clock_app tr evs : (clock tr <= clock (tr ++ evs))%Z.
Proof.
  induction evs as [|e evs IH] using rev_ind; [by rewrite app_nil_r|]. rewrite app_assoc. pose proof (Hclock (tr ++ evs) e). lia.
Qed.

Lemma run_monotonic tr : l_monotonic tr = (Ok (clock tr), tr ++ [ReadClock]).
Proof. done. Qed.
Lemma run_killpg g s tr : l_killpg g s tr = (if in_group g (procs tr) then Ok tt else os_error, tr ++ [Sent g s]).
Proof. done. Qed.
Lemma run_sleep d tr : l_sleep d tr = (Ok tt, tr ++ [Slept d]).
Proof. done. Qed.
Lemma run_poll tr : l_poll tr = (Ok (ended tr), tr ++ [Polled]).
Proof. done. Qed.

Section row.
Context (row : AttemptRow) (g : Z) (Hg : a_process_group_id row = Some g).

Lemma asks_probes : only_probes g (asks row).
Proof. unfold asks. repeat case_match; intros g' s; first [by intros ?%list_elem_of_singleton|by intros ?%not_elem_of_nil]. Qed.

Lemma alive_total tr : ∃ b evs, l_alive row tr = (Ok b, tr ++ evs) ∧ only_probes g evs.
Proof.
  rewrite (alive_look row g tr Hg). cbn zeta. destruct (identified row tr).
  - eexists _, (asks row ++ [Sent g 0]). rewrite app_assoc. split; [done|].
    apply only_probes_app; [apply asks_probes|]. apply only_probes_one. by intros g' s [= -> ->].
  - eexists _, (asks row). split; [done|]. apply asks_probes.
Qed.

(** The last look of a run found [b]. *)
Definition last_look (tr : trace) (b : bool) : Prop := ∃ pre, l_alive row pre = (Ok b, tr).

(** What a run ends with: a look that found the recorded process and its group, or one that
    did not. *)
Definition found (tr : trace) : Prop :=
  ∃ pre, tr = (pre ++ asks row) ++ [Sent g 0] ∧ identified row pre = true ∧ in_group g (procs (pre ++ asks row)) = true.
Definition not_found (tr : trace) : Prop :=
  ∃ pre, (tr = pre ++ asks row ∧ identified row pre = false) ∨
         (tr = (pre ++ asks row) ++ [Sent g 0] ∧ identified row pre = true ∧ in_group g (procs (pre ++ asks row)) = false).

Lemma last_look_means tr b : last_look tr b → if b then found tr else not_found tr.
Proof.
  intros [pre H]. rewrite (alive_look row g pre Hg) in H. cbn zeta in H.
  destruct (identified row pre) eqn:Hi; injection H as <- <-.
  - destruct (in_group g _) eqn:Hin; exists pre; [done|by right].
  - exists pre. by left.
Qed.

Lemma wait_gone_total deadline fuel : ∀ tr,
  (1 <= fuel)%nat → (deadline - clock tr <= (Z.of_nat fuel - 1) * 20000)%Z →
  ∃ b evs, wait_gone l_stat l_killpg l_monotonic l_sleep row deadline fuel tr = (Ok b, tr ++ evs) ∧ only_probes g evs ∧
    (b = true → last_look (tr ++ evs) false).
Proof.
  induction fuel as [|fuel IH]; intros tr Hf Hd; [lia|]. cbn [wait_gone].
  unfold mbind, st_bind. rewrite run_monotonic. cbn beta iota.
  destruct (Z.leb_spec deadline (clock tr)) as [Hle|Hlt].
  { exists false, [ReadClock]. split; [done|]. split; [by apply only_probes_one|done]. }
  destruct (alive_total (tr ++ [ReadClock])) as (b & evs & Ha & Hq). rewrite Ha. destruct b; cbn [negb].
  - set (tr2 := (tr ++ [ReadClock]) ++ evs). rewrite run_sleep. cbn beta iota.
    destruct (IH (tr2 ++ [Slept 20000])) as (b & evs' & Hw & Hq' & Hl).
    + lia.
    + pose proof (Hsleep tr2 20000). pose proof (clock_app tr ([ReadClock] ++ evs)) as Hm. rewrite app_assoc in Hm.
      fold tr2 in Hm. lia.
    + exists b, ([ReadClock] ++ evs ++ [Slept 20000] ++ evs'). unfold tr2 in *. rewrite !app_assoc in *.
      split; [exact Hw|]. split; [|exact Hl]. rewrite <-!app_assoc.
      repeat apply only_probes_app; try done; by apply only_probes_one.
  - exists true, ([ReadClock] ++ evs). rewrite app_assoc. split; [done|].
    split; [apply only_probes_app; [by apply only_probes_one|done]|]. intros _. by eexists.
Qed.

Ltac among := rewrite !elem_of_app, !list_elem_of_singleton; auto 12.

(** A signal to the group found nobody in it. *)
Definition group_missed (tr : trace) : Prop := ∃ pre, pre `prefix_of` tr ∧ in_group g (procs pre) = false.

Lemma fence_spec fuel tr : (26 <= fuel)%nat →
  ∃ gone evs, l_fence row fuel tr = (Ok gone, tr ++ evs) ∧ only_to g evs ∧ last_look (tr ++ evs) (negb gone) ∧
    (identified row tr = false → gone = true ∧ only_probes g evs) ∧ (gone = true ∧ only_probes g evs ∨ Sent g SIGTERM ∈ evs) ∧
    (gone = false → Sent g SIGKILL ∈ evs ∨ group_missed (tr ++ evs)).
Proof.
  intros Hfuel. unfold l_fence, fence_expired_process.
  destruct (alive_total tr) as (b & evs & Ha & Hq). pose proof (alive_look row g tr Hg) as Hr. cbn zeta in Hr.
  unfold mbind at 1, st_bind. rewrite Ha. destruct b; cbn [negb].
  2: { exists true, evs. split; [done|]. split; [by apply probes_to|]. split; [by eexists|].
     split; [done|]. split; [by left|done]. }
  assert (identified row tr = true) as Hrec.
  { destruct (identified row tr); [done|]. rewrite Ha in Hr. discriminate. }
  assert (∀ s, only_to g [Sent g s]) as Hone by (by intros s g' s' [= -> _]%list_elem_of_singleton).
  unfold catch, lift, mbind, st_bind, mret, st_ret. rewrite Hg. cbn [int_column of_option].
  rewrite run_killpg. destruct (in_group g (procs (tr ++ evs))) eqn:Hin; cbn beta iota.
  2: { unfold os_error. cbn beta iota. change (is_os_error (OtherError "OSError")) with true. cbn [negb]. cbn beta iota.
       destruct (alive_total ((tr ++ evs) ++ [Sent g 15])) as (b & evs' & Ha' & Hq').
       unfold SIGTERM. rewrite Ha'. exists (negb b), (evs ++ [Sent g 15] ++ evs'). rewrite !app_assoc. split; [done|].
       split; [rewrite <-!app_assoc; repeat apply only_to_app; [by apply probes_to|done|by apply probes_to]|].
       split; [rewrite negb_involutive; by eexists|]. split; [by rewrite Hrec|]. split; [right; among|].
       intros _. right. exists (tr ++ evs). split; [rewrite <-!app_assoc; by apply prefix_app, prefix_app_r|done]. }
  cbn [negb]. rewrite run_monotonic. unfold SIGTERM.
  set (tr2 := ((tr ++ evs) ++ [Sent g 15]) ++ [ReadClock]).
  destruct (wait_gone_total (clock ((tr ++ evs) ++ [Sent g 15]) + 500000) fuel tr2) as (b & evs' & Hw & Hq' & Hl).
  { lia. }
  { pose proof (Hclock ((tr ++ evs) ++ [Sent g 15]) ReadClock). fold tr2 in H. lia. }
  rewrite Hw. assert (only_to g (evs ++ [Sent g 15] ++ [ReadClock] ++ evs')) as Hto.
  { repeat apply only_to_app; [by apply probes_to|done|by intros g' s' ?%list_elem_of_singleton|by apply probes_to]. }
  destruct b.
  - exists true, (evs ++ [Sent g 15] ++ [ReadClock] ++ evs'). unfold tr2 in *. rewrite !app_assoc in *. split; [done|].
    split; [by rewrite <-!app_assoc in *|]. split; [by apply Hl|]. split; [by rewrite Hrec|].
    split; [right; among|done].
  - set (tr3 := tr2 ++ evs'). destruct (alive_total (tr3 ++ [Sent g SIGKILL])) as (b & evs2 & Ha' & Hq2).
    exists (negb b), (evs ++ [Sent g 15] ++ [ReadClock] ++ evs' ++ [Sent g SIGKILL] ++ evs2).
    unfold tr3, tr2 in *. rewrite !app_assoc in *. split.
    { rewrite run_killpg. unfold os_error.
      match goal with |- context [if ?b then Ok () else Err (OtherError "OSError")] => destruct b end; cbn beta iota; [by rewrite Ha'|].
      change (is_os_error (OtherError "OSError")) with true. cbn beta iota. by rewrite Ha'. }
    split; [|split; [rewrite negb_involutive; by eexists|split; [by rewrite Hrec|split; [right; among|left; among]]]].
    rewrite <-!app_assoc in *. repeat apply only_to_app; first [done|by apply probes_to|by intros ? ? ?%list_elem_of_singleton].
Qed.
End row.

(** ** Terminating a tree *)

(** Signals of a run, none of them to our own group. *)
Definition never_own (evs : trace) : Prop := ∀ s, Sent own s ∉ evs.
(** Every process that was there when it was looked up got [s], with its group. *)
Definition reaches (s : Z) (targets : list Z) (tr evs : trace) : Prop :=
  ∀ pid, pid ∈ targets → ∃ pre, pre `prefix_of` (tr ++ evs) ∧
    ∀ p, procs pre !! pid = Some p → pc_group p ≠ own → Sent (pc_group p) s ∈ evs.

Lemma never_own_app evs evs' : never_own evs → never_own evs' → never_own (evs ++ evs').
Proof. intros H1 H2 s [H|H]%elem_of_app; [by eapply H1|by eapply H2]. Qed.
Lemma reaches_app s targets tr evs evs' : reaches s targets tr evs → reaches s targets tr (evs ++ evs').
Proof.
  intros H pid Hp. destruct (H pid Hp) as (pre & Hpre & Hs). exists pre. split.
  - rewrite app_assoc. by apply prefix_app_r.
  - intros p Hpp Ho. apply elem_of_app. left. by apply Hs.
Qed.
Lemma reaches_after s targets tr evs evs' : reaches s targets (tr ++ evs) evs' → reaches s targets tr (evs ++ evs').
Proof.
  intros H pid Hp. destruct (H pid Hp) as (pre & Hpre & Hs). exists pre. split; [by rewrite app_assoc|].
  intros p Hpp Ho. apply elem_of_app. right. by apply Hs.
Qed.

Lemma groups_spec pids tr : ∃ groups evs, mapM_st (group_of l_getpgid) pids tr = (Ok groups, tr ++ evs) ∧
  (∀ g s, Sent g s ∉ evs) ∧
  (∀ pid, pid ∈ pids → ∃ pre, pre `prefix_of` (tr ++ evs) ∧ ∀ p, procs pre !! pid = Some p → pc_group p ∈ omap id groups).
Proof.
  revert tr. induction pids as [|pid pids IH]; intros tr.
  - exists [], []. rewrite app_nil_r. split; [done|]. split; [|by intros pid ?%not_elem_of_nil].
    intros g s ?%not_elem_of_nil. done.
  - assert (∃ o, group_of l_getpgid pid tr = (Ok o, tr ++ [AskGroup pid]) ∧
      ∀ p, procs tr !! pid = Some p → o = Some (pc_group p)) as (o & Ho & Hog).
    { unfold group_of, catch, mbind, st_bind, l_getpgid, at_process. destruct (procs tr !! pid) as [p|].
      - exists (Some (pc_group p)). split; [done|]. by intros p' [= <-].
      - by exists None. }
    destruct (IH (tr ++ [AskGroup pid])) as (groups & evs & He & Hs & Hg).
    exists (o :: groups), ([AskGroup pid] ++ evs). rewrite app_assoc. split.
    { cbn [mapM_st]. unfold mbind, st_bind. rewrite Ho, He. done. }
    split.
    { intros g s [H%list_elem_of_singleton|H]%elem_of_app; [done|by apply (Hs g s)]. }
    intros q [->|Hq]%elem_of_cons.
    + exists tr. split; [rewrite <-app_assoc; by apply prefix_app_r|]. intros p Hp. rewrite (Hog p Hp). cbn. by left.
    + destruct (Hg q Hq) as (pre & Hpre & Hp). exists pre. split; [done|]. intros p Hpp. specialize (Hp p Hpp).
      destruct o; cbn; [by right|done].
Qed.

Lemma run_signal_group g s tr : signal_group l_killpg s g tr = (Ok tt, tr ++ [Sent g s]).
Proof. unfold signal_group, catch. rewrite run_killpg. by destruct (in_group g (procs tr)). Qed.

Lemma sent_all signum groups tr : ∃ evs, iterM_st (signal_group l_killpg signum) groups tr = (Ok tt, tr ++ evs) ∧
  (∀ g s, Sent g s ∈ evs ↔ g ∈ groups ∧ s = signum).
Proof.
  assert (∃ evs us, mapM_st (signal_group l_killpg signum) groups tr = (Ok us, tr ++ evs) ∧
    (∀ g s, Sent g s ∈ evs ↔ g ∈ groups ∧ s = signum)) as (evs & us & He & Hs).
  { revert tr. induction groups as [|g groups IH]; intros tr.
    - exists [], []. rewrite app_nil_r. split; [done|]. intros g s. split; [by intros ?%not_elem_of_nil|].
      by intros [?%not_elem_of_nil _].
    - destruct (IH (tr ++ [Sent g signum])) as (evs & us & He & Hs). exists ([Sent g signum] ++ evs), (tt :: us).
      rewrite app_assoc. split.
      + cbn [mapM_st]. unfold mbind, st_bind. by rewrite run_signal_group, He.
      + intros g' s. rewrite elem_of_app, list_elem_of_singleton, Hs, elem_of_cons. naive_solver. }
  exists evs. split; [|done]. unfold iterM_st, mbind, st_bind. by rewrite He.
Qed.

Lemma signal_spec pids signum tr : ∃ evs, l_signal pids signum tr = (Ok tt, tr ++ evs) ∧
  never_own evs ∧ reaches signum pids tr evs.
Proof.
  unfold l_signal, _signal_processes. unfold mbind at 1, st_bind. unfold l_getpgrp at 1, answer. cbn beta iota.
  destruct (groups_spec pids (tr ++ [AskOwn])) as (groups & evs & He & Hs & Hg). unfold mbind at 1, st_bind. rewrite He.
  match goal with |- context [iterM_st _ ?l ?tr1] => destruct (sent_all signum l tr1) as (evs' & He' & Hs') end.
  exists ([AskOwn] ++ evs ++ evs'). rewrite !app_assoc. split; [exact He'|].
  assert (∀ s, Sent own s ∉ evs') as Hown.
  { intros s [Hin _]%Hs'. apply elem_of_remove_dups, list_elem_of_In, filter_In in Hin as [_ Hin].
    by rewrite Z.eqb_refl in Hin. }
  split.
  - rewrite <-app_assoc. repeat apply never_own_app; [by intros s ?%list_elem_of_singleton|intros s; apply Hs|exact Hown].
  - intros pid Hpid. destruct (Hg pid Hpid) as (pre & Hpre & Hp). exists pre. split.
    + rewrite !app_assoc in *. by apply prefix_app_r.
    + intros p Hpp Ho. rewrite !elem_of_app. right. apply Hs'. split; [|done].
      apply elem_of_remove_dups, list_elem_of_In, filter_In. split; [apply list_elem_of_In; by apply Hp|].
      apply negb_true_iff, Z.eqb_neq, Ho.
Qed.

Section terminate.
Context (root poll_interval terminate_grace : Z).

(** What a question about a running process gives: an answer, or the exception that the
    name of a process other than the root cannot be decoded. *)
Definition answered {A} (targets : list Z) (tr : trace) (r : result A) : Prop :=
  match r with
  | Ok _ => True
  | Err e => e = ValueError "UnicodeDecodeError" ∧
      ∃ pid pre p, pid ∈ targets ∧ pid ≠ root ∧ pre `prefix_of` tr ∧ procs pre !! pid = Some p ∧ pc_name p = None
  end.

Lemma answered_weaken {A} targets targets' tr tr' (r : result A) :
  (∀ x, x ∈ targets → x ∈ targets') → tr `prefix_of` tr' → answered targets tr r → answered targets' tr' r.
Proof.
  intros Hin Hpre. destruct r as [x|e]; [done|]. intros (He & pid & pre & p & H1 & H2 & H3 & H4). split; [done|].
  exists pid, pre, p. split_and!; [by apply Hin|done|by etrans|apply H4|apply H4].
Qed.
Lemma answered_error {A B} targets tr e : answered (A := A) targets tr (Err e) → answered (A := B) targets tr (Err e).
Proof. done. Qed.

Lemma running_one pid tr : pid ≠ root →
  ∃ r, _process_is_running l_stat pid tr = (r, tr ++ [ReadStat pid]) ∧ answered [pid] (tr ++ [ReadStat pid]) r.
Proof.
  intros Hne. unfold _process_is_running, catch, mbind, st_bind, l_stat, at_process.
  destruct (procs tr !! pid) as [p|] eqn:Hp; [|by eexists]. destruct (pc_name p) as [name|] eqn:Hn; [by eexists|].
  eexists. split; [done|]. split; [done|]. exists pid, tr, p. split_and!; [by left|done|by apply prefix_app_r|done|done].
Qed.

Lemma running_total targets tr : ∃ r evs, l_running root targets tr = (r, tr ++ evs) ∧ (∀ g s, Sent g s ∉ evs) ∧
  answered targets (tr ++ evs) r.
Proof.
  unfold l_running. revert tr. induction targets as [|pid targets IH]; intros tr.
  - exists (Ok false), []. rewrite app_nil_r. split; [done|]. split; [|done]. by intros g s ?%not_elem_of_nil.
  - cbn [any_running]. assert (∀ x, x ∈ targets → x ∈ pid :: targets) as Hsub by (by right).
    destruct (Z.eqb_spec pid root) as [->|Hne].
    { destruct (IH tr) as (r & evs & He & Hs & Ha). exists r, evs. split; [done|]. split; [done|].
      eapply answered_weaken; [exact Hsub|done|exact Ha]. }
    destruct (running_one pid tr Hne) as (r & Hr & Ha). unfold mbind, st_bind. rewrite Hr.
    assert (∀ g s, Sent g s ∉ [ReadStat pid]) as Hone by (by intros g s ?%list_elem_of_singleton).
    assert (∀ x, x ∈ [pid] → x ∈ pid :: targets) as Hsub' by (intros x ->%list_elem_of_singleton; by left).
    destruct r as [[]|e].
    + by exists (Ok true), [ReadStat pid].
    + destruct (IH (tr ++ [ReadStat pid])) as (r & evs & He & Hs & Ha'). exists r, ([ReadStat pid] ++ evs). rewrite app_assoc.
      split; [exact He|]. split; [|eapply answered_weaken; [exact Hsub|done|exact Ha']].
      intros g s [?|?]%elem_of_app; [by eapply Hone|by eapply Hs].
    + exists (Err e), [ReadStat pid]. split; [done|]. split; [done|]. eapply answered_weaken; [exact Hsub'|done|exact Ha].
Qed.

(** The root was seen to end, and then no target was running. *)
Definition seen_ended (targets : list Z) (tr : trace) : Prop :=
  ∃ pre, ended pre = true ∧ l_running root targets (pre ++ [Polled]) = (Ok false, tr).

Context (Hpoll : (0 < poll_interval)%Z).
Definition pause : Z := Z.min poll_interval 50000.

Lemma wait_ended_total deadline targets fuel : ∀ tr,
  (1 <= fuel)%nat → (deadline - clock tr <= (Z.of_nat fuel - 1) * pause)%Z →
  ∃ r evs, wait_ended l_stat l_monotonic l_sleep l_poll poll_interval deadline root targets fuel tr = (r, tr ++ evs) ∧
    (∀ g s, Sent g s ∉ evs) ∧ answered targets (tr ++ evs) r ∧ (r = Ok true → seen_ended targets (tr ++ evs)).
Proof.
  assert (∀ e, (∀ g s, e ≠ Sent g s) → ∀ g s, Sent g s ∉ [e]) as Hone by (intros e H g s Hs%list_elem_of_singleton; by eapply H).
  assert (∀ (l l' : trace), (∀ g s, Sent g s ∉ l) → (∀ g s, Sent g s ∉ l') → ∀ g s, Sent g s ∉ l ++ l') as Happ.
  { intros l l' H1 H2 g s [H|H]%elem_of_app; [by eapply H1|by eapply H2]. }
  assert (0 < pause)%Z as Hpause by (unfold pause; lia).
  induction fuel as [|fuel IH]; intros tr Hf Hd; [lia|]. cbn [wait_ended]. unfold mbind, st_bind. rewrite run_monotonic.
  destruct (Z.leb_spec deadline (clock tr)) as [Hle|Hlt].
  { exists (Ok false), [ReadClock]. split; [done|]. split; [by apply Hone|done]. }
  rewrite run_poll. destruct (running_total targets ((tr ++ [ReadClock]) ++ [Polled])) as (r & evs & Hr & Hs & Ha).
  unfold l_running in Hr. rewrite Hr. destruct r as [b|e].
  2: { exists (Err e), ([ReadClock] ++ [Polled] ++ evs). rewrite !app_assoc. split; [done|].
       split; [by repeat apply Happ; first [done|apply Hone]|done]. }
  destruct (ended (tr ++ [ReadClock]) && negb b) eqn:Hdone.
  - apply andb_true_iff in Hdone as [He ->%negb_true_iff]. exists (Ok true), ([ReadClock] ++ [Polled] ++ evs).
    rewrite !app_assoc. split; [done|]. split; [by repeat apply Happ; first [done|apply Hone]|]. split; [done|]. intros _.
    exists (tr ++ [ReadClock]). split; [done|]. unfold l_running. by rewrite Hr.
  - set (tr2 := ((tr ++ [ReadClock]) ++ [Polled]) ++ evs). rewrite run_sleep. change (Z.min poll_interval 50000) with pause.
    destruct (IH (tr2 ++ [Slept pause])) as (r' & evs' & Hw & Hs' & Hl).
    + assert (0 < Z.of_nat fuel)%Z; [|lia]. nia.
    + pose proof (Hsleep tr2 pause). pose proof (clock_app tr ([ReadClock] ++ [Polled] ++ evs)) as Hm.
      rewrite !app_assoc in Hm. fold tr2 in Hm. lia.
    + exists r', ([ReadClock] ++ [Polled] ++ evs ++ [Slept pause] ++ evs'). unfold tr2 in *. rewrite !app_assoc in *.
      split; [exact Hw|]. split; [|exact Hl]. rewrite <-!app_assoc.
      by repeat apply Happ; first [done|apply Hone].
Qed.

Lemma terminate_spec fuel tr : (1 <= fuel)%nat → (terminate_grace <= (Z.of_nat fuel - 1) * pause)%Z →
  ∃ r evs, l_terminate poll_interval terminate_grace root fuel tr = (r, tr ++ evs) ∧ never_own evs ∧
    if ended tr then r = Ok tt ∧ evs = [Polled]
    else let targets := tree (tr ++ [Polled]) in
         reaches SIGTERM targets tr evs ∧ answered targets (tr ++ evs) r ∧
         (r = Ok tt → reaches SIGKILL targets tr evs ∨ seen_ended targets (tr ++ evs)).
Proof.
  intros Hf Hg. unfold l_terminate, _terminate_tree, mbind, st_bind. rewrite run_poll.
  destruct (ended tr); [exists (Ok tt), [Polled]; split; [done|]; split; [by intros s ?%list_elem_of_singleton|done]|].
  cbn zeta. set (targets := tree (tr ++ [Polled])). unfold l_tree, answer. fold targets. set (tr1 := (tr ++ [Polled]) ++ [Listed]).
  destruct (signal_spec targets SIGTERM tr1) as (evs1 & H1 & Hown1 & Hr1). unfold l_signal in H1. rewrite H1.
  rewrite run_monotonic. set (tr2 := (tr1 ++ evs1) ++ [ReadClock]).
  destruct (wait_ended_total (clock (tr1 ++ evs1) + terminate_grace) targets fuel tr2 Hf) as (r & evs2 & H2 & Hs2 & Ha2 & Hl2).
  { pose proof (Hclock (tr1 ++ evs1) ReadClock). fold tr2 in H. lia. }
  rewrite H2. assert (∀ e, (∀ g s, e ≠ Sent g s) → never_own [e]) as Hone by (intros e H s Hs%list_elem_of_singleton; by eapply H).
  set (before := [Polled] ++ [Listed]). assert (tr1 = tr ++ before) as Htr1 by (unfold tr1, before; by rewrite app_assoc).
  assert (reaches SIGTERM targets tr (before ++ evs1)) as Hterm by (apply reaches_after; by rewrite <-Htr1).
  assert (never_own (before ++ evs1 ++ [ReadClock] ++ evs2)) as Hown.
  { unfold before. repeat apply never_own_app; first [by apply Hone|exact Hown1|intros s; apply Hs2]. }
  assert (tr2 ++ evs2 = tr ++ (before ++ evs1 ++ [ReadClock] ++ evs2)) as Heq
    by (unfold tr2; rewrite Htr1; by rewrite <-!app_assoc).
  assert (reaches SIGTERM targets tr (before ++ evs1 ++ [ReadClock] ++ evs2)) as Hterm2
    by (rewrite app_assoc; by apply reaches_app).
  rewrite Heq in *. destruct r as [[]|e].
  - exists (Ok tt), (before ++ evs1 ++ [ReadClock] ++ evs2). split; [done|]. split; [done|]. split; [done|].
    split; [done|]. intros _. right. by apply Hl2.
  - destruct (signal_spec targets SIGKILL (tr ++ (before ++ evs1 ++ [ReadClock] ++ evs2))) as (evs3 & H3 & Hown3 & Hr3).
    unfold l_signal in H3. exists (Ok tt), ((before ++ evs1 ++ [ReadClock] ++ evs2) ++ evs3).
    split; [unfold _kill_tree; rewrite H3; by rewrite <-app_assoc|]. split; [by apply never_own_app|].
    split; [by apply reaches_app|]. split; [done|]. intros _. left. by apply reaches_after.
  - exists (Err e), (before ++ evs1 ++ [ReadClock] ++ evs2). split; [done|]. split; [done|]. split; [done|]. by split.
Qed.
End terminate.
End linux.


(** C36. Whatever happens between its steps, terminating a process tree ends and never
    signals the guardian's own group. Unless the root had ended before, every process
    of the tree that is still there gets SIGTERM with its group. Then either it gets
    SIGKILL, or the root was seen to end and no other process of the tree was running
    after that, or it raises UnicodeDecodeError, which happens only when the name of a
    process of the tree other than the root cannot be decoded. *)
Theorem tree_terminated procs clock own ended tree root poll_interval terminate_grace fuel tr :
  (∀ tr e, (clock tr <= clock (tr ++ [e]))%Z) → (∀ tr d, (clock tr + d <= clock (tr ++ [Slept d]))%Z) →
  (0 < poll_interval)%Z → (1 <= fuel)%nat → (terminate_grace <= (Z.of_nat fuel - 1) * pause poll_interval)%Z →
  ∃ r evs, l_terminate procs clock own ended tree poll_interval terminate_grace root fuel tr = (r, tr ++ evs) ∧
    never_own own evs ∧
    if ended tr then r = Ok tt ∧ evs = [Polled]
    else let targets := tree (tr ++ [Polled]) in
         reaches procs own SIGTERM targets tr evs ∧
         (* it returns, or raises because a name could not be decoded *)
         answered procs root targets (tr ++ evs) r ∧
         (r = Ok tt → reaches procs own SIGKILL targets tr evs ∨ seen_ended procs ended root targets (tr ++ evs)).
Proof. intros. by apply terminate_spec. Qed.

(** ** Concrete hosts *)

Definition demo_clock (tr : trace) : Z := foldr (λ e t, match e with Slept d => Z.max 0 d + t | _ => t end)%Z 0%Z tr.
Definition demo_proc (name : option string) (state : string) (start group : Z) : Proc :=
  MkProc name state (replicate 18 "1") start group.
(** The leader of group 200, whose name is not a plain word, and a child in its group. *)
Definition demo_procs (tr : trace) : gmap Z Proc :=
  {[ 200%Z := demo_proc (Some "a ) Z (b") "S" 77 200; 201%Z := demo_proc (Some "tool") "R" 80 200 ]}.
Definition demo_row (ticks : Z) : AttemptRow :=
  MkAttemptRow "a1" "s1" 1 A_RUNNING "/w" "w1" None None (Some 200%Z) (Some 200%Z) (Some ticks) 0 None None None JNull None None.

Lemma demo_clock_app tr e : demo_clock (tr ++ [e]) = (demo_clock tr + demo_clock [e])%Z.
Proof. unfold demo_clock. induction tr as [|[] tr IH]; cbn in *; lia. Qed.
Lemma demo_clock_event tr e : (demo_clock tr <= demo_clock (tr ++ [e]))%Z.
Proof. rewrite demo_clock_app. destruct e; cbn; lia. Qed.
Lemma demo_clock_slept tr d : (demo_clock tr + d <= demo_clock (tr ++ [Slept d]))%Z.
Proof. rewrite demo_clock_app. cbn. lia. Qed.
Lemma demo_procs_ok tr pid p : demo_procs tr !! pid = Some p → proc_ok p ∧ is_Some (pc_name p).
Proof.
  unfold demo_procs. intros [[<- <-]|[_ [<- <-]%lookup_singleton_Some]]%lookup_insert_Some;
    (split; [constructor; [by vm_compute|done|done]|by eexists]).
Qed.


Lemma tree_terminated_witness :
  ∃ evs, l_terminate demo_procs demo_clock 1 (λ _, false) (λ _, [200; 201]%Z) 100000 5000000 200 101 [] = (Ok tt, evs) ∧
    Sent 200 SIGKILL ∈ evs.
Proof.
  destruct (tree_terminated demo_procs demo_clock 1 (λ _, false) (λ _, [200; 201]%Z) 200 100000 5000000 101 []
    demo_clock_event demo_clock_slept ltac:(done) ltac:(lia) ltac:(vm_compute; discriminate))
    as (r & evs & He & _ & _ & _ & Hok).
  assert (r = Ok tt) as ->.
  { pose proof (f_equal fst He) as Hr. vm_compute in Hr. symmetry in Hr. exact Hr. }
  destruct (Hok eq_refl) as [Hk|(pre & Hended & _)].
  - exists evs. split; [exact He|]. destruct (Hk 200%Z ltac:(by left)) as (pre & _ & Hp).
    refine (Hp (demo_proc (Some "a ) Z (b") "S" 77 200) eq_refl _). discriminate.
  - discriminate.
Defined.

(** A process of the group that outlives its leader is not seen: the fence says the
    attempt is gone and signals nobody. *)
Example group_outlives_leader :
  let left_over (tr : trace) : gmap Z Proc := {[ 201%Z := demo_proc (Some "tool") "R" 80 200 ]} in
  l_fence left_over demo_clock (demo_row 77) 26 [] = (Ok true, [ReadStat 200]) ∧ in_group 200 (left_over []) = true.
Proof. split; vm_compute; reflexivity. Qed.

(** A child whose name is not UTF-8 makes the termination raise after SIGTERM: SIGKILL is
    never sent. *)
Example undecodable_name_escapes :
  let odd (tr : trace) : gmap Z Proc :=
    {[ 200%Z := demo_proc (Some "sh") "S" 77 200; 201%Z := demo_proc None "R" 80 201 ]} in
  let '(r, evs) := l_terminate odd demo_clock 1 (λ _, false) (λ _, [200; 201]%Z) 100000 5000000 200 101 [] in
  r = Err (ValueError "UnicodeDecodeError") ∧
  existsb (λ e, match e with Sent _ s => (s =? SIGTERM)%Z | _ => false end) evs = true ∧
  existsb (λ e, match e with Sent _ s => (s =? SIGKILL)%Z | _ => false end) evs = false.
Proof. vm_compute. split_and!; reflexivity. Qed.
