(* ===== verification/AppBase.v ===== *)
(** * What the applications share: threads, the client they talk through, HTTP

    [ThreadingHTTPServer] runs every request in a thread of its own.  A handler is a
    [prog]: the steps another thread can come between are its accesses to what threads
    share, the client and the service behind it.  Each request to the service is one
    step: the client reads its token when it makes the request.  [run_prog] runs one
    handler alone; [run_schedule] interleaves handlers as a schedule says. *)

From stdpp Require Import gmap.
From S2P Require Export Client.
Open Scope string_scope.
Open Scope list_scope.

(** ** Programs *)

Inductive prog (S A : Type) : Type :=
| Done (r : result A)
| Step {B : Type} (m : st S B) (k : result B → prog S A).
Arguments Done {S A}.
Arguments Step {S A B}.

Fixpoint bind_prog {S A B} (f : A → prog S B) (p : prog S A) : prog S B :=
  match p with
  | Done (Ok a) => f a
  | Done (Err e) => Done (Err e)
  | Step m k => Step m (λ r, bind_prog f (k r))
  end.

#[export] Instance prog_ret {S} : MRet (prog S) := λ A a, Done (Ok a).
#[export] Instance prog_bind {S} : MBind (prog S) := λ A B f p, bind_prog f p.

(** [try: p / except <classes of h>: ...]; [h] is [None] on what it does not catch. *)
Fixpoint except {S A} (h : exn → option (prog S A)) (p : prog S A) : prog S A :=
  match p with
  | Done (Err e) => default (Done (Err e)) (h e)
  | Done (Ok a) => Done (Ok a)
  | Step m k => Step m (λ r, except h (k r))
  end.

Definition step {S A} (m : st S A) : prog S A := Step m Done.
Definition pure {S A} (m : result A) : prog S A := Done m.

Fixpoint mapM_prog {S A B} (f : A → prog S B) (l : list A) : prog S (list B) :=
  match l with
  | [] => mret []
  | x :: l' => y ← f x; ys ← mapM_prog f l'; mret (y :: ys)
  end.

(** One handler, with nothing in between. *)
Fixpoint run_prog {S A} (p : prog S A) : st S A := λ s,
  match p with
  | Done r => (r, s)
  | Step m k => let '(r, s') := m s in run_prog (k r) s'
  end.

(** ** Threads *)

(** The threads, by number, and what they share. *)
Definition threads (S A : Type) : Type := list (prog S A) * S.

Definition step_thread {S A} (i : nat) (c : threads S A) : threads S A :=
  match fst c !! i with
  | Some (Step m k) => let '(r, s') := m (snd c) in (<[i := k r]> (fst c), s')
  | _ => c
  end.

Definition run_schedule {S A} (l : list nat) (c : threads S A) : threads S A :=
  fold_left (λ c i, step_thread i c) l c.

(** ** The client *)

(** What an application asks of [KernelClient]: the calls it makes, each one request;
    writing the [token] of a client threads share; and making one call with a client of
    its own, which leaves the shared one alone. *)
Class AppClient (S : Type) := {
  app_health : st S Reply;
  app_session : st S json;
  app_plugins : st S json;
  app_runs (project_id design_id plugin_id status : list string) (limit : option Z) (offset : Z) : st S json;
  app_run (run_id : string) : st S json;
  app_design_tree (design_id : string) : st S Reply;
  app_metrics (run_id : string) : st S json;
  app_artifacts (run_id : string) (category format stage : option string) : st S json;
  app_timeline (run_id : string) : st S json;
  app_excerpt (run_id artifact_id : string) (offset max_bytes : Z) : st S Reply;
  app_bytes (run_id artifact_id : string) : st S Reply;
  app_bundle (run_id : string) : st S json;
  app_submit (task : dict) (idempotent : bool) (plugin_version : json) : st S Reply;
  app_cancel (run_id : string) : st S Reply;
  share_token (t : option string) : st S unit;
  own_client {A : Type} (t : option string) (m : st S A) : st S A }.

Section client.
Context {K : Type} (wire : string → string → list (string * string) → Incoming → K → option Response * K).
Context (float_repr : spec_float → string) (loads : string → option json).
Context (_extra_headers : list (string * string)).

(** [KernelClient(self.client.base_url, token=t)] and one call of it. *)
Definition with_token {A} (t : option string) (m : st (Remote K) A) : st (Remote K) A := λ r,
  let '(v, r') := m (MkRemote t (rm_files r) (rm_service r)) in
  (v, MkRemote (rm_token r) (rm_files r') (rm_service r')).

Definition remote_client : AppClient (Remote K) := {|
  app_health := health wire float_repr loads _extra_headers;
  app_session := session wire float_repr loads _extra_headers;
  app_plugins := plugins wire float_repr loads _extra_headers;
  app_runs := runs wire float_repr loads _extra_headers;
  app_run := run wire float_repr loads _extra_headers;
  app_design_tree design_id := design_tree wire float_repr loads _extra_headers design_id None 0;
  app_metrics run_id := metrics wire float_repr loads _extra_headers run_id false;
  app_artifacts := artifacts wire float_repr loads _extra_headers;
  app_timeline := timeline wire float_repr loads _extra_headers;
  app_excerpt := artifact_excerpt wire float_repr loads _extra_headers;
  app_bytes := artifact_bytes wire float_repr loads _extra_headers;
  app_bundle := bundle wire float_repr loads _extra_headers;
  app_submit task idempotent := submit wire float_repr loads _extra_headers task idempotent None;
  app_cancel := cancel wire float_repr loads _extra_headers;
  share_token := set_token;
  own_client A := with_token |}.
End client.

(** ** What the service is sent *)

Record Sent := MkSent {
  sent_method : string;
  sent_target : string;
  sent_headers : list (string * string) }.

(** The service behind a wire that records what passes. *)
Definition recording {K} (wire : string → string → list (string * string) → Incoming → K → option Response * K)
    : string → string → list (string * string) → Incoming → K * list Sent → option Response * (K * list Sent) :=
  λ method target headers body k,
    let '(answer, k') := wire method target headers body (fst k) in
    (answer, (k', snd k ++ [MkSent method target headers])).

(** What each thread of a schedule sent, in order. *)
Definition log_of {K} (s : Remote (K * list Sent)) : list Sent := snd (rm_service s).
Fixpoint sent_by {K A} (l : list nat) (c : threads (Remote (K * list Sent)) A) : list (nat * Sent) :=
  match l with
  | [] => []
  | i :: l' =>
      let c' := step_thread i c in
      map (pair i) (drop (length (log_of (snd c))) (log_of (snd c'))) ++ sent_by l' c'
  end.

(** ** One HTTP request to an application *)

(** What [json.loads] makes of the bytes of a body. *)
Inductive Content :=
| Document (v : json)
| NotJson
| NotUnicode.

(** The headers [_body] and [_client] read, and the content. *)
Record AppRequest := MkAppRequest {
  ar_target : string;
  ar_authorization : option string;
  ar_length : option string;
  ar_content : Content }.

Definition ar_path (r : AppRequest) : string := fst (urlparse (ar_target r)).
Definition ar_query (r : AppRequest) : query := parse_qs (snd (urlparse (ar_target r))).

(** [int(self.headers.get("Content-Length") or 0)] *)
Definition content_length (r : AppRequest) : result Z :=
  match ar_length r with
  | Some s => if str_empty s then Ok 0%Z else of_option (ValueError "int") (py_int s)
  | None => Ok 0%Z
  end.

Definition drop_chars (n : nat) (s : string) : string := String.substring n (String.length s - n) s.

(** [s[len(p):-len(q)]] *)
Definition inner (p q s : string) : string :=
  let tail := drop_chars (String.length p) s in
  String.substring 0 (String.length s - String.length p - String.length q) tail.
(** [s.strip("/")] *)
Definition strip_slashes (s : string) : string := drop_slashes (str_rev (drop_slashes (str_rev s))).

(** The token of the request, [None] where there is no bearer header. *)
Definition bearer (r : AppRequest) : option string :=
  let header := default EmptyString (ar_authorization r) in
  if startswith "bearer " (lower header) then Some (strip (drop_chars 7 header)) else None.

(** What [json.dumps] makes of what a call returned: bytes are no document. *)
Definition reply_json (r : Reply) : result json :=
  match r with
  | Nothing => Ok JNull
  | Raw _ => Err (TypeError "bytes are not JSON")
  | Json v => Ok v
  end.

(** [len(v)] *)
Definition py_len (v : json) : result Z :=
  match v with
  | JList l => Ok (Z.of_nat (length l))
  | JStr s => Ok (Z.of_nat (String.length s))
  | JObj d => Ok (Z.of_nat (length d))
  | _ => Err (TypeError "len")
  end.

Definition exc_text (e : exn) : string :=
  match e with
  | KernelError what _ | KernelUnavailable what | ValueError what
  | ConsoleError _ what | LabError _ what | QueryError _ what => what
  | _ => EmptyString
  end.

(** The [except] clauses the handlers share: the application's own error with its
    status, an unreachable kernel as 503, a refusal with the kernel's status. *)
Definition answered (e : exn) : option Response :=
  match e with
  | ConsoleError status what | LabError status what | QueryError status what => Some (error_response status what)
  | KernelUnavailable what => Some (error_response 503 what)
  | KernelError what status =>
      Some (error_response (match status with Some 0%Z | None => 502%Z | Some s => s end) what)
  | _ => None
  end.

(** [self._send(status, payload)] after the body of a [try]; an exception no clause
    names leaves the request without an answer. *)
Definition served {S} (status : Z) (p : prog S json) : prog S Response :=
  except (λ e, Done ∘ Ok <$> answered e) (v ← p; mret (json_response v status)).

(** ** Running a handler alone *)

Lemma run_prog_bind {S A B} (p : prog S A) (f : A → prog S B) s :
  run_prog (p ≫= f) s = (run_prog p ≫= λ a, run_prog (f a)) s.
Proof.
  change (p ≫= f) with (bind_prog f p). rewrite bind_run. revert s.
  induction p as [[a|e]|C m k IH]; intros s; simpl; [done..|].
  destruct (m s) as [r s']. apply IH.
Qed.

Lemma run_prog_except {S A} (h : exn → option (prog S A)) (p : prog S A) s :
  run_prog (except h p) s =
  match run_prog p s with
  | (Err e, s') => match h e with Some q => run_prog q s' | None => (Err e, s') end
  | r => r
  end.
Proof.
  revert s. induction p as [[a|e]|C m k IH]; intros s; simpl; [done|by destruct (h e)|].
  destruct (m s) as [r s']. apply IH.
Qed.

Lemma run_prog_step {S A} (m : st S A) s : run_prog (step m) s = m s.
Proof. simpl. by destruct (m s). Qed.

Lemma run_prog_mapM {S A B} (f : A → prog S B) l s :
  run_prog (mapM_prog f l) s = mapM_st (λ a, run_prog (f a)) l s.
Proof.
  revert s. induction l as [|x l IH]; intros s; [done|]. cbn [mapM_prog mapM_st].
  rewrite run_prog_bind, !bind_run. destruct (run_prog (f x) s) as [[y|e] s1]; [|done].
  by rewrite run_prog_bind, !bind_run, IH.
Qed.

(** ** Paths *)

Lemma startswith_app p s : startswith p (p +:+ s) = true.
Proof. unfold startswith. induction p as [|c p IH]; simpl; [by destruct s|]. by destruct (ascii_dec c c). Qed.

Lemma str_rev_app_app s t acc : str_rev_app (s +:+ t) acc = str_rev_app t (str_rev_app s acc).
Proof. revert acc. induction s as [|c s IH]; intros acc; simpl; [done|]. apply IH. Qed.

Lemma str_rev_app_str s acc : str_rev_app s acc = str_rev s +:+ acc.
Proof.
  unfold str_rev. revert acc. induction s as [|c s IH]; intros acc; simpl; [done|].
  rewrite IH, (IH (String c EmptyString)), str_app_assoc. done.
Qed.

Lemma endswith_app s q : endswith q (s +:+ q) = true.
Proof.
  unfold endswith. unfold str_rev at 2. rewrite str_rev_app_app, str_rev_app_str. apply startswith_app.
Qed.

Lemma length_str_app s t : String.length (s +:+ t) = (String.length s + String.length t)%nat.
Proof. induction s as [|c s IH]; simpl; [done|]. by rewrite IH. Qed.

Lemma drop_chars_app p s : drop_chars (String.length p) (p +:+ s) = s.
Proof.
  unfold drop_chars. induction p as [|c p IH]; simpl; [|exact IH].
  rewrite Nat.sub_0_r. induction s as [|c s IH]; simpl; [done|]. by f_equal.
Qed.

Lemma inner_app p x q : inner p q (p +:+ x +:+ q) = x.
Proof.
  unfold inner. rewrite drop_chars_app, !length_str_app.
  replace (_ - _ - _)%nat with (String.length x) by lia.
  induction x as [|c x IH]; simpl; [by destruct q|]. by f_equal.
Qed.

(** ** Properties of the steps *)

(** The steps of a program, whatever comes between them. *)
Inductive steps_are {S A} (P : ∀ B, st S B → Prop) : prog S A → Prop :=
| steps_done r : steps_are P (Done r)
| steps_step B (m : st S B) k : P B m → (∀ r, steps_are P (k r)) → steps_are P (Step m k).

Lemma steps_bind {S A B} (P : ∀ C, st S C → Prop) (p : prog S A) (f : A → prog S B) :
  steps_are P p → (∀ a, steps_are P (f a)) → steps_are P (p ≫= f).
Proof.
  intros Hp Hf. change (p ≫= f) with (bind_prog f p).
  induction Hp as [[a|e]|C m k HP Hk IH]; simpl; [apply Hf|constructor|]. by constructor.
Qed.

Lemma steps_pure {S A} (P : ∀ C, st S C → Prop) (m : result A) : steps_are P (pure m).
Proof. constructor. Qed.

Lemma steps_one {S A} (P : ∀ C, st S C → Prop) (m : st S A) : P A m → steps_are P (step m).
Proof. intros H. constructor; [done|]. constructor. Qed.

Lemma steps_except {S A} (P : ∀ C, st S C → Prop) (h : exn → option (prog S A)) (p : prog S A) :
  steps_are P p → (∀ e q, h e = Some q → steps_are P q) → steps_are P (except h p).
Proof.
  intros Hp Hh. induction Hp as [[a|e]|C m k HP Hk IH]; simpl; [constructor| |by constructor].
  destruct (h e) eqn:E; [by eapply Hh|constructor].
Qed.

Lemma steps_mapM {S A B} (P : ∀ C, st S C → Prop) (f : A → prog S B) l : (∀ a, steps_are P (f a)) → steps_are P (mapM_prog f l).
Proof.
  intros H. induction l as [|x l IH]; [constructor|]. apply steps_bind; [done|]. intros y.
  apply steps_bind; [done|]. constructor.
Qed.

Lemma steps_mret {S A} (P : ∀ C, st S C → Prop) (a : A) : steps_are P (mret a : prog S A).
Proof. constructor. Qed.

(** The clauses of a handler add no step. *)
Lemma steps_answered {S} (P : ∀ C, st S C → Prop) (f : exn → option Response) (m : prog S Response) :
  steps_are P m → steps_are P (except (λ e, Done ∘ Ok <$> f e) m).
Proof.
  intros H. apply steps_except; [done|]. intros e q. destruct (f e); [|done]. intros [= <-]. constructor.
Qed.

(** An invariant of every step is one of every schedule. *)
Lemma schedule_keeps {S A} (I : S → Prop) l : ∀ (c : threads S A),
  Forall (steps_are (λ _ m, keeps I m)) (fst c) → I (snd c) → I (snd (run_schedule l c)).
Proof.
  induction l as [|i l IH]; intros [ps s] Hps Hs; simpl in *; [done|].
  assert (Forall (steps_are (λ _ m, keeps I m)) (fst (step_thread i (ps, s))) ∧ I (snd (step_thread i (ps, s))))
    as [H1 H2]; [|by apply IH].
  unfold step_thread; simpl. destruct (ps !! i) as [p|] eqn:E; simpl; [|done].
  pose proof (Forall_lookup_1 _ _ _ _ Hps E) as Hp. destruct Hp as [r|B m k Hm Hk]; simpl; [done|].
  destruct (m s) as [r s'] eqn:Em. simpl. split; [by apply Forall_insert|by eapply Hm].
Qed.
