(* ===== verification/EvidenceConsole.v ===== *)
(** * apps/evidence_console: runs and their evidence, through the client

    The console's views and its GET handler.  It writes the token of its request into
    the client all its threads share. *)

From S2P Require Export AppBase.
Open Scope string_scope.
Open Scope list_scope.

Section console.
Context {S : Type} `{AppClient S}.

Definition EVIDENCE_NOTE : string :=
  "Runs are the kernel's record. This console reads them through the client and stores nothing of its own.".

Definition overview (limit : Z) : prog S json :=
  runs ← step (app_runs [] [] [] [] (Some limit) 0);
  count ← pure (py_len runs);
  mret (JObj [("runs", runs); ("count", JInt count); ("note", JStr EVIDENCE_NOTE)]).

(** [len([m for m in metrics if not m["complete"]])], and [len(metrics)]. *)
Definition unsourced_of (metrics : json) : result (Z * Z) :=
  l ← py_list metrics;
  complete ← mapM_result (py_index "complete") l;
  total ← py_len metrics;
  Ok (Z.of_nat (length (List.filter (λ c, negb (truthy c)) complete)), total).

Definition run_view (run_id : string) : prog S json :=
  detail ← step (app_run run_id);
  metrics ← step (app_metrics run_id);
  counts ← pure (unsourced_of metrics);
  let '(unsourced, total) := counts in
  timeline ← step (app_timeline run_id);
  mret (JObj [("run", detail); ("metrics", metrics); ("timeline", timeline);
              ("evidence", JObj [("metrics", JInt total); ("sourced", JInt (total - unsourced));
                                 ("unsourced", JInt unsourced);
                                 ("complete", JBool (unsourced =? 0)%Z)])]).

(** [_client]: the token of the request becomes the token of the shared client. *)
Definition _client (r : AppRequest) : prog S unit := step (share_token (bearer r)).

Definition _int_param (q : query) (name : string) (dflt : Z) : result Z :=
  match query_get name q with
  | [] => Ok dflt
  | v :: _ => of_option (ConsoleError 400 "must be an integer") (py_int v)
  end.

Definition SERVICE_NAME : string := "evidence_console".

Definition _route (r : AppRequest) : prog S json :=
  let path := ar_path r in
  if bool_decide (path = "/health") then
    kernel ← step app_health;
    kernel ← pure (reply_json kernel);
    mret (JObj [("app", JStr SERVICE_NAME); ("status", JStr "ok"); ("kernel", kernel)])
  else if bool_decide (path ∈ ["/"; "/runs"]) then
    _client r;;
    limit ← pure (_int_param (ar_query r) "limit" 20);
    overview limit
  else if startswith "/runs/" path then
    let run_id := unquote (drop_chars 6 path) in
    pure (raise_when (str_empty run_id) (ConsoleError 400 "a run id is required"));;
    _client r;;
    run_view run_id
  else pure (Err (ConsoleError 404 "not found")).

Definition do_GET (r : AppRequest) : prog S Response := served 200 (_route r).
End console.
