(* ===== verification/RunConsole.v ===== *)
(** * apps/run_console: submit a task, follow what happened

    [progress] folds the kernel's events into the stages the plugin reported; the
    handlers submit, cancel and read through the client, whose token they share. *)

From S2P Require Export AppBase.
From S2P Require EvidenceConsole.
Open Scope string_scope.
Open Scope list_scope.

Definition STAGE_STARTED : string := "stage.started".
Definition STAGE_FINISHED : string := "stage.finished".
Definition PROGRESS_MALFORMED : string := "progress.malformed".

(** One value of the dict [stages]. *)
Record StageEntry := MkStageEntry {
  se_stage : json;
  se_status : json;
  se_started_at : json;
  se_finished_at : json;
  se_seconds : json;
  se_detail : json }.

Definition new_entry (name : json) : StageEntry :=
  MkStageEntry name (JStr "started") JNull JNull JNull JNull.

(** [entry = stages.setdefault(name, ...)], and what is then done to the entry. *)
Fixpoint update_stage (name : json) (f : StageEntry → StageEntry) (stages : list StageEntry) : list StageEntry :=
  match stages with
  | [] => [f (new_entry name)]
  | e :: rest => if py_eqb (se_stage e) name then f e :: rest else e :: update_stage name f rest
  end.

Definition entry_after (kind : json) (occurred_at : json) (payload : dict) (e : StageEntry) : StageEntry :=
  if py_eqb kind (JStr STAGE_STARTED) then
    MkStageEntry (se_stage e) (JStr "running") occurred_at (se_finished_at e) (se_seconds e) (se_detail e)
  else if py_eqb kind (JStr STAGE_FINISHED) then
    MkStageEntry (se_stage e)
      (let s := get_null "status" payload in if truthy s then s else JStr "finished")
      (se_started_at e) occurred_at (get_null "seconds" payload) (get_null "detail" payload)
  else e.

(** A list or a dict is no key of a dict. *)
Definition hashable (v : json) : bool :=
  match v with JList _ | JObj _ => false | _ => true end.

(** [event.get("payload") or {}] *)
Definition payload_of (e : dict) : result dict :=
  let v := get_null "payload" e in
  if truthy v then as_object v else Ok [].

Definition progress_event (acc : list StageEntry * Z) (event : json) : result (list StageEntry * Z) :=
  let '(stages, malformed) := acc in
  e ← as_object event;
  payload ← payload_of e;
  let kind := get_null "event_type" e in
  if py_eqb kind (JStr PROGRESS_MALFORMED) then
    let count := get_null "count" payload in
    n ← (if truthy count then py_int_of count else Ok 0%Z);
    Ok (stages, malformed + n)%Z
  else
    let name := get_null "stage" payload in
    if negb (truthy name) then Ok acc
    else
      raise_when (negb (hashable name)) (TypeError "unhashable");;
      Ok (update_stage name (entry_after kind (get_null "occurred_at" e) payload) stages, malformed).

Fixpoint progress_events (acc : list StageEntry * Z) (timeline : list json) : result (list StageEntry * Z) :=
  match timeline with
  | [] => Ok acc
  | event :: rest => acc ← progress_event acc event; progress_events acc rest
  end.

Definition entry_json (e : StageEntry) : json :=
  JObj [("stage", se_stage e); ("status", se_status e); ("started_at", se_started_at e);
        ("finished_at", se_finished_at e); ("seconds", se_seconds e); ("detail", se_detail e)].

Definition PROGRESS_NOTE : string :=
  "Only stages the plugin reported are listed. A stage absent from this list " +:+
  "is unreported -- not complete, not skipped, and not zero: the kernel stores " +:+
  "what the tool printed and nothing else.".

Definition progress (timeline : json) : result json :=
  events ← py_list timeline;
  acc ← progress_events ([], 0%Z) events;
  let '(ordered, malformed) := acc in
  Ok (JObj [("stages", JList (entry_json <$> ordered));
            ("reported", JInt (Z.of_nat (length ordered)));
            ("reported_nothing", JBool (bool_decide (ordered = [])));
            ("malformed_reports", JInt malformed);
            ("note", JStr PROGRESS_NOTE)]).

(** ** Views *)

(** [sorted({a["kind"] for a in artifacts})]: the kinds the kernel records are text;
    other values, which Python may refuse to order, are refused here. *)
Definition text_of (v : json) : result string :=
  match v with JStr s => Ok s | _ => Err (TypeError "not text") end.
Definition kinds_of (artifacts : list json) : result (list string) :=
  kinds ← mapM_result (py_index "kind") artifacts;
  names ← mapM_result text_of kinds;
  Ok (merge_sort String.le (remove_dups names)).

Section console.
Context {S : Type} `{AppClient S}.

Definition RUNS_NOTE : string :=
  "This console submits through the kernel and stores nothing of its " +:+
  "own. What it shows is the kernel's record, not a copy of it.".

Definition overview (limit : Z) : prog S json :=
  runs ← step (app_runs [] [] [] [] (Some limit) 0);
  count ← pure (py_len runs);
  mret (JObj [("runs", runs); ("count", JInt count); ("note", JStr RUNS_NOTE)]).

Definition run_view (run_id : string) : prog S json :=
  detail ← step (app_run run_id);
  timeline ← step (app_timeline run_id);
  artifacts ← step (app_artifacts run_id None None None);
  metrics ← step (app_metrics run_id);
  counts ← pure (EvidenceConsole.unsourced_of metrics);
  let '(unsourced, total) := counts in
  stages ← pure (progress timeline);
  count ← pure (py_len artifacts);
  found ← pure (py_list artifacts);
  kinds ← pure (kinds_of found);
  mret (JObj [("run", detail); ("progress", stages); ("artifacts", artifacts);
              ("evidence", JObj [("artifacts", JInt count); ("kinds", JList (JStr <$> kinds));
                                 ("metrics", JInt total); ("unsourced", JInt unsourced)]);
              ("timeline", timeline)]).

Definition submission (payload : json) : prog S json :=
  task ← pure (match payload with
               | JObj d => match get_null "task" d with
                           | JObj task => Ok (task, truthy (get_null "idempotent" d))
                           | _ => Err (ConsoleError 400 "a task object is required")
                           end
               | _ => Err (ConsoleError 400 "a task object is required")
               end);
  created ← step (app_submit (fst task) (snd task) JNull);
  run ← pure (reply_field "run" created);
  mret (JObj [("run", run); ("submitted", JBool true)]).

Definition SERVICE_NAME : string := "run_console".

Definition _client (r : AppRequest) : prog S unit := step (share_token (bearer r)).

Definition _route (r : AppRequest) : prog S json :=
  let path := ar_path r in
  if bool_decide (path = "/health") then
    kernel ← step app_health;
    kernel ← pure (reply_json kernel);
    mret (JObj [("app", JStr SERVICE_NAME); ("status", JStr "ok"); ("kernel", kernel)])
  else if bool_decide (path ∈ ["/"; "/runs"]) then
    _client r;;
    limit ← pure (EvidenceConsole._int_param (ar_query r) "limit" 20);
    overview limit
  else if bool_decide (path = "/plugins") then
    _client r;;
    plugins ← step app_plugins;
    mret (JObj [("plugins", plugins)])
  else if startswith "/runs/" path then
    let run_id := unquote (drop_chars 6 path) in
    pure (raise_when (str_empty run_id) (ConsoleError 400 "a run id is required"));;
    _client r;;
    run_view run_id
  else pure (Err (ConsoleError 404 "not found")).

Definition do_GET (r : AppRequest) : prog S Response := served 200 (_route r).

(** A body that is not UTF-8 raises what no clause catches. *)
Definition _body (r : AppRequest) : result json :=
  length ← content_length r;
  if (length =? 0)%Z then Ok (JObj [])
  else match ar_content r with
       | Document v => Ok v
       | NotJson => Err (ConsoleError 400 "the request body is not JSON")
       | NotUnicode => Err (ValueError "UnicodeDecodeError")
       end.

Definition do_POST (r : AppRequest) : prog S Response :=
  let path := ar_path r in
  except (λ e, Done ∘ Ok <$> answered e)
    (payload ← pure (_body r);
     _client r;;
     if bool_decide (path = "/runs") then
       v ← submission payload; mret (json_response v 201)
     else if startswith "/runs/" path && endswith "/cancel" path then
       let run_id := strip_slashes (unquote (inner "/runs/" "/cancel" path)) in
       pure (raise_when (str_empty run_id) (ConsoleError 400 "a run id is required"));;
       cancelled ← step (app_cancel run_id);
       v ← pure (reply_json cancelled);
       mret (json_response v 200)
     else mret (error_response 404 "not found")).
End console.
