(* ===== verification/DseLab.v ===== *)
(** * apps/dse_lab: parameter sweeps

    [SweepStore] is the lab's own database; a sweep is created in one transaction, its
    points are submitted one by one, what the kernel answered is recorded beside each,
    and a comparison reads the runs back.  [inputs_json] and [parameters_json] are kept
    as the values they decode to, with their keys sorted. *)

From stdpp Require Import pretty.
From S2P Require Export AppBase Plan.
Open Scope string_scope.
Open Scope list_scope.

Definition MAX_POINTS_PER_SWEEP : nat := 64.
Definition MAX_COMPARISON_RUNS : nat := 64.

Record SweepRow := MkSweepRow {
  sw_sweep_id : string;
  sw_name : string;
  sw_plugin_id : string;
  sw_inputs_json : json;
  sw_created_at : Z }.

Record PointRow := MkPointRow {
  pt_point_id : string;
  pt_sweep_id : string;
  pt_ordinal : Z;
  pt_parameters_json : json;
  pt_task_id : option string;
  pt_run_id : option string }.

Record SweepDb := MkSweepDb { sweeps : list SweepRow; points : list PointRow }.

Definition is_sweep (sweep_id : string) (r : SweepRow) : bool := bool_decide (sw_sweep_id r = sweep_id).
Definition point_of (sweep_id : string) (r : PointRow) : bool := bool_decide (pt_sweep_id r = sweep_id).
Definition is_point (point_id : string) (r : PointRow) : bool := bool_decide (pt_point_id r = point_id).

(** A sweep as the store returns it, with its points where they were asked for. *)
Record Sweep := MkSweep { sv_row : SweepRow; sv_points : list PointRow }.

(** The lab's process: its database, the number of ids and times drawn, the client. *)
Record Lab (S : Type) := MkLab { lab_db : SweepDb; lab_draws : nat; lab_client : S }.
Arguments MkLab {S}.
Arguments lab_db {S}.
Arguments lab_draws {S}.
Arguments lab_client {S}.

(** ** SweepStore *)

Definition insert_sweep (r : SweepRow) : st SweepDb unit := λ s,
  if has_row (is_sweep (sw_sweep_id r)) (sweeps s) then (Err (IntegrityError "sweeps"), s)
  else (Ok tt, MkSweepDb (ins r (sweeps s)) (points s)).
Definition insert_point (r : PointRow) : st SweepDb unit := λ s,
  if has_row (λ r', is_point (pt_point_id r) r'
                    || point_of (pt_sweep_id r) r' && bool_decide (pt_ordinal r' = pt_ordinal r)) (points s)
     || negb (has_row (is_sweep (pt_sweep_id r)) (sweeps s))
  then (Err (IntegrityError "points"), s)
  else (Ok tt, MkSweepDb (sweeps s) (ins r (points s))).

Definition check_sweep (name plugin_id : string) (points : list dict) : result unit :=
  raise_when (str_empty (strip name)) (LabError 400 "a sweep name is required");;
  raise_when (str_empty (strip plugin_id)) (LabError 400 "a plugin id is required");;
  raise_when (bool_decide (points = [])) (LabError 400 "a sweep needs at least one point");;
  raise_when (MAX_POINTS_PER_SWEEP <? length points)%nat (LabError 400 "too many points").

(** [hex] names the sweep, [hexes] its points. *)
Definition create_sweep (name plugin_id : string) (inputs : dict) (points : list dict)
    (hex : string) (hexes : nat → string) (now : Z) : st SweepDb string :=
  lift (check_sweep name plugin_id points);;
  let sweep_id := "sweep-" +:+ hex in
  transaction (
    insert_sweep (MkSweepRow sweep_id (strip name) (strip plugin_id) (sort_json (JObj inputs)) now);;
    iterM_st insert_point
      (imap (λ ordinal parameters,
               MkPointRow ("point-" +:+ hexes ordinal) sweep_id (Z.of_nat ordinal)
                          (sort_json (JObj parameters)) None None) points));;
  mret sweep_id.

(** [ORDER BY created_at DESC]; equal times stay in the order of the rows. *)
Definition list_sweeps (s : SweepDb) : list SweepRow := order_by (λ r, - sw_created_at r)%Z (sweeps s).

Definition get_sweep (sweep_id : string) (s : SweepDb) : result Sweep :=
  row ← of_option (LabError 404 "unknown sweep") (fetchone (is_sweep sweep_id) (sweeps s));
  Ok (MkSweep row (order_by pt_ordinal (sel (point_of sweep_id) (points s)))).

Definition point_with (task_id run_id : string) (r : PointRow) : PointRow :=
  MkPointRow (pt_point_id r) (pt_sweep_id r) (pt_ordinal r) (pt_parameters_json r)
             (Some task_id) (Some run_id).
Definition record_submission (point_id task_id run_id : string) : st SweepDb unit :=
  modify (λ s, MkSweepDb (sweeps s) (upd (is_point point_id) (point_with task_id run_id) (points s))).

Definition opt_json (o : option string) : json := match o with Some s => JStr s | None => JNull end.
Definition _sweep_row (r : SweepRow) : dict :=
  [("sweep_id", JStr (sw_sweep_id r)); ("name", JStr (sw_name r)); ("plugin_id", JStr (sw_plugin_id r));
   ("inputs", sw_inputs_json r); ("created_at", JInt (sw_created_at r))].
Definition _point_row (r : PointRow) : json :=
  JObj [("point_id", JStr (pt_point_id r)); ("ordinal", JInt (pt_ordinal r));
        ("parameters", pt_parameters_json r); ("task_id", opt_json (pt_task_id r));
        ("run_id", opt_json (pt_run_id r))].
Definition sweep_json (s : Sweep) : json :=
  JObj (_sweep_row (sv_row s) ++ [("points", JList (_point_row <$> sv_points s))]).

Section lab.
Context {S : Type} `{AppClient S} (py_repr : json → string).
Context (uuid4 : nat → string) (time : nat → Z).
Local Abbreviation W := (Lab S).

Definition in_client {A} (m : st S A) : st W A := λ w,
  let '(r, s) := m (lab_client w) in (r, MkLab (lab_db w) (lab_draws w) s).
Definition in_db {A} (m : st SweepDb A) : st W A := λ w,
  let '(r, d) := m (lab_db w) in (r, MkLab d (lab_draws w) (lab_client w)).
Definition read_sweep (sweep_id : string) : prog W Sweep :=
  step (in_db (λ s, (get_sweep sweep_id s, s))).

(** One transaction: its ids and its time are the next draws. *)
Definition new_sweep (name plugin_id : string) (inputs : dict) (points : list dict) : st W string := λ w,
  let n := lab_draws w in
  in_db (create_sweep name plugin_id inputs points (uuid4 n) (λ i, uuid4 (n + 1 + i)) (time n))
        (MkLab (lab_db w) (n + 1 + length points) (lab_client w)).

(** ** The sweep lifecycle *)

Definition SCHEMA : Z := 3.
Definition point_task (sweep : Sweep) (plugin_id : string) (inputs : dict) (point : PointRow) : dict :=
  let design := get_null "design" inputs in
  [("schema_version", JInt SCHEMA);
   ("task_id", JStr (sw_sweep_id (sv_row sweep) +:+ "-p" +:+ pretty (pt_ordinal point)));
   ("project_id", JStr (sw_plugin_id (sv_row sweep)));
   ("design_id", JStr (if truthy design then py_str py_repr design else "unknown"));
   ("plugin_id", JStr plugin_id);
   ("inputs", JObj inputs);
   ("parameters", pt_parameters_json point)].

(** [created["run"]["run_id"]]; a run id is text. *)
Definition run_id_of (created : Reply) : result string :=
  run ← reply_field "run" created;
  run_id ← py_index "run_id" run;
  match run_id with JStr s => Ok s | _ => Err (TypeError "run_id") end.

(** What the [try] of one point gives: the run, or the refusal that is recorded. *)
Definition submit_point (task : dict) : prog W string :=
  created ← except (λ e, if is_kernel_error e then Some (mret (inr e)) else None)
                   (created ← step (in_client (app_submit task true JNull)); mret (inl created));
  match created with
  | inl created => pure (run_id_of created)
  | inr e => mret ("refused: " +:+ exc_text e)
  end.

Definition submit_points (sweep : Sweep) (plugin_id : string) (inputs : dict) (points : list PointRow)
    : prog W (list unit) :=
  mapM_prog (λ point,
    let task := point_task sweep plugin_id inputs point in
    run_id ← submit_point task;
    step (in_db (record_submission (pt_point_id point) (str_of (get_null "task_id" task)) run_id))) points.

Definition submit_sweep (name plugin_id : string) (inputs : dict) (points : list dict) : prog W Sweep :=
  sweep_id ← step (new_sweep name plugin_id inputs points);
  sweep ← read_sweep sweep_id;
  submit_points sweep plugin_id inputs (sv_points sweep);;
  read_sweep sweep_id.

(** ** Comparison *)

Definition REFUSED : string := "refused:".
(** [run_id.removeprefix("refused: ") or "not submitted"] *)
Definition refusal_reason (run_id : string) : string :=
  let reason := if startswith "refused: " run_id then drop_chars 9 run_id else run_id in
  if str_empty reason then "not submitted" else reason.

Definition entry_base (point : PointRow) : dict :=
  [("ordinal", JInt (pt_ordinal point)); ("parameters", pt_parameters_json point);
   ("run_id", opt_json (pt_run_id point))].
Definition skipped (point : PointRow) (status reason : string) : dict :=
  entry_base point ++ [("status", JStr status); ("reason", JStr reason); ("metrics", JList [])].

(** [sum(1 for m in metrics if not m["complete"])] *)
Definition count_unsourced (metrics : json) : result Z :=
  l ← py_list metrics;
  complete ← mapM_result (py_index "complete") l;
  Ok (Z.of_nat (length (List.filter (λ c, negb (truthy c)) complete))).

(** The row of a point whose run is read. *)
Definition compare_run (point : PointRow) (run_id : string) : prog W dict :=
  read ← except (λ e, if is_kernel_error e then Some (mret (inr e)) else None)
           (detail ← step (in_client (app_run run_id));
            metrics ← step (in_client (app_metrics run_id));
            mret (inl (detail, metrics)));
  match read with
  | inr e => mret (skipped point "unavailable" (exc_text e))
  | inl (detail, metrics) =>
      status ← pure (py_index "status" detail);
      d ← pure (as_object detail);
      unsourced ← pure (count_unsourced metrics);
      mret (entry_base point ++ [("status", status); ("terminal_reason", get_null "terminal_reason" d);
                                 ("metrics", metrics); ("unsourced", JInt unsourced)])
  end.

Fixpoint compare_points (seen_runs : nat) (points : list PointRow) : prog W (list dict) :=
  match points with
  | [] => mret []
  | point :: rest =>
      let run_id := default EmptyString (pt_run_id point) in
      if startswith REFUSED run_id || str_empty run_id then
        rows ← compare_points seen_runs rest;
        mret (skipped point "refused" (refusal_reason run_id) :: rows)
      else if (MAX_COMPARISON_RUNS <=? seen_runs)%nat then
        rows ← compare_points seen_runs rest;
        mret (skipped point "not_compared" "comparison is limited" :: rows)
      else
        row ← compare_run point run_id;
        rows ← compare_points (Datatypes.S seen_runs) rest;
        mret (row :: rows)
  end.

Definition has_status (status : string) (row : dict) : bool := py_eqb (get_null "status" row) (JStr status).
Definition count_status (status : string) (rows : list dict) : json :=
  JInt (Z.of_nat (length (List.filter (has_status status) rows))).
Definition row_unsourced (row : dict) : Z :=
  match get_null "unsourced" row with JInt z => z | _ => 0%Z end.

Definition CLAIM_BOUNDARY : string :=
  "This is a comparison of measured evidence, not a claim that any " +:+
  "point is better. Selection needs a frozen protocol and repeated " +:+
  "runs, which is the evaluator's business rather than this app's.".

Definition comparison (sweep : Sweep) (rows : list dict) : json :=
  JObj [("sweep", JObj (_sweep_row (sv_row sweep)));
        ("points", JList (JObj <$> rows));
        ("summary", JObj [("points", JInt (Z.of_nat (length rows)));
                          ("succeeded", count_status "succeeded" rows);
                          ("failed", count_status "failed" rows);
                          ("refused", count_status "refused" rows);
                          ("unsourced_metrics", JInt (sum_col row_unsourced rows))]);
        ("claim_boundary", JStr CLAIM_BOUNDARY)].

Definition compare_sweep (sweep_id : string) : prog W json :=
  sweep ← read_sweep sweep_id;
  rows ← compare_points 0 (sv_points sweep);
  mret (comparison sweep rows).

(** ** HTTP *)

Definition SERVICE_NAME : string := "dse_lab".

Definition _borrow (r : AppRequest) : prog W unit := step (in_client (share_token (bearer r))).

Definition _get (r : AppRequest) : prog W json :=
  let path := ar_path r in
  if bool_decide (path = "/health") then
    kernel ← step (in_client app_health);
    kernel ← pure (reply_json kernel);
    mret (JObj [("app", JStr SERVICE_NAME); ("status", JStr "ok"); ("kernel", kernel)])
  else if bool_decide (path ∈ ["/"; "/sweeps"]) then
    rows ← step (in_db (gets list_sweeps));
    mret (JObj [("sweeps", JList (JObj ∘ _sweep_row <$> rows))])
  else if startswith "/sweeps/" path && endswith "/comparison" path then
    let sweep_id := unquote (inner "/sweeps/" "/comparison" path) in
    _borrow r;;
    compare_sweep sweep_id
  else if startswith "/sweeps/" path then
    sweep ← read_sweep (unquote (drop_chars 8 path));
    mret (JObj [("sweep", sweep_json sweep)])
  else pure (Err (LabError 404 "not found")).

(** [points] as a list of parameter objects. *)
Definition points_of (v : json) : result (list dict) :=
  match v with
  | JList l => mapM_result (λ v, match v with
                                 | JObj d => Ok d
                                 | _ => Err (LabError 400 "points must be a list of parameter objects")
                                 end) l
  | _ => Err (LabError 400 "points must be a list of parameter objects")
  end.

(** [str(body.get(k) or "")] *)
Definition text_field (k : string) (body : dict) : string :=
  let v := get_null k body in if truthy v then py_str py_repr v else EmptyString.

Definition _post (r : AppRequest) (body : dict) : prog W json :=
  if bool_decide (ar_path r = "/sweeps") then
    points ← pure (points_of (get_null "points" body));
    inputs ← pure (match get_null "inputs" body with
                   | JObj d => Ok d
                   | _ => Err (LabError 400 "inputs must be an object")
                   end);
    _borrow r;;
    sweep ← submit_sweep (text_field "name" body) (text_field "plugin_id" body) inputs points;
    mret (JObj [("sweep", sweep_json sweep)])
  else pure (Err (LabError 404 "not found")).

Definition _read_body (r : AppRequest) : result dict :=
  length ← content_length r;
  if (length <=? 0)%Z then Ok []
  else
    raise_when (1024 * 1024 <? length)%Z (LabError 413 "request body is too large");;
    match ar_content r with
    | Document (JObj d) => Ok d
    | Document _ => Err (LabError 400 "request body must be a JSON object")
    | NotJson | NotUnicode => Err (LabError 400 "request body must be JSON")
    end.

Definition do_GET (r : AppRequest) : prog W Response := served 200 (_get r).
Definition do_POST (r : AppRequest) : prog W Response :=
  served 201 (body ← pure (_read_body r); _post r body).
End lab.
