(* ===== verification/QueryAgent.v ===== *)
(** * apps/query_agent: questions about runs, answered from the kernel's record

    catalog.py, planner.py, report.py and analysis.py, and the handlers of server.py.
    Every call to the kernel is made by a client of the request's own token.  Beyond
    ASCII every byte of a question counts as a letter. *)

From stdpp Require Import pretty.
From S2P Require Export AppBase Adapter Evaluation.
From S2P Require Import RunConsole.
Open Scope string_scope.
Open Scope list_scope.

Definition MAX_RUNS : Z := 100.
Definition MAX_REPORT_RUNS : nat := 20.

(** ** catalog.py *)

Definition integer (value : option string) (dflt : Z) : result Z :=
  match value with
  | Some s => if str_empty s then Ok dflt else of_option (QueryError 400 "must be an integer") (py_int s)
  | None => Ok dflt
  end.

Definition limit (value : option string) (dflt : Z) : result Z :=
  result ← integer value dflt;
  raise_when (negb ((1 <=? result) && (result <=? MAX_RUNS)))%Z (QueryError 400 "limit must be between 1 and 100");;
  Ok result.

(** The arguments of [client.runs]. *)
Record RunFilters := MkRunFilters {
  rf_project_id : list string;
  rf_design_id : list string;
  rf_plugin_id : list string;
  rf_status : list string;
  rf_limit : Z;
  rf_offset : Z }.

(** [query.get(name, [None])[0]] *)
Definition first_value (name : string) (q : query) : option string := head (query_get name q).
Definition given (name : string) (q : query) : list string := q_text (first_value name q).

Definition run_filters (q : query) : result RunFilters :=
  n ← limit (first_value "limit" q) 20;
  offset ← integer (first_value "offset" q) 0;
  raise_when (offset <? 0)%Z (QueryError 400 "offset must not be negative");;
  Ok (MkRunFilters (given "project_id" q) (given "design_id" q) (given "plugin_id" q) (given "status" q) n offset).

Section views.
Context (py_repr : json → string).

(** One group of [designs]: its key and its runs. *)
Record DesignGroup := MkDesignGroup { dg_key : string * string * json; dg_runs : list dict }.

(** [str(run.get(k, ""))] *)
Definition key_text (k : string) (run : dict) : string :=
  match dict_get k run with Some v => py_str py_repr v | None => EmptyString end.
Definition design_key (run : dict) : string * string * json :=
  (key_text "project_id" run, key_text "design_id" run, get_null "design_revision_id" run).
Definition same_key (a b : string * string * json) : bool :=
  bool_decide (fst a = fst b) && py_eqb (snd a) (snd b).

Fixpoint add_run (run : dict) (groups : list DesignGroup) : list DesignGroup :=
  match groups with
  | [] => [MkDesignGroup (design_key run) [run]]
  | g :: rest =>
      if same_key (dg_key g) (design_key run) then MkDesignGroup (dg_key g) (dg_runs g ++ [run]) :: rest
      else g :: add_run run rest
  end.

Definition group_json (g : DesignGroup) : json :=
  let '(project, design, revision) := dg_key g in
  JObj [("project_id", JStr project); ("design_id", JStr design); ("design_revision_id", revision);
        ("runs", JList (JObj <$> dg_runs g)); ("run_count", JInt (Z.of_nat (length (dg_runs g))));
        ("latest_run", match dg_runs g with run :: _ => JObj run | [] => JNull end)].

Definition designs (runs : list json) : result (list json) :=
  runs ← mapM_result as_object runs;
  iterM_result (λ run, raise_when (negb (hashable (get_null "design_revision_id" run))) (TypeError "unhashable")) runs;;
  Ok (group_json <$> fold_left (λ groups run, add_run run groups) runs []).

(** One filter of [artifact_selection]: absent or null selects everything. *)
Definition selects (filters : dict) (name key : string) (artifact : dict) : bool :=
  let wanted := get_null name filters in
  is_null wanted || py_eqb (get_null key artifact) wanted.
Definition artifact_selection (filters : dict) (artifacts : list dict) : list dict :=
  List.filter (λ a, selects filters "path" "store_key" a && selects filters "sha256" "sha256" a
                    && selects filters "kind" "kind" a && selects filters "artifact_id" "artifact_id" a) artifacts.

Definition or_else (a b : json) : json := if truthy a then a else b.

Definition artifact_view (run_id : string) (artifact : dict) : result json :=
  metadata ← as_object (or_empty (get_null "metadata" artifact));
  let artifact_id := get_null "artifact_id" artifact in
  let link what := JStr ("/artifacts/" +:+ run_id +:+ "/" +:+ py_str py_repr artifact_id +:+ what) in
  Ok (JObj (fold_left (λ d kv, dict_set (fst kv) (snd kv) d)
    [("logical_path", or_else (get_null "logical_path" metadata) (get_null "store_key" artifact));
     ("category", get_null "category" metadata);
     ("stage", or_else (get_null "stage_key" artifact) (get_null "stage" metadata));
     ("format", or_else (get_null "format" metadata) (get_null "media_type" artifact));
     ("source", JObj [("run_id", JStr run_id); ("attempt_id", get_null "attempt_id" artifact);
                      ("artifact_id", artifact_id)]);
     ("integrity", JObj [("sha256", get_null "sha256" artifact); ("size_bytes", get_null "size_bytes" artifact);
                         ("registered", JBool true)]);
     ("access", JObj [("excerpt", link "/excerpt"); ("download", link "/download")])] artifact)).

(** ** report.py *)

Definition _fact (metric : dict) : json :=
  let complete := truthy (get_null "complete" metric) in
  JObj [("name", get_null "name" metric); ("value", get_null "value" metric); ("unit", get_null "unit" metric);
        ("source", JObj [("run_id", get_null "run_id" metric); ("attempt_id", get_null "attempt_id" metric);
                         ("artifact", get_null "artifact" metric); ("parser", get_null "parser" metric);
                         ("complete", JBool complete)]);
        ("evidence_level", JStr (if complete then "extracted_fact" else "unknown"));
        ("confidence", JStr (if complete then "source_verified" else "unsourced"))].

(** What one run adds to a report: its entry and what is missing. *)
Record Entry := MkEntry { en_entry : dict; en_missing : list json }.

Definition missing_of (run_id : string) (e : exn) : json :=
  JObj [("run_id", JStr run_id); ("reason", JStr (exc_text e))].
Definition unavailable (run_id : string) (e : exn) : Entry :=
  MkEntry [("run_id", JStr run_id); ("status", JStr "unavailable"); ("error", JStr (exc_text e));
           ("facts", JList []); ("artifacts", JList []); ("raw_data", JList [])] [missing_of run_id e].

Definition run_entry (run_id : string) (detail : dict) (facts artifacts raw_data : list json) : dict :=
  [("run_id", JStr run_id); ("design_id", get_null "design_id" detail);
   ("design_revision_id", get_null "design_revision_id" detail); ("status", get_null "status" detail);
   ("created_at", get_null "created_at" detail); ("ended_at", get_null "ended_at" detail);
   ("facts", JList facts); ("artifacts", JList artifacts); ("raw_data", JList raw_data);
   ("missing", JList (if bool_decide (artifacts = []) then
                        [JObj [("kind", JStr "artifact"); ("reason", JStr "no matching artifact")]] else []))].

(** An entry of [selected]. *)
Definition selected_of (entry : dict) : option json :=
  if py_eqb (get_null "status" entry) (JStr "unavailable") then None
  else Some (JObj [("run_id", get_null "run_id" entry); ("design_id", get_null "design_id" entry);
                   ("design_revision_id", get_null "design_revision_id" entry);
                   ("artifact_ids", JList (match get_null "artifacts" entry with
                                           | JList l => map (obj_get_null "artifact_id") l
                                           | _ => [] end))]).

Definition EVIDENCE_POLICY : json :=
  JObj [("layers", JList [JStr "raw_evidence"; JStr "extracted_fact"; JStr "recomputable_result"; JStr "summary"]);
        ("unsourced_metrics_are_visible", JBool true); ("missing_values_are_not_filled", JBool true);
        ("source_required_for_claims", JBool true)].

Definition report_json (run_ids : list string) (question : json) (filters : dict) (entries : list Entry) : json :=
  JObj [("question", question);
        ("query", JObj [("run_ids", JList (JStr <$> run_ids)); ("filters", JObj filters)]);
        ("runs", JList (JObj ∘ en_entry <$> entries));
        ("selected", JList (omap (selected_of ∘ en_entry) entries));
        ("limitations", JObj [("missing", JList (e ← entries; en_missing e)); ("conflicts", JList []);
                              ("truncated", JList []); ("unknown", JList [])]);
        ("evidence_policy", EVIDENCE_POLICY)].

Section calls.
Context {S : Type} `{AppClient S} (token : option string).

(** One call of [KernelClient(self.client.base_url, token=token)]. *)
Definition call {A} (m : st S A) : prog S A := step (own_client token m).

(** [try: ... except <classes of p>: ...] *)
Definition attempt {A} (p : exn → bool) (m : prog S A) : prog S (A + exn) :=
  except (λ e, if p e then Some (mret (inr e)) else None) (a ← m; mret (inl a)).

(** The bytes of one artifact, where the filters name one. *)
Definition raw_excerpt (run_id : string) (filters : dict) : prog S (list json * list json) :=
  let excerpt_id := get_null "artifact_id" filters in
  if truthy excerpt_id then
    read ← attempt (λ e, is_kernel_error e || is_value_error e)
      (offset ← pure (match dict_get "offset" filters with Some v => py_int_of v | None => Ok 0%Z end);
       max_bytes ← pure (match dict_get "max_bytes" filters with Some v => py_int_of v | None => Ok 8192%Z end);
       excerpt ← call (app_excerpt run_id (py_str py_repr excerpt_id) offset max_bytes);
       pure (reply_json excerpt));
    match read with
    | inl excerpt => mret ([JObj [("artifact_id", excerpt_id); ("excerpt", excerpt)]], [])
    | inr e => mret ([], [missing_of run_id e])
    end
  else mret ([], []).

Definition report_run (filters : dict) (run_id : string) : prog S Entry :=
  read ← attempt is_kernel_error
    (detail ← call (app_run run_id);
     metrics ← call (app_metrics run_id);
     artifacts ← call (app_artifacts run_id None None None);
     mret (detail, metrics, artifacts));
  match read with
  | inr e => mret (unavailable run_id e)
  | inl (detail, metrics, artifacts) =>
      artifacts ← pure (l ← py_list artifacts; mapM_result as_object l);
      selected ← pure (mapM_result (artifact_view run_id) (artifact_selection filters artifacts));
      raw ← raw_excerpt run_id filters;
      let '(raw_data, missing) := raw in
      detail ← pure (as_object detail);
      metrics ← pure (l ← py_list metrics; mapM_result as_object l);
      mret (MkEntry (run_entry run_id detail (_fact <$> metrics) selected raw_data) missing)
  end.

Definition run_report (run_ids : list string) (question : json) (filters : dict) : prog S json :=
  pure (raise_when (bool_decide (run_ids = [])) (QueryError 400 "at least one run_id is required"));;
  pure (raise_when (MAX_REPORT_RUNS <? length run_ids)%nat (QueryError 400 "a report is limited to 20 runs"));;
  entries ← mapM_prog (report_run filters) run_ids;
  mret (report_json run_ids question filters entries).
End calls.
End views.

(** ** planner.py *)

(** [\w] *)
Definition word_char (c : ascii) : bool :=
  is_alnum c || bool_decide (c = "_"%char) || (127 <? N_of_ascii c)%N.
Definition hex_char (c : ascii) : bool := is_digit (lower_char c) || in_range 97 102 (lower_char c).
Definition name_char (c : ascii) : bool := is_alnum c || one_of "_.-" c.

Fixpoint take_while (p : ascii → bool) (s : string) : string :=
  match s with
  | String c s' => if p c then String c (take_while p s') else EmptyString
  | EmptyString => EmptyString
  end.
Fixpoint skip_while (p : ascii → bool) (s : string) : string :=
  match s with
  | String c s' => if p c then skip_while p s' else s
  | EmptyString => EmptyString
  end.

(** [p] at the head of [s] whatever its case, which the match keeps. *)
Fixpoint match_text (p s : string) : option (string * string) :=
  match p, s with
  | EmptyString, _ => Some (EmptyString, s)
  | String a p', String b s' =>
      if bool_decide (lower_char a = lower_char b)
      then (λ m, (String b (fst m), snd m)) <$> match_text p' s' else None
  | _, EmptyString => None
  end.

(** [\b(run-[a-f0-9]+)\b] at the head of [s], which follows a word character or not. *)
Definition run_at (after_word : bool) (s : string) : option string :=
  if after_word then None
  else
    m ← match_text "run-" s;
    let digits := take_while hex_char (snd m) in
    if str_empty digits then None
    else match skip_while hex_char (snd m) with
         | String c _ => if word_char c then None else Some (fst m +:+ digits)
         | EmptyString => Some (fst m +:+ digits)
         end.
Fixpoint find_run (after_word : bool) (s : string) : option string :=
  match run_at after_word s with
  | Some m => Some m
  | None => match s with String c s' => find_run (word_char c) s' | EmptyString => None end
  end.

(** [(?:design|...)\s*[:=]?\s*([A-Za-z0-9_.-]+)] at the head of [s]. *)
Definition design_at (s : string) : option string :=
  rest ← (match match_text "design" s with
          | Some m => Some (snd m)
          | None => snd <$> match_text "设计" s
          end);
  let rest := skip_while is_space rest in
  let rest := match rest with
              | String c rest' => if one_of ":=" c then rest' else rest
              | EmptyString => rest
              end in
  let name := take_while name_char (skip_while is_space rest) in
  if str_empty name then None else Some name.
Fixpoint find_design (s : string) : option string :=
  match design_at s with
  | Some m => Some m
  | None => match s with String _ s' => find_design s' | EmptyString => None end
  end.

Definition strings_json (l : list string) : json := JList (JStr <$> l).

Section requests.
Context (py_repr : json → string).
Context {S : Type} `{AppClient S} (token : option string).
Local Abbreviation call := (call (S := S) token).
Local Abbreviation run_report := (run_report py_repr (S := S) token).

(** [[str(run["run_id"]) for run in runs]] *)
Definition run_ids_of (runs : json) : result (list string) :=
  l ← py_list runs;
  ids ← mapM_result (py_index "run_id") l;
  Ok (map (py_str py_repr) ids).

Definition plan_question (question : string) : prog S json :=
  let text := strip question in
  pure (raise_when (str_empty text) (QueryError 400 "question is required"));;
  match find_run false text with
  | Some run_id =>
      report ← run_report [run_id] (JStr text) [];
      mret (JObj [("interpretation", JObj [("kind", JStr "run"); ("run_ids", strings_json [run_id])]);
                  ("report", report)])
  | None =>
      let design := find_design text in
      let filters := ("limit", JInt MAX_RUNS)
                     :: match design with Some d => [("design_id", JStr d)] | None => [] end in
      runs ← call (app_runs [] (q_text design) [] [] (Some MAX_RUNS) 0);
      ids ← pure (run_ids_of runs);
      report ← run_report ids (JStr text) filters;
      mret (JObj [("interpretation",
                   JObj [("kind", JStr (match design with Some _ => "design_runs" | None => "recent_runs" end));
                         ("filters", JObj filters)]);
                  ("report", report)])
  end.

(** What [client.runs] makes of a filter: text, or the items of a list. *)
Definition filter_values (v : json) : list string :=
  if truthy v then match v with JList l => map (py_str py_repr) l | _ => [py_str py_repr v] end else [].
(** [str(payload.get(k, dflt))] *)
Definition shown (k : string) (dflt : json) (payload : dict) : string :=
  match default dflt (dict_get k payload) with JInt z => pretty z | v => py_str py_repr v end.

Definition structured_query (payload : dict) : prog S json :=
  pure (raise_when (bool_decide (payload = [])) (QueryError 400 "query requires question or structured filters"));;
  match get_null "run_ids" payload with
  | JNull =>
      let values name := get_null name payload in
      n ← pure (limit (Some (shown "limit" (JInt MAX_RUNS) payload)) MAX_RUNS);
      offset ← pure (integer (Some (shown "offset" (JInt 0) payload)) 0);
      pure (raise_when (offset <? 0)%Z (QueryError 400 "offset must not be negative"));;
      let kept := List.filter (λ kv, truthy (snd kv))
        ((λ name, (name, values name)) <$> ["project_id"; "design_id"; "plugin_id"; "status"]) in
      runs ← call (app_runs (filter_values (values "project_id")) (filter_values (values "design_id"))
                            (filter_values (values "plugin_id")) (filter_values (values "status"))
                            (Some n) offset);
      ids ← pure (run_ids_of runs);
      report ← run_report ids JNull payload;
      mret (JObj [("interpretation",
                   JObj [("kind", JStr "filtered_runs");
                         ("filters", JObj (kept ++ [("limit", JInt n); ("offset", JInt offset)]))]);
                  ("report", report)])
  | JList l =>
      ids ← pure (mapM_result (λ v, match v with
                                    | JStr s => raise_when (str_empty s) (QueryError 400 "run_ids");; Ok s
                                    | _ => Err (QueryError 400 "run_ids")
                                    end) l);
      report ← run_report ids JNull payload;
      mret (JObj [("interpretation", JObj [("kind", JStr "runs"); ("run_ids", strings_json ids)]);
                  ("report", report)])
  | _ => pure (Err (QueryError 400 "run_ids must be a list of non-empty strings"))
  end.

(** ** analysis.py *)

Definition _object (v : json) (name : string) : result dict :=
  match v with JObj d => Ok d | _ => Err (QueryError 400 (name +:+ " must be an object")) end.

(** A non-empty text under [k]. *)
Definition has_text (k : string) (d : dict) : bool :=
  match get_null k d with JStr s => negb (str_empty s) | _ => false end.

Definition _capability (plugin_id : string) : prog S dict :=
  plugins ← call app_plugins;
  items ← pure (l ← py_list plugins; mapM_result as_object l);
  match List.filter (λ item, py_eqb (get_null "plugin_id" item) (JStr plugin_id)) items with
  | [capability] =>
      pure (raise_when (negb (truthy (get_null "executable" capability)))
                       (QueryError 409 "analysis capability is not executable"));;
      mret capability
  | _ => pure (Err (QueryError 400 "registered analysis capability not found"))
  end.

(** [d.get(k, dflt)] *)
Definition get_or (k : string) (dflt : json) (d : dict) : json := default dflt (dict_get k d).

(** The request that confirmation would approve, and its parts. *)
Record Preview := MkPreview {
  pw_tool : dict;
  pw_inputs : json;
  pw_target : json;
  pw_task : dict;
  pw_json : json }.

Definition preview_analysis (payload : dict) : prog S Preview :=
  task ← pure (_object (get_null "task" payload) "task");
  pure (raise_when (negb (has_text "plugin_id" task)) (QueryError 400 "task.plugin_id is required"));;
  pure (iterM_result (λ k, raise_when (negb (has_text k task)) (QueryError 400 ("task." +:+ k +:+ " is required")))
                     ["project_id"; "design_id"]);;
  capability ← _capability (str_of (get_null "plugin_id" task));
  let source := get_null "input_run_id" payload in
  pure (match source with
        | JNull | JStr _ => Ok tt
        | _ => Err (QueryError 400 "input_run_id must be a string")
        end);;
  parameters ← pure (_object (or_empty (get_null "parameters" task)) "task.parameters");
  labels ← pure (_object (or_empty (get_null "labels" task)) "task.labels");
  let labels := if truthy source then dict_set "analysis_of_run_id" source labels else labels in
  let task_view := dict_set "labels" (JObj labels) task in
  let tool := [("plugin_id", get_null "plugin_id" capability);
               ("plugin_version", get_null "plugin_version" capability);
               ("capabilities", get_or "capabilities" (JList []) capability);
               ("declared", get_or "declared" (JObj []) capability)] in
  let inputs := get_or "staged_inputs" (JList []) task_view in
  let target := JObj [("project_id", get_null "project_id" task_view); ("design_id", get_null "design_id" task_view);
                      ("design_revision_id", get_null "design_revision_id" task_view);
                      ("run_type", JStr "analysis"); ("input_run_id", source)] in
  mret (MkPreview tool inputs target task_view
    (JObj [("approval_required", JBool true); ("confirmed", JBool false); ("tool", JObj tool);
           ("command", get_null "command" parameters); ("inputs", inputs);
           ("estimated", JObj [("timeout_seconds", get_null "timeout_seconds" task_view);
                               ("resources", get_null "resources" task_view)]);
           ("outputs", get_or "expected_artifacts" (JList []) task_view);
           ("target", target); ("task", JObj task_view)])).

(** [payload.get("confirm") is not True] *)
Definition confirmed (payload : dict) : bool :=
  match get_null "confirm" payload with JBool b => b | _ => false end.

Definition submit_analysis (payload : dict) (hex : string) : prog S json :=
  pure (raise_when (negb (confirmed payload)) (QueryError 409 "analysis execution requires confirm=true"));;
  preview ← preview_analysis payload;
  let task := if truthy (get_null "task_id" (pw_task preview)) then pw_task preview
              else dict_set "task_id" (JStr ("analysis-" +:+ hex)) (pw_task preview) in
  result ← call (app_submit task false (get_null "plugin_version" (pw_tool preview)));
  run ← pure (reply_json result);
  mret (JObj [("approval", JObj [("confirmed", JBool true); ("tool", JObj (pw_tool preview));
                                 ("inputs", pw_inputs preview); ("target", pw_target preview)]);
              ("run", run)]).
End requests.

(** ** server.py *)

Fixpoint split_once (c : ascii) (s : string) : option (string * string) :=
  match s with
  | EmptyString => None
  | String d s' =>
      if bool_decide (d = c) then Some (EmptyString, s')
      else (λ p, (String d (fst p), snd p)) <$> split_once c s'
  end.
Definition artifact_parts (path suffix : string) : result (string * string) :=
  match split_once "/" (inner "/artifacts/" suffix path) with
  | Some (run_id, artifact_id) =>
      raise_when (str_empty run_id || str_empty artifact_id) (QueryError 400 "run_id and artifact_id are required");;
      Ok (unquote run_id, unquote artifact_id)
  | None => Err (QueryError 400 "run_id and artifact_id are required")
  end.

Section server.
Context (py_repr : json → string).
Context {S : Type} `{AppClient S}.

Definition SERVICE_NAME : string := "query_agent".

(** [self._borrow()]: a client of its own for each call, with the token of the request. *)
Definition _borrow {A} (r : AppRequest) (m : st S A) : prog S A := call (bearer r) m.

(** The filters of the artifact list beyond what the kernel filters. *)
Definition keeps_artifact (q : query) (a : dict) : bool :=
  forallb (λ '(name, key), match first_value name q with
                           | Some v => str_empty v || py_eqb (get_null key a) (JStr v)
                           | None => true
                           end)
          [("path", "store_key"); ("sha256", "sha256"); ("kind", "kind")].

Definition artifact_list (r : AppRequest) (run_id : string) : prog S json :=
  let q := ar_query r in
  artifacts ← _borrow r (app_artifacts run_id (first_value "category" q) (first_value "format" q)
                                              (first_value "stage" q));
  artifacts ← pure (l ← py_list artifacts; mapM_result as_object l);
  views ← pure (mapM_result (artifact_view py_repr run_id) (List.filter (keeps_artifact q) artifacts));
  mret (JObj [("run_id", JStr run_id); ("artifacts", JList views);
              ("filters", JObj (omap (λ kv, (λ v, (fst kv, JStr v)) <$> head (snd kv)) q))]).

Definition named (what run_id : string) : result unit :=
  raise_when (str_empty run_id) (QueryError 400 (what +:+ " is required")).

Definition _get (r : AppRequest) : prog S json :=
  let path := ar_path r in
  let q := ar_query r in
  if bool_decide (path = "/health") then
    kernel ← _borrow r app_health;
    kernel ← pure (reply_json kernel);
    mret (JObj [("app", JStr SERVICE_NAME); ("status", JStr "ok"); ("kernel", kernel)])
  else if bool_decide (path = "/analysis/capabilities") then
    plugins ← _borrow r app_plugins;
    mret (JObj [("capabilities", plugins)])
  else if bool_decide (path = "/designs") then
    f ← pure (run_filters q);
    runs ← _borrow r (app_runs (rf_project_id f) (rf_design_id f) (rf_plugin_id f) (rf_status f)
                               (Some (rf_limit f)) (rf_offset f));
    l ← pure (py_list runs);
    groups ← pure (designs py_repr l);
    mret (JObj [("designs", JList groups); ("count", JInt (Z.of_nat (length l)))])
  else if startswith "/designs/" path && endswith "/tree" path then
    let design_id := strip_slashes (unquote (inner "/designs/" "/tree" path)) in
    pure (named "design_id" design_id);;
    tree ← _borrow r (app_design_tree design_id);
    pure (reply_json tree)
  else if startswith "/designs/" path then
    let design_id := unquote (drop_chars 9 path) in
    pure (named "design_id" design_id);;
    runs ← _borrow r (app_runs [] [design_id] [] [] (Some 100%Z) 0);
    count ← pure (py_len runs);
    mret (JObj [("design_id", JStr design_id); ("runs", runs); ("count", JInt count)])
  else if startswith "/runs/" path && endswith "/artifacts" path then
    artifact_list r (unquote (inner "/runs/" "/artifacts" path))
  else if startswith "/runs/" path && endswith "/metrics" path then
    let run_id := unquote (inner "/runs/" "/metrics" path) in
    metrics ← _borrow r (app_metrics run_id);
    mret (JObj [("run_id", JStr run_id); ("metrics", metrics)])
  else if startswith "/runs/" path then
    let run_id := unquote (drop_chars 6 path) in
    pure (named "run_id" run_id);;
    report ← run_report py_repr (bearer r) [run_id] JNull [];
    mret (JObj [("report", report)])
  else if contains "/artifacts/" path && endswith "/excerpt" path then
    parts ← pure (artifact_parts path "/excerpt");
    offset ← pure (integer (first_value "offset" q) 0);
    max_bytes ← pure (integer (first_value "max_bytes" q) 8192);
    excerpt ← _borrow r (app_excerpt (fst parts) (snd parts) offset max_bytes);
    pure (reply_json excerpt)
  else pure (Err (QueryError 404 "not found")).

(** The clauses of both handlers; a [ValueError] is the caller's. *)
Definition answered_here (e : exn) : option Response :=
  if is_value_error e then Some (error_response 400 (exc_text e)) else answered e.
Definition handling (p : prog S Response) : prog S Response :=
  except (λ e, Done ∘ Ok <$> answered_here e) p.

Definition do_GET (r : AppRequest) : prog S Response :=
  let path := ar_path r in
  handling (
    if endswith "/download" path then
      parts ← pure (artifact_parts path "/download");
      body ← _borrow r (app_bytes (fst parts) (snd parts));
      match body with
      | Raw b => mret (MkResponse 200 (Bytes b) [("Content-Type", "application/octet-stream")])
      | _ => pure (Err (TypeError "len"))
      end
    else v ← _get r; mret (json_response v 200)).

Definition _read_json (r : AppRequest) : result dict :=
  length ← content_length r;
  raise_when ((length <=? 0) || (1024 * 1024 <? length))%Z
             (QueryError 400 "request body must be a non-empty JSON object");;
  match ar_content r with
  | Document (JObj d) => Ok d
  | Document _ => Err (QueryError 400 "request body must be a JSON object")
  | NotJson | NotUnicode => Err (QueryError 400 "request body must be JSON")
  end.

Definition answer_query (r : AppRequest) (payload : dict) : prog S json :=
  match dict_get "question" payload with
  | Some (JStr question) => plan_question py_repr (bearer r) question
  | Some _ => pure (Err (QueryError 400 "question must be a string"))
  | None => structured_query py_repr (bearer r) payload
  end.

Definition do_POST (r : AppRequest) (hex : string) : prog S Response :=
  let path := ar_path r in
  handling (
    payload ← pure (_read_json r);
    if startswith "/runs/" path && endswith "/bundle" path then
      let run_id := strip_slashes (unquote (inner "/runs/" "/bundle" path)) in
      pure (named "run_id" run_id);;
      bundle ← _borrow r (app_bundle run_id);
      mret (json_response (JObj [("bundle", bundle)]) 201)
    else if bool_decide (path = "/query") then
      v ← answer_query r payload; mret (json_response v 200)
    else if bool_decide (path = "/analysis/preview") then
      preview ← preview_analysis (bearer r) payload; mret (json_response (pw_json preview) 200)
    else if bool_decide (path = "/analysis/submit") then
      v ← submit_analysis (bearer r) payload hex; mret (json_response v 202)
    else pure (Err (QueryError 404 "not found"))).
End server.
