(* ===== verification/AppProps.v ===== *)
(** * Whose token the applications' requests carry

    In every interleaving the query agent's threads speak with their own tokens; the
    consoles, which write the token into the client their threads share, do so only
    while requests do not overlap. *)

From stdpp Require Import gmap.
From S2P Require Import EvidenceConsole RunConsole QueryAgent PlanService.
Open Scope string_scope.
Open Scope list_scope.

(** What is known of the steps of the handlers. *)
Create HintDb owned discriminated.
#[export] Hint Constants Opaque : owned.

(** Requests to the two consoles. *)
Inductive console_request :=
| EvidenceGet (r : AppRequest)
| RunGet (r : AppRequest)
| RunPost (r : AppRequest).
Definition asked (q : console_request) : AppRequest :=
  match q with EvidenceGet r | RunGet r | RunPost r => r end.

(** Requests to the query agent; a POST with the id it would draw. *)
Inductive agent_request :=
| AgentGet (r : AppRequest)
| AgentPost (r : AppRequest) (hex : string).
Definition asker (q : agent_request) : AppRequest :=
  match q with AgentGet r | AgentPost r _ => r end.

Section tokens.
Context {K : Type} (wire : string → string → list (string * string) → Incoming → K → option Response * K).
Context (float_repr : spec_float → string) (loads : string → option json).
Context (_extra_headers : list (string * string)).
Local Abbreviation S := (Remote (K * list Sent)).
Local Abbreviation signed := (headers_of _extra_headers).
Local Abbreviation recorder := (remote_client (recording wire) float_repr loads _extra_headers).

(** ** One call *)

(** Everything [m] sends from [s] on carries the token [t]. *)
Definition adds (t : option string) (s s' : S) : Prop :=
  ∃ new, log_of s' = log_of s ++ new ∧ Forall (λ e, sent_headers e = signed t) new.

(** A call reads the token of its client and leaves it. *)
Definition speaks {A} (m : st S A) : Prop := ∀ s, rm_token (snd (m s)) = rm_token s ∧ adds (rm_token s) s (snd (m s)).

Lemma adds_refl t s : adds t s s.
Proof. exists []. by rewrite app_nil_r. Qed.

Lemma adds_trans t s1 s2 s3 : adds t s1 s2 → adds t s2 s3 → adds t s1 s3.
Proof.
  intros (n1 & E1 & H1) (n2 & E2 & H2). exists (n1 ++ n2). rewrite E2, E1, app_assoc. split; [done|].
  by apply Forall_app.
Qed.

Lemma speaks_lift {A} (m : result A) : speaks (lift m).
Proof. intros s. split; [done|apply adds_refl]. Qed.

Lemma speaks_bind {A B} (m : st S A) (f : A → st S B) : speaks m → (∀ a, speaks (f a)) → speaks (m ≫= f).
Proof.
  intros Hm Hf s. destruct (Hm s) as [H1 H2]. rewrite bind_run. destruct (m s) as [[a|e] s1]; simpl in *; [|done].
  destruct (Hf a s1) as [H3 H4]. rewrite H1 in H3, H4. split; [done|]. by eapply adds_trans.
Qed.

Lemma speaks_call method path p q b : speaks (_call (recording wire) float_repr loads _extra_headers method path p q b).
Proof.
  unfold _call. apply speaks_bind; [|intros; apply speaks_bind; intros; apply speaks_lift].
  intros s. unfold exchange, recording. destruct (wire _ _ _ _ _) as [answer k]. split; [done|].
  exists [MkSent method (path +:+ query_string q) (signed (rm_token s))]. split; [done|]. by repeat constructor.
Qed.

Lemma speaks_field k (m : st S Reply) : speaks m → speaks (Client.field k m).
Proof. intros H. apply speaks_bind; [done|]. intros. apply speaks_lift. Qed.

(** The calls the applications make. *)
Class Speaks {A} (m : st S A) : Prop := speaking : speaks m.

#[export] Instance speaks_health : Speaks (app_health (AppClient := recorder)).
Proof. apply speaks_call. Qed.
#[export] Instance speaks_plugins : Speaks (app_plugins (AppClient := recorder)).
Proof. apply speaks_field, speaks_call. Qed.
#[export] Instance speaks_runs p d g u n o : Speaks (app_runs (AppClient := recorder) p d g u n o).
Proof. apply speaks_field, speaks_call. Qed.
#[export] Instance speaks_run run_id : Speaks (app_run (AppClient := recorder) run_id).
Proof. apply speaks_field, speaks_call. Qed.
#[export] Instance speaks_tree d : Speaks (app_design_tree (AppClient := recorder) d).
Proof. apply speaks_call. Qed.
#[export] Instance speaks_metrics run_id : Speaks (app_metrics (AppClient := recorder) run_id).
Proof. apply speaks_field, speaks_call. Qed.
#[export] Instance speaks_artifacts run_id c f g : Speaks (app_artifacts (AppClient := recorder) run_id c f g).
Proof. apply speaks_field, speaks_call. Qed.
#[export] Instance speaks_timeline run_id : Speaks (app_timeline (AppClient := recorder) run_id).
Proof. apply speaks_field, speaks_call. Qed.
#[export] Instance speaks_excerpt r a o n : Speaks (app_excerpt (AppClient := recorder) r a o n).
Proof. apply speaks_bind; intros; [apply speaks_lift|apply speaks_call]. Qed.
#[export] Instance speaks_bytes r a : Speaks (app_bytes (AppClient := recorder) r a).
Proof. apply speaks_call. Qed.
#[export] Instance speaks_bundle r : Speaks (app_bundle (AppClient := recorder) r).
Proof. apply speaks_field, speaks_call. Qed.
#[export] Instance speaks_cancel r : Speaks (app_cancel (AppClient := recorder) r).
Proof. apply speaks_call. Qed.
#[export] Instance speaks_submit t i v : Speaks (app_submit (AppClient := recorder) t i v).
Proof.
  apply speaks_bind; [|intros; apply speaks_call]. destruct (is_null v); [apply speaks_lift|].
  apply speaks_bind; intros; apply speaks_lift.
Qed.

(** ** Programs *)

(** The steps of a program whose calls are made with clients of their own. *)
Definition owned (t : option string) B (m : st S B) : Prop := ∀ s, adds t s (snd (m s)).

Lemma owned_call {A} t (m : st S A) `{!Speaks m} : steps_are (owned t) (call (H := recorder) t m).
Proof.
  apply steps_one. intros s. simpl. unfold with_token.
  destruct (speaking (MkRemote t (rm_files s) (rm_service s))) as [_ (new & Hnew & Hf)].
  destruct (m _) as [v s']. simpl in *. exists new. split; [exact Hnew|exact Hf].
Qed.

(** [attempt] adds no step. *)
Lemma steps_attempt {A} P p (m : prog S A) : steps_are P m → steps_are P (attempt p m).
Proof.
  intros H. apply steps_except.
  - apply steps_bind; [done|]. intros. apply steps_mret.
  - intros e q. destruct (p e); [|done]. intros [= <-]. apply steps_mret.
Qed.

(** ** The query agent *)

Local Abbreviation own r := (steps_are (owned (bearer r))).
Local Existing Instance remote_client.

Ltac owned_steps :=
  repeat first
    [ solve [auto 1 with owned] | apply steps_pure | apply steps_mret | apply owned_call; apply _
    | apply steps_bind; [|intros] | apply steps_mapM; intros | apply steps_attempt
    | match goal with
      | |- steps_are _ (match ?x with _ => _ end) => destruct x
      | |- steps_are _ (let '_ := ?x in _) => destruct x
      end ].

Lemma raw_owned py_repr t run_id f : steps_are (owned t) (raw_excerpt (H := recorder) py_repr t run_id f).
Proof. unfold raw_excerpt. owned_steps. Qed.
Local Hint Resolve raw_owned : owned.

Lemma report_owned py_repr t run_ids q f :
  steps_are (owned t) (run_report (H := recorder) py_repr t run_ids q f).
Proof. unfold run_report, report_run. owned_steps. Qed.
Local Hint Resolve report_owned : owned.

Lemma question_owned py_repr t q : steps_are (owned t) (plan_question (H := recorder) py_repr t q).
Proof. unfold plan_question. owned_steps. Qed.

Lemma structured_owned py_repr t p : steps_are (owned t) (structured_query (H := recorder) py_repr t p).
Proof. unfold structured_query. owned_steps. Qed.

Lemma capability_owned t p : steps_are (owned t) (_capability (H := recorder) t p).
Proof. unfold _capability. owned_steps. Qed.
Local Hint Resolve question_owned structured_owned capability_owned : owned.

Lemma preview_owned t p : steps_are (owned t) (preview_analysis (H := recorder) t p).
Proof. unfold preview_analysis. owned_steps. Qed.
Local Hint Resolve preview_owned : owned.

Lemma submit_owned t p hex : steps_are (owned t) (submit_analysis (H := recorder) t p hex).
Proof. unfold submit_analysis. owned_steps. Qed.
Local Hint Resolve submit_owned : owned.

Lemma get_owned py_repr r : own r (QueryAgent.do_GET (H := recorder) py_repr r).
Proof. apply steps_answered. unfold _get, artifact_list, _borrow. owned_steps. Qed.

Lemma post_owned py_repr r hex : own r (QueryAgent.do_POST (H := recorder) py_repr r hex).
Proof. apply steps_answered. unfold answer_query, _borrow. owned_steps. Qed.

(** ** Threads *)

Lemma step_sends {B} t (m : st S B) s : owned t B m →
  Forall (λ e, sent_headers e = signed t) (drop (length (log_of s)) (log_of (snd (m s)))).
Proof. intros H. destruct (H s) as (new & -> & Hnew). by rewrite drop_app_length. Qed.

Lemma sent_by_owned {A} (tokens : list (option string)) l : ∀ (c : threads S A),
  Forall2 (λ t p, steps_are (owned t) p) tokens (fst c) →
  Forall (λ ie, ∃ t, tokens !! (fst ie) = Some t ∧ sent_headers (snd ie) = signed t) (sent_by l c).
Proof.
  induction l as [|i l IH]; intros [ps s] Hc; simpl in *; [constructor|].
  unfold step_thread; simpl. destruct (ps !! i) as [p|] eqn:E; simpl.
  2:{ rewrite drop_all. by apply IH. }
  destruct (Forall2_lookup_r _ _ _ _ _ Hc E) as (t & Ht & Hp).
  destruct Hp as [r|B m k Hm Hk]; simpl; [rewrite drop_all; by apply IH|].
  pose proof (step_sends t m s Hm) as Hsent. destruct (m s) as [r s'] eqn:Em. simpl in *.
  apply Forall_app. split.
  - apply Forall_map. eapply Forall_impl; [exact Hsent|]. intros e He. by exists t.
  - apply IH. simpl. rewrite <-(list_insert_id tokens i t Ht). by apply Forall2_insert.
Qed.

(** ** The consoles *)

(** Calls that read the token others may write. *)
Definition reads B (m : st S B) : Prop := speaks m.

Lemma run_reads {A} (p : prog S A) : steps_are reads p → speaks (run_prog p).
Proof.
  induction 1 as [r|B m k Hm Hk IH]; intros s; simpl; [split; [done|apply adds_refl]|].
  destruct (Hm s) as [H1 H2]. destruct (m s) as [r s1]. simpl in *.
  destruct (IH r s1) as [H3 H4]. rewrite H1 in H3, H4. split; [done|]. by eapply adds_trans.
Qed.

(** A program that writes the token of its request before anything else. *)
Inductive borrows {A} (t : option string) : prog S A → Prop :=
| borrows_nothing r : borrows t (Done r)
| borrows_token k : (∀ r, steps_are reads (k r)) → borrows t (Step (share_token (AppClient := recorder) t) k).

Lemma borrows_client {A} t (q : prog S A) : steps_are reads q →
  borrows t (step (share_token (AppClient := recorder) t);; q).
Proof. intros H. constructor. intros [[]|e]; [exact H|constructor]. Qed.

Lemma borrows_pure {A B} t (m : result A) (f : A → prog S B) :
  (∀ a, borrows t (f a)) → borrows t (pure m ≫= f).
Proof. destruct m as [a|e]; [intros H; apply H|constructor]. Qed.

Lemma borrows_except t (f : exn → option Response) (p : prog S Response) :
  borrows t p → borrows t (except (λ e, Done ∘ Ok <$> f e) p).
Proof.
  destruct 1 as [[a|e]|k Hk]; simpl; [constructor|destruct (f e); constructor|].
  constructor. intros r. apply (steps_answered reads f), Hk.
Qed.

Lemma borrows_served t n (p : prog S json) : borrows t p → borrows t (served n p).
Proof.
  intros Hp. apply borrows_except. change (v ← p; mret (json_response v n)) with
    (bind_prog (λ v, mret (json_response v n) : prog S Response) p).
  destruct Hp as [[a|e]|k Hk]; simpl; [constructor..|]. constructor. intros r.
  apply (steps_bind reads (k r)); [apply Hk|]. intros. apply steps_mret.
Qed.

Lemma reads_step {A} (m : st S A) `{!Speaks m} : steps_are reads (step m).
Proof. by apply steps_one. Qed.

Ltac reads_steps :=
  repeat first
    [ apply steps_pure | apply steps_mret | apply reads_step; apply _
    | apply steps_bind; [|intros]
    | match goal with
      | |- steps_are _ (match ?x with _ => _ end) => destruct x
      | |- steps_are _ (let '_ := ?x in _) => destruct x
      end ].
Ltac borrows_steps :=
  repeat first
    [ apply borrows_client; unfold EvidenceConsole.overview, EvidenceConsole.run_view,
        overview, run_view, submission; reads_steps
    | apply borrows_pure; intros | apply borrows_nothing
    | match goal with |- borrows _ (if ?b then _ else _) => destruct b end ].

Definition console (q : console_request) : prog S Response :=
  match q with
  | EvidenceGet r => EvidenceConsole.do_GET (H := recorder) r
  | RunGet r => RunConsole.do_GET (H := recorder) r
  | RunPost r => RunConsole.do_POST (H := recorder) r
  end.

Lemma console_borrows q : ar_path (asked q) ≠ "/health" → borrows (bearer (asked q)) (console q).
Proof.
  intros Hq. destruct q as [r|r|r]; simpl in Hq; simpl.
  - apply borrows_served. unfold EvidenceConsole._route, EvidenceConsole._client.
    rewrite bool_decide_false by done. borrows_steps.
  - apply borrows_served. unfold RunConsole._route, RunConsole._client.
    rewrite bool_decide_false by done. borrows_steps.
  - apply borrows_except. unfold RunConsole._client. borrows_steps.
Qed.

(** A thread that runs while the others wait ends as [run_prog] says. *)
Lemma run_solo {A} i (p : prog S A) : ∀ (ps : list (prog S A)) s, ps !! i = Some p →
  ∃ n, run_schedule (replicate n i) (ps, s) = (<[i := Done (fst (run_prog p s))]> ps, snd (run_prog p s)).
Proof.
  induction p as [r|B m k IH]; intros ps s Hi.
  - exists 0. simpl. by rewrite list_insert_id.
  - simpl. destruct (m s) as [r s1] eqn:E. destruct (IH r (<[i := k r]> ps) s1) as [n Hn].
    { apply list_lookup_insert_eq, lookup_lt_is_Some_1. eauto. }
    exists (Datatypes.S n). cbn [replicate run_schedule fold_left]. unfold step_thread at 2. cbn [fst snd].
    rewrite Hi, E. unfold run_schedule in Hn. rewrite Hn. by rewrite list_insert_insert_eq.
Qed.

(** [a] with the credentials of [b]. *)
Definition as_sent_by (a b : AppRequest) : AppRequest :=
  MkAppRequest (ar_target a) (ar_authorization b) (ar_length a) (ar_content a).

Lemma view_served a x : ar_path a = "/runs/" +:+ x → unquote x ≠ EmptyString →
  console (RunGet a) = served 200 (step (share_token (AppClient := recorder) (bearer a));;
                                   run_view (H := recorder) (unquote x)).
Proof.
  intros Ha Hx. simpl. unfold RunConsole.do_GET, RunConsole._route. rewrite Ha.
  pose proof (drop_chars_app "/runs/" x) as E. cbn [String.length] in E. cbv zeta. rewrite E.
  assert (str_empty (unquote x) = false) as -> by (by destruct (unquote x)).
  rewrite (bool_decide_false (_ = "/health")), (bool_decide_false (_ ∈ _)), (bool_decide_false (_ = "/plugins"));
    [|done|..|done].
  2:{ intros H. repeat (apply elem_of_cons in H as [H|H]; [done|]). by apply not_elem_of_nil in H. }
  assert (startswith "/runs/" ("/runs/" +:+ x) = true) as ->; [|done]. by destruct x.
Qed.

Lemma race a b x y s : ar_path a = "/runs/" +:+ x → unquote x ≠ EmptyString →
  ar_path b = "/runs/" +:+ y → unquote y ≠ EmptyString →
  ∃ n, fst (run_schedule ([0; 1] ++ replicate n 0) ([console (RunGet a); console (RunGet b)], s)) !! 0
       = Some (Done (fst (run_prog (console (RunGet (as_sent_by a b))) s))).
Proof.
  intros Ha Hx Hb Hy. rewrite (view_served a x), (view_served b y), (view_served (as_sent_by a b) x) by done.
  set (p := served 200 (run_view (H := recorder) (unquote x)) : prog S Response).
  set (s1 := MkRemote (bearer b) (rm_files s) (rm_service s)).
  destruct (run_solo 0 p [p; served 200 (run_view (H := recorder) (unquote y))] s1) as [n Hn]; [done|].
  exists n. unfold run_schedule. rewrite fold_left_app.
  match goal with |- fst (fold_left _ _ ?c) !! _ = _ => change c with ([p; served 200 (run_view (H := recorder) (unquote y)) : prog S Response], s1) end.
  unfold run_schedule in Hn. rewrite Hn. done.
Qed.

Definition agent (py_repr : json → string) (q : agent_request) : prog S Response :=
  match q with
  | AgentGet r => QueryAgent.do_GET (H := recorder) py_repr r
  | AgentPost r hex => QueryAgent.do_POST (H := recorder) py_repr r hex
  end.

(** C10. In every interleaving of any requests to the query agent, whatever the kernel
    answers, each call to the kernel carries exactly the token of the request whose
    thread made it. *)
Theorem agent_speaks_for_callers py_repr requests schedule s thread sent :
  (thread, sent) ∈ sent_by schedule (agent py_repr <$> requests, s) →
  ∃ q, requests !! thread = Some q ∧ sent_headers sent = headers_of _extra_headers (bearer (asker q)).
Proof.
  intros Hin. assert (Forall2 (λ t p, steps_are (owned t) p) (bearer ∘ asker <$> requests)
                              (fst (agent py_repr <$> requests, s))) as Hown.
  { apply Forall2_fmap, Forall_Forall2_diag, Forall_forall. intros [r|r hex] _; [apply get_owned|apply post_owned]. }
  apply (sent_by_owned _ schedule) in Hown. rewrite Forall_forall in Hown.
  destruct (Hown _ Hin) as (t & Ht & He). apply list_lookup_fmap_Some in Ht as (q & -> & Hq). eauto.
Qed.

(** A console that serves one request speaks with that request's token only; but when
    a second request comes in after the first has written its token, the first is
    answered as if its caller had sent the second's credentials. *)
Theorem consoles_share_token q a b x y s :
  (* one request at a time *)
  (ar_path (asked q) ≠ "/health" → adds (bearer (asked q)) s (snd (run_prog (console q) s))) ∧
  (* two views of runs at once *)
  (ar_path a = "/runs/" +:+ x → unquote x ≠ EmptyString →
   ar_path b = "/runs/" +:+ y → unquote y ≠ EmptyString →
   ∃ n, fst (run_schedule ([0; 1] ++ replicate n 0) ([console (RunGet a); console (RunGet b)], s)) !! 0
        = Some (Done (fst (run_prog (console (RunGet (as_sent_by a b))) s)))).
Proof.
  split; [|apply race]. intros Hq. destruct (console_borrows q Hq) as [r|k Hk]; [apply adds_refl|].
  simpl. destruct (run_reads (k (Ok tt)) (Hk (Ok tt)) (MkRemote (bearer (asked q)) (rm_files s) (rm_service s)))
    as [_ (new & Hnew & Hf)].
  exists new. split; [exact Hnew|exact Hf].
Qed.
End tokens.

(** ** A small kernel: it shows Bob's run to Bob *)

Definition demo_view : json :=
  JObj [("run", JObj [("run_id", JStr "run-b"); ("owner", JStr "bob")]); ("timeline", JList []);
        ("artifacts", JList []); ("metrics", JList []); ("runs", JList [])].
Definition demo_wire (method target : string) (headers : list (string * string)) (body : Incoming) (k : unit)
    : option Response * unit :=
  (Some (if bool_decide (("Authorization", "Bearer bob") ∈ headers) then json_response demo_view 200
         else error_response 404 "run not found"), k).
Definition demo_service : Remote (unit * list Sent) := MkRemote None ∅ (tt, []).
Definition from_bob (target : string) : AppRequest :=
  MkAppRequest target (Some "Bearer bob") None (Document (JObj [])).
Definition from_eve (target : string) : AppRequest :=
  MkAppRequest target (Some "Bearer eve") None (Document (JObj [])).
Definition demo_loads : string → option json := λ _, None.
Definition demo_floats : spec_float → string := λ _, "0.0".

(** Two requests at once: the second speaks between the first one's calls. *)
Lemma agent_speaks_for_callers_witness : ∃ sent,
  (0, sent) ∈ sent_by [0; 1; 0; 1] (agent demo_wire demo_floats demo_loads [] demo_repr <$>
    [AgentGet (from_bob "/runs/run-b"); AgentGet (from_eve "/runs/run-b")], demo_service) ∧
  sent_headers sent = headers_of [] (Some "bob").
Proof.
  set (requests := [AgentGet (from_bob "/runs/run-b"); AgentGet (from_eve "/runs/run-b")]).
  destruct (sent_by [0; 1; 0; 1] (agent demo_wire demo_floats demo_loads [] demo_repr <$> requests, demo_service)
            !! 2) as [[thread sent]|] eqn:E; [|discriminate E].
  exists sent.
  assert (thread = 0) as -> by (vm_compute in E; by injection E).
  apply (list_elem_of_lookup_2 _ 2) in E. split; [exact E|].
  destruct (agent_speaks_for_callers demo_wire demo_floats demo_loads [] demo_repr requests [0; 1; 0; 1]
              demo_service 0 sent E) as (q & Hq & He).
  injection Hq as <-. exact He.
Defined.

(** Eve asks for Bob's run while Bob looks at one: alone she is refused, but she is shown
    the run. *)
Lemma consoles_share_token_witness :
  (∃ s', run_prog (console demo_wire demo_floats demo_loads [] (RunGet (from_eve "/runs/run-b"))) demo_service
         = (Ok (error_response 404 "run not found"), s')) ∧
  ∃ n answer body, fst (run_schedule ([0; 1] ++ replicate n 0)
    ([console demo_wire demo_floats demo_loads [] (RunGet (from_eve "/runs/run-b"));
      console demo_wire demo_floats demo_loads [] (RunGet (from_bob "/runs/run-b"))], demo_service)) !! 0
    = Some (Done (Ok answer)) ∧
    resp_status answer = 200%Z ∧ resp_body answer = Doc (JObj body) ∧
    get_null "run" body = JObj [("run_id", JStr "run-b"); ("owner", JStr "bob")].
Proof.
  split; [eexists; vm_compute; reflexivity|].
  destruct (consoles_share_token demo_wire demo_floats demo_loads [] (RunGet (from_eve "/"))
              (from_eve "/runs/run-b") (from_bob "/runs/run-b") "run-b" "run-b" demo_service) as [_ H].
  destruct H as [n Hn]; [done..|]. exists n.
  destruct (run_prog (console demo_wire demo_floats demo_loads []
              (RunGet (as_sent_by (from_eve "/runs/run-b") (from_bob "/runs/run-b")))) demo_service)
    as [r s'] eqn:E.
  vm_compute in E. injection E as <- _. eexists _, _. split; [exact Hn|]. split_and!; reflexivity.
Defined.
