(* ===== verification/ConsoleProps.v ===== *)
(** * The run console lists what was reported, and nothing else

    The fold over a timeline against a reference: the stages in the order they were
    first reported, each with what its own events say. *)

From S2P Require Import RunConsole.
Open Scope string_scope.
Open Scope list_scope.

(** A report: the stage it names, the kind and the time of its event, its payload. *)
Record StageReport := MkStageReport { re_stage : string; re_kind : json; re_time : json; re_payload : dict }.

(** What one event reports: nothing where it is malformed or names no stage. *)
Definition report_of (event : json) : option StageReport :=
  match event with
  | JObj e =>
      match payload_of e with
      | Ok payload =>
          let kind := get_null "event_type" e in
          if py_eqb kind (JStr PROGRESS_MALFORMED) then None
          else match get_null "stage" payload with
               | JStr (String _ _ as name) => Some (MkStageReport name kind (get_null "occurred_at" e) payload)
               | _ => None
               end
      | Err _ => None
      end
  | _ => None
  end.

(** A stage is named by text, as the progress contract demands. *)
Definition named_by_text (event : json) : Prop :=
  ∀ e payload, event = JObj e → payload_of e = Ok payload →
  match get_null "stage" payload with JStr _ | JNull => True | _ => False end.

(** The names in the order of their first appearance. *)
Fixpoint first_appearances (l : list string) : list string :=
  match l with
  | [] => []
  | x :: l' => x :: List.filter (λ y, negb (bool_decide (y = x))) (first_appearances l')
  end.

(** What the reports of one stage make of its entry. *)
Definition told (e : StageEntry) (r : StageReport) : StageEntry :=
  entry_after (re_kind r) (re_time r) (re_payload r) e.
Definition entry_of (reports : list StageReport) (name : string) : StageEntry :=
  fold_left told (List.filter (λ r, bool_decide (re_stage r = name)) reports) (new_entry (JStr name)).

Definition reference (reports : list StageReport) : list StageEntry :=
  entry_of reports <$> first_appearances (re_stage <$> reports).

Lemma told_stage e r : se_stage (told e r) = se_stage e.
Proof. unfold told, entry_after. by repeat case_match. Qed.

Lemma entry_stage reports name : se_stage (entry_of reports name) = JStr name.
Proof.
  unfold entry_of. change (JStr name) with (se_stage (new_entry (JStr name))) at 2.
  generalize (new_entry (JStr name)) as e. generalize (List.filter (λ r, bool_decide (re_stage r = name)) reports).
  intros l. induction l as [|r l IH]; intros e; simpl; [done|]. by rewrite IH, told_stage.
Qed.

Lemma first_appearances_elem l x : x ∈ first_appearances l ↔ x ∈ l.
Proof.
  induction l as [|y l IH]; simpl; [done|]. rewrite !elem_of_cons, list_elem_of_In, filter_In, <-list_elem_of_In, IH.
  destruct (decide (x = y)) as [->|Hne]; [naive_solver|]. rewrite bool_decide_false by done. naive_solver.
Qed.

Lemma first_appearances_snoc l x :
  first_appearances (l ++ [x]) = first_appearances l ++ (if bool_decide (x ∈ l) then [] else [x]).
Proof.
  induction l as [|y l IH]; simpl; [done|].
  rewrite IH, List.filter_app. f_equal. f_equal.
  destruct (decide (x = y)) as [->|Hne].
  - rewrite (bool_decide_true (y ∈ y :: l)) by left. case_bool_decide; simpl; [done|]. by rewrite bool_decide_true.
  - rewrite (bool_decide_ext (x ∈ y :: l) (x ∈ l)) by (rewrite elem_of_cons; naive_solver).
    case_bool_decide; simpl; [done|]. by rewrite bool_decide_false.
Qed.

Lemma entry_of_snoc reports r name : entry_of (reports ++ [r]) name =
  if bool_decide (re_stage r = name) then told (entry_of reports name) r else entry_of reports name.
Proof.
  unfold entry_of. rewrite List.filter_app, fold_left_app. simpl. by case_bool_decide.
Qed.

(** Updating one stage of distinct stages. *)
Lemma update_stage_map (f : StageEntry → StageEntry) (g : string → StageEntry) name l :
  (∀ x, se_stage (g x) = JStr x) → NoDup l →
  update_stage (JStr name) f (g <$> l)
  = ((λ x, if bool_decide (name = x) then f (g x) else g x) <$> l)
    ++ (if bool_decide (name ∈ l) then [] else [f (new_entry (JStr name))]).
Proof.
  intros Hg Hnd. induction Hnd as [|x l Hx Hnd IH]; csimpl; [done|].
  rewrite Hg. change (py_eqb (JStr x) (JStr name)) with (bool_decide (x = name)).
  destruct (decide (x = name)) as [->|Hne].
  - rewrite !bool_decide_true by (done || left). rewrite app_nil_r. f_equal.
    apply list_fmap_ext. intros i y Hy. rewrite bool_decide_false; [done|]. intros ->.
    by apply Hx, list_elem_of_lookup_2 with i.
  - rewrite IH, (bool_decide_false (x = name)), (bool_decide_false (name = x)) by done. simpl. f_equal. f_equal.
    rewrite (bool_decide_ext (name ∈ x :: l) (name ∈ l)) by (rewrite elem_of_cons; naive_solver). done.
Qed.

Lemma first_appearances_NoDup l : NoDup (first_appearances l).
Proof.
  induction l as [|x l IH]; simpl; constructor.
  - rewrite list_elem_of_In, filter_In. intros [_ H]. by rewrite bool_decide_true in H.
  - by apply NoDup_ListNoDup, List.NoDup_filter, NoDup_ListNoDup.
Qed.

Lemma reference_snoc reports r :
  reference (reports ++ [r]) = update_stage (JStr (re_stage r)) (λ e, told e r) (reference reports).
Proof.
  unfold reference. rewrite update_stage_map by (apply entry_stage || apply first_appearances_NoDup).
  rewrite fmap_app. csimpl. rewrite first_appearances_snoc, fmap_app. f_equal.
  - apply list_fmap_ext. intros i name _. apply entry_of_snoc.
  - rewrite (bool_decide_ext (re_stage r ∈ first_appearances (re_stage <$> reports)) (re_stage r ∈ re_stage <$> reports))
      by apply first_appearances_elem.
    case_bool_decide as Hnew; csimpl; [done|]. rewrite entry_of_snoc, bool_decide_true by done.
    f_equal. f_equal. unfold entry_of. fold (sel (λ r', bool_decide (re_stage r' = re_stage r)) reports).
    rewrite sel_nothing; [done|]. intros r' Hr'. apply bool_decide_false. intros Heq. apply Hnew. rewrite <-Heq.
    apply list_elem_of_fmap. eauto.
Qed.

(** The reports that could not be read, as the plugin's runner counted them. *)
Definition malformed_in (event : json) : Z :=
  match event with
  | JObj e =>
      match payload_of e with
      | Ok payload =>
          if py_eqb (get_null "event_type" e) (JStr PROGRESS_MALFORMED) then
            match py_int_of (get_null "count" payload) with Ok n => n | Err _ => 0%Z end
          else 0%Z
      | Err _ => 0%Z
      end
  | _ => 0%Z
  end.

Lemma int_of_falsy v : truthy v = false → match py_int_of v with Ok n => n | Err _ => 0%Z end = 0%Z.
Proof.
  destruct v as [|[]|z|[]|[]| |]; simpl; try done. by destruct (Z.eqb_spec z 0) as [->|].
Qed.

Lemma event_reported reports m event acc : named_by_text event →
  progress_event (reference reports, m) event = Ok acc →
  acc = (reference (reports ++ option_list (report_of event)), m + malformed_in event)%Z.
Proof.
  intros Hname. unfold progress_event, report_of, malformed_in.
  intros (e & He & H)%bind_Ok. destruct event as [| | | | | |e']; try discriminate He. injection He as ->.
  apply bind_Ok in H as (payload & Hp & H). rewrite Hp. specialize (Hname e payload eq_refl Hp).
  destruct (py_eqb (get_null "event_type" e) (JStr PROGRESS_MALFORMED)).
  - simpl. rewrite app_nil_r. destruct (truthy (get_null "count" payload)) eqn:Ht.
    + apply bind_Ok in H as (n & -> & [= <-]). done.
    + injection H as <-. by rewrite int_of_falsy.
  - rewrite Z.add_0_r. destruct (get_null "stage" payload) as [| | | |[|c s]| |] eqn:Es; simpl in *; try done;
      [by injection H as <-; rewrite app_nil_r..|].
    injection H as <-. by rewrite reference_snoc.
Qed.

Lemma events_reported events : ∀ reports m acc, Forall named_by_text events →
  progress_events (reference reports, m) events = Ok acc →
  acc = (reference (reports ++ omap report_of events), m + foldr (λ e n, malformed_in e + n) 0 events)%Z.
Proof.
  induction events as [|event events IH]; intros reports m acc Hf; csimpl.
  - intros [= <-]. by rewrite app_nil_r, Z.add_0_r.
  - inversion Hf as [|? ? Hname Hrest]; subst. intros (acc1 & H1 & H2)%bind_Ok.
    apply event_reported in H1 as ->; [|done]. apply IH in H2 as ->; [|done].
    rewrite Z.add_assoc, <-app_assoc. f_equal. f_equal. by destruct (report_of event).
Qed.

(** What an entry says of its end, some report of its stage said. *)
Lemma entry_told (reports : list StageReport) (name : string) : let e := entry_of reports name in
  (se_finished_at e = JNull ∧ se_seconds e = JNull ∧ se_detail e = JNull) ∨
  ∃ r, r ∈ reports ∧ re_stage r = name ∧ re_kind r = JStr STAGE_FINISHED ∧ se_finished_at e = re_time r ∧
       se_seconds e = get_null "seconds" (re_payload r) ∧ se_detail e = get_null "detail" (re_payload r).
Proof.
  induction reports as [|r reports IH] using rev_ind; [by left|]. rewrite entry_of_snoc.
  assert (∀ r', r' ∈ reports → r' ∈ reports ++ [r]) as Hin by (intros; apply elem_of_app; by left).
  case_bool_decide as Hr; [|naive_solver]. unfold told, entry_after.
  destruct (py_eqb (re_kind r) (JStr STAGE_STARTED)); simpl; [naive_solver|].
  destruct (py_eqb (re_kind r) (JStr STAGE_FINISHED)) eqn:Ek; [|naive_solver].
  right. exists r. simpl. split; [apply elem_of_app; right; left|]. split_and!; try done.
  destruct (re_kind r); try discriminate Ek. cbn in Ek. rewrite bool_decide_eq_true in Ek. by subst.
Qed.

(** For events that name their stages by text, the console's progress lists exactly
    the stages that were reported, each once, in the order of their first report, each
    with what the reports of that stage alone say; it counts the malformed reports,
    and an end, a duration or a detail it shows was reported with a finished stage. *)
Theorem progress_reported timeline events out :
  py_list timeline = Ok events → Forall named_by_text events → progress timeline = Ok out →
  let reports := omap report_of events in
  let stages := entry_of reports <$> first_appearances (re_stage <$> reports) in
  out = JObj [("stages", JList (entry_json <$> stages));
              ("reported", JInt (Z.of_nat (length stages)));
              ("reported_nothing", JBool (bool_decide (stages = [])));
              ("malformed_reports", JInt (foldr (λ e n, malformed_in e + n)%Z 0%Z events));
              ("note", JStr PROGRESS_NOTE)] ∧
  NoDup (se_stage <$> stages) ∧
  (∀ e, e ∈ stages →
     (se_finished_at e = JNull ∧ se_seconds e = JNull ∧ se_detail e = JNull) ∨
     ∃ r, r ∈ reports ∧ JStr (re_stage r) = se_stage e ∧ re_kind r = JStr STAGE_FINISHED ∧
          se_finished_at e = re_time r ∧ se_seconds e = get_null "seconds" (re_payload r) ∧
          se_detail e = get_null "detail" (re_payload r)).
Proof.
  intros Hl Hf H reports stages. unfold progress in H. rewrite Hl in H. cbn [mbind result_bind] in H.
  apply bind_Ok in H as (acc & Hacc & H).
  apply (events_reported events [] 0%Z) in Hacc as ->; [|done]. injection H as <-.
  split; [done|]. split.
  - unfold stages. rewrite <-list_fmap_compose.
    rewrite (list_fmap_ext _ JStr) by (intros i x _; simpl; apply entry_stage).
    apply NoDup_fmap_2; [by intros ?? [=]|apply first_appearances_NoDup].
  - intros e (name & -> & _)%list_elem_of_fmap. rewrite entry_stage.
    destruct (entry_told reports name) as [|(r & ? & <- & ?)]; eauto 10.
Qed.

Definition demo_event (kind stage time : string) (more : dict) : json :=
  JObj [("event_type", JStr kind); ("occurred_at", JStr time); ("payload", JObj (("stage", JStr stage) :: more))].
Definition demo_timeline : list json :=
  [demo_event STAGE_STARTED "place" "t1" []; demo_event "run.state_changed" "" "t2" [];
   demo_event STAGE_STARTED "route" "t3" [];
   demo_event STAGE_FINISHED "place" "t4" [("status", JStr "ok"); ("seconds", JInt 9)];
   JObj [("event_type", JStr PROGRESS_MALFORMED); ("payload", JObj [("count", JInt 2)])]].

Lemma progress_reported_witness : ∃ out,
  progress (JList demo_timeline) = Ok out ∧ (∃ d, out = JObj d ∧
    dict_get "stages" d = Some (JList [
      JObj [("stage", JStr "place"); ("status", JStr "ok"); ("started_at", JStr "t1"); ("finished_at", JStr "t4");
            ("seconds", JInt 9); ("detail", JNull)];
      JObj [("stage", JStr "route"); ("status", JStr "running"); ("started_at", JStr "t3"); ("finished_at", JNull);
            ("seconds", JNull); ("detail", JNull)]]) ∧
    dict_get "malformed_reports" d = Some (JInt 2)).
Proof.
  destruct (progress (JList demo_timeline)) as [out|e] eqn:E; [|discriminate E].
  exists out. split; [done|].
  destruct (progress_reported (JList demo_timeline) demo_timeline out) as (-> & _ & _); [done| |done|].
  - repeat constructor; intros ? ? [= <-] [= <-]; exact I.
  - eexists. split; [reflexivity|]. split; reflexivity.
Defined.
