(* ===== verification/DseProps.v ===== *)
(** * Sweeps are recorded and compared in full

    The lab's database invariant; a sweep that is submitted has one recorded answer for
    each of its points, and a comparison omits none of them. *)

From stdpp Require Import pretty.
From S2P Require Import DseLab.
Open Scope string_scope.
Open Scope list_scope.

(** ** The database *)

Record lab_ok (s : SweepDb) : Prop := {
  lk_ids : NoDup (pt_point_id <$> points s);
  lk_ordinals : NoDup ((λ r, (pt_sweep_id r, pt_ordinal r)) <$> points s);
  lk_sweeps : ∀ r, r ∈ points s → has_row (is_sweep (pt_sweep_id r)) (sweeps s) = true;
  lk_few : ∀ sweep_id, (length (sel (point_of sweep_id) (points s)) ≤ MAX_POINTS_PER_SWEEP)%nat }.

Definition new_points (sweep_id : string) (hexes : nat → string) (ps : list dict) : list PointRow :=
  imap (λ ordinal parameters,
          MkPointRow ("point-" +:+ hexes ordinal) sweep_id (Z.of_nat ordinal)
                     (sort_json (JObj parameters)) None None) ps.

Lemma new_points_sorted sweep_id hexes ps :
  StronglySorted (λ r1 r2, pt_ordinal r1 ≤ pt_ordinal r2)%Z (new_points sweep_id hexes ps).
Proof. by apply imap_sorted. Qed.

(** INSERTs that went through: the rows were new. *)
Lemma insert_points_Ok rows : ∀ s us s', mapM_st insert_point rows s = (Ok us, s') →
  s' = MkSweepDb (sweeps s) (points s ++ rows) ∧
  (NoDup (pt_point_id <$> points s) → NoDup (pt_point_id <$> points s ++ rows)) ∧
  (NoDup ((λ r, (pt_sweep_id r, pt_ordinal r)) <$> points s) →
   NoDup ((λ r, (pt_sweep_id r, pt_ordinal r)) <$> points s ++ rows)).
Proof.
  induction rows as [|r rows IH]; intros s us s' H.
  - simpl in H. injection H as _ <-. rewrite app_nil_r. by destruct s.
  - cbn [mapM_st] in H. apply bind_st_Ok in H as (u & s1 & H1 & H).
    apply bind_st_Ok in H as (us' & s2 & H2 & H). injection H as _ <-.
    unfold insert_point in H1. destruct (_ || _) eqn:E in H1; [done|]. injection H1 as _ <-.
    apply orb_false_iff in E as [E _]. rewrite has_row_false in E.
    apply IH in H2 as (-> & Hids & Hords). cbn [points sweeps] in *. unfold ins in *.
    rewrite <-!(assoc_L (++)) in Hids, Hords |- *. simpl in *. split; [done|]. split; intros Hnd.
    + apply Hids, (NoDup_fmap_ins pt_point_id r); [done|]. intros r' Hr' Heq.
      specialize (E r' Hr'). apply orb_false_iff in E as [E _]. unfold is_point in E. by bool_simpl.
    + apply Hords, (NoDup_fmap_ins (λ r, (pt_sweep_id r, pt_ordinal r)) r); [done|]. intros r' Hr' [= H1 H2].
      specialize (E r' Hr'). apply orb_false_iff in E as [_ E]. unfold point_of in E.
      rewrite H1, H2, !bool_decide_true in E by done. done.
Qed.

Lemma create_sweep_Ok name plugin_id inputs ps hex hexes now s sweep_id s' :
  create_sweep name plugin_id inputs ps hex hexes now s = (Ok sweep_id, s') →
  check_sweep name plugin_id ps = Ok tt ∧ sweep_id = "sweep-" +:+ hex ∧
  has_row (is_sweep sweep_id) (sweeps s) = false ∧
  let row := MkSweepRow sweep_id (strip name) (strip plugin_id) (sort_json (JObj inputs)) now in
  let rows := new_points sweep_id hexes ps in
  s' = MkSweepDb (ins row (sweeps s)) (points s ++ rows) ∧
  (NoDup (pt_point_id <$> points s) → NoDup (pt_point_id <$> points s ++ rows)) ∧
  (NoDup ((λ r, (pt_sweep_id r, pt_ordinal r)) <$> points s) →
   NoDup ((λ r, (pt_sweep_id r, pt_ordinal r)) <$> points s ++ rows)).
Proof.
  unfold create_sweep. intros ([] & s0 & [Hc ->]%lift_Ok & H)%bind_st_Ok.
  apply bind_st_Ok in H as (u & s2 & Ht & H). apply mret_st_Ok in H as [-> ->].
  apply transaction_Ok, bind_st_Ok in Ht as (u1 & s1 & H1 & H2).
  unfold insert_sweep in H1. simpl in H1. destruct (has_row _ (sweeps s)) eqn:Hf; [done|]. injection H1 as _ <-.
  apply bind_st_Ok in H2 as (us & s2' & H2 & H3). apply mret_st_Ok in H3 as [_ ->].
  apply insert_points_Ok in H2 as (-> & Hids & Hords). done.
Qed.

Lemma check_sweep_Ok name plugin_id ps : check_sweep name plugin_id ps = Ok tt →
  (0 < length ps ≤ MAX_POINTS_PER_SWEEP)%nat.
Proof.
  unfold check_sweep. intros ([] & _ & H)%bind_Ok. apply bind_Ok in H as ([] & _ & H).
  apply bind_Ok in H as ([] & H1%raise_when_Ok & H2%raise_when_Ok).
  apply bool_decide_eq_false in H1. apply Nat.ltb_ge in H2. split; [|done]. by destruct ps; [|simpl; lia].
Qed.

Lemma sel_new_points sweep_id other hexes ps :
  sel (point_of other) (new_points sweep_id hexes ps) = if bool_decide (sweep_id = other) then new_points sweep_id hexes ps else [].
Proof.
  unfold point_of. case_bool_decide as Heq; [apply sel_everything|apply sel_nothing];
    intros r (i & x & -> & _)%elem_of_lookup_imap; simpl; [by apply bool_decide_true|by apply bool_decide_false].
Qed.

Lemma sel_app {R} (P : R → bool) t1 t2 : sel P (t1 ++ t2) = sel P t1 ++ sel P t2.
Proof. apply List.filter_app. Qed.

(** A sweep that is new has no points yet. *)
Lemma no_points s sweep_id : lab_ok s → has_row (is_sweep sweep_id) (sweeps s) = false →
  sel (point_of sweep_id) (points s) = [].
Proof.
  intros Hok Hf. apply sel_nothing. intros r Hr. unfold point_of. apply bool_decide_false. intros Heq.
  pose proof (lk_sweeps _ Hok r Hr) as H. by rewrite Heq, Hf in H.
Qed.

Lemma create_sweep_ok name plugin_id inputs ps hex hexes now s sweep_id s' : lab_ok s →
  create_sweep name plugin_id inputs ps hex hexes now s = (Ok sweep_id, s') → lab_ok s'.
Proof.
  intros Hok (Hc & -> & Hf & -> & Hids & Hords)%create_sweep_Ok. apply check_sweep_Ok in Hc as [_ Hc].
  split; simpl; [apply Hids, Hok|apply Hords, Hok| |].
  - intros r [Hr|(i & x & -> & _)%elem_of_lookup_imap]%elem_of_app; apply has_row_true.
    + pose proof (lk_sweeps _ Hok r Hr) as (r' & ? & ?)%has_row_true. exists r'. rewrite elem_of_ins. auto.
    + eexists. rewrite elem_of_ins. split; [by right|]. unfold is_sweep. simpl. by apply bool_decide_true.
  - intros other. rewrite sel_app, sel_new_points, length_app. case_bool_decide as Heq.
    + subst other. rewrite no_points by done. unfold new_points. by rewrite length_imap.
    + simpl. pose proof (lk_few _ Hok other). lia.
Qed.

(** The invariant is about the keys of the points. *)
Definition point_key (r : PointRow) : string * string * Z := (pt_point_id r, pt_sweep_id r, pt_ordinal r).

Lemma count_of_keys sweep_id t :
  length (sel (point_of sweep_id) t) = length (List.filter (λ k, bool_decide (k.1.2 = sweep_id)) (point_key <$> t)).
Proof. unfold sel, point_of. induction t as [|r t IH]; csimpl; [done|]. case_bool_decide; simpl; by rewrite IH. Qed.

Lemma same_keys_ok s t : lab_ok s → point_key <$> t = point_key <$> points s → lab_ok (MkSweepDb (sweeps s) t).
Proof.
  intros [H1 H2 H3 H4] Hk. split; simpl.
  - rewrite (list_fmap_compose point_key (λ k, k.1.1) t : pt_point_id <$> t = _), Hk, <-list_fmap_compose. exact H1.
  - rewrite (list_fmap_compose point_key (λ k, (k.1.2, k.2)) t : (λ r, (pt_sweep_id r, pt_ordinal r)) <$> t = _),
      Hk, <-list_fmap_compose. exact H2.
  - intros r Hr. assert (point_key r ∈ point_key <$> points s) as (r' & [= _ Heq _] & Hr')%list_elem_of_fmap.
    { rewrite <-Hk. by apply list_elem_of_fmap_2. }
    rewrite Heq. by apply H3.
  - intros sweep_id. rewrite count_of_keys, Hk, <-count_of_keys. apply H4.
Qed.

(** ** Submission *)

Section lab.
Context {S : Type} `{HS : AppClient S} (py_repr : json → string).
Context (uuid4 : nat → string) (time : nat → Z).
Local Abbreviation W := (Lab S).

(** What is recorded of the kernel's answer to one task. *)
Definition submitted_as (task : dict) : st S string :=
  catch (created ← app_submit task true JNull; lift (run_id_of created)) is_kernel_error
        (λ e, mret ("refused: " +:+ exc_text e)).

Definition recorded (sweep : Sweep) (point : PointRow) (run_id : string) : PointRow :=
  point_with (sw_sweep_id (sv_row sweep) +:+ "-p" +:+ pretty (pt_ordinal point)) run_id point.

Lemma run_id_of_kernel created e : run_id_of created = Err e → is_kernel_error e = false.
Proof.
  unfold run_id_of, reply_field, py_index. destruct created as [| |v]; simpl; try by intros [= <-].
  destruct v as [| | | | | |d]; simpl; try by intros [= <-].
  destruct (dict_get "run" d) as [v|]; simpl; [|by intros [= <-]].
  destruct v as [| | | | | |d']; simpl; try by intros [= <-].
  destruct (dict_get "run_id" d') as [v|]; simpl; [|by intros [= <-]]. by destruct v; simpl; intros [=]; subst.
Qed.

Lemma run_submit_point task (w : W) :
  run_prog (submit_point task) w = in_client (submitted_as task) w.
Proof.
  unfold submit_point. rewrite run_prog_bind, bind_run, run_prog_except, run_prog_bind, bind_run, run_prog_step.
  unfold in_client, submitted_as, catch. rewrite bind_run.
  destruct (app_submit task true JNull (lab_client w)) as [[created|e] s1]; simpl.
  - unfold lift. destruct (run_id_of created) as [run_id|e] eqn:E; [done|]. by rewrite (run_id_of_kernel _ _ E).
  - by destruct (is_kernel_error e).
Qed.

Lemma upd_point (before rest : list PointRow) x f : NoDup (pt_point_id <$> before ++ x :: rest) →
  upd (is_point (pt_point_id x)) f (before ++ x :: rest) = before ++ f x :: rest.
Proof.
  rewrite fmap_app. intros (_ & Hb & Hr)%NoDup_app. csimpl in Hr. apply NoDup_cons in Hr as [Hr _].
  assert (∀ l, pt_point_id x ∉ pt_point_id <$> l → upd (is_point (pt_point_id x)) f l = l) as Hother.
  { intros l Hl. apply upd_none. intros r Hin. unfold is_point. apply bool_decide_false. intros Heq.
    apply Hl. rewrite <-Heq. by apply list_elem_of_fmap_2. }
  unfold upd in *. rewrite fmap_app. csimpl. unfold is_point at 2. rewrite bool_decide_true by done.
  rewrite !Hother; [done|done|]. intros Hin. apply (Hb _ Hin). csimpl. left.
Qed.

Lemma submit_points_Ok sweep plugin_id inputs rows : ∀ before (w : W) us w',
  run_prog (submit_points py_repr sweep plugin_id inputs rows) w = (Ok us, w') →
  points (lab_db w) = before ++ rows → NoDup (pt_point_id <$> before ++ rows) →
  ∃ run_ids,
    mapM_st (λ point, submitted_as (point_task py_repr sweep plugin_id inputs point)) rows (lab_client w)
      = (Ok run_ids, lab_client w') ∧ length run_ids = length rows ∧
    lab_db w' = MkSweepDb (sweeps (lab_db w)) (before ++ zip_with (recorded sweep) rows run_ids).
Proof.
  induction rows as [|x rows IH]; intros before w us w' H Hp Hnd.
  { unfold submit_points in H. simpl in H. injection H as _ <-. exists []. simpl. rewrite <-Hp. split_and!; [done..|]. by destruct (lab_db w). }
  unfold submit_points in H. cbn [mapM_prog] in H. fold (submit_points py_repr sweep plugin_id inputs rows) in H.
  rewrite run_prog_bind in H. apply bind_st_Ok in H as (u & w1 & H1 & H).
  rewrite run_prog_bind in H. apply bind_st_Ok in H as (us' & w2 & H2 & H). injection H as _ <-.
  rewrite run_prog_bind in H1. apply bind_st_Ok in H1 as (run_id & w0 & H0 & H1).
  rewrite run_submit_point in H0. unfold in_client in H0.
  destruct (submitted_as _ (lab_client w)) as [r s1] eqn:Es. injection H0 as -> <-.
  rewrite run_prog_step in H1. injection H1 as <- <-. simpl in H2.
  destruct (IH (before ++ [recorded sweep x run_id]) _ _ _ H2) as (run_ids & Hm & Hlen & Hdb).
  - simpl. rewrite Hp, upd_point by done. by rewrite <-(assoc_L (++)).
  - rewrite <-(assoc_L (++)), fmap_app. rewrite fmap_app in Hnd. exact Hnd.
  - exists (run_id :: run_ids). split_and!.
    + cbn [mapM_st]. rewrite bind_run, Es. simpl in Hm. rewrite bind_run, Hm. done.
    + simpl. by rewrite Hlen.
    + rewrite Hdb. simpl. by rewrite <-(assoc_L (++)).
Qed.

Lemma zip_recorded sweep rows run_ids : length run_ids = length rows →
  sel (point_of (sw_sweep_id (sv_row sweep))) rows = rows →
  sel (point_of (sw_sweep_id (sv_row sweep))) (zip_with (recorded sweep) rows run_ids)
  = zip_with (recorded sweep) rows run_ids.
Proof.
  intros Hlen Hsel. apply sel_everything. intros r Hr. apply list_elem_of_lookup in Hr as [i Hi].
  apply lookup_zip_with_Some in Hi as (x & run_id & -> & Hx & _). apply list_elem_of_lookup_2 in Hx.
  rewrite <-Hsel in Hx. by apply elem_of_sel in Hx as [_ Hx].
Qed.

Lemma zip_keys sweep rows : ∀ run_ids, length run_ids = length rows →
  point_key <$> zip_with (recorded sweep) rows run_ids = point_key <$> rows.
Proof. induction rows as [|x rows IH]; intros [|run_id run_ids] H; csimpl; try done. f_equal. apply IH. by injection H. Qed.

Lemma zip_sorted sweep rows : ∀ run_ids,
  StronglySorted (λ r1 r2, pt_ordinal r1 ≤ pt_ordinal r2)%Z rows →
  StronglySorted (λ r1 r2, pt_ordinal r1 ≤ pt_ordinal r2)%Z (zip_with (recorded sweep) rows run_ids).
Proof.
  induction rows as [|x rows IH]; intros [|run_id run_ids] Hs; simpl; try constructor.
  - apply IH. by inversion Hs.
  - apply Forall_forall. intros r Hr. apply list_elem_of_lookup in Hr as [i Hi].
    apply lookup_zip_with_Some in Hi as (y & z & -> & Hy & _). inversion Hs as [|? ? _ Hall]; subst.
    rewrite Forall_forall in Hall. simpl. eapply Hall, list_elem_of_lookup_2, Hy.
Qed.

Lemma read_sweep_run sweep_id (w : W) :
  run_prog (read_sweep sweep_id) w = (get_sweep sweep_id (lab_db w), w).
Proof. unfold read_sweep. rewrite run_prog_step. by destruct w. Qed.

(** A sweep read back right after its row was inserted. *)
Lemma get_sweep_of row rows s : is_sweep (sw_sweep_id row) row = true →
  has_row (is_sweep (sw_sweep_id row)) (sweeps s) = false →
  sel (point_of (sw_sweep_id row)) rows = rows →
  sel (point_of (sw_sweep_id row)) (points s) = [] →
  StronglySorted (λ r1 r2, pt_ordinal r1 ≤ pt_ordinal r2)%Z rows →
  get_sweep (sw_sweep_id row) (MkSweepDb (ins row (sweeps s)) (points s ++ rows)) = Ok (MkSweep row rows).
Proof.
  intros Hi Hf Hrows Hnone Hs. unfold get_sweep. simpl. rewrite fetchone_ins.
  assert (fetchone (is_sweep (sw_sweep_id row)) (sweeps s) = None) as ->
    by (apply fetchone_None, has_row_false, Hf).
  rewrite Hi. simpl. by rewrite sel_app, Hnone, Hrows, order_by_sorted.
Qed.

(** A sweep is submitted in full: the kernel is given the task of every point, once
    and in order, with the point's own parameters; whatever it answers, run or
    refusal, is recorded beside the point, and the sweep that is returned and stored
    has exactly the points that were asked for. Other sweeps are as they were. *)
Theorem sweep_recorded name plugin_id inputs ps (w : W) sweep w' : lab_ok (lab_db w) →
  run_prog (submit_sweep py_repr uuid4 time name plugin_id inputs ps) w = (Ok sweep, w') →
  let sweep_id := "sweep-" +:+ uuid4 (lab_draws w) in
  let rows := new_points sweep_id (λ i, uuid4 (lab_draws w + 1 + i)) ps in
  sv_row sweep = MkSweepRow sweep_id (strip name) (strip plugin_id) (sort_json (JObj inputs)) (time (lab_draws w)) ∧
  (∃ run_ids,
    mapM_st (λ point, submitted_as (point_task py_repr sweep plugin_id inputs point)) rows (lab_client w)
      = (Ok run_ids, lab_client w') ∧
    length run_ids = length ps ∧ sv_points sweep = zip_with (recorded sweep) rows run_ids) ∧
  get_sweep sweep_id (lab_db w') = Ok sweep ∧ lab_ok (lab_db w') ∧
  (∀ other, other ≠ sweep_id → get_sweep other (lab_db w') = get_sweep other (lab_db w)).
Proof.
  intros Hok H sweep_id rows. unfold submit_sweep in H. rewrite run_prog_bind in H.
  apply bind_st_Ok in H as (sid & w1 & H1 & H). rewrite run_prog_step in H1.
  unfold new_sweep, in_db in H1. destruct (create_sweep _ _ _ _ _ _ _ _) as [r d] eqn:Ec. injection H1 as -> <-.
  pose proof (create_sweep_ok _ _ _ _ _ _ _ _ _ _ Hok Ec) as Hok1.
  apply create_sweep_Ok in Ec as (_ & -> & Hf & Hd & Hids & _). fold sweep_id in Hf, Hd, H, Hids. simpl in *.
  set (row := MkSweepRow sweep_id _ _ _ _) in *. fold rows in Hd, Hids. subst d.
  assert (sel (point_of sweep_id) rows = rows) as Hrows.
  { unfold rows. rewrite sel_new_points. by rewrite bool_decide_true. }
  assert (is_sweep (sw_sweep_id row) row = true) as Hrow by (unfold is_sweep; by apply bool_decide_true).
  pose proof (no_points _ _ Hok Hf) as Hnone.
  pose proof (get_sweep_of row rows (lab_db w) Hrow Hf Hrows Hnone (new_points_sorted _ _ _)) as Hg.
  cbn [sw_sweep_id row] in Hg. rewrite Hg in H. clear Hg.
  rewrite run_prog_bind in H. apply bind_st_Ok in H as (us & w2 & H2 & H).
  apply (submit_points_Ok _ _ _ _ (points (lab_db w))) in H2 as (run_ids & Hm & Hlen & Hdb);
    [|done|apply Hids, Hok].
  rewrite read_sweep_run in H. injection H as H <-. rewrite Hdb in H. simpl in H.
  set (rows' := zip_with (recorded (MkSweep row rows)) rows run_ids) in *.
  assert (sel (point_of sweep_id) rows' = rows') as Hrows' by exact (zip_recorded (MkSweep row rows) rows run_ids Hlen Hrows).
  pose proof (get_sweep_of row rows' (lab_db w) Hrow Hf Hrows' Hnone (zip_sorted _ _ _ (new_points_sorted _ _ _))) as Hg.
  cbn [sw_sweep_id row] in Hg. rewrite Hg in H. injection H as <-. simpl. split; [done|]. split; [|split_and!].
  - exists run_ids. split; [exact Hm|]. split; [|done]. rewrite Hlen. unfold rows, new_points. apply length_imap.
  - by rewrite Hdb.
  - rewrite Hdb. apply (same_keys_ok _ (points (lab_db w) ++ rows') Hok1). simpl. rewrite !fmap_app. f_equal.
    by apply zip_keys.
  - intros other Hne. rewrite Hdb. unfold get_sweep. simpl. rewrite fetchone_ins.
    assert (is_sweep other row = false) as -> by (unfold is_sweep; by apply bool_decide_false).
    rewrite sel_app, (sel_nothing _ rows'), app_nil_r; [by destruct (fetchone _ _)|].
    intros r Hr. rewrite <-Hrows' in Hr. apply elem_of_sel in Hr as [_ Hr]. unfold point_of in *.
    apply bool_decide_eq_true in Hr as ->. by apply bool_decide_false.
Qed.

(** ** Comparison *)

(** The row a point may be shown as: refused, without a run; unavailable, where the
    kernel's answer for its run or its metrics was that error; or with what the kernel holds of its run. *)
Inductive shows (point : PointRow) : dict → Prop :=
| shows_refused : startswith REFUSED (default EmptyString (pt_run_id point)) = true ∨
    default EmptyString (pt_run_id point) = EmptyString →
    shows point (skipped point "refused" (refusal_reason (default EmptyString (pt_run_id point))))
| shows_unavailable run_id e s1 s2 s3 d : pt_run_id point = Some run_id → is_kernel_error e = true →
    app_run run_id s1 = (Err e, s2) ∨
    (app_run run_id s1 = (Ok d, s2) ∧ app_metrics run_id s2 = (Err e, s3)) →
    shows point (skipped point "unavailable" (exc_text e))
| shows_run run_id d status metrics unsourced s1 s2 s3 : pt_run_id point = Some run_id →
    app_run run_id s1 = (Ok (JObj d), s2) → app_metrics run_id s2 = (Ok metrics, s3) →
    dict_get "status" d = Some status → count_unsourced metrics = Ok unsourced →
    shows point (entry_base point ++ [("status", status); ("terminal_reason", get_null "terminal_reason" d);
                                      ("metrics", metrics); ("unsourced", JInt unsourced)]).

Lemma compare_run_shows point run_id (w : W) row w' : pt_run_id point = Some run_id →
  run_prog (compare_run point run_id) w = (Ok row, w') → shows point row ∧ lab_db w' = lab_db w.
Proof.
  intros Hp H. unfold compare_run in H.
  rewrite run_prog_bind, bind_run, run_prog_except, run_prog_bind, bind_run, run_prog_step in H. unfold in_client in H.
  destruct (app_run run_id (lab_client w)) as [[detail|e] s1] eqn:E1; simpl in H.
  2:{ destruct (is_kernel_error e) eqn:Ee; [|done]. injection H as <- <-. split; [|done].
      eapply (shows_unavailable _ run_id e _ _ s1 JNull); [done..|by left]. }
  destruct (app_metrics run_id s1) as [[metrics|e] s2] eqn:E2; simpl in H.
  2:{ destruct (is_kernel_error e) eqn:Ee; [|done]. injection H as <- <-. split; [|done].
      eapply (shows_unavailable _ run_id e); [done..|right; eauto]. }
  destruct detail as [| | | | | |d]; try discriminate H. simpl in H.
  destruct (dict_get "status" d) as [status|] eqn:Es; [|done]. simpl in H.
  destruct (count_unsourced metrics) as [n|e] eqn:En; [|done]. simpl in H. injection H as <- <-.
  split; [|done]. by eapply shows_run.
Qed.

Lemma compare_points_show rows : ∀ k (w : W) out w', (k + length rows ≤ MAX_COMPARISON_RUNS)%nat →
  run_prog (compare_points k rows) w = (Ok out, w') → Forall2 shows rows out ∧ lab_db w' = lab_db w.
Proof.
  induction rows as [|x rows IH]; intros k w out w' Hk H.
  { injection H as <- <-. by split; [constructor|]. }
  cbn [compare_points] in H. destruct (startswith REFUSED _ || str_empty _) eqn:Er.
  - rewrite run_prog_bind in H. apply bind_st_Ok in H as (out1 & w1 & H1 & H). injection H as <- <-.
    apply IH in H1 as [HF ->]; [|simpl in Hk; lia]. split; [|done]. constructor; [|done].
    apply shows_refused. apply orb_true_iff in Er as [Er|Er]; [by left|right]. by destruct (default _ _).
  - replace (MAX_COMPARISON_RUNS <=? k)%nat with false in H by (symmetry; apply Nat.leb_gt; simpl in Hk; lia).
    rewrite run_prog_bind in H. apply bind_st_Ok in H as (row & w1 & H1 & H).
    rewrite run_prog_bind in H. apply bind_st_Ok in H as (out1 & w2 & H2 & H). injection H as <- <-.
    apply IH in H2 as [HF Hdb]; [|simpl in Hk; lia].
    destruct (pt_run_id x) as [run_id|] eqn:Ex; [|done].
    apply compare_run_shows in H1 as [Hrow Hdb1]; [|done]. split; [by constructor|congruence].
Qed.

Lemma get_sweep_few sweep_id s sweep : lab_ok s → get_sweep sweep_id s = Ok sweep →
  (length (sv_points sweep) ≤ MAX_POINTS_PER_SWEEP)%nat.
Proof.
  intros Hok H. unfold get_sweep in H. apply bind_Ok in H as (row & _ & [= <-]). simpl.
  rewrite (Permutation_length (order_by_perm pt_ordinal _)). apply Hok.
Qed.

(** C34. A comparison that returns omits no point of its sweep, whatever became of it
    and whatever the kernel answers: it has one row for each, in order, which shows
    the point as refused at submission, as unavailable with the error the kernel gave
    for its run or its metrics, or with the status and the metrics the kernel gave;
    the limit on runs is never reached, and nothing is written. *)
Theorem comparison_complete sweep_id (w : W) v w' : lab_ok (lab_db w) →
  run_prog (compare_sweep sweep_id) w = (Ok v, w') →
  ∃ sweep rows, get_sweep sweep_id (lab_db w) = Ok sweep ∧ v = comparison sweep rows ∧
    Forall2 shows (sv_points sweep) rows ∧ lab_db w' = lab_db w.
Proof.
  intros Hok H. unfold compare_sweep in H. rewrite run_prog_bind, bind_run, read_sweep_run in H.
  destruct (get_sweep sweep_id (lab_db w)) as [sweep|] eqn:Hg; [|done].
  rewrite run_prog_bind in H. apply bind_st_Ok in H as (rows & w1 & H1 & H). injection H as <- <-.
  apply compare_points_show in H1 as [HF Hdb]; [eauto 10|].
  pose proof (get_sweep_few _ _ _ Hok Hg). unfold MAX_COMPARISON_RUNS, MAX_POINTS_PER_SWEEP in *. simpl. lia.
Qed.
End lab.

(** ** A kernel that runs the points of the design it knows *)

Definition demo_runs (s : nat) : json := JObj [("run_id", JStr ("run-" +:+ pretty s)); ("status", JStr "succeeded")].
Definition demo_lab_client : AppClient nat := {|
  app_health := mret Nothing;
  app_session := mret JNull;
  app_plugins := mret (JList []);
  app_runs _ _ _ _ _ _ := mret (JList []);
  app_run run_id s := if bool_decide (run_id = "run-0") then (Ok (demo_runs 0), s) else (Err (KernelError "gone" (Some 404%Z)), s);
  app_design_tree _ := mret Nothing;
  app_metrics _ := mret (JList [JObj [("complete", JBool false)]]);
  app_artifacts _ _ _ _ := mret (JList []);
  app_timeline _ := mret (JList []);
  app_excerpt _ _ _ _ := mret Nothing;
  app_bytes _ _ := mret Nothing;
  app_bundle _ := mret JNull;
  app_submit task _ _ s := if bool_decide (s = 2) then (Err (KernelError "quota" (Some 429%Z)), 3)
                           else (Ok (Json (JObj [("run", demo_runs s)])), Datatypes.S s);
  app_cancel _ := mret Nothing;
  share_token _ := mret tt;
  own_client A _ m := m |}.

Definition demo_uuid (n : nat) : string := pretty n.
Definition demo_points : list dict := [[("x", JInt 1)]; [("x", JInt 2)]; [("x", JInt 3)]].
Definition demo_lab : Lab nat := MkLab (MkSweepDb [] []) 0 0.
Definition demo_submitted : result Sweep * Lab nat :=
  run_prog (submit_sweep (H := demo_lab_client) (λ _, "value") demo_uuid Z.of_nat "first" "flow" [] demo_points) demo_lab.

Lemma empty_lab_ok : lab_ok (MkSweepDb [] []).
Proof. split; simpl; [constructor|constructor|intros r ?%not_elem_of_nil; done|intros; unfold MAX_POINTS_PER_SWEEP; lia]. Qed.

(** The third point is refused; the sweep goes on and is stored. *)
Lemma sweep_recorded_witness : ∃ sweep w',
  demo_submitted = (Ok sweep, w') ∧ lab_client w' = 3 ∧
  pt_run_id <$> sv_points sweep = [Some "run-0"; Some "run-1"; Some "refused: quota"].
Proof.
  destruct demo_submitted as [[sweep|e] w'] eqn:E; [|discriminate E]. exists sweep, w'. split; [done|].
  destruct (sweep_recorded (HS := demo_lab_client) (λ _, "value") demo_uuid Z.of_nat "first" "flow" [] demo_points
              demo_lab sweep w' empty_lab_ok E) as (_ & (run_ids & Hm & _ & ->) & _).
  vm_compute in E. injection E as _ <-. split; [reflexivity|].
  vm_compute in Hm. injection Hm as <-. reflexivity.
Defined.

Lemma small_lab_ok s : NoDup (pt_point_id <$> points s) →
  NoDup ((λ r, (pt_sweep_id r, pt_ordinal r)) <$> points s) →
  forallb (λ r, has_row (is_sweep (pt_sweep_id r)) (sweeps s)) (points s) = true →
  (length (points s) ≤ MAX_POINTS_PER_SWEEP)%nat → lab_ok s.
Proof.
  intros H1 H2 H3 H4. split; [done|done|by apply forallb_elem|]. intros sweep_id.
  etrans; [|exact H4]. unfold sel. apply List.filter_length_le.
Qed.

Definition demo_compared : result json * Lab nat :=
  run_prog (compare_sweep (H := demo_lab_client) "sweep-0") (snd demo_submitted).

(** Of its three points one succeeded, one run is gone, one was refused. *)
Lemma comparison_complete_witness : ∃ v w' sweep rows,
  demo_compared = (Ok v, w') ∧ v = comparison sweep rows ∧
  Forall2 (shows (HS := demo_lab_client)) (sv_points sweep) rows ∧
  obj_get_null "summary" v = JObj [("points", JInt 3); ("succeeded", JInt 1); ("failed", JInt 0);
                                   ("refused", JInt 1); ("unsourced_metrics", JInt 1)].
Proof.
  assert (lab_ok (lab_db (snd demo_submitted))) as Hok.
  { apply small_lab_ok; [apply (bool_decide_unpack _); vm_compute; exact I..|vm_compute; reflexivity|vm_compute; lia]. }
  destruct demo_compared as [[v|e] w'] eqn:E; [|discriminate E].
  destruct (comparison_complete (HS := demo_lab_client) "sweep-0" (snd demo_submitted) v w' Hok E)
    as (sweep & rows & _ & Hv & HF & _).
  exists v, w', sweep, rows. split_and!; [reflexivity|exact Hv|exact HF|].
  vm_compute in E. injection E as <- _. reflexivity.
Defined.
