(* ===== verification/PlanHttp.v ===== *)
(** * apps/plan_executor: the HTTP handler

    [Handler] over the plan store: plans are created, read and cancelled for the caller
    the kernel's session names.  Each statement on the store and each call of the kernel
    is a step other requests and the executor can come between. *)

From stdpp Require Import gmap.
From S2P Require Export AppBase PlanExecutor.
Open Scope string_scope.
Open Scope list_scope.

Definition SERVICE_NAME : string := "plan_executor".

Definition opt_json (o : option string) : json := match o with Some s => JStr s | None => JNull end.

(** [_step] *)
Definition _step (row : StepRow) : json :=
  JObj [("step_id", JStr (sp_step_id row)); ("ordinal", JInt (sp_ordinal row)); ("task", sp_task_json row);
        ("bindings", sp_bindings_json row); ("run_id", opt_json (sp_run_id row)); ("status", JStr (sp_status row));
        ("failure", default JNull (sp_failure_json row))].
(** What [get] returns, as it is sent. *)
Definition plan_json (p : PlanView) : json :=
  JObj [("plan_id", JStr (pv_plan_id p)); ("status", JStr (pv_status p));
        ("execution_valid", match pv_execution_valid p with Some b => JBool b | None => JNull end);
        ("failure", default JNull (pv_failure p)); ("steps", JList (_step <$> pv_steps p))].

Section handler.
Context {K : Type} `{AppClient K} (py_repr : json → string).
Context (require_auth : bool).
Local Abbreviation W := (PlanWorld K).

(** [str(session["user"]["id"]), bool(session.get("developer"))] *)
Definition session_caller (session : json) : result (option string * bool) :=
  raise_when (is_null session) (PlanError "authentication required" 401);;
  user ← py_index "user" session;
  id ← py_index "id" user;
  d ← as_object session;
  Ok (Some (py_str py_repr id), truthy (get_null "developer" d)).

(** The id of the caller, and whether it is a developer. *)
Definition _caller (r : AppRequest) : prog W (option string * bool) :=
  if negb require_auth then mret (None, true)
  else match bearer r with
       | None => pure (Err (PlanError "authentication required" 401))
       | Some token =>
           session ← step (in_kernel (own_client (Some token) app_session));
           pure (session_caller session)
       end.

Definition read_plan (plan_id : string) (owner_id : option string) (developer : bool) : prog W PlanView :=
  step (in_plans (λ s, (plan_get plan_id owner_id developer s, s))).

(** [request_cancel]: the status is read, then written. *)
Definition request_cancel (plan_id : string) : prog W unit :=
  plan ← read_plan plan_id None false;
  pure (raise_when (bool_decide (pv_status plan ∈ "succeeded" :: FAILED_STATUSES)) (PlanError "cannot cancel" 409));;
  step (in_plans (_update_plan plan_id "cancel_requested" None)).

Definition plan_answer (status : Z) (plan : PlanView) : Response :=
  json_response (JObj [("plan", plan_json plan)]) status.

(** [except PlanError], and on a GET the kernel's errors. *)
Definition plan_answered (e : exn) : option Response :=
  match e with PlanError what status => Some (error_response status what) | _ => None end.
Definition get_answered (e : exn) : option Response :=
  match plan_answered e with Some r => Some r | None => answered e end.

Definition do_GET (r : AppRequest) : prog W Response :=
  let path := ar_path r in
  except (λ e, Done ∘ Ok <$> get_answered e)
    (if bool_decide (path = "/health") then
       kernel ← step (in_kernel app_health);
       kernel ← pure (reply_json kernel);
       mret (json_response (JObj [("app", JStr SERVICE_NAME); ("status", JStr "ok"); ("kernel", kernel)]) 200)
     else if startswith "/plans/" path then
       let plan_id := unquote (drop_chars 7 path) in
       caller ← _caller r;
       plan ← read_plan plan_id (fst caller) (snd caller);
       mret (plan_answer 200 plan)
     else pure (Err (PlanError "not found" 404))).

Definition _body (r : AppRequest) : result dict :=
  length ← content_length r;
  raise_when (negb ((0 <? length) && (length <=? 1024 * 1024)))%Z
             (plan_error "request body must be non-empty and at most 1 MiB");;
  match ar_content r with
  | Document (JObj d) => Ok d
  | Document _ => Err (plan_error "request body must be a JSON object")
  | NotJson | NotUnicode => Err (plan_error "request body must be JSON")
  end.

(** [hex] and [now] are what a new plan would draw. *)
Definition do_POST (r : AppRequest) (hex : string) (now : Z) : prog W Response :=
  let path := ar_path r in
  except (λ e, Done ∘ Ok <$> plan_answered e)
    (if bool_decide (path = "/plans") then
       caller ← _caller r;
       payload ← pure (_body r);
       plan_id ← step (in_plans (create_owned py_repr payload (fst caller) hex now));
       plan ← read_plan plan_id None false;
       mret (plan_answer 201 plan)
     else if startswith "/plans/" path && endswith "/cancel" path then
       let plan_id := strip_slashes (unquote (inner "/plans/" "/cancel" path)) in
       caller ← _caller r;
       read_plan plan_id (fst caller) (snd caller);;
       request_cancel plan_id;;
       plan ← read_plan plan_id (fst caller) (snd caller);
       mret (plan_answer 202 plan)
     else pure (Err (PlanError "not found" 404))).
End handler.
