(* ===== verification/PlanHttpProps.v ===== *)
(** * Plans over HTTP belong to their callers

    With [require_auth] the handler shows and cancels a plan for its owner or a developer
    only, gives a new plan to its caller, and in every interleaving of requests keeps the
    invariant of the plan store. *)

From stdpp Require Import gmap.
From S2P Require Import PlanHttp PlanProps PlanService PlanService.
Open Scope string_scope.
Open Scope list_scope.

Section http.
Context {K : Type} `{HA : AppClient K} (py_repr : json → string).
Local Abbreviation W := (PlanWorld K).

(** What a request leaves alone. *)
Lemma caller_db auth r (w : W) : pw_db (snd (run_prog (_caller py_repr auth r) w)) = pw_db w.
Proof.
  unfold _caller. destruct auth; simpl; [|done]. destruct (bearer r); simpl; [|done].
  unfold in_kernel. by destruct (own_client _ _ _) as [[a|e] k].
Qed.

Lemma plan_refused plan_id user s :
  (∀ p, fetchone (is_plan plan_id) (plans s) = Some p → pl_owner_id p ≠ Some user) →
  ∃ what, plan_get plan_id (Some user) false s = Err (PlanError what 404).
Proof.
  intros H. unfold plan_get. destruct (fetchone _ _) as [p|]; simpl; [|eauto].
  rewrite (bool_decide_false (pl_owner_id p = Some user)) by (by apply H). simpl. eauto.
Qed.

Lemma read_plan_run plan_id owner dev (w : W) :
  run_prog (read_plan plan_id owner dev) w = (plan_get plan_id owner dev (pw_db w), w).
Proof. unfold read_plan. rewrite run_prog_step. by destruct w. Qed.

Lemma get_refused r x user (w : W) : ar_path r = "/plans/" +:+ x →
  fst (run_prog (_caller py_repr true r) w) = Ok (Some user, false) →
  (∀ p, fetchone (is_plan (unquote x)) (plans (pw_db w)) = Some p → pl_owner_id p ≠ Some user) →
  ∃ what w', run_prog (do_GET py_repr true r) w = (Ok (error_response 404 what), w') ∧ pw_db w' = pw_db w.
Proof.
  intros Hr Hc Hp. unfold do_GET. rewrite run_prog_except, Hr.
  rewrite bool_decide_false by done. rewrite startswith_app.
  pose proof (drop_chars_app "/plans/" x) as E. cbn [String.length] in E. rewrite E. cbv iota.
  rewrite run_prog_bind, bind_run.
  pose proof (caller_db true r w) as Hdb. destruct (run_prog (_caller py_repr true r) w) as [c w1]. simpl in *. subst c.
  destruct (plan_refused _ _ _ Hp) as [what Hw]. cbn [fst snd]. rewrite Hdb, Hw. simpl. eauto.
Qed.

Lemma cancel_refused r x user hex now (w : W) : ar_path r = "/plans/" +:+ x +:+ "/cancel" →
  fst (run_prog (_caller py_repr true r) w) = Ok (Some user, false) →
  (∀ p, fetchone (is_plan (strip_slashes (unquote x))) (plans (pw_db w)) = Some p → pl_owner_id p ≠ Some user) →
  ∃ what w', run_prog (do_POST py_repr true r hex now) w = (Ok (error_response 404 what), w') ∧ pw_db w' = pw_db w.
Proof.
  intros Hr Hc Hp. unfold do_POST. rewrite run_prog_except, Hr.
  rewrite bool_decide_false by done. rewrite startswith_app, <-str_app_assoc, endswith_app, str_app_assoc, inner_app.
  cbn [andb]. cbv iota. rewrite run_prog_bind, bind_run.
  pose proof (caller_db true r w) as Hdb. destruct (run_prog (_caller py_repr true r) w) as [c w1]. simpl in *. subst c.
  destruct (plan_refused _ _ _ Hp) as [what Hw]. cbn [fst snd]. rewrite Hdb, Hw. simpl. eauto.
Qed.

(** Without a bearer header no plan is read or written. *)
Lemma unsigned_refused r hex now (w : W) : bearer r = None → ar_path r ≠ "/health" →
  (∃ status what, run_prog (do_GET py_repr true r) w = (Ok (error_response status what), w) ∧ status ∈ [401; 404]%Z) ∧
  (∃ status what, run_prog (do_POST py_repr true r hex now) w = (Ok (error_response status what), w) ∧ status ∈ [401; 404]%Z).
Proof.
  intros Hb Hp. unfold do_GET, do_POST, _caller. rewrite Hb. simpl. split.
  - rewrite bool_decide_false by done. destruct (startswith _ _); simpl; eexists _, _; (split; [reflexivity|set_solver]).
  - destruct (bool_decide _); simpl; [eexists _, _; split; [reflexivity|set_solver]|].
    destruct (_ && _); simpl; eexists _, _; (split; [reflexivity|set_solver]).
Qed.

(** A plan that is created belongs to its caller. *)
Lemma create_owner payload owner hex now s plan_id s' :
  create_owned py_repr payload owner hex now s = (Ok plan_id, s') →
  ∃ p, plans s' = plans s ++ [p] ∧ pl_plan_id p = plan_id ∧ pl_owner_id p = owner.
Proof.
  unfold create_owned. intros (steps & s0 & [Hs ->]%lift_Ok & H)%bind_st_Ok.
  apply bind_st_Ok in H as (u & s1 & Ht & H). apply mret_st_Ok in H as [-> ->].
  apply (proj1 (transaction_Ok _ _ _ _)) in Ht. unfold catch in Ht.
  match type of Ht with context [?m s] => destruct (m s) as [[v|e] s2] eqn:E end;
    [injection Ht as -> ->|by destruct (is_integrity_error e)].
  apply bind_st_Ok in E as (u1 & s3 & H1 & H2). unfold insert_plan in H1. simpl in H1.
  destruct (has_row _ _); [done|]. injection H1 as _ <-.
  apply bind_st_Ok in H2 as (us & s4 & H2 & H3). apply mret_st_Ok in H3 as [_ ->].
  exists (MkPlanRow (plan_id_of py_repr payload hex) owner "queued" None now). split; [|done].
  assert (plans s4 = plans (on_plans (ins (MkPlanRow (plan_id_of py_repr payload hex) owner "queued" None now)) s)) as ->.
  { revert H2. generalize (on_plans (ins (MkPlanRow (plan_id_of py_repr payload hex) owner "queued" None now)) s) as s3.
    revert us. generalize (imap (step_row (plan_id_of py_repr payload hex)) steps) as rows.
    induction rows as [|r rows IH]; intros us s3 H; [by injection H as _ <-|].
    apply bind_st_Ok in H as (u2 & s5 & H1 & H). apply bind_st_Ok in H as (us2 & s6 & H2 & H).
    injection H as _ <-. apply IH in H2 as ->. unfold insert_step in H1. destruct (_ || _); [done|].
    by injection H1 as _ <-. }
  done.
Qed.

(** ** Interleavings *)

Local Abbreviation safe := (steps_are (λ _ m, keeps (S := W) (λ w, plans_ok (pw_db w)) m)).

Lemma safe_kernel {A} (m : st K A) : safe (step (in_kernel m)).
Proof. apply steps_one. intros w r w' Hw. unfold in_kernel. destruct (m _). by intros [= <- <-]. Qed.

Lemma safe_plans {A} (m : st PlanDb A) : keeps plans_ok m → safe (step (in_plans m)).
Proof.
  intros Hm. apply steps_one. intros w r w' Hw. unfold in_plans. destruct (m (pw_db w)) as [v s] eqn:E.
  intros [= <- <-]. simpl. by eapply Hm.
Qed.

Lemma safe_caller auth r : safe (_caller py_repr auth r).
Proof.
  unfold _caller. destruct auth; cbn [negb]; [|constructor]. destruct (bearer r); [|constructor].
  apply steps_bind; [apply safe_kernel|]. intros. apply steps_pure.
Qed.

Lemma safe_read plan_id owner dev : safe (read_plan plan_id owner dev).
Proof. apply safe_plans. intros s r s' Hs. by intros [= _ <-]. Qed.

Lemma safe_cancel plan_id : safe (PlanHttp.request_cancel plan_id).
Proof.
  apply steps_bind; [apply safe_read|]. intros plan. apply steps_bind; [apply steps_pure|]. intros _.
  apply safe_plans, keeps_modify. intros s Hs. by apply update_plan_ok.
Qed.

Lemma safe_get auth r : safe (do_GET py_repr auth r).
Proof.
  apply steps_answered. destruct (bool_decide _).
  - apply steps_bind; [apply safe_kernel|]. intros. apply steps_bind; intros; [apply steps_pure|apply steps_mret].
  - destruct (startswith _ _); [|apply steps_pure]. apply steps_bind; [apply safe_caller|]. intros.
    apply steps_bind; intros; [apply safe_read|apply steps_mret].
Qed.

Lemma safe_post auth r hex now : safe (do_POST py_repr auth r hex now).
Proof.
  apply steps_answered. destruct (bool_decide _).
  - apply steps_bind; [apply safe_caller|]. intros. apply steps_bind; [apply steps_pure|]. intros payload.
    apply steps_bind; [apply safe_plans; intros s v s' Hs E; by eapply create_owned_ok|]. intros.
    apply steps_bind; intros; [apply safe_read|apply steps_mret].
  - destruct (_ && _); [|apply steps_pure]. apply steps_bind; [apply safe_caller|]. intros.
    apply steps_bind; [apply safe_read|]. intros. apply steps_bind; [apply safe_cancel|]. intros.
    apply steps_bind; intros; [apply safe_read|apply steps_mret].
Qed.

Lemma created_run r hex now owner dev (w : W) : ar_path r = "/plans" →
  fst (run_prog (_caller py_repr true r) w) = Ok (owner, dev) →
  let w' := snd (run_prog (do_POST py_repr true r hex now) w) in
  pw_db w' = pw_db w ∨ ∃ p, plans (pw_db w') = plans (pw_db w) ++ [p] ∧ pl_owner_id p = owner.
Proof.
  intros Hr Hc. unfold do_POST. rewrite run_prog_except, Hr, (bool_decide_true ("/plans" = "/plans")) by done. cbv iota.
  rewrite run_prog_bind, bind_run. pose proof (caller_db true r w) as Hdb.
  destruct (run_prog (_caller py_repr true r) w) as [c w1]. cbn [fst snd] in *. subst c.
  rewrite run_prog_bind, bind_run. destruct (_body r) as [payload|e]; simpl; [|left; by destruct e].
  unfold in_plans. destruct (create_owned _ _ _ _ _ _) as [[plan_id|e] s] eqn:E; simpl.
  - apply create_owner in E as (p & Hp & _ & Ho). right. exists p.
    destruct (plan_get plan_id None false s); simpl; [by rewrite <-Hdb|]. by destruct (plan_answered e); simpl; rewrite <-Hdb.
  - left. rewrite <-Hdb. assert (s = pw_db w1) as ->; [|by destruct (plan_answered e)].
    unfold create_owned in E. rewrite bind_run in E. unfold lift in E.
    destruct (_validate _ _) as [steps|]; [|by injection E].
    rewrite bind_run in E. destruct (transaction _ _) as [[u|e'] s1] eqn:Et; [done|]. injection E as _ <-.
    by apply transaction_Err in Et.
Qed.

(** C17. With require_auth, a request without a bearer token, other than one for
    /health, is refused and changes nothing; a caller who is no developer finds no
    plan but their own, to read or to cancel, and the refusal writes nothing; and what
    a POST of a plan adds to the store, if anything, is one plan of its caller. *)
Theorem plans_private r hex now user (w : W) :
  (bearer r = None → ar_path r ≠ "/health" →
   (∃ status what, run_prog (do_GET py_repr true r) w = (Ok (error_response status what), w) ∧ status ∈ [401; 404]%Z) ∧
   (∃ status what, run_prog (do_POST py_repr true r hex now) w = (Ok (error_response status what), w) ∧ status ∈ [401; 404]%Z)) ∧
  (fst (run_prog (_caller py_repr true r) w) = Ok (Some user, false) →
   (∀ x, ar_path r = "/plans/" +:+ x →
      (∀ p, fetchone (is_plan (unquote x)) (plans (pw_db w)) = Some p → pl_owner_id p ≠ Some user) →
      ∃ what w', run_prog (do_GET py_repr true r) w = (Ok (error_response 404 what), w') ∧ pw_db w' = pw_db w) ∧
   (∀ x, ar_path r = "/plans/" +:+ x +:+ "/cancel" →
      (∀ p, fetchone (is_plan (strip_slashes (unquote x))) (plans (pw_db w)) = Some p → pl_owner_id p ≠ Some user) →
      ∃ what w', run_prog (do_POST py_repr true r hex now) w = (Ok (error_response 404 what), w') ∧ pw_db w' = pw_db w) ∧
   (ar_path r = "/plans" →
      let w' := snd (run_prog (do_POST py_repr true r hex now) w) in
      pw_db w' = pw_db w ∨ ∃ p, plans (pw_db w') = plans (pw_db w) ++ [p] ∧ pl_owner_id p = Some user)).
Proof.
  split; [apply unsigned_refused|]. intros Hc. split_and!.
  - intros x Hr Hp. by eapply get_refused.
  - intros x Hr Hp. by eapply cancel_refused.
  - intros Hr. by eapply created_run.
Qed.
End http.

(** What the process of the plan executor runs at once: requests, and its cycles. *)
Inductive plan_thread :=
| PlanGet (r : AppRequest)
| PlanPost (r : AppRequest) (hex : string) (now : Z)
| PlanCycle.

Section threads.
Context {K : Type} `{HA : AppClient K} `{HK : PlanKernel K} (py_repr : json → string).
Context (monotonic : nat → Z) (kernel_retry_delay : Z) (auth : bool).

Definition plan_run (t : plan_thread) : prog (PlanWorld K) Response :=
  match t with
  | PlanGet r => do_GET py_repr auth r
  | PlanPost r hex now => do_POST py_repr auth r hex now
  | PlanCycle => step (cycle_plans py_repr monotonic kernel_retry_delay);; mret (error_response 0 "")
  end.

(** However requests and cycles interleave, the invariant of the plan store holds. *)
Theorem plan_requests_keep l ts w : plans_ok (pw_db w) →
  plans_ok (pw_db (snd (run_schedule l (plan_run <$> ts, w)))).
Proof.
  intros Hw. apply (schedule_keeps (λ w, plans_ok (pw_db w)) l (plan_run <$> ts, w)); [|exact Hw]. apply Forall_fmap, Forall_forall. intros [r|r hex now|] _; unfold compose, plan_run.
  - apply safe_get.
  - apply safe_post.
  - apply steps_bind; [|intros; apply steps_mret]. apply steps_one. intros s v s' Hs E. by eapply cycle_plans_ok.
Qed.
End threads.

(** ** A kernel that knows Ana and Bea *)

Definition demo_session (token : option string) : json :=
  match token with
  | Some user => JObj [("user", JObj [("id", JStr user)]); ("developer", JBool false)]
  | None => JNull
  end.
Definition demo_http_client : AppClient (option string) := {|
  app_health := mret Nothing;
  app_session := gets demo_session;
  app_plugins := mret (JList []);
  app_runs _ _ _ _ _ _ := mret (JList []);
  app_run _ := mret JNull;
  app_design_tree _ := mret Nothing;
  app_metrics _ := mret (JList []);
  app_artifacts _ _ _ _ := mret (JList []);
  app_timeline _ := mret (JList []);
  app_excerpt _ _ _ _ := mret Nothing;
  app_bytes _ _ := mret Nothing;
  app_bundle _ := mret JNull;
  app_submit _ _ _ := mret Nothing;
  app_cancel _ := mret Nothing;
  share_token t := modify (λ _, t);
  own_client A t m s := let '(r, _) := m t in (r, s) |}.

Definition demo_plans : PlanWorld (option string) := MkPlanWorld (snd demo_created) None ∅ 0.
Definition signed_by (user target : string) : AppRequest :=
  MkAppRequest target (Some ("Bearer " +:+ user)) None (Document (JObj [])).

(** Ana's plan is hers to read; for Bea it is not there, and not hers to cancel. *)
Lemma plans_private_witness :
  (∃ answer, fst (run_prog (do_GET (H := demo_http_client) demo_repr true (signed_by "ana" "/plans/plan-1")) demo_plans)
    = Ok answer ∧ resp_status answer = 200%Z) ∧
  (∃ what w', run_prog (do_GET (H := demo_http_client) demo_repr true (signed_by "bea" "/plans/plan-1")) demo_plans
    = (Ok (error_response 404 what), w') ∧ pw_db w' = pw_db demo_plans) ∧
  (∃ what w', run_prog (do_POST (H := demo_http_client) demo_repr true (signed_by "bea" "/plans/plan-1/cancel") "0b" 1) demo_plans
    = (Ok (error_response 404 what), w') ∧ pw_db w' = pw_db demo_plans).
Proof.
  split; [eexists; split; [vm_compute; reflexivity|reflexivity]|].
  assert (∀ p, fetchone (is_plan "plan-1") (plans (pw_db demo_plans)) = Some p → pl_owner_id p ≠ Some "bea") as Howner.
  { intros p Hp. vm_compute in Hp. injection Hp as <-. discriminate. }
  split.
  - destruct (plans_private (HA := demo_http_client) demo_repr (signed_by "bea" "/plans/plan-1") "0b" 1 "bea" demo_plans)
      as [_ H]. destruct H as (H & _); [vm_compute; reflexivity|]. by apply (H "plan-1").
  - destruct (plans_private (HA := demo_http_client) demo_repr (signed_by "bea" "/plans/plan-1/cancel") "0b" 1 "bea" demo_plans)
      as [_ H]. destruct H as (_ & H & _); [vm_compute; reflexivity|]. by apply (H "plan-1").
Defined.
