(* ===== verification/Gateway.v ===== *)
(** * gateway/app.py: the entry point

    The applications it knows, the routes it adds to the kernel's, and the proxy.  The
    network is a parameter: [fetch] is one request to an application.  Names are ASCII. *)

From S2P Require Export AppBase.
Open Scope string_scope.
Open Scope list_scope.

Definition MAX_PROXY_BYTES : Z := 8 * 1024 * 1024.
Definition APP_PREFIX : string := "/app".

(** ** Registrations *)

Record AppRegistration := MkAppRegistration {
  ag_name : string;
  ag_base_url : string;
  ag_title : json;
  ag_description : json }.

Definition isalnum (s : string) : bool := negb (str_empty s) && str_forall is_alnum s.

(** [AppRegistration.validate] on the values it was given. *)
Definition validate_app (name base_url : json) : result (string * string) :=
  raise_when (negb (truthy name)) (ValueError "invalid app name");;
  name ← (match name with JStr s => Ok s | _ => Err (OtherError "AttributeError") end);
  raise_when (negb (isalnum (without "-" (without "_" name)))) (ValueError "invalid app name");;
  base_url ← (match base_url with JStr s => Ok s | _ => Err (OtherError "AttributeError") end);
  raise_when (negb (startswith "http://" base_url || startswith "https://" base_url))
             (ValueError "non-http base_url");;
  Ok (name, base_url).

(** [AppRegistration(...)] of the items of a mapping: the first two fields have no default. *)
Definition app_of (item : json) : result AppRegistration :=
  d ← (match item with JObj d => Ok d | _ => Err (TypeError "not a mapping") end);
  raise_when (negb (forallb (λ k, bool_decide (k ∈ ["name"; "base_url"; "title"; "description"])) (dict_keys d)))
             (TypeError "unexpected keyword argument");;
  raise_when (negb (dict_has "name" d && dict_has "base_url" d)) (TypeError "missing argument");;
  valid ← validate_app (get_null "name" d) (get_null "base_url" d);
  Ok (MkAppRegistration (fst valid) (snd valid) (default (JStr EmptyString) (dict_get "title" d))
                        (default (JStr EmptyString) (dict_get "description" d))).

(** The loop of [from_mapping], with the names seen. *)
Fixpoint apps_of (seen : list string) (items : list json) : result (list AppRegistration) :=
  match items with
  | [] => Ok []
  | item :: rest =>
      app ← app_of item;
      raise_when (bool_decide (ag_name app ∈ seen)) (ValueError "duplicate app name");;
      apps ← apps_of (ag_name app :: seen) rest;
      Ok (app :: apps)
  end.

(** [GatewayConfig.from_mapping] *)
Definition from_mapping (payload : dict) : result (list AppRegistration) :=
  raise_when (negb (forallb (λ k, bool_decide (k = "apps")) (dict_keys payload)))
             (ValueError "unknown gateway config keys");;
  items ← (match dict_get "apps" payload with Some v => py_list v | None => Ok [] end);
  apps_of [] items.

Definition upper_char (c : ascii) : ascii :=
  if is_lower c then ascii_of_N (N_of_ascii c - 32) else c.
(** [s.title()] of ASCII text: [after] tells whether a letter came before. *)
Fixpoint title (after : bool) (s : string) : string :=
  match s with
  | String c s' =>
      let letter := is_lower c || is_upper c in
      String (if after then lower_char c else upper_char c) (title letter s')
  | EmptyString => EmptyString
  end.
Fixpoint underscores_to_spaces (s : string) : string :=
  match s with
  | String c s' => String (if bool_decide (c = "_"%char) then " "%char else c) (underscores_to_spaces s')
  | EmptyString => EmptyString
  end.

Definition nav_entry (app : AppRegistration) : json :=
  JObj [("name", JStr (ag_name app));
        ("title", if truthy (ag_title app) then ag_title app
                  else JStr (title false (underscores_to_spaces (ag_name app))));
        ("description", ag_description app);
        ("path", JStr (APP_PREFIX +:+ "/" +:+ ag_name app +:+ "/"))].
Definition nav (apps : list AppRegistration) : json := JList (nav_entry <$> apps).

(** ** Requests to an application *)

(** What [urlopen] gives: an answer with what its bytes are, an error status with the
    bytes of its body, or no connection. *)
Inductive Fetched :=
| Answered (status : Z) (content_type : option string) (raw : string) (content : Content)
| Refused (code : Z) (content : Content)
| Unreachable (what : string).

Definition trim_slashes (s : string) : string := str_rev (drop_slashes (str_rev s)).
Definition url_of (app : AppRegistration) (path : string) : string := trim_slashes (ag_base_url app) +:+ path.

(** http.client sends no blank or control character, and ASCII only. *)
Definition check_url (url : string) : result unit :=
  raise_when (negb (str_forall (λ c, N_of_ascii c <? 128)%N url)) (ValueError "UnicodeEncodeError");;
  raise_when (negb (str_forall (λ c, (32 <? N_of_ascii c) && negb (N_of_ascii c =? 127))%N url)) (OtherError "InvalidURL").

(** [_detail] *)
Definition _detail (py_repr : json → string) (code : Z) (content : Content) : string :=
  match content with
  | Document (JObj d) =>
      let error := get_null "error" d in
      if truthy error then (match error with JStr s => s | _ => py_repr error end) else "upstream returned HTTP"
  | _ => "upstream returned HTTP"
  end.

Section gateway.
Context {S : Type} (fetch : string → string → list (string * string) → option json → st S Fetched).
Context (py_repr : json → string).

(** [probe] *)
Definition probe (app : AppRegistration) : st S json :=
  let down what := JObj [("name", JStr (ag_name app)); ("reachable", JBool false); ("error", JStr what)] in
  let url := url_of app "/health" in
  match check_url url with
  | Err (ValueError what) => mret (down what)
  | Err e => raise e
  | Ok _ =>
      answer ← fetch "GET" url [] None;
      mret (match answer with
            | Answered _ _ _ (Document v) =>
                JObj [("name", JStr (ag_name app)); ("reachable", JBool true); ("health", v)]
            | Answered _ _ _ _ => down "not JSON"
            | Refused _ _ => down "HTTP error"
            | Unreachable what => down what
            end)
  end.

(** The body that is passed on; bytes are not JSON, and [null] is no body. *)
Definition forwarded_body (b : Body) : result (option json) :=
  match b with
  | NoBody | Doc JNull => Ok None
  | Bytes _ => Err (TypeError "bytes are not JSON")
  | Doc v => Ok (Some v)
  end.

Definition forwarded_headers (authorization : option string) (data : option json) : list (string * string) :=
  [("Accept", "application/json")]
  ++ (match authorization with Some a => if str_empty a then [] else [("Authorization", a)] | None => [] end)
  ++ (match data with Some _ => [("Content-Type", "application/json")] | None => [] end).

(** [_forward]: a body that is no UTF-8 raises what no clause catches. *)
Definition _forward (app : AppRegistration) (path method : string) (body : Body) (authorization : option string)
    : st S Response :=
  data ← lift (forwarded_body body);
  lift (check_url (url_of app path));;
  answer ← fetch method (url_of app path) (forwarded_headers authorization data) data;
  lift (match answer with
        | Refused code content => Err (HttpError code (_detail py_repr code content))
        | Unreachable what => Err (HttpError 502 "unreachable")
        | Answered status content_type raw content =>
            raise_when (MAX_PROXY_BYTES <? Z.of_nat (String.length raw))%Z (HttpError 502 "oversized response");;
            match content with
            | Document v => Ok (json_response v status)
            | NotJson => Ok (MkResponse status (Bytes raw)
                               [("Content-Type", default "application/json" content_type)])
            | NotUnicode => Err (ValueError "UnicodeDecodeError")
            end
        end).

(** ** The routes *)

Section routes.
Context (apps : list AppRegistration) (attached : bool).

(** [apps.get(name)] of the dict by name: the last registration of a name. *)
Definition app_named (name : string) : option AppRegistration :=
  List.find (λ app, bool_decide (ag_name app = name)) (rev apps).

Definition health (request : Request) : st S Response :=
  probes ← mapM_st probe apps;
  mret (json_response (JObj [("service", JStr "gateway"); ("status", JStr "ok");
    ("kernel", JStr (if attached then "attached" else "absent")); ("apps", JList probes)]) 200).

Definition navigation (request : Request) : st S Response :=
  mret (json_response (JObj [("apps", nav apps)]) 200).

Definition proxy_path (tail : string) (q : query) : string :=
  (if str_empty tail then "/" else "/" +:+ tail)
  +:+ (match q with [] => EmptyString | _ => "?" +:+ urlencode (kv ← q; map (pair (fst kv)) (snd kv)) end).

Definition proxy (request : Request) : st S Response :=
  name ← lift (param "name" request);
  app ← lift (of_option (HttpError 404 "unknown app") (app_named name));
  let tail := match param "rest" request with Ok tail => tail | Err _ => EmptyString end in
  _forward app (proxy_path tail (req_query request)) (req_method request) (req_body request)
           (header "Authorization" request).

Definition gateway_table : list (string * string * (Request → st S Response)) :=
  [("GET", "/health", health); ("GET", "/", navigation); ("GET", "/apps", navigation);
   ("GET", APP_PREFIX +:+ "/{name}", proxy);
   ("GET", APP_PREFIX +:+ "/{name}/{rest...}", proxy);
   ("POST", APP_PREFIX +:+ "/{name}/{rest...}", proxy)].

(** [build_router], on the routes the kernel registered, if there is one. *)
Definition build_router (kernel : list (Route S)) : list (Route S) :=
  fold_left (λ rs e, add (fst (fst e)) (snd (fst e)) (snd e) rs) gateway_table kernel.
End routes.
End gateway.
