(* ===== verification/GatewayProps.v ===== *)
(** * The entry point keeps the kernel's surface and the applications apart

    Names in a configuration are distinct and can be mounted; with the applications
    attached the kernel answers its own paths exactly as it does alone; a request below
    an application's prefix reaches that application only. *)

From S2P Require Import Gateway RouterProps.
From S2P Require KernelApi.
Open Scope string_scope.
Open Scope list_scope.

(** ** Configurations *)

Definition mountable (app : AppRegistration) : Prop :=
  isalnum (without "-" (without "_" (ag_name app))) = true ∧
  (startswith "http://" (ag_base_url app) = true ∨ startswith "https://" (ag_base_url app) = true).

Lemma app_of_mountable item app : app_of item = Ok app → mountable app.
Proof.
  unfold app_of. intros (d & _ & H)%bind_Ok. apply bind_Ok in H as ([] & _ & H).
  apply bind_Ok in H as ([] & _ & H). apply bind_Ok in H as ([name base_url] & Hv & [= <-]).
  unfold validate_app in Hv. apply bind_Ok in Hv as ([] & _ & Hv). apply bind_Ok in Hv as (n & _ & Hv).
  apply bind_Ok in Hv as ([] & Hn%raise_when_Ok & Hv). apply bind_Ok in Hv as (b & _ & Hv).
  apply bind_Ok in Hv as ([] & Hb%raise_when_Ok & [= -> ->]). split; simpl.
  - by apply negb_false_iff.
  - by apply negb_false_iff, orb_true_iff in Hb.
Qed.

Lemma apps_of_distinct items : ∀ seen apps, apps_of seen items = Ok apps →
  NoDup (ag_name <$> apps) ∧ (∀ app, app ∈ apps → (ag_name app ∉ seen) ∧ mountable app).
Proof.
  induction items as [|item items IH]; intros seen apps H; simpl in H.
  { injection H as <-. split; [constructor|]. by intros ? ?%not_elem_of_nil. }
  apply bind_Ok in H as (app & Ha & H). apply bind_Ok in H as ([] & Hs%raise_when_Ok & H).
  apply bind_Ok in H as (rest & Hr & [= <-]). apply bool_decide_eq_false in Hs.
  apply IH in Hr as [Hnd Hin]. split.
  - csimpl. constructor; [|done]. intros (app' & Heq & Happ')%list_elem_of_fmap.
    apply Hin in Happ' as [Hne _]. apply Hne. rewrite <-Heq. left.
  - intros app' [->|Happ']%elem_of_cons; [split; [done|by eapply app_of_mountable]|].
    apply Hin in Happ' as [Hne ?]. split; [|done]. intros Hin'. apply Hne. by right.
Qed.

(** ** Routes that do not match do not matter *)

Lemma sel_insert_by {R} (key : R → Z) (P : R → bool) r t : StronglySorted (λ r1 r2, key r1 ≤ key r2)%Z t →
  sel P (insert_by key r t) = if P r then insert_by key r (sel P t) else sel P t.
Proof.
  intros Hs. unfold sel. induction Hs as [|r' t Hs IH Hall]; simpl; [by destruct (P r)|].
  destruct (key r <=? key r')%Z eqn:E; simpl.
  - destruct (P r), (P r'); simpl; rewrite ?E; try done.
    destruct (List.filter P t) as [|x l] eqn:El; [done|]. simpl.
    rewrite Forall_forall in Hall. assert (x ∈ t) as Hx%Hall.
    { assert (x ∈ sel P t) as [? _]%elem_of_sel; [unfold sel; rewrite El; left|done]. }
    apply Z.leb_le in E. by rewrite (proj2 (Z.leb_le _ _)) by lia.
  - rewrite IH. by destruct (P r), (P r'); simpl; rewrite ?E.
Qed.

Lemma sel_order_by {R} (key : R → Z) (P : R → bool) t : sel P (order_by key t) = order_by key (sel P t).
Proof.
  induction t as [|r t IH]; [done|]. cbn [order_by foldr]. fold (order_by key t).
  rewrite sel_insert_by by apply order_by_ordered. rewrite IH. unfold sel. simpl. by destruct (P r).
Qed.

Section routes.
Context {S : Type}.

Definition matching (method path : string) (r : Route S) : bool :=
  bool_decide (is_Some (route_matches method path r)).

Lemma first_match_sel method path routes :
  first_match method path routes = first_match method path (sel (matching method path) routes).
Proof.
  unfold sel. induction routes as [|r routes IH]; simpl; [done|]. unfold matching at 1.
  destruct (route_matches method path r) as [raw|] eqn:E; simpl; [by rewrite E|]. exact IH.
Qed.

Lemma match_route_app method path (l1 l2 : list (Route S)) :
  (∀ r, r ∈ l2 → match_pieces (rt_pieces r) path = None) →
  match_route method path (l1 ++ l2) = match_route method path l1 ∧
  allowed_methods path (l1 ++ l2) = allowed_methods path l1.
Proof.
  intros H. split.
  - unfold match_route, by_length. rewrite first_match_sel, sel_order_by, (first_match_sel _ _ (order_by _ l1)), sel_order_by.
    rewrite (List.filter_app _ l1 l2 : sel _ _ = _). fold (sel (matching method path) l2). rewrite (sel_nothing _ l2), app_nil_r; [done|].
    intros r Hr. unfold matching, route_matches. rewrite (H r Hr). apply bool_decide_false.
    by case_bool_decide; intros [].
  - unfold allowed_methods. rewrite List.filter_app. fold (sel (λ r : Route S, bool_decide (is_Some (match_pieces (rt_pieces r) path))) l2).
    rewrite (sel_nothing _ l2), app_nil_r; [done|]. intros r Hr. by rewrite (H r Hr).
Qed.
End routes.

(** ** The entry point's routes *)

Section gateway.
Context {S : Type} (fetch : string → string → list (string * string) → option json → st S Fetched).
Context (py_repr : json → string) (float_repr : spec_float → string) (apps : list AppRegistration) (attached : bool).
Local Abbreviation gateway_table := (gateway_table fetch py_repr apps attached).
Local Abbreviation build_router := (build_router fetch py_repr apps attached).
Local Abbreviation proxy := (proxy fetch py_repr apps).

Definition gateway_routes : list (Route S) :=
  (λ e, MkRoute (fst (fst e)) (template (snd (fst e))) (snd e)) <$> gateway_table.

Lemma build_router_app kernel : build_router kernel = kernel ++ gateway_routes.
Proof.
  unfold Gateway.build_router, gateway_routes. generalize gateway_table as l. intros l. revert kernel.
  induction l as [|e l IH]; intros kernel; csimpl; [by rewrite app_nil_r|].
  rewrite IH. unfold add. by rewrite <-(assoc_L (++)).
Qed.

Lemma gateway_not_kernel rest r : r ∈ gateway_routes → match_pieces (rt_pieces r) ("/kernel/" +:+ rest) = None.
Proof.
  unfold gateway_routes. simpl. rewrite !elem_of_cons.
  intros [->|[->|[->|[->|[->|[->|?%not_elem_of_nil]]]]]]; try done.
Qed.

(** C29. Attaching applications changes nothing about the kernel: every request to a
    path below the kernel's prefix is answered exactly as by a kernel that serves
    alone, with the same effects, whatever the applications are. *)
Theorem kernel_not_shadowed kernel method target headers incoming s rest :
  fst (urlparse target) = "/kernel/" +:+ rest →
  _handle float_repr (build_router kernel) method target headers incoming s
  = _handle float_repr kernel method target headers incoming s.
Proof.
  intros Hp. rewrite build_router_app. unfold _handle, respond.
  destruct (urlparse target) as [path query]. simpl in Hp. subst path. rewrite !bind_run.
  destruct (match_route_app method ("/kernel/" +:+ rest) kernel gateway_routes) as [Hm Ha].
  { intros r. apply gateway_not_kernel. }
  unfold lift. destruct (_read_body incoming); [|done]. by rewrite Hm, Ha.
Qed.

(** ** The proxy *)

Lemma tail_end name tail : str_forall in_line tail = true → match_pieces [Tail name] tail = Some [(name, tail)].
Proof.
  intros H. change (capture name (match_pieces []) 0 (run_length in_line tail) tail = Some [(name, tail)]).
  assert (run_length in_line tail = String.length tail) as ->.
  { pose proof (run_length_app in_line tail EmptyString H) as Hl. rewrite str_app_end in Hl.
    pose proof (run_length_le in_line tail). lia. }
  assert (match_pieces [] (str_drop (String.length tail) tail) = Some [] ∧ str_take (String.length tail) tail = tail) as [Hd Ht].
  { pose proof (drop_app_str tail EmptyString) as Hd. pose proof (take_app_str tail EmptyString) as Ht.
    rewrite str_app_end in Hd, Ht. by rewrite Hd, Ht. }
  assert (∀ rest n, rest (str_drop n tail) = Some [] → capture name rest 0 n tail = Some [(name, str_take n tail)]) as Hc.
  { intros rest [|n] Hn; cbn [capture]; by rewrite Hn. }
  rewrite (Hc (match_pieces []) _ Hd). by rewrite Ht.
Qed.

Definition proxy_pieces : list piece := [Lit "/app/"; Seg "name"; Lit "/"; Tail "rest"].

Lemma app_path_matches name tail : name ≠ EmptyString → str_forall in_line tail = true →
  match_pieces proxy_pieces ("/app/" +:+ url_quote name +:+ "/" +:+ tail)
  = Some [("name", url_quote name); ("rest", tail)].
Proof.
  intros Hn Ht. unfold proxy_pieces. rewrite lit_known. cbn [strip_both]. rewrite !bool_decide_true by done.
  rewrite str_app_nil, (str_app_cons "/" _ tail), str_app_nil.
  rewrite seg_lit by (by apply whole_quote).
  change (match_pieces [Lit "/"; Tail "rest"] (String "/" tail)) with (match_pieces [Tail "rest"] tail).
  by rewrite tail_end.
Qed.

(** The kernel registers templates below its own prefix. *)
Definition below_kernel (r : Route S) : Prop := ∃ t ps, rt_pieces r = Lit t :: ps ∧ startswith "/kernel/" t = true.

Lemma below_kernel_apart r x : below_kernel r → match_pieces (rt_pieces r) ("/app/" +:+ x) = None.
Proof.
  intros (t & ps & -> & Ht). cbn [match_pieces]. destruct (strip_prefix t _) as [s|] eqn:E; [|done].
  apply strip_prefix_Some in E. unfold startswith in Ht. destruct t as [|c1 [|c2 t]]; [done| |].
  - cbn [String.prefix] in Ht. by destruct (ascii_dec _ c1).
  - injection E as <- <- _. done.
Qed.

Lemma proxy_dispatched kernel method name tail : Forall below_kernel kernel → method ∈ ["GET"; "POST"] →
  name ≠ EmptyString → str_forall in_line tail = true →
  match_route method ("/app/" +:+ url_quote name +:+ "/" +:+ tail) (build_router kernel)
  = Some (MkRoute method proxy_pieces proxy, [("name", name); ("rest", unquote tail)]).
Proof.
  intros Hk Hm Hn Ht. rewrite build_router_app. set (path := "/app/" +:+ url_quote name +:+ "/" +:+ tail).
  pose proof (app_path_matches name tail Hn Ht) as Hmatch. fold path in Hmatch.
  rewrite (match_route_only method path (kernel ++ gateway_routes) (MkRoute method proxy_pieces proxy)
             [("name", url_quote name); ("rest", tail)]).
  - csimpl. by rewrite unquote_quote.
  - apply elem_of_app. right. unfold gateway_routes. simpl. rewrite !elem_of_cons in *.
    destruct Hm as [->|[->|?%not_elem_of_nil]]; naive_solver.
  - unfold route_matches. simpl rt_method. rewrite bool_decide_true by done. exact Hmatch.
  - intros r' [Hr|Hr]%elem_of_app Hne; unfold route_matches in Hne.
    + rewrite Forall_forall in Hk. unfold path in Hne. rewrite below_kernel_apart in Hne by auto.
      by case_bool_decide.
    + assert (match_pieces [Lit "/app/"; Seg "name"] path = None) as Hseg.
      { unfold path. rewrite lit_known. cbn [strip_both]. rewrite !bool_decide_true by done.
        rewrite str_app_nil, (str_app_cons "/" _ tail), str_app_nil. by apply seg_end_no, whole_quote. }
      unfold gateway_routes in Hr. simpl in Hr. rewrite !elem_of_cons in Hr.
      case_bool_decide as Hmm; [|done].
      destruct Hr as [->|[->|[->|[->|[->|[->|?%not_elem_of_nil]]]]]]; simpl in Hmm; subst; try done.
Qed.

Lemma app_named_in name app : app_named apps name = Some app → app ∈ apps ∧ ag_name app = name.
Proof.
  intros [Hin%in_rev Hname]%find_some. split; [by apply list_elem_of_In|]. by apply bool_decide_eq_true in Hname.
Qed.

Lemma app_named_none name : app_named apps name = None → ∀ app, app ∈ apps → ag_name app ≠ name.
Proof.
  intros H app Hin Hname. apply (find_none _ _) with (x := app) in H; [by rewrite bool_decide_true in H|].
  apply in_rev. rewrite rev_involutive. by apply list_elem_of_In.
Qed.

(** What the caller is given of an application's answer. *)
Definition relayed (answer : result Fetched) : Response :=
  match answer with
  | Err e => failure_response e
  | Ok (Refused code content) => error_response code (_detail py_repr code content)
  | Ok (Unreachable _) => error_response 502 "unreachable"
  | Ok (Answered status content_type raw content) =>
      if (MAX_PROXY_BYTES <? Z.of_nat (String.length raw))%Z then error_response 502 "oversized response"
      else match content with
           | Document v => json_response v status
           | NotJson => MkResponse status (Bytes raw) [("Content-Type", default "application/json" content_type)]
           | NotUnicode => error_response 500 "server error"
           end
  end.

Lemma forward_relays app path method body authorization (s : S) :
  match forwarded_body body, check_url (url_of app path) with
  | Ok data, Ok _ =>
      let '(answer, s') := fetch method (url_of app path) (forwarded_headers authorization data) data s in
      ∃ r, _forward fetch py_repr app path method body authorization s = (r, s') ∧
           match r with Ok response => response | Err e => failure_response e end = relayed answer
  | _, _ => ∃ e, _forward fetch py_repr app path method body authorization s = (Err e, s) ∧
                 failure_response e = error_response 500 "server error"
  end.
Proof.
  unfold _forward. rewrite bind_run. unfold lift at 1.
  destruct (forwarded_body body) as [data|e] eqn:Eb.
  2:{ exists e. split; [done|]. destruct body as [|b|[]]; simpl in Eb; simplify_eq. done. }
  rewrite bind_run. unfold lift at 1. destruct (check_url _) as [[]|e] eqn:Eu.
  2:{ exists e. split; [done|]. unfold check_url in Eu.
      destruct (negb (str_forall (λ c, N_of_ascii c <? 128)%N _)); simpl in Eu; simplify_eq; [done|].
      destruct (negb _); simpl in Eu; by simplify_eq. }
  rewrite bind_run. destruct (fetch _ _ _ _ s) as [[answer|e] s']; [|by eexists].
  eexists. split; [reflexivity|]. destruct answer as [status ct raw content|code content|what]; simpl; [|done..].
  destruct (MAX_PROXY_BYTES <? _)%Z; simpl; [done|]. by destruct content.
Qed.

(** A request below an application's prefix is made once, to the application that name
    was given to and to no other, at the path below the prefix and with the caller's
    own authorization; what it answers is relayed, a failure to connect or an
    oversized answer is 502, and a name that was not configured is 404 without any
    request. *)
Theorem app_reached kernel method name tail target headers incoming body (s : S) :
  Forall below_kernel kernel → method ∈ ["GET"; "POST"] → name ≠ EmptyString → str_forall in_line tail = true →
  fst (urlparse target) = "/app/" +:+ url_quote name +:+ "/" +:+ tail → _read_body incoming = Ok body →
  let '(response, s') := _handle float_repr (build_router kernel) method target headers incoming s in
  let request := MkRequest method (fst (urlparse target)) [] (parse_qs (snd (urlparse target))) headers body in
  let path := proxy_path (unquote tail) (req_query request) in
  match app_named apps name with
  | None => (∀ app, app ∈ apps → ag_name app ≠ name) ∧ s' = s ∧ resp_status response = 404%Z
  | Some app =>
      app ∈ apps ∧ ag_name app = name ∧
      match forwarded_body body, check_url (url_of app path) with
      | Ok data, Ok _ =>
          let '(answer, s1) := fetch method (url_of app path)
                                     (forwarded_headers (header "Authorization" request) data) data s in
          s' = s1 ∧ response = _send float_repr (relayed answer)
      | _, _ => s' = s ∧ resp_status response = 500%Z
      end
  end.
Proof.
  intros Hk Hm Hn Ht Hp Hb. unfold _handle, respond. destruct (urlparse target) as [path query]. simpl in Hp. subst path.
  rewrite bind_run. unfold lift. rewrite Hb, (proxy_dispatched kernel method name tail Hk Hm Hn Ht).
  cbn [rt_handler req_query fst snd]. unfold Gateway.proxy. rewrite bind_run. unfold lift at 1, param at 1. cbn [req_params rev app List.find fst snd of_option fmap option_fmap option_map].
  rewrite bool_decide_false by done. cbn [List.find]. rewrite bool_decide_true by done. cbn [of_option fmap option_fmap option_map snd].
  rewrite bind_run. unfold lift. destruct (app_named apps name) as [app|] eqn:Ea; cbn [of_option].
  2:{ split; [by apply app_named_none|]. split; [done|]. reflexivity. }
  cbn [req_method req_body req_query].
  change (param "rest" _) with (Ok (unquote tail)). cbv iota zeta. unfold header. cbn [req_headers req_query fst snd].
  match goal with |- context [_forward _ _ _ ?p _ _ ?au s] =>
    pose proof (forward_relays app p method body au s) as H end.
  destruct (app_named_in name app Ea) as [Hin Hname].
  destruct (forwarded_body body) as [data|e]; [destruct (check_url _) as [u|e]|].
  - match type of H with context [fetch ?a ?b ?c ?d s] => destruct (fetch a b c d s) as [answer s1] end.
    destruct H as (r & -> & Hr). split_and!; [done..|]. by rewrite <-Hr.
  - destruct H as (e' & -> & He). split_and!; [done..|]. by rewrite He.
  - destruct H as (e' & -> & He). split_and!; [done..|]. by rewrite He.
Qed.
End gateway.

(** The kernel's own routes are below its prefix, whatever it is made of. *)
Lemma kernel_routes_below sha256 pbkdf2 path_of parts host_path plain_path float_repr py_repr utf8 zip uuid token
    salt clock config supports_limits machine registry allow_anonymous local_user_id evaluator_error :
  Forall below_kernel (KernelApi.kernel_routes sha256 pbkdf2 path_of parts host_path plain_path float_repr py_repr
    utf8 zip uuid token salt clock config supports_limits machine registry allow_anonymous local_user_id
    evaluator_error).
Proof.
  unfold KernelApi.kernel_routes, KernelApi.register_routes, KernelApi.route_table.
  cbn [fold_left fst snd]. unfold add. cbn [app].
  repeat (apply Forall_cons; split; [unfold below_kernel; cbn [rt_pieces]; eexists _, _; split; [lazy; reflexivity|reflexivity]|]).
  by apply Forall_nil.
Qed.

(** ** A configuration *)

Definition demo_config : dict :=
  [("apps", JList [JObj [("name", JStr "query_agent"); ("base_url", JStr "http://127.0.0.1:8850/")];
                   JObj [("name", JStr "dse-lab"); ("base_url", JStr "http://127.0.0.1:8820"); ("title", JStr "DSE")]])].
Definition demo_apps : list AppRegistration :=
  match from_mapping demo_config with Ok apps => apps | Err _ => [] end.
Definition demo_fetch (method url : string) (headers : list (string * string)) (data : option json)
    : st (list (string * string * list (string * string))) Fetched :=
  λ s, (Ok (Answered 200 None "{}" (Document (JObj [("ok", JBool true)]))), s ++ [(method, url, headers)]).
Definition demo_kernel : list (Route (list (string * string * list (string * string)))) :=
  add "GET" "/kernel/health" (λ _, mret (json_response (JStr "kernel") 200)) [].
Definition demo_gateway := _handle (λ _, "0.0") (build_router demo_fetch (λ _, "value") demo_apps true demo_kernel).

Lemma kernel_not_shadowed_witness :
  demo_gateway "GET" "/kernel/health" [] Absent [] = (json_response (JStr "kernel") 200, []) ∧
  demo_gateway "GET" "/kernel/health" [] Absent [] = _handle (λ _, "0.0") demo_kernel "GET" "/kernel/health" [] Absent [].
Proof.
  split; [vm_compute; reflexivity|].
  exact (kernel_not_shadowed demo_fetch (λ _, "value") (λ _, "0.0") demo_apps true demo_kernel "GET" "/kernel/health"
           [] Absent [] "health" eq_refl).
Defined.

(** Bob's request to the query agent: one request, to it, in his name. *)
Lemma app_reached_witness : ∃ response,
  demo_gateway "GET" "/app/query_agent/runs/run%2D1?limit=5" [("authorization", "Bearer bob"); ("Cookie", "x")] Absent []
  = (response, [("GET", "http://127.0.0.1:8850/runs/run-1?limit=5",
                 [("Accept", "application/json"); ("Authorization", "Bearer bob")])]) ∧
  resp_status response = 200%Z.
Proof.
  destruct (demo_gateway _ _ _ _ []) as [response s'] eqn:E.
  pose proof (app_reached demo_fetch (λ _, "value") (λ _, "0.0") demo_apps true demo_kernel "GET" "query_agent"
    "runs/run%2D1" "/app/query_agent/runs/run%2D1?limit=5" [("authorization", "Bearer bob"); ("Cookie", "x")] Absent
    NoBody []) as H.
  destruct (_handle _ _ _ _ _ _ _) as [r' s''] eqn:E' in H. change (demo_gateway "GET" "/app/query_agent/runs/run%2D1?limit=5" [("authorization", "Bearer bob"); ("Cookie", "x")] Absent [] = (r', s'')) in E'.
  rewrite E in E'. injection E' as <- <-.
  destruct H as (_ & _ & -> & ->); try done.
  - repeat constructor. eexists _, _; split; reflexivity.
  - left.
  - by eexists.
Defined.
