(* ===== verification/Validate.v ===== *)
(** * registry/validate.py: checking a plugin against the protocol

    A report collects errors and notes; nothing is executed and nothing is admitted.
    Beside the host's files ([Registry]) the directory listing, what is a directory and
    which files are executable are parameters. The values interpolated into messages are left out. *)

From S2P Require Export Registry Adapter Evaluation.
Open Scope string_scope.
Open Scope list_scope.

Record Report := MkReport { errors : list string; notes : list string }.

Definition error (message : string) : st Report unit :=
  modify (λ r, MkReport (errors r ++ [message]) (notes r)).
Definition note (message : string) : st Report unit :=
  modify (λ r, MkReport (errors r) (notes r ++ [message])).
Definition report_ok (r : Report) : bool := bool_decide (errors r = []).

Definition render (subject : string) (r : Report) : string :=
  str_join (String "010" EmptyString)
    (subject :: ((λ e, "  FAIL  " +:+ e) <$> errors r) ++ ((λ n, "  note  " +:+ n) <$> notes r)
     ++ (if report_ok r then ["  ok    complies with the plugin protocol"] else [])).

Section validate.
Context (file : list string → option string) (loads : string → option json).
Context (path_of : list string → string → list string).
Context (is_dir is_executable : list string → bool) (listing : list string → list string).
Context (py_repr : json → string).

(** One element of [adapter_entry]. *)
Definition check_entry_item (directory : list string) (item : json) : st Report unit :=
  let text := str_of item in
  if startswith "./" text then
    let target := path_of directory (str_drop 2 text) in
    match relative_to (path_of directory EmptyString) target with
    | None => error "adapter_entry resolves outside the plugin directory"
    | Some _ =>
        match file target with
        | None => error "adapter_entry names a file that is absent"
        | Some _ => if is_executable target then mret tt else note "adapter_entry is not marked executable"
        end
    end
  else if startswith "../" text || str_contains "/../" text
  then error "adapter_entry climbs out of the plugin directory"
  else mret tt.

Definition check_entry (directory : list string) (manifest : PluginManifest) : st Report unit :=
  iterM_st (check_entry_item directory) (pm_adapter_entry manifest);;
  match pm_adapter_entry manifest with
  | first :: _ => if startswith "/" (str_of first) then note "adapter_entry[0] is absolute" else mret tt
  | [] => mret tt
  end.

(** [str(rule.get("kind"))] of each rule. *)
Definition rule_kinds (manifest : PluginManifest) : result (list json) :=
  mapM_result (λ rule, d ← as_object rule; Ok (get_null "kind" d)) (pm_artifact_rules manifest).
Definition kind_text (kind : json) : string :=
  match kind with JNull => "None" | _ => py_str py_repr kind end.
Definition is_reserved (kind : json) : bool :=
  match kind with JStr k => bool_decide (k ∈ RESERVED_ARTIFACT_KINDS) | _ => false end.

Definition check_artifact_rules (manifest : PluginManifest) : st Report unit :=
  kinds ← lift (rule_kinds manifest);
  (if existsb is_reserved kinds then note "artifact_rules list platform-reserved kinds" else mret tt);;
  (if bool_decide (NoDup (kind_text <$> kinds)) then mret tt
   else error "artifact_rules declare the same kind more than once").

(** What is caught beside unreadable JSON: [RegistryError]. *)
Definition is_registry_error (e : exn) : bool :=
  match e with RegistryError _ => true | _ => false end.

Definition check_provenance (directory : list string) : st Report unit :=
  match file (directory ++ [PROVENANCE_FILENAME]) with
  | None => note "no provenance.json"
  | Some text =>
      match loads text with
      | None => error "provenance.json is not valid provenance"
      | Some payload =>
          catch (lift (Provenance_from_dict payload);; mret tt) is_registry_error
                (λ _, error "provenance.json is not valid provenance")
      end
  end.

Definition check_admission (plugin_id : json) (admissions_root : option (list string)) : st Report unit :=
  match admissions_root with
  | None => note "no --admissions-root given"
  | Some root =>
      match file (admission_path root plugin_id) with
      | None => note "no admission record"
      | Some text =>
          match loads text with
          | None => error "admission record is not admissible"
          | Some payload =>
              admission ← catch (a ← lift (Admission_from_dict plugin_id payload); mret (Some a)) is_registry_error
                                (λ _, error "admission record is not admissible";; mret None);
              match admission with
              | None => mret tt
              | Some a =>
                  note "admission record";;
                  (if bool_decide (ad_status a = ADMITTED) then mret tt
                   else note "the platform will list this plugin and refuse to run it")
              end
          end
      end
  end.

Definition is_contract_error (e : exn) : bool :=
  match e with ContractError _ => true | _ => false end.

(** One turn of the loop over the manifests. *)
Definition check_manifest (directory : list string) (admissions_root : option (list string)) (filename : string)
    : st Report unit :=
  match (text ← file (directory ++ [filename]); loads text) with
  | None => error "manifest is not readable JSON"
  | Some payload =>
      manifest ← catch (m ← lift (PluginManifest_from_dict payload); mret (Some m)) is_contract_error
                       (λ _, error "manifest";; mret None);
      match manifest with
      | None => mret tt
      | Some m =>
          note "manifest";;
          check_entry directory m;;
          check_artifact_rules m;;
          check_admission (pm_plugin_id m) admissions_root
      end
  end.

Definition validate_checks (directory : list string) (admissions_root : option (list string)) : st Report unit :=
  if negb (is_dir directory) then error "not a directory"
  else match listing directory with
       | [] => error "no *.plugin.json in this directory"
       | manifests =>
           (if (1 <? length manifests)%nat then note "several manifests in one directory" else mret tt);;
           iterM_st (check_manifest directory admissions_root) manifests;;
           check_provenance directory
       end.

Definition validate_directory (directory : list string) (admissions_root : option (list string))
    : result Report :=
  match validate_checks directory admissions_root (MkReport [] []) with
  | (Ok _, r) => Ok r
  | (Err e, _) => Err e
  end.
End validate.

(** [main]: the exit code of the reports. *)
Definition exit_code (reports : list Report) : Z := if forallb report_ok reports then 0 else 1.
