(* ===== verification/ValidateProps.v ===== *)
(** * The validator and the platform agree

    What [validate_directory] accepts, [Registry._load_plugin] loads, and what it
    rejects the platform refuses too, four named extras apart. *)

From S2P Require Import Validate Registry RegistryProps.
Open Scope string_scope.
Open Scope list_scope.

(** [c] only appends errors, and appends none exactly when [P] holds. *)
Definition decides (c : st Report unit) (P : Prop) : Prop :=
  ∀ r r', c r = (Ok tt, r') → ∃ es, errors r' = errors r ++ es ∧ (es = [] ↔ P).

Lemma decides_iff c (P Q : Prop) : (P ↔ Q) → decides c P → decides c Q.
Proof. intros HPQ H r r' E. destruct (H r r' E) as (es & ? & ?). exists es. split; [done|]. by rewrite <-HPQ. Qed.

Lemma decides_ret : decides (mret tt) True.
Proof. intros r r' [= <-]. exists []. by rewrite app_nil_r. Qed.
Lemma decides_note m : decides (note m) True.
Proof. intros r r' [= <-]. exists []. by rewrite app_nil_r. Qed.
Lemma decides_error m : decides (error m) False.
Proof. intros r r' [= <-]. by exists [m]. Qed.
Lemma decides_accepts c (P : Prop) : decides c True → P → decides c P.
Proof. intros Hc HP. by eapply decides_iff; [|exact Hc]. Qed.
Lemma decides_refuses m (P : Prop) : ¬ P → decides (error m) P.
Proof. intros HP. by eapply decides_iff; [|apply decides_error]. Qed.
Lemma decides_raise e P : decides (lift (Err e)) P.
Proof. by intros r r'. Qed.

Lemma decides_seq c d P Q : decides c P → decides d Q → decides (c;; d) (P ∧ Q).
Proof.
  intros Hc Hd r r' E. unfold mbind, st_bind in E. destruct (c r) as [[[]|e] r1] eqn:E1; [|done].
  destruct (Hc _ _ E1) as (es & He & HP). destruct (Hd _ _ E) as (es' & He' & HQ).
  exists (es ++ es'). split; [by rewrite He', He, app_assoc|].
  rewrite <-HP, <-HQ. split; [by intros [-> ->]%app_eq_nil|by intros [-> ->]].
Qed.

Lemma iterM_st_cons {S A} (f : A → st S unit) x l s :
  iterM_st f (x :: l) s = (f x;; iterM_st f l) s.
Proof.
  unfold iterM_st, mbind, st_bind. simpl. unfold mbind, st_bind.
  destruct (f x s) as [[[]|e] s1]; [|done]. by destruct (mapM_st f l s1) as [[?|?] ?].
Qed.

Lemma decides_iter {A} (f : A → st Report unit) (P : A → Prop) l :
  (∀ x, decides (f x) (P x)) → decides (iterM_st f l) (Forall P l).
Proof.
  intros Hf. induction l as [|x l IH]; simpl.
  - eapply decides_iff; [|apply decides_ret]. by rewrite Forall_nil.
  - intros r r' E. rewrite iterM_st_cons in E. revert r r' E.
    eapply decides_iff; [|apply decides_seq; [apply Hf|exact IH]]. by rewrite Forall_cons.
Qed.

Create HintDb decides.
#[export] Hint Resolve decides_ret decides_note decides_error decides_raise decides_seq decides_iter : decides.

Section validator.
Context (file : list string → option string) (loads : string → option json).
Context (path_of : list string → string → list string).
Context (is_dir is_executable : list string → bool) (listing : list string → list string).
Context (py_repr : json → string).

(** ** What the validator asks beyond what the platform asks *)

(** A file of the plugin's own command line is there. *)
Definition present (directory : list string) (item : json) : Prop :=
  startswith "./" (str_of item) = true → is_Some (file (path_of directory (str_drop 2 (str_of item)))).
(** A record that exists is JSON. *)
Definition readable (path : list string) : Prop := ∀ text, file path = Some text → is_Some (loads text).

Record stricter (directory : list string) (admissions_root : option (list string)) (m : PluginManifest)
    : Prop := {
  entry_present : Forall (present directory) (pm_adapter_entry m);
  kinds_once : ∃ kinds, rule_kinds m = Ok kinds ∧ NoDup (kind_text py_repr <$> kinds);
  admission_readable : ∀ root, admissions_root = Some root →
    readable (admission_path root (pm_plugin_id m)) }.

(** ** The checks one by one *)

Lemma decides_entry_item directory item :
  decides (check_entry_item file path_of is_executable directory item)
    ((∃ out, resolve_entry path_of directory item = Ok out) ∧ present directory item).
Proof.
  unfold check_entry_item, resolve_entry, present. destruct (startswith "./" (str_of item)).
  - destruct (relative_to _ _); simpl; [|apply decides_refuses; by intros [[? ?] _]].
    destruct (file _); [destruct (is_executable _); apply decides_accepts; eauto with decides|].
    apply decides_refuses. by intros [_ [? ?]].
  - destruct (_ || _); simpl; [apply decides_refuses; by intros [[? ?] _]|].
    apply decides_accepts; [apply decides_ret|]. split; [eauto|done].
Qed.

Lemma validated_all {A B} (f : A → result B) l :
  (∃ out, mapM_result f l = Ok out) ↔ Forall (λ x, ∃ y, f x = Ok y) l.
Proof.
  induction l as [|x l IH]; simpl.
  - split; [constructor|eauto].
  - rewrite Forall_cons, <-IH. unfold mbind, result_bind. destruct (f x) as [y|e] eqn:E.
    + destruct (mapM_result f l) as [ys|e]; naive_solver.
    + naive_solver.
Qed.

Lemma decides_entry directory m :
  decides (check_entry file path_of is_executable directory m)
    ((∃ entry, mapM_result (resolve_entry path_of directory) (pm_adapter_entry m) = Ok entry) ∧
     Forall (present directory) (pm_adapter_entry m)).
Proof.
  unfold check_entry. eapply decides_iff; [|apply decides_seq; [apply decides_iter, decides_entry_item|]].
  - rewrite Forall_and, validated_all. by rewrite (right_id True and).
  - destruct (pm_adapter_entry m) as [|first rest]; [apply decides_ret|]. case_match; eauto with decides.
Qed.

Lemma decides_rules m :
  decides (check_artifact_rules py_repr m) (∃ kinds, rule_kinds m = Ok kinds ∧ NoDup (kind_text py_repr <$> kinds)).
Proof.
  unfold check_artifact_rules. destruct (rule_kinds m) as [kinds|e]; [|by intros r r'].
  intros r r' H. change (((if existsb is_reserved kinds then note "artifact_rules list platform-reserved kinds" else mret tt);;
    (if bool_decide (NoDup (kind_text py_repr <$> kinds)) then mret tt
     else error "artifact_rules declare the same kind more than once")) r = (Ok tt, r')) in H.
  revert r r' H. eapply decides_iff; [|apply decides_seq with (P := True)
    (Q := NoDup (kind_text py_repr <$> kinds))].
  - naive_solver.
  - destruct (existsb _ _); eauto with decides.
  - case_bool_decide; [apply decides_accepts; eauto with decides|by apply decides_refuses].
Qed.

Lemma decides_catch {A} (c : result A) p m :
  decides (catch (lift c;; mret tt) p (λ _, error m)) (∃ a, c = Ok a).
Proof.
  unfold catch, lift, mbind, st_bind. intros r r'. destruct c as [a|e].
  - intros [= <-]. exists []. rewrite app_nil_r. naive_solver.
  - simpl. destruct (p e); [|done]. intros [= <-]. exists [m]. split; [done|]. split; [done|by intros [? ?]].
Qed.

Lemma decides_provenance directory :
  decides (check_provenance file loads directory)
    ((∃ p, _load_provenance file loads directory = Ok p) ∧ readable (directory ++ [PROVENANCE_FILENAME])).
Proof.
  unfold check_provenance, _load_provenance, readable.
  destruct (file (directory ++ _)) as [text|]; [destruct (loads text) as [payload|] eqn:El|].
  - eapply decides_iff; [|apply decides_catch]. split; [|by intros [? _]]. intros ?. split; [done|]. intros ? [= <-]. eauto.
  - eapply decides_iff; [|apply decides_error]. split; [done|]. intros [_ H].
    destruct (H _ eq_refl). by simplify_eq.
  - eapply decides_iff; [|apply decides_note]. naive_solver.
Qed.

Lemma decides_admission plugin_id root :
  decides (check_admission file loads plugin_id root)
    ((∃ a, _load_admission file loads plugin_id root = Ok a) ∧
     ∀ r, root = Some r → readable (admission_path r plugin_id)).
Proof.
  unfold check_admission, _load_admission, readable.
  destruct root as [root|]; [|eapply decides_iff; [|apply decides_note]; naive_solver].
  destruct (file _) as [text|] eqn:Ef; [|eapply decides_iff; [|apply decides_note]; naive_solver].
  destruct (loads text) as [payload|] eqn:El; cycle 1.
  { eapply decides_iff; [|apply decides_error]. split; [done|]. intros [_ H].
    destruct (H _ eq_refl text Ef). by simplify_eq. }
  assert ((∃ a, Admission_from_dict plugin_id payload = Ok a) ↔
    ((∃ a, Admission_from_dict plugin_id payload = Ok a) ∧
     ∀ r, Some root = Some r → ∀ t, file (admission_path r plugin_id) = Some t → is_Some (loads t))) as HP.
  { split; [|by intros [? _]]. intros ?. split; [done|]. intros ? [= <-] t Ht.
    rewrite Ef in Ht. injection Ht as <-. eauto. }
  eapply decides_iff; [exact HP|]. destruct (Admission_from_dict plugin_id payload) as [a|e]; simpl.
  - intros r r' E. unfold catch, lift, mbind, st_bind in E. simpl in E. revert E.
    case_bool_decide; intros [= <-]; exists []; rewrite app_nil_r; naive_solver.
  - intros r r' E. unfold catch, lift, mbind, st_bind in E. simpl in E. destruct (is_registry_error e); [|done].
    injection E as <-. eexists [_]. split; [done|]. split; [done|by intros [? ?]].
Qed.

(** ** Loading, put the same way *)

Definition shipped (directory : list string) (filename : string) (m : PluginManifest) : Prop :=
  ∃ text payload, file (directory ++ [filename]) = Some text ∧ loads text = Some payload ∧
    PluginManifest_from_dict payload = Ok m.

Definition loads_to (directory : list string) (root : option (list string)) (filename : string) (m : PluginManifest)
    : Prop :=
  shipped directory filename m ∧
  (∃ entry, mapM_result (resolve_entry path_of directory) (pm_adapter_entry m) = Ok entry) ∧
  (∃ a, _load_admission file loads (pm_plugin_id m) root = Ok a).

Lemma decides_manifest directory root filename :
  decides (check_manifest file loads path_of is_executable py_repr directory root filename)
    (∃ m, loads_to directory root filename m ∧ stricter directory root m).
Proof.
  unfold check_manifest. simpl.
  destruct (file (directory ++ [filename])) as [text|] eqn:Ef; simpl; cycle 1.
  { apply decides_refuses. by intros (m & [(? & ? & ? & _) ?] & _); simplify_eq. }
  destruct (loads text) as [payload|] eqn:El; cycle 1.
  { apply decides_refuses. intros (m & [(? & ? & ? & ? & _) _] & _). congruence. }
  destruct (PluginManifest_from_dict payload) as [m|e] eqn:Em; cycle 1.
  - intros r r' E. unfold catch, lift, mbind, st_bind in E. simpl in E. destruct (is_contract_error e); [|done].
    injection E as <-. eexists [_]. split; [done|]. split; [done|].
    intros (m & [(? & ? & ? & ? & ?) _] & _). congruence.
  - change (decides (note "manifest";; check_entry file path_of is_executable directory m;;
      check_artifact_rules py_repr m;; check_admission file loads (pm_plugin_id m) root)
      (∃ m', loads_to directory root filename m' ∧ stricter directory root m')).
    eapply decides_iff; [|apply decides_seq; [apply decides_note|apply decides_seq;
      [apply decides_entry|apply decides_seq; [apply decides_rules|apply decides_admission]]]].
    split.
    + intros (_ & [? ?] & ? & [? ?]). exists m. split; [|by constructor]. split; [|done]. by exists text, payload.
    + intros (m' & [(t & p & Ht & Hp & Hm) [? ?]] & [? ? ?]). replace m' with m in * by congruence. done.
Qed.

Definition accepts (directory : list string) (root : option (list string)) : Prop :=
  Forall (λ filename, ∃ m, loads_to directory root filename m ∧ stricter directory root m) (listing directory) ∧
  (∃ p, _load_provenance file loads directory = Ok p) ∧ readable (directory ++ [PROVENANCE_FILENAME]).

Lemma validate_accepts directory root r : is_dir directory = true → listing directory ≠ [] →
  validate_directory file loads path_of is_dir is_executable listing py_repr directory root = Ok r →
  (report_ok r = true ↔ accepts directory root).
Proof.
  unfold validate_directory, validate_checks. intros -> Hne. simpl.
  destruct (listing directory) as [|f fs] eqn:El; [done|].
  set (c := _;; _;; _). intros H.
  assert (decides c (accepts directory root)) as Hd.
  { subst c. unfold accepts. rewrite El. eapply decides_iff; [|apply decides_seq with (P := True);
      [destruct (_ <? _)%nat; eauto with decides|apply decides_seq;
        [apply decides_iter, decides_manifest|apply decides_provenance]]]. naive_solver. }
  destruct (c _) as [[[]|e] r1] eqn:Ec; [|done]. injection H as <-.
  destruct (Hd _ _ Ec) as (es & He & <-). unfold report_ok. rewrite bool_decide_eq_true, He. done.
Qed.

(** The platform loads the manifest, or refuses it only for the commit it reviewed. *)
Definition platform_takes (directory : list string) (root : option (list string)) (filename : string) : Prop :=
  let loaded := _load_plugin file loads path_of directory filename root in
  (∃ p, loaded = Ok p) ∨ loaded = Err (RegistryError "not the revision that was reviewed").

Lemma loads_to_takes directory root filename m : loads_to directory root filename m →
  (∃ p, _load_provenance file loads directory = Ok p) → platform_takes directory root filename.
Proof.
  intros [(text & payload & Hf & Hl & Hm) [[entry He] [a Ha]]] [p Hp]. unfold platform_takes, _load_plugin.
  rewrite Hf. simpl. rewrite Hl. simpl. rewrite Hm. simpl. rewrite He. simpl. rewrite Hp. simpl. rewrite Ha. simpl.
  unfold _check_reviewed_commit. destruct (negb _); simpl; eauto.
Qed.

Lemma load_plugin_parts directory root filename p :
  _load_plugin file loads path_of directory filename root = Ok p →
  ∃ m, loads_to directory root filename m ∧ ∃ prov, _load_provenance file loads directory = Ok prov.
Proof.
  unfold Registry._load_plugin. intros H.
  apply bind_Ok in H as (text & Ht & H). apply of_option_Ok in Ht.
  apply bind_Ok in H as (payload & Hp & H). apply of_option_Ok in Hp.
  apply bind_Ok in H as (m & Hs & H). apply bind_Ok in H as (entry & He & H).
  apply bind_Ok in H as (prov & Hv & H). apply bind_Ok in H as (adm & Ha & _).
  assert (PluginManifest_from_dict payload = Ok m) as Hm.
  { destruct (PluginManifest_from_dict payload) as [|[]] eqn:E; simpl in Hs; simplify_eq; congruence. }
  exists m. split; [|eauto]. split; [by exists text, payload|eauto].
Qed.

(** C19. A plugin directory the validator accepts is one the platform loads, the
    commit it reviewed apart; and one the platform loads the validator accepts, unless
    a file of its own is missing, an artifact kind is named twice or a record is not
    JSON. *)
Theorem validator_speaks_for_platform directory root r :
  is_dir directory = true → listing directory ≠ [] →
  validate_directory file loads path_of is_dir is_executable listing py_repr directory root = Ok r →
  (report_ok r = true → ∀ filename, filename ∈ listing directory → platform_takes directory root filename) ∧
  ((∀ filename, filename ∈ listing directory →
      (∃ p, _load_plugin file loads path_of directory filename root = Ok p) ∧
      ∀ m, shipped directory filename m → stricter directory root m) →
   readable (directory ++ [PROVENANCE_FILENAME]) → report_ok r = true).
Proof.
  intros Hd Hl Hv. pose proof (validate_accepts directory root r Hd Hl Hv) as Hr. split.
  - rewrite Hr. intros [Hall [Hp _]] f Hf. rewrite Forall_forall in Hall. destruct (Hall f Hf) as (m & Hm & _).
    by eapply loads_to_takes.
  - intros Hall Hread. apply Hr. split; [|split; [|done]].
    + apply Forall_forall. intros f [[p Hp] Hs]%Hall.
      apply load_plugin_parts in Hp as (m & Hm & _). exists m. split; [done|]. apply Hs, Hm.
    + destruct (listing directory) as [|f fs] eqn:El; [done|]. destruct (Hall f) as [[p Hp] _]; [by left|].
      apply load_plugin_parts in Hp as (_ & _ & ?). done.
Qed.
End validator.

(** ** A plugin that complies, and one with a missing adapter *)

Definition shipped_files (path : list string) : option string :=
  if bool_decide (path = ["plugins"; "yosys"; "adapter.py"]) then Some "adapter" else demo_files path.
Definition demo_validate (files : list string → option string) (directory : string) : result Report :=
  validate_directory files demo_registry_loads path_resolve (λ _, true) (λ _, true)
    (λ d, [List.last d EmptyString +:+ MANIFEST_SUFFIX]) (λ _, EmptyString) ["plugins"; directory] (Some ["admissions"]).

Example missing_adapter_rejected :
  (∃ r, demo_validate demo_files "yosys" = Ok r ∧ errors r = ["adapter_entry names a file that is absent"]) ∧
  ∃ p, _load_plugin demo_files demo_registry_loads path_resolve ["plugins"; "yosys"] "yosys.plugin.json"
         (Some ["admissions"]) = Ok p.
Proof. split; eexists; [split|]; vm_compute; reflexivity. Qed.

Lemma validator_speaks_for_platform_witness :
  ∃ r, demo_validate shipped_files "yosys" = Ok r ∧ report_ok r = true ∧
    platform_takes shipped_files demo_registry_loads path_resolve ["plugins"; "yosys"] (Some ["admissions"])
      "yosys.plugin.json".
Proof.
  assert (∃ r, demo_validate shipped_files "yosys" = Ok r ∧ report_ok r = true) as (r & Hr & Hok)
    by (eexists; vm_compute; split; reflexivity).
  exists r. split; [exact Hr|]. split; [exact Hok|].
  refine (proj1 (validator_speaks_for_platform shipped_files demo_registry_loads path_resolve (λ _, true) (λ _, true)
    (λ d, [List.last d EmptyString +:+ MANIFEST_SUFFIX]) (λ _, EmptyString) ["plugins"; "yosys"] (Some ["admissions"]) r
    eq_refl _ Hr) Hok _ _).
  - discriminate.
  - left.
Defined.
