(* ===== verification/Regex.v ===== *)
(** * Regular expressions as the guardrails use them

    A backtracking matcher with Python's order of alternatives: the greedy star tries one
    more repetition first, an alternation its left side.  The matches of an expression at
    a place are the places where it can end, the preferred one first. *)

From S2P Require Export Progress Json.
Open Scope string_scope.
Open Scope list_scope.

(** A place in the text: the character before it and what follows. *)
Record place := Place { before : option ascii; rest : string }.

Inductive re :=
| Chr (p : ascii → bool)
| Nothing
| Seq (r s : re)
| Alt (r s : re)
| Star (r : re)
| Lazy (r : re)
| Look (p : option ascii → string → bool)
| NotAhead (r : re).

(** [n] bounds the repetitions; a repetition that consumes nothing ends the loop. *)
Fixpoint star (f : place → list place) (n : nat) (p : place) : list place :=
  match n with
  | O => [p]
  | S n' =>
      (q ← List.filter (λ q, (String.length (rest q) <? String.length (rest p))%nat) (f p); star f n' q) ++ [p]
  end.

(** [r*?]: the fewest repetitions first. *)
Fixpoint lazy (f : place → list place) (n : nat) (p : place) : list place :=
  match n with
  | O => [p]
  | S n' =>
      p :: (q ← List.filter (λ q, (String.length (rest q) <? String.length (rest p))%nat) (f p); lazy f n' q)
  end.

Fixpoint matches (r : re) (p : place) : list place :=
  match r with
  | Chr c =>
      match rest p with
      | String x s => if c x then [Place (Some x) s] else []
      | EmptyString => []
      end
  | Nothing => [p]
  | Seq r s => q ← matches r p; matches s q
  | Alt r s => matches r p ++ matches s p
  | Star r => star (matches r) (String.length (rest p)) p
  | Lazy r => lazy (matches r) (String.length (rest p)) p
  | Look c => if c (before p) (rest p) then [p] else []
  | NotAhead r => match matches r p with [] => [p] | _ => [] end
  end.

(** ** Notation of the patterns *)

Definition plus_re (r : re) : re := Seq r (Star r).
Fixpoint lit (s : string) : re :=
  match s with
  | EmptyString => Nothing
  | String c s' => Seq (Chr (λ d, bool_decide (d = c))) (lit s')
  end.
(** [re.I] *)
Fixpoint lit_ci (s : string) : re :=
  match s with
  | EmptyString => Nothing
  | String c s' => Seq (Chr (λ d, bool_decide (lower_char d = lower_char c))) (lit_ci s')
  end.
Definition alts (l : list re) : re := foldr Alt (NotAhead Nothing) l.
Definition seqs (l : list re) : re := foldr Seq Nothing l.
(** [\w] on the characters of this model, Latin-1. *)
Definition is_word (c : ascii) : bool :=
  is_alnum c || one_of "_" c ||
  existsb (λ r, in_range (fst r) (snd r) c)
    [(170, 170); (178, 179); (181, 181); (185, 186); (188, 190); (192, 214); (216, 246); (248, 255)]%N.
Definition next_is (p : ascii → bool) (s : string) : bool :=
  match s with String c _ => p c | EmptyString => false end.
Definition prev_is (p : ascii → bool) (c : option ascii) : bool :=
  match c with Some c => p c | None => false end.
(** [\b], [\s*], [\s+], [$] and [^] of [re.M] *)
Definition word_boundary : re := Look (λ c s, xorb (prev_is is_word c) (next_is is_word s)).
Definition blanks : re := Star (Chr is_space).
Definition blanks1 : re := plus_re (Chr is_space).
Definition text_end : re :=
  Look (λ _ s, match s with EmptyString => true | String c EmptyString => bool_decide (c = "010"%char) | _ => false end).
Definition line_start : re := Look (λ c _, match c with None => true | Some c => bool_decide (c = "010"%char) end).

(** ** Searching *)

Fixpoint places (c : option ascii) (s : string) : list place :=
  Place c s :: match s with String d s' => places (Some d) s' | EmptyString => [] end.

(** [rx.search(s) is not None] *)
Definition search (r : re) (s : string) : bool :=
  existsb (λ p, match matches r p with [] => false | _ => true end) (places None s).

Definition between (p q : place) : string :=
  String.substring 0 (String.length (rest p) - String.length (rest q)) (rest p).

(** [rx.finditer(s)]: the start of each match and its text; the search goes on where the
    match ends. *)
Fixpoint finditer (r : re) (n i : nat) (p : place) : list (nat * string) :=
  match n with
  | O => []
  | S n' =>
      match matches r p, rest p with
      | q :: _, String d s =>
          let text := between p q in
          (i, text) ::
          (if str_empty text then finditer r n' (S i) (Place (Some d) s)
           else finditer r n' (i + String.length text) q)
      | [], String d s => finditer r n' (S i) (Place (Some d) s)
      | q :: _, EmptyString => [(i, EmptyString)]
      | [], EmptyString => []
      end
  end.
Definition find_all (r : re) (s : string) : list (nat * string) :=
  finditer r (S (String.length s)) 0 (Place None s).

(** [rx.findall(s)] for a pattern with one group: [pre ( group ) post]. *)
Definition group_of (pre group post : re) (p : place) : option (string * place) :=
  head (q ← matches pre p; q' ← matches group q; q'' ← matches post q'; [(between q q', q'')]).
Fixpoint find_groups (pre group post : re) (n : nat) (p : place) : list string :=
  match n with
  | O => []
  | S n' =>
      match group_of pre group post p, rest p with
      | Some (g, q), String d s =>
          g :: find_groups pre group post n'
                 (if (String.length (rest q) <? String.length (rest p))%nat then q else Place (Some d) s)
      | Some (g, _), EmptyString => [g]
      | None, String d s => find_groups pre group post n' (Place (Some d) s)
      | None, EmptyString => []
      end
  end.
Definition find_all_groups (pre group post : re) (s : string) : list string :=
  find_groups pre group post (S (String.length s)) (Place None s).

(** ** Lines *)

Definition is_line_end (c : ascii) : bool := in_range 10 13 c || in_range 28 30 c || in_range 133 133 c.
Fixpoint splitlines_go (line s : string) : list string :=
  match s with
  | EmptyString => if str_empty line then [] else [str_rev line]
  | String "013" (String "010" s') => str_rev line :: splitlines_go EmptyString s'
  | String c s' =>
      if is_line_end c then str_rev line :: splitlines_go EmptyString s' else splitlines_go (String c line) s'
  end.
Definition splitlines (s : string) : list string := splitlines_go EmptyString s.

Example search_anchored : search (seqs [lit "def"; blanks1; plus_re (Chr is_word); lit "("]) "async def  run(" = true ∧
  search (seqs [lit "x"; text_end]) "xy" = false.
Proof. by vm_compute. Qed.
Example find_identifiers :
  find_all (Seq (Chr is_word) (Star (Chr (λ c, is_word c || one_of ".-" c)))) "a.b = c-d(e)" = [(0, "a.b"); (6, "c-d"); (10, "e")]%nat.
Proof. by vm_compute. Qed.
Example find_rows : find_all_groups (seqs [line_start; lit "|"; blanks]) (Seq (lit "G") (plus_re (Chr is_digit)))
  (Seq blanks (lit "|")) ("| G1 | x" +:+ String "010" "| no |" +:+ String "010" "|G12|") = ["G1"; "G12"].
Proof. by vm_compute. Qed.
