(* ===== verification/Cycles.v ===== *)
(** * guardrails/rules.py: finding an import cycle (G17)

    The three-colour depth-first search of [_find_cycle], with its colours and its stack
    of paths, on a graph of names. *)

From stdpp Require Import gmap.
From S2P Require Export Regex.
Open Scope string_scope.
Open Scope list_scope.

Inductive Colour := WHITE | GREY | BLACK.
#[export] Instance Colour_eq_dec : EqDecision Colour.
Proof. solve_decision. Defined.

Definition sorted_names (names : gset string) : list string := merge_sort String.le (elements names).

(** [path[path.index(x):]] *)
Fixpoint from_index (x : string) (path : list string) : result (list string) :=
  match path with
  | [] => Err (ValueError "not in list")
  | y :: path' => if bool_decide (y = x) then Ok path else from_index x path'
  end.

(** What the loop holds: the colours and the stack, its top first. *)
Definition dfs : Type := gmap string Colour * list (string * list string).

(** One turn of [while stack]: the next state, or the cycle to return. *)
Definition visit (edges : gmap string (gset string)) (colour : gmap string Colour) (node : string)
    (path : list string) (stack : list (string * list string)) : result (dfs + list string) :=
  let colour := <[node := GREY]> colour in
  targets ← of_option (KeyError node) (edges !! node);
  unvisited ← mapM_result (λ x, c ← of_option (KeyError x) (colour !! x); Ok (x, c)) (sorted_names targets);
  match List.filter (λ xc, negb (bool_decide (snd xc = BLACK))) unvisited with
  | (target, GREY) :: _ => cycle ← from_index target path; Ok (inr (cycle ++ [target]))
  | (target, _) :: _ => Ok (inl (colour, (target, path ++ [target]) :: (node, path) :: stack))
  | [] => Ok (inl (<[node := BLACK]> colour, stack))
  end.

Fixpoint search_from (edges : gmap string (gset string)) (n : nat) (s : dfs)
    : result (gmap string Colour + list string) :=
  match n, snd s with
  | _, [] => Ok (inl (fst s))
  | O, _ => Err (OtherError "out of fuel")
  | S n', (node, path) :: stack =>
      r ← visit edges (fst s) node path stack;
      match r with inl s' => search_from edges n' s' | inr cycle => Ok (inr cycle) end
  end.

Fixpoint search_all (edges : gmap string (gset string)) (colour : gmap string Colour) (starts : list string)
    : result (option (list string)) :=
  match starts with
  | [] => Ok None
  | start :: starts' =>
      c ← of_option (KeyError start) (colour !! start);
      if bool_decide (c = WHITE) then
        r ← search_from edges (2 * size edges) (colour, [(start, [start])]);
        match r with inl colour' => search_all edges colour' starts' | inr cycle => Ok (Some cycle) end
      else search_all edges colour starts'
  end.

Definition _find_cycle (edges : gmap string (gset string)) : result (option (list string)) :=
  search_all edges ((λ _, WHITE) <$> edges) (sorted_names (dom edges)).

(** ** The search finds a cycle exactly when there is one

    The invariant of the loop: the grey names are the stack, the stack is a path, and
    the black names are closed under edges and lie on no cycle.  Twice the number of
    names bounds the turns of the loop. *)

Section cycles.
Context (edges : gmap string (gset string)).
Implicit Types (colour : gmap string Colour) (stack : list (string * list string)).

Definition edge (x y : string) : Prop := ∃ ys, edges !! x = Some ys ∧ y ∈ ys.
(** Every name an edge leads to has its own edges. *)
Definition closed : Prop := ∀ x y, edge x y → is_Some (edges !! y).

Fixpoint linked (l : list string) : Prop :=
  match l with x :: (y :: _) as l' => edge x y ∧ linked l' | _ => True end.
(** A closed path that meets no name twice. *)
Definition is_cycle (c : list string) : Prop := ∃ x l, c = x :: l ++ [x] ∧ NoDup (x :: l) ∧ linked c.

Lemma closed_by : map_Forall (λ _ ys, set_Forall (λ y, is_Some (edges !! y)) ys) edges → closed.
Proof. intros H x y (ys & Hx & Hy). by apply (H x ys Hx). Qed.

Lemma linked_tail l l' : linked (l ++ l') → linked l'.
Proof. induction l as [|x l IH]; [done|]. simpl. intros H. apply IH. destruct (l ++ l'); [done|apply H]. Qed.
Lemma linked_front l l' : linked (l ++ l') → linked l.
Proof.
  induction l as [|x [|y l] IH]; [done|done|]. simpl. intros [He H]. split; [done|]. by apply IH.
Qed.
Lemma linked_snoc l x y : linked (l ++ [x]) → edge x y → linked ((l ++ [x]) ++ [y]).
Proof.
  induction l as [|z l IH]; [done|]. intros H He. specialize (IH (linked_tail [z] _ H) He).
  destruct l; simpl in *; tauto.
Qed.

Lemma from_index_Ok x path : x ∈ path → ∃ pre post, path = pre ++ x :: post ∧ from_index x path = Ok (x :: post).
Proof.
  induction path as [|y path IH]; [by intros ?%not_elem_of_nil|]. intros H. simpl.
  destruct (decide (y = x)) as [->|Hne].
  - exists [], path. by rewrite bool_decide_true.
  - rewrite bool_decide_false by done. destruct IH as (pre & post & -> & ->); [set_solver|].
    by exists (y :: pre), post.
Qed.

(** ** The invariant *)

(** Each entry of the stack holds the names up to it. *)
Fixpoint paths_ok stack : Prop :=
  match stack with
  | [] => True
  | (node, path) :: st => path = reverse (node :: st.*1) ∧ paths_ok st
  end.

Record Inv colour stack : Prop := {
  inv_dom : ∀ x, is_Some (colour !! x) ↔ is_Some (edges !! x);
  inv_grey : ∀ x, colour !! x = Some GREY → x ∈ stack.*1;
  inv_top : ∀ node path st, stack = (node, path) :: st →
    is_Some (colour !! node) ∧ colour !! node ≠ Some BLACK ∧ ∀ x, x ∈ st.*1 → colour !! x = Some GREY;
  inv_nodup : NoDup stack.*1;
  inv_paths : paths_ok stack;
  inv_linked : linked (reverse stack.*1);
  inv_black : ∀ x y, colour !! x = Some BLACK → edge x y → colour !! y = Some BLACK;
  inv_acyclic : ∀ x, colour !! x = Some BLACK → ¬ tc edge x x }.

Definition open_names colour : gset string := filter (λ x, colour !! x ≠ Some BLACK) (dom edges).
Definition still_black colour colour' : Prop := ∀ x, colour !! x = Some BLACK → colour' !! x = Some BLACK.

Lemma stack_is_open colour stack : Inv colour stack → ∀ x, x ∈ stack.*1 → x ∈ open_names colour.
Proof.
  intros HI x Hx. apply elem_of_filter. destruct stack as [|[node path] st]; [by apply not_elem_of_nil in Hx|].
  destruct (inv_top _ _ HI _ _ _ eq_refl) as (Hs & Hb & Hst).
  assert (is_Some (colour !! x) ∧ colour !! x ≠ Some BLACK) as [Hs' Hb'].
  { apply elem_of_cons in Hx as [->|Hx]; [done|]. rewrite (Hst x Hx). eauto. }
  split; [done|]. by apply elem_of_dom, (inv_dom _ _ HI).
Qed.

Lemma stack_bounded colour stack : Inv colour stack → (length stack ≤ size (open_names colour))%nat.
Proof.
  intros HI. rewrite <-(length_fmap fst), <-(size_list_to_set (C := gset string)) by apply HI.
  apply subseteq_size. intros x Hx%elem_of_list_to_set. by apply (stack_is_open _ _ HI).
Qed.

Lemma black_tc colour stack : Inv colour stack → ∀ x y, tc edge x y → colour !! x = Some BLACK → colour !! y = Some BLACK.
Proof. intros HI x y H. induction H as [x y H|x y z H _ IH]; intros Hx; [|apply IH]; by eapply (inv_black _ _ HI). Qed.

(** ** One turn of the loop *)

Lemma open_grey colour node : colour !! node ≠ Some BLACK →
  open_names (<[node := GREY]> colour) = open_names colour.
Proof.
  intros Hn. apply set_eq. intros x. unfold open_names. rewrite !elem_of_filter.
  destruct (decide (x = node)) as [->|]; [rewrite lookup_insert_eq; naive_solver|by rewrite lookup_insert_ne].
Qed.

Lemma open_black colour node : node ∈ open_names colour →
  size (open_names colour) = S (size (open_names (<[node := BLACK]> colour))).
Proof.
  intros Hn. replace (open_names (<[node := BLACK]> colour)) with (open_names colour ∖ {[node]}).
  - assert (size (open_names colour) ≠ 0)%nat.
    { intros He%size_empty_inv%leibniz_equiv. rewrite He in Hn. by apply not_elem_of_empty in Hn. }
    rewrite size_difference by (by apply singleton_subseteq_l). rewrite size_singleton. lia.
  - apply set_eq. intros x. unfold open_names. rewrite elem_of_difference, elem_of_singleton, !elem_of_filter.
    destruct (decide (x = node)) as [->|]; [rewrite lookup_insert_eq; naive_solver|rewrite lookup_insert_ne by done; tauto].
Qed.

(** What the loop looks up: the successors that are not black, with their colours. *)
Lemma unvisited_Ok colour targets : (∀ x, x ∈ targets → is_Some (colour !! x)) →
  ∃ l, mapM_result (λ x, c ← of_option (KeyError x) (colour !! x); Ok (x, c)) (sorted_names targets) = Ok l ∧
    ∀ x c, (x, c) ∈ l ↔ x ∈ targets ∧ colour !! x = Some c.
Proof.
  intros H. assert (∀ x, x ∈ sorted_names targets ↔ x ∈ targets) as Hs.
  { intros x. unfold sorted_names. rewrite merge_sort_Permutation. apply elem_of_elements. }
  assert (∀ x, x ∈ sorted_names targets → is_Some (colour !! x)) as H' by (intros x ?%Hs; auto).
  setoid_rewrite <-Hs. clear H Hs. induction (sorted_names targets) as [|x l IH].
  - exists []. split; [done|]. intros. rewrite !elem_of_nil. tauto.
  - destruct (H' x) as [c Hc]; [by left|]. destruct IH as (l' & Hl & Hin); [intros; apply H'; by right|].
    simpl. rewrite Hc. simpl. rewrite Hl. exists ((x, c) :: l'). split; [done|].
    intros y d. rewrite !elem_of_cons, Hin. naive_solver.
Qed.

Lemma inv_push colour node path st target :
  Inv colour ((node, path) :: st) → edge node target → <[node := GREY]> colour !! target = Some WHITE →
  Inv (<[node := GREY]> colour) ((target, path ++ [target]) :: (node, path) :: st).
Proof.
  intros HI He Ht. destruct (inv_top _ _ HI _ _ _ eq_refl) as (Hs & Hb & Hst).
  assert (target ≠ node) as Hne by (intros ->; by rewrite lookup_insert_eq in Ht).
  rewrite lookup_insert_ne in Ht by done. pose proof (inv_grey _ _ HI) as Hg. split.
  - intros x. rewrite <-(inv_dom _ _ HI). destruct (decide (x = node)) as [->|].
    + rewrite lookup_insert_eq. split; eauto.
    + by rewrite lookup_insert_ne.
  - intros x. simpl. destruct (decide (x = node)) as [->|]; [set_solver|].
    rewrite lookup_insert_ne by done. intros ?%Hg. set_solver.
  - intros ? ? ? [= <- <- <-]. rewrite lookup_insert_ne, Ht by done. split_and!; [done|done|].
    intros x. simpl. intros [->|Hx]%elem_of_cons; [by rewrite lookup_insert_eq|].
    destruct (decide (x = node)) as [->|]; [by rewrite lookup_insert_eq|]. rewrite lookup_insert_ne by done. auto.
  - simpl. constructor; [|apply HI]. simpl. intros [->|Hx]%elem_of_cons; [done|]. by rewrite (Hst _ Hx) in Ht.
  - pose proof (inv_paths _ _ HI) as [-> Hp]. split; [symmetry; apply reverse_cons|by split].
  - simpl. rewrite reverse_cons, reverse_cons. apply linked_snoc; [|done].
    rewrite <-reverse_cons. exact (inv_linked _ _ HI).
  - intros x y Hx Hxy. destruct (decide (x = node)) as [->|]; [by rewrite lookup_insert_eq in Hx|].
    rewrite lookup_insert_ne in Hx by done. pose proof (inv_black _ _ HI _ _ Hx Hxy).
    rewrite lookup_insert_ne; [done|by intros <-].
  - intros x Hx. destruct (decide (x = node)) as [->|]; [by rewrite lookup_insert_eq in Hx|].
    rewrite lookup_insert_ne in Hx by done. by apply (inv_acyclic _ _ HI).
Qed.

Lemma inv_pop colour node path st :
  Inv colour ((node, path) :: st) → (∀ y, edge node y → <[node := GREY]> colour !! y = Some BLACK) →
  Inv (<[node := BLACK]> colour) st.
Proof.
  intros HI Hall. destruct (inv_top _ _ HI _ _ _ eq_refl) as (Hs & Hb & Hst).
  pose proof (inv_nodup _ _ HI) as Hnd. simpl in Hnd. apply NoDup_cons in Hnd as [Hnin Hnd].
  assert (∀ y, edge node y → y ≠ node ∧ colour !! y = Some BLACK) as Hall'.
  { intros y Hy%Hall. destruct (decide (y = node)) as [->|]; [by rewrite lookup_insert_eq in Hy|].
    by rewrite lookup_insert_ne in Hy. }
  assert (∀ x, <[node := BLACK]> colour !! x = Some BLACK ↔ x = node ∨ colour !! x = Some BLACK) as Hbl.
  { intros x. destruct (decide (x = node)) as [->|]; [rewrite lookup_insert_eq|rewrite lookup_insert_ne]; naive_solver. }
  split.
  - intros x. rewrite <-(inv_dom _ _ HI). destruct (decide (x = node)) as [->|].
    + rewrite lookup_insert_eq. split; eauto.
    + by rewrite lookup_insert_ne.
  - intros x Hx. destruct (decide (x = node)) as [->|]; [by rewrite lookup_insert_eq in Hx|].
    rewrite lookup_insert_ne in Hx by done. apply (inv_grey _ _ HI) in Hx. set_solver.
  - intros n p s' ->. simpl in *. assert (n ≠ node) as Hn by set_solver. rewrite lookup_insert_ne by done.
    rewrite (Hst n) by set_solver. split_and!; [done|done|]. intros x Hx.
    rewrite lookup_insert_ne; [apply Hst; set_solver|set_solver].
  - done.
  - apply HI.
  - pose proof (inv_linked _ _ HI) as Hl. simpl in Hl. rewrite reverse_cons in Hl. by apply linked_front in Hl.
  - intros x y Hx Hxy. apply Hbl. apply Hbl in Hx as [->|Hx]; right; [by apply Hall'|by eapply (inv_black _ _ HI)].
  - intros x Hx Htc. apply Hbl in Hx as [->|Hx]; [|by apply (inv_acyclic _ _ HI x)].
    assert (∃ y, edge node y ∧ (y = node ∨ tc edge y node)) as (y & Hy & Hyn).
    { inversion Htc; subst; eauto. }
    destruct (Hall' y Hy) as [Hne Hyb]. destruct Hyn as [->|Hyn]; [done|].
    by apply (black_tc _ _ HI) in Hyn.
Qed.

Lemma inv_cycle colour node path st target :
  Inv colour ((node, path) :: st) → edge node target → target ∈ node :: st.*1 →
  ∃ c, from_index target path = Ok c ∧ is_cycle (c ++ [target]).
Proof.
  intros HI He Ht. pose proof (inv_paths _ _ HI) as [-> _].
  assert (NoDup (reverse (node :: st.*1))) as Hnd by (rewrite reverse_Permutation; exact (inv_nodup _ _ HI)).
  assert (linked (reverse (node :: st.*1))) as Hl by exact (inv_linked _ _ HI).
  destruct (from_index_Ok target (reverse (node :: st.*1))) as (pre & post & Hp & Hf); [by apply elem_of_reverse|].
  exists (target :: post). split; [done|]. exists target, post. split; [done|].
  rewrite Hp in Hnd. apply NoDup_app in Hnd as (_ & _ & Hnd). split; [done|].
  pose proof Hl as Hl'. rewrite Hp in Hl. apply linked_tail in Hl. rewrite reverse_cons in Hp.
  destruct (exists_last (l := target :: post)) as (l & z & Hlast); [done|].
  rewrite Hlast in Hp. rewrite app_assoc in Hp. apply app_inj_tail in Hp as [_ <-].
  rewrite Hlast in Hl |- *. by apply linked_snoc.
Qed.

Lemma visit_step colour node path st : closed → Inv colour ((node, path) :: st) →
  ∃ r, visit edges colour node path st = Ok r ∧
    match r with
    | inl (colour', st') =>
        Inv colour' st' ∧ still_black colour colour' ∧
        (∀ x, x ∈ node :: st.*1 → x ∈ st'.*1 ∨ colour' !! x = Some BLACK) ∧
        (2 * size (open_names colour') + S (length st) < 2 * size (open_names colour) + length st')%nat
    | inr cycle => is_cycle cycle
    end.
Proof.
  intros Hcl HI. destruct (inv_top _ _ HI _ _ _ eq_refl) as (Hs & Hb & Hst).
  assert (still_black colour (<[node := GREY]> colour)) as Hstill.
  { intros x Hx. rewrite lookup_insert_ne; [done|by intros <-]. }
  assert (node ∈ open_names colour) as Hopen by (apply (stack_is_open _ _ HI); by left).
  assert (is_Some (edges !! node)) as [targets Ht] by by apply (inv_dom _ _ HI).
  assert (∀ y, y ∈ targets ↔ edge node y) as Hedge.
  { intros y. split; [intros ?; by exists targets|]. intros (ys & ? & ?). congruence. }
  unfold visit. rewrite Ht. cbn [of_option mbind result_bind].
  destruct (unvisited_Ok (<[node := GREY]> colour) targets) as (l & Hl & Hin).
  { intros x Hx%Hedge%Hcl. apply (inv_dom _ _ HI) in Hx. destruct (decide (x = node)) as [->|];
      [rewrite lookup_insert_eq; eauto|by rewrite lookup_insert_ne]. }
  rewrite Hl. cbn [mbind result_bind].
  destruct (List.filter _ l) as [|[target c] l'] eqn:Ef.
  - assert (∀ y, edge node y → <[node := GREY]> colour !! y = Some BLACK) as Hall.
    { intros y Hy. pose proof (proj2 (Hedge y) Hy) as Hyt. destruct (Hcl _ _ Hy) as [ys Hys].
      assert (is_Some (<[node := GREY]> colour !! y)) as [c Hc].
      { destruct (decide (y = node)) as [->|]; [rewrite lookup_insert_eq; eauto|rewrite lookup_insert_ne by done].
        apply (inv_dom _ _ HI). eauto. }
      pose proof (proj2 (Hin y c) (conj Hyt Hc)) as Hyl. destruct (decide (c = BLACK)) as [->|Hne]; [done|].
      assert ((y, c) ∈ []) as Hnil; [|by apply not_elem_of_nil in Hnil].
      rewrite <-Ef. apply list_elem_of_In, filter_In. split; [by apply list_elem_of_In|].
      simpl. by rewrite bool_decide_false. }
    eexists. split; [done|]. rewrite insert_insert_eq. split_and!.
    + by apply inv_pop with path.
    + intros x Hx. destruct (decide (x = node)) as [->|]; [by rewrite lookup_insert_eq|by rewrite lookup_insert_ne].
    + intros x [->|Hx]%elem_of_cons; [right; by rewrite lookup_insert_eq|by left].
    + pose proof (open_black _ _ Hopen). lia.
  - assert ((target, c) ∈ l ∧ c ≠ BLACK) as [Htl Hne].
    { assert ((target, c) ∈ List.filter (λ xc, negb (bool_decide (snd xc = BLACK))) l) as Hf by (rewrite Ef; by left).
      apply list_elem_of_In, filter_In in Hf as [Hf Hc]. split; [by apply list_elem_of_In|].
      simpl in Hc. by bool_simpl. }
    apply Hin in Htl as [Htt Hc]. apply Hedge in Htt. destruct c; [| |done].
    + eexists. split; [done|]. split_and!; [by apply inv_push|done| |].
      * intros x Hx. left. by right.
      * rewrite (open_grey _ _ Hb). simpl. lia.
    + assert (target ∈ node :: st.*1) as Hts.
      { destruct (decide (target = node)) as [->|]; [by left|]. rewrite lookup_insert_ne in Hc by done.
        by apply (inv_grey _ _ HI) in Hc. }
      destruct (inv_cycle _ _ _ _ _ HI Htt Hts) as (cyc & Hcyc & Hok). rewrite Hcyc. eauto.
Qed.

(** ** The whole search *)

Lemma inv_initial : Inv ((λ _, WHITE) <$> edges) [].
Proof.
  split; try done.
  - intros x. by rewrite lookup_fmap, fmap_is_Some.
  - intros x. rewrite lookup_fmap. by destruct (edges !! x).
  - constructor.
  - intros x y. rewrite lookup_fmap. by destruct (edges !! x).
  - intros x. rewrite lookup_fmap. by destruct (edges !! x).
Qed.

Lemma inv_start colour start : Inv colour [] → colour !! start = Some WHITE → Inv colour [(start, [start])].
Proof.
  intros HI Hw. split; try done; try (by destruct HI).
  - intros x Hx%(inv_grey _ _ HI). by apply not_elem_of_nil in Hx.
  - intros ? ? ? [= <- <- <-]. rewrite Hw. split_and!; [eauto|done|by intros x ?%not_elem_of_nil].
  - apply NoDup_singleton.
Qed.

Lemma tc_has_edges x y : tc edge x y → is_Some (edges !! x).
Proof. intros H. destruct H as [x y (ys & ? & _)|x y z (ys & ? & _) _]; eauto. Qed.

Lemma search_from_Ok n : closed → ∀ colour stack, Inv colour stack →
  (2 * size (open_names colour) ≤ n + length stack)%nat →
  ∃ r, search_from edges n (colour, stack) = Ok r ∧
    match r with
    | inl colour' => Inv colour' [] ∧ still_black colour colour' ∧ ∀ x, x ∈ stack.*1 → colour' !! x = Some BLACK
    | inr cycle => is_cycle cycle
    end.
Proof.
  intros Hcl. induction n as [|n IH]; intros colour [|[node path] st] HI Hn.
  1, 3: exists (inl colour); split; [done|]; split_and!; [done|by intros x|by intros x ?%not_elem_of_nil].
  - pose proof (stack_bounded _ _ HI). simpl in *. lia.
  - destruct (visit_step _ _ _ _ Hcl HI) as (r & Hr & Hok). simpl. rewrite Hr. cbn [mbind result_bind].
    destruct r as [[colour' st']|cycle]; [|by exists (inr cycle)].
    destruct Hok as (HI' & Hst & Hx & Hlt). destruct (IH colour' st' HI') as (r & Hr' & Hok); [simpl in *; lia|].
    exists r. split; [done|]. destruct r as [colour''|cycle]; [|done]. destruct Hok as (? & Hst' & Hx').
    split_and!; [done|intros x Hb; by apply Hst', Hst|]. intros x [?|?]%Hx; auto.
Qed.

Lemma search_all_Ok starts : closed → ∀ colour, Inv colour [] → (∀ x, x ∈ starts → is_Some (edges !! x)) →
  ∃ r, search_all edges colour starts = Ok r ∧
    match r with
    | None => ∃ colour', Inv colour' [] ∧ still_black colour colour' ∧ ∀ x, x ∈ starts → colour' !! x = Some BLACK
    | Some cycle => is_cycle cycle
    end.
Proof.
  intros Hcl. induction starts as [|start starts IH]; intros colour HI Hs; cbn [search_all].
  { exists None. split; [done|]. exists colour. split_and!; [done|by intros x|by intros x ?%not_elem_of_nil]. }
  assert (is_Some (colour !! start)) as [c Hc] by (apply (inv_dom _ _ HI), Hs; by left).
  rewrite Hc. cbn [of_option mbind result_bind].
  assert (∀ colour', Inv colour' [] → still_black colour colour' → colour' !! start = Some BLACK →
    ∃ r, search_all edges colour' starts = Ok r ∧
    match r with
    | None => ∃ colour', Inv colour' [] ∧ still_black colour colour' ∧ ∀ x, x ∈ start :: starts → colour' !! x = Some BLACK
    | Some cycle => is_cycle cycle
    end) as Hrest.
  { intros colour' HI' Hst Hb. destruct (IH colour' HI') as (r & Hr & Hok); [intros; apply Hs; by right|].
    exists r. split; [done|]. destruct r; [done|]. destruct Hok as (colour'' & ? & Hst' & Hx).
    exists colour''. split_and!; [done|intros x ?; by apply Hst', Hst|].
    intros x [->|?]%elem_of_cons; [by apply Hst'|by apply Hx]. }
  case_bool_decide as Hw.
  - subst c. assert (Inv colour [(start, [start])]) as HI1 by by apply inv_start.
    destruct (search_from_Ok (2 * size edges) Hcl _ _ HI1) as (r & Hr & Hok).
    { rewrite <-size_dom. simpl.
      assert (size (open_names colour) ≤ size (dom edges))%nat; [|lia].
      apply subseteq_size. by intros x [_ ?]%elem_of_filter. }
    rewrite Hr. cbn [mbind result_bind]. destruct r as [colour'|cycle]; [|by exists (Some cycle)].
    destruct Hok as (? & ? & Hx). apply Hrest; [done|done|]. apply Hx. by left.
  - apply Hrest; [done|by intros x|]. destruct c; [done| |done].
    apply (inv_grey _ _ HI) in Hc. by apply not_elem_of_nil in Hc.
Qed.

Lemma linked_tc x l y : linked (x :: l ++ [y]) → tc edge x y.
Proof.
  revert x. induction l as [|z l IH]; intros x; simpl; intros [He H]; [by apply tc_once|].
  by apply tc_l with z, IH.
Qed.

Lemma cycle_search : closed →
  ∃ r, _find_cycle edges = Ok r ∧
    match r with
    | Some cycle => is_cycle cycle
    | None => ∀ x, ¬ tc edge x x
    end.
Proof.
  intros Hcl. unfold _find_cycle.
  destruct (search_all_Ok (sorted_names (dom edges)) Hcl ((λ _, WHITE) <$> edges)) as (r & Hr & Hok).
  - apply inv_initial.
  - intros x Hx. unfold sorted_names in Hx. rewrite merge_sort_Permutation in Hx.
    by apply elem_of_elements, elem_of_dom in Hx.
  - exists r. split; [done|]. destruct r as [cycle|]; [done|]. destruct Hok as (colour & HI & _ & Hb).
    intros x Hx. apply (inv_acyclic _ _ HI x); [|done]. apply Hb. unfold sorted_names.
    rewrite merge_sort_Permutation. apply elem_of_elements, elem_of_dom. by apply tc_has_edges in Hx.
Qed.

(** The search ends for every graph of packages, and it names a cycle exactly when
    there is one: what it returns is a closed path along imports that repeats no
    package, and when it returns nothing no package reaches itself. *)
Theorem cycle_found : closed →
  ∃ r, _find_cycle edges = Ok r ∧
    match r with
    | Some cycle => is_cycle cycle ∧ ∃ x, tc edge x x
    | None => ∀ x, ¬ tc edge x x
    end.
Proof.
  intros Hcl. destruct (cycle_search Hcl) as (r & Hr & Hok). exists r. split; [done|].
  destruct r as [cycle|]; [|done]. split; [done|]. destruct Hok as (x & l & -> & _ & Hl). exists x. by eapply linked_tc.
Qed.
End cycles.

(** ** A chain and a loop *)

Definition demo_graph (back : gset string) : gmap string (gset string) :=
  <["api" := {[ "store"; "worker" ]}]> (<["worker" := {[ "store" ]}]> (<["store" := back]> ∅)).
Example loop_found : _find_cycle (demo_graph {[ "api" ]}) = Ok (Some ["api"; "store"; "api"]).
Proof. by vm_compute. Qed.

Lemma cycle_found_witness : _find_cycle (demo_graph ∅) = Ok None ∧ ∀ x, ¬ tc (edge (demo_graph ∅)) x x.
Proof.
  assert (_find_cycle (demo_graph ∅) = Ok None) as Hf by (vm_compute; reflexivity).
  split; [exact Hf|]. destruct (cycle_found (demo_graph ∅)) as (r & Hr & Hok).
  - apply closed_by. apply (bool_decide_unpack _). vm_compute. exact I.
  - rewrite Hf in Hr. injection Hr as <-. exact Hok.
Defined.
