(* ===== verification/Rules.v ===== *)
(** * guardrails/rules.py: the architecture rules

    A scan is a function of the tree: its Python and other files with their text, its
    directories, and the baseline and approvals read from it.  The parser [ast.parse],
    [json.loads], sha-256 and [repr] are parameters; a file's text is Latin-1. *)

From stdpp Require Import gmap pretty.
From S2P Require Export Regex Sql PyValue Version Text.
Open Scope string_scope.
Open Scope list_scope.

Definition CORE_DIR : string := "core".
Definition CONTRACTS_DIR : string := "contracts".
Definition APP_DIR : string := "apps".
Definition PLUGIN_DIR : string := "plugins".
Definition GATEWAY_DIR : string := "gateway".
Definition KERNEL_DIRS : list string := [CORE_DIR; CONTRACTS_DIR; GATEWAY_DIR].
Definition SKIP_DIR_NAMES : list string :=
  [".git"; "__pycache__"; ".pytest_cache"; "node_modules"; ".venv"; "venv"; "guardrails";
   ".mypy_cache"; ".ruff_cache"; "build"; "dist"; ".eggs"].

Record Violation := MkViolation { vi_rule : string; vi_path : string; vi_line : Z; vi_detail : string }.

(** ** Python's syntax trees

    [before], [body] and [after] are the children of a node in the order of its fields;
    [body] is the field of that name where it is a list. *)

Inductive NodeKind :=
| Module_ | ClassDef (name : string) | FunctionDef (name : string) | AsyncFunctionDef (name : string)
| Import (names : list string) | ImportFrom (module : option string) (level : Z) (names : list string)
| Expr | StrConstant | Return | Raise | Continue | Break | OtherNode (class : string).
Inductive Node :=
  MkNode (kind : NodeKind) (lineno : Z) (end_lineno : option Z) (before body after : list Node).

Definition nd_kind (n : Node) : NodeKind := match n with MkNode k _ _ _ _ _ => k end.
Definition nd_lineno (n : Node) : Z := match n with MkNode _ l _ _ _ _ => l end.
Definition nd_end_lineno (n : Node) : option Z := match n with MkNode _ _ e _ _ _ => e end.
Definition nd_body (n : Node) : list Node := match n with MkNode _ _ _ _ b _ => b end.
Definition children (n : Node) : list Node := match n with MkNode _ _ _ l b r => l ++ b ++ r end.

Fixpoint depth (n : Node) : nat :=
  match n with
  | MkNode _ _ _ l b r =>
      S (Nat.max (list_max (depth <$> l)) (Nat.max (list_max (depth <$> b)) (list_max (depth <$> r))))
  end.
(** [ast.walk(tree)]: breadth first. *)
Fixpoint walk_levels (n : nat) (level : list Node) : list Node :=
  match n with O => [] | S n' => level ++ walk_levels n' (level ≫= children) end.
Definition walk (tree : Node) : list Node := walk_levels (depth tree) [tree].

Definition class_name (k : NodeKind) : string :=
  match k with
  | Module_ => "Module" | ClassDef _ => "ClassDef" | FunctionDef _ => "FunctionDef"
  | AsyncFunctionDef _ => "AsyncFunctionDef" | Import _ => "Import" | ImportFrom _ _ _ => "ImportFrom"
  | Expr => "Expr" | StrConstant => "Constant" | Return => "Return" | Raise => "Raise"
  | Continue => "Continue" | Break => "Break" | OtherNode c => c
  end.

(** ** Text *)

(** [line.find("#")] splits a line into its code and its comment. *)
Fixpoint code_of (line : string) : string :=
  match line with
  | String c s => if bool_decide (c = "#"%char) then EmptyString else String c (code_of s)
  | EmptyString => EmptyString
  end.
Definition comment_of (line : string) : string := str_drop (String.length (code_of line)) line.
Definition rstrip (s : string) : string := str_rev (lstrip (str_rev s)).

Definition enumerate1 {A} (l : list A) : list (Z * A) := imap (λ i x, (Z.of_nat (S i), x)) l.

Fixpoint path_leb (p q : list string) : bool :=
  match p, q with
  | [], _ => true
  | _ :: _, [] => false
  | x :: p', y :: q' => if bool_decide (x = y) then path_leb p' q' else String.leb x y
  end.
Definition path_le (p q : list string) : Prop := path_leb p q = true.
#[export] Instance path_le_dec : RelDecision path_le.
Proof. intros p q. unfold path_le. apply _. Defined.
(** Files in the order of their paths. *)
Definition file_le (f g : list string * string) : Prop := path_le (fst f) (fst g).
#[export] Instance file_le_dec : RelDecision file_le.
Proof. intros f g. unfold file_le. apply _. Defined.

Definition has_prefix (base path : list string) : option (list string) :=
  match relative_to base path with Some [] => None | below => below end.
Definition name_of (path : list string) : string := List.last path EmptyString.
Definition parent (path : list string) : list string := removelast path.

(** A dict of lists: [d.setdefault(k, []).append(v)]. *)
Fixpoint push {A} (k : string) (v : A) (d : list (string * list A)) : list (string * list A) :=
  match d with
  | [] => [(k, [v])]
  | (k', vs) :: d' => if bool_decide (k = k') then (k', vs ++ [v]) :: d' else (k', vs) :: push k v d'
  end.

(** ** Names *)

Definition FORBIDDEN_KERNEL_TOKENS : list string :=
  ["orfs"; "orfs_agent"; "orfs-agent"; "a2_orfo"; "a2-orfo"; "rtlscout"; "rtl_scout"; "agenticpd"; "edacraft";
   "implcraft"; "dplevolve"; "orassistant"; "posteda"; "closer_bench"; "statetune"; "taiwei"; "sky130";
   "nangate45"; "asap7"; "openroad"; "yosys"; "verilator"; "klayout"; "iverilog"; "opensta"; "netgen"].
Definition AMBIGUOUS_KERNEL_TOKENS : list string := ["make"; "magic"].
Definition PLATFORM_NAMESPACE_PREFIXES : list string := ["openroad_platform"; "openroad-platform"].

Definition is_ident (c : ascii) : bool := is_alnum c || one_of "_" c.
Definition _IDENTIFIER_RE : re := Seq (Chr is_ident) (Star (Chr (λ c, is_ident c || one_of ".-" c))).
Definition _TOKEN_RE (token : string) : re :=
  seqs [Look (λ c _, negb (prev_is is_ident c)); lit_ci token; Look (λ _ s, negb (next_is is_ident s))].

Definition _is_platform_namespace (identifier : string) : bool :=
  existsb (λ prefix, startswith prefix (lower identifier)) PLATFORM_NAMESPACE_PREFIXES.

Definition _enclosing_identifier (line : string) (start stop : nat) : string :=
  match List.find (λ m, (fst m <=? start)%nat && (stop <=? fst m + String.length (snd m))%nat)
                  (find_all _IDENTIFIER_RE line) with
  | Some m => snd m
  | None => String.substring start (stop - start) line
  end.

Definition is_owner (k : NodeKind) : bool :=
  match k with Module_ | ClassDef _ | FunctionDef _ | AsyncFunctionDef _ => true | _ => false end.
(** The first and the last line of a node's docstring. *)
Definition docstring (n : Node) : option (Z * Z) :=
  if is_owner (nd_kind n) then
    match nd_body n with
    | MkNode Expr _ _ (c :: _) _ _ :: _ =>
        match nd_kind c with
        | StrConstant =>
            Some (nd_lineno c, match nd_end_lineno c with Some e => if (e =? 0)%Z then nd_lineno c else e
                               | None => nd_lineno c end)
        | _ => None
        end
    | _ => None
    end
  else None.
Definition _docstring_lines (tree : Node) : list (Z * Z) := omap docstring (walk tree).
Definition in_lines (lineno : Z) (lines : list (Z * Z)) : bool :=
  existsb (λ r, (fst r <=? lineno)%Z && (lineno <=? snd r)%Z) lines.

Definition _ADAPTER_FILE_RE : re := seqs [Alt (lit "_adapter") (lit "_plugin"); lit ".py"; text_end].
Definition _SQLITE_CONNECT_RE : re := seqs [lit "sqlite3.connect"; blanks; lit "("].
Definition KERNEL_DB_NAMES : list string :=
  ["runtime.db"; "agent-traces.db"; "identity.db"; "provenance.db"; "core.db"].
Definition APP_ALLOWED_PLATFORM_IMPORTS : list string :=
  ["openroad_platform_contracts"; "openroad_platform_client"].
Definition APP_PACKAGE_PREFIX : string := "openroad_app_".
Definition KERNEL_PACKAGE_PREFIX : string := "openroad_platform_".

(** [module.split(".")[0]] *)
Definition top_of (module : string) : string := List.hd EmptyString (split_on "." module).

(** ** G11: what the defensive patterns match *)

Record AntiPattern := MkAntiPattern { ap_name : string; ap_regex : re; ap_why : string }.
Definition ANTI_PATTERNS : list AntiPattern :=
  [MkAntiPattern "sys-path-hack"
     (seqs [word_boundary; lit "sys.path."; Alt (lit "insert") (lit "append"); blanks; lit "("])
     "reaching across package boundaries by mutating sys.path";
   MkAntiPattern "silent-except"
     (seqs [lit "except"; blanks1; lit "Exception"; blanks; lit ":"; blanks; Alt (lit "pass") (lit "..."); blanks;
            text_end])
     "swallowing an exception hides a real failure";
   MkAntiPattern "bare-except" (seqs [lit "except"; blanks; lit ":"; blanks; text_end])
     "a bare except also catches KeyboardInterrupt and SystemExit";
   MkAntiPattern "legacy-switch"
     (seqs [word_boundary; alts [lit "use_legacy"; lit "legacy_mode"; lit "compat_mode"; lit "enable_legacy"];
            word_boundary])
     "a compatibility switch keeps a dead path alive forever"].
Definition LEGACY_NAME_SEGMENTS : list string := ["legacy"; "compat"; "deprecated"; "obsolete"].

Definition legacy_name_hits (code : string) : list string :=
  List.filter (λ identifier, existsb (λ seg, bool_decide (seg ∈ LEGACY_NAME_SEGMENTS))
                               (List.filter (λ seg, negb (str_empty seg)) (split_on "_" (lower identifier))))
    (snd <$> find_all _IDENTIFIER_RE code).

Definition _is_quarantine_path (rel : string) : bool := startswith "archive/" rel || startswith "v1/" rel.

Definition _TERMINAL (k : NodeKind) : bool :=
  match k with Return | Raise | Continue | Break => true | _ => false end.

(** ** G13: concerns *)

Record Concern := MkConcern { co_pattern : re; co_per_file : bool }.
Definition SINGLETON_CONCERNS : list (string * Concern) :=
  [("sha256-digest", MkConcern
      (seqs [lit "def"; blanks1;
             NotAhead (Seq (alts [lit "validate"; lit "check"; lit "assert"; lit "require"; lit "is"]) (lit "_"));
             Star (Chr is_word); lit "sha256"; Star (Chr is_word); blanks; lit "("]) false);
   ("json-response-envelope", MkConcern
      (seqs [lit "def"; blanks1; Star (Chr is_word); alts [lit "json_response"; lit "_json"; lit "respond"; lit "reply"];
             blanks; lit "("]) false);
   ("route-dispatcher", MkConcern
      (seqs [lit "def"; blanks1; lit "do_"; Alt (lit "GET") (lit "POST"); blanks; lit "("]) true)].

Definition _is_test_path (rel : string) : bool :=
  let parts := split_on "/" rel in
  bool_decide ("tests" ∈ parts) || bool_decide ("fixtures" ∈ parts)
  || bool_decide (List.last parts EmptyString = "smoke.py").

Definition _concern_zone (rel : string) : string :=
  match split_on "/" rel with
  | first :: second :: _ =>
      if bool_decide (first = "plugins") then "plugin:" +:+ second
      else if bool_decide (first = "apps") then "app:" +:+ second else "platform"
  | _ => "platform"
  end.

(** ** G14: the change budget *)

Definition MAX_LAYERS_PER_CHANGE : nat := 1.

Definition _layer_of (rel : string) : string :=
  let parts := split_on "/" rel in
  let first := List.hd EmptyString parts in
  if bool_decide (first ∈ ["core"; "gateway"]) then "kernel"
  else match parts with
       | _ :: second :: _ =>
           if bool_decide (first = "apps") then "app:" +:+ second
           else if bool_decide (first = "plugins") then "plugin:" +:+ second else first
       | _ => first
       end.

Definition exempt (rel : string) : bool := startswith "docs/" rel || startswith "guardrails/" rel.
Definition layers_of (changed_files : list string) : list (string * list string) :=
  fold_left (λ layers rel, if exempt rel then layers else push (_layer_of rel) rel layers) changed_files [].

Definition change_budget_violations (changed_files : list string) : list Violation :=
  let layers := layers_of changed_files in
  if (length layers <=? MAX_LAYERS_PER_CHANGE)%nat then []
  else
    let sorted := merge_sort (λ x y, String.le (fst x) (fst y)) layers in
    let summary := str_join "; " ((λ kv, fst kv +:+ " (" +:+ pretty (length (snd kv)) +:+ " files)") <$> sorted) in
    [MkViolation "G14" (str_join ", " (fst <$> sorted)) 0
       ("this change spans " +:+ pretty (length layers) +:+ " layers: " +:+ summary
        +:+ ". A change must touch one layer only.")].
