(* ===== verification/Guardrails.v ===== *)
(** * guardrails/rules.py: the scans

    One definition per rule.  The tree is the list of its files with their text, in no
    particular order, and of its directories; [root] is where it stands.  A directory
    called something.py, which would be read as a file, is left out. *)

From stdpp Require Import gmap pretty.
From S2P Require Export Cycles Rules.
Open Scope string_scope.
Open Scope list_scope.

Record Tree := MkTree { root : list string; files : list (list string * string); dirs : list (list string) }.

Section scans.
Context (parse : string → option Node) (loads : string → option json).
Context (sha256 : string → string) (py_repr : json → string).
Context (t : Tree).

Definition quoted (s : string) : string := py_repr (JStr s).

Definition read (path : list string) : option string :=
  snd <$> List.find (λ f, bool_decide (fst f = path)) (files t).
Definition is_file (path : list string) : bool := match read path with Some _ => true | None => false end.
Definition is_dir (path : list string) : bool := bool_decide (path ∈ dirs t).
(** [root / rel] for a path given as text; [None] where it leaves the tree. *)
Definition at_rel (rel : string) : option (list string) := relative_to (root t) (path_resolve (root t) rel).
Definition rel_file (rel : string) : option string := path ← at_rel rel; read path.

Definition below (base : list string) (p : string → bool) : list (list string * string) :=
  merge_sort file_le
    (List.filter (λ f, match has_prefix base (fst f) with Some _ => p (name_of (fst f)) | None => false end) (files t)).

Definition skipped (parts : list string) : bool := existsb (λ part, bool_decide (part ∈ SKIP_DIR_NAMES)) parts.
(** [_walk_python(base)], each path with its text. *)
Definition _walk_python (base : list string) : list (list string * string) :=
  List.filter (λ f, negb (skipped (default [] (relative_to base (fst f))))) (below base (endswith ".py")).

Definition _rel (path : list string) : string := str_join "/" path.
Definition _loc (text : string) : Z := Z.of_nat (length (splitlines text)).

(** The Python files of the kernel's directories. *)
Definition kernel_files : list (list string * string) :=
  d ← KERNEL_DIRS; if is_dir [d] then _walk_python [d] else [].

(** ** G1, G2: what the kernel may not name or hold *)

Definition token_hits (where_ : string) (lineno : Z) (segment : string) (token : string) : list Violation :=
  m ← find_all (_TOKEN_RE token) segment;
  let identifier := _enclosing_identifier segment (fst m) (fst m + String.length (snd m)) in
  if _is_platform_namespace identifier then []
  else [MkViolation "G1" where_ lineno
          ("kernel names concrete token " +:+ quoted token +:+ " in identifier " +:+ quoted identifier)].

Definition line_scopes (prose : bool) (line : string) : list (string * bool) :=
  if prose then [(line, false)]
  else (code_of line, true) :: (if str_empty (comment_of line) then [] else [(comment_of line, false)]).

Definition line_hits (where_ : string) (prose_lines : list (Z * Z)) (numbered : Z * string) : list Violation :=
  scope ← line_scopes (in_lines (fst numbered) prose_lines) (snd numbered);
  if str_empty (fst scope) then [] else
  token ← FORBIDDEN_KERNEL_TOKENS ++ AMBIGUOUS_KERNEL_TOKENS;
  if negb (snd scope) && bool_decide (token ∈ AMBIGUOUS_KERNEL_TOKENS) then []
  else token_hits where_ (fst numbered) (fst scope) token.

Definition kernel_plugin_name_violations : list Violation :=
  f ← kernel_files;
  match parse (snd f) with
  | None => []
  | Some tree => line ← enumerate1 (splitlines (snd f)); line_hits (_rel (fst f)) (_docstring_lines tree) line
  end.

Definition kernel_adapter_file_violations : list Violation :=
  f ← kernel_files;
  if search _ADAPTER_FILE_RE (name_of (fst f))
  then [MkViolation "G2" (_rel (fst f)) 0 "adapter/plugin implementation file inside the kernel"] else [].

(** ** G3, G4, G16: the direction of imports *)

Definition imported (n : Node) : list (string * Z) :=
  match nd_kind n with
  | Import names => (λ name, (name, nd_lineno n)) <$> names
  | ImportFrom (Some module) level names =>
      if negb (str_empty module) && (level =? 0)%Z
      then (module, nd_lineno n) :: ((λ name, (module +:+ "." +:+ name, nd_lineno n)) <$> names)
      else []
  | _ => []
  end.
Definition _imported_modules (text : string) : list (string * Z) :=
  match parse text with Some tree => walk tree ≫= imported | None => [] end.

Definition child_dirs (base : string) : list (list string) :=
  if is_dir [base] then
    merge_sort path_le (List.filter (λ d, match d with [b; _] => bool_decide (b = base) | _ => false end) (dirs t))
  else [].
Definition _app_dirs : list (list string) := child_dirs APP_DIR.
Definition _plugin_dirs : list (list string) := child_dirs PLUGIN_DIR.

Definition sibling_imports (app : string) (others : list string) (where_ : string) (m : string * Z) : list Violation :=
  let parts := split_on "." (fst m) in
  let top := List.hd EmptyString parts in
  match parts with
  | first :: second :: _ =>
      if bool_decide (first = APP_DIR) && bool_decide (second ∈ others)
      then [MkViolation "G3" where_ (snd m) ("app " +:+ quoted app +:+ " imports sibling app " +:+ quoted second)]
      else []
  | _ => []
  end ++
  (other ← others;
   if bool_decide (top ∈ ["openroad_app_" +:+ other; "openroad_app_" +:+ without "_" other])
   then [MkViolation "G3" where_ (snd m) ("app " +:+ quoted app +:+ " imports sibling app " +:+ quoted other)]
   else []).

Definition app_cross_import_violations : list Violation :=
  app ← _app_dirs;
  let others := List.filter (λ n, negb (bool_decide (n = name_of app))) (name_of <$> _app_dirs) in
  f ← _walk_python app;
  m ← _imported_modules (snd f);
  sibling_imports (name_of app) others (_rel (fst f)) m.

Definition reaches_kernel (module : string) : bool :=
  startswith "openroad_platform_" (top_of module) &&
  negb (existsb (λ allowed, bool_decide (top_of module = allowed) || startswith (allowed +:+ ".") module)
                APP_ALLOWED_PLATFORM_IMPORTS).

Definition app_forbidden_core_import_violations : list Violation :=
  app ← _app_dirs;
  f ← _walk_python app;
  if startswith "test_" (name_of (fst f)) then [] else
  m ← _imported_modules (snd f);
  if reaches_kernel (fst m)
  then [MkViolation "G4" (_rel (fst f)) (snd m)
          ("app imports kernel internals via " +:+ quoted (fst m) +:+ "; allowed: "
           +:+ str_join ", " APP_ALLOWED_PLATFORM_IMPORTS)]
  else [].

Definition capability_import (plugin_names : list string) (module : string) : option string :=
  let parts := split_on "." module in
  let top := List.hd EmptyString parts in
  if bool_decide (top = APP_DIR) || startswith APP_PACKAGE_PREFIX top
  then Some ("the kernel imports the application " +:+ quoted module)
  else if bool_decide (PLUGIN_DIR ∈ parts) then Some ("the kernel imports plugin code " +:+ quoted module)
  else if bool_decide (top ∈ plugin_names) then Some ("the kernel imports the plugin " +:+ quoted top)
  else None.

Definition kernel_imports_capability_violations : list Violation :=
  f ← kernel_files;
  m ← _imported_modules (snd f);
  match capability_import (name_of <$> _plugin_dirs) (fst m) with
  | Some detail => [MkViolation "G16" (_rel (fst f)) (snd m) detail]
  | None => []
  end.

(** ** G5, G6, G9: applications *)

Definition opens_database (where_ : string) (lines : list string) (numbered : Z * string) : list Violation :=
  if search _SQLITE_CONNECT_RE (code_of (snd numbered)) then
    let window := str_join " " (code_of <$> take 3 (drop (Z.to_nat (fst numbered - 1)) lines)) in
    match List.find (λ name, contains name window) KERNEL_DB_NAMES with
    | Some name =>
        [MkViolation "G5" where_ (fst numbered) ("app opens kernel database " +:+ quoted name +:+ " directly")]
    | None => []
    end
  else [].

Definition app_opens_kernel_db_violations : list Violation :=
  app ← _app_dirs;
  f ← _walk_python app;
  line ← enumerate1 (splitlines (snd f));
  opens_database (_rel (fst f)) (splitlines (snd f)) line.

Definition has_entry (app : list string) : bool :=
  is_file (app ++ ["__main__.py"])
  || existsb (λ f, bool_decide (parent (fst f) = app) && bool_decide (name_of (fst f) ∈ ["main.py"; "server.py"; "cli.py"]))
             (files t)
  || existsb (λ f, negb (existsb (startswith ".") (root t ++ fst f)))
             (below app (λ name, bool_decide (name = "__main__.py"))).

Definition app_packaging_violations : list Violation :=
  app ← _app_dirs;
  (if is_file (app ++ ["pyproject.toml"]) then [] else [MkViolation "G6" (_rel app) 0 "app has no pyproject.toml"])
  ++ (if has_entry app then [] else [MkViolation "G6" (_rel app) 0 "app has no process entry point"]).

Definition app_smoke_violations : list Violation :=
  app ← _app_dirs;
  if is_file (app ++ ["smoke.py"]) then []
  else [MkViolation "G9" (_rel app) 0 "app has no smoke.py end-to-end check"].

(** ** G7, G8, G10: the baseline *)

Definition DEFAULT_MAX_FILE_LOC : Z := 1500.

Definition load_baseline : result dict :=
  match read ["guardrails"; "baseline.json"] with
  | None => Ok []
  | Some text => payload ← of_option (ValueError "JSONDecodeError") (loads text); as_object payload
  end.

Definition file_loc_ceiling_violations : result (list Violation) :=
  baseline ← load_baseline;
  ceiling ← py_int_of (default (JInt DEFAULT_MAX_FILE_LOC) (dict_get "max_file_loc" baseline));
  Ok (f ← _walk_python [];
      if (ceiling <? _loc (snd f))%Z
      then [MkViolation "G7" (_rel (fst f)) 0
              (pretty (_loc (snd f)) +:+ " lines exceeds the " +:+ pretty ceiling +:+ "-line per-file ceiling")]
      else []).

(** [re.sub(r"[^A-Za-z0-9_.-]", "_", key)] *)
Fixpoint safe_key (key : string) : string :=
  match key with
  | EmptyString => EmptyString
  | String c s => String (if is_alnum c || one_of "_.-" c then c else "_"%char) (safe_key s)
  end.
Definition _has_approval (key : string) : bool := is_file ["approvals"; safe_key key +:+ ".md"].

Definition _approved_ceiling (key : string) : option Z :=
  if _has_approval key then
    match (text ← read ["approvals"; "ceiling.json"]; loads text) with
    | Some (JObj grants) => match dict_get key grants with Some (JInt granted) => Some granted | _ => None end
    | _ => None
    end
  else None.

Definition _approval_advice (approved : option Z) : string :=
  match approved with
  | None => "lower the code or add an approval"
  | Some n => "the approval covers only " +:+ pretty n +:+ "; lower the code or raise approvals/ceiling.json"
  end.

Definition above_approval (actual : Z) (approved : option Z) : bool :=
  match approved with None => true | Some n => (n <? actual)%Z end.

Definition core_total_loc : Z :=
  foldr Z.add 0%Z ((λ f, _loc (snd f)) <$> List.filter (λ f, negb (_is_test_path (_rel (fst f)))) kernel_files).

Definition core_budget_violations (core_budget : json) : result (list Violation) :=
  if is_null core_budget then Ok [] else
  budget ← py_int_of core_budget;
  if (budget <? core_total_loc)%Z then
    let approved := _approved_ceiling "core_total_loc" in
    Ok (if above_approval core_total_loc approved
        then [MkViolation "G8" CORE_DIR 0
                ("kernel is " +:+ pretty core_total_loc +:+ " lines, above the frozen budget " +:+ py_repr core_budget
                 +:+ "; " +:+ _approval_advice approved)]
        else [])
  else Ok [].

Definition file_budget_violations (item : string * json) : result (list Violation) :=
  match rel_file (fst item) with
  | None => Ok []
  | Some text =>
      ceiling ← py_int_of (snd item);
      if (ceiling <? _loc text)%Z then
        let approved := _approved_ceiling (fst item) in
        Ok (if above_approval (_loc text) approved
            then [MkViolation "G8" (fst item) 0
                    (pretty (_loc text) +:+ " lines, above the frozen ceiling " +:+ py_repr (snd item) +:+ "; "
                     +:+ _approval_advice approved)]
            else [])
      else Ok []
  end.

(** [(baseline.get(k) or {}).items()] *)
Definition items_of (k : string) (baseline : dict) : result dict :=
  let v := get_null k baseline in if truthy v then as_object v else Ok [].

Definition ratchet_violations : result (list Violation) :=
  baseline ← load_baseline;
  core ← core_budget_violations (get_null "core_total_loc" baseline);
  ceilings ← items_of "file_loc" baseline;
  per_file ← mapM_result file_budget_violations ceilings;
  Ok (core ++ concat per_file).

Definition protected_item (item : string * json) : list Violation :=
  match rel_file (fst item) with
  | None => [MkViolation "G10" (fst item) 0 "protected file is missing"]
  | Some bytes =>
      if negb (py_eqb (JStr (sha256 bytes)) (snd item)) && negb (_has_approval (fst item))
      then [MkViolation "G10" (fst item) 0 "protected file changed; restore it or add an approval"] else []
  end.
Definition protected_hash_violations : result (list Violation) :=
  baseline ← load_baseline;
  protected ← items_of "protected_sha256" baseline;
  Ok (protected ≫= protected_item).

(** ** G11, G12: dead structure *)

Definition antipattern_line (rel : string) (prose_lines : list (Z * Z)) (numbered : Z * string) : list Violation :=
  let code := rstrip (code_of (snd numbered)) in
  if in_lines (fst numbered) prose_lines || str_empty (strip code) then []
  else
    (pattern ← ANTI_PATTERNS;
     if search (ap_regex pattern) code
     then [MkViolation "G11" rel (fst numbered) (ap_name pattern +:+ ": " +:+ ap_why pattern)] else [])
    ++ (if _is_quarantine_path rel then [] else
        (λ identifier, MkViolation "G11" rel (fst numbered)
           ("identifier " +:+ quoted identifier
            +:+ " names a dead path; delete the old path or raise the conflict")) <$> legacy_name_hits code).

Definition defensive_antipattern_violations : list Violation :=
  f ← _walk_python [];
  line ← enumerate1 (splitlines (snd f));
  antipattern_line (_rel (fst f)) (match parse (snd f) with Some tree => _docstring_lines tree | None => [] end) line.

Fixpoint unreachable_after (where_ : string) (body : list Node) : list Violation :=
  match body with
  | stmt :: (nxt :: _) as rest =>
      (if _TERMINAL (nd_kind stmt)
       then [MkViolation "G12" where_ (nd_lineno nxt)
               ("unreachable " +:+ class_name (nd_kind nxt) +:+ " after " +:+ class_name (nd_kind stmt))]
       else []) ++ unreachable_after where_ rest
  | _ => []
  end.
Definition unreachable_code_violations : list Violation :=
  f ← _walk_python [];
  match parse (snd f) with
  | None => []
  | Some tree => n ← walk tree; unreachable_after (_rel (fst f)) (nd_body n)
  end.

(** ** G13: one implementation per concern *)

Definition definition_of (n : Node) : option string :=
  match nd_kind n with FunctionDef name | AsyncFunctionDef name => Some name | _ => None end.
Definition sites (spec : Concern) (rel : string) (text : string) : list (string * Z) :=
  match parse text with
  | None => []
  | Some tree =>
      let hits := omap (λ n, name ← definition_of n;
                             if search (co_pattern spec) ("def " +:+ name +:+ "(") then Some (rel, nd_lineno n) else None)
                       (walk tree) in
      if co_per_file spec then take 1 hits else hits
  end.
Definition hits_by_zone (spec : Concern) : list (string * list (string * Z)) :=
  fold_left (λ zones hit, push (_concern_zone (fst hit)) hit zones)
    (f ← _walk_python []; if _is_test_path (_rel (fst f)) then [] else sites spec (_rel (fst f)) (snd f)) [].

Definition zone_violations (concern zone : string) (hits : list (string * Z)) : list Violation :=
  match hits with
  | [] => []
  | first :: more =>
      (λ hit, MkViolation "G13" (fst hit) (snd hit)
                (quoted concern +:+ " already implemented at " +:+ fst first +:+ ":" +:+ pretty (snd first)
                 +:+ " within " +:+ zone +:+ "; reuse it instead of writing a second one")) <$> more
  end.
Definition duplicate_implementation_violations : list Violation :=
  c ← SINGLETON_CONCERNS; z ← hits_by_zone (snd c); zone_violations (fst c) (fst z) (snd z).

(** ** G15: rules, gates and fixtures *)

Definition declared_rule_ids : list string :=
  match read ["AGENTS.md"] with
  | None => []
  | Some text =>
      merge_sort String.le (remove_dups
        (find_all_groups (seqs [line_start; lit "|"; blanks]) (Seq (lit "G") (plus_re (Chr is_digit)))
           (Seq blanks (lit "|")) text))
  end.

Definition rule_coverage_violations : list Violation :=
  rule ← declared_rule_ids;
  let gate := "test_" +:+ lower rule +:+ "_" in
  (if existsb (λ f, bool_decide (parent (fst f) = ["guardrails"]) && startswith gate (name_of (fst f))
                    && endswith ".py" (name_of (fst f))) (files t)
   then [] else [MkViolation "G15" "AGENTS.md" 0
                   ("rule " +:+ rule +:+ " is declared but no guardrails/" +:+ gate +:+ "*.py exists")])
  ++ (if is_dir ["guardrails"; "negative"; rule] then []
      else [MkViolation "G15" "AGENTS.md" 0 ("rule " +:+ rule +:+ " has no negative fixture, so it is unproven")]).

(** ** G17: the packages of the kernel *)

Definition _kernel_packages : gmap string (list string) :=
  fold_left (λ found f, let name := name_of (parent (fst f)) in
               if startswith KERNEL_PACKAGE_PREFIX name then <[name := parent (fst f)]> found else found)
    (d ← KERNEL_DIRS; if is_dir [d] then below [d] (λ name, bool_decide (name = "__init__.py")) else []) ∅.

Definition imports_of (directory : list string) : list string :=
  f ← _walk_python directory; (λ m, top_of (fst m)) <$> _imported_modules (snd f).
Definition _package_edges (packages : gmap string (list string)) : gmap string (gset string) :=
  map_imap (λ name directory,
    Some (list_to_set (List.filter (λ target, bool_decide (target ∈ dom packages) && negb (bool_decide (target = name)))
                                   (imports_of directory)))) packages.
Definition kernel_package_cycle_violations : result (list Violation) :=
  let packages := _kernel_packages in
  cycle ← _find_cycle (_package_edges packages);
  match cycle with
  | None => Ok []
  | Some cycle =>
      first ← of_option (OtherError "IndexError") (head cycle);
      path ← of_option (KeyError first) (packages !! first);
      Ok [MkViolation "G17" (_rel path) 0
            ("kernel packages import each other in a cycle: " +:+ str_join " -> " cycle)]
  end.

(** ** The registry of rules *)

Definition RULES : list (string * result (list Violation)) :=
  [("G1", Ok kernel_plugin_name_violations); ("G2", Ok kernel_adapter_file_violations);
   ("G3", Ok app_cross_import_violations); ("G4", Ok app_forbidden_core_import_violations);
   ("G5", Ok app_opens_kernel_db_violations); ("G6", Ok app_packaging_violations);
   ("G7", file_loc_ceiling_violations); ("G8", ratchet_violations); ("G9", Ok app_smoke_violations);
   ("G10", protected_hash_violations); ("G11", Ok defensive_antipattern_violations);
   ("G12", Ok unreachable_code_violations); ("G13", Ok duplicate_implementation_violations);
   ("G15", Ok rule_coverage_violations); ("G16", Ok kernel_imports_capability_violations);
   ("G17", kernel_package_cycle_violations)].

Definition scan (rule : string) : result (list Violation) :=
  match List.find (λ r, bool_decide (fst r = rule)) RULES with
  | Some r => snd r
  | None => Err (KeyError rule)
  end.
End scans.
