(* ===== verification/GuardrailProps.v ===== *)
(** * What a clean scan of the guardrails means *)

From stdpp Require Import gmap relations.
From S2P Require Import Cycles Guardrails.
Open Scope string_scope.
Open Scope list_scope.

(** ** Walking a syntax tree meets every node in it *)

Inductive inside : Node → Node → Prop :=
| inside_refl n : inside n n
| inside_child n m x : m ∈ children n → inside m x → inside n x.

Lemma depth_child n m : m ∈ children n → (depth m < depth n)%nat.
Proof.
  destruct n as [k l e b1 b2 b3]. cbn [children depth].
  assert (∀ l : list Node, m ∈ l → (depth m ≤ list_max (depth <$> l))%nat) as Hmax.
  { intros ms Hm. apply (list_elem_of_fmap_2 depth) in Hm. apply list_elem_of_In in Hm.
    pose proof (proj1 (list_max_le (depth <$> ms) (list_max (depth <$> ms))) (le_n _)) as H.
    rewrite List.Forall_forall in H. by apply H. }
  rewrite !elem_of_app. intros [?%Hmax|[?%Hmax|?%Hmax]]; lia.
Qed.

Lemma walk_levels_visits fuel level : (∀ n, n ∈ level → (depth n ≤ fuel)%nat) → ∀ x,
  x ∈ walk_levels fuel level ↔ ∃ n, n ∈ level ∧ inside n x.
Proof.
  revert level. induction fuel as [|fuel IH]; intros level Hd x; simpl.
  - split; [by intros ?%not_elem_of_nil|]. intros (n & Hn & _). specialize (Hd n Hn). by destruct n; simpl in Hd; lia.
  - rewrite elem_of_app, IH; cycle 1.
    { intros m (n & Hm & Hn)%list_elem_of_bind. pose proof (depth_child n m Hm). specialize (Hd n Hn). lia. }
    split.
    + intros [Hx|(m & (n & Hm & Hn)%list_elem_of_bind & Hx)]; [by exists x; split; [|constructor]|].
      exists n. split; [done|]. by apply inside_child with m.
    + intros (n & Hn & Hx). destruct Hx as [n|n m x Hm Hx]; [by left|]. right. exists m. split; [|done].
      apply list_elem_of_bind. by exists n.
Qed.
Lemma walk_visits tree x : x ∈ walk tree ↔ inside tree x.
Proof.
  unfold walk. rewrite walk_levels_visits by (intros n ->%list_elem_of_singleton; done).
  split; [by intros (n & ->%list_elem_of_singleton & ?)|]. intros. exists tree. by rewrite list_elem_of_singleton.
Qed.

(** ** The change budget (G14) *)

Lemma push_keys {A} k (v : A) d x : x ∈ (push k v d).*1 ↔ x = k ∨ x ∈ d.*1.
Proof.
  induction d as [|[k' vs] d IH]; simpl; [set_solver|]. case_bool_decide; simpl; [set_solver|].
  rewrite !elem_of_cons, IH. tauto.
Qed.
Lemma push_nodup {A} k (v : A) d : NoDup d.*1 → NoDup (push k v d).*1.
Proof.
  induction d as [|[k' vs] d IH]; simpl; [intros; apply NoDup_singleton|]. intros [Hn Hd]%NoDup_cons.
  case_bool_decide; simpl; constructor; try done; [|by apply IH]. rewrite push_keys. by intros [->|].
Qed.

Lemma layers_keys fs d : let d' := fold_left (λ layers rel, if exempt rel then layers else push (_layer_of rel) rel layers) fs d in
  (NoDup d.*1 → NoDup d'.*1) ∧
  ∀ x, x ∈ d'.*1 ↔ x ∈ d.*1 ∨ ∃ rel, rel ∈ fs ∧ exempt rel = false ∧ x = _layer_of rel.
Proof.
  revert d. induction fs as [|rel fs IH]; intros d; simpl.
  { split; [done|]. intros x. split; [by left|]. intros [?|(? & []%not_elem_of_nil & _)]; done. }
  destruct (IH (if exempt rel then d else push (_layer_of rel) rel d)) as [Hn Hx].
  split.
  - intros Hd. apply Hn. destruct (exempt rel); [done|by apply push_nodup].
  - intros x. rewrite Hx. destruct (exempt rel) eqn:E; [|rewrite push_keys]; split.
    + intros [?|(r & ? & ? & ?)]; [by left|right; exists r; split_and!; [by right|done|done]].
    + intros [?|(r & [->|?]%elem_of_cons & Er & ->)]; [by left|congruence|right; by exists r].
    + intros [[->|?]|(r & ? & ? & ?)]; [right; exists rel; split_and!; [by left|done|done]|by left|].
      right. exists r. split_and!; [by right|done|done].
    + intros [?|(r & [->|?]%elem_of_cons & Er & ->)]; [by left; right|by left; left|right; by exists r].
Qed.

(** A change passes the budget exactly when its files outside docs/ and guardrails/
    all belong to one architectural layer. *)
Theorem one_layer_per_change changed_files :
  change_budget_violations changed_files = [] ↔
  ∀ f g, f ∈ changed_files → g ∈ changed_files → exempt f = false → exempt g = false → _layer_of f = _layer_of g.
Proof.
  unfold change_budget_violations. destruct (layers_keys changed_files []) as [Hn Hk].
  fold (layers_of changed_files) in Hn, Hk. specialize (Hn (NoDup_nil_2)).
  assert (∀ x, x ∈ (layers_of changed_files).*1 ↔
    ∃ rel, rel ∈ changed_files ∧ exempt rel = false ∧ x = _layer_of rel) as Hk'.
  { intros x. rewrite Hk. split; [by intros [[]%not_elem_of_nil|]|by right]. }
  unfold MAX_LAYERS_PER_CHANGE. destruct (layers_of changed_files) as [|[a ?] [|[b ?] ?]]; simpl in *.
  - split; [|done]. intros _ f g Hf _ Ef _. assert (_layer_of f ∈ ([] : list string)) as H by (apply Hk'; eauto).
    by apply not_elem_of_nil in H.
  - split; [|done]. intros _ f g Hf Hg Ef Eg.
    assert (∀ h, h ∈ changed_files → exempt h = false → _layer_of h = a) as Ha; [|by rewrite !Ha].
    intros h Hh Eh. apply list_elem_of_singleton, Hk'. eauto.
  - split; [done|]. intros H. exfalso. apply NoDup_cons in Hn as [Hn _]. apply Hn.
    destruct (proj1 (Hk' a)) as (f & Hf & Ef & ->); [by left|].
    destruct (proj1 (Hk' b)) as (g & Hg & Eg & ->); [by right; left|]. rewrite (H f g) by done. by left.
Qed.

(** ** One implementation per zone (G13) *)

Lemma push_lengths {A} k (v : A) d : Forall (λ z, snd z ≠ []) d →
  Forall (λ z, (length (snd z) ≤ 1)%nat) (push k v d) ↔ Forall (λ z, (length (snd z) ≤ 1)%nat) d ∧ k ∉ d.*1.
Proof.
  induction d as [|[k' vs] d IH]; simpl.
  - intros _. rewrite Forall_cons, !Forall_nil, elem_of_nil. simpl. naive_solver lia.
  - intros [Hv Hd]%Forall_cons. case_bool_decide as Hk.
    + subst k'. rewrite !Forall_cons. simpl. rewrite length_app. simpl. split.
      * intros [Hl _]. destruct vs; simpl in *; [done|lia].
      * intros [_ Hk]. exfalso. apply Hk. by left.
    + rewrite !Forall_cons, IH, elem_of_cons by done. simpl. naive_solver.
Qed.
Lemma push_nonempty {A} k (v : A) d : Forall (λ z, snd z ≠ []) d → Forall (λ z, snd z ≠ []) (push k v d).
Proof.
  induction d as [|[k' vs] d IH]; simpl; [by repeat constructor|]. intros [Hv Hd]%Forall_cons.
  case_bool_decide; constructor; simpl; auto. by destruct vs.
Qed.
Lemma zones_once {A} (zone : A → string) (hits : list A) d : Forall (λ z, snd z ≠ []) d →
  Forall (λ z, (length (snd z) ≤ 1)%nat) (fold_left (λ zones hit, push (zone hit) hit zones) hits d) ↔
  Forall (λ z, (length (snd z) ≤ 1)%nat) d ∧ NoDup (zone <$> hits) ∧ ∀ z, z ∈ zone <$> hits → z ∉ d.*1.
Proof.
  revert d. induction hits as [|hit hits IH]; intros d Hd; simpl.
  - split; [|tauto]. intros. split_and!; [done|constructor|by intros z ?%not_elem_of_nil].
  - rewrite IH by by apply push_nonempty. rewrite push_lengths by done. rewrite NoDup_cons.
    setoid_rewrite elem_of_cons. setoid_rewrite push_keys. naive_solver.
Qed.

Section scans.
Context (parse : string → option Node) (loads : string → option json).
Context (sha256 : string → string) (py_repr : json → string) (t : Tree).

(** Where a concern is implemented outside test scaffolding. *)
Definition implementations (spec : Concern) : list (string * Z) :=
  f ← _walk_python t []; if _is_test_path (_rel (fst f)) then [] else sites parse spec (_rel (fst f)) (snd f).

Lemma bind_nil {A B} (f : A → list B) l : l ≫= f = [] ↔ ∀ x, x ∈ l → f x = [].
Proof.
  induction l as [|x l IH]; simpl; [split; [by intros _ ? ?%not_elem_of_nil|done]|].
  split.
  - intros [Hx Hl]%app_eq_nil y [->|Hy]%elem_of_cons; [done|]. by apply IH.
  - intros H. rewrite (H x) by by left. apply IH. intros y Hy. apply H. by right.
Qed.

(** The duplication scan is clean exactly when no unit (the platform, a plugin or an
    application) implements one of the singleton concerns at two places. *)
Theorem one_implementation_per_zone :
  duplicate_implementation_violations parse py_repr t = [] ↔
  ∀ name spec, (name, spec) ∈ SINGLETON_CONCERNS → NoDup (_concern_zone ∘ fst <$> implementations spec).
Proof.
  assert (∀ spec, Forall (λ z, (length (snd z) ≤ 1)%nat) (hits_by_zone parse t spec) ↔
    NoDup (_concern_zone ∘ fst <$> implementations spec)) as Hz.
  { intros spec. unfold hits_by_zone. rewrite (zones_once (_concern_zone ∘ fst)) by by apply Forall_nil.
    split; [by intros (_ & ? & _)|]. intros. split_and!; [by apply Forall_nil|done|by intros z _ ?%not_elem_of_nil]. }
  assert (∀ name z hits, zone_violations py_repr name z hits = [] ↔ (length hits ≤ 1)%nat) as Hv.
  { intros name z [|h [|h' hits]]; simpl; [split; [lia|done]|split; [lia|done]|split; [done|lia]]. }
  unfold duplicate_implementation_violations. rewrite bind_nil. split.
  - intros H name spec Hc. apply Hz, Forall_forall. intros z Hin.
    specialize (H _ Hc). simpl in H. rewrite bind_nil in H. by eapply Hv, H.
  - intros H [name spec] Hc. apply bind_nil. intros z Hin. apply Hv.
    specialize (H _ _ Hc). apply Hz in H. rewrite Forall_forall in H. by apply H.
Qed.

(** ** The ratchet (G8) *)

Lemma concat_clean {A B} (f : A → result (list B)) (P : A → Prop) l ys :
  (∀ x y, f x = Ok y → y = [] ↔ P x) → Forall2 (λ x y, f x = Ok y) l ys →
  concat ys = [] ↔ ∀ x, x ∈ l → P x.
Proof.
  intros HP. induction 1 as [|x y l ys Hx _ IH]; simpl; [by split; [intros _ ? ?%not_elem_of_nil|]|].
  rewrite app_nil, (HP _ _ Hx), IH. setoid_rewrite elem_of_cons. naive_solver.
Qed.

(** The size an approval under approvals/ grants, by its document and its number. *)
Definition granted (key : string) (n : Z) : Prop :=
  is_Some (read t ["approvals"; safe_key key +:+ ".md"]) ∧
  ∃ text grants, read t ["approvals"; "ceiling.json"] = Some text ∧ loads text = Some (JObj grants) ∧
    dict_get key grants = Some (JInt n).
Definition within (key : string) (limit actual : Z) : Prop :=
  (actual ≤ limit)%Z ∨ ∃ n, granted key n ∧ (actual ≤ n)%Z.

Lemma approved_ceiling_spec key n : _approved_ceiling loads t key = Some n ↔ granted key n.
Proof.
  unfold _approved_ceiling, granted, _has_approval, is_file.
  destruct (read t ["approvals"; safe_key key +:+ ".md"]); simpl; cycle 1.
  { split; [done|]. by intros [[? ?] _]. }
  destruct (read t ["approvals"; "ceiling.json"]) as [text|]; simpl; [|split; [done|by intros [_ (? & ? & ? & _)]]].
  destruct (loads text) as [v|] eqn:El; [|split; [done|intros [_ (? & ? & [= <-] & ? & _)]; congruence]].
  split.
  - destruct v as [| | | | | |grants]; try done. destruct (dict_get key grants) as [w|] eqn:Eg; [|done].
    destruct w; try done. intros [= <-]. split; [eauto|]. by exists text, grants.
  - intros [_ (? & grants & [= <-] & ? & Hg)]. replace v with (JObj grants) by congruence. by rewrite Hg.
Qed.

Lemma over_limit key limit actual (v : Violation) vs :
  (if (limit <? actual)%Z
   then Ok (if above_approval actual (_approved_ceiling loads t key) then [v] else []) else Ok []) = Ok vs →
  vs = [] ↔ within key limit actual.
Proof.
  unfold within. destruct (Z.ltb_spec limit actual) as [Hlt|]; [|intros [= <-]; split; [by left|done]].
  pose proof (approved_ceiling_spec key) as Hs. intros [= <-].
  destruct (_approved_ceiling loads t key) as [n|]; simpl.
  - destruct (Z.ltb_spec n actual); split; try done.
    + intros [?|(m & Hm%Hs & ?)]; [lia|]. injection Hm as <-. lia.
    + intros _. right. exists n. split; [by apply Hs|lia].
  - split; [done|]. intros [?|(m & Hm%Hs & ?)]; [lia|done].
Qed.

Lemma core_budget_spec b vs : core_budget_violations loads py_repr t b = Ok vs →
  vs = [] ↔ ∀ budget, b ≠ JNull → py_int_of b = Ok budget → within "core_total_loc" budget (core_total_loc t).
Proof.
  unfold core_budget_violations. destruct (is_null b) eqn:Eb.
  { intros [= <-]. split; [|done]. intros _ ? Hb. by destruct b. }
  intros H. apply bind_Ok in H as (budget & Hb & H). apply over_limit in H. rewrite H, Hb. split.
  - by intros ? ? _ [= <-].
  - intros Hw. apply Hw; [by intros ->|done].
Qed.

Lemma file_budget_spec item vs : file_budget_violations loads py_repr t item = Ok vs →
  vs = [] ↔ ∀ ceiling text, rel_file t (fst item) = Some text → py_int_of (snd item) = Ok ceiling →
    within (fst item) ceiling (_loc text).
Proof.
  unfold file_budget_violations. destruct (rel_file t (fst item)) as [text|]; cycle 1.
  { intros [= <-]. by split. }
  intros H. apply bind_Ok in H as (ceiling & Hb & H). apply over_limit in H. rewrite H, Hb. split.
  - by intros ? ? ? [= <-] [= <-].
  - intros Hw. by apply Hw.
Qed.

(** The size ratchet is clean exactly when the kernel and every file with a recorded
    ceiling are within it, or within the number an approval grants: a written approval
    without a number grants nothing, and one with a number grants no more than that.
    *)
Theorem ratchet_holds baseline ceilings vs :
  load_baseline loads t = Ok baseline → items_of "file_loc" baseline = Ok ceilings →
  ratchet_violations loads py_repr t = Ok vs →
  vs = [] ↔
  (∀ budget, get_null "core_total_loc" baseline ≠ JNull → py_int_of (get_null "core_total_loc" baseline) = Ok budget →
     within "core_total_loc" budget (core_total_loc t)) ∧
  (∀ rel v ceiling text, (rel, v) ∈ ceilings → rel_file t rel = Some text → py_int_of v = Ok ceiling →
     within rel ceiling (_loc text)).
Proof.
  unfold ratchet_violations. intros -> Hc H. cbn [mbind result_bind] in H.
  apply bind_Ok in H as (core & Hcore & H). rewrite Hc in H. apply bind_Ok in H as (? & [= <-] & H).
  apply bind_Ok in H as (per_file & Hf & [= <-]). apply mapM_result_Ok in Hf.
  rewrite <-(core_budget_spec _ _ Hcore), app_nil, (concat_clean _ _ _ _ file_budget_spec Hf).
  split; intros [-> H]; (split; [done|]).
  - intros rel v ceiling text Hin. by apply (H (rel, v)).
  - intros [rel v] Hin ceiling text. by apply H.
Qed.

(** ** The kernel's imports (G16, G17) *)

(** A file holds an absolute import of [module], however deep in its syntax tree. *)
Definition imports (text module : string) : Prop :=
  ∃ tree n line, parse text = Some tree ∧ inside tree n ∧ (module, line) ∈ imported n.
(** A Python file below [base], outside the skipped directories. *)
Definition python_below (base path : list string) (text : string) : Prop :=
  (path, text) ∈ files t ∧ ∃ part parts, path = base ++ part :: parts ∧ endswith ".py" (name_of path) = true ∧
    ∀ p, p ∈ part :: parts → p ∉ SKIP_DIR_NAMES.

Lemma imported_modules_spec text module :
  (∃ line, (module, line) ∈ _imported_modules parse text) ↔ imports text module.
Proof.
  unfold _imported_modules, imports. destruct (parse text) as [tree|].
  - setoid_rewrite list_elem_of_bind. setoid_rewrite walk_visits. naive_solver.
  - setoid_rewrite elem_of_nil. naive_solver.
Qed.

Lemma walk_python_spec base path text : (path, text) ∈ _walk_python t base ↔ python_below base path text.
Proof.
  unfold _walk_python, python_below, below, skipped.
  rewrite list_elem_of_In, filter_In, <-list_elem_of_In, merge_sort_Permutation, list_elem_of_In, filter_In,
    <-list_elem_of_In. simpl. split.
  - intros [[Hin Hp] Hs]. split; [done|]. unfold has_prefix in Hp.
    destruct (relative_to base path) as [[|part parts]|] eqn:Er; try done. apply relative_to_Some in Er.
    exists part, parts. split_and!; [done|done|]. intros p Hp' Hskip. apply negb_true_iff in Hs.
    rewrite <-not_true_iff_false in Hs. apply Hs, existsb_exists. exists p. rewrite <-list_elem_of_In.
    split; [done|by apply bool_decide_eq_true].
  - intros (Hin & part & parts & -> & He & Hs). split; [split; [done|]|].
    + unfold has_prefix. by rewrite relative_to_app.
    + rewrite relative_to_app. apply negb_true_iff, not_true_iff_false. intros (p & Hp & Hb)%existsb_exists.
      apply bool_decide_eq_true in Hb. by apply (Hs p); [apply list_elem_of_In|].
Qed.

Lemma imports_of_spec directory target :
  target ∈ imports_of parse t directory ↔
  ∃ path text module, python_below directory path text ∧ imports text module ∧ top_of module = target.
Proof.
  unfold imports_of. rewrite list_elem_of_bind. setoid_rewrite list_elem_of_fmap. split.
  - intros ([path text] & ([module line] & -> & Hm) & Hf%walk_python_spec). exists path, text, module.
    split_and!; [done|apply imported_modules_spec; eauto|done].
  - intros (path & text & module & Hf & [line Hm]%imported_modules_spec & <-). exists (path, text).
    split; [by exists (module, line)|by apply walk_python_spec].
Qed.

(** [x] imports [y], two packages of the kernel. *)
Definition package_imports (x y : string) : Prop :=
  x ≠ y ∧ is_Some (_kernel_packages t !! y) ∧ ∃ directory path text module,
    _kernel_packages t !! x = Some directory ∧ python_below directory path text ∧ imports text module ∧ top_of module = y.

Lemma package_edges_spec x y : edge (_package_edges parse t (_kernel_packages t)) x y ↔ package_imports x y.
Proof.
  unfold edge, _package_edges, package_imports. setoid_rewrite map_lookup_imap.
  destruct (_kernel_packages t !! x) as [directory|] eqn:Ex; simpl; [|naive_solver].
  transitivity (y ∈ imports_of parse t directory ∧ y ∈ dom (_kernel_packages t) ∧ x ≠ y).
  - split.
    + intros (ys & [= <-] & Hy). rewrite elem_of_list_to_set, list_elem_of_In, filter_In, <-list_elem_of_In in Hy.
      destruct Hy as [Hy Hb]. bool_simpl. split_and!; [done|done|congruence].
    + intros (Hy & Hd & Hne). eexists. split; [done|].
      rewrite elem_of_list_to_set, list_elem_of_In, filter_In, <-list_elem_of_In. split; [done|].
      rewrite bool_decide_true, bool_decide_false by congruence. done.
  - rewrite imports_of_spec, elem_of_dom. naive_solver.
Qed.

(** C18. The cycle scan ends on every tree and is clean exactly when no kernel package
    reaches itself through imports, those inside functions included. *)
Theorem kernel_packages_acyclic :
  ∃ vs, kernel_package_cycle_violations parse t = Ok vs ∧ (vs = [] ↔ ∀ x, ¬ tc package_imports x x).
Proof.
  set (edges := _package_edges parse t (_kernel_packages t)).
  assert (∀ x y, edge edges x y ↔ package_imports x y) as He by apply package_edges_spec.
  assert (∀ x y, tc (edge edges) x y ↔ tc package_imports x y) as Htc.
  { intros x y. split; induction 1; [by apply tc_once, He|eapply tc_l; [by apply He|done]|
      by apply tc_once, He|eapply tc_l; [by apply He|done]]. }
  assert (∀ x, is_Some (edges !! x) ↔ is_Some (_kernel_packages t !! x)) as Hdom.
  { intros x. unfold edges, _package_edges. rewrite map_lookup_imap. destruct (_ !! x); simpl; naive_solver. }
  unfold kernel_package_cycle_violations. fold edges.
  destruct (cycle_search edges) as (r & Hr & Hok).
  { intros x y (_ & Hy & _)%He. by apply Hdom. }
  rewrite Hr. cbn [mbind result_bind]. destruct r as [cycle|].
  - destruct Hok as (x & l & -> & Hnd & Hl). simpl.
    assert (tc (edge edges) x x) as Hx by by eapply linked_tc.
    destruct (_kernel_packages t !! x) as [path|] eqn:Ex; simpl.
    + eexists. split; [done|]. split; [done|]. intros Hno. exfalso. by apply (Hno x), Htc.
    + apply tc_has_edges, Hdom in Hx. rewrite Ex in Hx. by destruct Hx.
  - exists []. split; [done|]. split; [|done]. intros _ x Hx. by apply (Hok x), Htc.
Qed.

(** The import scan is clean exactly when no file of the kernel, at any depth of its
    syntax tree, imports an application or plugin code. *)
Theorem kernel_is_thin :
  kernel_imports_capability_violations parse py_repr t = [] ↔
  ∀ d path text module, d ∈ KERNEL_DIRS → is_dir t [d] = true → python_below [d] path text → imports text module →
    top_of module ≠ APP_DIR ∧ startswith APP_PACKAGE_PREFIX (top_of module) = false ∧
    (PLUGIN_DIR ∉ split_on "." module) ∧ top_of module ∉ (name_of <$> _plugin_dirs t).
Proof.
  assert (∀ module, capability_import py_repr (name_of <$> _plugin_dirs t) module = None ↔
    top_of module ≠ APP_DIR ∧ startswith APP_PACKAGE_PREFIX (top_of module) = false ∧
    (PLUGIN_DIR ∉ split_on "." module) ∧ top_of module ∉ (name_of <$> _plugin_dirs t)) as Hc.
  { intros module. unfold capability_import, top_of. repeat case_bool_decide; try naive_solver.
    all: destruct (startswith _ _); simpl; naive_solver. }
  unfold kernel_imports_capability_violations, kernel_files. setoid_rewrite <-Hc. rewrite bind_nil. split.
  - intros H d path text module Hd Hdir Hf [line Hm]%imported_modules_spec.
    specialize (H (path, text)). simpl in H. rewrite bind_nil in H.
    assert ((path, text) ∈ (d ← KERNEL_DIRS; if is_dir t [d] then _walk_python t [d] else [])) as Hin.
    { apply list_elem_of_bind. exists d. split; [|done]. rewrite Hdir. by apply walk_python_spec. }
    specialize (H Hin _ Hm). simpl in H. by destruct (capability_import _ _ _).
  - intros H [path text] (d & Hf & Hd)%list_elem_of_bind. apply bind_nil. intros [module line] Hm. simpl.
    destruct (is_dir t [d]) eqn:Hdir; [|by apply not_elem_of_nil in Hf]. apply walk_python_spec in Hf.
    rewrite (H d path text module); [done|done|done|done|]. apply imported_modules_spec. by exists line.
Qed.
End scans.

(** ** A tree with a hidden cycle and one that outgrew its budget *)

Definition demo_baseline : json := JObj [("core_total_loc", JInt 2); ("file_loc", JObj [("core/a/big.py", JInt 1)])].
Definition demo_rule_loads (text : string) : option json :=
  if bool_decide (text = "baseline") then Some demo_baseline
  else if bool_decide (text = "grants") then Some (JObj [("core/a/big.py", JInt 3)]) else None.
Definition two_lines : string := "x" +:+ String "010" "y".
Definition demo_tree (approved : bool) : Tree :=
  MkTree ["repo"]
    ([(["guardrails"; "baseline.json"], "baseline"); (["core"; "a"; "big.py"], two_lines);
      (["approvals"; "core_a_big.py.md"], "why")]
     ++ if approved then [(["approvals"; "ceiling.json"], "grants")] else [])
    [["core"]].
Definition demo_repr : json → string := λ v, match v with JStr s => "'" +:+ s +:+ "'" | _ => "n" end.

(** The reason alone does not raise the ceiling. *)
Example reason_without_number :
  vi_path <$> match ratchet_violations demo_rule_loads demo_repr (demo_tree false) with Ok vs => vs | Err _ => [] end
  = ["core/a/big.py"].
Proof. by vm_compute. Qed.

Lemma ratchet_holds_witness :
  ratchet_violations demo_rule_loads demo_repr (demo_tree true) = Ok [] ∧
  within demo_rule_loads (demo_tree true) "core/a/big.py" 1 2.
Proof.
  assert (ratchet_violations demo_rule_loads demo_repr (demo_tree true) = Ok []) as H by (vm_compute; reflexivity).
  split; [exact H|].
  refine (proj2 (proj1 (ratchet_holds demo_rule_loads demo_repr (demo_tree true)
    [("core_total_loc", JInt 2); ("file_loc", JObj [("core/a/big.py", JInt 1)])] [("core/a/big.py", JInt 1)] []
    _ _ H) eq_refl) "core/a/big.py" (JInt 1) 1%Z two_lines _ _ _); try (vm_compute; reflexivity).
  left.
Defined.

(** The runtime imports the evaluator inside a function, the evaluator the runtime. *)
Definition importing (module : string) : Node :=
  MkNode Module_ 0 None []
    [MkNode (FunctionDef "f") 1 None [] [MkNode (Import [module]) 2 None [] [] []] []] [].
Definition demo_parse (text : string) : option Node :=
  if bool_decide (text = EmptyString) then None else Some (importing text).
Definition cyclic_tree : Tree :=
  MkTree ["repo"]
    [(["core"; "runtime"; "openroad_platform_runtime"; "__init__.py"], EmptyString);
     (["core"; "runtime"; "openroad_platform_runtime"; "worker.py"], "openroad_platform_evaluator.boundary");
     (["core"; "evaluator"; "openroad_platform_evaluator"; "__init__.py"], "openroad_platform_runtime")]
    [["core"]].
Example hidden_cycle :
  vi_detail <$> match kernel_package_cycle_violations demo_parse cyclic_tree with Ok vs => vs | Err _ => [] end
  = ["kernel packages import each other in a cycle: openroad_platform_evaluator -> openroad_platform_runtime -> openroad_platform_evaluator"].
Proof. by vm_compute. Qed.

(** The scan for dead code looks at the list called [body] alone: what follows a [return]
    in an [else] is missed. *)
Definition dead_else : Node :=
  MkNode Module_ 0 None []
    [MkNode (OtherNode "If") 1 None [MkNode (OtherNode "Name") 1 None [] [] []]
       [MkNode (OtherNode "Pass") 2 None [] [] []]
       [MkNode Return 4 None [] [] []; MkNode Expr 5 None [] [] []]] [].
Example dead_else_escapes :
  unreachable_code_violations (λ _, Some dead_else) (MkTree ["repo"] [(["core"; "x.py"], "source")] [["core"]]) = [].
Proof. by vm_compute. Qed.
