(* ===== verification/Plugins.v ===== *)
(** * The adapters shipped with the platform

    plugins/example/adapter.py, plugins/cadence-innovus/adapter.py and
    examples/research-toolkit/adapter.py: programs of the protocol's other side, which read
    a request and leave a result, files in the workspace and an exit status.  Running a
    command, the clock, the floating-point statistics and the spelling of paths are
    parameters. *)

From stdpp Require Import gmap.
From S2P Require Export Text Regex Sql PyValue Adapter.
Open Scope string_scope.
Open Scope list_scope.

(** The workspace by names relative to it, and whatever commands act on. *)
Record Workspace (W : Type) := MkWorkspace { ws_files : gmap string string; ws_world : W }.
Arguments MkWorkspace {W}.
Arguments ws_files {W}.
Arguments ws_world {W}.

Record Completed := MkCompleted { cp_returncode : Z; cp_stdout : string; cp_stderr : string }.

(** [json.dumps(v, indent=2)] and [json.dumps(v)] *)
Definition two_spaces : style := Style false (Some 2%nat) "," ": " true.
Definition one_line : style := Style false None ", " ": " true.

(** What [sys.exit(n)] leaves for the parent. *)
Definition exit_status (n : Z) : Z := (n mod 256)%Z.

Section adapters.
Context {W : Type} (float_repr : spec_float → string) (loads : string → option json).
(** One command: its command line and its environment. *)
Context (exec : list string → list (string * string) → Workspace W → result Completed * Workspace W).
Context (now : W → string * W).
Local Abbreviation P := (st (Workspace W)).

Definition write_text (name content : string) : P unit :=
  modify (λ w, MkWorkspace (<[name := content]> (ws_files w)) (ws_world w)).
Definition read_text (name : string) : P string := λ w,
  (of_option (OtherError "OSError") (ws_files w !! name), w).
Definition clock : P string := λ w, let '(t, x) := now (ws_world w) in (Ok t, MkWorkspace (ws_files w) x).

(** ** plugins/example/adapter.py *)

Section example.
(** [float(x)] of a text; [sum], [statistics.fmean] and [statistics.pstdev]; [str(exc)]. *)
Context (exn_text : exn → string) (float_of_text : string → option spec_float).
Context (py_sum fmean pstdev : list spec_float → result spec_float).

Definition PROGRESS_MARKER : string := "[progress]".

(** [report(stage, phase, ...)]: a line on the standard output. *)
Definition progress_line (stage phase : string) (extra : dict) : string :=
  PROGRESS_MARKER +:+ " " +:+ dumps float_repr one_line (JObj (("stage", JStr stage) :: ("phase", JStr phase) :: extra)).

(** An exception that is not in the [except] clause leaves [main]. *)
Definition to_float (v : json) : result spec_float :=
  match v with
  | JInt z =>
      match float_of_Z z with S754_infinity _ => Err (OtherError "OverflowError") | f => Ok f end
  | JBool b => Ok (float_of_Z (if b then 1 else 0))
  | JFloat f => Ok f
  | JStr s => of_option (ValueError "float") (float_of_text s)
  | _ => Err (TypeError "float")
  end.
Definition is_numeric_error (e : exn) : bool :=
  match e with TypeError _ => true | _ => is_value_error e end.

(** [min] and [max]: the first of those that nothing is less, or greater, than. *)
Definition least (f : spec_float) (l : list spec_float) : spec_float :=
  fold_left (λ m x, if real_ltb (real_of_float x) (real_of_float m) then x else m) l f.
Definition greatest (f : spec_float) (l : list spec_float) : spec_float :=
  fold_left (λ m x, if real_ltb (real_of_float m) (real_of_float x) then x else m) l f.

Definition finished (status : string) : dict := [("status", JStr status); ("seconds", JFloat (float_of_Z 0))].

Definition example_result (result_name started : string) (payload : dict) : P unit :=
  ended ← clock;
  write_text result_name (dumps float_repr two_spaces
    (JObj ([("schema_version", JInt SCHEMA_VERSION); ("started_at", JStr started); ("ended_at", JStr ended)] ++ payload))).

Definition invalid_input (message : string) : dict :=
  [("status", JStr "failed"); ("exit_code", JInt 2);
   ("failure", JObj [("category", JStr "invalid_input"); ("message", JStr message); ("retryable", JBool false)])].

Definition example_metric (name : string) (value : json) : json :=
  JObj [("name", JStr name); ("value", value);
        ("context", JObj [("source_artifact_store_key", JStr "summary.json"); ("parser_id", JStr "example-reporter");
                          ("parser_version", JStr "1.0.0")])].
Definition artifact (kind path : string) : json := JObj [("kind", JStr kind); ("path", JStr path)].

Definition example_summary (f : spec_float) (values : list spec_float) : result dict :=
  total ← py_sum (f :: values);
  mean ← fmean (f :: values);
  stdev ← (match values with [] => Ok (float_of_Z 0) | _ => pstdev (f :: values) end);
  Ok [("count", JInt (Z.of_nat (S (length values)))); ("total", JFloat total); ("mean", JFloat mean);
      ("minimum", JFloat (least f values)); ("maximum", JFloat (greatest f values)); ("stdev", JFloat stdev)].

(** The records of a request: [request["task"].get("inputs", {}).get("records")]. *)
Definition records_of (request : json) : result json :=
  task ← py_index "task" request;
  task ← as_object task;
  inputs ← as_object (default (JObj []) (dict_get "inputs" task));
  Ok (get_null "records" inputs).

(** [main]: the exit code and the progress lines. *)
Definition example_main (request : json) (result_name : string) : P (Z * list string) :=
  started ← clock;
  records ← lift (records_of request);
  let begun := progress_line "validate" "started" [] in
  let refuse message :=
    example_result result_name started (invalid_input message);;
    mret (2%Z, [begun; progress_line "validate" "finished" (finished "failed")]) in
  match records with
  | JList (r :: rs) =>
      match (f ← to_float r; values ← mapM_result to_float rs; Ok (f, values)) with
      | Ok (f, values) =>
          summary ← lift (example_summary f values);
          write_text "summary.json" (dumps float_repr two_spaces (JObj summary));;
          write_text "run.log" ("summarized " +:+ pretty.pretty (S (length values)) +:+ " records" +:+ String "010" EmptyString);;
          example_result result_name started
            [("status", JStr "succeeded"); ("exit_code", JInt 0);
             ("artifacts", JList [artifact "summary" "summary.json"; artifact "log" "run.log"]);
             ("metrics", JList [example_metric "record_count" (get_null "count" summary);
                                example_metric "mean" (get_null "mean" summary)])];;
          mret (0%Z, [begun; progress_line "validate" "finished" (finished "succeeded");
                      progress_line "summarize" "started" []; progress_line "summarize" "finished" (finished "succeeded")])
      | Err e => if is_numeric_error e then refuse ("records must be numeric: " +:+ exn_text e) else lift (Err e)
      end
  | _ => refuse "inputs.records must be a non-empty list"
  end.
End example.

(** ** plugins/cadence-innovus/adapter.py *)

Section innovus.
(** [str(Path(p).expanduser())], the workspace and resolution in it, the environment, the
    directories called oa_v* beside the tool and one directory up, and [str(exc)]. *)
Context (exn_text : exn → string).
Context (path_text : string → string) (workspace : list string).
Context (path_of : list string → string → list string).
Context (environ : list (string * string)) (oa_beside oa_above : string → list string).

Definition version_pattern : re :=
  seqs [word_boundary; alts [lit "Innovus"; lit "INNOVUS"]; Lazy (Chr (λ c, negb (bool_decide (c = "010"%char))));
        word_boundary; Alt (lit "v") Nothing].
Definition version_number : re :=
  seqs [plus_re (Chr is_digit); lit "."; plus_re (Chr is_digit); Star (Chr (λ c, negb (is_space c)))].
Definition VERSION : string := "Version:".

Definition after_version (line : string) : option string :=
  (λ i, strip (str_drop (i + String.length VERSION) line)) <$> String.index 0 VERSION line.
Definition _version (output : string) : string :=
  match omap after_version (splitlines output) with
  | v :: _ => v
  | [] => default "unparsed" (head (find_all_groups version_pattern version_number Nothing output))
  end.

Fixpoint env_set (k v : string) (env : list (string * string)) : list (string * string) :=
  match env with
  | [] => [(k, v)]
  | (k', w) :: env' => if bool_decide (k = k') then (k, v) :: env' else (k', w) :: env_set k v env'
  end.

Definition env_values (v : json) : result (list (string * string)) :=
  match v with
  | JObj d => mapM_result (λ kv, match snd kv with
                                 | JStr v => Ok (fst kv, v)
                                 | _ => Err (ValueError "inputs.tool_env must be a string mapping")
                                 end) d
  | _ => Err (ValueError "inputs.tool_env must be a string mapping")
  end.

Definition _tool_environment (tool_path : string) (inputs : dict) : result (list (string * string)) :=
  values ← env_values (default (JObj []) (dict_get "tool_env" inputs));
  let environment := fold_left (λ env kv, env_set (fst kv) (snd kv) env) values environ in
  Ok (if bool_decide ("OA_HOME" ∈ fst <$> environment) then environment
      else match last (oa_beside tool_path), last (oa_above tool_path) with
           | Some d, _ | None, Some d => env_set "OA_HOME" d environment
           | None, None => environment
           end).

Definition module_script : string :=
  "source /etc/profile.d/modules.sh 2>/dev/null || true; module load " +:+ String "034" "$1" +:+ String "034"
  "; shift; exec " +:+ String "034" "$@" +:+ String "034" EmptyString.
Definition _command (module : option string) (tool_path : string) (args : list string) : list string :=
  match module with
  | None | Some EmptyString => tool_path :: args
  | Some module => ["/bin/bash"; "-lc"; module_script; "innovus-toolkit"; module; tool_path] ++ args
  end.

Definition _classify (returncode : Z) : json :=
  JObj [("category", JStr (if (returncode =? 127)%Z then "tool_launch" else "tool_error"));
        ("message", JStr ("Innovus exited with status " +:+ pretty.pretty returncode)); ("retryable", JBool false)].

Definition _write_result (result_name started status : string) (exit_code : Z) (artifacts metrics : list json)
    (failure : option json) (provenance : dict) : P unit :=
  ended ← clock;
  write_text result_name (dumps float_repr two_spaces (JObj (
    [("schema_version", JInt SCHEMA_VERSION); ("status", JStr status); ("exit_code", JInt exit_code);
     ("started_at", JStr started); ("ended_at", JStr ended); ("artifacts", JList artifacts);
     ("metrics", JList metrics); ("provenance", JObj provenance)]
    ++ match failure with Some f => [("failure", f)] | None => [] end))).

(** What the request asks for: the capability, the tool, the module, the environment and
    the arguments. *)
Record Launch := MkLaunch {
  la_capability : string; la_tool : string; la_module : option string;
  la_environment : list (string * string); la_args : list string; la_inputs : dict }.

Definition launch_of (request : json) (w : Workspace W) : result Launch :=
  task ← py_index "task" request;
  task ← as_object task;
  inputs ← as_object (default (JObj []) (dict_get "inputs" task));
  capability ← (match get_null "capability" inputs with
                | JStr c => if bool_decide (c ∈ ["preflight"; "script"]) then Ok c
                            else Err (ValueError "inputs.capability must be preflight or script")
                | JList _ | JObj _ => Err (TypeError "unhashable")
                | _ => Err (ValueError "inputs.capability must be preflight or script")
                end);
  tool ← (match default (JStr "innovus") (dict_get "tool_path" inputs) with
          | JStr p => Ok (path_text p)
          | _ => Err (TypeError "Path")
          end);
  module ← (match default (JStr "cadence") (dict_get "module" inputs) with
            | JStr m => Ok (Some m)
            | JNull => Ok None
            | _ => Err (ValueError "inputs.module must be a string or null")
            end);
  environment ← _tool_environment tool inputs;
  if bool_decide (capability = "preflight") then Ok (MkLaunch capability tool module environment ["-version"] inputs)
  else
    script ← (match get_null "script_path" inputs with
              | JStr (String _ _ as s) => Ok s
              | _ => Err (ValueError "script capability requires inputs.script_path")
              end);
    below ← of_option (ValueError "relative_to") (relative_to workspace (path_of workspace script));
    raise_when (negb (bool_decide (is_Some (ws_files w !! str_join "/" below)))) (ValueError "script does not exist");;
    Ok (MkLaunch capability tool module environment
          ["-batch"; "-files"; "/" +:+ str_join "/" (path_of workspace script)] inputs).

Definition toolchain_of (l : Launch) (version : string) : dict :=
  [("toolkit_id", JStr "cadence-innovus"); ("tool", JStr "innovus"); ("resolved_executable", JStr (la_tool l));
   ("version", JStr version); ("version_output", JStr (version +:+ String "010" EmptyString));
   ("module", match la_module l with Some m => JStr m | None => JNull end);
   ("environment_keys", JList (JStr <$> List.filter (λ k, bool_decide (k ∈ fst <$> la_environment l)) ["OA_HOME"; "PATH"]))].

Definition version_metric (version : string) : json :=
  JObj [("name", JStr "tool_version"); ("value", JStr version);
        ("context", JObj [("source_artifact_store_key", JStr "toolchain.json"); ("parser_id", JStr "cadence-innovus");
                          ("parser_version", JStr "1.0.0")])].

(** The body of the [try]. *)
Definition innovus_run (request : json) (result_name started : string) : P Z := λ w,
  (l ← lift (launch_of request w);
   completed ← exec (_command (la_module l) (la_tool l) (la_args l)) (la_environment l);
   let output := cp_stdout completed +:+ cp_stderr completed in
   write_text "tool.log" output;;
   let version := _version output in
   write_text "toolchain.json" (dumps float_repr two_spaces (JObj (toolchain_of l version)));;
   (if bool_decide (la_capability l = "script") then
      write_text "script_receipt.json" (dumps float_repr two_spaces (JObj
        [("capability", JStr (la_capability l)); ("script_path", get_null "script_path" (la_inputs l));
         ("returncode", JInt (cp_returncode completed))]))
    else mret tt);;
   let artifacts :=
     [artifact "toolchain" "toolchain.json"; artifact "tool_log" "tool.log"]
     ++ (if bool_decide (la_capability l = "script") then [artifact "script_receipt" "script_receipt.json"] else []) in
   let code := cp_returncode completed in
   (if (code =? 0)%Z then
      _write_result result_name started "succeeded" 0 artifacts [version_metric version] None (toolchain_of l version)
    else
      _write_result result_name started "failed" code artifacts [version_metric version] (Some (_classify code))
        (toolchain_of l version));;
   mret code) w.

(** [except (OSError, KeyError, TypeError, ValueError, json.JSONDecodeError)] *)
Definition is_configuration_error (e : exn) : bool :=
  match e with
  | KeyError _ | TypeError _ => true
  | OtherError what => bool_decide (what = "OSError")
  | _ => is_value_error e
  end.

Definition innovus_main (request : result json) (result_name : string) : P Z :=
  started ← clock;
  catch (request ← lift request; innovus_run request result_name started) is_configuration_error
    (λ e, _write_result result_name started "failed" 2 [] []
            (Some (JObj [("category", JStr "configuration_error"); ("message", JStr (exn_text e));
                         ("retryable", JBool false)]))
            [("toolkit_id", JStr "cadence-innovus")];;
          mret 2%Z).
End innovus.

(** ** examples/research-toolkit/adapter.py *)

Section research.
(** [sys.executable], and [str(v)] of a value; a command of this adapter inherits the
    environment. *)
Context (executable : string) (text_of : json → string).

Definition research_metric (value : json) : json :=
  JObj [("name", JStr "result_value"); ("value", value); ("unit", JStr "score");
        ("context", JObj [("source_artifact_store_key", JStr "report.json"); ("parser_id", JStr "research-example");
                          ("parser_version", JStr "1")])].

Definition load_text (content : string) : result json := of_option (ValueError "JSONDecodeError") (loads content).

Definition write_result (result_name status : string) (exit_code : Z) (failure : option json) : P unit :=
  started ← clock;
  ended ← clock;
  let succeeded := bool_decide (status = "succeeded") in
  metrics ← (if succeeded then
               report ← read_text "report.json";
               report ← lift (load_text report);
               value ← lift (py_index "value" report);
               mret [("metrics", JList [research_metric value])]
             else mret []);
  write_text result_name (dumps float_repr one_line (JObj (
    [("schema_version", JInt SCHEMA_VERSION); ("status", JStr status); ("exit_code", JInt exit_code);
     ("started_at", JStr started); ("ended_at", JStr ended);
     ("artifacts", JList (if succeeded then [artifact "report" "report.json"] else []))]
    ++ metrics ++ match failure with Some f => [("failure", f)] | None => [] end))).

Definition research_failure (category message : string) : json :=
  JObj [("category", JStr category); ("message", JStr message)].
Definition failed_with (result_name category : string) (c : Completed) : P Z :=
  write_result result_name "failed" (cp_returncode c) (Some (research_failure category (cp_stderr c)));;
  mret (cp_returncode c).

(** An argument of a command that is no text raises [TypeError]. *)
Definition command_arg (v : json) : result string :=
  match v with JStr s => Ok s | _ => Err (TypeError "expected str") end.
Definition run_command (command : list json) : P Completed :=
  command ← lift (mapM_result command_arg command);
  exec command [].

(** [int(completed.stdout.strip())] *)
Definition printed_int (c : Completed) : result Z := of_option (ValueError "int") (py_int (strip (cp_stdout c))).

Definition run_script (task inputs : json) (result_name : string) : P Z :=
  write_text "task.json" (dumps float_repr one_line task);;
  script ← lift (py_index "script_path" inputs);
  completed ← run_command [JStr executable; script];
  write_text "adapter-output.log" (cp_stdout completed +:+ cp_stderr completed);;
  if negb (cp_returncode completed =? 0)%Z then failed_with result_name "script_error" completed
  else write_result result_name "succeeded" 0 None;; mret 0%Z.

Definition patch_benchmark (inputs : json) (result_name : string) : P Z :=
  source ← lift (py_index "source_path" inputs);
  patch_tool ← lift (py_index "patch_tool" inputs);
  compiler ← lift (py_index "compiler" inputs);
  baseline ← run_command [compiler; source; JStr "-o"; JStr "baseline"];
  if negb (cp_returncode baseline =? 0)%Z then failed_with result_name "build_error" baseline else
  baseline_run ← run_command [JStr "./baseline"];
  patch ← lift (py_index "patch_path" inputs);
  applied ← run_command [patch_tool; JStr "-p0"; JStr "-i"; patch];
  if negb (cp_returncode applied =? 0)%Z then failed_with result_name "patch_error" applied else
  built ← run_command [compiler; source; JStr "-o"; JStr "candidate"];
  if negb (cp_returncode built =? 0)%Z then failed_with result_name "build_error" built else
  candidate_run ← run_command [JStr "./candidate"];
  if negb (cp_returncode candidate_run =? 0)%Z then failed_with result_name "benchmark_error" candidate_run else
  before ← lift (printed_int baseline_run);
  value ← lift (printed_int candidate_run);
  write_text "report.json" (dumps float_repr one_line (JObj [("baseline", JInt before); ("value", JInt value)]));;
  write_result result_name "succeeded" 0 None;;
  mret 0%Z.

Definition research_main (request : json) (result_name : string) : P Z :=
  task ← lift (py_index "task" request);
  inputs ← lift (py_index "inputs" task);
  capability ← lift (py_index "capability" inputs);
  if py_eqb capability (JStr "script") then run_script task inputs result_name
  else if py_eqb capability (JStr "patch_benchmark") then patch_benchmark inputs result_name
  else write_result result_name "failed" 2 (Some (research_failure "configuration_error"
         ("unsupported capability: " +:+ text_of capability)));;
       mret 2%Z.
End research.
End adapters.
