(* ===== verification/PluginProps.v ===== *)
(** * What the shipped adapters answer is what the platform accepts *)

From stdpp Require Import gmap.
From S2P Require Import Plugins Runtime.
Open Scope string_scope.
Open Scope list_scope.

(** A value the platform's store takes as a metric. *)
Definition storable (v : json) : bool := is_scalar v && negb (is_nan v).

(** A metric read from [path]: where that file is registered the platform attaches the
    metric to its artifact, and takes it exactly when its value is storable. *)
Definition read_from (path : string) (metric : json) : Prop :=
  ∃ d, metric = JObj d ∧ ∀ keys id, IDENTIFIER id = true →
    snd <$> List.find (λ kv, bool_decide (JStr (fst kv) = JStr path)) (rev keys) = Some id →
    ∃ m, attach_metric keys d = Ok m ∧ m_source_artifact_id m = JStr id ∧ m_value m = get_null "value" d ∧
      (Metric_validate m = Ok tt ↔ storable (m_value m) = true).

(** The fields of a metric, once the artifact it cites is registered under [id]. *)
Definition attached (d ctx : dict) (id : string) : dict :=
  dict_del "source_artifact_store_key"
    (dict_set "context" (JObj (dict_del "parser_version" (dict_del "parser_id"
                                 (dict_del "source_artifact_store_key" ctx))))
      (dict_set "parser_version" (get_null "parser_version" (dict_del "source_artifact_store_key" ctx))
        (dict_set "parser_id" (get_null "parser_id" (dict_del "source_artifact_store_key" ctx))
          (dict_set "source_artifact_id" (JStr id) d)))).

Lemma read_from_intro path d ctx :
  py_dict (TypeError "context") (get_or_empty "context" d) = Ok ctx →
  get_null "source_artifact_store_key" ctx = JStr path →
  (∀ id, IDENTIFIER id = true → ∃ m, Metric_new (attached d ctx id) = Ok m ∧
     m_source_artifact_id m = JStr id ∧ m_value m = get_null "value" d ∧
     (Metric_validate m = Ok tt ↔ storable (m_value m) = true)) →
  read_from path (JObj d).
Proof.
  intros Hc Hp H. exists d. split; [done|]. intros keys id Hid Hf. destruct (H id Hid) as (m & Hm & Hrest).
  exists m. split; [|done]. unfold attach_metric. rewrite Hc. cbn [mbind result_bind]. rewrite Hp.
  cbn [is_null hashable negb raise_when mbind result_bind]. rewrite Hf. exact Hm.
Qed.

Lemma metric_taken m name v id parser version :
  m_name m = JStr name → IDENTIFIER name = true → m_value m = v →
  m_source_artifact_id m = JStr id → IDENTIFIER id = true →
  validate_identifier "unit" (m_unit m) false = Ok tt →
  m_parser_id m = JStr parser → IDENTIFIER parser = true →
  m_parser_version m = JStr version → IDENTIFIER version = true → m_context m = JObj [] →
  Metric_validate m = Ok tt ↔ storable (m_value m) = true.
Proof.
  intros Hn Hn' Hv Hi Hi' Hu Hp Hp' Hpv Hpv' Hc. unfold Metric_validate, storable.
  rewrite Hn, Hi, Hp, Hpv, Hc. cbn [validate_identifier]. rewrite Hn', Hi', Hp', Hpv'. cbn [negb raise_when mbind result_bind].
  assert ((if is_null (m_unit m) then Ok tt else validate_identifier "unit" (m_unit m) true) = Ok tt) as ->.
  { by destruct (m_unit m). }
  destruct (is_scalar (m_value m)), (is_nan (m_value m)); cbn; done.
Qed.

Ltac read_metric :=
  eapply read_from_intro; [reflexivity|reflexivity|]; intros id Hid; eexists; split; [reflexivity|];
  split; [reflexivity|]; split; [reflexivity|]; by eapply metric_taken.

Lemma example_read name v : IDENTIFIER name = true → read_from "summary.json" (example_metric name v).
Proof. intros Hn. read_metric. Qed.
Lemma research_read v : read_from "report.json" (research_metric v).
Proof. read_metric. Qed.
Lemma version_read v : read_from "toolchain.json" (version_metric v).
Proof. read_metric. Qed.

Definition status_for (code : Z) : RuntimeStatus := if (code =? 0)%Z then SUCCEEDED else FAILED.

(** A result a program that exits with [code] may leave: the platform reads it, it claims
    that code, every artifact it declares is there, and every metric is read from one of them. *)
Record conforms (files : gmap string string) (doc : json) (code : Z) (r : PluginResult) : Prop := {
  cf_read : PluginResult_from_dict doc = Ok r;
  cf_code : pr_exit_code r = JInt code;
  cf_status : pr_status r = status_for code;
  cf_artifacts : ∀ a, a ∈ pr_artifacts r → ∃ kind path, a = artifact kind path ∧ is_Some (files !! path);
  cf_metrics : ∀ m, m ∈ pr_metrics r → ∃ kind path, read_from path m ∧ artifact kind path ∈ pr_artifacts r }.

Definition status_text (code : Z) : string := if (code =? 0)%Z then "succeeded" else "failed".

Lemma result_read d code started ended arts metrics :
  dict_get "status" d = Some (JStr (status_text code)) → dict_get "exit_code" d = Some (JInt code) →
  dict_get "started_at" d = Some (JStr started) → dict_get "ended_at" d = Some (JStr ended) →
  started ≠ EmptyString → ended ≠ EmptyString →
  tuple_field "artifacts" d = Ok ((λ a, artifact (fst a) (snd a)) <$> arts) → tuple_field "metrics" d = Ok metrics →
  (field "failure" JNull d = JNull ∨ ∃ f, field "failure" JNull d = JObj f) →
  (∃ p, field "provenance" (JObj []) d = JObj p) → dict_get "schema_version" d = Some (JInt SCHEMA_VERSION) →
  forallb (λ k, bool_decide (k ∈ dc_names PluginResult_class)) (dict_keys d) = true →
  ∃ r, PluginResult_from_dict (JObj d) = Ok r ∧ pr_exit_code r = JInt code ∧ pr_status r = status_for code ∧
    pr_artifacts r = ((λ a, artifact (fst a) (snd a)) <$> arts) ∧ pr_metrics r = metrics.
Proof.
  intros Hs Hc Hst Hen Hst' Hen' Ha Hm Hf [p Hp] Hv Hk. unfold PluginResult_from_dict, known_payload.
  unfold dict_has. rewrite Hv. cbn [negb]. rewrite Hk. cbn [mbind result_bind]. rewrite Hs.
  assert (of_option (ContractError "status") (runtime_status_of (JStr (status_text code))) = Ok (status_for code)) as Hst2.
  { unfold status_text, status_for. by destruct (code =? 0)%Z. }
  cbn [mbind option_bind]. rewrite Hst2. cbn [mbind result_bind]. rewrite Hm, Ha. cbn [mbind result_bind].
  assert (forallb (λ k, dict_has k d) (dc_required PluginResult_class) = true) as Hreq.
  { cbn. unfold dict_has. by rewrite Hs, Hc, Hst, Hen. }
  unfold instantiate. rewrite Hk, Hreq. cbn [andb mbind result_bind].
  set (r := MkPluginResult _ _ _ _ _ _ _ _ _).
  assert (PluginResult_validate r = Ok tt) as Hval; [|rewrite Hval; exists r; unfold r, field; rewrite Hc; done].
  unfold PluginResult_validate, r. cbn [pr_schema_version pr_status pr_exit_code pr_started_at pr_ended_at
    pr_failure pr_provenance pr_artifacts]. unfold field in *. rewrite Hv, Hc, Hst, Hen, Hp. cbn [from_option id].
  assert (∀ s, s ≠ EmptyString → truthy (JStr s) = true) as Ht by by intros [].
  rewrite !Ht by done.
  assert (iterM_result (λ a, validate_mapping "artifact" a;;
    raise_when (negb (is_str (obj_get_null "kind" a)) || negb (is_str (obj_get_null "path" a)))
      (ContractError "artifact kind and path")) ((λ a, artifact (fst a) (snd a)) <$> arts) = Ok tt) as Hiter.
  { clear. unfold iterM_result. induction arts as [|a arts IH]; simpl; [done|]. revert IH.
    by destruct (mapM_result _ _). }
  unfold status_for. destruct (Z.eqb_spec code 0) as [->|]; destruct Hf as [->|[f ->]]; cbn; exact Hiter.
Qed.

Lemma conforms_from files d code started ended arts metrics :
  dict_get "status" d = Some (JStr (status_text code)) → dict_get "exit_code" d = Some (JInt code) →
  dict_get "started_at" d = Some (JStr started) → dict_get "ended_at" d = Some (JStr ended) →
  started ≠ EmptyString → ended ≠ EmptyString →
  tuple_field "artifacts" d = Ok ((λ a, artifact (fst a) (snd a)) <$> arts) → tuple_field "metrics" d = Ok metrics →
  (field "failure" JNull d = JNull ∨ ∃ f, field "failure" JNull d = JObj f) →
  (∃ p, field "provenance" (JObj []) d = JObj p) → dict_get "schema_version" d = Some (JInt SCHEMA_VERSION) →
  forallb (λ k, bool_decide (k ∈ dc_names PluginResult_class)) (dict_keys d) = true →
  (∀ a, a ∈ arts → is_Some (files !! snd a)) →
  (∀ m, m ∈ metrics → ∃ a, a ∈ arts ∧ read_from (snd a) m) →
  ∃ r, conforms files (JObj d) code r.
Proof.
  intros Hs Hc Hst Hen Hst' Hen' Ha Hm Hf Hp Hv Hk Hex Hcite.
  destruct (result_read d code started ended arts metrics Hs Hc Hst Hen Hst' Hen' Ha Hm Hf Hp Hv Hk)
    as (r & Hr & Hrc & Hrs & Hra & Hrm). exists r. split; try done.
  - rewrite Hra. intros a ([k p] & -> & Hin)%list_elem_of_fmap. exists k, p. split; [done|]. by apply (Hex (k, p)).
  - rewrite Hrm, Hra. intros m Hin. destruct (Hcite m Hin) as ([k p] & Hkp & Hread). exists k, p. split; [done|].
    apply list_elem_of_fmap. by exists (k, p).
Qed.

(** What the platform makes of an answer, whose exit status is all it sees of the code. *)
Definition undisturbed (outcome : ProcessOutcome) : Prop :=
  po_cancelled outcome = false ∧ po_timed_out outcome = false ∧ po_exceeded outcome = None.

Lemma conforms_loaded files doc code r loads content outcome t1 t2 :
  conforms files doc code r → loads content = Some doc → undisturbed outcome →
  po_returncode outcome = exit_status code →
  _load_result loads (Some content) outcome t1 t2 =
    if bool_decide (exit_status code = code) then Ok r
    else Err (AdapterProtocolError "exit_code does not match the process").
Proof.
  intros [Hr Hc Hs _ _] Hl (Hx & Hy & Hz) Ho. unfold _load_result, read_result. rewrite Hx, Hy, Hz, Ho. cbn.
  rewrite Hl. cbn. rewrite Hr. cbn. rewrite Hs, Hc. unfold status_for. cbn [as_int].
  destruct (Z.eqb_spec code 0) as [->|Hne]; [done|].
  rewrite andb_false_r. cbn. destruct (decide (exit_status code = code)) as [He|He].
  - rewrite He, !bool_decide_true by done. done.
  - rewrite !bool_decide_false by congruence. done.
Qed.

Section adapters.
Context {W : Type} (float_repr : spec_float → string) (loads : string → option json).
Context (exec : list string → list (string * string) → Workspace W → result Completed * Workspace W).
Context (now : W → string * W).
Context (now_text : ∀ x, fst (now x) ≠ EmptyString).

(** The program left a result of its own making that conforms to the protocol; on a run the
    platform neither cancelled nor stopped, reading it returns it exactly when the code
    survives as an exit status. *)
Definition answered (format : style) (result_name : string) (code : Z) (w : Workspace W) : Prop :=
  ∃ doc r content, content = dumps float_repr format doc ∧ ws_files w !! result_name = Some content ∧
    conforms (ws_files w) doc code r ∧
    ∀ read outcome t1 t2, read content = Some doc → undisturbed outcome → po_returncode outcome = exit_status code →
      _load_result read (Some content) outcome t1 t2 =
        if bool_decide (exit_status code = code) then Ok r
        else Err (AdapterProtocolError "exit_code does not match the process").

Lemma answered_by format result_name code d w files r :
  ws_files w = <[result_name := dumps float_repr format (JObj d)]> files → conforms (ws_files w) (JObj d) code r →
  answered format result_name code w.
Proof.
  intros Hf Hc. exists (JObj d), r, (dumps float_repr format (JObj d)). split_and!; [done| |done|].
  - by rewrite Hf, lookup_insert_eq.
  - intros. by apply (conforms_loaded (ws_files w) (JObj d)).
Qed.

Lemma clock_Ok w t w' : clock now w = (Ok t, w') → ws_files w' = ws_files w ∧ t ≠ EmptyString.
Proof.
  unfold clock. intros H. pose proof (now_text (ws_world w)) as Ht. destruct (now (ws_world w)) as [t' x].
  injection H as <- <-. done.
Qed.

(** ** The Innovus adapter *)

Lemma innovus_written result_name started status code arts metrics failure provenance w w' :
  started ≠ EmptyString → status = status_text code → (∀ f, failure = Some f → ∃ d, f = JObj d) →
  (∀ a, a ∈ arts → is_Some (ws_files w !! snd a)) →
  (∀ m, m ∈ metrics → ∃ a, a ∈ arts ∧ read_from (snd a) m) →
  _write_result float_repr now result_name started status code ((λ a, artifact (fst a) (snd a)) <$> arts) metrics
    failure provenance w = (Ok tt, w') →
  answered two_spaces result_name code w'.
Proof.
  intros Hst -> Hf Hex Hcite H. unfold _write_result in H.
  apply bind_st_Ok in H as (ended & w1 & Hclock & H). apply clock_Ok in Hclock as [Hfiles Hend].
  apply modify_Ok in H as ->.
  match goal with |- context [dumps _ _ (JObj ?d)] => set (written := d) end.
  destruct (conforms_from (<[result_name := dumps float_repr two_spaces (JObj written)]> (ws_files w1)) written code
    started ended arts metrics) as [r Hr]; [..|by eapply answered_by]; try done.
  - destruct failure as [f|]; [right; apply (Hf f eq_refl)|by left].
  - by exists provenance.
  - by destruct failure.
  - intros a Ha%Hex. rewrite Hfiles. destruct (decide (result_name = snd a)) as [->|Hne];
      [rewrite lookup_insert_eq; eauto|by rewrite lookup_insert_ne].
Qed.

Lemma innovus_run_answered path_text workspace path_of environ beside above request result_name started w code w' :
  started ≠ EmptyString →
  innovus_run float_repr exec now path_text workspace path_of environ beside above request result_name started w
    = (Ok code, w') → answered two_spaces result_name code w'.
Proof.
  intros Hst H. unfold innovus_run in H.
  apply bind_st_Ok in H as (l & w1 & Hl & H). apply lift_Ok in Hl as [_ ->].
  apply bind_st_Ok in H as (completed & w2 & _ & H).
  apply bind_st_Ok in H as (u1 & w3 & Hw3 & H). apply modify_Ok in Hw3 as ->.
  apply bind_st_Ok in H as (u2 & w4 & Hw4 & H). apply modify_Ok in Hw4 as ->. cbn [ws_files ws_world] in H.
  apply bind_st_Ok in H as (u3 & w5 & Hw5 & H).
  apply bind_st_Ok in H as ([] & w6 & Hw6 & H). apply mret_st_Ok in H as [-> ->].
  set (arts := [("toolchain", "toolchain.json"); ("tool_log", "tool.log")]
    ++ (if bool_decide (la_capability l = "script") then [("script_receipt", "script_receipt.json")] else [])).
  assert ([artifact "toolchain" "toolchain.json"; artifact "tool_log" "tool.log"]
    ++ (if bool_decide (la_capability l = "script") then [artifact "script_receipt" "script_receipt.json"] else [])
    = ((λ a, artifact (fst a) (snd a)) <$> arts)) as Harts by (unfold arts; by case_bool_decide).
  rewrite Harts in Hw6.
  assert (∀ a, a ∈ arts → is_Some (ws_files w5 !! snd a)) as Hex.
  { unfold arts. case_bool_decide.
    - apply modify_Ok in Hw5 as ->. cbn [ws_files]. apply Forall_forall. repeat constructor; simpl.
      + rewrite lookup_insert_ne, lookup_insert_eq by done. eauto.
      + rewrite !lookup_insert_ne, lookup_insert_eq by done. eauto.
      + rewrite lookup_insert_eq. eauto.
    - apply mret_st_Ok in Hw5 as [_ ->]. cbn [ws_files]. apply Forall_forall. repeat constructor; simpl.
      + rewrite lookup_insert_eq. eauto.
      + rewrite lookup_insert_ne, lookup_insert_eq by done. eauto. }
  assert (∀ m, m ∈ [version_metric (_version (cp_stdout completed +:+ cp_stderr completed))] →
    ∃ a, a ∈ arts ∧ read_from (snd a) m) as Hcite.
  { intros m ->%list_elem_of_singleton. exists ("toolchain", "toolchain.json"). split; [by left|apply version_read]. }
  assert (status_text (cp_returncode completed) = if (cp_returncode completed =? 0)%Z then "succeeded" else "failed") as Hs
    by done.
  destruct (Z.eqb_spec (cp_returncode completed) 0) as [Hz|Hz].
  - rewrite Hz in *. by eapply innovus_written in Hw6.
  - eapply innovus_written in Hw6; try done. intros f [= <-]. by eexists.
Qed.

Lemma innovus_answered exn_text path_text workspace path_of environ beside above request result_name w code w' :
  innovus_main float_repr exec now exn_text path_text workspace path_of environ beside above request result_name w
    = (Ok code, w') → answered two_spaces result_name code w'.
Proof.
  unfold innovus_main. intros H. apply bind_st_Ok in H as (started & w1 & Hclock & H).
  apply clock_Ok in Hclock as [_ Hst]. unfold catch in H.
  match type of H with match ?c with _ => _ end = _ => destruct c as [[c'|e] w2] eqn:E end.
  - injection H as <- <-. apply bind_st_Ok in E as (v & w3 & Hv & E). apply lift_Ok in Hv as [_ ->].
    by eapply innovus_run_answered.
  - destruct (is_configuration_error e); [|done]. apply bind_st_Ok in H as ([] & w3 & Hw & H).
    apply mret_st_Ok in H as [-> ->]. by eapply (innovus_written _ _ _ _ []) in Hw; try done;
      [intros f [= <-]; by eexists|intros a ?%not_elem_of_nil|intros m ?%not_elem_of_nil].
Qed.

(** The task of a request and its inputs are objects: what the platform writes. *)
Definition well_formed (request : result json) : Prop :=
  match request with
  | Ok r => ∃ d task, r = JObj d ∧ dict_get "task" d = Some (JObj task) ∧
      match dict_get "inputs" task with Some v => ∃ inputs, v = JObj inputs | None => True end
  | Err e => is_configuration_error e = true
  end.

Lemma mapM_result_Err {A B} (f : A → result B) (P : exn → Prop) l e :
  (∀ x e, f x = Err e → P e) → mapM_result f l = Err e → P e.
Proof.
  intros Hf. induction l as [|x l IH]; cbn; [done|]. destruct (f x) eqn:Hx.
  - destruct (mapM_result f l); [done|]. intros [= <-]. by apply IH.
  - intros [= <-]. by eapply Hf.
Qed.

Lemma env_values_Err v e : env_values v = Err e → is_configuration_error e = true.
Proof.
  unfold env_values. destruct v; try by intros [= <-]. apply (mapM_result_Err _ (λ e, is_configuration_error e = true)). clear. intros [k [| | | | | |]] e'; cbn;
    try done; by intros [= <-].
Qed.

Lemma launch_of_Err path_text workspace path_of environ beside above request (w : Workspace W) e :
  well_formed (Ok request) →
  launch_of path_text workspace path_of environ beside above request w = Err e → is_configuration_error e = true.
Proof.
  intros (d & task & -> & Ht & Hin) H. unfold launch_of, py_index in H. rewrite Ht in H.
  cbn [of_option mbind result_bind as_object] in H.
  assert (∃ inputs, default (JObj []) (dict_get "inputs" task) = JObj inputs) as [inputs Hi]
    by (destruct (dict_get "inputs" task) as [v|]; [destruct Hin as [inputs ->]|]; by eexists).
  rewrite Hi in H. cbn [as_object mbind result_bind] in H. unfold of_option, raise_when in H.
  repeat first
    [ match type of H with Err _ = Err _ => injection H as <-; reflexivity end
    | discriminate
    | match type of H with
      | context [_tool_environment ?a ?b ?c ?x ?y] =>
          let E := fresh in destruct (_tool_environment a b c x y) eqn:E;
          [clear E|unfold _tool_environment in E;
             destruct (env_values _) eqn:?; cbn in E; [discriminate|injection E as <-];
             cbn in H; injection H as <-; by eapply env_values_Err]
      | context [match ?c with _ => _ end] => destruct c eqn:?
      end
    | progress cbn [mbind result_bind negb] in H ].
Qed.

(** A request the platform wrote is answered, whatever becomes of the tool, unless running
    it raises something that is no failure of the operating system. *)
Lemma innovus_answers exn_text path_text workspace path_of environ beside above request result_name w :
  (∀ args env w, match fst (exec args env w) with Ok _ => True | Err e => is_configuration_error e = true end) →
  well_formed request →
  ∃ code w', innovus_main float_repr exec now exn_text path_text workspace path_of environ beside above request
    result_name w = (Ok code, w').
Proof.
  intros Hexec Hreq. unfold innovus_main. cbn. unfold mbind, st_bind.
  destruct (clock now w) as [[started|e] w1] eqn:Hc; [|unfold clock in Hc; by destruct (now _)]. unfold catch.
  match goal with |- context [match ?c with _ => _ end] => destruct c as [[code|e] w2] eqn:E end; [by eauto|].
  assert (is_configuration_error e = true) as ->; [|unfold _write_result, clock; cbn; unfold mbind, st_bind;
    destruct (now _); by eauto].
  unfold lift in E. destruct request as [request|e']; [|by injection E as <- _].
  unfold innovus_run in E. cbn in E. unfold mbind, st_bind, lift in E.
  destruct (launch_of _ _ _ _ _ _ _ _) as [l|e'] eqn:Hl; [|injection E as <- _; by eapply launch_of_Err].
  specialize (Hexec (_command (la_module l) (la_tool l) (la_args l)) (la_environment l) w1).
  destruct (exec _ _ _) as [[c|e'] w3]; [|by injection E as <- _]. exfalso. revert E. clear.
  unfold _write_result, clock. cbn. unfold mbind, st_bind. destruct (bool_decide _), (_ =? 0)%Z; cbn;
    destruct (now _); done.
Qed.

(** ** The example adapter *)

Section example.
Context (exn_text : exn → string) (float_of_text : string → option spec_float) (py_sum fmean pstdev : list spec_float → result spec_float).

Lemma example_written result_name started payload code arts metrics w w' :
  started ≠ EmptyString → dict_get "status" payload = Some (JStr (status_text code)) →
  dict_get "exit_code" payload = Some (JInt code) →
  tuple_field "artifacts" payload = Ok ((λ a, artifact (fst a) (snd a)) <$> arts) → tuple_field "metrics" payload = Ok metrics →
  (field "failure" JNull payload = JNull ∨ ∃ f, field "failure" JNull payload = JObj f) →
  (∃ p, field "provenance" (JObj []) payload = JObj p) →
  forallb (λ k, bool_decide (k ∈ dc_names PluginResult_class)) (dict_keys payload) = true →
  (∀ a, a ∈ arts → is_Some (ws_files w !! snd a)) → (∀ m, m ∈ metrics → ∃ a, a ∈ arts ∧ read_from (snd a) m) →
  example_result float_repr now result_name started payload w = (Ok tt, w') → answered two_spaces result_name code w'.
Proof.
  intros Hst Hs Hc Ha Hm Hf Hp Hk Hex Hcite H. unfold example_result in H.
  apply bind_st_Ok in H as (ended & w1 & Hclock & H). apply clock_Ok in Hclock as [Hfiles Hend].
  apply modify_Ok in H as ->. match goal with |- context [dumps _ _ (JObj ?d)] => set (written := d) end.
  destruct (conforms_from (<[result_name := dumps float_repr two_spaces (JObj written)]> (ws_files w1)) written code
    started ended arts metrics) as [r Hr]; [..|by eapply answered_by]; try done.
  intros a Ha'%Hex. rewrite Hfiles. destruct (decide (result_name = snd a)) as [->|Hne];
    [rewrite lookup_insert_eq; eauto|by rewrite lookup_insert_ne].
Qed.

Lemma example_answered request result_name w code lines w' :
  example_main float_repr now exn_text float_of_text py_sum fmean pstdev request result_name w = (Ok (code, lines), w') →
  answered two_spaces result_name code w'.
Proof.
  unfold example_main. intros H. apply bind_st_Ok in H as (started & w1 & Hclock & H).
  apply clock_Ok in Hclock as [_ Hst]. apply bind_st_Ok in H as (records & w2 & Hr & H). apply lift_Ok in Hr as [_ ->].
  assert (∀ message l, (example_result float_repr now result_name started (invalid_input message);; mret (2%Z, l)) w1
    = (Ok (code, lines), w') → answered two_spaces result_name code w') as Hrefuse.
  { intros message l Hw. apply bind_st_Ok in Hw as ([] & w3 & Hw & Hret). apply mret_st_Ok in Hret as [[= -> _] ->].
    eapply (example_written _ _ _ _ []) in Hw; try done; [right; by eexists|by eexists|by intros a ?%not_elem_of_nil|
      by intros m ?%not_elem_of_nil]. }
  destruct records as [| | | | |[|r rs]|]; try by eapply Hrefuse.
  match type of H with context [match ?c with Ok _ => _ | Err _ => _ end] => destruct c as [[f values]|e] end;
    [|destruct (is_numeric_error e); [by eapply Hrefuse|done]].
  apply bind_st_Ok in H as (summary & w3 & Hsum & H). apply lift_Ok in Hsum as [_ ->].
  apply bind_st_Ok in H as (u1 & w4 & Hw4 & H). apply modify_Ok in Hw4 as ->.
  apply bind_st_Ok in H as (u2 & w5 & Hw5 & H). apply modify_Ok in Hw5 as ->.
  apply bind_st_Ok in H as ([] & w6 & Hw & H). apply mret_st_Ok in H as [[= -> _] ->].
  eapply (example_written _ _ _ _ [("summary", "summary.json"); ("log", "run.log")]) in Hw; try done.
  - by left.
  - by eexists.
  - apply Forall_forall. repeat constructor; simpl.
    + rewrite lookup_insert_ne, lookup_insert_eq by done. eauto.
    + rewrite lookup_insert_eq. eauto.
  - apply Forall_forall. repeat constructor; (exists ("summary", "summary.json"); split; [by left|by apply example_read]).
Qed.
End example.

(** ** The research toolkit *)

Lemma research_written result_name code failure w w' :
  write_result float_repr loads now result_name (status_text code) code failure w = (Ok tt, w') →
  (∀ f, failure = Some f → ∃ d, f = JObj d) → answered one_line result_name code w'.
Proof.
  intros H Hf. unfold write_result in H.
  apply bind_st_Ok in H as (started & w1 & Hc1 & H). apply clock_Ok in Hc1 as [_ Hst].
  apply bind_st_Ok in H as (ended & w2 & Hc2 & H). apply clock_Ok in Hc2 as [_ Hen].
  apply bind_st_Ok in H as (metrics & w3 & Hm & H). apply modify_Ok in H as ->.
  destruct (decide (code = 0%Z)) as [->|Hne].
  - change (status_text 0) with "succeeded" in *.
    match goal with |- context [dumps _ _ (JObj ?d)] => set (written := d) end. rewrite (bool_decide_true ("succeeded" = "succeeded")) in Hm by done.
    apply bind_st_Ok in Hm as (report & w4 & Hread & Hm). unfold read_text in Hread.
    destruct (ws_files w2 !! "report.json") as [content|] eqn:Hfile; [|done]. injection Hread as <- <-.
    apply bind_st_Ok in Hm as (v & w5 & Hv & Hm). apply lift_Ok in Hv as [_ ->].
    apply bind_st_Ok in Hm as (value & w6 & Hval & Hm). apply lift_Ok in Hval as [_ ->].
    apply mret_st_Ok in Hm as [-> ->].
    destruct (conforms_from (<[result_name := dumps float_repr one_line (JObj written)]> (ws_files w2)) written 0
      started ended [("report", "report.json")] [research_metric value]) as [r Hr]; [..|by eapply answered_by]; try done.
    + destruct failure as [f|]; [right; apply (Hf f eq_refl)|by left].
    + exists []. by destruct failure.
    + by destruct failure.
    + intros a ->%list_elem_of_singleton. cbn [snd].
      destruct (decide (result_name = "report.json")) as [->|Hn];
        [rewrite lookup_insert_eq|rewrite lookup_insert_ne by done]; eauto.
    + intros m ->%list_elem_of_singleton. exists ("report", "report.json"). split; [by left|apply research_read].
  - assert (status_text code = "failed") as Hs by (unfold status_text; by destruct (Z.eqb_spec code 0)).
    assert (metrics = [] ∧ w3 = w2) as [-> ->] by (rewrite Hs in Hm; by apply mret_st_Ok in Hm).
    rewrite Hs, (bool_decide_false ("failed" = "succeeded")) by done. match goal with |- context [dumps _ _ (JObj ?d)] => set (written := d) end.
    destruct (conforms_from (<[result_name := dumps float_repr one_line (JObj written)]> (ws_files w2)) written code
      started ended [] []) as [r Hr]; [..|by eapply answered_by]; try done.
    + by rewrite Hs.
    + by destruct failure.
    + destruct failure as [f|]; [right; apply (Hf f eq_refl)|by left].
    + exists []. by destruct failure.
    + by destruct failure.
    + by intros a ?%not_elem_of_nil.
    + by intros m ?%not_elem_of_nil.
Qed.

Lemma failed_with_answered result_name category c w code w' :
  cp_returncode c ≠ 0%Z → failed_with float_repr loads now result_name category c w = (Ok code, w') →
  answered one_line result_name code w'.
Proof.
  intros Hne H. unfold failed_with in H. apply bind_st_Ok in H as ([] & w1 & Hw & H).
  apply mret_st_Ok in H as [-> ->]. eapply (research_written _ (cp_returncode c)).
  - unfold status_text. apply Z.eqb_neq in Hne. rewrite Hne. exact Hw.
  - intros f [= <-]. by eexists.
Qed.

Lemma reported_answered result_name w code w' :
  (write_result float_repr loads now result_name "succeeded" 0 None;; mret 0%Z) w = (Ok code, w') →
  answered one_line result_name code w'.
Proof.
  intros H. apply bind_st_Ok in H as ([] & w1 & Hw & H). apply mret_st_Ok in H as [-> ->].
  by eapply (research_written _ 0) in Hw.
Qed.

(** One command of a sequence: a failure of the step is the answer. *)
Ltac next_step H :=
  let x := fresh "x" in let w := fresh "w" in
  lazymatch type of H with
  | (if negb (?c =? 0)%Z then _ else _) _ = _ =>
      destruct (Z.eqb_spec c 0); cbn [negb] in H; [|eapply failed_with_answered; eassumption]
  | _ => apply bind_st_Ok in H as (x & w & _ & H)
  end.

Lemma research_answered executable text_of request result_name w code w' :
  research_main float_repr loads exec now executable text_of request result_name w = (Ok code, w') →
  answered one_line result_name code w'.
Proof.
  unfold research_main. intros H. do 3 next_step H. case_match; [|case_match].
  - unfold run_script in H. do 5 next_step H. by eapply reported_answered.
  - unfold patch_benchmark in H. do 16 next_step H. by eapply reported_answered.
  - apply bind_st_Ok in H as ([] & w3 & Hw & H). apply mret_st_Ok in H as [-> ->].
    eapply (research_written _ 2) in Hw; [done|]. intros f [= <-]. by eexists.
Qed.
End adapters.


(** ** A tool that a signal ended *)

Definition demo_repr (f : spec_float) : string := "0.0".
Definition demo_now (n : nat) : string * nat := ("2026-01-01T00:00:00+00:00", S n).
Definition demo_exec (code : Z) (args : list string) (env : list (string * string)) (w : Workspace nat)
  : result Completed * Workspace nat := (Ok (MkCompleted code "Version: 21.1" EmptyString), w).
Definition demo_preflight : json :=
  JObj [("task", JObj [("inputs", JObj [("capability", JStr "preflight")])])].
Definition demo_innovus (code : Z) : result Z * Workspace nat :=
  innovus_main demo_repr (demo_exec code) demo_now (λ _, EmptyString) id [] (λ w p, w ++ [p]) [] (λ _, []) (λ _, [])
    (Ok demo_preflight) "result.json" (MkWorkspace ∅ 0%nat).


(** The adapter claims the code -9 of a tool that was killed; the platform sees the status
    247 and refuses the result. *)
Example killed_tool_refused :
  fst (demo_innovus (-9)) = Ok (-9)%Z ∧ exit_status (-9) = 247%Z ∧
  ∃ doc, ws_files (snd (demo_innovus (-9))) !! "result.json" = Some (dumps demo_repr two_spaces doc) ∧
    ∀ (read : string → option json) outcome t1 t2,
      read (dumps demo_repr two_spaces doc) = Some doc → undisturbed outcome → po_returncode outcome = 247%Z →
      _load_result read (Some (dumps demo_repr two_spaces doc)) outcome t1 t2 =
        Err (AdapterProtocolError "exit_code does not match the process").
Proof.
  assert (demo_innovus (-9) = (Ok (-9)%Z, snd (demo_innovus (-9)))) as E by (vm_compute; reflexivity).
  split; [by rewrite E|]. split; [done|].
  eapply innovus_answered in E as (doc & r & content & -> & Hf & _ & Hl); [|discriminate].
  exists doc. split; [exact Hf|]. intros read outcome t1 t2 Hread Hu Ho. by rewrite Hl.
Qed.

(** A record that is not a number in the sense of arithmetic is a number to [float]: the
    example adapter exits with 0 and a mean that the platform's store refuses. *)
Definition demo_float (text : string) : option spec_float :=
  if bool_decide (text = "nan") then Some S754_nan else None.
Definition demo_first (l : list spec_float) : result spec_float := of_option (ValueError "empty") (head l).
Definition nan_request : json :=
  JObj [("task", JObj [("inputs", JObj [("records", JList [JStr "nan"])])])].

Example nan_record_refused :
  (∃ lines, fst (example_main demo_repr demo_now (λ _, EmptyString) demo_float demo_first demo_first demo_first
                   nan_request "result.json" (MkWorkspace ∅ 0%nat)) = Ok (0%Z, lines)) ∧
  ∃ summary, example_summary demo_first demo_first demo_first S754_nan [] = Ok summary ∧
    ∃ d m, example_metric "mean" (get_null "mean" summary) = JObj d ∧
      attach_metric [("summary.json", "artifact-1")] d = Ok m ∧ is_Ok (Metric_validate m) = false.
Proof.
  split; [eexists; vm_compute; reflexivity|]. eexists. split; [reflexivity|]. eexists _, _.
  split; [reflexivity|]. split; vm_compute; reflexivity.
Qed.
