(* ===== verification/Assembly.v ===== *)
(** * gateway/bootstrap.py, worker.py and __main__.py: the kernel put together

    A process opens a state root: it migrates the database, loads the registry, looks
    for the protected evaluator, configures the runtime and, behind HTTP, opens the
    identity store.  [Disk] is what outlives the process; the host (paths, listings,
    files, processors) is the section's parameters, and stays as it is while the kernel
    is put together. *)

From stdpp Require Import gmap.
From S2P Require Import KernelApiProps Gateway Worker Migration.
Open Scope string_scope.
Open Scope list_scope.

Definition DEFAULT_WORKER_ID : string := "kernel".

Record KernelPaths := MkKernelPaths {
  kp_state_root : list string;
  kp_plugins_root : list string;
  kp_admissions_root : list string;
  kp_capacity_cpu_cores : option Z;
  kp_capacity_memory_bytes : option Z;
  kp_platform_fraction : spec_float;
  kp_input_roots : list (list string) }.

(** ** What is put together *)

Record StoreHandle := MkStoreHandle { sh_db_path : list string; sh_objects_root : list string }.
Record WorkflowRuntime := MkWorkflowRuntime {
  wr_config : RuntimeConfig;
  (* the evaluator's manifest and its pin *)
  wr_protected_evaluator : option (PluginManifest * EvaluatorPin) }.
Record Kernel := MkKernel {
  kn_store : StoreHandle;
  kn_registry : PluginRegistry;
  kn_runtime : WorkflowRuntime;
  kn_evaluator_error : option string }.
Record Api := MkApi {
  api_kernel : Kernel;
  api_identity : list string;
  api_allow_anonymous : bool;
  api_local_user_id : option string }.
Record RuntimeWorker := MkRuntimeWorker {
  rw_kernel : Kernel;
  rw_idle_seconds : Z;
  rw_batch : Z }.

(** The directories made here, the runtime's database, and identity.db. *)
Record Disk := MkDisk {
  dk_dirs : list (list string);
  dk_database : Database;
  dk_identity : IdentityDb }.

Definition in_accounts {A} (m : st IdentityDb A) : st Disk A :=
  λ d, let '(r, i) := m (dk_identity d) in (r, MkDisk (dk_dirs d) (dk_database d) i).

Definition path_text (p : list string) : string := "/" +:+ str_join "/" p.

Definition is_evaluation_error (e : exn) : bool := match e with EvaluationError _ => true | _ => false end.

(** [next(u["user_id"] for u in identity.list_users() if u["username"] == "local-user")] *)
Definition local_user_of (users : list dict) : result string :=
  match List.find (λ u, bool_decide (get_null "username" u = JStr "local-user")) users with
  | Some u => Ok (str_of (get_null "user_id" u))
  | None => Err (OtherError "StopIteration")
  end.

(** What [resolve_evaluator] reads of [registry.list()]. *)
Definition candidates (registry : PluginRegistry) : list (PluginManifest * bool) :=
  (λ p, (rp_manifest p, executable p)) <$> list_plugins registry.

(** [KernelPaths.of]; [host_path] is [Path(p).expanduser().resolve()]. *)
Definition KernelPaths_of (host_path : string → list string) (state_root plugins_root : string) (admissions_root : option string)
    (cpu memory : option Z) (fraction : spec_float) (input_roots : list string) : KernelPaths :=
  let state := host_path state_root in
  MkKernelPaths state (host_path plugins_root)
    (host_path (default (path_text (state ++ ["admissions"])) admissions_root))
    cpu memory fraction (host_path <$> input_roots).

Section assembly.
(* the directories of a plugin root with their manifests; [None] where there is no directory *)
Context (listing : list string → option (list (list string * list string))).
Context (file : list string → option string) (loads : string → option json).
Context (path_of : list string → string → list string).
Context (mkdir_fails connect_fails : list string → bool).
Context (sha256 : string → string) (float_repr : spec_float → string).
Context (host_cpus : option Z) (host_memory : Z) (generated_id : string).

(** [path.mkdir(parents=True, exist_ok=True)] *)
Definition make_directory (path : list string) : st Disk unit :=
  lift (raise_when (mkdir_fails path) (OtherError "OSError"));;
  modify (λ d, if bool_decide (path ∈ dk_dirs d) then d
               else MkDisk (path :: dk_dirs d) (dk_database d) (dk_identity d)).

Definition parent (path : list string) : list string := take (pred (length path)) path.

(** [sqlite3.connect] *)
Definition connect (path : list string) : st Disk unit :=
  lift (raise_when (connect_fails path) (OtherError "OperationalError")).

(** [RuntimeStore._initialise], nobody killing it *)
Definition open_database : st Disk unit :=
  λ d, let '(r, db) := opened None (dk_database d) in (r, MkDisk (dk_dirs d) db (dk_identity d)).

(** [RuntimeStore.__init__] *)
Definition RuntimeStore_init (db_path objects_root : list string) : st Disk StoreHandle :=
  make_directory (parent db_path);;
  connect db_path;;
  open_database;;
  mret (MkStoreHandle db_path objects_root).

(** [IdentityStore.__init__]: its schema is IF NOT EXISTS throughout. *)
Definition IdentityStore_init (path : list string) : st Disk unit :=
  make_directory (parent path);;
  connect path.

(** The configuration of a kernel: the defaults are those of [RuntimeConfig]. *)
Definition kernel_config (paths : KernelPaths) (worker_id : string) : result RuntimeConfig :=
  __post_init__ host_cpus host_memory (path_text (kp_state_root paths ++ ["runtime-workspaces"])) 30
    worker_id generated_id (kp_capacity_cpu_cores paths) (kp_capacity_memory_bytes paths)
    (kp_platform_fraction paths) 1 (Z.shiftl 6 30) (kp_input_roots paths).

Definition load_registry (paths : KernelPaths) : result PluginRegistry :=
  from_directory file loads path_of (listing (kp_plugins_root paths)) (Some (kp_admissions_root paths)).

(** [try: manifest = resolve_evaluator(registry) except EvaluationError]: the manifest, and
    what is said when there is none. *)
Definition find_evaluator (registry : PluginRegistry) : result (option PluginManifest * option string) :=
  match resolve_evaluator (candidates registry) None with
  | Ok m => Ok (Some m, None)
  | Err e => if is_evaluation_error e then Ok (None, Some (exn_text e)) else Err e
  end.

Definition make_evaluator (manifest : option PluginManifest) : result (option (PluginManifest * EvaluatorPin)) :=
  match manifest with
  | Some m => pin ← plugin_backed_evaluator sha256 float_repr m; Ok (Some (m, pin))
  | None => Ok None
  end.

(** [build_kernel_parts] *)
Definition build_kernel_parts (paths : KernelPaths) (worker_id : string) : st Disk Kernel :=
  lift (raise_when (bool_decide (listing (kp_plugins_root paths) = None)) (OtherError "FileNotFoundError"));;
  make_directory (kp_state_root paths);;
  store ← RuntimeStore_init (kp_state_root paths ++ ["runtime.db"]) (kp_state_root paths ++ ["runtime-objects"]);
  registry ← lift (load_registry paths);
  found ← lift (find_evaluator registry);
  evaluator ← lift (make_evaluator (fst found));
  config ← lift (kernel_config paths worker_id);
  make_directory (kp_state_root paths ++ ["runtime-workspaces"]);;
  mret (MkKernel store registry (MkWorkflowRuntime config evaluator) (snd found)).

(** [build_kernel]; [hex] and [now] are drawn for the account of [ensure_local_user]. *)
Definition build_kernel (paths : KernelPaths) (allow_anonymous : bool) (hex : string) (now : Z) : st Disk Api :=
  parts ← build_kernel_parts paths DEFAULT_WORKER_ID;
  let db := kp_state_root paths ++ ["identity.db"] in
  IdentityStore_init db;;
  local ← (if allow_anonymous then
             in_accounts (ensure_local_user hex now);;
             d ← gets id;
             i ← lift (local_user_of (list_users (dk_identity d)));
             mret (Some i)
           else mret None);
  mret (MkApi parts db allow_anonymous local).

(** [worker.main] up to the worker it serves or runs once: [given] is --worker-id,
    [host_and_pid] what it defaults to. *)
Definition build_worker (paths : KernelPaths) (given : option string) (host_and_pid : string) (idle_seconds batch : Z)
    : st Disk RuntimeWorker :=
  let worker_id := match given with
                   | Some i => if str_empty i then host_and_pid else i
                   | None => host_and_pid
                   end in
  parts ← build_kernel_parts paths worker_id;
  lift (RuntimeWorker_init batch idle_seconds);;
  mret (MkRuntimeWorker parts idle_seconds batch).

(** [main] of the gateway up to the server: [config] is the document of --config, the
    applications are read before anything is opened. *)
Definition gateway_main (config : option dict) (paths : KernelPaths) (no_auth : bool) (hex : string) (now : Z)
    : st Disk (list AppRegistration * Api) :=
  apps ← lift (match config with Some payload => from_mapping payload | None => Ok [] end);
  kernel ← build_kernel paths no_auth hex now;
  mret (apps, kernel).

(** ** Opening a database twice *)

(** The row of the version stays where it is. *)
Definition keeps_version (c c' : Conn) : Prop :=
  is_Some (version_row (cn_db c)) → is_Some (version_row (cn_db c')).
#[local] Instance keeps_version_preorder : PreOrder keeps_version.
Proof. split; [by intros c H|]. intros c1 c2 c3 H1 H2 H. by apply H2, H1. Qed.

Definition spares_version (s : Statement) : bool :=
  match s with
  | CreateTable _ _ | CreateIndex _ _ _ _ => true
  | UpdateMeta key _ => bool_decide (key = "schema_version")
  | AddColumn t _ _ | CopyRows t _ _ _ | DropTable t => negb (bool_decide (t = meta_table))
  | RenameTable t to => negb (bool_decide (t = meta_table)) && negb (bool_decide (to = meta_table))
  | InsertMeta _ _ => false
  end.

Lemma version_row_ne db t tb : t ≠ meta_table → version_row (put_table t tb db) = version_row db.
Proof. intros H. unfold version_row, put_table. cbn [db_tables]. by rewrite lookup_insert_ne. Qed.

Lemma set_meta_finds key value tb row :
  fetchone (is_meta key) (tb_rows tb) = Some row →
  fetchone (is_meta key) (tb_rows (set_meta key value tb)) = Some (insert "value" (JStr value) row).
Proof.
  unfold set_meta, upd, fetchone. cbn [tb_rows]. induction (tb_rows tb) as [|r rows IH]; cbn; [done|].
  destruct (is_meta key r) eqn:E.
  - intros [= <-]. assert (is_meta key (insert "value" (JStr value) r) = true) as ->; [|done].
    unfold is_meta, cell in *. by rewrite lookup_insert_ne.
  - by rewrite E.
Qed.

(** The ways one statement succeeds. *)
Local Ltac statement := repeat (progress (try case_match; invert_ok; simplify_eq)); bool_simpl.

Lemma exec_spares s db db' : spares_version s = true → exec s db = Ok db' →
  is_Some (version_row db) → is_Some (version_row db').
Proof.
  unfold exec, operational. destruct s as [t columns|i t columns u|t c v|t to|into columns from values|t|k v|k v];
    cbn; intros Hs He [row Hrow]; bool_simpl; try done.
  - destruct (db_tables db !! t) eqn:Et; injection He as <-; [by eexists|]. rewrite version_row_ne; [by eexists|].
    intros ->. unfold version_row in Hrow. by rewrite Et in Hrow.
  - by statement; eexists.
  - statement. rewrite version_row_ne by done. by eexists.
  - statement. exists row. unfold version_row in *. cbn [db_tables]. by rewrite lookup_insert_ne, lookup_delete_ne.
  - statement. rewrite version_row_ne by done. by eexists.
  - statement. exists row. unfold version_row in *. cbn [db_tables]. by rewrite lookup_delete_ne.
  - unfold version_row, the_table, put_table in *. statement. rewrite H in Hrow. cbn [db_tables].
    rewrite lookup_insert_eq. eexists. by apply set_meta_finds.
Qed.

Lemma keeps_execute s : spares_version s = true → follows keeps_version (execute s).
Proof.
  intros Hs c r c'. unfold execute, keeps_version. destruct (cn_left c) as [[|n]|]; [by intros [= _ <-]| |];
    (destruct (exec s (cn_db c)) as [db|e] eqn:E; intros [= _ <-]; [by apply exec_spares with s|done]).
Qed.
Lemma keeps_executescript l : forallb spares_version l = true → follows keeps_version (executescript l).
Proof. intros H. apply follows_iterM; [apply _|]. intros s Hs. apply keeps_execute. rewrite forallb_elem in H. by apply H. Qed.
Lemma keeps_when b (m : st Conn unit) : follows keeps_version m → follows keeps_version (only_when b m).
Proof. intros H. destruct b; [done|by apply follows_pure; [apply _|]]. Qed.
Lemma keeps_gets {A} (f : Conn → A) : follows keeps_version (gets f).
Proof. by apply follows_pure; [apply _|]. Qed.
Lemma keeps_add t c v : t ≠ meta_table → follows keeps_version (add_missing t c v).
Proof.
  intros Ht. apply follows_bind; [apply _|apply keeps_gets|]. intros b.
  destruct (negb b); [apply keeps_execute; cbn; by rewrite bool_decide_false|by apply follows_pure; [apply _|]].
Qed.

(** A database that opens as it is. *)
Definition current (db : Database) : Prop := ∃ row, version_row db = Some row ∧ _schema_version (cell "value" row) = Ok RUNTIME_SCHEMA_VERSION.

Lemma current_opens db : current db → opened None db = (Ok tt, db).
Proof.
  intros (row & Hrow & Hv). unfold opened, _initialise, mbind, st_bind, gets, lift. cbn [cn_db].
  assert (is_Some (db_tables db !! meta_table)) as Hm.
  { unfold version_row in Hrow. destruct (db_tables db !! meta_table); [by eexists|done]. }
  rewrite bool_decide_true by done. cbn [negb cn_db]. rewrite Hrow. cbn [of_option]. by rewrite Hv.
Qed.

(** A program of the connection that ends with the version written. *)
Definition ends_current (m : st Conn unit) : Prop :=
  ∀ c c', is_Some (version_row (cn_db c)) → m c = (Ok tt, c') → current (cn_db c').

Lemma ends_then (m m2 : st Conn unit) : follows keeps_version m → ends_current m2 → ends_current (m;; m2).
Proof.
  intros Hm H2 c c' Hc. rewrite bind_run. destruct (m c) as [[[]|e] c1] eqn:E; [|done]. apply H2. by eapply Hm.
Qed.

Lemma ends_update : ends_current (execute (UpdateMeta "schema_version" version_text)).
Proof.
  intros c c' [row Hrow]. unfold execute. destruct (cn_left c) as [[|n]|]; [done| |];
    (unfold exec, the_table, version_row in *; destruct (db_tables (cn_db c) !! meta_table) as [tb|] eqn:Et; [|done];
     cbn in Hrow; intros [= <-]; exists (insert "value" (JStr version_text) row); unfold version_row, put_table;
     cbn [db_tables cn_db]; rewrite lookup_insert_eq; split; [by apply set_meta_finds|]; unfold cell; rewrite lookup_insert_eq; vm_compute; reflexivity).
Qed.

#[local] Create HintDb keeps.
#[local] Hint Extern 1 (_ = true) => vm_compute; reflexivity : keeps.
#[local] Hint Extern 1 (_ ≠ _) => done : keeps.
#[local] Hint Resolve keeps_when keeps_execute keeps_executescript keeps_gets keeps_add : keeps.
Lemma ends_migrate v : ends_current (_migrate v).
Proof.
  unfold _migrate. apply ends_then; [by apply follows_pure; [apply _|]|].
  repeat (apply ends_then; [apply keeps_when|]); [..|apply ends_update]; auto with keeps.
  all: try (apply follows_iterM; [apply _|]; by auto with keeps).
  all: apply follows_bind; [apply _|by auto with keeps|]; intros _.
  - apply follows_bind; [apply _|apply keeps_gets|]. auto with keeps.
  - apply follows_iterM; [apply _|]. auto with keeps.
Qed.

Lemma insert_current c c' : execute (InsertMeta "schema_version" version_text) c = (Ok tt, c') → current (cn_db c').
Proof.
  unfold execute. destruct (cn_left c) as [[|n]|]; [done| |];
    (unfold exec, the_table; destruct (db_tables (cn_db c) !! meta_table) as [tb|]; [|done]; cbn;
     destruct (has_row _ _) eqn:Er; [done|]; intros [= <-];
     exists (<["key" := JStr "schema_version"]> {["value" := JStr version_text]}); unfold version_row, put_table;
     cbn [db_tables cn_db]; rewrite lookup_insert_eq; split; [|vm_compute; reflexivity];
     cbn [tb_rows mbind option_bind]; rewrite fetchone_ins; by rewrite (proj2 (fetchone_None _ _) (proj1 (has_row_false _ _) Er))).
Qed.

Lemma opened_current db db' : opened None db = (Ok tt, db') → current db'.
Proof.
  unfold opened. destruct (_initialise (MkConn db None)) as [[[]|e] c] eqn:E; [|done]. intros [= <-].
  unfold _initialise in E. rewrite bind_run in E. cbn [gets cn_db] in E. destruct (negb _).
  - rewrite bind_run in E. destruct (executescript _DDL _) as [[[]|e] c1]; [|done]. by eapply insert_current.
  - rewrite bind_run in E. cbn [gets cn_db] in E. rewrite !bind_run in E. destruct (version_row db) as [row|] eqn:Hrow; [|done].
    cbn [lift of_option] in E. rewrite bind_run in E. destruct (_schema_version _) as [v|] eqn:Ev; [|done]. cbn [lift] in E.
    destruct (Z.eqb_spec v RUNTIME_SCHEMA_VERSION) as [->|Hv].
    + injection E as <-. by exists row.
    + destruct (_ <? v)%Z; [done|]. eapply (ends_migrate v); [|exact E]. cbn [cn_db]. by eexists.
Qed.

(** ** The evaluator *)

(** A plugin that may be the protected evaluator. *)
Definition judges (p : RegisteredPlugin) : bool :=
  declares PROTECTED_EVALUATOR_CAPABILITY (rp_manifest p) && executable p.

Definition no_evaluator : string := exn_text (EvaluationError "exactly one evaluator").

Lemma filter_candidates l :
  fst <$> List.filter (λ p : PluginManifest * bool,
      declares PROTECTED_EVALUATOR_CAPABILITY (fst p) && snd p && true) ((λ p, (rp_manifest p, executable p)) <$> l)
  = rp_manifest <$> List.filter judges l.
Proof.
  induction l as [|p l IH]; [done|]. cbn [fmap list_fmap List.filter fst snd]. unfold judges at 1. rewrite andb_true_r.
  destruct (_ && _); [|done]. cbn [fmap list_fmap fst]. by rewrite IH.
Qed.

Lemma find_evaluator_spec registry : find_evaluator registry =
  match List.filter judges (list_plugins registry) with
  | [p] => Ok (Some (rp_manifest p), None)
  | _ => Ok (None, Some no_evaluator)
  end.
Proof.
  unfold find_evaluator, resolve_evaluator, candidates. rewrite filter_candidates.
  by destruct (List.filter judges _) as [|p [|q l]].
Qed.

(** The plugins of the registry that may judge: none, one, or more. *)
Lemma judging_one registry p : List.filter judges (list_plugins registry) = [p] →
  ∀ q, (q ∈ registry ∧ judges q = true) ↔ q = p.
Proof.
  intros H q. assert (q ∈ List.filter judges (list_plugins registry) ↔ q = p) as <- by (rewrite H; apply list_elem_of_singleton).
  unfold list_plugins. rewrite list_elem_of_In, filter_In, <-list_elem_of_In, merge_sort_Permutation. done.
Qed.
Lemma judging_many registry : length (List.filter judges (list_plugins registry)) = length (List.filter judges registry).
Proof.
  apply Permutation_length. unfold list_plugins. generalize (merge_sort_Permutation plugin_le registry).
  induction 1; simpl; repeat case_match; eauto using Permutation.
Qed.

(** The pin of an evaluator. *)
Definition pin_of (m : PluginManifest) : EvaluatorPin :=
  MkEvaluatorPin (pm_plugin_id m) (pm_plugin_version m)
    (JStr (sha256 (dumps float_repr sorted_keys (JObj (PluginManifest_primitive m))))).

(** A manifest the registry accepted can always be pinned. *)
Lemma make_evaluator_spec m : (∀ s, SHA256_HEX (sha256 s) = true) → PluginManifest_validate m = Ok tt →
  declares PROTECTED_EVALUATOR_CAPABILITY m = true → make_evaluator (Some m) = Ok (Some (m, pin_of m)).
Proof.
  intros Hsha Hm Hd. unfold make_evaluator, plugin_backed_evaluator, EvaluatorPin_of, PluginManifest_to_dict.
  rewrite Hm, Hd. cbn. unfold EvaluatorPin_validate, PluginManifest_validate in *. invert_ok. cbn.
  match goal with H : validate_identifier "plugin_id" _ _ = _ |- _ => rewrite H end.
  match goal with H : validate_identifier "plugin_version" _ _ = _ |- _ => rewrite H end. cbn. by rewrite Hsha.
Qed.

(** ** One start *)

Definition with_dir (path : list string) (d : Disk) : Disk :=
  if bool_decide (path ∈ dk_dirs d) then d else MkDisk (path :: dk_dirs d) (dk_database d) (dk_identity d).

Lemma make_directory_run path d : make_directory path d =
  if mkdir_fails path then (Err (OtherError "OSError"), d) else (Ok tt, with_dir path d).
Proof. unfold make_directory. rewrite bind_run. by destruct (mkdir_fails path). Qed.

Lemma parent_app path name : parent (path ++ [name]) = path.
Proof.
  unfold parent. rewrite length_app. cbn. replace (pred (length path + 1)) with (length path) by lia. apply take_app_length.
Qed.

Lemma with_dir_database path d : dk_database (with_dir path d) = dk_database d.
Proof. unfold with_dir. by destruct (bool_decide _). Qed.
Lemma with_dir_identity path d : dk_identity (with_dir path d) = dk_identity d.
Proof. unfold with_dir. by destruct (bool_decide _). Qed.
Lemma with_dir_has path d p : p ∈ dk_dirs (with_dir path d) ↔ p = path ∨ p ∈ dk_dirs d.
Proof.
  unfold with_dir. destruct (bool_decide_reflect (path ∈ dk_dirs d)); cbn; rewrite ?elem_of_cons; [|done].
  split; [by right|]. by intros [->|].
Qed.
Lemma with_dir_there path d : path ∈ dk_dirs d → with_dir path d = d.
Proof. intros H. unfold with_dir. by rewrite bool_decide_true. Qed.

Lemma open_database_run d : open_database d =
  (fst (opened None (dk_database d)), MkDisk (dk_dirs d) (snd (opened None (dk_database d))) (dk_identity d)).
Proof. unfold open_database. by destruct (opened None (dk_database d)). Qed.

(** Why a kernel is not put together. *)
Definition refused (paths : KernelPaths) (worker_id : string) (d : Disk) (e : exn) : Prop :=
  (listing (kp_plugins_root paths) = None ∧ e = OtherError "FileNotFoundError") ∨
  (∃ p, p ∈ [kp_state_root paths; kp_state_root paths ++ ["runtime-workspaces"]] ∧ mkdir_fails p = true ∧ e = OtherError "OSError") ∨
  (connect_fails (kp_state_root paths ++ ["runtime.db"]) = true ∧ e = OtherError "OperationalError") ∨
  fst (opened None (dk_database d)) = Err e ∨ load_registry paths = Err e ∨ kernel_config paths worker_id = Err e.

(** Why its evaluator is the one it is, or there is none. *)
Definition evaluator_of (registry : PluginRegistry) (evaluator : option (PluginManifest * EvaluatorPin))
    (said : option string) : Prop :=
  match evaluator with
  | Some (m, pin) => said = None ∧ pin = pin_of m ∧ ∃ p, rp_manifest p = m ∧ ∀ q, (q ∈ registry ∧ judges q = true) ↔ q = p
  | None => said = Some no_evaluator ∧ length (List.filter judges registry) ≠ 1%nat
  end.

Lemma evaluator_found registry : (∀ s, SHA256_HEX (sha256 s) = true) →
  (∀ p, p ∈ registry → PluginManifest_validate (rp_manifest p) = Ok tt) →
  ∃ found evaluator, find_evaluator registry = Ok found ∧ make_evaluator (fst found) = Ok evaluator ∧
    evaluator_of registry evaluator (snd found).
Proof.
  intros Hsha Hvalid. rewrite find_evaluator_spec. pose proof (judging_many registry) as Hlen.
  destruct (List.filter judges (list_plugins registry)) as [|p [|q l]] eqn:E;
    [by eexists _, None; split_and!; [done..|cbn; rewrite <-Hlen]| |by eexists _, None; split_and!; [done..|cbn; rewrite <-Hlen]].
  pose proof (judging_one _ _ E) as Hp. destruct (proj2 (Hp p) eq_refl) as [Hin Hj]. unfold judges in Hj. bool_simpl.
  eexists _, _. split; [done|]. split; [apply make_evaluator_spec; auto|]. split_and!; [done..|]. by exists p.
Qed.

Definition after_start (paths : KernelPaths) (d : Disk) : Disk :=
  with_dir (kp_state_root paths ++ ["runtime-workspaces"])
    (MkDisk (dk_dirs (with_dir (kp_state_root paths) d)) (snd (opened None (dk_database d))) (dk_identity d)).

Lemma build_kernel_parts_run paths worker_id d : (∀ s, SHA256_HEX (sha256 s) = true) →
  let '(r, d') := build_kernel_parts paths worker_id d in
  match r with
  | Ok k =>
      (listing (kp_plugins_root paths) ≠ None ∧ (∀ e, ¬ refused paths worker_id d e)) ∧ d' = after_start paths d ∧
      kn_store k = MkStoreHandle (kp_state_root paths ++ ["runtime.db"]) (kp_state_root paths ++ ["runtime-objects"]) ∧
      load_registry paths = Ok (kn_registry k) ∧ kernel_config paths worker_id = Ok (wr_config (kn_runtime k)) ∧
      evaluator_of (kn_registry k) (wr_protected_evaluator (kn_runtime k)) (kn_evaluator_error k) ∧
      (found ← find_evaluator (kn_registry k); evaluator ← make_evaluator (fst found); Ok (evaluator, snd found))
        = Ok (wr_protected_evaluator (kn_runtime k), kn_evaluator_error k)
  | Err e => refused paths worker_id d e ∧ dk_identity d' = dk_identity d ∧
      dk_database d' ∈ [dk_database d; snd (opened None (dk_database d))]
  end.
Proof.
  intros Hsha. unfold build_kernel_parts, refused. rewrite bind_run.
  destruct (listing _) as [dirs|] eqn:El; cbn [lift raise_when bool_decide]; 
  rewrite ?bool_decide_true, ?bool_decide_false by done; cbn [lift raise_when].
  2:{ cbn. split_and!; [tauto|done|by left]. }
  rewrite bind_run, make_directory_run.
  destruct (mkdir_fails (kp_state_root paths)) eqn:Em.
  { split_and!; [|done|by left]. right; left. eexists. split; [by left|]. done. }
  rewrite bind_run. unfold RuntimeStore_init at 1. rewrite bind_run, make_directory_run, parent_app, Em, bind_run.
  unfold connect at 1. destruct (connect_fails _) eqn:Ec; cbn [lift raise_when].
  { rewrite !with_dir_database, !with_dir_identity. split_and!; [by do 2 right; left|done|by left]. }
  rewrite bind_run, open_database_run, (with_dir_there _ (with_dir _ d)), with_dir_database, with_dir_identity
    by (apply with_dir_has; by left).
  destruct (opened None (dk_database d)) as [[[]|e] db] eqn:Eo; cbn [fst snd mret st_ret dk_identity dk_database].
  2:{ split_and!; [by do 3 right; left|done|by right; left]. }
  rewrite bind_run. cbn [lift]. destruct (load_registry paths) as [registry|e] eqn:Er.
  2:{ split_and!; [by do 4 right; left|done|by right; left]. }
  destruct (evaluator_found registry Hsha) as (found & evaluator & Hf & Hm & He).
  { intros p Hp. unfold load_registry in Er. apply from_directory_Ok in Er as [Hr _]. by destruct (Hr p Hp) as (? & _ & []). }
  rewrite bind_run, Hf. cbn [lift]. rewrite bind_run, Hm. cbn [lift]. rewrite bind_run.
  destruct (kernel_config paths worker_id) as [config|e] eqn:Ek; cbn [lift].
  2:{ split_and!; [by do 5 right|done|by right; left]. }
  rewrite bind_run, make_directory_run. destruct (mkdir_fails (_ ++ ["runtime-workspaces"])) eqn:Ew.
  { split_and!; [|done|by right; left]. right; left. eexists. split; [by right; left|]. done. }
  split_and!; try done.
  2: unfold after_start; by rewrite Eo.
  2: cbn [kn_registry kn_runtime wr_protected_evaluator kn_evaluator_error]; rewrite Hf; cbn [mbind result_bind]; by rewrite Hm.
  intros e [[H _]|[[q (Hq & Hmk & _)]|[[H _]|[H|[H|H]]]]]; try done.
  apply elem_of_cons in Hq as [->| ->%list_elem_of_singleton]; congruence.
Qed.

(** C14. With a hash that gives 64 hexadecimal digits, a kernel is put together
    exactly when nothing refuses it: the plugin root is a directory, the state
    directories can be made, the database connects and opens, the registry loads and
    the capacities are valid. It then has the registry of that directory and that
    configuration, and its evaluator is the one admitted plugin that declares the
    capability, pinned to its manifest; where there is none or more than one, that is
    reported and the kernel starts without one. Accounts are untouched, and a second
    start finds the same kernel and changes nothing. *)
Theorem kernel_assembled paths worker_id d : (∀ s, SHA256_HEX (sha256 s) = true) →
  let '(r, d') := build_kernel_parts paths worker_id d in
  dk_identity d' = dk_identity d ∧
  match r with
  | Ok k =>
      (∀ e, ¬ refused paths worker_id d e) ∧
      opened None (dk_database d) = (Ok tt, dk_database d') ∧
      kp_state_root paths ∈ dk_dirs d' ∧
      kn_store k = MkStoreHandle (kp_state_root paths ++ ["runtime.db"]) (kp_state_root paths ++ ["runtime-objects"]) ∧
      load_registry paths = Ok (kn_registry k) ∧ kernel_config paths worker_id = Ok (wr_config (kn_runtime k)) ∧
      evaluator_of (kn_registry k) (wr_protected_evaluator (kn_runtime k)) (kn_evaluator_error k) ∧
      (* a second start finds the same kernel and changes nothing *)
      build_kernel_parts paths worker_id d' = (Ok k, d')
  | Err e => refused paths worker_id d e ∧ dk_database d' ∈ [dk_database d; snd (opened None (dk_database d))]
  end.
Proof.
  intros Hsha. pose proof (build_kernel_parts_run paths worker_id d Hsha) as H.
  destruct (build_kernel_parts paths worker_id d) as [[k|e] d']; [|tauto].
  destruct H as ([Hl Hno] & Hd & Hs & Hr & Hc & He & Hev).
  assert (opened None (dk_database d) = (Ok tt, snd (opened None (dk_database d)))) as Ho.
  { destruct (opened None (dk_database d)) as [[[]|e] db] eqn:E; [done|]. destruct (Hno e). unfold refused. rewrite E. by do 3 right; left. }
  assert (dk_database d' = snd (opened None (dk_database d))) as Hdb by by rewrite Hd; unfold after_start; rewrite with_dir_database.
  assert (kp_state_root paths ∈ dk_dirs d') as Hdir.
  { rewrite Hd. unfold after_start. apply with_dir_has. right. apply with_dir_has. by left. }
  rewrite Hdb. split; [rewrite Hd; unfold after_start; by rewrite with_dir_identity|].
  split_and!; try done. pose proof (build_kernel_parts_run paths worker_id d' Hsha) as H.
  assert (opened None (dk_database d') = (Ok tt, dk_database d')) as Ho' by (rewrite Hdb; by eapply current_opens, opened_current).
  destruct (build_kernel_parts paths worker_id d') as [[k'|e] d''].
  - destruct H as (_ & -> & Hs' & Hr' & Hc' & _ & Hev'). f_equal.
    + rewrite Hr in Hr'. injection Hr' as Hr'. rewrite Hc in Hc'. injection Hc' as Hc'. rewrite <-Hr', Hev in Hev'.
      injection Hev' as Hv Hw. f_equal. destruct k' as [? ? [? ?] ?], k as [? ? [? ?] ?]. cbn in *. by subst.
    + unfold after_start. rewrite Ho'. cbn [snd]. rewrite (with_dir_there (kp_state_root paths)) by done.
      rewrite with_dir_there by (rewrite Hd; unfold after_start; cbn [dk_dirs]; apply with_dir_has; by left). by destruct d'.
  - destruct H as [H _]. destruct (Hno e). revert H. unfold refused. rewrite Ho, Ho'. tauto.
Qed.
End assembly.

(** ** A root of version 2 with one evaluator *)

Definition demo_judge_payload : json :=
  JObj [("plugin_id", JStr "judge"); ("plugin_version", JStr "1.0"); ("adapter_entry", JList [JStr "./judge.py"]);
        ("capabilities", JList [JStr PROTECTED_EVALUATOR_CAPABILITY]); ("supported_arch", JList [JStr "x86_64"]);
        ("schema_version", JInt SCHEMA_VERSION)].
Definition demo_judge_files (path : list string) : option string :=
  if bool_decide (path = ["plugins"; "judge"; "judge.plugin.json"]) then Some "manifest"
  else if bool_decide (path = ["admissions"; "judge.json"]) then Some "record" else None.
Definition demo_judge_loads (text : string) : option json :=
  if bool_decide (text = "record") then Some demo_record else Some demo_judge_payload.
Definition demo_paths : KernelPaths :=
  MkKernelPaths ["state"] ["plugins"] ["admissions"] (Some 4%Z) (Some (2 ^ 34)%Z) (float_of_Z 1) [].
Definition demo_digest (s : string) : string := "0000000000000000000000000000000000000000000000000000000000000000".
Definition demo_start : st Disk Kernel :=
  build_kernel_parts (λ _, Some [(["plugins"; "judge"], ["judge.plugin.json"])]) demo_judge_files demo_judge_loads path_resolve
    (λ _, false) (λ _, false) demo_digest (λ _, EmptyString) None 0 "host-1" demo_paths DEFAULT_WORKER_ID.
Definition demo_disk : Disk := MkDisk [] demo_root empty_identity.

Lemma kernel_assembled_witness :
  ∃ k d', demo_start demo_disk = (Ok k, d') ∧ kn_evaluator_error k = None ∧ demo_start d' = (Ok k, d').
Proof.
  assert (∃ k d', demo_start demo_disk = (Ok k, d') ∧ kn_evaluator_error k = None) as (k & d' & E & He)
    by (eexists _, _; vm_compute; split; reflexivity).
  exists k, d'. split; [exact E|]. split; [exact He|].
  pose proof (kernel_assembled (λ _, Some [(["plugins"; "judge"], ["judge.plugin.json"])]) demo_judge_files demo_judge_loads
    path_resolve (λ _, false) (λ _, false) demo_digest (λ _, EmptyString) None 0 "host-1" demo_paths DEFAULT_WORKER_ID
    demo_disk (λ _, eq_refl)) as H.
  change (build_kernel_parts _ _ _ _ _ _ _ _ _ _ _ demo_paths DEFAULT_WORKER_ID) with demo_start in H.
  rewrite E in H. apply H.
Defined.

(** Names are compared without case where accounts are made and with it where the local user is
    looked for: after somebody registered Local-User, no process starts without authentication. *)
Example other_case_stops_the_kernel :
  let s := snd (Identity.register id (λ p _ _, p) "Local-User" "a long password" "salt" "1" 0 ("token", "2", 0%Z) empty_identity) in
  length (id_users s) = 1%nat ∧ ensure_local_user "3" 1 s = (Ok false, s) ∧
  local_user_of (list_users s) = Err (OtherError "StopIteration").
Proof. vm_compute. done. Qed.
